(* ===== verification/_CoqProject ===== *)
-Q . S2P
Prelude.v
Bytes.v
Frame.v
Heap.v
SpinLock.v
SmpTest.v
Rings.v
Vfs.v
Ramfs.v
FdTable.v
Mem.v
Mmio.v
Paging.v
AddressSpace.v
KernelMap.v
Usercopy.v
Elf.v
Task.v
Sched.v
Process.v
Lifecycle.v
Switch.v
Ahci.v
Ide.v
Bcache.v
Fat32.v
Volume.v
Syscall.v
LinuxCompat.v
Zohfs.v
ZohVolume.v
ZohFiles.v
ZohFormat.v
Gpt.v
Ext2.v
E820.v
Gdt.v
Boot.v
Apic.v
Acpi.v
Smp.v
Framebuffer.v
Console.v
Startup.v
Isolation.v
Keyboard.v
Shell.v
Diagnostics.v
Traps.v
Cpu.v
Programs.v
SelfTest.v
Devices.v
