(* ===== verification/Prelude.v ===== *)
(** * Zohara OS: a verification development

    Zohara OS (src/src) is a small operating system kernel in Rust for x86_64:
    a frame allocator and page tables, a kernel heap, tasks under a timer-driven
    round-robin scheduler, ELF programs in user mode with their own address
    spaces, system calls through interrupt 0x80, several file systems over an
    IDE disk with a buffer cache, a shell on the serial line, and a console on
    the frame buffer.  This library translates that code into executable
    definitions and proves what the parts promise.

    ** Conventions

    Machine integers are [Z] with their wrap-around written out ([u8], [u16],
    [u32], [u64] below); arithmetic is that of the release build, so it wraps
    and does not panic on overflow.  A function that can fail to return is in
    the monad [outcome]: a panic, a halt, an endless loop and undefined
    behaviour are different values of it.  A Rust [Result] is [result], and
    functions that change state take and return it; [let?] is the [?] operator
    on such functions.  Text and names are lists of bytes or code points.
    Messages that are only printed are left out unless a file says otherwise.
    Physical memory is a finite map of bytes (Mem); where the code runs with
    page tables loaded, a pointer is resolved by the processor's 4-level walk
    ([virt_to_phys], [mmu_walk]).  Loads of more than one byte need not be
    aligned, as on the processor.  The walk takes the no-execute bit as
    enabled (EFER.NXE); Boot states what the boot code leaves of that.
    Kernel theorems after start-up take the kernel's tables as [paging_init]
    makes them ([kernel_ready]).

    Loops without a bound in the source take fuel.  Where the fuel is computed
    in the definition (the length of a buffer, the number of clusters or
    frames, the size of a table) it is enough for every run, because each round
    consumes one unit of the bounding quantity; running out is [Hang], and the
    theorems state that the function returns.  Loops that do not end on a
    damaged disk (circular cluster chains in [create_file_entry] and
    [delete_file_entry]) and the two wait loops of a single processor on a lock
    take the fuel from the caller, or are [Hang].  A user program runs for a
    number of instructions that the caller gives ([run] in Cpu); the theorems
    state a number that is enough.

    Parameters stand for what is outside the source: the address of the task
    table ([TASKS_ADDR]), of the version string ([VERSION_PTR]), of buffers on
    the heap or the kernel stack ([ELF_BASE], [KBUF], [PATH_BUF]), of the
    interrupt handlers, the values [mb_magic] and [mb_info] of the boot loader,
    and the bytes behind a structure on the stack ([tail] in Zohfs).  The IDE
    drive in programmed-I/O mode is a state machine in Ide ([drive]).  Devices
    behind memory-mapped registers, the AHCI controller and the local APIC, are
    any instance of the class [Device] of Mmio, which answers reads and sees
    writes; polling loops have their bounds from the source, so that their
    theorems hold for every device.  The addresses of the boot code's labels
    are a record ([image] in Boot), and the loader's registers and memory are
    arbitrary.

    ** The files

    - Prelude, Bytes, Mem: integers, outcomes, lists by [Z] index, numbers in
      byte buffers, physical memory.
    - Frame (frame.rs): the bitmap allocator; it implements a set of free
      frames, and the interface [FrameAllocator] is what the others use.
    - Heap (allocator.rs, heap.rs): the bump allocator with free lists; live
      blocks never overlap.
    - SpinLock (spinlock.rs), SmpTest (smp_test.rs): the ticket lock as a
      transition system over atomic steps of any number of threads; it refines
      a first-come-first-served queue.
    - Rings (events.rs, workqueue.rs, dmesg.rs): the event and work queues
      refine bounded queues; the message log keeps the most recent bytes.
    - Paging, AddressSpace (arch/x86_64/paging.rs, paging.rs): building, reading
      and freeing page tables, against the processor's walk through a [view] of
      what the tables map.
    - Usercopy (usercopy.rs): copies to and from user memory, checked page by
      page.
    - Elf (elf.rs, elf_builder.rs): the parser agrees with a declarative
      description of accepted images; what the builder makes parses back.
    - Task, Sched (task.rs, timer.rs): the task table, the timer tick, task
      creation and exit; the scheduler's invariant and fairness.
    - Process, Lifecycle (process.rs, main.rs): from a program to a task whose
      tables hold its bytes, and back to the same free frames.
    - Switch (arch/x86_64/mod.rs): the timer stub, which saves and restores the
      registers around the scheduler.
    - Isolation (main.rs, with Task, Process and Paging): all tasks together,
      each with the frames it owns; the loops of the start-up test.
    - Syscall (syscall.rs, arch/x86_64/mod.rs, stats.rs): the entry stub, the
      table and every handler over the kernel state [kstate].
    - Vfs, Ramfs, FdTable (fs/mod.rs, fs/node.rs, fs/ramfs.rs, fd_table.rs,
      fs/fd.rs), LinuxCompat (linux_compat.rs): the tree of files in memory, the
      descriptors, and the second system call layer that joins them.
    - Ide (drivers/ide.rs): the driver against the drive; the class
      [BlockDevice] is the contract of a disk.  Bcache (fs/bcache.rs): the
      direct-mapped cache is again a [BlockDevice].  Mmio, Ahci
      (drivers/ahci.rs): registers in memory, and the driver behind them.
    - Fat32, Volume (fs/fat32.rs); Zohfs, ZohVolume, ZohFiles, ZohFormat
      (fs/zohfs.rs); Ext2 (fs/ext2.rs); Gpt (fs/gpt.rs): the disk formats, each
      over any [BlockDevice].
    - E820 (arch/x86_64/e820.rs), Acpi (acpi.rs, the processor table of
      smp.rs), Devices (device.rs, config.rs, capabilities.rs): what the kernel
      learns at start-up.
    - Boot (arch/x86_64/boot.S), Gdt (boot.S, arch/x86_64/mod.rs), Startup
      (main.rs): from the loader to a kernel on its own tables.
    - Apic (apic.rs), Smp (smp.rs): the local APIC, the data of each core and
      the start of the other processors.
    - Framebuffer (arch/x86_64/framebuffer.rs): the console in pixels.  Console
      (arch/x86_64/mod.rs, main.rs): the text screen and the print path.
    - Keyboard, Shell (keyboard.rs, shell.rs): keys, the line editor and the
      commands.  Diagnostics (logging.rs, panic.rs, memdebug.rs): the leveled
      log, the back trace and the counts of the memory report.
    - Traps (interrupts.rs, arch/x86_64/page_fault.rs): the interrupt
      descriptor table and the fault handlers.
    - Cpu, Programs (runtime.rs, test_programs.rs): the instructions of user
      mode that the kernel's own programs use, and these programs, from
      [spawn_userspace_task] to their exit.  SelfTest (main.rs): the part of
      the start-up test that spawns them and tries the file system.

    ** What the theorems show

    Memory: allocation and release refine operations on a set of free frames;
    the tables made for a program map exactly its pages with their rights and
    keep the kernel's part, and releasing them returns exactly their frames; a
    task that exits returns what it took.  Blocks of the heap stay disjoint.

    Start-up: from every loader the boot code and [kernel_main] reach a kernel
    on its own tables with exactly the memory behind the image free; the
    segments are what their selectors are used for.

    Isolation: whatever the other tasks do and whenever ticks come, a task
    finds every byte of its own where and as it left it, and each frame is free
    or owned by one task, so that the frame check of the start-up test passes.
    The timer stub gives a task exactly the registers back that it had.

    Concurrency: the lock is fair and exclusive and makes progress under any
    interleaving; the scheduler keeps one running task and reaches every ready
    one.

    User boundary: system calls keep the state well typed, a [Write] sends
    exactly the bytes of the user's buffer, and copies reject what is not mapped
    for the user.  The embedded programs and those assembled with the runtime,
    spawned and run instruction by instruction on this kernel, make exactly the
    calls they are meant to make and leave nothing behind, whatever the rest of
    the system does between two instructions.

    Storage: sectors written through the driver or the cache are read back;
    FAT32 and ZohFS files read as they were written, also after a remount; ext2
    files and directories and partition tables are read exactly.  The tree of
    files in memory keeps its invariant, and names resolve to what was created.

    Devices: the frame buffer implements a text terminal, the shell a line
    editor that runs the entered lines whatever the timing of the keys; the
    memory map, the ACPI tables and the interrupt vectors are as the
    specifications say.  What is printed reaches the log, the serial line and
    both screens and no other memory.  Commands to the AHCI controller, its
    start, and the start of the processors end within stated numbers of
    register accesses, whatever the devices answer.

    Some theorems show faults of the code: reserved memory above the first
    gigabyte that becomes free, a directory that loses its last entry,
    exceptions that reset the machine, a memory map that is never read, user
    stacks that fault when the no-execute bit is not enabled, ports open to
    user programs, a controller that misreads its commands, and processors
    that are not started.  Their statements describe what the code does.

    ** Not modelled

    Between the detection of memory and the start-up test [kernel_main] maps
    the page of the local APIC, which the first exit of a task frees
    ([task_exit_frees_kernel_table]); the calls there are modelled one by one
    and not as one run.  Of [ap_entry], which no processor reaches, only the
    search for the core is modelled, and ap_trampoline.S is not part of the
    build.  The waits of the start-up test on the running tasks are not
    modelled.

    The 64-bit ARM port does not compile (paging.rs, main.rs and
    arch/arm64/paging.rs do not type-check for it), so the x86_64 build is
    followed throughout.  The rest of the panic screen and the texts of the
    reports only print. *)

From stdpp Require Export base numbers option strings gmap fin_maps list list_numbers.
#[global] Open Scope Z_scope.

(** ** Outcomes of a computation

    [Ret a] is a normal return; [Panic] a Rust panic (a failed bounds check,
    slice check or [unwrap]); [Halt] the [cli; hlt] loop; [Hang] a spin loop
    that nothing will end; [UB] an access through a raw pointer outside the
    object it points into. *)

Inductive outcome (A : Type) : Type :=
| Ret (a : A)
| Panic
| Halt
| Hang
| UB.
Arguments Ret {A} a.
Arguments Panic {A}.
Arguments Halt {A}.
Arguments Hang {A}.
Arguments UB {A}.

#[global] Instance outcome_ret : MRet outcome := @Ret.
#[global] Instance outcome_bind : MBind outcome := fun A B f m =>
  match m with
  | Ret a => f a
  | Panic => Panic
  | Halt => Halt
  | Hang => Hang
  | UB => UB
  end.
#[global] Instance outcome_eq_dec {A} `{EqDecision A} : EqDecision (outcome A).
Proof. solve_decision. Defined.

(** Rust's [Result<A, E>]. *)
Inductive result (E A : Type) : Type :=
| Ok (a : A)
| Err (e : E).
Arguments Ok {E A} a.
Arguments Err {E A} e.

#[global] Instance result_eq_dec {E A} `{EqDecision E, EqDecision A} :
  EqDecision (result E A).
Proof. solve_decision. Defined.

(** The [?] operator on a state-passing fallible computation: an [Err] is
    returned at once together with the state reached so far. *)
Definition try_bind {E A B S : Type}
    (m : outcome (result E A * S)) (f : A -> S -> outcome (result E B * S))
  : outcome (result E B * S) :=
  match m with
  | Ret (Ok a, s) => f a s
  | Ret (Err e, s) => Ret (Err e, s)
  | Panic => Panic
  | Halt => Halt
  | Hang => Hang
  | UB => UB
  end.

Declare Scope zohara_scope.
Delimit Scope zohara_scope with zohara.
#[global] Open Scope zohara_scope.
Notation "'let?' ( x , s ) := m 'in' k" := (try_bind m (fun x s => k))
  (at level 10, x name, s name, m at level 100, k at level 200,
   format "'let?'  ( x ,  s )  :=  m  'in' '//' k") : zohara_scope.

Lemma bind_Ret_inv {A B} (m : outcome A) (f : A -> outcome B) b :
  m ≫= f = Ret b -> exists a, m = Ret a /\ f a = Ret b.
Proof. destruct m; simpl; naive_solver. Qed.

Lemma Ret_inj {A} (a b : A) : Ret a = Ret b -> a = b.
Proof. congruence. Qed.

Lemma bind_Ret {A B} (a : A) (f : A -> outcome B) : Ret a ≫= f = f a.
Proof. reflexivity. Qed.

(** [inv_bind H] takes a hypothesis [m ≫= f = Ret b] apart. *)
Ltac inv_bind H :=
  lazymatch type of H with
  | mbind _ _ = Ret _ =>
      let a := fresh "a" in let H1 := fresh H in
      apply bind_Ret_inv in H as (a & H1 & H); simpl in H
  end.

(** ** Machine integers *)

Abbreviation two8 := 256 (only parsing).
Abbreviation two16 := 65536 (only parsing).
Abbreviation two32 := 4294967296 (only parsing).
Abbreviation two63 := 9223372036854775808 (only parsing).
Abbreviation two64 := 18446744073709551616 (only parsing).

(** Casts and wrapping arithmetic results. *)
Definition u8 (z : Z) : Z := z mod two8.
Definition u16 (z : Z) : Z := z mod two16.
Definition u32 (z : Z) : Z := z mod two32.
Definition u64 (z : Z) : Z := z mod two64.
(** [as isize] of a 64-bit value, [as i32] of a value. *)
Definition i64 (z : Z) : Z := (z + two63) mod two64 - two63.
Definition i32 (z : Z) : Z := (z + 2147483648) mod two32 - 2147483648.

Definition saturating_sub (a b : Z) : Z := Z.max 0 (a - b).
Definition saturating_add64 (a b : Z) : Z := Z.min (two64 - 1) (a + b).

(** Bitwise complement of a 64-bit word. *)
Definition not64 (z : Z) : Z := Z.lxor z (two64 - 1).

Lemma u64_small z : 0 <= z < two64 -> u64 z = z.
Proof. apply Z.mod_small. Qed.
Lemma u64_range z : 0 <= u64 z < two64.
Proof. apply Z.mod_pos_bound. lia. Qed.
Lemma u32_small z : 0 <= z < two32 -> u32 z = z.
Proof. apply Z.mod_small. Qed.
Lemma u32_range z : 0 <= u32 z < two32.
Proof. apply Z.mod_pos_bound. lia. Qed.
Lemma u8_range z : 0 <= u8 z < two8.
Proof. apply Z.mod_pos_bound. lia. Qed.
Lemma u8_small z : 0 <= z < two8 -> u8 z = z.
Proof. apply Z.mod_small. Qed.

(** [lia] with division and remainder by constants. *)
Ltac dlia := Z.to_euclidean_division_equations; lia.

(** ** Boolean comparisons *)

(** Case analysis on the integer comparisons of the goal. *)
Ltac zcase :=
  match goal with
  | |- context [?a <? ?b] => destruct (Z.ltb_spec a b)
  | |- context [?a <=? ?b] => destruct (Z.leb_spec a b)
  | |- context [?a =? ?b] => destruct (Z.eqb_spec a b)
  end.
Ltac zcases := repeat (zcase; simpl).

(** The same in a hypothesis. *)
Ltac zcase_in H :=
  match type of H with
  | context [?a <? ?b] => destruct (Z.ltb_spec a b)
  | context [?a <=? ?b] => destruct (Z.leb_spec a b)
  | context [?a =? ?b] => destruct (Z.eqb_spec a b)
  end.

(** ** Arrays indexed by integers *)

Definition lookupZ {A} (l : list A) (i : Z) : option A :=
  if i <? 0 then None else l !! Z.to_nat i.
Definition insertZ {A} (i : Z) (x : A) (l : list A) : list A :=
  if i <? 0 then l else <[Z.to_nat i := x]> l.
Definition lenZ {A} (l : list A) : Z := Z.of_nat (length l).

(** [a[i]] with its bounds check, and the checked assignment [a[i] = x]. *)
Definition index {A} (l : list A) (i : Z) : outcome A :=
  match lookupZ l i with Some x => Ret x | None => Panic end.
Definition assign {A} (l : list A) (i : Z) (x : A) : outcome (list A) :=
  match lookupZ l i with Some _ => Ret (insertZ i x l) | None => Panic end.

(** The unchecked accesses [*p.add(i)] through a raw pointer. *)
Definition ptr_read {A} (l : list A) (i : Z) : outcome A :=
  match lookupZ l i with Some x => Ret x | None => UB end.
Definition ptr_write {A} (l : list A) (i : Z) (x : A) : outcome (list A) :=
  match lookupZ l i with Some _ => Ret (insertZ i x l) | None => UB end.

Lemma lookupZ_lt {A} (l : list A) i :
  0 <= i < lenZ l -> is_Some (lookupZ l i).
Proof.
  unfold lookupZ, lenZ. intros. zcase; [lia|]. apply lookup_lt_is_Some. lia.
Qed.

Lemma lookupZ_Some_lt {A} (l : list A) i x :
  lookupZ l i = Some x -> 0 <= i < lenZ l.
Proof.
  unfold lookupZ, lenZ. zcase; [done|]. intros ?%lookup_lt_Some. lia.
Qed.

Lemma lookupZ_None {A} (l : list A) i :
  lookupZ l i = None <-> i < 0 \/ lenZ l <= i.
Proof.
  unfold lookupZ, lenZ. zcase; [naive_solver|].
  rewrite lookup_ge_None. lia.
Qed.

Lemma lookupZ_Forall {B} (P : B -> Prop) l i x : Forall P l -> lookupZ l i = Some x -> P x.
Proof.
  intros Hl Hx. rewrite Forall_forall in Hl. apply Hl. apply list_elem_of_lookup. unfold lookupZ in Hx.
  destruct (i <? 0); [done|]. eauto.
Qed.
Lemma insertZ_Forall {B} (P : B -> Prop) l i x : Forall P l -> P x -> Forall P (insertZ i x l).
Proof. intros Hl Hx. unfold insertZ. destruct (i <? 0); [done|]. by apply Forall_insert. Qed.
Lemma lenZ_insertZ {A} i (x : A) l : lenZ (insertZ i x l) = lenZ l.
Proof. unfold lenZ, insertZ. zcase; [done|]. by rewrite length_insert. Qed.

Lemma lenZ_replicate {A} n (x : A) : 0 <= n -> lenZ (replicate (Z.to_nat n) x) = n.
Proof. unfold lenZ. rewrite length_replicate. lia. Qed.

Lemma lookupZ_insertZ_eq {A} i (x : A) l :
  0 <= i < lenZ l -> lookupZ (insertZ i x l) i = Some x.
Proof.
  unfold lookupZ, insertZ, lenZ. intros. zcase; [lia|].
  apply list_lookup_insert_eq. lia.
Qed.

Lemma lookupZ_insertZ_ne {A} i j (x : A) l :
  i <> j -> lookupZ (insertZ i x l) j = lookupZ l j.
Proof.
  unfold lookupZ, insertZ. intros. zcases; try done.
  apply list_lookup_insert_ne. lia.
Qed.

Lemma lookupZ_insertZ {A} i j (x : A) l :
  0 <= i < lenZ l ->
  lookupZ (insertZ i x l) j = if i =? j then Some x else lookupZ l j.
Proof.
  intros. zcase; [subst; by apply lookupZ_insertZ_eq|by apply lookupZ_insertZ_ne].
Qed.

Lemma lookupZ_app_l {B} (l1 l2 : list B) k : k < lenZ l1 -> lookupZ (l1 ++ l2) k = lookupZ l1 k.
Proof. intros Hk. unfold lookupZ, lenZ in *. destruct (Z.ltb_spec k 0); [done|]. apply lookup_app_l. lia. Qed.
Lemma lookupZ_app_r {B} (l1 l2 : list B) k : lenZ l1 <= k -> lookupZ (l1 ++ l2) k = lookupZ l2 (k - lenZ l1).
Proof.
  intros Hk. unfold lookupZ, lenZ in *. destruct (Z.ltb_spec k 0), (Z.ltb_spec (k - Z.of_nat (length l1)) 0); try lia.
  rewrite lookup_app_r by lia. f_equal. lia.
Qed.

Lemma lookupZ_replicate {A} n (x : A) i :
  0 <= i < n -> lookupZ (replicate (Z.to_nat n) x) i = Some x.
Proof.
  unfold lookupZ. intros. zcase; [lia|]. apply lookup_replicate_2. lia.
Qed.

Lemma lookupZ_ext {A} (l k : list A) :
  (forall i, lookupZ l i = lookupZ k i) -> l = k.
Proof.
  intros H. apply list_eq. intros i. specialize (H (Z.of_nat i)).
  unfold lookupZ in H. destruct (Z.ltb_spec (Z.of_nat i) 0); [lia|].
  by rewrite Nat2Z.id in H.
Qed.

Lemma insertZ_id {A} i (x : A) l : lookupZ l i = Some x -> insertZ i x l = l.
Proof.
  unfold lookupZ, insertZ. zcase; [done|]. apply list_insert_id.
Qed.

Lemma insertZ_insertZ {A} i (x y : A) l : insertZ i x (insertZ i y l) = insertZ i x l.
Proof.
  unfold insertZ. zcase; [done|]. apply list_insert_insert_eq.
Qed.

Lemma index_Ret {A} (l : list A) i x : index l i = Ret x <-> lookupZ l i = Some x.
Proof. unfold index. destruct (lookupZ l i); naive_solver. Qed.
Lemma ptr_read_Ret {A} (l : list A) i x : ptr_read l i = Ret x <-> lookupZ l i = Some x.
Proof. unfold ptr_read. destruct (lookupZ l i); naive_solver. Qed.
Lemma assign_lt {A} (l : list A) i x :
  0 <= i < lenZ l -> assign l i x = Ret (insertZ i x l).
Proof. intros [y Hy]%lookupZ_lt. unfold assign. by rewrite Hy. Qed.
Lemma ptr_write_lt {A} (l : list A) i x :
  0 <= i < lenZ l -> ptr_write l i x = Ret (insertZ i x l).
Proof. intros [y Hy]%lookupZ_lt. unfold ptr_write. by rewrite Hy. Qed.

(** Sums of integers. *)
Definition sumZ (l : list Z) : Z := foldr Z.add 0 l.

Lemma sumZ_insert (l : list Z) (i : nat) x y :
  l !! i = Some x -> sumZ (<[i := y]> l) = sumZ l - x + y.
Proof.
  revert i. induction l as [|z l IH]; intros [|i] H; simpl in *; try done.
  - simplify_eq. lia.
  - rewrite IH by done. lia.
Qed.

Lemma sumZ_elem_le (l : list Z) (i : nat) x :
  Forall (fun z => 0 <= z) l -> l !! i = Some x -> x <= sumZ l.
Proof.
  intros Hl. revert i. induction Hl as [|z l Hz Hl IH]; intros i Hi; simpl; [done|].
  assert (0 <= sumZ l) by (clear -Hl; induction Hl; simpl; lia).
  destruct i as [|i]; simpl in Hi; simplify_eq; [fold (sumZ l); lia|].
  apply IH in Hi. fold (sumZ l). lia.
Qed.

Lemma sumZ_nonneg (l : list Z) : Forall (fun z => 0 <= z) l -> 0 <= sumZ l.
Proof. induction 1; simpl; lia. Qed.

Lemma sumZ_replicate n x : sumZ (replicate n x) = Z.of_nat n * x.
Proof. induction n as [|n IH]; simpl; [done|]. fold (sumZ (replicate n x)). lia. Qed.

(** ** Bits *)

(** [u64::trailing_ones] and [u64::count_ones]. *)
Fixpoint trailing_ones_from (fuel : nat) (x i : Z) : Z :=
  match fuel with
  | O => i
  | S fuel' => if Z.testbit x i then trailing_ones_from fuel' x (i + 1) else i
  end.
Definition trailing_ones (x : Z) : Z := trailing_ones_from 64 x 0.
(** How many of the [n] integers from [a] satisfy [p]. *)
Fixpoint countb (p : Z -> bool) (a : Z) (n : nat) : Z :=
  match n with
  | O => 0
  | S n' => (if p a then 1 else 0) + countb p (a + 1) n'
  end.
Definition count_ones (x : Z) : Z := countb (Z.testbit x) 0 64.

Lemma countb_ext p q a b n :
  (forall i, 0 <= i < Z.of_nat n -> p (a + i) = q (b + i)) -> countb p a n = countb q b n.
Proof.
  revert a b. induction n as [|n IH]; intros a b H; simpl; [done|].
  rewrite (IH (a + 1) (b + 1)).
  - specialize (H 0). rewrite !Z.add_0_r in H. by rewrite H by lia.
  - intros i Hi. rewrite <- !Z.add_assoc. apply H. lia.
Qed.

Lemma countb_app p a n m : countb p a (n + m) = countb p a n + countb p (a + Z.of_nat n) m.
Proof.
  revert a. induction n as [|n IH]; intros a; simpl; [by rewrite Z.add_0_r|].
  rewrite IH. replace (a + 1 + Z.of_nat n) with (a + Z.of_nat (S n)) by lia. lia.
Qed.

Lemma countb_none p a n :
  (forall i, 0 <= i < Z.of_nat n -> p (a + i) = false) -> countb p a n = 0.
Proof.
  revert a. induction n as [|n IH]; intros a H; simpl; [done|]. rewrite IH.
  - specialize (H 0). rewrite Z.add_0_r in H. by rewrite H by lia.
  - intros i Hi. rewrite <- Z.add_assoc. apply H. lia.
Qed.

Lemma countb_filter (p : Z -> bool) b a n :
  lenZ (filter (fun f => p f = b) (seqZ a n)) =
  countb (fun f => Bool.eqb (p f) b) a (Z.to_nat n).
Proof.
  destruct (Z.le_gt_cases 0 n) as [Hn|Hn];
    [|rewrite seqZ_nil by lia; by destruct n].
  rewrite <- (Z2Nat.id n) at 1 by done. generalize (Z.to_nat n) as k. clear n Hn.
  intros k. revert a. induction k as [|k IH]; intros a; [done|].
  rewrite seqZ_cons, filter_cons by lia. simpl.
  replace (Z.pred (Z.of_nat (S k))) with (Z.of_nat k) by lia. rewrite <- (IH (a + 1)).
  unfold lenZ. change (Z.succ a) with (a + 1).
  destruct (decide (p a = b)) as [->|Hne].
  - rewrite Bool.eqb_reflx. simpl. lia.
  - by rewrite (proj2 (Bool.eqb_false_iff _ _) Hne).
Qed.

Lemma trailing_ones_from_spec fuel x i :
  let r := trailing_ones_from fuel x i in
  i <= r <= i + Z.of_nat fuel /\
  (forall j, i <= j < r -> Z.testbit x j = true) /\
  (r < i + Z.of_nat fuel -> Z.testbit x r = false).
Proof.
  revert i. induction fuel as [|fuel IH]; intros i; simpl.
  { split_and!; [lia|lia|intros; lia|intros; lia]. }
  destruct (Z.testbit x i) eqn:E.
  - destruct (IH (i + 1)) as (H1 & H2 & H3). split_and!; [lia|lia| |].
    + intros j Hj. destruct (decide (j = i)) as [->|]; [done|]. apply H2. lia.
    + intros Hr. apply H3. lia.
  - split_and!; [lia|lia|intros; lia|done].
Qed.

Lemma testbit_above64 x j : 0 <= x < two64 -> 64 <= j -> Z.testbit x j = false.
Proof.
  intros Hx Hj. rewrite <- (Z.mod_small x (2 ^ 64)) by lia.
  apply Z.mod_pow2_bits_high. lia.
Qed.

Lemma eq_by_testbit64 x y :
  0 <= x < two64 -> 0 <= y < two64 ->
  (forall j, 0 <= j < 64 -> Z.testbit x j = Z.testbit y j) -> x = y.
Proof.
  intros Hx Hy H. apply Z.bits_inj'. intros j Hj.
  destruct (decide (j < 64)); [by apply H; lia|].
  rewrite !testbit_above64; [done|lia..].
Qed.

Lemma testbit_ones64 j : 0 <= j < 64 -> Z.testbit (two64 - 1) j = true.
Proof. intros. change (two64 - 1) with (Z.ones 64). by apply Z.ones_spec_low. Qed.

Lemma trailing_ones_spec x :
  0 <= x < two64 -> x <> two64 - 1 ->
  0 <= trailing_ones x < 64 /\
  (forall j, 0 <= j < trailing_ones x -> Z.testbit x j = true) /\
  Z.testbit x (trailing_ones x) = false.
Proof.
  intros Hx Hne.
  destruct (trailing_ones_from_spec 64 x 0) as (H1 & H2 & H3).
  fold (trailing_ones x) in *.
  assert (trailing_ones x < 64).
  { destruct (decide (trailing_ones x < 64)); [done|]. exfalso. apply Hne.
    apply eq_by_testbit64; [lia|lia|]. intros j Hj.
    rewrite testbit_ones64 by done. apply H2. lia. }
  split_and!; [lia|lia| |apply H3; lia]. intros. apply H2. lia.
Qed.

Lemma lt_pow2_log2 x n : 0 <= x -> 0 <= n -> (forall j, n <= j -> Z.testbit x j = false) -> x < 2 ^ n.
Proof.
  intros Hx Hn H. destruct (decide (x < 2 ^ n)); [done|]. exfalso.
  assert (0 < x) by (pose proof (Z.pow_pos_nonneg 2 n); lia).
  assert (n <= Z.log2 x) by (apply Z.log2_le_pow2; lia).
  specialize (H (Z.log2 x)). rewrite Z.bit_log2 in H by done. naive_solver.
Qed.

Lemma lor_range64 x y : 0 <= x < two64 -> 0 <= y < two64 -> 0 <= Z.lor x y < two64.
Proof.
  intros. split; [apply Z.lor_nonneg; lia|]. change two64 with (2 ^ 64).
  apply lt_pow2_log2; [apply Z.lor_nonneg; lia|lia|].
  intros j ?. by rewrite Z.lor_spec, !testbit_above64 by lia.
Qed.
Lemma land_range64 x y : 0 <= x < two64 -> 0 <= Z.land x y < two64.
Proof.
  intros. split; [apply Z.land_nonneg; lia|]. change two64 with (2 ^ 64).
  apply lt_pow2_log2; [apply Z.land_nonneg; lia|lia|].
  intros j ?. by rewrite Z.land_spec, testbit_above64 by lia.
Qed.

Definition bit (n : Z) : Z := Z.shiftl 1 n.

Lemma bit_spec n j : 0 <= n -> 0 <= j -> Z.testbit (bit n) j = (n =? j).
Proof.
  intros. unfold bit. rewrite Z.shiftl_spec by done. zcase.
  - subst. by rewrite Z.sub_diag.
  - destruct (decide (j < n)); [by apply Z.testbit_neg_r; lia|].
    change 1 with (Z.ones 1). apply Z.ones_spec_high. lia.
Qed.
Lemma bit_range n : 0 <= n < 64 -> 0 <= bit n < two64.
Proof.
  intros. unfold bit. rewrite Z.shiftl_mul_pow2, Z.mul_1_l by lia.
  split; [lia|]. change two64 with (2 ^ 64). apply Z.pow_lt_mono_r; lia.
Qed.
Lemma not64_spec x j : 0 <= j < 64 -> Z.testbit (not64 x) j = negb (Z.testbit x j).
Proof. intros. unfold not64. rewrite Z.lxor_spec, testbit_ones64 by done. apply xorb_true_r. Qed.

Create HintDb zohara.
#[export] Hint Resolve u64_range u32_range u8_range : zohara.
#[export] Hint Resolve lor_range64 land_range64 bit_range : zohara.
Create Rewrite HintDb zohara_rw.
#[export] Hint Rewrite @lenZ_insertZ : zohara_rw.

(** ** Slices *)

(** [&l[a..b]] with its checks. *)
Definition slice {A} (l : list A) (a b : Z) : outcome (list A) :=
  if (0 <=? a) && (a <=? b) && (b <=? lenZ l)
  then Ret (take (Z.to_nat (b - a)) (drop (Z.to_nat a) l)) else Panic.

(** The list [l] with [data] written over it from index [a]. *)
Definition write_at {A} (l : list A) (a : Z) (data : list A) : list A :=
  take (Z.to_nat a) l ++ data ++ drop (Z.to_nat a + length data) l.

(** [l[a..b].copy_from_slice(data)]. *)
Definition copy_into {A} (l : list A) (a b : Z) (data : list A) : outcome (list A) :=
  if (0 <=? a) && (a <=? b) && (b <=? lenZ l) && (b - a =? lenZ data)
  then Ret (write_at l a data) else Panic.

(** [Vec::resize]. *)
Definition resize {A} (l : list A) (n : Z) (x : A) : list A :=
  if n <=? lenZ l then take (Z.to_nat n) l
  else l ++ replicate (Z.to_nat (n - lenZ l)) x.

Lemma lenZ_nonneg {A} (l : list A) : 0 <= lenZ l.
Proof. unfold lenZ. lia. Qed.
Lemma lenZ_app {A} (l k : list A) : lenZ (l ++ k) = lenZ l + lenZ k.
Proof. unfold lenZ. rewrite length_app. lia. Qed.
Lemma lenZ_cons {A} (x : A) l : lenZ (x :: l) = lenZ l + 1.
Proof. unfold lenZ. simpl. lia. Qed.
Lemma lenZ_snoc {A} (l : list A) x : lenZ (l ++ [x]) = lenZ l + 1.
Proof. unfold lenZ. rewrite length_app. simpl. lia. Qed.
Lemma lenZ_nil {A} : lenZ (@nil A) = 0.
Proof. done. Qed.

Lemma lenZ_write_at {A} (l : list A) a data :
  0 <= a -> a + lenZ data <= lenZ l -> lenZ (write_at l a data) = lenZ l.
Proof.
  unfold lenZ, write_at. intros. rewrite !length_app, length_take, length_drop. lia.
Qed.

Lemma slice_write_at {A} (l : list A) a data :
  0 <= a -> a + lenZ data <= lenZ l ->
  slice (write_at l a data) a (a + lenZ data) = Ret data.
Proof.
  intros Ha Hl. unfold slice. rewrite lenZ_write_at by done.
  pose proof (lenZ_nonneg data).
  rewrite (proj2 (Z.leb_le 0 a)), (proj2 (Z.leb_le a _)), (proj2 (Z.leb_le _ (lenZ l))) by lia.
  simpl. f_equal. unfold write_at, lenZ in *.
  rewrite drop_app_length' by (rewrite length_take; lia).
  replace (Z.to_nat (a + Z.of_nat (length data) - a)) with (length data) by lia.
  apply take_app_length.
Qed.

Lemma lookupZ_write_at_out {A} (l : list A) a data i :
  0 <= a -> a + lenZ data <= lenZ l -> i < a \/ a + lenZ data <= i ->
  lookupZ (write_at l a data) i = lookupZ l i.
Proof.
  intros Ha Hl Hi. unfold lookupZ, write_at, lenZ in *. zcase; [done|].
  destruct Hi as [Hi|Hi].
  - rewrite lookup_app_l by (rewrite length_take; lia). apply lookup_take_lt. lia.
  - rewrite lookup_app_r by (rewrite length_take; lia).
    rewrite lookup_app_r by (rewrite length_take; lia).
    rewrite lookup_drop. f_equal. rewrite length_take. lia.
Qed.

Lemma lookupZ_write_at_in {A} (l : list A) a data i :
  0 <= a -> a + lenZ data <= lenZ l -> a <= i < a + lenZ data ->
  lookupZ (write_at l a data) i = lookupZ data (i - a).
Proof.
  intros Ha Hl Hi. unfold lookupZ, write_at, lenZ in *. zcases; try lia.
  rewrite lookup_app_r by (rewrite length_take; lia).
  rewrite lookup_app_l by (rewrite length_take; lia). f_equal. rewrite length_take. lia.
Qed.

Lemma lenZ_resize {A} (l : list A) n x : 0 <= n -> lenZ (resize l n x) = n.
Proof.
  intros Hn. unfold resize. zcase; unfold lenZ in *.
  - rewrite length_take. lia.
  - rewrite length_app, length_replicate. lia.
Qed.

Lemma lookupZ_resize {A} (l : list A) n x i :
  lenZ l <= n ->
  lookupZ (resize l n x) i =
    if (0 <=? i) && (i <? n) then (if i <? lenZ l then lookupZ l i else Some x) else None.
Proof.
  intros Hn. unfold resize. pose proof (lenZ_nonneg l).
  destruct (Z.leb_spec n (lenZ l)).
  - rewrite take_ge by (unfold lenZ in *; lia).
    destruct (decide (0 <= i < n)).
    + zcases; try lia. done.
    + assert (lookupZ l i = None) as -> by (apply lookupZ_None; lia). zcases; done || lia.
  - unfold lookupZ, lenZ in *. zcases; try done; try lia.
    + by rewrite lookup_app_l by lia.
    + rewrite lookup_app_r by lia. apply lookup_replicate_2. lia.
    + rewrite lookup_app_r by lia. apply lookup_ge_None. rewrite length_replicate. lia.
Qed.

Lemma slice_Ret {A} (l : list A) a b :
  0 <= a <= b -> b <= lenZ l -> slice l a b = Ret (take (Z.to_nat (b - a)) (drop (Z.to_nat a) l)).
Proof. intros. unfold slice. by zcases; try lia. Qed.

Lemma copy_into_Ret {A} (l : list A) a data :
  0 <= a -> a + lenZ data <= lenZ l ->
  copy_into l a (a + lenZ data) data = Ret (write_at l a data).
Proof. intros. pose proof (lenZ_nonneg data). unfold copy_into. by zcases; try lia. Qed.

(** ** UTF-8 *)

Definition cont_byte (lo hi b : Z) : bool := (lo <=? b) && (b <=? hi).

(** [core::str::from_utf8] accepts exactly these byte strings. *)
Fixpoint utf8_valid (l : list Z) : bool :=
  match l with
  | [] => true
  | b :: l1 =>
      if b <? 0x80 then utf8_valid l1 else
      if b <? 0xC2 then false else
      if b <? 0xE0 then
        match l1 with
        | c1 :: l2 => cont_byte 0x80 0xBF c1 && utf8_valid l2
        | [] => false
        end
      else if b <? 0xF0 then
        match l1 with
        | c1 :: c2 :: l3 =>
            cont_byte (if b =? 0xE0 then 0xA0 else 0x80) (if b =? 0xED then 0x9F else 0xBF) c1 &&
            cont_byte 0x80 0xBF c2 && utf8_valid l3
        | _ => false
        end
      else if b <? 0xF5 then
        match l1 with
        | c1 :: c2 :: c3 :: l4 =>
            cont_byte (if b =? 0xF0 then 0x90 else 0x80) (if b =? 0xF4 then 0x8F else 0xBF) c1 &&
            cont_byte 0x80 0xBF c2 && cont_byte 0x80 0xBF c3 && utf8_valid l4
        | _ => false
        end
      else false
  end.

(** [from_utf8(l).unwrap_or(d)]. *)
Definition utf8_or (l d : list Z) : list Z := if utf8_valid l then l else d.

(** The bytes of a string literal. *)
Definition bytes_of (s : string) : list Z :=
  (fun c => Z.of_N (Ascii.N_of_ascii c)) <$> String.list_ascii_of_string s.

(** ** Single bits *)

Lemma land_bit x k : 0 <= k -> negb (Z.land x (Z.shiftl 1 k) =? 0) = Z.testbit x k.
Proof.
  intros Hk. rewrite Z.shiftl_1_l. destruct (Z.testbit x k) eqn:E; destruct (Z.eqb_spec (Z.land x (2 ^ k)) 0) as [E0|E0]; try done; exfalso.
  - assert (Z.testbit (Z.land x (2 ^ k)) k = true) as Ht by (rewrite Z.land_spec, E, Z.pow2_bits_true by done; done). by rewrite E0, Z.bits_0 in Ht.
  - apply E0. apply Z.bits_inj'. intros j Hj. rewrite Z.land_spec, Z.bits_0, Z.pow2_bits_eqb by done.
    destruct (Z.eqb_spec k j) as [<-|]; [by rewrite E|apply andb_false_r].
Qed.

(** ** Rounding to powers of two *)

Lemma land_not64_ones x k :
  0 <= x < two64 -> 0 <= k < 64 -> Z.land x (not64 (2 ^ k - 1)) = x / 2 ^ k * 2 ^ k.
Proof.
  intros Hx Hk. rewrite <- Z.shiftr_div_pow2, <- Z.shiftl_mul_pow2, <- Z.ldiff_ones_r by lia.
  apply Z.bits_inj'. intros j Hj. rewrite Z.land_spec, Z.ldiff_spec.
  destruct (decide (j < 64)).
  - rewrite not64_spec by lia. by rewrite Z.sub_1_r, <- Z.ones_equiv.
  - by rewrite testbit_above64 by lia.
Qed.

(** [(x + align - 1) & !(align - 1)] for a power of two. *)
Lemma align_up_spec x k :
  0 <= x -> 0 <= k < 64 -> x + 2 ^ k - 1 < two64 ->
  let r := Z.land (x + 2 ^ k - 1) (not64 (2 ^ k - 1)) in
  x <= r < x + 2 ^ k /\ (2 ^ k | r).
Proof.
  intros Hx Hk Hlt r. subst r. pose proof (Z.pow_pos_nonneg 2 k).
  rewrite land_not64_ones by lia.
  pose proof (Z.div_mod (x + 2 ^ k - 1) (2 ^ k)).
  pose proof (Z.mod_pos_bound (x + 2 ^ k - 1) (2 ^ k)).
  split; [lia|]. by exists ((x + 2 ^ k - 1) / 2 ^ k).
Qed.
