(* ===== verification/Bytes.v ===== *)
(** * Little-endian numbers in byte buffers

    What [from_le_bytes], [to_le_bytes] and reads through byte slices do, for
    the on-disk and executable formats. *)

From S2P Require Import Prelude.

Fixpoint from_le (l : list Z) : Z :=
  match l with
  | [] => 0
  | b :: l' => b + 256 * from_le l'
  end.
Fixpoint to_le (n : nat) (v : Z) : list Z :=
  match n with
  | O => []
  | S n' => v mod 256 :: to_le n' (v / 256)
  end.

(** [uN::from_le_bytes(l[a..b].try_into().unwrap())]. *)
Definition le_at (l : list Z) (a b : Z) : outcome Z := s ← slice l a b; Ret (from_le s).

(** A byte. *)
Definition byte (b : Z) : Prop := 0 <= b < 256.

Lemma length_to_le n v : length (to_le n v) = n.
Proof. revert v. induction n; intros; simpl; auto. Qed.
Lemma lenZ_to_le n v : lenZ (to_le n v) = Z.of_nat n.
Proof. unfold lenZ. by rewrite length_to_le. Qed.

Lemma from_to_le n v : from_le (to_le n v) = v mod 256 ^ Z.of_nat n.
Proof.
  revert v. induction n as [|n IH]; intros v; cbn [to_le from_le].
  - change (256 ^ Z.of_nat 0) with 1. by rewrite Z.mod_1_r.
  - rewrite IH, Nat2Z.inj_succ, Z.pow_succ_r by lia.
    rewrite Z.rem_mul_r by lia. lia.
Qed.
Lemma from_to_le_small n v : 0 <= v < 256 ^ Z.of_nat n -> from_le (to_le n v) = v.
Proof. intros. rewrite from_to_le. by apply Z.mod_small. Qed.

Lemma from_le_range l : Forall byte l -> 0 <= from_le l < 256 ^ lenZ l.
Proof.
  induction 1 as [|b l Hb _ IH]; cbn [from_le]; [done|].
  unfold byte in Hb. rewrite lenZ_cons, Z.pow_add_r by (pose proof (lenZ_nonneg l); lia). lia.
Qed.
Lemma to_from_le l : Forall byte l -> to_le (length l) (from_le l) = l.
Proof.
  induction 1 as [|b l Hb _ IH]; cbn [from_le to_le length]; [done|]. unfold byte in Hb. f_equal; [dlia|].
  by replace ((b + 256 * from_le l) / 256) with (from_le l) by dlia.
Qed.
Lemma to_le_bytes n v : Forall byte (to_le n v).
Proof. revert v. induction n; intros v; constructor; [unfold byte; dlia|done]. Qed.

(** Slices of a buffer with a known front. *)
Lemma slice_app_l {A} (h t : list A) a b : b <= lenZ h -> slice (h ++ t) a b = slice h a b.
Proof.
  intros Hb. unfold slice. rewrite lenZ_app. pose proof (lenZ_nonneg t).
  destruct (Z.leb_spec 0 a), (Z.leb_spec a b), (Z.leb_spec b (lenZ h)), (Z.leb_spec b (lenZ h + lenZ t));
    try done; try lia; simpl.
  apply (f_equal Ret). unfold lenZ in *. rewrite drop_app_le by lia. rewrite take_app_le by (rewrite length_drop; lia). done.
Qed.

Lemma insertZ_app_l {A} (h t : list A) i (x : A) : i < lenZ h -> insertZ i x (h ++ t) = insertZ i x h ++ t.
Proof.
  intros Hi. unfold insertZ. destruct (Z.ltb_spec i 0); [done|]. apply insert_app_l. unfold lenZ in *. lia.
Qed.

(** Joining bit fields. *)
Lemma lor_add a b k : 0 <= k -> 0 <= a < 2 ^ k -> Z.lor a (b * 2 ^ k) = a + b * 2 ^ k.
Proof.
  intros Hk Ha. assert (E : Z.land a (b * 2 ^ k) = 0).
  { rewrite <- (Z.mod_small a (2 ^ k)), <- Z.land_ones by lia. apply Z.bits_inj_0. intros j.
    rewrite !Z.land_spec, Z.mul_pow2_bits by lia. destruct (decide (j < k)).
    - rewrite (Z.testbit_neg_r b) by lia. apply andb_false_r.
    - rewrite Z.ones_spec_high by lia. by rewrite andb_false_r. }
  by rewrite <- (Z.lxor_lor _ _ E), Z.add_nocarry_lxor.
Qed.

Lemma write_at_app {B} (l : list B) a d1 d2 :
  0 <= a -> a + lenZ d1 + lenZ d2 <= lenZ l ->
  write_at (write_at l a d1) (a + lenZ d1) d2 = write_at l a (d1 ++ d2).
Proof.
  intros Ha Hl. unfold write_at, lenZ in *. rewrite Z2Nat.inj_add, Nat2Z.id, length_app by lia.
  set (k := Z.to_nat a). assert (Hk : (k + length d1 + length d2 <= length l)%nat) by lia.
  rewrite (app_assoc _ d1), take_app_length', drop_app_ge by (rewrite length_app, length_take; lia).
  rewrite <- !app_assoc. do 3 f_equal. rewrite drop_drop, length_app, length_take. f_equal. lia.
Qed.

(** The field of [k] bytes at [a]. *)
Definition field (d : list Z) (a k : Z) : Z := from_le (take (Z.to_nat k) (drop (Z.to_nat a) d)).

Lemma le_at_field d a b : 0 <= a <= b -> b <= lenZ d -> le_at d a b = Ret (field d a (b - a)).
Proof. intros Ha Hb. unfold le_at, field. by rewrite slice_Ret by done. Qed.

Lemma write_at_cons {A} (l : list A) c x rest :
  0 <= c -> c + 1 + lenZ rest <= lenZ l ->
  write_at (insertZ c x l) (c + 1) rest = write_at l c (x :: rest).
Proof.
  intros Hc Hl. unfold insertZ, write_at, lenZ in *. destruct (Z.ltb_spec c 0); [lia|].
  rewrite Z2Nat.inj_add by lia. change (Z.to_nat 1) with 1%nat. set (k := Z.to_nat c).
  assert (Hk : (k < length l)%nat) by lia.
  rewrite drop_insert_lt by lia. replace (k + 1)%nat with (S k) by lia.
  erewrite take_S_r by (by apply list_lookup_insert_eq). rewrite take_insert_ge by lia.
  rewrite <- app_assoc. cbn [app length]. by replace (k + S (length rest))%nat with (S k + length rest)%nat by lia.
Qed.

Lemma write_at_nil {A} (l : list A) c : write_at l c [] = l.
Proof. unfold write_at. simpl. by rewrite Nat.add_0_r, take_drop. Qed.

Lemma field_range d a k : Forall byte d -> 0 <= k -> 0 <= field d a k < 256 ^ k.
Proof.
  intros Hd Hk. unfold field. set (l := take _ _).
  assert (Hl : Forall byte l) by (by apply Forall_take, Forall_drop).
  destruct (from_le_range l Hl) as [? Hlt]. split; [done|]. eapply Z.lt_le_trans; [exact Hlt|].
  apply Z.pow_le_mono_r; [lia|]. unfold l, lenZ. rewrite length_take. lia.
Qed.

Lemma field_app_l h t a k : 0 <= a -> 0 <= k -> a + k <= lenZ h -> field (h ++ t) a k = field h a k.
Proof.
  intros Ha Hk Hl. unfold field, lenZ in *. rewrite drop_app_le by lia.
  rewrite take_app_le by (rewrite length_drop; lia). done.
Qed.

Definition byteb (b : Z) : bool := (0 <=? b) && (b <? 256).

Lemma forallb_byte l : forallb byteb l = true -> Forall byte l.
Proof.
  intros Hl. apply Forall_forall. intros b Hb. rewrite forallb_forall in Hl.
  specialize (Hl b (proj1 (list_elem_of_In _ _) Hb)). unfold byteb, byte in *. lia.
Qed.

Lemma write_at_app_l {B} (h t : list B) a bs :
  0 <= a -> a + lenZ bs <= lenZ h -> write_at (h ++ t) a bs = write_at h a bs ++ t.
Proof.
  intros Ha Hl. unfold write_at, lenZ in *. rewrite take_app_le, drop_app_le by lia. by rewrite <- !app_assoc.
Qed.
