(* ===== verification/Frame.v ===== *)
(** * The physical frame allocator (src/src/frame.rs)

    The allocator is one bitmap word per 64 frames.  The state below holds
    the module's statics; each function that takes [FRAME_LOCK] is one
    atomic operation on it (mutual exclusion of the lock is the subject of
    the file [SpinLock]).  The target is x86_64, where [RAM_BASE] is 0. *)

From S2P Require Import Prelude.

Definition FRAME_SIZE : Z := 4096.
Definition RAM_BASE : Z := 0.
Definition MAX_WORDS : Z := 32768.
Definition MAX_FRAME_COUNT : Z := MAX_WORDS * 64.

Record frame_state : Type := mk_frame_state {
  BITMAP : list Z;
  ACTUAL_WORDS : Z;
  ACTUAL_FRAME_COUNT : Z;
  TOTAL_RAM : Z;
  NEXT_FREE : Z;
  ALLOC_COUNT : Z;
  (** the counters of stats.rs touched by this module *)
  FRAME_ALLOCS : Z;
  FRAME_FREES : Z;
}.

Definition with_bitmap (b : list Z) (s : frame_state) : frame_state :=
  mk_frame_state b (ACTUAL_WORDS s) (ACTUAL_FRAME_COUNT s) (TOTAL_RAM s)
    (NEXT_FREE s) (ALLOC_COUNT s) (FRAME_ALLOCS s) (FRAME_FREES s).
Definition with_extent (words count ram : Z) (s : frame_state) : frame_state :=
  mk_frame_state (BITMAP s) words count ram
    (NEXT_FREE s) (ALLOC_COUNT s) (FRAME_ALLOCS s) (FRAME_FREES s).
Definition with_next_free (w : Z) (s : frame_state) : frame_state :=
  mk_frame_state (BITMAP s) (ACTUAL_WORDS s) (ACTUAL_FRAME_COUNT s) (TOTAL_RAM s)
    w (ALLOC_COUNT s) (FRAME_ALLOCS s) (FRAME_FREES s).
Definition count_alloc (s : frame_state) : frame_state :=
  mk_frame_state (BITMAP s) (ACTUAL_WORDS s) (ACTUAL_FRAME_COUNT s) (TOTAL_RAM s)
    (NEXT_FREE s) (u64 (ALLOC_COUNT s + 1)) (u64 (FRAME_ALLOCS s + 1)) (FRAME_FREES s).
Definition count_frame_free (s : frame_state) : frame_state :=
  mk_frame_state (BITMAP s) (ACTUAL_WORDS s) (ACTUAL_FRAME_COUNT s) (TOTAL_RAM s)
    (NEXT_FREE s) (ALLOC_COUNT s) (FRAME_ALLOCS s) (u64 (FRAME_FREES s + 1)).

(** The statics before boot. *)
Definition boot_frame_state : frame_state :=
  mk_frame_state (replicate (Z.to_nat MAX_WORDS) 0) 0 0 0 0 0 0 0.

(** [PhysFrame::from_addr] (wrapping subtraction) and
    [PhysFrame::start_address]; a frame is its number. *)
Definition from_addr (addr : Z) : Z := u64 (addr - RAM_BASE) / FRAME_SIZE.
Definition start_address (number : Z) : Z := u64 (RAM_BASE + number * FRAME_SIZE).
Definition frame_of (addr : Z) : Z := saturating_sub addr RAM_BASE / FRAME_SIZE.

Definition set_total_ram (size : Z) (s : frame_state) : frame_state :=
  let capped := Z.min size (MAX_FRAME_COUNT * FRAME_SIZE) in
  let count := capped / FRAME_SIZE in
  with_extent ((count + 63) / 64) count capped s.

Definition total_ram (s : frame_state) : Z := TOTAL_RAM s.

(** One iteration of the loop of [free_frame_count]. *)
Definition free_in_word (s : frame_state) (free w : Z) : outcome Z :=
  bits ← ptr_read (BITMAP s) w;
  let word_start := w * 64 in
  let inverted := not64 bits in
  let inverted :=
    if ACTUAL_FRAME_COUNT s <? word_start + 64
    then Z.land inverted (bit (ACTUAL_FRAME_COUNT s - word_start) - 1)
    else inverted in
  Ret (free + count_ones inverted).

Fixpoint free_in_words (s : frame_state) (ws : list Z) (free : Z) : outcome Z :=
  match ws with
  | [] => Ret free
  | w :: ws' => free' ← free_in_word s free w; free_in_words s ws' free'
  end.

Definition free_frame_count (s : frame_state) : outcome Z :=
  free_in_words s (seqZ 0 (ACTUAL_WORDS s)) 0.

Definition set_used (frame : Z) (s : frame_state) : outcome frame_state :=
  if ACTUAL_FRAME_COUNT s <=? frame then Ret s else
  bits ← ptr_read (BITMAP s) (frame / 64);
  b ← ptr_write (BITMAP s) (frame / 64) (Z.lor bits (bit (frame mod 64)));
  Ret (with_bitmap b s).

Definition set_free (frame : Z) (s : frame_state) : outcome frame_state :=
  if ACTUAL_FRAME_COUNT s <=? frame then Ret s else
  bits ← ptr_read (BITMAP s) (frame / 64);
  b ← ptr_write (BITMAP s) (frame / 64) (Z.land bits (not64 (bit (frame mod 64))));
  Ret (with_bitmap b s).

Fixpoint set_used_all (frames : list Z) (s : frame_state) : outcome frame_state :=
  match frames with
  | [] => Ret s
  | f :: fs => s' ← set_used f s; set_used_all fs s'
  end.

Definition mark_used (start end_ : Z) (s : frame_state) : outcome frame_state :=
  let ram_end := RAM_BASE + TOTAL_RAM s in
  if (end_ <=? start) || (ram_end <=? start) then Ret s else
  let first := frame_of start in
  let last := Z.min (frame_of (saturating_sub end_ 1)) (u64 (ACTUAL_FRAME_COUNT s - 1)) in
  set_used_all (seqZ first (last - first + 1)) s.

Fixpoint zero_words (ws : list Z) (s : frame_state) : outcome frame_state :=
  match ws with
  | [] => Ret s
  | w :: ws' => b ← ptr_write (BITMAP s) w 0; zero_words ws' (with_bitmap b s)
  end.

(** [kernel_end] is the address of the linker symbol [_end]. *)
Definition init (kernel_end : Z) (s : frame_state) : outcome frame_state :=
  let s := if TOTAL_RAM s =? 0 then set_total_ram (Z.shiftl 1 30) s else s in
  s ← zero_words (seqZ 0 (ACTUAL_WORDS s)) s;
  s ← mark_used RAM_BASE kernel_end s;
  s ← mark_used 0 0x100000 s;
  Ret (with_next_free (frame_of kernel_end / 64) s).

Definition reinit (new_ram_size : Z) (s : frame_state) : frame_state :=
  let s := set_total_ram new_ram_size s in
  let words := (TOTAL_RAM s / 4096 + 63) / 64 in
  if MAX_WORDS <? words
  then with_extent MAX_WORDS (MAX_WORDS * 64) (TOTAL_RAM s) s
  else with_extent words (words * 64) (TOTAL_RAM s) s.

(** The body shared by the two loops of [allocate_frame], over the words
    still to visit. *)
Fixpoint scan (ws : list Z) (count : Z) (s : frame_state) : outcome (option Z * frame_state) :=
  match ws with
  | [] => Ret (None, s)
  | w :: ws' =>
      bits ← ptr_read (BITMAP s) w;
      if bits =? two64 - 1 then scan ws' count s else
      let frame := w * 64 + trailing_ones bits in
      if frame <? count then
        s ← set_used frame s;
        Ret (Some frame, count_alloc (with_next_free w s))
      else scan ws' count s
  end.

Definition allocate_frame (s : frame_state) : outcome (option Z * frame_state) :=
  let words := ACTUAL_WORDS s in
  let count := ACTUAL_FRAME_COUNT s in
  let start := Z.min (NEXT_FREE s) words in
  r ← scan (seqZ start (words - start)) count s;
  match r with
  | (Some f, s') => Ret (Some f, s')
  | (None, s') => scan (seqZ 0 start) count s'
  end.

Definition alloc_count (s : frame_state) : Z := ALLOC_COUNT s.

Definition deallocate_frame (frame : Z) (s : frame_state) : outcome frame_state :=
  if ACTUAL_FRAME_COUNT s <=? frame then Ret s else
  s ← set_free frame s;
  Ret (count_frame_free s).

(** ** Abstraction: the set of free frames *)

(** The bit of frame [f]; a frame outside the bitmap counts as used. *)
Definition used (s : frame_state) (f : Z) : bool :=
  match lookupZ (BITMAP s) (f / 64) with
  | Some bits => Z.testbit bits (f mod 64)
  | None => true
  end.

(** The frames under management that [allocate_frame] may hand out. *)
Definition is_free (s : frame_state) (f : Z) : Prop :=
  0 <= f < ACTUAL_FRAME_COUNT s /\ used s f = false.

Definition free_list (s : frame_state) : list Z :=
  filter (fun f => used s f = false) (seqZ 0 (ACTUAL_FRAME_COUNT s)).
Definition free_frames (s : frame_state) : gset Z := list_to_set (free_list s).

Record frame_wf (s : frame_state) : Prop := {
  wf_len : lenZ (BITMAP s) = MAX_WORDS;
  wf_bits : Forall (fun w => 0 <= w < two64) (BITMAP s);
  wf_count : 0 <= ACTUAL_FRAME_COUNT s <= MAX_FRAME_COUNT;
  wf_words : ACTUAL_WORDS s = (ACTUAL_FRAME_COUNT s + 63) / 64;
  wf_next : 0 <= NEXT_FREE s;
  wf_ram : 0 <= TOTAL_RAM s;
}.

(** The bitmap changed, nothing else but the hint and the counters. *)
Definition same_extent (s s' : frame_state) : Prop :=
  ACTUAL_WORDS s' = ACTUAL_WORDS s /\ ACTUAL_FRAME_COUNT s' = ACTUAL_FRAME_COUNT s /\
  TOTAL_RAM s' = TOTAL_RAM s.

(** ** Lemmas on one bit *)

Lemma elem_of_free_frames s f : f ∈ free_frames s <-> is_free s f.
Proof.
  unfold free_frames, free_list, is_free.
  rewrite elem_of_list_to_set, list_elem_of_filter, elem_of_seqZ, Z.add_0_l. tauto.
Qed.

Lemma size_free_frames s : Z.of_nat (size (free_frames s)) = lenZ (free_list s).
Proof.
  unfold free_frames, lenZ. rewrite size_list_to_set; [done|].
  apply NoDup_filter, NoDup_seqZ.
Qed.

Lemma wf_bitmap_word s w :
  frame_wf s -> 0 <= w < MAX_WORDS ->
  exists bits, lookupZ (BITMAP s) w = Some bits /\ 0 <= bits < two64.
Proof.
  intros Hwf Hw. destruct (lookupZ_lt (BITMAP s) w) as [bits Hb].
  { by rewrite (wf_len s Hwf). }
  exists bits. split; [done|]. pose proof (wf_bits s Hwf) as Hall.
  unfold lookupZ in Hb. destruct (Z.ltb_spec w 0); [lia|].
  exact (Forall_lookup_1 _ _ _ _ Hall Hb).
Qed.

Lemma wf_frame_word s f :
  frame_wf s -> 0 <= f < ACTUAL_FRAME_COUNT s -> 0 <= f / 64 < MAX_WORDS.
Proof. intros [_ _ ? _ _ _] ?. unfold MAX_FRAME_COUNT, MAX_WORDS in *. dlia. Qed.

Lemma Forall_insertZ {A} (P : A -> Prop) i x l :
  Forall P l -> P x -> Forall P (insertZ i x l).
Proof.
  intros Hl Hx. unfold insertZ. zcase; [done|].
  apply Forall_insert; eauto.
Qed.

Lemma not64_range x : 0 <= x < two64 -> 0 <= not64 x < two64.
Proof.
  intros Hx. unfold not64. split; [apply Z.lxor_nonneg; lia|].
  change two64 with (2 ^ 64) at 2.
  apply lt_pow2_log2; [apply Z.lxor_nonneg; lia|lia|].
  intros j Hj. by rewrite Z.lxor_spec, !testbit_above64 by lia.
Qed.

(** Writing [bits'] to the word of frame [f] updates [used] there only. *)
Lemma used_with_word s w bits' g :
  frame_wf s -> 0 <= w < MAX_WORDS ->
  used (with_bitmap (insertZ w bits' (BITMAP s)) s) g =
    if w =? g / 64 then Z.testbit bits' (g mod 64) else used s g.
Proof.
  intros Hwf Hw. unfold used. simpl.
  rewrite lookupZ_insertZ by (rewrite (wf_len s Hwf); lia). by zcase.
Qed.

Lemma wf_with_word s w bits' :
  frame_wf s -> 0 <= bits' < two64 ->
  frame_wf (with_bitmap (insertZ w bits' (BITMAP s)) s).
Proof.
  intros [H1 H2 H3 H4 H5 H6] Hb. split; simpl; try done.
  - by rewrite lenZ_insertZ.
  - by apply Forall_insertZ.
Qed.

Lemma set_used_spec f s :
  frame_wf s -> 0 <= f ->
  exists s', set_used f s = Ret s' /\ frame_wf s' /\ same_extent s s' /\
    NEXT_FREE s' = NEXT_FREE s /\
    forall g, 0 <= g -> used s' g = used s g || ((g =? f) && (f <? ACTUAL_FRAME_COUNT s)).
Proof.
  intros Hwf Hf. unfold set_used. destruct (Z.leb_spec (ACTUAL_FRAME_COUNT s) f).
  { exists s. split_and!; try by unfold same_extent. intros g Hg.
    zcases; try lia; by rewrite ?orb_false_r. }
  pose proof (wf_frame_word s f Hwf ltac:(lia)) as Hw.
  destruct (wf_bitmap_word s (f / 64) Hwf Hw) as (bits & Hb & Hr).
  unfold ptr_read, ptr_write. rewrite Hb. simpl.
  eexists. split; [done|]. split_and!; try by unfold same_extent.
  - apply wf_with_word; [done|]. apply lor_range64; [lia|]. apply bit_range. dlia.
  - intros g Hg. rewrite used_with_word by done.
    destruct (Z.ltb_spec f (ACTUAL_FRAME_COUNT s)); [|lia]. rewrite andb_true_r.
    destruct (Z.eqb_spec (f / 64) (g / 64)) as [E|E].
    + rewrite Z.lor_spec, bit_spec by dlia. unfold used. rewrite <- E, Hb.
      f_equal. zcases; dlia.
    + zcase; [by subst|]. by rewrite orb_false_r.
Qed.

Lemma set_free_spec f s :
  frame_wf s -> 0 <= f ->
  exists s', set_free f s = Ret s' /\ frame_wf s' /\ same_extent s s' /\
    NEXT_FREE s' = NEXT_FREE s /\
    forall g, 0 <= g -> used s' g = used s g && negb ((g =? f) && (f <? ACTUAL_FRAME_COUNT s)).
Proof.
  intros Hwf Hf. unfold set_free. destruct (Z.leb_spec (ACTUAL_FRAME_COUNT s) f).
  { exists s. split_and!; try by unfold same_extent. intros g Hg.
    zcases; try lia; by rewrite ?andb_true_r. }
  pose proof (wf_frame_word s f Hwf ltac:(lia)) as Hw.
  destruct (wf_bitmap_word s (f / 64) Hwf Hw) as (bits & Hb & Hr).
  unfold ptr_read, ptr_write. rewrite Hb. simpl.
  eexists. split; [done|]. split_and!; try by unfold same_extent.
  - apply wf_with_word; [done|]. by apply land_range64.
  - intros g Hg. rewrite used_with_word by done.
    destruct (Z.ltb_spec f (ACTUAL_FRAME_COUNT s)); [|lia]. rewrite andb_true_r.
    destruct (Z.eqb_spec (f / 64) (g / 64)) as [E|E].
    + rewrite Z.land_spec, not64_spec, bit_spec by dlia. unfold used. rewrite <- E, Hb.
      do 2 f_equal. zcases; dlia.
    + zcase; [by subst|]. by rewrite andb_true_r.
Qed.

(** ** Allocation *)

(** [s'] is [s] with the free frame [f] taken. *)
Definition takes (s : frame_state) (f : Z) (s' : frame_state) : Prop :=
  is_free s f /\ frame_wf s' /\ same_extent s s' /\
  forall g, 0 <= g -> used s' g = used s g || (g =? f).

(** A word of the bitmap: the least clear bit, when there is one. *)
Lemma word_lowest_free s w bits :
  frame_wf s -> 0 <= w -> lookupZ (BITMAP s) w = Some bits -> 0 <= bits < two64 ->
  bits <> two64 - 1 ->
  let f := w * 64 + trailing_ones bits in
  f / 64 = w /\ used s f = false /\
  forall g, g / 64 = w -> 0 <= g < f -> used s g = true.
Proof.
  intros Hwf Hw Hb Hr Hne f. destruct (trailing_ones_spec bits Hr Hne) as (H1 & H2 & H3).
  assert (Hf : f / 64 = w) by (subst f; dlia).
  assert (Hm : f mod 64 = trailing_ones bits) by (subst f; dlia).
  split_and!; [done| |].
  - unfold used. by rewrite Hf, Hb, Hm.
  - intros g Hg Hlt. unfold used. rewrite Hg, Hb. apply H2. dlia.
Qed.

Lemma word_full s w :
  lookupZ (BITMAP s) w = Some (two64 - 1) -> forall g, g / 64 = w -> used s g = true.
Proof. intros Hb g Hg. unfold used. rewrite Hg, Hb. apply testbit_ones64. dlia. Qed.

(** What a scan of the words [ws] from [s] returns. *)
Definition scan_post (s : frame_state) (ws : list Z) (r : option Z) (s' : frame_state) : Prop :=
  match r with
  | Some f => f / 64 ∈ ws /\ takes s f s' /\ NEXT_FREE s' = f / 64
  | None => s' = s /\
      forall f, 0 <= f < ACTUAL_FRAME_COUNT s -> f / 64 ∈ ws -> used s f = true
  end.

Lemma scan_post_skip s w ws r s' :
  (forall f, 0 <= f < ACTUAL_FRAME_COUNT s -> f / 64 = w -> used s f = true) ->
  scan_post s ws r s' -> scan_post s (w :: ws) r s'.
Proof.
  intros Hfull. destruct r as [f|]; simpl.
  - intros (? & ? & ?). split_and!; try done. by right.
  - intros (-> & Hall). split; [done|].
    intros f Hf [E|Hin]%elem_of_cons; eauto.
Qed.

Lemma scan_post_hit s f s1 :
  is_free s f -> frame_wf s1 -> same_extent s s1 -> 
  (forall g, 0 <= g -> used s1 g = used s g || ((g =? f) && (f <? ACTUAL_FRAME_COUNT s))) ->
  forall ws, f / 64 ∈ ws ->
  scan_post s ws (Some f) (count_alloc (with_next_free (f / 64) s1)).
Proof.
  intros Hfree [H1 H2 H3 H4 H5 H6] Hext Hused ws Hin. split_and!; [done| |done].
  split; [done|]. split; [|split; [done|]].
  - split; simpl; auto. destruct Hfree. dlia.
  - intros g Hg. specialize (Hused g Hg). destruct Hfree as [[_ Hlt%Z.ltb_lt] _].
    by rewrite Hlt, andb_true_r in Hused.
Qed.

Lemma scan_spec ws s :
  frame_wf s -> Forall (fun w => 0 <= w < ACTUAL_WORDS s) ws ->
  exists r s', scan ws (ACTUAL_FRAME_COUNT s) s = Ret (r, s') /\ scan_post s ws r s'.
Proof.
  intros Hwf. induction ws as [|w ws IH]; intros Hws; simpl.
  { exists None, s. split; [done|]. split; [done|]. intros f _ []%not_elem_of_nil. }
  apply Forall_cons_1 in Hws as [Hw Hws]. destruct (IH Hws) as (r & s' & Hrec & Hspec).
  pose proof (wf_words s Hwf) as Hwords. pose proof (wf_count s Hwf) as Hcount.
  unfold MAX_FRAME_COUNT in Hcount.
  destruct (wf_bitmap_word s w Hwf ltac:(dlia)) as (bits & Hb & Hr).
  unfold ptr_read at 1. rewrite Hb. simpl.
  destruct (Z.eqb_spec bits (two64 - 1)) as [->|Hne].
  { exists r, s'. split; [done|]. apply scan_post_skip; [|done].
    intros f _ Hfw. by eapply word_full. }
  destruct (word_lowest_free s w bits Hwf ltac:(lia) Hb Hr Hne) as (Hfw & Hfree & Hlow).
  set (f := w * 64 + trailing_ones bits) in *.
  destruct (Z.ltb_spec f (ACTUAL_FRAME_COUNT s)) as [Hlt|Hge].
  - assert (0 <= f) by dlia.
    destruct (set_used_spec f s Hwf ltac:(done)) as (s1 & -> & Hwf1 & Hext & _ & Hused).
    rewrite <- Hfw. eexists _, _. split; [done|].
    apply scan_post_hit; try done. by left.
  - exists r, s'. split; [done|]. apply scan_post_skip; [|done].
    intros g Hg Hgw. apply Hlow; [done|lia].
Qed.

(** [allocate_frame] returns; a frame it hands out was free, is taken, and
    is the only one taken; it fails only when no managed frame is free. *)
Lemma allocate_frame_spec s :
  frame_wf s ->
  exists r s', allocate_frame s = Ret (r, s') /\
    match r with
    | Some f => takes s f s'
    | None => s' = s /\ forall f, 0 <= f < ACTUAL_FRAME_COUNT s -> used s f = true
    end.
Proof.
  intros Hwf. unfold allocate_frame.
  pose proof (wf_words s Hwf) as Hwords. pose proof (wf_next s Hwf) as Hnext.
  pose proof (wf_count s Hwf) as Hcount.
  set (start := Z.min (NEXT_FREE s) (ACTUAL_WORDS s)).
  assert (Hst : 0 <= start <= ACTUAL_WORDS s) by (subst start; dlia).
  destruct (scan_spec (seqZ start (ACTUAL_WORDS s - start)) s) as (r1 & s1 & -> & H1); [done| |].
  { apply Forall_seqZ. lia. }
  simpl. destruct r1 as [f|]; [by exists (Some f), s1; destruct H1 as (_ & ? & _)|].
  destruct H1 as [-> Hfull].
  destruct (scan_spec (seqZ 0 start) s) as (r2 & s2 & -> & H2); [done| |].
  { apply Forall_seqZ. lia. }
  exists r2, s2. split; [done|]. destruct r2 as [f|]; [by destruct H2 as (_ & ? & _)|].
  destruct H2 as [-> Hfull2]. split; [done|]. intros f Hf.
  destruct (decide (f / 64 < start)).
  - apply Hfull2; [done|]. apply elem_of_seqZ. dlia.
  - apply Hfull; [done|]. apply elem_of_seqZ. dlia.
Qed.

Lemma takes_free_frames s f s' :
  takes s f s' -> free_frames s' = free_frames s ∖ {[f]}.
Proof.
  intros (Hfree & Hwf & (_ & Hc & _) & Hused). apply set_eq. intros g.
  rewrite elem_of_difference, elem_of_singleton, !elem_of_free_frames.
  unfold is_free. rewrite Hc. split.
  - intros [Hg Hu]. rewrite Hused in Hu by lia. zcase_in Hu; simpl in *.
    + by rewrite orb_true_r in Hu.
    + by rewrite orb_false_r in Hu.
  - intros [[Hg Hu] Hne]. split; [done|]. rewrite Hused, Hu by lia. by zcase.
Qed.

Lemma deallocate_frame_spec f s :
  frame_wf s -> 0 <= f ->
  exists s', deallocate_frame f s = Ret s' /\ frame_wf s' /\ same_extent s s' /\
    free_frames s' = if f <? ACTUAL_FRAME_COUNT s then free_frames s ∪ {[f]} else free_frames s.
Proof.
  intros Hwf Hf. unfold deallocate_frame.
  destruct (Z.leb_spec (ACTUAL_FRAME_COUNT s) f).
  { exists s. split_and!; try by unfold same_extent. zcase; [lia|done]. }
  destruct (set_free_spec f s Hwf Hf) as (s1 & -> & Hwf1 & Hext & _ & Hused).
  exists (count_frame_free s1). split; [done|].
  destruct (Z.ltb_spec f (ACTUAL_FRAME_COUNT s)) as [Hlt|]; [|lia].
  split; [by destruct Hwf1; split|]. split; [done|].
  apply set_eq. intros g. rewrite elem_of_union, elem_of_singleton, !elem_of_free_frames.
  unfold is_free. simpl. destruct Hext as (_ & -> & _).
  assert (0 <= g -> used (count_frame_free s1) g = used s g && negb (g =? f)) as Hu.
  { intros Hg. specialize (Hused g Hg). by rewrite andb_true_r in Hused. }
  split.
  - intros [Hg E]. rewrite Hu in E by lia. destruct (Z.eqb_spec g f); [by right|].
    left. by rewrite andb_true_r in E.
  - intros [[Hg E]| ->]; (split; [lia|]); rewrite Hu by lia; [by rewrite E|].
    rewrite Z.eqb_refl. apply andb_false_r.
Qed.

(** ** Counting *)

Lemma free_in_word_spec s free w :
  frame_wf s -> 0 <= w < ACTUAL_WORDS s ->
  free_in_word s free w =
    Ret (free + countb (fun f => Bool.eqb (used s f) false) (w * 64)
                  (Z.to_nat (Z.min 64 (ACTUAL_FRAME_COUNT s - w * 64)))).
Proof.
  intros Hwf Hw. pose proof (wf_words s Hwf). pose proof (wf_count s Hwf) as Hc.
  unfold MAX_FRAME_COUNT in Hc.
  destruct (wf_bitmap_word s w Hwf ltac:(dlia)) as (bits & Hb & Hr).
  unfold free_in_word, ptr_read. rewrite Hb. simpl. do 2 f_equal.
  set (v := Z.min 64 (ACTUAL_FRAME_COUNT s - w * 64)).
  assert (Hv : 0 < v <= 64) by (subst v; dlia).
  set (x := if _ <? _ then _ else _).
  assert (Hx : forall i, 0 <= i < 64 -> Z.testbit x i = negb (Z.testbit bits i) && (i <? v)).
  { intros i Hi. subst x v. destruct (Z.ltb_spec (ACTUAL_FRAME_COUNT s) (w * 64 + 64)).
    - rewrite Z.land_spec, not64_spec by done. f_equal. unfold bit.
      rewrite Z.shiftl_mul_pow2, Z.mul_1_l by lia. rewrite Z.sub_1_r, <- Z.ones_equiv.
      zcase; [apply Z.ones_spec_low|apply Z.ones_spec_high]; lia.
    - rewrite not64_spec by done. zcase; [by rewrite andb_true_r|lia]. }
  unfold count_ones. replace 64%nat with (Z.to_nat v + Z.to_nat (64 - v))%nat by lia.
  rewrite countb_app, (countb_none _ _ (Z.to_nat (64 - v))), Z.add_0_r.
  - apply countb_ext. intros i Hi. simpl. rewrite Hx by lia. unfold used.
    replace ((w * 64 + i) / 64) with w by dlia. rewrite Hb.
    replace ((w * 64 + i) mod 64) with i by dlia.
    zcase; [|lia]. rewrite Z.add_0_l. by destruct (Z.testbit bits i).
  - intros i Hi. rewrite Hx by lia. zcase; [lia|]. apply andb_false_r.
Qed.

Lemma free_in_words_spec s (k : nat) w acc :
  frame_wf s -> 0 <= w -> w + Z.of_nat k = ACTUAL_WORDS s -> 
  free_in_words s (seqZ w (Z.of_nat k)) acc =
    Ret (acc + countb (fun f => Bool.eqb (used s f) false) (w * 64)
                  (Z.to_nat (ACTUAL_FRAME_COUNT s - w * 64))).
Proof.
  intros Hwf. revert w acc. induction k as [|k IH]; intros w acc Hw Hk.
  { pose proof (wf_words s Hwf). rewrite seqZ_nil by lia. simpl.
    replace (Z.to_nat _) with 0%nat by dlia. simpl. f_equal. lia. }
  rewrite seqZ_cons by lia. simpl. rewrite free_in_word_spec by (done || lia). simpl.
  replace (Z.pred (Z.of_nat (S k))) with (Z.of_nat k) by lia.
  rewrite IH by lia. f_equal. rewrite <- Z.add_assoc. f_equal.
  pose proof (wf_words s Hwf). pose proof (wf_count s Hwf).
  destruct k as [|k].
  - replace (Z.to_nat (ACTUAL_FRAME_COUNT s - Z.succ w * 64)) with 0%nat by dlia.
    rewrite Z.add_0_r. f_equal. dlia.
  - replace (Z.to_nat (ACTUAL_FRAME_COUNT s - w * 64)) with
      (Z.to_nat (Z.min 64 (ACTUAL_FRAME_COUNT s - w * 64)) +
       Z.to_nat (ACTUAL_FRAME_COUNT s - Z.succ w * 64))%nat by dlia.
    rewrite countb_app. f_equal. f_equal. dlia.
Qed.

Lemma free_frame_count_spec s :
  frame_wf s -> free_frame_count s = Ret (Z.of_nat (size (free_frames s))).
Proof.
  intros Hwf. unfold free_frame_count. pose proof (wf_words s Hwf).
  pose proof (wf_count s Hwf).
  rewrite <- (Z2Nat.id (ACTUAL_WORDS s)), free_in_words_spec by (done || dlia).
  rewrite size_free_frames. unfold free_list. rewrite countb_filter.
  simpl. by rewrite Z.sub_0_r.
Qed.

(** ** Marking ranges, boot *)

Lemma set_used_all_spec fs s :
  frame_wf s -> Forall (fun f => 0 <= f) fs ->
  exists s', set_used_all fs s = Ret s' /\ frame_wf s' /\ same_extent s s' /\
    NEXT_FREE s' = NEXT_FREE s /\
    forall g, 0 <= g ->
      (used s' g = true <-> used s g = true \/ (g ∈ fs /\ g < ACTUAL_FRAME_COUNT s)).
Proof.
  intros Hwf Hfs. revert s Hwf. induction Hfs as [|f fs Hf _ IH]; intros s Hwf; simpl.
  { exists s. split_and!; try by unfold same_extent. intros g _.
    rewrite elem_of_nil. tauto. }
  destruct (set_used_spec f s Hwf Hf) as (s1 & -> & Hwf1 & (E1 & E2 & E3) & Hn1 & Hu1).
  simpl. destruct (IH s1 Hwf1) as (s2 & -> & Hwf2 & (E1' & E2' & E3') & Hn2 & Hu2).
  exists s2. do 2 (split; [done|]).
  split; [unfold same_extent; split_and!; congruence|]. split; [congruence|].
  intros g Hg. rewrite Hu2, Hu1, E2, elem_of_cons by done.
  rewrite orb_true_iff, andb_true_iff, Z.eqb_eq, Z.ltb_lt.
  split; [intros [[?|[-> ?]]|[? ?]]|intros [?|[[->|?] ?]]]; tauto.
Qed.

Lemma mark_used_spec start end_ s :
  frame_wf s -> 0 <= start -> end_ < two64 ->
  exists s', mark_used start end_ s = Ret s' /\ frame_wf s' /\ same_extent s s' /\
    NEXT_FREE s' = NEXT_FREE s /\
    forall g, 0 <= g ->
      (used s' g = true <->
       used s g = true \/
       (g < ACTUAL_FRAME_COUNT s /\ start < TOTAL_RAM s /\
        g * 4096 < end_ /\ start < (g + 1) * 4096 /\ start < end_)).
Proof.
  intros Hwf Hs He. unfold mark_used, RAM_BASE.
  destruct (Z.leb_spec end_ start); simpl.
  { exists s. split_and!; try by unfold same_extent. intros; intuition lia. }
  rewrite Z.add_0_l. destruct (Z.leb_spec (TOTAL_RAM s) start); simpl.
  { exists s. split_and!; try by unfold same_extent. intros; intuition lia. }
  set (first := frame_of start). set (last := Z.min _ _).
  assert (Hfirst : first = start / 4096).
  { subst first. unfold frame_of, saturating_sub, FRAME_SIZE, RAM_BASE. f_equal. lia. }
  assert (Hlast : last = Z.min ((end_ - 1) / 4096) (u64 (ACTUAL_FRAME_COUNT s - 1))).
  { subst last. unfold frame_of, saturating_sub, FRAME_SIZE, RAM_BASE. do 2 f_equal. lia. }
  destruct (set_used_all_spec (seqZ first (last - first + 1)) s) as
    (s' & -> & Hwf' & Hext & Hn & Hu); [done|apply Forall_seqZ; dlia|].
  exists s'. split_and!; try done. intros g Hg. rewrite Hu, elem_of_seqZ by done.
  pose proof (wf_count s Hwf) as Hc. unfold MAX_FRAME_COUNT, MAX_WORDS in Hc.
  assert (ACTUAL_FRAME_COUNT s <> 0 -> u64 (ACTUAL_FRAME_COUNT s - 1) = ACTUAL_FRAME_COUNT s - 1).
  { intros. apply u64_small. lia. }
  apply or_iff_compat_l. destruct (decide (ACTUAL_FRAME_COUNT s = 0)) as [E|E].
  - lia.
  - rewrite Hfirst, Hlast, H1 by done. split; intros; split_and!; dlia.
Qed.

Lemma zero_words_spec ws s :
  frame_wf s -> Forall (fun w => 0 <= w < MAX_WORDS) ws ->
  exists s', zero_words ws s = Ret s' /\ frame_wf s' /\ same_extent s s' /\
    NEXT_FREE s' = NEXT_FREE s /\
    forall g, g / 64 ∈ ws \/ used s g = false -> used s' g = false.
Proof.
  revert s. induction ws as [|w ws IH]; intros s Hwf Hws; simpl.
  { exists s. split_and!; try by unfold same_extent.
    intros g [[]%not_elem_of_nil|?]; done. }
  apply Forall_cons_1 in Hws as [Hw Hws].
  rewrite ptr_write_lt by (rewrite (wf_len s Hwf); lia). simpl.
  destruct (IH (with_bitmap (insertZ w 0 (BITMAP s)) s)) as
    (s' & -> & Hwf' & Hext & Hn & Hu); [by apply wf_with_word|done|].
  exists s'. split_and!; try done. intros g Hg. apply Hu.
  rewrite used_with_word, Z.bits_0 by done. rewrite elem_of_cons in Hg.
  zcase; [by right|]. destruct Hg as [[?|?]|?]; [by subst|by left|by right].
Qed.

Lemma set_total_ram_wf size s : frame_wf s -> 0 <= size -> frame_wf (set_total_ram size s).
Proof.
  intros [H1 H2 H3 H4 H5 H6] Hsz. unfold set_total_ram, FRAME_SIZE.
  split; simpl; try done; unfold MAX_FRAME_COUNT, MAX_WORDS in *; dlia.
Qed.

Lemma reinit_wf size s : frame_wf s -> 0 <= size -> frame_wf (reinit size s).
Proof.
  intros Hwf Hsz. pose proof (set_total_ram_wf size s Hwf Hsz) as [H1 H2 H3 H4 H5 H6].
  unfold reinit. simpl in *. unfold MAX_FRAME_COUNT, MAX_WORDS, FRAME_SIZE in *.
  destruct (Z.ltb_spec 32768 ((Z.min size (32768 * 64 * 4096) / 4096 + 63) / 64));
    split; simpl; try done; unfold MAX_FRAME_COUNT, MAX_WORDS; dlia.
Qed.

Lemma boot_frame_state_wf : frame_wf boot_frame_state.
Proof.
  split; try done. apply Forall_replicate. lia.
Qed.

(** What [init] leaves: exactly the frames from the end of the kernel image
    and from 1 MiB on are free. *)
Lemma init_spec kernel_end s :
  frame_wf s -> 0 <= kernel_end < two64 ->
  let s0 := if TOTAL_RAM s =? 0 then set_total_ram (Z.shiftl 1 30) s else s in
  exists s', init kernel_end s = Ret s' /\ frame_wf s' /\ same_extent s0 s' /\
    forall f, is_free s' f <->
      f < ACTUAL_FRAME_COUNT s0 /\ kernel_end <= f * 4096 /\ 0x100000 <= f * 4096.
Proof.
  intros Hwf Hk s0. unfold init. fold s0.
  assert (Hwf0 : frame_wf s0) by (subst s0; zcase; [by apply set_total_ram_wf|done]).
  assert (Hram : 0 < TOTAL_RAM s0).
  { pose proof (wf_ram s Hwf). subst s0. zcase; [done|lia]. }
  pose proof (wf_words s0 Hwf0) as Hw0. pose proof (wf_count s0 Hwf0) as Hc0.
  unfold MAX_FRAME_COUNT in Hc0.
  destruct (zero_words_spec (seqZ 0 (ACTUAL_WORDS s0)) s0) as
    (s1 & -> & Hwf1 & (E1 & E2 & E3) & _ & Hu1); [done|apply Forall_seqZ; dlia|]. simpl.
  destruct (mark_used_spec RAM_BASE kernel_end s1) as
    (s2 & -> & Hwf2 & (E1' & E2' & E3') & _ & Hu2); [done|done|lia|]. simpl.
  destruct (mark_used_spec 0 0x100000 s2) as
    (s3 & -> & Hwf3 & (E1'' & E2'' & E3'') & _ & Hu3); [done|done|lia|]. simpl.
  eexists. split; [done|]. split.
  { destruct Hwf3. split; simpl; try done. unfold frame_of, saturating_sub, RAM_BASE, FRAME_SIZE. dlia. }
  split; [unfold same_extent; simpl; split_and!; congruence|].
  intros f. unfold is_free. simpl.
  change (used (with_next_free _ s3) f) with (used s3 f).
  rewrite <- not_true_iff_false, E2'', E2', E2. split.
  - intros [Hf Hnu]. rewrite Hu3, Hu2 in Hnu by lia. unfold RAM_BASE in *. lia.
  - intros (Hf & Hke & Hmb). split; [lia|]. rewrite Hu3, Hu2 by lia.
    rewrite Hu1 by (left; apply elem_of_seqZ; dlia). unfold RAM_BASE. intros [[?|?]|?]; [done|lia|lia].
Qed.

(** ** The interface of the allocator

    What the page-table and task code relies on. *)

Class FrameAllocator (A : Type) : Type := {
  fa_alloc : A -> outcome (option Z * A);
  fa_dealloc : Z -> A -> outcome A;
  fa_inv : A -> Prop;
  fa_free : A -> gset Z;
  fa_limit : A -> Z;
  fa_alloc_ok : forall a, fa_inv a ->
    exists r a', fa_alloc a = Ret (r, a') /\ fa_inv a' /\ fa_limit a' = fa_limit a /\
      match r with
      | Some f => f ∈ fa_free a /\ fa_free a' = fa_free a ∖ {[f]}
      | None => fa_free a = ∅ /\ a' = a
      end;
  fa_dealloc_ok : forall f a, fa_inv a -> 0 <= f < fa_limit a ->
    exists a', fa_dealloc f a = Ret a' /\ fa_inv a' /\ fa_limit a' = fa_limit a /\
      fa_free a' = fa_free a ∪ {[f]};
  fa_free_range : forall f a, fa_inv a -> f ∈ fa_free a -> 0 <= f < fa_limit a;
  fa_limit_range : forall a, fa_inv a -> fa_limit a <= MAX_FRAME_COUNT;
}.

#[global] Program Instance bitmap_allocator : FrameAllocator frame_state := {|
  fa_alloc := allocate_frame;
  fa_dealloc := deallocate_frame;
  fa_inv := frame_wf;
  fa_free := free_frames;
  fa_limit := ACTUAL_FRAME_COUNT;
|}.
Next Obligation.
  intros s Hwf. destruct (allocate_frame_spec s Hwf) as ([f|] & s' & -> & H).
  - exists (Some f), s'. pose proof (takes_free_frames _ _ _ H).
    destruct H as (? & ? & (_ & ? & _) & _). by rewrite elem_of_free_frames.
  - destruct H as [-> Hall]. exists None, s. split_and!; try done.
    apply set_eq. intros f. rewrite elem_of_free_frames. unfold is_free.
    split; [|intros []%not_elem_of_empty]. intros [Hf Hu]. by rewrite Hall in Hu.
Qed.
Next Obligation.
  intros f s Hwf Hf. destruct (deallocate_frame_spec f s Hwf) as (s' & -> & ? & (_ & ? & _) & Hfree); [lia|].
  exists s'. split_and!; try done. rewrite Hfree. zcase; [done|lia].
Qed.
Next Obligation. intros f s _ Hf%elem_of_free_frames. apply Hf. Qed.
Next Obligation. intros s Hwf. apply (wf_count s Hwf). Qed.

(** A client of the allocator: the frames it holds are those it was given
    and has not returned. *)
Section clients.
  Context {A : Type} `{FrameAllocator A}.

Inductive client_step : A * gset Z -> A * gset Z -> Prop :=
| client_alloc a f a' own :
    fa_alloc a = Ret (Some f, a') -> client_step (a, own) (a', own ∪ {[f]})
| client_exhausted a a' own :
    fa_alloc a = Ret (None, a') -> client_step (a, own) (a', own)
| client_free a f a' own :
    f ∈ own -> fa_dealloc f a = Ret a' -> client_step (a, own) (a', own ∖ {[f]}).

(** The frames held and the free frames partition [pool]. *)
Definition conserved (pool : gset Z) (c : A * gset Z) : Prop :=
  fa_inv c.1 /\ c.2 ## fa_free c.1 /\ c.2 ∪ fa_free c.1 = pool /\
  (forall f, f ∈ pool -> 0 <= f < fa_limit c.1).

Lemma client_step_conserved pool c c' :
  client_step c c' -> conserved pool c -> conserved pool c'.
Proof.
  intros Hstep (Hinv & Hdisj & Hpool & Hrange).
  destruct Hstep as [a f a' own Ha|a a' own Ha|a f a' own Hf Ha]; simpl in *.
  - destruct (fa_alloc_ok a Hinv) as (r & a1 & E & Hinv' & Hl & Hr).
    rewrite Ha in E. simplify_eq.
    destruct Hr as [Hin Hfree]. unfold conserved; simpl. rewrite Hfree, Hl.
    split_and!; [done|set_solver| |done].
    apply set_eq. intros g. destruct (decide (g = f)); set_solver.
  - destruct (fa_alloc_ok a Hinv) as (r & a1 & E & Hinv' & Hl & Hr).
    rewrite Ha in E. simplify_eq.
    destruct Hr as [_ Ha']. by subst.
  - destruct (fa_dealloc_ok f a Hinv) as (a1 & E & Hinv' & Hl & Hfree); [set_solver|].
    rewrite Ha in E. simplify_eq. unfold conserved; simpl. rewrite Hfree, Hl.
    split_and!; [done|set_solver| |done].
    apply set_eq. intros g. destruct (decide (g = f)); set_solver.
Qed.

Lemma clients_conserved pool c c' :
  rtc client_step c c' -> conserved pool c -> conserved pool c'.
Proof. induction 1; eauto using client_step_conserved. Qed.
End clients.

(** ** Properties *)

(** A concrete machine: 100 frames of RAM, nothing allocated yet. *)
Definition machine_100 : frame_state := set_total_ram (100 * 4096) boot_frame_state.
Lemma machine_100_wf : frame_wf machine_100.
Proof. apply set_total_ram_wf; [apply boot_frame_state_wf|lia]. Qed.

(** C2: [allocate_frame] implements the abstract allocator whose state is the
    set of free frames: on every well-formed state it returns without a panic
    or an out-of-bounds access, keeps the state well-formed, and either hands
    out a frame of the set and removes exactly it, or fails because the set
    is empty and changes nothing. *)
Theorem allocate_frame_refines s :
  frame_wf s ->
  exists r s', allocate_frame s = Ret (r, s') /\ frame_wf s' /\ same_extent s s' /\
    match r with
    | Some f => f ∈ free_frames s /\ free_frames s' = free_frames s ∖ {[f]}
    | None => free_frames s = ∅ /\ s' = s
    end.
Proof.
  intros Hwf. destruct (@fa_alloc_ok _ bitmap_allocator s Hwf) as (r & s' & E & Hwf' & _ & Hr).
  destruct (allocate_frame_spec s Hwf) as (r1 & s1 & E1 & H1).
  exists r, s'. simpl in E. split; [done|]. split; [done|]. split; [|done].
  rewrite E1 in E. simplify_eq. destruct r as [f|]; [apply H1|].
  destruct H1 as [-> _]. by unfold same_extent.
Qed.

Lemma allocate_frame_refines_witness :
  frame_wf machine_100 /\
  exists r s', allocate_frame machine_100 = Ret (r, s') /\ frame_wf s' /\
    same_extent machine_100 s' /\
    match r with
    | Some f => f ∈ free_frames machine_100 /\ free_frames s' = free_frames machine_100 ∖ {[f]}
    | None => free_frames machine_100 = ∅ /\ s' = machine_100
    end.
Proof.
  split; [apply machine_100_wf|]. apply allocate_frame_refines, machine_100_wf.
Defined.

(** Frames are conserved: whatever sequence of allocations and returns of
    held frames a client performs, no frame is handed out twice, none is
    lost, and returning everything restores the pool.  The held frames and
    the free frames always partition the frames that were free at the start. *)
Theorem frames_conserved s s' (own : gset Z) :
  frame_wf s -> rtc client_step (s, ∅) (s', own) ->
  frame_wf s' /\ own ## free_frames s' /\ own ∪ free_frames s' = free_frames s.
Proof.
  intros Hwf Hrun.
  destruct (clients_conserved (free_frames s) _ _ Hrun) as (H1 & H2 & H3 & _).
  - split; [done|]. simpl. split_and!; [set_solver|set_solver|].
    intros f Hf%elem_of_free_frames. apply Hf.
  - done.
Qed.

Lemma frames_conserved_witness :
  exists s' (own : gset Z), rtc client_step (machine_100, ∅) (s', own) /\
    frame_wf s' /\ own ## free_frames s' /\ own ∪ free_frames s' = free_frames machine_100.
Proof.
  destruct (allocate_frame_spec machine_100 machine_100_wf) as ([f|] & s1 & E & H1).
  - exists s1, (∅ ∪ {[f]}).
    assert (rtc client_step (machine_100, ∅) (s1, ∅ ∪ {[f]})) as Hrun.
    { apply rtc_once. by constructor. }
    split; [done|]. apply (frames_conserved machine_100 s1 _ machine_100_wf Hrun).
  - exists machine_100, ∅. split; [constructor|].
    apply (frames_conserved machine_100 machine_100 ∅ machine_100_wf (rtc_refl _ _)).
Defined.

(** [free_frame_count] returns the number of free frames, the partial
    last word included. *)
Theorem free_frame_count_correct s :
  frame_wf s -> free_frame_count s = Ret (Z.of_nat (size (free_frames s))).
Proof. apply free_frame_count_spec. Qed.

Lemma free_frame_count_correct_witness :
  free_frame_count machine_100 = Ret 100 /\ Z.of_nat (size (free_frames machine_100)) = 100.
Proof.
  pose proof (free_frame_count_correct machine_100 machine_100_wf) as H.
  assert (E : free_frame_count machine_100 = Ret 100) by (vm_compute; reflexivity).
  split; [exact E|]. rewrite E in H. symmetry. exact (Ret_inj _ _ H).
Defined.

(** After [init], the frames open to allocation are exactly the managed
    ones that lie wholly beyond the kernel image and beyond the first MiB. *)
Theorem init_free_frames kernel_end s :
  frame_wf s -> 0 <= kernel_end < two64 -> TOTAL_RAM s = 0 ->
  exists s', init kernel_end s = Ret s' /\ frame_wf s' /\ TOTAL_RAM s' = 2 ^ 30 /\
    forall f, f ∈ free_frames s' <->
      f < 2 ^ 18 /\ kernel_end <= f * FRAME_SIZE /\ 0x100000 <= f * FRAME_SIZE.
Proof.
  intros Hwf Hk Hram. pose proof (init_spec kernel_end s Hwf Hk) as H.
  rewrite Hram in H. simpl in H. destruct H as (s' & E & Hwf' & (_ & _ & Er) & Hfree).
  exists s'. split_and!; [done|done|by rewrite Er|]. intros f.
  rewrite elem_of_free_frames. apply Hfree.
Qed.

Lemma init_free_frames_witness :
  exists s', init 0x400800 boot_frame_state = Ret s' /\ (0x400 ∉ free_frames s') /\ 0x401 ∈ free_frames s'.
Proof.
  destruct (init_free_frames 0x400800 boot_frame_state boot_frame_state_wf ltac:(lia) eq_refl)
    as (s' & E & _ & _ & Hf).
  exists s'. split; [exact E|]. rewrite !Hf. unfold FRAME_SIZE. split; lia.
Defined.

(** [mark_used] marks exactly the managed frames that overlap the byte
    range, whole or in part, and nothing when the range starts beyond RAM. *)
Theorem mark_used_exact start end_ s :
  frame_wf s -> 0 <= start -> end_ < two64 ->
  exists s', mark_used start end_ s = Ret s' /\ frame_wf s' /\
    free_frames s' =
      filter (fun f => ~ (start < TOTAL_RAM s /\ f * FRAME_SIZE < end_ /\
                          start < (f + 1) * FRAME_SIZE /\ start < end_)) (free_frames s).
Proof.
  intros Hwf Hs He. destruct (mark_used_spec start end_ s Hwf Hs He) as
    (s' & E & Hwf' & (_ & Hc & _) & _ & Hu).
  exists s'. split_and!; [done|done|]. apply set_eq. intros f.
  rewrite elem_of_filter, !elem_of_free_frames. unfold is_free, FRAME_SIZE.
  rewrite Hc, <- !not_true_iff_false. split.
  - intros [Hf Hn]. rewrite Hu in Hn by lia. tauto.
  - intros (Hn & Hf & Hu'). split; [done|]. rewrite Hu by lia. tauto.
Qed.

Lemma mark_used_exact_witness :
  exists s', mark_used 0x1800 0x3001 machine_100 = Ret s' /\
    0 ∈ free_frames s' /\ (1 ∉ free_frames s') /\ (3 ∉ free_frames s') /\ 4 ∈ free_frames s'.
Proof.
  destruct (mark_used_exact 0x1800 0x3001 machine_100 machine_100_wf ltac:(lia) ltac:(lia))
    as (s' & E & _ & Hf).
  assert (Hfree : forall f, 0 <= f < 100 -> f ∈ free_frames machine_100).
  { intros f Hf'. apply elem_of_free_frames. split; [exact Hf'|].
    unfold used. change (BITMAP machine_100) with (replicate (Z.to_nat MAX_WORDS) 0).
    rewrite lookupZ_replicate; [apply Z.bits_0|unfold MAX_WORDS; dlia]. }
  exists s'. split; [exact E|]. rewrite Hf, !elem_of_filter. unfold FRAME_SIZE.
  change (TOTAL_RAM machine_100) with 409600. cbn beta.
  split_and!; first [lia | apply Hfree; lia | intros [Hn _]; lia].
Defined.

(** [reinit] rounds the managed frame count up to a whole bitmap word, so
    unless the RAM size is a multiple of 64 frames the frame just past the
    end of RAM becomes allocatable. *)
Theorem reinit_manages_past_ram size s :
  frame_wf s -> 0 <= size <= MAX_FRAME_COUNT * FRAME_SIZE ->
  (size / FRAME_SIZE) mod 64 <> 0 -> used s (size / FRAME_SIZE) = false ->
  let s' := reinit size s in
  TOTAL_RAM s' = size /\ frame_wf s' /\
  size / FRAME_SIZE ∈ free_frames s' /\
  TOTAL_RAM s' < start_address (size / FRAME_SIZE) + FRAME_SIZE.
Proof.
  intros Hwf Hsz Hm Hu s'.
  assert (Hram : TOTAL_RAM s' = size).
  { subst s'. unfold reinit. zcase; simpl; lia. }
  assert (Hc : size / FRAME_SIZE < ACTUAL_FRAME_COUNT s').
  { subst s'. unfold reinit. simpl. rewrite Z.min_l by lia.
    unfold MAX_FRAME_COUNT, MAX_WORDS, FRAME_SIZE in *. zcase; simpl; dlia. }
  split_and!; [done|apply reinit_wf; [done|lia]| |].
  - rewrite elem_of_free_frames. split; [unfold FRAME_SIZE in *; dlia|].
    subst s'. unfold reinit. by zcase.
  - rewrite Hram. unfold start_address, RAM_BASE, MAX_FRAME_COUNT, MAX_WORDS, FRAME_SIZE in *.
    rewrite u64_small; dlia.
Qed.

Lemma reinit_manages_past_ram_witness :
  100 ∈ free_frames (reinit (100 * 4096) boot_frame_state) /\
  TOTAL_RAM (reinit (100 * 4096) boot_frame_state) = 100 * 4096.
Proof.
  destruct (reinit_manages_past_ram (100 * 4096) boot_frame_state boot_frame_state_wf
    ltac:(unfold MAX_FRAME_COUNT, MAX_WORDS, FRAME_SIZE; lia) ltac:(vm_compute; lia)
    ltac:(vm_compute; reflexivity)) as (Hr & _ & Hf & _).
  split; [exact Hf|exact Hr].
Defined.
