(* ===== verification/Heap.v ===== *)
(** * The kernel heap (src/src/allocator.rs, src/src/heap.rs)

    A bump allocator carves the heap; blocks of up to 2048 bytes are kept on
    free lists, one per block size, threaded through the freed blocks
    themselves.  [mem] holds the word at an address, which is how a free
    block stores the next one. *)

From S2P Require Import Prelude.

(** [core::alloc::Layout]: a size and an alignment. *)
Record Layout : Type := mk_layout { size : Z; align : Z }.

(** What the type guarantees of its values, and [GlobalAlloc::alloc] of its
    argument: a power-of-two alignment, a size that is positive and does not
    exceed [isize::MAX] when rounded up to the alignment. *)
Definition layout_ok (l : Layout) : Prop :=
  (exists k, 0 <= k < 63 /\ align l = 2 ^ k) /\ 0 < size l /\ size l + align l - 1 < two63.

Record BumpAllocator : Type := mk_bump { next : Z; end_ : Z }.
Definition bump_new : BumpAllocator := mk_bump 0 0.
Definition bump_init (start sz : Z) : BumpAllocator := mk_bump start (u64 (start + sz)).

(** A null pointer is 0. *)
Definition bump_alloc (l : Layout) (b : BumpAllocator) : Z * BumpAllocator :=
  let aligned_start := Z.land (u64 (next b + align l - 1)) (not64 (align l - 1)) in
  let allocated_end := u64 (aligned_start + size l) in
  if end_ b <? allocated_end then (0, b)
  else (aligned_start, mk_bump allocated_end (end_ b)).

Definition BLOCK_SIZES : list Z := [8; 16; 32; 64; 128; 256; 512; 1024; 2048].

Record FixedBlockAllocator : Type := mk_alloc {
  list_heads : list Z;
  bump : BumpAllocator;
  mem : gmap Z Z; (* the [next] field of the block node at an address *)
}.

Definition allocator_new : FixedBlockAllocator :=
  mk_alloc (replicate (length BLOCK_SIZES) 0) bump_new ∅.
Definition allocator_init (heap_start heap_size : Z) (a : FixedBlockAllocator) : FixedBlockAllocator :=
  mk_alloc (list_heads a) (bump_init heap_start heap_size) (mem a).

(** [iter().position(|&s| s >= required_size)]. *)
Fixpoint position_ge (sizes : list Z) (required i : Z) : option Z :=
  match sizes with
  | [] => None
  | s :: sizes' => if required <=? s then Some i else position_ge sizes' required (i + 1)
  end.
Definition get_block_index (l : Layout) : option Z :=
  position_ge BLOCK_SIZES (Z.max (size l) (align l)) 0.

Definition alloc (l : Layout) (a : FixedBlockAllocator) : outcome (Z * FixedBlockAllocator) :=
  match get_block_index l with
  | Some i =>
      current_head ← index (list_heads a) i;
      if negb (current_head =? 0) then
        let nxt := default 0 (mem a !! current_head) in
        hs ← assign (list_heads a) i nxt;
        Ret (current_head, mk_alloc hs (bump a) (mem a))
      else
        block_size ← index BLOCK_SIZES i;
        let '(p, b) := bump_alloc (mk_layout block_size block_size) (bump a) in
        Ret (p, mk_alloc (list_heads a) b (mem a))
  | None =>
      let '(p, b) := bump_alloc l (bump a) in
      Ret (p, mk_alloc (list_heads a) b (mem a))
  end.

Definition dealloc (p : Z) (l : Layout) (a : FixedBlockAllocator) : outcome FixedBlockAllocator :=
  match get_block_index l with
  | Some i =>
      head ← index (list_heads a) i;
      hs ← assign (list_heads a) i p;
      Ret (mk_alloc hs (bump a) (<[p := head]> (mem a)))
  | None => Ret a
  end.

Definition HEAP_SIZE : Z := 64 * 1024.
Definition init_heap (heap_start : Z) : FixedBlockAllocator :=
  allocator_init heap_start HEAP_SIZE allocator_new.

(** ** Programs that use the heap

    [live] are the blocks a program holds.  Besides allocating and freeing
    them it may write anything anywhere inside them. *)

Abbreviation live_blocks := (list (Z * Layout)).

Inductive heap_step : FixedBlockAllocator * live_blocks -> FixedBlockAllocator * live_blocks -> Prop :=
| heap_alloc a live l p a' :
    layout_ok l -> alloc l a = Ret (p, a') -> p <> 0 ->
    heap_step (a, live) (a', (p, l) :: live)
| heap_alloc_null a live l a' :
    layout_ok l -> alloc l a = Ret (0, a') -> heap_step (a, live) (a', live)
| heap_dealloc a live1 p l live2 a' :
    dealloc p l a = Ret a' ->
    heap_step (a, live1 ++ (p, l) :: live2) (a', live1 ++ live2)
| heap_write a live p l x v :
    (p, l) ∈ live -> p <= x < p + size l ->
    heap_step (a, live) (mk_alloc (list_heads a) (bump a) (<[x := v]> (mem a)), live).

(** ** Block sizes *)

Definition class_size (i : Z) : Z := 2 ^ (i + 3).

Lemma block_sizes_spec i : 0 <= i < 9 -> lookupZ BLOCK_SIZES i = Some (class_size i).
Proof.
  intros Hi. assert (i = 0 \/ i = 1 \/ i = 2 \/ i = 3 \/ i = 4 \/ i = 5 \/ i = 6 \/ i = 7 \/ i = 8) by lia.
  by repeat (destruct H as [->|H] || subst).
Qed.

Lemma position_ge_spec sizes required i0 i :
  position_ge sizes required i0 = Some i ->
  exists s, lookupZ sizes (i - i0) = Some s /\ required <= s /\ i0 <= i < i0 + lenZ sizes.
Proof.
  revert i0. induction sizes as [|s sizes IH]; simpl; intros i0 H; [done|].
  rewrite lenZ_cons. pose proof (lenZ_nonneg sizes). destruct (Z.leb_spec required s).
  - injection H as <-. exists s. rewrite Z.sub_diag. split_and!; [done|done|lia|lia].
  - destruct (IH _ H) as (s' & Hs' & Hr & Hi). exists s'. split_and!; [|done|lia|lia].
    revert Hs'. unfold lookupZ. zcases; try lia.
    by replace (Z.to_nat (i - i0)) with (S (Z.to_nat (i - (i0 + 1)))) by lia.
Qed.

Lemma get_block_index_spec l i :
  get_block_index l = Some i -> 0 <= i < 9 /\ Z.max (size l) (align l) <= class_size i.
Proof.
  intros (s & Hs & Hr & Hi)%position_ge_spec. rewrite Z.sub_0_r in Hs.
  change (lenZ BLOCK_SIZES) with 9 in Hi. rewrite block_sizes_spec in Hs by lia.
  simplify_eq. split; [lia|done].
Qed.

(** What a block of layout [l] occupies. *)
Definition extent (l : Layout) : Z :=
  match get_block_index l with Some i => class_size i | None => size l end.

Lemma extent_ge l : size l <= extent l.
Proof.
  unfold extent. destruct (get_block_index l) as [i|] eqn:E; [|done].
  apply get_block_index_spec in E. lia.
Qed.

Lemma class_size_pos i : 0 <= i -> 8 <= class_size i.
Proof. intros. unfold class_size. rewrite Z.pow_add_r by lia. pose proof (Z.pow_pos_nonneg 2 i). lia. Qed.

(** A block aligned to its class is aligned for every layout of the class. *)
Lemma class_aligned l i p :
  layout_ok l -> get_block_index l = Some i -> (class_size i | p) -> (align l | p).
Proof.
  intros ((k & Hk & Ha) & _) Hi Hp. apply get_block_index_spec in Hi as [Hi Hle].
  rewrite Ha in *. apply Z.divide_trans with (class_size i); [|done].
  unfold class_size in *. assert (k <= i + 3).
  { apply (Z.pow_le_mono_r_iff 2); lia. }
  exists (2 ^ (i + 3 - k)). rewrite <- Z.pow_add_r by lia. f_equal. lia.
Qed.

(** ** Invariant *)

(** [h] heads the linked list [l] of free blocks. *)
Fixpoint chain (m : gmap Z Z) (h : Z) (l : list Z) : Prop :=
  match l with
  | [] => h = 0
  | p :: l' => h = p /\ p <> 0 /\ chain m (default 0 (m !! p)) l'
  end.

Lemma chain_insert m h l x v : x ∉ l -> chain m h l -> chain (<[x := v]> m) h l.
Proof.
  revert h. induction l as [|p l IH]; intros h Hx; simpl; [done|].
  apply not_elem_of_cons in Hx as [Hne Hx]. intros (-> & Hp & Hc).
  rewrite lookup_insert_ne by done. split_and!; try done. by apply IH.
Qed.

(** Blocks as address and extent. *)
Definition disjoint_blocks (b c : Z * Z) : Prop := b.1 + b.2 <= c.1 \/ c.1 + c.2 <= b.1.

Fixpoint separate (bs : list (Z * Z)) : Prop :=
  match bs with
  | [] => True
  | b :: bs' => Forall (disjoint_blocks b) bs' /\ separate bs'
  end.

Lemma separate_perm bs cs : bs ≡ₚ cs -> separate bs -> separate cs.
Proof.
  induction 1 as [|b bs cs Hp IH|b c bs|]; simpl; try tauto.
  - intros [Hb Hs]. split; [by rewrite <- Hp|auto].
  - intros [Hb [Hc Hs]]. inversion Hb as [|? ? Hd Hb' E]; subst.
    split; [|split; [done|done]]. constructor; [|done]. unfold disjoint_blocks in *. lia.
Qed.

(** Free blocks are tagged with their list. *)
Abbreviation free_blocks := (list (Z * Z)).
Definition on_list (i : Z) (free : free_blocks) : list Z :=
  snd <$> filter (fun b => b.1 = i) free.

Definition all_blocks (free : free_blocks) (live : live_blocks) : list (Z * Z) :=
  ((fun b => (b.2, class_size b.1)) <$> free) ++ ((fun b => (b.1, extent b.2)) <$> live).

Record heap_inv (start : Z) (a : FixedBlockAllocator) (free : free_blocks) (live : live_blocks) : Prop := {
  hi_heads : lenZ (list_heads a) = 9;
  hi_chains : forall i h, lookupZ (list_heads a) i = Some h -> chain (mem a) h (on_list i free);
  hi_classes : Forall (fun b => 0 <= b.1 < 9 /\ (class_size b.1 | b.2)) free;
  hi_live : Forall (fun b => layout_ok b.2 /\ (align b.2 | b.1) /\
    forall i, get_block_index b.2 = Some i -> (class_size i | b.1)) live;
  hi_separate : separate (all_blocks free live);
  hi_range : Forall (fun b => start <= b.1 /\ 0 < b.2 /\ b.1 + b.2 <= next (bump a)) (all_blocks free live);
  hi_bump : 0 < start <= next (bump a) /\ next (bump a) <= end_ (bump a) /\ end_ (bump a) < two63;
}.

Lemma bump_alloc_spec l b p b' :
  layout_ok l -> 0 < next b -> next b <= end_ b -> end_ b < two63 ->
  bump_alloc l b = (p, b') -> p <> 0 ->
  next b <= p /\ (align l | p) /\ next b' = p + size l /\ p + size l <= end_ b /\ end_ b' = end_ b.
Proof.
  intros ((k & Hk & Ha) & Hs & Hmax) Hn Hle He. unfold bump_alloc.
  assert (align l < two63).
  { rewrite Ha. change two63 with (2 ^ 63). apply Z.pow_lt_mono_r; lia. }
  pose proof (Z.pow_pos_nonneg 2 k). rewrite (u64_small (next b + align l - 1)) by lia.
  destruct (align_up_spec (next b) k ltac:(lia) ltac:(lia) ltac:(lia)) as [Hr Hdiv].
  rewrite <- Ha in Hr, Hdiv. set (st := Z.land _ _) in *.
  rewrite (u64_small (st + size l)) by lia. zcase; intros [= <- <-] Hp; [done|].
  simpl. split_and!; try done; try lia.
Qed.

(** A refused request changes nothing. *)
Lemma bump_alloc_null l b b' :
  layout_ok l -> 0 < next b -> next b < two63 -> bump_alloc l b = (0, b') -> b' = b.
Proof.
  intros ((k & Hk & Ha) & Hs & Hmax) Hn Hlt. unfold bump_alloc.
  assert (2 ^ k < two63) by (change two63 with (2 ^ 63); apply Z.pow_lt_mono_r; lia).
  pose proof (Z.pow_pos_nonneg 2 k).
  destruct (align_up_spec (next b) k ltac:(lia) ltac:(lia) ltac:(lia)) as [Hr _].
  rewrite Ha, (u64_small (next b + _ - 1)) by lia. set (st := Z.land _ _) in *.
  zcase; intros E; [by injection E|]. injection E as E1 E2. lia.
Qed.

Lemma on_list_cons i j p free :
  on_list i ((j, p) :: free) = if decide (j = i) then p :: on_list i free else on_list i free.
Proof. unfold on_list. rewrite filter_cons. simpl. by case_decide. Qed.

Lemma on_list_app i free1 free2 : on_list i (free1 ++ free2) = on_list i free1 ++ on_list i free2.
Proof. unfold on_list. by rewrite filter_app, fmap_app. Qed.

(** The first block of list [i]. *)
Lemma on_list_split i free p l :
  on_list i free = p :: l ->
  exists free1 free2, free = free1 ++ (i, p) :: free2 /\ on_list i free1 = [] /\ on_list i free2 = l.
Proof.
  induction free as [|[j q] free IH]; [done|]. rewrite on_list_cons. case_decide as Hj.
  - intros [= -> <-]. subst j. by exists [], free.
  - intros H. destruct (IH H) as (f1 & f2 & -> & H1 & H2). exists ((j, q) :: f1), f2.
    rewrite on_list_cons, decide_False by done. done.
Qed.

Lemma on_list_elem i p free : p ∈ on_list i free <-> (i, p) ∈ free.
Proof.
  unfold on_list. rewrite list_elem_of_fmap. split.
  - intros ([j q] & -> & [Hj Hin]%list_elem_of_filter). simpl in *. by subst.
  - intros Hin. exists (i, p). split; [done|]. by apply list_elem_of_filter.
Qed.

Lemma separate_app bs cs :
  separate (bs ++ cs) <-> separate bs /\ separate cs /\ (forall b c, b ∈ bs -> c ∈ cs -> disjoint_blocks b c).
Proof.
  induction bs as [|b bs IH]; simpl.
  - split; [|tauto]. intros H. split_and!; try done. intros ? ? []%not_elem_of_nil.
  - rewrite IH, Forall_app, !Forall_forall. split.
    + intros [[H1 H2] (H3 & H4 & H5)]. split_and!; try done.
      intros x c [->|Hx]%elem_of_cons Hc; auto.
    + intros [[H1 H2] (H3 & H4)]. split_and!; try done.
      * intros c Hc. apply H4; [by left|done].
      * intros x c Hx Hc. apply H4; [by right|done].
Qed.

(** A live block overlaps no free block. *)
Lemma live_not_free start a free live p l i q x :
  heap_inv start a free live -> (p, l) ∈ live -> (i, q) ∈ free ->
  p <= x < p + size l -> q <> x.
Proof.
  intros Hinv Hl Hf Hx ->. pose proof (hi_separate _ _ _ _ Hinv) as Hs.
  unfold all_blocks in Hs. apply separate_app in Hs as (_ & _ & Hs).
  specialize (Hs (x, class_size i) (p, extent l)).
  assert (disjoint_blocks (x, class_size i) (p, extent l)) as Hd.
  { apply Hs; apply list_elem_of_fmap; [by exists (i, x)|by exists (p, l)]. }
  pose proof (hi_classes _ _ _ _ Hinv) as Hc. rewrite Forall_forall in Hc.
  destruct (Hc _ Hf) as [Hi _]. simpl in Hi. pose proof (class_size_pos i).
  pose proof (extent_ge l). unfold disjoint_blocks in Hd. simpl in Hd. lia.
Qed.

(** A block carved beyond everything allocated so far. *)
Lemma heap_inv_carve start a free live p l b' :
  heap_inv start a free live -> layout_ok l -> next (bump a) <= p -> (align l | p) ->
  (forall i, get_block_index l = Some i -> (class_size i | p)) ->
  next b' = p + extent l -> next b' <= end_ b' -> end_ b' = end_ (bump a) ->
  heap_inv start (mk_alloc (list_heads a) b' (mem a)) free ((p, l) :: live).
Proof.
  intros [H1 H2 H3 H4 H5 H6 H7] Hl Hp Hal Hcl Hn Hle He. pose proof (extent_ge l).
  destruct Hl as (Hk & Hs & Hmax).
  assert (Hperm : all_blocks free ((p, l) :: live) ≡ₚ (p, extent l) :: all_blocks free live).
  { unfold all_blocks. simpl. symmetry. apply Permutation_middle. }
  split; simpl; try done.
  - constructor; [|done]. by split.
  - eapply separate_perm; [symmetry; exact Hperm|]. simpl. split; [|done].
    eapply Forall_impl; [exact H6|]. intros [q s] (Hq & Hqs & Hqe). simpl in *.
    unfold disjoint_blocks. simpl. lia.
  - rewrite Hperm. constructor.
    + simpl. lia.
    + eapply Forall_impl; [exact H6|]. intros [q s] (Hq & Hqs & Hqe). simpl in *. lia.
  - lia.
Qed.

(** A block popped from its free list. *)
Lemma heap_inv_pop start a free live l i p nxt rest :
  heap_inv start a free live -> layout_ok l -> get_block_index l = Some i ->
  on_list i free = p :: rest -> nxt = default 0 (mem a !! p) -> 
  chain (mem a) nxt rest ->
  exists free', heap_inv start (mk_alloc (insertZ i nxt (list_heads a)) (bump a) (mem a))
    free' ((p, l) :: live).
Proof.
  intros [H1 H2 H3 H4 H5 H6 H7] Hl Hi Hon -> Hch.
  destruct (on_list_split _ _ _ _ Hon) as (f1 & f2 & -> & Hf1 & Hf2).
  exists (f1 ++ f2). pose proof (get_block_index_spec _ _ Hi) as [Hir _].
  assert (Hext : extent l = class_size i) by (unfold extent; by rewrite Hi).
  assert (Hperm : all_blocks (f1 ++ (i, p) :: f2) live ≡ₚ all_blocks (f1 ++ f2) ((p, l) :: live)).
  { unfold all_blocks. rewrite !fmap_app. simpl. rewrite Hext.
    rewrite <- !app_assoc, <- !app_comm_cons. apply Permutation_app_head.
    apply Permutation_middle. }
  apply Forall_app in H3 as [H3a H3b]. inversion H3b as [|? ? [_ Hdiv] H3c E]; subst. simpl in Hdiv.
  split; simpl; try done.
  - by rewrite lenZ_insertZ.
  - intros j h. rewrite lookupZ_insertZ by lia. rewrite on_list_app. zcase; intros E.
    + subst j. simplify_eq. by rewrite Hf1.
    + specialize (H2 _ _ E). by rewrite on_list_app, on_list_cons, decide_False in H2.
  - apply Forall_app. by split.
  - constructor; [|done]. split; [done|]. split; [by eapply class_aligned|].
    intros i' Hi'. simpl in *. by assert (i' = i) as -> by congruence.
  - by eapply separate_perm.
  - by rewrite <- Hperm.
Qed.

Lemma class_layout_ok i : 0 <= i < 9 -> layout_ok (mk_layout (class_size i) (class_size i)).
Proof.
  intros Hi. pose proof (class_size_pos i). split; [|simpl; split; [lia|]].
  - exists (i + 3). split; [lia|done].
  - unfold class_size. assert (2 ^ (i + 3) <= 2 ^ 12) by (apply Z.pow_le_mono_r; lia). lia.
Qed.

Lemma alloc_spec start a free live l :
  heap_inv start a free live -> layout_ok l ->
  exists p a', alloc l a = Ret (p, a') /\
    ((p = 0 /\ heap_inv start a' free live) \/
     (p <> 0 /\ exists free', heap_inv start a' free' ((p, l) :: live))).
Proof.
  intros Hinv Hl. pose proof (hi_bump _ _ _ _ Hinv) as (Hst & Hne & Hend). unfold alloc.
  destruct (get_block_index l) as [i|] eqn:Hi.
  - pose proof (get_block_index_spec _ _ Hi) as [Hir Hfit].
    destruct (lookupZ_lt (list_heads a) i) as [h Hh]; [rewrite (hi_heads _ _ _ _ Hinv); lia|].
    unfold index. rewrite Hh. simpl.
    pose proof (hi_chains _ _ _ _ Hinv i h Hh) as Hch.
    destruct (Z.eqb_spec h 0) as [->|Hne0]; simpl.
    + rewrite block_sizes_spec by done. simpl.
      destruct (bump_alloc _ (bump a)) as [p b'] eqn:Eb.
      exists p, (mk_alloc (list_heads a) b' (mem a)). split; [done|].
      destruct (decide (p = 0)) as [->|Hp].
      { left. split; [done|].
        apply bump_alloc_null in Eb as ->; [by destruct a|by apply class_layout_ok|lia|lia]. }
      right. split; [done|]. exists free.
      destruct (bump_alloc_spec _ (bump a) _ _ (class_layout_ok i Hir) ltac:(lia) Hne Hend Eb Hp)
        as (H1 & H2 & H3 & H4 & H5). simpl in *.
      assert (Hext : extent l = class_size i) by (unfold extent; by rewrite Hi).
      apply heap_inv_carve; try done; try lia.
      * by eapply class_aligned.
      * intros i' Hi'. by assert (i' = i) as -> by congruence.
    + destruct (on_list i free) as [|q rest] eqn:Hon; simpl in Hch; [done|].
      destruct Hch as (-> & _ & Hrest).
      rewrite assign_lt by (by eapply lookupZ_Some_lt). simpl. eexists _, _. split; [done|].
      right. split; [done|]. by eapply heap_inv_pop.
  - destruct (bump_alloc l (bump a)) as [p b'] eqn:Eb.
    exists p, (mk_alloc (list_heads a) b' (mem a)). split; [done|].
    destruct (decide (p = 0)) as [->|Hp].
    { left. split; [done|]. apply bump_alloc_null in Eb as ->; [by destruct a|done|lia|lia]. }
    right. split; [done|]. exists free.
    destruct (bump_alloc_spec l (bump a) _ _ Hl ltac:(lia) Hne Hend Eb Hp) as (H1 & H2 & H3 & H4 & H5).
    assert (Hext : extent l = size l) by (unfold extent; by rewrite Hi).
    apply heap_inv_carve; try done; try lia. intros i' Hi'. congruence.
Qed.

Lemma dealloc_spec start a free live1 p l live2 :
  heap_inv start a free (live1 ++ (p, l) :: live2) ->
  exists a' free', dealloc p l a = Ret a' /\ heap_inv start a' free' (live1 ++ live2).
Proof.
  intros Hinv. unfold dealloc.
  pose proof (hi_live _ _ _ _ Hinv) as Hlive. apply Forall_app in Hlive as [Hl1 Hl2].
  inversion Hl2 as [|? ? (Hok & Hal & Hcl) Hl3 E]; subst. simpl in *.
  assert (Hlive' : Forall (fun b => layout_ok b.2 /\ (align b.2 | b.1) /\
    forall i, get_block_index b.2 = Some i -> (class_size i | b.1)) (live1 ++ live2))
    by (apply Forall_app; by split).
  destruct (get_block_index l) as [i|] eqn:Hi.
  - pose proof (get_block_index_spec _ _ Hi) as [Hir Hfit].
    destruct (lookupZ_lt (list_heads a) i) as [h Hh]; [rewrite (hi_heads _ _ _ _ Hinv); lia|].
    assert (Hin : (p, l) ∈ live1 ++ (p, l) :: live2) by (apply elem_of_app; right; by left).
    assert (Hfresh : forall j q, (j, q) ∈ free -> q <> p).
    { intros j q Hq. eapply live_not_free; eauto. destruct Hok as (_ & ? & _). lia. }
    unfold index. rewrite Hh. simpl. rewrite assign_lt by (by eapply lookupZ_Some_lt). simpl.
    eexists _, ((i, p) :: free). split; [done|].
    assert (Hext : extent l = class_size i) by (unfold extent; by rewrite Hi).
    assert (Hperm : all_blocks free (live1 ++ (p, l) :: live2) ≡ₚ all_blocks ((i, p) :: free) (live1 ++ live2)).
    { unfold all_blocks. rewrite !fmap_app. simpl. rewrite Hext, !app_assoc. symmetry.
      rewrite <- (app_assoc _ _ (_ <$> live2)), app_assoc. apply Permutation_middle. }
    pose proof (hi_range _ _ _ _ Hinv) as Hr. rewrite Hperm in Hr.
    inversion Hr as [|? ? (Hp & _ & _) Hr' E]; subst. simpl in Hp.
    destruct Hinv as [H1 H2 H3 H4 H5 H6 H7]. split; simpl; try done.
    + by rewrite lenZ_insertZ.
    + intros j h'. rewrite lookupZ_insertZ by lia. rewrite on_list_cons. zcase; intros E.
      * subst j. simplify_eq. rewrite decide_True by done. simpl.
        split; [done|]. split; [lia|]. rewrite lookup_insert_eq. simpl.
        apply chain_insert; [|by apply H2]. intros Hin'%on_list_elem. by destruct (Hfresh _ _ Hin').
      * rewrite decide_False by done. apply chain_insert; [|by apply H2].
        intros Hin'%on_list_elem. by destruct (Hfresh _ _ Hin').
    + constructor; [|done]. split; [done|]. exact (Hcl i eq_refl).
    + exact (separate_perm _ _ Hperm H5).
  - eexists a, free. split; [done|]. destruct Hinv as [H1 H2 H3 H4 H5 H6 H7].
    assert (Hperm : all_blocks free (live1 ++ (p, l) :: live2) ≡ₚ (p, extent l) :: all_blocks free (live1 ++ live2)).
    { unfold all_blocks. rewrite !fmap_app. simpl. symmetry. rewrite !app_assoc. apply Permutation_middle. }
    split; try done.
    + apply (separate_perm _ _ Hperm) in H5. by destruct H5.
    + rewrite Hperm in H6. by inversion H6.
Qed.

Lemma heap_step_inv start a live a' live' free :
  heap_step (a, live) (a', live') -> heap_inv start a free live ->
  exists free', heap_inv start a' free' live'.
Proof.
  intros Hstep Hinv. inversion Hstep; subst.
  - destruct (alloc_spec start a free live l Hinv) as (p' & a1 & E & [[? _]|[_ Hi]]); [done| |];
      rewrite E in *; simplify_eq; done.
  - destruct (alloc_spec start a free live' l Hinv) as (p' & a1 & E & [[_ Hi]|[? _]]); [done| |];
      rewrite E in *; simplify_eq; eauto.
  - destruct (dealloc_spec start a free live1 p l live2 Hinv) as (a1 & free' & E & Hi).
    rewrite E in *. simplify_eq. eauto.
  - exists free. pose proof (live_not_free start a free live' p l) as Hnf.
    assert (forall j, x ∉ on_list j free) as Hx.
    { intros j Hin%on_list_elem. by eapply Hnf. }
    destruct Hinv as [I1 I2 I3 I4 I5 I6 I7]. split; simpl; try done.
    intros i h Hh. apply chain_insert; [done|]. by apply I2.
Qed.

Lemma init_heap_inv start :
  0 < start -> start + HEAP_SIZE < two63 -> heap_inv start (init_heap start) [] [].
Proof.
  unfold HEAP_SIZE. intros Hs He. split; try done.
  - intros i h Hh. simpl in *. unfold on_list. simpl. unfold lookupZ in Hh. zcase_in Hh; [done|].
    by apply (lookup_replicate 9 0) in Hh as [-> _].
  - simpl. rewrite u64_small by (unfold HEAP_SIZE; lia). unfold HEAP_SIZE. lia.
Qed.

Lemma heap_inv_reachable start a live :
  0 < start -> start + HEAP_SIZE < two63 -> rtc heap_step (init_heap start, []) (a, live) ->
  end_ (bump a) = start + HEAP_SIZE /\ exists free, heap_inv start a free live.
Proof.
  intros Hs He Hrun. remember (init_heap start, []) as s0 eqn:E0.
  remember (a, live) as s1 eqn:E1.
  assert (end_ (bump s0.1) = start + HEAP_SIZE /\ exists free, heap_inv start s0.1 free s0.2) as Hinv.
  { subst. simpl. rewrite u64_small by (unfold HEAP_SIZE in *; lia).
    split; [done|]. exists []. by apply init_heap_inv. }
  clear E0. revert a live E1. induction Hrun as [s|[a0 l0] [a1 l1] s2 Hstep Hrun IH]; intros a live ->.
  { exact Hinv. }
  destruct Hinv as (Hend & free & Hinv). apply IH; [|done]. simpl.
  destruct (heap_step_inv start _ _ _ _ free Hstep Hinv) as [free' Hinv']. split; [|by exists free'].
  rewrite <- Hend. clear -Hstep. inversion Hstep; subst; simpl; try done.
  all: unfold alloc, dealloc in *; repeat match goal with
    | H : _ ≫= _ = Ret _ |- _ => apply bind_Ret_inv in H as (? & ? & H)
    | H : context [bump_alloc ?l ?b] |- _ => unfold bump_alloc in H
    | H : context [if ?c then _ else _] |- _ => destruct c
    | H : context [match get_block_index ?l with _ => _ end] |- _ => destruct (get_block_index l)
    | _ => progress simplify_eq/=
    end; done.
Qed.

(** ** Properties *)

(** C18: The heap is sound: whatever a program does with it (allocations and
    frees in any order, any writes inside the blocks it holds), every block it
    holds is aligned as its layout asks, lies inside the 64 KiB heap, and
    overlaps no other block it holds; an allocation never panics. *)
Theorem heap_blocks_sound start a live :
  0 < start -> start + HEAP_SIZE < two63 -> rtc heap_step (init_heap start, []) (a, live) ->
  (forall p l, (p, l) ∈ live ->
     (align l | p) /\ start <= p /\ p + size l <= start + HEAP_SIZE) /\
  (forall live1 p l live2 q k live3, live = live1 ++ (p, l) :: live2 ++ (q, k) :: live3 ->
     p + size l <= q \/ q + size k <= p) /\
  (forall l, layout_ok l -> exists p a', alloc l a = Ret (p, a')).
Proof.
  intros Hs He Hrun. destruct (heap_inv_reachable start a live Hs He Hrun) as (Hend & free & Hinv).
  pose proof (hi_bump _ _ _ _ Hinv) as (_ & Hb & _).
  pose proof (hi_live _ _ _ _ Hinv) as Hl. rewrite Forall_forall in Hl.
  pose proof (hi_range _ _ _ _ Hinv) as Hr. rewrite Forall_forall in Hr. split_and!.
  - intros p l Hin. destruct (Hl _ Hin) as (_ & Hal & _). split; [done|].
    destruct (Hr (p, extent l)) as (Hp & _ & Hpe).
    { unfold all_blocks. apply elem_of_app. right. apply list_elem_of_fmap. by exists (p, l). }
    pose proof (extent_ge l). simpl in *. lia.
  - intros live1 p l live2 q k live3 ->. pose proof (hi_separate _ _ _ _ Hinv) as Hsep.
    unfold all_blocks in Hsep. rewrite !fmap_app in Hsep. simpl in Hsep. rewrite fmap_app in Hsep.
    apply separate_app in Hsep as (_ & Hsep & _). apply separate_app in Hsep as (_ & Hsep & _).
    simpl in Hsep. destruct Hsep as [Hsep _]. apply Forall_app in Hsep as [_ Hsep].
    inversion Hsep as [|? ? Hd _ E]; subst. unfold disjoint_blocks in Hd. simpl in Hd.
    pose proof (extent_ge l). pose proof (extent_ge k). lia.
  - intros l Hok. destruct (alloc_spec start a free live l Hinv Hok) as (p & a' & E & _).
    by exists p, a'.
Qed.

(** 24 bytes aligned to 8. *)
Definition sample_layout : Layout := mk_layout 24 8.
Lemma sample_layout_ok : layout_ok sample_layout.
Proof. split; [by exists 3|simpl; lia]. Qed.

Lemma heap_blocks_sound_witness :
  exists a p, alloc sample_layout (init_heap 0x200000) = Ret (p, a) /\ p = 0x200000 /\
    (align sample_layout | p) /\ 0x200000 <= p /\ p + size sample_layout <= 0x200000 + HEAP_SIZE.
Proof.
  destruct (alloc sample_layout (init_heap 0x200000)) as [[p a]| | | |] eqn:E; try discriminate E.
  assert (Hp : p = 0x200000) by (vm_compute in E; injection E as <- _; reflexivity).
  exists a, p. split; [reflexivity|]. split; [exact Hp|].
  assert (Hrun : rtc heap_step (init_heap 0x200000, []) (a, [(p, sample_layout)])).
  { apply rtc_once. apply heap_alloc; [apply sample_layout_ok|exact E|lia]. }
  apply (heap_blocks_sound 0x200000 a _ ltac:(lia) ltac:(unfold HEAP_SIZE; lia) Hrun). by left.
Defined.

(** A freed block is reused: after [dealloc] of a block of up to 2048
    bytes, the next [alloc] of a layout of the same block size returns that
    very block and leaves the allocator's lists and bump pointer as they were
    before the free. *)
Theorem heap_reuses_freed_block a p l k i :
  lenZ (list_heads a) = 9 -> p <> 0 -> get_block_index l = Some i -> get_block_index k = Some i ->
  exists a1 a2, dealloc p l a = Ret a1 /\ alloc k a1 = Ret (p, a2) /\
    list_heads a2 = list_heads a /\ bump a2 = bump a.
Proof.
  intros Hlen Hp Hl Hk. pose proof (get_block_index_spec _ _ Hl) as [Hi _].
  destruct (lookupZ_lt (list_heads a) i) as [h Hh]; [lia|].
  unfold dealloc, alloc. rewrite Hl, Hk. unfold index. rewrite Hh. simpl.
  rewrite assign_lt by lia. simpl. eexists _, _. split; [done|]. simpl.
  rewrite lookupZ_insertZ_eq by lia. simpl. destruct (Z.eqb_spec p 0); [done|]. simpl.
  rewrite lookup_insert_eq. simpl. rewrite assign_lt by (rewrite lenZ_insertZ; lia). simpl.
  split; [done|]. simpl. by rewrite insertZ_insertZ, insertZ_id.
Qed.

Lemma heap_reuses_freed_block_witness :
  exists a1 a2, dealloc 0x200000 sample_layout (init_heap 0x200000) = Ret a1 /\
    alloc (mk_layout 32 32) a1 = Ret (0x200000, a2).
Proof.
  destruct (heap_reuses_freed_block (init_heap 0x200000) 0x200000 sample_layout (mk_layout 32 32) 2
    eq_refl ltac:(lia) eq_refl eq_refl) as (a1 & a2 & E1 & E2 & _).
  exists a1, a2. split; [exact E1|exact E2].
Defined.
