(* ===== verification/SpinLock.v ===== *)
(** * The ticket spinlock (src/src/spinlock.rs)

    [SpinLock] has two 32-bit atomics.  Every atomic access of [lock],
    [try_lock] and of the guard's [drop] is one step of a thread; steps of
    different threads interleave in any order.  Atomics are sequentially
    consistent here; the Acquire/Release pairing of the code is what makes
    that sound for the data the lock protects.

    The lock is shown to implement a first-come-first-served queue. *)

From S2P Require Import Prelude.

Record spinlock : Type := mk_spinlock { ticket : Z; next : Z }.

Definition new : spinlock := mk_spinlock 0 0.

(** Where a thread is in the code of the lock. *)
Inductive pc : Type :=
| Idle                     (* holds no guard, is not in [lock] *)
| Spinning (t : Z)         (* [lock], after the [fetch_add] returned [t] *)
| TryLoaded (current : Z)  (* [try_lock], after the first load *)
| TryChecked (current : Z) (* [try_lock], [current == next] was seen *)
| TrySpinning (current : Z)(* [try_lock], after the successful exchange *)
| Holding.                 (* a guard is live *)

#[global] Instance pc_eq_dec : EqDecision pc.
Proof. solve_decision. Defined.

(** What an idle thread calls. *)
Inductive call : Type := CallLock | CallTryLock.

Definition lock_fetch_add (l : spinlock) : spinlock * pc :=
  (mk_spinlock (u32 (ticket l + 1)) (next l), Spinning (ticket l)).
Definition lock_spin (t : Z) (l : spinlock) : spinlock * pc :=
  if next l =? t then (l, Holding) else (l, Spinning t).
Definition try_lock_load (l : spinlock) : spinlock * pc := (l, TryLoaded (ticket l)).
Definition try_lock_check (current : Z) (l : spinlock) : spinlock * pc :=
  if current =? next l then (l, TryChecked current) else (l, Idle).
Definition try_lock_exchange (current : Z) (l : spinlock) : spinlock * pc :=
  if ticket l =? current
  then (mk_spinlock (u32 (current + 1)) (next l), TrySpinning current)
  else (l, Idle).
Definition try_lock_spin (current : Z) (l : spinlock) : spinlock * pc :=
  if next l =? current then (l, Holding) else (l, TrySpinning current).
Definition guard_drop (l : spinlock) : spinlock * pc :=
  (mk_spinlock (ticket l) (u32 (next l + 1)), Idle).

(** One atomic step of a thread. *)
Definition thread_step (c : call) (p : pc) (l : spinlock) : spinlock * pc :=
  match p with
  | Idle => match c with CallLock => lock_fetch_add l | CallTryLock => try_lock_load l end
  | Spinning t => lock_spin t l
  | TryLoaded current => try_lock_check current l
  | TryChecked current => try_lock_exchange current l
  | TrySpinning current => try_lock_spin current l
  | Holding => guard_drop l
  end.

(** The threads of the machine; thread [i] takes a step. *)
Inductive lock_step : spinlock * list pc -> nat -> spinlock * list pc -> Prop :=
| lock_step_intro l ps i p c l' p' :
    ps !! i = Some p -> thread_step c p l = (l', p') ->
    lock_step (l, ps) i (l', <[i := p']> ps).

Definition any_lock_step (s s' : spinlock * list pc) : Prop := exists i, lock_step s i s'.

(** ** The specification: a queue served in order *)

(** Threads in order of arrival; when [held], the first one has the lock. *)
Record fifo : Type := mk_fifo { queue : list nat; held : bool }.

Inductive fifo_step (i : nat) : fifo -> fifo -> Prop :=
| fifo_stutter f : fifo_step i f f
| fifo_enqueue q h : i ∉ q -> fifo_step i (mk_fifo q h) (mk_fifo (q ++ [i]) h)
| fifo_acquire q : fifo_step i (mk_fifo (i :: q) false) (mk_fifo (i :: q) true)
| fifo_release q : fifo_step i (mk_fifo (i :: q) true) (mk_fifo q false).

(** The state of the thread at position [k] of the queue. *)
Definition queued_at (l : spinlock) (h : bool) (k : Z) (p : pc) : Prop :=
  match p with
  | Spinning t | TrySpinning t => t = u32 (next l + k) /\ (k = 0 -> h = false)
  | Holding => k = 0 /\ h = true
  | _ => False
  end.

Definition waits_or_holds (p : pc) : bool :=
  match p with Spinning _ | TrySpinning _ | Holding => true | _ => false end.

Record lock_inv (l : spinlock) (ps : list pc) (f : fifo) : Prop := {
  li_nodup : NoDup (queue f);
  li_next : 0 <= next l < two32;
  li_ticket : ticket l = u32 (next l + lenZ (queue f));
  li_queued : forall k i, queue f !! k = Some i ->
    exists p, ps !! i = Some p /\ queued_at l (held f) (Z.of_nat k) p;
  li_in_queue : forall i p, ps !! i = Some p -> waits_or_holds p = true -> i ∈ queue f;
  li_held : held f = true -> queue f <> [];
  li_threads : lenZ ps <= two32;
}.

Lemma lock_inv_length l ps f : lock_inv l ps f -> lenZ (queue f) <= lenZ ps.
Proof.
  intros Hinv. unfold lenZ. apply inj_le.
  rewrite <- (length_seq (length ps) 0). apply submseteq_length, NoDup_submseteq.
  { apply (li_nodup _ _ _ Hinv). }
  intros i [k Hk]%list_elem_of_lookup. destruct (li_queued _ _ _ Hinv _ _ Hk) as (p & Hp & _).
  apply elem_of_seq. apply lookup_lt_Some in Hp. lia.
Qed.

(** Tickets are distinct modulo 2^32 along the queue. *)
Lemma u32_offset_0 n k : 0 <= n < two32 -> 0 <= k < two32 -> n = u32 (n + k) -> k = 0.
Proof. unfold u32. intros. dlia. Qed.

Lemma lock_inv_fresh l ps f i p :
  lock_inv l ps f -> ps !! i = Some p -> waits_or_holds p = false -> i ∉ queue f.
Proof.
  intros Hinv Hp Hw [k Hk]%list_elem_of_lookup.
  destruct (li_queued _ _ _ Hinv _ _ Hk) as (p' & Hp' & Hq). simplify_eq. by destruct p.
Qed.

(** A thread that stays out of the queue changes nothing. *)
Lemma lock_inv_outside l ps f i p p' :
  lock_inv l ps f -> ps !! i = Some p -> waits_or_holds p = false ->
  waits_or_holds p' = false -> lock_inv l (<[i := p']> ps) f.
Proof.
  intros Hinv Hp Hw Hw'. pose proof (lock_inv_fresh _ _ _ _ _ Hinv Hp Hw) as Hni.
  destruct Hinv as [H1 H2 H3 H4 H5 H6 H7]. split; try done.
  - intros k j Hk. destruct (H4 k j Hk) as (pj & Hj & Hq). exists pj.
    rewrite list_lookup_insert_ne; [done|]. intros ->. apply Hni.
    by apply list_elem_of_lookup_2 with k.
  - intros j pj Hj. destruct (decide (i = j)) as [<-|Hne].
    + rewrite list_lookup_insert_eq in Hj by (by eapply lookup_lt_Some). naive_solver.
    + rewrite list_lookup_insert_ne in Hj by done. by apply H5.
  - unfold lenZ in *. by rewrite length_insert.
Qed.

(** Taking a ticket joins the end of the queue. *)
Lemma lock_inv_enqueue l ps q h i p p' :
  lock_inv l ps (mk_fifo q h) -> ps !! i = Some p -> waits_or_holds p = false ->
  p' = Spinning (ticket l) \/ p' = TrySpinning (ticket l) ->
  lock_inv (mk_spinlock (u32 (ticket l + 1)) (next l)) (<[i := p']> ps) (mk_fifo (q ++ [i]) h).
Proof.
  intros Hinv Hp Hw Hp'. pose proof (lock_inv_fresh _ _ _ _ _ Hinv Hp Hw) as Hni.
  destruct Hinv as [H1 H2 H3 H4 H5 H6 H7]; simpl in *.
  pose proof (lookup_lt_Some _ _ _ Hp) as Hlt. split; simpl.
  - apply NoDup_app. split_and!; [done| |apply NoDup_singleton].
    intros j Hj ->%list_elem_of_singleton. done.
  - done.
  - rewrite H3. unfold lenZ. rewrite length_app. simpl. unfold u32.
    rewrite Nat2Z.inj_add, Zplus_mod_idemp_l. f_equal. lia.
  - intros k j Hk. apply lookup_app_Some in Hk as [Hk|[Hge Hk]].
    + destruct (H4 k j Hk) as (pj & Hj & Hq). exists pj.
      rewrite list_lookup_insert_ne; [done|]. intros ->. apply Hni.
      by apply list_elem_of_lookup_2 with k.
    + apply list_lookup_singleton_Some in Hk as [Hk <-]. exists p'.
      rewrite list_lookup_insert_eq by done. split; [done|].
      replace (Z.of_nat k) with (lenZ q) by (unfold lenZ; lia).
      assert (lenZ q = 0 -> h = false).
      { unfold lenZ. intros E. destruct h; [|done]. by destruct (H6 eq_refl), q. }
      by destruct Hp' as [-> | ->]; simpl.
  - intros j pj Hj Hwj. apply elem_of_app. destruct (decide (i = j)) as [<-|Hne].
    + right. by apply list_elem_of_singleton.
    + rewrite list_lookup_insert_ne in Hj by done. left. by eapply H5.
  - intros _ ?%app_nil. naive_solver.
  - unfold lenZ in *. by rewrite length_insert.
Qed.

Lemma u32_succ_add n k : u32 (u32 (n + 1) + k) = u32 (n + (k + 1)).
Proof. unfold u32. rewrite Zplus_mod_idemp_l. f_equal. lia. Qed.

(** A thread whose ticket is served is the first of the queue. *)
Lemma lock_inv_served l ps f i p :
  lock_inv l ps f -> ps !! i = Some p ->
  p = Spinning (next l) \/ p = TrySpinning (next l) ->
  exists q, f = mk_fifo (i :: q) false.
Proof.
  intros Hinv Hp Hcase. pose proof (lock_inv_length _ _ _ Hinv) as Hlen.
  pose proof (li_threads _ _ _ Hinv). pose proof (li_next _ _ _ Hinv) as Hnext.
  assert (i ∈ queue f) as [k Hk]%list_elem_of_lookup.
  { eapply li_in_queue; eauto. by destruct Hcase as [-> | ->]. }
  destruct (li_queued _ _ _ Hinv k i Hk) as (p' & Hp' & Hq). simplify_eq.
  pose proof (lookup_lt_Some _ _ _ Hk).
  assert (Z.of_nat k = 0 /\ held f = false) as [Hk0 Hheld].
  { assert (next l = u32 (next l + Z.of_nat k) /\ (Z.of_nat k = 0 -> held f = false)) as [E Hh]
      by (by destruct Hcase as [-> | ->]).
    apply u32_offset_0 in E; [auto|done|unfold lenZ in *; lia]. }
  destruct f as [q h]; simpl in *. destruct k; [|lia]. destruct q as [|j q]; [done|].
  simpl in Hk. simplify_eq. by exists q.
Qed.

Lemma lock_inv_acquire l ps q i p :
  lock_inv l ps (mk_fifo (i :: q) false) -> ps !! i = Some p ->
  lock_inv l (<[i := Holding]> ps) (mk_fifo (i :: q) true).
Proof.
  intros [H1 H2 H3 H4 H5 H6 H7] Hp; simpl in *.
  pose proof (lookup_lt_Some _ _ _ Hp) as Hlt. split; simpl; try done.
  - intros k j Hk. destruct (decide (i = j)) as [<-|Hne].
    + exists Holding. rewrite list_lookup_insert_eq by done. split; [done|].
      simpl. split; [|done]. destruct k; [done|]. simpl in Hk.
      apply NoDup_cons in H1 as [H1 _]. destruct H1. by eapply list_elem_of_lookup_2.
    + destruct (H4 k j Hk) as (pj & Hj & Hq). exists pj.
      rewrite list_lookup_insert_ne by done. split; [done|].
      assert (k <> 0%nat) by (intros ->; simpl in Hk; congruence).
      destruct pj; simpl in *; try done; naive_solver lia.
  - intros j pj Hj Hw. destruct (decide (i = j)) as [<-|Hne]; [by left|].
    rewrite list_lookup_insert_ne in Hj by done. by eapply H5.
  - unfold lenZ in *. by rewrite length_insert.
Qed.

(** The holder is the first of the queue. *)
Lemma lock_inv_holder l ps f i :
  lock_inv l ps f -> ps !! i = Some Holding -> exists q, f = mk_fifo (i :: q) true.
Proof.
  intros Hinv Hp.
  assert (i ∈ queue f) as [k Hk]%list_elem_of_lookup by (by eapply li_in_queue).
  destruct (li_queued _ _ _ Hinv k i Hk) as (p' & Hp' & Hq). simplify_eq.
  destruct Hq as [Hk0 Hh]. destruct k; [|lia]. destruct f as [q h]; simpl in *.
  destruct q as [|j q]; [done|]. simpl in Hk. simplify_eq. by exists q.
Qed.

Lemma lock_inv_release l ps q i :
  lock_inv l ps (mk_fifo (i :: q) true) -> ps !! i = Some Holding ->
  lock_inv (mk_spinlock (ticket l) (u32 (next l + 1))) (<[i := Idle]> ps) (mk_fifo q false).
Proof.
  intros [H1 H2 H3 H4 H5 H6 H7] Hp; simpl in *. apply NoDup_cons in H1 as [Hni Hnd].
  pose proof (lookup_lt_Some _ _ _ Hp) as Hlt. split; simpl; try done.
  - apply u32_range.
  - rewrite u32_succ_add, H3. unfold lenZ. simpl. f_equal. lia.
  - intros k j Hk. destruct (H4 (S k) j Hk) as (pj & Hj & Hq). exists pj.
    rewrite list_lookup_insert_ne.
    2: { intros ->. apply Hni. by eapply list_elem_of_lookup_2. }
    split; [done|].
    destruct pj; simpl in *; try done; rewrite ?u32_succ_add; try lia;
      destruct Hq as [-> _]; split; try done; f_equal; lia.
  - intros j pj Hj Hw. destruct (decide (i = j)) as [<-|Hne].
    + rewrite list_lookup_insert_eq in Hj by done. by simplify_eq.
    + rewrite list_lookup_insert_ne in Hj by done.
      apply H5 in Hj as [->|?]%elem_of_cons; done.
  - unfold lenZ in *. by rewrite length_insert.
Qed.

(** Every step of the code is a step of the queue. *)
Lemma lock_step_simulates l ps i l' ps' f :
  lock_step (l, ps) i (l', ps') -> lock_inv l ps f ->
  exists f', fifo_step i f f' /\ lock_inv l' ps' f'.
Proof.
  intros Hstep Hinv. inversion Hstep as [? ? ? p c ? p' Hp Hts]; subst; clear Hstep.
  destruct p; simpl in Hts.
  - destruct c; injection Hts as <- <-.
    + destruct f as [q h]. eexists. split; [apply fifo_enqueue|eapply lock_inv_enqueue; eauto].
      eapply (lock_inv_fresh _ _ (mk_fifo q h)); eauto.
    + exists f. split; [constructor|]. by eapply lock_inv_outside.
  - unfold lock_spin in Hts. zcase_in Hts; injection Hts as <- <-.
    + subst t. destruct (lock_inv_served _ _ _ _ _ Hinv Hp) as [q ->]; [by left|].
      eexists. split; [apply fifo_acquire|]. by eapply lock_inv_acquire.
    + exists f. split; [constructor|]. by rewrite list_insert_id.
  - unfold try_lock_check in Hts. exists f. split; [constructor|].
    zcase_in Hts; injection Hts as <- <-; by eapply lock_inv_outside.
  - unfold try_lock_exchange in Hts. zcase_in Hts; injection Hts as <- <-.
    + subst current. destruct f as [q h]. eexists.
      split; [apply fifo_enqueue|eapply lock_inv_enqueue; eauto].
      eapply (lock_inv_fresh _ _ (mk_fifo q h)); eauto.
    + exists f. split; [constructor|]. by eapply lock_inv_outside.
  - unfold try_lock_spin in Hts. zcase_in Hts; injection Hts as <- <-.
    + subst current. destruct (lock_inv_served _ _ _ _ _ Hinv Hp) as [q ->]; [by right|].
      eexists. split; [apply fifo_acquire|]. by eapply lock_inv_acquire.
    + exists f. split; [constructor|]. by rewrite list_insert_id.
  - injection Hts as <- <-. destruct (lock_inv_holder _ _ _ _ Hinv Hp) as [q ->].
    eexists. split; [apply fifo_release|]. by eapply lock_inv_release.
Qed.

(** A new lock nobody has called yet. *)
Lemma lock_inv_new n :
  Z.of_nat n <= two32 -> lock_inv new (replicate n Idle) (mk_fifo [] false).
Proof.
  intros Hn. split; simpl; try done.
  - constructor.
  - intros i p [-> _]%lookup_replicate. done.
  - unfold lenZ. by rewrite length_replicate.
Qed.

Lemma lock_inv_reachable n s :
  Z.of_nat n <= two32 -> rtc any_lock_step (new, replicate n Idle) s ->
  exists f, lock_inv s.1 s.2 f.
Proof.
  intros Hn Hrun. remember (new, replicate n Idle) as s0 eqn:E.
  assert (exists f, lock_inv s0.1 s0.2 f) as Hinv.
  { subst. eexists. by apply lock_inv_new. }
  clear E. induction Hrun as [s|s1 s2 s3 [i Hstep] _ IH]; [done|]. apply IH.
  destruct Hinv as [f Hinv], s1, s2.
  destruct (lock_step_simulates _ _ _ _ _ _ Hstep Hinv) as (f' & _ & ?). eauto.
Qed.

(** ** Properties *)

(** The simulation relation. *)
Definition implements (s : spinlock * list pc) (f : fifo) : Prop := lock_inv s.1 s.2 f.

(** C8: With at most 2^32 threads, the interleaved steps of [lock], [try_lock]
    and the guard's [drop] simulate a first-come-first-served queue, wrap-around
    of the 32-bit tickets included: a thread has a live guard exactly when it
    is the first of the queue and the lock is held. *)
Theorem spinlock_refines_fifo n :
  Z.of_nat n <= two32 ->
  implements (new, replicate n Idle) (mk_fifo [] false) /\
  (forall s f i s', implements s f -> lock_step s i s' ->
     exists f', fifo_step i f f' /\ implements s' f') /\
  (forall s f i, implements s f ->
     s.2 !! i = Some Holding <-> held f = true /\ head (queue f) = Some i).
Proof.
  intros Hn. split; [by apply lock_inv_new|]. split.
  - intros [l ps] f i [l' ps'] Hinv Hstep. by eapply lock_step_simulates.
  - intros [l ps] f i Hinv. split.
    + intros Hp. by destruct (lock_inv_holder _ _ _ _ Hinv Hp) as [q ->].
    + intros [Hh Hhd]. destruct f as [[|j q] h]; simpl in *; [done|]. simplify_eq.
      destruct (li_queued _ _ _ Hinv 0%nat i eq_refl) as (p & Hp & Hq).
      destruct p; simpl in Hq; try done; naive_solver.
Qed.

Lemma spinlock_refines_fifo_witness :
  Z.of_nat 2 <= two32 /\ implements (new, replicate 2 Idle) (mk_fifo [] false).
Proof. split; [lia|]. apply (spinlock_refines_fifo 2). lia. Defined.

(** C9: Mutual exclusion: in every reachable state of up to 2^32 threads at
    most one thread holds a guard. *)
Theorem spinlock_mutual_exclusion n s i j :
  Z.of_nat n <= two32 -> rtc any_lock_step (new, replicate n Idle) s ->
  s.2 !! i = Some Holding -> s.2 !! j = Some Holding -> i = j.
Proof.
  intros Hn Hrun Hi Hj. destruct (lock_inv_reachable n s Hn Hrun) as [f Hinv].
  destruct (lock_inv_holder _ _ _ _ Hinv Hi) as [q ->].
  destruct (lock_inv_holder _ _ _ _ Hinv Hj) as [q' E]. by simplify_eq.
Qed.

(** Two threads, the first of which has just acquired the lock. *)
Definition one_holder : spinlock * list pc := (mk_spinlock 1 0, [Holding; Idle]).

Lemma one_holder_reachable : rtc any_lock_step (new, replicate 2 Idle) one_holder.
Proof.
  apply rtc_l with (mk_spinlock 1 0, [Spinning 0; Idle]).
  { exists 0%nat. by apply (lock_step_intro new [Idle; Idle] 0 Idle CallLock). }
  apply rtc_once. exists 0%nat.
  by apply (lock_step_intro (mk_spinlock 1 0) [Spinning 0; Idle] 0 (Spinning 0) CallLock).
Qed.

Lemma spinlock_mutual_exclusion_witness :
  rtc any_lock_step (new, replicate 2 Idle) one_holder /\
  forall j, one_holder.2 !! j = Some Holding -> 0%nat = j.
Proof.
  split; [apply one_holder_reachable|]. intros j Hj.
  apply (spinlock_mutual_exclusion 2 one_holder); [lia|apply one_holder_reachable|done|done].
Defined.

(** C10: The lock cannot deadlock: whenever some thread waits for or holds it,
    there is a thread whose next step acquires it or releases it. *)
Theorem spinlock_progress n s i p :
  Z.of_nat n <= two32 -> rtc any_lock_step (new, replicate n Idle) s ->
  s.2 !! i = Some p -> waits_or_holds p = true ->
  exists j pj, s.2 !! j = Some pj /\
    forall c, (thread_step c pj s.1).2 = Holding /\ pj <> Holding \/
              (pj = Holding /\ (thread_step c pj s.1).2 = Idle).
Proof.
  intros Hn Hrun Hp Hw. destruct (lock_inv_reachable n s Hn Hrun) as [f Hinv].
  pose proof (li_in_queue _ _ _ Hinv i p Hp Hw) as Hin.
  destruct (queue f) as [|j q] eqn:Eq; [by apply not_elem_of_nil in Hin|].
  destruct (li_queued _ _ _ Hinv 0%nat j) as (pj & Hpj & Hq); [by rewrite Eq|].
  exists j, pj. split; [done|]. intros c.
  pose proof (li_next _ _ _ Hinv) as Hnext.
  assert (Hz : forall t, t = u32 (next s.1 + Z.of_nat 0) -> next s.1 = t).
  { intros t ->. by rewrite Z.add_0_r, u32_small. }
  destruct pj; simpl in Hq |- *; try done.
  - left. unfold lock_spin. destruct Hq as [->%Hz _]. by rewrite Z.eqb_refl.
  - left. unfold try_lock_spin. destruct Hq as [->%Hz _]. by rewrite Z.eqb_refl.
  - by right.
Qed.

Lemma spinlock_progress_witness :
  exists j pj, one_holder.2 !! j = Some pj /\
    forall c, (thread_step c pj one_holder.1).2 = Holding /\ pj <> Holding \/
              (pj = Holding /\ (thread_step c pj one_holder.1).2 = Idle).
Proof.
  apply (spinlock_progress 2 one_holder 0 Holding);
    [lia|apply one_holder_reachable|reflexivity|reflexivity].
Defined.
