(* ===== verification/SmpTest.v ===== *)
(** * The spinlock contention test (src/src/smp_test.rs)

    Every core runs [contention_worker]: [ITERATIONS] increments of
    [SHARED_COUNTER], each a read and a write under the lock, then one
    increment of [CORES_DONE]; core 0 goes on to [report_result].  The two
    locks are instances of the lock of the file [SpinLock]; the [println!]
    calls are left out. *)

From S2P Require Import Prelude SpinLock.

Definition ITERATIONS : Z := 1000000.
Definition NUM_CORES : Z := 4.

(** The two statics [SpinLock<u64>]. *)
Inductive cell_name : Type := SHARED_COUNTER | CORES_DONE.
#[global] Instance cell_name_eq_dec : EqDecision cell_name.
Proof. solve_decision. Defined.

Record cell : Type := mk_cell { cell_lock : spinlock; cell_data : Z }.
Record shared : Type := mk_shared { counter_cell : cell; done_cell : cell }.

Definition get_cell (c : cell_name) (m : shared) : cell :=
  match c with SHARED_COUNTER => counter_cell m | CORES_DONE => done_cell m end.
Definition set_cell (c : cell_name) (x : cell) (m : shared) : shared :=
  match c with
  | SHARED_COUNTER => mk_shared x (done_cell m)
  | CORES_DONE => mk_shared (counter_cell m) x
  end.

(** What a core does with the guard it holds: [*guard += 1] is a read and a
    write, then the guard is dropped; a reader only reads. *)
Inductive hold : Type := HRead | HWrite (v : Z) | HDrop (v : Z).

Inductive core : Type :=
| Working (c : cell_name) (k : Z) (p : pc) (h : hold)
    (* [k] increments of [c] still to finish *)
| ReportWait (p : pc) (h : hold)  (* the loop of [report_result] *)
| ReportFinal (p : pc) (h : hold) (* [*SHARED_COUNTER.lock()] *)
| Reported (final_value : Z)
| Finished.

Definition start_core : core := Working SHARED_COUNTER ITERATIONS Idle HRead.

(** Where a core goes after it dropped the guard of its last increment of
    [c]; [k] increments remain. *)
Definition after_increment (core_id : nat) (c : cell_name) (k : Z) : core :=
  if 0 <? k then Working c k Idle HRead else
  match c with
  | SHARED_COUNTER => Working CORES_DONE 1 Idle HRead
  | CORES_DONE => match core_id with O => ReportWait Idle HRead | S _ => Finished end
  end.

(** One step of the lock of cell [c]. *)
Definition cell_thread_step (c : cell_name) (p : pc) (m : shared) : shared * pc :=
  let x := get_cell c m in
  let '(l, p') := thread_step CallLock p (cell_lock x) in
  (set_cell c (mk_cell l (cell_data x)) m, p').

Definition core_step (core_id : nat) (w : core) (m : shared) : shared * core :=
  match w with
  | Working c k Holding HRead => (m, Working c k Holding (HWrite (cell_data (get_cell c m))))
  | Working c k Holding (HWrite v) =>
      (set_cell c (mk_cell (cell_lock (get_cell c m)) (u64 (v + 1))) m,
       Working c k Holding (HDrop v))
  | Working c k Holding (HDrop _) =>
      let '(m', _) := cell_thread_step c Holding m in (m', after_increment core_id c (k - 1))
  | Working c k p h =>
      let '(m', p') := cell_thread_step c p m in (m', Working c k p' h)
  | ReportWait Holding (HDrop v) =>
      let '(m', p') := cell_thread_step CORES_DONE Holding m in
      (m', if NUM_CORES <=? v then ReportFinal Idle HRead else ReportWait p' HRead)
  | ReportWait Holding _ => (m, ReportWait Holding (HDrop (cell_data (done_cell m))))
  | ReportWait p h =>
      let '(m', p') := cell_thread_step CORES_DONE p m in (m', ReportWait p' h)
  | ReportFinal Holding (HDrop v) =>
      let '(m', _) := cell_thread_step SHARED_COUNTER Holding m in (m', Reported v)
  | ReportFinal Holding _ => (m, ReportFinal Holding (HDrop (cell_data (counter_cell m))))
  | ReportFinal p h =>
      let '(m', p') := cell_thread_step SHARED_COUNTER p m in (m', ReportFinal p' h)
  | Reported v => (m, Reported v)
  | Finished => (m, Finished)
  end.

Inductive machine_step : shared * list core -> shared * list core -> Prop :=
| machine_step_intro m ws i w m' w' :
    ws !! i = Some w -> core_step i w m = (m', w') ->
    machine_step (m, ws) (m', <[i := w']> ws).

Definition start_shared : shared := mk_shared (mk_cell new 0) (mk_cell new 0).

(** The machine when [n] cores enter [contention_worker]. *)
Definition start_machine (n : nat) : shared * list core :=
  (start_shared, replicate n start_core).

(** What [report_result] prints. *)
Definition passes (final_value : Z) : bool := final_value =? NUM_CORES * ITERATIONS.

(** ** Invariant *)

(** Where a core is in the code of the lock of [c]. *)
Definition at_lock (c : cell_name) (w : core) : pc :=
  match w with
  | Working c' _ p _ => if decide (c' = c) then p else Idle
  | ReportWait p _ => if decide (c = CORES_DONE) then p else Idle
  | ReportFinal p _ => if decide (c = SHARED_COUNTER) then p else Idle
  | Reported _ | Finished => Idle
  end.

(** The writes of [c] a core has still to do. *)
Definition remaining (c : cell_name) (w : core) : Z :=
  match w with
  | Working c' k _ h =>
      if decide (c' = c) then (match h with HDrop _ => k - 1 | _ => k end)
      else match c with CORES_DONE => 1 | SHARED_COUNTER => 0 end
  | _ => 0
  end.

(** The increments of [c] one core performs. *)
Definition share (c : cell_name) : Z :=
  match c with SHARED_COUNTER => ITERATIONS | CORES_DONE => 1 end.

Definition data_of (c : cell_name) (m : shared) : Z := cell_data (get_cell c m).

Definition core_ok (n : Z) (m : shared) (w : core) : Prop :=
  match w with
  | Working c k p h => 1 <= k /\
      match h with
      | HRead => True
      | HWrite v => p = Holding /\ v = data_of c m
      | HDrop _ => p = Holding
      end
  | ReportWait p h =>
      match h with
      | HRead => True
      | HWrite _ => False
      | HDrop v => p = Holding /\ v <= data_of CORES_DONE m
      end
  | ReportFinal p h => NUM_CORES <= data_of CORES_DONE m /\
      match h with
      | HRead => True
      | HWrite _ => False
      | HDrop v => p = Holding /\ (n = NUM_CORES -> v = NUM_CORES * ITERATIONS)
      end
  | Reported v => NUM_CORES <= data_of CORES_DONE m /\
      (n = NUM_CORES -> v = NUM_CORES * ITERATIONS)
  | Finished => True
  end.

Record machine_inv (n : nat) (m : shared) (ws : list core) : Prop := {
  mi_locks : forall c, exists f, lock_inv (cell_lock (get_cell c m)) (at_lock c <$> ws) f;
  mi_cores : forall i w, ws !! i = Some w -> core_ok (Z.of_nat n) m w;
  mi_sums : forall c, data_of c m + sumZ (remaining c <$> ws) = Z.of_nat n * share c;
  mi_data : forall c, 0 <= data_of c m;
  mi_threads : Z.of_nat n <= two32;
}.

Lemma get_set_cell c c' x m :
  get_cell c' (set_cell c x m) = if decide (c = c') then x else get_cell c' m.
Proof. by destruct c, c'. Qed.

(** A step that leaves every lock alone. *)
Lemma locks_same m m' ws i w w' :
  (forall c, exists f, lock_inv (cell_lock (get_cell c m)) (at_lock c <$> ws) f) ->
  ws !! i = Some w -> (forall c, at_lock c w' = at_lock c w) ->
  (forall c, cell_lock (get_cell c m') = cell_lock (get_cell c m)) ->
  forall c, exists f, lock_inv (cell_lock (get_cell c m')) (at_lock c <$> <[i := w']> ws) f.
Proof.
  intros Hl Hw Hat Hm c. destruct (Hl c) as [f Hf]. exists f.
  rewrite Hm, list_fmap_insert, Hat, list_insert_id; [done|].
  by rewrite list_lookup_fmap, Hw.
Qed.

(** A step of the lock of [c]. *)
Lemma locks_step m ws i w w' c p' m' :
  (forall c, exists f, lock_inv (cell_lock (get_cell c m)) (at_lock c <$> ws) f) ->
  ws !! i = Some w -> cell_thread_step c (at_lock c w) m = (m', p') ->
  at_lock c w' = p' -> (forall c', c' <> c -> at_lock c' w' = at_lock c' w) ->
  forall c', exists f, lock_inv (cell_lock (get_cell c' m')) (at_lock c' <$> <[i := w']> ws) f.
Proof.
  intros Hl Hw Hstep Hc Hother c'. unfold cell_thread_step in Hstep.
  destruct (thread_step _ _ _) as [l p1] eqn:E. simplify_eq.
  rewrite get_set_cell. destruct (decide (c = c')) as [<-|Hne]; simpl.
  - destruct (Hl c) as [f Hf].
    destruct (lock_step_simulates (cell_lock (get_cell c m)) (at_lock c <$> ws) i l
      (<[i := at_lock c w']> (at_lock c <$> ws)) f) as (f' & _ & Hf').
    + eapply lock_step_intro; [|exact E]. by rewrite list_lookup_fmap, Hw.
    + done.
    + exists f'. by rewrite list_fmap_insert.
  - destruct (Hl c') as [f Hf]. exists f.
    rewrite list_fmap_insert, Hother, list_insert_id; [done| |done].
    by rewrite list_lookup_fmap, Hw.
Qed.

(** Two cores do not hold the same lock. *)
Lemma locks_exclusive m ws i j wi wj c :
  (forall c, exists f, lock_inv (cell_lock (get_cell c m)) (at_lock c <$> ws) f) ->
  ws !! i = Some wi -> ws !! j = Some wj ->
  at_lock c wi = Holding -> at_lock c wj = Holding -> i = j.
Proof.
  intros Hl Hi Hj Hhi Hhj. destruct (Hl c) as [f Hf].
  destruct (lock_inv_holder _ _ _ i Hf) as [q ->]; [by rewrite list_lookup_fmap, Hi; simpl; f_equal|].
  destruct (lock_inv_holder _ _ _ j Hf) as [q' E]; [by rewrite list_lookup_fmap, Hj; simpl; f_equal|].
  by simplify_eq.
Qed.

Lemma cell_thread_step_data c p m m' p' :
  cell_thread_step c p m = (m', p') -> forall c', data_of c' m' = data_of c' m.
Proof.
  unfold cell_thread_step, data_of. destruct (thread_step _ _ _). intros [= <- <-] c'.
  rewrite get_set_cell. by case_decide; subst.
Qed.

Lemma core_ok_data n m m' w :
  (forall c, data_of c m' = data_of c m) -> core_ok n m w -> core_ok n m' w.
Proof.
  intros Hd. destruct w as [c k p h|p h|p h|v|]; simpl; rewrite ?Hd; try done.
Qed.

(** Steps that write no data. *)
Lemma machine_inv_quiet n m ws i w m' w' :
  machine_inv n m ws -> ws !! i = Some w ->
  (forall c, exists f, lock_inv (cell_lock (get_cell c m')) (at_lock c <$> <[i := w']> ws) f) ->
  (forall c, data_of c m' = data_of c m) ->
  (forall c, remaining c w' = remaining c w) ->
  core_ok (Z.of_nat n) m' w' ->
  machine_inv n m' (<[i := w']> ws).
Proof.
  intros [H1 H2 H3 H4 H5] Hw Hl Hd Hr Hok. split; try done.
  - intros j wj [[<- [<- _]]|[_ Hj]]%list_lookup_insert_Some; [done|].
    eapply core_ok_data; eauto.
  - intros c. rewrite Hd, <- H3, list_fmap_insert, Hr, list_insert_id; [done|].
    by rewrite list_lookup_fmap, Hw.
  - intros c. by rewrite Hd.
Qed.

Lemma remaining_nonneg n m w c : core_ok n m w -> 0 <= remaining c w.
Proof. destruct w as [c' k p [| |]| | | |]; destruct c; simpl; repeat case_decide; lia. Qed.

Lemma remaining_le_sum n m ws i w c :
  machine_inv n m ws -> ws !! i = Some w ->
  0 <= remaining c w <= sumZ (remaining c <$> ws).
Proof.
  intros Hinv Hw. split; [by eapply remaining_nonneg, mi_cores|].
  apply sumZ_elem_le with i; [|by rewrite list_lookup_fmap, Hw].
  apply Forall_fmap, Forall_lookup_2. intros j wj Hj. by eapply remaining_nonneg, mi_cores.
Qed.

(** When every core has counted itself done, all increments are in. *)
Lemma all_done_counter n m ws :
  machine_inv n m ws -> Z.of_nat n <= data_of CORES_DONE m ->
  data_of SHARED_COUNTER m = Z.of_nat n * ITERATIONS.
Proof.
  intros Hinv Hdone. pose proof (mi_sums _ _ _ Hinv CORES_DONE) as Hd. simpl in Hd.
  pose proof (mi_sums _ _ _ Hinv SHARED_COUNTER) as Hc. simpl in Hc.
  assert (sumZ (remaining SHARED_COUNTER <$> ws) = 0); [|lia].
  assert (Forall (fun z => z = 0) (remaining SHARED_COUNTER <$> ws)) as Hz.
  { apply Forall_fmap, Forall_lookup_2. intros j w Hw. simpl.
    pose proof (remaining_le_sum n m ws j w CORES_DONE Hinv Hw).
    destruct w as [[] k p h| | | |]; simpl in *; lia. }
  clear -Hz. induction Hz as [|z l -> _ IH]; simpl; [done|]. exact IH.
Qed.

(** The write of [*guard += 1]. *)
Lemma machine_inv_write n m ws i c k v :
  machine_inv n m ws -> ws !! i = Some (Working c k Holding (HWrite v)) ->
  machine_inv n (set_cell c (mk_cell (cell_lock (get_cell c m)) (u64 (v + 1))) m)
    (<[i := Working c k Holding (HDrop v)]> ws).
Proof.
  intros Hinv Hw. pose proof (mi_cores _ _ _ Hinv _ _ Hw) as (Hk & _ & Hv).
  pose proof (remaining_le_sum n m ws i _ c Hinv Hw) as Hrem. simpl in Hrem.
  rewrite decide_True in Hrem by done.
  pose proof (mi_sums _ _ _ Hinv c) as Hsum. pose proof (mi_data _ _ _ Hinv c) as Hnn.
  pose proof (mi_threads _ _ _ Hinv) as Hn.
  assert (Hu : u64 (v + 1) = v + 1).
  { apply u64_small. subst v. destruct c; unfold share, ITERATIONS in Hsum; lia. }
  rewrite Hu. set (m' := set_cell _ _ _).
  assert (Hd : forall c', data_of c' m' = if decide (c = c') then v + 1 else data_of c' m).
  { intros c'. unfold data_of, m'. rewrite get_set_cell. by case_decide. }
  assert (Hmono : forall c', data_of c' m <= data_of c' m').
  { intros c'. rewrite Hd. case_decide; subst; lia. }
  split.
  - eapply locks_same; [apply (mi_locks _ _ _ Hinv)|exact Hw|done|].
    intros c'. unfold m'. rewrite get_set_cell. by case_decide; subst.
  - intros j wj [[<- [<- _]]|[Hne Hj]]%list_lookup_insert_Some; [done|].
    pose proof (mi_cores _ _ _ Hinv _ _ Hj) as Hok. pose proof (Hmono CORES_DONE).
    destruct wj as [c' k' p' h'|p' h'|p' h'|v'|]; simpl in *; try done.
    + destruct Hok as [Hk' Hh]. split; [done|]. destruct h' as [|v'|v']; try done.
      destruct Hh as [-> Hv']. split; [done|]. rewrite Hd. case_decide as Hc; [|done].
      subst c'. exfalso. apply Hne.
      eapply (locks_exclusive m ws _ _ _ _ c); [apply (mi_locks _ _ _ Hinv)|exact Hw|exact Hj|..];
        simpl; by rewrite decide_True.
    + destruct h'; try done. naive_solver lia.
    + destruct Hok. split; [lia|done].
    + destruct Hok. split; [lia|done].
  - intros c'. rewrite Hd, list_fmap_insert.
    pose proof (mi_sums _ _ _ Hinv c') as Hs.
    rewrite (sumZ_insert _ i (remaining c' (Working c k Holding (HWrite v))))
      by (by rewrite list_lookup_fmap, Hw).
    simpl. case_decide; subst; lia.
  - intros c'. pose proof (mi_data _ _ _ Hinv c'). specialize (Hmono c'). lia.
  - done.
Qed.

(** A step inside [lock], or the drop of a guard, on the lock of [c]. *)
Lemma machine_inv_lock n m ws i w c m' p' w' :
  machine_inv n m ws -> ws !! i = Some w -> cell_thread_step c (at_lock c w) m = (m', p') ->
  at_lock c w' = p' -> (forall c', c' <> c -> at_lock c' w' = at_lock c' w) ->
  (forall c', remaining c' w' = remaining c' w) -> core_ok (Z.of_nat n) m w' ->
  machine_inv n m' (<[i := w']> ws).
Proof.
  intros Hinv Hw Hst Hat Hother Hrem Hok.
  pose proof (cell_thread_step_data _ _ _ _ _ Hst) as Hd.
  eapply machine_inv_quiet; eauto using core_ok_data.
  eapply locks_step; eauto. apply (mi_locks _ _ _ Hinv).
Qed.

(** A step that touches no cell. *)
Lemma machine_inv_local n m ws i w w' :
  machine_inv n m ws -> ws !! i = Some w -> (forall c, at_lock c w' = at_lock c w) ->
  (forall c', remaining c' w' = remaining c' w) -> core_ok (Z.of_nat n) m w' ->
  machine_inv n m (<[i := w']> ws).
Proof.
  intros Hinv Hw Hat Hrem Hok. eapply machine_inv_quiet; eauto.
  eapply locks_same; eauto. apply (mi_locks _ _ _ Hinv).
Qed.

Lemma at_working c k p h : at_lock c (Working c k p h) = p.
Proof. simpl. by rewrite decide_True. Qed.

Lemma machine_inv_working n m ws i c k p h m' w' :
  machine_inv n m ws -> ws !! i = Some (Working c k p h) ->
  core_step i (Working c k p h) m = (m', w') -> machine_inv n m' (<[i := w']> ws).
Proof.
  intros Hinv Hw Hst. pose proof (mi_cores _ _ _ Hinv _ _ Hw) as (Hk & Hh).
  destruct (decide (p = Holding)) as [->|Hp].
  - destruct h as [|v|v]; simpl in Hst.
    + simplify_eq. eapply machine_inv_local; eauto. done.
    + simplify_eq. by apply machine_inv_write.
    + simplify_eq.
      eapply (machine_inv_lock n m ws i _ c _ Idle); [exact Hinv|exact Hw|..].
      * by rewrite at_working.
      * unfold after_increment. zcase; [apply at_working|]. by destruct c, i.
      * intros c' Hne. unfold after_increment.
        zcase; simpl; [by rewrite !decide_False by done|]. by destruct c, i, c'.
      * intros c'. unfold after_increment. zcase; simpl; [by case_decide|].
        assert (k = 1) as -> by lia. by destruct c, i, c'.
      * unfold after_increment. zcase; [split; [lia|done]|]. by destruct c, i.
  - assert (h = HRead) as -> by (destruct h; naive_solver).
    assert (core_step i (Working c k p HRead) m =
      let '(m', p') := cell_thread_step c p m in (m', Working c k p' HRead)) as E
      by (destruct p; done).
    rewrite E in Hst. destruct (cell_thread_step c p m) as [m1 p1] eqn:E1. simplify_eq.
    eapply (machine_inv_lock n m ws i _ c _ p1); [exact Hinv|exact Hw|..]; simpl.
    + rewrite decide_True by done. exact E1.
    + by rewrite decide_True.
    + intros c' Hne. by rewrite !decide_False by done.
    + done.
    + done.
Qed.

Lemma machine_inv_report_wait n m ws i p h m' w' :
  machine_inv n m ws -> ws !! i = Some (ReportWait p h) ->
  core_step i (ReportWait p h) m = (m', w') -> machine_inv n m' (<[i := w']> ws).
Proof.
  intros Hinv Hw Hst. pose proof (mi_cores _ _ _ Hinv _ _ Hw) as Hh.
  destruct (decide (p = Holding)) as [->|Hp].
  - destruct h as [|v|v]; simpl in Hst; [|done|].
    + simplify_eq. eapply machine_inv_local; eauto. done.
    + simplify_eq. destruct Hh as [_ Hv].
      eapply (machine_inv_lock n m ws i _ CORES_DONE _ Idle); [exact Hinv|exact Hw|..];
        try first [done | by zcase]; [by intros []; zcase|].
      zcase; simpl; [|done]. split; [lia|done].
  - assert (h = HRead) as -> by (destruct h; naive_solver).
    assert (core_step i (ReportWait p HRead) m =
      let '(m', p') := cell_thread_step CORES_DONE p m in (m', ReportWait p' HRead)) as E
      by (destruct p; done).
    rewrite E in Hst. destruct (cell_thread_step CORES_DONE p m) as [m1 p1] eqn:E1. simplify_eq.
    eapply machine_inv_lock; [exact Hinv|exact Hw|exact E1|done|by intros []|done|done].
Qed.

Lemma machine_inv_report_final n m ws i p h m' w' :
  machine_inv n m ws -> ws !! i = Some (ReportFinal p h) ->
  core_step i (ReportFinal p h) m = (m', w') -> machine_inv n m' (<[i := w']> ws).
Proof.
  intros Hinv Hw Hst. pose proof (mi_cores _ _ _ Hinv _ _ Hw) as [Hd Hh].
  destruct (decide (p = Holding)) as [->|Hp].
  - destruct h as [|v|v]; simpl in Hst; [|done|].
    + simplify_eq. eapply machine_inv_local; eauto; try done.
      split; [done|]. split; [done|]. intros Hn.
      rewrite <- Hn. eapply all_done_counter; [exact Hinv|lia].
    + simplify_eq. destruct Hh as [_ Hv].
      by eapply (machine_inv_lock n m ws i _ SHARED_COUNTER _ Idle);
        [exact Hinv|exact Hw|try by intros []..].
  - assert (h = HRead) as -> by (destruct h; naive_solver).
    assert (core_step i (ReportFinal p HRead) m =
      let '(m', p') := cell_thread_step SHARED_COUNTER p m in (m', ReportFinal p' HRead)) as E
      by (destruct p; done).
    rewrite E in Hst. destruct (cell_thread_step SHARED_COUNTER p m) as [m1 p1] eqn:E1. simplify_eq.
    eapply machine_inv_lock; [exact Hinv|exact Hw|exact E1|done|by intros []|done|done].
Qed.

Lemma machine_inv_step n m ws m' ws' :
  machine_inv n m ws -> machine_step (m, ws) (m', ws') -> machine_inv n m' ws'.
Proof.
  intros Hinv Hstep. inversion Hstep as [? ? i w ? w' Hw Hst]; subst.
  destruct w as [c k p h|p h|p h|v|].
  - by eapply machine_inv_working.
  - by eapply machine_inv_report_wait.
  - by eapply machine_inv_report_final.
  - simpl in Hst. simplify_eq. by rewrite list_insert_id.
  - simpl in Hst. simplify_eq. by rewrite list_insert_id.
Qed.

Lemma machine_inv_start n :
  Z.of_nat n <= two32 -> machine_inv n start_shared (replicate n start_core).
Proof.
  intros Hn. split.
  - intros c. exists (mk_fifo [] false). rewrite fmap_replicate.
    replace (cell_lock (get_cell c start_shared)) with new by (by destruct c).
    replace (at_lock c start_core) with Idle by (by destruct c). by apply lock_inv_new.
  - intros i w [-> _]%lookup_replicate. done.
  - intros c. rewrite fmap_replicate, sumZ_replicate.
    by destruct c; unfold data_of; simpl.
  - by intros [].
  - done.
Qed.

Lemma machine_inv_reachable n s :
  Z.of_nat n <= two32 -> rtc machine_step (start_machine n) s -> machine_inv n s.1 s.2.
Proof.
  intros Hn Hrun. remember (start_machine n) as s0 eqn:E.
  assert (machine_inv n s0.1 s0.2) as Hinv by (subst; by apply machine_inv_start).
  clear E. induction Hrun as [s|[m1 ws1] [m2 ws2] s3 Hstep _ IH]; [done|].
  apply IH. by eapply machine_inv_step.
Qed.

(** ** Cores that run alone

    With the lock of a cell free, a core completes its increments of it. *)

Definition cell_free (x : cell) : Prop := ticket (cell_lock x) = next (cell_lock x).

Lemma machine_step_at m ws i w m' w' :
  ws !! i = Some w -> core_step i w m = (m', w') -> machine_step (m, ws) (m', <[i := w']> ws).
Proof. apply machine_step_intro. Qed.

(** Follow core [i] through one more of its steps. *)
Ltac core_run i :=
  eapply rtc_l; [eapply (machine_step_at _ _ i);
                 [rewrite list_lookup_insert_eq by (rewrite ?length_insert; done); reflexivity
                 |reflexivity]|];
  rewrite ?list_insert_insert_eq.

(** Follow core [i] through the spin that finds its ticket served. *)
Ltac core_acquire i :=
  eapply rtc_l; [eapply (machine_step_at _ _ i);
                 [rewrite list_lookup_insert_eq by (rewrite ?length_insert; done); reflexivity
                 |simpl; unfold cell_thread_step; simpl; unfold lock_spin; simpl;
                  rewrite Z.eqb_refl; reflexivity]|];
  rewrite ?list_insert_insert_eq.

Lemma solo_increment m ws i c k :
  (i < length ws)%nat -> cell_free (get_cell c m) -> 0 <= data_of c m < two64 - 1 ->
  exists x, cell_free x /\ cell_data x = data_of c m + 1 /\
    rtc machine_step (m, <[i := Working c k Idle HRead]> ws)
      (set_cell c x m, <[i := after_increment i c (k - 1)]> ws).
Proof.
  intros Hi Hfree Hd. destruct m as [[[t1 n1] d1] [[t2 n2] d2]].
  destruct c; unfold cell_free, data_of in *; simpl in *; subst.
  - exists (mk_cell (mk_spinlock (u32 (n1 + 1)) (u32 (n1 + 1))) (d1 + 1)).
    split; [done|]. split; [done|]. do 1 core_run i.
    core_acquire i. do 3 core_run i. simpl. rewrite u64_small by lia. apply rtc_refl.
  - exists (mk_cell (mk_spinlock (u32 (n2 + 1)) (u32 (n2 + 1))) (d2 + 1)).
    split; [done|]. split; [done|]. do 1 core_run i.
    core_acquire i. do 3 core_run i. simpl. rewrite u64_small by lia. apply rtc_refl.
Qed.

Lemma set_cell_set_cell c x y m : set_cell c x (set_cell c y m) = set_cell c x m.
Proof. by destruct c. Qed.

Lemma solo_increments (k : nat) m ws i c :
  (i < length ws)%nat -> cell_free (get_cell c m) -> 0 <= data_of c m ->
  data_of c m + Z.of_nat (S k) < two64 ->
  exists x, cell_free x /\ cell_data x = data_of c m + Z.of_nat (S k) /\
    rtc machine_step (m, <[i := Working c (Z.of_nat (S k)) Idle HRead]> ws)
      (set_cell c x m, <[i := after_increment i c 0]> ws).
Proof.
  intros Hi. revert m. induction k as [|k IH]; intros m Hfree Hd Hlt.
  { destruct (solo_increment m ws i c 1) as (x & Hx & Hdx & Hrun); [done|done|lia|].
    exists x. split_and!; done. }
  destruct (solo_increment m ws i c (Z.of_nat (S (S k)))) as (x & Hx & Hdx & Hrun);
    [done|done|lia|].
  destruct (IH (set_cell c x m)) as (y & Hy & Hdy & Hrun').
  1-3: unfold data_of; rewrite ?get_set_cell, ?decide_True by done; first [done|lia].
  exists y. split; [done|]. split.
  { rewrite Hdy. unfold data_of at 1. rewrite get_set_cell, decide_True by done. lia. }
  etrans; [exact Hrun|].
  replace (after_increment i c (Z.of_nat (S (S k)) - 1)) with
    (Working c (Z.of_nat (S k)) Idle HRead).
  2: { unfold after_increment. zcase; [|lia]. f_equal. lia. }
  rewrite set_cell_set_cell in Hrun'. exact Hrun'.
Qed.

(** Both cells are free and hold [a] and [b]. *)
Definition quiescent (m : shared) (a b : Z) : Prop :=
  cell_free (counter_cell m) /\ cell_free (done_cell m) /\
  data_of SHARED_COUNTER m = a /\ data_of CORES_DONE m = b.

Lemma solo_worker m ws i a b :
  (i < length ws)%nat -> quiescent m a b -> 0 <= a < 2 ^ 32 -> 0 <= b < 2 ^ 32 ->
  exists m', quiescent m' (a + ITERATIONS) (b + 1) /\
    rtc machine_step (m, <[i := start_core]> ws)
      (m', <[i := match i with O => ReportWait Idle HRead | S _ => Finished end]> ws).
Proof.
  intros Hi (Hf1 & Hf2 & <- & <-) Ha Hb.
  destruct (solo_increments (Z.to_nat (ITERATIONS - 1)) m ws i SHARED_COUNTER) as
    (x & Hx & Hdx & Hrun); [done|done|lia|unfold ITERATIONS; lia|].
  replace (Z.of_nat (S (Z.to_nat (ITERATIONS - 1)))) with ITERATIONS in * by (unfold ITERATIONS; lia).
  destruct (solo_increment (set_cell SHARED_COUNTER x m) ws i CORES_DONE 1) as
    (y & Hy & Hdy & Hrun'); [done|done|unfold data_of in *; simpl in *; lia|].
  eexists. split; [|etrans; [exact Hrun|exact Hrun']].
  repeat split; try done.
Qed.

(** Core 0 reports once the other cores are done. *)
Lemma solo_report m ws a b :
  (0 < length ws)%nat -> quiescent m a b -> NUM_CORES <= b ->
  exists m', rtc machine_step (m, <[0%nat := ReportWait Idle HRead]> ws)
    (m', <[0%nat := Reported a]> ws).
Proof.
  intros Hi (Hf1 & Hf2 & Ha & Hb) Hge. destruct m as [[[t1 n1] d1] [[t2 n2] d2]].
  unfold cell_free, data_of in *; simpl in *; subst. eexists.
  core_run 0%nat.
  core_acquire 0%nat. core_run 0%nat.
  eapply rtc_l; [eapply (machine_step_at _ _ 0)|].
  { by rewrite list_lookup_insert_eq. }
  { simpl. rewrite (proj2 (Z.leb_le NUM_CORES b) Hge). reflexivity. }
  rewrite list_insert_insert_eq. core_run 0%nat.
  core_acquire 0%nat. do 2 core_run 0%nat. apply rtc_refl.
Qed.

(** Four cores that run one after the other. *)
Lemma four_cores_report :
  exists m, rtc machine_step (start_machine 4)
    (m, [Reported (NUM_CORES * ITERATIONS); Finished; Finished; Finished]).
Proof.
  assert (quiescent start_shared 0 0) as H0 by done.
  destruct (solo_worker _ (replicate 4 start_core) 3 _ _ ltac:(simpl; lia) H0) as (m1 & H1 & R1); [lia|lia|].
  destruct (solo_worker _ [start_core; start_core; start_core; Finished] 2 _ _
    ltac:(simpl; lia) H1) as (m2 & H2 & R2); [unfold ITERATIONS; lia|lia|].
  destruct (solo_worker _ [start_core; start_core; Finished; Finished] 1 _ _
    ltac:(simpl; lia) H2) as (m3 & H3 & R3); [unfold ITERATIONS; lia|lia|].
  destruct (solo_worker _ [start_core; Finished; Finished; Finished] 0 _ _
    ltac:(simpl; lia) H3) as (m4 & H4 & R4); [unfold ITERATIONS; lia|lia|].
  destruct (solo_report _ [start_core; Finished; Finished; Finished] _ _
    ltac:(simpl; lia) H4) as (m5 & R5); [unfold NUM_CORES; lia|].
  exists m5. do 3 (etrans; [eassumption|]).
  etrans; [exact R4|]. exact R5.
Qed.

(** ** Properties *)

(** No increment is lost: with any number of cores up to 2^32, once no
    core is in its loop any more, [SHARED_COUNTER] is the number of cores
    times [ITERATIONS]; and when four cores take part, whatever the
    interleaving, the value core 0 reports passes the test. *)
Theorem contention_no_lost_increment n s :
  Z.of_nat n <= two32 -> rtc machine_step (start_machine n) s ->
  ((forall i c k p h, s.2 !! i <> Some (Working c k p h)) ->
     data_of SHARED_COUNTER s.1 = Z.of_nat n * ITERATIONS) /\
  (Z.of_nat n = NUM_CORES -> forall i v, s.2 !! i = Some (Reported v) -> passes v = true).
Proof.
  intros Hn Hrun. pose proof (machine_inv_reachable n s Hn Hrun) as Hinv. split.
  - intros Hdone. apply (all_done_counter n s.1 s.2 Hinv).
    pose proof (mi_sums _ _ _ Hinv CORES_DONE) as Hd. simpl in Hd.
    assert (sumZ (remaining CORES_DONE <$> s.2) = 0) as Hz; [|lia].
    assert (Forall (fun z => z = 0) (remaining CORES_DONE <$> s.2)) as Hall.
    { apply Forall_fmap, Forall_lookup_2. intros j w Hw. simpl.
      destruct w as [c k p h| | | |]; [by destruct (Hdone j c k p h)|done..]. }
    clear -Hall. induction Hall as [|z l -> _ IH]; simpl; [done|]. exact IH.
  - intros Hn4 i v Hv. destruct (mi_cores _ _ _ Hinv _ _ Hv) as [_ Hpass].
    rewrite (Hpass Hn4). reflexivity.
Qed.

Lemma contention_no_lost_increment_witness :
  exists m, rtc machine_step (start_machine 4)
    (m, [Reported (NUM_CORES * ITERATIONS); Finished; Finished; Finished]) /\
    data_of SHARED_COUNTER m = 4000000.
Proof.
  destruct four_cores_report as [m Hrun]. exists m. split; [exact Hrun|].
  apply (contention_no_lost_increment 4 _ ltac:(lia) Hrun).
  intros i c k p h Hw. do 5 (destruct i as [|i]; [discriminate Hw|]). discriminate Hw.
Defined.

(** [report_result] waits for a fixed [NUM_CORES] = 4: on a machine where
    fewer cores run [contention_worker], core 0 never leaves the waiting loop,
    so the boot never gets past the test. *)
Theorem report_never_returns_below_four_cores n s :
  Z.of_nat n < NUM_CORES -> rtc machine_step (start_machine n) s ->
  data_of CORES_DONE s.1 < NUM_CORES /\
  forall i, (forall v, s.2 !! i <> Some (Reported v)) /\
            (forall p h, s.2 !! i <> Some (ReportFinal p h)).
Proof.
  intros Hn Hrun.
  assert (machine_inv n s.1 s.2) as Hinv.
  { apply machine_inv_reachable; [unfold NUM_CORES in Hn; lia|done]. }
  pose proof (mi_sums _ _ _ Hinv CORES_DONE) as Hd. simpl in Hd.
  assert (0 <= sumZ (remaining CORES_DONE <$> s.2)).
  { apply sumZ_nonneg, Forall_fmap, Forall_lookup_2. intros j w Hw.
    eapply remaining_nonneg, mi_cores; eauto. }
  split; [lia|]. intros i. split.
  - intros v Hv. destruct (mi_cores _ _ _ Hinv _ _ Hv). lia.
  - intros p h Hv. destruct (mi_cores _ _ _ Hinv _ _ Hv). lia.
Qed.

Lemma report_never_returns_below_four_cores_witness :
  exists m, rtc machine_step (start_machine 1) (m, [ReportWait Idle HRead]) /\
    data_of CORES_DONE m < NUM_CORES.
Proof.
  destruct (solo_worker start_shared [start_core] 0 0 0 ltac:(simpl; lia)
    ltac:(repeat split) ltac:(lia) ltac:(lia)) as (m & _ & Hrun).
  exists m. split; [exact Hrun|].
  apply (report_never_returns_below_four_cores 1 (m, [ReportWait Idle HRead])
    ltac:(unfold NUM_CORES; lia) Hrun).
Defined.
