(* ===== verification/Rings.v ===== *)
(** * The kernel's ring buffers

    The event queue (src/src/events.rs), the work queue
    (src/src/workqueue.rs) and the kernel log (src/src/dmesg.rs).  The first
    two are the same ring of [Option] slots with different sizes; they are
    shown to implement a bounded first-in-first-out queue.  The log keeps the
    most recent bytes.  Each function that takes the queue's lock for its
    whole body is one atomic operation; the log keeps its lock in the state,
    because [dump] prints while it holds it. *)

From stdpp Require Import pretty.
From S2P Require Import Prelude SpinLock.

Module Ring.

(** [static mut QUEUE], [HEAD], [TAIL] and [COUNT]. *)
Record ring (A : Type) : Type := mk_ring {
  slots : list (option A);
  head : Z;
  tail : Z;
  count : Z;
}.
Arguments mk_ring {A}.
Arguments slots {A}.
Arguments head {A}.
Arguments tail {A}.
Arguments count {A}.

Definition empty {A} (size : Z) : ring A :=
  mk_ring (replicate (Z.to_nat size) None) 0 0 0.

Definition push {A} (size : Z) (x : A) (r : ring A) : outcome (result unit unit * ring A) :=
  if size <=? count r then Ret (Err tt, r) else
  s ← assign (slots r) (head r) (Some x);
  Ret (Ok tt, mk_ring s ((head r + 1) mod size) (tail r) (u64 (count r + 1))).

Definition pop {A} (size : Z) (r : ring A) : outcome (option A * ring A) :=
  if count r =? 0 then Ret (None, r) else
  x ← index (slots r) (tail r);
  s ← assign (slots r) (tail r) None;
  Ret (x, mk_ring s (head r) ((tail r + 1) mod size) (u64 (count r - 1))).

(** [r] holds the items [q], oldest first. *)
Record holds {A} (size : Z) (r : ring A) (q : list A) : Prop := {
  h_size : 0 < size < two64;
  h_slots : lenZ (slots r) = size;
  h_count : count r = lenZ q;
  h_full : lenZ q <= size;
  h_tail : 0 <= tail r < size;
  h_head : head r = (tail r + lenZ q) mod size;
  h_items : forall k x, lookupZ q k = Some x ->
    lookupZ (slots r) ((tail r + k) mod size) = Some (Some x);
}.

Lemma holds_empty {A} size : 0 < size < two64 -> holds size (@empty A size) [].
Proof.
  intros Hs. split; simpl; change (lenZ []) with 0; try done; try lia.
  - apply lenZ_replicate. lia.
  - intros k x Hk%lookupZ_Some_lt. unfold lenZ in Hk; simpl in Hk. lia.
Qed.

Lemma lookupZ_app {A} (q : list A) x k y :
  lookupZ (q ++ [x]) k = Some y ->
  lookupZ q k = Some y \/ (k = lenZ q /\ y = x).
Proof.
  unfold lookupZ, lenZ. zcase; [done|]. intros [Hk|[Hge Hk]]%lookup_app_Some; [by left|].
  apply list_lookup_singleton_Some in Hk as [Hk ->]. right. split; [lia|done].
Qed.

Lemma push_spec {A} size x (r : ring A) q :
  holds size r q ->
  (lenZ q = size /\ push size x r = Ret (Err tt, r)) \/
  (lenZ q < size /\ exists r', push size x r = Ret (Ok tt, r') /\ holds size r' (q ++ [x])).
Proof.
  intros [H1 H2 H3 H4 H5 H6 H7]. unfold push. rewrite H3. zcase; [left; split; [lia|done]|].
  right. split; [done|]. assert (0 <= head r < size) by (rewrite H6; apply Z.mod_pos_bound; lia).
  rewrite assign_lt by lia. simpl. eexists. split; [done|].
  assert (E : lenZ (q ++ [x]) = lenZ q + 1) by (unfold lenZ; rewrite length_app; simpl; lia).
  pose proof (Nat2Z.is_nonneg (length q)). fold (lenZ q) in *.
  split; simpl; rewrite ?E; try lia.
  - by rewrite lenZ_insertZ.
  - rewrite u64_small; lia.
  - rewrite H6, Zplus_mod_idemp_l. f_equal. lia.
  - intros k y [Hk|[-> ->]]%lookupZ_app.
    + pose proof (lookupZ_Some_lt _ _ _ Hk).
      rewrite lookupZ_insertZ_ne; [by apply H7|]. rewrite H6. intros Heq.
      assert (((lenZ q - k) mod size) = 0) as Hm.
      { replace (lenZ q - k) with ((tail r + lenZ q) - (tail r + k)) by lia.
        rewrite Zminus_mod, Heq, Z.sub_diag. apply Zmod_0_l. }
      rewrite Z.mod_small in Hm; lia.
    + rewrite <- H6, lookupZ_insertZ_eq; [done|lia].
Qed.

Lemma pop_spec {A} size (r : ring A) q :
  holds size r q ->
  match q with
  | [] => pop size r = Ret (None, r)
  | x :: q' => exists r', pop size r = Ret (Some x, r') /\ holds size r' q'
  end.
Proof.
  intros [H1 H2 H3 H4 H5 H6 H7]. unfold pop. rewrite H3. destruct q as [|x q]; [done|].
  assert (E : lenZ (x :: q) = lenZ q + 1) by (unfold lenZ; simpl; lia).
  pose proof (Nat2Z.is_nonneg (length q)). fold (lenZ q) in *. rewrite E in *.
  zcase; [lia|]. pose proof (H7 0 x eq_refl) as H0. rewrite Z.add_0_r, Z.mod_small in H0 by lia.
  unfold index. rewrite H0. simpl. rewrite assign_lt by lia. simpl.
  eexists. split; [done|]. split; simpl; try lia.
  - by rewrite lenZ_insertZ.
  - rewrite u64_small; lia.
  - apply Z.mod_pos_bound. lia.
  - rewrite H6, Zplus_mod_idemp_l. f_equal. lia.
  - intros k y Hk. pose proof (lookupZ_Some_lt _ _ _ Hk).
    rewrite Zplus_mod_idemp_l. replace (tail r + 1 + k) with (tail r + (k + 1)) by lia.
    rewrite lookupZ_insertZ_ne.
    + apply H7. unfold lookupZ in *. destruct (Z.ltb_spec k 0); [lia|].
      destruct (Z.ltb_spec (k + 1) 0); [lia|].
      by replace (Z.to_nat (k + 1)) with (S (Z.to_nat k)) by lia.
    + intros Heq. assert ((k + 1) mod size = 0) as Hm.
      { replace (k + 1) with ((tail r + (k + 1)) - tail r) by lia.
        rewrite Zminus_mod, <- Heq, Zminus_mod_idemp_r, Z.sub_diag. apply Zmod_0_l. }
      rewrite Z.mod_small in Hm; lia.
Qed.

End Ring.

(** ** The event queue *)

Module Events.
Import Ring.

Inductive EventType : Type :=
| Keyboard | Timer | Disk | Network | Power | Custom (id : Z).

Record Event : Type := mk_event { event_type : EventType; data0 : Z; data1 : Z }.

Definition EVENT_QUEUE_SIZE : Z := 128.

Definition event_queue : Type := ring Event.
Definition EVENT_QUEUE : event_queue := empty EVENT_QUEUE_SIZE.

Definition push_event (e : Event) (r : event_queue) : outcome (result unit unit * event_queue) :=
  push EVENT_QUEUE_SIZE e r.
Definition pop_event (r : event_queue) : outcome (option Event * event_queue) :=
  pop EVENT_QUEUE_SIZE r.
Definition pending_count (r : event_queue) : Z := count r.

(** The trace line of an event: its format string and arguments. *)
Definition trace_line (e : Event) : list (string * list Z) :=
  match event_type e with
  | Keyboard => [("keyboard event: data={:#x}", [data0 e])]
  | Timer => []
  | Disk => [("disk event: data={:#x}", [data0 e])]
  | Network => [("network event: data={:#x}", [data0 e])]
  | Power => [("power event: data={:#x}", [data0 e])]
  | Custom id => [("custom event id={}: data={:#x}", [id; data0 e])]
  end%string.

(** The loop, with as many iterations as [fuel]. *)
Fixpoint process_events_loop (fuel : nat) (r : event_queue) (log : list (string * list Z))
  : outcome (list (string * list Z) * event_queue) :=
  match fuel with
  | O => Hang
  | S fuel' =>
      x ← pop_event r;
      match x with
      | (Some e, r') => process_events_loop fuel' r' (log ++ trace_line e)
      | (None, r') => Ret (log, r')
      end
  end.
Definition process_events (r : event_queue) : outcome (list (string * list Z) * event_queue) :=
  process_events_loop (S (Z.to_nat (count r))) r [].

Definition event_queue_holds (r : event_queue) (q : list Event) : Prop :=
  holds EVENT_QUEUE_SIZE r q.

Lemma process_events_loop_spec fuel r q log :
  event_queue_holds r q -> (length q < fuel)%nat ->
  exists r', process_events_loop fuel r log = Ret (log ++ (q ≫= trace_line), r') /\
    event_queue_holds r' [].
Proof.
  revert r q log. induction fuel as [|fuel IH]; intros r q log Hr Hf; [lia|]. simpl.
  unfold pop_event. pose proof (pop_spec _ _ _ Hr) as Hpop. destruct q as [|e q].
  - rewrite Hpop. simpl. exists r. by rewrite app_nil_r.
  - destruct Hpop as (r' & -> & Hr'). simpl in *.
    destruct (IH r' q (log ++ trace_line e)) as (r2 & -> & Hr2); [done|lia|].
    exists r2. by rewrite <- app_assoc.
Qed.
End Events.

(** ** The work queue *)

Module WorkQueue.
Import Ring.

(** [func] is the address of the function. *)
Record WorkItem : Type := mk_work { func : Z; arg : Z }.

Definition WORK_QUEUE_SIZE : Z := 64.
Definition work_queue : Type := ring WorkItem.
Definition WORK_QUEUE : work_queue := empty WORK_QUEUE_SIZE.

Definition submit (f a : Z) (r : work_queue) : outcome (result unit unit * work_queue) :=
  push WORK_QUEUE_SIZE (mk_work f a) r.
Definition pending_count (r : work_queue) : Z := count r.

Section process.
(** The call [(work.func)(work.arg)]: the functions are arbitrary code of
    the kernel, which may itself submit work. *)
Variable call : WorkItem -> work_queue -> outcome work_queue.

Fixpoint process_work_loop (fuel : nat) (r : work_queue) (done : list WorkItem)
  : outcome (list WorkItem * work_queue) :=
  match fuel with
  | O => Hang
  | S fuel' =>
      if count r =? 0 then Ret (done, r) else
      x ← pop WORK_QUEUE_SIZE r;
      match x with
      | (Some w, r') => r'' ← call w r'; process_work_loop fuel' r'' (done ++ [w])
      | (None, r') => process_work_loop fuel' r' done
      end
  end.
End process.

(** A family of functions: item [w] submits the items [spawned w], in order,
    each of them accepted. *)
Definition spawns (call : WorkItem -> work_queue -> outcome work_queue)
    (spawned : WorkItem -> list WorkItem) : Prop :=
  forall w r q, holds WORK_QUEUE_SIZE r q -> lenZ q + lenZ (spawned w) <= WORK_QUEUE_SIZE ->
    exists r', call w r = Ret r' /\ holds WORK_QUEUE_SIZE r' (q ++ spawned w).

(** The reference: a list worked off from the front, new work at the back. *)
Fixpoint work_off (fuel : nat) (spawned : WorkItem -> list WorkItem) (q done : list WorkItem)
  : option (list WorkItem) :=
  match fuel, q with
  | _, [] => Some done
  | O, _ => None
  | S fuel', w :: q' =>
      if lenZ q' + lenZ (spawned w) <=? WORK_QUEUE_SIZE
      then work_off fuel' spawned (q' ++ spawned w) (done ++ [w])
      else None
  end.

Lemma process_work_loop_spec call spawned fuel r q done res :
  spawns call spawned -> holds WORK_QUEUE_SIZE r q ->
  work_off fuel spawned q done = Some res ->
  exists r', process_work_loop call (S fuel) r done = Ret (res, r') /\
    holds WORK_QUEUE_SIZE r' [].
Proof.
  intros Hcall. revert r q done. induction fuel as [|fuel IH]; intros r q done Hr Hoff.
  - destruct q; [|done]. injection Hoff as <-. simpl. rewrite (h_count _ _ _ Hr). by exists r.
  - destruct q as [|w q].
    { injection Hoff as <-. simpl. rewrite (h_count _ _ _ Hr). by exists r. }
    cbn [work_off] in Hoff. destruct (Z.leb_spec (lenZ q + lenZ (spawned w)) WORK_QUEUE_SIZE); [|done].
    destruct (pop_spec _ _ _ Hr) as (r1 & Hpop & Hr1).
    destruct (Hcall w r1 q Hr1 ltac:(done)) as (r2 & Hc & Hr2).
    destruct (IH r2 _ _ Hr2 Hoff) as (r' & Hrun & Hr').
    exists r'. split; [|done]. rewrite <- Hrun. cbn [process_work_loop].
    destruct (Z.eqb_spec (count r) 0) as [E|_].
    { rewrite (h_count _ _ _ Hr) in E. unfold lenZ in E. simpl in E. lia. }
    rewrite Hpop, bind_Ret, Hc. reflexivity.
Qed.
End WorkQueue.

(** ** The kernel log *)

Module Dmesg.

Definition DMESG_BUF_SIZE : Z := 16384.

Record dmesg : Type := mk_dmesg {
  BUF : list Z;
  WRITE_POS : Z;
  Wrapped : bool;
  DMESG_LOCK : spinlock;
  serial : list Z; (* what was written to the serial port, oldest first *)
}.

Definition boot_dmesg : dmesg :=
  mk_dmesg (replicate (Z.to_nat DMESG_BUF_SIZE) 0) 0 false new [].

Definition with_lock (l : spinlock) (d : dmesg) : dmesg :=
  mk_dmesg (BUF d) (WRITE_POS d) (Wrapped d) l (serial d).
Definition write_serial (b : Z) (d : dmesg) : dmesg :=
  mk_dmesg (BUF d) (WRITE_POS d) (Wrapped d) (DMESG_LOCK d) (serial d ++ [b]).

(** [lock] on a core nobody else contends with: the first look at [next]
    decides, a failed spin changes nothing and will never succeed. *)
Definition lock_alone (d : dmesg) : outcome dmesg :=
  let '(l1, p) := thread_step CallLock Idle (DMESG_LOCK d) in
  match thread_step CallLock p l1 with
  | (l2, Holding) => Ret (with_lock l2 d)
  | _ => Hang
  end.
Definition unlock (d : dmesg) : dmesg := with_lock (guard_drop (DMESG_LOCK d)).1 d.

(** [push_byte] between the lock and the drop of the guard. *)
Definition store_byte (b : Z) (d : dmesg) : outcome dmesg :=
  buf ← assign (BUF d) (WRITE_POS d) b;
  let pos := WRITE_POS d + 1 in
  Ret (if DMESG_BUF_SIZE <=? pos
       then mk_dmesg buf 0 true (DMESG_LOCK d) (serial d)
       else mk_dmesg buf pos (Wrapped d) (DMESG_LOCK d) (serial d)).

Definition push_byte (b : Z) (d : dmesg) : outcome dmesg :=
  d ← lock_alone d;
  d ← store_byte b d;
  Ret (unlock d).

Fixpoint push_bytes (data : list Z) (d : dmesg) : outcome dmesg :=
  match data with
  | [] => Ret d
  | b :: data' => d' ← push_byte b d; push_bytes data' d'
  end.

(** [_print]: the text goes to the log first, then to the serial port. *)
Definition print_bytes (s : list Z) (d : dmesg) : outcome dmesg :=
  d ← push_bytes s d;
  Ret (foldl (fun d b => write_serial b d) d s).

Definition println (s : string) (d : dmesg) : outcome dmesg :=
  print_bytes (bytes_of s ++ [10]) d.

(** The loop of [dump] over the indices still to print. *)
Fixpoint dump_loop (idxs : list Z) (start : Z) (d : dmesg) : outcome dmesg :=
  match idxs with
  | [] => Ret d
  | i :: idxs' =>
      let idx := (start + i) mod DMESG_BUF_SIZE in
      b ← index (BUF d) idx;
      dump_loop idxs' start (if b =? 0 then d else write_serial b d)
  end.

Definition dump_total (d : dmesg) : Z := if Wrapped d then DMESG_BUF_SIZE else WRITE_POS d.
Definition dump_start (d : dmesg) : Z := if Wrapped d then WRITE_POS d else 0.

Definition dump (d : dmesg) : outcome dmesg :=
  d ← lock_alone d;
  if dump_total d =? 0 then
    d ← println "[dmesg] Buffer empty." d;
    Ret (unlock d)
  else
    d ← println ("--- dmesg (" +:+ pretty (Z.to_N (dump_total d)) +:+ " bytes) ---")%string d;
    d ← dump_loop (seqZ 0 (dump_total d)) (dump_start d) d;
    d ← print_bytes ([10] ++ bytes_of "--- end dmesg ---" ++ [10]) d;
    Ret (unlock d).

(** Nobody holds the log's lock. *)
Definition unlocked (d : dmesg) : Prop :=
  ticket (DMESG_LOCK d) = next (DMESG_LOCK d) /\ 0 <= next (DMESG_LOCK d) < two32.

(** The log after the bytes [hist] were pushed. *)
Record logged (d : dmesg) (hist : list Z) : Prop := {
  lg_len : lenZ (BUF d) = DMESG_BUF_SIZE;
  lg_pos : WRITE_POS d = lenZ hist mod DMESG_BUF_SIZE;
  lg_wrapped : Wrapped d = (DMESG_BUF_SIZE <=? lenZ hist);
  lg_bytes : forall j b, lenZ hist - DMESG_BUF_SIZE <= j -> lookupZ hist j = Some b ->
    lookupZ (BUF d) (j mod DMESG_BUF_SIZE) = Some b;
}.

Lemma lock_alone_free d :
  unlocked d ->
  lock_alone d = Ret (with_lock (mk_spinlock (u32 (next (DMESG_LOCK d) + 1)) (next (DMESG_LOCK d))) d).
Proof.
  intros [Ht _]. unfold lock_alone, thread_step, lock_fetch_add, lock_spin. simpl.
  by rewrite Ht, Z.eqb_refl.
Qed.

(** The lock is not reentrant. *)
Lemma lock_alone_twice d d1 : unlocked d -> lock_alone d = Ret d1 -> lock_alone d1 = Hang.
Proof.
  intros Hu. rewrite (lock_alone_free d Hu). intros [= <-].
  destruct Hu as [_ Hn]. unfold lock_alone, thread_step, lock_fetch_add, lock_spin. simpl.
  zcase; [|done]. unfold u32 in *. dlia.
Qed.

Lemma store_byte_logged b d hist :
  logged d hist -> exists d', store_byte b d = Ret d' /\ logged d' (hist ++ [b]) /\
    DMESG_LOCK d' = DMESG_LOCK d /\ serial d' = serial d.
Proof.
  intros [H1 H2 H3 H4]. unfold store_byte.
  pose proof (Nat2Z.is_nonneg (length hist)) as Hnn. fold (lenZ hist) in Hnn.
  assert (E : lenZ (hist ++ [b]) = lenZ hist + 1) by (unfold lenZ; rewrite length_app; simpl; lia).
  unfold DMESG_BUF_SIZE in *. rewrite assign_lt by dlia. simpl.
  assert (Hbytes : forall j x, lenZ (hist ++ [b]) - 16384 <= j -> lookupZ (hist ++ [b]) j = Some x ->
    lookupZ (insertZ (WRITE_POS d) b (BUF d)) (j mod 16384) = Some x).
  { intros j x Hj [Hx|[-> ->]]%Ring.lookupZ_app.
    - pose proof (lookupZ_Some_lt _ _ _ Hx). rewrite lookupZ_insertZ_ne; [apply H4; [lia|done]|].
      dlia.
    - rewrite <- H2. apply lookupZ_insertZ_eq. dlia. }
  eexists. split; [done|]. split; [|by zcase]. rewrite H2 in *. zcase.
  all: split; simpl; rewrite ?lenZ_insertZ; try done; rewrite ?H3, E.
  all: unfold DMESG_BUF_SIZE; try dlia; zcases; try done; dlia.
Qed.

Lemma push_byte_logged b d hist :
  unlocked d -> logged d hist ->
  exists d', push_byte b d = Ret d' /\ unlocked d' /\ logged d' (hist ++ [b]) /\ serial d' = serial d.
Proof.
  intros Hu Hl. unfold push_byte. rewrite lock_alone_free by done. simpl.
  set (d1 := with_lock _ d).
  destruct (store_byte_logged b d1 hist) as (d2 & -> & Hl2 & Hlock & Hser).
  { by destruct Hl; split. }
  simpl. eexists. split; [done|]. split; [|by destruct Hl2].
  unfold unlocked, unlock. rewrite Hlock. simpl. split; [done|apply u32_range].
Qed.

Lemma push_bytes_logged bs d hist :
  unlocked d -> logged d hist ->
  exists d', push_bytes bs d = Ret d' /\ unlocked d' /\ logged d' (hist ++ bs) /\ serial d' = serial d.
Proof.
  revert d hist. induction bs as [|b bs IH]; intros d hist Hu Hl; simpl.
  { exists d. by rewrite app_nil_r. }
  destruct (push_byte_logged b d hist Hu Hl) as (d1 & -> & Hu1 & Hl1 & Hs1). simpl.
  destruct (IH d1 _ Hu1 Hl1) as (d2 & -> & Hu2 & Hl2 & Hs2).
  exists d2. rewrite <- app_assoc in Hl2. split_and!; try done. congruence.
Qed.

Lemma boot_dmesg_logged : logged boot_dmesg [].
Proof.
  split; try done. intros j b _ Hj%lookupZ_Some_lt. unfold lenZ in Hj. simpl in Hj. lia.
Qed.

(** The bytes still in the ring. *)
Definition recent (hist : list Z) : list Z :=
  drop (length hist - Z.to_nat DMESG_BUF_SIZE) hist.

Lemma dump_loop_spec (k : nat) a start d hist :
  lenZ (BUF d) = DMESG_BUF_SIZE -> 0 <= a ->
  (forall i b, 0 <= i -> lookupZ hist i = Some b ->
     lookupZ (BUF d) ((start + i) mod DMESG_BUF_SIZE) = Some b) ->
  a + Z.of_nat k = lenZ hist ->
  exists d', dump_loop (seqZ a (Z.of_nat k)) start d = Ret d' /\
    serial d' = serial d ++ filter (fun b => b <> 0) (drop (Z.to_nat a) hist).
Proof.
  revert a d. induction k as [|k IH]; intros a d Hlen Ha Hb Hk.
  { exists d. rewrite seqZ_nil, drop_ge by (unfold lenZ in *; lia). by rewrite filter_nil, app_nil_r. }
  rewrite seqZ_cons by lia. simpl.
  destruct (lookupZ_lt hist a) as [b Hab]; [lia|].
  unfold index. rewrite (Hb a b Ha Hab). simpl.
  replace (Z.pred (Z.of_nat (S k))) with (Z.of_nat k) by lia.
  destruct (IH (Z.succ a) (if b =? 0 then d else write_serial b d)) as (d' & Hd' & Hs);
    [by zcase|lia|by zcase|lia|].
  exists d'. split; [done|]. rewrite Hs.
  unfold lookupZ in Hab. destruct (Z.ltb_spec a 0); [lia|].
  rewrite (drop_S _ _ _ Hab), filter_cons. replace (Z.to_nat (Z.succ a)) with (S (Z.to_nat a)) by lia.
  destruct (Z.eqb_spec b 0) as [->|Hne].
  - by rewrite decide_False by lia.
  - rewrite decide_True by done. simpl. by rewrite <- app_assoc.
Qed.

Lemma lookupZ_drop (l : list Z) (n : nat) i b :
  0 <= i -> lookupZ (drop n l) i = Some b -> lookupZ l (Z.of_nat n + i) = Some b.
Proof.
  unfold lookupZ. intros Hi. zcases; try lia. rewrite lookup_drop.
  by replace (Z.to_nat (Z.of_nat n + i)) with (n + Z.to_nat i)%nat by lia.
Qed.

Lemma dump_bytes_spec d hist :
  logged d hist ->
  exists d', dump_loop (seqZ 0 (dump_total d)) (dump_start d) d = Ret d' /\
    serial d' = serial d ++ filter (fun b => b <> 0) (recent hist).
Proof.
  intros [H1 H2 H3 H4].
  assert (Hrec : lenZ (recent hist) = dump_total d).
  { unfold recent, dump_total, lenZ, DMESG_BUF_SIZE in *. rewrite length_drop, H3, H2.
    zcase; dlia. }
  rewrite <- Hrec. apply (dump_loop_spec (length (recent hist)) 0 _ d (recent hist)); [done|lia| |done].
  intros i b Hi Hib. pose proof (lookupZ_Some_lt _ _ _ Hib).
  apply lookupZ_drop in Hib; [|done].
  apply H4 in Hib; [|unfold lenZ, DMESG_BUF_SIZE; lia]. rewrite <- Hib.
  f_equal. unfold dump_start. rewrite H3, H2. unfold lenZ, DMESG_BUF_SIZE in *.
  zcase; dlia.
Qed.

End Dmesg.

(** ** Properties *)

(** The event ring implements a bounded FIFO queue of 128 events:
    [push_event] appends at the back, or refuses with [Err] and changes
    nothing when full; [pop_event] returns the oldest event, or [None] when
    empty; neither ever panics. *)
Theorem events_refine_fifo r q :
  Events.event_queue_holds r q ->
  (forall e, exists res r', Events.push_event e r = Ret (res, r') /\
     if lenZ q <? Events.EVENT_QUEUE_SIZE
     then res = Ok tt /\ Events.event_queue_holds r' (q ++ [e])
     else res = Err tt /\ r' = r) /\
  (exists r', Events.pop_event r = Ret (list.head q, r') /\
     Events.event_queue_holds r' (list.tail q)).
Proof.
  intros Hr. split.
  - intros e. destruct (Ring.push_spec _ e _ _ Hr) as [[Hf E]|[Hf (r' & E & Hr')]].
    + exists (Err tt), r. split; [done|]. zcase; [lia|done].
    + exists (Ok tt), r'. split; [done|]. zcase; [done|lia].
  - pose proof (Ring.pop_spec _ _ _ Hr) as Hp. destruct q as [|e q]; [by exists r|].
    destruct Hp as (r' & E & Hr'). by exists r'.
Qed.

Lemma events_refine_fifo_witness :
  Events.event_queue_holds Events.EVENT_QUEUE [] /\
  exists r', Events.pop_event Events.EVENT_QUEUE = Ret (None, r') /\ Events.event_queue_holds r' [].
Proof.
  assert (Events.event_queue_holds Events.EVENT_QUEUE []) as H.
  { apply Ring.holds_empty. unfold Events.EVENT_QUEUE_SIZE. lia. }
  split; [exact H|]. apply (events_refine_fifo Events.EVENT_QUEUE [] H).
Defined.

(** [process_events] terminates, drains the queue and traces the pending
    events in arrival order, one line each except for timer events. *)
Theorem process_events_drains r q :
  Events.event_queue_holds r q ->
  exists r', Events.process_events r = Ret (q ≫= Events.trace_line, r') /\
    Events.event_queue_holds r' [] /\ Events.pending_count r' = 0.
Proof.
  intros Hr. unfold Events.process_events.
  destruct (Events.process_events_loop_spec (S (Z.to_nat (Ring.count r))) r q [] Hr)
    as (r' & E & Hr').
  { rewrite (Ring.h_count _ _ _ Hr). unfold lenZ. lia. }
  exists r'. split; [exact E|]. split; [done|]. apply (Ring.h_count _ _ _ Hr').
Qed.

Lemma process_events_drains_witness :
  exists r r', Events.push_event (Events.mk_event Events.Disk 7 0) Events.EVENT_QUEUE = Ret (Ok tt, r) /\
    Events.process_events r = Ret ([("disk event: data={:#x}"%string, [7])], r').
Proof.
  assert (Events.event_queue_holds Events.EVENT_QUEUE []) as H.
  { apply Ring.holds_empty. unfold Events.EVENT_QUEUE_SIZE. lia. }
  destruct (Ring.push_spec _ (Events.mk_event Events.Disk 7 0) _ _ H) as [[Hf _]|[_ (r & E & Hr)]];
    [discriminate Hf|].
  destruct (process_events_drains r _ Hr) as (r' & E' & _).
  exists r, r'. split; [exact E|exact E'].
Defined.

(** [process_work] runs the items of the work queue first in, first out,
    including the items that running items submit: whenever working off a
    plain list from the front (new work at the back, never more than 64
    pending) ends, the loop returns, having called exactly those functions in
    that order, and leaves the queue empty. *)
Theorem process_work_in_order call spawned fuel r q res :
  WorkQueue.spawns call spawned -> Ring.holds WorkQueue.WORK_QUEUE_SIZE r q ->
  WorkQueue.work_off fuel spawned q [] = Some res ->
  exists r', WorkQueue.process_work_loop call (S fuel) r [] = Ret (res, r') /\
    Ring.holds WorkQueue.WORK_QUEUE_SIZE r' [].
Proof. apply WorkQueue.process_work_loop_spec. Qed.

(** A function that submits one follow-up item for argument 0. *)
Definition chain_call (w : WorkQueue.WorkItem) (r : WorkQueue.work_queue)
  : outcome WorkQueue.work_queue :=
  if WorkQueue.arg w =? 0
  then x ← WorkQueue.submit (WorkQueue.func w) 1 r; Ret x.2
  else Ret r.
Definition chain_spawned (w : WorkQueue.WorkItem) : list WorkQueue.WorkItem :=
  if WorkQueue.arg w =? 0 then [WorkQueue.mk_work (WorkQueue.func w) 1] else [].

Lemma chain_spawns : WorkQueue.spawns chain_call chain_spawned.
Proof.
  intros w r q Hr Hl. unfold chain_call, chain_spawned in *.
  destruct (WorkQueue.arg w =? 0).
  - unfold WorkQueue.submit.
    destruct (Ring.push_spec _ (WorkQueue.mk_work (WorkQueue.func w) 1) _ _ Hr)
      as [[Hf _]|[_ (r' & -> & Hr')]].
    { unfold lenZ in *. simpl in Hl. lia. }
    by exists r'.
  - exists r. by rewrite app_nil_r.
Qed.

Lemma process_work_in_order_witness :
  exists r r', WorkQueue.submit 9 0 WorkQueue.WORK_QUEUE = Ret (Ok tt, r) /\
    WorkQueue.process_work_loop chain_call 3 r [] =
      Ret ([WorkQueue.mk_work 9 0; WorkQueue.mk_work 9 1], r').
Proof.
  assert (Ring.holds WorkQueue.WORK_QUEUE_SIZE WorkQueue.WORK_QUEUE []) as H.
  { apply Ring.holds_empty. unfold WorkQueue.WORK_QUEUE_SIZE. lia. }
  destruct (Ring.push_spec _ (WorkQueue.mk_work 9 0) _ _ H) as [[Hf _]|[_ (r & E & Hr)]];
    [discriminate Hf|].
  destruct (process_work_in_order chain_call chain_spawned 2 r _ _ chain_spawns Hr eq_refl)
    as (r' & E' & _).
  exists r, r'. split; [exact E|exact E'].
Defined.

(** The kernel log keeps the most recent 16384 bytes: after any sequence
    of bytes has been pushed, the loop of [dump] writes exactly those of the
    last 16384 that are not zero, oldest first. *)
Theorem dmesg_keeps_recent bytes :
  exists d d', Dmesg.push_bytes bytes Dmesg.boot_dmesg = Ret d /\
    Dmesg.dump_loop (seqZ 0 (Dmesg.dump_total d)) (Dmesg.dump_start d) d = Ret d' /\
    Dmesg.serial d' = filter (fun b => b <> 0) (Dmesg.recent bytes).
Proof.
  destruct (Dmesg.push_bytes_logged bytes Dmesg.boot_dmesg []) as (d & E & _ & Hl & Hs).
  - split; [done|simpl; lia].
  - apply Dmesg.boot_dmesg_logged.
  - destruct (Dmesg.dump_bytes_spec d _ Hl) as (d' & E' & Hs').
    exists d, d'. split_and!; [done|done|]. by rewrite Hs', Hs.
Qed.

(** [dump] never returns: it prints its heading while it holds
    [DMESG_LOCK], printing appends to the log, and the lock is not reentrant. *)
Theorem dmesg_dump_deadlocks d : Dmesg.unlocked d -> Dmesg.dump d = Hang.
Proof.
  intros Hu. pose proof (Dmesg.lock_alone_free d Hu) as E.
  pose proof (Dmesg.lock_alone_twice d _ Hu E) as Htwice.
  assert (Hprint : forall bs d1, Dmesg.lock_alone d1 = Hang -> Dmesg.print_bytes (bs ++ [10]) d1 = Hang).
  { intros bs d1 H1. unfold Dmesg.print_bytes.
    destruct bs; simpl; unfold Dmesg.push_byte; by rewrite H1. }
  unfold Dmesg.dump. rewrite E. simpl. unfold Dmesg.println. zcase; by rewrite Hprint.
Qed.

Lemma dmesg_dump_deadlocks_witness : Dmesg.dump Dmesg.boot_dmesg = Hang.
Proof. apply dmesg_dump_deadlocks. split; [reflexivity|simpl; lia]. Defined.
