(* ===== verification/Vfs.v ===== *)
(** * The virtual file system (src/src/fs/mod.rs, fs/node.rs)

    Paths and names are byte lists; splitting at ['/'] is the same on bytes
    and on UTF-8 text.  The global [VFS : Option<Vfs>] is passed as an
    [option]; [expect] on [None] is a panic.  Growing a vector is taken to
    succeed. *)

From S2P Require Import Prelude.

Abbreviation byte_string := (list Z) (only parsing).
Definition slash : Z := 47.

(** ** Strings *)

(** [str::split('/')]. *)
Fixpoint split_slash (s : byte_string) : list byte_string :=
  match s with
  | [] => [[]]
  | c :: s' =>
      if c =? slash then [] :: split_slash s'
      else match split_slash s' with
           | w :: ws => (c :: w) :: ws
           | [] => [[c]]
           end
  end.

(** [str::trim_start_matches('/')]. *)
Fixpoint trim_slashes (s : byte_string) : byte_string :=
  match s with
  | c :: s' => if c =? slash then trim_slashes s' else s
  | [] => []
  end.

(** [str::rfind('/')]. *)
Fixpoint rfind_slash (s : byte_string) : option Z :=
  match s with
  | [] => None
  | c :: s' =>
      match rfind_slash s' with
      | Some pos => Some (pos + 1)
      | None => if c =? slash then Some 0 else None
      end
  end.

(** ** Nodes *)

Definition NAME_LEN : Z := 60.

Inductive VfsNodeType : Type := File | Directory | Symlink.
#[global] Instance VfsNodeType_eq_dec : EqDecision VfsNodeType.
Proof. solve_decision. Defined.

Record VfsNode : Type := mk_node {
  name : list Z;
  name_len : Z;
  node_type : VfsNodeType;
  inode : Z;
  parent : Z;
  children : list Z;
  data : list Z;
  size : Z;
  permissions : Z;
  ref_count : Z;
}.

(** 0o644 and 0o755. *)
Definition node_empty : VfsNode :=
  mk_node (replicate (Z.to_nat NAME_LEN) 0) 0 File 0 0 [] [] 0 420 0.

(** The name buffer after [node.name[..len].copy_from_slice(&name[..len])]. *)
Definition name_buffer (nm : byte_string) : list Z :=
  let len := Z.min (lenZ nm) NAME_LEN in
  write_at (replicate (Z.to_nat NAME_LEN) 0) 0 (take (Z.to_nat len) nm).

Definition new_file (nm : byte_string) (par : Z) : VfsNode :=
  mk_node (name_buffer nm) (Z.min (lenZ nm) NAME_LEN) File 0 par [] [] 0 420 0.
Definition new_dir (nm : byte_string) (par : Z) : VfsNode :=
  mk_node (name_buffer nm) (Z.min (lenZ nm) NAME_LEN) Directory 0 par [] [] 0 493 0.

(** [&node.name[..node.name_len]]. *)
Definition name_bytes (n : VfsNode) : outcome byte_string := slice (name n) 0 (name_len n).
Definition name_str (n : VfsNode) : outcome byte_string :=
  b ← name_bytes n; Ret (utf8_or b []).
Definition is_dir (n : VfsNode) : bool := bool_decide (node_type n = Directory).
Definition is_file (n : VfsNode) : bool := bool_decide (node_type n = File).

Definition with_children (c : list Z) (n : VfsNode) : VfsNode :=
  mk_node (name n) (name_len n) (node_type n) (inode n) (parent n) c (data n) (size n)
    (permissions n) (ref_count n).
Definition with_inode (i : Z) (n : VfsNode) : VfsNode :=
  mk_node (name n) (name_len n) (node_type n) i (parent n) (children n) (data n) (size n)
    (permissions n) (ref_count n).
Definition with_data (d : list Z) (sz : Z) (n : VfsNode) : VfsNode :=
  mk_node (name n) (name_len n) (node_type n) (inode n) (parent n) (children n) d sz
    (permissions n) (ref_count n).

(** ** The node table *)

Record Vfs : Type := mk_vfs { nodes : list VfsNode; next_inode : Z }.

Definition vfs_new : Vfs := mk_vfs [with_inode 1 (new_dir [slash] 0)] 2.

Definition alloc_node (v : Vfs) : option Z * Vfs :=
  (Some (lenZ (nodes v)),
   mk_vfs (nodes v ++ [with_inode (next_inode v) node_empty]) (u64 (next_inode v + 1))).

Definition push_child (p c : Z) (ns : list VfsNode) : outcome (list VfsNode) :=
  n ← index ns p; assign ns p (with_children (children n ++ [c]) n).

(** The body shared by [create_file] and [create_dir]. *)
Definition create_node (mk : byte_string -> Z -> VfsNode) (parent_idx : Z) (nm : byte_string) (v : Vfs)
  : outcome (result string Z * Vfs) :=
  match alloc_node v with
  | (None, v) => Ret (Err "VFS node table full"%string, v)
  | (Some child_idx, v) =>
      ns ← assign (nodes v) child_idx (mk nm parent_idx);
      ns ← push_child parent_idx child_idx ns;
      Ret (Ok child_idx, mk_vfs ns (next_inode v))
  end.
Definition vfs_create_file := create_node new_file.
Definition vfs_create_dir := create_node new_dir.

(** The loop of [lookup_child] over the children still to compare. *)
Fixpoint find_child (ns : list VfsNode) (cs : list Z) (nm : byte_string) : outcome (option Z) :=
  match cs with
  | [] => Ret None
  | c :: cs' =>
      if c <? lenZ ns then
        child ← index ns c;
        b ← (if name_len child =? lenZ nm then name_bytes child else Ret []);
        if (name_len child =? lenZ nm) && bool_decide (b = nm) then Ret (Some c)
        else find_child ns cs' nm
      else find_child ns cs' nm
  end.
Definition lookup_child (parent_idx : Z) (nm : byte_string) (v : Vfs) : outcome (option Z) :=
  p ← index (nodes v) parent_idx; find_child (nodes v) (children p) nm.

Definition dot : byte_string := [46].
Definition dotdot : byte_string := [46; 46].

(** The loop of [resolve_path] over the components. *)
Fixpoint resolve_components (comps : list byte_string) (current : Z) (v : Vfs) : outcome (option Z) :=
  match comps with
  | [] => Ret (Some current)
  | comp :: comps' =>
      if bool_decide (comp = []) || bool_decide (comp = dot) then resolve_components comps' current v
      else if bool_decide (comp = dotdot) then
        n ← index (nodes v) current;
        resolve_components comps'
          (if negb (parent n =? 0) && (parent n <? lenZ (nodes v)) then parent n else current) v
      else
        r ← lookup_child current comp v;
        match r with
        | Some c => resolve_components comps' c v
        | None => Ret None
        end
  end.
Definition resolve_path (path : byte_string) (v : Vfs) : outcome (option Z) :=
  let path := trim_slashes path in
  if bool_decide (path = []) then Ret (Some 0)
  else resolve_components (split_slash path) 0 v.

Definition get_node (idx : Z) (v : Vfs) : option VfsNode := lookupZ (nodes v) idx.

Definition delete_node (idx : Z) (v : Vfs) : outcome (result string unit * Vfs) :=
  if idx =? 0 then Ret (Err "cannot delete root"%string, v) else
  if lenZ (nodes v) <=? idx then Ret (Err "invalid node"%string, v) else
  n ← index (nodes v) idx;
  if bool_decide (node_type n = Directory) && negb (bool_decide (children n = []))
  then Ret (Err "directory not empty"%string, v) else
  ns ← (if parent n <? lenZ (nodes v) then
          p ← index (nodes v) (parent n);
          assign (nodes v) (parent n) (with_children (filter (fun c => c <> idx) (children p)) p)
        else Ret (nodes v));
  ns ← assign ns idx node_empty;
  Ret (Ok tt, mk_vfs ns (next_inode v)).

(** [Vfs::readdir] over the children still to list. *)
Fixpoint list_children (ns : list VfsNode) (cs : list Z) : outcome (list (byte_string * Z * VfsNodeType)) :=
  match cs with
  | [] => Ret []
  | c :: cs' =>
      if c <? lenZ ns then
        child ← index ns c;
        b ← name_bytes child;
        rest ← list_children ns cs';
        Ret ((utf8_or b [63], inode child, node_type child) :: rest)
      else list_children ns cs'
  end.
Definition vfs_readdir (idx : Z) (v : Vfs) : outcome (list (byte_string * Z * VfsNodeType)) :=
  if lenZ (nodes v) <=? idx then Ret [] else
  n ← index (nodes v) idx;
  if bool_decide (node_type n <> Directory) then Ret [] else list_children (nodes v) (children n).

(** ** The path interface *)

Definition with_vfs {A} (f : Vfs -> outcome A) (g : option Vfs) : outcome A :=
  match g with Some v => f v | None => Panic end.
Definition with_vfs_mut {A} (f : Vfs -> outcome (A * Vfs)) (g : option Vfs) : outcome (A * option Vfs) :=
  match g with Some v => x ← f v; Ret (x.1, Some x.2) | None => Panic end.

Definition vfs_init : option Vfs := Some vfs_new.

Definition split_path (path : byte_string) : outcome (result string (byte_string * byte_string)) :=
  let path := trim_slashes path in
  if bool_decide (path = []) then Ret (Err "empty path"%string) else
  match rfind_slash path with
  | Some pos =>
      par ← (if pos =? 0 then Ret [slash] else slice path 0 pos);
      nm ← slice path (pos + 1) (lenZ path);
      if bool_decide (nm = []) then Ret (Err "empty name"%string) else Ret (Ok (par, nm))
  | None => Ret (Ok ([slash], path))
  end.

Definition create_at (create : Z -> byte_string -> Vfs -> outcome (result string Z * Vfs))
    (path : byte_string) (g : option Vfs) : outcome (result string Z * option Vfs) :=
  sp ← split_path path;
  match sp with
  | Err e => Ret (Err e, g)
  | Ok (parent_path, nm) =>
      with_vfs_mut (fun v =>
        r ← resolve_path parent_path v;
        match r with
        | None => Ret (Err "parent not found"%string, v)
        | Some parent_idx => create parent_idx nm v
        end) g
  end.
Definition create_file := create_at vfs_create_file.
Definition create_dir := create_at vfs_create_dir.

(** The read once the node is known: the bytes copied into the start of the
    caller's buffer, whose length is [buf_len]. *)
Definition read_node (n : VfsNode) (offset buf_len : Z) : outcome (result string (list Z)) :=
  if bool_decide (node_type n <> File) then Ret (Err "not a file"%string) else
  if lenZ (data n) <=? offset then Ret (Ok []) else
  let available := lenZ (data n) - offset in
  let to_read := Z.min buf_len available in
  d ← slice (data n) offset (offset + to_read);
  Ret (Ok d).

Definition write_node (n : VfsNode) (offset : Z) (d : list Z) : outcome (result string Z * VfsNode) :=
  if bool_decide (node_type n <> File) then Ret (Err "not a file"%string, n) else
  let end_ := u64 (offset + lenZ d) in
  let buf := if lenZ (data n) <? end_ then resize (data n) end_ 0 else data n in
  buf ← copy_into buf offset end_ d;
  Ret (Ok (lenZ d), with_data buf (lenZ buf) n).

Definition read_file_by_node (node_idx offset buf_len : Z) (g : option Vfs)
  : outcome (result string (list Z)) :=
  with_vfs (fun v =>
    match get_node node_idx v with
    | None => Ret (Err "invalid node"%string)
    | Some n => read_node n offset buf_len
    end) g.

Definition write_file_by_node (node_idx offset : Z) (d : list Z) (g : option Vfs)
  : outcome (result string Z * option Vfs) :=
  with_vfs_mut (fun v =>
    match get_node node_idx v with
    | None => Ret (Err "invalid node"%string, v)
    | Some n =>
        x ← write_node n offset d;
        Ret (x.1, mk_vfs (insertZ node_idx x.2 (nodes v)) (next_inode v))
    end) g.

Definition read_file (path : byte_string) (offset buf_len : Z) (g : option Vfs)
  : outcome (result string (list Z)) :=
  with_vfs (fun v =>
    r ← resolve_path path v;
    match r with
    | None => Ret (Err "file not found"%string)
    | Some idx => read_file_by_node idx offset buf_len (Some v)
    end) g.

Definition write_file (path : byte_string) (offset : Z) (d : list Z) (g : option Vfs)
  : outcome (result string Z * option Vfs) :=
  match g with
  | None => Panic
  | Some v =>
      r ← resolve_path path v;
      match r with
      | None => Ret (Err "file not found"%string, Some v)
      | Some idx => write_file_by_node idx offset d (Some v)
      end
  end.

Definition resolve_path_idx (path : byte_string) (g : option Vfs) : outcome (option Z) :=
  with_vfs (resolve_path path) g.

Definition delete (path : byte_string) (g : option Vfs) : outcome (result string unit * option Vfs) :=
  sp ← split_path path;
  match sp with
  | Err e => Ret (Err e, g)
  | Ok (parent_path, nm) =>
      with_vfs_mut (fun v =>
        r ← resolve_path parent_path v;
        match r with
        | None => Ret (Err "parent not found"%string, v)
        | Some parent_idx =>
            c ← lookup_child parent_idx nm v;
            match c with
            | None => Ret (Err "not found"%string, v)
            | Some child_idx => delete_node child_idx v
            end
        end) g
  end.

(** The public [readdir] skips children without a name. *)
Fixpoint list_named (v : Vfs) (cs : list Z) : outcome (list (byte_string * Z * VfsNodeType)) :=
  match cs with
  | [] => Ret []
  | c :: cs' =>
      match get_node c v with
      | Some child =>
          if 0 <? name_len child then
            b ← name_bytes child;
            rest ← list_named v cs';
            Ret ((utf8_or b [63], inode child, node_type child) :: rest)
          else list_named v cs'
      | None => list_named v cs'
      end
  end.
Definition readdir (path : byte_string) (g : option Vfs)
  : outcome (list (byte_string * Z * VfsNodeType)) :=
  match g with
  | None => Ret []
  | Some v =>
      r ← resolve_path path v;
      match r with
      | None => Ret []
      | Some idx =>
          match get_node idx v with
          | Some n => if is_dir n then list_named v (children n) else Ret []
          | None => Ret []
          end
      end
  end.

Definition get_file_size (node_idx : Z) (g : option Vfs) : outcome Z :=
  with_vfs (fun v =>
    Ret (match get_node node_idx v with Some n => size n | None => 0 end)) g.

(** [Vfs::stats]: nodes, files and directories. *)
Definition stats (v : Vfs) : Z * Z * Z :=
  (lenZ (nodes v), lenZ (filter (fun n => node_type n = File) (nodes v)),
   lenZ (filter (fun n => node_type n = Directory) (nodes v))).

(** ** Well-formed tables *)

Definition node_name (n : VfsNode) : byte_string := take (Z.to_nat (name_len n)) (name n).

Record node_wf (len : Z) (n : VfsNode) : Prop := {
  nw_name : 0 <= name_len n <= lenZ (name n);
  nw_parent : 0 <= parent n < len;
  nw_children : NoDup (children n);
  nw_size : size n = lenZ (data n);
}.

(** Every listed child is a later node that names its parent, so the table
    is a forest and no node is listed twice. *)
Record vfs_wf (v : Vfs) : Prop := {
  vw_root : 0 < lenZ (nodes v);
  vw_nodes : forall i n, lookupZ (nodes v) i = Some n -> node_wf (lenZ (nodes v)) n;
  vw_child : forall i n c, lookupZ (nodes v) i = Some n -> c ∈ children n ->
    i < c < lenZ (nodes v) /\ exists m, lookupZ (nodes v) c = Some m /\ parent m = i;
}.

Lemma name_bytes_wf len n : node_wf len n -> name_bytes n = Ret (node_name n).
Proof.
  intros [H _ _ _]. unfold name_bytes. rewrite slice_Ret by lia.
  unfold node_name. by rewrite Z.sub_0_r, drop_0.
Qed.

Lemma lenZ_node_name len n : node_wf len n -> lenZ (node_name n) = name_len n.
Proof. intros [H _ _ _]. unfold node_name, lenZ in *. rewrite length_take. lia. Qed.

(** ** Lookup *)

(** The first of [cs] called [nm]. *)
Definition find_name (v : Vfs) (cs : list Z) (nm : byte_string) : option Z :=
  list_find (fun c => node_name <$> get_node c v = Some nm) cs ≫= fun x => Some x.2.

Lemma find_name_nil v nm : find_name v [] nm = None.
Proof. done. Qed.
Lemma find_name_cons v c cs nm :
  find_name v (c :: cs) nm =
    if decide (node_name <$> get_node c v = Some nm) then Some c else find_name v cs nm.
Proof.
  unfold find_name. simpl. case_decide; [done|]. by destruct (list_find _ cs) as [[]|].
Qed.
Lemma find_name_app v cs cs' nm :
  find_name v (cs ++ cs') nm =
    match find_name v cs nm with Some c => Some c | None => find_name v cs' nm end.
Proof.
  induction cs as [|c cs IH]; simpl; [done|]. rewrite !find_name_cons. by case_decide.
Qed.
Lemma find_name_elem v cs nm c : find_name v cs nm = Some c -> c ∈ cs.
Proof.
  induction cs as [|c' cs IH]; [done|]. rewrite find_name_cons. case_decide; intros H'.
  - simplify_eq. by left.
  - right. auto.
Qed.
Lemma find_name_ext v v' cs nm :
  (forall c, c ∈ cs -> node_name <$> get_node c v = node_name <$> get_node c v') ->
  find_name v cs nm = find_name v' cs nm.
Proof.
  induction cs as [|c cs IH]; intros H; [done|]. rewrite !find_name_cons.
  rewrite (H c) by (by left). rewrite IH; [done|]. intros. apply H. by right.
Qed.

Lemma find_child_spec v cs nm :
  vfs_wf v -> Forall (fun c => 0 <= c < lenZ (nodes v)) cs ->
  find_child (nodes v) cs nm = Ret (find_name v cs nm).
Proof.
  intros Hwf. induction 1 as [|c cs Hc _ IH]; [done|]. simpl. rewrite find_name_cons.
  destruct (lookupZ_lt (nodes v) c Hc) as [n Hn]. unfold get_node. rewrite Hn. simpl.
  pose proof (vw_nodes v Hwf c n Hn) as Hnw. pose proof (lenZ_node_name _ _ Hnw) as Hlen.
  destruct (Z.ltb_spec c (lenZ (nodes v))); [|lia].
  unfold index. rewrite Hn, bind_Ret. rewrite (name_bytes_wf _ _ Hnw).
  destruct (Z.eqb_spec (name_len n) (lenZ nm)) as [E|E]; simpl.
  - case_bool_decide; case_decide; try congruence; done.
  - rewrite decide_False; [done|]. congruence.
Qed.

Lemma vw_children_range v i n :
  vfs_wf v -> lookupZ (nodes v) i = Some n ->
  Forall (fun c => 0 <= c < lenZ (nodes v)) (children n).
Proof.
  intros Hwf Hn. apply Forall_forall. intros c Hc.
  destruct (vw_child v Hwf i n c Hn Hc) as [? _]. apply lookupZ_Some_lt in Hn. lia.
Qed.

Lemma lookup_child_spec v i n nm :
  vfs_wf v -> lookupZ (nodes v) i = Some n ->
  lookup_child i nm v = Ret (find_name v (children n) nm).
Proof.
  intros Hwf Hn. unfold lookup_child, index. rewrite Hn. simpl.
  by apply find_child_spec, (vw_children_range v i n).
Qed.

(** One component of a path, on a well-formed table. *)
Definition step_component (v : Vfs) (cur : Z) (comp : byte_string) : option Z :=
  if bool_decide (comp = []) || bool_decide (comp = dot) then Some cur
  else if bool_decide (comp = dotdot) then
    match get_node cur v with
    | Some n => Some (if parent n =? 0 then cur else parent n)
    | None => None
    end
  else match get_node cur v with
       | Some n => find_name v (children n) comp
       | None => None
       end.

(** The path walk as a fold. *)
Fixpoint walk (v : Vfs) (comps : list byte_string) (cur : Z) : option Z :=
  match comps with
  | [] => Some cur
  | comp :: comps' => step_component v cur comp ≫= walk v comps'
  end.

Lemma step_component_range v cur comp c :
  vfs_wf v -> 0 <= cur < lenZ (nodes v) -> step_component v cur comp = Some c ->
  0 <= c < lenZ (nodes v).
Proof.
  intros Hwf Hcur. unfold step_component.
  destruct (_ || _); [naive_solver|]. case_bool_decide; destruct (get_node cur v) as [n|] eqn:E; try done.
  - intros [= <-]. pose proof (nw_parent _ _ (vw_nodes v Hwf _ _ E)). zcase; lia.
  - intros Hc%find_name_elem. pose proof (vw_children_range v cur n Hwf E) as Hr.
    rewrite Forall_forall in Hr. by apply Hr.
Qed.

Lemma resolve_components_spec v comps cur :
  vfs_wf v -> 0 <= cur < lenZ (nodes v) ->
  resolve_components comps cur v = Ret (walk v comps cur).
Proof.
  intros Hwf. revert cur. induction comps as [|comp comps IH]; intros cur Hcur; [done|]. simpl.
  destruct (lookupZ_lt _ _ Hcur) as [n Hn].
  pose proof (fun c => step_component_range v cur comp c Hwf Hcur) as Hrange.
  unfold step_component, get_node in *. rewrite Hn in *. unfold index. rewrite Hn. simpl.
  destruct (_ || _); simpl; [by apply IH|]. case_bool_decide; simpl.
  - pose proof (nw_parent _ _ (vw_nodes v Hwf _ _ Hn)).
    rewrite (proj2 (Z.ltb_lt (parent n) _)) by lia. rewrite andb_true_r.
    specialize (Hrange _ eq_refl). destruct (parent n =? 0); simpl; by apply IH.
  - rewrite (lookup_child_spec v cur n comp Hwf Hn). simpl.
    destruct (find_name v (children n) comp) as [c|]; [|done]. simpl. by apply IH, Hrange.
Qed.

Lemma walk_app v comps comps' cur :
  walk v (comps ++ comps') cur = walk v comps cur ≫= walk v comps'.
Proof.
  revert cur. induction comps as [|comp comps IH]; intros cur; simpl; [done|].
  destruct (step_component v cur comp); simpl; [apply IH|done].
Qed.

Lemma walk_range v comps cur c :
  vfs_wf v -> 0 <= cur < lenZ (nodes v) -> walk v comps cur = Some c -> 0 <= c < lenZ (nodes v).
Proof.
  intros Hwf. revert cur. induction comps as [|comp comps IH]; intros cur Hcur; simpl.
  - naive_solver.
  - destruct (step_component v cur comp) as [c'|] eqn:E; [|done]. simpl. apply IH.
    by eapply step_component_range.
Qed.

Definition path_components (path : byte_string) : list byte_string :=
  let path := trim_slashes path in
  if bool_decide (path = []) then [] else split_slash path.

Lemma resolve_path_spec v path :
  vfs_wf v -> resolve_path path v = Ret (walk v (path_components path) 0).
Proof.
  intros Hwf. pose proof (vw_root v Hwf). unfold resolve_path, path_components.
  case_bool_decide; [done|]. apply resolve_components_spec; [done|lia].
Qed.

(** ** Splitting paths *)

Lemma split_slash_nonempty a : split_slash a <> [].
Proof. destruct a as [|c a]; simpl; [done|]. destruct (c =? slash); [done|]. by destruct (split_slash a). Qed.

Lemma split_slash_app a b :
  split_slash (a ++ slash :: b) = split_slash a ++ split_slash b.
Proof.
  induction a as [|c a IH]; simpl; [done|].
  rewrite IH. destruct (c =? slash); [done|].
  pose proof (split_slash_nonempty a). by destruct (split_slash a).
Qed.

Lemma split_slash_none a : slash ∉ a -> split_slash a = [a].
Proof.
  induction a as [|c a IH]; simpl; [done|]. intros [Hc Ha]%not_elem_of_cons.
  rewrite IH by done. zcase; [by subst|done].
Qed.

Lemma rfind_slash_Some s pos :
  rfind_slash s = Some pos ->
  exists a b, s = a ++ slash :: b /\ lenZ a = pos /\ slash ∉ b.
Proof.
  revert pos. induction s as [|c s IH]; simpl; intros pos H; [done|].
  destruct (rfind_slash s) as [pos'|] eqn:E.
  - injection H as <-. destruct (IH _ eq_refl) as (a & b & -> & Ha & Hb).
    exists (c :: a), b. rewrite lenZ_cons. split_and!; [done|lia|done].
  - destruct (Z.eqb_spec c slash) as [->|]; [|done]. injection H as <-.
    exists [], s. split_and!; [done|done|].
    clear IH. induction s as [|d s IH]; [apply not_elem_of_nil|]. simpl in E.
    destruct (rfind_slash s); [done|]. destruct (Z.eqb_spec d slash); [done|].
    apply not_elem_of_cons. split; [congruence|by apply IH].
Qed.

Lemma rfind_slash_None s : rfind_slash s = None -> slash ∉ s.
Proof.
  induction s as [|d s IH]; [intros; apply not_elem_of_nil|]. simpl.
  destruct (rfind_slash s); [done|]. destruct (Z.eqb_spec d slash); [done|].
  intros _. apply not_elem_of_cons. split; [congruence|by apply IH].
Qed.

Lemma trim_slashes_idem s : trim_slashes (trim_slashes s) = trim_slashes s.
Proof.
  induction s as [|c s IH]; simpl; [done|]. destruct (c =? slash) eqn:E; [done|].
  simpl. by rewrite E.
Qed.

Lemma trim_slashes_head c s : trim_slashes (c :: s) = c :: s -> c <> slash.
Proof.
  intros H Hc. subst. simpl in H. assert (length (trim_slashes s) <= length s)%nat as Hl.
  { clear. induction s as [|c s IH]; simpl; [done|]. destruct (c =? slash); simpl; lia. }
  rewrite H in Hl. simpl in Hl. lia.
Qed.

(** [split_path] gives the components of the parent and the last component. *)
Lemma split_path_spec path :
  exists r, split_path path = Ret r /\
    match r with
    | Ok (par, nm) => path_components path = path_components par ++ [nm] /\ nm <> [] /\ slash ∉ nm
    | Err _ => True
    end.
Proof.
  unfold split_path. case_bool_decide as Hne; [by eexists|].
  remember (trim_slashes path) as p eqn:Hp.
  assert (Htrim : trim_slashes p = p) by (subst; apply trim_slashes_idem).
  assert (Hcomp : path_components path = split_slash p).
  { unfold path_components. rewrite <- Hp. by rewrite bool_decide_false. }
  destruct (rfind_slash p) as [pos|] eqn:E.
  - destruct (rfind_slash_Some _ _ E) as (a & b & Hab & Hpos & Hb).
    destruct a as [|c a]; [by destruct (trim_slashes_head slash b); [simpl in Hab; rewrite <- Hab|]|].
    assert (Hc : c <> slash).
    { apply (trim_slashes_head c (a ++ slash :: b)). simpl in Hab. by rewrite <- Hab. }
    destruct (Z.eqb_spec pos 0); [rewrite lenZ_cons in Hpos; pose proof (lenZ_nonneg a); lia|].
    pose proof (lenZ_nonneg (c :: a)). pose proof (lenZ_nonneg b).
    assert (Hlen : lenZ p = lenZ (c :: a) + 1 + lenZ b) by (rewrite Hab, lenZ_app, (lenZ_cons slash b); lia).
    rewrite !slice_Ret by lia. simpl. rewrite Z.sub_0_r, drop_0.
    replace (take (Z.to_nat pos) p) with (c :: a).
    2: { rewrite Hab, take_app_length'; [done|unfold lenZ in Hpos; simpl in *; lia]. }
    replace (Z.to_nat (lenZ p - (pos + 1))) with (length b) by (unfold lenZ in *; lia).
    replace (take _ (drop _ p)) with b.
    2: { rewrite Hab. change (slash :: b) with ([slash] ++ b). rewrite app_assoc, drop_app_length'.
      2: { rewrite length_app. unfold lenZ in *. simpl in *. lia. }
      by rewrite firstn_all. }
    case_bool_decide; [by eexists|]. eexists. split; [done|]. split_and!; [|done|done].
    rewrite Hcomp, Hab, split_slash_app, (split_slash_none b) by done. f_equal.
    unfold path_components. simpl. destruct (Z.eqb_spec c slash); [done|]. simpl.
    by destruct (Z.eqb_spec c slash).
  - eexists. split; [done|]. simpl. split_and!; [|done|by apply rfind_slash_None].
    rewrite Hcomp, split_slash_none by (by apply rfind_slash_None). done.
Qed.

(** ** Creation *)

Lemma node_name_new nm par :
  lenZ nm <= NAME_LEN -> node_name (new_file nm par) = nm /\ node_name (new_dir nm par) = nm.
Proof.
  intros Hl. assert (H : take (Z.to_nat (Z.min (lenZ nm) NAME_LEN)) (name_buffer nm) = nm).
  { unfold name_buffer, write_at. rewrite Z.min_l by done. simpl.
    rewrite (take_ge nm) by (unfold lenZ; lia).
    rewrite take_app_length' by (unfold lenZ; lia). done. }
  done.
Qed.

Lemma lenZ_name_buffer nm : lenZ (name_buffer nm) = NAME_LEN.
Proof.
  pose proof (lenZ_nonneg nm). unfold name_buffer. rewrite lenZ_write_at; [done|lia|].
  unfold lenZ in *. rewrite length_take, length_replicate. unfold NAME_LEN. lia.
Qed.

(** What the two node constructors have in common. *)
Definition fresh_node (mk : byte_string -> Z -> VfsNode) : Prop :=
  forall nm par, parent (mk nm par) = par /\ children (mk nm par) = [] /\
    size (mk nm par) = 0 /\ data (mk nm par) = [] /\ inode (mk nm par) = 0 /\
    name (mk nm par) = name_buffer nm /\ name_len (mk nm par) = Z.min (lenZ nm) NAME_LEN.
Lemma fresh_new_file : fresh_node new_file.
Proof. done. Qed.
Lemma fresh_new_dir : fresh_node new_dir.
Proof. done. Qed.

Lemma create_node_eq mk p n nm v :
  lookupZ (nodes v) p = Some n ->
  create_node mk p nm v =
    Ret (Ok (lenZ (nodes v)),
      mk_vfs (insertZ p (with_children (children n ++ [lenZ (nodes v)]) n) (nodes v ++ [mk nm p]))
        (u64 (next_inode v + 1))).
Proof.
  intros Hn. pose proof (lookupZ_Some_lt _ _ _ Hn) as Hp. unfold create_node. simpl.
  rewrite assign_lt by (rewrite lenZ_snoc; lia). simpl.
  assert (E : insertZ (lenZ (nodes v)) (mk nm p) (nodes v ++ [with_inode (next_inode v) node_empty])
    = nodes v ++ [mk nm p]).
  { unfold insertZ, lenZ. zcase; [lia|]. rewrite Nat2Z.id.
    pose proof (insert_app_r (nodes v) [with_inode (next_inode v) node_empty] 0 (mk nm p)) as E.
    by rewrite Nat.add_0_r in E. }
  rewrite E. unfold push_child.
  assert (Hl : lookupZ (nodes v ++ [mk nm p]) p = Some n).
  { unfold lookupZ in *. destruct (Z.ltb_spec p 0); [lia|]. rewrite lookup_app_l; [done|].
    unfold lenZ in Hp. lia. }
  unfold index. rewrite Hl. simpl. rewrite assign_lt; [done|].
  rewrite lenZ_snoc. lia.
Qed.

(** The table after a creation below [p]. *)
Definition created (v : Vfs) (p : Z) (n : VfsNode) (m : VfsNode) : Vfs :=
  mk_vfs (insertZ p (with_children (children n ++ [lenZ (nodes v)]) n) (nodes v ++ [m]))
    (u64 (next_inode v + 1)).

Lemma lookupZ_snoc {A} (l : list A) x i :
  lookupZ (l ++ [x]) i = if i =? lenZ l then Some x else lookupZ l i.
Proof.
  unfold lookupZ, lenZ. zcases; try done; try lia.
  - subst. by rewrite Nat2Z.id, list_lookup_middle.
  - destruct (decide (i < Z.of_nat (length l))).
    + by rewrite lookup_app_l by lia.
    + rewrite !lookup_ge_None_2; [done|lia|rewrite length_app; simpl; lia].
Qed.

Lemma lookupZ_created v p n m i :
  lookupZ (nodes v) p = Some n ->
  lookupZ (nodes (created v p n m)) i =
    if i =? lenZ (nodes v) then Some m
    else if p =? i then Some (with_children (children n ++ [lenZ (nodes v)]) n)
    else lookupZ (nodes v) i.
Proof.
  intros Hn%lookupZ_Some_lt. simpl. rewrite lookupZ_insertZ by (rewrite lenZ_snoc; lia).
  rewrite lookupZ_snoc. zcases; try done; lia.
Qed.

Lemma lenZ_created v p n m : lenZ (nodes (created v p n m)) = lenZ (nodes v) + 1.
Proof. simpl. by rewrite lenZ_insertZ, lenZ_snoc. Qed.

Lemma node_wf_mono len len' n : len <= len' -> node_wf len n -> node_wf len' n.
Proof. intros ? []. split; try done. lia. Qed.

Lemma fresh_node_wf mk nm p len : fresh_node mk -> 0 <= p < len -> node_wf len (mk nm p).
Proof.
  intros Hmk Hp. destruct (Hmk nm p) as (E1 & E2 & E3 & E4 & E5 & E6 & E7).
  pose proof (lenZ_nonneg nm).
  split; rewrite ?E1, ?E2, ?E3, ?E4, ?E6, ?E7, ?lenZ_name_buffer; try done; try lia.
  - unfold NAME_LEN. lia.
  - constructor.
Qed.

Lemma created_wf mk nm v p n :
  fresh_node mk -> vfs_wf v -> lookupZ (nodes v) p = Some n ->
  vfs_wf (created v p n (mk nm p)).
Proof.
  intros Hmk Hwf Hn. pose proof (lookupZ_Some_lt _ _ _ Hn) as Hp.
  pose proof (vw_root v Hwf). pose proof (vw_nodes v Hwf p n Hn) as Hnw.
  split; rewrite ?lenZ_created; [lia| |].
  - intros i m. rewrite lookupZ_created by done. zcases; intros E; simplify_eq.
    + apply fresh_node_wf; [done|lia].
    + apply (node_wf_mono (lenZ (nodes v))); [lia|]. destruct Hnw. split; try done. simpl.
      apply NoDup_app. split_and!; [done| |apply NoDup_singleton].
      intros c Hc ->%list_elem_of_singleton.
      destruct (vw_child v Hwf i n _ Hn Hc) as [? _]. lia.
    + by eapply node_wf_mono, (vw_nodes v Hwf); [lia|].
  - intros i m c. rewrite lookupZ_created by done. intros E Hc.
    destruct (Hmk nm p) as (E1 & E2 & _).
    assert (i < c < lenZ (nodes v) \/ (i = p /\ c = lenZ (nodes v)) ) as Hcases.
    { zcase_in E; [simplify_eq; rewrite E2 in Hc; by apply not_elem_of_nil in Hc|].
      zcase_in E; [simplify_eq|left; by apply (vw_child v Hwf i m)].
      simpl in Hc. apply elem_of_app in Hc as [Hc| ->%list_elem_of_singleton].
      - left. by apply (vw_child v Hwf i n).
      - by right. }
    split; [lia|]. rewrite lookupZ_created by done. destruct Hcases as [Hlt|[-> ->]].
    + assert (exists m', lookupZ (nodes v) c = Some m' /\ parent m' = i) as (m' & Hm' & Hpar).
      { zcase_in E; [lia|]. zcase_in E; simplify_eq.
        - apply (vw_child v Hwf i n c Hn). simpl in Hc.
          apply elem_of_app in Hc as [?| ->%list_elem_of_singleton]; [done|lia].
        - by apply (vw_child v Hwf i m). }
      zcase; [lia|]. zcase; [|by exists m'].
      subst c. exists (with_children (children n ++ [lenZ (nodes v)]) n). by simplify_eq.
    + rewrite Z.eqb_refl. by exists (mk nm p).
Qed.

(** [v'] has everything [v] has, and perhaps more children. *)
Definition extends (v v' : Vfs) : Prop :=
  forall i n, lookupZ (nodes v) i = Some n ->
    exists n' extra, lookupZ (nodes v') i = Some n' /\ node_name n' = node_name n /\
      parent n' = parent n /\ children n' = children n ++ extra.

Lemma created_extends v p n m :
  lookupZ (nodes v) p = Some n -> extends v (created v p n m).
Proof.
  intros Hn i k Hk. pose proof (lookupZ_Some_lt _ _ _ Hk).
  rewrite lookupZ_created by done. zcase; [lia|]. zcase.
  - simplify_eq. by eexists _, [_].
  - exists k, []. by rewrite app_nil_r.
Qed.

Lemma find_name_extends v v' cs nm :
  extends v v' -> (forall c, c ∈ cs -> is_Some (get_node c v)) ->
  find_name v' cs nm = find_name v cs nm.
Proof.
  intros Hext Hcs. apply find_name_ext. intros c Hc. destruct (Hcs c Hc) as [k Hk].
  destruct (Hext c k Hk) as (n' & ex & Hn' & Hnm & _). unfold get_node in *. rewrite Hk, Hn'.
  simpl. by f_equal.
Qed.

Lemma children_exist v i n c :
  vfs_wf v -> lookupZ (nodes v) i = Some n -> c ∈ children n -> is_Some (get_node c v).
Proof.
  intros Hwf Hn Hc. destruct (vw_child v Hwf i n c Hn Hc) as (_ & m & Hm & _). by exists m.
Qed.

Lemma walk_extends v v' comps cur c :
  vfs_wf v -> extends v v' -> walk v comps cur = Some c -> walk v' comps cur = Some c.
Proof.
  intros Hwf Hext. revert cur. induction comps as [|comp comps IH]; intros cur; [done|]. simpl.
  destruct (step_component v cur comp) as [c'|] eqn:E; [|done]. simpl. intros Hw.
  assert (step_component v' cur comp = Some c') as ->; [|by apply IH].
  revert E. unfold step_component. destruct (_ || _); [done|].
  case_bool_decide; destruct (get_node cur v) as [n|] eqn:Hn; try done;
    destruct (Hext cur n Hn) as (n' & extra & Hn' & _ & Hpar & Hch);
    unfold get_node; rewrite Hn'.
  - by rewrite Hpar.
  - intros Hf. rewrite Hch, find_name_app, (find_name_extends v v'), Hf; try done.
    intros k. by apply (children_exist v cur n).
Qed.

(** ** Deletion *)

Lemma node_empty_wf len : 0 < len -> node_wf len node_empty.
Proof. intros. split; simpl; try done; try lia. constructor. Qed.

(** The table after node [idx], a child of [p], was deleted. *)
Definition deleted (v : Vfs) (idx p : Z) (pn : VfsNode) : Vfs :=
  mk_vfs (insertZ idx node_empty
            (insertZ p (with_children (filter (fun c => c <> idx) (children pn)) pn) (nodes v)))
    (next_inode v).

Lemma lookupZ_deleted v idx p pn i :
  lookupZ (nodes v) p = Some pn -> 0 <= idx < lenZ (nodes v) ->
  lookupZ (nodes (deleted v idx p pn)) i =
    if idx =? i then Some node_empty
    else if p =? i then Some (with_children (filter (fun c => c <> idx) (children pn)) pn)
    else lookupZ (nodes v) i.
Proof.
  intros Hp%lookupZ_Some_lt Hidx. simpl.
  rewrite lookupZ_insertZ by (rewrite lenZ_insertZ; lia). zcase; [done|].
  by rewrite lookupZ_insertZ by lia.
Qed.

Lemma delete_node_eq v idx n pn :
  vfs_wf v -> idx <> 0 -> lookupZ (nodes v) idx = Some n ->
  lookupZ (nodes v) (parent n) = Some pn ->
  delete_node idx v =
    if bool_decide (node_type n = Directory) && negb (bool_decide (children n = []))
    then Ret (Err "directory not empty"%string, v)
    else Ret (Ok tt, deleted v idx (parent n) pn).
Proof.
  intros Hwf Hne Hn Hpn. pose proof (lookupZ_Some_lt _ _ _ Hn).
  pose proof (lookupZ_Some_lt _ _ _ Hpn). unfold delete_node.
  destruct (Z.eqb_spec idx 0); [done|]. destruct (Z.leb_spec (lenZ (nodes v)) idx); [lia|].
  unfold index. rewrite Hn. simpl. destruct (_ && _); [done|].
  destruct (Z.ltb_spec (parent n) (lenZ (nodes v))); [|lia].
  rewrite Hpn. simpl. rewrite assign_lt by lia. simpl.
  by rewrite assign_lt by (rewrite lenZ_insertZ; lia).
Qed.

Lemma deleted_wf v idx n pn :
  vfs_wf v -> idx <> 0 -> lookupZ (nodes v) idx = Some n ->
  lookupZ (nodes v) (parent n) = Some pn -> vfs_wf (deleted v idx (parent n) pn).
Proof.
  intros Hwf Hne Hn Hpn. pose proof (lookupZ_Some_lt _ _ _ Hn) as Hi.
  assert (Hlen : lenZ (nodes (deleted v idx (parent n) pn)) = lenZ (nodes v))
    by (simpl; by rewrite !lenZ_insertZ).
  pose proof (vw_root v Hwf). pose proof (vw_nodes v Hwf _ _ Hpn) as Hpw.
  split; rewrite ?Hlen; [done| |].
  - intros i m. rewrite lookupZ_deleted by done. zcases; intros E; simplify_eq.
    + by apply node_empty_wf.
    + destruct Hpw. split; try done. simpl. by apply NoDup_filter.
    + by apply (vw_nodes v Hwf i).
  - intros i m c. rewrite lookupZ_deleted by done. intros E Hc.
    assert (exists m0, lookupZ (nodes v) i = Some m0 /\ c ∈ children m0 /\
      (i = parent n -> c <> idx)) as (m0 & Hm0 & Hcm & Hci).
    { zcase_in E; [simplify_eq; by apply not_elem_of_nil in Hc|].
      zcase_in E; simplify_eq.
      - simpl in Hc. apply list_elem_of_filter in Hc as [Hc1 Hc2]. by exists pn.
      - exists m. split_and!; [done|done|]. congruence. }
    destruct (vw_child v Hwf i m0 c Hm0 Hcm) as (Hr & k & Hk & Hpar). split; [done|].
    rewrite lookupZ_deleted by done. zcase; [subst c; simplify_eq; by destruct Hci|].
    zcase; [|by exists k]. subst c. simplify_eq. eexists. split; [done|]. done.
Qed.

(** ** Reading and writing *)

Lemma write_node_spec n offset d :
  node_type n = File -> 0 <= offset -> offset + lenZ d < two64 ->
  exists buf, write_node n offset d = Ret (Ok (lenZ d), with_data buf (lenZ buf) n) /\
    lenZ buf = Z.max (lenZ (data n)) (offset + lenZ d) /\
    slice buf offset (offset + lenZ d) = Ret d /\
    (forall i, i < offset \/ offset + lenZ d <= i ->
       lookupZ buf i = if (lenZ (data n) <=? i) && (0 <=? i) && (i <? offset + lenZ d) then Some 0
                       else lookupZ (data n) i).
Proof.
  intros Hf Ho Hlt. unfold write_node. rewrite bool_decide_false by (rewrite Hf; auto).
  pose proof (lenZ_nonneg d). pose proof (lenZ_nonneg (data n)).
  rewrite u64_small by lia.
  set (buf := if _ <? _ then _ else _).
  assert (Hlen : lenZ buf = Z.max (lenZ (data n)) (offset + lenZ d)).
  { subst buf. zcase; [rewrite lenZ_resize by lia|]; lia. }
  rewrite copy_into_Ret by lia. simpl. exists (write_at buf offset d).
  split; [done|]. split; [rewrite lenZ_write_at; lia|].
  split; [apply slice_write_at; lia|]. intros i Hi.
  rewrite lookupZ_write_at_out by lia. subst buf.
  destruct (Z.ltb_spec (lenZ (data n)) (offset + lenZ d)) as [Hgrow|Hfit].
  - rewrite lookupZ_resize by lia. destruct (decide (i < 0 \/ lenZ (data n) <= i)) as [Hout|Hin].
    + assert (E : lookupZ (data n) i = None) by (apply lookupZ_None; lia).
      rewrite E. zcases; try done; lia.
    + zcases; try done; lia.
  - zcases; try done; lia.
Qed.

Lemma read_node_spec n offset len :
  node_type n = File -> 0 <= offset -> 0 <= len -> offset + len <= lenZ (data n) ->
  exists d, slice (data n) offset (offset + len) = Ret d /\ read_node n offset len = Ret (Ok d).
Proof.
  intros Hf Ho Hl Hfit. unfold read_node. rewrite bool_decide_false by (rewrite Hf; auto).
  rewrite slice_Ret by lia. eexists. split; [done|].
  destruct (Z.leb_spec (lenZ (data n)) offset).
  - assert (len = 0) as -> by lia. by replace (Z.to_nat (offset + 0 - offset)) with 0%nat by lia.
  - rewrite Z.min_l by lia. by rewrite slice_Ret by lia.
Qed.

Lemma vfs_new_wf : vfs_wf vfs_new.
Proof.
  split; [done| |].
  - intros i n H. pose proof (lookupZ_Some_lt _ _ _ H) as Hi. unfold lenZ in Hi. simpl in Hi.
    assert (i = 0) as -> by lia. injection H as <-. split; simpl; try done. constructor.
  - intros i n c H Hc. pose proof (lookupZ_Some_lt _ _ _ H) as Hi. unfold lenZ in Hi. simpl in Hi.
    assert (i = 0) as -> by lia. injection H as <-. by apply not_elem_of_nil in Hc.
Qed.

Lemma written_wf v idx n buf :
  vfs_wf v -> lookupZ (nodes v) idx = Some n ->
  vfs_wf (mk_vfs (insertZ idx (with_data buf (lenZ buf) n) (nodes v)) (next_inode v)).
Proof.
  intros Hwf Hn. pose proof (lookupZ_Some_lt _ _ _ Hn) as Hi.
  split; simpl; rewrite ?lenZ_insertZ; [apply (vw_root v Hwf)| |].
  - intros i m. rewrite lookupZ_insertZ by done. zcase; intros E; simplify_eq.
    + destruct (vw_nodes v Hwf _ _ Hn). by split.
    + by apply (vw_nodes v Hwf i).
  - intros i m c. rewrite lookupZ_insertZ by done. intros E Hc.
    assert (exists m0, lookupZ (nodes v) i = Some m0 /\ c ∈ children m0) as (m0 & Hm0 & Hcm).
    { zcase_in E; simplify_eq; [by exists n|by exists m]. }
    destruct (vw_child v Hwf i m0 c Hm0 Hcm) as (Hr & k & Hk & Hpar). split; [done|].
    rewrite lookupZ_insertZ by done. zcase; [|by exists k].
    subst. simplify_eq. by eexists.
Qed.

(** Existing paths and the result of a creation. *)
Lemma create_at_spec mk path v :
  fresh_node mk -> vfs_wf v ->
  exists r v', create_at (create_node mk) path (Some v) = Ret (r, Some v') /\ vfs_wf v' /\
    match r with
    | Err _ => v' = v
    | Ok idx => exists par nm p n,
        split_path path = Ret (Ok (par, nm)) /\
        walk v (path_components par) 0 = Some p /\ lookupZ (nodes v) p = Some n /\
        idx = lenZ (nodes v) /\ v' = created v p n (mk nm p)
    end.
Proof.
  intros Hmk Hwf. unfold create_at. destruct (split_path_spec path) as (sp & Hsp & Hspec).
  rewrite Hsp. simpl. destruct sp as [[par nm]|e]; [|by exists (Err e), v].
  simpl. rewrite resolve_path_spec by done. simpl.
  destruct (walk v (path_components par) 0) as [p|] eqn:Hw; [|by eexists _, v].
  pose proof (vw_root v Hwf).
  destruct (lookupZ_lt (nodes v) p) as [n Hn]; [eapply walk_range; eauto; lia|].
  rewrite (create_node_eq mk p n nm v Hn). simpl. eexists _, _. split; [done|].
  split; [by apply created_wf|]. by exists par, nm, p, n.
Qed.

(** ** Properties *)



(** A file created under a fresh name can be found: when [create_file]
    returns node [idx] for a path that did not resolve before, whose last
    component is at most 60 bytes and not a dot name, the path then resolves
    to [idx], every path that resolved before still resolves to the same
    node, and the new node is an empty file whose inode number is 0. *)
Theorem create_then_resolve path v idx v' par nm :
  vfs_wf v -> split_path path = Ret (Ok (par, nm)) ->
  lenZ nm <= NAME_LEN -> nm <> dot -> nm <> dotdot ->
  resolve_path path v = Ret None ->
  create_file path (Some v) = Ret (Ok idx, Some v') ->
  resolve_path path v' = Ret (Some idx) /\
  (forall q c, resolve_path q v = Ret (Some c) -> resolve_path q v' = Ret (Some c)) /\
  exists m, get_node idx v' = Some m /\ node_type m = File /\ data m = [] /\ inode m = 0.
Proof.
  intros Hwf Hsp Hlen Hd Hdd Hnone Hcreate.
  destruct (create_at_spec new_file path v fresh_new_file Hwf) as (r & v1 & E & Hwf' & Hr).
  unfold create_file, vfs_create_file in Hcreate. rewrite E in Hcreate. simplify_eq.
  destruct Hr as (par' & nm' & p & n & Hsp' & Hw & Hn & -> & ->).
  rewrite Hsp in Hsp'. simplify_eq.
  destruct (split_path_spec path) as (sp & Hsp2 & Hcomp). rewrite Hsp in Hsp2. simplify_eq.
  destruct Hcomp as (Hcomp & Hne & _).
  pose proof (created_extends v p n (new_file nm' p) Hn) as Hext.
  assert (Hdots : forall u cur, step_component u cur nm' =
    match get_node cur u with Some k => find_name u (children k) nm' | None => None end).
  { intros u cur. unfold step_component. by rewrite !bool_decide_false. }
  rewrite resolve_path_spec, Hcomp, walk_app, Hw in Hnone by done. simpl in Hnone.
  rewrite Hdots in Hnone. unfold get_node at 1 in Hnone. rewrite Hn in Hnone.
  apply Ret_inj in Hnone.
  split; [|split].
  - rewrite resolve_path_spec, Hcomp, walk_app by done.
    rewrite (walk_extends v _ _ _ _ Hwf Hext Hw). simpl. rewrite Hdots.
    unfold get_node at 1. rewrite lookupZ_created by done.
    pose proof (lookupZ_Some_lt _ _ _ Hn). zcase; [lia|]. rewrite Z.eqb_refl.
    cbn [children with_children]. rewrite find_name_app, (find_name_extends v) by
      (done || (intros c; by apply (children_exist v p n))).
    destruct (find_name v (children n) nm') as [c|] eqn:Hfn.
    { destruct (Hdots v p). simpl in Hnone. done. }
    rewrite find_name_cons, decide_True; [done|].
    unfold get_node. rewrite lookupZ_created, Z.eqb_refl by done. simpl.
    f_equal. by apply node_name_new.
  - intros q c. rewrite !resolve_path_spec by done. intros Hq%Ret_inj. f_equal.
    by apply (walk_extends v).
  - exists (new_file nm' p). unfold get_node. by rewrite lookupZ_created, Z.eqb_refl.
Qed.

Definition motd_path : byte_string := bytes_of "/motd".
Definition vfs_with_motd : Vfs := created vfs_new 0 (with_inode 1 (new_dir [slash] 0)) (new_file (bytes_of "motd") 0).

Lemma create_then_resolve_witness :
  create_file motd_path (Some vfs_new) = Ret (Ok 1, Some vfs_with_motd) /\
  resolve_path motd_path vfs_with_motd = Ret (Some 1).
Proof.
  assert (E : create_file motd_path (Some vfs_new) = Ret (Ok 1, Some vfs_with_motd)) by reflexivity.
  split; [exact E|].
  assert (Hl : lenZ (bytes_of "motd") <= NAME_LEN) by (unfold NAME_LEN, lenZ; simpl; lia).
  destruct (create_then_resolve motd_path vfs_new 1 vfs_with_motd [slash] (bytes_of "motd")
    vfs_new_wf eq_refl Hl ltac:(discriminate) ltac:(discriminate) eq_refl E) as [H _].
  exact H.
Defined.

Lemma write_file_spec v idx n offset d :
  get_node idx v = Some n -> node_type n = File -> 0 <= offset -> offset + lenZ d < two64 ->
  exists v' m, write_file_by_node idx offset d (Some v) = Ret (Ok (lenZ d), Some v') /\
    read_file_by_node idx offset (lenZ d) (Some v') = Ret (Ok d) /\
    get_node idx v' = Some m /\ size m = Z.max (lenZ (data n)) (offset + lenZ d) /\
    (forall i, i < offset \/ offset + lenZ d <= i ->
       lookupZ (data m) i =
         if (lenZ (data n) <=? i) && (0 <=? i) && (i <? offset + lenZ d) then Some 0
         else lookupZ (data n) i) /\
    (forall j, j <> idx -> get_node j v' = get_node j v).
Proof.
  intros Hn Hf Ho Hlt. unfold write_file_by_node. simpl. rewrite Hn.
  destruct (write_node_spec n offset d Hf Ho Hlt) as (buf & -> & Hlen & Hslice & Hrest). simpl.
  pose proof (lookupZ_Some_lt _ _ _ Hn) as Hi. eexists _, _. split; [done|].
  assert (Hg : lookupZ (insertZ idx (with_data buf (lenZ buf) n) (nodes v)) idx =
    Some (with_data buf (lenZ buf) n)) by (by apply lookupZ_insertZ_eq).
  split_and!.
  - unfold read_file_by_node, get_node. simpl. rewrite Hg. pose proof (lenZ_nonneg d).
    destruct (read_node_spec (with_data buf (lenZ buf) n) offset (lenZ d)) as (d' & Hs & ->);
      [done|done|done|simpl; lia|]. simpl in Hs. rewrite Hslice in Hs. by simplify_eq.
  - exact Hg.
  - simpl. lia.
  - done.
  - intros j Hj. unfold get_node. simpl. by apply lookupZ_insertZ_ne.
Qed.

(** C29: What is written is read back: a write of [d] at any offset of a file
    node succeeds with the number of bytes, reading that range returns [d],
    all other bytes of the file are kept, a gap past the old end reads as
    zeros, and no other node changes. *)
Theorem write_then_read v idx n offset d :
  get_node idx v = Some n -> node_type n = File -> 0 <= offset -> offset + lenZ d < two64 ->
  exists v' m, write_file_by_node idx offset d (Some v) = Ret (Ok (lenZ d), Some v') /\
    read_file_by_node idx offset (lenZ d) (Some v') = Ret (Ok d) /\
    get_node idx v' = Some m /\ size m = Z.max (lenZ (data n)) (offset + lenZ d) /\
    (forall i, i < offset \/ offset + lenZ d <= i ->
       lookupZ (data m) i =
         if (lenZ (data n) <=? i) && (0 <=? i) && (i <? offset + lenZ d) then Some 0
         else lookupZ (data n) i) /\
    (forall j, j <> idx -> get_node j v' = get_node j v).
Proof. apply write_file_spec. Qed.

Lemma write_then_read_witness :
  exists v', write_file_by_node 1 3 [7; 8] (Some vfs_with_motd) = Ret (Ok 2, Some v') /\
    read_file_by_node 1 3 2 (Some v') = Ret (Ok [7; 8]).
Proof.
  destruct (write_then_read vfs_with_motd 1 (new_file (bytes_of "motd") 0) 3 [7; 8]
    eq_refl eq_refl ltac:(lia) ltac:(unfold lenZ; simpl; lia)) as (v' & m & E & R & _).
  exists v'. split; [exact E|exact R].
Defined.

(** A successful [delete] of a path unlinks exactly the node the path
    named: its parent no longer lists it and keeps all its other children,
    its slot is cleared, and no other node changes. *)
Theorem delete_unlinks path v v' :
  vfs_wf v -> delete path (Some v) = Ret (Ok tt, Some v') ->
  exists par nm p c pn, split_path path = Ret (Ok (par, nm)) /\
    resolve_path par v = Ret (Some p) /\ lookup_child p nm v = Ret (Some c) /\
    get_node p v = Some pn /\
    get_node p v' = Some (with_children (filter (fun x => x <> c) (children pn)) pn) /\
    get_node c v' = Some node_empty /\
    (forall j, j <> p -> j <> c -> get_node j v' = get_node j v) /\
    lookup_child p nm v' <> Ret (Some c).
Proof.
  intros Hwf Hdel. unfold delete in Hdel.
  destruct (split_path_spec path) as (sp & Hsp & _). rewrite Hsp in Hdel. simpl in Hdel.
  destruct sp as [[par nm]|e]; [|done]. simpl in Hdel.
  rewrite resolve_path_spec in Hdel by done. simpl in Hdel. pose proof (vw_root v Hwf).
  destruct (walk v (path_components par) 0) as [p|] eqn:Hw; [|done].
  destruct (lookupZ_lt (nodes v) p) as [n Hn]; [eapply walk_range; eauto; lia|].
  pose proof (lookup_child_spec v p n nm Hwf Hn) as Hlk. rewrite Hlk in Hdel. simpl in Hdel.
  destruct (find_name v (children n) nm) as [c|] eqn:Hf; [|done].
  pose proof (find_name_elem _ _ _ _ Hf) as Hin.
  destruct (vw_child v Hwf p n c Hn Hin) as (Hc & m & Hm & <-).
  pose proof (lookupZ_Some_lt _ _ _ Hn).
  rewrite (delete_node_eq v c m n) in Hdel by (done || lia). destruct (_ && _); [done|].
  simpl in Hdel. injection Hdel as <-.
  pose proof (lookupZ_Some_lt _ _ _ Hm).
  assert (Hp' : lookupZ (nodes (deleted v c (parent m) n)) (parent m) =
    Some (with_children (filter (fun x => x <> c) (children n)) n)).
  { rewrite lookupZ_deleted by done. zcase; [lia|]. by rewrite Z.eqb_refl. }
  exists par, nm, (parent m), c, n. split_and!; try done.
  - rewrite resolve_path_spec by done. by rewrite Hw.
  - unfold get_node. rewrite lookupZ_deleted by done. by rewrite Z.eqb_refl.
  - intros j Hjp Hjc. unfold get_node. rewrite lookupZ_deleted by done. zcases; try done; congruence.
  - assert (Hwf' : vfs_wf (deleted v c (parent m) n)) by (apply deleted_wf; (done || lia)).
    rewrite (lookup_child_spec _ _ _ nm Hwf' Hp'). intros E%Ret_inj%find_name_elem.
    simpl in E. by apply list_elem_of_filter in E as [? _].
Qed.

Lemma delete_unlinks_witness :
  exists v' c, delete motd_path (Some vfs_with_motd) = Ret (Ok tt, Some v') /\
    get_node c vfs_with_motd <> Some node_empty /\ get_node c v' = Some node_empty.
Proof.
  assert (Hwf : vfs_wf vfs_with_motd).
  { apply (created_wf new_file); [apply fresh_new_file|apply vfs_new_wf|reflexivity]. }
  destruct (delete_unlinks motd_path vfs_with_motd _ Hwf eq_refl)
    as (par & nm & p & c & pn & Hsp & Hr & Hl & Hp & _ & Hc & _).
  eexists _, c. split; [reflexivity|]. split; [|exact Hc].
  vm_compute in Hsp. injection Hsp as <- <-. vm_compute in Hr. injection Hr as <-.
  vm_compute in Hl. injection Hl as <-. vm_compute. discriminate.
Defined.

(** [..] does not lead back to the root: the walk ignores a parent whose
    index is 0, so from a node directly below the root a further [..] stays
    at that node. *)
Theorem dotdot_stays_below_root v path path' c n :
  vfs_wf v -> resolve_path path v = Ret (Some c) -> get_node c v = Some n -> parent n = 0 ->
  path_components path' = path_components path ++ [dotdot] ->
  resolve_path path' v = Ret (Some c).
Proof.
  intros Hwf Hr Hn Hp Hpath. rewrite resolve_path_spec in Hr by done. apply Ret_inj in Hr.
  rewrite resolve_path_spec, Hpath, walk_app, Hr by done. simpl.
  unfold step_component. rewrite !bool_decide_false by done. simpl. by rewrite Hn, Hp.
Qed.

Lemma dotdot_stays_below_root_witness :
  resolve_path (bytes_of "/motd/..") vfs_with_motd = Ret (Some 1) /\
  resolve_path (bytes_of "/") vfs_with_motd = Ret (Some 0).
Proof.
  assert (Hwf : vfs_wf vfs_with_motd).
  { apply (created_wf new_file); [apply fresh_new_file|apply vfs_new_wf|reflexivity]. }
  split; [|reflexivity].
  apply (dotdot_stays_below_root vfs_with_motd motd_path (bytes_of "/motd/..") 1
    (new_file (bytes_of "motd") 0) Hwf); reflexivity.
Defined.
