(* ===== verification/Ramfs.v ===== *)
(** * The RAM file system (src/src/fs/ramfs.rs)

    A self-contained table of nodes.  Vectors grow without failing; indexing
    out of range panics. *)

From S2P Require Import Prelude Vfs.

Record RamFsNode : Type := mk_ram_node {
  rname : list Z;
  rname_len : Z;
  r_is_dir : bool;
  rchildren : list Z;
  rdata : list Z;
  rinode : Z;
}.

Definition ram_new_file (nm : list Z) (ino : Z) : RamFsNode :=
  mk_ram_node (name_buffer nm) (Z.min (lenZ nm) 60) false [] [] ino.
Definition ram_new_dir (nm : list Z) (ino : Z) : RamFsNode :=
  mk_ram_node (name_buffer nm) (Z.min (lenZ nm) 60) true [] [] ino.

Definition ram_name_bytes (n : RamFsNode) : outcome (list Z) := slice (rname n) 0 (rname_len n).
Definition ram_name_str (n : RamFsNode) : outcome (list Z) :=
  b ← ram_name_bytes n; Ret (utf8_or b []).

Definition ram_with_children (c : list Z) (n : RamFsNode) : RamFsNode :=
  mk_ram_node (rname n) (rname_len n) (r_is_dir n) c (rdata n) (rinode n).
Definition ram_with_data (d : list Z) (n : RamFsNode) : RamFsNode :=
  mk_ram_node (rname n) (rname_len n) (r_is_dir n) (rchildren n) d (rinode n).

Record RamFs : Type := mk_ramfs { rnodes : list RamFsNode; rnext_inode : Z }.

Definition ramfs_new : RamFs := mk_ramfs [ram_new_dir [slash] 1] 2.

Definition alloc_inode (fs : RamFs) : Z * RamFs :=
  (rnext_inode fs, mk_ramfs (rnodes fs) (u64 (rnext_inode fs + 1))).

Definition ram_create (mk : list Z -> Z -> RamFsNode) (parent_idx : Z) (nm : list Z) (fs : RamFs)
  : outcome (result string Z * RamFs) :=
  let '(ino, fs) := alloc_inode fs in
  let child_idx := lenZ (rnodes fs) in
  let ns := rnodes fs ++ [mk nm ino] in
  p ← index ns parent_idx;
  ns ← assign ns parent_idx (ram_with_children (rchildren p ++ [child_idx]) p);
  Ret (Ok child_idx, mk_ramfs ns (rnext_inode fs)).
Definition ram_create_file := ram_create ram_new_file.
Definition ram_create_dir := ram_create ram_new_dir.

Fixpoint ram_find (ns : list RamFsNode) (cs : list Z) (nm : list Z) : outcome (option Z) :=
  match cs with
  | [] => Ret None
  | c :: cs' =>
      child ← index ns c;
      b ← (if rname_len child =? lenZ nm then ram_name_bytes child else Ret []);
      if (rname_len child =? lenZ nm) && bool_decide (b = nm) then Ret (Some c)
      else ram_find ns cs' nm
  end.
Definition ram_lookup (parent_idx : Z) (nm : list Z) (fs : RamFs) : outcome (option Z) :=
  p ← index (rnodes fs) parent_idx; ram_find (rnodes fs) (rchildren p) nm.

Fixpoint ram_resolve_components (comps : list (list Z)) (current : Z) (fs : RamFs) : outcome (option Z) :=
  match comps with
  | [] => Ret (Some current)
  | comp :: comps' =>
      if bool_decide (comp = []) || bool_decide (comp = dot) then ram_resolve_components comps' current fs
      else if bool_decide (comp = dotdot) then ram_resolve_components comps' current fs
      else
        r ← ram_lookup current comp fs;
        match r with
        | Some c => ram_resolve_components comps' c fs
        | None => Ret None
        end
  end.
Definition ram_resolve (path : list Z) (fs : RamFs) : outcome (option Z) :=
  let path := trim_slashes path in
  if bool_decide (path = []) then Ret (Some 0)
  else ram_resolve_components (split_slash path) 0 fs.

Definition ram_read (idx offset buf_len : Z) (fs : RamFs) : outcome (result string (list Z)) :=
  if lenZ (rnodes fs) <=? idx then Ret (Err "invalid node"%string) else
  n ← index (rnodes fs) idx;
  if r_is_dir n then Ret (Err "is a directory"%string) else
  if lenZ (rdata n) <=? offset then Ret (Ok []) else
  let avail := lenZ (rdata n) - offset in
  let k := Z.min buf_len avail in
  d ← slice (rdata n) offset (offset + k);
  Ret (Ok d).

Definition ram_write (idx offset : Z) (d : list Z) (fs : RamFs) : outcome (result string Z * RamFs) :=
  if lenZ (rnodes fs) <=? idx then Ret (Err "invalid node"%string, fs) else
  n ← index (rnodes fs) idx;
  if r_is_dir n then Ret (Err "is a directory"%string, fs) else
  let end_ := u64 (offset + lenZ d) in
  let buf := if lenZ (rdata n) <? end_ then resize (rdata n) end_ 0 else rdata n in
  buf ← copy_into buf offset end_ d;
  ns ← assign (rnodes fs) idx (ram_with_data buf n);
  Ret (Ok (lenZ d), mk_ramfs ns (rnext_inode fs)).

Definition ram_delete (idx : Z) (fs : RamFs) : outcome (result string unit * RamFs) :=
  if idx =? 0 then Ret (Err "cannot delete root"%string, fs) else
  n ← index (rnodes fs) idx;
  if r_is_dir n && negb (bool_decide (rchildren n = []))
  then Ret (Err "directory not empty"%string, fs) else
  ns ← assign (rnodes fs) idx (mk_ram_node (rname n) 0 false [] [] (rinode n));
  Ret (Ok tt, mk_ramfs ns (rnext_inode fs)).

Fixpoint ram_list (ns : list RamFsNode) (cs : list Z) : outcome (list (list Z * Z * bool)) :=
  match cs with
  | [] => Ret []
  | c :: cs' =>
      if c <? lenZ ns then
        child ← index ns c;
        if 0 <? rname_len child then
          nm ← ram_name_str child;
          rest ← ram_list ns cs';
          Ret ((nm, rinode child, r_is_dir child) :: rest)
        else ram_list ns cs'
      else ram_list ns cs'
  end.
Definition ram_readdir (idx : Z) (fs : RamFs) : outcome (list (list Z * Z * bool)) :=
  if lenZ (rnodes fs) <=? idx then Ret [] else
  n ← index (rnodes fs) idx;
  if negb (r_is_dir n) then Ret [] else ram_list (rnodes fs) (rchildren n).

Definition node_count (fs : RamFs) : Z := lenZ (rnodes fs).

(** ** Invariant: inode numbers are handed out once *)

Record ramfs_wf (fs : RamFs) : Prop := {
  rw_root : 0 < lenZ (rnodes fs);
  rw_inodes : forall i n, lookupZ (rnodes fs) i = Some n -> rinode n < rnext_inode fs;
  rw_unique : forall i j n m, lookupZ (rnodes fs) i = Some n -> lookupZ (rnodes fs) j = Some m ->
    rinode n = rinode m -> i = j;
  rw_children : forall i n c, lookupZ (rnodes fs) i = Some n -> c ∈ rchildren n ->
    0 <= c < lenZ (rnodes fs);
}.

Lemma ramfs_new_wf : ramfs_wf ramfs_new.
Proof.
  assert (H0 : forall i n, lookupZ (rnodes ramfs_new) i = Some n -> i = 0 /\ n = ram_new_dir [slash] 1).
  { intros i n H. pose proof (lookupZ_Some_lt _ _ _ H) as Hi. unfold lenZ in Hi. simpl in Hi.
    assert (i = 0) as -> by lia. by injection H as <-. }
  split; [done| | |].
  - intros i n [-> ->]%H0. simpl. lia.
  - intros i j n m [-> _]%H0 [-> _]%H0. done.
  - intros i n c [-> ->]%H0 Hc. by apply not_elem_of_nil in Hc.
Qed.

Lemma ram_create_eq mk p n nm fs :
  lookupZ (rnodes fs) p = Some n ->
  ram_create mk p nm fs =
    Ret (Ok (lenZ (rnodes fs)),
      mk_ramfs (insertZ p (ram_with_children (rchildren n ++ [lenZ (rnodes fs)]) n)
                  (rnodes fs ++ [mk nm (rnext_inode fs)])) (u64 (rnext_inode fs + 1))).
Proof.
  intros Hn. pose proof (lookupZ_Some_lt _ _ _ Hn). unfold ram_create. simpl. unfold index.
  rewrite lookupZ_snoc. zcase; [lia|]. rewrite Hn. simpl.
  by rewrite assign_lt by (rewrite lenZ_snoc; lia).
Qed.

Lemma ram_create_wf (mk : list Z -> Z -> RamFsNode) p n nm fs :
  (forall (nm : list Z) ino, rinode (mk nm ino) = ino /\ rchildren (mk nm ino) = []) ->
  ramfs_wf fs -> lookupZ (rnodes fs) p = Some n -> rnext_inode fs < two64 - 1 ->
  0 <= rnext_inode fs ->
  ramfs_wf (mk_ramfs (insertZ p (ram_with_children (rchildren n ++ [lenZ (rnodes fs)]) n)
                  (rnodes fs ++ [mk nm (rnext_inode fs)])) (u64 (rnext_inode fs + 1))).
Proof.
  intros Hmk [H1 H2 H3 H4] Hn Hlt H0. pose proof (lookupZ_Some_lt _ _ _ Hn) as Hp.
  assert (Hget : forall i m, lookupZ (insertZ p (ram_with_children (rchildren n ++ [lenZ (rnodes fs)]) n)
      (rnodes fs ++ [mk nm (rnext_inode fs)])) i = Some m ->
    (i = lenZ (rnodes fs) /\ m = mk nm (rnext_inode fs)) \/
    exists m0, lookupZ (rnodes fs) i = Some m0 /\ rinode m = rinode m0 /\
      forall c, c ∈ rchildren m -> c ∈ rchildren m0 \/ c = lenZ (rnodes fs)).
  { intros i m. rewrite lookupZ_insertZ, lookupZ_snoc by (rewrite lenZ_snoc; lia).
    zcases; intros E; simplify_eq.
    - right. exists n. split_and!; [done|done|]. intros c Hc. simpl in Hc.
      apply elem_of_app in Hc as [?| ->%list_elem_of_singleton]; auto.
    - by left.
    - right. exists m. auto. }
  split; simpl; rewrite ?lenZ_insertZ, ?lenZ_snoc, ?u64_small by lia.
  - lia.
  - intros i m [[-> ->]|(m0 & Hm0 & -> & _)]%Hget.
    + destruct (Hmk nm (rnext_inode fs)) as [-> _]. lia.
    + apply H2 in Hm0. lia.
  - intros i j m k [[-> ->]|(m0 & Hm0 & E0 & _)]%Hget [[-> ->]|(k0 & Hk0 & E1 & _)]%Hget Heq.
    + done.
    + destruct (Hmk nm (rnext_inode fs)) as [E _]. apply H2 in Hk0. lia.
    + destruct (Hmk nm (rnext_inode fs)) as [E _]. apply H2 in Hm0. lia.
    + eapply H3; eauto. congruence.
  - intros i m c [[-> ->]|(m0 & Hm0 & _ & Hcs)]%Hget Hc.
    + destruct (Hmk nm (rnext_inode fs)) as [_ E]. rewrite E in Hc. by apply not_elem_of_nil in Hc.
    + destruct (Hcs c Hc) as [Hc'| ->]; [apply (H4 _ _ _ Hm0) in Hc'|]; lia.
Qed.

(** ** Properties *)

(** [delete] never unlinks: deleting a node that its parent lists
    succeeds but leaves it in the parent's list of children, so a directory
    whose entries have all been deleted still counts as not empty and can
    never be deleted itself. *)
Theorem ramfs_delete_keeps_parent_entry fs p n idx m fs' :
  lookupZ (rnodes fs) p = Some n -> r_is_dir n = true -> idx ∈ rchildren n ->
  p <> 0 -> p <> idx ->
  lookupZ (rnodes fs) idx = Some m -> ram_delete idx fs = Ret (Ok tt, fs') ->
  lookupZ (rnodes fs') p = Some n /\
  ram_delete p fs' = Ret (Err "directory not empty"%string, fs').
Proof.
  intros Hn Hd Hin Hp0 Hpi Hm Hdel. unfold ram_delete in Hdel. unfold index in Hdel.
  destruct (Z.eqb_spec idx 0); [done|]. rewrite Hm in Hdel. simpl in Hdel.
  destruct (_ && _); [done|].
  rewrite assign_lt in Hdel by (by eapply lookupZ_Some_lt). simpl in Hdel. simplify_eq.
  assert (Hn' : lookupZ (insertZ idx (mk_ram_node (rname m) 0 false [] [] (rinode m)) (rnodes fs)) p
    = Some n) by (by rewrite lookupZ_insertZ_ne).
  split; [exact Hn'|]. unfold ram_delete, index. simpl. destruct (Z.eqb_spec p 0); [done|].
  rewrite Hn'. simpl. rewrite Hd, bool_decide_false; [done|]. intros E. rewrite E in Hin.
  by apply not_elem_of_nil in Hin.
Qed.

(** A directory [d] that holds a file [f]. *)
Definition ramfs_sample : RamFs :=
  mk_ramfs [ram_with_children [1] (ram_new_dir [slash] 1);
            ram_with_children [2] (ram_new_dir [100] 2); ram_new_file [102] 3] 4.

Lemma ramfs_delete_keeps_parent_entry_witness :
  exists fs', ram_delete 2 ramfs_sample = Ret (Ok tt, fs') /\
    ram_delete 1 fs' = Ret (Err "directory not empty"%string, fs').
Proof.
  eexists. split; [reflexivity|].
  apply (ramfs_delete_keeps_parent_entry ramfs_sample 1 (ram_with_children [2] (ram_new_dir [100] 2)) 2
    (ram_new_file [102] 3) _ eq_refl eq_refl); [left|lia|lia|reflexivity|reflexivity].
Defined.

(** Inode numbers of the RAM file system are unique: a creation below any
    existing node succeeds, and as long as the 64-bit counter has not run out
    it keeps the invariant that no two nodes share an inode number. *)
Theorem ramfs_create_unique_inodes p n nm fs :
  ramfs_wf fs -> lookupZ (rnodes fs) p = Some n -> 0 <= rnext_inode fs < two64 - 1 ->
  exists fs1 fs2, ram_create_file p nm fs = Ret (Ok (lenZ (rnodes fs)), fs1) /\ ramfs_wf fs1 /\
    ram_create_dir p nm fs = Ret (Ok (lenZ (rnodes fs)), fs2) /\ ramfs_wf fs2.
Proof.
  intros Hwf Hn Hi. eexists _, _. unfold ram_create_file, ram_create_dir.
  rewrite !(ram_create_eq _ p n nm fs Hn). split; [done|].
  split; [by apply ram_create_wf; [|done|done|lia|lia]|]. split; [done|].
  by apply ram_create_wf; [|done|done|lia|lia].
Qed.

Lemma ramfs_create_unique_inodes_witness :
  exists fs1, ram_create_file 0 [102] ramfs_new = Ret (Ok 1, fs1) /\ ramfs_wf fs1.
Proof.
  destruct (ramfs_create_unique_inodes 0 (ram_new_dir [slash] 1) [102] ramfs_new ramfs_new_wf eq_refl
    ltac:(simpl; lia)) as (fs1 & fs2 & E & Hwf & _).
  exists fs1. split; [exact E|exact Hwf].
Defined.
