(* ===== verification/FdTable.v ===== *)
(** * File descriptors (src/src/fd_table.rs and src/src/fs/fd.rs)

    The global table is one flat array indexed by
    [task_id * MAX_FDS + fd]; the per-process table of [fs/fd.rs] is in the
    module [ProcFd] at the end. *)

From S2P Require Import Prelude Vfs.

Definition MAX_TASKS : Z := 256.
Definition MAX_FDS : Z := 32.

Record FdEntry : Type := mk_fd { node_idx : Z; offset : Z }.
#[global] Instance FdEntry_eq_dec : EqDecision FdEntry.
Proof. solve_decision. Defined.

Definition fd_empty : FdEntry := mk_fd (-1) 0.
Definition fd_table : Type := list FdEntry.
Definition FD_TABLE : fd_table := replicate (Z.to_nat (MAX_TASKS * MAX_FDS)) fd_empty.

Definition fd_index (task_id fd : Z) : Z := u64 (task_id * MAX_FDS + fd).

(** The search for the lowest unused descriptor among [fds], which puts
    [entry] there. *)
Fixpoint take_lowest (fds : list Z) (task_id : Z) (entry : FdEntry) (t : fd_table)
  : outcome (result string Z * fd_table) :=
  match fds with
  | [] => Ret (Err "too many open files"%string, t)
  | fd :: fds' =>
      e ← index t (fd_index task_id fd);
      if node_idx e =? -1 then
        t ← assign t (fd_index task_id fd) entry;
        Ret (Ok fd, t)
      else take_lowest fds' task_id entry t
  end.

Definition open (task_id vfs_node_idx : Z) (t : fd_table) : outcome (result string Z * fd_table) :=
  if task_id =? 0 then Ret (Err "kernel task cannot open fds"%string, t) else
  take_lowest (seqZ 0 MAX_FDS) task_id (mk_fd (i32 vfs_node_idx) 0) t.

Definition close (task_id fd : Z) (t : fd_table) : outcome (result string unit * fd_table) :=
  if MAX_FDS <=? fd then Ret (Err "bad file descriptor"%string, t) else
  e ← index t (fd_index task_id fd);
  if node_idx e =? -1 then Ret (Err "bad file descriptor"%string, t) else
  t ← assign t (fd_index task_id fd) fd_empty;
  Ret (Ok tt, t).

Definition node (task_id fd : Z) (t : fd_table) : outcome (result string Z) :=
  if MAX_FDS <=? fd then Ret (Err "bad file descriptor"%string) else
  e ← index t (fd_index task_id fd);
  if node_idx e =? -1 then Ret (Err "bad file descriptor"%string) else
  Ret (Ok (u64 (node_idx e))).

Definition fd_offset (task_id fd : Z) (t : fd_table) : outcome Z :=
  if MAX_FDS <=? fd then Ret 0 else
  e ← index t (fd_index task_id fd); Ret (offset e).

Definition set_offset (task_id fd new_offset : Z) (t : fd_table) : outcome fd_table :=
  if fd <? MAX_FDS then
    e ← index t (fd_index task_id fd);
    assign t (fd_index task_id fd) (mk_fd (node_idx e) new_offset)
  else Ret t.

Fixpoint count_open (fds : list Z) (task_id : Z) (t : fd_table) (count : Z) : outcome Z :=
  match fds with
  | [] => Ret count
  | fd :: fds' =>
      e ← index t (fd_index task_id fd);
      count_open fds' task_id t (if node_idx e =? -1 then count else count + 1)
  end.
Definition open_count (task_id : Z) (t : fd_table) : outcome Z :=
  count_open (seqZ 0 MAX_FDS) task_id t 0.

Definition dup (task_id old_fd : Z) (t : fd_table) : outcome (result string Z * fd_table) :=
  if MAX_FDS <=? old_fd then Ret (Err "bad file descriptor"%string, t) else
  e ← index t (fd_index task_id old_fd);
  if node_idx e =? -1 then Ret (Err "bad file descriptor"%string, t) else
  take_lowest (seqZ 0 MAX_FDS) task_id e t.

Definition dup2 (task_id old_fd new_fd : Z) (t : fd_table) : outcome (result string Z * fd_table) :=
  if (MAX_FDS <=? old_fd) || (MAX_FDS <=? new_fd) then Ret (Err "bad file descriptor"%string, t) else
  if old_fd =? new_fd then Ret (Ok new_fd, t) else
  e ← index t (fd_index task_id old_fd);
  if node_idx e =? -1 then Ret (Err "bad file descriptor"%string, t) else
  t ← assign t (fd_index task_id new_fd) e;
  Ret (Ok new_fd, t).

(** The offset argument and the result are signed. *)
Definition lseek (task_id fd off whence : Z) (g : option Vfs) (t : fd_table) : outcome (Z * fd_table) :=
  if MAX_FDS <=? fd then Ret (-1, t) else
  e ← index t (fd_index task_id fd);
  if node_idx e =? -1 then Ret (-1, t) else
  file_size ← get_file_size (u64 (node_idx e)) g;
  let seek new_offset :=
    t ← assign t (fd_index task_id fd) (mk_fd (node_idx e) new_offset);
    Ret (i64 new_offset, t) in
  if whence =? 0 then seek (u64 off)
  else if whence =? 1 then seek (u64 (offset e + off))
  else if whence =? 2 then seek (u64 (file_size + off))
  else Ret (-1, t).

(** ** The table as a map from task and descriptor *)

Record fd_wf (t : fd_table) : Prop := {
  fw_len : lenZ t = MAX_TASKS * MAX_FDS;
}.

Definition valid_task (task_id : Z) : Prop := 0 <= task_id < MAX_TASKS.
Definition valid_fd (fd : Z) : Prop := 0 <= fd < MAX_FDS.

Definition entry (t : fd_table) (task_id fd : Z) : FdEntry :=
  default fd_empty (lookupZ t (task_id * MAX_FDS + fd)).

Definition is_open (t : fd_table) (task_id fd : Z) : Prop := node_idx (entry t task_id fd) <> -1.

Lemma fd_index_valid task_id fd :
  valid_task task_id -> valid_fd fd -> fd_index task_id fd = task_id * MAX_FDS + fd.
Proof. unfold valid_task, valid_fd, MAX_TASKS, MAX_FDS. intros. apply u64_small. unfold MAX_FDS. lia. Qed.

Lemma index_entry t task_id fd :
  fd_wf t -> valid_task task_id -> valid_fd fd ->
  index t (fd_index task_id fd) = Ret (entry t task_id fd).
Proof.
  intros Hwf Ht Hf. rewrite fd_index_valid by done. unfold entry, index.
  destruct (lookupZ_lt t (task_id * MAX_FDS + fd)) as [e He]; [|by rewrite He].
  rewrite (fw_len t Hwf). unfold valid_task, valid_fd, MAX_TASKS, MAX_FDS in *. lia.
Qed.

(** The table with one entry replaced. *)
Definition set_entry (t : fd_table) (task_id fd : Z) (e : FdEntry) : fd_table :=
  insertZ (task_id * MAX_FDS + fd) e t.

Lemma assign_entry t task_id fd e :
  fd_wf t -> valid_task task_id -> valid_fd fd ->
  assign t (fd_index task_id fd) e = Ret (set_entry t task_id fd e).
Proof.
  intros Hwf Ht Hf. rewrite fd_index_valid by done. apply assign_lt.
  rewrite (fw_len t Hwf). unfold valid_task, valid_fd, MAX_TASKS, MAX_FDS in *. lia.
Qed.

Lemma set_entry_wf t task_id fd e : fd_wf t -> fd_wf (set_entry t task_id fd e).
Proof. intros [H]. split. unfold set_entry. by rewrite lenZ_insertZ. Qed.

Lemma entry_set_entry t task_id fd e task' fd' :
  fd_wf t -> valid_task task_id -> valid_fd fd -> valid_task task' -> valid_fd fd' ->
  entry (set_entry t task_id fd e) task' fd' =
    if (task_id =? task') && (fd =? fd') then e else entry t task' fd'.
Proof.
  intros Hwf Ht Hf Ht' Hf'. unfold entry, set_entry.
  rewrite lookupZ_insertZ by
    (rewrite (fw_len t Hwf); unfold valid_task, valid_fd, MAX_TASKS, MAX_FDS in *; lia).
  unfold valid_fd, MAX_FDS in *. zcases; try done; lia.
Qed.

Lemma take_lowest_spec task_id e t fd0 (k : nat) :
  fd_wf t -> valid_task task_id -> 0 <= fd0 -> fd0 + Z.of_nat k = MAX_FDS ->
  (exists fd, take_lowest (seqZ fd0 (Z.of_nat k)) task_id e t = Ret (Ok fd, set_entry t task_id fd e) /\
     fd0 <= fd < MAX_FDS /\ ~ is_open t task_id fd /\
     forall fd', fd0 <= fd' < fd -> is_open t task_id fd') \/
  (take_lowest (seqZ fd0 (Z.of_nat k)) task_id e t = Ret (Err "too many open files"%string, t) /\
     forall fd', fd0 <= fd' < MAX_FDS -> is_open t task_id fd').
Proof.
  intros Hwf Ht. revert fd0. induction k as [|k IH]; intros fd0 H0 Hk.
  { right. rewrite seqZ_nil by lia. split; [done|]. intros. lia. }
  rewrite seqZ_cons by lia. simpl. assert (Hv : valid_fd fd0) by (unfold valid_fd; lia).
  rewrite index_entry by done. simpl.
  destruct (Z.eqb_spec (node_idx (entry t task_id fd0)) (-1)) as [E|E].
  - left. exists fd0. rewrite assign_entry by done. simpl. split_and!; try done; try lia.
    unfold is_open. lia.
  - replace (Z.pred (Z.of_nat (S k))) with (Z.of_nat k) by lia.
    destruct (IH (Z.succ fd0)) as [(fd & Hr & Hfd & Hno & Hall)|(Hr & Hall)]; [lia|lia| |].
    + left. exists fd. split_and!; try done; try lia.
      intros fd' Hfd'. destruct (decide (fd' = fd0)) as [->|]; [done|]. apply Hall. lia.
    + right. split; [done|]. intros fd' Hfd'.
      destruct (decide (fd' = fd0)) as [->|]; [done|]. apply Hall. lia.
Qed.

Lemma FD_TABLE_wf : fd_wf FD_TABLE.
Proof. split. apply lenZ_replicate. done. Qed.

(** ** The per-process table of fs/fd.rs *)

Module ProcFd.

Definition MAX_FDS : Z := 64.

Inductive OpenMode : Type := Read | Write | ReadWrite | Append.
#[global] Instance OpenMode_eq_dec : EqDecision OpenMode.
Proof. solve_decision. Defined.

Record FdEntry : Type := mk_entry {
  node_idx : Z;
  offset : Z;
  mode : OpenMode;
  in_use : bool;
}.

Definition empty : FdEntry := mk_entry (-1) 0 Read false.
Definition FdTable : Type := list FdEntry.
Definition new : FdTable := replicate (Z.to_nat MAX_FDS) empty.

Fixpoint open_from (fds : list Z) (idx : Z) (m : OpenMode) (t : FdTable)
  : outcome (result string Z * FdTable) :=
  match fds with
  | [] => Ret (Err "too many open files"%string, t)
  | i :: fds' =>
      e ← index t i;
      if negb (in_use e) then
        t ← assign t i (mk_entry (i32 idx) 0 m true);
        Ret (Ok i, t)
      else open_from fds' idx m t
  end.
Definition open (idx : Z) (m : OpenMode) (t : FdTable) : outcome (result string Z * FdTable) :=
  open_from (seqZ 0 MAX_FDS) idx m t.

(** [fd < MAX_FDS && self.entries[fd].in_use]. *)
Definition is_valid (fd : Z) (t : FdTable) : outcome bool :=
  if fd <? MAX_FDS then e ← index t fd; Ret (in_use e) else Ret false.

Definition close (fd : Z) (t : FdTable) : outcome (result string unit * FdTable) :=
  ok ← is_valid fd t;
  if negb ok then Ret (Err "bad file descriptor"%string, t) else
  t ← assign t fd empty;
  Ret (Ok tt, t).

Definition get (fd : Z) (t : FdTable) : outcome (option FdEntry) :=
  ok ← is_valid fd t;
  if ok : bool then e ← index t fd; Ret (Some e) else Ret None.

(** A write through [get_mut]. *)
Definition update (fd : Z) (f : FdEntry -> FdEntry) (t : FdTable) : outcome (option FdTable) :=
  ok ← is_valid fd t;
  if ok : bool then e ← index t fd; t ← assign t fd (f e); Ret (Some t) else Ret None.

Definition open_count (t : FdTable) : Z := lenZ (filter (fun e => in_use e = true) t).

Lemma open_from_spec idx m t i0 (k : nat) :
  lenZ t = MAX_FDS -> 0 <= i0 -> i0 + Z.of_nat k = MAX_FDS ->
  (exists i e, open_from (seqZ i0 (Z.of_nat k)) idx m t =
       Ret (Ok i, insertZ i (mk_entry (i32 idx) 0 m true) t) /\
     i0 <= i < MAX_FDS /\ lookupZ t i = Some e /\ in_use e = false /\
     forall j e', i0 <= j < i -> lookupZ t j = Some e' -> in_use e' = true) \/
  (open_from (seqZ i0 (Z.of_nat k)) idx m t = Ret (Err "too many open files"%string, t) /\
     forall j e', i0 <= j -> lookupZ t j = Some e' -> in_use e' = true).
Proof.
  intros Hl. revert i0. induction k as [|k IH]; intros i0 H0 Hk.
  { right. rewrite seqZ_nil by lia. split; [done|]. intros j e' Hj ?%lookupZ_Some_lt. lia. }
  rewrite seqZ_cons by lia. simpl. destruct (lookupZ_lt t i0) as [e He]; [lia|].
  unfold index. rewrite He. simpl. destruct (in_use e) eqn:Eu; simpl.
  - replace (Z.pred (Z.of_nat (S k))) with (Z.of_nat k) by lia.
    destruct (IH (Z.succ i0)) as [(i & e1 & Hr & Hi & He1 & Hu & Hall)|(Hr & Hall)]; [lia|lia| |].
    + left. exists i, e1. split_and!; try done; try lia. intros j e' Hj Hje.
      destruct (decide (j = i0)) as [->|]; [by simplify_eq|]. apply (Hall j); [lia|done].
    + right. split; [done|]. intros j e' Hj Hje.
      destruct (decide (j = i0)) as [->|]; [by simplify_eq|]. apply (Hall j); [lia|done].
  - left. exists i0, e. rewrite assign_lt by lia. simpl. split_and!; try done; try lia.
Qed.

End ProcFd.

(** ** Properties *)

(** [open] gives a task its lowest unused descriptor, at offset 0 and
    naming the node it was given, and changes no other entry of this or any
    other task; it fails exactly when all 32 descriptors of the task are in
    use, and then changes nothing. *)
Theorem fd_open_lowest task_id idx t :
  fd_wf t -> valid_task task_id -> task_id <> 0 -> 0 <= idx < 2147483648 ->
  (exists fd t', open task_id idx t = Ret (Ok fd, t') /\ fd_wf t' /\ valid_fd fd /\
     ~ is_open t task_id fd /\ (forall fd', 0 <= fd' < fd -> is_open t task_id fd') /\
     node task_id fd t' = Ret (Ok idx) /\ fd_offset task_id fd t' = Ret 0 /\
     forall task' fd', valid_task task' -> valid_fd fd' -> (task', fd') <> (task_id, fd) ->
       entry t' task' fd' = entry t task' fd') \/
  (open task_id idx t = Ret (Err "too many open files"%string, t) /\
     forall fd, valid_fd fd -> is_open t task_id fd).
Proof.
  intros Hwf Ht H0 Hidx. unfold open. destruct (Z.eqb_spec task_id 0); [done|].
  assert (Hi : i32 idx = idx) by (unfold i32; rewrite Z.mod_small; lia). rewrite Hi.
  destruct (take_lowest_spec task_id (mk_fd idx 0) t 0 32 Hwf Ht) as
    [(fd & Hr & Hfd & Hno & Hall)|(Hr & Hall)]; [lia|done| |].
  - left. exists fd, (set_entry t task_id fd (mk_fd idx 0)).
    assert (Hv : valid_fd fd) by (unfold valid_fd; lia).
    pose proof (set_entry_wf t task_id fd (mk_fd idx 0) Hwf) as Hwf'.
    split_and!; try done.
    + unfold node. destruct (Z.leb_spec MAX_FDS fd); [lia|].
      rewrite index_entry, entry_set_entry, !Z.eqb_refl by done. simpl.
      destruct (Z.eqb_spec idx (-1)); [lia|]. by rewrite u64_small by lia.
    + unfold fd_offset. destruct (Z.leb_spec MAX_FDS fd); [lia|].
      by rewrite index_entry, entry_set_entry, !Z.eqb_refl by done.
    + intros task' fd' Ht' Hf' Hne. rewrite entry_set_entry by done.
      zcases; try done. congruence.
  - right. split; [done|]. intros fd Hfd. apply Hall. unfold valid_fd in Hfd. lia.
Qed.

Lemma fd_open_lowest_witness :
  (exists fd t', open 3 5 FD_TABLE = Ret (Ok fd, t') /\ node 3 fd t' = Ret (Ok 5)) \/
  (forall fd, valid_fd fd -> is_open FD_TABLE 3 fd).
Proof.
  destruct (fd_open_lowest 3 5 FD_TABLE FD_TABLE_wf ltac:(unfold valid_task, MAX_TASKS; lia)
    ltac:(lia) ltac:(lia)) as [(fd & t' & E & _ & _ & _ & _ & N & _)|(_ & H)].
  - left. exists fd, t'. split; [exact E|exact N].
  - right. exact H.
Defined.

(** [dup] makes the lowest unused descriptor a copy of the old one (same
    node, same offset), [dup2] overwrites the requested one with it, [close]
    empties one; each touches that single entry only, and each reports a bad
    descriptor exactly when the old descriptor is out of range or not open,
    except that [dup2] of a descriptor onto itself always succeeds. *)
Theorem fd_dup_close task_id fd t :
  fd_wf t -> valid_task task_id -> valid_fd fd ->
  (is_open t task_id fd ->
     (exists r t', dup task_id fd t = Ret (r, t') /\
        match r with
        | Ok new => t' = set_entry t task_id new (entry t task_id fd) /\ ~ is_open t task_id new /\
                    valid_fd new /\ (forall fd', 0 <= fd' < new -> is_open t task_id fd')
        | Err _ => t' = t /\ forall fd', valid_fd fd' -> is_open t task_id fd'
        end) /\
     (forall new, valid_fd new -> new <> fd ->
        dup2 task_id fd new t = Ret (Ok new, set_entry t task_id new (entry t task_id fd))) /\
     close task_id fd t = Ret (Ok tt, set_entry t task_id fd fd_empty)) /\
  (~ is_open t task_id fd ->
     dup task_id fd t = Ret (Err "bad file descriptor"%string, t) /\
     close task_id fd t = Ret (Err "bad file descriptor"%string, t) /\
     (forall new, valid_fd new -> new <> fd ->
        dup2 task_id fd new t = Ret (Err "bad file descriptor"%string, t)) /\
     dup2 task_id fd fd t = Ret (Ok fd, t)).
Proof.
  intros Hwf Ht Hf. assert (Hlt : fd < MAX_FDS) by apply Hf.
  unfold is_open, dup, dup2, close. destruct (Z.leb_spec MAX_FDS fd); [lia|].
  rewrite index_entry by done. split.
  - intros Ho. simpl. destruct (Z.eqb_spec (node_idx (entry t task_id fd)) (-1)); [done|]. split_and!.
    + destruct (take_lowest_spec task_id (entry t task_id fd) t 0 32 Hwf Ht) as
        [(new & Hr & Hn & Hno & Hall)|(Hr & Hall)]; [lia|done| |].
      * exists (Ok new), (set_entry t task_id new (entry t task_id fd)). by split_and!.
      * eexists _, t. split; [exact Hr|]. split; [done|]. intros fd' Hfd'. apply Hall.
        unfold valid_fd in Hfd'. lia.
    + intros new Hn Hne. unfold valid_fd in Hn. destruct (Z.leb_spec MAX_FDS new); [lia|]. simpl.
      destruct (Z.eqb_spec fd new); [done|].
      by rewrite assign_entry by done.
    + by rewrite assign_entry.
  - intros Hno. simpl. destruct (Z.eqb_spec (node_idx (entry t task_id fd)) (-1)) as [E|E]; [|tauto].
    split_and!; try done.
    + intros new Hn Hne. unfold valid_fd in Hn. destruct (Z.leb_spec MAX_FDS new); [lia|]. simpl.
      by destruct (Z.eqb_spec fd new).
    + by rewrite Z.eqb_refl.
Qed.

Lemma fd_dup_close_witness :
  ~ is_open FD_TABLE 1 4 /\ dup2 1 4 4 FD_TABLE = Ret (Ok 4, FD_TABLE).
Proof.
  assert (Hno : ~ is_open FD_TABLE 1 4).
  { unfold is_open, entry, FD_TABLE. rewrite lookupZ_replicate; [|unfold MAX_FDS, MAX_TASKS; lia].
    simpl. lia. }
  split; [exact Hno|].
  destruct (fd_dup_close 1 4 FD_TABLE FD_TABLE_wf ltac:(unfold valid_task, MAX_TASKS; lia)
    ltac:(unfold valid_fd, MAX_FDS; lia)) as [_ H].
  apply H. exact Hno.
Defined.

(** The per-process table also opens its lowest unused slot: the new
    entry is in use with the given node and mode at offset 0, no other slot
    changes, and the open fails exactly when all 64 slots are in use. *)
Theorem procfd_open_lowest idx m t :
  lenZ t = ProcFd.MAX_FDS ->
  (exists fd, ProcFd.open idx m t =
       Ret (Ok fd, insertZ fd (ProcFd.mk_entry (i32 idx) 0 m true) t) /\
     0 <= fd < ProcFd.MAX_FDS /\ ProcFd.is_valid fd t = Ret false /\
     (forall j, 0 <= j < fd -> ProcFd.is_valid j t = Ret true) /\
     ProcFd.get fd (insertZ fd (ProcFd.mk_entry (i32 idx) 0 m true) t) =
       Ret (Some (ProcFd.mk_entry (i32 idx) 0 m true))) \/
  (ProcFd.open idx m t = Ret (Err "too many open files"%string, t) /\
     forall j, 0 <= j < ProcFd.MAX_FDS -> ProcFd.is_valid j t = Ret true).
Proof.
  intros Hl. assert (Hval : forall j e, lookupZ t j = Some e -> ProcFd.is_valid j t = Ret (ProcFd.in_use e)).
  { intros j e He. unfold ProcFd.is_valid. apply lookupZ_Some_lt in He as Hj.
    destruct (Z.ltb_spec j ProcFd.MAX_FDS); [|lia]. unfold index. by rewrite He. }
  destruct (ProcFd.open_from_spec idx m t 0 64 Hl) as
    [(fd & e & Hr & Hfd & He & Hu & Hall)|(Hr & Hall)]; [lia|done| |].
  - left. exists fd. split; [exact Hr|]. split; [lia|]. split; [by rewrite (Hval _ _ He), Hu|].
    split.
    + intros j Hj. destruct (lookupZ_lt t j) as [ej Hej]; [lia|].
      rewrite (Hval _ _ Hej). f_equal. eapply Hall; [|exact Hej]. lia.
    + unfold ProcFd.get, ProcFd.is_valid, index. destruct (Z.ltb_spec fd ProcFd.MAX_FDS); [|lia].
      by rewrite lookupZ_insertZ_eq by lia.
  - right. split; [exact Hr|]. intros j Hj. destruct (lookupZ_lt t j) as [ej Hej]; [lia|].
    rewrite (Hval _ _ Hej). f_equal. eapply Hall; [|exact Hej]. lia.
Qed.

Lemma procfd_open_lowest_witness :
  ProcFd.open 9 ProcFd.Append ProcFd.new =
    Ret (Ok 0, insertZ 0 (ProcFd.mk_entry 9 0 ProcFd.Append true) ProcFd.new).
Proof.
  destruct (procfd_open_lowest 9 ProcFd.Append ProcFd.new eq_refl) as [(fd & E & _)|[E _]].
  - vm_compute. reflexivity.
  - discriminate E.
Defined.
