(* ===== verification/Mem.v ===== *)
(** * Physical memory

    Bytes by physical address; an address never written reads as 0.  The
    kernel reaches memory through raw pointers, as bytes and as aligned
    64-bit words in little-endian order. *)

From S2P Require Import Prelude Bytes.

Abbreviation memory := (gmap Z Z).

Definition load8 (m : memory) (a : Z) : Z := u8 (default 0 (m !! a)).
Definition store8 (m : memory) (a v : Z) : memory := <[a := u8 v]> m.

(** [n] bytes from [a], least significant first. *)
Fixpoint load_le (n : nat) (m : memory) (a : Z) : Z :=
  match n with
  | O => 0
  | S n' => load8 m a + 256 * load_le n' m (a + 1)
  end.
Fixpoint store_le (n : nat) (m : memory) (a v : Z) : memory :=
  match n with
  | O => m
  | S n' => store_le n' (store8 m a v) (a + 1) (v / 256)
  end.

Definition read_u64 (m : memory) (a : Z) : Z := load_le 8 m a.
Definition write_u64 (m : memory) (a v : Z) : memory := store_le 8 m a v.

Definition load_bytes (m : memory) (a : Z) (len : Z) : list Z := load8 m <$> seqZ a len.
Fixpoint store_bytes (m : memory) (a : Z) (bs : list Z) : memory :=
  match bs with
  | [] => m
  | b :: bs' => store_bytes (store8 m a b) (a + 1) bs'
  end.
(** [ptr::write_bytes(a, v, len)]. *)
Definition fill (m : memory) (a v len : Z) : memory :=
  store_bytes m a (replicate (Z.to_nat len) v).

Lemma load8_range m a : 0 <= load8 m a < 256.
Proof. apply u8_range. Qed.

Lemma u8_idem v : u8 (u8 v) = u8 v.
Proof. unfold u8. apply Zmod_mod. Qed.

Lemma load8_store8 m a v x :
  load8 (store8 m a v) x = if a =? x then u8 v else load8 m x.
Proof.
  unfold load8, store8. zcase.
  - subst. rewrite lookup_insert_eq. apply u8_idem.
  - by rewrite lookup_insert_ne.
Qed.

Lemma load8_store_le_out n m a v x :
  x < a \/ a + Z.of_nat n <= x -> load8 (store_le n m a v) x = load8 m x.
Proof.
  revert m a v. induction n as [|n IH]; intros m a v Hx; simpl; [done|].
  rewrite IH by lia. rewrite load8_store8. zcase; [lia|done].
Qed.

Lemma load_le_ext n m m' a :
  (forall x, a <= x < a + Z.of_nat n -> load8 m x = load8 m' x) -> load_le n m a = load_le n m' a.
Proof.
  revert a. induction n as [|n IH]; intros a H; simpl; [done|].
  rewrite (H a) by lia. rewrite (IH (a + 1)); [done|]. intros x Hx. apply H. lia.
Qed.

Lemma load_store_le_eq n m a v :
  0 <= v < 256 ^ Z.of_nat n -> load_le n (store_le n m a v) a = v.
Proof.
  revert m a v. induction n as [|n IH]; intros m a v Hv; simpl.
  { simpl in Hv. lia. }
  rewrite Nat2Z.inj_succ, Z.pow_succ_r in Hv by lia.
  rewrite load8_store_le_out, load8_store8, Z.eqb_refl by lia.
  rewrite IH by (split; [apply Z.div_pos; lia|apply Z.div_lt_upper_bound; lia]).
  unfold u8. pose proof (Z.div_mod v 256). lia.
Qed.

Lemma load_store_le_ne n k m a b v :
  b + Z.of_nat k <= a \/ a + Z.of_nat n <= b -> load_le k (store_le n m a v) b = load_le k m b.
Proof. intros H. apply load_le_ext. intros x Hx. apply load8_store_le_out. lia. Qed.

Lemma load_le_range n m a : 0 <= load_le n m a < 256 ^ Z.of_nat n.
Proof.
  revert a. induction n as [|n IH]; intros a; simpl; [lia|].
  rewrite Nat2Z.inj_succ, Z.pow_succ_r by lia.
  pose proof (load8_range m a). specialize (IH (a + 1)). lia.
Qed.

Lemma load_le_add n k m a : load_le (n + k) m a = load_le n m a + 256 ^ Z.of_nat n * load_le k m (a + Z.of_nat n).
Proof.
  revert a. induction n as [|n IH]; intros a; cbn [load_le Nat.add].
  { change (256 ^ Z.of_nat 0) with 1. rewrite Z.add_0_r. lia. }
  rewrite IH, Nat2Z.inj_succ, Z.pow_succ_r by lia. replace (a + 1 + Z.of_nat n) with (a + Z.succ (Z.of_nat n)) by lia. lia.
Qed.

Lemma load_le_zero n m a : (forall x, a <= x < a + Z.of_nat n -> load8 m x = 0) -> load_le n m a = 0.
Proof.
  revert a. induction n as [|n IH]; intros a Hz; [done|]. cbn [load_le].
  rewrite Hz, IH by (lia || (intros; apply Hz; lia)). done.
Qed.

Lemma read_u64_range m a : 0 <= read_u64 m a < two64.
Proof. apply (load_le_range 8). Qed.

Lemma read_write_u64_eq m a v : 0 <= v < two64 -> read_u64 (write_u64 m a v) a = v.
Proof. intros. by apply load_store_le_eq. Qed.

Lemma read_write_u64_ne m a b v : b + 8 <= a \/ a + 8 <= b -> read_u64 (write_u64 m a v) b = read_u64 m b.
Proof. intros. apply load_store_le_ne. lia. Qed.

Lemma load8_write_u64_out m a v x : x < a \/ a + 8 <= x -> load8 (write_u64 m a v) x = load8 m x.
Proof. intros. apply load8_store_le_out. lia. Qed.

Lemma read_u64_ext m m' a :
  (forall x, a <= x < a + 8 -> load8 m x = load8 m' x) -> read_u64 m a = read_u64 m' a.
Proof. intros. apply load_le_ext. intros. apply H. lia. Qed.

Lemma load8_store_bytes m a bs x :
  load8 (store_bytes m a bs) x =
    if (a <=? x) && (x <? a + lenZ bs) then u8 (default 0 (lookupZ bs (x - a))) else load8 m x.
Proof.
  revert m a. induction bs as [|b bs IH]; intros m a; simpl.
  { rewrite lenZ_nil. zcases; try done; lia. }
  rewrite IH, load8_store8, lenZ_cons. pose proof (lenZ_nonneg bs).
  assert (Hs : a + 1 <= x -> lookupZ (b :: bs) (x - a) = lookupZ bs (x - (a + 1))).
  { intros Hx. unfold lookupZ. zcases; try lia.
    by replace (Z.to_nat (x - a)) with (S (Z.to_nat (x - (a + 1)))) by lia. }
  destruct (Z.eqb_spec a x) as [->|Hne].
  - rewrite Z.sub_diag. zcases; done || lia.
  - zcases; try lia; try done. by rewrite Hs by lia.
Qed.

Lemma load8_fill m a v len x :
  0 <= len -> load8 (fill m a v len) x = if (a <=? x) && (x <? a + len) then u8 v else load8 m x.
Proof.
  intros Hl. unfold fill. rewrite load8_store_bytes, lenZ_replicate by done.
  destruct (Z.leb_spec a x); [|done]. destruct (Z.ltb_spec x (a + len)); [|done]. simpl.
  by rewrite lookupZ_replicate by lia.
Qed.

Lemma read_u64_fill_0 m a len b :
  0 <= len -> a <= b -> b + 8 <= a + len -> read_u64 (fill m a 0 len) b = 0.
Proof.
  intros Hl H1 H2. unfold read_u64.
  assert (forall n b, a <= b -> b + Z.of_nat n <= a + len -> load_le n (fill m a 0 len) b = 0) as H.
  { clear b H1 H2. induction n as [|n IH]; intros b H1 H2; simpl; [done|].
    rewrite load8_fill by done. zcases; try lia. rewrite IH by lia. done. }
  apply H; lia.
Qed.

Lemma read_u64_fill_out m a v len b :
  0 <= len -> b + 8 <= a \/ a + len <= b -> read_u64 (fill m a v len) b = read_u64 m b.
Proof.
  intros Hl Hb. apply read_u64_ext. intros x Hx. rewrite load8_fill by done. zcases; try done; lia.
Qed.

(** ** Bytes that were stored *)

Lemma from_le_load n m a : from_le (load_bytes m a (Z.of_nat n)) = load_le n m a.
Proof.
  revert a. induction n as [|n IH]; intros a; [done|]. unfold load_bytes in *. rewrite (seqZ_cons a (Z.of_nat (S n))) by lia.
  replace (Z.pred (Z.of_nat (S n))) with (Z.of_nat n) by lia. cbn [fmap list_fmap from_le load_le]. by rewrite IH.
Qed.

Lemma load_bytes_stored m a bs off n :
  Forall byte bs -> 0 <= off -> 0 <= n -> off + n <= lenZ bs ->
  load_bytes (store_bytes m a bs) (a + off) n = take (Z.to_nat n) (drop (Z.to_nat off) bs).
Proof.
  intros Hb Ho Hn Hl. unfold load_bytes. apply list_eq. intros i. rewrite list_lookup_fmap. destruct (decide (i < Z.to_nat n)%nat) as [Hi|Hi].
  - rewrite lookup_seqZ_lt, lookup_take_lt, lookup_drop by lia. cbn [fmap option_fmap option_map].
    destruct (lookup_lt_is_Some_2 bs (Z.to_nat off + i)%nat) as [b Hbi]; [unfold lenZ in *; lia|]. rewrite Hbi. f_equal.
    rewrite load8_store_bytes. destruct (Z.leb_spec a (a + off + Z.of_nat i)), (Z.ltb_spec (a + off + Z.of_nat i) (a + lenZ bs)); try lia.
    cbn [andb]. replace (a + off + Z.of_nat i - a) with (off + Z.of_nat i) by lia. unfold lookupZ. destruct (Z.ltb_spec (off + Z.of_nat i) 0); [lia|].
    replace (Z.to_nat (off + Z.of_nat i)) with (Z.to_nat off + i)%nat by lia. rewrite Hbi. cbn [from_option id].
    rewrite Forall_lookup in Hb. specialize (Hb _ _ Hbi). unfold u8. by rewrite Z.mod_small.
  - rewrite lookup_seqZ_ge, lookup_take_ge by lia. done.
Qed.
Lemma load_le_stored n m a bs off :
  Forall byte bs -> 0 <= off -> off + Z.of_nat n <= lenZ bs -> load_le n (store_bytes m a bs) (a + off) = field bs off (Z.of_nat n).
Proof. intros Hb Ho Hl. unfold field. by rewrite <- from_le_load, load_bytes_stored by (done || lia). Qed.
