(* ===== verification/Mmio.v ===== *)
(** * Device registers in memory

    The drivers of the AHCI controller and of the local APIC read and write
    32-bit registers at fixed addresses.  What a device does is not in the
    source: the class [Device] has the two operations and no law but the width
    of a register, so what is proved against it holds for every device, also
    one that writes to memory on its own.  The accesses of the driver are
    recorded in order. *)

From S2P Require Import Prelude Mem.

Class Device (V : Type) : Type := {
  dev_read : Z -> V * memory -> Z * (V * memory);
  dev_write : Z -> Z -> V * memory -> V * memory;
  dev_read_range : forall a x, 0 <= (dev_read a x).1 < two32;
}.

Inductive access : Type := RegRead (a v : Z) | RegWrite (a v : Z) | MemWrite (a : Z) (bs : list Z).

Section bus.
Context {V : Type} `{Device V}.

Record bus : Type := mk_bus { b_dev : V; b_mem : memory; b_trace : list access }.

Definition reg_read (a : Z) (b : bus) : Z * bus :=
  let '(v, (d, m)) := dev_read a (b_dev b, b_mem b) in (v, mk_bus d m (b_trace b ++ [RegRead a v])).
Definition reg_write (a v : Z) (b : bus) : bus :=
  let '(d, m) := dev_write a v (b_dev b, b_mem b) in mk_bus d m (b_trace b ++ [RegWrite a v]).
Definition mem_write (a : Z) (bs : list Z) (b : bus) : bus :=
  mk_bus (b_dev b) (store_bytes (b_mem b) a bs) (b_trace b ++ [MemWrite a bs]).

(** A register is read until [busy] is false of it, [n] times at most; whether
    that happened. *)
Fixpoint poll (n : nat) (a : Z) (busy : Z -> bool) (b : bus) : bool * bus :=
  match n with
  | O => (false, b)
  | S n' => let '(v, b) := reg_read a b in if busy v then poll n' a busy b else (true, b)
  end.

(** The reads of a poll: busy values, and then, unless it gave up after [n]
    of them, one that is not. *)
Definition polled (n : nat) (a : Z) (busy : Z -> bool) (done : bool) (tr : list access) : Prop :=
  exists vs, Forall (fun v => busy v = true) vs /\
    if done then exists v, tr = (RegRead a <$> vs) ++ [RegRead a v] /\ busy v = false /\ (length vs < n)%nat
    else tr = RegRead a <$> vs /\ length vs = n.

Lemma polled_length n a busy d tr : polled n a busy d tr -> (length tr <= n)%nat.
Proof.
  intros (vs & _ & Hd). destruct d.
  - destruct Hd as (v & -> & _ & Hl). rewrite length_app, length_fmap. simpl. lia.
  - destruct Hd as [-> Hl]. rewrite length_fmap. lia.
Qed.

Lemma reg_read_trace a b : b_trace (reg_read a b).2 = b_trace b ++ [RegRead a (reg_read a b).1].
Proof. unfold reg_read. by destruct (dev_read a _) as [v [d m]]. Qed.
Lemma reg_read_range a b : 0 <= (reg_read a b).1 < two32.
Proof. unfold reg_read. pose proof (dev_read_range a (b_dev b, b_mem b)). by destruct (dev_read a _) as [v [d m]]. Qed.
Lemma reg_write_trace a v b : b_trace (reg_write a v b) = b_trace b ++ [RegWrite a v].
Proof. unfold reg_write. by destruct (dev_write a v _). Qed.

Lemma poll_trace n a busy b :
  exists tr, b_trace (poll n a busy b).2 = b_trace b ++ tr /\ polled n a busy (poll n a busy b).1 tr.
Proof.
  revert b. induction n as [|n IH]; intros b; cbn [poll].
  { exists []. split; [by rewrite app_nil_r|]. by exists []. }
  destruct (reg_read a b) as [v b1] eqn:E. pose proof (reg_read_trace a b) as Ht. rewrite E in Ht. cbn [fst snd] in Ht.
  destruct (busy v) eqn:Ev.
  - destruct (IH b1) as (tr & Htr & vs & Hvs & Hd). exists (RegRead a v :: tr). split; [by rewrite Htr, Ht, <- app_assoc|].
    exists (v :: vs). split; [by constructor|]. destruct (poll n a busy b1).1.
    + destruct Hd as (v' & -> & Hv' & Hl). exists v'. split; [done|]. split; [done|]. simpl. lia.
    + destruct Hd as [-> Hl]. split; [done|]. simpl. lia.
  - exists [RegRead a v]. split; [done|]. exists []. split; [constructor|]. exists v. split; [done|]. split; [done|]. simpl. lia.
Qed.

(** [b'] is reached from [b] with at most [n] accesses. *)
Definition within (n : Z) (b b' : bus) : Prop := exists tr, b_trace b' = b_trace b ++ tr /\ lenZ tr <= n.

Lemma within_refl n b : 0 <= n -> within n b b.
Proof. intros Hn. exists []. split; [by rewrite app_nil_r|done]. Qed.
Lemma within_trans n k b b1 b2 : within n b b1 -> within k b1 b2 -> within (n + k) b b2.
Proof.
  intros (t1 & E1 & L1) (t2 & E2 & L2). exists (t1 ++ t2). split; [by rewrite E2, E1, app_assoc|].
  rewrite lenZ_app. lia.
Qed.
Lemma within_mono n k b b' : within n b b' -> n <= k -> within k b b'.
Proof. intros (tr & E & L) Hn. exists tr. split; [done|lia]. Qed.
Lemma within_read a b v b' : reg_read a b = (v, b') -> within 1 b b'.
Proof. intros E. pose proof (reg_read_trace a b) as Ht. rewrite E in Ht. by exists [RegRead a v]. Qed.
Lemma within_write a v b : within 1 b (reg_write a v b).
Proof. exists [RegWrite a v]. split; [apply reg_write_trace|done]. Qed.
Lemma within_store a bs b : within 1 b (mem_write a bs b).
Proof. by exists [MemWrite a bs]. Qed.
Lemma within_poll n a busy b d b' : poll n a busy b = (d, b') -> within (Z.of_nat n) b b'.
Proof.
  intros E. destruct (poll_trace n a busy b) as (tr & Ht & Hp). rewrite E in Ht, Hp. exists tr. split; [done|].
  apply polled_length in Hp. unfold lenZ. lia.
Qed.
Lemma within_elem n b b' x : within n b b' -> x ∈ b_trace b -> x ∈ b_trace b'.
Proof. intros (tr & E & _) Hx. rewrite E, elem_of_app. by left. Qed.
End bus.
Arguments bus V : clear implicits.

(** Adds up the accesses of a straight piece of a driver. *)
Ltac within_step :=
  match goal with
  | |- within _ ?b ?b => apply (within_refl 0); lia
  | |- within _ _ (reg_write _ _ _) => eapply within_trans; [|apply within_write]
  | |- within _ _ (mem_write _ _ _) => eapply within_trans; [|apply within_store]
  | E : reg_read _ _ = (_, ?b) |- within _ _ ?b => eapply within_trans; [|exact (within_read _ _ _ _ E)]
  | E : poll _ _ _ _ = (_, ?b) |- within _ _ ?b => eapply within_trans; [|exact (within_poll _ _ _ _ _ _ E)]
  | E : within _ _ ?b |- within _ _ ?b => eapply within_trans; [|exact E]
  end.
Ltac solve_within := eapply within_mono; [repeat within_step|rewrite ?Z2Nat.id by lia; lia].
