(* ===== verification/Paging.v ===== *)
(** * Page tables (src/src/arch/x86_64/paging.rs, src/src/paging.rs)

    The state is physical memory, the frame allocator, reached through its
    interface [FrameAllocator], and the static [KERNEL_PML4_PA].  Physical
    memory is identity-mapped, so a table is accessed at its physical
    address.  The TLB flush and the load of CR3 have no effect here; the
    out-of-memory loop of [alloc_table_or_halt] is [Halt]. *)

From S2P Require Import Prelude Mem Frame.

Definition P_PRESENT : Z := 1.
Definition P_WRITE : Z := 2.
Definition P_USER : Z := 4.
Definition P_PCD : Z := 16.
Definition P_SIZE : Z := 128.
Definition P_NX : Z := two63.

Definition ADDR_MASK : Z := 0x000FFFFFFFFFF000.
Definition ADDR_MASK_2M : Z := 0x000FFFFFFFE00000.

Definition table_entry (pa : Z) : Z := Z.lor (Z.lor pa P_PRESENT) P_WRITE.
Definition table_entry_user (pa : Z) : Z := Z.lor (Z.lor (Z.lor pa P_PRESENT) P_WRITE) P_USER.
Definition page_2mb (pa : Z) : Z := Z.lor (Z.lor (Z.lor pa P_PRESENT) P_WRITE) P_SIZE.
Definition page_4k (pa : Z) (writable user executable : bool) : Z :=
  let f := P_PRESENT in
  let f := if writable then Z.lor f P_WRITE else f in
  let f := if user then Z.lor f P_USER else f in
  let f := if executable then f else Z.lor f P_NX in
  Z.lor pa f.
Definition page_4k_uc (pa : Z) : Z := Z.lor (Z.lor (Z.lor pa P_PRESENT) P_WRITE) P_PCD.

(** [(e & flag) != 0]. *)
Definition has (flag e : Z) : bool := negb (Z.land e flag =? 0).

(** [(virt >> shift) & 0x1FF]. *)
Definition table_index (shift virt : Z) : Z := Z.land (Z.shiftr virt shift) 0x1FF.

Definition entry (m : memory) (table i : Z) : Z := read_u64 m (table + 8 * i).
Definition put_entry (m : memory) (table i v : Z) : memory := write_u64 m (table + 8 * i) v.

Definition USER_BASE_VA : Z := 0x400000.

Fixpoint put_entries (is_ : list Z) (f : Z -> Z) (table : Z) (m : memory) : memory :=
  match is_ with
  | [] => m
  | i :: is' => put_entries is' f table (put_entry m table i (f i))
  end.
Definition zero_table (table : Z) (m : memory) : memory := put_entries (seqZ 0 512) (fun _ => 0) table m.

Fixpoint copy_entries (ks : list Z) (from to : Z) (m : memory) : memory :=
  match ks with
  | [] => m
  | k :: ks' => copy_entries ks' from to (put_entry m to k (entry m from k))
  end.

(** An ELF segment as the loader passes it: virtual address, data pointer,
    size in the file, size in memory, flags. *)
Abbreviation segment := (Z * Z * Z * Z * Z)%type.

Section paging.
Context {A : Type} `{FrameAllocator A}.

Record machine : Type := mk_machine {
  pmem : memory;
  frames : A;
  KERNEL_PML4_PA : Z;
}.

Definition with_mem (m : memory) (s : machine) : machine := mk_machine m (frames s) (KERNEL_PML4_PA s).
Definition set_entry (table i v : Z) (s : machine) : machine := with_mem (put_entry (pmem s) table i v) s.

(** The physical address of a fresh frame. *)
Definition alloc_table_or_halt (s : machine) : outcome (Z * machine) :=
  r ← fa_alloc (frames s);
  match r with
  | (Some f, fa) => Ret (start_address f, mk_machine (pmem s) fa (KERNEL_PML4_PA s))
  | (None, _) => Halt
  end.

(** The next table below entry [i] of [table], created when it is absent. *)
Definition next_table (table i : Z) (s : machine) : outcome (Z * machine) :=
  let e := entry (pmem s) table i in
  if has P_PRESENT e then Ret (Z.land e ADDR_MASK, s)
  else
    x ← alloc_table_or_halt s;
    let '(pa, s) := x in
    let s := with_mem (zero_table pa (pmem s)) s in
    Ret (pa, set_entry table i (table_entry pa) s).

(** The page table below entry [i] of the page directory [pd]; a 2 MiB page
    is split into 512 pages. *)
Definition next_pt (pd i : Z) (s : machine) : outcome (Z * machine) :=
  let e := entry (pmem s) pd i in
  if has P_PRESENT e then
    if has P_SIZE e then
      let old_2mb_base := Z.land e ADDR_MASK_2M in
      x ← alloc_table_or_halt s;
      let '(new_pt_pa, s) := x in
      let m := zero_table new_pt_pa (pmem s) in
      let m := put_entries (seqZ 0 512)
                 (fun i => page_4k (u64 (old_2mb_base + i * 0x1000)) true false true) new_pt_pa m in
      Ret (new_pt_pa, set_entry pd i (table_entry new_pt_pa) (with_mem m s))
    else Ret (Z.land e ADDR_MASK, s)
  else next_table pd i s.

(** [map_page] and [map_page_uc] differ in the entry they write last. *)
Definition map_with (leaf : Z -> Z) (virt : Z) (s : machine) : outcome machine :=
  x ← next_table (KERNEL_PML4_PA s) (table_index 39 virt) s;
  let '(pdpt_pa, s) := x in
  x ← next_table pdpt_pa (table_index 30 virt) s;
  let '(pd_pa, s) := x in
  x ← next_pt pd_pa (table_index 21 virt) s;
  let '(pt_pa, s) := x in
  Ret (set_entry pt_pa (table_index 12 virt) (leaf virt) s).
Definition map_page : Z -> machine -> outcome machine :=
  map_with (fun phys => page_4k phys true false true).
Definition map_page_uc : Z -> machine -> outcome machine := map_with page_4k_uc.

(** The loop of [init] over the page directories. *)
Fixpoint init_pds (idxs : list Z) (pdpt_pa : Z) (s : machine) : outcome machine :=
  match idxs with
  | [] => Ret s
  | j :: idxs' =>
      x ← alloc_table_or_halt s;
      let '(pd_pa, s) := x in
      let s := set_entry pdpt_pa j (table_entry pd_pa) s in
      let m := zero_table pd_pa (pmem s) in
      let m := put_entries (seqZ 0 512)
                 (fun i => page_2mb (j * 0x40000000 + i * 0x200000)) pd_pa m in
      init_pds idxs' pdpt_pa (with_mem m s)
  end.
Definition paging_init (s : machine) : outcome machine :=
  x ← alloc_table_or_halt s;
  let '(pml4_pa, s) := x in
  x ← alloc_table_or_halt s;
  let '(pdpt_pa, s) := x in
  let s := with_mem (zero_table pml4_pa (pmem s)) s in
  let s := set_entry pml4_pa 0 (table_entry pdpt_pa) s in
  let s := with_mem (zero_table pdpt_pa (pmem s)) s in
  s ← init_pds (seqZ 0 2) pdpt_pa s;
  Ret (mk_machine (pmem s) (frames s) pml4_pa).

Definition map_user_page (pml4_pa virt : Z) (s : machine) : outcome (Z * machine) :=
  let pdpt_pa := Z.land (entry (pmem s) pml4_pa (table_index 39 virt)) ADDR_MASK in
  let pd_pa := Z.land (entry (pmem s) pdpt_pa (table_index 30 virt)) ADDR_MASK in
  let pd_idx := table_index 21 virt in
  let pd_entry := entry (pmem s) pd_pa pd_idx in
  if has P_SIZE pd_entry then
    let base := Z.land pd_entry ADDR_MASK_2M in
    x ← alloc_table_or_halt s;
    let '(pt_pa, s) := x in
    let m := zero_table pt_pa (pmem s) in
    let m := put_entries (seqZ 0 512)
               (fun i => page_4k (u64 (base + i * 0x1000)) true false true) pt_pa m in
    Ret (pt_pa, set_entry pd_pa pd_idx (table_entry_user pt_pa) (with_mem m s))
  else Ret (Z.land pd_entry ADDR_MASK, s).

(** Step 1 of [create_user_page_tables]: the copy of the kernel's page
    directories, over the PDPT indices still to visit. *)
Fixpoint clone_pds (idxs : list Z) (kernel_pdpt new_pdpt_pa : Z) (s : machine) : outcome machine :=
  match idxs with
  | [] => Ret s
  | j :: idxs' =>
      let e := entry (pmem s) kernel_pdpt j in
      if negb (has P_PRESENT e) then clone_pds idxs' kernel_pdpt new_pdpt_pa s
      else if has P_SIZE e then
        clone_pds idxs' kernel_pdpt new_pdpt_pa (set_entry new_pdpt_pa j e s)
      else
        let kernel_pd := Z.land e ADDR_MASK in
        x ← alloc_table_or_halt s;
        let '(new_pd_pa, s) := x in
        let m := zero_table new_pd_pa (pmem s) in
        let m := copy_entries (seqZ 0 512) kernel_pd new_pd_pa m in
        clone_pds idxs' kernel_pdpt new_pdpt_pa
          (set_entry new_pdpt_pa j (table_entry_user new_pd_pa) (with_mem m s))
  end.

(** The loop over the pages of one segment; a page takes a frame, so it runs
    at most as often as there are frames, which is the fuel. *)
Fixpoint map_segment_pages (fuel : nat) (pml4_pa addr end_ flags : Z)
    (acc : list (Z * Z * Z)) (s : machine) : outcome (list (Z * Z * Z) * machine) :=
  match fuel with
  | O => Hang
  | S fuel' =>
      if addr <? end_ then
        x ← alloc_table_or_halt s;
        let '(fresh_pa, s) := x in
        let s := with_mem (fill (pmem s) fresh_pa 0 4096) s in
        x ← map_user_page pml4_pa addr s;
        let '(pt_pa, s) := x in
        let writable := has 2 flags in
        let executable := has 1 flags in
        let s := set_entry pt_pa (table_index 12 addr) (page_4k fresh_pa writable true executable) s in
        map_segment_pages fuel' pml4_pa (u64 (addr + 0x1000)) end_ flags (acc ++ [(addr, 4096, fresh_pa)]) s
      else Ret (acc, s)
  end.

Fixpoint map_segments (segs : list segment) (pml4_pa : Z) (acc : list (Z * Z * Z)) (s : machine)
  : outcome (list (Z * Z * Z) * machine) :=
  match segs with
  | [] => Ret (acc, s)
  | (vaddr, _, _, memsz, flags) :: segs' =>
      if memsz =? 0 then map_segments segs' pml4_pa acc s
      else
        let addr := Z.land vaddr (not64 0xFFF) in
        let end_ := u64 (vaddr + memsz) in
        x ← map_segment_pages (Z.to_nat (MAX_FRAME_COUNT + 1)) pml4_pa addr end_ flags acc s;
        let '(acc, s) := x in
        map_segments segs' pml4_pa acc s
  end.

Definition STACK_VADDR : Z := USER_BASE_VA + 0x100000.

(** The user stack page. *)
Definition map_stack (pml4_pa : Z) (acc : list (Z * Z * Z)) (s : machine)
  : outcome (list (Z * Z * Z) * machine) :=
  x ← alloc_table_or_halt s;
  let '(fresh_pa, s) := x in
  let s := with_mem (fill (pmem s) fresh_pa 0 4096) s in
  x ← map_user_page pml4_pa STACK_VADDR s;
  let '(pt_pa, s) := x in
  let s := set_entry pt_pa (table_index 12 STACK_VADDR) (page_4k fresh_pa true true false) s in
  Ret (acc ++ [(STACK_VADDR, 4096, fresh_pa)], s).

Definition clone_kernel (s : machine) : outcome (Z * machine) :=
  x ← alloc_table_or_halt s;
  let '(new_pml4_pa, s) := x in
  let s := with_mem (zero_table new_pml4_pa (pmem s)) s in
  let kernel_pdpt_pa := Z.land (entry (pmem s) (KERNEL_PML4_PA s) 0) ADDR_MASK in
  x ← alloc_table_or_halt s;
  let '(new_pdpt_pa, s) := x in
  let s := with_mem (zero_table new_pdpt_pa (pmem s)) s in
  s ← clone_pds (seqZ 0 512) kernel_pdpt_pa new_pdpt_pa s;
  Ret (new_pml4_pa, set_entry new_pml4_pa 0 (table_entry_user new_pdpt_pa) s).

(** The root of the new tables and the user frames as (virtual address,
    size, physical address). *)
Definition create_user_page_tables (segs : list segment) (s : machine)
  : outcome (Z * list (Z * Z * Z) * machine) :=
  x ← clone_kernel s;
  let '(new_pml4_pa, s) := x in
  x ← map_segments segs new_pml4_pa [] s;
  let '(user_phys_frames, s) := x in
  x ← map_stack new_pml4_pa user_phys_frames s;
  let '(user_phys_frames, s) := x in
  Ret (new_pml4_pa, user_phys_frames, s).

Definition dealloc_pa (pa : Z) (s : machine) : outcome machine :=
  fa ← fa_dealloc (from_addr pa) (frames s);
  Ret (mk_machine (pmem s) fa (KERNEL_PML4_PA s)).

(** The three nested loops of [free_user_page_tables]. *)
Fixpoint free_pts (idxs : list Z) (pd : Z) (s : machine) : outcome machine :=
  match idxs with
  | [] => Ret s
  | i :: idxs' =>
      let e := entry (pmem s) pd i in
      if negb (has P_PRESENT e) || has P_SIZE e then free_pts idxs' pd s
      else s ← dealloc_pa (Z.land e ADDR_MASK) s; free_pts idxs' pd s
  end.
Fixpoint free_pds (idxs : list Z) (pdpt : Z) (s : machine) : outcome machine :=
  match idxs with
  | [] => Ret s
  | j :: idxs' =>
      let e := entry (pmem s) pdpt j in
      if negb (has P_PRESENT e) || has P_SIZE e then free_pds idxs' pdpt s
      else
        let pd_pa := Z.land e ADDR_MASK in
        s ← free_pts (seqZ 0 512) pd_pa s;
        s ← dealloc_pa pd_pa s;
        free_pds idxs' pdpt s
  end.
Fixpoint free_pdpts (idxs : list Z) (pml4 : Z) (s : machine) : outcome machine :=
  match idxs with
  | [] => Ret s
  | i :: idxs' =>
      let user_entry := entry (pmem s) pml4 i in
      if negb (has P_PRESENT user_entry) then free_pdpts idxs' pml4 s
      else if user_entry =? entry (pmem s) (KERNEL_PML4_PA s) i then free_pdpts idxs' pml4 s
      else
        let pdpt_pa := Z.land user_entry ADDR_MASK in
        s ← free_pds (seqZ 0 512) pdpt_pa s;
        s ← dealloc_pa pdpt_pa s;
        free_pdpts idxs' pml4 s
  end.
Definition free_user_page_tables (pml4_pa : Z) (s : machine) : outcome machine :=
  s ← free_pdpts (seqZ 0 512) pml4_pa s;
  dealloc_pa pml4_pa s.
End paging.

(** The software walk the kernel uses to validate user pointers. *)
Definition is_user_mapped (m : memory) (pml4_pa virt : Z) : bool :=
  let e1 := entry m pml4_pa (table_index 39 virt) in
  if negb (has P_PRESENT e1) then false else
  let e2 := entry m (Z.land e1 ADDR_MASK) (table_index 30 virt) in
  if negb (has P_PRESENT e2) then false else
  let e3 := entry m (Z.land e2 ADDR_MASK) (table_index 21 virt) in
  if negb (has P_PRESENT e3) then false else
  if has P_SIZE e3 then has P_USER e3 else
  let e4 := entry m (Z.land e3 ADDR_MASK) (table_index 12 virt) in
  if negb (has P_PRESENT e4) then false else has P_USER e4.
