(* ===== verification/AddressSpace.v ===== *)
(** * Address spaces: what the page tables of a task map

    The functions of the file [Paging] against a model of the processor's
    4-level walk.  A task's tables are described by a [view]: which frame
    holds which table, and which virtual pages map to which frames.  Each
    operation is shown to maintain the view, and the view determines what the
    processor and [is_user_mapped] see. *)

From S2P Require Import Prelude Mem Frame Paging.

(** ** The processor's walk *)

Record translation : Type := mk_translation {
  t_pa : Z;
  t_user : bool;
  t_write : bool;
  t_exec : bool;
}.

(** Long-mode translation of a canonical lower-half address with the
    no-execute bit enabled: every level must be present; the rights are the
    conjunction over the levels. *)
Definition mmu_walk (m : memory) (cr3 va : Z) : option translation :=
  let e1 := entry m cr3 (table_index 39 va) in
  let e2 := entry m (Z.land e1 ADDR_MASK) (table_index 30 va) in
  let e3 := entry m (Z.land e2 ADDR_MASK) (table_index 21 va) in
  let e4 := entry m (Z.land e3 ADDR_MASK) (table_index 12 va) in
  let rights es pa :=
    Some (mk_translation pa (forallb (has P_USER) es) (forallb (has P_WRITE) es)
            (forallb (fun e => negb (has P_NX e)) es)) in
  if negb (has P_PRESENT e1) then None else
  if negb (has P_PRESENT e2) then None else
  if has P_SIZE e2 then rights [e1; e2] (Z.land e2 0x000FFFFFC0000000 + va mod 0x40000000) else
  if negb (has P_PRESENT e3) then None else
  if has P_SIZE e3 then rights [e1; e2; e3] (Z.land e3 ADDR_MASK_2M + va mod 0x200000) else
  if negb (has P_PRESENT e4) then None else
  rights [e1; e2; e3; e4] (Z.land e4 ADDR_MASK + va mod 0x1000).

(** ** Entries *)

(** The address of frame [f]. *)
Definition pg (f : Z) : Z := f * 4096.
Definition frame_ok (f : Z) : Prop := 0 <= f < MAX_FRAME_COUNT.

Lemma frame_ok_lt f : frame_ok f -> 0 <= f < 2097152.
Proof. done. Qed.

Lemma start_address_pg f : frame_ok f -> start_address f = pg f.
Proof. intros Hf%frame_ok_lt. unfold start_address, RAM_BASE, FRAME_SIZE, pg. apply u64_small. lia. Qed.
Lemma from_addr_pg f : frame_ok f -> from_addr (pg f) = f.
Proof.
  intros Hf%frame_ok_lt. unfold from_addr, RAM_BASE, FRAME_SIZE, pg.
  rewrite Z.sub_0_r, u64_small by lia. apply Z.div_mul. lia.
Qed.

Lemma addr_mask_bits j : 0 <= j -> Z.testbit ADDR_MASK j = (12 <=? j) && (j <? 52).
Proof.
  intros Hj. change ADDR_MASK with (Z.shiftl (Z.ones 40) 12). rewrite Z.shiftl_spec by done.
  destruct (Z.leb_spec 12 j); [|by rewrite Z.testbit_neg_r by lia].
  rewrite Z.testbit_ones_nonneg by lia. simpl. zcases; done || lia.
Qed.

(** Bits of an address aligned to 2^k below 2^52. *)
Lemma aligned_bits k q j : 0 <= k -> 0 <= j < k -> Z.testbit (q * 2 ^ k) j = false.
Proof. intros. apply Z.mul_pow2_bits_low. lia. Qed.
Lemma below_bits x n j : 0 <= x < 2 ^ n -> n <= j -> Z.testbit x j = false.
Proof.
  intros Hx Hj. destruct (decide (0 <= n)).
  - rewrite <- (Z.mod_small x (2 ^ n)) by done. by apply Z.mod_pow2_bits_high.
  - rewrite (Z.pow_neg_r 2 n) in Hx by lia. lia.
Qed.

(** Flag words: the low 12 bits and the no-execute bit. *)
Definition flag_bits (f : Z) : Prop :=
  0 <= f < two64 /\ forall j, 12 <= j < 63 -> Z.testbit f j = false.

Lemma land_entry_addr q f :
  0 <= q < 2 ^ 40 -> flag_bits f -> Z.land (Z.lor (q * 4096) f) ADDR_MASK = q * 4096.
Proof.
  intros Hq [Hf Hbits]. apply Z.bits_inj'. intros j Hj.
  rewrite Z.land_spec, Z.lor_spec, addr_mask_bits by done. change 4096 with (2 ^ 12).
  destruct (Z.leb_spec 12 j).
  - destruct (Z.ltb_spec j 52).
    + rewrite Hbits by lia. by rewrite orb_false_r, andb_true_r.
    + rewrite andb_false_r. symmetry. apply (below_bits _ 52); lia.
  - rewrite aligned_bits by lia. by rewrite andb_false_r.
Qed.

Lemma has_entry q f flag :
  0 <= q -> 0 <= flag < 4096 -> has flag (Z.lor (q * 4096) f) = has flag f.
Proof.
  intros Hq Hflag. unfold has. do 2 f_equal.
  rewrite Z.land_lor_distr_l. assert (Z.land (q * 4096) flag = 0) as ->; [|done].
  apply Z.bits_inj'. intros j Hj. rewrite Z.land_spec, Z.bits_0. change 4096 with (2 ^ 12) in *.
  destruct (decide (j < 12)); [by rewrite aligned_bits by lia|].
  rewrite (below_bits flag 12) by lia. apply andb_false_r.
Qed.

Lemma flag_bits_small f : 0 <= f < 4096 -> flag_bits f.
Proof.
  intros Hf. split; [lia|]. intros j Hj. apply (below_bits _ 12); [done|lia].
Qed.
Lemma flag_bits_nx f : 0 <= f < 4096 -> flag_bits (Z.lor f P_NX).
Proof.
  intros Hf. split; [apply lor_range64; [lia|done]|]. intros j Hj.
  rewrite Z.lor_spec, (below_bits f 12) by lia. change P_NX with (2 ^ 63).
  by rewrite Z.pow2_bits_false by lia.
Qed.

(** The entries the kernel writes, as an address and a flag word. *)
Lemma table_entry_eq pa : table_entry pa = Z.lor pa 3.
Proof. unfold table_entry. by rewrite <- Z.lor_assoc. Qed.
Lemma table_entry_user_eq pa : table_entry_user pa = Z.lor pa 7.
Proof. unfold table_entry_user. by rewrite <- !Z.lor_assoc. Qed.
Lemma page_2mb_eq pa : page_2mb pa = Z.lor pa 131.
Proof. unfold page_2mb. by rewrite <- !Z.lor_assoc. Qed.

Definition page_flags (w u x : bool) : Z :=
  let f := P_PRESENT in
  let f := if w then Z.lor f P_WRITE else f in
  let f := if u then Z.lor f P_USER else f in
  if x then f else Z.lor f P_NX.
Lemma page_4k_eq pa w u x : page_4k pa w u x = Z.lor pa (page_flags w u x).
Proof. done. Qed.
Lemma page_flags_bits w u x : flag_bits (page_flags w u x).
Proof. destruct w, u, x; first [by apply flag_bits_small | by apply flag_bits_nx]. Qed.

Lemma entry_range64 q f : 0 <= q < 2 ^ 40 -> flag_bits f -> 0 <= Z.lor (q * 4096) f < two64.
Proof. intros Hq [Hf _]. apply lor_range64; lia. Qed.

(** A 2 MiB entry. *)
Lemma land_entry_2m r :
  0 <= r < 2 ^ 31 -> Z.land (page_2mb (r * 0x200000)) ADDR_MASK_2M = r * 0x200000.
Proof.
  intros Hr. rewrite page_2mb_eq. apply Z.bits_inj'. intros j Hj.
  rewrite Z.land_spec, Z.lor_spec. change ADDR_MASK_2M with (Z.shiftl (Z.ones 31) 21).
  change 0x200000 with (2 ^ 21). rewrite Z.shiftl_spec by done.
  destruct (decide (j < 21)).
  - by rewrite (Z.testbit_neg_r _ (j - 21)), andb_false_r, aligned_bits by lia.
  - rewrite Z.testbit_ones_nonneg by lia. rewrite (below_bits 131 21) by lia.
    rewrite orb_false_r. destruct (Z.ltb_spec (j - 21) 31); [by rewrite andb_true_r|].
    rewrite andb_false_r. symmetry. apply (below_bits _ 52); lia.
Qed.

Lemma table_index_eq s va : 0 <= s -> 0 <= va -> table_index s va = (va / 2 ^ s) mod 512.
Proof.
  intros Hs Hv. unfold table_index. change 0x1FF with (Z.ones 9).
  by rewrite Z.land_ones, Z.shiftr_div_pow2 by lia.
Qed.

(** ** Page-local updates *)

(** [m'] differs from [m] in frame [f] only. *)
Definition only_page (f : Z) (m m' : memory) : Prop :=
  forall x, ~ (pg f <= x < pg f + 4096) -> load8 m' x = load8 m x.

Lemma only_page_refl f m : only_page f m m.
Proof. done. Qed.
Lemma only_page_trans f m1 m2 m3 : only_page f m1 m2 -> only_page f m2 m3 -> only_page f m1 m3.
Proof. intros H1 H2 x Hx. by rewrite H2, H1. Qed.

Lemma only_page_entry f m m' g i :
  only_page f m m' -> g <> f -> 0 <= i < 512 -> entry m' (pg g) i = entry m (pg g) i.
Proof.
  intros Hp Hne Hi. apply read_u64_ext. intros x Hx. apply Hp. unfold pg in *. lia.
Qed.

Lemma put_entry_only f m i v : 0 <= i < 512 -> only_page f m (put_entry m (pg f) i v).
Proof. intros Hi x Hx. apply load8_write_u64_out. unfold pg in *. lia. Qed.

Lemma entry_put_same f m i v j :
  0 <= i < 512 -> 0 <= j < 512 -> 0 <= v < two64 ->
  entry (put_entry m (pg f) i v) (pg f) j = if i =? j then v else entry m (pg f) j.
Proof.
  intros Hi Hj Hv. unfold entry, put_entry. zcase.
  - subst. by apply read_write_u64_eq.
  - apply read_write_u64_ne. lia.
Qed.

Lemma put_entries_spec (k : nat) i0 g f m :
  0 <= i0 -> i0 + Z.of_nat k = 512 -> (forall i, i0 <= i < 512 -> 0 <= g i < two64) ->
  let m' := put_entries (seqZ i0 (Z.of_nat k)) g (pg f) m in
  only_page f m m' /\
  forall j, 0 <= j < 512 -> entry m' (pg f) j = if i0 <=? j then g j else entry m (pg f) j.
Proof.
  revert i0 m. induction k as [|k IH]; intros i0 m H0 Hk Hg; simpl.
  { split; [done|]. intros j Hj. zcase; [lia|done]. }
  rewrite seqZ_cons by lia. simpl. replace (Z.pred (Z.of_nat (S k))) with (Z.of_nat k) by lia.
  destruct (IH (Z.succ i0) (put_entry m (pg f) i0 (g i0))) as [Ho He]; [lia|lia|intros; apply Hg; lia|].
  split.
  - eapply only_page_trans; [|exact Ho]. apply put_entry_only. lia.
  - intros j Hj. rewrite He by done. rewrite entry_put_same by (lia || (apply Hg; lia)).
    zcases; try done; try lia. by subst.
Qed.

Lemma fill_entries_spec g f m :
  (forall i, 0 <= i < 512 -> 0 <= g i < two64) ->
  let m' := put_entries (seqZ 0 512) g (pg f) m in
  only_page f m m' /\ forall j, 0 <= j < 512 -> entry m' (pg f) j = g j.
Proof.
  intros Hg. destruct (put_entries_spec 512 0 g f m ltac:(lia) ltac:(lia)) as [Ho He]; [done|].
  split; [exact Ho|]. intros j Hj. etrans; [apply (He j Hj)|]. zcase; [done|lia].
Qed.

Lemma zero_table_spec f m :
  let m' := zero_table (pg f) m in
  only_page f m m' /\ forall j, 0 <= j < 512 -> entry m' (pg f) j = 0.
Proof. apply fill_entries_spec. intros. lia. Qed.

Lemma copy_entries_spec (k : nat) i0 g f m :
  g <> f -> 0 <= i0 -> i0 + Z.of_nat k = 512 ->
  let m' := copy_entries (seqZ i0 (Z.of_nat k)) (pg g) (pg f) m in
  only_page f m m' /\
  forall j, 0 <= j < 512 -> entry m' (pg f) j = if i0 <=? j then entry m (pg g) j else entry m (pg f) j.
Proof.
  intros Hne. revert i0 m. induction k as [|k IH]; intros i0 m H0 Hk; simpl.
  { split; [done|]. intros j Hj. zcase; [lia|done]. }
  rewrite seqZ_cons by lia. simpl. replace (Z.pred (Z.of_nat (S k))) with (Z.of_nat k) by lia.
  destruct (IH (Z.succ i0) (put_entry m (pg f) i0 (entry m (pg g) i0))) as [Ho He]; [lia|lia|].
  assert (Hput : only_page f m (put_entry m (pg f) i0 (entry m (pg g) i0)))
    by (apply put_entry_only; lia).
  split; [by eapply only_page_trans|]. intros j Hj. rewrite He by done.
  rewrite entry_put_same by (lia || apply read_u64_range).
  rewrite (only_page_entry f m) by done. zcases; try done; try lia. by subst.
Qed.

Lemma fill_only f m v : only_page f m (fill m (pg f) v 4096).
Proof. intros x Hx. rewrite load8_fill by lia. zcases; try done; lia. Qed.

#[local] Arguments put_entries : simpl never.
#[local] Arguments copy_entries : simpl never.
#[local] Arguments zero_table : simpl never.
#[local] Arguments seqZ : simpl never.
#[local] Arguments fill : simpl never.
#[local] Arguments put_entry : simpl never.

Ltac mach_simpl := unfold set_entry, with_mem; cbn [pmem frames KERNEL_PML4_PA].

(** ** Views *)

(** The tables of one address space: the root, the PDPT, the page directory
    of each GiB, the page table of each 2 MiB region that has one of its own,
    and the page tables that a copy shares with the kernel. *)
Inductive kind : Type := KPml4 | KPdpt | KPd (j : Z) | KPt (r : Z) | KShared (r : Z).
#[global] Instance kind_eq_dec : EqDecision kind.
Proof. solve_decision. Defined.

Definition tables : Type := kind -> option Z.
Definition add_table (k : kind) (f : Z) (t : tables) : tables :=
  fun k' => if decide (k' = k) then Some f else t k'.

(** The tables that belong to one address space alone. *)
Definition own (t : tables) : tables := fun k => match k with KShared _ => None | _ => t k end.
Lemma own_Some t k f : own t k = Some f -> t k = Some f.
Proof. by destruct k. Qed.

(** User pages: virtual page number to frame, writable, executable. *)
Abbreviation user_map := (gmap Z (Z * bool * bool)).

(** The kernel's own tables: 2 GiB identity-mapped with 2 MiB pages, and page
    directories [k_pds] and page tables [k_pts] for what [map_page] and
    [map_page_uc] have mapped above, the local APIC among it. *)
Record kernel_tables : Type := mk_kernel { k_pml4 : Z; k_pdpt : Z; k_pds : gmap Z Z; k_pts : gmap Z Z }.
Definition k_table (K : kernel_tables) : tables := fun k =>
  match k with
  | KPml4 => Some (k_pml4 K)
  | KPdpt => Some (k_pdpt K)
  | KPd j => k_pds K !! j
  | KPt _ => None
  | KShared r => k_pts K !! r
  end.
(** The frames of the page tables, which the copies for tasks share. *)
Definition k_shared (K : kernel_tables) : gset Z := map_img (k_pts K).
Definition k_main (K : kernel_tables) : gset Z := {[k_pml4 K; k_pdpt K]} ∪ map_img (k_pds K).
Definition k_frames (K : kernel_tables) : gset Z := k_main K ∪ k_shared K.
(** As [init] leaves them. *)
Definition plain_kernel (u p d0 d1 : Z) : kernel_tables := mk_kernel u p (<[0 := d0]> {[1 := d1]}) ∅.

Lemma elem_of_k_frames K f : f ∈ k_frames K <-> exists k, k_table K k = Some f.
Proof.
  unfold k_frames, k_main, k_shared. rewrite !elem_of_union, !elem_of_singleton, !elem_of_map_img. split.
  - intros [[[-> | ->]|[j Hj]]|[r Hr]]; [by exists KPml4|by exists KPdpt|by exists (KPd j)|by exists (KShared r)].
  - intros [[| |j|r|r] Hk]; cbn in Hk; [naive_solver|naive_solver|eauto|done|eauto].
Qed.
Lemma k_table_frame K k f : k_table K k = Some f -> f ∈ k_frames K.
Proof. intros Hk. apply elem_of_k_frames. eauto. Qed.
Lemma elem_of_k_shared K f : f ∈ k_shared K <-> exists r, k_pts K !! r = Some f.
Proof. apply elem_of_map_img. Qed.
Lemma k_shared_frames K : k_shared K ⊆ k_frames K.
Proof. apply union_subseteq_r. Qed.
Lemma k_main_frames K : k_main K ⊆ k_frames K.
Proof. apply union_subseteq_l. Qed.

(** Entry [r mod 512] of the kernel's directory [r / 512]. *)
Definition kernel_pde (K : kernel_tables) (r : Z) : Z :=
  if r <? 1024 then page_2mb (r * 0x200000)
  else match k_pts K !! r with Some q => table_entry (pg q) | None => 0 end.

Record kernel_view (m : memory) (K : kernel_tables) : Prop := {
  kv_pml4 : entry m (pg (k_pml4 K)) 0 = table_entry (pg (k_pdpt K));
  kv_rest : forall i, 1 <= i < 512 -> has P_USER (entry m (pg (k_pml4 K)) i) = false;
  kv_pdpt : forall j, 0 <= j < 512 ->
    entry m (pg (k_pdpt K)) j = match k_pds K !! j with Some d => table_entry (pg d) | None => 0 end;
  kv_pd : forall r d, 0 <= r < 262144 -> k_pds K !! (r / 512) = Some d ->
    entry m (pg d) (r mod 512) = kernel_pde K r;
  kv_pt : forall r q k, k_pts K !! r = Some q -> 0 <= k < 512 -> has P_USER (entry m (pg q) k) = false;
  kv_low : forall j, 0 <= j < 2 -> is_Some (k_pds K !! j);
  kv_pds : forall j d, k_pds K !! j = Some d -> 0 <= j < 512;
  kv_pts : forall r q, k_pts K !! r = Some q -> 1024 <= r < 262144 /\ is_Some (k_pds K !! (r / 512));
  kv_ok : forall f, f ∈ k_frames K -> frame_ok f;
  kv_inj : forall k1 k2 f, k_table K k1 = Some f -> k_table K k2 = Some f -> k1 = k2;
}.

Definition zero_page (m : memory) (f : Z) : Prop :=
  forall x, pg f <= x < pg f + 4096 -> load8 m x = 0.

Definition pte (v : Z) (o : option (Z * bool * bool)) : Z :=
  match o with
  | Some (f, w, x) => page_4k (pg f) w true x
  | None => page_4k (pg v) true false true
  end.

Record view (m : memory) (t : tables) (um : user_map) : Prop := {
  v_pml4 : exists u p, t KPml4 = Some u /\ t KPdpt = Some p /\
    forall i, 0 <= i < 512 -> entry m (pg u) i = if i =? 0 then table_entry_user (pg p) else 0;
  v_pdpt : forall p, t KPdpt = Some p -> forall j, 0 <= j < 512 ->
    entry m (pg p) j = match t (KPd j) with Some d => table_entry_user (pg d) | None => 0 end;
  v_low : forall j, 0 <= j < 2 -> is_Some (t (KPd j));
  v_pds : forall j, is_Some (t (KPd j)) -> 0 <= j < 512;
  v_pd : forall r d, 0 <= r < 262144 -> t (KPd (r / 512)) = Some d ->
    entry m (pg d) (r mod 512) =
      match t (KPt r) with
      | Some p => table_entry_user (pg p)
      | None => if r <? 1024 then page_2mb (r * 0x200000)
                else match t (KShared r) with Some q => table_entry (pg q) | None => 0 end
      end;
  v_pt : forall r p k, t (KPt r) = Some p -> 0 <= k < 512 ->
    entry m (pg p) k = pte (r * 512 + k) (um !! (r * 512 + k));
  v_pts : forall r, is_Some (t (KPt r)) -> 0 <= r < 1024;
  v_shared : forall r q, t (KShared r) = Some q -> 1024 <= r < 262144 /\ is_Some (t (KPd (r / 512))) /\
    forall k, 0 <= k < 512 -> has P_USER (entry m (pg q) k) = false;
  v_um : forall v f w x, um !! v = Some (f, w, x) ->
    0 <= v < 524288 /\ is_Some (t (KPt (v / 512))) /\ frame_ok f;
  v_ok : forall k f, t k = Some f -> frame_ok f;
  v_inj : forall k1 k2 f, t k1 = Some f -> t k2 = Some f -> k1 = k2;
  v_data : forall k f v w x, t k = Some f -> um !! v <> Some (f, w, x);
  v_udist : forall v v' f w x w' x',
    um !! v = Some (f, w, x) -> um !! v' = Some (f, w', x') -> v = v';
}.

(** The tables [t] repeat the kernel's part. *)
Definition copies (K : kernel_tables) (t : tables) : Prop :=
  (forall j, is_Some (t (KPd j)) <-> is_Some (k_pds K !! j)) /\ forall r, t (KShared r) = k_pts K !! r.

(** The views depend on the frames of their tables only. *)
Lemma entry_ext m m' f i :
  (forall x, pg f <= x < pg f + 4096 -> load8 m' x = load8 m x) -> 0 <= i < 512 ->
  entry m' (pg f) i = entry m (pg f) i.
Proof. intros Hm Hi. apply read_u64_ext. intros x Hx. apply Hm. lia. Qed.

Lemma view_ext m m' t um :
  view m t um ->
  (forall k f x, t k = Some f -> pg f <= x < pg f + 4096 -> load8 m' x = load8 m x) -> view m' t um.
Proof.
  intros [H1 H2 H3 H4 H5 H6 H7 H8 H9 H10 H11 H12 H13] Hm.
  assert (Hent : forall k g i, t k = Some g -> 0 <= i < 512 -> entry m' (pg g) i = entry m (pg g) i).
  { intros k g i Hk Hi. apply entry_ext; [|done]. intros x. by apply (Hm k). }
  split; try done.
  - destruct H1 as (u & p & Hu' & Hp & He). exists u, p. split_and!; try done.
    intros i Hi. rewrite (Hent KPml4) by done. by apply He.
  - intros p Hp j Hj. rewrite (Hent KPdpt) by done. by apply H2.
  - intros r d Hr Hd. rewrite (Hent (KPd (r / 512))) by (done || dlia). by apply H5.
  - intros r p k Hp Hk. rewrite (Hent (KPt r)) by done. by apply H6.
  - intros r q Hq. destruct (H8 r q Hq) as (? & ? & Hu). split; [done|]. split; [done|].
    intros k Hk. rewrite (Hent (KShared r)) by done. by apply Hu.
Qed.

Lemma kernel_view_ext m m' K :
  kernel_view m K ->
  (forall f x, f ∈ k_frames K -> pg f <= x < pg f + 4096 -> load8 m' x = load8 m x) -> kernel_view m' K.
Proof.
  intros [H1 H2 H3 H4 H5 H6 H7 H8 H9 H10] Hm.
  assert (Hent : forall k g i, k_table K k = Some g -> 0 <= i < 512 -> entry m' (pg g) i = entry m (pg g) i).
  { intros k g i Hg Hi. apply entry_ext; [|done]. intros x. by apply Hm, (k_table_frame K k). }
  split; try done.
  - by rewrite (Hent KPml4).
  - intros i Hi. rewrite (Hent KPml4) by (done || lia). by apply H2.
  - intros j Hj. rewrite (Hent KPdpt) by done. by apply H3.
  - intros r d Hr Hd. rewrite (Hent (KPd (r / 512))) by (done || dlia). by apply H4.
  - intros r q k Hq Hk. rewrite (Hent (KShared r)) by done. by eapply H5.
Qed.

(** A change of memory in a frame the view does not use. *)
Lemma view_only_page m m' t um f :
  view m t um -> only_page f m m' -> (forall k, t k <> Some f) -> view m' t um.
Proof.
  intros Hv Ho Ht. apply (view_ext m); [done|]. intros k g x Hg Hx. apply Ho.
  assert (g <> f) by congruence. unfold pg in *. lia.
Qed.

Lemma kernel_view_only_page m m' K f :
  kernel_view m K -> only_page f m m' -> f ∉ k_frames K -> kernel_view m' K.
Proof.
  intros Hv Ho Ht. apply (kernel_view_ext m); [done|]. intros g x Hg Hx. apply Ho.
  assert (g <> f) by congruence. unfold pg in *. lia.
Qed.

Lemma page_4k_range v w u x : 0 <= v < 2 ^ 40 -> 0 <= page_4k (pg v) w u x < two64.
Proof. intros Hv. rewrite page_4k_eq. apply entry_range64; [done|]. apply page_flags_bits. Qed.
Lemma table_entry_user_range f : frame_ok f -> 0 <= table_entry_user (pg f) < two64.
Proof.
  intros Hf%frame_ok_lt. rewrite table_entry_user_eq. apply entry_range64; [lia|].
  by apply flag_bits_small.
Qed.

Lemma add_table_eq k f t : add_table k f t k = Some f.
Proof. unfold add_table. by rewrite decide_True. Qed.
Lemma add_table_ne k k' f t : k' <> k -> add_table k f t k' = t k'.
Proof. intros. unfold add_table. by rewrite decide_False. Qed.
Lemma add_table_Some k f t k' g :
  add_table k f t k' = Some g -> (k' = k /\ g = f) \/ (k' <> k /\ t k' = Some g).
Proof. unfold add_table. case_decide; naive_solver. Qed.

(** A 2 MiB region gets a page table that repeats the identity map. *)
Lemma view_split m m1 t um r d f :
  view m t um -> 0 <= r < 1024 -> t (KPt r) = None -> t (KPd (r / 512)) = Some d -> frame_ok f ->
  (forall k, t k <> Some f) -> (forall v w x, um !! v <> Some (f, w, x)) -> only_page f m m1 ->
  (forall k, 0 <= k < 512 -> entry m1 (pg f) k = page_4k (pg (r * 512 + k)) true false true) ->
  view (put_entry m1 (pg d) (r mod 512) (table_entry_user (pg f))) (add_table (KPt r) f t) um.
Proof.
  intros Hv Hr Hnone Hd Hf Hft Hfu Ho Hent.
  pose proof (view_only_page _ _ _ _ _ Hv Ho Hft) as Hv1. clear Hv Ho.
  assert (Hi : 0 <= r mod 512 < 512) by dlia.
  pose proof (put_entry_only d m1 (r mod 512) (table_entry_user (pg f)) Hi) as Ho.
  assert (Hdf : d <> f) by (intros ->; by apply (Hft (KPd (r / 512)))).
  assert (Hk : forall k g, t k = Some g -> k <> KPd (r / 512) -> g <> d).
  { intros k g Hg Hne ->. apply Hne. by apply (v_inj _ _ _ Hv1 _ _ d). }
  split.
  - destruct (v_pml4 _ _ _ Hv1) as (u & p & Hu & Hp & He). exists u, p.
    rewrite !add_table_ne by done. split_and!; [done..|]. intros i Hi'.
    rewrite (only_page_entry d m1) by eauto. by apply He.
  - intros p Hp j Hj. rewrite add_table_ne in Hp |- * by done.
    rewrite (only_page_entry d m1) by eauto. by apply (v_pdpt _ _ _ Hv1).
  - intros j. rewrite add_table_ne by done. apply (v_low _ _ _ Hv1).
  - intros j. rewrite add_table_ne by done. apply (v_pds _ _ _ Hv1).
  - intros r' d' Hr' Hd'. rewrite (add_table_ne _ (KShared r')) by done. rewrite add_table_ne in Hd' by done.
    assert (Hi' : 0 <= r' mod 512 < 512) by dlia.
    destruct (decide (r' / 512 = r / 512)) as [Heq|Hne].
    + rewrite Heq, Hd in Hd'. injection Hd' as <-. rewrite entry_put_same by (done || by apply table_entry_user_range).
      destruct (Z.eqb_spec (r mod 512) (r' mod 512)).
      * assert (r' = r) as -> by dlia. by rewrite add_table_eq.
      * rewrite add_table_ne by congruence. rewrite (v_pd _ _ _ Hv1) by congruence. done.
    + rewrite (only_page_entry d m1); [|done|apply (Hk _ _ Hd'); congruence|done].
      rewrite add_table_ne by congruence. by apply (v_pd _ _ _ Hv1).
  - intros r' p k [[Heq ->]|[Hne Hp]]%add_table_Some Hk'.
    + injection Heq as ->. rewrite (only_page_entry d m1) by done. rewrite Hent by done.
      destruct (um !! (r * 512 + k)) as [[[g w] x]|] eqn:Hum; [|done].
      destruct (v_um _ _ _ Hv1 _ _ _ _ Hum) as (_ & [q Hq] & _).
      replace ((r * 512 + k) / 512) with r in Hq by dlia. congruence.
    + rewrite (only_page_entry d m1) by (eauto || done). by apply (v_pt _ _ _ Hv1).
  - intros r'. destruct (decide (r' = r)) as [->|]; [done|].
    rewrite add_table_ne by congruence. apply (v_pts _ _ _ Hv1).
  - intros r' q. rewrite !add_table_ne by done. intros Hq. destruct (v_shared _ _ _ Hv1 r' q Hq) as (H1 & H2 & H3).
    split; [done|]. split; [done|]. intros k Hk'. rewrite (only_page_entry d m1) by (done || eauto). by apply H3.
  - intros v g w x Hum. destruct (v_um _ _ _ Hv1 _ _ _ _ Hum) as (H1 & H2 & H3).
    split; [done|]. split; [|done]. unfold add_table. case_decide; [done|]. done.
  - intros k g [[_ ->]|[_ Hg]]%add_table_Some; [done|]. by apply (v_ok _ _ _ Hv1 k).
  - intros k1 k2 g [[-> ->]|[H1 Hg1]]%add_table_Some [[-> Hg2]|[H2 Hg2]]%add_table_Some;
      [done|by apply Hft in Hg2|subst; by apply Hft in Hg1|by apply (v_inj _ _ _ Hv1 _ _ g)].
  - intros k g v w x [[-> ->]|[_ Hg]]%add_table_Some; [apply Hfu|by apply (v_data _ _ _ Hv1 k)].
  - apply (v_udist _ _ _ Hv1).
Qed.

(** A page of a region that has a page table is mapped to a zeroed frame. *)
Lemma view_map m t um v p f w x :
  view m t um -> 0 <= v < 524288 -> t (KPt (v / 512)) = Some p -> frame_ok f ->
  (forall k, t k <> Some f) -> (forall v w x, um !! v <> Some (f, w, x)) ->
  view (put_entry m (pg p) (v mod 512) (page_4k (pg f) w true x)) t (<[v := (f, w, x)]> um).
Proof.
  intros Hv Hvr Hp Hf Hft Hfu.
  assert (Hi : 0 <= v mod 512 < 512) by dlia.
  pose proof (put_entry_only p m (v mod 512) (page_4k (pg f) w true x) Hi) as Ho.
  assert (Hk : forall k g, t k = Some g -> k <> KPt (v / 512) -> g <> p).
  { intros k g Hg Hne ->. apply Hne. by apply (v_inj _ _ _ Hv _ _ p). }
  assert (Hpf : f <> p) by (intros ->; by eapply Hft).
  split; try apply Hv.
  - destruct (v_pml4 _ _ _ Hv) as (u & q & Hu & Hq & He). exists u, q. split_and!; [done..|].
    intros i Hi'. rewrite (only_page_entry p m) by eauto. by apply He.
  - intros q Hq j Hj. rewrite (only_page_entry p m) by eauto. by apply (v_pdpt _ _ _ Hv).
  - intros r d Hr Hd. rewrite (only_page_entry p m) by (done || dlia || eauto).
    by apply (v_pd _ _ _ Hv).
  - intros r q k Hq Hk'. destruct (decide (r = v / 512)) as [->|Hne].
    + rewrite Hp in Hq. injection Hq as <-.
      rewrite entry_put_same by (done || (apply page_4k_range; apply frame_ok_lt in Hf; lia)).
      zcase.
      * assert (v / 512 * 512 + k = v) as -> by dlia. by rewrite lookup_insert_eq.
      * rewrite lookup_insert_ne by dlia. by apply (v_pt _ _ _ Hv).
    + rewrite (only_page_entry p m) by (done || (eapply Hk; [done|congruence])).
      rewrite lookup_insert_ne by dlia. by apply (v_pt _ _ _ Hv).
  - intros r q Hq. destruct (v_shared _ _ _ Hv r q Hq) as (H1 & H2 & H3).
    split; [done|]. split; [done|]. intros k Hk'. rewrite (only_page_entry p m) by (done || eauto). by apply H3.
  - intros v' g w' x'. destruct (decide (v' = v)) as [->|Hne].
    + rewrite lookup_insert_eq. intros [= <- <- <-]. split; [done|]. split; [by rewrite Hp|]. done.
    + rewrite lookup_insert_ne by done. apply (v_um _ _ _ Hv).
  - intros k g v' w' x' Hg. destruct (decide (v' = v)) as [->|Hne].
    + rewrite lookup_insert_eq. intros [= <- <- <-]. by eapply Hft.
    + rewrite lookup_insert_ne by done. by apply (v_data _ _ _ Hv k).
  - intros v1 v2 g w1 x1 w2 x2. rewrite !lookup_insert. repeat case_decide; subst; try done.
    + intros [= <- <- <-] H2. by eapply Hfu in H2.
    + intros H1 [= <- <- <-]. by eapply Hfu in H1.
    + apply (v_udist _ _ _ Hv).
Qed.

(** ** The machine while an address space is built *)

(** The region, directory entry and table entry of a virtual address. *)
Lemma walk_indices va :
  0 <= va < 0x80000000 ->
  table_index 39 va = 0 /\ table_index 30 va = va / 0x200000 / 512 /\
  table_index 21 va = (va / 0x200000) mod 512 /\ table_index 12 va = (va / 4096) mod 512 /\
  0 <= va / 0x200000 < 1024 /\ va / 0x200000 * 512 + (va / 4096) mod 512 = va / 4096.
Proof.
  intros Hva. rewrite !table_index_eq by lia.
  change (2 ^ 39) with 549755813888. change (2 ^ 30) with 1073741824.
  change (2 ^ 21) with 2097152. change (2 ^ 12) with 4096.
  split_and!; dlia.
Qed.

Lemma land_table_entry_user f : frame_ok f -> Z.land (table_entry_user (pg f)) ADDR_MASK = pg f.
Proof.
  intros Hf%frame_ok_lt. rewrite table_entry_user_eq. apply land_entry_addr; [lia|].
  by apply flag_bits_small.
Qed.
Lemma land_table_entry f : frame_ok f -> Z.land (table_entry (pg f)) ADDR_MASK = pg f.
Proof.
  intros Hf%frame_ok_lt. rewrite table_entry_eq. apply land_entry_addr; [lia|].
  by apply flag_bits_small.
Qed.
Lemma has_table_entry_user f flag :
  frame_ok f -> 0 <= flag < 4096 -> has flag (table_entry_user (pg f)) = has flag 7.
Proof. intros Hf%frame_ok_lt Hflag. rewrite table_entry_user_eq. apply has_entry; lia. Qed.
Lemma has_table_entry f flag :
  frame_ok f -> 0 <= flag < 4096 -> has flag (table_entry (pg f)) = has flag 3.
Proof. intros Hf%frame_ok_lt Hflag. rewrite table_entry_eq. apply has_entry; lia. Qed.
Lemma has_page_2mb r flag :
  0 <= r -> 0 <= flag < 4096 -> has flag (page_2mb (r * 0x200000)) = has flag 131.
Proof.
  intros Hr Hflag. rewrite page_2mb_eq. replace (r * 0x200000) with (r * 512 * 4096) by lia.
  apply has_entry; lia.
Qed.
Lemma has_page_4k v w u x flag :
  0 <= v -> 0 <= flag < 4096 -> has flag (page_4k (pg v) w u x) = has flag (page_flags w u x).
Proof. intros Hv Hflag. rewrite page_4k_eq. apply has_entry; lia. Qed.

(** The frames of the tables after one more. *)
Lemma add_table_range t k f g (P Q : Prop) :
  t k = None -> ((P \/ Q \/ exists k', t k' = Some g) \/ g = f) <->
  (P \/ Q \/ exists k', add_table k f t k' = Some g).
Proof.
  intros Hk. split.
  - intros [[|[|[k' Hk']]]| ->]; eauto.
    + do 2 right. exists k'. rewrite add_table_ne; [done|congruence].
    + do 2 right. exists k. apply add_table_eq.
  - intros [|[|[k' [[-> ->]|[_ Hk']]%add_table_Some]]]; eauto.
Qed.

(** A page table of its own is added. *)
Lemma own_add_Some t r f k g :
  own (add_table (KPt r) f t) k = Some g -> (k = KPt r /\ g = f) \/ (k <> KPt r /\ own t k = Some g).
Proof.
  intros Hk. destruct k as [| |j|r'|r']; cbn [own] in *; try done;
    apply add_table_Some in Hk as [[? ->]|[? Hk]]; try done; naive_solver.
Qed.
Lemma own_add_range t r f g (P Q : Prop) :
  t (KPt r) = None ->
  ((P \/ Q \/ exists k, own t k = Some g) \/ g = f) <-> P \/ Q \/ exists k, own (add_table (KPt r) f t) k = Some g.
Proof.
  intros Hn. split.
  - intros [[?|[?|[k Hk]]]| ->]; [by left|by right; left|do 2 right|do 2 right].
    + exists k. destruct k as [| |j|r'|r']; cbn [own] in *; try done; rewrite add_table_ne by congruence; done.
    + exists (KPt r). cbn [own]. apply add_table_eq.
  - intros [?|[?|[k [[_ ->]|[_ Hk]]%own_add_Some]]]; [by left; left|by left; right; left|by right|left; do 2 right; eauto].
Qed.
Lemma elem_of_concat {X} (x : X) (ls : list (list X)) : x ∈ concat ls <-> exists l, x ∈ l /\ l ∈ ls.
Proof.
  rewrite list_elem_of_In, in_concat. setoid_rewrite list_elem_of_In. naive_solver.
Qed.

(** ** What a loader asks for *)

(** A user page: its number, its frame, writable, executable. *)
Record user_page : Type := mk_page { up_vpn : Z; up_frame : Z; up_w : bool; up_x : bool }.
Definition rights (q : user_page) : Z * bool * bool := (up_vpn q, up_w q, up_x q).
(** As [create_user_page_tables] lists it. *)
Definition phys_frame (q : user_page) : Z * Z * Z := (pg (up_vpn q), 4096, pg (up_frame q)).

Fixpoint install (l : list user_page) (um : user_map) : user_map :=
  match l with
  | [] => um
  | q :: l' => install l' (<[up_vpn q := (up_frame q, up_w q, up_x q)]> um)
  end.
Lemma install_app l1 l2 um : install (l1 ++ l2) um = install l2 (install l1 um).
Proof. revert um. induction l1; simpl; eauto. Qed.

Lemma install_dom l um v : is_Some (install l um !! v) <-> is_Some (um !! v) \/ v ∈ up_vpn <$> l.
Proof.
  revert um. induction l as [|q l IH]; intros um; cbn [install]; [set_solver|].
  rewrite IH, fmap_cons, elem_of_cons, lookup_insert. case_decide; naive_solver.
Qed.

(** The pages a segment touches, with the rights its flags give. *)
Definition segment_pages (vaddr memsz : Z) : list Z :=
  seqZ (vaddr / 4096) ((vaddr + memsz + 4095) / 4096 - vaddr / 4096).
Definition segment_layout (sg : segment) : list (Z * bool * bool) :=
  let '(vaddr, _, _, memsz, flags) := sg in
  if memsz =? 0 then []
  else (fun v => (v, has 2 flags, has 1 flags)) <$> segment_pages vaddr memsz.
Definition layout (segs : list segment) : list (Z * bool * bool) :=
  concat (segment_layout <$> segs) ++ [(STACK_VADDR / 4096, true, false)].

Section build.
Context {A : Type} `{FrameAllocator A}.

(** The frames of the machine [W], those in use when the construction starts
    [U0], the allocator's limit [L] and the kernel's tables [K] are fixed. *)
Variables (W U0 : gset Z) (L : Z) (K : kernel_tables).
(** The memory the construction starts with. *)
Variable m0 : memory.

(** The frames in use [U] and the free ones make up [W], and at least [n]
    are free. *)
Record pool (U : gset Z) (n : Z) (fa : A) : Prop := {
  p_inv : fa_inv fa;
  p_disj : U ## fa_free fa;
  p_all : U ∪ fa_free fa = W;
  p_count : n <= Z.of_nat (size (fa_free fa));
  p_limit : fa_limit fa = L;
}.

Lemma pool_weaken U n n' (fa : A) : pool U n fa -> n' <= n -> pool U n' fa.
Proof. intros [? ? ? ? ?] ?. split; [done..| |done]. lia. Qed.

Lemma alloc_table_spec U n (s : machine) :
  pool U (n + 1) (frames s) -> 0 <= n ->
  exists (f : Z) (fa' : A),
    alloc_table_or_halt s = Ret (pg f, mk_machine (pmem s) fa' (KERNEL_PML4_PA s)) /\
    (f ∉ U) /\ frame_ok f /\ 0 <= f < L /\ pool (U ∪ {[f]}) n fa'.
Proof.
  intros [H1 H2 H3 H4 H5] Hn. unfold alloc_table_or_halt.
  destruct (fa_alloc_ok (frames s) H1) as ([f|] & fa' & -> & Hinv & Hlim & Hr).
  - destruct Hr as [Hin Hfree]. simpl. exists f, fa'.
    pose proof (fa_free_range f _ H1 Hin). pose proof (fa_limit_range _ H1).
    assert (Hf : frame_ok f) by (unfold frame_ok; lia). rewrite start_address_pg by done.
    split; [done|]. split; [set_solver|]. split; [done|]. split; [lia|]. split; [done| | | |congruence].
    + rewrite Hfree. set_solver.
    + rewrite Hfree, <- H3. apply set_eq. intros g. destruct (decide (g = f)); set_solver.
    + rewrite Hfree, size_difference, size_singleton by set_solver. lia.
  - destruct Hr as [Hempty _]. rewrite Hempty, size_empty in H4. lia.
Qed.

(** Bytes outside the frames that were free at the start. *)
Definition kept (x : Z) : Prop := forall f, f ∉ U0 -> 0 <= f < L -> ~ (pg f <= x < pg f + 4096).
Lemma kept_only f m m' x : only_page f m m' -> f ∉ U0 -> 0 <= f < L -> kept x -> load8 m' x = load8 m x.
Proof. intros Ho Hf HL Hx. by apply Ho, Hx. Qed.

(** The machine during the construction: [D] are the data frames handed out
    so far; everything in use is accounted for, and nothing else is written. *)
Record building (D : gset Z) (n : Z) (t : tables) (um : user_map) (s : machine) : Prop := {
  b_pool : exists U, (forall g, g ∈ U <-> g ∈ U0 \/ g ∈ D \/ exists k, own t k = Some g) /\
    pool U n (frames s);
  b_root : KERNEL_PML4_PA s = pg (k_pml4 K);
  b_kernel : kernel_view (pmem s) K;
  b_view : view (pmem s) t um;
  b_copies : copies K t;
  b_k0 : forall f, f ∈ k_frames K -> f ∈ U0;
  b_t : forall k f, own t k = Some f -> (f ∉ U0) /\ (f ∉ D) /\ 0 <= f < L;
  b_D : forall f, f ∈ D -> (f ∉ U0) /\ 0 <= f < L;
  b_u : forall v f w x, um !! v = Some (f, w, x) -> f ∈ D;
  b_zero : forall v f w x, um !! v = Some (f, w, x) -> zero_page (pmem s) f;
  b_out : forall x, kept x -> load8 (pmem s) x = load8 m0 x;
}.

(** A table of [t] is its own or one of the kernel's. *)
Lemma b_any D n t um s k f : building D n t um s -> t k = Some f -> (f ∈ U0 /\ f ∉ D) \/ own t k = Some f.
Proof.
  intros Hb Hk. destruct k as [| |j|r|r]; [by right..|]. left. destruct (b_copies _ _ _ _ _ Hb) as [_ Hs].
  rewrite Hs in Hk. assert (Hf : f ∈ U0) by (apply (b_k0 _ _ _ _ _ Hb), (k_table_frame K (KShared r)); exact Hk).
  split; [done|]. intros HD. by destruct (b_D _ _ _ _ _ Hb f HD).
Qed.

Lemma building_weaken D n n' t um s : building D n t um s -> n' <= n -> building D n' t um s.
Proof.
  intros [(U & HU & Hp) ? ? ? ? ? ? ? ? ? ?] Hn. split; try done. exists U. split; [done|].
  by eapply pool_weaken.
Qed.

(** The page table of the region of [va]: found or made. *)
Lemma map_user_page_spec D n t um (s : machine) u va :
  building D (n + 1) t um s -> 0 <= n -> t KPml4 = Some u -> 0 <= va < 0x80000000 ->
  exists p s' t', map_user_page (pg u) va s = Ret (pg p, s') /\ t' (KPt (va / 0x200000)) = Some p /\
    (forall k, k <> KPt (va / 0x200000) -> t' k = t k) /\
    (forall f, f ∈ D -> zero_page (pmem s) f -> zero_page (pmem s') f) /\
    building D n t' um s'.
Proof.
  intros Hb Hn Hu Hva. pose proof (b_view _ _ _ _ _ Hb) as Hv.
  destruct (walk_indices va Hva) as (Hi4 & Hi3 & Hi2 & _ & Hr & _).
  set (r := va / 0x200000) in *. unfold map_user_page. rewrite Hi4, Hi3, Hi2.
  destruct (v_pml4 _ _ _ Hv) as (u' & p & Hu' & Hp & He). rewrite Hu in Hu'. injection Hu' as <-.
  rewrite He by lia. simpl. rewrite land_table_entry_user by (by eapply v_ok).
  assert (Hj : 0 <= r / 512 < 2) by dlia.
  destruct (v_low _ _ _ Hv (r / 512) Hj) as [d Hd].
  rewrite (v_pdpt _ _ _ Hv p Hp) by lia. rewrite Hd, land_table_entry_user by (by eapply v_ok).
  rewrite (v_pd _ _ _ Hv r d ltac:(lia) Hd). destruct (t (KPt r)) as [q|] eqn:Hq.
  - rewrite has_table_entry_user, land_table_entry_user by first [done | by eapply v_ok]. simpl.
    exists q, s, t. do 4 (split; [by eauto|]). eapply building_weaken; [done|lia].
  - destruct (Z.ltb_spec r 1024); [|lia]. rewrite has_page_2mb, land_entry_2m by first [lia | by split]. simpl.
    destruct (b_pool _ _ _ _ _ Hb) as (U & HU & HpU).
    destruct (alloc_table_spec U n s HpU Hn) as (f & fa & -> & Hf & Hok & HL & Hpool). simpl.
    destruct (b_t _ _ _ _ _ Hb (KPd (r / 512)) d Hd) as (Hd0 & HdD & HdL).
    assert (Hgen : forall i, 0 <= i < 512 -> u64 (r * 2097152 + i * 4096) = pg (r * 512 + i)).
    { intros i Hi. rewrite u64_small by lia. unfold pg. lia. }
    destruct (zero_table_spec f (pmem s)) as [Hoz _].
    edestruct (fill_entries_spec (fun i => page_4k (u64 (r * 2097152 + i * 4096)) true false true) f
                (zero_table (pg f) (pmem s))) as [Hoe Hent].
    { intros i Hi. rewrite Hgen by done. apply page_4k_range. lia. }
    pose proof (only_page_trans _ _ _ _ Hoz Hoe) as Ho. clear Hoz Hoe.
    set (m1 := put_entries (seqZ 0 512) _ (pg f) _) in *. clearbody m1.
    rewrite HU in Hf.
    assert (Hft : forall k, t k <> Some f) by (intros k Hk; destruct (b_any _ _ _ _ _ _ _ Hb Hk) as [[? _]|?]; naive_solver).
    assert (HfD : f ∉ D) by naive_solver. assert (Hf0 : f ∉ U0) by naive_solver.
    assert (Hod : only_page d m1 (put_entry m1 (pg d) (r mod 512) (table_entry_user (pg f))))
      by (apply put_entry_only; dlia).
    assert (Hzp : forall g, g ∈ D -> zero_page (pmem s) g ->
              zero_page (put_entry m1 (pg d) (r mod 512) (table_entry_user (pg f))) g).
    { intros g HgD Hz y Hy. assert (g <> f) by congruence. assert (g <> d) by congruence.
      rewrite Hod, Ho; [by apply Hz|..]; unfold pg in *; lia. }
    eexists f, _, (add_table (KPt r) f t). split; [done|]. split; [apply add_table_eq|].
    split; [intros k; apply add_table_ne|]. simpl. split; [exact Hzp|].
    split; simpl; try apply Hb.
    + exists (U ∪ {[f]}). split; [|done]. intros g. rewrite elem_of_union, elem_of_singleton, HU.
      by apply own_add_range.
    + pose proof (b_k0 _ _ _ _ _ Hb). eapply kernel_view_only_page; [|done|naive_solver].
      eapply kernel_view_only_page; [apply Hb|done|naive_solver].
    + eapply view_split; try done.
      * intros v w x Hum%(b_u _ _ _ _ _ Hb). done.
      * intros k Hk. rewrite Hent by done. by rewrite Hgen.
    + intros k g [[-> ->]|[_ Hg]]%own_add_Some; [done|]. by apply (b_t _ _ _ _ _ Hb k).
    + intros v g w x Hum. apply Hzp; [by eapply b_u|by eapply b_zero].
    + intros x Hx. rewrite (kept_only _ _ _ _ Hod Hd0 HdL Hx), (kept_only _ _ _ _ Ho Hf0 HL Hx). by apply Hb.
Qed.

(** A fresh, zeroed data frame. *)
Lemma alloc_data_spec D n t um (s : machine) :
  building D (n + 1) t um s -> 0 <= n ->
  exists f s1, alloc_table_or_halt s = Ret (pg f, s1) /\ (f ∉ D) /\ frame_ok f /\
    let s2 := with_mem (fill (pmem s1) (pg f) 0 4096) s1 in
    zero_page (pmem s2) f /\ building (D ∪ {[f]}) n t um s2.
Proof.
  intros Hb Hn. destruct (b_pool _ _ _ _ _ Hb) as (U & HU & HpU).
  destruct (alloc_table_spec U n s HpU Hn) as (f & fa & -> & Hf & Hok & HL & Hpool).
  rewrite HU in Hf. eexists f, _. split; [done|]. split; [naive_solver|]. split; [done|]. simpl.
  split; [intros x Hx; rewrite load8_fill by lia; zcases; done || lia|].
  pose proof (fill_only f (pmem s) 0) as Ho. pose proof (b_k0 _ _ _ _ _ Hb).
  assert (Hfu : forall v w x, um !! v <> Some (f, w, x)).
  { intros v w x Hum%(b_u _ _ _ _ _ Hb). naive_solver. }
  split; simpl; try apply Hb.
  - exists (U ∪ {[f]}). split; [|done]. intros g.
    rewrite !elem_of_union, elem_of_singleton, HU. tauto.
  - eapply kernel_view_only_page; [apply Hb|done|naive_solver].
  - eapply view_only_page; [apply Hb|done|]. intros k Hk. destruct (b_any _ _ _ _ _ _ _ Hb Hk) as [[? _]|?]; naive_solver.
  - intros k g Hg. destruct (b_t _ _ _ _ _ Hb k g Hg) as (? & ? & ?).
    split; [done|]. split; [|done]. rewrite elem_of_union, elem_of_singleton.
    intros [| ->]; [done|naive_solver].
  - intros g [Hg| ->%elem_of_singleton]%elem_of_union; [by apply (b_D _ _ _ _ _ Hb)|naive_solver].
  - intros v g w x Hum%(b_u _ _ _ _ _ Hb). set_solver.
  - intros v g w x Hum y Hy. rewrite Ho; [by eapply (b_zero _ _ _ _ _ Hb)|].
    assert (g <> f) by (intros ->; by eapply Hfu). unfold pg in *. lia.
  - intros x Hx. rewrite (kept_only f _ _ _ Ho) by (done || naive_solver). by apply Hb.
Qed.

(** What mapping the pages [l] does to the construction. *)
Definition grown (l : list user_page) (D : gset Z) (n : Z) (t t' : tables) (um : user_map) (s' : machine)
  : Prop :=
  building (D ∪ list_to_set (up_frame <$> l)) n t' (install l um) s' /\ t' KPml4 = t KPml4 /\
  NoDup (up_frame <$> l) /\ forall q, q ∈ l -> up_frame q ∉ D.

Lemma grown_nil D n t um s : building D n t um s -> grown [] D n t t um s.
Proof.
  intros Hb. split; [|split; [done|split; [constructor|set_solver]]]. simpl.
  by replace (D ∪ ∅) with D by set_solver.
Qed.
Lemma grown_trans l1 l2 D n1 n2 t t1 t2 um s1 s2 :
  grown l1 D n1 t t1 um s1 ->
  grown l2 (D ∪ list_to_set (up_frame <$> l1)) n2 t1 t2 (install l1 um) s2 ->
  grown (l1 ++ l2) D n2 t t2 um s2.
Proof.
  intros (_ & Hr1 & Hn1 & Hd1) (Hb & Hr2 & Hn2 & Hd2).
  assert (Hfresh : forall q, q ∈ l2 -> (up_frame q ∉ D) /\ up_frame q ∉ up_frame <$> l1).
  { intros q Hq%Hd2. set_solver. }
  split; [|split; [congruence|split]].
  - rewrite install_app, fmap_app, list_to_set_app_L. by rewrite (assoc_L (∪)).
  - rewrite fmap_app. apply NoDup_app. split; [done|]. split; [|done].
    intros f Hf (q & -> & Hq)%list_elem_of_fmap. by destruct (Hfresh q Hq).
  - intros q [Hq|Hq]%elem_of_app; [by apply Hd1|by apply Hfresh].
Qed.

(** One page: allocated, zeroed, and entered in its page table. *)
Lemma map_fresh_page D n t um (s : machine) u va w x :
  building D (n + 2) t um s -> 0 <= n -> t KPml4 = Some u -> 0 <= va < 0x80000000 ->
  exists f s1 p s2 t', alloc_table_or_halt s = Ret (pg f, s1) /\
    map_user_page (pg u) va (with_mem (fill (pmem s1) (pg f) 0 4096) s1) = Ret (pg p, s2) /\
    grown [mk_page (va / 4096) f w x] D n t t' um
      (set_entry (pg p) (table_index 12 va) (page_4k (pg f) w true x) s2).
Proof.
  intros Hb Hn Hu Hva. replace (n + 2) with (n + 1 + 1) in Hb by lia.
  destruct (alloc_data_spec D (n + 1) t um s Hb ltac:(lia)) as (f & s1 & Hs1 & HfD & Hok & Hz & Hb1).
  destruct (map_user_page_spec _ n t um _ u va Hb1 Hn Hu Hva) as (p & s2 & t' & Hs2 & Hp & Ht & Hz2 & Hb2).
  exists f, s1, p, s2, t'. split; [exact Hs1|]. split; [exact Hs2|]. clear Hs1 Hs2.
  destruct (walk_indices va Hva) as (_ & _ & _ & -> & Hr & Hv).
  assert (Hreg : va / 4096 / 512 = va / 0x200000) by dlia.
  split; [|split; [by apply Ht|split; [apply NoDup_singleton|]]].
  2: { by intros q ->%list_elem_of_singleton. }
  simpl.
  rewrite (right_id_L ∅ (∪)). assert (HfD' : f ∈ D ∪ {[f]}) by (clear; set_solver).
  assert (Hft : forall k, t' k <> Some f).
  { intros k Hk. destruct (b_any _ _ _ _ _ _ _ Hb2 Hk) as [[_ ?]|Hk']; [done|]. by destruct (b_t _ _ _ _ _ Hb2 k f Hk') as (_ & ? & _). }
  split; simpl; try apply Hb2.
  - destruct (b_t _ _ _ _ _ Hb2 (KPt (va / 0x200000)) p Hp) as (? & _). pose proof (b_k0 _ _ _ _ _ Hb2).
    eapply kernel_view_only_page; [apply Hb2|apply put_entry_only; dlia|naive_solver].
  - eapply (view_map _ _ _ (va / 4096)); try done.
    + apply Hb2.
    + dlia.
    + by rewrite Hreg.
    + intros v w' x' Hum%(b_u _ _ _ _ _ Hb). done.
  - intros v g w' x'. rewrite lookup_insert. case_decide.
    + by intros [= <- <- <-].
    + intros Hum%(b_u _ _ _ _ _ Hb). apply elem_of_union. by left.
  - assert (Hpage : forall g, g ∈ D ∪ {[f]} -> zero_page (pmem s2) g ->
      zero_page (put_entry (pmem s2) (pg p) ((va / 4096) mod 512) (page_4k (pg f) w true x)) g).
    { intros g Hg Hzg y Hy. rewrite (put_entry_only p); [by apply Hzg|dlia|].
      assert (g <> p); [|unfold pg in *; lia]. intros ->. by destruct (b_t _ _ _ _ _ Hb2 (KPt (va / 0x200000)) p Hp) as (_ & ? & _). }
    intros v g w' x'. rewrite lookup_insert. case_decide.
    + intros [= <- <- <-]. apply Hpage; [done|]. by apply Hz2.
    + intros Hum. apply Hpage; [by eapply (b_u _ _ _ _ _ Hb2)|by eapply (b_zero _ _ _ _ _ Hb2)].
  - destruct (b_t _ _ _ _ _ Hb2 (KPt (va / 0x200000)) p Hp) as (Hp0 & _ & HpL). intros y Hy.
    rewrite (kept_only p (pmem s2)) by (done || (apply put_entry_only; dlia)). by apply Hb2.
Qed.

#[local] Opaque alloc_table_or_halt map_user_page.

(** The page loop of a segment: [c] pages from page [v]. *)
Lemma map_segment_pages_spec (c : nat) fuel D n t um (s : machine) u v end_ flags acc :
  building D (n + 2 * Z.of_nat c) t um s -> 0 <= n -> t KPml4 = Some u -> (c < fuel)%nat ->
  0 <= v -> v + Z.of_nat c <= 524288 ->
  (if decide (c = 0%nat) then end_ <= pg v else pg (v + Z.of_nat c) - 4096 < end_ <= pg (v + Z.of_nat c)) ->
  exists l s' t',
    map_segment_pages fuel (pg u) (pg v) end_ flags acc s = Ret (acc ++ (phys_frame <$> l), s') /\
    rights <$> l = (fun v => (v, has 2 flags, has 1 flags)) <$> seqZ v (Z.of_nat c) /\
    grown l D n t t' um s'.
Proof.
  revert fuel D t um s v acc.
  induction c as [|c IH]; intros [|fuel] D t um s v acc Hb Hn Hu Hfuel Hv Hvc Hend; try lia; cbn [map_segment_pages].
  - rewrite decide_True in Hend by done. destruct (Z.ltb_spec (pg v) end_); [lia|].
    exists [], s, t. rewrite app_nil_r. split; [done|]. split; [done|].
    apply grown_nil. eapply building_weaken; [done|lia].
  - rewrite decide_False in Hend by done. destruct (Z.ltb_spec (pg v) end_); [|unfold pg in *; lia].
    replace (n + 2 * Z.of_nat (S c)) with (n + 2 * Z.of_nat c + 2) in Hb by lia.
    destruct (map_fresh_page D (n + 2 * Z.of_nat c) t um s u (pg v) (has 2 flags) (has 1 flags))
      as (f & s1 & p & s2 & t1 & Hs1 & Hs2 & Hg1); [done|lia|done|unfold pg; lia|].
    rewrite Hs1, bind_Ret, Hs2, bind_Ret. clear Hs1 Hs2.
    assert (Hvp : pg v / 4096 = v) by (unfold pg; dlia). rewrite Hvp in Hg1.
    replace (u64 (pg v + 4096)) with (pg (v + 1)) by (rewrite u64_small; unfold pg; lia).
    edestruct (IH fuel) as (l & s' & t2 & -> & Hl & Hg2); [apply Hg1|done|..]; try lia.
    + rewrite <- Hu. apply Hg1.
    + replace (v + 1 + Z.of_nat c) with (v + Z.of_nat (S c)) by lia. case_decide; [subst|done].
      replace (v + Z.of_nat 1) with (v + 1) in Hend by lia. lia.
    + exists (mk_page v f (has 2 flags) (has 1 flags) :: l), s', t2. split; [|split].
      * simpl. by rewrite <- (assoc_L (++)).
      * rewrite seqZ_cons by lia. cbn [fmap list_fmap]. rewrite Hl.
        by replace (Z.pred (Z.of_nat (S c))) with (Z.of_nat c) by lia.
      * exact (grown_trans _ _ _ _ _ _ _ _ _ _ _ Hg1 Hg2).
Qed.

(** The free frames are frames below the limit. *)
Lemma pool_size U n (fa : A) : pool U n fa -> Z.of_nat (size (fa_free fa)) <= MAX_FRAME_COUNT.
Proof.
  intros [H1 _ _ _ _]. pose proof (fa_limit_range _ H1) as HL.
  assert (Hsub : fa_free fa ⊆ list_to_set (seqZ 0 (fa_limit fa))).
  { intros f Hf. apply elem_of_list_to_set, elem_of_seqZ. pose proof (fa_free_range f _ H1 Hf). lia. }
  apply subseteq_size in Hsub. rewrite size_list_to_set, length_seqZ in Hsub by apply NoDup_seqZ.
  assert (0 <= MAX_FRAME_COUNT) by done. lia.
Qed.

Definition segment_ok (sg : segment) : Prop :=
  let '(vaddr, _, _, memsz, _) := sg in 0 <= vaddr /\ 0 <= memsz /\ vaddr + memsz <= 0x80000000.
Definition layout_size (segs : list segment) : Z := lenZ (concat (segment_layout <$> segs)).

Lemma map_segments_spec segs D n t um (s : machine) u acc :
  Forall segment_ok segs -> building D (n + 2 * layout_size segs) t um s -> 0 <= n -> t KPml4 = Some u ->
  exists l s' t', map_segments segs (pg u) acc s = Ret (acc ++ (phys_frame <$> l), s') /\
    rights <$> l = concat (segment_layout <$> segs) /\ grown l D n t t' um s'.
Proof.
  intros Hok. revert D t um s acc.
  induction Hok as [|[[[[vaddr dp] fsz] memsz] flags] segs (Hv & Hm & Hle) _ IH];
    intros D t um s acc Hb Hn Hu; cbn [map_segments].
  { exists [], s, t. rewrite app_nil_r. do 2 (split; [done|]). apply grown_nil.
    eapply building_weaken; [done|]. unfold layout_size, lenZ. simpl. lia. }
  unfold layout_size in *. cbn [fmap list_fmap concat segment_layout] in *.
  destruct (Z.eqb_spec memsz 0); [by apply IH|].
  set (v := vaddr / 4096). set (c := Z.to_nat ((vaddr + memsz + 4095) / 4096 - v)).
  assert (Hc : Z.of_nat c = (vaddr + memsz + 4095) / 4096 - v /\ (0 < c)%nat) by (unfold c, v; dlia).
  assert (Haddr : Z.land vaddr (not64 0xFFF) = pg v).
  { change 0xFFF with (2 ^ 12 - 1). by rewrite land_not64_ones by lia. }
  rewrite Haddr, u64_small by lia.
  unfold segment_pages in *. fold v in Hb |- *. rewrite <- (proj1 Hc) in Hb |- *.
  rewrite lenZ_app in Hb. unfold lenZ in Hb at 1. rewrite length_fmap, length_seqZ, Nat2Z.id in Hb.
  edestruct (map_segment_pages_spec c (Z.to_nat (MAX_FRAME_COUNT + 1)) D) as (l1 & s1 & t1 & -> & Hl1 & Hg1).
  - eapply building_weaken; [exact Hb|]. instantiate (1 := n + 2 * lenZ (concat (segment_layout <$> segs))).
    lia.
  - pose proof (lenZ_nonneg (concat (segment_layout <$> segs))). lia.
  - exact Hu.
  - destruct (b_pool _ _ _ _ _ Hb) as (U & _ & Hp). pose proof (pool_size _ _ _ Hp).
    pose proof (p_count _ _ _ Hp). pose proof (lenZ_nonneg (concat (segment_layout <$> segs))). lia.
  - unfold v. dlia.
  - unfold v in *. dlia.
  - rewrite decide_False by lia. destruct Hc as [-> _]. unfold pg.
    split; dlia.
  - rewrite bind_Ret.
    destruct (IH _ _ _ _ (acc ++ (phys_frame <$> l1)) (proj1 Hg1) Hn) as (l2 & s2 & t2 & -> & Hl2 & Hg2).
    { rewrite <- Hu. apply Hg1. }
    exists (l1 ++ l2), s2, t2. split; [|split].
    + by rewrite fmap_app, (assoc_L (++)).
    + rewrite fmap_app, Hl1, Hl2. done.
    + by eapply grown_trans.
Qed.

Lemma map_stack_spec D n t um (s : machine) u acc :
  building D (n + 2) t um s -> 0 <= n -> t KPml4 = Some u ->
  exists q s' t', map_stack (pg u) acc s = Ret (acc ++ [phys_frame q], s') /\
    rights q = (STACK_VADDR / 4096, true, false) /\ grown [q] D n t t' um s'.
Proof.
  intros Hb Hn Hu. unfold map_stack.
  destruct (map_fresh_page D n t um s u STACK_VADDR true false) as (f & s1 & p & s2 & t1 & Hs1 & Hs2 & Hg);
    [done|done|done|done|].
  rewrite Hs1, bind_Ret, Hs2, bind_Ret. clear Hs1 Hs2.
  exists (mk_page (STACK_VADDR / 4096) f true false). eexists _, t1. split; [done|]. by split.
Qed.

(** One page directory of the kernel is copied. *)
Lemma clone_pd_step U n j kd idxs p (s : machine) :
  pool U (n + 1) (frames s) -> 0 <= n -> kernel_view (pmem s) K -> k_pds K !! j = Some kd -> (p ∈ U) -> frame_ok p ->
  (p ∉ k_frames K) -> (forall f, f ∈ k_frames K -> f ∈ U) ->
  exists d s', clone_pds (j :: idxs) (pg (k_pdpt K)) (pg p) s = clone_pds idxs (pg (k_pdpt K)) (pg p) s' /\
    (d ∉ U) /\ frame_ok d /\ 0 <= d < L /\ pool (U ∪ {[d]}) n (frames s') /\
    KERNEL_PML4_PA s' = KERNEL_PML4_PA s /\ kernel_view (pmem s') K /\
    (forall g i, g <> d -> g <> p -> 0 <= i < 512 -> entry (pmem s') (pg g) i = entry (pmem s) (pg g) i) /\
    (forall i, 0 <= i < 512 -> entry (pmem s') (pg p) i =
       if i =? j then table_entry_user (pg d) else entry (pmem s) (pg p) i) /\
    (forall i, 0 <= i < 512 -> entry (pmem s') (pg d) i = kernel_pde K (j * 512 + i)) /\
    (forall x, ~ (pg d <= x < pg d + 4096) -> ~ (pg p <= x < pg p + 4096) -> load8 (pmem s') x = load8 (pmem s) x).
Proof.
  intros Hpool Hn Hk Hkd HpU Hpok HpK HKU. cbn [clone_pds]. pose proof (kv_pds _ _ Hk j kd Hkd) as Hj.
  assert (HkdK : kd ∈ k_frames K) by (by apply (k_table_frame K (KPd j))).
  rewrite (kv_pdpt _ _ Hk), Hkd by lia.
  rewrite !has_table_entry, land_table_entry by first [done | by eapply kv_ok]. simpl.
  destruct (alloc_table_spec U n s Hpool Hn) as (d & fa & -> & HdU & Hdok & HL & Hp'). simpl.
  destruct (zero_table_spec d (pmem s)) as [Hoz _].
  assert (Hne : kd <> d) by (intros <-; by apply HdU, HKU).
  destruct (copy_entries_spec 512 0 kd d (zero_table (pg d) (pmem s))) as [Hoc Hent];
    [exact Hne|lia|lia|].
  change (Z.of_nat 512) with 512 in *.
  pose proof (only_page_trans _ _ _ _ Hoz Hoc) as Ho.
  assert (Hent' : forall i, 0 <= i < 512 ->
    entry (copy_entries (seqZ 0 512) (pg kd) (pg d) (zero_table (pg d) (pmem s))) (pg d) i = kernel_pde K (j * 512 + i)).
  { intros i Hi. rewrite Hent by done. destruct (Z.leb_spec 0 i); [|lia].
    rewrite (only_page_entry d _ _ _ _ Hoz Hne Hi).
    rewrite <- (kv_pd _ _ Hk (j * 512 + i) kd); [by replace ((j * 512 + i) mod 512) with i by dlia|lia|].
    by replace ((j * 512 + i) / 512) with j by dlia. }
  clear Hoz Hoc Hent. set (m1 := copy_entries _ _ _ _) in *. clearbody m1.
  pose proof (put_entry_only p m1 j (table_entry_user (pg d)) ltac:(lia)) as Hop.
  assert (Hpd : p <> d) by congruence.
  eexists d, _. split; [done|]. split; [done|]. split; [done|]. split; [done|]. split; [done|].
  split; [done|]. simpl. split; [|split; [|split; [|split]]].
  - eapply kernel_view_only_page; [|done|done]. eapply kernel_view_only_page; [done|done|naive_solver].
  - intros g i Hgd Hgp Hi. rewrite (only_page_entry p m1) by done. by rewrite (only_page_entry d (pmem s)).
  - intros i Hi. rewrite entry_put_same by (lia || by apply table_entry_user_range).
    rewrite (only_page_entry d (pmem s)) by done. rewrite Z.eqb_sym. done.
  - intros i Hi. rewrite (only_page_entry p m1) by done. by apply Hent'.
  - intros x Hxd Hxp. by rewrite (Hop x), (Ho x).
Qed.

(** The copied directories [ds] of the indices done so far. *)
Record cloned (U : gset Z) (p : Z) (s0 : machine (A:=A)) (ds : gmap Z Z) (s : machine (A:=A)) : Prop := {
  cl_root : KERNEL_PML4_PA s = KERNEL_PML4_PA s0;
  cl_kernel : kernel_view (pmem s) K;
  cl_dirs : forall j d, ds !! j = Some d -> (d ∉ U) /\ frame_ok d /\ 0 <= d < L /\ is_Some (k_pds K !! j) /\
    forall i, 0 <= i < 512 -> entry (pmem s) (pg d) i = kernel_pde K (j * 512 + i);
  cl_inj : forall j j' d, ds !! j = Some d -> ds !! j' = Some d -> j = j';
  cl_pdpt : forall j, 0 <= j < 512 -> entry (pmem s) (pg p) j = match ds !! j with Some d => table_entry_user (pg d) | None => 0 end;
  cl_else : forall x, (forall j d, ds !! j = Some d -> ~ (pg d <= x < pg d + 4096)) -> ~ (pg p <= x < pg p + 4096) ->
    load8 (pmem s) x = load8 (pmem s0) x;
}.
(** The directories of the kernel among the indices [idxs]. *)
Definition dirs_in (idxs : list Z) : Z := lenZ (filter (fun j => is_Some (k_pds K !! j)) idxs).

Lemma dirs_in_cons j idxs : dirs_in (j :: idxs) = dirs_in idxs + (if decide (is_Some (k_pds K !! j)) then 1 else 0).
Proof. unfold dirs_in. rewrite filter_cons. case_decide; [rewrite lenZ_cons|]; lia. Qed.

Lemma clone_pds_spec U n p s0 idxs ds (s : machine) :
  p ∈ U -> frame_ok p -> (p ∉ k_frames K) -> (forall f, f ∈ k_frames K -> f ∈ U) -> 0 <= n ->
  Forall (fun j => 0 <= j < 512) idxs -> NoDup idxs -> (forall j, j ∈ idxs -> ds !! j = None) ->
  cloned U p s0 ds s -> pool (U ∪ map_img ds) (n + dirs_in idxs) (frames s) ->
  exists ds' s', clone_pds idxs (pg (k_pdpt K)) (pg p) s = Ret s' /\ cloned U p s0 ds' s' /\
    pool (U ∪ map_img ds') n (frames s') /\ forall j, is_Some (ds' !! j) <-> is_Some (ds !! j) \/ (j ∈ idxs /\ is_Some (k_pds K !! j)).
Proof.
  intros HpU Hpok HpK HKU Hn. revert ds s. induction idxs as [|j idxs IH]; intros ds s Hidx Hnd Hds Hc Hpool.
  { exists ds, s. cbn [clone_pds]. split; [done|]. split; [done|]. split; [eapply pool_weaken; [done|unfold dirs_in, lenZ; cbn; lia]|].
    intros j. split; [by left|]. intros [|[[]%elem_of_nil _]]; done. }
  apply Forall_cons in Hidx as [Hj Hidx]. apply NoDup_cons in Hnd as [Hnj Hnd]. rewrite dirs_in_cons in Hpool.
  assert (Hdn : 0 <= dirs_in idxs) by apply lenZ_nonneg. pose proof Hc as [C1 C2 C3 C4 C5 C6].
  destruct (k_pds K !! j) as [kd|] eqn:Hkd.
  - rewrite decide_True in Hpool by eauto.
    destruct (clone_pd_step (U ∪ map_img ds) (n + dirs_in idxs) j kd idxs p s)
      as (d & s1 & -> & HdU & Hdok & HdL & Hp1 & Hr1 & Hk1 & He1 & Hep1 & Hed1 & Hx1); try done; [by rewrite <- Z.add_assoc|lia|set_solver..|].
    assert (Hdd : forall j' d', ds !! j' = Some d' -> d' <> d).
    { intros j' d' Hj' ->. apply HdU, elem_of_union. right. apply elem_of_map_img. eauto. }
    assert (Hj0 : ds !! j = None) by (apply Hds; by left).
    assert (Hpd' : forall j' d', ds !! j' = Some d' -> d' <> p) by (intros j' d' Hj' ->; by destruct (C3 j' p Hj')).
    edestruct (IH (<[j := d]> ds) s1) as (ds' & s' & Hs' & Hc' & Hpool' & Hdom'); [done|done| | | |].
    + intros j' Hj'. rewrite lookup_insert_ne by (intros ->; done). apply Hds. by right.
    + split.
      * congruence.
      * done.
      * intros j' d' [[<- <-]|[Hne Hj']]%lookup_insert_Some.
        { split; [set_solver|]. split; [done|]. split; [done|]. split; [eauto|done]. }
        destruct (C3 j' d' Hj') as (X1 & X2 & X3 & X4 & X5). do 4 (split; [done|]). intros i Hi.
        rewrite He1 by (done || by eapply Hdd || by eapply Hpd'). by apply X5.
      * intros j1 j2 d' [[<- <-]|[Hne1 H1]]%lookup_insert_Some [[<- Heq]|[Hne2 H2]]%lookup_insert_Some; [done| | |by eapply C4].
        { by apply Hdd in H2. } { subst d'. by apply Hdd in H1. }
      * intros j' Hj'. rewrite Hep1 by done. rewrite lookup_insert. destruct (Z.eqb_spec j' j) as [->|].
        { by rewrite decide_True. } rewrite decide_False by done. by apply C5.
      * intros x Hx Hxp. rewrite Hx1; [|by apply (Hx j d), lookup_insert_eq|done]. apply C6; [|done]. intros j' d' Hj'.
        apply (Hx j'). rewrite lookup_insert_ne; [done|]. intros ->. congruence.
    + replace (U ∪ map_img (<[j := d]> ds)) with (U ∪ map_img ds ∪ {[d]}); [done|].
      rewrite (map_img_insert_notin_L (SA:=gset Z)) by done. set_solver.
    + exists ds', s'. split; [done|]. split; [done|]. split; [done|]. intros j'. rewrite Hdom', elem_of_cons, lookup_insert.
      case_decide; subst; naive_solver.
  - rewrite decide_False in Hpool by (by intros [? ?]). cbn [clone_pds]. rewrite (kv_pdpt _ _ C2), Hkd by done.
    change (has P_PRESENT 0) with false. cbn [negb].
    destruct (IH ds s) as (ds' & s' & Hs' & Hc' & Hpool' & Hdom'); [done|done| |done|by rewrite Z.add_0_r in Hpool|].
    { intros j' Hj'. apply Hds. by right. }
    exists ds', s'. split; [done|]. split; [done|]. split; [done|]. intros j'. rewrite Hdom', elem_of_cons.
    split; [naive_solver|]. intros [|[[->|] Hs]]; [by left| |by right]. rewrite Hkd in Hs. by destruct Hs.
Qed.

(** The tables of a fresh address space. *)
Definition fresh_tables (u p : Z) (ds : gmap Z Z) : tables := fun k =>
  match k with
  | KPml4 => Some u
  | KPdpt => Some p
  | KPd j => ds !! j
  | KPt _ => None
  | KShared r => k_pts K !! r
  end.

Lemma fresh_tables_view m u p ds :
  kernel_view m K -> u <> p -> frame_ok u -> frame_ok p -> (u ∉ k_frames K) -> (p ∉ k_frames K) ->
  (forall j d, ds !! j = Some d -> d <> u /\ d <> p /\ (d ∉ k_frames K) /\ frame_ok d /\
     forall i, 0 <= i < 512 -> entry m (pg d) i = kernel_pde K (j * 512 + i)) ->
  (forall j, is_Some (ds !! j) <-> is_Some (k_pds K !! j)) ->
  (forall j j' d, ds !! j = Some d -> ds !! j' = Some d -> j = j') ->
  (forall i, 0 <= i < 512 -> entry m (pg u) i = if i =? 0 then table_entry_user (pg p) else 0) ->
  (forall j, 0 <= j < 512 -> entry m (pg p) j = match ds !! j with Some d => table_entry_user (pg d) | None => 0 end) ->
  view m (fresh_tables u p ds) ∅.
Proof.
  intros Hk Hup Hu Hp HuK HpK Hds Hdom Hinj Heu Hep.
  assert (Hsh : forall r q, k_pts K !! r = Some q -> q ∈ k_frames K) by (intros r q Hq; by apply (k_table_frame K (KShared r))).
  split; try done.
  - by exists u, p.
  - intros p' [= <-] j Hj. by apply Hep.
  - intros j Hj. apply Hdom, (kv_low _ _ Hk). lia.
  - intros j [d Hd]%Hdom. by eapply kv_pds.
  - intros r d Hr Hd. cbn [fresh_tables] in *. destruct (Hds _ _ Hd) as (_ & _ & _ & _ & He). rewrite He by dlia.
    by replace (r / 512 * 512 + r mod 512) with r by dlia.
  - by intros r [? ?].
  - intros r q Hq. cbn [fresh_tables] in *. destruct (kv_pts _ _ Hk r q Hq) as [H1 H2]. split; [done|]. split; [by apply Hdom|].
    intros k Hk'. by eapply kv_pt.
  - intros [| |j|r|r] f; cbn [fresh_tables]; intros Hf; simplify_eq; [done|done|by eapply Hds|apply (kv_ok _ _ Hk); by eapply Hsh].
  - intros k1 k2 f H1 H2. destruct k1 as [| |j1|r1|r1], k2 as [| |j2|r2|r2]; cbn [fresh_tables] in *; simplify_eq; try done;
      try (by destruct (Hds _ _ H1) as (? & ? & ? & _)); try (by destruct (Hds _ _ H2) as (? & ? & ? & _));
      try (by apply Hsh in H1); try (by apply Hsh in H2).
    + f_equal. by eapply Hinj.
    + destruct (Hds _ _ H1) as (_ & _ & Hn & _). by apply Hsh in H2.
    + destruct (Hds _ _ H2) as (_ & _ & Hn & _). by apply Hsh in H1.
    + apply (kv_inj _ _ Hk (KShared r1) (KShared r2) f); done.
Qed.

#[local] Opaque zero_table seqZ clone_pds entry put_entry.

(** The number of page directories the kernel has. *)
Lemma dirs_in_all m : kernel_view m K -> dirs_in (seqZ 0 512) = Z.of_nat (size (k_pds K)).
Proof.
  intros Hk. unfold dirs_in, lenZ. f_equal. rewrite <- (size_dom (D:=gset Z)).
  assert (Hnd : NoDup (filter (fun j => is_Some (k_pds K !! j)) (seqZ 0 512))) by (apply NoDup_filter, NoDup_seqZ).
  rewrite <- (size_list_to_set (C:=gset Z)) by done. f_equal. apply set_eq. intros j.
  rewrite elem_of_list_to_set, list_elem_of_filter, elem_of_dom, elem_of_seqZ. split; [tauto|].
  intros [d Hd]. split; [eauto|]. pose proof (kv_pds _ _ Hk j d Hd). lia.
Qed.

(** Step 1 of [create_user_page_tables] gives a private copy of the kernel's
    address space, but for the page tables. *)
Lemma clone_kernel_spec n (s : machine) :
  pool U0 (n + (2 + Z.of_nat (size (k_pds K)))) (frames s) -> 0 <= n -> KERNEL_PML4_PA s = pg (k_pml4 K) -> kernel_view (pmem s) K ->
  (forall f, f ∈ k_frames K -> f ∈ U0) ->
  pmem s = m0 ->
  exists u s' t, clone_kernel s = Ret (pg u, s') /\ t KPml4 = Some u /\ building ∅ n t ∅ s'.
Proof.
  intros Hpool Hn Hroot Hk HK0 Hm0. unfold clone_kernel. rewrite <- (dirs_in_all _ Hk) in Hpool.
  assert (Hdn : 0 <= dirs_in (seqZ 0 512)) by apply lenZ_nonneg.
  replace (n + (2 + dirs_in (seqZ 0 512))) with (n + dirs_in (seqZ 0 512) + 1 + 1) in Hpool by lia.
  destruct (alloc_table_spec U0 (n + dirs_in (seqZ 0 512) + 1) s Hpool ltac:(lia)) as (u & fa & -> & Hu0 & Hu & HuL & Hp1).
  rewrite bind_Ret. clear Hpool. mach_simpl.
  destruct (zero_table_spec u (pmem s)) as [Hou Hzu]. set (m1 := zero_table (pg u) (pmem s)) in *. clearbody m1.
  assert (HKu : u ∉ k_frames K) by (by intros ?%HK0).
  assert (Hk1 : kernel_view m1 K) by (by eapply kernel_view_only_page).
  rewrite Hroot, (kv_pml4 _ _ Hk1).
  rewrite land_table_entry by (apply (kv_ok _ _ Hk), (k_table_frame K KPdpt); done).
  edestruct (alloc_table_spec (U0 ∪ {[u]}) (n + dirs_in (seqZ 0 512)) (mk_machine m1 fa (pg (k_pml4 K))))
    as (p & fb & -> & Hp0 & Hp & HpL & Hp2); [done|lia|].
  rewrite bind_Ret. clear Hp1. mach_simpl.
  destruct (zero_table_spec p m1) as [Hop Hzp]. set (m2 := zero_table (pg p) m1) in *. clearbody m2.
  assert (HpU : p ∉ U0) by set_solver. assert (Hup : u <> p) by set_solver. assert (HKp : p ∉ k_frames K) by (by intros ?%HK0).
  assert (Hk2 : kernel_view m2 K) by (by eapply kernel_view_only_page).
  destruct (clone_pds_spec (U0 ∪ {[u]} ∪ {[p]}) n p (mk_machine m2 fb (pg (k_pml4 K))) (seqZ 0 512) ∅ (mk_machine m2 fb (pg (k_pml4 K))))
    as (ds & s1 & -> & [C1 C2 C3 C4 C5 C6] & Hp3 & Hdom); try done.
  { set_solver. } { intros f Hf%HK0. set_solver. }
  { apply Forall_forall. intros j Hj%elem_of_seqZ. lia. } { apply NoDup_seqZ. }
  { cbn [frames]. by rewrite map_img_empty_L, (right_id_L ∅ (∪)). }
  rewrite bind_Ret. eexists u, _, (fresh_tables u p ds). split; [done|]. split; [done|].
  assert (Hput : only_page u (pmem s1) (put_entry (pmem s1) (pg u) 0 (table_entry_user (pg p))))
    by (apply put_entry_only; lia).
  assert (Hdn' : forall j d, ds !! j = Some d -> (d ∉ U0) /\ d <> u /\ d <> p).
  { intros j d Hd. destruct (C3 j d Hd) as (Hd' & _). set_solver. }
  assert (Hk3 : kernel_view (put_entry (pmem s1) (pg u) 0 (table_entry_user (pg p))) K) by (by eapply kernel_view_only_page).
  assert (Hdom' : forall j, is_Some (ds !! j) <-> is_Some (k_pds K !! j)).
  { intros j. rewrite Hdom, lookup_empty. split; [intros [[? ?]|[_ ?]]; done|]. intros [d Hd]. right.
    pose proof (kv_pds _ _ Hk j d Hd). split; [apply elem_of_seqZ; lia|eauto]. }
  mach_simpl. split; mach_simpl; try done.
  - eexists. split; [|exact Hp3]. intros g. rewrite !elem_of_union, !elem_of_singleton, elem_of_map_img. split.
    + intros [[[Hg| ->]| ->]|[j Hj]]; [by left|do 2 right; by exists KPml4|do 2 right; by exists KPdpt|do 2 right; by exists (KPd j)].
    + intros [Hg|[Hg|[k Hg]]]; [by do 3 left|by apply not_elem_of_empty in Hg|]. destruct k; cbn in Hg; simplify_eq; eauto.
  - apply fresh_tables_view; try done.
    + intros j d Hd. destruct (Hdn' j d Hd) as (D1 & D2 & D3). destruct (C3 j d Hd) as (_ & D4 & _ & _ & D5).
      split; [done|]. split; [done|]. split; [by intros ?%HK0|]. split; [done|]. intros i Hi.
      rewrite (only_page_entry u (pmem s1)) by done. by apply D5.
    + intros i Hi. rewrite entry_put_same by (lia || by apply table_entry_user_range). rewrite Z.eqb_sym. zcase; [done|].
      assert (E : entry (pmem s1) (pg u) i = entry m2 (pg u) i).
      { apply entry_ext; [|done]. intros x Hx. apply C6; [|unfold pg in *; lia]. intros j d Hd. destruct (Hdn' j d Hd) as (_ & D2 & _). unfold pg in *. lia. }
      rewrite E, (only_page_entry p m1) by done. by apply Hzu.
    + intros j Hj. rewrite (only_page_entry u (pmem s1)) by done. by apply C5.
  - intros [| |j|r|r] f Hf; cbn in Hf; simplify_eq; [split; [done|]; split; [set_solver|done]..|].
    destruct (Hdn' j f Hf) as (D1 & _). destruct (C3 j f Hf) as (_ & _ & D4 & _). split; [done|]. split; [set_solver|done].
  - intros x Hx. rewrite (kept_only u _ _ _ Hput Hu0 HuL Hx), C6.
    + mach_simpl. rewrite (kept_only p _ _ _ Hop HpU HpL Hx), (kept_only u _ _ _ Hou Hu0 HuL Hx). by rewrite Hm0.
    + intros j d Hd. destruct (C3 j d Hd) as (_ & _ & D4 & _). destruct (Hdn' j d Hd) as (D1 & _). by apply Hx.
    + by apply Hx.
Qed.

(** Frames for the tables of a task and the page table of its stack. *)
Definition space_cost : Z := 4 + Z.of_nat (size (k_pds K)).

Lemma create_spec n segs (s : machine) :
  0 <= n -> pool U0 (n + (space_cost + 2 * layout_size segs)) (frames s) -> Forall segment_ok segs ->
  KERNEL_PML4_PA s = pg (k_pml4 K) -> kernel_view (pmem s) K -> (forall f, f ∈ k_frames K -> f ∈ U0) -> pmem s = m0 ->
  exists u l s' t, create_user_page_tables segs s = Ret (pg u, phys_frame <$> l, s') /\
    rights <$> l = layout segs /\ t KPml4 = Some u /\ NoDup (up_frame <$> l) /\
    building (list_to_set (up_frame <$> l)) n t (install l ∅) s'.
Proof.
  intros Hn Hpool Hok Hroot Hk HK Hm0. unfold create_user_page_tables.
  assert (Hsz : 0 <= layout_size segs) by apply lenZ_nonneg.
  destruct (clone_kernel_spec (n + 2 + 2 * layout_size segs) s) as (u & s1 & t1 & -> & Hu & Hb1);
    [|lia|done..|]. { eapply pool_weaken; [done|unfold space_cost; lia]. }
  rewrite bind_Ret.
  destruct (map_segments_spec segs ∅ (n + 2) t1 ∅ s1 u [] Hok Hb1 ltac:(lia) Hu) as (l & s2 & t2 & -> & Hl & Hg2).
  rewrite bind_Ret. cbn [app].
  assert (Hu2 : t2 KPml4 = Some u) by (rewrite <- Hu; apply Hg2).
  destruct (map_stack_spec _ n t2 _ s2 u (phys_frame <$> l) (proj1 Hg2) ltac:(lia) Hu2)
    as (q & s3 & t3 & -> & Hq & Hg3).
  rewrite bind_Ret. pose proof (grown_trans _ _ _ _ _ _ _ _ _ _ _ Hg2 Hg3) as (Hb & Hr & Hnd & _).
  exists u, (l ++ [q]), s3, t3. split; [by rewrite fmap_app|]. split; [|split; [|split]].
  - rewrite fmap_app, Hl. unfold layout. simpl. by rewrite Hq.
  - by rewrite Hr.
  - done.
  - by rewrite (left_id_L ∅ (∪)) in Hb.
Qed.

End build.

(** ** Freeing *)

(** The processor's user bit tells the task's entry from the kernel's. *)
Lemma user_entry_differs f g : frame_ok f -> frame_ok g -> table_entry_user (pg f) <> table_entry (pg g).
Proof.
  intros Hf Hg Heq. pose proof (has_table_entry_user f P_USER Hf ltac:(done)) as H1.
  pose proof (has_table_entry g P_USER Hg ltac:(done)) as H2. rewrite Heq, H2 in H1. done.
Qed.

Section free.
Context {A : Type} `{FrameAllocator A}.
Variables (K : kernel_tables) (L : Z) (F : gset Z) (t : tables) (um : user_map) (m : memory).
Hypotheses (Hview : view m t um) (Hkernel : kernel_view m K).
Hypothesis Ht : forall k f, t k = Some f -> 0 <= f < L.

Lemma dealloc_pa_free f (s : machine (A:=A)) :
  fa_inv (frames s) -> frame_ok f -> 0 <= f < fa_limit (frames s) ->
  exists s', dealloc_pa (pg f) s = Ret s' /\ pmem s' = pmem s /\ KERNEL_PML4_PA s' = KERNEL_PML4_PA s /\
    fa_inv (frames s') /\ fa_limit (frames s') = fa_limit (frames s) /\ fa_free (frames s') = fa_free (frames s) ∪ {[f]}.
Proof.
  intros Hinv Hok HL. unfold dealloc_pa. rewrite from_addr_pg by done.
  destruct (fa_dealloc_ok f (frames s) Hinv HL) as (fa & -> & Hinv' & Hlim & Hfree). eexists. split; [done|]. by split_and!.
Qed.

(** The machine with the same memory, where the tables of the kinds [P] are
    free beside the frames [F]. *)
Definition held (P : kind -> Prop) (s : machine (A:=A)) : Prop :=
  pmem s = m /\ KERNEL_PML4_PA s = pg (k_pml4 K) /\ fa_inv (frames s) /\ fa_limit (frames s) = L /\
  forall g, g ∈ fa_free (frames s) <-> g ∈ F \/ exists k, P k /\ t k = Some g.

Lemma held_ext (P Q : kind -> Prop) s : (forall k, is_Some (t k) -> P k <-> Q k) -> held P s -> held Q s.
Proof.
  intros HPQ (H1 & H2 & H3 & H4 & H5). do 4 (split; [done|]). intros g. rewrite H5. f_equiv.
  split; intros (k & Hk & Htk); exists k; (split; [apply HPQ; eauto|done]).
Qed.

(** One table is freed. *)
Lemma held_free (P : kind -> Prop) k f s :
  t k = Some f -> held P s -> exists s', dealloc_pa (pg f) s = Ret s' /\ held (fun k' => P k' \/ k' = k) s'.
Proof.
  intros Hk (H1 & H2 & H3 & H4 & H5).
  destruct (dealloc_pa_free f s) as (s' & E & M1 & M2 & M3 & M4 & M5); [done|by eapply v_ok|rewrite H4; by eapply Ht|].
  exists s'. split; [done|]. split; [congruence|]. split; [congruence|]. split; [done|]. split; [congruence|].
  intros g. rewrite M5, elem_of_union, elem_of_singleton, H5. split.
  - intros [[?|(k' & ? & ?)]| ->]; [by left|right; exists k'; split; [by left|done]|right; exists k; split; [by right|done]].
  - intros [?|(k' & [?| ->] & Hk')]; [by left; left|left; right; eauto|right; congruence].
Qed.

(** The 2 MiB region of a page table. *)
Definition region (k : kind) : option Z := match k with KPt r | KShared r => Some r | _ => None end.
Definition dir_of (k : kind) : option Z := match k with KPd j => Some j | _ => (fun r => r / 512) <$> region k end.

(** The page tables of directory [j]. *)
Lemma free_pts_spec j d idxs (P : kind -> Prop) s :
  t (KPd j) = Some d -> Forall (fun i => 0 <= i < 512) idxs -> held P s ->
  exists s', free_pts idxs (pg d) s = Ret s' /\ held (fun k => P k \/ exists i, i ∈ idxs /\ region k = Some (j * 512 + i)) s'.
Proof.
  intros Hd Hidx. revert P s.
  induction Hidx as [|i idxs Hi _ IH]; intros P s Hheld; cbn [free_pts].
  { exists s. split; [done|]. eapply held_ext; [|done]. intros k _. split; [by left|]. intros [|(i & []%elem_of_nil & _)]. done. }
  assert (Hj : 0 <= j < 512) by (apply (v_pds _ _ _ Hview); eauto).
  pose proof (v_pd _ _ _ Hview (j * 512 + i) d ltac:(lia)) as He.
  replace ((j * 512 + i) / 512) with j in He by dlia. replace ((j * 512 + i) mod 512) with i in He by dlia.
  rewrite (proj1 Hheld), (He Hd).
  assert (Hnext : forall s', held (fun k => P k \/ region k = Some (j * 512 + i)) s' ->
    exists s'', free_pts idxs (pg d) s' = Ret s'' /\ held (fun k => P k \/ exists i', i' ∈ i :: idxs /\ region k = Some (j * 512 + i')) s'').
  { intros s' Hh. destruct (IH _ s' Hh) as (s'' & Hs'' & Hh''). exists s''. split; [done|]. eapply held_ext; [|exact Hh''].
    intros k _. setoid_rewrite elem_of_cons. split; [intros [[|]|(i' & ? & ?)]|intros [|(i' & [->|] & ?)]]; eauto. }
  destruct (t (KPt (j * 512 + i))) as [p|] eqn:Hp.
  - rewrite !has_table_entry_user, land_table_entry_user by first [done | by eapply v_ok]. simpl.
    destruct (held_free P _ p s Hp Hheld) as (s1 & -> & Hs1). rewrite bind_Ret. apply Hnext.
    eapply held_ext; [|exact Hs1]. intros k [x Hx]. f_equiv. split; [by intros ->|]. destruct k as [| | |r|r]; cbn; intros [= ->]; [done|].
    destruct (v_shared _ _ _ Hview _ _ Hx) as [? _]. pose proof (v_pts _ _ _ Hview _ ltac:(eauto)). lia.
  - assert (Hskip : (forall q, t (KShared (j * 512 + i)) <> Some q) -> held (fun k => P k \/ region k = Some (j * 512 + i)) s).
    { intros Hno. eapply held_ext; [|exact Hheld]. intros k [x Hx]. split; [by left|]. intros [|Hr]; [done|].
      destruct k as [| | |r|r]; cbn in Hr; simplify_eq. by eapply Hno in Hx. }
    destruct (Z.ltb_spec (j * 512 + i) 1024).
    + rewrite !has_page_2mb by (lia || done). simpl. apply Hnext, Hskip. intros q Hq.
      destruct (v_shared _ _ _ Hview _ _ Hq) as [? _]. lia.
    + destruct (t (KShared (j * 512 + i))) as [q|] eqn:Hq.
      * rewrite !has_table_entry, land_table_entry by first [done | by eapply v_ok]. simpl.
        destruct (held_free P _ q s Hq Hheld) as (s1 & -> & Hs1). rewrite bind_Ret. apply Hnext.
        eapply held_ext; [|exact Hs1]. intros k [x Hx]. f_equiv. split; [by intros ->|]. destruct k as [| | |r|r]; cbn; intros [= ->]; [congruence|done].
      * simpl. apply Hnext, Hskip. done.
Qed.

#[local] Opaque seqZ free_pts.

Lemma free_pds_spec p idxs (P : kind -> Prop) s :
  t KPdpt = Some p -> Forall (fun j => 0 <= j < 512) idxs -> held P s ->
  exists s', free_pds idxs (pg p) s = Ret s' /\ held (fun k => P k \/ exists j, j ∈ idxs /\ dir_of k = Some j) s'.
Proof.
  intros Hp Hidx. revert P s.
  induction Hidx as [|j idxs Hj _ IH]; intros P s Hheld; cbn [free_pds].
  { exists s. split; [done|]. eapply held_ext; [|done]. intros k _. split; [by left|]. intros [|(i & []%elem_of_nil & _)]. done. }
  rewrite (proj1 Hheld), (v_pdpt _ _ _ Hview p Hp j Hj).
  assert (Hnext : forall s', held (fun k => P k \/ dir_of k = Some j) s' ->
    exists s'', free_pds idxs (pg p) s' = Ret s'' /\ held (fun k => P k \/ exists j', j' ∈ j :: idxs /\ dir_of k = Some j') s'').
  { intros s' Hh. destruct (IH _ s' Hh) as (s'' & Hs'' & Hh''). exists s''. split; [done|]. eapply held_ext; [|exact Hh''].
    intros k _. setoid_rewrite elem_of_cons. split; [intros [[|]|(i' & ? & ?)]|intros [|(i' & [->|] & ?)]]; eauto. }
  destruct (t (KPd j)) as [d|] eqn:Hd.
  - rewrite !has_table_entry_user, land_table_entry_user by first [done | by eapply v_ok]. simpl.
    destruct (free_pts_spec j d (seqZ 0 512) P s Hd) as (s1 & -> & Hs1).
    { apply Forall_forall. intros i Hi%elem_of_seqZ. lia. } { done. }
    rewrite bind_Ret. destruct (held_free _ _ _ _ Hd Hs1) as (s2 & -> & Hs2). rewrite bind_Ret. apply Hnext.
    eapply held_ext; [|exact Hs2]. intros k _. split.
    + intros [[|(i & Hi%elem_of_seqZ & Hr)]| ->]; [by left| |by right]. right. unfold dir_of.
      destruct k as [| |j'|r|r]; cbn in *; simplify_eq; f_equal; dlia.
    + intros [|Hdir]; [by left; left|]. destruct k as [| |j'|r|r]; cbn in Hdir; simplify_eq; [by right|..]; left; right;
        exists (r mod 512); (split; [apply elem_of_seqZ; dlia|]); cbn; f_equal; dlia.
  - simpl. apply Hnext. eapply held_ext; [|exact Hheld]. intros k [f Hk]. split; [by left|]. intros [|Hdir]; [done|]. exfalso.
    destruct k as [| |j'|r|r]; cbn in Hdir; simplify_eq.
    + pose proof (v_pts _ _ _ Hview r ltac:(eauto)) as Hr. destruct (v_low _ _ _ Hview (r / 512)); [dlia|]. congruence.
    + destruct (v_shared _ _ _ Hview r f Hk) as (_ & [? ?] & _). congruence.
Qed.

Lemma free_pdpts_skip idxs pml4 (s : machine (A:=A)) :
  Forall (fun i => entry (pmem s) pml4 i = 0) idxs -> free_pdpts idxs pml4 s = Ret s.
Proof. induction 1 as [|i idxs He _ IH]; cbn [free_pdpts]; [done|]. by rewrite He. Qed.

#[local] Opaque free_pds dealloc_pa.

Lemma free_user_page_tables_spec u (s : machine (A:=A)) :
  t KPml4 = Some u -> pmem s = m -> KERNEL_PML4_PA s = pg (k_pml4 K) -> fa_inv (frames s) -> fa_limit (frames s) = L ->
  fa_free (frames s) = F ->
  exists s', free_user_page_tables (pg u) s = Ret s' /\ pmem s' = m /\ KERNEL_PML4_PA s' = pg (k_pml4 K) /\
    fa_inv (frames s') /\ fa_limit (frames s') = L /\
    forall g, g ∈ fa_free (frames s') <-> g ∈ F \/ exists k, t k = Some g.
Proof.
  intros Hu Hm Hr Hinv HL HF. unfold free_user_page_tables.
  destruct (v_pml4 _ _ _ Hview) as (u' & p & Hu' & Hp & He). rewrite Hu in Hu'. injection Hu' as <-.
  assert (Hheld : held (fun _ => False) s).
  { do 4 (split; [done|]). intros g. rewrite HF. split; [by left|]. intros [|(? & [] & _)]. done. }
  assert (Hidx : Forall (fun j => 0 <= j < 512) (seqZ 0 512)) by (apply Forall_forall; intros i Hi%elem_of_seqZ; lia).
  destruct (free_pds_spec p (seqZ 0 512) _ s Hp Hidx Hheld) as (s1 & Hs1 & Hh1).
  destruct (held_free _ _ _ _ Hp Hh1) as (s2 & Hs2 & Hh2). destruct (held_free _ _ _ _ Hu Hh2) as (s3 & Hs3 & Hh3).
  rewrite (seqZ_cons 0 512) by lia. cbn [free_pdpts].
  rewrite Hm, Hr, He, (kv_pml4 _ _ Hkernel) by lia. change (0 =? 0) with true. cbv iota.
  assert (Hpok : frame_ok p) by (by eapply v_ok).
  rewrite has_table_entry_user, land_table_entry_user by done.
  destruct (Z.eqb_spec (table_entry_user (pg p)) (table_entry (pg (k_pdpt K)))) as [Heq|_].
  { exfalso. apply user_entry_differs in Heq; [done|done|]. apply (kv_ok _ _ Hkernel). by apply (k_table_frame K KPdpt). }
  change (has P_PRESENT 7) with true. cbn [negb].
  rewrite Hs1, bind_Ret, Hs2, bind_Ret, free_pdpts_skip, bind_Ret, Hs3.
  2: { apply Forall_forall. intros i Hi%elem_of_seqZ. rewrite (proj1 Hh2), He by lia. by zcase; [lia|]. }
  exists s3. split; [done|]. destruct Hh3 as (H1 & H2 & H3 & H4 & H5). do 4 (split; [done|]).
  intros g. rewrite H5. f_equiv. split; [intros (k & _ & ?); eauto|]. intros [k Hk]. exists k. split; [|done].
  destruct k as [| |j|r|r]; [by right|by left; right|left; left; right..].
  - exists j. split; [|done]. apply elem_of_seqZ. pose proof (v_pds _ _ _ Hview j ltac:(eauto)). lia.
  - exists (r / 512). split; [|done]. apply elem_of_seqZ. pose proof (v_pts _ _ _ Hview r ltac:(eauto)). dlia.
  - exists (r / 512). split; [|done]. apply elem_of_seqZ. destruct (v_shared _ _ _ Hview r g Hk) as [? _]. dlia.
Qed.
End free.

(** ** What the processor and the kernel see *)

Lemma has_nx_entry q f : 0 <= q < 2 ^ 40 -> has P_NX (Z.lor (q * 4096) f) = has P_NX f.
Proof.
  intros Hq. unfold has. do 2 f_equal. rewrite Z.land_lor_distr_l.
  assert (Z.land (q * 4096) P_NX = 0) as ->; [|done].
  apply Z.bits_inj'. intros j Hj. rewrite Z.land_spec, Z.bits_0. change P_NX with (2 ^ 63).
  rewrite Z.pow2_bits_eqb by lia. destruct (Z.eqb_spec 63 j); [|apply andb_false_r].
  rewrite (below_bits _ 52) by lia. done.
Qed.

Lemma has_table_flags f :
  frame_ok f -> has P_PRESENT (table_entry (pg f)) = true /\ has P_SIZE (table_entry (pg f)) = false /\
    has P_USER (table_entry (pg f)) = false /\ has P_WRITE (table_entry (pg f)) = true /\
    has P_NX (table_entry (pg f)) = false.
Proof.
  intros Hf. rewrite !has_table_entry by done. split_and!; try done.
  apply frame_ok_lt in Hf. rewrite table_entry_eq. unfold pg. rewrite has_nx_entry by lia. done.
Qed.

(** The translation the view promises for an address below 2 GiB. *)
Definition promised (um : user_map) (va : Z) : translation :=
  match um !! (va / 4096) with
  | Some (f, w, x) => mk_translation (pg f + va mod 4096) true w x
  | None => mk_translation va false true true
  end.

Section walk.
Variables (m : memory) (t : tables) (um : user_map) (u : Z).
Hypotheses (Hview : view m t um) (Hu : t KPml4 = Some u).

(** The entries on the path of an address below 2 GiB. *)
Lemma view_path va :
  0 <= va < 0x80000000 ->
  exists p d, frame_ok p /\ frame_ok d /\
    entry m (pg u) (table_index 39 va) = table_entry_user (pg p) /\
    entry m (pg p) (table_index 30 va) = table_entry_user (pg d) /\
    ((um !! (va / 4096) = None /\
      entry m (pg d) (table_index 21 va) = page_2mb (va / 0x200000 * 0x200000)) \/
     exists q, frame_ok q /\ entry m (pg d) (table_index 21 va) = table_entry_user (pg q) /\
       entry m (pg q) (table_index 12 va) = pte (va / 4096) (um !! (va / 4096))).
Proof.
  intros Hva. destruct (walk_indices va Hva) as (-> & -> & -> & -> & Hr & Hv).
  destruct (v_pml4 _ _ _ Hview) as (u' & p & Hu' & Hp & He). rewrite Hu in Hu'. injection Hu' as <-.
  set (r := va / 0x200000) in *.
  assert (Hj : 0 <= r / 512 < 2) by dlia. destruct (v_low _ _ _ Hview (r / 512) Hj) as [d Hd].
  exists p, d. split; [by eapply v_ok|]. split; [by eapply v_ok|]. split; [by rewrite He by lia|].
  split. { rewrite (v_pdpt _ _ _ Hview p Hp) by lia. by rewrite Hd. }
  rewrite (v_pd _ _ _ Hview r d ltac:(lia) Hd). destruct (t (KPt r)) as [q|] eqn:Hq; [|destruct (Z.ltb_spec r 1024); [|lia]].
  - right. exists q. split; [by eapply v_ok|]. split; [done|].
    rewrite (v_pt _ _ _ Hview r q _ Hq) by dlia. by rewrite Hv.
  - left. split; [|done]. destruct (um !! (va / 4096)) as [[[f w] x]|] eqn:Hum; [|done].
    destruct (v_um _ _ _ Hview _ _ _ _ Hum) as (_ & [q' Hq'] & _).
    replace (va / 4096 / 512) with r in Hq' by (unfold r; dlia). congruence.
Qed.

(** Above 2 GiB there is nothing but the page tables of the kernel. *)
Lemma view_high va :
  0x80000000 <= va < 2 ^ 48 ->
  let e1 := entry m (pg u) (table_index 39 va) in
  (e1 = 0 /\ 0x8000000000 <= va) \/
  exists p, e1 = table_entry_user (pg p) /\ va < 0x8000000000 /\ frame_ok p /\
    let e2 := entry m (pg p) (table_index 30 va) in
    (e2 = 0 /\ t (KPd (va / 0x40000000)) = None) \/
    exists d, e2 = table_entry_user (pg d) /\ t (KPd (va / 0x40000000)) = Some d /\ frame_ok d /\
      let e3 := entry m (pg d) (table_index 21 va) in
      (e3 = 0 /\ t (KShared (va / 0x200000)) = None) \/
      exists q, e3 = table_entry (pg q) /\ t (KShared (va / 0x200000)) = Some q /\ frame_ok q.
Proof.
  intros Hva e1. destruct (v_pml4 _ _ _ Hview) as (u' & p & Hu' & Hp & He). rewrite Hu in Hu'. injection Hu' as <-.
  assert (Hpok : frame_ok p) by (by eapply v_ok).
  subst e1. rewrite !table_index_eq, He by (lia || (apply Z.mod_pos_bound; lia)).
  change (2 ^ 39) with 549755813888. change (2 ^ 30) with 1073741824. change (2 ^ 21) with 2097152. change (2 ^ 48) with 281474976710656 in Hva.
  destruct (Z.eqb_spec ((va / 549755813888) mod 512) 0) as [Hz|]; [|left; split; [done|dlia]]. right.
  exists p. split; [done|]. split; [dlia|]. split; [done|].
  rewrite (v_pdpt _ _ _ Hview p Hp) by (apply Z.mod_pos_bound; lia).
  replace ((va / 1073741824) mod 512) with (va / 1073741824) by dlia.
  destruct (t (KPd (va / 1073741824))) as [d|] eqn:Hd; [|by left]. right.
  exists d. do 2 (split; [done|]). split; [by eapply v_ok|].
  pose proof (v_pd _ _ _ Hview (va / 2097152) d) as Hpd. replace (va / 2097152 / 512) with (va / 1073741824) in Hpd by dlia.
  rewrite Hpd by (done || dlia). destruct (t (KPt (va / 2097152))) eqn:Hpt.
  { pose proof (v_pts _ _ _ Hview _ (mk_is_Some _ _ Hpt)). dlia. }
  destruct (Z.ltb_spec (va / 2097152) 1024); [dlia|]. destruct (t (KShared (va / 2097152))) as [q|] eqn:Hq; [|by left]. right.
  exists q. do 2 (split; [done|]). by eapply v_ok.
Qed.

Lemma has_table_user_flags f :
  frame_ok f -> has P_PRESENT (table_entry_user (pg f)) = true /\ has P_SIZE (table_entry_user (pg f)) = false /\
    has P_USER (table_entry_user (pg f)) = true /\ has P_WRITE (table_entry_user (pg f)) = true /\
    has P_NX (table_entry_user (pg f)) = false.
Proof.
  intros Hf. rewrite !has_table_entry_user by done. split_and!; try done.
  apply frame_ok_lt in Hf. rewrite table_entry_user_eq. unfold pg. rewrite has_nx_entry by lia. done.
Qed.
Lemma has_2mb_flags r :
  0 <= r < 1024 -> has P_PRESENT (page_2mb (r * 0x200000)) = true /\ has P_SIZE (page_2mb (r * 0x200000)) = true /\
    has P_USER (page_2mb (r * 0x200000)) = false /\ has P_WRITE (page_2mb (r * 0x200000)) = true /\
    has P_NX (page_2mb (r * 0x200000)) = false.
Proof.
  intros Hr. rewrite !has_page_2mb by (lia || done). split_and!; try done.
  rewrite page_2mb_eq. replace (r * 0x200000) with (r * 512 * 4096) by lia. by rewrite has_nx_entry by lia.
Qed.
Lemma has_4k_flags v w us x :
  0 <= v < 2 ^ 40 -> has P_PRESENT (page_4k (pg v) w us x) = true /\ has P_USER (page_4k (pg v) w us x) = us /\
    has P_WRITE (page_4k (pg v) w us x) = w /\ has P_NX (page_4k (pg v) w us x) = negb x /\
    Z.land (page_4k (pg v) w us x) ADDR_MASK = pg v.
Proof.
  intros Hv. rewrite !has_page_4k by (lia || done). rewrite page_4k_eq. unfold pg. rewrite has_nx_entry by done.
  rewrite land_entry_addr by (done || apply page_flags_bits). by destruct w, us, x.
Qed.

Lemma pte_flags va :
  0 <= va < 0x80000000 ->
  let e := pte (va / 4096) (um !! (va / 4096)) in
  has P_PRESENT e = true /\ has P_USER e = t_user (promised um va) /\ has P_WRITE e = t_write (promised um va) /\
  has P_NX e = negb (t_exec (promised um va)) /\ Z.land e ADDR_MASK + va mod 4096 = t_pa (promised um va).
Proof.
  intros Hva. unfold pte, promised. destruct (um !! (va / 4096)) as [[[f w] x]|] eqn:Hum; simpl.
  - destruct (v_um _ _ _ Hview _ _ _ _ Hum) as (_ & _ & Hf%frame_ok_lt).
    destruct (has_4k_flags f w true x) as (-> & -> & -> & -> & ->); [lia|done].
  - destruct (has_4k_flags (va / 4096) true false true) as (-> & -> & -> & -> & ->); [dlia|].
    split_and!; try done. unfold pg. dlia.
Qed.

Lemma view_walk va :
  0 <= va < 0x80000000 -> mmu_walk m (pg u) va = Some (promised um va).
Proof.
  intros Hva. unfold mmu_walk.
  destruct (view_path va) as (p & d & Hp & Hd & -> & He2 & Hcase); [lia|].
  rewrite land_table_entry_user, He2, land_table_entry_user by done.
  destruct (has_table_user_flags p Hp) as (P1 & P2 & P3 & P4 & P5).
  destruct (has_table_user_flags d Hd) as (D1 & D2 & D3 & D4 & D5).
  destruct Hcase as [[Hum ->]|(q & Hq & -> & He4)].
  - destruct (has_2mb_flags (va / 2097152)) as (E1 & E2 & E3 & E4 & E5); [dlia|].
    rewrite land_entry_2m by dlia. unfold promised. rewrite Hum. cbn [forallb].
    rewrite P1, P3, P4, P5, D1, D2, D3, D4, D5, E1, E2, E3, E4, E5. simpl. do 2 f_equal. dlia.
  - destruct (has_table_user_flags q Hq) as (Q1 & Q2 & Q3 & Q4 & Q5).
    rewrite land_table_entry_user, He4 by done.
    destruct (pte_flags va) as (F1 & F2 & F3 & F4 & F5); [lia|]. cbn [forallb].
    rewrite P1, P3, P4, P5, D1, D2, D3, D4, D5, Q1, Q2, Q3, Q4, Q5, F1, F2, F3, F4, F5. simpl.
    rewrite !andb_true_r, negb_involutive. by destruct (promised um va).
Qed.

(** What is mapped above is for the supervisor. *)
Lemma view_walk_high va tr : 0x80000000 <= va < 2 ^ 48 -> mmu_walk m (pg u) va = Some tr -> t_user tr = false.
Proof.
  intros Hva. unfold mmu_walk. destruct (view_high va Hva) as [[-> _]|(p & -> & _ & Hp & H2)]; [done|].
  destruct (has_table_user_flags p Hp) as (P1 & _). rewrite P1, land_table_entry_user by done. cbn [negb].
  destruct H2 as [[-> _]|(d & -> & _ & Hd & H3)]; [done|].
  destruct (has_table_user_flags d Hd) as (D1 & D2 & _). rewrite D1, D2, land_table_entry_user by done. cbn [negb].
  destruct H3 as [[-> _]|(q & -> & _ & Hq)]; [done|].
  destruct (has_table_flags q Hq) as (Q1 & Q2 & Q3 & _). rewrite Q1, Q2. cbn [negb]. destruct (negb _); [done|].
  intros [= <-]. cbn [t_user forallb]. by rewrite Q3, !andb_false_r.
Qed.

Lemma view_user_mapped va :
  0 <= va < 2 ^ 48 ->
  is_user_mapped m (pg u) va = bool_decide (is_Some (um !! (va / 4096))).
Proof.
  intros Hva. unfold is_user_mapped. destruct (decide (va < 0x80000000)).
  - destruct (view_path va) as (p & d & Hp & Hd & -> & He2 & Hcase); [lia|].
    rewrite land_table_entry_user, He2, land_table_entry_user by done.
    destruct (has_table_user_flags p Hp) as (-> & _). destruct (has_table_user_flags d Hd) as (-> & _).
    destruct Hcase as [[Hum ->]|(q & Hq & -> & He4)].
    + destruct (has_2mb_flags (va / 2097152)) as (-> & -> & -> & _); [dlia|]. simpl. by rewrite Hum.
    + destruct (has_table_user_flags q Hq) as (-> & -> & _). rewrite land_table_entry_user, He4 by done.
      destruct (pte_flags va) as (-> & -> & _); [lia|]. simpl. unfold promised.
      by destruct (um !! (va / 4096)) as [[[f w] x]|].
  - destruct (um !! (va / 4096)) as [[[f w] x]|] eqn:Hum.
    { destruct (v_um _ _ _ Hview _ _ _ _ Hum) as [? _]. dlia. }
    rewrite bool_decide_false by (by intros [? ?]).
    destruct (view_high va) as [[-> _]|(p & -> & _ & Hp & H2)]; [lia|done|].
    destruct (has_table_user_flags p Hp) as (-> & _). rewrite land_table_entry_user by done. cbn [negb].
    destruct H2 as [[-> _]|(d & -> & _ & Hd & H3)]; [done|].
    destruct (has_table_user_flags d Hd) as (-> & _). rewrite land_table_entry_user by done. cbn [negb].
    destruct H3 as [[-> _]|(q & -> & Hq' & Hq)]; [done|].
    destruct (has_table_flags q Hq) as (-> & -> & _). rewrite land_table_entry by done. cbn [negb].
    destruct (v_shared _ _ _ Hview _ _ Hq') as (_ & _ & Hnu).
    rewrite Hnu by (rewrite table_index_eq by lia; apply Z.mod_pos_bound; lia). by destruct (negb _).
Qed.
End walk.

(** ** The kernel's tables *)

Section init.
Context {A : Type} `{FrameAllocator A}.
Variables (W : gset Z) (L : Z).

Lemma page_2mb_range r : 0 <= r < 1024 -> 0 <= page_2mb (r * 0x200000) < two64.
Proof.
  intros Hr. rewrite page_2mb_eq. replace (r * 0x200000) with (r * 512 * 4096) by lia.
  apply entry_range64; [lia|]. by apply flag_bits_small.
Qed.
Lemma table_entry_range f : frame_ok f -> 0 <= table_entry (pg f) < two64.
Proof.
  intros Hf%frame_ok_lt. rewrite table_entry_eq. apply entry_range64; [lia|]. by apply flag_bits_small.
Qed.

(** *** The tables of [init] *)
Lemma plain_pds u p d0 d1 j : k_pds (plain_kernel u p d0 d1) !! j = if j =? 0 then Some d0 else if j =? 1 then Some d1 else None.
Proof. cbn [plain_kernel k_pds]. rewrite lookup_insert. zcases; subst; simplify_map_eq; done. Qed.
Lemma plain_table u p d0 d1 k f :
  k_table (plain_kernel u p d0 d1) k = Some f ->
  (k = KPml4 /\ f = u) \/ (k = KPdpt /\ f = p) \/ (k = KPd 0 /\ f = d0) \/ (k = KPd 1 /\ f = d1).
Proof.
  destruct k as [| |j|r|r]; cbn [k_table]; [naive_solver|naive_solver|rewrite plain_pds; zcases; naive_solver|done|].
  cbn [plain_kernel k_pts]. by rewrite lookup_empty.
Qed.
Lemma plain_frames u p d0 d1 : k_frames (plain_kernel u p d0 d1) = {[u; p; d0; d1]}.
Proof.
  apply set_eq. intros f. rewrite elem_of_k_frames. split.
  - intros [k Hk%plain_table]. set_solver.
  - rewrite !elem_of_union, !elem_of_singleton. intros [[[->| ->]| ->]| ->]; [by exists KPml4|by exists KPdpt|exists (KPd 0)|exists (KPd 1)];
      cbn [k_table]; by rewrite plain_pds.
Qed.
Lemma plain_dirs u p d0 d1 : size (k_pds (plain_kernel u p d0 d1)) = 2%nat.
Proof. done. Qed.

Lemma plain_view m u p d0 d1 :
  u <> p /\ u <> d0 /\ u <> d1 /\ p <> d0 /\ p <> d1 /\ d0 <> d1 -> frame_ok u -> frame_ok p -> frame_ok d0 -> frame_ok d1 ->
  (forall i, 0 <= i < 512 -> entry m (pg u) i = if i =? 0 then table_entry (pg p) else 0) ->
  (forall j, 0 <= j < 512 -> entry m (pg p) j =
     if j =? 0 then table_entry (pg d0) else if j =? 1 then table_entry (pg d1) else 0) ->
  (forall i, 0 <= i < 512 -> entry m (pg d0) i = page_2mb (i * 0x200000)) ->
  (forall i, 0 <= i < 512 -> entry m (pg d1) i = page_2mb ((512 + i) * 0x200000)) ->
  kernel_view m (plain_kernel u p d0 d1).
Proof.
  intros Hne Hu Hp Hd0 Hd1 Eu Ep E0 E1. split.
  - by rewrite Eu by lia.
  - intros i Hi. cbn [plain_kernel k_pml4]. rewrite Eu by lia. zcase; [lia|done].
  - intros j Hj. rewrite plain_pds. cbn [plain_kernel k_pdpt]. rewrite Ep by done. by zcases.
  - intros r d Hr. rewrite plain_pds. unfold kernel_pde. destruct (Z.eqb_spec (r / 512) 0), (Z.eqb_spec (r / 512) 1); try done;
      intros [= <-]; (destruct (Z.ltb_spec r 1024); [|dlia]); [dlia| |]; rewrite ?E0, ?E1 by dlia; do 2 f_equal; dlia.
  - done.
  - intros j Hj. rewrite plain_pds. zcases; eauto. lia.
  - intros j d. rewrite plain_pds. zcases; intros; simplify_eq; lia.
  - done.
  - intros f. rewrite plain_frames, !elem_of_union, !elem_of_singleton. by intros [[[->| ->]| ->]| ->].
  - intros k1 k2 f H1%plain_table H2%plain_table. destruct Hne as (? & ? & ? & ? & ? & ?).
    destruct H1 as [[-> ->]|[[-> ->]|[[-> ->]|[-> ->]]]], H2 as [[-> ?]|[[-> ?]|[[-> ?]|[-> ?]]]]; congruence.
Qed.

Lemma init_pd_step U n j idxs p (s : machine) :
  pool W L U (n + 1) (frames s) -> 0 <= n -> 0 <= j < 2 -> (p ∈ U) ->
  exists d s', init_pds (j :: idxs) (pg p) s = init_pds idxs (pg p) s' /\
    (d ∉ U) /\ frame_ok d /\ 0 <= d < L /\ pool W L (U ∪ {[d]}) n (frames s') /\
    (forall g i, g <> d -> g <> p -> 0 <= i < 512 -> entry (pmem s') (pg g) i = entry (pmem s) (pg g) i) /\
    (forall i, 0 <= i < 512 -> entry (pmem s') (pg p) i =
       if i =? j then table_entry (pg d) else entry (pmem s) (pg p) i) /\
    (forall i, 0 <= i < 512 -> entry (pmem s') (pg d) i = page_2mb ((j * 512 + i) * 0x200000)).
Proof.
  intros Hpool Hn Hj HpU. cbn [init_pds].
  destruct (alloc_table_spec W L U n s Hpool Hn) as (d & fa & -> & HdU & Hdok & HdL & Hp'). rewrite bind_Ret.
  assert (Hpd : p <> d) by congruence. mach_simpl.
  pose proof (put_entry_only p (pmem s) j (table_entry (pg d)) ltac:(lia)) as Hop.
  pose proof (entry_put_same p (pmem s) j (table_entry (pg d))) as Hep.
  set (m1 := put_entry (pmem s) (pg p) j (table_entry (pg d))) in *. clearbody m1.
  destruct (zero_table_spec d m1) as [Hoz _]. set (m2 := zero_table (pg d) m1) in *. clearbody m2.
  edestruct (fill_entries_spec (fun i => page_2mb (j * 0x40000000 + i * 0x200000)) d m2) as [Hof Hent].
  { intros i Hi. replace (j * 0x40000000 + i * 0x200000) with ((j * 512 + i) * 0x200000) by lia.
    apply page_2mb_range. lia. }
  set (m3 := put_entries (seqZ 0 512) _ (pg d) m2) in *. clearbody m3.
  pose proof (only_page_trans _ _ _ _ Hoz Hof) as Ho. clear Hoz Hof.
  eexists d, _. split; [done|]. mach_simpl. do 4 (split; [done|]). split; [|split].
  - intros g i Hgd Hgp Hi. rewrite (only_page_entry d m1) by done. by rewrite (only_page_entry p (pmem s)).
  - intros i Hi. rewrite (only_page_entry d m1) by done.
    rewrite Hep by (lia || by apply table_entry_range). by rewrite Z.eqb_sym.
  - intros i Hi. rewrite Hent by done. f_equal. lia.
Qed.

Lemma init_pds_nil p (s : machine) : init_pds [] p s = Ret s.
Proof. done. Qed.

#[local] Opaque zero_table seqZ init_pds entry put_entry alloc_table_or_halt.

(** [init] builds tables that map the first 2 GiB onto themselves. *)
Lemma paging_init_spec n U (s : machine) :
  pool W L U (n + 4) (frames s) -> 0 <= n ->
  exists K s', paging_init s = Ret s' /\ kernel_view (pmem s') K /\ KERNEL_PML4_PA s' = pg (k_pml4 K) /\
    (exists u p d0 d1, K = plain_kernel u p d0 d1) /\
    (forall i, 1 <= i < 512 -> entry (pmem s') (pg (k_pml4 K)) i = 0) /\
    (forall f, f ∈ k_frames K -> (f ∉ U) /\ 0 <= f < L) /\ pool W L (U ∪ k_frames K) n (frames s').
Proof.
  intros Hpool Hn. unfold paging_init. replace (n + 4) with (n + 3 + 1) in Hpool by lia.
  destruct (alloc_table_spec W L U (n + 3) s Hpool ltac:(lia)) as (u & fa & -> & Hu0 & Hu & HuL & Hp1).
  rewrite bind_Ret. mach_simpl. replace (n + 3) with (n + 2 + 1) in Hp1 by lia.
  edestruct (alloc_table_spec W L (U ∪ {[u]}) (n + 2) (mk_machine (pmem s) fa (KERNEL_PML4_PA s)))
    as (p & fb & -> & Hp0 & Hp & HpL & Hp2); [done|lia|].
  rewrite bind_Ret. clear Hpool Hp1. mach_simpl.
  assert (Hpu : p <> u) by set_solver.
  destruct (zero_table_spec u (pmem s)) as [_ Hzu]. set (m1 := zero_table (pg u) (pmem s)) in *. clearbody m1.
  pose proof (entry_put_same u m1 0 (table_entry (pg p))) as Heu.
  set (m2 := put_entry m1 (pg u) 0 (table_entry (pg p))) in *. clearbody m2.
  destruct (zero_table_spec p m2) as [Hop Hzp]. set (m3 := zero_table (pg p) m2) in *. clearbody m3.
  rewrite (seqZ_cons 0 2), (seqZ_cons (Z.succ 0)) by lia.
  replace (n + 2) with (n + 1 + 1) in Hp2 by lia.
  edestruct (init_pd_step (U ∪ {[u]} ∪ {[p]}) (n + 1) 0)
    as (d0 & s0 & -> & Hd00 & Hd0 & Hd0L & Hp3 & He3 & Hep3 & Hed0); [done|lia|lia|set_solver|].
  edestruct (init_pd_step (U ∪ {[u]} ∪ {[p]} ∪ {[d0]}) n (Z.succ 0))
    as (d1 & s1 & -> & Hd10 & Hd1 & Hd1L & Hp4 & He4 & Hep4 & Hed1); [done|lia|lia|set_solver|].
  rewrite (seqZ_nil _ (Z.pred (Z.pred 2))), init_pds_nil, bind_Ret by lia.
  assert (Hne : p <> d0 /\ p <> d1 /\ d0 <> d1 /\ u <> d0 /\ u <> d1) by set_solver.
  destruct Hne as (Hn1 & Hn2 & Hn3 & Hn4 & Hn5).
  assert (Heu' : forall i, 0 <= i < 512 -> entry (pmem s1) (pg u) i = if i =? 0 then table_entry (pg p) else 0).
  { intros i Hi. rewrite He4, He3 by done. mach_simpl. rewrite (only_page_entry p m2) by done.
    rewrite Heu, Hzu by (lia || by apply table_entry_range). by rewrite Z.eqb_sym. }
  eexists (plain_kernel u p d0 d1), _. split; [done|]. mach_simpl. split; [|split; [done|split; [eauto|split; [|split]]]].
  - apply plain_view; try done.
    + intros j Hj. rewrite Hep4, Hep3 by done. mach_simpl. rewrite Hzp by done. zcases; subst; done || lia.
    + intros i Hi. by rewrite He4, Hed0 by done.
  - intros i Hi. cbn [plain_kernel k_pml4]. rewrite Heu' by lia. by zcase; [lia|].
  - intros f. rewrite plain_frames, !elem_of_union, !elem_of_singleton. set_solver.
  - rewrite plain_frames. by rewrite !(assoc_L (∪)).
Qed.
End init.

(** The processor's view of the kernel's tables. *)
Lemma kernel_walk m K va :
  kernel_view m K -> 0 <= va < 0x80000000 -> mmu_walk m (pg (k_pml4 K)) va = Some (mk_translation va false true true).
Proof.
  intros Hk Hva. unfold mmu_walk.
  assert (Hpok : frame_ok (k_pdpt K)) by (by apply (kv_ok _ _ Hk), (k_table_frame K KPdpt)).
  destruct (has_table_flags (k_pdpt K) Hpok) as (P1 & P2 & P3 & P4 & P5).
  destruct (walk_indices va) as (-> & -> & -> & _ & Hr & _); [lia|]. set (r := va / 2097152) in *.
  destruct (kv_low _ _ Hk (r / 512)) as [d Hd]; [dlia|].
  assert (Hdok : frame_ok d) by (by apply (kv_ok _ _ Hk), (k_table_frame K (KPd (r / 512)))).
  destruct (has_table_flags _ Hdok) as (D1 & D2 & D3 & D4 & D5).
  rewrite (kv_pml4 _ _ Hk), land_table_entry by done.
  rewrite (kv_pdpt _ _ Hk), Hd by dlia.
  rewrite land_table_entry, (kv_pd _ _ Hk r d) by (done || lia). unfold kernel_pde. destruct (Z.ltb_spec r 1024); [|lia].
  rewrite land_entry_2m by lia.
  destruct (has_2mb_flags r Hr) as (E1 & E2 & E3 & E4 & E5). cbn [forallb].
  rewrite P1, P3, P4, P5, D1, D2, D3, D4, D5, E1, E2, E3, E4, E5. simpl. do 2 f_equal. unfold r. dlia.
Qed.

(** The kernel's tables open nothing to user mode. *)
Lemma kernel_walk_user m K va tr :
  kernel_view m K -> 0 <= va -> mmu_walk m (pg (k_pml4 K)) va = Some tr -> t_user tr = false.
Proof.
  intros Hk Hva. unfold mmu_walk. set (e1 := entry m (pg (k_pml4 K)) _).
  assert (Hu : has P_USER e1 = false).
  { unfold e1. rewrite table_index_eq by lia. pose proof (Z.mod_pos_bound (va / 2 ^ 39) 512 ltac:(lia)) as Hb.
    destruct (Z.eq_dec ((va / 2 ^ 39) mod 512) 0) as [->|]; [|apply (kv_rest _ _ Hk); lia].
    rewrite (kv_pml4 _ _ Hk), has_table_entry; [done| |done]. by apply (kv_ok _ _ Hk), (k_table_frame K KPdpt). }
  clearbody e1. repeat match goal with |- context [if ?b then _ else _] => destruct b end; intros [= <-]; cbn [t_user forallb]; by rewrite Hu.
Qed.

(** Above 2 GiB and within the first root entry the copy for a task
    translates as the kernel's tables do, and nothing is mapped behind. *)
Lemma copy_walk_high m K t um u va :
  kernel_view m K -> view m t um -> copies K t -> t KPml4 = Some u -> 0x80000000 <= va < 2 ^ 48 ->
  mmu_walk m (pg u) va = if va <? 0x8000000000 then mmu_walk m (pg (k_pml4 K)) va else None.
Proof.
  intros Hk Hv [Hc1 Hc2] Hu Hva. unfold mmu_walk at 1.
  destruct (view_high m t um u Hv Hu va Hva) as [[-> Hhi]|(p & -> & Hlo & Hp & H2)].
  { destruct (Z.ltb_spec va 0x8000000000); [lia|done]. }
  destruct (Z.ltb_spec va 0x8000000000) as [_|]; [|lia]. unfold mmu_walk.
  assert (Hpok : frame_ok (k_pdpt K)) by (by apply (kv_ok _ _ Hk), (k_table_frame K KPdpt)).
  destruct (has_table_flags (k_pdpt K) Hpok) as (K1 & K2 & K3 & K4 & K5).
  destruct (has_table_user_flags p Hp) as (P1 & P2 & P3 & P4 & P5).
  assert (E1 : entry m (pg (k_pml4 K)) (table_index 39 va) = table_entry (pg (k_pdpt K))).
  { rewrite table_index_eq by lia. change (2 ^ 39) with 0x8000000000. replace ((va / 0x8000000000) mod 512) with 0 by dlia. apply Hk. }
  assert (I2 : table_index 30 va = va / 0x40000000) by (rewrite table_index_eq by lia; change (2 ^ 30) with 0x40000000; dlia).
  assert (I3 : table_index 21 va = (va / 0x200000) mod 512) by (rewrite table_index_eq by lia; done).
  rewrite E1, K1, P1, land_table_entry_user, land_table_entry, I2, (kv_pdpt _ _ Hk) by (done || dlia). cbn [negb]. rewrite I2 in H2.
  destruct H2 as [[-> Hn]|(d & -> & Hd' & Hd & H3)].
  { destruct (k_pds K !! (va / 0x40000000)) as [kd|] eqn:Hkd; [|done]. destruct (proj2 (Hc1 (va / 0x40000000))) as [x Hx]; [eauto|congruence]. }
  destruct (proj1 (Hc1 (va / 0x40000000))) as [kd Hkd]; [eauto|]. rewrite Hkd.
  assert (Hkdok : frame_ok kd) by (by apply (kv_ok _ _ Hk), (k_table_frame K (KPd (va / 0x40000000)))).
  destruct (has_table_flags kd Hkdok) as (D1 & D2 & D3 & D4 & D5). destruct (has_table_user_flags d Hd) as (U1 & U2 & U3 & U4 & U5).
  rewrite D1, D2, U1, U2, land_table_entry_user, land_table_entry, I3 by done. cbn [negb]. rewrite I3 in H3.
  rewrite (kv_pd _ _ Hk (va / 0x200000) kd); [|dlia|by replace (va / 0x200000 / 512) with (va / 0x40000000) by dlia].
  unfold kernel_pde. destruct (Z.ltb_spec (va / 0x200000) 1024); [dlia|]. rewrite <- Hc2.
  destruct H3 as [[-> ->]|(q & -> & -> & Hq)]; [done|].
  destruct (has_table_flags q Hq) as (Q1 & Q2 & Q3 & Q4 & Q5). rewrite Q1, Q2, land_table_entry by done. cbn [negb].
  set (e4 := entry m (pg q) _). destruct (negb (has P_PRESENT e4)); [done|]. cbn [forallb].
  by rewrite K3, K4, K5, P3, P4, P5, D3, D4, D5, U3, U4, U5, Q3, Q4, Q5.
Qed.

(** The walk above 2 GiB ends in the kernel's page tables. *)
Lemma kernel_walk_high m K va :
  kernel_view m K -> 0x80000000 <= va < 0x8000000000 ->
  mmu_walk m (pg (k_pml4 K)) va =
    match k_pts K !! (va / 0x200000) with
    | Some q =>
        let e := entry m (pg q) (table_index 12 va) in
        if has P_PRESENT e then Some (mk_translation (Z.land e ADDR_MASK + va mod 0x1000) false (has P_WRITE e) (negb (has P_NX e))) else None
    | None => None
    end.
Proof.
  intros Hk Hva. unfold mmu_walk.
  assert (Hpok : frame_ok (k_pdpt K)) by (by apply (kv_ok _ _ Hk), (k_table_frame K KPdpt)).
  destruct (has_table_flags (k_pdpt K) Hpok) as (P1 & P2 & P3 & P4 & P5).
  assert (E1 : entry m (pg (k_pml4 K)) (table_index 39 va) = table_entry (pg (k_pdpt K))).
  { rewrite table_index_eq by lia. change (2 ^ 39) with 0x8000000000. replace ((va / 0x8000000000) mod 512) with 0 by dlia. apply Hk. }
  assert (I2 : table_index 30 va = va / 0x40000000) by (rewrite table_index_eq by lia; change (2 ^ 30) with 0x40000000; dlia).
  assert (I3 : table_index 21 va = (va / 0x200000) mod 512) by (rewrite table_index_eq by lia; done).
  rewrite E1, P1, land_table_entry, I2, (kv_pdpt _ K) by (done || dlia). cbn [negb].
  destruct (k_pds K !! (va / 0x40000000)) as [kd|] eqn:Hkd.
  2: { destruct (k_pts K !! (va / 0x200000)) as [q|] eqn:Hq; [|done]. destruct (kv_pts _ _ Hk _ _ Hq) as (_ & [x Hx]).
       replace (va / 0x200000 / 512) with (va / 0x40000000) in Hx by dlia. congruence. }
  assert (Hdok : frame_ok kd) by (by apply (kv_ok _ _ Hk), (k_table_frame K (KPd (va / 0x40000000)))).
  destruct (has_table_flags kd Hdok) as (D1 & D2 & D3 & D4 & D5). rewrite D1, D2, land_table_entry, I3 by done. cbn [negb].
  rewrite (kv_pd _ K) with (d := kd) by (done || dlia || by replace (va / 0x200000 / 512) with (va / 0x40000000) by dlia).
  unfold kernel_pde. destruct (Z.ltb_spec (va / 0x200000) 1024); [dlia|]. destruct (k_pts K !! (va / 0x200000)) as [q|] eqn:Hq; [|done].
  assert (Hqok : frame_ok q) by (by apply (kv_ok _ _ Hk), (k_table_frame K (KShared (va / 0x200000)))).
  destruct (has_table_flags q Hqok) as (Q1 & Q2 & Q3 & Q4 & Q5). rewrite Q1, Q2, land_table_entry by done. cbn [negb forallb].
  rewrite P3, P4, P5, D4, D5, Q4, Q5. cbn [negb andb]. rewrite !andb_true_r.
  by destruct (has P_PRESENT (entry m (pg q) (table_index 12 va))).
Qed.

(** The walk through the kernel's first root entry reads its frames only. *)
Lemma kernel_walk_ext m m' K va :
  kernel_view m K -> 0 <= va < 0x8000000000 ->
  (forall f x, f ∈ k_frames K -> pg f <= x < pg f + 4096 -> load8 m' x = load8 m x) ->
  mmu_walk m' (pg (k_pml4 K)) va = mmu_walk m (pg (k_pml4 K)) va.
Proof.
  intros Hk Hva Hm. pose proof (kernel_view_ext m m' K Hk Hm) as Hk'.
  destruct (decide (va < 0x80000000)); [by rewrite !(kernel_walk _ K) by (done || lia)|].
  rewrite !(kernel_walk_high _ K) by (done || lia). destruct (k_pts K !! (va / 0x200000)) as [q|] eqn:Hq; [|done].
  rewrite (entry_ext m m' q); [done|intros x Hx; apply (Hm q); [by apply (k_table_frame K (KShared (va / 0x200000)))|done]|].
  rewrite table_index_eq by lia. apply Z.mod_pos_bound. lia.
Qed.

(** ** Properties *)

(** A machine whose kernel tables are in place and not among the free
    frames. *)
Definition kernel_ready {A} `{FrameAllocator A} (K : kernel_tables) (s : machine (A:=A)) : Prop :=
  fa_inv (frames s) /\ kernel_view (pmem s) K /\ KERNEL_PML4_PA s = pg (k_pml4 K) /\
  forall f, f ∈ k_frames K -> (f ∉ fa_free (frames s)) /\ 0 <= f < fa_limit (frames s).

Lemma ready_pool {A} `{FrameAllocator A} (fa : A) (U : gset Z) :
  fa_inv fa -> U ## fa_free fa ->
  pool (U ∪ fa_free fa) (fa_limit fa) U (Z.of_nat (size (fa_free fa))) fa.
Proof. by split. Qed.

Lemma machine_100_size : Z.of_nat (size (fa_free machine_100)) = 100.
Proof.
  pose proof (free_frame_count_spec machine_100 machine_100_wf) as E.
  assert (E' : free_frame_count machine_100 = Ret 100) by (vm_compute; reflexivity).
  rewrite E' in E. apply Ret_inj in E. symmetry. exact E.
Qed.

(** [init] on a machine with four free frames. *)
Lemma paging_init_ready {A} `{FrameAllocator A} (m : memory) (fa : A) r n :
  fa_inv fa -> 0 <= n -> n + 4 <= Z.of_nat (size (fa_free fa)) ->
  exists K s, paging_init (mk_machine m fa r) = Ret s /\ kernel_ready K s /\ (exists u p d0 d1, K = plain_kernel u p d0 d1) /\
    (forall i, 1 <= i < 512 -> entry (pmem s) (pg (k_pml4 K)) i = 0) /\
    fa_free (frames s) = fa_free fa ∖ k_frames K /\ k_frames K ⊆ fa_free fa /\ fa_limit (frames s) = fa_limit fa /\
    n <= Z.of_nat (size (fa_free (frames s))).
Proof.
  intros Hinv Hn Hsz. pose proof (ready_pool fa ∅ Hinv ltac:(set_solver)) as Hp.
  destruct (paging_init_spec (∅ ∪ fa_free fa) (fa_limit fa) n ∅ (mk_machine m fa r))
    as (K & s & Hs & Hk & Hr & HK & Hz & HKf & [P1 P2 P3 P4 P5]); [by eapply pool_weaken|done|].
  rewrite !(left_id_L ∅ (∪)) in *. exists K, s. split; [done|]. split; [|split; [done|split; [done|split; [|split; [|split; [done|done]]]]]].
  - split; [done|]. split; [done|]. split; [done|]. intros f Hf. split; [intros Hf'; by apply (P2 f)|]. rewrite P5. by apply HKf.
  - set_solver.
  - rewrite <- P3. apply union_subseteq_l.
Qed.

(** [paging::init] with four free frames builds the kernel's address
    space: every address below 2 GiB is mapped onto itself, writable and for
    the supervisor only, nothing above is mapped, and exactly the four frames
    of the tables leave the pool. *)
Theorem paging_init_identity {A} `{FrameAllocator A} (m : memory) (fa : A) r :
  fa_inv fa -> 4 <= Z.of_nat (size (fa_free fa)) ->
  exists K s, paging_init (mk_machine m fa r) = Ret s /\ kernel_ready K s /\
    fa_free (frames s) = fa_free fa ∖ k_frames K /\ size (k_frames K) = 4%nat /\
    forall va, 0 <= va < 2 ^ 48 -> mmu_walk (pmem s) (KERNEL_PML4_PA s) va =
      if va <? 0x80000000 then Some (mk_translation va false true true) else None.
Proof.
  intros Hinv Hsz. destruct (paging_init_ready m fa r 0 Hinv) as (K & s & Hs & Hr & (u & p & d0 & d1 & ->) & Hz & Hf & _); [lia|lia|].
  exists (plain_kernel u p d0 d1), s. split; [done|]. split; [done|]. split; [done|]. destruct Hr as (_ & Hk & -> & _). split.
  - rewrite plain_frames. pose proof (kv_inj _ _ Hk) as Hi.
    assert (Hd : k_pds (plain_kernel u p d0 d1) !! 0 = Some d0 /\ k_pds (plain_kernel u p d0 d1) !! 1 = Some d1) by (by rewrite !plain_pds).
    assert (Hne : u <> p /\ u <> d0 /\ u <> d1 /\ p <> d0 /\ p <> d1 /\ d0 <> d1).
    { split_and!; intros E; [specialize (Hi KPml4 KPdpt u)|specialize (Hi KPml4 (KPd 0) u)|specialize (Hi KPml4 (KPd 1) u)|
        specialize (Hi KPdpt (KPd 0) p)|specialize (Hi KPdpt (KPd 1) p)|specialize (Hi (KPd 0) (KPd 1) d0)];
      cbn [k_table] in Hi; destruct Hd as [Hd0 Hd1]; rewrite ?Hd0, ?Hd1 in Hi; cbn [plain_kernel k_pml4 k_pdpt] in Hi; subst; discriminate Hi; done. }
    rewrite !size_union, !size_singleton by set_solver. done.
  - intros va Hva. destruct (Z.ltb_spec va 0x80000000); [apply kernel_walk; [done|lia]|].
    unfold mmu_walk. change (2 ^ 48) with 281474976710656 in Hva.
    assert (Hidx : forall sh, 0 <= sh -> 0 <= table_index sh va < 512) by (intros sh Hsh; rewrite table_index_eq by lia; apply Z.mod_pos_bound; lia).
    destruct (Z.eq_dec (table_index 39 va) 0) as [Hi|Hn]; [|by rewrite (Hz (table_index 39 va)) by (specialize (Hidx 39 ltac:(lia)); lia)].
    rewrite Hi, (kv_pml4 _ _ Hk). assert (Hpok : frame_ok (k_pdpt (plain_kernel u p d0 d1))) by (by apply (kv_ok _ _ Hk), (k_table_frame _ KPdpt)).
    rewrite land_table_entry, (kv_pdpt _ _ Hk), plain_pds by (done || apply Hidx; lia).
    destruct (has_table_flags _ Hpok) as (-> & _). cbn [negb]. rewrite table_index_eq in Hi |- * by lia.
    change (2 ^ 39) with 549755813888 in Hi. change (2 ^ 30) with 1073741824. zcases; dlia || done.
Qed.

Lemma paging_init_identity_witness :
  exists K s, paging_init (mk_machine ∅ machine_100 0) = Ret s /\ kernel_ready K s.
Proof.
  destruct (paging_init_identity ∅ machine_100 0) as (K & s & Hs & Hk & _).
  - exact machine_100_wf.
  - rewrite machine_100_size. lia.
  - exists K, s. split; [exact Hs|exact Hk].
Defined.

(** [create_user_page_tables] on a ready machine. *)
Lemma create_ready {A} `{FrameAllocator A} (K : kernel_tables) segs (s : machine (A:=A)) :
  kernel_ready K s -> Forall segment_ok segs ->
  space_cost K + 2 * layout_size segs <= Z.of_nat (size (fa_free (frames s))) ->
  exists u l s' t, create_user_page_tables segs s = Ret (pg u, phys_frame <$> l, s') /\
    rights <$> l = layout segs /\ t KPml4 = Some u /\ NoDup (up_frame <$> l) /\
    building (k_frames K ∪ fa_free (frames s)) (k_frames K) (fa_limit (frames s)) K (pmem s) (list_to_set (up_frame <$> l)) 0 t
      (install l ∅) s'.
Proof.
  intros (Hinv & Hk & Hr & HK) Hok Hsz. apply (create_spec _ _ _ _ _ 0); [done| |done|done|done|done|done].
  eapply pool_weaken; [|exact Hsz]. apply ready_pool; [done|]. intros f Hf. by apply HK.
Qed.

(** The construction writes to frames that were free, and to nothing else,
    and takes no more than it asks for. *)
Lemma create_elsewhere {A} `{FrameAllocator A} (K : kernel_tables) segs (s : machine (A:=A)) root l s' :
  kernel_ready K s -> Forall segment_ok segs ->
  space_cost K + 2 * layout_size segs <= Z.of_nat (size (fa_free (frames s))) ->
  create_user_page_tables segs s = Ret (root, l, s') ->
  (forall x, (forall f, f ∈ fa_free (frames s) -> ~ (pg f <= x < pg f + 4096)) -> load8 (pmem s') x = load8 (pmem s) x) /\
  Z.of_nat (size (fa_free (frames s))) - (space_cost K + 2 * layout_size segs) <= Z.of_nat (size (fa_free (frames s'))) /\
  fa_limit (frames s') = fa_limit (frames s).
Proof.
  intros (Hinv & Hk & Hr & HK) Hok Hsz Hs.
  set (U0 := (list_to_set (seqZ 0 (fa_limit (frames s))) ∖ fa_free (frames s)) ∪ k_frames K : gset Z).
  assert (HU : forall f, f ∈ U0 <-> (0 <= f < fa_limit (frames s) /\ f ∉ fa_free (frames s)) \/ f ∈ k_frames K).
  { intros f. unfold U0. by rewrite elem_of_union, elem_of_difference, !elem_of_list_to_set, elem_of_seqZ, Z.add_0_l. }
  set (n := Z.of_nat (size (fa_free (frames s))) - (space_cost K + 2 * layout_size segs)).
  destruct (create_spec (U0 ∪ fa_free (frames s)) U0 (fa_limit (frames s)) K (pmem s) n segs s)
    as (u & l' & s1 & t & Hs1 & _ & _ & _ & Hb); [lia| |exact Hok|exact Hr|exact Hk| |reflexivity|].
  - eapply pool_weaken; [apply ready_pool; [done|]|lia].
    intros f Hf Hf'. apply HU in Hf as [[_ ?]|?]; [done|by destruct (HK f)].
  - intros f Hf. apply HU. by right.
  - rewrite Hs in Hs1. injection Hs1 as _ _ ->. split.
    + intros x Hx. apply Hb. intros f Hf HfL. apply Hx. destruct (decide (f ∈ fa_free (frames s))); [done|].
      exfalso. apply Hf, HU. left. by split.
    + destruct (b_pool _ _ _ _ _ _ _ _ _ _ Hb) as (U & _ & Hp). split; apply Hp.
Qed.

(** The frames an address space holds: its pages and its own tables. *)
Definition holds (X : gset Z) (l : list user_page) (t : tables) : Prop :=
  forall g, g ∈ X <-> g ∈ up_frame <$> l \/ exists k, own t k = Some g.

(** What is taken from the pool is what the space holds. *)
Lemma building_taken {A} `{FrameAllocator A} K (F : gset Z) L m0 l n t um (s : machine (A:=A)) :
  building (k_frames K ∪ F) (k_frames K) L K m0 (list_to_set (up_frame <$> l)) n t um s -> (forall f, f ∈ k_frames K -> (f ∉ F) /\ 0 <= f < L) ->
  exists X, holds X l t /\ X ⊆ F /\ fa_free (frames s) = F ∖ X /\ kernel_ready K s.
Proof.
  intros Hb HKF. destruct (b_pool _ _ _ _ _ _ _ _ _ _ Hb) as (U & HU & [P1 P2 P3 P4 P5]). exists (U ∖ k_frames K).
  assert (Hown : forall g, g ∈ up_frame <$> l \/ (exists k, own t k = Some g) -> (g ∈ U) /\ g ∉ k_frames K).
  { intros g [Hg|[k Hg]].
    - assert (Hg' : g ∈ (list_to_set (up_frame <$> l) : gset Z)) by (by apply elem_of_list_to_set).
      split; [apply HU; by right; left|by destruct (b_D _ _ _ _ _ _ _ _ _ _ Hb g Hg')].
    - split; [apply HU; right; right; eauto|by destruct (b_t _ _ _ _ _ _ _ _ _ _ Hb k g Hg)]. }
  assert (HX : holds (U ∖ k_frames K) l t).
  { intros g. rewrite elem_of_difference. split; [|apply Hown]. intros [[|[Hg%elem_of_list_to_set|]]%HU ?]; tauto. }
  assert (HKU : k_frames K ⊆ U) by (intros f Hf; apply HU; by left).
  split; [done|]. split; [|split].
  - intros g [Hg Hn]%elem_of_difference. assert (Hin : g ∈ U ∪ fa_free (frames s)) by (apply elem_of_union; by left).
    rewrite P3 in Hin. by apply elem_of_union in Hin as [|].
  - apply set_eq. intros g. rewrite !elem_of_difference.
    assert (Hall : g ∈ U ∪ fa_free (frames s) <-> g ∈ k_frames K ∪ F) by (by rewrite P3). rewrite !elem_of_union in Hall.
    assert (HKg : g ∈ k_frames K -> g ∉ F) by (intros Hg; by destruct (HKF g Hg)).
    specialize (P2 g). specialize (HKU g). destruct (decide (g ∈ k_frames K)), (decide (g ∈ U)); tauto.
  - split; [done|]. split; [apply Hb|]. split; [apply Hb|]. intros f Hf. rewrite P5.
    split; [intros Hin; by apply (P2 f); [apply HKU|]|by apply HKF].
Qed.

(** C4: [create_user_page_tables] builds the address space the loader asks
    for, on the kernel's tables as [init] leaves them or with further pages
    mapped above 2 GiB.  With enough free frames it returns, and then: the
    frames it reports are distinct, were free, and stand for the pages of the
    segments and the stack page in order; the processor translates a user page
    to its frame with exactly the write and execute rights of the segment flags
    (the last request for a page counts), every other address below 2 GiB to
    itself and for the supervisor only, and the addresses above as the
    kernel's tables do, also for the supervisor only; [is_user_mapped] accepts
    exactly the user pages; user frames are zeroed; the kernel's own tables are
    unchanged. *)
Theorem create_user_page_tables_maps {A} `{FrameAllocator A} K segs (s : machine (A:=A)) :
  kernel_ready K s -> Forall segment_ok segs ->
  space_cost K + 2 * layout_size segs <= Z.of_nat (size (fa_free (frames s))) ->
  exists root l s', create_user_page_tables segs s = Ret (root, phys_frame <$> l, s') /\
    rights <$> l = layout segs /\ NoDup (up_frame <$> l) /\
    (forall q, q ∈ l -> up_frame q ∈ fa_free (frames s)) /\
    (forall va, 0 <= va < 2 ^ 48 -> mmu_walk (pmem s') root va =
       if va <? 0x80000000 then Some (promised (install l ∅) va)
       else if va <? 0x8000000000 then mmu_walk (pmem s) (KERNEL_PML4_PA s) va else None) /\
    (forall va tr, 0 <= va -> mmu_walk (pmem s) (KERNEL_PML4_PA s) va = Some tr -> t_user tr = false) /\
    (forall va, 0 <= va < 2 ^ 48 -> is_user_mapped (pmem s') root va =
       bool_decide (is_Some (install l ∅ !! (va / 4096)))) /\
    (forall v f w x, install l ∅ !! v = Some (f, w, x) -> zero_page (pmem s') f) /\
    kernel_ready K s'.
Proof.
  intros Hready Hok Hsz. destruct (create_ready K segs s Hready Hok Hsz)
    as (u & l & s' & t & Hs & Hl & Hu & Hnd & Hb). pose proof Hready as (Hinv & Hk & Hr & HK).
  exists (pg u), l, s'. split; [done|]. split; [done|]. split; [done|].
  pose proof (b_view _ _ _ _ _ _ _ _ _ _ Hb) as Hv. destruct (building_taken K _ _ _ l _ _ _ s' Hb HK) as (X & HX & HXF & _ & Hk').
  split; [|split; [|split; [|split; [|split; [|done]]]]].
  - intros q Hq. apply HXF, HX. left. apply list_elem_of_fmap. eauto.
  - intros va Hva. destruct (Z.ltb_spec va 0x80000000); [by apply (view_walk _ t); [..|lia]|].
    rewrite (copy_walk_high _ K t _ u va (b_kernel _ _ _ _ _ _ _ _ _ _ Hb) Hv (b_copies _ _ _ _ _ _ _ _ _ _ Hb) Hu) by lia.
    destruct (Z.ltb_spec va 0x8000000000); [|done]. rewrite Hr. apply (kernel_walk_ext _ _ K); [done|lia|].
    intros f x Hf Hx. apply (create_elsewhere K segs s _ _ _ Hready Hok Hsz Hs). intros g Hg Hgx.
    assert (f = g) as -> by (unfold pg in *; lia). by destruct (HK g Hf).
  - intros va tr Hva. rewrite Hr. by apply kernel_walk_user.
  - intros va Hva. by apply (view_user_mapped _ t).
  - apply (b_zero _ _ _ _ _ _ _ _ _ _ Hb).
Qed.

(** A program of one writable and one executable segment. *)
Definition two_segments : list segment := [(0x400000, 0, 100, 5000, 5); (0x403000, 0, 10, 20, 6)].

Lemma two_segments_ok : Forall segment_ok two_segments.
Proof. by repeat (apply Forall_cons; split). Qed.

Lemma ready_machine :
  exists K s, kernel_ready K (s : machine (A:=frame_state)) /\ space_cost K = 6 /\ k_shared K = ∅ /\
    90 <= Z.of_nat (size (fa_free (frames s))) /\ fa_limit (frames s) = 100.
Proof.
  destruct (paging_init_ready ∅ machine_100 0 96) as (K & s & _ & Hk & (u & p & d0 & d1 & ->) & _ & _ & _ & HL & Hsz);
    [exact machine_100_wf|lia|rewrite machine_100_size; lia|].
  exists (plain_kernel u p d0 d1), s. split; [done|]. split; [done|]. split; [done|]. split; [lia|]. by rewrite HL.
Qed.

(** A task with these segments, for the witnesses of later files. *)
Lemma sample_task :
  exists m t um u, view m t um /\ t KPml4 = Some u /\
    (forall v, is_Some (um !! v) <-> v ∈ [1024; 1025; 1027; 1280]) /\
    forall v f w x, um !! v = Some (f, w, x) -> 0 <= f < 100.
Proof.
  destruct ready_machine as (K & s & Hk & Hc & _ & Hsz & HL).
  destruct (create_ready K two_segments s Hk two_segments_ok) as (u & l & s' & t & _ & Hl & Hu & _ & Hb).
  { rewrite Hc. assert (layout_size two_segments = 3) as -> by reflexivity. lia. }
  exists (pmem s'), t, (install l ∅), u. split; [apply Hb|]. split; [done|]. split.
  - assert (Hv : up_vpn <$> l = [1024; 1025; 1027; 1280]).
    { transitivity ((fun r => r.1.1) <$> (rights <$> l)); [by rewrite <- list_fmap_compose|].
      rewrite Hl. reflexivity. }
    rewrite <- Hv. intros v. rewrite install_dom. rewrite lookup_empty. split; [intros [[? ?]|]; done|by right].
  - intros v f w x Hum%(b_u _ _ _ _ _ _ _ _ _ _ Hb). rewrite <- HL. by apply (b_D _ _ _ _ _ _ _ _ _ _ Hb).
Qed.

Lemma create_user_page_tables_maps_witness :
  exists (s : machine (A:=frame_state)) root l s',
    create_user_page_tables two_segments s = Ret (root, phys_frame <$> l, s') /\
    rights <$> l = [(1024, false, true); (1025, false, true); (1027, true, false); (1280, true, false)].
Proof.
  destruct ready_machine as (K & s & Hk & Hc & _ & Hsz & _).
  destruct (create_user_page_tables_maps K two_segments s Hk two_segments_ok) as (root & l & s' & Hs & Hl & _).
  - rewrite Hc. assert (layout_size two_segments = 3) as -> by reflexivity. lia.
  - exists s, root, l, s'. split; [exact Hs|]. rewrite Hl. reflexivity.
Defined.



(** The frame of the page table on the kernel's path to [va]. *)
Definition kernel_pt {A} `{FrameAllocator A} (va : Z) (s : machine (A:=A)) : Z :=
  let e1 := entry (pmem s) (KERNEL_PML4_PA s) (table_index 39 va) in
  let e2 := entry (pmem s) (Z.land e1 ADDR_MASK) (table_index 30 va) in
  let e3 := entry (pmem s) (Z.land e2 ADDR_MASK) (table_index 21 va) in
  from_addr (Z.land e3 ADDR_MASK).

Definition LAPIC : Z := 0xFEE00000.

(** The boot sequence maps the local APIC, then a task is created and exits. *)
Definition lapic_then_task : outcome (machine (A:=frame_state) * machine (A:=frame_state)) :=
  s ← paging_init (mk_machine ∅ machine_100 0);
  s ← map_page_uc LAPIC s;
  x ← create_user_page_tables [] s;
  let '(root, _, s2) := x in
  s3 ← free_user_page_tables root s2;
  Ret (s, s3).

(** [free_user_page_tables] also frees page tables of the kernel: once
    [map_page_uc] has mapped the local APIC above the 2 MiB pages, the new
    task's directories share the kernel's page table for it, and the task's
    exit puts that frame back into the pool although the kernel's own
    directory still refers to it. *)
Theorem task_exit_frees_kernel_table :
  exists s s3, lapic_then_task = Ret (s, s3) /\
    used (frames s) (kernel_pt LAPIC s) = true /\
    kernel_pt LAPIC s3 = kernel_pt LAPIC s /\ used (frames s3) (kernel_pt LAPIC s3) = false.
Proof.
  assert (E : match lapic_then_task with
              | Ret (s, s3) => used (frames s) (kernel_pt LAPIC s) &&
                  (kernel_pt LAPIC s3 =? kernel_pt LAPIC s) && negb (used (frames s3) (kernel_pt LAPIC s3))
              | _ => false
              end = true) by (vm_compute; reflexivity).
  destruct lapic_then_task as [[s s3]| | | |]; try discriminate E. exists s, s3. split; [done|].
  apply andb_true_iff in E as [[E1 E2]%andb_true_iff E3]. split; [done|]. split; [by apply Z.eqb_eq|].
  by apply negb_true_iff.
Qed.
