(* ===== verification/KernelMap.v ===== *)
(** * Pages of devices in the kernel's tables (arch/x86_64/paging.rs, main.rs)

    [map_page] and [map_page_uc] on an address above the 2 GiB that [init]
    maps: they make the page directory and the page table when these are
    missing and enter the page.  The kernel maps the page of the local APIC in
    this way before it spawns a program, so that these are the tables the
    address spaces of tasks are copied from. *)

From S2P Require Import Prelude Mem Frame Paging AddressSpace.

(** The kernel's tables with one more directory or page table. *)
Definition with_pd (j d : Z) (K : kernel_tables) : kernel_tables := mk_kernel (k_pml4 K) (k_pdpt K) (<[j := d]> (k_pds K)) (k_pts K).
Definition with_pt (r q : Z) (K : kernel_tables) : kernel_tables := mk_kernel (k_pml4 K) (k_pdpt K) (k_pds K) (<[r := q]> (k_pts K)).

Lemma with_pd_frames j d K : k_pds K !! j = None -> k_frames (with_pd j d K) = k_frames K ∪ {[d]}.
Proof.
  intros Hj. unfold k_frames, k_main, k_shared. cbn [with_pd k_pml4 k_pdpt k_pds k_pts].
  rewrite (map_img_insert_notin_L (SA:=gset Z)) by done. set_solver.
Qed.
Lemma with_pt_frames r q K : k_pts K !! r = None -> k_frames (with_pt r q K) = k_frames K ∪ {[q]}.
Proof.
  intros Hr. unfold k_frames, k_main, k_shared. cbn [with_pt k_pml4 k_pdpt k_pds k_pts].
  rewrite (map_img_insert_notin_L (SA:=gset Z)) by done. set_solver.
Qed.

Lemma with_pd_table j d K k f :
  k_table (with_pd j d K) k = Some f -> (k = KPd j /\ f = d) \/ (k <> KPd j /\ k_table K k = Some f).
Proof.
  destruct k as [| |j'|r|r]; cbn [k_table with_pd k_pml4 k_pdpt k_pds k_pts]; [naive_solver..| |naive_solver|naive_solver].
  rewrite lookup_insert. case_decide; subst; [intros [= ->]; by left|]. right. split; [congruence|done].
Qed.
Lemma with_pt_table r q K k f :
  k_table (with_pt r q K) k = Some f -> (k = KShared r /\ f = q) \/ (k <> KShared r /\ k_table K k = Some f).
Proof.
  destruct k as [| |j'|r'|r']; cbn [k_table with_pt k_pml4 k_pdpt k_pds k_pts]; [naive_solver..|].
  rewrite lookup_insert. case_decide; subst; [intros [= ->]; by left|]. right. split; [congruence|done].
Qed.

(** Distinct tables are distinct frames. *)
Lemma table_frames_ne m K k1 k2 f g :
  kernel_view m K -> k_table K k1 = Some f -> k_table K k2 = Some g -> k1 <> k2 -> f <> g.
Proof. intros Hk H1 H2 Hne ->. by apply Hne, (kv_inj _ _ Hk _ _ g). Qed.

Lemma with_pd_view m m' j d K :
  kernel_view m K -> k_pds K !! j = None -> 2 <= j < 512 -> frame_ok d -> (d ∉ k_frames K) ->
  (forall g i, g <> d -> g <> k_pdpt K -> 0 <= i < 512 -> entry m' (pg g) i = entry m (pg g) i) ->
  (forall i, 0 <= i < 512 -> entry m' (pg d) i = 0) ->
  (forall i, 0 <= i < 512 -> entry m' (pg (k_pdpt K)) i = if i =? j then table_entry (pg d) else entry m (pg (k_pdpt K)) i) ->
  kernel_view m' (with_pd j d K).
Proof.
  intros Hk Hj Hjr Hd HdK Hel Hz Hp.
  assert (Hsame : forall k g i, k_table K k = Some g -> k <> KPdpt -> 0 <= i < 512 -> entry m' (pg g) i = entry m (pg g) i).
  { intros k g i Hg Hne Hi. apply Hel; [|by apply (table_frames_ne m K k KPdpt)|done]. intros ->. by apply HdK, (k_table_frame K k). }
  split; cbn [with_pd k_pml4 k_pdpt k_pds k_pts].
  - rewrite (Hsame KPml4) by (done || lia). apply Hk.
  - intros i Hi. rewrite (Hsame KPml4) by (done || lia). by apply (kv_rest _ _ Hk).
  - intros i Hi. rewrite Hp, lookup_insert by done. destruct (Z.eqb_spec i j) as [->|]; [by rewrite decide_True|].
    rewrite decide_False by done. by apply (kv_pdpt _ _ Hk).
  - intros r d' Hr Hd'. rewrite lookup_insert in Hd'. unfold kernel_pde. cbn [with_pd k_pts]. case_decide as E.
    + injection Hd' as <-. rewrite Hz by dlia. destruct (Z.ltb_spec r 1024); [dlia|].
      destruct (k_pts K !! r) as [q|] eqn:Hq; [|done]. destruct (kv_pts _ _ Hk r q Hq) as (_ & [x Hx]). congruence.
    + rewrite (Hsame (KPd (r / 512))) by (done || dlia). by apply (kv_pd _ _ Hk).
  - intros r q k Hq Hk'. rewrite (Hsame (KShared r)) by done. by eapply (kv_pt _ _ Hk).
  - intros i Hi. rewrite lookup_insert. case_decide; [eauto|]. by apply (kv_low _ _ Hk).
  - intros i x. rewrite lookup_insert. case_decide; [lia|]. by apply (kv_pds _ _ Hk).
  - intros r q Hq. destruct (kv_pts _ _ Hk r q Hq) as [H1 H2]. split; [done|]. rewrite lookup_insert. case_decide; [eauto|done].
  - intros f. rewrite with_pd_frames by done. intros [Hf| ->%elem_of_singleton]%elem_of_union; [by apply (kv_ok _ _ Hk)|done].
  - intros k1 k2 f [[-> ->]|[H1 E1]]%with_pd_table [[-> E2]|[H2 E2]]%with_pd_table; [done| | |by apply (kv_inj _ _ Hk _ _ f)].
    + by apply k_table_frame in E2.
    + subst f. by apply k_table_frame in E1.
Qed.

Lemma with_pt_view m m' r q d K :
  kernel_view m K -> k_pts K !! r = None -> k_pds K !! (r / 512) = Some d -> 1024 <= r < 262144 -> frame_ok q -> (q ∉ k_frames K) ->
  (forall g i, g <> q -> g <> d -> 0 <= i < 512 -> entry m' (pg g) i = entry m (pg g) i) ->
  (forall i, 0 <= i < 512 -> entry m' (pg q) i = 0) ->
  (forall i, 0 <= i < 512 -> entry m' (pg d) i = if i =? r mod 512 then table_entry (pg q) else entry m (pg d) i) ->
  kernel_view m' (with_pt r q K).
Proof.
  intros Hk Hr Hd Hrr Hq HqK Hel Hz Hp.
  assert (Hsame : forall k g i, k_table K k = Some g -> k <> KPd (r / 512) -> 0 <= i < 512 -> entry m' (pg g) i = entry m (pg g) i).
  { intros k g i Hg Hne Hi. apply Hel; [|by apply (table_frames_ne m K k (KPd (r / 512)))|done]. intros ->. by apply HqK, (k_table_frame K k). }
  split; cbn [with_pt k_pml4 k_pdpt k_pds k_pts].
  - rewrite (Hsame KPml4) by (done || lia). apply Hk.
  - intros i Hi. rewrite (Hsame KPml4) by (done || lia). by apply (kv_rest _ _ Hk).
  - intros i Hi. rewrite (Hsame KPdpt) by done. by apply (kv_pdpt _ _ Hk).
  - intros r' d' Hr' Hd'. unfold kernel_pde. cbn [with_pt k_pts]. rewrite lookup_insert.
    pose proof (kv_pd _ _ Hk r' d' Hr' Hd') as He. unfold kernel_pde in He. destruct (decide (r' / 512 = r / 512)) as [E|E].
    + rewrite E, Hd in Hd'. injection Hd' as <-. rewrite Hp by dlia. destruct (Z.eqb_spec (r' mod 512) (r mod 512)).
      * assert (r' = r) as -> by dlia. rewrite decide_True by done. destruct (Z.ltb_spec r 1024); [lia|done].
      * rewrite decide_False by congruence. exact He.
    + rewrite (Hsame (KPd (r' / 512))) by (done || dlia || congruence). rewrite decide_False by congruence. exact He.
  - intros r' q' k Hq' Hk'. rewrite lookup_insert in Hq'. case_decide.
    + injection Hq' as <-. by rewrite Hz.
    + rewrite (Hsame (KShared r')) by done. by eapply (kv_pt _ _ Hk).
  - apply Hk.
  - apply Hk.
  - intros r' q' Hq'. rewrite lookup_insert in Hq'. case_decide; [subst; split; [done|eauto]|by eapply (kv_pts _ _ Hk)].
  - intros f. rewrite with_pt_frames by done. intros [Hf| ->%elem_of_singleton]%elem_of_union; [by apply (kv_ok _ _ Hk)|done].
  - intros k1 k2 f [[-> ->]|[H1 E1]]%with_pt_table [[-> E2]|[H2 E2]]%with_pt_table; [done| | |by apply (kv_inj _ _ Hk _ _ f)].
    + by apply k_table_frame in E2.
    + subst f. by apply k_table_frame in E1.
Qed.

(** A page is entered in a page table of the kernel. *)
Lemma put_leaf_view m r q k v K :
  kernel_view m K -> k_pts K !! r = Some q -> 0 <= k < 512 -> 0 <= v < two64 -> has P_USER v = false ->
  kernel_view (put_entry m (pg q) k v) K.
Proof.
  intros Hk Hq Hkr Hv Hu. pose proof (put_entry_only q m k v Hkr) as Ho.
  assert (Hsame : forall kd g i, k_table K kd = Some g -> kd <> KShared r -> 0 <= i < 512 ->
    entry (put_entry m (pg q) k v) (pg g) i = entry m (pg g) i).
  { intros kd g i Hg Hne Hi. apply (only_page_entry q); [done| |done]. by apply (table_frames_ne m K kd (KShared r)). }
  split; try apply Hk.
  - rewrite (Hsame KPml4) by (done || lia). apply Hk.
  - intros i Hi. rewrite (Hsame KPml4) by (done || lia). by apply (kv_rest _ _ Hk).
  - intros i Hi. rewrite (Hsame KPdpt) by done. by apply (kv_pdpt _ _ Hk).
  - intros r' d Hr Hd. rewrite (Hsame (KPd (r' / 512))) by (done || dlia). by apply (kv_pd _ _ Hk).
  - intros r' q' i Hq' Hi. destruct (decide (r' = r)) as [->|Hne].
    + replace q' with q by congruence. rewrite entry_put_same by done. zcase; [done|]. by eapply (kv_pt _ _ Hk).
    + rewrite (Hsame (KShared r')) by (done || congruence). by eapply (kv_pt _ _ Hk).
Qed.

(** ** The operations *)

Section map.
Context {A : Type} `{FrameAllocator A}.
Implicit Types s : machine (A:=A).

(** A machine is ready with the tables [K'], having spent the frames [X]. *)
Definition extended (K' : kernel_tables) (X : gset Z) s s' : Prop :=
  kernel_ready K' s' /\ fa_free (frames s') = fa_free (frames s) ∖ X /\ X ⊆ fa_free (frames s) /\
  fa_limit (frames s') = fa_limit (frames s) /\
  forall x, (forall f, f ∈ k_frames K' -> ~ (pg f <= x < pg f + 4096)) -> load8 (pmem s') x = load8 (pmem s) x.

(** What the kernel sees through its first root entry. *)
Definition same_walks s s' : Prop :=
  forall va, 0 <= va < 0x8000000000 -> mmu_walk (pmem s') (KERNEL_PML4_PA s') va = mmu_walk (pmem s) (KERNEL_PML4_PA s) va.

Lemma extended_refl K s : kernel_ready K s -> extended K ∅ s s.
Proof. intros Hk. split; [done|]. split; [set_solver|]. split; [set_solver|]. by split. Qed.
Lemma extended_trans K1 K2 X1 X2 s s1 s2 :
  extended K1 X1 s s1 -> extended K2 X2 s1 s2 -> k_frames K1 ⊆ k_frames K2 -> extended K2 (X1 ∪ X2) s s2.
Proof.
  intros (R1 & F1 & S1 & L1 & M1) (R2 & F2 & S2 & L2 & M2) Hsub. split; [done|]. split; [rewrite F2, F1; set_solver|].
  split; [rewrite F1 in S2; set_solver|]. split; [congruence|]. intros x Hx. rewrite M2 by done. apply M1. intros f Hf. by apply Hx, Hsub.
Qed.

(** The walks agree when the page tables do. *)
Lemma same_walks_tables K K' s s' :
  kernel_ready K s -> kernel_ready K' s' -> k_pml4 K' = k_pml4 K ->
  (forall r q i, k_pts K !! r = Some q -> 0 <= i < 512 -> k_pts K' !! r = Some q /\ entry (pmem s') (pg q) i = entry (pmem s) (pg q) i) ->
  (forall r q i, k_pts K !! r = None -> k_pts K' !! r = Some q -> 0 <= i < 512 -> entry (pmem s') (pg q) i = 0) ->
  same_walks s s'.
Proof.
  intros (_ & Hk & Hr & _) (_ & Hk' & Hr' & _) _ Hold Hnew va Hva. rewrite Hr, Hr'.
  destruct (decide (va < 0x80000000)); [by rewrite (kernel_walk _ K), (kernel_walk _ K') by (done || lia)|].
  rewrite (kernel_walk_high _ K), (kernel_walk_high _ K') by (done || lia).
  assert (Hi : 0 <= table_index 12 va < 512) by (rewrite table_index_eq by lia; apply Z.mod_pos_bound; lia).
  destruct (k_pts K !! (va / 0x200000)) as [q|] eqn:Hq.
  - destruct (Hold _ _ _ Hq Hi) as [-> ->]. done.
  - destruct (k_pts K' !! (va / 0x200000)) as [q|] eqn:Hq'; [|done]. by rewrite (Hnew _ _ _ Hq Hq' Hi).
Qed.

(** The allocation of a table. *)
Lemma alloc_ready s :
  fa_inv (frames s) -> 1 <= Z.of_nat (size (fa_free (frames s))) ->
  exists f fa, alloc_table_or_halt s = Ret (pg f, mk_machine (pmem s) fa (KERNEL_PML4_PA s)) /\ f ∈ fa_free (frames s) /\ frame_ok f /\
    0 <= f < fa_limit (frames s) /\ fa_inv fa /\ fa_limit fa = fa_limit (frames s) /\ fa_free fa = fa_free (frames s) ∖ {[f]}.
Proof.
  intros Hinv Hsz. destruct (alloc_table_spec (∅ ∪ fa_free (frames s)) (fa_limit (frames s)) ∅ 0 s) as (f & fa & E & _ & Hok & HL & [P1 P2 P3 P4 P5]).
  { eapply pool_weaken; [by apply ready_pool; [|apply disjoint_empty_l]|lia]. } { lia. }
  rewrite !(left_id_L ∅ (∪)) in *. exists f, fa. split; [done|]. split; [rewrite <- P3; set_solver|]. do 3 (split; [done|]). split; [done|].
  rewrite <- P3. set_solver.
Qed.

Lemma next_pdpt_spec K s : kernel_ready K s -> next_table (pg (k_pml4 K)) 0 s = Ret (pg (k_pdpt K), s).
Proof.
  intros (_ & Hk & _ & _). assert (Hok : frame_ok (k_pdpt K)) by (by apply (kv_ok _ _ Hk), (k_table_frame K KPdpt)).
  unfold next_table. rewrite (kv_pml4 _ _ Hk), has_table_entry, land_table_entry by done. done.
Qed.

Lemma next_pd_spec K j s :
  kernel_ready K s -> 2 <= j < 512 -> 1 <= Z.of_nat (size (fa_free (frames s))) ->
  exists K' d X s', next_table (pg (k_pdpt K)) j s = Ret (pg d, s') /\ extended K' X s s' /\ (size X <= 1)%nat /\ k_pds K' !! j = Some d /\
    k_pml4 K' = k_pml4 K /\ k_pts K' = k_pts K /\ k_frames K ⊆ k_frames K' /\ k_frames K' ⊆ k_frames K ∪ X /\ space_cost K' <= space_cost K + 1 /\ same_walks s s'.
Proof.
  intros Hr Hj Hsz. pose proof Hr as (Hinv & Hk & Hroot & HK). unfold next_table. rewrite (kv_pdpt _ _ Hk) by lia.
  destruct (k_pds K !! j) as [d|] eqn:Hd.
  { assert (Hok : frame_ok d) by (by apply (kv_ok _ _ Hk), (k_table_frame K (KPd j))).
    rewrite has_table_entry, land_table_entry by done. change (has P_PRESENT 3) with true. cbv iota.
    exists K, d, ∅, s. split; [done|]. split; [by apply extended_refl|]. split; [by rewrite size_empty; lia|]. split_and!; (done || lia || apply union_subseteq_l). }
  change (has P_PRESENT 0) with false. cbv iota. destruct (alloc_ready s Hinv Hsz) as (d & fa & -> & Hdf & Hok & HL & Hinv' & Hlim & Hfree).
  rewrite bind_Ret. cbv iota beta zeta. unfold set_entry, with_mem. cbn [pmem frames KERNEL_PML4_PA].
  assert (HdK : d ∉ k_frames K) by (intros Hin; by destruct (HK d Hin)). assert (Hpd : k_pdpt K <> d) by (intros <-; by apply HdK, (k_table_frame K KPdpt)).
  destruct (zero_table_spec d (pmem s)) as [Hoz Hz]. set (m1 := zero_table (pg d) (pmem s)) in *. clearbody m1.
  pose proof (put_entry_only (k_pdpt K) m1 j (table_entry (pg d)) ltac:(lia)) as Hop.
  pose proof (fun i => entry_put_same (k_pdpt K) m1 j (table_entry (pg d)) i) as Hep.
  set (m2 := put_entry m1 (pg (k_pdpt K)) j (table_entry (pg d))) in *. clearbody m2.
  assert (Hel : forall g i, g <> d -> g <> k_pdpt K -> 0 <= i < 512 -> entry m2 (pg g) i = entry (pmem s) (pg g) i).
  { intros g i Hgd Hgp Hi. rewrite (only_page_entry (k_pdpt K) m1) by done. by rewrite (only_page_entry d (pmem s)). }
  set (s' := mk_machine m2 fa (KERNEL_PML4_PA s)).
  assert (Hr' : kernel_ready (with_pd j d K) s').
  { split; [done|]. split; [|split; [done|]]; cbn [pmem frames s'].
    + apply (with_pd_view (pmem s)); try done.
      * intros i Hi. rewrite (only_page_entry (k_pdpt K) m1) by done. by apply Hz.
      * intros i Hi. rewrite Hep by (lia || by apply table_entry_range). rewrite (only_page_entry d (pmem s)) by done. by rewrite Z.eqb_sym.
    + intros f. rewrite with_pd_frames, Hfree, Hlim by done. intros [Hf| ->%elem_of_singleton]%elem_of_union; [destruct (HK f Hf); set_solver|set_solver]. }
  exists (with_pd j d K), d, {[d]}, s'. split; [done|]. split; [split; [done|split; [done|split; [set_solver|split; [done|]]]]|].
  - intros x Hx. rewrite with_pd_frames in Hx by done. cbn [pmem s']. rewrite (Hop x), (Hoz x); [done|apply Hx; set_solver|].
    apply Hx, elem_of_union. left. by apply (k_table_frame K KPdpt).
  - rewrite size_singleton. split; [done|]. split; [cbn [with_pd k_pds]; by rewrite lookup_insert_eq|]. split; [done|]. split; [done|].
    split; [rewrite with_pd_frames by done; set_solver|]. split; [by rewrite with_pd_frames|].
    split; [unfold space_cost; cbn [with_pd k_pds]; rewrite map_size_insert_None by done; lia|]. apply (same_walks_tables K (with_pd j d K)); try done.
    + intros r q i Hq Hi. split; [done|]. cbn [pmem s']. apply Hel; [| |done].
      * intros ->. by apply HdK, (k_table_frame K (KShared r)).
      * by apply (table_frames_ne (pmem s) K (KShared r) KPdpt).
    + intros r q i Hn Hq. cbn [with_pd k_pts] in Hq. congruence.
Qed.

Lemma next_pt_spec K r d s :
  kernel_ready K s -> 1024 <= r < 262144 -> k_pds K !! (r / 512) = Some d -> 1 <= Z.of_nat (size (fa_free (frames s))) ->
  exists K' q X s', next_pt (pg d) (r mod 512) s = Ret (pg q, s') /\ extended K' X s s' /\ (size X <= 1)%nat /\ k_pts K' !! r = Some q /\
    k_pml4 K' = k_pml4 K /\ (forall r', r' <> r -> k_pts K' !! r' = k_pts K !! r') /\ k_frames K ⊆ k_frames K' /\ k_frames K' ⊆ k_frames K ∪ X /\ space_cost K' = space_cost K /\ same_walks s s'.
Proof.
  intros Hr Hrr Hd Hsz. pose proof Hr as (Hinv & Hk & Hroot & HK). unfold next_pt, next_table.
  rewrite (kv_pd _ _ Hk r d) by (done || lia). unfold kernel_pde. destruct (Z.ltb_spec r 1024); [lia|].
  assert (HdK : d ∈ k_frames K) by (by apply (k_table_frame K (KPd (r / 512)))).
  destruct (k_pts K !! r) as [q|] eqn:Hq.
  { assert (Hok : frame_ok q) by (by apply (kv_ok _ _ Hk), (k_table_frame K (KShared r))).
    rewrite !has_table_entry, land_table_entry by done. change (has P_PRESENT 3) with true. change (has P_SIZE 3) with false. cbv iota.
    exists K, q, ∅, s. split; [done|]. split; [by apply extended_refl|]. split; [by rewrite size_empty; lia|]. split_and!; (done || lia || apply union_subseteq_l). }
  change (has P_PRESENT 0) with false. cbv iota. destruct (alloc_ready s Hinv Hsz) as (q & fa & -> & Hqf & Hok & HL & Hinv' & Hlim & Hfree).
  rewrite bind_Ret. cbv iota beta zeta. unfold set_entry, with_mem. cbn [pmem frames KERNEL_PML4_PA].
  assert (HqK : q ∉ k_frames K) by (intros Hin; by destruct (HK q Hin)). assert (Hpd : d <> q) by congruence.
  destruct (zero_table_spec q (pmem s)) as [Hoz Hz]. set (m1 := zero_table (pg q) (pmem s)) in *. clearbody m1.
  assert (Hi : 0 <= r mod 512 < 512) by dlia.
  pose proof (put_entry_only d m1 (r mod 512) (table_entry (pg q)) Hi) as Hop.
  pose proof (fun i => entry_put_same d m1 (r mod 512) (table_entry (pg q)) i) as Hep.
  set (m2 := put_entry m1 (pg d) (r mod 512) (table_entry (pg q))) in *. clearbody m2.
  assert (Hel : forall g i, g <> q -> g <> d -> 0 <= i < 512 -> entry m2 (pg g) i = entry (pmem s) (pg g) i).
  { intros g i Hgd Hgp Hi'. rewrite (only_page_entry d m1) by done. by rewrite (only_page_entry q (pmem s)). }
  assert (Hzq : forall i, 0 <= i < 512 -> entry m2 (pg q) i = 0).
  { intros i Hi'. rewrite (only_page_entry d m1) by (done || congruence). by apply Hz. }
  set (s' := mk_machine m2 fa (KERNEL_PML4_PA s)).
  assert (Hr' : kernel_ready (with_pt r q K) s').
  { split; [done|]. split; [|split; [done|]]; cbn [pmem frames s'].
    + apply (with_pt_view (pmem s) _ r q d); try done.
      intros i Hi'. rewrite Hep by (done || by apply table_entry_range). rewrite (only_page_entry q (pmem s)) by done. by rewrite Z.eqb_sym.
    + intros f. rewrite with_pt_frames, Hfree, Hlim by done. intros [Hf| ->%elem_of_singleton]%elem_of_union; [destruct (HK f Hf); set_solver|set_solver]. }
  exists (with_pt r q K), q, {[q]}, s'. split; [done|]. split; [split; [done|split; [done|split; [set_solver|split; [done|]]]]|].
  - intros x Hx. rewrite with_pt_frames in Hx by done. cbn [pmem s']. rewrite (Hop x), (Hoz x); [done|apply Hx; set_solver|].
    apply Hx, elem_of_union. by left.
  - rewrite size_singleton. split; [done|]. split; [cbn [with_pt k_pts]; by rewrite lookup_insert_eq|]. split; [done|].
    split; [intros r' Hne; cbn [with_pt k_pts]; by rewrite lookup_insert_ne by congruence|].
    split; [rewrite with_pt_frames by done; set_solver|]. split; [by rewrite with_pt_frames|]. split; [done|]. apply (same_walks_tables K (with_pt r q K)); try done.
    + intros r' q' i Hq' Hi'. cbn [with_pt k_pts pmem s']. rewrite lookup_insert_ne by congruence. split; [done|]. apply Hel; [| |done].
      * intros ->. by apply HqK, (k_table_frame K (KShared r')).
      * by apply (table_frames_ne (pmem s) K (KShared r') (KPd (r / 512))).
    + intros r' q' i Hn Hq' Hi'. cbn [with_pt k_pts] in Hq'. rewrite lookup_insert in Hq'. case_decide; [|congruence]. injection Hq' as <-. by apply Hzq.
Qed.

(** A leaf as [map_page] and [map_page_uc] write it: the page itself, for the
    supervisor, writable and executable. *)
Definition leaf_ok (v va : Z) : Prop :=
  0 <= v < two64 /\ has P_PRESENT v = true /\ has P_USER v = false /\ has P_WRITE v = true /\ has P_NX v = false /\
  Z.land v ADDR_MASK = va / 4096 * 4096.

(** The last step: the page is entered. *)
Lemma put_leaf_spec v K va q s :
  kernel_ready K s -> 0x80000000 <= va < 0x8000000000 -> k_pts K !! (va / 0x200000) = Some q -> leaf_ok v va ->
  let s' := set_entry (pg q) (table_index 12 va) v s in
  extended K ∅ s s' /\ forall va', 0 <= va' < 0x8000000000 -> mmu_walk (pmem s') (KERNEL_PML4_PA s') va' =
    if va' / 4096 =? va / 4096 then Some (mk_translation va' false true true) else mmu_walk (pmem s) (KERNEL_PML4_PA s) va'.
Proof.
  intros (Hinv & Hk & Hroot & HK) Hva Hq (V1 & V2 & V3 & V4 & V5 & V6) s'.
  assert (Hidx : forall x, 0 <= x -> 0 <= table_index 12 x < 512) by (intros x Hx; rewrite table_index_eq by lia; apply Z.mod_pos_bound; lia).
  assert (Hqk : q ∈ k_frames K) by (by apply (k_table_frame K (KShared (va / 0x200000)))).
  assert (Hk' : kernel_view (pmem s') K) by (apply (put_leaf_view (pmem s) (va / 0x200000)); try done; apply Hidx; lia).
  assert (Ho : only_page q (pmem s) (pmem s')) by (apply put_entry_only, Hidx; lia).
  split.
  - split; [by split|]. split; [set_solver|]. split; [set_solver|]. split; [done|]. intros x Hx. by apply Ho, Hx.
  - intros va' Hva'. change (KERNEL_PML4_PA s') with (KERNEL_PML4_PA s). rewrite Hroot.
    destruct (decide (va' < 0x80000000)).
    { rewrite !(kernel_walk _ K) by (done || lia). by zcase. }
    rewrite !(kernel_walk_high _ K) by (done || lia). destruct (Z.eqb_spec (va' / 4096) (va / 4096)) as [E|E].
    + assert (Ei : table_index 12 va' = table_index 12 va) by (rewrite !table_index_eq by lia; change (2 ^ 12) with 4096; by rewrite E).
      replace (va' / 0x200000) with (va / 0x200000) by dlia. rewrite Hq, Ei. cbv zeta. unfold s', set_entry, with_mem. cbn [pmem].
      rewrite entry_put_same, Z.eqb_refl by (done || apply Hidx; lia). rewrite V2, V4, V5, V6. cbn [negb]. do 2 f_equal. dlia.
    + destruct (k_pts K !! (va' / 0x200000)) as [q'|] eqn:Hq'; [|done]. cbv zeta.
      assert (Ee : entry (pmem s') (pg q') (table_index 12 va') = entry (pmem s) (pg q') (table_index 12 va')); [|by rewrite Ee].
      destruct (decide (va' / 0x200000 = va / 0x200000)) as [Er|Er].
      * replace q' with q by congruence. unfold s', set_entry, with_mem. cbn [pmem]. rewrite entry_put_same by (done || apply Hidx; lia).
        rewrite !table_index_eq by lia. change (2 ^ 12) with 4096. zcase; [|done]. dlia.
      * apply (only_page_entry q); [done| |apply Hidx; lia].
        by apply (table_frames_ne (pmem s) K (KShared (va' / 0x200000)) (KShared (va / 0x200000))); [..|congruence].
Qed.

Lemma map_with_spec leaf K va s :
  kernel_ready K s -> 0x80000000 <= va < 0x8000000000 -> leaf_ok (leaf va) va -> 2 <= Z.of_nat (size (fa_free (frames s))) ->
  exists K' X s', map_with leaf va s = Ret s' /\ extended K' X s s' /\ (size X <= 2)%nat /\ k_frames K' ⊆ k_frames K ∪ X /\ space_cost K' <= space_cost K + 1 /\ k_pml4 K' = k_pml4 K /\
    is_Some (k_pts K' !! (va / 0x200000)) /\
    (forall r, r <> va / 0x200000 -> k_pts K' !! r = k_pts K !! r) /\
    forall va', 0 <= va' < 0x8000000000 -> mmu_walk (pmem s') (KERNEL_PML4_PA s') va' =
      if va' / 4096 =? va / 4096 then Some (mk_translation va' false true true) else mmu_walk (pmem s) (KERNEL_PML4_PA s) va'.
Proof.
  intros Hr Hva Hleaf Hsz. unfold map_with.
  assert (I1 : table_index 39 va = 0) by (rewrite table_index_eq by lia; change (2 ^ 39) with 0x8000000000; dlia).
  assert (I2 : table_index 30 va = va / 0x40000000) by (rewrite table_index_eq by lia; change (2 ^ 30) with 0x40000000; dlia).
  assert (I3 : table_index 21 va = (va / 0x200000) mod 512) by (rewrite table_index_eq by lia; done).
  assert (Hroot : KERNEL_PML4_PA s = pg (k_pml4 K)) by apply Hr. rewrite I1, I2, I3, Hroot, next_pdpt_spec, bind_Ret by done. cbv iota beta.
  destruct (next_pd_spec K (va / 0x40000000) s Hr) as (K1 & d & X1 & s1 & -> & Hx1 & HX1 & Hd & E1 & E2 & Hs1 & Hs1' & Hc1 & Hw1); [dlia|lia|].
  rewrite bind_Ret. cbv iota beta.
  destruct (next_pt_spec K1 (va / 0x200000) d s1) as (K2 & q & X2 & s2 & -> & Hx2 & HX2 & Hq & E3 & E4 & Hs2 & Hs2' & Hc2 & Hw2).
  { apply Hx1. } { dlia. } { by replace (va / 0x200000 / 512) with (va / 0x40000000) by dlia. }
  { destruct Hx1 as (_ & F1 & XF1 & _). rewrite F1, size_difference by done. lia. }
  rewrite bind_Ret. cbv iota beta. destruct (put_leaf_spec (leaf va) K2 va q s2) as [Hx3 Hw3]; [apply Hx2|done|done|done|].
  exists K2, (X1 ∪ X2), (set_entry (pg q) (table_index 12 va) (leaf va) s2). split; [done|]. split.
  { replace (X1 ∪ X2) with (X1 ∪ X2 ∪ ∅) by set_solver. apply (extended_trans K2 K2 (X1 ∪ X2) ∅ s s2); [|exact Hx3|done].
    by apply (extended_trans K1 K2 X1 X2 s s1 s2). }
  split; [rewrite size_union_alt; pose proof (subseteq_size (X2 ∖ X1) X2 ltac:(set_solver)); lia|].
  split; [etransitivity; [exact Hs2'|rewrite union_assoc_L; by apply union_mono_r]|]. split; [lia|]. split; [congruence|]. split; [eauto|]. split; [intros r Hne; rewrite E4 by done; by rewrite E2|].
  intros va' Hva'. rewrite Hw3 by done. by rewrite (Hw2 va' Hva'), (Hw1 va' Hva'), Hroot.
Qed.

(** [map_page_uc] on a page above 2 GiB, on tables that have enough frames: the
    kernel then sees that page at its own address, for itself only, and every
    other address as before; at most two frames are taken, for the directory
    and the page table. *)
Lemma map_page_uc_spec K f s :
  kernel_ready K s -> 0x80000 <= f < 0x8000000 -> 2 <= Z.of_nat (size (fa_free (frames s))) ->
  exists K' X s', map_page_uc (pg f) s = Ret s' /\ extended K' X s s' /\ (size X <= 2)%nat /\ k_frames K' ⊆ k_frames K ∪ X /\ space_cost K' <= space_cost K + 1 /\
    k_pml4 K' = k_pml4 K /\ is_Some (k_pts K' !! (f / 512)) /\ (forall r, r <> f / 512 -> k_pts K' !! r = k_pts K !! r) /\
    forall va, 0 <= va < 0x8000000000 -> mmu_walk (pmem s') (KERNEL_PML4_PA s') va =
      if va / 4096 =? f then Some (mk_translation va false true true) else mmu_walk (pmem s) (KERNEL_PML4_PA s) va.
Proof.
  intros Hr Hf Hsz. destruct (map_with_spec page_4k_uc K (pg f) s Hr) as (K' & X & s' & Hs & H1 & H2 & H2' & H3 & H4 & H5 & H6 & H7);
    [unfold pg; lia| |done|].
  { assert (page_4k_uc (pg f) = Z.lor (pg f) 19) as -> by (unfold page_4k_uc; by rewrite <- !Z.lor_assoc).
    assert (Hb : flag_bits 19) by (by apply flag_bits_small). unfold leaf_ok, pg. rewrite !has_entry, land_entry_addr by (done || lia).
    split; [apply entry_range64; [lia|done]|]. rewrite Z.div_mul by done. rewrite has_nx_entry by (done || lia). done. }
  replace (pg f / 0x200000) with (f / 512) in * by (unfold pg; dlia). replace (pg f / 4096) with f in H7 by (unfold pg; dlia).
  by exists K', X, s'.
Qed.
End map.

(** Tables with the page of the local APIC, for the witnesses: those of [init]
    and [map_page_uc 0xFEE00000]. *)
Definition lapic_tables : outcome (machine (A:=frame_state)) :=
  s ← paging_init (mk_machine ∅ machine_100 0);
  map_page_uc 0xFEE00000 s.

Lemma lapic_machine :
  exists K s, lapic_tables = Ret s /\ kernel_ready K s /\ space_cost K <= 7 /\ k_shared K <> ∅ /\
    88 <= Z.of_nat (size (fa_free (frames s))) /\ fa_limit (frames s) = 100.
Proof.
  destruct (paging_init_ready ∅ machine_100 0 96) as (K & s & Hs & Hk & (u & p & d0 & d1 & ->) & _ & _ & _ & HL & Hsz);
    [exact machine_100_wf|lia|rewrite machine_100_size; lia|].
  assert (Hc : space_cost (plain_kernel u p d0 d1) = 6) by done. set (K := plain_kernel u p d0 d1) in *. clearbody K.
  unfold lapic_tables. rewrite Hs, bind_Ret. change 0xFEE00000 with (pg 0xFEE00).
  destruct (map_page_uc_spec K 0xFEE00 s Hk) as (K' & X & s' & -> & (Hr & Hf & HX & HL' & _) & HX2 & _ & Hc' & _ & [q Hq] & _); [lia..|].
  exists K', s'. split; [done|]. split; [done|]. split; [lia|]. split.
  - assert (q ∈ k_shared K') by (apply elem_of_k_shared; eauto). set_solver.
  - rewrite Hf, size_difference, HL', HL by done. split; [lia|done].
Qed.
