(* ===== verification/Usercopy.v ===== *)
(** * Copies between the kernel and user memory (src/src/usercopy.rs)

    A system call runs with the page tables of its task loaded, so a user
    pointer is dereferenced through the processor's walk [mmu_walk] of the
    tables that [is_user_mapped] checks.  Writes by the kernel ignore the
    write bit of a page: the boot code enables paging without CR0.WP.  An
    access the processor refuses (a page that is not present, or an address
    that is not canonical) does not return to the caller; it is [Halt]. *)

From S2P Require Import Prelude Bytes Mem Frame Paging AddressSpace.

Definition EFAULT : Z := -14.
Definition MAX_USER_COPY : Z := 512.

(** ** Memory through the page tables *)

Definition canonical (va : Z) : bool := (va <? 2 ^ 47) || (two64 - 2 ^ 47 <=? va).

Definition virt_to_phys (m : memory) (cr3 va : Z) : outcome Z :=
  if canonical va then
    match mmu_walk m cr3 va with
    | Some tr => Ret (t_pa tr)
    | None => Halt
    end
  else Halt.
Definition kload (m : memory) (cr3 va : Z) : outcome Z :=
  pa ← virt_to_phys m cr3 va; Ret (load8 m pa).
Definition kstore (m : memory) (cr3 va b : Z) : outcome memory :=
  pa ← virt_to_phys m cr3 va; Ret (store8 m pa b).

(** [n] bytes from [va]. *)
Fixpoint kread (n : nat) (m : memory) (cr3 va : Z) : outcome (list Z) :=
  match n with
  | O => Ret []
  | S n' => b ← kload m cr3 va; bs ← kread n' m cr3 (u64 (va + 1)); Ret (b :: bs)
  end.
(** [copy_nonoverlapping(src, dst, n)] between two virtual ranges. *)
Fixpoint kcopy (n : nat) (m : memory) (cr3 src dst : Z) : outcome memory :=
  match n with
  | O => Ret m
  | S n' =>
      b ← kload m cr3 src;
      m ← kstore m cr3 dst b;
      kcopy n' m cr3 (u64 (src + 1)) (u64 (dst + 1))
  end.

(** ** [copy_from_user] *)

(** The page loop.  A call covers at most 512 bytes, so at most two pages; an
    address that wraps past the top restarts at page 0, whose chunk of a whole
    page does not fit the buffer.  Four rounds are enough. *)
Fixpoint copy_from_loop (fuel : nat) (m : memory) (task_cr3 user_ptr end_ addr : Z) (kernel_buf : list Z)
  : outcome (result Z unit * list Z) :=
  match fuel with
  | O => Hang
  | S fuel' =>
      if addr <? end_ then
        let page_start := Z.land addr (not64 0xFFF) in
        let page_end := u64 (page_start + 4096) in
        let chunk_end := Z.min end_ page_end in
        if negb (is_user_mapped m task_cr3 addr) then Ret (Err EFAULT, kernel_buf)
        else
          let dst_off := u64 (addr - user_ptr) in
          let copy_len := u64 (chunk_end - addr) in
          _ ← slice kernel_buf dst_off (u64 (dst_off + copy_len));
          bs ← kread (Z.to_nat copy_len) m task_cr3 addr;
          copy_from_loop fuel' m task_cr3 user_ptr end_ page_end (write_at kernel_buf dst_off bs)
      else Ret (Ok tt, kernel_buf)
  end.

Definition copy_from_user (m : memory) (task_cr3 user_ptr len : Z) (kernel_buf : list Z)
  : outcome (result Z Z * list Z) :=
  if MAX_USER_COPY <? len then Ret (Err EFAULT, kernel_buf)
  else if len =? 0 then Ret (Ok 0, kernel_buf)
  else if two64 <=? user_ptr + len then Ret (Err EFAULT, kernel_buf)
  else
    x ← copy_from_loop 4 m task_cr3 user_ptr (user_ptr + len) user_ptr kernel_buf;
    let '(r, kernel_buf) := x in
    Ret (match r with Ok _ => Ok len | Err e => Err e end, kernel_buf).

(** ** [copy_to_user] *)

(** The page loop; each round but the last ends at a page boundary. *)
Fixpoint copy_to_loop (fuel : nat) (m : memory) (task_cr3 kernel_src end_ addr src_off : Z)
  : outcome (result Z unit * memory) :=
  match fuel with
  | O => Hang
  | S fuel' =>
      if addr <? end_ then
        let page_start := Z.land addr (not64 0xFFF) in
        let page_end := u64 (page_start + 4096) in
        let chunk_end := Z.min end_ page_end in
        if negb (is_user_mapped m task_cr3 addr) then Ret (Err EFAULT, m)
        else
          let copy_len := u64 (chunk_end - addr) in
          m ← kcopy (Z.to_nat copy_len) m task_cr3 (u64 (kernel_src + src_off)) addr;
          copy_to_loop fuel' m task_cr3 kernel_src end_ page_end (u64 (src_off + copy_len))
      else Ret (Ok tt, m)
  end.

Definition copy_to_user (m : memory) (task_cr3 user_ptr kernel_src len : Z)
  : outcome (result Z Z * memory) :=
  if len =? 0 then Ret (Ok 0, m)
  else if two64 <=? user_ptr + len then Ret (Err EFAULT, m)
  else
    x ← copy_to_loop (Z.to_nat (len / 4096 + 3)) m task_cr3 kernel_src (user_ptr + len) user_ptr 0;
    let '(r, m) := x in
    Ret (match r with Ok _ => Ok len | Err e => Err e end, m).

(** ** [copy_from_user_cstr] *)

Fixpoint cstr_loop (todo : nat) (m : memory) (task_cr3 user_ptr i : Z) (buf : list Z)
  : outcome (result Z (Z * list Z)) :=
  match todo with
  | O => Ret (Ok (i, buf))
  | S todo' =>
      if negb (is_user_mapped m task_cr3 (u64 (user_ptr + i))) then Ret (Err EFAULT)
      else
        byte ← kload m task_cr3 (u64 (user_ptr + i));
        if byte =? 0 then Ret (Ok (i, buf))
        else
          buf ← assign buf i byte;
          cstr_loop todo' m task_cr3 user_ptr (i + 1) buf
  end.
Definition copy_from_user_cstr (m : memory) (task_cr3 user_ptr max_len : Z) : outcome (result Z (list Z)) :=
  let buf := replicate 256 0 in
  r ← cstr_loop (Z.to_nat (Z.min max_len 255)) m task_cr3 user_ptr 0 buf;
  match r with
  | Err e => Ret (Err e)
  | Ok (i, buf) => s ← slice buf 0 i; Ret (Ok (utf8_or s []))
  end.

(** ** What a task's address space holds *)

(** The physical address of user address [va]. *)
Definition phys (um : user_map) (va : Z) : option Z :=
  match um !! (va / 4096) with
  | Some (f, _, _) => Some (pg f + va mod 4096)
  | None => None
  end.
Definition user_byte (m : memory) (um : user_map) (va : Z) : option Z := load8 m <$> phys um va.
Fixpoint user_bytes (n : nat) (m : memory) (um : user_map) (va : Z) : option (list Z) :=
  match n with
  | O => Some []
  | S n' =>
      match user_byte m um va, user_bytes n' m um (va + 1) with
      | Some b, Some bs => Some (b :: bs)
      | _, _ => None
      end
  end.

Lemma user_bytes_app n1 n2 m um va :
  user_bytes (n1 + n2) m um va =
    match user_bytes n1 m um va, user_bytes n2 m um (va + Z.of_nat n1) with
    | Some b1, Some b2 => Some (b1 ++ b2)
    | _, _ => None
    end.
Proof.
  revert va. induction n1 as [|n1 IH]; intros va; cbn [user_bytes Nat.add].
  - replace (va + Z.of_nat 0) with va by lia. by destruct (user_bytes n2 m um va).
  - rewrite IH. replace (va + 1 + Z.of_nat n1) with (va + Z.of_nat (S n1)) by lia.
    destruct (user_byte m um va); [|done]. destruct (user_bytes n1 m um (va + 1)); [|done].
    by destruct (user_bytes n2 m um _).
Qed.

Lemma user_bytes_length n m um va bs : user_bytes n m um va = Some bs -> length bs = n.
Proof.
  revert va bs. induction n as [|n IH]; intros va bs; cbn [user_bytes]; [by intros [= <-]|].
  destruct (user_byte m um va); [|done]. destruct (user_bytes n m um (va + 1)) eqn:E; [|done].
  intros [= <-]. simpl. f_equal. by eapply IH.
Qed.

(** Within a mapped page every byte is there, within an unmapped one none. *)
Lemma phys_page um va va' : va / 4096 = va' / 4096 -> is_Some (phys um va) <-> is_Some (phys um va').
Proof. intros E. unfold phys. rewrite E. destruct (um !! (va' / 4096)) as [[[f w] x]|]; by split; intros []. Qed.

Lemma user_bytes_page n m um va :
  is_Some (phys um va) -> va mod 4096 + Z.of_nat n <= 4096 -> is_Some (user_bytes n m um va).
Proof.
  revert va. induction n as [|n IH]; intros va [pa Hpa] Hn; cbn [user_bytes]; [done|].
  unfold user_byte. rewrite Hpa. simpl. destruct n as [|n]; [done|].
  destruct (IH (va + 1)) as [bs ->]; [|dlia|done]. apply (phys_page um va); [dlia|eauto].
Qed.
Lemma user_bytes_unmapped n m um va : phys um va = None -> (0 < n)%nat -> user_bytes n m um va = None.
Proof. intros Hpa Hn. destruct n; [lia|]. cbn [user_bytes]. unfold user_byte. by rewrite Hpa. Qed.

Section task.
Variables (t : tables) (um : user_map) (u : Z).
Hypothesis Hu : t KPml4 = Some u.

(** The walks use bits 0 to 47 of an address. *)
Lemma table_index_low48 sh va : 0 <= va -> 0 <= sh <= 39 -> table_index sh va = table_index sh (va mod 2 ^ 48).
Proof.
  intros Hva Hsh. rewrite !table_index_eq by (pose proof (Z.mod_pos_bound va (2 ^ 48) ltac:(lia)); lia).
  pose proof (Z.pow_pos_nonneg 2 sh ltac:(lia) ltac:(lia)). rewrite (Z.div_mod va (2 ^ 48)) at 1 by lia.
  replace (2 ^ 48 * (va / 2 ^ 48)) with (va / 2 ^ 48 * 2 ^ (39 - sh) * 512 * 2 ^ sh).
  2: { replace (2 ^ 48) with (2 ^ (39 - sh) * 512 * 2 ^ sh); [ring|].
       change 512 with (2 ^ 9). rewrite <- !Z.pow_add_r by lia. f_equal. lia. }
  rewrite Z.add_comm, Z.div_add by lia. by rewrite Z.mod_add by lia.
Qed.

Lemma phys_range m va : view m t um -> is_Some (phys um va) -> 0 <= va < 0x80000000.
Proof.
  intros Hv. unfold phys. destruct (um !! (va / 4096)) as [[[f w] x]|] eqn:Hum; [|by intros []].
  destruct (v_um _ _ _ Hv _ _ _ _ Hum) as (Hrange & _). intros _. dlia.
Qed.

Lemma user_mapped_phys m va :
  view m t um -> 0 <= va -> is_user_mapped m (pg u) va = bool_decide (is_Some (phys um (va mod 2 ^ 48))).
Proof.
  intros Hv Hva. unfold is_user_mapped. rewrite !(table_index_low48 _ va) by lia.
  change (is_user_mapped m (pg u) (va mod 2 ^ 48) = bool_decide (is_Some (phys um (va mod 2 ^ 48)))).
  rewrite (view_user_mapped m t um u Hv Hu) by (pose proof (Z.mod_pos_bound va (2 ^ 48) ltac:(lia)); lia).
  apply bool_decide_ext. unfold phys.
  destruct (um !! (va mod 2 ^ 48 / 4096)) as [[[f w] x]|]; by split; intros [].
Qed.

Lemma virt_to_phys_user m va pa :
  view m t um -> phys um va = Some pa -> virt_to_phys m (pg u) va = Ret pa.
Proof.
  intros Hv Hpa. pose proof (phys_range m va Hv ltac:(eauto)) as Hva.
  unfold virt_to_phys, canonical. destruct (Z.ltb_spec va (2 ^ 47)); [|lia]. simpl.
  rewrite (view_walk m t um u Hv Hu) by lia. unfold phys in Hpa.
  destruct (um !! (va / 4096)) as [[[f w] x]|] eqn:Hum; [|done]. injection Hpa as <-.
  unfold promised. by rewrite Hum.
Qed.

(** An alias of a user page above the 48 bits of a walk passes the check and
    cannot be accessed. *)
Lemma virt_to_phys_alias m va :
  view m t um -> 2 ^ 48 <= va < two64 -> is_Some (phys um (va mod 2 ^ 48)) -> virt_to_phys m (pg u) va = Halt.
Proof.
  intros Hv Hva Hlow%(phys_range m _ Hv). unfold virt_to_phys, canonical. destruct (Z.ltb_spec va (2 ^ 47)); [lia|].
  destruct (Z.leb_spec (two64 - 2 ^ 47) va) as [Hx|_]; [|done]. exfalso.
  assert (va / 2 ^ 48 = 65535) by (change two64 with (2 ^ 48 * 65536) in *; dlia). dlia.
Qed.

Lemma virt_to_phys_kernel m va :
  view m t um -> 0 <= va < 0x80000000 -> phys um va = None -> virt_to_phys m (pg u) va = Ret va.
Proof.
  intros Hv Hva Hpa. unfold virt_to_phys, canonical. destruct (Z.ltb_spec va (2 ^ 47)); [|lia]. simpl.
  rewrite (view_walk m t um u Hv Hu) by lia.
  unfold phys in Hpa. unfold promised. by destruct (um !! (va / 4096)) as [[[f w] x]|].
Qed.

Lemma kread_user n m va bs :
  view m t um -> 0 <= va -> va + Z.of_nat n <= 2 ^ 48 -> user_bytes n m um va = Some bs ->
  kread n m (pg u) va = Ret bs.
Proof.
  intros Hv. revert va bs. induction n as [|n IH]; intros va bs Hva Hn; cbn [user_bytes kread]; [by intros [= <-]|].
  unfold user_byte. destruct (phys um va) as [pa|] eqn:Hpa; [|done]. simpl.
  destruct (user_bytes n m um (va + 1)) as [bs'|] eqn:E; [|done]. intros [= <-].
  unfold kload. rewrite (virt_to_phys_user m va pa) by done. simpl.
  by rewrite u64_small, (IH _ bs') by (done || lia).
Qed.

(** The geometry of one round of the page loops. *)
Lemma chunk_bounds addr end_ :
  0 <= addr < end_ -> end_ <= 2 ^ 48 ->
  let page_end := (addr / 4096 + 1) * 4096 in
  u64 (Z.land addr (not64 0xFFF) + 4096) = page_end /\
  u64 (Z.min end_ page_end - addr) = Z.min end_ page_end - addr /\
  0 < Z.min end_ page_end - addr /\ addr mod 4096 + (Z.min end_ page_end - addr) <= 4096.
Proof.
  intros Ha He page_end. subst page_end. change 0xFFF with (2 ^ 12 - 1).
  rewrite land_not64_ones by lia. change (2 ^ 12) with 4096. change (2 ^ 48) with 281474976710656 in He.
  split; [rewrite u64_small; dlia|]. assert (addr < (addr / 4096 + 1) * 4096) by dlia.
  split; [rewrite u64_small; lia|]. split; [lia|dlia].
Qed.

Lemma copy_from_loop_spec fuel m user_ptr end_ addr buf :
  view m t um -> 0 <= user_ptr <= addr -> addr <= end_ <= 2 ^ 48 -> end_ - user_ptr <= lenZ buf ->
  (end_ + 4095) / 4096 - addr / 4096 < Z.of_nat fuel ->
  match user_bytes (Z.to_nat (end_ - addr)) m um addr with
  | Some bs => copy_from_loop fuel m (pg u) user_ptr end_ addr buf =
      Ret (Ok tt, write_at buf (addr - user_ptr) bs)
  | None => exists buf', copy_from_loop fuel m (pg u) user_ptr end_ addr buf = Ret (Err EFAULT, buf') /\
      lenZ buf' = lenZ buf
  end.
Proof.
  intros Hv. revert addr buf. induction fuel as [|fuel IH]; intros addr buf Hp Hend Hbuf Hfuel; [dlia|].
  cbn [copy_from_loop]. destruct (Z.ltb_spec addr end_).
  2: { replace (Z.to_nat (end_ - addr)) with 0%nat by lia. cbn [user_bytes].
       unfold write_at. simpl. by rewrite Nat.add_0_r, take_drop. }
  destruct (chunk_bounds addr end_) as (-> & -> & Hn & Hpage); [lia..|].
  set (pe := (addr / 4096 + 1) * 4096) in *. set (n := Z.min end_ pe - addr) in *.
  rewrite user_mapped_phys, (Z.mod_small addr) by (done || lia). case_bool_decide as Hmap; cbn [negb].
  2: { assert (Hnone : phys um addr = None) by (by apply eq_None_not_Some).
       rewrite user_bytes_unmapped by (done || lia). by exists buf. }
  replace (Z.to_nat (end_ - addr)) with (Z.to_nat n + Z.to_nat (end_ - addr - n))%nat by lia.
  rewrite user_bytes_app. destruct (user_bytes_page (Z.to_nat n) m um addr) as [bs Hbs]; [done|lia|].
  rewrite Hbs. pose proof (user_bytes_length _ _ _ _ _ Hbs) as Hlen.
  assert (HlenZ : lenZ bs = n) by (unfold lenZ; lia).
  rewrite !u64_small by lia. rewrite slice_Ret by lia.
  rewrite bind_Ret, (kread_user _ _ _ bs) by (done || lia). rewrite bind_Ret.
  assert (Hwl : lenZ (write_at buf (addr - user_ptr) bs) = lenZ buf) by (apply lenZ_write_at; lia).
  destruct (Z.leb_spec end_ pe).
  - replace (Z.to_nat (end_ - addr - n)) with 0%nat by lia. cbn [user_bytes]. rewrite app_nil_r.
    destruct fuel; [dlia|]. cbn [copy_from_loop]. by destruct (Z.ltb_spec pe end_); [lia|].
  - replace (addr + Z.of_nat (Z.to_nat n)) with pe by lia. replace (end_ - addr - n) with (end_ - pe) by lia.
    specialize (IH pe (write_at buf (addr - user_ptr) bs)). rewrite Hwl in IH.
    assert (Hdiv : (end_ + 4095) / 4096 - pe / 4096 < Z.of_nat fuel) by (unfold pe; dlia).
    specialize (IH ltac:(lia) ltac:(lia) ltac:(lia) Hdiv).
    destruct (user_bytes (Z.to_nat (end_ - pe)) m um pe) as [bs2|] eqn:E2; [|done].
    pose proof (user_bytes_length _ _ _ _ _ E2). rewrite IH. do 2 f_equal.
    replace (pe - user_ptr) with (addr - user_ptr + lenZ bs) by lia.
    apply write_at_app; [lia|]. unfold lenZ in *. lia.
Qed.

(** A range that starts above the user pages, or at an alias of one. *)
Lemma copy_from_loop_far fuel m user_ptr end_ buf :
  view m t um -> 2 ^ 47 <= user_ptr < end_ -> end_ < two64 -> end_ - user_ptr <= lenZ buf ->
  copy_from_loop (S fuel) m (pg u) user_ptr end_ user_ptr buf =
    if bool_decide (is_Some (phys um (user_ptr mod 2 ^ 48))) then Halt else Ret (Err EFAULT, buf).
Proof.
  intros Hv Hp He Hb. cbn [copy_from_loop]. destruct (Z.ltb_spec user_ptr end_); [|lia].
  rewrite user_mapped_phys by (done || lia). case_bool_decide as Hmap; cbn [negb]; [|done].
  pose proof (phys_range m _ Hv Hmap) as Hlow.
  assert (Hbig : 2 ^ 48 <= user_ptr < two64 - 0x80000000).
  { change two64 with (2 ^ 48 * 65536) in *. change (2 ^ 47) with 140737488355328 in *. change (2 ^ 48) with 281474976710656 in *. dlia. }
  change 0xFFF with (2 ^ 12 - 1). rewrite land_not64_ones by lia. change (2 ^ 12) with 4096.
  change (2 ^ 48) with 281474976710656 in Hbig. rewrite (u64_small (user_ptr / 4096 * 4096 + 4096)) by dlia.
  set (n := Z.min end_ (user_ptr / 4096 * 4096 + 4096) - user_ptr). assert (Hn : 0 < n <= end_ - user_ptr) by (unfold n; dlia).
  replace (user_ptr - user_ptr) with 0 by lia. rewrite !u64_small by lia. rewrite slice_Ret, bind_Ret by lia.
  replace (Z.to_nat n) with (S (Z.to_nat (n - 1))) by lia. cbn [kread]. unfold kload. by rewrite virt_to_phys_alias by (done || lia).
Qed.

(** ** Writing *)

(** Different user addresses have different physical addresses. *)
Lemma phys_inj m va va' pa :
  view m t um -> phys um va = Some pa -> phys um va' = Some pa -> va = va'.
Proof.
  intros Hv. unfold phys. destruct (um !! (va / 4096)) as [[[f w] x]|] eqn:H1; [|done].
  destruct (um !! (va' / 4096)) as [[[f' w'] x']|] eqn:H2; [|done]. intros [= <-] [= Hpa].
  assert (f = f') as <- by (unfold pg in Hpa; dlia).
  pose proof (v_udist _ _ _ Hv _ _ _ _ _ _ _ H1 H2). dlia.
Qed.

(** [m'] is [m] with the [n] bytes [g] written to user memory at [dst]. *)
Definition written (m m' : memory) (dst n : Z) (g : Z -> Z) : Prop :=
  (forall i pa, 0 <= i < n -> phys um (dst + i) = Some pa -> load8 m' pa = g i) /\
  (forall pa, (forall i, 0 <= i < n -> phys um (dst + i) <> Some pa) -> load8 m' pa = load8 m pa).

(** User memory is in frames that hold no table. *)
Lemma view_store8 m va pa b :
  view m t um -> phys um va = Some pa -> view (store8 m pa b) t um.
Proof.
  intros Hv Hpa. unfold phys in Hpa. destruct (um !! (va / 4096)) as [[[f w] x]|] eqn:Hum; [|done].
  injection Hpa as <-. apply (view_only_page m _ t um f Hv).
  - intros y Hy. rewrite load8_store8. zcase; [|done]. exfalso. apply Hy. unfold pg in *. dlia.
  - intros k Hk. by apply (v_data _ _ _ Hv _ _ _ _ _ Hk Hum).
Qed.

Lemma view_written m m' dst n g :
  view m t um -> written m m' dst n g -> view m' t um.
Proof.
  intros Hv [_ Hout]. apply (view_ext m); [done|]. intros k f y Hk Hy. apply Hout. intros j Hj Hpa.
  unfold phys in Hpa. destruct (um !! ((dst + j) / 4096)) as [[[f' w] x]|] eqn:Hum; [|done].
  injection Hpa as Hpa. assert (f' = f) as -> by (unfold pg in *; dlia).
  by apply (v_data _ _ _ Hv _ _ _ _ _ Hk Hum).
Qed.

(** A kernel buffer: identity-mapped and outside every user frame. *)
Definition kernel_range (src n : Z) : Prop :=
  0 <= src /\ src + n <= 0x80000000 /\
  forall i, 0 <= i < n -> phys um (src + i) = None /\ forall va, phys um va <> Some (src + i).

Lemma kernel_range_sub src n k l : kernel_range src n -> 0 <= k -> 0 <= l -> k + l <= n -> kernel_range (src + k) l.
Proof.
  intros (H1 & H2 & H3) Hk Hl Hn. split; [lia|]. split; [lia|]. intros i Hi.
  rewrite <- Z.add_assoc. apply H3. lia.
Qed.

Lemma kcopy_user n m src dst :
  view m t um -> 0 <= dst -> dst + Z.of_nat n <= 2 ^ 48 -> kernel_range src (Z.of_nat n) ->
  (forall i, 0 <= i < Z.of_nat n -> is_Some (phys um (dst + i))) ->
  exists m', kcopy n m (pg u) src dst = Ret m' /\
    written m m' dst (Z.of_nat n) (fun i => load8 m (src + i)).
Proof.
  revert m src dst. induction n as [|n IH]; intros m src dst Hv Hd Hn Hk Hmap; cbn [kcopy].
  { exists m. split; [done|]. split; [lia|done]. }
  destruct Hk as (Hs & Hs2 & Hks).
  destruct (Hks 0 ltac:(lia)) as [Hnone Hout]. destruct (Hmap 0 ltac:(lia)) as [pa Hpa].
  rewrite Z.add_0_r in Hnone, Hout, Hpa. unfold kload, kstore.
  rewrite (virt_to_phys_kernel m src), bind_Ret by (done || lia). rewrite bind_Ret.
  rewrite (virt_to_phys_user m dst pa), bind_Ret by done. rewrite bind_Ret.
  set (m1 := store8 m pa (load8 m src)).
  assert (Hv1 : view m1 t um) by (by eapply view_store8).
  rewrite !u64_small by lia.
  destruct (IH m1 (src + 1) (dst + 1) Hv1 ltac:(lia) ltac:(lia)) as (m' & -> & Hin & Hrest).
  { eapply (kernel_range_sub src (Z.of_nat (S n))); [by split|lia..]. }
  { intros i Hi. rewrite <- Z.add_assoc. apply Hmap. lia. }
  exists m'. split; [done|]. split.
  - intros i pa' Hi Hpa'. destruct (decide (i = 0)) as [->|].
    + rewrite Z.add_0_r in *. rewrite Hpa in Hpa'. injection Hpa' as <-.
      rewrite Hrest.
      * unfold m1. rewrite load8_store8, Z.eqb_refl. apply Z.mod_small, load8_range.
      * intros j Hj Heq. pose proof (phys_inj m _ _ _ Hv Heq Hpa). lia.
    + rewrite (Hin (i - 1)); [|lia|by replace (dst + 1 + (i - 1)) with (dst + i) by lia].
      replace (src + 1 + (i - 1)) with (src + i) by lia. unfold m1. rewrite load8_store8. zcase; [|done].
      subst. destruct (Hks i ltac:(lia)) as [_ Hne]. by destruct (Hne dst).
  - intros pa' Hne. rewrite Hrest.
    + unfold m1. rewrite load8_store8. zcase; [|done]. subst. exfalso. apply (Hne 0); [lia|by rewrite Z.add_0_r].
    + intros i Hi. rewrite <- Z.add_assoc. apply Hne. lia.
Qed.

Lemma written_trans m m1 m2 a n1 n2 g g2 :
  view m t um -> 0 <= n1 -> 0 <= n2 -> written m m1 a n1 g -> written m1 m2 (a + n1) n2 g2 ->
  (forall i, 0 <= i < n2 -> g2 i = g (n1 + i)) -> written m m2 a (n1 + n2) g.
Proof.
  intros Hv Hn1 Hn2 [H1 H1'] [H2 H2'] Hg. split.
  - intros i pa Hi Hpa. destruct (decide (i < n1)).
    + rewrite H2'; [by apply H1; [lia|]|]. intros j Hj Heq.
      pose proof (phys_inj m _ _ _ Hv Heq Hpa). lia.
    + rewrite (H2 (i - n1)); [|lia|by replace (a + n1 + (i - n1)) with (a + i) by lia].
      rewrite Hg by lia. f_equal. lia.
  - intros pa Hne. rewrite H2', H1'; [done|..].
    + intros i Hi. apply Hne. lia.
    + intros i Hi. rewrite <- Z.add_assoc. apply Hne. lia.
Qed.

(** Kernel memory is not touched. *)
Lemma written_kernel m m' a n g src k i :
  written m m' a n g -> kernel_range src k -> 0 <= i < k -> load8 m' (src + i) = load8 m (src + i).
Proof. intros [_ Hout] (_ & _ & Hk) Hi. apply Hout. intros j _. by apply Hk. Qed.

(** The mapped prefix of the range is written, and an error is returned at
    the first page that is not mapped. *)
Definition copy_result (m m' : memory) (addr n : Z) (g : Z -> Z) (r : result Z unit) : Prop :=
  exists k, 0 <= k <= n /\ written m m' addr k g /\ (forall i, 0 <= i < k -> is_Some (phys um (addr + i))) /\
    ((r = Ok tt /\ k = n) \/ (r = Err EFAULT /\ k < n /\ phys um (addr + k) = None)).

Lemma copy_to_loop_spec fuel m kernel_src end_ addr src_off :
  view m t um -> 0 <= addr <= end_ -> end_ <= 2 ^ 48 -> 0 <= src_off ->
  kernel_range kernel_src (src_off + (end_ - addr)) ->
  (end_ + 4095) / 4096 - addr / 4096 < Z.of_nat fuel ->
  exists r m', copy_to_loop fuel m (pg u) kernel_src end_ addr src_off = Ret (r, m') /\
    copy_result m m' addr (end_ - addr) (fun i => load8 m (kernel_src + (src_off + i))) r.
Proof.
  revert m addr src_off. induction fuel as [|fuel IH]; intros m addr off Hv Ha He Ho Hk Hfuel; [dlia|].
  cbn [copy_to_loop]. destruct (Z.ltb_spec addr end_).
  2: { eexists _, m. split; [done|]. exists 0. split; [lia|]. split; [split; [lia|done]|]. split; [lia|].
       left. split; [done|lia]. }
  destruct (chunk_bounds addr end_) as (-> & -> & Hn & Hpage); [lia..|].
  set (pe := (addr / 4096 + 1) * 4096) in *. set (n := Z.min end_ pe - addr) in *.
  rewrite user_mapped_phys, (Z.mod_small addr) by (done || lia). case_bool_decide as Hmap; cbn [negb].
  2: { eexists _, m. split; [done|]. exists 0. split; [lia|]. split; [split; [lia|done]|]. split; [lia|].
       right. split; [done|]. split; [lia|]. rewrite Z.add_0_r. by apply eq_None_not_Some. }
  destruct Hk as (Hk1 & Hk2 & Hk3). assert (Hk : kernel_range kernel_src (off + (end_ - addr))) by done.
  rewrite !u64_small by lia.
  assert (Hall : forall i, 0 <= i < n -> is_Some (phys um (addr + i))).
  { intros i Hi. apply (phys_page um addr); [dlia|done]. }
  destruct (kcopy_user (Z.to_nat n) m (kernel_src + off) addr) as (m1 & -> & Hw1); [done|lia|lia|..].
  { eapply kernel_range_sub; [done|lia..]. }
  { intros i Hi. apply Hall. lia. }
  rewrite Z2Nat.id in Hw1 by lia. rewrite bind_Ret. pose proof (view_written _ _ _ _ _ Hv Hw1) as Hv1.
  assert (Hw1' : written m m1 addr n (fun i => load8 m (kernel_src + (off + i)))).
  { destruct Hw1 as [Hin Hout]. split; [|done]. intros i pa Hi Hpa. rewrite (Hin i pa Hi Hpa). f_equal. lia. }
  destruct (Z.leb_spec end_ pe).
  - destruct fuel; [dlia|]. cbn [copy_to_loop]. destruct (Z.ltb_spec pe end_); [lia|].
    eexists _, m1. split; [done|]. exists n. split; [lia|]. split; [done|]. split; [done|]. left.
    split; [done|lia].
  - destruct (IH m1 pe (off + n)) as (r & m' & -> & k & Hkr & Hw2 & Hall2 & Hr); try done; try lia.
    { replace (off + n + (end_ - pe)) with (off + (end_ - addr)) by lia. done. }
    { unfold pe. dlia. }
    exists r, m'. split; [done|]. exists (n + k). split; [lia|].
    assert (Hpe : addr + n = pe) by lia. split; [|split].
    + eapply (written_trans m m1); [done|lia|lia|exact Hw1'|rewrite Hpe; exact Hw2|].
      intros i Hi. simpl. rewrite Z.add_assoc. rewrite <- !Z.add_assoc.
      rewrite (written_kernel m m1 addr n _ kernel_src _ (off + (n + i)) Hw1' Hk) by lia. done.
    + intros i Hi. destruct (decide (i < n)); [by apply Hall; lia|].
      replace (addr + i) with (pe + (i - n)) by lia. apply Hall2. lia.
    + destruct Hr as [[-> ->]|(-> & Hlt & Hnone)]; [left; split; [done|lia]|right].
      split; [done|]. split; [lia|]. by rewrite Z.add_assoc, Hpe.
Qed.

Lemma copy_to_loop_far fuel m kernel_src end_ addr :
  view m t um -> 2 ^ 47 <= addr < end_ -> end_ < two64 -> kernel_range kernel_src (end_ - addr) ->
  copy_to_loop (S fuel) m (pg u) kernel_src end_ addr 0 =
    if bool_decide (is_Some (phys um (addr mod 2 ^ 48))) then Halt else Ret (Err EFAULT, m).
Proof.
  intros Hv Hp He (Hk1 & Hk2 & Hk). cbn [copy_to_loop]. destruct (Z.ltb_spec addr end_); [|lia].
  rewrite user_mapped_phys by (done || lia). case_bool_decide as Hmap; cbn [negb]; [|done].
  pose proof (phys_range m _ Hv Hmap) as Hlow.
  assert (Hbig : 2 ^ 48 <= addr < two64 - 0x80000000).
  { change two64 with (2 ^ 48 * 65536) in *. change (2 ^ 47) with 140737488355328 in *. change (2 ^ 48) with 281474976710656 in *. dlia. }
  change 0xFFF with (2 ^ 12 - 1). rewrite land_not64_ones by lia. change (2 ^ 12) with 4096.
  change (2 ^ 48) with 281474976710656 in Hbig. rewrite (u64_small (addr / 4096 * 4096 + 4096)) by dlia.
  set (n := Z.min end_ (addr / 4096 * 4096 + 4096) - addr). assert (Hn : 0 < n <= end_ - addr) by (unfold n; dlia).
  rewrite Z.add_0_r, (u64_small n), (u64_small kernel_src) by lia. replace (Z.to_nat n) with (S (Z.to_nat (n - 1))) by lia. cbn [kcopy]. unfold kload, kstore.
  destruct (Hk 0 ltac:(lia)) as [Hnone _]. rewrite Z.add_0_r in Hnone.
  rewrite (virt_to_phys_kernel m kernel_src Hv ltac:(lia) Hnone), bind_Ret. rewrite bind_Ret. by rewrite virt_to_phys_alias by (done || lia).
Qed.
End task.

(** ** Properties *)

(** A pointer whose low 48 bits are a user address and whose others are not 0. *)
Definition user_alias (um : user_map) (user_ptr : Z) : bool :=
  (2 ^ 48 <=? user_ptr) && bool_decide (is_Some (phys um (user_ptr mod 2 ^ 48))).

Lemma user_alias_far m t um user_ptr :
  view m t um -> 2 ^ 47 <= user_ptr -> user_alias um user_ptr = bool_decide (is_Some (phys um (user_ptr mod 2 ^ 48))).
Proof.
  intros Hv Hp. unfold user_alias. destruct (Z.leb_spec (2 ^ 48) user_ptr); [done|]. rewrite (Z.mod_small user_ptr) by lia.
  case_bool_decide as Hm; [|done]. pose proof (phys_range t um m _ Hv Hm). lia.
Qed.

Lemma copy_from_user_spec m t um u user_ptr len buf :
  view m t um -> t KPml4 = Some u -> 0 <= user_ptr < two64 -> 0 <= len -> lenZ buf = MAX_USER_COPY ->
  let fits := (len <=? MAX_USER_COPY) && (user_ptr + len <? two64) in
  match (if fits then user_bytes (Z.to_nat len) m um user_ptr else None) with
  | Some bs => copy_from_user m (pg u) user_ptr len buf = Ret (Ok len, write_at buf 0 bs)
  | None => if fits && user_alias um user_ptr then copy_from_user m (pg u) user_ptr len buf = Halt
      else exists buf', copy_from_user m (pg u) user_ptr len buf = Ret (Err EFAULT, buf') /\ lenZ buf' = MAX_USER_COPY
  end.
Proof.
  intros Hv Hu Hp Hl Hbuf. unfold copy_from_user, MAX_USER_COPY in *. cbv zeta.
  destruct (Z.leb_spec len 512), (Z.ltb_spec 512 len); cbn [andb]; try lia; [|by exists buf].
  destruct (Z.eqb_spec len 0) as [-> |]; [by destruct (Z.ltb_spec (user_ptr + 0) two64); [|lia]|].
  destruct (Z.ltb_spec (user_ptr + len) two64), (Z.leb_spec two64 (user_ptr + len)); try lia; [|by exists buf].
  destruct (decide (user_ptr < 2 ^ 47)) as [Hlow|Hfar].
  - assert (user_alias um user_ptr = false) as -> by (unfold user_alias; by destruct (Z.leb_spec (2 ^ 48) user_ptr); [lia|]).
    pose proof (copy_from_loop_spec t um u Hu 4 m user_ptr (user_ptr + len) user_ptr buf Hv
      ltac:(lia) ltac:(lia) ltac:(lia) ltac:(dlia)) as Hloop.
    replace (user_ptr + len - user_ptr) with len in Hloop by lia.
    destruct (user_bytes (Z.to_nat len) m um user_ptr) as [bs|].
    + rewrite Hloop, bind_Ret. by replace (user_ptr - user_ptr) with 0 by lia.
    + destruct Hloop as (buf' & -> & Hlen). rewrite bind_Ret. exists buf'. split; [done|lia].
  - rewrite (copy_from_loop_far t um u Hu), (user_alias_far m t um user_ptr Hv) by (done || lia).
    rewrite user_bytes_unmapped.
    2: { destruct (phys um user_ptr) eqn:E; [|done]. pose proof (phys_range t um m user_ptr Hv ltac:(eauto)). lia. }
    2: lia.
    case_bool_decide; [done|]. by exists buf.
Qed.



(** The check of user pointers ignores address bits 48 to 63.  Adding
    2^48 to the address of a user page gives a non-canonical pointer that
    [is_user_mapped] still accepts, and [copy_from_user] then performs the
    faulting access instead of returning EFAULT. *)
Theorem copy_from_user_noncanonical m t um u va buf :
  view m t um -> t KPml4 = Some u -> 0 <= va < 2 ^ 47 -> is_Some (phys um va) -> lenZ buf = MAX_USER_COPY ->
  is_user_mapped m (pg u) (va + 2 ^ 48) = true /\ copy_from_user m (pg u) (va + 2 ^ 48) 1 buf = Halt.
Proof.
  intros Hv Hu Hva Hmap Hbuf.
  assert (Hlow : (va + 2 ^ 48) mod 2 ^ 48 = va) by (replace (va + 2 ^ 48) with (va + 1 * 2 ^ 48) by lia; rewrite Z.mod_add by lia; apply Z.mod_small; lia).
  split; [rewrite (user_mapped_phys t um u Hu), Hlow by (done || lia); by apply bool_decide_eq_true|].
  unfold copy_from_user, MAX_USER_COPY in *. change (512 <? 1) with false. change (1 =? 0) with false. cbv iota.
  destruct (Z.leb_spec two64 (va + 2 ^ 48 + 1)) as [Hw|_]; [lia|].
  rewrite (copy_from_loop_far t um u Hu), Hlow by (done || lia). by rewrite bool_decide_eq_true_2.
Qed.



Lemma copy_from_user_noncanonical_witness :
  exists m u, copy_from_user m (pg u) (0x400000 + 2 ^ 48) 1 (replicate 512 0) = Halt.
Proof.
  destruct sample_task as (m & t & um & u & Hv & Hu & Hdom & _). exists m, u.
  apply (copy_from_user_noncanonical m t um u 0x400000); [exact Hv|exact Hu|lia| |reflexivity].
  unfold phys. change (0x400000 / 4096) with 1024.
  destruct (proj2 (Hdom 1024) ltac:(set_solver)) as [[[f w] x] ->]. done.
Defined.
