(* ===== verification/Elf.v ===== *)
(** * Executables (src/src/elf.rs, src/src/elf_builder.rs)

    The parser of static ELF64 images for x86_64 and the builder that wraps a
    code blob into one.  The address of the image, [elf_data.as_ptr()], is the
    argument [base]. *)

From S2P Require Import Prelude Bytes.

Definition MAX_SEGMENTS : Z := 8.

Inductive ElfError : Type :=
  | BadMagic | NotElf64 | NotExecutable | BadMachine | BadPhdr | TooManySegments.

Record ElfSegment : Type := mk_segment {
  vaddr : Z;
  paddr : Z;
  data_ptr : Z;
  filesz : Z;
  memsz : Z;
  seg_flags : Z;
}.

Record ElfImage : Type := mk_image {
  entry_point : Z;
  segments : list ElfSegment;
  segment_count : Z;
}.

Definition readable (s : ElfSegment) : bool := negb (Z.land (seg_flags s) 4 =? 0).
Definition writable (s : ElfSegment) : bool := negb (Z.land (seg_flags s) 2 =? 0).
Definition executable (s : ElfSegment) : bool := negb (Z.land (seg_flags s) 1 =? 0).

Definition empty_segment : ElfSegment := mk_segment 0 0 0 0 0 0.

(** [u16::from_le_bytes([d[a], d[a+1]])]. *)
Definition u16_at (d : list Z) (a : Z) : outcome Z :=
  lo ← index d a; hi ← index d (a + 1); Ret (from_le [lo; hi]).

(** The loop over the program headers, at header [i] of [n] still to visit. *)
Fixpoint parse_phdrs (n : nat) (i e_phoff e_phentsize base : Z) (elf_data : list Z) (image : ElfImage)
  : outcome (result ElfError ElfImage) :=
  match n with
  | O => Ret (Ok image)
  | S n' =>
      let off := u64 (e_phoff + i * e_phentsize) in
      if lenZ elf_data <? u64 (off + 56) then Ret (Err BadPhdr)
      else
        p_type ← le_at elf_data off (u64 (off + 4));
        if negb (p_type =? 1) then parse_phdrs n' (i + 1) e_phoff e_phentsize base elf_data image
        else
          p_flags ← le_at elf_data (u64 (off + 4)) (u64 (off + 8));
          p_offset ← le_at elf_data (u64 (off + 8)) (u64 (off + 16));
          p_vaddr ← le_at elf_data (u64 (off + 16)) (u64 (off + 24));
          p_paddr ← le_at elf_data (u64 (off + 24)) (u64 (off + 32));
          p_filesz ← le_at elf_data (u64 (off + 32)) (u64 (off + 40));
          p_memsz ← le_at elf_data (u64 (off + 40)) (u64 (off + 48));
          if MAX_SEGMENTS <=? segment_count image then Ret (Err TooManySegments)
          else
            let seg := mk_segment p_vaddr p_paddr (u64 (base + p_offset)) p_filesz p_memsz p_flags in
            segs ← assign (segments image) (segment_count image) seg;
            parse_phdrs n' (i + 1) e_phoff e_phentsize base elf_data
              (mk_image (entry_point image) segs (segment_count image + 1))
  end.

Definition parse_elf (base : Z) (elf_data : list Z) : outcome (result ElfError ElfImage) :=
  if lenZ elf_data <? 64 then Ret (Err BadMagic)
  else
    b0 ← index elf_data 0; b1 ← index elf_data 1; b2 ← index elf_data 2; b3 ← index elf_data 3;
    if negb (b0 =? 0x7F) || negb (b1 =? 69) || negb (b2 =? 76) || negb (b3 =? 70) then Ret (Err BadMagic)
    else
    b4 ← index elf_data 4;
    if negb (b4 =? 2) then Ret (Err NotElf64) else
    e_type ← u16_at elf_data 0x10;
    if negb (e_type =? 2) then Ret (Err NotExecutable) else
    e_machine ← u16_at elf_data 0x12;
    if negb (e_machine =? 0x3E) then Ret (Err BadMachine) else
    entry_point ← le_at elf_data 0x18 0x20;
    e_phoff ← le_at elf_data 0x20 0x28;
    e_phentsize ← u16_at elf_data 0x36;
    e_phnum ← u16_at elf_data 0x38;
    if e_phentsize <? 56 then Ret (Err BadPhdr)
    else
      parse_phdrs (Z.to_nat e_phnum) 0 e_phoff e_phentsize base elf_data
        (mk_image entry_point (replicate (Z.to_nat MAX_SEGMENTS) empty_segment) 0).

(** ** The builder *)

(** [buf[i] = x] for a list of positions. *)
Fixpoint assign_all (l : list (Z * Z)) (buf : list Z) : outcome (list Z) :=
  match l with
  | [] => Ret buf
  | (i, x) :: l' => buf ← assign buf i x; assign_all l' buf
  end.
(** [buf[a..b].copy_from_slice(bytes)] for a list of fields. *)
Fixpoint copy_all (l : list (Z * Z * list Z)) (buf : list Z) : outcome (list Z) :=
  match l with
  | [] => Ret buf
  | (a, b, bs) :: l' => buf ← copy_into buf a b bs; copy_all l' buf
  end.

Definition build_flat_elf (code : list Z) (load_addr : Z) : outcome (list Z) :=
  let code_len := lenZ code in
  let ph_offset := 64 in
  let code_offset := 64 + 56 in
  let total := code_offset + code_len in
  let buf := replicate (Z.to_nat total) 0 in
  buf ← assign_all [(0, 0x7F); (1, 69); (2, 76); (3, 70); (4, 2); (5, 1); (6, 1); (7, 0);
                    (0x10, 2); (0x11, 0); (0x12, 0x3E); (0x13, 0); (0x14, 1)] buf;
  let p := ph_offset in
  buf ← copy_all
    [(0x18, 0x20, to_le 8 load_addr); (0x20, 0x28, to_le 8 ph_offset); (0x34, 0x36, to_le 2 64);
     (0x36, 0x38, to_le 2 56); (0x38, 0x3A, to_le 2 1);
     (p, p + 4, to_le 4 1); (p + 4, p + 8, to_le 4 7); (p + 8, p + 16, to_le 8 code_offset);
     (p + 16, p + 24, to_le 8 load_addr); (p + 24, p + 32, to_le 8 load_addr);
     (p + 32, p + 40, to_le 8 code_len); (p + 40, p + 48, to_le 8 code_len); (p + 48, p + 56, to_le 8 0x1000)] buf;
  copy_into buf code_offset (lenZ buf) code.

(** ** Reference reading of the program headers *)

Definition phdr_segment (base : Z) (d : list Z) (off : Z) : ElfSegment :=
  mk_segment (field d (off + 16) 8) (field d (off + 24) 8) (u64 (base + field d (off + 8) 8))
    (field d (off + 32) 8) (field d (off + 40) 8) (field d (off + 4) 4).
Definition phdr_offsets (d : list Z) : list Z :=
  (fun i => field d 0x20 8 + i * field d 0x36 2) <$> seqZ 0 (field d 0x38 2).
Definition load_offsets (d : list Z) : list Z := filter (fun off => field d off 4 = 1) (phdr_offsets d).

(** The header checks of [parse_elf]. *)
Definition good_header (d : list Z) : Prop :=
  64 <= lenZ d /\ take 5 d = [0x7F; 69; 76; 70; 2] /\ field d 0x10 2 = 2 /\ field d 0x12 2 = 0x3E /\
  56 <= field d 0x36 2.

Lemma u16_at_field d a : 0 <= a -> a + 2 <= lenZ d -> u16_at d a = Ret (field d a 2).
Proof.
  intros Ha Hl. unfold u16_at, index. destruct (lookupZ_lt d a) as [x Hx]; [lia|].
  destruct (lookupZ_lt d (a + 1)) as [y Hy]; [lia|]. rewrite Hx, Hy. simpl. do 2 f_equal. unfold field.
  unfold lookupZ in *. destruct (Z.ltb_spec a 0), (Z.ltb_spec (a + 1) 0); try lia.
  rewrite Z2Nat.inj_add in Hy by lia. change (Z.to_nat 1) with 1%nat in Hy.
  rewrite (drop_S _ _ _ Hx). replace (Z.to_nat a + 1)%nat with (S (Z.to_nat a)) in Hy by lia.
  rewrite (drop_S _ _ _ Hy). done.
Qed.

(** The loop collects the loadable headers that are left, in order. *)
Lemma parse_phdrs_spec n i phoff entsize base d img :
  lenZ d < two63 -> 0 <= i -> 0 <= phoff -> 0 <= entsize ->
  phoff + (i + Z.of_nat n) * entsize + 56 < two64 ->
  lenZ (segments img) = MAX_SEGMENTS -> 0 <= segment_count img <= MAX_SEGMENTS ->
  let offs := (fun j => phoff + j * entsize) <$> seqZ i (Z.of_nat n) in
  let loads := filter (fun off => field d off 4 = 1) offs in
  exists r, parse_phdrs n i phoff entsize base d img = Ret r /\
    (forall img', r = Ok img' <->
      Forall (fun off => off + 56 <= lenZ d) offs /\ segment_count img + lenZ loads <= MAX_SEGMENTS /\
      img' = mk_image (entry_point img)
               (write_at (segments img) (segment_count img) (phdr_segment base d <$> loads))
               (segment_count img + lenZ loads)).
Proof.
  intros Hd Hi Hoff Hent. revert i img Hi. induction n as [|n IH]; intros i img Hi Hb Hlen Hc offs loads.
  { assert (Ho : offs = []) by done. assert (Hl : loads = []) by done. clearbody loads offs. subst.
    exists (Ok img). split; [done|]. intros img'. change (phdr_segment base d <$> []) with (@nil ElfSegment).
    rewrite write_at_nil. change (lenZ (@nil Z)) with 0. rewrite Z.add_0_r. destruct img as [e sg c].
    split; [intros [= <-]|by intros (_ & _ & ->)]. split; [constructor|]. by split; [apply Hc|]. }
  assert (Hoffs : offs = (phoff + i * entsize) :: ((fun j => phoff + j * entsize) <$> seqZ (i + 1) (Z.of_nat n))).
  { subst offs. rewrite seqZ_cons by lia. simpl. by replace (Z.pred (Z.of_nat (S n))) with (Z.of_nat n) by lia. }
  set (offs' := (fun j => phoff + j * entsize) <$> seqZ (i + 1) (Z.of_nat n)) in *.
  subst loads. rewrite Hoffs. clear offs Hoffs.
  cbn [parse_phdrs]. set (off := phoff + i * entsize).
  assert (Hoffr : 0 <= off /\ off + 56 < two64) by (unfold off; nia).
  rewrite (u64_small off), (u64_small (off + 56)) by lia.
  destruct (Z.ltb_spec (lenZ d) (off + 56)).
  { exists (Err BadPhdr). split; [done|]. intros img'. split; [done|]. intros ([? _]%Forall_cons & _). lia. }
  assert (Hb' : phoff + (i + 1 + Z.of_nat n) * entsize + 56 < two64) by nia.
  rewrite !u64_small by lia. rewrite !le_at_field by lia. rewrite bind_Ret.
  replace (off + 4 - off) with 4 by lia. rewrite filter_cons. destruct (Z.eqb_spec (field d off 4) 1) as [Ht|Ht]; cbn [negb].
  2: { rewrite decide_False by done. destruct (IH (i + 1) img ltac:(lia) Hb' Hlen Hc) as (r & Hr & Hiff).
       exists r. split; [done|]. intros img'. rewrite Hiff, Forall_cons. split; [intros (? & ?)|intros ([? ?] & ?)]; done. }
  rewrite decide_True by done. rewrite !bind_Ret.
  set (loads' := filter _ offs') in *. pose proof (lenZ_nonneg loads').
  destruct (Z.leb_spec MAX_SEGMENTS (segment_count img)).
  { exists (Err TooManySegments). split; [done|]. intros img'. split; [done|]. rewrite lenZ_cons. lia. }
  rewrite assign_lt, bind_Ret by lia.
  replace (off + 8 - (off + 4)) with 4 by lia. replace (off + 16 - (off + 8)) with 8 by lia.
  replace (off + 24 - (off + 16)) with 8 by lia. replace (off + 32 - (off + 24)) with 8 by lia.
  replace (off + 40 - (off + 32)) with 8 by lia. replace (off + 48 - (off + 40)) with 8 by lia.
  change (mk_segment _ _ _ _ _ _) with (phdr_segment base d off).
  set (img1 := mk_image _ _ _).
  destruct (IH (i + 1) img1 ltac:(lia) Hb') as (r & Hr & Hiff); [by simpl; rewrite lenZ_insertZ|simpl; lia|].
  exists r. split; [done|]. intros img'. rewrite Hiff, Forall_cons, lenZ_cons, fmap_cons.
  fold offs'. fold loads'. subst img1. cbn [segments segment_count entry_point].
  split.
  - intros (HF & Hle & ->). split; [done|]. split; [lia|]. rewrite write_at_cons; [f_equal; lia|lia|].
    unfold lenZ in *. rewrite length_fmap. lia.
  - intros ([_ HF] & Hle & ->). split; [done|]. split; [lia|]. rewrite write_at_cons; [f_equal; lia|lia|].
    unfold lenZ in *. rewrite length_fmap. lia.
Qed.

Definition fresh_image (d : list Z) : ElfImage :=
  mk_image (field d 0x18 8) (replicate (Z.to_nat MAX_SEGMENTS) empty_segment) 0.

(** The header checks, then the loop. *)
Lemma parse_elf_header base d :
  (good_header d /\ parse_elf base d =
     parse_phdrs (Z.to_nat (field d 0x38 2)) 0 (field d 0x20 8) (field d 0x36 2) base d (fresh_image d)) \/
  (~ good_header d /\ exists e, parse_elf base d = Ret (Err e)).
Proof.
  unfold parse_elf. destruct (Z.ltb_spec (lenZ d) 64) as [Hlt|Hge].
  { right. split; [intros [? _]; lia|eauto]. }
  rewrite !u16_at_field, !le_at_field by lia.
  destruct d as [|b0 [|b1 [|b2 [|b3 [|b4 d']]]]]; try (unfold lenZ in Hge; simpl in Hge; lia).
  set (d := b0 :: b1 :: b2 :: b3 :: b4 :: d') in *.
  assert (Htake : take 5 d = [b0; b1; b2; b3; b4]) by done.
  assert (Hidx : index d 0 = Ret b0 /\ index d 1 = Ret b1 /\ index d 2 = Ret b2 /\ index d 3 = Ret b3 /\ index d 4 = Ret b4)
    by done.
  destruct Hidx as (-> & -> & -> & -> & ->). clearbody d. rewrite ?bind_Ret. unfold good_header. rewrite Htake.
  destruct (Z.eqb_spec b0 127) as [-> |]; [|right; split; [naive_solver|simpl; eauto]].
  destruct (Z.eqb_spec b1 69) as [-> |]; [|right; split; [naive_solver|simpl; eauto]].
  destruct (Z.eqb_spec b2 76) as [-> |]; [|right; split; [naive_solver|simpl; eauto]].
  destruct (Z.eqb_spec b3 70) as [-> |]; [|right; split; [naive_solver|simpl; eauto]].
  cbn [negb orb].
  destruct (Z.eqb_spec b4 2) as [-> |]; [|right; split; [naive_solver|simpl; eauto]]. cbn [negb]. rewrite ?bind_Ret.
  destruct (Z.eqb_spec (field d 16 2) 2) as [-> |]; [|right; split; [naive_solver|simpl; eauto]].
  cbn [negb]. rewrite ?bind_Ret.
  destruct (Z.eqb_spec (field d 18 2) 62) as [-> |]; [|right; split; [naive_solver|simpl; eauto]].
  cbn [negb]. rewrite ?bind_Ret.
  destruct (Z.ltb_spec (field d 54 2) 56); [right; split; [intros (_ & _ & _ & _ & ?); lia|eauto]|left].
  split; [by split_and!|done].
Qed.

(** The segments as the caller sees them: the loadable headers, then blanks. *)
Definition elf_image (base : Z) (d : list Z) : ElfImage :=
  let segs := phdr_segment base d <$> load_offsets d in
  mk_image (field d 0x18 8) (segs ++ replicate (Z.to_nat (MAX_SEGMENTS - lenZ segs)) empty_segment) (lenZ segs).


(** A program header offset within 56 bytes of 2^64 defeats the bounds
    check of [parse_elf], whose sum wraps: an image with a good header and at
    least one program header then panics the kernel instead of being refused. *)
Theorem parse_elf_offset_panics base d :
  good_header d -> lenZ d < two63 -> two64 - 56 <= field d 0x20 8 < two64 -> 1 <= field d 0x38 2 ->
  parse_elf base d = Panic.
Proof.
  intros Hg Hd Hoff Hn. destruct (parse_elf_header base d) as [[_ ->]|[Hng _]]; [|done].
  destruct (Z.to_nat (field d 0x38 2)) as [|n] eqn:E; [lia|]. cbn [parse_phdrs].
  set (off := field d 0x20 8) in *. rewrite Z.mul_0_l, Z.add_0_r, (u64_small off) by lia.
  assert (Hw : u64 (off + 56) = off + 56 - two64) by (unfold u64; dlia).
  destruct Hg as (Hlen & _). rewrite Hw. destruct (Z.ltb_spec (lenZ d) (off + 56 - two64)); [lia|].
  assert (Hp : slice d off (u64 (off + 4)) = Panic).
  { unfold slice. assert (Hc : u64 (off + 4) < off \/ lenZ d < u64 (off + 4)) by (unfold u64; dlia).
    destruct (Z.leb_spec 0 off), (Z.leb_spec off (u64 (off + 4))), (Z.leb_spec (u64 (off + 4)) (lenZ d)); done || lia. }
  unfold le_at. by rewrite Hp.
Qed.

(** ** The image of the builder *)

Definition elf_header (load_addr code_len : Z) : list Z :=
  [0x7F; 69; 76; 70; 2; 1; 1; 0] ++ replicate 8 0 ++ [2; 0; 0x3E; 0; 1; 0; 0; 0] ++ to_le 8 load_addr ++
  to_le 8 64 ++ replicate 12 0 ++ to_le 2 64 ++ to_le 2 56 ++ to_le 2 1 ++ replicate 6 0 ++
  to_le 4 1 ++ to_le 4 7 ++ to_le 8 120 ++ to_le 8 load_addr ++ to_le 8 load_addr ++
  to_le 8 code_len ++ to_le 8 code_len ++ to_le 8 0x1000.

Fixpoint put_all (l : list (Z * Z)) (h : list Z) : list Z :=
  match l with
  | [] => h
  | (i, x) :: l' => put_all l' (insertZ i x h)
  end.
Lemma assign_all_app l h t :
  Forall (fun p => 0 <= p.1 < lenZ h) l -> assign_all l (h ++ t) = Ret (put_all l h ++ t).
Proof.
  revert h. induction l as [|[i x] l IH]; intros h; cbn [assign_all put_all]; [done|].
  intros [Hi Hl]%Forall_cons. simpl in Hi.
  rewrite assign_lt, bind_Ret by (rewrite lenZ_app; pose proof (lenZ_nonneg t); lia).
  rewrite insertZ_app_l by lia. apply IH. by rewrite lenZ_insertZ.
Qed.

Fixpoint copy_fields (l : list (Z * Z * list Z)) (h : list Z) : list Z :=
  match l with
  | [] => h
  | (a, _, bs) :: l' => copy_fields l' (write_at h a bs)
  end.
Lemma copy_all_app l h t :
  Forall (fun p => 0 <= p.1.1 /\ p.1.2 = p.1.1 + lenZ p.2 /\ p.1.2 <= lenZ h) l ->
  copy_all l (h ++ t) = Ret (copy_fields l h ++ t).
Proof.
  revert h. induction l as [|[[a b] bs] l IH]; intros h; cbn [copy_all copy_fields]; [done|].
  intros [(Ha & Hb & Hl) HF]%Forall_cons. simpl in Ha, Hb, Hl. subst b.
  rewrite copy_into_Ret, bind_Ret by (rewrite ?lenZ_app; pose proof (lenZ_nonneg t); lia).
  rewrite write_at_app_l by lia. apply IH. by rewrite lenZ_write_at.
Qed.

Lemma build_flat_elf_spec code load_addr :
  build_flat_elf code load_addr = Ret (elf_header load_addr (lenZ code) ++ code).
Proof.
  unfold build_flat_elf. pose proof (lenZ_nonneg code).
  replace (Z.to_nat (64 + 56 + lenZ code)) with (120 + length code)%nat by (unfold lenZ; lia).
  rewrite replicate_add, assign_all_app, bind_Ret by (repeat (apply Forall_cons; split; [done|]); by apply Forall_nil).
  set (h1 := put_all _ _). assert (Hh1 : lenZ h1 = 120) by reflexivity.
  rewrite copy_all_app, bind_Ret.
  2: { rewrite Hh1. repeat (apply Forall_cons; split; [by split_and!|]). by apply Forall_nil. }
  set (h2 := copy_fields _ h1). assert (Hh2 : h2 = elf_header load_addr (lenZ code)) by reflexivity.
  rewrite Hh2. clearbody h2. set (h := elf_header load_addr (lenZ code)).
  assert (Hh : lenZ h = 120) by reflexivity. clearbody h.
  replace (lenZ (h ++ replicate (length code) 0)) with (64 + 56 + lenZ code)
    by (unfold lenZ in *; rewrite length_app, length_replicate; lia).
  rewrite copy_into_Ret by (unfold lenZ in *; rewrite ?length_app, ?length_replicate; lia). apply (f_equal Ret).
  unfold write_at, lenZ in *. rewrite take_app_length' by lia. rewrite drop_ge; [by rewrite app_nil_r|].
  rewrite length_app, length_replicate. lia.
Qed.

Lemma build_parse_spec base code load_addr :
  0 <= base -> 0 <= load_addr < two64 -> base + 120 + lenZ code < two63 ->
  exists d, build_flat_elf code load_addr = Ret d /\
    parse_elf base d = Ret (Ok (mk_image load_addr
      (mk_segment load_addr load_addr (base + 120) (lenZ code) (lenZ code) 7 :: replicate 7 empty_segment) 1)) /\
    slice d 120 (120 + lenZ code) = Ret code.
Proof.
  intros Hbase Hload Hlen. rewrite build_flat_elf_spec. pose proof (lenZ_nonneg code).
  set (h := elf_header load_addr (lenZ code)). assert (Hh : lenZ h = 120) by reflexivity.
  assert (Hf8 : forall v, 0 <= v < two64 -> from_le (to_le 8 v) = v) by (intros; by apply from_to_le_small).
  assert (F18 : field h 0x18 8 = load_addr) by (by apply Hf8).
  assert (F10 : field h 80 8 = load_addr) by (by apply Hf8). assert (F58 : field h 88 8 = load_addr) by (by apply Hf8).
  assert (F60 : field h 96 8 = lenZ code) by (apply Hf8; lia).
  assert (F68 : field h 104 8 = lenZ code) by (apply Hf8; lia).
  assert (Fc : field h 0x20 8 = 64 /\ field h 0x36 2 = 56 /\ field h 0x38 2 = 1 /\ field h 64 4 = 1 /\
    field h 68 4 = 7 /\ field h 72 8 = 120 /\ field h 0x10 2 = 2 /\ field h 0x12 2 = 62) by (by split_and!).
  destruct Fc as (F20 & F36 & F38 & F64 & F68' & F72 & F10' & F12).
  assert (Htake : take 5 (h ++ code) = [127; 69; 76; 70; 2]) by reflexivity. clearbody h.
  exists (h ++ code). split; [done|]. split.
  - destruct (parse_elf_header base (h ++ code)) as [[_ ->]|[Hng _]].
    2: { exfalso. apply Hng. unfold good_header. rewrite !field_app_l by lia. rewrite lenZ_app.
         split_and!; try done; lia. }
    unfold fresh_image. rewrite !field_app_l, F18, F20, F36, F38 by lia. change (Z.to_nat 1) with 1%nat.
    cbn [parse_phdrs]. change (64 + 0 * 56) with 64. rewrite (u64_small 64), (u64_small (64 + 56)) by lia.
    destruct (Z.ltb_spec (lenZ (h ++ code)) (64 + 56)) as [Hx|_]; [rewrite lenZ_app in Hx; lia|].
    rewrite !u64_small by lia. rewrite !le_at_field by (rewrite ?lenZ_app; lia). rewrite bind_Ret.
    rewrite !field_app_l by lia. change (64 + 4 - 64) with 4. rewrite F64. change (negb (1 =? 1)) with false. cbv iota. rewrite !bind_Ret.
    change (64 + 8 - (64 + 4)) with 4. change (64 + 16 - (64 + 8)) with 8. change (64 + 24 - (64 + 16)) with 8.
    change (64 + 32 - (64 + 24)) with 8. change (64 + 40 - (64 + 32)) with 8. change (64 + 48 - (64 + 40)) with 8.
    change (64 + 4) with 68.
    change (64 + 8) with 72. change (64 + 16) with 80. change (64 + 24) with 88. change (64 + 32) with 96.
    change (64 + 40) with 104. rewrite F68', F72, F10, F58, F60, F68.
    rewrite u64_small by lia. reflexivity.
  - rewrite slice_Ret by (rewrite ?lenZ_app; lia). apply (f_equal Ret). unfold lenZ in *.
    rewrite drop_app_length' by lia. rewrite take_ge by lia. done.
Qed.

(** C20: The builder and the parser agree: parsing the image [build_flat_elf]
    makes of a code blob succeeds with the load address as entry point and
    one readable, writable and executable segment at that address, whose data
    pointer, size and bytes are those of the code in the image. *)
Theorem build_parse_roundtrip base code load_addr :
  0 <= base -> 0 <= load_addr < two64 -> base + 120 + lenZ code < two63 ->
  exists d, build_flat_elf code load_addr = Ret d /\
    parse_elf base d = Ret (Ok (mk_image load_addr
      (mk_segment load_addr load_addr (base + 120) (lenZ code) (lenZ code) 7 :: replicate 7 empty_segment) 1)) /\
    slice d 120 (120 + lenZ code) = Ret code.
Proof. apply build_parse_spec. Qed.

(** A one-byte program, and its image with another program header offset. *)
Definition hlt_elf : list Z := elf_header 0x400000 1 ++ [0xF4].
Definition bad_phoff_elf : list Z := write_at hlt_elf 0x20 (to_le 8 (two64 - 8)).


Lemma parse_elf_offset_panics_witness : parse_elf 0x100000 bad_phoff_elf = Panic.
Proof.
  apply parse_elf_offset_panics.
  - split; [vm_compute; discriminate|]. split; [reflexivity|]. split; [reflexivity|]. split; [reflexivity|].
    vm_compute. discriminate.
  - vm_compute. reflexivity.
  - assert (E : field bad_phoff_elf 0x20 8 = two64 - 8) by (vm_compute; reflexivity). rewrite E. lia.
  - vm_compute. discriminate.
Defined.

Lemma build_parse_roundtrip_witness :
  exists d img, build_flat_elf [0xFA; 0xEB; 0xFC] 0x400000 = Ret d /\ parse_elf 0x100000 d = Ret (Ok img) /\
    entry_point img = 0x400000.
Proof.
  destruct (build_parse_roundtrip 0x100000 [0xFA; 0xEB; 0xFC] 0x400000) as (d & Hd & Hp & _); [lia|lia|vm_compute; reflexivity|].
  exists d. eexists. split; [exact Hd|]. split; [exact Hp|reflexivity].
Defined.
