(* ===== verification/Task.v ===== *)
(** * Tasks and the scheduler (src/src/task.rs, src/src/timer.rs, counters of src/src/stats.rs)

    The task table, the timer tick with its context switch, the creation of
    kernel and user tasks, their exit, and the replacement of an address
    space.  [TASKS_ADDR] is the address of the static [TASKS], chosen by the
    linker; a task's kernel stack is memory at its place in that table.  CR3
    and the stack pointer of the task state segment are part of the state.  A
    task that halts until it is scheduled away leaves the function, so
    [exit_current_task] reports whether it returned. *)

From S2P Require Import Prelude FdTable Mem Frame Paging AddressSpace Bytes Elf.

Definition STACK_SIZE : Z := 32768.
Definition MAX_USER_FRAMES : Z := 32.

Inductive TaskState : Type := Unused | Ready | Running | Sleeping.
#[global] Instance TaskState_eq_dec : EqDecision TaskState.
Proof. solve_decision. Defined.
Definition is_state (a b : TaskState) : bool := bool_decide (a = b).

Record Task : Type := mk_task {
  saved_sp : Z;
  state : TaskState;
  page_table_root : Z;
  user_data_frames : list Z;
  user_data_frame_count : Z;
  wake_tick : Z;
  user_id : Z;
}.

Definition UNUSED_TASK : Task := mk_task 0 Unused 0 (replicate (Z.to_nat MAX_USER_FRAMES) 0) 0 0 1000.

Definition with_sp (sp : Z) (t : Task) : Task :=
  mk_task sp (state t) (page_table_root t) (user_data_frames t) (user_data_frame_count t) (wake_tick t) (user_id t).
Definition with_state (st : TaskState) (t : Task) : Task :=
  mk_task (saved_sp t) st (page_table_root t) (user_data_frames t) (user_data_frame_count t) (wake_tick t) (user_id t).
Definition with_root (r : Z) (t : Task) : Task :=
  mk_task (saved_sp t) (state t) r (user_data_frames t) (user_data_frame_count t) (wake_tick t) (user_id t).
Definition with_frames (fs : list Z) (n : Z) (t : Task) : Task :=
  mk_task (saved_sp t) (state t) (page_table_root t) fs n (wake_tick t) (user_id t).
Definition with_wake (w : Z) (t : Task) : Task :=
  mk_task (saved_sp t) (state t) (page_table_root t) (user_data_frames t) (user_data_frame_count t) w (user_id t).
Definition with_uid (u : Z) (t : Task) : Task :=
  mk_task (saved_sp t) (state t) (page_table_root t) (user_data_frames t) (user_data_frame_count t) (wake_tick t) u.

(** The counters of [KernelStats] the scheduler touches. *)
Record sched_stats : Type := mk_stats { timer_ticks : Z; context_switches : Z; tasks_spawned : Z }.

(** ** Time (timer.rs) *)

Definition MS_PER_TICK : Z := 10.
Definition ms_to_ticks (ms : Z) : Z := u64 (u64 (ms + MS_PER_TICK) - 1) / MS_PER_TICK.

(** The size of [Task] in memory and the offset of its stack. *)
Definition TASK_SIZE : Z := 33088.
Definition STACK_OFFSET : Z := 16.

(** ** Interrupt frames *)

(** [sp -= 8; *(sp as *mut u64) = v] for a list of values. *)
Fixpoint push_all (vs : list Z) (sp : Z) (m : memory) : Z * memory :=
  match vs with
  | [] => (sp, m)
  | v :: vs' => let sp := u64 (sp - 8) in push_all vs' sp (write_u64 m sp v)
  end.
(** [*(sp as *mut u64).add(j) = 0] for the 32 words of the SSE area. *)
Fixpoint zero_words_at (n : nat) (sp : Z) (m : memory) : memory :=
  match n with
  | O => m
  | S n' => zero_words_at n' (sp + 8) (write_u64 m sp 0)
  end.

(** The IRETQ frame, fifteen general registers and the SSE area. *)
Definition build_frame (ss rsp cs rip stack_top : Z) (m : memory) : Z * memory :=
  let '(sp, m) := push_all [ss; rsp; 0x202; cs; rip] stack_top m in
  let '(sp, m) := push_all (replicate 15 0) sp m in
  let sp := u64 (sp - 256) in
  (sp, zero_words_at 32 sp m).

Section task.
Context {A : Type} `{FrameAllocator A}.
Variable TASKS_ADDR : Z.

Record sys : Type := mk_sys {
  mach : machine (A:=A);
  TASKS : list Task;
  CURRENT_TASK : Z;
  TICKS : Z;
  STATS : sched_stats;
  CR3 : Z;
  TSS_RSP0 : Z;
}.

Definition with_mach (m : machine) (s : sys) : sys :=
  mk_sys m (TASKS s) (CURRENT_TASK s) (TICKS s) (STATS s) (CR3 s) (TSS_RSP0 s).
Definition with_tasks (ts : list Task) (s : sys) : sys :=
  mk_sys (mach s) ts (CURRENT_TASK s) (TICKS s) (STATS s) (CR3 s) (TSS_RSP0 s).
Definition with_current (i : Z) (s : sys) : sys :=
  mk_sys (mach s) (TASKS s) i (TICKS s) (STATS s) (CR3 s) (TSS_RSP0 s).
Definition with_ticks (t : Z) (s : sys) : sys :=
  mk_sys (mach s) (TASKS s) (CURRENT_TASK s) t (STATS s) (CR3 s) (TSS_RSP0 s).
Definition with_stats (st : sched_stats) (s : sys) : sys :=
  mk_sys (mach s) (TASKS s) (CURRENT_TASK s) (TICKS s) st (CR3 s) (TSS_RSP0 s).
Definition with_cr3 (c : Z) (s : sys) : sys :=
  mk_sys (mach s) (TASKS s) (CURRENT_TASK s) (TICKS s) (STATS s) c (TSS_RSP0 s).
Definition with_rsp0 (r : Z) (s : sys) : sys :=
  mk_sys (mach s) (TASKS s) (CURRENT_TASK s) (TICKS s) (STATS s) (CR3 s) r.

Definition count_tick (s : sys) : sys :=
  with_stats (mk_stats (u64 (timer_ticks (STATS s) + 1)) (context_switches (STATS s)) (tasks_spawned (STATS s))) s.
Definition count_context_switch (s : sys) : sys :=
  with_stats (mk_stats (timer_ticks (STATS s)) (u64 (context_switches (STATS s) + 1)) (tasks_spawned (STATS s))) s.
Definition count_task_spawn (s : sys) : sys :=
  with_stats (mk_stats (timer_ticks (STATS s)) (context_switches (STATS s)) (u64 (tasks_spawned (STATS s) + 1))) s.

(** [TASKS[i].stack.as_ptr() + STACK_SIZE]. *)
Definition stack_top (i : Z) : Z := TASKS_ADDR + i * TASK_SIZE + STACK_OFFSET + STACK_SIZE.

(** ** Accessors *)

Definition get_task (i : Z) (s : sys) : outcome Task := index (TASKS s) i.
Definition upd_task (i : Z) (f : Task -> Task) (s : sys) : outcome sys :=
  t ← get_task i s;
  Ret (with_tasks (insertZ i (f t) (TASKS s)) s).

Definition get_task_state (i : Z) (s : sys) : outcome TaskState := t ← get_task i s; Ret (state t).
Definition get_task_uid (i : Z) (s : sys) : outcome Z := t ← get_task i s; Ret (user_id t).
Definition task_page_table_root (i : Z) (s : sys) : outcome Z := t ← get_task i s; Ret (page_table_root t).
Definition current_task (s : sys) : Z := CURRENT_TASK s.
Definition current_page_table_root (s : sys) : outcome Z := task_page_table_root (CURRENT_TASK s) s.
Definition current_user_id (s : sys) : outcome Z := get_task_uid (CURRENT_TASK s) s.
Definition current_state (s : sys) : outcome TaskState := get_task_state (CURRENT_TASK s) s.
Definition set_state (st : TaskState) (s : sys) : outcome sys := upd_task (CURRENT_TASK s) (with_state st) s.
Definition set_task_wake_tick (i tick : Z) (s : sys) : outcome sys := upd_task i (with_wake tick) s.

Definition init_scheduler (s : sys) : outcome sys :=
  s ← upd_task 0 (with_state Running) s;
  s ← upd_task 0 (with_uid 0) s;
  upd_task 0 (with_root (CR3 s)) s.

(** The first unused slot from index 1. *)
Fixpoint find_unused (idxs : list Z) (s : sys) : outcome (option Z) :=
  match idxs with
  | [] => Ret None
  | i :: idxs' =>
      t ← get_task i s;
      if is_state (state t) Unused then Ret (Some i) else find_unused idxs' s
  end.
Definition slots : list Z := seqZ 1 (MAX_TASKS - 1).
Definition has_free_slot (s : sys) : outcome bool :=
  r ← find_unused slots s;
  Ret (match r with Some _ => true | None => false end).
Fixpoint count_active (idxs : list Z) (count : Z) (s : sys) : outcome Z :=
  match idxs with
  | [] => Ret count
  | i :: idxs' =>
      t ← get_task i s;
      count_active idxs' (if is_state (state t) Unused then count else count + 1) s
  end.
Definition active_task_count (s : sys) : outcome Z := count_active slots 0 s.

(** ** Creation *)

Definition build_kernel_frame (i func : Z) (s : sys) : Z * sys :=
  let '(sp, m) := build_frame 0x10 (stack_top i) 0x08 func (stack_top i) (pmem (mach s)) in
  (sp, with_mach (with_mem m (mach s)) s).
Definition build_userspace_frame (i user_entry user_sp : Z) (s : sys) : Z * sys :=
  let '(sp, m) := build_frame 0x23 user_sp 0x1B user_entry (stack_top i) (pmem (mach s)) in
  (sp, with_mach (with_mem m (mach s)) s).

Definition spawn (func : Z) (s : sys) : outcome sys :=
  r ← find_unused slots s;
  match r with
  | None => Ret s
  | Some i =>
      s ← upd_task i (with_root (CR3 s)) s;
      let '(sp, s) := build_kernel_frame i func s in
      s ← upd_task i (with_sp sp) s;
      s ← upd_task i (with_state Ready) s;
      Ret (count_task_spawn s)
  end.

(** The loop that records the data frames. *)
Fixpoint record_frames (fs : list Z) (j : Z) (dst : list Z) : outcome (list Z) :=
  match fs with
  | [] => Ret dst
  | f :: fs' => dst ← assign dst j f; record_frames fs' (j + 1) dst
  end.

Definition spawn_userspace (user_entry user_sp page_table_root : Z) (frames : list Z) (s : sys)
  : outcome (result string Z * sys) :=
  r ← find_unused slots s;
  match r with
  | None => Ret (Err "out of task slots"%string, s)
  | Some i =>
      s ← upd_task i (with_root page_table_root) s;
      let '(sp, s) := build_userspace_frame i user_entry user_sp s in
      s ← upd_task i (with_sp sp) s;
      s ← upd_task i (with_state Ready) s;
      let count := Z.min (lenZ frames) MAX_USER_FRAMES in
      t ← get_task i s;
      fs ← record_frames (take (Z.to_nat count) frames) 0 (user_data_frames t);
      s ← upd_task i (with_frames fs count) s;
      Ret (Ok i, count_task_spawn s)
  end.

(** ** Time *)

Definition tick (s : sys) : sys := with_ticks (u64 (TICKS s + 1)) s.
Definition uptime_ms (s : sys) : Z := u64 (TICKS s * MS_PER_TICK).

(** [timer::wake_sleeping], over the slots still to visit. *)
Definition wake_one (current : Z) (t : Task) : Task :=
  if is_state (state t) Sleeping && (wake_tick t <=? current) then with_state Ready t else t.
Fixpoint wake_sleeping (idxs : list Z) (current : Z) (tasks : list Task) : outcome (list Task) :=
  match idxs with
  | [] => Ret tasks
  | i :: idxs' =>
      t ← index tasks i;
      tasks ← (if is_state (state t) Sleeping && (wake_tick t <=? current)
               then assign tasks i (with_state Ready t) else Ret tasks);
      wake_sleeping idxs' current tasks
  end.
(** The same loop as [timer_handler_rust] writes it. *)
Fixpoint wake_loop (idxs : list Z) (current_tick : Z) (s : sys) : outcome sys :=
  match idxs with
  | [] => Ret s
  | i :: idxs' =>
      t ← get_task i s;
      s ← (if is_state (state t) Sleeping && (wake_tick t <=? current_tick)
           then upd_task i (with_state Ready) s else Ret s);
      wake_loop idxs' current_tick s
  end.

(** [sleep_until] up to its halting loop, which ends when the state is no
    longer [Sleeping]. *)
Definition sleep_until (wake : Z) (s : sys) : outcome sys :=
  s ← set_task_wake_tick (current_task s) wake s;
  set_state Sleeping s.
Definition sleep_ms (duration_ms : Z) (s : sys) : outcome sys :=
  sleep_until (u64 (TICKS s + ms_to_ticks duration_ms)) s.

(** ** The timer tick *)

(** The search for the next ready task; each round moves to another slot and
    it stops at the start, so [MAX_TASKS] rounds are enough. *)
Fixpoint find_ready (fuel : nat) (start next_task : Z) (s : sys) : outcome Z :=
  match fuel with
  | O => Hang
  | S fuel' =>
      t ← get_task next_task s;
      if is_state (state t) Ready then Ret next_task
      else
        let next_task := (next_task + 1) mod MAX_TASKS in
        if next_task =? start then Ret 0 else find_ready fuel' start next_task s
  end.

Definition timer_handler_rust (sp : Z) (s : sys) : outcome (Z * sys) :=
  let s := count_tick (tick s) in
  let current_tick := TICKS s in
  s ← wake_loop slots current_tick s;
  if (current_tick =? 0) || negb (current_tick mod 10 =? 0) then Ret (sp, s)
  else
    s ← upd_task (CURRENT_TASK s) (with_sp sp) s;
    t ← get_task (CURRENT_TASK s) s;
    s ← (if is_state (state t) Running then upd_task (CURRENT_TASK s) (with_state Ready) s else Ret s);
    let start := (CURRENT_TASK s + 1) mod MAX_TASKS in
    next_task ← find_ready (Z.to_nat MAX_TASKS) start start s;
    if next_task =? CURRENT_TASK s then
      s ← upd_task next_task (with_state Running) s;
      Ret (sp, s)
    else
      let s := with_current next_task s in
      s ← upd_task next_task (with_state Running) s;
      let s := count_context_switch s in
      t ← get_task next_task s;
      let s := with_rsp0 (stack_top next_task) (with_cr3 (page_table_root t) s) in
      Ret (saved_sp t, s).

(** ** Exit *)

(** The loop over the recorded data frames. *)
Fixpoint free_data_frames (idxs : list Z) (frames : list Z) (m : machine (A:=A)) : outcome machine :=
  match idxs with
  | [] => Ret m
  | i :: idxs' =>
      pa ← index frames i;
      m ← (if pa =? 0 then Ret m else dealloc_pa pa m);
      free_data_frames idxs' frames m
  end.

(** [Some r] when the function returned [r], [None] when the task halts until
    the next tick takes the processor away. *)
Definition exit_current_task (s : sys) : outcome (option Z * sys) :=
  if CURRENT_TASK s =? 0 then Ret (Some (-1), s)
  else
    task ← get_task (CURRENT_TASK s) s;
    m ← free_data_frames (seqZ 0 (user_data_frame_count task)) (user_data_frames task) (mach s);
    t0 ← get_task 0 s;
    m ← (if negb (page_table_root task =? page_table_root t0) && negb (page_table_root task =? 0)
         then free_user_page_tables (page_table_root task) m else Ret m);
    s ← upd_task (CURRENT_TASK s) (with_state Unused) (with_mach m s);
    Ret (None, with_cr3 (page_table_root t0) s).

(** ** Replacing an address space *)

Definition elf_bytes_for_seg (elf_data : list Z) (seg : ElfSegment) : outcome (list Z) :=
  if u64 (data_ptr seg + filesz seg) <=? lenZ elf_data
  then slice elf_data (data_ptr seg) (u64 (data_ptr seg + filesz seg)) else Ret [].

(** The first [count] elements of an array, as the loops over it read them. *)
Fixpoint collect_segments (idxs : list Z) (segs : list ElfSegment) : outcome (list segment) :=
  match idxs with
  | [] => Ret []
  | i :: idxs' =>
      seg ← index segs i;
      rest ← collect_segments idxs' segs;
      Ret ((vaddr seg, data_ptr seg, filesz seg, memsz seg, seg_flags seg) :: rest)
  end.

(** One data frame of a segment is filled from the image. *)
Definition fill_frame (elf_data : list Z) (seg : ElfSegment) (va phys_addr : Z) (m : memory) : outcome memory :=
  let offset_in_seg := va - vaddr seg in
  if offset_in_seg <? filesz seg then
    let copy_start := u64 (data_ptr seg + offset_in_seg) in
    let copy_len := Z.min 4096 (filesz seg - offset_in_seg) in
    if u64 (copy_start + copy_len) <=? lenZ elf_data then
      bs ← slice elf_data copy_start (u64 (copy_start + copy_len));
      let m := store_bytes m phys_addr bs in
      Ret (if copy_len <? 4096 then fill m (phys_addr + copy_len) 0 (4096 - copy_len) else m)
    else Ret m
  else Ret m.

(** Records a frame while there is room. *)
Definition track_frame (pa : Z) (t : Task) : outcome Task :=
  if user_data_frame_count t <? MAX_USER_FRAMES then
    fs ← assign (user_data_frames t) (user_data_frame_count t) pa;
    Ret (with_frames fs (user_data_frame_count t + 1) t)
  else Ret t.

(** The frames of one segment, from the frame list still to visit; the rest of
    the list belongs to later segments and the stack. *)
Fixpoint fill_segment (user_phys_frames : list (Z * Z * Z)) (elf_data : list Z) (seg : ElfSegment)
    (t : Task) (m : memory) : outcome (list (Z * Z * Z) * Task * memory) :=
  match user_phys_frames with
  | [] => Ret ([], t, m)
  | (va, _, phys_addr) :: rest =>
      if (va <? vaddr seg) || (u64 (vaddr seg + memsz seg) <=? va) then Ret (user_phys_frames, t, m)
      else
        m ← fill_frame elf_data seg va phys_addr m;
        t ← track_frame phys_addr t;
        fill_segment rest elf_data seg t m
  end.
Fixpoint fill_segments (idxs : list Z) (segs : list ElfSegment) (user_phys_frames : list (Z * Z * Z))
    (elf_data : list Z) (t : Task) (m : memory) : outcome (list (Z * Z * Z) * Task * memory) :=
  match idxs with
  | [] => Ret (user_phys_frames, t, m)
  | i :: idxs' =>
      seg ← index segs i;
      _ ← elf_bytes_for_seg elf_data seg;
      x ← fill_segment user_phys_frames elf_data seg t m;
      let '(rest, t, m) := x in
      fill_segments idxs' segs rest elf_data t m
  end.

(** The frame of the new stack: the first frame no segment took, or a fresh
    one. *)
Definition stack_frame (rest : list (Z * Z * Z)) (t : Task) (m : machine (A:=A))
  : outcome (result string (Z * Task * machine)) :=
  match rest with
  | (_, _, pa) :: _ => Ret (Ok (pa, t, m))
  | [] =>
      r ← fa_alloc (frames m);
      match r with
      | (Some f, fa) =>
          t ← track_frame (start_address f) t;
          Ret (Ok (start_address f, t, mk_machine (pmem m) fa (KERNEL_PML4_PA m)))
      | (None, _) => Ret (Err "no free frames for stack"%string)
      end
  end.

Definition rebuild_userspace_frame (i entry user_sp : Z) (s : sys) : Z * sys := build_userspace_frame i entry user_sp s.

(** [task] is a reference to the slot; it is written back with each update. *)
Definition replace_address_space (task_idx : Z) (image : ElfImage) (elf_data : list Z) (s : sys)
  : outcome (result string Z * sys) :=
  if (task_idx =? 0) || (MAX_TASKS <=? task_idx) then Ret (Err "invalid task index"%string, s)
  else
    t ← get_task task_idx s;
    t0 ← get_task 0 s;
    x ← (if negb (page_table_root t =? page_table_root t0) && negb (page_table_root t =? 0) then
           m ← free_data_frames (seqZ 0 (user_data_frame_count t)) (user_data_frames t) (mach s);
           m ← free_user_page_tables (page_table_root t) m;
           Ret (with_frames (user_data_frames t) 0 t, m)
         else Ret (t, mach s));
    let '(t, m) := x in
    segs ← collect_segments (seqZ 0 (segment_count image)) (segments image);
    x ← create_user_page_tables segs m;
    let '(new_cr3, user_phys_frames, m) := x in
    x ← fill_segments (seqZ 0 (segment_count image)) (segments image) user_phys_frames elf_data t (pmem m);
    let '(rest, t, mem) := x in
    r ← stack_frame rest t (with_mem mem m);
    match r with
    | Err e => Ret (Err e, with_mach (with_mem mem m) (with_tasks (insertZ task_idx t (TASKS s)) s))
    | Ok (stack_page, t, m) =>
        x ← map_user_page new_cr3 STACK_VADDR m;
        let '(_, m) := x in
        x ← map_user_page new_cr3 STACK_VADDR m;
        let '(pt_pa, m) := x in
        let m := set_entry pt_pa (table_index 12 STACK_VADDR) (Z.lor stack_page 7) m in
        let m := with_mem (write_u64 (fill (pmem m) stack_page 0 4096) stack_page 0) m in
        let user_sp := STACK_VADDR + 4096 in
        let '(sp, s) := rebuild_userspace_frame task_idx (entry_point image) user_sp (with_mach m s) in
        let t := with_sp sp (with_root new_cr3 t) in
        Ret (Ok user_sp, with_cr3 new_cr3 (with_tasks (insertZ task_idx t (TASKS s)) s))
    end.
End task.
