(* ===== verification/Sched.v ===== *)
(** * The scheduler: what a timer tick does

    The tick of [Task] against an abstract round-robin choice over the states
    of the tasks: which task runs next, which address space is loaded, and
    that a ready task is reached. *)

From S2P Require Import Prelude FdTable Mem Frame Paging AddressSpace Bytes Elf Task.

#[local] Opaque build_frame.

(** The cyclic distance from slot [i] to slot [j]. *)
Definition dist (i j : Z) : Z := (j - i) mod MAX_TASKS.

Lemma MAX_TASKS_eq : MAX_TASKS = 256.
Proof. done. Qed.

Lemma dist_range i j : 0 <= dist i j < 256.
Proof. unfold dist. rewrite MAX_TASKS_eq. apply Z.mod_pos_bound. lia. Qed.

(** [next] is the first slot from [start], in cyclic order, whose state is
    [Ready], or slot 0 when there is none. *)
Definition is_next (sts : Z -> option TaskState) (start next : Z) : Prop :=
  (0 <= next < MAX_TASKS /\ sts next = Some Ready /\
   forall j, 0 <= j < MAX_TASKS -> dist start j < dist start next -> sts j <> Some Ready) \/
  (next = 0 /\ forall j, 0 <= j < MAX_TASKS -> sts j <> Some Ready).

Lemma is_next_unique sts start n1 n2 :
  is_next sts start n1 -> is_next sts start n2 -> n1 = n2.
Proof.
  intros [(H1 & Hr1 & Hf1)|[-> Hn1]] [(H2 & Hr2 & Hf2)|[-> Hn2]]; try done.
  - destruct (Z.lt_trichotomy (dist start n1) (dist start n2)) as [Hlt|[Heq|Hlt]].
    + by apply Hf2 in Hr1.
    + unfold dist in Heq. rewrite MAX_TASKS_eq in *. dlia.
    + by apply Hf1 in Hr2.
  - by apply Hn2 in Hr1.
  - by apply Hn1 in Hr2.
Qed.

Section sched.
Context {A : Type} `{FrameAllocator A}.
Variable TASKS_ADDR : Z.
Implicit Types s : sys (A:=A).

Definition states s (i : Z) : option TaskState := state <$> lookupZ (TASKS s) i.

(** The task table has its fixed length and the current index is in it. *)
Definition sched_wf s : Prop := lenZ (TASKS s) = MAX_TASKS /\ 0 <= CURRENT_TASK s < MAX_TASKS.

Lemma get_task_Ret i s : sched_wf s -> 0 <= i < MAX_TASKS -> exists t, get_task i s = Ret t /\ lookupZ (TASKS s) i = Some t.
Proof.
  intros [Hl _] Hi. destruct (lookupZ_lt (TASKS s) i) as [t Ht]; [lia|]. exists t.
  unfold get_task, index. by rewrite Ht.
Qed.

Lemma get_task_Some i s t : lookupZ (TASKS s) i = Some t -> get_task i s = Ret t.
Proof. intros Ht. unfold get_task, index. by rewrite Ht. Qed.

Lemma upd_task_Ret i f s t :
  lookupZ (TASKS s) i = Some t -> upd_task i f s = Ret (with_tasks (insertZ i (f t) (TASKS s)) s).
Proof. intros Ht. unfold upd_task, get_task, index. by rewrite Ht. Qed.

(** ** Waking *)

Lemma wake_loop_eq idxs c s :
  wake_loop idxs c s = ts ← wake_sleeping idxs c (TASKS s); Ret (with_tasks ts s).
Proof.
  revert s. induction idxs as [|i idxs IH]; intros s; cbn [wake_loop wake_sleeping].
  { by destruct s. }
  unfold get_task, upd_task, get_task, index, assign.
  destruct (lookupZ (TASKS s) i) as [t|] eqn:Ht; [|done]. rewrite !bind_Ret.
  destruct (is_state (state t) Sleeping && (wake_tick t <=? c)); rewrite ?bind_Ret; [|by rewrite IH].
  rewrite IH. simpl. by destruct (wake_sleeping _ _ _).
Qed.

(** Every visited task whose time has come is ready, the others keep still. *)
Lemma wake_sleeping_spec idxs c ts :
  NoDup idxs -> Forall (fun i => 0 <= i < lenZ ts) idxs ->
  exists ts', wake_sleeping idxs c ts = Ret ts' /\ lenZ ts' = lenZ ts /\
    forall j, lookupZ ts' j = (if bool_decide (j ∈ idxs) then wake_one c <$> lookupZ ts j else lookupZ ts j).
Proof.
  revert ts. induction idxs as [|i idxs IH]; intros ts Hnd Hr; cbn [wake_sleeping].
  { exists ts. split; [done|]. split; [done|]. intros j. by rewrite bool_decide_false by apply not_elem_of_nil. }
  apply NoDup_cons in Hnd as [Hni Hnd]. apply Forall_cons in Hr as [Hi Hr].
  destruct (lookupZ_lt ts i) as [t Ht]; [lia|].
  set (ts1 := insertZ i (wake_one c t) ts).
  assert (Hstep : (if is_state (state t) Sleeping && (wake_tick t <=? c)
                   then assign ts i (with_state Ready t) else Ret ts) = Ret ts1).
  { unfold ts1, wake_one. destruct (is_state (state t) Sleeping && (wake_tick t <=? c)).
    - unfold assign. by rewrite Ht.
    - by rewrite insertZ_id. }
  unfold index. rewrite Ht, bind_Ret, Hstep, bind_Ret.
  assert (Hlen : lenZ ts1 = lenZ ts) by (unfold ts1; by rewrite lenZ_insertZ).
  destruct (IH ts1 Hnd) as (ts' & Hts' & Hl' & Hj); [by rewrite Hlen|].
  exists ts'. split; [done|]. split; [lia|]. intros j. rewrite Hj. unfold ts1.
  destruct (decide (j = i)) as [->|Hne].
  - rewrite bool_decide_false by done. rewrite (bool_decide_true (i ∈ i :: idxs)) by (by left).
    rewrite Ht, lookupZ_insertZ_eq by lia. done.
  - rewrite lookupZ_insertZ_ne by congruence.
    rewrite (bool_decide_ext (j ∈ i :: idxs) (j ∈ idxs)); [done|]. rewrite elem_of_cons. tauto.
Qed.

(** ** The search *)

Lemma find_ready_spec (fuel : nat) start next s :
  sched_wf s -> 0 <= start < MAX_TASKS -> 0 <= next < MAX_TASKS ->
  dist start next + Z.of_nat fuel = 256 -> (0 < fuel)%nat ->
  (forall j, 0 <= j < MAX_TASKS -> dist start j < dist start next -> states s j <> Some Ready) ->
  exists r, find_ready fuel start next s = Ret r /\ is_next (states s) start r.
Proof.
  intros Hwf Hs. revert next. induction fuel as [|fuel IH]; intros next Hn Hd Hf Hnone; [lia|].
  cbn [find_ready]. destruct (get_task_Ret next s Hwf Hn) as (t & -> & Ht). rewrite bind_Ret.
  unfold is_state. case_bool_decide as Hst.
  { exists next. split; [done|]. left. split; [done|]. split; [|done]. unfold states. rewrite Ht. simpl. congruence. }
  assert (Hnr : states s next <> Some Ready) by (unfold states; rewrite Ht; simpl; congruence).
  rewrite MAX_TASKS_eq in *. unfold dist in *. rewrite MAX_TASKS_eq in *.
  assert (Hall : forall j, 0 <= j < 256 -> (j - start) mod 256 <= (next - start) mod 256 -> states s j <> Some Ready).
  { intros j Hj Hle. destruct (decide (j = next)) as [->|Hne]; [done|]. apply Hnone; [done|dlia]. }
  destruct (Z.eqb_spec ((next + 1) mod 256) start) as [He|He].
  - exists 0. split; [done|]. right. split; [done|]. intros j Hj. rewrite MAX_TASKS_eq in Hj. apply Hall; [done|dlia].
  - apply IH; [dlia|dlia|dlia|]. intros j Hj Hlt. apply Hall; [done|dlia].
Qed.

(** ** The tick *)

(** The tasks after the wake loop of tick [c]. *)
Definition woken (c : Z) s (j : Z) : option Task :=
  if 1 <=? j then wake_one c <$> lookupZ (TASKS s) j else lookupZ (TASKS s) j.
(** The interrupted task saves its stack pointer and is no longer running. *)
Definition demote (sp : Z) (t : Task) : Task :=
  if is_state (state t) Running then with_state Ready (with_sp sp t) else with_sp sp t.
Definition demoted (sp c : Z) s (j : Z) : option Task :=
  if j =? CURRENT_TASK s then demote sp <$> woken c s j else woken c s j.

Definition switch_tick (c : Z) : bool := negb ((c =? 0) || negb (c mod 10 =? 0)).

(** What a tick at which no switch is due does. *)
Definition plain_tick (sp c : Z) s (r : Z) s' : Prop :=
  r = sp /\ CURRENT_TASK s' = CURRENT_TASK s /\ CR3 s' = CR3 s /\ TSS_RSP0 s' = TSS_RSP0 s /\
  forall j, lookupZ (TASKS s') j = woken c s j.
(** What a tick at which a switch is due does. *)
Definition switched (sp c : Z) s (r : Z) s' : Prop :=
  exists next, is_next (fun j => state <$> demoted sp c s j) ((CURRENT_TASK s + 1) mod MAX_TASKS) next /\
    CURRENT_TASK s' = next /\
    (forall j, lookupZ (TASKS s') j =
       if j =? next then with_state Running <$> demoted sp c s j else demoted sp c s j) /\
    if next =? CURRENT_TASK s
    then r = sp /\ CR3 s' = CR3 s /\ TSS_RSP0 s' = TSS_RSP0 s
    else exists t, demoted sp c s next = Some t /\ r = saved_sp t /\ CR3 s' = page_table_root t /\
           TSS_RSP0 s' = stack_top TASKS_ADDR next.

Lemma elem_of_slots j : j ∈ slots <-> 1 <= j < MAX_TASKS.
Proof. unfold slots. rewrite elem_of_seqZ, MAX_TASKS_eq. lia. Qed.

Lemma wake_loop_spec c s :
  sched_wf s -> exists s', wake_loop slots c s = Ret s' /\ sched_wf s' /\ s' = with_tasks (TASKS s') s /\
    forall j, lookupZ (TASKS s') j = woken c s j.
Proof.
  intros [Hl Hc]. rewrite wake_loop_eq.
  destruct (wake_sleeping_spec slots c (TASKS s)) as (ts & -> & Hlen & Hj).
  { apply NoDup_seqZ. }
  { apply Forall_forall. intros i Hi%elem_of_slots. lia. }
  rewrite bind_Ret. exists (with_tasks ts s). split; [done|]. split; [split; simpl; [lia|done]|]. split; [done|].
  intros j. simpl. rewrite Hj. unfold woken. destruct (Z.leb_spec 1 j).
  - case_bool_decide as Hin; [done|]. rewrite elem_of_slots in Hin.
    assert (Hnone : lookupZ (TASKS s) j = None).
    { destruct (lookupZ (TASKS s) j) eqn:E; [|done]. apply lookupZ_Some_lt in E. lia. }
    by rewrite Hnone.
  - rewrite bool_decide_false; [done|]. rewrite elem_of_slots. lia.
Qed.

Lemma timer_handler_spec sp s :
  sched_wf s ->
  let c := u64 (TICKS s + 1) in
  exists r s', timer_handler_rust TASKS_ADDR sp s = Ret (r, s') /\ sched_wf s' /\ TICKS s' = c /\ mach s' = mach s /\
    if switch_tick c then switched sp c s r s' else plain_tick sp c s r s'.
Proof.
  intros Hwf c. unfold timer_handler_rust.
  assert (Hwf0 : sched_wf (count_tick (tick s))) by done.
  change (TICKS (count_tick (tick s))) with c.
  destruct (wake_loop_spec c _ Hwf0) as (s1 & -> & Hwf1 & Hs1 & Hj1). rewrite bind_Ret.
  assert (Hj1' : forall j, lookupZ (TASKS s1) j = woken c s j) by done. clear Hj1.
  assert (Hcur : CURRENT_TASK s1 = CURRENT_TASK s) by (by rewrite Hs1).
  assert (Hmach : mach s1 = mach s) by (by rewrite Hs1).
  assert (Hrest : CR3 s1 = CR3 s /\ TSS_RSP0 s1 = TSS_RSP0 s /\ TICKS s1 = c) by (by rewrite Hs1).
  destruct Hrest as (Hcr3 & Htss & Htk). clear Hs1. unfold switch_tick.
  destruct ((c =? 0) || negb (c mod 10 =? 0)); cbn [negb].
  { exists sp, s1. by split_and!. }
  pose proof Hwf1 as [Hl1 Hc1]. set (cur := CURRENT_TASK s1) in *.
  destruct (lookupZ_lt (TASKS s1) cur) as [t Ht]; [lia|].
  rewrite (upd_task_Ret _ _ _ _ Ht), bind_Ret. set (s2 := with_tasks _ s1).
  assert (Ht2 : lookupZ (TASKS s2) cur = Some (with_sp sp t)) by (apply lookupZ_insertZ_eq; lia).
  change (CURRENT_TASK s2) with cur. rewrite (get_task_Some _ _ _ Ht2), bind_Ret.
  set (s3 := with_tasks (insertZ cur (demote sp t) (TASKS s1)) s1).
  assert (Hs3 : (if is_state (state (with_sp sp t)) Running then upd_task cur (with_state Ready) s2 else Ret s2) = Ret s3).
  { unfold s3, demote. change (state (with_sp sp t)) with (state t). destruct (is_state (state t) Running); [|done].
    rewrite (upd_task_Ret _ _ _ _ Ht2). unfold s2, with_tasks. simpl. by rewrite insertZ_insertZ. }
  rewrite Hs3, bind_Ret. change (CURRENT_TASK s3) with cur.
  assert (Hwf3 : sched_wf s3) by (split; simpl; [by rewrite lenZ_insertZ|done]).
  assert (Hj3 : forall j, lookupZ (TASKS s3) j = demoted sp c s j).
  { intros j. unfold s3, demoted. simpl. rewrite <- Hcur. rewrite <- Hj1'. destruct (Z.eqb_spec j cur) as [->|].
    - rewrite lookupZ_insertZ_eq, Ht by lia. done.
    - by rewrite lookupZ_insertZ_ne by congruence. }
  assert (Hstart : 0 <= (cur + 1) mod MAX_TASKS < MAX_TASKS) by (apply Z.mod_pos_bound; done).
  destruct (find_ready_spec (Z.to_nat MAX_TASKS) ((cur + 1) mod MAX_TASKS) ((cur + 1) mod MAX_TASKS) s3)
    as (next & -> & Hnext); try done.
  { unfold dist. rewrite Z.sub_diag. done. }
  { rewrite MAX_TASKS_eq. lia. }
  { unfold dist. rewrite Z.sub_diag. intros j _. pose proof (dist_range ((cur + 1) mod MAX_TASKS) j).
    change (0 mod MAX_TASKS) with 0. unfold dist in *. lia. }
  rewrite bind_Ret.
  assert (Hnr : 0 <= next < MAX_TASKS) by (destruct Hnext as [(? & _)|[-> _]]; done).
  assert (Hnext' : is_next (fun j => state <$> demoted sp c s j) ((CURRENT_TASK s + 1) mod MAX_TASKS) next).
  { rewrite <- Hcur. clear -Hnext Hj3. unfold states in Hnext.
    destruct Hnext as [(H1 & H2 & H3)|[H1 H2]]; [left|right].
    - split; [done|]. split; [by rewrite <- Hj3|]. intros j Hj Hd. rewrite <- Hj3. by apply H3.
    - split; [done|]. intros j Hj. rewrite <- Hj3. by apply H2. }
  pose proof Hwf3 as [Hl3 _]. destruct (lookupZ_lt (TASKS s3) next) as [tn Htn]; [lia|].
  assert (Hupd : forall j, lookupZ (insertZ next (with_state Running tn) (TASKS s3)) j =
            if j =? next then with_state Running <$> demoted sp c s j else demoted sp c s j).
  { intros j. rewrite <- Hj3. destruct (Z.eqb_spec j next) as [->|].
    - rewrite lookupZ_insertZ_eq, Htn by lia. done.
    - by rewrite lookupZ_insertZ_ne by congruence. }
  destruct (Z.eqb_spec next cur) as [->|Hne].
  - rewrite (upd_task_Ret _ _ _ _ Htn), bind_Ret. eexists sp, _. split; [done|].
    split; [split; simpl; [by rewrite !lenZ_insertZ|done]|]. split; [done|]. split; [done|].
    exists cur. split; [done|]. split; [done|]. split; [done|]. rewrite <- Hcur, Z.eqb_refl. done.
  - change (TASKS s3) with (TASKS (with_current next s3)) in Htn.
    rewrite (upd_task_Ret _ _ _ _ Htn), bind_Ret. unfold get_task, index. simpl.
    rewrite lookupZ_insertZ_eq by (simpl in *; lia). simpl.
    eexists _, _. split; [done|]. split; [split; simpl; [by rewrite !lenZ_insertZ|done]|]. split; [done|]. split; [done|].
    exists next. split; [done|]. split; [done|]. split; [done|]. rewrite <- Hcur.
    destruct (Z.eqb_spec next cur); [done|]. exists tn. rewrite <- Hj3. by split_and!.
Qed.

(** ** The operations of a running system *)

Definition current_is (P : TaskState -> Prop) s : Prop := exists st, states s (CURRENT_TASK s) = Some st /\ P st.

(** The calls of the current task. *)
Inductive task_call : sys (A:=A) -> sys (A:=A) -> Prop :=
  | call_spawn func s s' : spawn TASKS_ADDR func s = Ret s' -> task_call s s'
  | call_spawn_userspace entry sp root fs r s s' :
      spawn_userspace TASKS_ADDR entry sp root fs s = Ret (r, s') -> task_call s s'
  | call_exit r s s' : exit_current_task s = Ret (r, s') -> task_call s s'
  | call_yield s s' : set_state Ready s = Ret s' -> task_call s s'
  | call_sleep wake s s' : sleep_until wake s = Ret s' -> task_call s s'
  | call_exec image data r s s' :
      replace_address_space TASKS_ADDR (CURRENT_TASK s) image data s = Ret (r, s') -> task_call s s'.

(** A tick may come at any time; only a task that has not exited makes calls. *)
Inductive sched_step : sys (A:=A) -> sys (A:=A) -> Prop :=
  | step_tick sp r s s' : timer_handler_rust TASKS_ADDR sp s = Ret (r, s') -> sched_step s s'
  | step_call s s' : current_is (fun st => st <> Unused) s -> task_call s s' -> sched_step s s'.

Definition root_of s (i : Z) : option Z := page_table_root <$> lookupZ (TASKS s) i.

(** Only the current task is running, and its page tables are loaded, or it
    has exited and the kernel's are. *)
Definition sched_inv s : Prop :=
  sched_wf s /\ (forall j, j <> CURRENT_TASK s -> states s j <> Some Running) /\
  (root_of s (CURRENT_TASK s) = Some (CR3 s) \/
   states s (CURRENT_TASK s) = Some Unused /\ root_of s 0 = Some (CR3 s)).

Lemma upd_task_inv i f s s' :
  upd_task i f s = Ret s' ->
  exists t, lookupZ (TASKS s) i = Some t /\ s' = with_tasks (insertZ i (f t) (TASKS s)) s.
Proof.
  unfold upd_task, get_task, index. destruct (lookupZ (TASKS s) i) as [t|]; [|done].
  intros E%Ret_inj. exists t. by split.
Qed.

Lemma find_unused_inv idxs s i :
  find_unused idxs s = Ret (Some i) -> i ∈ idxs /\ states s i = Some Unused.
Proof.
  induction idxs as [|k idxs IH]; cbn [find_unused]; [done|]. unfold get_task, index.
  destruct (lookupZ (TASKS s) k) as [t|] eqn:Ht; [|done]. rewrite bind_Ret. unfold is_state.
  case_bool_decide as Hst.
  - intros [= <-]. split; [by left|]. unfold states. rewrite Ht. simpl. congruence.
  - intros Hf. destruct (IH Hf). split; [by right|done].
Qed.

(** A change of one slot: everything the invariant sees but that slot stays. *)
Definition slot_changed (i : Z) (t' : Task) s s' : Prop :=
  TASKS s' = insertZ i t' (TASKS s) /\ CURRENT_TASK s' = CURRENT_TASK s /\ CR3 s' = CR3 s.

Lemma slot_changed_other i t' s s' j :
  slot_changed i t' s s' -> j <> i -> lookupZ (TASKS s') j = lookupZ (TASKS s) j.
Proof. intros (-> & _) Hne. by rewrite lookupZ_insertZ_ne by congruence. Qed.
Lemma slot_changed_same i t t' s s' :
  slot_changed i t' s s' -> lookupZ (TASKS s) i = Some t -> lookupZ (TASKS s') i = Some t'.
Proof.
  intros (-> & _) Ht. pose proof (lookupZ_Some_lt _ _ _ Ht). by rewrite lookupZ_insertZ_eq by lia.
Qed.
Lemma slot_changed_wf i t' s s' : slot_changed i t' s s' -> sched_wf s -> sched_wf s'.
Proof. intros (Ht & Hc & _) [Hl Hcur]. split; [by rewrite Ht, lenZ_insertZ|by rewrite Hc]. Qed.

(** A slot other than the current one gets a task that is not running. *)
Lemma inv_new_slot i t t' s s' :
  sched_inv s -> current_is (fun st => st <> Unused) s -> lookupZ (TASKS s) i = Some t -> state t = Unused ->
  slot_changed i t' s s' -> state t' = Ready -> sched_inv s'.
Proof.
  intros (Hwf & Hrun & Hcr3) (st & Hst & Hne) Ht Hu Hch Hr.
  assert (Hi : i <> CURRENT_TASK s) by (intros ->; unfold states in Hst; rewrite Ht in Hst; simpl in Hst; congruence).
  pose proof Hch as (_ & Hc & Hcr). split; [by eapply slot_changed_wf|]. rewrite Hc, Hcr. split.
  - intros j Hj. unfold states. destruct (decide (j = i)) as [->|].
    + rewrite (slot_changed_same _ _ _ _ _ Hch Ht). simpl. congruence.
    + rewrite (slot_changed_other _ _ _ _ _ Hch) by done. by apply Hrun.
  - destruct Hcr3 as [Hroot|[Hun _]]; [|congruence]. left. unfold root_of.
    by rewrite (slot_changed_other _ _ _ _ _ Hch) by congruence.
Qed.

(** The current slot changes but keeps its page tables. *)
Lemma inv_current_slot t t' s s' :
  sched_inv s -> current_is (fun st => st <> Unused) s -> lookupZ (TASKS s) (CURRENT_TASK s) = Some t ->
  slot_changed (CURRENT_TASK s) t' s s' -> page_table_root t' = page_table_root t -> sched_inv s'.
Proof.
  intros (Hwf & Hrun & Hcr3) (st & Hst & Hne) Ht Hch Hr. pose proof Hch as (_ & Hc & Hcr).
  split; [by eapply slot_changed_wf|]. rewrite Hc, Hcr. split.
  - intros j Hj. unfold states. rewrite (slot_changed_other _ _ _ _ _ Hch) by done. by apply Hrun.
  - destruct Hcr3 as [Hroot|[Hun _]]; [|congruence]. left. unfold root_of in *.
    rewrite (slot_changed_same _ _ _ _ _ Hch Ht). rewrite Ht in Hroot. simpl in *. congruence.
Qed.

Lemma inv_tick sp r s s' : sched_inv s -> timer_handler_rust TASKS_ADDR sp s = Ret (r, s') -> sched_inv s'.
Proof.
  intros (Hwf & Hrun & Hcr3) Hstep. destruct (timer_handler_spec sp s Hwf) as (r' & s2 & Hs2 & Hwf2 & _ & _ & Hpost).
  rewrite Hs2 in Hstep. apply Ret_inj in Hstep as [= -> ->]. split; [done|]. set (c := u64 (TICKS s + 1)) in *.
  assert (Hw : forall j, page_table_root <$> woken c s j = root_of s j).
  { intros j. unfold woken, root_of. destruct (1 <=? j); [|done]. destruct (lookupZ (TASKS s) j) as [t|]; [|done].
    simpl. unfold wake_one. by destruct (_ && _). }
  assert (Hws : forall j, state <$> woken c s j = Some Running -> states s j = Some Running).
  { intros j. unfold woken, states. destruct (1 <=? j); [|done]. destruct (lookupZ (TASKS s) j) as [t|]; [|done].
    simpl. unfold wake_one. by destruct (_ && _). }
  assert (Hwu : forall j, states s j = Some Unused -> state <$> woken c s j = Some Unused).
  { intros j. unfold woken, states. destruct (1 <=? j); [|done]. destruct (lookupZ (TASKS s) j) as [t|]; [|done].
    simpl. intros [= Hst]. unfold wake_one, is_state. rewrite bool_decide_false by congruence. simpl. congruence. }
  destruct (switch_tick c).
  - destruct Hpost as (next & Hnext & Hc & Hj & Hsw). rewrite Hc. split.
    + intros j Hne. unfold states. rewrite Hj. destruct (Z.eqb_spec j next); [done|]. unfold demoted.
      destruct (Z.eqb_spec j (CURRENT_TASK s)) as [->|].
      * destruct (woken c s (CURRENT_TASK s)) as [t|]; [|done]. simpl. unfold demote, is_state.
        case_bool_decide; simpl; [done|congruence].
      * intros Hr%Hws. by apply (Hrun j).
    + assert (Hd : forall j, page_table_root <$> demoted sp c s j = root_of s j).
      { intros j. unfold demoted. destruct (j =? CURRENT_TASK s); [|done]. rewrite <- Hw.
        destruct (woken c s j) as [t|]; [|done]. simpl. unfold demote. by destruct (is_state _ _). }
      left. unfold root_of at 1. rewrite Hj, Z.eqb_refl.
      destruct (Z.eqb_spec next (CURRENT_TASK s)) as [->|Hne].
      * destruct Hsw as (_ & Hcr & _). rewrite Hcr. transitivity (root_of s (CURRENT_TASK s)).
        { rewrite <- Hd. by destruct (demoted sp c s (CURRENT_TASK s)). }
        destruct Hcr3 as [|[Hun Hr0]]; [done|].
        destruct Hnext as [(_ & Hrdy & _)|[-> _]]; [|done].
        unfold demoted in Hrdy. rewrite Z.eqb_refl in Hrdy. apply Hwu in Hun.
        destruct (woken c s (CURRENT_TASK s)) as [t|]; [|done]. simpl in *. injection Hun as Hun.
        unfold demote, is_state in Hrdy. rewrite bool_decide_false in Hrdy by congruence. simpl in Hrdy. congruence.
      * destruct Hsw as (t & Ht & _ & -> & _). by rewrite Ht.
  - destruct Hpost as (_ & Hc & Hcr & _ & Hj). rewrite Hc, Hcr. split.
    + intros j Hne Hr. unfold states in Hr. rewrite Hj in Hr. by apply (Hrun j), Hws.
    + unfold root_of, states. rewrite !Hj. rewrite !Hw. destruct Hcr3 as [|[Hun Hr0]]; [by left|right].
      split; [by apply Hwu|done].
Qed.

(** ** The other operations *)

Lemma slot_changed_upd i f t s :
  lookupZ (TASKS s) i = Some t -> upd_task i f s = Ret (with_tasks (insertZ i (f t) (TASKS s)) s) /\
    slot_changed i (f t) s (with_tasks (insertZ i (f t) (TASKS s)) s).
Proof. intros Ht. split; [by apply upd_task_Ret|done]. Qed.

Lemma spawn_shape func s s' :
  spawn TASKS_ADDR func s = Ret s' ->
  s' = s \/ exists i t t', lookupZ (TASKS s) i = Some t /\ state t = Unused /\ state t' = Ready /\ slot_changed i t' s s'.
Proof.
  unfold spawn. intros E. inv_bind E. destruct a as [i|]; [right|left; by apply Ret_inj in E].
  apply find_unused_inv in E0 as [_ Hun]. unfold states in Hun. destruct (lookupZ (TASKS s) i) as [t|] eqn:Ht; [|done].
  injection Hun as Hun. pose proof (lookupZ_Some_lt _ _ _ Ht) as Hlt.
  rewrite (upd_task_Ret _ _ _ _ Ht), bind_Ret in E. unfold build_kernel_frame in E.
  destruct (build_frame _ _ _ _ _ _) as [sp m].
  do 2 (erewrite upd_task_Ret, bind_Ret in E by (simpl; apply lookupZ_insertZ_eq; rewrite ?lenZ_insertZ; lia)).
  apply Ret_inj in E. subst s'. eexists i, t, _. split; [done|]. split; [done|]. split; [|split; [|done]].
  2: { simpl. rewrite !insertZ_insertZ. reflexivity. }
  done.
Qed.

Lemma record_frames_len fs j dst dst' : record_frames fs j dst = Ret dst' -> lenZ dst' = lenZ dst.
Proof.
  revert j dst. induction fs as [|f fs IH]; intros j dst; cbn [record_frames]; [by intros [= ->]|].
  unfold assign. destruct (lookupZ dst j); [|done]. rewrite bind_Ret. intros Hr%IH. by rewrite lenZ_insertZ in Hr.
Qed.

Lemma spawn_userspace_shape entry sp root fs r s s' :
  spawn_userspace TASKS_ADDR entry sp root fs s = Ret (r, s') ->
  s' = s \/ exists i t t', lookupZ (TASKS s) i = Some t /\ state t = Unused /\ state t' = Ready /\ slot_changed i t' s s'.
Proof.
  unfold spawn_userspace. intros E. inv_bind E. destruct a as [i|]; [right|left; by apply Ret_inj in E as [= _ ->]].
  apply find_unused_inv in E0 as [_ Hun]. unfold states in Hun. destruct (lookupZ (TASKS s) i) as [t|] eqn:Ht; [|done].
  injection Hun as Hun. pose proof (lookupZ_Some_lt _ _ _ Ht) as Hlt.
  rewrite (upd_task_Ret _ _ _ _ Ht), bind_Ret in E. unfold build_userspace_frame in E.
  destruct (build_frame _ _ _ _ _ _) as [usp m].
  do 2 (erewrite upd_task_Ret, bind_Ret in E by (simpl; apply lookupZ_insertZ_eq; rewrite ?lenZ_insertZ; lia)).
  erewrite get_task_Some, bind_Ret in E by (simpl; apply lookupZ_insertZ_eq; rewrite ?lenZ_insertZ; lia).
  inv_bind E. erewrite upd_task_Ret, bind_Ret in E by (simpl; apply lookupZ_insertZ_eq; rewrite ?lenZ_insertZ; lia).
  apply Ret_inj in E as [= <- <-]. eexists i, t, _. split; [done|]. split; [done|]. split; [|split; [|done]].
  2: { simpl. rewrite !insertZ_insertZ. reflexivity. }
  done.
Qed.

Lemma sleep_shape wake s s' :
  sleep_until wake s = Ret s' -> exists t, lookupZ (TASKS s) (CURRENT_TASK s) = Some t /\
    slot_changed (CURRENT_TASK s) (with_state Sleeping (with_wake wake t)) s s'.
Proof.
  unfold sleep_until. intros E. inv_bind E. apply upd_task_inv in E0 as (t & Ht & ->).
  apply upd_task_inv in E as (t2 & Ht2 & ->). simpl in *. unfold current_task in *.
  pose proof (lookupZ_Some_lt _ _ _ Ht). rewrite lookupZ_insertZ_eq in Ht2 by lia. injection Ht2 as <-.
  exists t. split; [done|]. split; [|done]. simpl. by rewrite insertZ_insertZ.
Qed.

Lemma exit_shape r s s' :
  exit_current_task s = Ret (r, s') ->
  s' = s \/ exists t', TASKS s' = insertZ (CURRENT_TASK s) t' (TASKS s) /\ CURRENT_TASK s' = CURRENT_TASK s.
Proof.
  unfold exit_current_task. destruct (_ =? 0); [intros [= _ <-]; by left|]. intros E. right.
  do 5 inv_bind E. apply upd_task_inv in E4 as (t' & _ & ->). apply Ret_inj in E as [= _ <-].
  by eexists.
Qed.

Lemma exec_shape image data r s s' :
  replace_address_space TASKS_ADDR (CURRENT_TASK s) image data s = Ret (r, s') ->
  s' = s \/ exists t', TASKS s' = insertZ (CURRENT_TASK s) t' (TASKS s) /\ CURRENT_TASK s' = CURRENT_TASK s.
Proof.
  unfold replace_address_space. destruct (_ || _); [intros [= _ <-]; by left|]. intros E. right.
  do 3 inv_bind E. destruct a1 as [t1 m1]. do 2 inv_bind E. destruct a2 as [[cr3 ufs] m2]. inv_bind E.
  destruct a2 as [[rest t2] mem]. inv_bind E. destruct a2 as [[[sp t3] m3]|e].
  - inv_bind E. destruct a2 as [x4 m4]. inv_bind E. destruct a2 as [x5 m5].
    unfold rebuild_userspace_frame, build_userspace_frame in E. destruct (build_frame _ _ _ _ _ _) as [usp m6].
    apply Ret_inj in E as [= _ <-]. by eexists.
  - apply Ret_inj in E as [= _ <-]. by eexists.
Qed.

Lemma inv_exit r s s' :
  sched_inv s -> current_is (fun st => st <> Unused) s -> exit_current_task s = Ret (r, s') -> sched_inv s'.
Proof.
  intros (Hwf & Hrun & Hcr3) (st & Hst & Hne). unfold exit_current_task.
  destruct (Z.eqb_spec (CURRENT_TASK s) 0) as [|Hc0].
  { intros [= _ <-]. by split. }
  unfold states in Hst. destruct (lookupZ (TASKS s) (CURRENT_TASK s)) as [t|] eqn:Ht; [|done].
  intros E. rewrite (get_task_Some _ _ _ Ht), bind_Ret in E. inv_bind E. rename a into m1.
  destruct (get_task_Ret 0 s Hwf ltac:(done)) as (t0 & Ht0 & Hl0). rewrite Ht0, bind_Ret in E. inv_bind E. rename a into m2.
  inv_bind E. apply upd_task_inv in E2 as (t' & Ht' & ->). simpl in Ht', E. apply Ret_inj in E as [= _ <-].
  rewrite Ht in Ht'. injection Ht' as <-. pose proof (lookupZ_Some_lt _ _ _ Ht).
  split; [split; simpl; [rewrite lenZ_insertZ; apply Hwf|apply Hwf]|]. simpl. split.
  - intros j Hj. unfold states. simpl. rewrite lookupZ_insertZ_ne by congruence. by apply Hrun.
  - right. unfold states, root_of. simpl. rewrite lookupZ_insertZ_eq by lia. split; [done|].
    rewrite lookupZ_insertZ_ne by congruence. by rewrite Hl0.
Qed.

Lemma track_frame_shape pa t t' :
  track_frame pa t = Ret t' -> state t' = state t /\ page_table_root t' = page_table_root t.
Proof.
  unfold track_frame. destruct (_ <? _); [|by intros [= <-]]. intros E. inv_bind E. by apply Ret_inj in E as <-.
Qed.
Lemma fill_segment_shape ufs d seg t m r :
  fill_segment ufs d seg t m = Ret r -> state r.1.2 = state t /\ page_table_root r.1.2 = page_table_root t.
Proof.
  revert t m. induction ufs as [|[[va sz] pa] ufs IH]; intros t m; cbn [fill_segment]; [by intros [= <-]|].
  destruct (_ || _); [by intros [= <-]|]. intros E. inv_bind E. inv_bind E.
  apply track_frame_shape in E1 as [<- <-]. by eapply IH.
Qed.
Lemma fill_segments_shape idxs segs ufs d t m r :
  fill_segments idxs segs ufs d t m = Ret r -> state r.1.2 = state t /\ page_table_root r.1.2 = page_table_root t.
Proof.
  revert ufs t m. induction idxs as [|i idxs IH]; intros ufs t m; cbn [fill_segments]; [by intros [= <-]|].
  intros E. inv_bind E. inv_bind E. inv_bind E. destruct a1 as [[rest t1] m1].
  apply fill_segment_shape in E2 as [Hs Hr]. simpl in Hs, Hr. rewrite <- Hs, <- Hr. by eapply IH.
Qed.

Lemma inv_exec image data r s s' :
  sched_inv s -> current_is (fun st => st <> Unused) s ->
  replace_address_space TASKS_ADDR (CURRENT_TASK s) image data s = Ret (r, s') -> sched_inv s'.
Proof.
  intros Hinv Hcur. unfold replace_address_space. destruct (_ || _); [by intros [= _ <-]|].
  pose proof Hinv as (Hwf & Hrun & Hcr3). pose proof Hcur as (st & Hst & Hne).
  unfold states in Hst. destruct (lookupZ (TASKS s) (CURRENT_TASK s)) as [t|] eqn:Ht; [|done]. injection Hst as Hst.
  pose proof (lookupZ_Some_lt _ _ _ Ht) as Hlt.
  intros E. rewrite (get_task_Some _ _ _ Ht), bind_Ret in E. inv_bind E. rename a into t0.
  inv_bind E. destruct a as [t1 m1].
  assert (Ht1 : state t1 = state t /\ page_table_root t1 = page_table_root t).
  { destruct (_ && _) in E1; [|by apply Ret_inj in E1 as [= <- _]].
    inv_bind E1. inv_bind E1. by apply Ret_inj in E1 as [= <- _]. }
  inv_bind E. inv_bind E. destruct a0 as [[cr3 ufs] m2]. inv_bind E. destruct a0 as [[rest t2] mem].
  apply fill_segments_shape in E4 as [Hs2 Hr2]. simpl in Hs2, Hr2. inv_bind E.
  destruct a0 as [[[sp t3] m3]|e].
  2: { apply Ret_inj in E as [= _ <-]. eapply (inv_current_slot t t2); try done. destruct Ht1. congruence. }
  assert (Ht3 : state t3 = state t2).
  { unfold stack_frame in E4. destruct rest as [|[[? ?] ?] ?]; [|by apply Ret_inj in E4 as [= _ <- _]].
    inv_bind E4. destruct a0 as [[f|] fa]; [|done]. inv_bind E4. apply track_frame_shape in E6 as [<- _].
    by apply Ret_inj in E4 as [= _ <- _]. }
  inv_bind E. destruct a0 as [x4 m4]. inv_bind E. destruct a0 as [x5 m5].
  unfold rebuild_userspace_frame, build_userspace_frame in E. destruct (build_frame _ _ _ _ _ _) as [usp m6].
  simpl in E. apply Ret_inj in E as [= _ <-].
  split; [split; simpl; [rewrite lenZ_insertZ; apply Hwf|apply Hwf]|]. simpl. split.
  - intros j Hj. unfold states. simpl. rewrite lookupZ_insertZ_ne by congruence. by apply Hrun.
  - left. unfold root_of. simpl. by rewrite lookupZ_insertZ_eq by lia.
Qed.

Lemma call_inv s s' :
  sched_inv s -> current_is (fun st => st <> Unused) s -> task_call s s' -> sched_inv s'.
Proof.
  intros Hinv Hc Hstep.
  destruct Hstep as [func s s' E|entry sp root fs r s s' E|r s s' E|s s' E|wake s s' E|image data r s s' E].
  - destruct (spawn_shape _ _ _ E) as [->|(i & t & t' & Ht & Hu & Hr & Hch)]; [done|]. by eapply inv_new_slot.
  - destruct (spawn_userspace_shape _ _ _ _ _ _ _ E) as [->|(i & t & t' & Ht & Hu & Hr & Hch)]; [done|].
    by eapply inv_new_slot.
  - by eapply inv_exit.
  - apply upd_task_inv in E as (t & Ht & ->). by eapply (inv_current_slot t).
  - destruct (sleep_shape _ _ _ E) as (t & Ht & Hch). by apply (inv_current_slot t _ _ _ Hinv Hc Ht Hch).
  - by eapply inv_exec.
Qed.

Lemma step_inv s s' : sched_inv s -> sched_step s s' -> sched_inv s'.
Proof.
  intros Hinv Hs. destruct Hs as [sp r s s' E|s s' Hc E]; [by eapply inv_tick|by eapply call_inv].
Qed.

(** ** Waiting *)

(** A call changes no other task that is in use. *)
Lemma call_keeps s s' k :
  task_call s s' -> k <> CURRENT_TASK s -> states s k <> Some Unused ->
  CURRENT_TASK s' = CURRENT_TASK s /\ states s' k = states s k.
Proof.
  intros Hstep Hk Hu.
  assert (Hnew : forall i t t' s', lookupZ (TASKS s) i = Some t -> state t = Unused -> slot_changed i t' s s' ->
            CURRENT_TASK s' = CURRENT_TASK s /\ states s' k = states s k).
  { intros i t t' s1 Ht Hun Hch. split; [apply Hch|]. unfold states.
    rewrite (slot_changed_other _ _ _ _ _ Hch); [done|]. intros ->. apply Hu. unfold states. rewrite Ht. simpl. congruence. }
  assert (Hcur : forall t' s', slot_changed (CURRENT_TASK s) t' s s' ->
            CURRENT_TASK s' = CURRENT_TASK s /\ states s' k = states s k).
  { intros t' s1 Hch. split; [apply Hch|]. unfold states. by rewrite (slot_changed_other _ _ _ _ _ Hch). }
  destruct Hstep as [func s s' E|entry sp root fs r s s' E|r s s' E|s s' E|wake s s' E|image data r s s' E].
  - destruct (spawn_shape _ _ _ E) as [->|(i & t & t' & Ht & Hun & Hr & Hch)]; [done|]. by eapply Hnew.
  - destruct (spawn_userspace_shape _ _ _ _ _ _ _ E) as [->|(i & t & t' & Ht & Hun & Hr & Hch)]; [done|].
    by eapply Hnew.
  - destruct (exit_shape _ _ _ E) as [->|(t' & Ht & Hc)]; [done|]. split; [done|]. unfold states.
    rewrite Ht. by rewrite lookupZ_insertZ_ne by congruence.
  - apply upd_task_inv in E as (t & Ht & ->). by eapply (Hcur (with_state Ready t)).
  - destruct (sleep_shape _ _ _ E) as (t & Ht & Hch). by eapply Hcur.
  - destruct (exec_shape _ _ _ _ _ E) as [->|(t' & Ht & Hc)]; [done|]. split; [done|]. unfold states.
    rewrite Ht. by rewrite lookupZ_insertZ_ne by congruence.
Qed.

(** Task [k] waits: [n] switches happen and none selects it. *)
Inductive waits (k : Z) : Z -> sys (A:=A) -> sys (A:=A) -> Prop :=
  | waits_refl s : waits k 0 s s
  | waits_tick n sp r s s1 s2 : timer_handler_rust TASKS_ADDR sp s = Ret (r, s1) -> CURRENT_TASK s1 <> k ->
      waits k n s1 s2 -> waits k (n + if switch_tick (TICKS s1) then 1 else 0) s s2
  | waits_call n s s1 s2 : current_is (fun st => st <> Unused) s -> task_call s s1 ->
      waits k n s1 s2 -> waits k n s s2.

Lemma tick_keeps_ready k sp r s s1 :
  sched_wf s -> timer_handler_rust TASKS_ADDR sp s = Ret (r, s1) -> 0 <= k < MAX_TASKS ->
  CURRENT_TASK s <> k -> CURRENT_TASK s1 <> k -> states s k = Some Ready ->
  states s1 k = Some Ready /\
  dist ((CURRENT_TASK s1 + 1) mod MAX_TASKS) k + (if switch_tick (TICKS s1) then 1 else 0) <=
    dist ((CURRENT_TASK s + 1) mod MAX_TASKS) k.
Proof.
  intros Hwf Hrun Hk Hc Hc1 Hr.
  destruct (timer_handler_spec sp s Hwf) as (r' & s2 & Hs2 & Hwf2 & Htk & _ & Hpost).
  rewrite Hs2 in Hrun. apply Ret_inj in Hrun as [= -> ->]. rewrite Htk. set (c := u64 (TICKS s + 1)) in *.
  assert (Hw : state <$> woken c s k = Some Ready).
  { unfold woken, states in *. destruct (1 <=? k); [|done]. destruct (lookupZ (TASKS s) k) as [t|]; [|done].
    simpl in *. injection Hr as Hr. unfold wake_one, is_state. rewrite bool_decide_false by congruence. simpl. congruence. }
  destruct (switch_tick c).
  - destruct Hpost as (next & Hnext & Hcn & Hj & _). rewrite Hcn in *.
    assert (Hd : demoted sp c s k = woken c s k) by (unfold demoted; by destruct (Z.eqb_spec k (CURRENT_TASK s))).
    split. { unfold states. rewrite Hj, Hd. by destruct (Z.eqb_spec k next). }
    destruct Hwf as [_ Hcur]. destruct Hnext as [(Hn & Hnr & Hfirst)|[-> Hnone]].
    2: { exfalso. apply (Hnone k Hk). by rewrite Hd. }
    assert (Hle : ~ dist ((CURRENT_TASK s + 1) mod MAX_TASKS) k < dist ((CURRENT_TASK s + 1) mod MAX_TASKS) next).
    { intros Hlt. apply (Hfirst k Hk Hlt). by rewrite Hd. }
    unfold dist in *. rewrite MAX_TASKS_eq in *. dlia.
  - destruct Hpost as (_ & Hcn & _ & _ & Hj). rewrite Hcn. split; [|lia]. unfold states. by rewrite Hj.
Qed.

Lemma waits_dist k n s s' :
  sched_inv s -> waits k n s s' -> 0 <= k < MAX_TASKS -> CURRENT_TASK s <> k -> states s k = Some Ready ->
  n <= dist ((CURRENT_TASK s + 1) mod MAX_TASKS) k.
Proof.
  intros Hinv Hwait Hk. induction Hwait as [s|n sp r s s1 s2 E Hc1 _ IH|n s s1 s2 Hc E _ IH]; intros Hcur Hr.
  - apply dist_range.
  - destruct (tick_keeps_ready k sp r s s1) as [Hr1 Hd]; try done; [apply Hinv|].
    specialize (IH ltac:(by eapply inv_tick) Hc1 Hr1). lia.
  - destruct (call_keeps s s1 k E ltac:(done)) as [Hc1 Hs1]; [by rewrite Hr|].
    rewrite <- Hc1. apply IH; [by eapply call_inv|by rewrite Hc1|by rewrite Hs1].
Qed.
End sched.

(** ** Properties *)

(** A system after [init_scheduler]: only the kernel task, on the page tables
    at 0x1000. *)
Definition boot_tasks : list Task :=
  mk_task 0 Running 0x1000 (replicate 32 0) 0 0 0 :: replicate 255 UNUSED_TASK.
Definition boot_sys : sys (A:=frame_state) :=
  mk_sys (mk_machine ∅ machine_100 0x1000) boot_tasks 0 0 (mk_stats 0 0 0) 0x1000 0.
Definition TASKS_AT : Z := 0x300000.

Lemma kernel_task_inv {A} `{FrameAllocator A} t l (s : sys (A:=A)) :
  TASKS s = t :: l -> CURRENT_TASK s = 0 -> CR3 s = page_table_root t -> lenZ (t :: l) = MAX_TASKS ->
  forallb (fun t => negb (is_state (state t) Running)) l = true -> sched_inv s.
Proof.
  intros Ht Hc Hcr Hlen Hl. unfold sched_inv, sched_wf, states, root_of. rewrite Ht, Hc, Hcr.
  split; [split; [done|unfold MAX_TASKS; lia]|]. split; [|by left]. intros j Hj. unfold lookupZ.
  destruct (Z.ltb_spec j 0); [done|]. destruct (Z.to_nat j) as [|n] eqn:E; [lia|]. rewrite lookup_cons.
  destruct (l !! n) as [t'|] eqn:E'; [|done]. rewrite forallb_forall in Hl.
  specialize (Hl t'). rewrite <- list_elem_of_In in Hl. specialize (Hl (list_elem_of_lookup_2 _ _ _ E')).
  unfold is_state in Hl. simpl. intros [= Hr]. rewrite bool_decide_true in Hl by done. done.
Qed.

Lemma tick_check {A} `{FrameAllocator A} TASKS_ADDR sp (s : sys (A:=A)) (P : Z -> Z -> Prop) :
  match timer_handler_rust TASKS_ADDR sp s with Ret (_, s') => P (CURRENT_TASK s') (TICKS s') | _ => False end ->
  exists r s', timer_handler_rust TASKS_ADDR sp s = Ret (r, s') /\ P (CURRENT_TASK s') (TICKS s').
Proof. intros HP. destruct (timer_handler_rust TASKS_ADDR sp s) as [[r s']| | | |]; [eauto|done..]. Qed.

Lemma boot_tick : exists r s', timer_handler_rust TASKS_AT 7 boot_sys = Ret (r, s') /\ CURRENT_TASK s' = 0.
Proof. apply (tick_check TASKS_AT 7 boot_sys (fun c _ => c = 0)). vm_compute. reflexivity. Qed.

Lemma boot_inv : sched_inv boot_sys.
Proof. by eapply kernel_task_inv. Qed.

(** C11: Whatever calls tasks make and whenever ticks arrive, at most the
    current task is in state [Running], the task index stays in the table,
    and the page tables the processor uses are those of the current task, or
    the kernel's when that task has just exited. *)
Theorem scheduler_invariant {A} `{FrameAllocator A} TASKS_ADDR (s s' : sys (A:=A)) :
  sched_inv s -> rtc (sched_step TASKS_ADDR) s s' ->
  sched_wf s' /\ (forall j, j <> CURRENT_TASK s' -> states s' j <> Some Running) /\
  (root_of s' (CURRENT_TASK s') = Some (CR3 s') \/
   states s' (CURRENT_TASK s') = Some Unused /\ root_of s' 0 = Some (CR3 s')).
Proof.
  intros Hinv Hrun. change (sched_inv s'). induction Hrun as [|s s1 s2 Hstep _ IH]; [done|].
  apply IH. by eapply step_inv.
Qed.

Lemma scheduler_invariant_witness :
  exists s', rtc (sched_step TASKS_AT) boot_sys s' /\ CURRENT_TASK s' = 0 /\
    (root_of s' 0 = Some (CR3 s') \/ states s' 0 = Some Unused /\ root_of s' 0 = Some (CR3 s')).
Proof.
  assert (E := boot_tick).
  destruct E as (r & s' & E & Hc). exists s'.
  assert (Hrun : rtc (sched_step TASKS_AT) boot_sys s') by (apply rtc_once; exact (step_tick _ _ _ _ _ E)).
  split; [exact Hrun|]. split; [exact Hc|].
  destruct (scheduler_invariant TASKS_AT boot_sys s' boot_inv Hrun) as (_ & _ & Hcr). rewrite Hc in Hcr. exact Hcr.
Defined.

(** C12: Round robin: a task that is ready and not running is passed over by
    at most as many context switches as there are slots between the current
    task and it, whatever the other tasks do meanwhile, so it runs within 256
    switches; and the tick that performs the next switch always returns. *)
Theorem ready_task_is_scheduled {A} `{FrameAllocator A} TASKS_ADDR k n (s s' : sys (A:=A)) :
  sched_inv s -> 0 <= k < MAX_TASKS -> CURRENT_TASK s <> k -> states s k = Some Ready ->
  waits TASKS_ADDR k n s s' ->
  n <= dist ((CURRENT_TASK s + 1) mod MAX_TASKS) k < 256 /\
  forall sp, exists r s1, timer_handler_rust TASKS_ADDR sp s' = Ret (r, s1).
Proof.
  intros Hinv Hk Hc Hr Hw. split.
  - split; [by eapply waits_dist|apply dist_range].
  - intros sp. assert (Hinv' : sched_inv s').
    { clear Hc Hr. induction Hw as [s|n sp' r s s1 s2 E _ _ IH|n s s1 s2 Hc E _ IH]; [done|..].
      - apply IH. by eapply inv_tick.
      - apply IH. by eapply call_inv. }
    destruct (timer_handler_spec TASKS_ADDR sp s' (proj1 Hinv')) as (r & s1 & Hs1 & _). eauto.
Qed.

(** Tasks 1 and 2 are ready and the tenth tick is due. *)
Definition two_ready : sys (A:=frame_state) :=
  mk_sys (mach boot_sys)
    (mk_task 0 Running 0x1000 (replicate 32 0) 0 0 0 :: with_state Ready UNUSED_TASK :: with_state Ready UNUSED_TASK ::
     replicate 253 UNUSED_TASK) 0 9 (mk_stats 0 0 0) 0x1000 0.

Lemma two_ready_tick :
  exists r s', timer_handler_rust TASKS_AT 7 two_ready = Ret (r, s') /\ CURRENT_TASK s' = 1 /\ TICKS s' = 10.
Proof. apply (tick_check TASKS_AT 7 two_ready (fun c t => c = 1 /\ t = 10)). vm_compute. split; reflexivity. Qed.

Lemma two_ready_inv : sched_inv two_ready.
Proof. by eapply kernel_task_inv. Qed.

Lemma ready_task_is_scheduled_witness :
  exists s', waits TASKS_AT 2 1 two_ready s' /\ 1 <= dist 1 2 < 256.
Proof.
  assert (E := two_ready_tick).
  destruct E as (r & s' & E & Hc & Ht). exists s'.
  assert (Hw : waits TASKS_AT 2 1 two_ready s').
  { change 1 with (0 + 1). replace (0 + 1) with (0 + if switch_tick (TICKS s') then 1 else 0) by (rewrite Ht; reflexivity).
    apply (waits_tick TASKS_AT 2 0 7 r two_ready s' s' E); [rewrite Hc; lia|apply waits_refl]. }
  split; [exact Hw|].
  exact (proj1 (ready_task_is_scheduled TASKS_AT 2 1 two_ready s' two_ready_inv ltac:(split; [lia|reflexivity])
    ltac:(discriminate) ltac:(reflexivity) Hw)).
Defined.

(** The wake loop of the tick and [timer::wake_sleeping] start at slot 1,
    so the kernel task 0 is never woken: once it sleeps it stays asleep, long
    after its wake time, through every tick at which some other task is ready. *)
Theorem kernel_task_never_woken {A} `{FrameAllocator A} TASKS_ADDR sp j (s : sys (A:=A)) :
  sched_wf s -> states s 0 = Some Sleeping -> 1 <= j < MAX_TASKS -> states s j = Some Ready ->
  exists r s', timer_handler_rust TASKS_ADDR sp s = Ret (r, s') /\ states s' 0 = Some Sleeping.
Proof.
  intros Hwf H0 Hj Hr. destruct (timer_handler_spec TASKS_ADDR sp s Hwf) as (r & s' & Hs' & _ & _ & _ & Hpost).
  exists r, s'. split; [done|]. set (c := u64 (TICKS s + 1)) in *.
  assert (Hw0 : woken c s 0 = lookupZ (TASKS s) 0) by done.
  assert (Hwj : state <$> woken c s j = Some Ready).
  { unfold woken, states in *. destruct (1 <=? j); [|done]. destruct (lookupZ (TASKS s) j) as [t|]; [|done].
    simpl in *. injection Hr as Hr. unfold wake_one, is_state. rewrite bool_decide_false by congruence. simpl. congruence. }
  unfold states in *. destruct (lookupZ (TASKS s) 0) as [t0|]; [|done]. injection H0 as H0.
  destruct (switch_tick c).
  2: { destruct Hpost as (_ & _ & _ & _ & Hl). rewrite Hl, Hw0. simpl. congruence. }
  destruct Hpost as (next & Hnext & _ & Hl & _). rewrite Hl.
  assert (Hd0 : state <$> demoted sp c s 0 = Some Sleeping).
  { unfold demoted. rewrite Hw0. destruct (0 =? CURRENT_TASK s); simpl; [|congruence].
    unfold demote, is_state. rewrite bool_decide_false by congruence. simpl. congruence. }
  destruct (Z.eqb_spec 0 next) as [<-|]; [|done]. exfalso.
  destruct Hnext as [(_ & Hrdy & _)|[_ Hnone]]; [congruence|]. apply (Hnone j); [lia|].
  unfold demoted. destruct (Z.eqb_spec j (CURRENT_TASK s)); [|done].
  destruct (woken c s j) as [t|]; [|done]. simpl in *. injection Hwj as Hwj.
  unfold demote, is_state. rewrite bool_decide_false by congruence. simpl. congruence.
Qed.

Lemma kernel_task_never_woken_witness :
  exists r s', timer_handler_rust TASKS_AT 7
    (with_tasks (with_state Sleeping UNUSED_TASK :: with_state Ready UNUSED_TASK :: replicate 254 UNUSED_TASK) boot_sys) =
    Ret (r, s') /\ states s' 0 = Some Sleeping.
Proof.
  apply (kernel_task_never_woken TASKS_AT 7 1).
  - split; [reflexivity|]. split; [discriminate|reflexivity].
  - reflexivity.
  - split; [discriminate|reflexivity].
  - reflexivity.
Defined.
