(* ===== verification/Process.v ===== *)
(** * Loading programs

    [process.rs] and the loader of [main.rs]: an ELF image becomes an address
    space and a task.  The loader runs in the kernel, whose tables map memory
    onto itself, so a physical address is used as a pointer; the user stack is
    written through a virtual address and goes through the tables in use. *)

From S2P Require Import Prelude Frame Mem Paging AddressSpace Usercopy Bytes Elf Task Sched.

Section process.
Context {A : Type} `{FrameAllocator A}.
Variable TASKS_ADDR : Z.
Implicit Types (s : sys (A:=A)) (m : memory).

(** ** The initial stack *)

(** Consecutive volatile stores or [copy_from_slice] through a virtual
    address. *)
Fixpoint kstore_bytes (bs : list Z) (m : memory) (cr3 va : Z) : outcome memory :=
  match bs with
  | [] => Ret m
  | b :: bs' => m ← kstore m cr3 va b; kstore_bytes bs' m cr3 (u64 (va + 1))
  end.
Definition kwrite_u64 (m : memory) (cr3 va v : Z) : outcome memory := kstore_bytes (to_le 8 v) m cr3 va.

(** One pointer and its string for each argument; the position after the
    pointers. *)
Fixpoint write_args (args : list (list Z)) (pos str_area str_offset cr3 : Z) (m : memory) : outcome (Z * memory) :=
  match args with
  | [] => Ret (pos, m)
  | arg :: args' =>
      m ← kwrite_u64 m cr3 pos (str_area + str_offset);
      m ← kstore_bytes (arg ++ [0]) m cr3 (str_area + str_offset);
      write_args args' (pos + 8) str_area (str_offset + lenZ arg + 1) cr3 m
  end.

Definition setup_user_stack (stack_page : Z) (args : list (list Z)) (cr3 : Z) (m : memory) : outcome (Z * memory) :=
  let base := stack_page in
  let header_size := 8 + (lenZ args + 1) * 8 + 8 in
  let str_area := base + header_size in
  m ← kwrite_u64 m cr3 base (lenZ args);
  x ← write_args args (base + 8) str_area 0 cr3 m;
  let '(pos, m) := x in
  m ← kwrite_u64 m cr3 pos 0;
  m ← kwrite_u64 m cr3 (pos + 8) 0;
  Ret (base, m).

(** ** Segments *)

(** The segment list of the loaders, with offsets into the file. *)
Fixpoint file_segments (idxs : list Z) (base : Z) (segs : list ElfSegment) : outcome (list segment) :=
  match idxs with
  | [] => Ret []
  | i :: idxs' =>
      seg ← index segs i;
      let file_offset := u64 (data_ptr seg - base) in
      rest ← file_segments idxs' base segs;
      Ret ((vaddr seg, file_offset, filesz seg, memsz seg, seg_flags seg) :: rest)
  end.

(** [segments.iter().find(|s| s.0 == vaddr)]. *)
Definition find_segment (vaddr : Z) (segs : list segment) : option segment :=
  List.find (fun sg : segment => let '(v, _, _, _, _) := sg in v =? vaddr) segs.

Fixpoint copy_segments (user_phys_frames : list (Z * Z * Z)) (segs : list segment) (elf_data : list Z) (m : memory)
  : outcome memory :=
  match user_phys_frames with
  | [] => Ret m
  | (vaddr, filesz, phys_addr) :: rest =>
      m ← match find_segment vaddr segs with
          | Some (_, file_offset, sfilesz, _, _) =>
              if (0 <? sfilesz) && (0 <? filesz) then
                let copy_len := Z.min filesz sfilesz in
                src ← slice elf_data file_offset (u64 (file_offset + copy_len));
                Ret (store_bytes m phys_addr src)
              else Ret m
          | None => Ret m
          end;
      copy_segments rest segs elf_data m
  end.

(** ** The loaders *)

(** [elf_data] lies at [base]. *)
Definition create_process (base : Z) (elf_data : list Z) (args : list (list Z)) (s : sys (A:=A))
  : outcome (result string Z * sys) :=
  r ← parse_elf base elf_data;
  match r with
  | Err _ => Ret (Err "ELF parse failed"%string, s)
  | Ok image =>
      if segment_count image =? 0 then Ret (Err "no loadable segments"%string, s)
      else
        segs ← file_segments (seqZ 0 (segment_count image)) base (segments image);
        x ← create_user_page_tables segs (mach s);
        let '(pt_root, user_phys_frames, m) := x in
        mem ← copy_segments user_phys_frames segs elf_data (pmem m);
        let stack_page := USER_BASE_VA + 0x100000 in
        x ← setup_user_stack stack_page args (CR3 s) mem;
        let '(user_sp, mem) := x in
        let frame_addrs := (fun f : Z * Z * Z => f.2) <$> user_phys_frames in
        spawn_userspace TASKS_ADDR (entry_point image) user_sp pt_root frame_addrs (with_mach (with_mem mem m) s)
  end.

(** [main.rs]; the image the builder allocates lies at [base]. *)
Definition spawn_userspace_task (base : Z) (code : list Z) (s : sys (A:=A)) : outcome (result string Z * sys) :=
  free ← has_free_slot s;
  if negb free then Ret (Err "out of task slots"%string, s)
  else
    let load_addr := USER_BASE_VA in
    let stack_addr := USER_BASE_VA + 0x100000 + 0x1000 in
    elf_bytes ← build_flat_elf code load_addr;
    r ← parse_elf base elf_bytes;
    match r with
    | Err _ => Ret (Err "ELF parse failed"%string, s)
    | Ok image =>
        if segment_count image =? 0 then Ret (Err "no loadable segments"%string, s)
        else
          segs ← file_segments (seqZ 0 (segment_count image)) base (segments image);
          x ← create_user_page_tables segs (mach s);
          let '(pt_root, user_phys_frames, m) := x in
          mem ← copy_segments user_phys_frames segs elf_bytes (pmem m);
          let frame_addrs := (fun f : Z * Z * Z => f.2) <$> user_phys_frames in
          spawn_userspace TASKS_ADDR (entry_point image) stack_addr pt_root frame_addrs (with_mach (with_mem mem m) s)
    end.

(** [list_processes]: the lines it prints, as (pid, uid, state). *)
Fixpoint list_processes (idxs : list Z) (s : sys (A:=A)) : outcome (list (Z * Z * TaskState)) :=
  match idxs with
  | [] => Ret []
  | i :: idxs' =>
      st ← get_task_state i s;
      if is_state st Unused then list_processes idxs' s
      else
        uid ← get_task_uid i s;
        rest ← list_processes idxs' s;
        Ret ((i, uid, st) :: rest)
  end.
End process.
