(* ===== verification/Lifecycle.v ===== *)
(** * The life of a user task

    From a program to a task and back: the loader puts the program's bytes
    where the task's page tables lead, the prepared kernel stack returns to
    its entry point in user mode, and its exit gives back what it took. *)

From S2P Require Import Prelude Frame FdTable Mem Paging AddressSpace KernelMap Usercopy Bytes Elf Task Sched Process.

(** ** The prepared stack *)

Lemma push_all_spec vs sp m :
  8 * lenZ vs <= sp < two64 ->
  exists m', push_all vs sp m = (sp - 8 * lenZ vs, m') /\
    (forall x, ~ (sp - 8 * lenZ vs <= x < sp) -> load8 m' x = load8 m x) /\
    forall j v, vs !! j = Some v -> 0 <= v < two64 -> read_u64 m' (sp - 8 * (Z.of_nat j + 1)) = v.
Proof.
  revert sp m. induction vs as [|v vs IH]; intros sp m Hsp; cbn [push_all].
  { exists m. change (lenZ (@nil Z)) with 0. split; [f_equal; lia|]. split; [done|]. by intros j v' E. }
  rewrite lenZ_cons in *. pose proof (lenZ_nonneg vs). rewrite u64_small by lia.
  destruct (IH (sp - 8) (write_u64 m (sp - 8) v)) as (m' & -> & Hout & Hin); [lia|].
  exists m'. split; [f_equal; lia|]. split.
  - intros x Hx. rewrite Hout by lia. apply load8_write_u64_out. lia.
  - intros [|j] w; simpl.
    + intros [= ->] Hw. replace (sp - 8 * (0 + 1)) with (sp - 8) by lia.
      rewrite (read_u64_ext m' (write_u64 m (sp - 8) w)); [by apply read_write_u64_eq|].
      intros x Hx. apply Hout. lia.
    + intros Hw Hr. rewrite <- (Hin j w Hw Hr). f_equal. lia.
Qed.

Lemma zero_words_at_spec n sp m :
  (forall x, ~ (sp <= x < sp + 8 * Z.of_nat n) -> load8 (zero_words_at n sp m) x = load8 m x) /\
  forall j, 0 <= j < Z.of_nat n -> read_u64 (zero_words_at n sp m) (sp + 8 * j) = 0.
Proof.
  revert sp m. induction n as [|n IH]; intros sp m; cbn [zero_words_at]; [split; [done|lia]|].
  destruct (IH (sp + 8) (write_u64 m sp 0)) as [Hout Hin]. split.
  - intros x Hx. rewrite Hout by lia. apply load8_write_u64_out. lia.
  - intros j Hj. destruct (decide (j = 0)) as [->|].
    + replace (sp + 8 * 0) with sp by lia. rewrite (read_u64_ext _ (write_u64 m sp 0)); [by apply read_write_u64_eq|].
      intros x Hx. apply Hout. lia.
    + replace (sp + 8 * j) with (sp + 8 + 8 * (j - 1)) by lia. apply Hin. lia.
Qed.

(** What the return from interrupt finds above the saved registers. *)
Definition iret_frame (m : memory) (sp rip cs rsp ss : Z) : Prop :=
  (forall j, 0 <= j < 47 -> read_u64 m (sp + 8 * j) = 0) /\
  read_u64 m (sp + 376) = rip /\ read_u64 m (sp + 384) = cs /\ read_u64 m (sp + 392) = 0x202 /\
  read_u64 m (sp + 400) = rsp /\ read_u64 m (sp + 408) = ss.

Lemma build_frame_spec ss rsp cs rip top m :
  416 <= top < two64 -> 0 <= ss < two64 -> 0 <= rsp < two64 -> 0 <= cs < two64 -> 0 <= rip < two64 ->
  exists m', build_frame ss rsp cs rip top m = (top - 416, m') /\ iret_frame m' (top - 416) rip cs rsp ss /\
    forall x, ~ (top - 416 <= x < top) -> load8 m' x = load8 m x.
Proof.
  intros Htop Hss Hrsp Hcs Hrip. unfold build_frame.
  destruct (push_all_spec [ss; rsp; 0x202; cs; rip] top m) as (m1 & -> & Ho1 & Hi1); [unfold lenZ; simpl; lia|].
  change (8 * lenZ [ss; rsp; 0x202; cs; rip]) with 40 in *.
  destruct (push_all_spec (replicate 15 0) (top - 40) m1) as (m2 & -> & Ho2 & Hi2); [unfold lenZ; simpl; lia|].
  change (8 * lenZ (replicate 15 0)) with 120 in *. rewrite u64_small by lia.
  destruct (zero_words_at_spec 32 (top - 40 - 120 - 256) m2) as [Ho3 Hi3]. set (m3 := zero_words_at _ _ _) in *.
  exists m3. split; [f_equal; lia|].
  assert (Hr2 : forall a, top - 160 <= a -> read_u64 m3 a = read_u64 m2 a)
    by (intros a Ha; apply read_u64_ext; intros x Hx; apply Ho3; lia).
  assert (Hr1 : forall a, top - 40 <= a -> read_u64 m3 a = read_u64 m1 a)
    by (intros a Ha; rewrite Hr2 by lia; apply read_u64_ext; intros x Hx; apply Ho2; lia).
  split; [split; [|split_and!]|].
  - intros j Hj. destruct (decide (j < 32)).
    + replace (top - 416 + 8 * j) with (top - 40 - 120 - 256 + 8 * j) by lia. apply Hi3. lia.
    + rewrite Hr2 by lia. replace (top - 416 + 8 * j) with (top - 40 - 8 * (Z.of_nat (Z.to_nat (46 - j)) + 1)) by lia.
      apply Hi2; [apply lookup_replicate; lia|lia].
  - rewrite Hr1 by lia. replace (top - 416 + 376) with (top - 8 * (Z.of_nat 4 + 1)) by lia. by apply Hi1.
  - rewrite Hr1 by lia. replace (top - 416 + 384) with (top - 8 * (Z.of_nat 3 + 1)) by lia. by apply Hi1.
  - rewrite Hr1 by lia. replace (top - 416 + 392) with (top - 8 * (Z.of_nat 2 + 1)) by lia. by apply Hi1.
  - rewrite Hr1 by lia. replace (top - 416 + 400) with (top - 8 * (Z.of_nat 1 + 1)) by lia. by apply Hi1.
  - rewrite Hr1 by lia. replace (top - 416 + 408) with (top - 8 * (Z.of_nat 0 + 1)) by lia. by apply Hi1.
  - intros x Hx. rewrite Ho3 by lia. rewrite Ho2 by lia. apply Ho1. lia.
Qed.
#[local] Opaque build_frame.

(** ** The slot *)

Lemma record_frames_spec fs j dst :
  0 <= j -> j + lenZ fs <= lenZ dst -> record_frames fs j dst = Ret (write_at dst j fs).
Proof.
  revert j dst. induction fs as [|f fs IH]; intros j dst Hj Hl; cbn [record_frames].
  { by rewrite write_at_nil. }
  rewrite lenZ_cons in *. pose proof (lenZ_nonneg fs). rewrite assign_lt, bind_Ret by lia.
  rewrite IH by (rewrite ?lenZ_insertZ; lia). by rewrite write_at_cons by lia.
Qed.

Section life.
Context {A : Type} `{FrameAllocator A}.
Variable TASKS_ADDR : Z.
Implicit Types (s : sys (A:=A)) (m : memory).

Lemma find_unused_spec idxs s :
  sched_wf s -> Forall (fun i => 0 <= i < MAX_TASKS) idxs ->
  (exists i t, find_unused idxs s = Ret (Some i) /\ i ∈ idxs /\ lookupZ (TASKS s) i = Some t /\ state t = Unused) \/
  find_unused idxs s = Ret None /\ forall i, i ∈ idxs -> states s i <> Some Unused.
Proof.
  intros Hwf Hr. induction Hr as [|k idxs Hk _ IH]; cbn [find_unused].
  { right. split; [done|]. by intros i Hi%elem_of_nil. }
  destruct (get_task_Ret k s Hwf Hk) as (t & -> & Ht). rewrite bind_Ret. unfold is_state.
  case_bool_decide as Hst.
  - left. exists k, t. split; [done|]. split; [by left|]. by split.
  - destruct IH as [(i & t' & -> & Hi & Ht')|[-> Hn]]; [left; exists i, t'; split; [done|]; split; [by right|done]|].
    right. split; [done|]. intros i [->|Hi]%elem_of_cons; [|by apply Hn]. unfold states. rewrite Ht. simpl. congruence.
Qed.

Lemma slots_range : Forall (fun i => 0 <= i < MAX_TASKS) slots.
Proof. apply Forall_forall. intros i Hi%elem_of_seqZ. unfold MAX_TASKS in *. lia. Qed.

(** The task table lies below the top of memory. *)
Definition tasks_at : Prop := 0 <= TASKS_ADDR /\ TASKS_ADDR + MAX_TASKS * TASK_SIZE < two63.
Definition in_tasks (x : Z) : Prop := TASKS_ADDR <= x < TASKS_ADDR + MAX_TASKS * TASK_SIZE.

Lemma stack_top_in i x :
  tasks_at -> 0 <= i < MAX_TASKS -> stack_top TASKS_ADDR i - 416 <= x < stack_top TASKS_ADDR i -> in_tasks x.
Proof. unfold in_tasks, stack_top, tasks_at, MAX_TASKS, TASK_SIZE, STACK_OFFSET, STACK_SIZE. nia. Qed.
Lemma stack_top_range i : tasks_at -> 0 <= i < MAX_TASKS -> 416 <= stack_top TASKS_ADDR i < two64.
Proof. unfold stack_top, tasks_at, MAX_TASKS, TASK_SIZE, STACK_OFFSET, STACK_SIZE. nia. Qed.

(** The task [spawn_userspace] leaves in slot [i]. *)
Definition spawned (i root : Z) (fs : list Z) (t : Task) : Task :=
  let count := Z.min (lenZ fs) MAX_USER_FRAMES in
  with_frames (write_at (user_data_frames t) 0 (take (Z.to_nat count) fs)) count
    (with_state Ready (with_sp (stack_top TASKS_ADDR i - 416) (with_root root t))).

Lemma spawn_userspace_spec entry user_sp root fs i t s :
  tasks_at -> sched_wf s -> 0 <= entry < two64 -> 0 <= user_sp < two64 ->
  find_unused slots s = Ret (Some i) -> lookupZ (TASKS s) i = Some t -> lenZ (user_data_frames t) = MAX_USER_FRAMES ->
  exists s', spawn_userspace TASKS_ADDR entry user_sp root fs s = Ret (Ok i, s') /\
    slot_changed i (spawned i root fs t) s s' /\
    frames (mach s') = frames (mach s) /\ KERNEL_PML4_PA (mach s') = KERNEL_PML4_PA (mach s) /\
    (forall x, ~ in_tasks x -> load8 (pmem (mach s')) x = load8 (pmem (mach s)) x) /\
    iret_frame (pmem (mach s')) (stack_top TASKS_ADDR i - 416) entry 0x1B user_sp 0x23.
Proof.
  intros Hat Hwf He Hu Hf Ht Hlen. pose proof (lookupZ_Some_lt _ _ _ Ht) as Hi.
  assert (Hi' : 0 <= i < MAX_TASKS) by (destruct Hwf; lia).
  unfold spawn_userspace. rewrite Hf, bind_Ret, (upd_task_Ret _ _ _ _ Ht), bind_Ret. unfold build_userspace_frame.
  destruct (build_frame_spec 0x23 user_sp 0x1B entry (stack_top TASKS_ADDR i) (pmem (mach s)))
    as (m & Hm & Hir & Hout); [by apply stack_top_range|lia..|].
  simpl mach. rewrite Hm.
  do 2 (erewrite upd_task_Ret, bind_Ret by (simpl; apply lookupZ_insertZ_eq; rewrite ?lenZ_insertZ; lia)).
  erewrite get_task_Some, bind_Ret by (simpl; apply lookupZ_insertZ_eq; rewrite ?lenZ_insertZ; lia).
  simpl user_data_frames. rewrite record_frames_spec, bind_Ret.
  2: lia.
  2: { pose proof (lenZ_nonneg fs). unfold lenZ, MAX_USER_FRAMES in *. rewrite length_take. lia. }
  erewrite upd_task_Ret, bind_Ret by (simpl; apply lookupZ_insertZ_eq; rewrite ?lenZ_insertZ; lia).
  eexists. split; [done|]. split; [split; [|done]|].
  { simpl. rewrite !insertZ_insertZ. done. }
  split; [done|]. split; [done|]. split; [|done]. intros x Hx. simpl. apply Hout. intros Hx'. by apply Hx, (stack_top_in i).
Qed.

(** ** The program in memory *)

(** The bytes the loader has for page [v]. *)
Definition page_data (segs : list segment) (d : list Z) (v : Z) : list Z :=
  match find_segment (pg v) segs with
  | Some (_, off, fsz, _, _) => take (Z.to_nat (Z.min 4096 fsz)) (drop (Z.to_nat off) d)
  | None => []
  end.
(** The file holds what a segment names. *)
Definition in_file (d : list Z) (sg : segment) : Prop :=
  let '(_, off, fsz, _, _) := sg in 0 <= off /\ 0 <= fsz /\ off + fsz <= lenZ d.
Definition in_page (q : user_page) (x : Z) : Prop := pg (up_frame q) <= x < pg (up_frame q) + 4096.

Lemma page_data_len segs d v : lenZ (page_data segs d v) <= 4096.
Proof.
  unfold page_data. destruct (find_segment _ _) as [[[[[? ?] ?] ?] ?]|]; unfold lenZ; simpl; [|lia]. rewrite length_take. lia.
Qed.

Lemma copy_segments_step q rest segs d m :
  lenZ d < two63 -> Forall (in_file d) segs ->
  copy_segments (phys_frame q :: rest) segs d m =
    copy_segments rest segs d (store_bytes m (pg (up_frame q)) (page_data segs d (up_vpn q))).
Proof.
  intros Hd Hs. cbn [copy_segments phys_frame]. unfold page_data.
  destruct (find_segment (pg (up_vpn q)) segs) as [[[[[v off] fsz] msz] fl]|] eqn:E; [|done].
  apply List.find_some in E as [Hin%list_elem_of_In _]. rewrite Forall_forall in Hs.
  destruct (Hs _ Hin) as (H1 & H2 & H3). destruct (Z.ltb_spec 0 fsz); simpl.
  - rewrite u64_small, slice_Ret, !bind_Ret by lia. do 5 f_equal; lia.
  - replace (Z.to_nat (Z.min 4096 fsz)) with 0%nat by lia. done.
Qed.

Lemma copy_segments_spec (l : list user_page) segs d m :
  lenZ d < two63 -> Forall (in_file d) segs -> NoDup (up_frame <$> l) ->
  exists m', copy_segments (phys_frame <$> l) segs d m = Ret m' /\
    (forall x, (forall q, q ∈ l -> ~ in_page q x) -> load8 m' x = load8 m x) /\
    forall q j, q ∈ l -> 0 <= j < 4096 -> load8 m' (pg (up_frame q) + j) =
      match lookupZ (page_data segs d (up_vpn q)) j with Some b => u8 b | None => load8 m (pg (up_frame q) + j) end.
Proof.
  intros Hd Hs. revert m. induction l as [|q l IH]; intros m Hnd.
  { exists m. split; [done|]. split; [done|]. by intros q j Hq%elem_of_nil. }
  rewrite fmap_cons in *. apply NoDup_cons in Hnd as [Hq Hnd]. rewrite (copy_segments_step q) by done.
  set (m1 := store_bytes _ _ _). destruct (IH m1 Hnd) as (m' & -> & Hout & Hin). exists m'. split; [done|].
  pose proof (page_data_len segs d (up_vpn q)) as Hlen.
  assert (Hm1 : forall x, ~ in_page q x -> load8 m1 x = load8 m x).
  { intros x Hx. unfold m1, in_page in *. rewrite load8_store_bytes. zcases; try done; lia. }
  assert (Hne : forall q' j, q' ∈ l -> 0 <= j < 4096 -> ~ in_page q (pg (up_frame q') + j) /\ ~ in_page q' (pg (up_frame q) + j)).
  { intros q' j Hq' Hj. assert (up_frame q' <> up_frame q).
    { intros E. apply Hq. rewrite <- E. apply list_elem_of_fmap. eauto. }
    unfold in_page, pg. lia. }
  split.
  - intros x Hx. rewrite Hout; [apply Hm1, Hx; by left|]. intros q' Hq'. apply Hx. by right.
  - intros q' j [->|Hq']%elem_of_cons Hj.
    + rewrite Hout by (intros q' Hq'; by apply Hne). unfold m1. rewrite load8_store_bytes.
      replace (pg (up_frame q) + j - pg (up_frame q)) with j by lia.
      destruct (lookupZ (page_data segs d (up_vpn q)) j) as [b|] eqn:E.
      * apply lookupZ_Some_lt in E. zcases; done || lia.
      * assert (~ j < lenZ (page_data segs d (up_vpn q))).
        { intros Hlt. destruct (lookupZ_lt (page_data segs d (up_vpn q)) j) as [b Hb]; [lia|congruence]. }
        zcases; done || lia.
    + rewrite Hin by done. destruct (lookupZ _ j); [done|]. by apply Hm1, Hne.
Qed.
Lemma install_other l um v : v ∉ up_vpn <$> l -> install l um !! v = um !! v.
Proof.
  revert um. induction l as [|q l IH]; intros um Hv; cbn [install]; [done|].
  rewrite fmap_cons, not_elem_of_cons in Hv. destruct Hv. rewrite IH by done. by rewrite lookup_insert_ne.
Qed.
Lemma install_lookup l um q :
  NoDup (up_vpn <$> l) -> q ∈ l -> install l um !! up_vpn q = Some (up_frame q, up_w q, up_x q).
Proof.
  revert um. induction l as [|p l IH]; intros um Hnd Hq; cbn [install]; [by apply elem_of_nil in Hq|].
  rewrite fmap_cons in Hnd. apply NoDup_cons in Hnd as [Hp Hnd]. apply elem_of_cons in Hq as [->|Hq]; [|by apply IH].
  rewrite install_other by done. apply lookup_insert_eq.
Qed.

(** A task's tables and pages, in the frames [X], beside the kernel's tables.
    Page tables the kernel has above 2 GiB are the task's too; an exit frees
    them, so that they need not be in use. *)
Record placed (K : kernel_tables) (X : gset Z) (l : list user_page) (t : tables) (u : Z) (ms : machine (A:=A)) : Prop := {
  pl_root : t KPml4 = Some u;
  pl_nodup : NoDup (up_frame <$> l);
  pl_view : view (pmem ms) t (install l ∅);
  pl_kview : kernel_view (pmem ms) K;
  pl_kroot : KERNEL_PML4_PA ms = pg (k_pml4 K);
  pl_inv : fa_inv (frames ms);
  pl_copies : copies K t;
  pl_X : holds X l t;
  pl_apart : forall k f, own t k = Some f -> f ∉ up_frame <$> l;
  pl_held : forall f, f ∈ X -> (f ∉ fa_free (frames ms)) /\ (f ∉ k_frames K) /\ 0 <= f < fa_limit (frames ms);
  pl_kernel : forall f, f ∈ k_frames K -> (f ∉ fa_free (frames ms) \/ f ∈ k_shared K) /\ 0 <= f < fa_limit (frames ms);
}.

Lemma placed_table K X l t u ms k f : placed K X l t u ms -> t k = Some f -> f ∈ X \/ f ∈ k_shared K.
Proof.
  intros Hp Hk. destruct k as [| |j|r|r] eqn:E; [left; apply (pl_X _ _ _ _ _ _ Hp); right; by exists k; rewrite E..|].
  right. apply elem_of_k_shared. exists r. by rewrite <- (proj2 (pl_copies _ _ _ _ _ _ Hp)).
Qed.
Lemma placed_data K X l t u ms f : placed K X l t u ms -> f ∈ up_frame <$> l -> f ∈ X.
Proof. intros Hp Hf. apply (pl_X _ _ _ _ _ _ Hp). by left. Qed.
Lemma placed_table_frame K X l t u ms f :
  placed K X l t u ms -> f ∈ k_frames K \/ (exists k, t k = Some f) -> (f ∈ X \/ f ∈ k_frames K) /\ f ∉ up_frame <$> l.
Proof.
  intros Hp Hf. assert (Hkn : f ∈ k_frames K -> f ∉ up_frame <$> l).
  { intros Hk Hin. by destruct (pl_held _ _ _ _ _ _ Hp f (placed_data _ _ _ _ _ _ f Hp Hin)) as (_ & ? & _). }
  destruct Hf as [Hf|[k Hf]]; [by auto|]. destruct (placed_table _ _ _ _ _ _ _ _ Hp Hf) as [HX|Hs%k_shared_frames]; [|by auto].
  split; [by left|]. destruct k as [| |j|r|r] eqn:E; [by apply (pl_apart _ _ _ _ _ _ Hp k); rewrite E..|]. exfalso.
  destruct (pl_held _ _ _ _ _ _ Hp f HX) as (_ & Hn & _). apply Hn, k_shared_frames, elem_of_k_shared. exists r.
  by rewrite <- (proj2 (pl_copies _ _ _ _ _ _ Hp)).
Qed.

(** Memory outside the tables may change, and frames of others may come and go. *)
Lemma placed_mem K X l t u ms ms' :
  placed K X l t u ms -> fa_inv (frames ms') -> fa_limit (frames ms') = fa_limit (frames ms) ->
  KERNEL_PML4_PA ms' = KERNEL_PML4_PA ms -> (forall f, f ∈ X \/ f ∈ k_main K -> f ∉ fa_free (frames ms')) ->
  (forall f x, f ∈ k_frames K \/ (exists k, t k = Some f) -> pg f <= x < pg f + 4096 ->
     load8 (pmem ms') x = load8 (pmem ms) x) ->
  placed K X l t u ms'.
Proof.
  intros [? ? ? ? ? ? ? ? ? Hheld Hker] Hi Hl Hr Hf Hm. split; rewrite ?Hl, ?Hr; try done.
  - apply (view_ext (pmem ms)); eauto.
  - apply (kernel_view_ext (pmem ms)); eauto.
  - intros f HfX. destruct (Hheld f HfX) as (_ & ? & ?). eauto.
  - intros f HfK. destruct (Hker f HfK) as (_ & ?). split; [|done].
    apply elem_of_union in HfK as [Hm'|Hs]; [left; eauto|by right].
Qed.
Lemma placed_same K X l t u ms ms' :
  placed K X l t u ms -> frames ms' = frames ms -> KERNEL_PML4_PA ms' = KERNEL_PML4_PA ms ->
  (forall f x, f ∈ k_frames K \/ (exists k, t k = Some f) -> pg f <= x < pg f + 4096 ->
     load8 (pmem ms') x = load8 (pmem ms) x) ->
  placed K X l t u ms'.
Proof. intros [? ? ? ? ? ? ? ? ? ? ?] Hf Hr Hm. split; rewrite ?Hf, ?Hr; try done; [apply (view_ext (pmem ms))|apply (kernel_view_ext (pmem ms))]; eauto. Qed.

Lemma pages_disjoint f g x : pg f <= x < pg f + 4096 -> pg g <= x < pg g + 4096 -> f = g.
Proof. unfold pg. lia. Qed.

(** The address space of a program, with its bytes. *)
Lemma load_spec K segs d (ms : machine (A:=A)) :
  kernel_ready K ms -> Forall segment_ok segs ->
  space_cost K + 2 * layout_size segs <= Z.of_nat (size (fa_free (frames ms))) ->
  lenZ d < two63 -> Forall (in_file d) segs ->
  exists u l t ms1 m2 X, create_user_page_tables segs ms = Ret (pg u, phys_frame <$> l, ms1) /\
    rights <$> l = layout segs /\ copy_segments (phys_frame <$> l) segs d (pmem ms1) = Ret m2 /\
    placed K X l t u (with_mem m2 ms1) /\ kernel_ready K (with_mem m2 ms1) /\ X ⊆ fa_free (frames ms) /\
    fa_free (frames ms1) = fa_free (frames ms) ∖ X /\
    (NoDup (up_vpn <$> l) -> forall q j, q ∈ l -> 0 <= j < 4096 ->
       load8 m2 (pg (up_frame q) + j) = default 0 (u8 <$> lookupZ (page_data segs d (up_vpn q)) j)) /\
    (forall x, (forall f, f ∈ fa_free (frames ms) -> ~ (pg f <= x < pg f + 4096)) -> load8 m2 x = load8 (pmem ms) x) /\
    Z.of_nat (size (fa_free (frames ms))) - (space_cost K + 2 * layout_size segs) <= Z.of_nat (size (fa_free (frames ms1))) /\
    fa_limit (frames ms1) = fa_limit (frames ms).
Proof.
  intros Hready Hok Hsz Hd Hin. destruct (create_ready K segs ms Hready Hok Hsz) as (u & l & ms1 & t & Hms1 & Hl & Hu & Hnd & Hb).
  destruct (copy_segments_spec l segs d (pmem ms1) Hd Hin Hnd) as (m2 & Hm2 & Hout & Hpage).
  destruct (building_taken K _ _ _ l _ _ _ ms1 Hb ltac:(apply Hready)) as (X & HX & HXF & Hfree & Hready1).
  pose proof (create_elsewhere K segs ms _ _ _ Hready Hok Hsz Hms1) as (Hels & Hcnt & HL).
  pose proof Hready as (_ & _ & _ & HK). pose proof Hready1 as (Hinv1 & Hk1 & Hr1 & HK1).
  assert (HfrX : forall f, f ∈ up_frame <$> l -> f ∈ X) by (intros f Hf; apply HX; by left).
  assert (Hpl1 : placed K X l t u ms1).
  { split; try done; try apply Hb.
    - intros k f Hk Hf. destruct (b_t _ _ _ _ _ _ _ _ _ _ Hb k f Hk) as (_ & Hn & _). by apply Hn, elem_of_list_to_set.
    - intros f Hf. rewrite Hfree. split; [set_solver|]. split; [intros HfK; destruct (HK f HfK); set_solver|]. rewrite HL.
      apply HXF, fa_free_range in Hf; [done|apply Hready].
    - intros f Hf. destruct (HK1 f Hf). auto. }
  assert (Hsame : forall f x, f ∈ k_frames K \/ (exists k, t k = Some f) -> pg f <= x < pg f + 4096 -> load8 m2 x = load8 (pmem ms1) x).
  { intros f x Hf Hx. apply Hout. intros q Hq Hqx. pose proof (pages_disjoint _ _ _ Hx Hqx) as E.
    destruct (placed_table_frame _ _ _ _ _ _ f Hpl1 Hf) as [_ Hn]. apply Hn. rewrite E. apply list_elem_of_fmap. eauto. }
  exists u, l, t, ms1, m2, X. split; [done|]. split; [done|]. split; [done|].
  split; [by apply (placed_same K X l t u ms1)|].
  split; [split; [done|split; [|done]]; apply (kernel_view_ext (pmem ms1)); by eauto|]. split; [done|]. split; [done|]. split; [|split; [|done]].
  - intros Hnv q j Hq Hj. rewrite Hpage by done. destruct (lookupZ _ j); [done|]. simpl.
    apply (b_zero _ _ _ _ _ _ _ _ _ _ Hb (up_vpn q) (up_frame q) (up_w q) (up_x q)); [by apply install_lookup|lia].
  - intros x Hx. rewrite Hout; [by apply Hels|]. intros q Hq. apply Hx, HXF, HfrX, list_elem_of_fmap. eauto.
Qed.

(** ** Giving the frames back *)

Lemma free_data_frames_spec fs a arr (ms : machine (A:=A)) :
  fa_inv (frames ms) -> Forall (fun f => frame_ok f /\ 0 <= f < fa_limit (frames ms) /\ f <> 0) fs ->
  (forall j f, fs !! j = Some f -> lookupZ arr (a + Z.of_nat j) = Some (pg f)) ->
  exists ms', free_data_frames (seqZ a (lenZ fs)) arr ms = Ret ms' /\ pmem ms' = pmem ms /\
    KERNEL_PML4_PA ms' = KERNEL_PML4_PA ms /\ fa_inv (frames ms') /\ fa_limit (frames ms') = fa_limit (frames ms) /\
    fa_free (frames ms') = fa_free (frames ms) ∪ list_to_set fs.
Proof.
  revert a ms. induction fs as [|f fs IH]; intros a ms Hinv Hok Harr.
  { exists ms. do 5 (split; [done|]). by rewrite list_to_set_nil, union_empty_r_L. }
  apply Forall_cons in Hok as [(Hfok & HfL & Hf0) Hok].
  rewrite lenZ_cons. pose proof (lenZ_nonneg fs). rewrite (seqZ_cons a) by lia. cbn [free_data_frames].
  replace (Z.pred (lenZ fs + 1)) with (lenZ fs) by lia. replace (Z.pred (1 + lenZ fs)) with (lenZ fs) by lia.
  assert (Ha : lookupZ arr a = Some (pg f)) by (rewrite <- (Harr 0%nat f eq_refl); f_equal; lia).
  unfold index. rewrite Ha, bind_Ret.
  destruct (Z.eqb_spec (pg f) 0) as [E|_]; [unfold pg in E; lia|].
  destruct (dealloc_pa_free f ms Hinv Hfok HfL) as (ms1 & -> & Hm1 & Hr1 & Hi1 & HL1 & Hf1). rewrite bind_Ret.
  destruct (IH (Z.succ a) ms1 Hi1) as (ms' & -> & Hm' & Hr' & Hi' & HL' & Hf').
  - by rewrite HL1.
  - intros j g Hj. rewrite <- (Harr (S j) g Hj). f_equal. lia.
  - exists ms'. split; [done|]. split; [congruence|]. split; [congruence|]. split; [done|]. split; [congruence|].
    rewrite Hf', Hf1, list_to_set_cons. by rewrite union_assoc_L.
Qed.

(** The frames a task gives back on exit are all but those past the 32 it
    could record; the kernel's page tables above 2 GiB go with them. *)
Lemma exit_spec K X l t u i ti t0 s :
  placed K X l t u (mach s) -> 0 ∉ X ->
  CURRENT_TASK s = i -> i <> 0 -> lookupZ (TASKS s) i = Some ti -> lookupZ (TASKS s) 0 = Some t0 ->
  page_table_root t0 = pg (k_pml4 K) -> page_table_root ti = pg u ->
  user_data_frame_count ti = lenZ (take 32 (up_frame <$> l)) ->
  (forall j f, take 32 (up_frame <$> l) !! j = Some f -> lookupZ (user_data_frames ti) (Z.of_nat j) = Some (pg f)) ->
  exists s', exit_current_task s = Ret (None, s') /\ TASKS s' = insertZ i (with_state Unused ti) (TASKS s) /\
    CR3 s' = pg (k_pml4 K) /\ KERNEL_PML4_PA (mach s') = pg (k_pml4 K) /\ fa_inv (frames (mach s')) /\ pmem (mach s') = pmem (mach s) /\
    fa_limit (frames (mach s')) = fa_limit (frames (mach s)) /\ CURRENT_TASK s' = CURRENT_TASK s /\
    fa_free (frames (mach s')) = fa_free (frames (mach s)) ∪ X ∖ list_to_set (drop 32 (up_frame <$> l)) ∪ k_shared K.
Proof.
  intros Hpl HX0 Hcur Hi Hti Ht0 Hr0 Hru Hcnt Harr. unfold exit_current_task. rewrite Hcur.
  destruct (Z.eqb_spec i 0); [done|]. rewrite (get_task_Some _ _ _ Hti), bind_Ret.
  pose proof Hpl as [Hu Hnd Hv Hk Hkr Hinv Hcop HX Hap Hheld Hker].
  set (fs := up_frame <$> l) in *. set (L := fa_limit (frames (mach s))) in *.
  assert (HL : L <= MAX_FRAME_COUNT) by (by apply fa_limit_range).
  rewrite Hcnt. destruct (free_data_frames_spec (take 32 fs) 0 (user_data_frames ti) (mach s) Hinv)
    as (ms1 & -> & Hm1 & Hr1 & Hi1 & HL1 & Hf1).
  { apply Forall_forall. intros f Hf. assert (Hfin : f ∈ fs) by (rewrite <- (take_drop 32 fs); apply elem_of_app; by left).
    assert (HfX : f ∈ X) by (apply HX; by left). destruct (Hheld f HfX) as (_ & _ & HfL). fold L in HfL.
    split; [unfold frame_ok; lia|]. split; [done|]. by intros ->. }
  { done. }
  rewrite bind_Ret, (get_task_Some _ _ _ Ht0), bind_Ret, Hr0, Hru.
  assert (HuX : u ∈ X) by (apply HX; right; by exists KPml4).
  assert (Hu0 : u <> 0) by (by intros ->). assert (Huk : u <> k_pml4 K).
  { intros ->. destruct (Hheld _ HuX) as (_ & Hn & _). by apply Hn, (k_table_frame K KPml4). }
  destruct (Z.eqb_spec (pg u) (pg (k_pml4 K))); [unfold pg in *; lia|]. destruct (Z.eqb_spec (pg u) 0); [unfold pg in *; lia|].
  cbn [negb andb].
  destruct (free_user_page_tables_spec K L (fa_free (frames ms1)) t (install l ∅) (pmem (mach s)) Hv Hk)
    with (u := u) (s := ms1) as (ms2 & -> & Hm2 & Hr2 & Hi2 & HL2 & Hf2); try done.
  { intros k f Hf. destruct (placed_table _ _ _ _ _ _ _ _ Hpl Hf) as [Hf'|Hf'%k_shared_frames];
      [by destruct (Hheld f Hf') as (_ & _ & ?)|by destruct (Hker f Hf')]. }
  { congruence. }
  rewrite bind_Ret, (upd_task_Ret _ _ (with_mach ms2 s) ti Hti), bind_Ret. eexists. split; [done|]. split; [done|]. split; [done|].
  simpl mach. split; [done|]. split; [done|]. split; [done|]. split; [by rewrite HL2|]. split; [done|].
  apply leibniz_equiv. intros g. rewrite Hf2, Hf1, !elem_of_union, elem_of_difference, !elem_of_list_to_set, (HX g).
  rewrite <- (take_drop 32 fs) in Hnd. apply NoDup_app in Hnd as (_ & Hdis & _).
  assert (Hin : forall g, g ∈ fs <-> g ∈ take 32 fs \/ g ∈ drop 32 fs) by (intros g'; rewrite <- (take_drop 32 fs) at 1; by rewrite elem_of_app).
  split.
  - intros [[Hg|Hg]|[k Hg]]; [by auto|left; right|].
    + split; [left; apply Hin; by left|by apply Hdis].
    + destruct k as [| |j|r|r] eqn:E;
        [left; right; (split; [right; by exists k; rewrite E|]); intros Hd; apply (Hap k g); [by rewrite E|apply Hin; by right]..|].
      right. apply elem_of_k_shared. exists r. by rewrite <- (proj2 Hcop).
  - intros [[Hg|[[Hg|[k Hg]] Hn]]|[r Hg]%elem_of_k_shared]; [by auto|apply Hin in Hg; tauto|right; exists k; by apply own_Some|].
    right. exists (KShared r). by rewrite (proj2 Hcop).
Qed.

(** ** From a program to a task *)

Definition flat_segments (code : list Z) : list segment := [(0x400000, 120, lenZ code, lenZ code, 7)].
Definition code_pages (code : list Z) : Z := (lenZ code + 4095) / 4096.

(** What the loader needs: the kernel's tables, a free slot, frames for the
    pages and their tables, and a task table apart from the frames. *)
Record loader_ready (K : kernel_tables) (code : list Z) (s : sys (A:=A)) : Prop := {
  lr_tables : kernel_ready K (mach s);
  lr_wf : sched_wf s;
  lr_slots : Forall (fun t => lenZ (user_data_frames t) = MAX_USER_FRAMES) (TASKS s);
  lr_slot : exists j, 1 <= j < MAX_TASKS /\ states s j = Some Unused;
  lr_code : 0x400000 + lenZ code <= STACK_VADDR;
  lr_frames : space_cost K + 2 * code_pages code <= Z.of_nat (size (fa_free (frames (mach s))));
  lr_at : tasks_at;
  lr_apart : forall f x, f ∈ k_frames K \/ f ∈ fa_free (frames (mach s)) -> pg f <= x < pg f + 4096 -> ~ in_tasks x;
}.

Lemma flat_layout code :
  (fun r => r.1.1) <$> layout (flat_segments code) = seqZ 1024 (code_pages code) ++ [1280].
Proof.
  unfold layout, flat_segments, code_pages. cbn [fmap list_fmap concat segment_layout]. rewrite app_nil_r.
  pose proof (lenZ_nonneg code). destruct (Z.eqb_spec (lenZ code) 0) as [->|].
  { reflexivity. }
  rewrite fmap_app, <- list_fmap_compose. unfold segment_pages.
  replace ((0x400000 + lenZ code + 4095) / 4096 - 0x400000 / 4096) with ((lenZ code + 4095) / 4096) by dlia.
  change (0x400000 / 4096) with 1024. change (STACK_VADDR / 4096) with 1280. cbn [fmap list_fmap].
  f_equal. apply (list_fmap_id (seqZ 1024 _)).
Qed.

Lemma flat_layout_size code : layout_size (flat_segments code) = code_pages code.
Proof.
  assert (E : lenZ (layout (flat_segments code)) = code_pages code + 1).
  { unfold lenZ. rewrite <- (length_fmap (fun r : Z * bool * bool => r.1.1)), flat_layout, length_app, length_seqZ. simpl.
    pose proof (lenZ_nonneg code). unfold code_pages. dlia. }
  unfold layout in E. rewrite lenZ_app in E. unfold layout_size. change (lenZ [_]) with 1 in E. lia.
Qed.

Lemma flat_vpns code (l : list user_page) :
  rights <$> l = layout (flat_segments code) -> up_vpn <$> l = seqZ 1024 (code_pages code) ++ [1280].
Proof. intros E. rewrite <- flat_layout, <- E, <- list_fmap_compose. done. Qed.

Lemma flat_vpns_nodup code : 0x400000 + lenZ code <= STACK_VADDR -> NoDup (seqZ 1024 (code_pages code) ++ [1280]).
Proof.
  intros Hc. apply NoDup_app. split; [apply NoDup_seqZ|]. split; [|apply NoDup_singleton].
  intros v Hv%elem_of_seqZ Hv'%list_elem_of_singleton. unfold code_pages, STACK_VADDR, USER_BASE_VA in *. dlia.
Qed.

Lemma spawn_task_spec K base code s :
  loader_ready K code s -> 0 <= base -> base + 120 + lenZ code < two63 ->
  exists i ti u l t X s', spawn_userspace_task TASKS_ADDR base code s = Ret (Ok i, s') /\
    1 <= i < MAX_TASKS /\ lookupZ (TASKS s) i = Some ti /\ state ti = Unused /\
    slot_changed i (spawned i (pg u) ((fun q => pg (up_frame q)) <$> l) ti) s s' /\
    iret_frame (pmem (mach s')) (stack_top TASKS_ADDR i - 416) 0x400000 0x1B (STACK_VADDR + 4096) 0x23 /\
    placed K X l t u (mach s') /\ kernel_ready K (mach s') /\ X ⊆ fa_free (frames (mach s)) /\
    fa_free (frames (mach s')) = fa_free (frames (mach s)) ∖ X /\
    up_vpn <$> l = seqZ 1024 (code_pages code) ++ [1280] /\ rights <$> l = layout (flat_segments code) /\
    (exists d, forall q j, q ∈ l -> 0 <= j < 4096 -> slice d 120 (120 + lenZ code) = Ret code /\
      load8 (pmem (mach s')) (pg (up_frame q) + j) =
        default 0 (u8 <$> lookupZ (page_data (flat_segments code) d (up_vpn q)) j)) /\
    (forall x, ~ in_tasks x -> (forall f, f ∈ fa_free (frames (mach s)) -> ~ (pg f <= x < pg f + 4096)) ->
       load8 (pmem (mach s')) x = load8 (pmem (mach s)) x) /\
    Z.of_nat (size (fa_free (frames (mach s)))) - (space_cost K + 2 * code_pages code) <= Z.of_nat (size (fa_free (frames (mach s')))) /\
    fa_limit (frames (mach s')) = fa_limit (frames (mach s)).
Proof.
  intros [Hk Hwf Hsl (j0 & Hj0 & Hun) Hc Hfr Hat Hap] Hb Hlen. pose proof (lenZ_nonneg code) as Hn.
  unfold spawn_userspace_task, has_free_slot.
  destruct (find_unused_spec slots s Hwf slots_range) as [(i & ti & Hfi & Hi & Hti & Hst)|[_ Hno]].
  2: { exfalso. apply (Hno j0); [|done]. apply elem_of_seqZ. unfold MAX_TASKS in *. lia. }
  rewrite Hfi, !bind_Ret. cbn [negb]. unfold USER_BASE_VA.
  destruct (build_parse_spec base code 0x400000 Hb ltac:(lia) Hlen) as (d & Hd & Hparse & Hslice).
  rewrite Hd, bind_Ret, Hparse, bind_Ret. cbn [segment_count Z.eqb]. change (seqZ 0 1) with [0]. cbn [file_segments segments].
  unfold index. change (lookupZ (?x :: _) 0) with (Some x). cbv iota. rewrite !bind_Ret. cbn [vaddr filesz memsz seg_flags data_ptr entry_point].
  replace (u64 (base + 120 - base)) with 120 by (rewrite u64_small; lia). change [(0x400000, 120, lenZ code, lenZ code, 7)] with (flat_segments code).
  assert (Hdl : 120 + lenZ code <= lenZ d /\ lenZ d < two63).
  { rewrite build_flat_elf_spec in Hd. apply Ret_inj in Hd as <-. rewrite lenZ_app. change (lenZ (elf_header _ _)) with 120. lia. }
  destruct (load_spec K (flat_segments code) d (mach s) Hk) as (u & l & t & ms1 & m2 & X & Hms1 & Hl & Hm2 & Hpl & Hkr & HXF & Hfree & Hpage & Hels & Hcnt).
  { constructor; [|constructor]. unfold segment_ok, STACK_VADDR, USER_BASE_VA in *. lia. }
  { by rewrite flat_layout_size. } { lia. }
  { constructor; [|constructor]. unfold in_file. lia. }
  rewrite Hms1, bind_Ret, Hm2, bind_Ret, <- list_fmap_compose. apply flat_vpns in Hl as Hvpn.
  destruct (spawn_userspace_spec 0x400000 (0x400000 + 0x100000 + 0x1000) (pg u)
    ((fun q => pg (up_frame q)) <$> l) i ti (with_mach (with_mem m2 ms1) s)) as (s' & Hs' & Hch & Hf' & Hr' & Hm' & Hir); try done.
  { rewrite Forall_forall in Hsl. apply Hsl. apply list_elem_of_lookup. unfold lookupZ in Hti.
    destruct (i <? 0); [done|eauto]. }
  exists i, ti, u, l, t, X, s'. split; [exact Hs'|]. split; [apply elem_of_seqZ in Hi; unfold MAX_TASKS in *; lia|].
  split; [done|]. split; [done|]. split; [exact Hch|]. split; [done|].
  assert (Hsame : forall f x, (f ∈ X \/ f ∈ k_frames K) -> pg f <= x < pg f + 4096 -> load8 (pmem (mach s')) x = load8 m2 x).
  { intros f x Hf Hx. apply Hm', (Hap f x); [|done]. destruct Hf; [right; by apply HXF|by left]. }
  split. { apply (placed_same _ _ _ _ _ _ _ Hpl Hf' Hr'). intros f x Hf Hx. apply (Hsame f); [|done]. by eapply placed_table_frame. }
  split. { destruct Hkr as (K1 & K2 & K3 & K4). split; [by rewrite Hf'|]. split; [|split; [by rewrite Hr'|by rewrite Hf']].
    apply (kernel_view_ext m2); [done|]. intros f x Hf Hx. apply (Hsame f); [by right|done]. }
  split; [done|]. split; [by rewrite Hf'|].
  split; [done|]. split; [done|]. split; [|split; [intros x Hx Hfx; rewrite Hm' by done; by apply Hels|]].
  2: { rewrite Hf'. cbn [mach with_mach frames with_mem]. by rewrite flat_layout_size in Hcnt. }
  exists d. intros q j Hq Hj. split; [done|].
  rewrite (Hsame (up_frame q)); [apply Hpage; try done; rewrite Hvpn; by apply flat_vpns_nodup| |lia].
  left. apply (placed_data _ _ _ _ _ _ _ Hpl), list_elem_of_fmap. eauto.
Qed.

(** What user code of the tables at [root] reads at [va]. *)
Definition user_reads (m : memory) (root va b : Z) : Prop :=
  exists tr, mmu_walk m root va = Some tr /\ t_user tr = true /\ load8 m (t_pa tr) = b.

Lemma user_reads_page K X l t u (ms : machine (A:=A)) q j :
  placed K X l t u ms -> NoDup (up_vpn <$> l) -> q ∈ l -> 0 <= j < 4096 -> 0 <= up_vpn q < 524288 ->
  user_reads (pmem ms) (pg u) (pg (up_vpn q) + j) (load8 (pmem ms) (pg (up_frame q) + j)).
Proof.
  intros Hp Hnd Hq Hj Hv. exists (promised (install l ∅) (pg (up_vpn q) + j)).
  rewrite (view_walk _ t (install l ∅) u (pl_view _ _ _ _ _ _ Hp) (pl_root _ _ _ _ _ _ Hp)) by (unfold pg; lia).
  split; [done|]. unfold promised.
  replace ((pg (up_vpn q) + j) / 4096) with (up_vpn q) by (unfold pg; dlia). rewrite install_lookup by done. split; [done|].
  simpl. f_equal. f_equal. unfold pg. dlia.
Qed.

Lemma flat_page_data code d v j :
  slice d 120 (120 + lenZ code) = Ret code -> Forall byte code ->
  default 0 (u8 <$> lookupZ (page_data (flat_segments code) d v) j) =
    if (v =? 1024) && (j <? Z.min 4096 (lenZ code)) then default 0 (lookupZ code j) else 0.
Proof.
  intros Hd Hb. unfold page_data, flat_segments, find_segment. cbn [List.find].
  pose proof (lenZ_nonneg code) as Hn.
  assert (Hcode : take (length code) (drop 120 d) = code).
  { unfold slice in Hd. destruct (_ && _); [|done]. apply Ret_inj in Hd. transitivity (take (Z.to_nat (120 + lenZ code - 120)) (drop 120 d)); [|done].
    f_equal. unfold lenZ. lia. }
  destruct (Z.eqb_spec v 1024) as [->|Hv]; cbn [andb].
  2: { destruct (Z.eqb_spec 0x400000 (pg v)) as [E|_]; [unfold pg in E; lia|]. unfold lookupZ. by destruct (j <? 0). }
  change (0x400000 =? pg 1024) with true. cbv iota. change (Z.to_nat 120) with 120%nat. unfold lookupZ.
  destruct (Z.ltb_spec j 0); [by destruct (j <? _)|].
  destruct (Z.ltb_spec j (Z.min 4096 (lenZ code))).
  - rewrite lookup_take_lt by lia. rewrite <- Hcode. rewrite lookup_take_lt by (unfold lenZ in *; lia).
    destruct (drop 120 d !! Z.to_nat j) as [b|] eqn:E; [|done]. simpl. apply u8_small.
    rewrite Forall_forall in Hb. apply Hb. rewrite <- Hcode. apply list_elem_of_lookup. exists (Z.to_nat j).
    rewrite lookup_take_lt by (unfold lenZ in *; lia). done.
  - rewrite lookup_take_ge by (unfold lenZ in *; lia). done.
Qed.

Definition program_pages (code : list Z) (j : Z) : Z :=
  if j <? Z.min 4096 (lenZ code) then default 0 (lookupZ code j) else 0.

(** C6: [spawn_userspace_task] turns a code blob into a task that is ready to
    run it: it takes an unused slot and touches no other, the prepared kernel
    stack returns to the load address in user mode with cleared registers and
    the stack pointer at the top of the stack page, and user code of the new
    tables reads the program at the load address and zeros on the stack page.
    Of a program longer than a page only the first page is there, the other
    pages read as zeros. *)
Theorem spawn_userspace_task_loads K base code s :
  loader_ready K code s -> Forall byte code -> 0 <= base -> base + 120 + lenZ code < two63 ->
  exists i ti s', spawn_userspace_task TASKS_ADDR base code s = Ret (Ok i, s') /\
    1 <= i < MAX_TASKS /\ states s i = Some Unused /\ (forall j, j <> i -> lookupZ (TASKS s') j = lookupZ (TASKS s) j) /\
    lookupZ (TASKS s') i = Some ti /\ state ti = Ready /\
    iret_frame (pmem (mach s')) (saved_sp ti) 0x400000 0x1B 0x501000 0x23 /\
    (forall j, 0 <= j < 4096 * code_pages code ->
       user_reads (pmem (mach s')) (page_table_root ti) (0x400000 + j) (program_pages code j)) /\
    (forall j, 0 <= j < 4096 -> user_reads (pmem (mach s')) (page_table_root ti) (0x500000 + j) 0).
Proof.
  intros Hlr Hby Hb Hlen.
  destruct (spawn_task_spec K base code s Hlr Hb Hlen) as (i & t0 & u & l & t & X & s' & Hs' & Hi & Ht0 & Hst & Hch & Hir & Hpl & _ & _ & _ & Hv & _ & (d & Hd) & _).
  pose proof (lookupZ_Some_lt _ _ _ Ht0) as Hlt.
  exists i, (spawned i (pg u) ((fun q => pg (up_frame q)) <$> l) t0), s'. split; [done|]. split; [done|].
  split; [unfold states; rewrite Ht0; simpl; congruence|].
  split; [intros j Hj; by apply (slot_changed_other _ _ _ _ _ Hch)|].
  split; [destruct Hch as (-> & _); by apply lookupZ_insertZ_eq|]. split; [done|]. split; [done|].
  assert (Hnd : NoDup (up_vpn <$> l)) by (rewrite Hv; apply flat_vpns_nodup, Hlr).
  assert (Hpg : forall v j, v ∈ up_vpn <$> l -> 0 <= j < 4096 -> 0 <= v < 524288 -> user_reads (pmem (mach s')) (pg u) (pg v + j)
    (if (v =? 1024) && (j <? Z.min 4096 (lenZ code)) then default 0 (lookupZ code j) else 0)).
  { intros v j Hvl Hj Hvr. apply list_elem_of_fmap in Hvl as (q & -> & Hq). destruct (Hd q j Hq Hj) as [Hsl Hby'].
    rewrite <- (flat_page_data code d (up_vpn q) j Hsl Hby), <- Hby'. by eapply (user_reads_page K _ l t). }
  pose proof (lr_code _ _ _ Hlr) as Hcl. unfold STACK_VADDR, USER_BASE_VA in Hcl. split.
  - intros j Hj. replace (0x400000 + j) with (pg (1024 + j / 4096) + j mod 4096) by (unfold pg; dlia).
    specialize (Hpg (1024 + j / 4096) (j mod 4096)). unfold program_pages.
    destruct (Z.eqb_spec (1024 + j / 4096) 1024) as [E|E].
    + replace (j mod 4096) with j in * by dlia. apply Hpg; [|dlia..]. rewrite Hv. apply elem_of_app. left. apply elem_of_seqZ. dlia.
    + destruct (Z.ltb_spec j (Z.min 4096 (lenZ code))); [dlia|]. apply Hpg; [|dlia|unfold code_pages in *; dlia].
      rewrite Hv. apply elem_of_app. left. apply elem_of_seqZ. dlia.
  - intros j Hj. apply (Hpg 1280 j); [|lia|lia]. rewrite Hv. apply elem_of_app. right. by apply list_elem_of_singleton.
Qed.

(** The frames a new task records are the first 32 of its pages. *)
Lemma spawned_records i root (l : list user_page) t0 :
  lenZ (user_data_frames t0) = MAX_USER_FRAMES ->
  let ti := spawned i root ((fun q => pg (up_frame q)) <$> l) t0 in
  user_data_frame_count ti = lenZ (take 32 (up_frame <$> l)) /\
  forall j f, take 32 (up_frame <$> l) !! j = Some f -> lookupZ (user_data_frames ti) (Z.of_nat j) = Some (pg f).
Proof.
  intros Hlen1 ti. split; [simpl; unfold lenZ, MAX_USER_FRAMES; rewrite length_take, !length_fmap; lia|].
  intros j f Hj. simpl. rewrite lookup_take_Some, list_lookup_fmap_Some in Hj. destruct Hj as [(q & -> & Hq) Hj].
  pose proof (lookup_lt_Some _ _ _ Hq) as Hjl.
  assert (Hcount : Z.min (lenZ ((fun q => pg (up_frame q)) <$> l)) MAX_USER_FRAMES = Z.min (lenZ l) 32).
  { unfold lenZ. by rewrite length_fmap. }
  rewrite lookupZ_write_at_in.
  2: lia. 2: { unfold lenZ in *. rewrite length_take, length_fmap. unfold MAX_USER_FRAMES in *. lia. }
  2: { unfold lenZ in *. rewrite length_take, !length_fmap. unfold MAX_USER_FRAMES in *. lia. }
  rewrite Hcount. unfold lookupZ. destruct (Z.ltb_spec (Z.of_nat j - 0) 0); [lia|].
  rewrite lookup_take_lt by (unfold lenZ in *; lia). replace (Z.to_nat (Z.of_nat j - 0)) with j by lia.
  by rewrite list_lookup_fmap, Hq.
Qed.

(** The frames [X] and the kernel's tables hold in [s2] what they held in
    [s1], but for the pages [fs], which the task may write. *)
Definition tables_kept (K : kernel_tables) (X : gset Z) (fs : list Z) (s1 s2 : sys (A:=A)) : Prop :=
  forall f x, (f ∈ X /\ f ∉ fs) \/ f ∈ k_frames K -> pg f <= x < pg f + 4096 ->
    load8 (pmem (mach s2)) x = load8 (pmem (mach s1)) x.


End life.

(** ** A machine to load on *)

(** The tables of the kernel with the page of the local APIC, and the kernel
    alone in its task table. *)
Definition alone_with (ms : machine (A:=frame_state)) : sys (A:=frame_state) :=
  mk_sys ms (mk_task 0 Running (KERNEL_PML4_PA ms) (replicate 32 0) 0 0 0 :: replicate 255 UNUSED_TASK)
    0 0 (mk_stats 0 0 0) (KERNEL_PML4_PA ms) 0.

Lemma ready_sys code :
  lenZ code <= 0x1000 ->
  exists K (s : sys (A:=frame_state)), loader_ready TASKS_AT K code s /\ (0 ∉ fa_free (frames (mach s))) /\
    (exists t0, lookupZ (TASKS s) 0 = Some t0 /\ page_table_root t0 = KERNEL_PML4_PA (mach s)) /\
    (forall j tj, 1 <= j -> lookupZ (TASKS s) j = Some tj -> user_id tj = 1000) /\ k_shared K <> ∅.
Proof.
  intros Hc. destruct lapic_machine as (K & ms & Hms & Hk & Hcost & Hsh & Hsz & HL).
  assert (H100 : forall f, f ∈ k_frames K \/ f ∈ fa_free (frames ms) -> 0 <= f < 100).
  { intros f Hf. pose proof Hk as (Hinv & _ & _ & HK). rewrite <- HL. destruct Hf as [Hf|Hf]; [by apply HK|by apply fa_free_range]. }
  exists K, (alone_with ms). split; [|split; [|split; [eexists; split; reflexivity|split; [|done]]]].
  - split.
    + done.
    + split; [reflexivity|]. split; [discriminate|reflexivity].
    + constructor; [done|]. by apply Forall_replicate.
    + exists 1. split; [split; [discriminate|reflexivity]|reflexivity].
    + unfold STACK_VADDR, USER_BASE_VA. lia.
    + pose proof (lenZ_nonneg code). assert (code_pages code <= 1) by (unfold code_pages; dlia). cbn [mach alone_with]. lia.
    + split; [discriminate|reflexivity].
    + intros f x Hf Hx [Hx1 _]. specialize (H100 f Hf). unfold TASKS_AT, pg in *. lia.
  - assert (E : match lapic_tables with Ret ms => used (frames ms) 0 | _ => false end = true) by (vm_compute; reflexivity).
    rewrite Hms in E. cbn [mach alone_with]. intros Hin. apply elem_of_free_frames in Hin as [_ Hu]. rewrite Hu in E. discriminate E.
  - intros j tj Hj Ht. unfold lookupZ in Ht. destruct (Z.ltb_spec j 0); [lia|]. cbn [TASKS alone_with] in Ht.
    rewrite lookup_cons_ne_0 in Ht by lia. by apply lookup_replicate_1 in Ht as [-> _].
Qed.

Lemma spawn_userspace_task_loads_witness :
  exists (s s' : sys (A:=frame_state)) i ti, spawn_userspace_task TASKS_AT 0x200000 [0xEB; 0xFE] s = Ret (Ok i, s') /\
    lookupZ (TASKS s') i = Some ti /\ user_reads (pmem (mach s')) (page_table_root ti) 0x400001 0xFE.
Proof.
  destruct (ready_sys [0xEB; 0xFE]) as (K & s & Hlr & _); [discriminate|].
  destruct (spawn_userspace_task_loads TASKS_AT K 0x200000 [0xEB; 0xFE] s Hlr)
    as (i & ti & s' & Hs' & _ & _ & _ & Hti & _ & _ & Hr & _).
  - apply forallb_byte. reflexivity.
  - discriminate.
  - reflexivity.
  - exists s, s', i, ti. split; [exact Hs'|]. split; [exact Hti|]. exact (Hr 1 ltac:(split; [discriminate|reflexivity])).
Defined.


(** ** Where the loaders fall short *)

(** The kernel after [paging::init], alone in its task table. *)
Definition booted : outcome (sys (A:=frame_state)) :=
  ms ← paging_init (mk_machine ∅ machine_100 0);
  Ret (mk_sys ms (mk_task 0 Running (KERNEL_PML4_PA ms) (replicate 32 0) 0 0 0 :: replicate 255 UNUSED_TASK)
    0 0 (mk_stats 0 0 0) (KERNEL_PML4_PA ms) 0).

(** What task [i] finds at [va]: whether it may access it, and the byte. *)
Definition user_view (i va : Z) (s : sys (A:=frame_state)) : option (bool * Z) :=
  match lookupZ (TASKS s) i with
  | Some t =>
      match mmu_walk (pmem (mach s)) (page_table_root t) va with
      | Some tr => Some (t_user tr, load8 (pmem (mach s)) (t_pa tr))
      | None => None
      end
  | None => None
  end.

(** A process with the argument ["hi"]. *)
Definition process_with_argument : outcome (result string Z * sys (A:=frame_state)) :=
  s ← booted;
  create_process TASKS_AT 0x200000 hlt_elf [[0x68; 0x69]] s.

Lemma run_check {A B} (o : outcome (result A B * sys (A:=frame_state))) (f : B -> sys (A:=frame_state) -> bool) :
  match o with Ret (Ok b, s) => f b s | _ => false end = true -> exists b s, o = Ret (Ok b, s) /\ f b s = true.
Proof. destruct o as [[[b|e] s]| | | |]; intros E; try discriminate E. exists b, s. by split. Qed.

(** [create_process] does not pass arguments: [setup_user_stack] writes
    them through the user address of the stack under the kernel's own tables,
    that is to physical address 0x500000, while the stack page of the new task
    is another frame.  The task, whose stack pointer is 0x500000, reads an
    argument count of 0; its code is in place. *)
Theorem create_process_loses_arguments :
  exists i s, process_with_argument = Ret (Ok i, s) /\
    user_view i 0x400000 s = Some (true, 0xF4) /\ user_view i 0x500000 s = Some (true, 0) /\
    load8 (pmem (mach s)) 0x500000 = 1.
Proof.
  destruct (run_check process_with_argument (fun i s =>
    bool_decide (user_view i 0x400000 s = Some (true, 0xF4)) && bool_decide (user_view i 0x500000 s = Some (true, 0)) &&
    (load8 (pmem (mach s)) 0x500000 =? 1))) as (i & s & Hs & Hc); [vm_compute; reflexivity|].
  exists i, s. split; [exact Hs|]. clear Hs. apply andb_true_iff in Hc as [[H1 H2]%andb_true_iff H3].
  apply bool_decide_eq_true in H1, H2. apply Z.eqb_eq in H3. exact (conj H1 (conj H2 H3)).
Qed.

(** A task replaces its program by the one-instruction image. *)
Definition exec_after_spawn : outcome (result string Z * sys (A:=frame_state)) :=
  s ← booted;
  x ← spawn_userspace_task TASKS_AT 0x200000 [0xEB; 0xFE] s;
  let '(_, s) := x in
  t ← get_task 1 s;
  r ← parse_elf 0x200000 hlt_elf;
  match r with
  | Ok image => replace_address_space TASKS_AT 1 image hlt_elf (with_cr3 (page_table_root t) (with_current 1 s))
  | Err _ => Panic
  end.

(** [replace_address_space] loads nothing: it uses the data pointer of a
    segment, an address, as an offset into the file, finds it past the end and
    skips the copy.  The call succeeds, and the task continues at an entry
    point that reads as zero although the image has an instruction there. *)
Theorem replace_address_space_loads_nothing :
  exists sp s, exec_after_spawn = Ret (Ok sp, s) /\ user_view 1 0x400000 s = Some (true, 0) /\
    lookupZ hlt_elf 120 = Some 0xF4.
Proof.
  destruct (run_check exec_after_spawn (fun _ s => bool_decide (user_view 1 0x400000 s = Some (true, 0))))
    as (sp & s & Hs & Hc); [vm_compute; reflexivity|].
  exists sp, s. split; [exact Hs|]. apply bool_decide_eq_true in Hc. split; [exact Hc|reflexivity].
Qed.
