(* ===== verification/Switch.v ===== *)
(** * The timer interrupt, from registers to registers (arch/x86_64/mod.rs)

    The stub around [timer_handler_rust] saves the registers of the interrupted
    task on its kernel stack and loads those of the task the scheduler chose.
    Together with the scheduler this shows that a task does not notice that
    others ran.  Kernel stacks are mapped at their own addresses in every
    address space, so the accesses of the stub are to physical memory. *)

From S2P Require Import Prelude Bytes FdTable Mem Frame Paging AddressSpace Usercopy Elf Task Sched Process Lifecycle.

#[local] Opaque build_frame.

(** ** Registers *)

(** What a task computes with: the fifteen general registers in the order the
    stub pushes them (rax, rcx, rdx, rsi, rdi, r8 to r11, rbx, rbp, r12 to
    r15), the sixteen SSE registers, and what the processor saves itself. *)
Record context : Type := mk_context {
  gprs : list Z;
  xmms : list Z;
  c_rip : Z;
  c_cs : Z;
  c_rflags : Z;
  c_rsp : Z;
  c_ss : Z;
}.

Definition word (v : Z) : Prop := 0 <= v < two64.
Definition context_ok (c : context) : Prop :=
  length (gprs c) = 15%nat /\ length (xmms c) = 16%nat /\ Forall word (gprs c) /\
  Forall (fun v => 0 <= v < 2 ^ 128) (xmms c) /\ Forall word [c_ss c; c_rsp c; c_rflags c; c_cs c; c_rip c].

(** The size of what is saved. *)
Definition FRAME_BYTES : Z := 416.

(** ** The stub *)

(** [movdqu [rsp+16*i], xmm_i] for consecutive registers. *)
Fixpoint store_xmms (vs : list Z) (a : Z) (m : memory) : memory :=
  match vs with
  | [] => m
  | v :: vs' => store_xmms vs' (a + 16) (store_le 16 m a v)
  end.

(** The processor switches to the kernel stack when it comes from user mode
    and aligns the stack pointer; it saves five words.  Then the stub pushes
    the registers. *)
Definition entry_sp (rsp0 : Z) (c : context) : Z :=
  if Z.land (c_cs c) 3 =? 3 then rsp0 else Z.land (c_rsp c) (not64 15).
Definition enter (rsp0 : Z) (c : context) (m : memory) : Z * memory :=
  let '(sp, m) := push_all [c_ss c; c_rsp c; c_rflags c; c_cs c; c_rip c] (entry_sp rsp0 c) m in
  let '(sp, m) := push_all (gprs c) sp m in
  let sp := u64 (sp - 256) in
  (sp, store_xmms (xmms c) sp m).

(** The loads from the stack pointer the handler returned, the pops and
    [iretq]. *)
Definition leave (m : memory) (sp : Z) : context :=
  let pop j := read_u64 m (sp + 256 + 8 * j) in
  mk_context (pop <$> reverse (seqZ 0 15)) ((fun i => load_le 16 m (sp + 16 * i)) <$> seqZ 0 16)
    (pop 15) (pop 16) (pop 17) (pop 18) (pop 19).

Section switch.
Context {A : Type} `{FrameAllocator A}.
Variable TASKS_ADDR : Z.
Implicit Types s : sys (A:=A).

Definition timer_irq_handler (c : context) s : outcome (context * sys (A:=A)) :=
  let '(sp, m) := enter (TSS_RSP0 s) c (pmem (mach s)) in
  x ← timer_handler_rust TASKS_ADDR sp (with_mach (with_mem m (mach s)) s);
  let '(sp, s) := x in
  Ret (leave (pmem (mach s)) sp, s).
End switch.

(** ** A saved context is loaded back *)

Lemma store_xmms_spec vs a m :
  (forall x, ~ (a <= x < a + 16 * lenZ vs) -> load8 (store_xmms vs a m) x = load8 m x) /\
  forall i v, vs !! i = Some v -> 0 <= v < 2 ^ 128 -> load_le 16 (store_xmms vs a m) (a + 16 * Z.of_nat i) = v.
Proof.
  revert a m. induction vs as [|v vs IH]; intros a m; cbn [store_xmms]; [by split|].
  destruct (IH (a + 16) (store_le 16 m a v)) as [Ho Hi]. rewrite lenZ_cons. pose proof (lenZ_nonneg vs). split.
  - intros x Hx. rewrite Ho by lia. apply load8_store_le_out. lia.
  - intros [|i] w; cbn [lookup list_lookup].
    + intros [= ->] Hw. rewrite Z.mul_0_r, Z.add_0_r, (load_le_ext 16 _ (store_le 16 m a w)); [by apply load_store_le_eq|].
      intros x Hx. apply Ho. lia.
    + intros Hv Hw. rewrite <- (Hi i w Hv Hw). f_equal. lia.
Qed.

(** Where a context is saved, and what else changes. *)
Lemma enter_spec rsp0 c m :
  context_ok c -> FRAME_BYTES <= entry_sp rsp0 c < two64 ->
  exists m', enter rsp0 c m = (entry_sp rsp0 c - FRAME_BYTES, m') /\ leave m' (entry_sp rsp0 c - FRAME_BYTES) = c /\
    forall x, ~ (entry_sp rsp0 c - FRAME_BYTES <= x < entry_sp rsp0 c) -> load8 m' x = load8 m x.
Proof.
  intros (Hg & Hx & Hgw & Hxw & Hiw) Hsp. unfold FRAME_BYTES in *. unfold enter. set (top := entry_sp rsp0 c) in *.
  destruct (push_all_spec [c_ss c; c_rsp c; c_rflags c; c_cs c; c_rip c] top m) as (m1 & -> & Ho1 & Hi1); [unfold lenZ; cbn [length]; lia|].
  change (8 * lenZ [c_ss c; c_rsp c; c_rflags c; c_cs c; c_rip c]) with 40 in *.
  assert (Hgl : lenZ (gprs c) = 15) by (unfold lenZ; lia). assert (Hxl : lenZ (xmms c) = 16) by (unfold lenZ; lia).
  destruct (push_all_spec (gprs c) (top - 40) m1) as (m2 & -> & Ho2 & Hi2); [lia|]. rewrite Hgl in *.
  rewrite u64_small by lia. replace (top - 40 - 8 * 15 - 256) with (top - 416) by lia.
  destruct (store_xmms_spec (xmms c) (top - 416) m2) as [Ho3 Hi3]. rewrite Hxl in Ho3.
  set (m3 := store_xmms _ _ _) in *. exists m3. split; [done|].
  assert (Hr2 : forall a, top - 160 <= a -> read_u64 m3 a = read_u64 m2 a)
    by (intros a Ha; apply read_u64_ext; intros x Hxx; apply Ho3; lia).
  assert (Hr1 : forall a, top - 40 <= a -> read_u64 m3 a = read_u64 m1 a)
    by (intros a Ha; rewrite Hr2 by lia; apply read_u64_ext; intros x Hxx; apply Ho2; lia).
  split.
  2:{ intros x Hxx. rewrite Ho3, Ho2, Ho1 by lia. done. }
  assert (Hiret : forall j v, [c_ss c; c_rsp c; c_rflags c; c_cs c; c_rip c] !! j = Some v -> read_u64 m3 (top - 8 * (Z.of_nat j + 1)) = v).
  { intros j v Hv. pose proof (lookup_lt_Some _ _ _ Hv) as Hl. cbn [length] in Hl. rewrite Hr1 by lia. apply Hi1; [done|].
    by apply (Forall_lookup_1 _ _ _ _ Hiw Hv). }
  destruct c as [g xs rip cs fl sp ss]. cbn [gprs xmms c_rip c_cs c_rflags c_rsp c_ss] in *. unfold leave. f_equal.
  - apply list_eq. intros i. rewrite list_lookup_fmap. destruct (decide (i < 15)%nat) as [Hi|Hi].
    + rewrite reverse_lookup by (rewrite length_seqZ; lia). rewrite length_seqZ. change (Z.to_nat 15) with 15%nat.
      rewrite lookup_seqZ_lt by lia. cbn [fmap option_fmap option_map].
      destruct (lookup_lt_is_Some_2 g i) as [v Hv]; [lia|]. rewrite Hv. f_equal. rewrite Hr2 by lia.
      rewrite <- (Hi2 i v Hv) by (by apply (Forall_lookup_1 _ _ _ _ Hgw Hv)). f_equal. lia.
    + rewrite !lookup_ge_None_2 by (rewrite ?length_reverse, ?length_seqZ; lia). done.
  - apply list_eq. intros i. rewrite list_lookup_fmap. destruct (decide (i < 16)%nat) as [Hi|Hi].
    + rewrite lookup_seqZ_lt by lia. cbn [fmap option_fmap option_map].
      destruct (lookup_lt_is_Some_2 xs i) as [v Hv]; [lia|]. rewrite Hv. f_equal.
      by rewrite <- (Hi3 i v Hv) by (by apply (Forall_lookup_1 _ _ _ _ Hxw Hv)).
    + rewrite !lookup_ge_None_2 by (rewrite ?length_seqZ; lia). done.
  - rewrite <- (Hiret 4%nat rip eq_refl). f_equal. lia.
  - rewrite <- (Hiret 3%nat cs eq_refl). f_equal. lia.
  - rewrite <- (Hiret 2%nat fl eq_refl). f_equal. lia.
  - rewrite <- (Hiret 1%nat sp eq_refl). f_equal. lia.
  - rewrite <- (Hiret 0%nat ss eq_refl). f_equal. lia.
Qed.

Lemma leave_ext m m' sp :
  (forall x, sp <= x < sp + FRAME_BYTES -> load8 m' x = load8 m x) -> leave m' sp = leave m sp.
Proof.
  intros Hx. unfold FRAME_BYTES in Hx.
  assert (Hw : forall j, 0 <= j < 20 -> read_u64 m' (sp + 256 + 8 * j) = read_u64 m (sp + 256 + 8 * j))
    by (intros j Hj; apply read_u64_ext; intros x Hxx; apply Hx; lia).
  unfold leave. rewrite !Hw by lia. f_equal.
  - apply list_fmap_ext. intros i j Hj. apply Hw. apply list_elem_of_lookup_2 in Hj. rewrite elem_of_reverse, elem_of_seqZ in Hj. lia.
  - apply list_fmap_ext. intros i j Hj. apply lookup_seqZ in Hj. apply load_le_ext. intros x Hxx. apply Hx. lia.
Qed.

(** A task that has not run yet starts with cleared registers. *)
Definition fresh (rip cs rsp ss : Z) : context := mk_context (replicate 15 0) (replicate 16 0) rip cs 0x202 rsp ss.

Lemma leave_fresh m sp rip cs rsp ss : iret_frame m sp rip cs rsp ss -> leave m sp = fresh rip cs rsp ss.
Proof.
  intros (Hz & H1 & H2 & H3 & H4 & H5). unfold leave, fresh.
  assert (Hj : forall j, 0 <= j < 15 -> read_u64 m (sp + 256 + 8 * j) = 0).
  { intros j Hj. rewrite <- (Hz (32 + j)) by lia. f_equal. lia. }
  f_equal.
  - symmetry. apply replicate_as_Forall. split; [by rewrite length_fmap, length_reverse, length_seqZ|].
    apply Forall_fmap, Forall_forall. intros j Hin. rewrite elem_of_reverse, elem_of_seqZ in Hin. cbv beta. symmetry. apply Hj. lia.
  - symmetry. apply replicate_as_Forall. split; [by rewrite length_fmap, length_seqZ|].
    apply Forall_fmap, Forall_forall. intros j Hin. rewrite elem_of_seqZ in Hin. cbv beta.
    unfold compose. change (load_le 16) with (load_le (8 + 8)). rewrite load_le_add. change (load_le 8) with read_u64.
    replace (sp + 16 * j) with (sp + 8 * (2 * j)) by lia. rewrite Hz by lia.
    replace (sp + 8 * (2 * j) + Z.of_nat 8) with (sp + 8 * (2 * j + 1)) by lia. rewrite Hz by lia. lia.
  - rewrite <- H1. f_equal. lia.
  - rewrite <- H2. f_equal. lia.
  - rewrite <- H3. f_equal. lia.
  - rewrite <- H4. f_equal. lia.
  - rewrite <- H5. f_equal. lia.
Qed.

(** ** Tasks do not notice each other *)

Section preempt.
Context {A : Type} `{FrameAllocator A}.
(** Where the task table is, and the stack the boot code set up, on which task 0
    runs. *)
Variables TASKS_ADDR BOOT_LO BOOT_HI : Z.
Implicit Types s : sys (A:=A).

Hypothesis Htasks : 0 <= TASKS_ADDR /\ TASKS_ADDR + MAX_TASKS * TASK_SIZE < two64.
Hypothesis Hboot : 0 <= BOOT_LO /\ BOOT_HI < two64 /\ (BOOT_HI <= TASKS_ADDR \/ TASKS_ADDR + MAX_TASKS * TASK_SIZE <= BOOT_LO).

(** The bytes of the stack of task [j]. *)
Definition on_stack (j x : Z) : Prop :=
  if j =? 0 then BOOT_LO <= x < BOOT_HI else stack_top TASKS_ADDR j - STACK_SIZE <= x < stack_top TASKS_ADDR j.

(** The interrupt finds room on the stack of the task it interrupts. *)
Definition has_room (c : context) s : Prop :=
  context_ok c /\ on_stack (CURRENT_TASK s) (entry_sp (TSS_RSP0 s) c - FRAME_BYTES) /\
  on_stack (CURRENT_TASK s) (entry_sp (TSS_RSP0 s) c - 1).

(** Task [k] does not run and will continue with [c]. *)
Definition suspended (k : Z) (c : context) s : Prop :=
  CURRENT_TASK s <> k /\ exists t, lookupZ (TASKS s) k = Some t /\ leave (pmem (mach s)) (saved_sp t) = c /\
    on_stack k (saved_sp t) /\ on_stack k (saved_sp t + FRAME_BYTES - 1).

Lemma stacks_disjoint j k x : 0 <= j < MAX_TASKS -> 0 <= k < MAX_TASKS -> j <> k -> on_stack j x -> on_stack k x -> False.
Proof.
  unfold on_stack, stack_top, STACK_SIZE, STACK_OFFSET, TASK_SIZE in *. rewrite MAX_TASKS_eq in *.
  intros Hj Hk Hn. destruct (Z.eqb_spec j 0), (Z.eqb_spec k 0); nia.
Qed.
Lemma on_stack_between j a b x : on_stack j a -> on_stack j b -> a <= x <= b -> on_stack j x.
Proof. unfold on_stack. case_match; lia. Qed.
Lemma on_stack_range j x : 0 <= j < MAX_TASKS -> on_stack j x -> 0 <= x < two64 - 1.
Proof.
  unfold on_stack, stack_top, STACK_SIZE, STACK_OFFSET, TASK_SIZE in *. rewrite MAX_TASKS_eq in *. intros Hj. case_match; lia.
Qed.

Lemma woken_sp n s k t : lookupZ (TASKS s) k = Some t -> exists t', woken n s k = Some t' /\ saved_sp t' = saved_sp t.
Proof.
  intros Ht. unfold woken. rewrite Ht. destruct (1 <=? k); [|by exists t]. exists (wake_one n t). split; [done|].
  unfold wake_one. by case_match.
Qed.
Lemma demoted_sp sp n s k t : k <> CURRENT_TASK s -> lookupZ (TASKS s) k = Some t -> exists t', demoted sp n s k = Some t' /\ saved_sp t' = saved_sp t.
Proof. intros Hk Ht. unfold demoted. destruct (Z.eqb_spec k (CURRENT_TASK s)); [done|]. by apply woken_sp. Qed.
Lemma demoted_current sp n s : sched_wf s -> exists t', demoted sp n s (CURRENT_TASK s) = Some t' /\ saved_sp t' = sp.
Proof.
  intros Hwf. destruct (get_task_Ret (CURRENT_TASK s) s Hwf) as (t & _ & Ht); [apply Hwf|].
  destruct (woken_sp n s _ t Ht) as (t' & E & _). unfold demoted. rewrite Z.eqb_refl, E. exists (demote sp t'). split; [done|].
  unfold demote. by case_match.
Qed.

(** What is saved for task [k] survives an interrupt of another task. *)
Lemma suspended_kept k d s m' c :
  sched_wf s -> 0 <= k < MAX_TASKS -> has_room c s -> suspended k d s ->
  (forall x, ~ (entry_sp (TSS_RSP0 s) c - FRAME_BYTES <= x < entry_sp (TSS_RSP0 s) c) -> load8 m' x = load8 (pmem (mach s)) x) ->
  exists t, lookupZ (TASKS s) k = Some t /\ leave m' (saved_sp t) = d /\ on_stack k (saved_sp t) /\ on_stack k (saved_sp t + FRAME_BYTES - 1).
Proof.
  intros [_ Hc] Hk (_ & Hr1 & Hr2) (Hn & t & Ht & Hl & Hs1 & Hs2) Hm. exists t. split; [done|]. split; [|done].
  rewrite <- Hl. apply leave_ext. intros x Hx. apply Hm. intros Hin.
  apply (stacks_disjoint k (CURRENT_TASK s) x); [done|done|congruence| |].
  - apply (on_stack_between _ _ _ _ Hs1 Hs2). lia.
  - apply (on_stack_between _ _ _ _ Hr1 Hr2). lia.
Qed.

(** The outcome of an interrupt for the interrupted task and the suspended
    ones. *)
Definition switches (c : context) s (c' : context) (s' : sys (A:=A)) : Prop :=
  sched_wf s' /\
  (CURRENT_TASK s' = CURRENT_TASK s -> c' = c /\ TSS_RSP0 s' = TSS_RSP0 s) /\
  (CURRENT_TASK s' <> CURRENT_TASK s -> suspended (CURRENT_TASK s) c s' /\ TSS_RSP0 s' = stack_top TASKS_ADDR (CURRENT_TASK s')) /\
  forall k d, 0 <= k < MAX_TASKS -> suspended k d s -> if CURRENT_TASK s' =? k then c' = d else suspended k d s'.

Lemma timer_irq_spec c s :
  sched_wf s -> has_room c s -> exists c' s', timer_irq_handler TASKS_ADDR c s = Ret (c', s') /\ switches c s c' s'.
Proof.
  intros Hwf Hroom. pose proof Hroom as (Hok & Hr1 & Hr2). pose proof Hwf as [_ Hcur].
  destruct (enter_spec (TSS_RSP0 s) c (pmem (mach s)) Hok) as (m' & E & Hl & Hm).
  { pose proof (on_stack_range _ _ Hcur Hr1). pose proof (on_stack_range _ _ Hcur Hr2). lia. }
  unfold timer_irq_handler. rewrite E. set (sp := entry_sp _ _ - FRAME_BYTES) in *.
  destruct (timer_handler_spec TASKS_ADDR sp (with_mach (with_mem m' (mach s)) s) Hwf) as (r & s' & -> & Hwf' & _ & Hmach & Hsw).
  rewrite bind_Ret. eexists _, s'. split; [reflexivity|]. split; [done|].
  assert (pmem (mach s') = m') as -> by (by rewrite Hmach).
  set (n := u64 (TICKS _ + 1)) in *. set (s0 := with_mach _ s) in *.
  assert (Hwf0 : sched_wf s0) by done.
  assert (Hkept := fun k d Hk Hs => suspended_kept k d s m' c Hwf Hk Hroom Hs Hm).
  destruct (switch_tick n).
  - destruct Hsw as (next & _ & Hc & Hts & Hnext). rewrite Hc. change (CURRENT_TASK s0) with (CURRENT_TASK s) in *.
    split; [|split].
    + intros ->. rewrite Z.eqb_refl in Hnext. destruct Hnext as (-> & _ & ->). done.
    + intros Hne. split.
      2:{ destruct (Z.eqb_spec next (CURRENT_TASK s)); [done|]. by destruct Hnext as (? & _ & _ & _ & ->). }
      split; [congruence|]. destruct (demoted_current sp n s0 Hwf0) as (t' & Et & Esp).
      exists t'. rewrite Hts. change (CURRENT_TASK s0) with (CURRENT_TASK s) in Et. rewrite Et.
      destruct (Z.eqb_spec (CURRENT_TASK s) next); [congruence|]. rewrite Esp, Hmach. split; [done|]. split; [exact Hl|].
      split; [done|]. unfold sp. by replace (entry_sp (TSS_RSP0 s) c - FRAME_BYTES + FRAME_BYTES - 1) with (entry_sp (TSS_RSP0 s) c - 1) by lia.
    + intros k d Hk Hs. destruct (Hkept k d Hk Hs) as (t & Ht & Hd & Hs1 & Hs2). assert (k <> CURRENT_TASK s0) as Hkc by (intros ->; by apply Hs).
      destruct (demoted_sp sp n s0 k t Hkc Ht) as (t' & Et & Esp). destruct (Z.eqb_spec next k) as [->|Hne].
      * destruct (Z.eqb_spec k (CURRENT_TASK s)); [done|]. destruct Hnext as (t2 & Et2 & -> & _). rewrite Et in Et2.
        injection Et2 as <-. by rewrite Esp.
      * split; [congruence|]. exists t'. rewrite Hts, Hmach. destruct (Z.eqb_spec k next); [congruence|]. by rewrite Esp.
  - destruct Hsw as (-> & Hc & _ & Htss & Hts). change (CURRENT_TASK s0) with (CURRENT_TASK s) in *. rewrite Hc.
    split; [by rewrite Htss|]. split; [done|].
    intros k d Hk Hs. destruct (Hkept k d Hk Hs) as (t & Ht & Hd & Hs1 & Hs2).
    destruct (Z.eqb_spec (CURRENT_TASK s) k) as [E'|Hne]; [by destruct Hs|].
    destruct (woken_sp n s0 k t Ht) as (t' & Et & Esp). split; [congruence|]. exists t'. rewrite Hts, Hmach, Et. by rewrite Esp.
Qed.

(** A task in user mode always has room, on the stack its last switch put in
    the task state segment. *)
Lemma user_has_room c s :
  sched_wf s -> context_ok c -> Z.land (c_cs c) 3 = 3 -> CURRENT_TASK s <> 0 -> TSS_RSP0 s = stack_top TASKS_ADDR (CURRENT_TASK s) ->
  has_room c s.
Proof.
  intros Hwf Hok Hcs Hc Htss. split; [done|]. unfold entry_sp, on_stack. rewrite Hcs, Htss. cbn [Z.eqb Pos.eqb].
  destruct (Z.eqb_spec (CURRENT_TASK s) 0); [done|]. unfold FRAME_BYTES, STACK_SIZE. lia.
Qed.

(** What happens while task [k] does not run: other tasks and the kernel work,
    without touching the stack and the saved stack pointer of [k], and timer
    interrupts arrive and choose others. *)
Inductive other_step (k : Z) : context * sys (A:=A) -> context * sys (A:=A) -> Prop :=
| other_works c s c' s' :
    sched_wf s' -> CURRENT_TASK s' = CURRENT_TASK s ->
    (forall t, lookupZ (TASKS s) k = Some t -> exists t', lookupZ (TASKS s') k = Some t' /\ saved_sp t' = saved_sp t) ->
    (forall x, on_stack k x -> load8 (pmem (mach s')) x = load8 (pmem (mach s)) x) ->
    other_step k (c, s) (c', s')
| other_tick c s c' s' :
    has_room c s -> timer_irq_handler TASKS_ADDR c s = Ret (c', s') -> CURRENT_TASK s' <> k ->
    other_step k (c, s) (c', s').

Lemma suspended_step k d x y :
  0 <= k < MAX_TASKS -> other_step k x y -> sched_wf x.2 /\ suspended k d x.2 -> sched_wf y.2 /\ suspended k d y.2.
Proof.
  intros Hk Hst [Hwf Hs]. destruct Hst as [c s c' s' Hwf' Hc Ht Hm|c s c' s' Hroom E Hc]; cbn [snd] in *.
  - split; [done|]. destruct Hs as (Hn & t & Hl & Hd & Hs1 & Hs2). destruct (Ht t Hl) as (t' & Hl' & Esp).
    split; [congruence|]. exists t'. rewrite Esp. split; [done|]. split; [|done]. rewrite <- Hd. apply leave_ext.
    intros x Hx. apply Hm. apply (on_stack_between _ _ _ _ Hs1 Hs2). lia.
  - destruct (timer_irq_spec c s Hwf Hroom) as (c1 & s1 & E1 & Hwf1 & _ & _ & Hall). rewrite E in E1. injection E1 as <- <-.
    split; [done|]. specialize (Hall k d Hk Hs). by destruct (Z.eqb_spec (CURRENT_TASK s') k).
Qed.

Lemma suspended_returns k d x c s :
  0 <= k < MAX_TASKS -> rtc (other_step k) x (c, s) -> sched_wf x.2 -> suspended k d x.2 -> has_room c s ->
  exists c' s', timer_irq_handler TASKS_ADDR c s = Ret (c', s') /\ (CURRENT_TASK s' = k -> c' = d).
Proof.
  intros Hk Hrun Hwf Hs Hroom. assert (sched_wf s /\ suspended k d s) as [Hwf' Hs'].
  { change s with (c, s).2. clear Hroom. induction Hrun as [|x y z Hst _ IH]; [done|].
    destruct (suspended_step k d x y Hk Hst) as [? ?]; [done|]. by apply IH. }
  destruct (timer_irq_spec c s Hwf' Hroom) as (c' & s' & E & _ & _ & _ & Hall). exists c', s'. split; [done|].
  intros Hc. specialize (Hall k d Hk Hs'). by rewrite Hc, Z.eqb_refl in Hall.
Qed.
End preempt.

(** The addresses the linker chose are apart. *)
Definition placed_stacks (TASKS_ADDR BOOT_LO BOOT_HI : Z) : Prop :=
  (0 <= TASKS_ADDR /\ TASKS_ADDR + MAX_TASKS * TASK_SIZE < two64) /\
  (0 <= BOOT_LO /\ BOOT_HI < two64 /\ (BOOT_HI <= TASKS_ADDR \/ TASKS_ADDR + MAX_TASKS * TASK_SIZE <= BOOT_LO)).

(** C13: Preemption is transparent.  A timer interrupt returns; the interrupted
    task either goes on at once with all its registers, or is put aside, and
    then, whatever other tasks do and however many interrupts pass, the
    interrupt that chooses it again gives it back exactly the general, SSE and
    flag registers, the instruction and the stack pointer it had. *)
Theorem preemption_transparent {A} `{FrameAllocator A} TASKS_ADDR LO HI c (s : sys (A:=A)) :
  placed_stacks TASKS_ADDR LO HI -> sched_wf s -> has_room TASKS_ADDR LO HI c s ->
  exists c1 s1, timer_irq_handler TASKS_ADDR c s = Ret (c1, s1) /\
    if CURRENT_TASK s1 =? CURRENT_TASK s then c1 = c
    else forall c2 s2, rtc (other_step TASKS_ADDR LO HI (CURRENT_TASK s)) (c1, s1) (c2, s2) -> has_room TASKS_ADDR LO HI c2 s2 ->
      exists c3 s3, timer_irq_handler TASKS_ADDR c2 s2 = Ret (c3, s3) /\ (CURRENT_TASK s3 = CURRENT_TASK s -> c3 = c).
Proof.
  intros [Ht Hb] Hwf Hroom. destruct (timer_irq_spec TASKS_ADDR LO HI Ht Hb c s Hwf Hroom) as (c1 & s1 & E & Hwf1 & Hsame & Hother & _).
  exists c1, s1. split; [done|]. destruct (Z.eqb_spec (CURRENT_TASK s1) (CURRENT_TASK s)) as [Ec|Ec]; [by apply Hsame|].
  intros c2 s2 Hrun Hroom2. apply (suspended_returns TASKS_ADDR LO HI Ht Hb (CURRENT_TASK s) c (c1, s1)); [apply Hwf|done|done|by apply Hother|done].
Qed.

(** Task 0 in the kernel, interrupted at the tenth tick while tasks 1 and 2
    are ready. *)
Definition in_kernel : context :=
  mk_context (Z.of_nat <$> seq 1 15) (Z.of_nat <$> seq 100 16) 0x201234 0x08 0x202 0x20C000 0x10.

Lemma in_kernel_room : has_room TASKS_AT 0x204000 0x20D000 in_kernel two_ready.
Proof.
  split; [|split; vm_compute; split; congruence || reflexivity].
  split; [done|]. split; [done|]. split_and!; repeat constructor; vm_compute; congruence || reflexivity.
Qed.

Lemma preemption_transparent_witness :
  placed_stacks TASKS_AT 0x204000 0x20D000 /\
  exists c1 s1, timer_irq_handler TASKS_AT in_kernel two_ready = Ret (c1, s1) /\ CURRENT_TASK s1 = 1 /\
    forall c2 s2, rtc (other_step TASKS_AT 0x204000 0x20D000 0) (c1, s1) (c2, s2) -> has_room TASKS_AT 0x204000 0x20D000 c2 s2 ->
      exists c3 s3, timer_irq_handler TASKS_AT c2 s2 = Ret (c3, s3) /\ (CURRENT_TASK s3 = 0 -> c3 = in_kernel).
Proof.
  assert (Hp : placed_stacks TASKS_AT 0x204000 0x20D000) by (vm_compute; intuition congruence).
  split; [exact Hp|].
  destruct (preemption_transparent TASKS_AT 0x204000 0x20D000 in_kernel two_ready Hp) as (c1 & s1 & E & Hr);
    [split; [reflexivity|split; [discriminate|reflexivity]]|exact in_kernel_room|].
  assert (Hc : match timer_irq_handler TASKS_AT in_kernel two_ready with Ret (_, s1) => CURRENT_TASK s1 = 1 | _ => False end)
    by (vm_compute; reflexivity).
  rewrite E in Hc. exists c1, s1. split; [exact E|]. split; [exact Hc|]. rewrite Hc in Hr. exact Hr.
Defined.


