(* ===== verification/Ahci.v ===== *)
(** * The AHCI driver (drivers/ahci.rs)

    [AhciPort::init], [send_command], the sector operations and
    [AhciDisk::init], against any controller ([Device] of the file [Mmio]) and
    any frame allocator.  Memory is identity mapped where the driver runs, so
    the addresses it stores through are the physical ones it hands out.  The
    last part reads the command the driver builds as the AHCI specification
    lays it out. *)

From S2P Require Import Prelude Bytes Frame Mem Mmio.

(** ** Registers *)

Definition HBA_GHC : Z := 0x04.
Definition HBA_PI : Z := 0x0C.
Definition GHC_AE : Z := Z.shiftl 1 31.
Definition GHC_HR : Z := Z.shiftl 1 0.
Definition PORT_CLB : Z := 0x00.
Definition PORT_CLBU : Z := 0x04.
Definition PORT_FB : Z := 0x08.
Definition PORT_FBU : Z := 0x0C.
Definition PORT_IS : Z := 0x10.
Definition PORT_CMD : Z := 0x18.
Definition PORT_TFD : Z := 0x20.
Definition PORT_CI : Z := 0x38.
Definition PORT_CMD_ST : Z := Z.shiftl 1 0.
Definition PORT_CMD_FRE : Z := Z.shiftl 1 4.
Definition PORT_CMD_CR : Z := Z.shiftl 1 15.
Definition PORT_TFD_BSY : Z := Z.shiftl 1 7.
Definition PORT_TFD_DRQ : Z := Z.shiftl 1 3.
Definition FIS_TYPE_H2D : Z := 0x27.
Definition CMD_READ_DMA_EXT : Z := 0x25.
Definition CMD_WRITE_DMA_EXT : Z := 0x35.

(** The address of a register of a port. *)
Definition port_reg (base port offset : Z) : Z := u64 (base + u64 (0x100 + port * 0x80 + offset)).

Record AhciPort : Type := mk_port { p_base : Z; p_port : Z; clb_phys : Z; fb_phys : Z }.
Record AhciDisk : Type := mk_disk { d_port : AhciPort; d_total_sectors : Z }.

(** One constructor per message of the source. *)
Inductive ahci_error : Type :=
| PortNotImplemented | TimeoutStoppingPort | NoFramesForCLB | NoFramesForFB
| PortBusyTimeout | CommandTimeout | DiskError | HBAResetTimeout | NoPortsImplemented.

(** ** The structures in memory *)

Record CmdHeader : Type := mk_header { dw0 : Z; h_dba_low : Z; h_dba_high : Z; prdtl : Z }.
Record PrdtEntry : Type := mk_prdt { dba_low : Z; dba_high : Z; dbc : Z }.
Record FisH2D : Type := mk_fis {
  fis_type : Z; pm_port : Z; command : Z; feature_lo : Z;
  lba_lo : Z; lba_mid : Z; lba_hi : Z; device : Z;
  lba_high : Z; feature_hi : Z; sector_count_lo : Z; sector_count_hi : Z;
  control : Z;
}.

(** Their bytes, [repr(C, packed)]. *)
Definition header_bytes (h : CmdHeader) : list Z :=
  mjoin (to_le 4 <$> [dw0 h; h_dba_low h; h_dba_high h; 0; 0; 0; prdtl h; 0]).
Definition prdt_bytes (e : PrdtEntry) : list Z := mjoin (to_le 4 <$> [dba_low e; dba_high e; 0; dbc e]).
Definition fis_bytes (f : FisH2D) : list Z :=
  [fis_type f; pm_port f; command f; feature_lo f; lba_lo f; lba_mid f; lba_hi f; device f;
   lba_high f; feature_hi f; sector_count_lo f; sector_count_hi f; 0; control f; 0; 0; 0; 0].

Definition make_fis (cmd lba count : Z) : FisH2D :=
  mk_fis FIS_TYPE_H2D 0 cmd 0
    (Z.land lba 0xFF) (Z.land (Z.shiftr lba 8) 0xFF) (Z.land (Z.shiftr lba 16) 0xFF) 0x40
    (Z.land (Z.shiftr lba 24) 0xFF) 0 (u8 count) 0 0.
Definition make_prdt (data_phys : Z) : PrdtEntry :=
  mk_prdt (u32 data_phys) (u32 (Z.shiftr data_phys 32)) (Z.lor (512 - 1) (Z.shiftl 1 31)).
Definition make_header (prdt_addr : Z) (write : bool) : CmdHeader :=
  mk_header (Z.lor (Z.lor (Z.shiftl 5 16) (Z.shiftl 1 0)) (if write then Z.shiftl 1 6 else 0))
    (u32 prdt_addr) (u32 (Z.shiftr prdt_addr 32)) 1.

(** ** The driver *)

Section ahci.
Context {V : Type} `{Device V}.

Definition hba_read (base offset : Z) (b : bus V) : Z * bus V := reg_read (u64 (base + offset)) b.
Definition hba_write (base offset v : Z) (b : bus V) : bus V := reg_write (u64 (base + offset)) v b.
Definition port_read (base port offset : Z) (b : bus V) : Z * bus V :=
  hba_read base (u64 (0x100 + port * 0x80 + offset)) b.
Definition port_write (base port offset v : Z) (b : bus V) : bus V :=
  hba_write base (u64 (0x100 + port * 0x80 + offset)) v b.

(** The three structures of command slot 0. *)
Definition build_command (p : AhciPort) (cmd lba count data_phys : Z) (write : bool) (b : bus V) : bus V :=
  let fis_addr := u64 (clb_phys p + 0x40) in
  let b := mem_write fis_addr (fis_bytes (make_fis cmd lba count)) b in
  let prdt_addr := u64 (clb_phys p + 0x80) in
  let b := mem_write prdt_addr (prdt_bytes (make_prdt data_phys)) b in
  mem_write (clb_phys p) (header_bytes (make_header prdt_addr write)) b.

Definition send_command (p : AhciPort) (cmd lba count data_phys : Z) (write : bool) (b : bus V)
  : result ahci_error () * bus V :=
  let busy v := negb (Z.land v (Z.lor PORT_TFD_BSY PORT_TFD_DRQ) =? 0) in
  let '(ready, b) := poll (Z.to_nat 100000) (port_reg (p_base p) (p_port p) PORT_TFD) busy b in
  if negb ready then (Err PortBusyTimeout, b) else
  let b := build_command p cmd lba count data_phys write b in
  let b := port_write (p_base p) (p_port p) PORT_IS 0xFFFF b in
  let b := port_write (p_base p) (p_port p) PORT_CI (Z.shiftl 1 0) b in
  let issued v := negb (Z.land v (Z.shiftl 1 0) =? 0) in
  let '(completed, b) := poll (Z.to_nat 1000000) (port_reg (p_base p) (p_port p) PORT_CI) issued b in
  if negb completed then (Err CommandTimeout, b) else
  let '(v, b) := port_read (p_base p) (p_port p) PORT_IS b in
  if negb (Z.land v 0x1 =? 0) then (Err DiskError, b) else (Ok (), b).

(** [buf] is the address of the caller's 512 bytes. *)
Definition read_sector (p : AhciPort) (lba buf : Z) (b : bus V) : result ahci_error () * bus V :=
  send_command p CMD_READ_DMA_EXT lba 1 buf false b.
Definition write_sector (p : AhciPort) (lba buf : Z) (b : bus V) : result ahci_error () * bus V :=
  send_command p CMD_WRITE_DMA_EXT lba 1 buf true b.

Context {A : Type} `{FrameAllocator A}.

(** The registers [init] sets up once it has its two frames. *)
Definition start_port (base port clb fb : Z) (b : bus V) : bus V :=
  let b := port_write base port PORT_CLB (u32 clb) b in
  let b := port_write base port PORT_CLBU (u32 (Z.shiftr clb 32)) b in
  let b := port_write base port PORT_FB (u32 fb) b in
  let b := port_write base port PORT_FBU (u32 (Z.shiftr fb 32)) b in
  let b := port_write base port PORT_IS 0xFFFF b in
  let '(cmd, b) := port_read base port PORT_CMD b in
  let b := port_write base port PORT_CMD (Z.lor cmd PORT_CMD_FRE) b in
  let '(cmd, b) := port_read base port PORT_CMD b in
  let b := port_write base port PORT_CMD (Z.lor cmd PORT_CMD_ST) b in
  (poll (Z.to_nat 100000) (port_reg base port PORT_TFD) (fun v => Z.land v 0x40 =? 0) b).2.

Definition AhciPort_init (base port : Z) (s : bus V * A) : outcome (result ahci_error AhciPort * (bus V * A)) :=
  let '(b, fa) := s in
  let '(pi, b) := hba_read base HBA_PI b in
  if Z.land pi (Z.shiftl 1 (port mod 32)) =? 0 then Ret (Err PortNotImplemented, (b, fa)) else
  let '(cmd, b) := port_read base port PORT_CMD b in
  let b := port_write base port PORT_CMD (Z.ldiff cmd PORT_CMD_ST) b in
  let running v := negb (Z.land v PORT_CMD_CR =? 0) in
  let '(stopped, b) := poll (Z.to_nat 100000) (port_reg base port PORT_CMD) running b in
  if negb stopped then Ret (Err TimeoutStoppingPort, (b, fa)) else
  r ← fa_alloc fa;
  match r with
  | (None, fa) => Ret (Err NoFramesForCLB, (b, fa))
  | (Some f, fa) =>
      let clb := start_address f in
      let b := mem_write clb (replicate (Z.to_nat 1024) 0) b in
      r ← fa_alloc fa;
      match r with
      | (None, fa) => Ret (Err NoFramesForFB, (b, fa))
      | (Some g, fa) =>
          let fb := start_address g in
          let b := mem_write fb (replicate (Z.to_nat 4096) 0) b in
          Ret (Ok (mk_port base port clb fb), (start_port base port clb fb b, fa))
      end
  end.

(** The lowest of the ports [ps] whose bit is set. *)
Fixpoint first_port (pi : Z) (ps : list Z) : option Z :=
  match ps with
  | [] => None
  | p :: ps => if negb (Z.land pi (Z.shiftl 1 p) =? 0) then Some p else first_port pi ps
  end.

Definition AhciDisk_init (base : Z) (s : bus V * A) : outcome (result ahci_error AhciDisk * (bus V * A)) :=
  let '(b, fa) := s in
  let '(ghc, b) := hba_read base HBA_GHC b in
  let b := hba_write base HBA_GHC (Z.lor ghc GHC_AE) b in
  let '(ghc, b) := hba_read base HBA_GHC b in
  let b := hba_write base HBA_GHC (Z.lor ghc GHC_HR) b in
  let resetting v := negb (Z.land v GHC_HR =? 0) in
  let '(reset, b) := poll (Z.to_nat 100000) (u64 (base + HBA_GHC)) resetting b in
  if negb reset then Ret (Err HBAResetTimeout, (b, fa)) else
  let '(ghc, b) := hba_read base HBA_GHC b in
  let b := hba_write base HBA_GHC (Z.lor ghc GHC_AE) b in
  let '(pi, b) := hba_read base HBA_PI b in
  match first_port pi (seqZ 0 32) with
  | None => Ret (Err NoPortsImplemented, (b, fa))
  | Some port_num =>
      let? (port, s) := AhciPort_init base port_num (b, fa) in
      Ret (Ok (mk_disk port 0), s)
  end.
End ahci.

(** ** The protocol of a command *)

Definition tfd_busy (v : Z) : bool := Z.testbit v 7 || Z.testbit v 3.
Definition slot_issued (v : Z) : bool := Z.testbit v 0.

(** What the driver writes between the two polls. *)
Definition command_writes (p : AhciPort) (cmd lba count data_phys : Z) (write : bool) : list access :=
  let reg := port_reg (p_base p) (p_port p) in
  [MemWrite (u64 (clb_phys p + 0x40)) (fis_bytes (make_fis cmd lba count));
   MemWrite (u64 (clb_phys p + 0x80)) (prdt_bytes (make_prdt data_phys));
   MemWrite (clb_phys p) (header_bytes (make_header (u64 (clb_phys p + 0x80)) write));
   RegWrite (reg PORT_IS) 0xFFFF; RegWrite (reg PORT_CI) 1].

(** The accesses of a command that ends with [r]: the task file is polled
    until it is idle, the structures are written before the slot is issued,
    the slot is polled until the controller clears it, and bit 0 of the
    interrupt status decides. *)
Definition command_run (p : AhciPort) (writes : list access) (r : result ahci_error ()) (tr : list access) : Prop :=
  let reg := port_reg (p_base p) (p_port p) in
  let idle := polled (Z.to_nat 100000) (reg PORT_TFD) tfd_busy in
  let complete := polled (Z.to_nat 1000000) (reg PORT_CI) slot_issued in
  match r with
  | Err PortBusyTimeout => idle false tr
  | Err CommandTimeout => exists t1 t2, idle true t1 /\ complete false t2 /\ tr = t1 ++ writes ++ t2
  | Err DiskError => exists t1 t2 v, idle true t1 /\ complete true t2 /\ Z.testbit v 0 = true /\
      tr = t1 ++ writes ++ t2 ++ [RegRead (reg PORT_IS) v]
  | Ok _ => exists t1 t2 v, idle true t1 /\ complete true t2 /\ Z.testbit v 0 = false /\
      tr = t1 ++ writes ++ t2 ++ [RegRead (reg PORT_IS) v]
  | _ => False
  end.

Lemma tfd_busy_eq v : negb (Z.land v (Z.lor PORT_TFD_BSY PORT_TFD_DRQ) =? 0) = tfd_busy v.
Proof.
  unfold tfd_busy, PORT_TFD_BSY, PORT_TFD_DRQ. rewrite <- !land_bit by lia. rewrite Z.land_lor_distr_r.
  destruct (Z.land v (Z.shiftl 1 7) =? 0) eqn:E1, (Z.land v (Z.shiftl 1 3) =? 0) eqn:E2; cbn [negb orb];
    apply negb_true_iff || apply negb_false_iff; zcases; rewrite ?Z.lor_eq_0_iff in *; lia.
Qed.

Lemma issued_eq v : negb (Z.land v (Z.shiftl 1 0) =? 0) = slot_issued v.
Proof. by apply land_bit. Qed.

Lemma polled_ext n a f g d tr : (forall v, f v = g v) -> polled n a f d tr -> polled n a g d tr.
Proof.
  intros E (vs & Hvs & Hd). exists vs. split; [eapply Forall_impl; [exact Hvs|]; intros v; by rewrite <- E|].
  destruct d; [|done]. destruct Hd as (v & ? & Hv & ?). exists v. by rewrite <- E.
Qed.

Section protocol.
Context {V : Type} `{Device V}.
Implicit Types b : bus V.

Lemma build_command_trace p cmd lba count data w b :
  b_trace (build_command p cmd lba count data w b) = b_trace b ++ take 3 (command_writes p cmd lba count data w).
Proof. unfold build_command, mem_write, command_writes. cbn [b_trace take]. by rewrite <- !app_assoc. Qed.

(** C36: For every controller, a command ends: with one of four results, after
    at most 1,100,006 accesses, which are the polls of the task file, the
    command in memory, the issue of the slot, the polls of the slot and the
    read of the interrupt status, in this order. *)
Theorem ahci_command_ends p cmd lba count data w b :
  exists tr, b_trace (send_command p cmd lba count data w b).2 = b_trace b ++ tr /\
    command_run p (command_writes p cmd lba count data w) (send_command p cmd lba count data w b).1 tr /\
    lenZ tr <= 1100006.
Proof.
  unfold send_command.
  destruct (poll _ _ _ b) as [ready b1] eqn:E1.
  pose proof (poll_trace (Z.to_nat 100000) (port_reg (p_base p) (p_port p) PORT_TFD)
    (fun v => negb (Z.land v (Z.lor PORT_TFD_BSY PORT_TFD_DRQ) =? 0)) b) as (t1 & Ht1 & Hp1).
  rewrite E1 in Ht1, Hp1. cbn [fst snd] in Ht1, Hp1. apply (polled_ext _ _ _ tfd_busy _ _ tfd_busy_eq) in Hp1.
  pose proof (polled_length _ _ _ _ _ Hp1) as Hl1.
  destruct ready; cbn [negb].
  2:{ exists t1. split; [exact Ht1|]. split; [exact Hp1|]. unfold lenZ. lia. }
  match goal with |- context [poll ?n ?a ?f ?x] =>
    destruct (poll n a f x) as [completed b2] eqn:E2; pose proof (poll_trace n a f x) as (t2 & Ht2 & Hp2) end.
  rewrite E2 in Ht2, Hp2. cbn [fst snd] in Ht2, Hp2. apply (polled_ext _ _ _ slot_issued _ _ issued_eq) in Hp2.
  pose proof (polled_length _ _ _ _ _ Hp2) as Hl2.
  unfold port_write, hba_write in Ht2. rewrite !reg_write_trace, build_command_trace, Ht1 in Ht2.
  assert (b_trace b2 = b_trace b ++ t1 ++ command_writes p cmd lba count data w ++ t2) as Hb2.
  { rewrite Ht2. unfold command_writes, port_reg. cbn [take]. by rewrite <- !app_assoc. }
  assert (lenZ (command_writes p cmd lba count data w) = 5) as Hw by reflexivity.
  destruct completed; cbn [negb].
  2:{ exists (t1 ++ command_writes p cmd lba count data w ++ t2). split; [exact Hb2|].
      split; [exists t1, t2; exact (conj Hp1 (conj Hp2 eq_refl))|]. rewrite !lenZ_app, Hw. unfold lenZ. lia. }
  unfold port_read, hba_read. destruct (reg_read _ b2) as [v b3] eqn:E3.
  pose proof (reg_read_trace (port_reg (p_base p) (p_port p) PORT_IS) b2) as Ht3. unfold port_reg in Ht3.
  rewrite E3 in Ht3. cbn [fst snd] in Ht3. rewrite Hb2, <- !app_assoc in Ht3.
  change 0x1 with (Z.shiftl 1 0). rewrite land_bit by lia.
  assert (lenZ (t1 ++ command_writes p cmd lba count data w ++ t2 ++ [RegRead (port_reg (p_base p) (p_port p) PORT_IS) v]) <= 1100006) as Hlen.
  { rewrite !lenZ_app, Hw. unfold lenZ in *. cbn [length]. lia. }
  destruct (Z.testbit v 0) eqn:Ev; cbn [fst snd];
    (eexists; split; [exact Ht3|]; split; [exists t1, t2, v; exact (conj Hp1 (conj Hp2 (conj Ev eq_refl)))|exact Hlen]).
Qed.

(** ** The ports *)

Lemma first_port_spec pi ps : match first_port pi ps with
  | Some p => exists l r, ps = l ++ p :: r /\ Forall (fun q => 0 <= q -> Z.testbit pi q = false) l /\ (0 <= p -> Z.testbit pi p = true)
  | None => Forall (fun q => 0 <= q -> Z.testbit pi q = false) ps
  end.
Proof.
  induction ps as [|p ps IH]; [constructor|]. cbn [first_port]. destruct (negb _) eqn:E.
  - exists [], ps. split; [done|]. split; [constructor|]. intros Hp. by rewrite land_bit in E.
  - assert (0 <= p -> Z.testbit pi p = false) as Hp by (intros Hp; by rewrite land_bit in E).
    destruct (first_port pi ps); [|by constructor]. destruct IH as (l & r & -> & Hl & Hz).
    exists (p :: l), r. split; [done|]. split; [by constructor|done].
Qed.

Context {A : Type} `{FrameAllocator A}.

(** What the frames of the allocator become when a port ends with [r]. *)
Definition port_frames (base port : Z) (fa fa' : A) (r : result ahci_error AhciPort) : Prop :=
  fa_inv fa' /\
  match r with
  | Ok p => exists f g, f ∈ fa_free fa /\ g ∈ fa_free fa /\ f <> g /\ fa_free fa' = fa_free fa ∖ {[f; g]} /\
      p = mk_port base port (start_address f) (start_address g)
  | Err NoFramesForFB => exists f, fa_free fa = {[f]} /\ fa_free fa' = ∅
  | Err NoFramesForCLB => fa_free fa = ∅ /\ fa' = fa
  | Err (PortNotImplemented | TimeoutStoppingPort) => fa' = fa
  | Err _ => False
  end.

Lemma start_port_within base port clb fb b : within 100020 b (start_port base port clb fb b).
Proof.
  unfold start_port, port_write, port_read, hba_write, hba_read.
  destruct (reg_read _ _) as [c1 b1] eqn:E1. destruct (reg_read _ (reg_write _ _ b1)) as [c2 b2] eqn:E2.
  destruct (poll _ _ _ _) as [d b3] eqn:E3. cbn [snd]. solve_within.
Qed.

Lemma AhciPort_init_spec base port b (fa : A) :
  fa_inv fa ->
  exists r b' fa', AhciPort_init base port (b, fa) = Ret (r, (b', fa')) /\ port_frames base port fa fa' r /\ within 200030 b b'.
Proof.
  intros Hi. unfold AhciPort_init, port_write, port_read, hba_write, hba_read.
  destruct (reg_read _ b) as [pi b1] eqn:E1.
  destruct (_ =? 0); [eexists _, _, _; split; [reflexivity|]; split; [exact (conj Hi eq_refl)|solve_within]|].
  destruct (reg_read _ b1) as [cmd b2] eqn:E2.
  destruct (poll _ _ _ _) as [[|] b3] eqn:E3; cbn [negb].
  2:{ eexists _, _, _. split; [reflexivity|]. split; [exact (conj Hi eq_refl)|solve_within]. }
  destruct (fa_alloc_ok fa Hi) as ([f|] & fa1 & -> & Hi1 & _ & Hr); cbn [mbind outcome_bind].
  2:{ destruct Hr as [Hr ->]. eexists _, _, _. split; [reflexivity|]. split; [exact (conj Hi (conj Hr eq_refl))|solve_within]. }
  destruct Hr as [Hf Hr].
  destruct (fa_alloc_ok fa1 Hi1) as ([g|] & fa2 & -> & Hi2 & _ & Hr2); cbv beta iota.
  - destruct Hr2 as [Hg Hr2]. rewrite Hr in Hg, Hr2. eexists _, _, _. split; [reflexivity|]. split.
    + clear E1 E2 E3. split; [exact Hi2|]. exists f, g. set_solver.
    + pose proof (start_port_within base port (start_address f) (start_address g)
        (mem_write (start_address g) (replicate (Z.to_nat 4096) 0) (mem_write (start_address f) (replicate (Z.to_nat 1024) 0) b3))) as Hs.
      solve_within.
  - destruct Hr2 as [Hr2 ->]. rewrite Hr in Hr2. eexists _, _, _. split; [reflexivity|]. split; [split; [exact Hi1|]|solve_within].
    clear E1 E2 E3. exists f. split; [|by rewrite Hr]. apply set_eq. intros x. destruct (decide (x = f)); set_solver.
Qed.

(** What a controller that was started as [d] is: its lowest implemented
    port, in two frames of its own. *)
Definition disk_started (base : Z) (tr : list access) (fa fa' : A) (d : AhciDisk) : Prop :=
  exists pi port, RegRead (u64 (base + HBA_PI)) pi ∈ tr /\ 0 <= port < 32 /\ Z.testbit pi port = true /\
    (forall q, 0 <= q < port -> Z.testbit pi q = false) /\
    port_frames base port fa fa' (Ok (d_port d)) /\ d_total_sectors d = 0.

(** For every controller the start of the disk ends within 300,040
    accesses.  It succeeds with the lowest port of the implemented ones and
    two different free frames, or fails with a message of its own; then the
    allocator is as it was, but for one case: the frame of the command list
    was the only free one, and it is not given back. *)
Theorem ahci_init_ends base b (fa : A) :
  fa_inv fa ->
  exists r b' fa', AhciDisk_init base (b, fa) = Ret (r, (b', fa')) /\ within 300040 b b' /\ fa_inv fa' /\
    match r with
    | Ok d => disk_started base (b_trace b') fa fa' d
    | Err NoFramesForFB => exists f, fa_free fa = {[f]} /\ fa_free fa' = ∅
    | Err (HBAResetTimeout | NoPortsImplemented | PortNotImplemented | TimeoutStoppingPort | NoFramesForCLB) => fa' = fa
    | Err _ => False
    end.
Proof.
  intros Hi. unfold AhciDisk_init, hba_write, hba_read.
  destruct (reg_read _ b) as [g1 b1] eqn:E1. destruct (reg_read _ (reg_write _ _ b1)) as [g2 b2] eqn:E2.
  destruct (poll _ _ _ _) as [[|] b3] eqn:E3; cbn [negb].
  2:{ eexists _, _, _. split; [reflexivity|]. split; [solve_within|exact (conj Hi eq_refl)]. }
  destruct (reg_read _ b3) as [g3 b4] eqn:E4. destruct (reg_read _ (reg_write _ _ b4)) as [pi b5] eqn:E5.
  assert (within 100010 b b5) as Hw by solve_within.
  pose proof (first_port_spec pi (seqZ 0 32)) as Hp.
  destruct (first_port pi (seqZ 0 32)) as [port|].
  2:{ eexists _, _, _. split; [reflexivity|]. split; [solve_within|exact (conj Hi eq_refl)]. }
  destruct Hp as (l & r & El & Hl & Hz).
  destruct (AhciPort_init_spec base port b5 fa Hi) as (res & b' & fa' & -> & [Hi' Hpf] & Hw').
  assert (within 300040 b b') as Hwb by (clear Hpf; solve_within).
  destruct res as [p|e]; cbn [try_bind].
  2:{ eexists _, _, _. split; [reflexivity|]. split; [exact Hwb|]. split; [exact Hi'|]. destruct e; try done. by destruct Hpf. }
  eexists _, _, _. split; [reflexivity|]. split; [exact Hwb|]. split; [exact Hi'|].
  assert (seqZ 0 32 !! length l = Some port) as Hk by (rewrite El; by apply list_lookup_middle).
  apply lookup_seqZ in Hk as [-> Hlt]. exists pi, (0 + Z.of_nat (length l)).
  split; [|split; [lia|split; [apply Hz; lia|split]]].
  - apply (within_elem _ _ _ _ Hw'). pose proof (reg_read_trace (u64 (base + HBA_PI)) (reg_write (u64 (base + HBA_GHC)) (Z.lor g3 GHC_AE) b4)) as Ht.
    rewrite E5 in Ht. cbn [fst snd] in Ht. rewrite Ht, elem_of_app. right. by apply list_elem_of_singleton.
  - intros q Hq. rewrite Forall_lookup in Hl. apply (Hl (Z.to_nat q)); [|lia].
    rewrite <- (lookup_app_l l ((0 + Z.of_nat (length l)) :: r)) by lia. rewrite <- El. apply lookup_seqZ. lia.
  - split; [|reflexivity]. split; [exact Hi'|]. exact Hpf.
Qed.
End protocol.

(** A controller that is always idle and completes a slot at once; ports 2
    and 5 are implemented. *)
#[local] Program Instance prompt_controller : Device () := {|
  dev_read a x := (if a =? HBA_PI then 0x24 else if a =? port_reg 0 2 PORT_TFD then 0x40 else 0, x);
  dev_write a v x := x;
|}.
Next Obligation. intros a x. cbn [fst]. repeat case_match; lia. Qed.

Lemma ahci_init_ends_witness :
  (exists r b' fa', AhciDisk_init 0 (mk_bus () ∅ [], machine_100) = Ret (r, (b', fa')) /\
    within 300040 (mk_bus () ∅ []) b' /\ fa_inv fa' /\
    match r with
    | Ok d => disk_started 0 (b_trace b') machine_100 fa' d
    | Err NoFramesForFB => exists f, fa_free machine_100 = {[f]} /\ fa_free fa' = ∅
    | Err (HBAResetTimeout | NoPortsImplemented | PortNotImplemented | TimeoutStoppingPort | NoFramesForCLB) => fa' = machine_100
    | Err _ => False
    end) /\
  match AhciDisk_init 0 (mk_bus () ∅ [], machine_100) with
  | Ret (Ok d, _) => p_port (d_port d) = 2
  | _ => False
  end.
Proof.
  split; [apply (ahci_init_ends 0 (mk_bus () ∅ []) machine_100); exact machine_100_wf|vm_compute; reflexivity].
Defined.

(** ** The command as the controller reads it *)

(** The command header of AHCI 1.3.1, section 4.2.2: the length of the command
    FIS in double words is in bits 4:0 of the first double word and its
    smallest legal value is 2, the direction in bit 6, the length of the
    region table in bits 31:16; the command table, which starts with the
    command FIS, is at the 128-byte aligned address of double words 2 and 3. *)
Record hba_header : Type := mk_hba_header { cfl : Z; hw : bool; hba_prdtl : Z; prdbc : Z; ctba : Z }.
Definition hba_fetch (m : memory) (a : Z) : hba_header :=
  let d0 := load_le 4 m a in
  let d2 := load_le 4 m (a + 8) in
  mk_hba_header (Z.land d0 31) (Z.testbit d0 6) (Z.shiftr d0 16) (load_le 4 m (a + 4))
    (Z.lor (Z.shiftl (Z.shiftr d2 7) 7) (Z.shiftl (load_le 4 m (a + 12)) 32)).
(** The host-to-device FIS: bit 7 of byte 1 marks a command, the count is in
    bytes 12 and 13. *)
Definition fis_is_command (m : memory) (a : Z) : bool := Z.testbit (load8 m (a + 1)) 7.
Definition fis_count (m : memory) (a : Z) : Z := load8 m (a + 12) + 256 * load8 m (a + 13).

Lemma header_byte p w : Forall byte (header_bytes (make_header p w)).
Proof. unfold header_bytes. cbn [fmap list_fmap mjoin list_join]. rewrite app_nil_r. repeat apply Forall_app_2; apply to_le_bytes. Qed.

Lemma header_fields p w : 0 <= p < two32 ->
  field (header_bytes (make_header p w)) 0 4 = (if w then 0x50041 else 0x50001) /\
  field (header_bytes (make_header p w)) 4 4 = p /\
  field (header_bytes (make_header p w)) 8 4 = 0 /\
  field (header_bytes (make_header p w)) 12 4 = 0.
Proof.
  intros Hp. split; [by destruct w|]. split; [|split; [|reflexivity]].
  - change (from_le (to_le 4 (u32 p)) = p). rewrite u32_small by done. by apply from_to_le_small.
  - change (from_le (to_le 4 (u32 (Z.shiftr p 32))) = 0). rewrite Z.shiftr_div_pow2, Z.div_small by lia. reflexivity.
Qed.

Section misread.
Context {V : Type} `{Device V}.

(** What the controller makes of a command, per the AHCI specification, for
    a command list below 4 GiB: a command FIS of one double word, which is
    illegal, five regions, and a command table at address 0; the FIS the driver
    wrote is not marked as a command and asks for no sectors. *)
Theorem ahci_command_misread (p : AhciPort) cmd lba count data w (b : bus V) :
  0 <= clb_phys p -> clb_phys p + 0x100 <= two32 ->
  let m := b_mem (build_command p cmd lba count data w b) in
  hba_fetch m (clb_phys p) = mk_hba_header 1 w 5 (clb_phys p + 0x80) 0 /\
  fis_is_command m (clb_phys p + 0x40) = false /\ fis_count m (clb_phys p + 0x40) = 0.
Proof.
  intros H0 H1 m. unfold m, build_command, mem_write. cbn [b_mem].
  rewrite !u64_small by lia.
  assert (forall k, 0 <= k < 18 -> load8 (store_bytes (store_bytes (store_bytes (b_mem b) (clb_phys p + 0x40)
      (fis_bytes (make_fis cmd lba count))) (clb_phys p + 0x80) (prdt_bytes (make_prdt data)))
      (clb_phys p) (header_bytes (make_header (clb_phys p + 0x80) w))) (clb_phys p + 0x40 + k)
    = u8 (default 0 (lookupZ (fis_bytes (make_fis cmd lba count)) k))) as Hf.
  { intros k Hk. rewrite !load8_store_bytes.
    change (lenZ (header_bytes _)) with 32. change (lenZ (prdt_bytes _)) with 16. change (lenZ (fis_bytes _)) with 18.
    zcases; try lia. by replace (clb_phys p + 0x40 + k - (clb_phys p + 0x40)) with k by lia. }
  split; [|split].
  - pose proof (fun m off => load_le_stored 4 m (clb_phys p) _ off (header_byte (clb_phys p + 0x80) w)) as Hh.
    change (lenZ (header_bytes _)) with 32 in Hh.
    unfold hba_fetch. pose proof (fun m => Hh m 0) as Hh0. rewrite Z.add_0_r in Hh0. rewrite Hh0, !Hh by lia.
    change (Z.of_nat 4) with 4.
    destruct (header_fields (clb_phys p + 0x80) w) as (-> & -> & -> & ->); [lia|]. by destruct w.
  - unfold fis_is_command. by rewrite Hf by lia.
  - unfold fis_count. by rewrite !Hf by lia.
Qed.
End misread.

Lemma ahci_command_misread_witness :
  let p := mk_port 0 0 0x5000 0x6000 in
  let m := b_mem (build_command p CMD_READ_DMA_EXT 7 1 0x9000 false (mk_bus () ∅ [])) in
  hba_fetch m 0x5000 = mk_hba_header 1 false 5 0x5080 0 /\ fis_is_command m 0x5040 = false /\ fis_count m 0x5040 = 0.
Proof.
  exact (ahci_command_misread (mk_port 0 0 0x5000 0x6000) CMD_READ_DMA_EXT 7 1 0x9000 false (mk_bus () ∅ [])
    ltac:(cbn [clb_phys]; lia) ltac:(cbn [clb_phys]; lia)).
Defined.
