(* ===== verification/Ide.v ===== *)
(** * Disks

    [drivers/ide.rs]: the polling driver of the primary IDE channel, run
    against a drive in programmed-I/O mode, and the interface of a disk of
    512-byte sectors that the file systems are proved against. *)

From S2P Require Import Prelude Bytes.

Definition PRIMARY_BASE : Z := 0x1F0.
Definition DATA : Z := 0.
Definition SECTOR_COUNT : Z := 2.
Definition LBA_LOW : Z := 3.
Definition LBA_MID : Z := 4.
Definition LBA_HIGH : Z := 5.
Definition DRIVE_HEAD : Z := 6.
Definition STATUS : Z := 7.
Definition COMMAND : Z := 7.
Definition SR_BSY : Z := 0x80.
Definition SR_DRDY : Z := 0x40.
Definition SR_DRQ : Z := 0x08.
Definition SR_ERR : Z := 0x01.
Definition CMD_READ_SECTORS : Z := 0x20.
Definition CMD_WRITE_SECTORS : Z := 0x30.
Definition CMD_IDENTIFY : Z := 0xEC.
Definition SECTOR_SIZE : Z := 512.

(** ** The drive

    What the ATA standard says of a master drive that answers at once: a
    command register, five address registers, and a data register through
    which 256 words of a sector pass. *)

Inductive phase : Type :=
| Idle
| Sending (ws : list Z)
| Receiving (lba : Z) (ws : list Z)
| Failed.

Record drive : Type := mk_drive {
  medium : list (list Z);
  r_count : Z; r_low : Z; r_mid : Z; r_high : Z; r_head : Z;
  ph : phase;
}.

Definition with_phase (p : phase) (d : drive) : drive :=
  mk_drive (medium d) (r_count d) (r_low d) (r_mid d) (r_high d) (r_head d) p.
Definition selected (d : drive) : bool := Z.land (r_head d) 0x10 =? 0.
Definition addressed (d : drive) : Z :=
  r_low d + 256 * r_mid d + 65536 * r_high d + 16777216 * Z.land (r_head d) 0x0F.

Fixpoint words (bs : list Z) : list Z :=
  match bs with
  | lo :: hi :: bs' => lo + 256 * hi :: words bs'
  | _ => []
  end.
Fixpoint unwords (ws : list Z) : list Z :=
  match ws with
  | [] => []
  | w :: ws' => w mod 256 :: w / 256 :: unwords ws'
  end.
(** The identification block: the sector count in words 60 and 61. *)
Definition identity (d : drive) : list Z :=
  replicate 60 0 ++ [lenZ (medium d) mod 65536; lenZ (medium d) / 65536] ++ replicate 194 0.

Definition issue (cmd : Z) (d : drive) : drive :=
  if negb (selected d) then d
  else if cmd =? CMD_READ_SECTORS then
    match lookupZ (medium d) (addressed d) with
    | Some sector => with_phase (Sending (words sector)) d
    | None => with_phase Failed d
    end
  else if cmd =? CMD_WRITE_SECTORS then
    if addressed d <? lenZ (medium d) then with_phase (Receiving (addressed d) []) d else with_phase Failed d
  else if cmd =? CMD_IDENTIFY then with_phase (Sending (identity d)) d
  else with_phase Failed d.

Definition status (d : drive) : Z :=
  if negb (selected d) then 0
  else match ph d with
       | Idle => SR_DRDY
       | Sending _ | Receiving _ _ => Z.lor SR_DRDY SR_DRQ
       | Failed => Z.lor SR_DRDY SR_ERR
       end.

Definition inb (port : Z) (d : drive) : Z := if port =? PRIMARY_BASE + STATUS then status d else 0.
Definition outb (port v : Z) (d : drive) : drive :=
  let r := port - PRIMARY_BASE in
  if r =? SECTOR_COUNT then mk_drive (medium d) v (r_low d) (r_mid d) (r_high d) (r_head d) (ph d)
  else if r =? LBA_LOW then mk_drive (medium d) (r_count d) v (r_mid d) (r_high d) (r_head d) (ph d)
  else if r =? LBA_MID then mk_drive (medium d) (r_count d) (r_low d) v (r_high d) (r_head d) (ph d)
  else if r =? LBA_HIGH then mk_drive (medium d) (r_count d) (r_low d) (r_mid d) v (r_head d) (ph d)
  else if r =? DRIVE_HEAD then mk_drive (medium d) (r_count d) (r_low d) (r_mid d) (r_high d) v (ph d)
  else if r =? COMMAND then issue v d
  else d.
Definition inw (port : Z) (d : drive) : Z * drive :=
  match ph d with
  | Sending (w :: ws) => (w, with_phase (match ws with [] => Idle | _ => Sending ws end) d)
  | _ => (0xFFFF, d)
  end.
Definition outw (port v : Z) (d : drive) : drive :=
  match ph d with
  | Receiving lba ws =>
      let ws := ws ++ [v] in
      if lenZ ws =? 256 then
        mk_drive (insertZ lba (unwords ws) (medium d)) (r_count d) (r_low d) (r_mid d) (r_high d) (r_head d) Idle
      else with_phase (Receiving lba ws) d
  | _ => d
  end.

(** ** The driver *)

Definition TIMEOUT : Z := 100000.

(** The polling loops give up after [timeout] rounds. *)
Fixpoint wait_ready_loop (timeout : nat) (base : Z) (d : drive) : result string unit :=
  match timeout with
  | O => Err "disk timeout during ready wait"%string
  | S timeout' =>
      let status := inb (base + STATUS) d in
      if (Z.land status SR_BSY =? 0) && negb (Z.land status SR_DRDY =? 0) then Ok tt
      else if negb (Z.land status SR_ERR =? 0) then Err "disk error during ready wait"%string
      else wait_ready_loop timeout' base d
  end.
Definition wait_ready (base : Z) (d : drive) : result string unit := wait_ready_loop (Z.to_nat TIMEOUT) base d.
Fixpoint wait_drq_loop (timeout : nat) (base : Z) (d : drive) : result string unit :=
  match timeout with
  | O => Err "disk timeout during DRQ wait"%string
  | S timeout' =>
      let status := inb (base + STATUS) d in
      if negb (Z.land status SR_DRQ =? 0) then Ok tt
      else if negb (Z.land status SR_ERR =? 0) then Err "disk error during DRQ wait"%string
      else wait_drq_loop timeout' base d
  end.
Definition wait_drq (base : Z) (d : drive) : result string unit := wait_drq_loop (Z.to_nat TIMEOUT) base d.

Definition select_drive_lba (base lba : Z) (slave : bool) (d : drive) : drive :=
  let head := Z.lor (Z.lor 0xE0 (Z.land (Z.shiftr lba 24) 0x0F)) (if slave then 0x10 else 0x00) in
  let d := outb (base + DRIVE_HEAD) head d in
  let d := outb (base + LBA_LOW) (Z.land lba 0xFF) d in
  let d := outb (base + LBA_MID) (Z.land (Z.shiftr lba 8) 0xFF) d in
  outb (base + LBA_HIGH) (Z.land (Z.shiftr lba 16) 0xFF) d.

Record IdeDisk : Type := mk_ide { base : Z; slave : bool; total_sectors : Z }.

Definition primary_master : IdeDisk := mk_ide PRIMARY_BASE false 0.
Definition primary_slave : IdeDisk := mk_ide PRIMARY_BASE true 0.
Definition is_present (disk : IdeDisk) : bool := 0 <? total_sectors disk.

Fixpoint read_words (idxs : list Z) (base : Z) (buf : list Z) (d : drive) : outcome (list Z * drive) :=
  match idxs with
  | [] => Ret (buf, d)
  | i :: idxs' =>
      let '(word, d) := inw (base + DATA) d in
      buf ← assign buf (i * 2) (u8 word);
      buf ← assign buf (i * 2 + 1) (u8 (Z.shiftr word 8));
      read_words idxs' base buf d
  end.
Fixpoint write_words (idxs : list Z) (base : Z) (buf : list Z) (d : drive) : outcome drive :=
  match idxs with
  | [] => Ret d
  | i :: idxs' =>
      lo ← index buf (i * 2);
      hi ← index buf (i * 2 + 1);
      write_words idxs' base buf (outw (base + DATA) (Z.lor lo (u16 (Z.shiftl hi 8))) d)
  end.

Definition read_sector (disk : IdeDisk) (lba : Z) (buf : list Z) (d : drive) : outcome (result string (list Z) * drive) :=
  if total_sectors disk <=? lba then Ret (Err "LBA out of range"%string, d)
  else
    let d := select_drive_lba (base disk) lba (slave disk) d in
    let d := outb (base disk + SECTOR_COUNT) 1 d in
    let d := outb (base disk + COMMAND) CMD_READ_SECTORS d in
    match wait_ready (base disk) d with
    | Err e => Ret (Err e, d)
    | Ok _ =>
        match wait_drq (base disk) d with
        | Err e => Ret (Err e, d)
        | Ok _ => x ← read_words (seqZ 0 256) (base disk) buf d; Ret (Ok x.1, x.2)
        end
    end.

Definition write_sector (disk : IdeDisk) (lba : Z) (buf : list Z) (d : drive) : outcome (result string unit * drive) :=
  if total_sectors disk <=? lba then Ret (Err "LBA out of range"%string, d)
  else
    let d := select_drive_lba (base disk) lba (slave disk) d in
    let d := outb (base disk + SECTOR_COUNT) 1 d in
    let d := outb (base disk + COMMAND) CMD_WRITE_SECTORS d in
    match wait_ready (base disk) d with
    | Err e => Ret (Err e, d)
    | Ok _ =>
        match wait_drq (base disk) d with
        | Err e => Ret (Err e, d)
        | Ok _ =>
            d ← write_words (seqZ 0 256) (base disk) buf d;
            Ret (wait_ready (base disk) d, d)
        end
    end.

(** The wait for BSY to clear. *)
Fixpoint wait_not_busy (timeout : nat) (base : Z) (d : drive) : bool :=
  match timeout with
  | O => false
  | S timeout' => if Z.land (inb (base + STATUS) d) SR_BSY =? 0 then true else wait_not_busy timeout' base d
  end.
Fixpoint read_identify (idxs : list Z) (base : Z) (identify : list Z) (d : drive) : outcome (list Z * drive) :=
  match idxs with
  | [] => Ret (identify, d)
  | i :: idxs' =>
      let '(word, d) := inw (base + DATA) d in
      identify ← assign identify i word;
      read_identify idxs' base identify d
  end.

Definition ide_init (disk : IdeDisk) (d : drive) : outcome (result string unit * IdeDisk * drive) :=
  let d := select_drive_lba (base disk) 0 (slave disk) d in
  let d := outb (base disk + SECTOR_COUNT) 0 d in
  let d := outb (base disk + LBA_LOW) 0 d in
  let d := outb (base disk + LBA_MID) 0 d in
  let d := outb (base disk + LBA_HIGH) 0 d in
  let d := outb (base disk + COMMAND) CMD_IDENTIFY d in
  let absent := mk_ide (base disk) (slave disk) 0 in
  if negb (wait_not_busy (Z.to_nat TIMEOUT) (base disk) d) then Ret (Ok tt, absent, d)
  else
    let status := inb (base disk + STATUS) d in
    if (status =? 0x00) || negb (Z.land status SR_ERR =? 0) then Ret (Ok tt, absent, d)
    else
      match wait_drq (base disk) d with
      | Err e => Ret (Err e, disk, d)
      | Ok _ =>
          x ← read_identify (seqZ 0 256) (base disk) (replicate 256 0) d;
          let '(identify, d) := x in
          w61 ← index identify 61;
          w60 ← index identify 60;
          Ret (Ok tt, mk_ide (base disk) (slave disk) (Z.lor (u32 (Z.shiftl w61 16)) w60), d)
      end.

Fixpoint read_sectors (idxs : list Z) (disk : IdeDisk) (start_lba : Z) (buf : list Z) (d : drive)
  : outcome (result string (list Z) * drive) :=
  match idxs with
  | [] => Ret (Ok buf, d)
  | i :: idxs' =>
      let offset := i * SECTOR_SIZE in
      if lenZ buf <? offset + SECTOR_SIZE then Ret (Err "buffer too small"%string, d)
      else
        let? (sector, d) := read_sector disk (u32 (start_lba + i)) (replicate (Z.to_nat SECTOR_SIZE) 0) d in
        buf ← copy_into buf offset (offset + SECTOR_SIZE) sector;
        read_sectors idxs' disk start_lba buf d
  end.

(** ** The interface of a disk *)

Class BlockDevice (D : Type) : Type := {
  bd_read : Z -> D -> outcome (result string (list Z) * D);
  bd_write : Z -> list Z -> D -> outcome (result string unit * D);
  bd_inv : D -> Prop;
  bd_total : D -> Z;
  bd_sector : D -> Z -> list Z;
  bd_total_range : forall d, bd_inv d -> 0 <= bd_total d < two32;
  bd_sector_ok : forall d lba, bd_inv d -> 0 <= lba < bd_total d ->
    lenZ (bd_sector d lba) = SECTOR_SIZE /\ Forall byte (bd_sector d lba);
  bd_read_ok : forall d lba, bd_inv d -> 0 <= lba < bd_total d ->
    exists d', bd_read lba d = Ret (Ok (bd_sector d lba), d') /\ bd_inv d' /\ bd_total d' = bd_total d /\
      forall x, 0 <= x < bd_total d -> bd_sector d' x = bd_sector d x;
  bd_read_out : forall d lba, bd_inv d -> bd_total d <= lba -> bd_read lba d = Ret (Err "LBA out of range"%string, d);
  bd_write_ok : forall d lba buf, bd_inv d -> 0 <= lba < bd_total d -> lenZ buf = SECTOR_SIZE -> Forall byte buf ->
    exists d', bd_write lba buf d = Ret (Ok tt, d') /\ bd_inv d' /\ bd_total d' = bd_total d /\
      forall x, 0 <= x < bd_total d -> bd_sector d' x = if x =? lba then buf else bd_sector d x;
  bd_write_out : forall d lba buf, bd_inv d -> bd_total d <= lba -> bd_write lba buf d = Ret (Err "LBA out of range"%string, d);
}.

(** ** The driver discharges it *)

Lemma land_mod x k : 0 <= k -> Z.land x (Z.ones k) = x mod 2 ^ k.
Proof. intros. by apply Z.land_ones. Qed.

Definition located (lba : Z) (d d' : drive) : Prop :=
  medium d' = medium d /\ ph d' = ph d /\ selected d' = true /\ addressed d' = lba.

Lemma select_located lba d : 0 <= lba < 2 ^ 28 -> located lba d (select_drive_lba PRIMARY_BASE lba false d).
Proof.
  intros Hl. unfold select_drive_lba. set (h := Z.lor (Z.lor 0xE0 _) 0x00).
  assert (Hh : Z.land h 0x10 = 0 /\ Z.land h 0x0F = lba / 16777216 mod 16).
  { unfold h. rewrite Z.lor_0_r, !Z.land_lor_distr_l, <- !Z.land_assoc. change (Z.land 0x0F 0x10) with 0.
    change (Z.land 0x0F 0x0F) with (Z.ones 4). rewrite Z.land_0_r, land_mod, Z.shiftr_div_pow2 by lia. done. }
  clearbody h. destruct Hh as [H1 H2].
  split; [done|]. split; [done|]. split; [unfold selected; simpl; by rewrite H1|].
  change 0xFF with (Z.ones 8). rewrite !land_mod, !Z.shiftr_div_pow2 by lia.
  change (2 ^ 8) with 256. change (2 ^ 16) with 65536. unfold addressed. simpl. rewrite H2. dlia.
Qed.

Lemma timeout_S : exists n, Z.to_nat TIMEOUT = S n.
Proof. exists (Z.to_nat (TIMEOUT - 1)). unfold TIMEOUT. lia. Qed.

Lemma wait_ready_ok d : selected d = true -> ph d <> Failed -> wait_ready PRIMARY_BASE d = Ok tt.
Proof.
  intros Hs Hp. unfold wait_ready. destruct timeout_S as [n ->]. cbn [wait_ready_loop].
  change (inb (PRIMARY_BASE + STATUS) d) with (status d). unfold status. rewrite Hs. by destruct (ph d).
Qed.
Lemma wait_drq_ok d :
  selected d = true -> (exists ws, ph d = Sending ws) \/ (exists l ws, ph d = Receiving l ws) -> wait_drq PRIMARY_BASE d = Ok tt.
Proof.
  intros Hs Hp. unfold wait_drq. destruct timeout_S as [n ->]. cbn [wait_drq_loop].
  change (inb (PRIMARY_BASE + STATUS) d) with (status d). unfold status. rewrite Hs.
  by destruct Hp as [[? ->]|(? & ? & ->)].
Qed.

Lemma length_words bs : length (words bs) = (length bs / 2)%nat.
Proof.
  assert (E : forall n, forall bs, (length bs <= n)%nat -> length (words bs) = (length bs / 2)%nat).
  { induction n as [|n IH]; intros [|a [|b l]] Hl; simpl in Hl; try done; try lia.
    cbn [words length]. rewrite IH by lia. change (S (S (length l))) with (2 + length l)%nat.
    replace (2 + length l)%nat with (length l + 1 * 2)%nat by lia. rewrite Nat.div_add by lia. lia. }
  by apply (E (length bs)).
Qed.

Lemma unwords_words bs : Forall byte bs -> Nat.Even (length bs) -> unwords (words bs) = bs.
Proof.
  assert (E : forall n, forall bs, (length bs <= n)%nat -> Forall byte bs -> Nat.Even (length bs) -> unwords (words bs) = bs).
  { induction n as [|n IH]; intros [|a [|b l]] Hl Hb [k Hk]; simpl in Hl, Hk; try done; try lia.
    apply Forall_cons in Hb as [Ha Hb]. apply Forall_cons in Hb as [Hb' Hb]. unfold byte in *.
    cbn [words unwords]. rewrite IH; [f_equal; [dlia|f_equal; dlia]|lia|done|exists (k - 1)%nat; lia]. }
  by apply (E (length bs)).
Qed.
Lemma length_unwords ws : length (unwords ws) = (2 * length ws)%nat.
Proof. induction ws; simpl; lia. Qed.

Definition word (w : Z) : Prop := 0 <= w < 65536.

Lemma words_range bs : Forall byte bs -> Forall word (words bs).
Proof.
  assert (E : forall n, forall bs, (length bs <= n)%nat -> Forall byte bs -> Forall word (words bs)).
  { induction n as [|n IH]; intros [|a [|b l]] Hl Hb; simpl in Hl; try (by constructor); try lia.
    apply Forall_cons in Hb as [Ha Hb]. apply Forall_cons in Hb as [Hb' Hb]. unfold byte, word in *.
    cbn [words]. constructor; [lia|]. apply IH; [lia|done]. }
  by apply (E (length bs)).
Qed.

Lemma read_words_spec ws i buf d :
  ws <> [] -> ph d = Sending ws -> Forall word ws -> 0 <= i -> 2 * (i + lenZ ws) <= lenZ buf ->
  read_words (seqZ i (lenZ ws)) PRIMARY_BASE buf d = Ret (write_at buf (2 * i) (unwords ws), with_phase Idle d).
Proof.
  revert i buf d. induction ws as [|w ws IH]; [done|]. intros i buf d _ Hph Hw Hi Hl.
  apply Forall_cons in Hw as [Hw Hws]. unfold word in Hw. rewrite lenZ_cons in *. pose proof (lenZ_nonneg ws).
  rewrite (seqZ_cons i) by lia. replace (Z.pred (lenZ ws + 1)) with (lenZ ws) by lia. cbn [read_words].
  unfold inw. rewrite Hph. cbv iota.
  rewrite assign_lt, bind_Ret by lia. rewrite assign_lt, bind_Ret by (rewrite lenZ_insertZ; lia).
  rewrite Z.shiftr_div_pow2 by lia. change (2 ^ 8) with 256. unfold u8. rewrite (Z.mod_small (w / 256)) by dlia.
  replace (i * 2 + 1) with (2 * i + 1) by lia. replace (i * 2) with (2 * i) by lia.
  assert (Hwr : forall rest, 2 * i + 2 + lenZ rest <= lenZ buf ->
    write_at (insertZ (2 * i + 1) (w / 256) (insertZ (2 * i) (w mod 256) buf)) (2 * Z.succ i) rest =
    write_at buf (2 * i) (w mod 256 :: w / 256 :: rest)).
  { intros rest Hr. replace (2 * Z.succ i) with (2 * i + 1 + 1) by lia.
    rewrite write_at_cons by (rewrite ?lenZ_insertZ; lia). apply write_at_cons; [lia|rewrite lenZ_cons; lia]. }
  destruct ws as [|w2 ws].
  - simpl. rewrite <- Hwr by (rewrite lenZ_nil; lia). by rewrite write_at_nil.
  - rewrite IH by (done || rewrite ?lenZ_insertZ; lia). rewrite Hwr; [done|].
    unfold lenZ in *. rewrite length_unwords. simpl in *. lia.
Qed.

Lemma join_bytes lo hi : byte lo -> byte hi -> Z.lor lo (u16 (Z.shiftl hi 8)) = lo + 256 * hi.
Proof.
  unfold byte. intros Hlo Hhi. rewrite Z.shiftl_mul_pow2 by lia. unfold u16. rewrite Z.mod_small by lia.
  rewrite (lor_add lo hi 8) by lia. lia.
Qed.

Lemma words_app_even a b : Nat.Even (length a) -> words (a ++ b) = words a ++ words b.
Proof.
  assert (E : forall n, forall a, (length a <= n)%nat -> Nat.Even (length a) -> words (a ++ b) = words a ++ words b).
  { induction n as [|n IH]; intros [|x [|y l]] Hl [k Hk]; simpl in Hl, Hk; try done; try lia.
    cbn [words app]. f_equal. apply IH; [lia|]. exists (k - 1)%nat. lia. }
  by apply (E (length a)).
Qed.

(** The words of [post] pass from the buffer to the drive. *)
Lemma write_words_spec n pre post acc lba d :
  length post = (2 * S n)%nat -> Forall byte post -> ph d = Receiving lba acc -> lenZ acc + Z.of_nat (S n) = 256 ->
  lenZ pre = 2 * lenZ acc ->
  write_words (seqZ (lenZ acc) (Z.of_nat (S n))) PRIMARY_BASE (pre ++ post) d =
    Ret (mk_drive (insertZ lba (unwords (acc ++ words post)) (medium d))
           (r_count d) (r_low d) (r_mid d) (r_high d) (r_head d) Idle).
Proof.
  revert pre post acc d. induction n as [|n IH]; intros pre post acc d Hlen Hb Hph Hacc Hpre;
    destruct post as [|lo [|hi post]]; simpl in Hlen; try lia;
    pose proof (lenZ_nonneg acc); apply Forall_cons in Hb as [Hlo Hb]; apply Forall_cons in Hb as [Hhi Hb];
    rewrite (seqZ_cons (lenZ acc)) by lia; cbn [write_words]; unfold index.
  all: assert (E1 : lookupZ (pre ++ lo :: hi :: post) (lenZ acc * 2) = Some lo) by
    (unfold lookupZ, lenZ in *; destruct (Z.ltb_spec (Z.of_nat (length acc) * 2) 0); [lia|];
     rewrite lookup_app_r by lia; by replace (Z.to_nat (Z.of_nat (length acc) * 2) - length pre)%nat with 0%nat by lia).
  all: assert (E2 : lookupZ (pre ++ lo :: hi :: post) (lenZ acc * 2 + 1) = Some hi) by
    (unfold lookupZ, lenZ in *; destruct (Z.ltb_spec (Z.of_nat (length acc) * 2 + 1) 0); [lia|];
     rewrite lookup_app_r by lia; by replace (Z.to_nat (Z.of_nat (length acc) * 2 + 1) - length pre)%nat with 1%nat by lia).
  all: rewrite E1, bind_Ret, E2, bind_Ret, join_bytes by done; unfold outw; rewrite Hph; cbv zeta; rewrite lenZ_snoc.
  - destruct (Z.eqb_spec (lenZ acc + 1) 256); [|lia]. replace (Z.pred 1) with 0 by lia.
    destruct post; [|simpl in Hlen; lia]. reflexivity.
  - destruct (Z.eqb_spec (lenZ acc + 1) 256); [lia|].
    replace (Z.pred (Z.of_nat (S (S n)))) with (Z.of_nat (S n)) by lia.
    replace (Z.succ (lenZ acc)) with (lenZ (acc ++ [lo + 256 * hi])) by (rewrite lenZ_snoc; lia).
    replace (pre ++ lo :: hi :: post) with ((pre ++ [lo; hi]) ++ post) by (by rewrite <- app_assoc).
    rewrite IH; [| lia | done | done | rewrite lenZ_snoc; lia | rewrite lenZ_app, lenZ_snoc; change (lenZ [lo; hi]) with 2; lia].
    cbn [words]. by rewrite <- app_assoc.
Qed.

Definition sector_ok (bs : list Z) : Prop := lenZ bs = SECTOR_SIZE /\ Forall byte bs.
Definition ide_ok (x : IdeDisk * drive) : Prop :=
  base x.1 = PRIMARY_BASE /\ slave x.1 = false /\ total_sectors x.1 = lenZ (medium x.2) /\
  lenZ (medium x.2) <= 2 ^ 28 /\ Forall sector_ok (medium x.2).

Lemma even_512 (bs : list Z) : lenZ bs = SECTOR_SIZE -> Nat.Even (length bs).
Proof. intros E. exists 256%nat. unfold lenZ, SECTOR_SIZE in *. lia. Qed.

Lemma words_512 bs : sector_ok bs -> lenZ (words bs) = 256 /\ Forall word (words bs) /\ unwords (words bs) = bs.
Proof.
  intros [Hl Hb]. split; [|split; [by apply words_range|apply unwords_words; [done|by apply even_512]]].
  unfold lenZ, SECTOR_SIZE in *. rewrite length_words. replace (length bs) with 512%nat by lia. done.
Qed.

Lemma read_sector_spec disk d lba buf sector :
  ide_ok (disk, d) -> lookupZ (medium d) lba = Some sector -> lenZ buf = SECTOR_SIZE ->
  exists d', read_sector disk lba buf d = Ret (Ok sector, d') /\ medium d' = medium d.
Proof.
  intros (Hb & Hs & Ht & Hm & Hall) Hl Hbuf. simpl in *. pose proof (lookupZ_Some_lt _ _ _ Hl) as Hr.
  unfold read_sector. rewrite Hb, Hs, Ht. destruct (Z.leb_spec (lenZ (medium d)) lba); [lia|].
  destruct (select_located lba d ltac:(lia)) as (Hmed & Hph & Hsel & Hadr).
  set (d1 := select_drive_lba _ _ _ _) in *. clearbody d1.
  set (d2 := outb (PRIMARY_BASE + SECTOR_COUNT) 1 d1). change (outb (PRIMARY_BASE + COMMAND) CMD_READ_SECTORS d2) with (issue CMD_READ_SECTORS d2).
  assert (H2 : medium d2 = medium d /\ selected d2 = true /\ addressed d2 = lba) by (by split_and!).
  clearbody d2. destruct H2 as (Hm2 & Hs2 & Ha2). unfold issue. rewrite Hs2, Ha2, Hm2, Hl. cbn [negb].
  change (CMD_READ_SECTORS =? CMD_READ_SECTORS) with true. cbv iota.
  pose proof (lookupZ_Forall _ _ _ _ Hall Hl) as Hok. destruct (words_512 sector Hok) as (Hw1 & Hw2 & Hw3).
  set (d3 := with_phase _ d2). rewrite wait_ready_ok, wait_drq_ok by (done || (left; by eexists)).
  replace (seqZ 0 256) with (seqZ 0 (lenZ (words sector))) by (by rewrite Hw1). rewrite (read_words_spec (words sector)); try done.
  - rewrite Hw3, bind_Ret. exists (with_phase Idle d3). simpl. split; [|done]. do 3 f_equal.
    unfold write_at, lenZ, SECTOR_SIZE in *. destruct Hok as [Hk _]. unfold lenZ, SECTOR_SIZE in *. simpl.
    rewrite drop_ge by lia. by rewrite app_nil_r.
  - intros E. rewrite E in Hw1. by rewrite lenZ_nil in Hw1.
  - rewrite Hw1, Hbuf. unfold SECTOR_SIZE. lia.
Qed.

Lemma write_sector_spec disk d lba buf :
  ide_ok (disk, d) -> 0 <= lba < lenZ (medium d) -> sector_ok buf ->
  exists d', write_sector disk lba buf d = Ret (Ok tt, d') /\ medium d' = insertZ lba buf (medium d).
Proof.
  intros (Hb & Hs & Ht & Hm & Hall) Hr Hok. simpl in *.
  unfold write_sector. rewrite Hb, Hs, Ht. destruct (Z.leb_spec (lenZ (medium d)) lba); [lia|].
  destruct (select_located lba d ltac:(lia)) as (Hmed & Hph & Hsel & Hadr).
  set (d1 := select_drive_lba _ _ _ _) in *. clearbody d1.
  set (d2 := outb (PRIMARY_BASE + SECTOR_COUNT) 1 d1). change (outb (PRIMARY_BASE + COMMAND) CMD_WRITE_SECTORS d2) with (issue CMD_WRITE_SECTORS d2).
  assert (H2 : medium d2 = medium d /\ selected d2 = true /\ addressed d2 = lba) by (by split_and!).
  clearbody d2. destruct H2 as (Hm2 & Hs2 & Ha2). unfold issue. rewrite Hs2, Ha2, Hm2. cbn [negb].
  change (CMD_WRITE_SECTORS =? CMD_READ_SECTORS) with false. change (CMD_WRITE_SECTORS =? CMD_WRITE_SECTORS) with true. cbv iota.
  destruct (Z.ltb_spec lba (lenZ (medium d))); [|lia]. destruct (words_512 buf Hok) as (_ & _ & Hw3). destruct Hok as [Hk Hby].
  set (d3 := with_phase _ d2). rewrite wait_ready_ok, wait_drq_ok by (done || (right; by do 2 eexists)).
  pose proof (write_words_spec 255 [] buf [] lba d3) as E. cbn [app] in E. change (lenZ (@nil Z)) with 0 in E.
  change (Z.of_nat 256) with 256 in E. rewrite E by (done || unfold lenZ, SECTOR_SIZE in *; lia).
  rewrite Hw3, bind_Ret. rewrite wait_ready_ok by done. eexists. split; [done|]. simpl. by rewrite Hm2.
Qed.

#[global] Program Instance ide_device : BlockDevice (IdeDisk * drive) := {|
  bd_read lba x := r ← read_sector x.1 lba (replicate (Z.to_nat SECTOR_SIZE) 0) x.2; Ret (r.1, (x.1, r.2));
  bd_write lba buf x := r ← write_sector x.1 lba buf x.2; Ret (r.1, (x.1, r.2));
  bd_inv := ide_ok;
  bd_total x := lenZ (medium x.2);
  bd_sector x lba := default [] (lookupZ (medium x.2) lba);
|}.
Next Obligation. intros x (_ & _ & _ & Hm & _). pose proof (lenZ_nonneg (medium x.2)). lia. Qed.
Next Obligation.
  intros x lba (_ & _ & _ & _ & Hall) Hl. destruct (lookupZ_lt _ _ Hl) as [s Hs]. rewrite Hs. simpl.
  by apply (lookupZ_Forall _ _ _ _ Hall Hs).
Qed.
Next Obligation.
  intros [disk d] lba Hok Hl. destruct (lookupZ_lt _ _ Hl) as [s Hs]. cbn [fst snd] in *.
  destruct (read_sector_spec disk d lba (replicate (Z.to_nat SECTOR_SIZE) 0) s Hok Hs) as (d' & -> & Hm).
  { by apply lenZ_replicate. }
  rewrite bind_Ret, Hs. exists (disk, d'). simpl. rewrite Hm. split; [done|]. split; [|done].
  unfold ide_ok in *. simpl in *. by rewrite Hm.
Qed.
Next Obligation.
  intros [disk d] lba (_ & _ & Ht & _) Hl. simpl in *. unfold read_sector. rewrite Ht.
  by destruct (Z.leb_spec (lenZ (medium d)) lba); [|lia].
Qed.
Next Obligation.
  intros [disk d] lba buf Hok Hl Hb Hby. simpl in *.
  destruct (write_sector_spec disk d lba buf Hok Hl (conj Hb Hby)) as (d' & -> & Hm). rewrite bind_Ret.
  exists (disk, d'). simpl. rewrite Hm, lenZ_insertZ. split; [done|]. split; [|split; [done|]].
  - destruct Hok as (H1 & H2 & H3 & H4 & H5). unfold ide_ok. simpl in *. rewrite Hm, lenZ_insertZ. split_and!; try done.
    by apply insertZ_Forall.
  - intros x Hx. destruct (Z.eqb_spec x lba) as [->|]; [by rewrite lookupZ_insertZ_eq|by rewrite lookupZ_insertZ_ne by congruence].
Qed.
Next Obligation.
  intros [disk d] lba buf (_ & _ & Ht & _) Hl. simpl in *. unfold write_sector. rewrite Ht.
  by destruct (Z.leb_spec (lenZ (medium d)) lba); [|lia].
Qed.

(** ** Properties *)

Lemma read_identify_spec ws i buf d :
  ws <> [] -> ph d = Sending ws -> 0 <= i -> i + lenZ ws <= lenZ buf ->
  read_identify (seqZ i (lenZ ws)) PRIMARY_BASE buf d = Ret (write_at buf i ws, with_phase Idle d).
Proof.
  revert i buf d. induction ws as [|w ws IH]; [done|]. intros i buf d _ Hph Hi Hl. rewrite lenZ_cons in *.
  pose proof (lenZ_nonneg ws). rewrite (seqZ_cons i) by lia. replace (Z.pred (lenZ ws + 1)) with (lenZ ws) by lia.
  cbn [read_identify]. unfold inw. rewrite Hph. cbv iota. rewrite assign_lt, bind_Ret by lia.
  destruct ws as [|w2 ws].
  - rewrite <- (write_at_cons buf i w []), write_at_nil; [done|lia|change (lenZ (@nil Z)) with 0 in *; lia].
  - rewrite IH by (done || rewrite ?lenZ_insertZ; lia). replace (Z.succ i) with (i + 1) by lia. rewrite (write_at_cons buf i w (w2 :: ws)) by lia. done.
Qed.

Lemma ide_init_spec d :
  0 < lenZ (medium d) <= 2 ^ 28 ->
  exists d', ide_init primary_master d = Ret (Ok tt, mk_ide PRIMARY_BASE false (lenZ (medium d)), d') /\ medium d' = medium d.
Proof.
  intros Hm. unfold ide_init. cbn [base slave primary_master].
  destruct (select_located 0 d ltac:(lia)) as (Hmed & _ & Hsel & _). set (d1 := select_drive_lba _ _ _ _) in *. clearbody d1.
  set (d2 := outb (PRIMARY_BASE + LBA_HIGH) 0 _). change (outb (PRIMARY_BASE + COMMAND) CMD_IDENTIFY d2) with (issue CMD_IDENTIFY d2).
  assert (H2 : medium d2 = medium d /\ selected d2 = true) by (by split). clearbody d2. destruct H2 as [Hm2 Hs2].
  unfold issue. rewrite Hs2. cbn [negb]. change (CMD_IDENTIFY =? CMD_READ_SECTORS) with false.
  change (CMD_IDENTIFY =? CMD_WRITE_SECTORS) with false. change (CMD_IDENTIFY =? CMD_IDENTIFY) with true. cbv iota.
  set (d3 := with_phase _ d2). assert (Hst : inb (PRIMARY_BASE + STATUS) d3 = 0x48).
  { change (status d3 = 0x48). unfold status. change (selected d3) with (selected d2). by rewrite Hs2. }
  destruct timeout_S as [n Hn]. rewrite Hn. cbn [wait_not_busy]. rewrite Hst. cbn [negb orb Z.eqb].
  change (Z.land 0x48 SR_BSY =? 0) with true. change (Z.land 0x48 SR_ERR =? 0) with true. cbn [negb].
  rewrite wait_drq_ok by (done || (left; by eexists)).
  assert (Hid : lenZ (identity d2) = 256) by reflexivity.
  replace (seqZ 0 256) with (seqZ 0 (lenZ (identity d2))) by (by rewrite Hid).
  rewrite read_identify_spec by done. rewrite bind_Ret. cbv iota.
  assert (Hwr : write_at (replicate 256 0) 0 (identity d2) = identity d2).
  { unfold write_at. change (take (Z.to_nat 0) (replicate 256 0)) with (@nil Z). rewrite drop_ge, app_nil_r; [done|].
    rewrite length_replicate. unfold lenZ in Hid. lia. }
  rewrite Hwr. unfold index. change (lookupZ (identity d2) 61) with (Some (lenZ (medium d2) / 65536)).
  change (lookupZ (identity d2) 60) with (Some (lenZ (medium d2) mod 65536)). cbv iota. rewrite !bind_Ret, Hm2.
  exists (with_phase Idle d3). split; [|done]. rewrite Z.shiftl_mul_pow2, u32_small by dlia.
  rewrite Z.lor_comm, lor_add by dlia. do 4 f_equal. change (2 ^ 16) with 65536. dlia.
Qed.


(** A disk of sixteen zero sectors. *)
Definition zero_sector : list Z := replicate (Z.to_nat SECTOR_SIZE) 0.
Definition blank_drive : drive := mk_drive (replicate 16 zero_sector) 0 0 0 0 0 Idle.

Lemma zero_sector_ok : sector_ok zero_sector.
Proof. split; [by apply lenZ_replicate|]. by apply Forall_replicate. Qed.
#[local] Opaque zero_sector.

