(* ===== verification/Bcache.v ===== *)
(** * The buffer cache

    [fs/bcache.rs]: a direct-mapped cache of 64 sectors in front of a disk.
    The cache is itself a disk for the file systems above it. *)

From S2P Require Import Prelude Bytes Ide.

Definition CACHE_SIZE : Z := 64.

Record CacheEntry : Type := mk_entry { sector : Z; valid : bool; dirty : bool }.
Definition empty_entry : CacheEntry := mk_entry (two32 - 1) false false.

Record bcache : Type := mk_bcache {
  CACHE_DATA : list (list Z);
  CACHE_ENTRIES : list CacheEntry;
  CACHE_HITS : Z;
  CACHE_MISSES : Z;
  CACHE_WRITES : Z;
}.

Definition bcache_new : bcache :=
  mk_bcache (replicate (Z.to_nat CACHE_SIZE) (replicate (Z.to_nat SECTOR_SIZE) 0))
    (replicate (Z.to_nat CACHE_SIZE) empty_entry) 0 0 0.

Definition cache_slot (sector : Z) : Z := sector mod CACHE_SIZE.

Definition count_hit (c : bcache) : bcache :=
  mk_bcache (CACHE_DATA c) (CACHE_ENTRIES c) (u64 (CACHE_HITS c + 1)) (CACHE_MISSES c) (CACHE_WRITES c).
Definition count_miss (c : bcache) : bcache :=
  mk_bcache (CACHE_DATA c) (CACHE_ENTRIES c) (CACHE_HITS c) (u64 (CACHE_MISSES c + 1)) (CACHE_WRITES c).
Definition count_write (c : bcache) : bcache :=
  mk_bcache (CACHE_DATA c) (CACHE_ENTRIES c) (CACHE_HITS c) (CACHE_MISSES c) (u64 (CACHE_WRITES c + 1)).

Definition cache_lookup (s : Z) (c : bcache) : outcome (option (list Z) * bcache) :=
  let slot := cache_slot s in
  e ← index (CACHE_ENTRIES c) slot;
  if valid e && (sector e =? s) then
    d ← index (CACHE_DATA c) slot;
    Ret (Some d, count_hit c)
  else Ret (None, count_miss c).

(** The slot takes the sector. *)
Definition cache_store (s : Z) (buf : list Z) (c : bcache) : outcome bcache :=
  let slot := cache_slot s in
  d ← index (CACHE_DATA c) slot;
  d ← copy_into d 0 (lenZ d) buf;
  data ← assign (CACHE_DATA c) slot d;
  es ← assign (CACHE_ENTRIES c) slot (mk_entry s true false);
  Ret (mk_bcache data es (CACHE_HITS c) (CACHE_MISSES c) (CACHE_WRITES c)).

Section bcache.
Context {D : Type} `{BlockDevice D}.

(** The slot is written back if it is dirty. *)
Definition write_back (slot : Z) (x : bcache * D) : outcome (result string unit * (bcache * D)) :=
  let '(c, d) := x in
  e ← index (CACHE_ENTRIES c) slot;
  if dirty e && valid e then
    data ← index (CACHE_DATA c) slot;
    r ← bd_write (sector e) data d;
    match r with
    | (Err er, d) => Ret (Err er, (c, d))
    | (Ok _, d) => Ret (Ok tt, (count_write c, d))
    end
  else Ret (Ok tt, (c, d)).

Definition cached_read (s : Z) (x : bcache * D) : outcome (result string (list Z) * (bcache * D)) :=
  let '(c, d) := x in
  let slot := cache_slot s in
  e ← index (CACHE_ENTRIES c) slot;
  let miss c :=
    r ← bd_read s d;
    match r with
    | (Err e, d) => Ret (Err e, (c, d))
    | (Ok buf, d) =>
        let? (_, x) := write_back slot (c, d) in
        let '(c, d) := x in
        c ← cache_store s buf c;
        Ret (Ok buf, (c, d))
    end in
  if valid e && (sector e =? s) then
    r ← cache_lookup s c;
    match r with
    | (Some cached, c) => Ret (Ok cached, (c, d))
    | (None, c) => miss c
    end
  else miss c.

Definition cached_write (s : Z) (buf : list Z) (x : bcache * D) : outcome (result string unit * (bcache * D)) :=
  let '(c, d) := x in
  r ← bd_write s buf d;
  match r with
  | (Err e, d) => Ret (Err e, (c, d))
  | (Ok _, d) =>
      c ← cache_store s buf (count_write c);
      Ret (Ok tt, (c, d))
  end.

Definition clear_dirty (i : Z) (c : bcache) : outcome bcache :=
  e ← index (CACHE_ENTRIES c) i;
  es ← assign (CACHE_ENTRIES c) i (mk_entry (sector e) (valid e) false);
  Ret (mk_bcache (CACHE_DATA c) es (CACHE_HITS c) (CACHE_MISSES c) (CACHE_WRITES c)).

Fixpoint flush_slots (idxs : list Z) (x : bcache * D) : outcome (result string unit * (bcache * D)) :=
  match idxs with
  | [] => Ret (Ok tt, x)
  | i :: idxs' =>
      let '(c, d) := x in
      e ← index (CACHE_ENTRIES c) i;
      if dirty e && valid e then
        data ← index (CACHE_DATA c) i;
        r ← bd_write (sector e) data d;
        match r with
        | (Err er, d) => Ret (Err er, (c, d))
        | (Ok _, d) => c ← clear_dirty i c; flush_slots idxs' (count_write c, d)
        end
      else flush_slots idxs' (c, d)
  end.
Definition flush (x : bcache * D) : outcome (result string unit * (bcache * D)) := flush_slots (seqZ 0 CACHE_SIZE) x.

Fixpoint clear_entries (idxs : list Z) (es : list CacheEntry) : outcome (list CacheEntry) :=
  match idxs with
  | [] => Ret es
  | i :: idxs' => es ← assign es i empty_entry; clear_entries idxs' es
  end.
Definition invalidate (c : bcache) : outcome bcache :=
  es ← clear_entries (seqZ 0 CACHE_SIZE) (CACHE_ENTRIES c);
  Ret (mk_bcache (CACHE_DATA c) es (CACHE_HITS c) (CACHE_MISSES c) (CACHE_WRITES c)).
End bcache.

(** Runs of sectors, on any disk; [bcache.rs] has them for the cached one. *)
Section runs.
Context {D : Type} `{BlockDevice D}.

Fixpoint cached_read_sectors (idxs : list Z) (start : Z) (buf : list Z) (x : D) : outcome (result string (list Z) * D) :=
  match idxs with
  | [] => Ret (Ok buf, x)
  | i :: idxs' =>
      let offset := i * SECTOR_SIZE in
      if lenZ buf <? offset + SECTOR_SIZE then Ret (Err "buffer too small"%string, x)
      else
        let? (sec, x) := bd_read (u32 (start + i)) x in
        buf ← copy_into buf offset (offset + SECTOR_SIZE) sec;
        cached_read_sectors idxs' start buf x
  end.

Fixpoint cached_write_sectors (idxs : list Z) (start : Z) (buf : list Z) (x : D) : outcome (result string unit * D) :=
  match idxs with
  | [] => Ret (Ok tt, x)
  | i :: idxs' =>
      let offset := i * SECTOR_SIZE in
      if lenZ buf <? offset + SECTOR_SIZE then Ret (Err "buffer too small"%string, x)
      else
        sec ← slice buf offset (offset + SECTOR_SIZE);
        let? (_, x) := bd_write (u32 (start + i)) sec x in
        cached_write_sectors idxs' start buf x
  end.
End runs.

(** ** Coherence *)

Section coherence.
Context {D : Type} `{BlockDevice D}.

(** Every valid slot holds its sector as the disk has it. *)
Record coherent (x : bcache * D) : Prop := {
  co_dev : bd_inv x.2;
  co_entries : lenZ (CACHE_ENTRIES x.1) = CACHE_SIZE;
  co_data : lenZ (CACHE_DATA x.1) = CACHE_SIZE;
  co_sectors : Forall (fun d => lenZ d = SECTOR_SIZE) (CACHE_DATA x.1);
  co_clean : forall i e, lookupZ (CACHE_ENTRIES x.1) i = Some e -> valid e = true ->
    dirty e = false /\ 0 <= sector e < bd_total x.2 /\ cache_slot (sector e) = i /\
    lookupZ (CACHE_DATA x.1) i = Some (bd_sector x.2 (sector e));
}.

Lemma cache_slot_range s : 0 <= cache_slot s < CACHE_SIZE.
Proof. unfold cache_slot. apply Z.mod_pos_bound. done. Qed.

Lemma cache_store_spec s buf c d d' :
  coherent (c, d) -> bd_inv d' -> bd_total d' = bd_total d -> 0 <= s < bd_total d -> lenZ buf = SECTOR_SIZE ->
  (forall x, 0 <= x < bd_total d -> bd_sector d' x = if x =? s then buf else bd_sector d x) ->
  exists c', cache_store s buf c = Ret c' /\ coherent (c', d').
Proof.
  intros [Hd He Hda Hs Hc] Hd' Ht Hr Hb Hsec. simpl in *. unfold cache_store. pose proof (cache_slot_range s) as Hsl.
  destruct (lookupZ_lt (CACHE_DATA c) (cache_slot s)) as [old Hold]; [lia|]. unfold index. rewrite Hold, bind_Ret.
  pose proof (lookupZ_Forall _ _ _ _ Hs Hold) as Hlen. simpl in Hlen.
  assert (E : copy_into old 0 (lenZ old) buf = Ret buf).
  { rewrite Hlen, <- Hb. pose proof (copy_into_Ret old 0 buf) as Ec. rewrite Z.add_0_l in Ec. rewrite Ec by lia. unfold write_at, lenZ in *. simpl.
    rewrite drop_ge by lia. by rewrite app_nil_r. }
  rewrite E, bind_Ret. rewrite (assign_lt (CACHE_DATA c)), bind_Ret, (assign_lt (CACHE_ENTRIES c)), bind_Ret by lia. eexists. split; [done|].
  split; simpl; rewrite ?lenZ_insertZ; try done; [by apply insertZ_Forall|].
  intros i e Hi Hv. rewrite Ht. destruct (decide (i = cache_slot s)) as [->|Hne].
  - rewrite lookupZ_insertZ_eq in Hi by lia. injection Hi as <-. simpl. split; [done|]. split; [done|]. split; [done|].
    rewrite lookupZ_insertZ_eq by lia. rewrite Hsec by done. by rewrite Z.eqb_refl.
  - rewrite lookupZ_insertZ_ne in Hi by done. rewrite lookupZ_insertZ_ne by done. destruct (Hc i e Hi Hv) as (H1 & H2 & H3 & H4).
    split; [done|]. split; [done|]. split; [done|]. rewrite H4, Hsec by done.
    destruct (Z.eqb_spec (sector e) s) as [E'|]; [|done]. exfalso. apply Hne. by rewrite <- H3, E'.
Qed.

Lemma coherent_counts c d f :
  (CACHE_DATA (f c) = CACHE_DATA c) -> (CACHE_ENTRIES (f c) = CACHE_ENTRIES c) -> coherent (c, d) -> coherent (f c, d).
Proof. intros E1 E2 [Hd He Hda Hs Hc]. simpl in *. split; simpl; rewrite ?E1, ?E2; done. Qed.

Lemma coherent_same c d d' :
  coherent (c, d) -> bd_inv d' -> bd_total d' = bd_total d ->
  (forall x, 0 <= x < bd_total d -> bd_sector d' x = bd_sector d x) -> coherent (c, d').
Proof.
  intros [Hd He Hda Hs Hc] Hd' Ht Hsec. simpl in *. split; simpl; try done. intros i e Hi Hv.
  destruct (Hc i e Hi Hv) as (H1 & H2 & H3 & H4). rewrite Ht, Hsec by done. done.
Qed.

Lemma write_back_clean slot c d d' :
  coherent (c, d) -> 0 <= slot < CACHE_SIZE -> write_back slot (c, d') = Ret (Ok tt, (c, d')).
Proof.
  intros [_ He _ _ Hc] Hsl. simpl in *. unfold write_back, index.
  destruct (lookupZ_lt (CACHE_ENTRIES c) slot) as [e Hl]; [lia|]. rewrite Hl, bind_Ret.
  destruct (valid e) eqn:Hv; [|by rewrite andb_false_r]. by destruct (Hc _ _ Hl Hv) as (-> & _).
Qed.

#[local] Opaque write_back.

(** A miss fetches the sector. *)
Lemma fetch_spec s c d :
  coherent (c, d) -> 0 <= s < bd_total d ->
  exists c' d' d1, bd_read s d = Ret (Ok (bd_sector d s), d1) /\ write_back (cache_slot s) (c, d1) = Ret (Ok tt, (c, d1)) /\
    cache_store s (bd_sector d s) c = Ret c' /\ d' = d1 /\ coherent (c', d') /\
    bd_total d' = bd_total d /\ forall x, 0 <= x < bd_total d -> bd_sector d' x = bd_sector d x.
Proof.
  intros Hco Hr. destruct (bd_read_ok d s (co_dev _ Hco) Hr) as (d' & Hrd & Hd' & Ht & Hsec).
  destruct (cache_store_spec s (bd_sector d s) c d d' Hco Hd' Ht Hr) as (c' & Hst & Hco').
  { apply bd_sector_ok; [apply Hco|done]. }
  { intros x Hx. rewrite Hsec by done. by destruct (Z.eqb_spec x s) as [->|]. }
  exists c', d', d'. split; [done|]. split; [apply (write_back_clean _ c d); [done|apply cache_slot_range]|]. done.
Qed.

Lemma cached_read_spec s c d :
  coherent (c, d) -> 0 <= s < bd_total d ->
  exists c' d', cached_read s (c, d) = Ret (Ok (bd_sector d s), (c', d')) /\ coherent (c', d') /\
    bd_total d' = bd_total d /\ forall x, 0 <= x < bd_total d -> bd_sector d' x = bd_sector d x.
Proof.
  intros Hco Hr. pose proof Hco as [Hd He Hda Hs Hc]. simpl in *. unfold cached_read, index. pose proof (cache_slot_range s).
  destruct (lookupZ_lt (CACHE_ENTRIES c) (cache_slot s)) as [e Hl]; [lia|]. rewrite Hl, bind_Ret.
  destruct (fetch_spec s c d Hco Hr) as (c' & d' & d1 & Hrd & Hwb & Hst & -> & Hco' & Ht & Hsec).
  destruct (valid e && (sector e =? s)) eqn:E.
  - apply andb_true_iff in E as [Hv E%Z.eqb_eq]. destruct (Hc _ _ Hl Hv) as (Hdi & Hre & Hsl & Hdt).
    unfold cache_lookup, index. rewrite Hl, bind_Ret, Hv, E, Z.eqb_refl. simpl andb. cbv iota.
    rewrite Hdt, !bind_Ret, E. exists (count_hit c), d. split; [done|]. split; [by apply coherent_counts|done].
  - rewrite Hrd, bind_Ret. cbv beta iota.
    rewrite Hwb. simpl. rewrite Hst, bind_Ret. exists c', d1. done.
Qed.

Lemma cached_read_out s c d :
  coherent (c, d) -> bd_total d <= s -> cached_read s (c, d) = Ret (Err "LBA out of range"%string, (c, d)).
Proof.
  intros [Hd He Hda Hs Hc] Hr. simpl in *. unfold cached_read, index. pose proof (cache_slot_range s).
  destruct (lookupZ_lt (CACHE_ENTRIES c) (cache_slot s)) as [e Hl]; [lia|]. rewrite Hl, bind_Ret.
  destruct (valid e && (sector e =? s)) eqn:E.
  { apply andb_true_iff in E as [Hv <-%Z.eqb_eq]. destruct (Hc _ _ Hl Hv) as (_ & ? & _). lia. }
  by rewrite bd_read_out, bind_Ret by done.
Qed.

Lemma cached_write_spec s buf c d :
  coherent (c, d) -> 0 <= s < bd_total d -> lenZ buf = SECTOR_SIZE -> Forall byte buf ->
  exists c' d', cached_write s buf (c, d) = Ret (Ok tt, (c', d')) /\ coherent (c', d') /\
    bd_total d' = bd_total d /\ forall x, 0 <= x < bd_total d -> bd_sector d' x = if x =? s then buf else bd_sector d x.
Proof.
  intros Hco Hr Hb Hby. unfold cached_write.
  destruct (bd_write_ok d s buf (co_dev _ Hco) Hr Hb Hby) as (d' & -> & Hd' & Ht & Hsec). rewrite bind_Ret.
  destruct (cache_store_spec s buf (count_write c) d d') as (c' & -> & Hco'); try done; [by apply coherent_counts|].
  rewrite bind_Ret. exists c', d'. done.
Qed.

#[global] Program Instance cached_device : BlockDevice (bcache * D) := {|
  bd_read := cached_read;
  bd_write := cached_write;
  bd_inv := coherent;
  bd_total x := bd_total x.2;
  bd_sector x := bd_sector x.2;
|}.
Next Obligation. intros x Hx. apply bd_total_range, Hx. Qed.
Next Obligation. intros x lba Hx Hl. apply bd_sector_ok; [apply Hx|done]. Qed.
Next Obligation.
  intros [c d] lba Hx Hl. destruct (cached_read_spec lba c d Hx Hl) as (c' & d' & Hr & Hco & Ht & Hs). exists (c', d'). done.
Qed.
Next Obligation. intros [c d] lba Hx Hl. by apply cached_read_out. Qed.
Next Obligation.
  intros [c d] lba buf Hx Hl Hb Hby. destruct (cached_write_spec lba buf c d Hx Hl Hb Hby) as (c' & d' & Hr & Hco & Ht & Hs).
  exists (c', d'). done.
Qed.
Next Obligation. intros [c d] lba buf Hx Hl. unfold cached_write. simpl in *. rewrite bd_write_out, bind_Ret by (done || apply Hx). done. Qed.
End coherence.

(** ** Transparency *)

Inductive disk_op : Type :=
| DRead (s : Z)
| DWrite (s : Z) (buf : list Z)
| DFlush
| DInvalidate.
Definition op_ok (o : disk_op) : Prop :=
  match o with
  | DRead s => 0 <= s
  | DWrite s buf => 0 <= s /\ lenZ buf = SECTOR_SIZE /\ Forall byte buf
  | DFlush | DInvalidate => True
  end.
(** What an operation returns, a write as the empty sector. *)
Definition answer (r : result string unit) : result string (list Z) :=
  match r with Ok _ => Ok [] | Err e => Err e end.

Section transparent.
Context {D : Type} `{BlockDevice D}.

Definition do_cached (o : disk_op) (x : bcache * D) : outcome (result string (list Z) * (bcache * D)) :=
  match o with
  | DRead s => cached_read s x
  | DWrite s buf => r ← cached_write s buf x; Ret (answer r.1, r.2)
  | DFlush => r ← flush x; Ret (answer r.1, r.2)
  | DInvalidate => c ← invalidate x.1; Ret (Ok [], (c, x.2))
  end.
Definition do_plain (o : disk_op) (d : D) : outcome (result string (list Z) * D) :=
  match o with
  | DRead s => bd_read s d
  | DWrite s buf => r ← bd_write s buf d; Ret (answer r.1, r.2)
  | DFlush | DInvalidate => Ret (Ok [], d)
  end.
Fixpoint run {S} (step : disk_op -> S -> outcome (result string (list Z) * S)) (os : list disk_op) (s : S)
  : outcome (list (result string (list Z)) * S) :=
  match os with
  | [] => Ret ([], s)
  | o :: os' => r ← step o s; rs ← run step os' r.2; Ret (r.1 :: rs.1, rs.2)
  end.

Definition same_disk (d1 d2 : D) : Prop :=
  bd_total d1 = bd_total d2 /\ forall x, 0 <= x < bd_total d2 -> bd_sector d1 x = bd_sector d2 x.

Lemma flush_coherent idxs c d :
  coherent (c, d) -> Forall (fun i => 0 <= i < CACHE_SIZE) idxs -> flush_slots idxs (c, d) = Ret (Ok tt, (c, d)).
Proof.
  intros Hco Hr. induction Hr as [|i idxs Hi _ IH]; cbn [flush_slots]; [done|].
  pose proof Hco as [_ He _ _ Hc]. simpl in *. unfold index.
  destruct (lookupZ_lt (CACHE_ENTRIES c) i) as [e Hl]; [lia|]. rewrite Hl, bind_Ret.
  destruct (valid e) eqn:Hv; [|by rewrite andb_false_r]. by destruct (Hc _ _ Hl Hv) as (-> & _).
Qed.

Lemma clear_entries_spec idxs es :
  Forall (fun i => 0 <= i < lenZ es) idxs ->
  exists es', clear_entries idxs es = Ret es' /\ lenZ es' = lenZ es /\
    forall i e, lookupZ es' i = Some e -> valid e = true -> lookupZ es i = Some e /\ i ∉ idxs.
Proof.
  revert es. induction idxs as [|k idxs IH]; intros es Hr; cbn [clear_entries].
  { exists es. split; [done|]. split; [done|]. intros i e Hi _. split; [done|apply not_elem_of_nil]. }
  apply Forall_cons in Hr as [Hk Hr]. rewrite assign_lt, bind_Ret by done.
  destruct (IH (insertZ k empty_entry es)) as (es' & -> & Hl & Hes').
  { eapply Forall_impl; [exact Hr|]. intros i Hi. simpl in Hi. rewrite lenZ_insertZ. done. }
  rewrite lenZ_insertZ in Hl. exists es'. split; [done|]. split; [done|]. intros i e Hi Hv.
  destruct (Hes' i e Hi Hv) as [Hi' Hn]. destruct (decide (i = k)) as [->|Hne].
  - rewrite lookupZ_insertZ_eq in Hi' by lia. by injection Hi' as <-.
  - rewrite lookupZ_insertZ_ne in Hi' by done. split; [done|]. by apply not_elem_of_cons.
Qed.

Lemma invalidate_coherent c d : coherent (c, d) -> exists c', invalidate c = Ret c' /\ coherent (c', d).
Proof.
  intros [Hd He Hda Hs Hc]. simpl in *. unfold invalidate.
  destruct (clear_entries_spec (seqZ 0 CACHE_SIZE) (CACHE_ENTRIES c)) as (es & -> & Hl & Hes).
  { apply Forall_forall. intros i Hi%elem_of_seqZ. lia. }
  rewrite bind_Ret. eexists. split; [done|]. split; simpl; try done; [lia|]. intros i e Hi Hv.
  destruct (Hes i e Hi Hv) as [Hi' _]. by apply Hc.
Qed.

Lemma do_cached_plain o c d1 d2 :
  coherent (c, d1) -> bd_inv d2 -> same_disk d1 d2 -> op_ok o ->
  exists r c' d1' d2', do_cached o (c, d1) = Ret (r, (c', d1')) /\ do_plain o d2 = Ret (r, d2') /\
    coherent (c', d1') /\ bd_inv d2' /\ same_disk d1' d2'.
Proof.
  intros Hco Hd2 [Ht Hsec] Hok. destruct o as [s|s buf| |]; cbn [do_cached do_plain op_ok] in *.
  - destruct (decide (s < bd_total d2)).
    + destruct (cached_read_spec s c d1 Hco ltac:(lia)) as (c' & d1' & -> & Hco' & Ht1 & Hs1).
      destruct (bd_read_ok d2 s Hd2 ltac:(lia)) as (d2' & -> & Hd2' & Ht2 & Hs2).
      rewrite Hsec by lia. eexists _, c', d1', d2'. split; [done|]. split; [done|]. split; [done|]. split; [done|].
      split; [congruence|]. intros x Hx. rewrite Hs1, Hs2, Hsec by lia. done.
    + rewrite (cached_read_out s c d1 Hco), bd_read_out by (done || lia).
      eexists _, c, d1, d2. split; [done|]. split; [done|]. done.
  - destruct Hok as (H0 & Hb & Hby). destruct (decide (s < bd_total d2)).
    + destruct (cached_write_spec s buf c d1 Hco ltac:(lia) Hb Hby) as (c' & d1' & -> & Hco' & Ht1 & Hs1).
      destruct (bd_write_ok d2 s buf Hd2 ltac:(lia) Hb Hby) as (d2' & -> & Hd2' & Ht2 & Hs2).
      eexists _, c', d1', d2'. split; [done|]. split; [done|]. split; [done|]. split; [done|].
      split; [congruence|]. intros x Hx. rewrite Hs1, Hs2, Hsec by lia. done.
    + unfold cached_write. rewrite !bd_write_out by (done || lia || apply Hco). 
      eexists _, c, d1, d2. split; [done|]. split; [done|]. done.
  - unfold flush. rewrite flush_coherent; [|done|apply Forall_forall; intros i Hi%elem_of_seqZ; lia].
    eexists _, c, d1, d2. split; [done|]. split; [done|]. done.
  - destruct (invalidate_coherent c d1 Hco) as (c' & Hi & Hco'). simpl. rewrite Hi, bind_Ret.
    eexists _, c', d1, d2. split; [done|]. split; [done|]. done.
Qed.

(** C26: The buffer cache cannot be observed: any sequence of reads, writes,
    flushes and invalidations through it returns what the same reads and
    writes return on the bare disk, out-of-range errors included, and leaves
    the disk with the same contents. *)
Theorem cache_transparent os c d1 d2 :
  coherent (c, d1) -> bd_inv d2 -> same_disk d1 d2 -> Forall op_ok os ->
  exists rs c' d1' d2', run do_cached os (c, d1) = Ret (rs, (c', d1')) /\ run do_plain os d2 = Ret (rs, d2') /\
    coherent (c', d1') /\ same_disk d1' d2'.
Proof.
  intros Hco Hd2 Hsame Hos. revert c d1 d2 Hco Hd2 Hsame. induction Hos as [|o os Ho _ IH]; intros c d1 d2 Hco Hd2 Hsame.
  { exists [], c, d1, d2. done. }
  destruct (do_cached_plain o c d1 d2 Hco Hd2 Hsame Ho) as (r & c1 & d3 & d4 & E1 & E2 & Hco1 & Hd4 & Hsame1).
  destruct (IH c1 d3 d4 Hco1 Hd4 Hsame1) as (rs & c' & d1' & d2' & E3 & E4 & Hco' & Hsame').
  exists (r :: rs), c', d1', d2'. cbn [run]. rewrite E1, E2, !bind_Ret. cbn [fst snd]. rewrite E3, E4, !bind_Ret. done.
Qed.
End transparent.

Lemma coherent_new {D} `{BlockDevice D} (d : D) : bd_inv d -> coherent (bcache_new, d).
Proof.
  intros Hd. split; [done|reflexivity|reflexivity| |].
  - apply Forall_replicate. reflexivity.
  - intros i e Hi Hv. cbn [fst CACHE_ENTRIES bcache_new] in Hi. unfold lookupZ in Hi. destruct (i <? 0); [done|].
    apply lookup_replicate in Hi as [-> _]. done.
Qed.

Definition blank_disk : IdeDisk * drive := (mk_ide PRIMARY_BASE false 16, blank_drive).
Lemma blank_disk_ok : bd_inv blank_disk.
Proof.
  split; [reflexivity|]. split; [reflexivity|]. split; [reflexivity|]. split; [discriminate|].
  apply Forall_replicate, zero_sector_ok.
Qed.

Lemma cache_transparent_witness :
  exists rs c' d1' d2', run do_cached [DWrite 3 zero_sector; DRead 3; DFlush; DRead 99] (bcache_new, blank_disk) = Ret (rs, (c', d1')) /\
    run do_plain [DWrite 3 zero_sector; DRead 3; DFlush; DRead 99] blank_disk = Ret (rs, d2').
Proof.
  destruct (cache_transparent [DWrite 3 zero_sector; DRead 3; DFlush; DRead 99] bcache_new blank_disk blank_disk)
    as (rs & c' & d1' & d2' & E1 & E2 & _).
  - apply coherent_new, blank_disk_ok.
  - apply blank_disk_ok.
  - split; [reflexivity|]. intros x _. reflexivity.
  - constructor; [split; [discriminate|apply zero_sector_ok]|]. constructor; [discriminate|]. constructor; [exact I|].
    constructor; [discriminate|constructor].
  - exists rs, c', d1', d2'. split; [exact E1|exact E2].
Defined.
