(* ===== verification/Fat32.v ===== *)
(** * The FAT32 file system

    [fs/fat32.rs] over the disk interface: the volume header, cluster chains,
    directories, and the operations that change them.  Integers of the header
    and cluster numbers are 32 bits wide and wrap. *)

From S2P Require Import Prelude Bytes Ide.

(** ** On-disk structures *)

Record Fat32Bpb : Type := mk_bpb {
  bpb_bytes_per_sector : Z; bpb_sectors_per_cluster : Z; bpb_reserved_sectors : Z; bpb_num_fats : Z;
  total_sectors_16 : Z; fat_size_16 : Z; total_sectors_32 : Z; fat_size_32 : Z; bpb_root_cluster : Z;
}.
(** [ptr::read] of the packed header; a sector is larger than it. *)
Definition read_bpb (buf : list Z) : Fat32Bpb :=
  mk_bpb (field buf 11 2) (field buf 13 1) (field buf 14 2) (field buf 16 1)
    (field buf 19 2) (field buf 22 2) (field buf 32 4) (field buf 36 4) (field buf 44 4).

Record Fat32DirEntry : Type := mk_dirent {
  name : list Z; ext : list Z; attributes : Z; cluster_high : Z; cluster_low : Z; file_size : Z;
}.
Definition bytes_at (buf : list Z) (a n : Z) : list Z := take (Z.to_nat n) (drop (Z.to_nat a) buf).
Definition read_dirent (buf : list Z) (off : Z) : Fat32DirEntry :=
  mk_dirent (bytes_at buf off 8) (bytes_at buf (off + 8) 3) (field buf (off + 11) 1)
    (field buf (off + 20) 2) (field buf (off + 26) 2) (field buf (off + 28) 4).
(** The entry as its 32 bytes, times and dates zero. *)
Definition dirent_bytes (e : Fat32DirEntry) : list Z :=
  name e ++ ext e ++ [attributes e] ++ replicate 8 0 ++ to_le 2 (cluster_high e) ++ replicate 4 0 ++
  to_le 2 (cluster_low e) ++ to_le 4 (file_size e).

Record Fat32Fs : Type := mk_fat {
  bytes_per_sector : Z; sectors_per_cluster : Z; reserved_sectors : Z; num_fats : Z;
  fat_size : Z; root_cluster : Z; data_start : Z; total_clusters : Z;
}.

Record DirEntry32 : Type := mk_entry32 { e_name : list Z; e_cluster : Z; e_size : Z; e_is_dir : bool }.

(** Division of unsigned integers panics on zero. *)
Definition div_u (a b : Z) : outcome Z := if b =? 0 then Panic else Ret (a / b).
Definition mod_u (a b : Z) : outcome Z := if b =? 0 then Panic else Ret (a mod b).

(** [String::push] of a byte taken as a character. *)
Definition push_char (s : list Z) (c : Z) : list Z :=
  s ++ if c <? 0x80 then [c] else [0xC0 + c / 64; 0x80 + c mod 64].
Fixpoint push_until_space (cs : list Z) (s : list Z) : list Z :=
  match cs with
  | [] => s
  | c :: cs' => if c =? 0x20 then s else push_until_space cs' (push_char s c)
  end.
Definition short_name_of (e : Fat32DirEntry) : list Z :=
  let n := push_until_space (name e) [] in
  if default 0 (lookupZ (ext e) 0) =? 0x20 then n else push_until_space (ext e) (push_char n 0x2E).
(** The five characters of the first field of a long entry. *)
Fixpoint push_long (todo : nat) (buf : list Z) (off : Z) (s : list Z) : list Z :=
  match todo with
  | O => s
  | S todo' =>
      let c := field buf off 2 in
      if (c =? 0xFFFF) || (c =? 0) then s
      else push_long todo' buf (off + 2) (if c <? 0x80 then s ++ [c] else s)
  end.

(** One cluster's directory entries from index [i]. *)
Fixpoint parse_entries (todo : nat) (i : Z) (buf long_name : list Z) (entries : list DirEntry32) : list DirEntry32 :=
  match todo with
  | O => entries
  | S todo' =>
      let entry := read_dirent buf (i * 32) in
      let first := default 0 (lookupZ (name entry) 0) in
      if first =? 0x00 then entries
      else if first =? 0xE5 then parse_entries todo' (i + 1) buf [] entries
      else if attributes entry =? 0x0F then
        parse_entries todo' (i + 1) buf (push_long 5 buf (i * 32 + 1) long_name) entries
      else
        let nm := if negb (bool_decide (long_name = [])) then long_name else short_name_of entry in
        let cluster := Z.lor (u32 (Z.shiftl (cluster_high entry) 16)) (cluster_low entry) in
        let is_dir := negb (Z.land (attributes entry) 0x10 =? 0) in
        let is_hidden := negb (Z.land (attributes entry) 0x02 =? 0) in
        let is_system := negb (Z.land (attributes entry) 0x04 =? 0) in
        if is_hidden || is_system then parse_entries todo' (i + 1) buf [] entries
        else parse_entries todo' (i + 1) buf [] (entries ++ [mk_entry32 nm cluster (file_size entry) is_dir])
  end.

Definition upper (c : Z) : Z := if (0x61 <=? c) && (c <=? 0x7A) then c - 0x20 else c.
(** [name.split('.')]. *)
Fixpoint split_dots (s cur : list Z) : list (list Z) :=
  match s with
  | [] => [cur]
  | c :: s' => if c =? 0x2E then cur :: split_dots s' [] else split_dots s' (cur ++ [c])
  end.
Definition pad_upper (n : Z) (s : list Z) : list Z :=
  write_at (replicate (Z.to_nat n) 0x20) 0 (upper <$> take (Z.to_nat n) s).
Definition to_8_3 (s : list Z) : list Z * list Z :=
  let parts := split_dots s [] in
  (pad_upper 8 (default [] (parts !! 0%nat)), match parts !! 1%nat with Some e => pad_upper 3 e | None => replicate 3 0x20 end).

Section fat32.
Context {D : Type} `{BlockDevice D}.

Definition fat_init (d : D) : outcome (result string Fat32Fs * D) :=
  let? (buf, d) := bd_read 0 d in
  let bpb := read_bpb buf in
  if negb (fat_size_16 bpb =? 0) then Ret (Err "not FAT32 (FAT12/16 detected)"%string, d)
  else if fat_size_32 bpb =? 0 then Ret (Err "invalid FAT32: fat_size_32 is 0"%string, d)
  else
    let data_start := u32 (bpb_reserved_sectors bpb + u32 (bpb_num_fats bpb * fat_size_32 bpb)) in
    let total_sectors := if negb (total_sectors_32 bpb =? 0) then total_sectors_32 bpb else total_sectors_16 bpb in
    total_clusters ← div_u (u32 (total_sectors - data_start)) (bpb_sectors_per_cluster bpb);
    Ret (Ok (mk_fat (bpb_bytes_per_sector bpb) (bpb_sectors_per_cluster bpb) (bpb_reserved_sectors bpb) (bpb_num_fats bpb)
      (fat_size_32 bpb) (bpb_root_cluster bpb) data_start total_clusters), d).

Definition sectors_per_sector (fs : Fat32Fs) : Z := sectors_per_cluster fs.
Definition cluster_size (fs : Fat32Fs) : Z := u32 (sectors_per_cluster fs * bytes_per_sector fs).
Definition first_sector (fs : Fat32Fs) (cluster : Z) : Z :=
  u32 (data_start fs + u32 (u32 (cluster - 2) * sectors_per_cluster fs)).

Fixpoint read_cluster_loop (idxs : list Z) (first : Z) (buf : list Z) (d : D) : outcome (result string (list Z) * D) :=
  match idxs with
  | [] => Ret (Ok buf, d)
  | s :: idxs' =>
      let? (sector, d) := bd_read (u32 (first + s)) d in
      let offset := s * SECTOR_SIZE in
      buf ← copy_into buf offset (offset + SECTOR_SIZE) sector;
      read_cluster_loop idxs' first buf d
  end.
Definition read_cluster (fs : Fat32Fs) (cluster : Z) (buf : list Z) (d : D) : outcome (result string (list Z) * D) :=
  if cluster <? 2 then Ret (Err "invalid cluster"%string, d)
  else if lenZ buf <? u32 (sectors_per_sector fs * SECTOR_SIZE) then Ret (Err "buffer too small for cluster"%string, d)
  else read_cluster_loop (seqZ 0 (sectors_per_cluster fs)) (first_sector fs cluster) buf d.

(** A table entry read from a sector of the table. *)
Definition entry_at (buf : list Z) (a : Z) : outcome Z :=
  b0 ← index buf a; b1 ← index buf (a + 1); b2 ← index buf (a + 2); b3 ← index buf (a + 3);
  Ret (from_le [b0; b1; b2; b3]).

Definition next_cluster (fs : Fat32Fs) (cluster : Z) (d : D) : outcome (result string Z * D) :=
  let fat_offset := u32 (u32 (reserved_sectors fs * bytes_per_sector fs) + u32 (cluster * 4)) in
  fat_sector ← div_u fat_offset (bytes_per_sector fs);
  byte_in_sector ← mod_u fat_offset (bytes_per_sector fs);
  let? (buf, d) := bd_read fat_sector d in
  entry ← entry_at buf byte_in_sector;
  Ret (if 0x0FFFFFF8 <=? entry then Ok 0
       else if entry =? 0x0FFFFFF7 then Err "bad cluster"%string
       else Ok (Z.land entry 0x0FFFFFFF), d).

(** Each round with a cluster of at least one byte copies something, so the
    length of the buffer is enough fuel. *)
Fixpoint read_file_loop (fuel : nat) (fs : Fat32Fs) (cluster offset size : Z) (cluster_buf buf : list Z) (d : D)
  : outcome (result string (Z * list Z) * D) :=
  if (offset <? lenZ buf) && (offset <? size) then
    match fuel with
    | O => Hang
    | S fuel' =>
        let? (cluster_buf, d) := read_cluster fs cluster cluster_buf d in
        let remaining := Z.min (size - offset) (lenZ cluster_buf) in
        let to_copy := Z.min remaining (lenZ buf - offset) in
        src ← slice cluster_buf 0 to_copy;
        buf ← copy_into buf offset (offset + to_copy) src;
        let offset := offset + to_copy in
        let? (cluster, d) := next_cluster fs cluster d in
        if cluster =? 0 then Ret (Ok (offset, buf), d)
        else read_file_loop fuel' fs cluster offset size cluster_buf buf d
    end
  else Ret (Ok (offset, buf), d).
Definition read_file_data (fs : Fat32Fs) (start_cluster size : Z) (buf : list Z) (d : D)
  : outcome (result string (Z * list Z) * D) :=
  let cluster_buf := replicate (Z.to_nat (u32 (sectors_per_sector fs * SECTOR_SIZE))) 0 in
  read_file_loop (length buf) fs start_cluster 0 size cluster_buf buf d.

(** The depth is bounded by 1024. *)
Fixpoint readdir_loop (fuel : nat) (fs : Fat32Fs) (cluster depth : Z) (cluster_buf : list Z) (entries : list DirEntry32) (d : D)
  : outcome (result string (list DirEntry32) * D) :=
  match fuel with
  | O => Hang
  | S fuel' =>
      if (cluster <? 2) || (1024 <? depth) then Ret (Ok entries, d)
      else
        let? (cluster_buf, d) := read_cluster fs cluster cluster_buf d in
        let num_entries := u32 (sectors_per_sector fs * SECTOR_SIZE) / 32 in
        let entries := parse_entries (Z.to_nat num_entries) 0 cluster_buf [] entries in
        let? (cluster, d) := next_cluster fs cluster d in
        if (cluster =? 0) || (cluster <? 2) then Ret (Ok entries, d)
        else readdir_loop fuel' fs cluster (depth + 1) cluster_buf entries d
  end.
Definition readdir (fs : Fat32Fs) (dir_cluster : Z) (d : D) : outcome (result string (list DirEntry32) * D) :=
  readdir_loop 1027 fs dir_cluster 0 (replicate (Z.to_nat (u32 (sectors_per_sector fs * SECTOR_SIZE))) 0) [] d.
(** ** Changes *)

(** The search of one sector of the table. *)
Fixpoint scan_entries (idxs : list Z) (fs : Fat32Fs) (sec : Z) (sector_buf : list Z) (entries_per_sector : Z) : outcome (option Z) :=
  match idxs with
  | [] => Ret None
  | i :: idxs' =>
      entry ← entry_at sector_buf (i * 4);
      let cluster := u32 (u32 (sec * entries_per_sector) + i) in
      if (Z.land entry 0x0FFFFFFF =? 0) && (2 <=? cluster) && (cluster <? total_clusters fs) then Ret (Some cluster)
      else scan_entries idxs' fs sec sector_buf entries_per_sector
  end.
Fixpoint alloc_loop (secs : list Z) (fs : Fat32Fs) (d : D) : outcome (result string Z * D) :=
  match secs with
  | [] => Ret (Err "no free clusters"%string, d)
  | sec :: secs' =>
      let? (sector_buf, d) := bd_read (u32 (reserved_sectors fs + sec)) d in
      let entries_per_sector := bytes_per_sector fs / 4 in
      r ← scan_entries (seqZ 0 entries_per_sector) fs sec sector_buf entries_per_sector;
      match r with
      | Some cluster => Ret (Ok cluster, d)
      | None => alloc_loop secs' fs d
      end
  end.
Definition alloc_cluster (fs : Fat32Fs) (d : D) : outcome (result string Z * D) := alloc_loop (seqZ 0 (fat_size fs)) fs d.

(** The entry's sector is written to every copy of the table. *)
Fixpoint write_copies (idxs : list Z) (fs : Fat32Fs) (sector : Z) (buf : list Z) (d : D) : outcome (result string unit * D) :=
  match idxs with
  | [] => Ret (Ok tt, d)
  | f :: idxs' =>
      let? (_, d) := bd_write (u32 (sector + u32 (f * fat_size fs))) buf d in
      write_copies idxs' fs sector buf d
  end.
Definition set_fat_entry (fs : Fat32Fs) (cluster value : Z) (d : D) : outcome (result string unit * D) :=
  let fat_offset := u32 (cluster * 4) in
  q ← div_u fat_offset (bytes_per_sector fs);
  byte_in_sector ← mod_u fat_offset (bytes_per_sector fs);
  let sector := u32 (reserved_sectors fs + q) in
  let? (buf, d) := bd_read sector d in
  buf ← copy_into buf byte_in_sector (byte_in_sector + 4) (to_le 4 (Z.land value 0x0FFFFFFF));
  write_copies (seqZ 0 (num_fats fs)) fs sector buf d.
Definition mark_eoc (fs : Fat32Fs) (cluster : Z) (d : D) : outcome (result string unit * D) :=
  set_fat_entry fs cluster 0x0FFFFFF8 d.
Definition free_cluster (fs : Fat32Fs) (cluster : Z) (d : D) : outcome (result string unit * D) :=
  set_fat_entry fs cluster 0 d.

(** A freed cluster has no successor, so no cluster is freed twice and the
    number of clusters is enough fuel. *)
Fixpoint free_chain_loop (fuel : nat) (fs : Fat32Fs) (cluster : Z) (d : D) : outcome (result string unit * D) :=
  match fuel with
  | O => Hang
  | S fuel' =>
      if (cluster <? 2) || (total_clusters fs <=? cluster) then Ret (Ok tt, d)
      else
        let? (next, d) := next_cluster fs cluster d in
        let? (_, d) := free_cluster fs cluster d in
        if (next =? 0) || (0x0FFFFFF8 <=? next) then Ret (Ok tt, d) else free_chain_loop fuel' fs next d
  end.
Definition free_cluster_chain (fs : Fat32Fs) (start_cluster : Z) (d : D) : outcome (result string unit * D) :=
  free_chain_loop (Z.to_nat (total_clusters fs) + 2) fs start_cluster d.

(** A chain may be a cycle, then there is no last cluster; the caller gives
    the fuel. *)
Fixpoint last_cluster (fuel : nat) (fs : Fat32Fs) (cluster : Z) (d : D) : outcome (result string Z * D) :=
  match fuel with
  | O => Hang
  | S fuel' =>
      let? (next, d) := next_cluster fs cluster d in
      if next =? 0 then Ret (Ok cluster, d) else last_cluster fuel' fs next d
  end.

Fixpoint write_cluster_loop (idxs : list Z) (first to_write : Z) (data : list Z) (d : D) : outcome (result string unit * D) :=
  match idxs with
  | [] => Ret (Ok tt, d)
  | s :: idxs' =>
      let offset := s * SECTOR_SIZE in
      sector ← (if offset <? to_write then
                  let end_ := Z.min (offset + SECTOR_SIZE) to_write in
                  src ← slice data offset end_;
                  copy_into (replicate (Z.to_nat SECTOR_SIZE) 0) 0 (end_ - offset) src
                else Ret (replicate (Z.to_nat SECTOR_SIZE) 0));
      let? (_, d) := bd_write (u32 (first + s)) sector d in
      write_cluster_loop idxs' first to_write data d
  end.
Definition write_cluster (fs : Fat32Fs) (cluster : Z) (data : list Z) (d : D) : outcome (result string unit * D) :=
  write_cluster_loop (seqZ 0 (sectors_per_cluster fs)) (first_sector fs cluster) (Z.min (lenZ data) (cluster_size fs)) data d.

(** To the cluster that holds the offset; the offset is the fuel. *)
Fixpoint seek_loop (fuel : nat) (fs : Fat32Fs) (cluster pos : Z) (d : D) : outcome (result string (Z * Z) * D) :=
  if cluster_size fs <=? pos then
    match fuel with
    | O => Hang
    | S fuel' =>
        let? (next, d) := next_cluster fs cluster d in
        if next =? 0 then Ret (Err "offset beyond file"%string, d)
        else seek_loop fuel' fs next (pos - cluster_size fs) d
    end
  else Ret (Ok (cluster, pos), d).

(** A new cluster at the end of a chain. *)
Definition extend_chain (fs : Fat32Fs) (cluster : Z) (d : D) : outcome (result string Z * D) :=
  let? (newCluster, d) := alloc_cluster fs d in
  let? (_, d) := set_fat_entry fs cluster newCluster d in
  let? (_, d) := mark_eoc fs newCluster d in
  Ret (Ok newCluster, d).

(** Each round writes at least one byte. *)
Fixpoint write_file_loop (fuel : nat) (fs : Fat32Fs) (cluster pos written : Z) (data : list Z) (d : D)
  : outcome (result string Z * D) :=
  if written <? lenZ data then
    match fuel with
    | O => Hang
    | S fuel' =>
        let cs := cluster_size fs in
        let? (cluster_buf, d) := read_cluster fs cluster (replicate (Z.to_nat cs) 0) d in
        let n := Z.min (lenZ data - written) (cs - pos) in
        src ← slice data written (written + n);
        cluster_buf ← copy_into cluster_buf pos (pos + n) src;
        let? (_, d) := write_cluster fs cluster cluster_buf d in
        let written := written + n in
        if written <? lenZ data then
          let? (next, d) := next_cluster fs cluster d in
          if next =? 0 then
            let? (newCluster, d) := extend_chain fs cluster d in
            write_file_loop fuel' fs newCluster 0 written data d
          else write_file_loop fuel' fs next 0 written data d
        else Ret (Ok written, d)
    end
  else Ret (Ok written, d).
Definition write_file_data (fs : Fat32Fs) (start_cluster offset : Z) (data : list Z) (d : D) : outcome (result string Z * D) :=
  let? (at_, d) := seek_loop (Z.to_nat offset) fs start_cluster offset d in
  let '(cluster, pos) := at_ in
  write_file_loop (length data) fs cluster pos 0 data d.

(** The first free slot of a directory cluster. *)
Fixpoint free_slot (idxs : list Z) (cluster_buf : list Z) : outcome (option Z) :=
  match idxs with
  | [] => Ret None
  | i :: idxs' =>
      b ← index cluster_buf (i * 32);
      if (b =? 0x00) || (b =? 0xE5) then Ret (Some (i * 32)) else free_slot idxs' cluster_buf
  end.
Definition new_dirent (short : list Z * list Z) (file_cluster : Z) (is_dir : bool) : Fat32DirEntry :=
  mk_dirent short.1 short.2 (if is_dir then 0x10 else 0x20) (u16 (Z.shiftr file_cluster 16)) (Z.land file_cluster 0xFFFF) 0.

(** The walk along the directory; a cyclic directory without a free slot
    never ends, so the caller gives the fuel. *)
Fixpoint create_loop (fuel : nat) (fs : Fat32Fs) (cluster file_cluster : Z) (entry : Fat32DirEntry) (cluster_buf : list Z) (d : D)
  : outcome (result string Z * D) :=
  match fuel with
  | O => Hang
  | S fuel' =>
      let? (cluster_buf, d) := read_cluster fs cluster cluster_buf d in
      slot ← free_slot (seqZ 0 (cluster_size fs / 32)) cluster_buf;
      match slot with
      | Some off =>
          cluster_buf ← copy_into cluster_buf off (off + 32) (dirent_bytes entry);
          let? (_, d) := write_cluster fs cluster cluster_buf d in
          Ret (Ok file_cluster, d)
      | None =>
          let? (next, d) := next_cluster fs cluster d in
          if next =? 0 then
            let? (newCluster, d) := extend_chain fs cluster d in
            let empty := replicate (Z.to_nat (cluster_size fs)) 0 in
            let? (_, d) := write_cluster fs newCluster empty d in
            new_buf ← copy_into empty 0 32 (dirent_bytes entry);
            let? (_, d) := write_cluster fs newCluster new_buf d in
            Ret (Ok file_cluster, d)
          else create_loop fuel' fs next file_cluster entry cluster_buf d
      end
  end.
Definition create_file_entry (fuel : nat) (fs : Fat32Fs) (dir_cluster : Z) (nm : list Z) (is_dir : bool) (d : D)
  : outcome (result string Z * D) :=
  let? (file_cluster, d) := alloc_cluster fs d in
  let? (_, d) := mark_eoc fs file_cluster d in
  create_loop fuel fs dir_cluster file_cluster (new_dirent (to_8_3 nm) file_cluster is_dir)
    (replicate (Z.to_nat (cluster_size fs)) 0) d.

(** What the search of one directory cluster finds: the end of the directory,
    the entry, or neither. *)
Inductive found : Type := FoundEnd | FoundAt (off : Z) | FoundNone.
Fixpoint find_entry (idxs : list Z) (short : list Z * list Z) (cluster_buf : list Z) : outcome found :=
  match idxs with
  | [] => Ret FoundNone
  | i :: idxs' =>
      let off := i * 32 in
      b ← index cluster_buf off;
      if b =? 0x00 then Ret FoundEnd
      else if b =? 0xE5 then find_entry idxs' short cluster_buf
      else
        entry_name ← slice cluster_buf off (off + 8);
        entry_ext ← slice cluster_buf (off + 8) (off + 11);
        if bool_decide (entry_name = short.1) && bool_decide (entry_ext = short.2) then Ret (FoundAt off)
        else find_entry idxs' short cluster_buf
  end.
Fixpoint delete_loop (fuel : nat) (fs : Fat32Fs) (cluster : Z) (short : list Z * list Z) (cluster_buf : list Z) (d : D)
  : outcome (result string unit * D) :=
  match fuel with
  | O => Hang
  | S fuel' =>
      let? (cluster_buf, d) := read_cluster fs cluster cluster_buf d in
      r ← find_entry (seqZ 0 (cluster_size fs / 32)) short cluster_buf;
      match r with
      | FoundEnd => Ret (Err "file not found"%string, d)
      | FoundAt off =>
          b20 ← index cluster_buf (off + 20);
          b26 ← index cluster_buf (off + 26);
          let cl := Z.lor (u32 (Z.shiftl b20 16)) b26 in
          let? (_, d) := (if 2 <=? cl then free_cluster_chain fs cl d else Ret (Ok tt, d)) in
          cluster_buf ← assign cluster_buf off 0xE5;
          let? (_, d) := write_cluster fs cluster cluster_buf d in
          Ret (Ok tt, d)
      | FoundNone =>
          let? (next, d) := next_cluster fs cluster d in
          if next =? 0 then Ret (Err "file not found"%string, d)
          else delete_loop fuel' fs next short cluster_buf d
      end
  end.
Definition delete_file_entry (fuel : nat) (fs : Fat32Fs) (dir_cluster : Z) (nm : list Z) (d : D) : outcome (result string unit * D) :=
  delete_loop fuel fs dir_cluster (to_8_3 nm) (replicate (Z.to_nat (cluster_size fs)) 0) d.

End fat32.
