(* ===== verification/Volume.v ===== *)
(** * FAT32 volumes

    What the operations of [Fat32] do to a well-formed volume on any disk:
    the allocation table as a function from clusters to entries, files as
    chains of clusters with their bytes. *)

From S2P Require Import Prelude Bytes Ide Fat32.

(** The layout [init] computes, within the disk and the limits of FAT32. *)
Record geometry (fs : Fat32Fs) (total : Z) : Prop := {
  g_bps : bytes_per_sector fs = 512;
  g_spc : 1 <= sectors_per_cluster fs < 256;
  g_res : 0 <= reserved_sectors fs < 65536;
  g_fats : 1 <= num_fats fs < 256;
  g_fsz : 1 <= fat_size fs < 2 ^ 25;
  g_start : data_start fs = reserved_sectors fs + num_fats fs * fat_size fs;
  g_clusters : 2 <= total_clusters fs <= 0x0FFFFFF7;
  g_table : 4 * total_clusters fs <= 512 * fat_size fs;
  g_end : data_start fs + total_clusters fs * sectors_per_cluster fs <= total;
  g_total : total < two32;
}.

Definition decode (entry : Z) : result string Z :=
  if 0x0FFFFFF8 <=? entry then Ok 0
  else if entry =? 0x0FFFFFF7 then Err "bad cluster"%string
  else Ok (Z.land entry 0x0FFFFFFF).

Lemma entry_at_field buf a : 0 <= a -> a + 4 <= lenZ buf -> entry_at buf a = Ret (field buf a 4).
Proof.
  intros Ha Hl. unfold entry_at, index.
  destruct (lookupZ_lt buf a) as [b0 H0]; [lia|]. destruct (lookupZ_lt buf (a + 1)) as [b1 H1]; [lia|].
  destruct (lookupZ_lt buf (a + 2)) as [b2 H2]; [lia|]. destruct (lookupZ_lt buf (a + 3)) as [b3 H3]; [lia|].
  rewrite H0, H1, H2, H3, !bind_Ret. apply (f_equal Ret). unfold field. apply (f_equal from_le).
  apply list_eq. intros i. change (Z.to_nat 4) with 4%nat. unfold lookupZ in *.
  destruct (Z.ltb_spec a 0); [lia|]. destruct (Z.ltb_spec (a + 1) 0); [lia|]. destruct (Z.ltb_spec (a + 2) 0); [lia|].
  destruct (Z.ltb_spec (a + 3) 0); [lia|].
  destruct i as [|[|[|[|i]]]]; [rewrite lookup_take_lt, lookup_drop by lia..|rewrite lookup_take_ge by lia; done].
  - by rewrite Nat.add_0_r.
  - replace (Z.to_nat a + 1)%nat with (Z.to_nat (a + 1)) by lia. done.
  - replace (Z.to_nat a + 2)%nat with (Z.to_nat (a + 2)) by lia. done.
  - replace (Z.to_nat a + 3)%nat with (Z.to_nat (a + 3)) by lia. done.
Qed.

(** Fields of a buffer with a field overwritten. *)
Lemma field_write_at_same buf a v :
  0 <= a -> a + 4 <= lenZ buf -> 0 <= v < two32 -> field (write_at buf a (to_le 4 v)) a 4 = v.
Proof.
  intros Ha Hl Hv. pose proof (slice_write_at buf a (to_le 4 v) Ha ltac:(rewrite lenZ_to_le; lia)) as E.
  rewrite lenZ_to_le in E. rewrite slice_Ret in E.
  2: lia. 2: { rewrite lenZ_write_at; rewrite ?lenZ_to_le; lia. }
  apply Ret_inj in E. unfold field. change (a + Z.of_nat 4 - a) with (a + 4 - a) in E.
  replace (Z.to_nat (a + 4 - a)) with (Z.to_nat 4) in E by lia. rewrite E. by apply from_to_le_small.
Qed.

Lemma field_write_at_other buf a b data k :
  0 <= a -> a + lenZ data <= lenZ buf -> 0 <= b -> 0 <= k -> b + k <= a \/ a + lenZ data <= b ->
  field (write_at buf a data) b k = field buf b k.
Proof.
  intros Ha Hl Hb Hk Hd. unfold field. f_equal. apply list_eq. intros i.
  destruct (decide (i < Z.to_nat k)%nat); [|by rewrite !lookup_take_ge by lia].
  rewrite !lookup_take_lt, !lookup_drop by lia.
  pose proof (lookupZ_write_at_out buf a data (b + Z.of_nat i) Ha Hl ltac:(lia)) as E. unfold lookupZ in E.
  destruct (Z.ltb_spec (b + Z.of_nat i) 0); [lia|].
  by replace (Z.to_nat (b + Z.of_nat i)) with (Z.to_nat b + i)%nat in E by lia.
Qed.

Lemma chunks n (l : list Z) :
  lenZ l = Z.of_nat n * 512 -> concat ((fun s => take 512 (drop (Z.to_nat (s * 512)) l)) <$> seqZ 0 (Z.of_nat n)) = l.
Proof.
  assert (E : forall n a (l : list Z), 0 <= a -> lenZ l = (a + Z.of_nat n) * 512 ->
    concat ((fun s => take 512 (drop (Z.to_nat (s * 512)) l)) <$> seqZ a (Z.of_nat n)) = drop (Z.to_nat (a * 512)) l).
  { clear n l. intros n. induction n as [|n IH]; intros a l Ha Hl.
    - simpl. rewrite drop_ge; [done|]. unfold lenZ in Hl. lia.
    - rewrite (seqZ_cons a) by lia. cbn [fmap list_fmap concat]. replace (Z.pred (Z.of_nat (S n))) with (Z.of_nat n) by lia.
      unfold fmap in IH. rewrite IH by lia. rewrite <- (take_drop 512 (drop (Z.to_nat (a * 512)) l)) at 2. f_equal.
      rewrite drop_drop. f_equal. lia. }
  intros Hl. by apply (E n 0 l).
Qed.

Lemma write_at_whole {B} (buf l : list B) a : lenZ l = 0 -> write_at buf a l = buf.
Proof. intros Hl. destruct l; [apply write_at_nil|rewrite lenZ_cons in Hl; pose proof (lenZ_nonneg l); lia]. Qed.

Lemma write_at_split {B} (h t a b : list B) pos :
  0 <= pos -> pos + lenZ a = lenZ h -> lenZ b <= lenZ t ->
  write_at (h ++ t) pos (a ++ b) = write_at h pos a ++ write_at t 0 b.
Proof.
  intros Hp Ha Hb. unfold write_at, lenZ in *. rewrite take_app_le by lia.
  rewrite (drop_ge h) by lia. rewrite drop_app_ge by (rewrite length_app; lia). rewrite length_app. change (take (Z.to_nat 0) t) with (@nil B).
  rewrite app_nil_r, <- !app_assoc. cbn [app]. do 3 f_equal. f_equal. lia.
Qed.

Lemma write_at_0 {B} (l : list B) data : lenZ data = lenZ l -> write_at l 0 data = data.
Proof. intros E. unfold write_at, lenZ in *. simpl. rewrite drop_ge by lia. by rewrite app_nil_r. Qed.

Section volume.
Context {D : Type} `{BlockDevice D}.
Implicit Types d : D.

(** [d'] holds what [d] holds. *)
Definition unchanged d d' : Prop :=
  bd_inv d' /\ bd_total d' = bd_total d /\ forall x, 0 <= x < bd_total d -> bd_sector d' x = bd_sector d x.
(** [d'] holds what [d] holds but for the sectors in [P]. *)
Definition changed (P : Z -> Prop) d d' : Prop :=
  bd_inv d' /\ bd_total d' = bd_total d /\ forall x, 0 <= x < bd_total d -> ~ P x -> bd_sector d' x = bd_sector d x.

Lemma unchanged_refl d : bd_inv d -> unchanged d d.
Proof. by split. Qed.
Lemma unchanged_trans d d1 d2 : unchanged d d1 -> unchanged d1 d2 -> unchanged d d2.
Proof.
  intros (_ & Ht1 & Hs1) (Hi & Ht2 & Hs2). split; [done|]. split; [congruence|]. intros x Hx.
  rewrite Hs2 by lia. by apply Hs1.
Qed.

Lemma changed_mono (P Q : Z -> Prop) d d' : (forall x, P x -> Q x) -> changed P d d' -> changed Q d d'.
Proof. intros HPQ (Hi & Ht & Hs). split; [done|]. split; [done|]. intros x Hx HQ. apply Hs; [done|]. intros HP. by apply HQ, HPQ. Qed.
Lemma changed_trans (P : Z -> Prop) d d1 d2 : changed P d d1 -> changed P d1 d2 -> changed P d d2.
Proof.
  intros (_ & Ht1 & Hs1) (Hi & Ht2 & Hs2). split; [done|]. split; [congruence|]. intros x Hx Hn.
  rewrite Hs2 by (lia || done). by apply Hs1.
Qed.
Lemma unchanged_changed (P : Z -> Prop) d d' : unchanged d d' -> changed P d d'.
Proof. intros (Hi & Ht & Hs). split; [done|]. split; [done|]. intros x Hx _. by apply Hs. Qed.

(** Runs of sectors. *)

Lemma sectors_len d a n :
  bd_inv d -> 0 <= a -> 0 <= n -> a + n <= bd_total d ->
  lenZ (concat (bd_sector d <$> seqZ a n)) = n * 512 /\ Forall byte (concat (bd_sector d <$> seqZ a n)).
Proof.
  intros Hd Ha Hn. rewrite <- (Z2Nat.id n) by done. generalize (Z.to_nat n) as k. intros k. clear Hn n.
  revert a Ha. induction k as [|k IH]; intros a Ha Hr; [done|].
  rewrite (seqZ_cons a) by lia. cbn [fmap list_fmap concat]. replace (Z.pred (Z.of_nat (S k))) with (Z.of_nat k) by lia.
  destruct (bd_sector_ok d a Hd ltac:(lia)) as [Hl Hb]. destruct (IH (Z.succ a) ltac:(lia) ltac:(lia)) as [Hl' Hb'].
  unfold SECTOR_SIZE in Hl. rewrite lenZ_app. unfold fmap in *. split; [lia|by apply Forall_app].
Qed.

Lemma unchanged_sectors d d' a n :
  unchanged d d' -> 0 <= a -> a + n <= bd_total d -> bd_sector d' <$> seqZ a n = bd_sector d <$> seqZ a n.
Proof.
  intros (_ & _ & Hs) Ha Hr. apply list_fmap_ext. intros i x Hx. apply Hs.
  apply list_elem_of_lookup_2 in Hx. apply elem_of_seqZ in Hx. lia.
Qed.

Lemma read_cluster_loop_spec n s first buf d :
  bd_inv d -> bd_total d < two32 -> 0 <= s -> 0 <= first -> first + s + Z.of_nat n <= bd_total d -> (s + Z.of_nat n) * 512 <= lenZ buf ->
  exists d', read_cluster_loop (seqZ s (Z.of_nat n)) first buf d =
      Ret (Ok (write_at buf (s * 512) (concat (bd_sector d <$> seqZ (first + s) (Z.of_nat n)))), d') /\ unchanged d d'.
Proof.
  intros Hd Ht Hs Hf. revert s buf d Hd Ht Hs. induction n as [|n IH]; intros s buf d Hd Ht Hs Hr Hl.
  { exists d. simpl. rewrite write_at_nil. split; [done|by apply unchanged_refl]. }
  rewrite (seqZ_cons s), (seqZ_cons (first + s)) by lia. cbn [read_cluster_loop fmap list_fmap concat].
  replace (Z.pred (Z.of_nat (S n))) with (Z.of_nat n) by lia. rewrite u32_small by lia.
  destruct (bd_read_ok d (first + s) Hd ltac:(lia)) as (d1 & -> & Hd1 & Ht1 & Hs1). cbn [try_bind].
  destruct (bd_sector_ok d (first + s) Hd ltac:(lia)) as [Hsl _].
  pose proof (copy_into_Ret buf (s * SECTOR_SIZE) (bd_sector d (first + s))) as Hc. rewrite Hsl in Hc. unfold SECTOR_SIZE in *.
  rewrite Hc, bind_Ret by lia.
  destruct (IH (Z.succ s) (write_at buf (s * 512) (bd_sector d (first + s))) d1 Hd1) as (d' & -> & Hun);
    [lia|lia|lia|rewrite lenZ_write_at; lia|].
  assert (Hun1 : unchanged d d1) by done. exists d'. split; [|by eapply unchanged_trans].
  rewrite (unchanged_sectors d d1) by (done || lia). do 3 f_equal.
  replace (Z.succ s * 512) with (s * 512 + lenZ (bd_sector d (first + s))) by lia.
  replace (first + Z.succ s) with (Z.succ (first + s)) by lia. apply write_at_app; [lia|].
  rewrite Hsl, (proj1 (sectors_len d (Z.succ (first + s)) (Z.of_nat n) Hd ltac:(lia) ltac:(lia) ltac:(lia))). lia.
Qed.

Lemma write_cluster_loop_spec n s first data d :
  bd_inv d -> bd_total d < two32 -> 0 <= s -> 0 <= first -> first + s + Z.of_nat n <= bd_total d ->
  (s + Z.of_nat n) * 512 <= lenZ data -> Forall byte data ->
  exists d', write_cluster_loop (seqZ s (Z.of_nat n)) first (lenZ data) data d = Ret (Ok tt, d') /\
    changed (fun x => first + s <= x < first + s + Z.of_nat n) d d' /\
    forall x, first + s <= x < first + s + Z.of_nat n ->
      bd_sector d' x = take 512 (drop (Z.to_nat ((x - first) * 512)) data).
Proof.
  intros Hd Ht Hs Hf. revert s d Hd Ht Hs. induction n as [|n IH]; intros s d Hd Ht Hs Hr Hl Hb.
  { exists d. split; [done|]. split; [by split|lia]. }
  rewrite (seqZ_cons s) by lia. cbn [write_cluster_loop]. replace (Z.pred (Z.of_nat (S n))) with (Z.of_nat n) by lia.
  unfold SECTOR_SIZE. destruct (Z.ltb_spec (s * 512) (lenZ data)); [|lia]. rewrite Z.min_l by lia.
  rewrite slice_Ret, bind_Ret by lia. replace (Z.to_nat (s * 512 + 512 - s * 512)) with 512%nat by lia.
  set (sec := take 512 (drop (Z.to_nat (s * 512)) data)).
  assert (Hsl : lenZ sec = SECTOR_SIZE).
  { unfold sec, lenZ, SECTOR_SIZE in *. rewrite length_take, length_drop. lia. }
  assert (Hcp : copy_into (replicate (Z.to_nat 512) 0) 0 (s * 512 + 512 - s * 512) sec = Ret sec).
  { replace (s * 512 + 512 - s * 512) with (0 + lenZ sec) by (unfold SECTOR_SIZE in Hsl; lia).
    rewrite copy_into_Ret by (rewrite ?lenZ_replicate, ?Hsl; unfold SECTOR_SIZE; lia). f_equal.
    unfold write_at. rewrite drop_ge; [by rewrite app_nil_r|]. rewrite length_replicate. unfold lenZ, SECTOR_SIZE in Hsl. lia. }
  rewrite Hcp, bind_Ret, u32_small by lia.
  destruct (bd_write_ok d (first + s) sec Hd ltac:(lia) Hsl) as (d1 & -> & Hd1 & Ht1 & Hs1).
  { by apply Forall_take, Forall_drop. }
  cbn [try_bind]. destruct (IH (Z.succ s) d1 Hd1) as (d' & -> & (Hd' & Ht' & Hout) & Hin); [lia|lia|lia|lia|done|].
  exists d'. split; [done|]. split.
  - split; [done|]. split; [congruence|]. intros x Hx Hn. rewrite Hout by lia. rewrite Hs1 by done.
    destruct (Z.eqb_spec x (first + s)); [lia|done].
  - intros x Hx. destruct (decide (x = first + s)) as [->|].
    + rewrite Hout by lia. rewrite Hs1, Z.eqb_refl by lia. unfold sec. do 3 f_equal. lia.
    + apply Hin. lia.
Qed.

Section fixed.
Variable fs : Fat32Fs.
Let spc := sectors_per_cluster fs.

Definition valid_cluster (c : Z) : Prop := 2 <= c < total_clusters fs.
Definition fat_at d (c : Z) : Z := field (bd_sector d (reserved_sectors fs + c / 128)) (4 * (c mod 128)) 4.
Definition cluster_at (c : Z) : Z := data_start fs + (c - 2) * spc.
Definition cluster_data d (c : Z) : list Z := concat (bd_sector d <$> seqZ (cluster_at c) spc).

Lemma table_sector d c : geometry fs (bd_total d) -> 0 <= c < total_clusters fs ->
  reserved_sectors fs <= reserved_sectors fs + c / 128 < reserved_sectors fs + fat_size fs /\
  reserved_sectors fs + fat_size fs <= data_start fs <= bd_total d.
Proof. intros [] Hc. subst spc. split; [dlia|]. nia. Qed.

Lemma next_cluster_spec d c :
  geometry fs (bd_total d) -> bd_inv d -> 0 <= c < total_clusters fs ->
  exists d', next_cluster fs c d = Ret (decode (fat_at d c), d') /\ unchanged d d'.
Proof.
  intros Hg Hd Hc. destruct (table_sector d c Hg Hc) as [Hs He]. pose proof Hg as []. unfold next_cluster.
  rewrite g_bps0. rewrite (u32_small (reserved_sectors fs * 512)), (u32_small (c * 4)), u32_small by lia.
  unfold div_u, mod_u. change (512 =? 0) with false. cbv iota. rewrite !bind_Ret.
  replace ((reserved_sectors fs * 512 + c * 4) / 512) with (reserved_sectors fs + c / 128) by dlia.
  replace ((reserved_sectors fs * 512 + c * 4) mod 512) with (4 * (c mod 128)) by dlia.
  destruct (bd_read_ok d (reserved_sectors fs + c / 128) Hd ltac:(lia)) as (d' & -> & Hun). cbn [try_bind].
  destruct (bd_sector_ok d (reserved_sectors fs + c / 128) Hd ltac:(lia)) as [Hl _].
  rewrite entry_at_field, bind_Ret by (rewrite ?Hl; unfold SECTOR_SIZE; dlia). exists d'. done.
Qed.
Lemma copy_range k n f :
  0 <= k < n -> 1 <= f -> 0 <= k * f /\ k * f + f <= n * f /\ (1 <= k -> f <= k * f).
Proof. intros. split; [nia|]. split; nia. Qed.

Lemma write_copies_spec idxs sector buf d :
  bd_inv d -> lenZ buf = SECTOR_SIZE -> Forall byte buf -> bd_total d < two32 ->
  Forall (fun k => 0 <= k * fat_size fs /\ 0 <= sector /\ sector + k * fat_size fs < bd_total d) idxs ->
  exists d', write_copies idxs fs sector buf d = Ret (Ok tt, d') /\ bd_inv d' /\ bd_total d' = bd_total d /\
    (forall k, k ∈ idxs -> bd_sector d' (sector + k * fat_size fs) = buf) /\
    forall x, 0 <= x < bd_total d -> (forall k, k ∈ idxs -> x <> sector + k * fat_size fs) -> bd_sector d' x = bd_sector d x.
Proof.
  intros Hd Hl Hb Ht Hr. revert d Hd Ht Hr. induction idxs as [|k idxs IH]; intros d Hd Ht Hr; cbn [write_copies].
  { exists d. split; [done|]. split; [done|]. split; [done|]. split; [by intros k Hk%elem_of_nil|done]. }
  apply Forall_cons in Hr as [(H0 & H1 & H2) Hr]. rewrite (u32_small (k * _)), u32_small by lia.
  destruct (bd_write_ok d (sector + k * fat_size fs) buf Hd ltac:(lia) Hl Hb) as (d1 & -> & Hd1 & Ht1 & Hs1). cbn [try_bind].
  destruct (IH d1 Hd1) as (d' & -> & Hd' & Ht' & Hin & Hout); [lia|by rewrite Ht1|].
  exists d'. split; [done|]. split; [done|]. split; [congruence|]. split.
  - intros j [->|Hj]%elem_of_cons; [|by apply Hin].
    destruct (decide (Exists (fun j => sector + k * fat_size fs = sector + j * fat_size fs) idxs)) as [Hex|Hno].
    + apply Exists_exists in Hex as (j & Hj & ->). by apply Hin.
    + rewrite Hout; [rewrite Hs1, Z.eqb_refl by lia; done|lia|].
      intros j Hj E. apply Hno, Exists_exists. eauto.
  - intros x Hx Hne. rewrite Hout; [|lia|intros j Hj; apply Hne; by right].
    rewrite Hs1 by done. destruct (Z.eqb_spec x (sector + k * fat_size fs)) as [->|]; [|done].
    exfalso. by apply (Hne k); [left|].
Qed.

(** The entry of [c] is [v]; the other entries, the data and what lies before
    the table stay; all copies of the table agree on the entry's sector. *)
Record fat_updated (c v : Z) (d d' : D) : Prop := {
  fu_inv : bd_inv d';
  fu_total : bd_total d' = bd_total d;
  fu_fat : forall c', 0 <= c' < total_clusters fs -> fat_at d' c' = if c' =? c then v else fat_at d c';
  fu_rest : forall x, 0 <= x < bd_total d -> x < reserved_sectors fs \/ data_start fs <= x -> bd_sector d' x = bd_sector d x;
  fu_copies : forall k, 0 <= k < num_fats fs ->
    bd_sector d' (reserved_sectors fs + c / 128 + k * fat_size fs) = bd_sector d' (reserved_sectors fs + c / 128);
}.

Lemma mask28 v : Z.land v 0x0FFFFFFF = v mod 2 ^ 28.
Proof. change 0x0FFFFFFF with (Z.ones 28). by rewrite Z.land_ones. Qed.

Lemma set_fat_entry_spec d c v :
  geometry fs (bd_total d) -> bd_inv d -> 0 <= c < total_clusters fs ->
  exists d', set_fat_entry fs c v d = Ret (Ok tt, d') /\ fat_updated c (v mod 2 ^ 28) d d'.
Proof.
  intros Hg Hd Hc. destruct (table_sector d c Hg Hc) as [Hs He]. pose proof Hg as []. unfold set_fat_entry.
  rewrite g_bps0. rewrite (u32_small (c * 4)) by lia. unfold div_u, mod_u. change (512 =? 0) with false. cbv iota. rewrite !bind_Ret.
  replace (c * 4 / 512) with (c / 128) by dlia. replace (c * 4 mod 512) with (4 * (c mod 128)) by dlia.
  rewrite u32_small by lia. set (sec := reserved_sectors fs + c / 128) in *.
  destruct (bd_read_ok d sec Hd ltac:(lia)) as (d1 & -> & Hd1 & Ht1 & Hs1). cbn [try_bind].
  destruct (bd_sector_ok d sec Hd ltac:(lia)) as [Hl Hby]. rewrite mask28.
  set (a := 4 * (c mod 128)). assert (Ha : 0 <= a /\ a + 4 <= 512) by (unfold a; dlia).
  assert (Hcp : copy_into (bd_sector d sec) a (a + 4) (to_le 4 (v mod 2 ^ 28)) = Ret (write_at (bd_sector d sec) a (to_le 4 (v mod 2 ^ 28)))).
  { apply (copy_into_Ret (bd_sector d sec) a (to_le 4 (v mod 2 ^ 28))); [lia|]. rewrite Hl, lenZ_to_le. unfold SECTOR_SIZE. lia. }
  rewrite Hcp, bind_Ret. set (buf := write_at _ a _).
  assert (Hbl : lenZ buf = SECTOR_SIZE) by (unfold buf; rewrite lenZ_write_at; rewrite ?lenZ_to_le, ?Hl; unfold SECTOR_SIZE; lia).
  assert (Hbb : Forall byte buf).
  { unfold buf, write_at. apply Forall_app. split; [by apply Forall_take|]. apply Forall_app. split; [apply to_le_bytes|by apply Forall_drop]. }
  destruct (write_copies_spec (seqZ 0 (num_fats fs)) sec buf d1 Hd1 Hbl Hbb) as (d' & -> & Hd' & Ht' & Hin & Hout); [lia| |].
  { apply Forall_forall. intros k Hk%elem_of_seqZ. rewrite Ht1.
    destruct (copy_range k (num_fats fs) (fat_size fs)) as (? & ? & ?); [lia|lia|]. lia. }
  assert (Hsec : bd_sector d' sec = buf).
  { pose proof (Hin 0 ltac:(apply elem_of_seqZ; lia)) as E. by rewrite Z.mul_0_l, Z.add_0_r in E. }
  exists d'. split; [done|]. split; [done|congruence| | |].
  - intros c' Hc'. destruct (table_sector d c' Hg Hc') as [Hs' _]. unfold fat_at.
    pose proof (Z.mod_pos_bound v (2 ^ 28) ltac:(lia)) as Hm.
    destruct (decide (reserved_sectors fs + c' / 128 = sec)) as [E|E].
    + rewrite E, Hsec. unfold buf. destruct (Z.eqb_spec c' c) as [->|Hne].
      * apply field_write_at_same; rewrite ?Hl; unfold SECTOR_SIZE; lia.
      * apply field_write_at_other; rewrite ?Hl, ?lenZ_to_le; unfold SECTOR_SIZE, a, sec in *; dlia.
    + rewrite Hout, Hs1; [|lia|lia|].
      2: { intros k Hk%elem_of_seqZ. destruct (decide (k = 0)) as [->|]; [lia|].
           destruct (copy_range k (num_fats fs) (fat_size fs)) as (? & ? & ?); [lia|lia|]. lia. }
      destruct (Z.eqb_spec c' c) as [->|]; [|done]. done.
  - intros x Hx Hr. rewrite Hout; [by apply Hs1|lia|]. intros k Hk%elem_of_seqZ.
    destruct (copy_range k (num_fats fs) (fat_size fs)) as (? & ? & ?); [lia|lia|]. lia.
  - intros k Hk. fold sec. rewrite Hsec. apply Hin, elem_of_seqZ. lia.
Qed.

(** ** Clusters *)

Lemma cluster_range d c :
  geometry fs (bd_total d) -> valid_cluster c ->
  data_start fs <= cluster_at c /\ cluster_at c + spc <= bd_total d /\ 0 <= data_start fs /\
  first_sector fs c = cluster_at c /\ 1 <= spc < 256.
Proof.
  intros [] Hc. unfold valid_cluster, cluster_at, first_sector in *. subst spc.
  assert (0 <= num_fats fs * fat_size fs) by nia.
  assert (0 <= (c - 2) * sectors_per_cluster fs) by nia.
  assert ((c - 2) * sectors_per_cluster fs + sectors_per_cluster fs <= total_clusters fs * sectors_per_cluster fs) by nia.
  rewrite (u32_small (c - 2)), (u32_small ((c - 2) * _)), u32_small by lia. lia.
Qed.

Lemma cluster_data_len d c :
  geometry fs (bd_total d) -> bd_inv d -> valid_cluster c ->
  lenZ (cluster_data d c) = spc * 512 /\ Forall byte (cluster_data d c).
Proof. intros Hg Hd Hc. destruct (cluster_range d c Hg Hc) as (? & ? & ? & _ & ?). apply sectors_len; lia || done. Qed.

Lemma read_cluster_spec d c buf :
  geometry fs (bd_total d) -> bd_inv d -> valid_cluster c -> lenZ buf = spc * 512 ->
  exists d', read_cluster fs c buf d = Ret (Ok (cluster_data d c), d') /\ unchanged d d'.
Proof.
  intros Hg Hd Hc Hb. destruct (cluster_range d c Hg Hc) as (H1 & H2 & H3 & Hfs & H4). unfold read_cluster.
  unfold valid_cluster in Hc. destruct (Z.ltb_spec c 2); [lia|]. unfold sectors_per_sector. fold spc. unfold SECTOR_SIZE.
  rewrite u32_small by lia. destruct (Z.ltb_spec (lenZ buf) (spc * 512)); [lia|]. rewrite Hfs.
  destruct (read_cluster_loop_spec (Z.to_nat spc) 0 (cluster_at c) buf d Hd) as (d' & E & Hun);
    [apply (g_total _ _ Hg)|lia..|].
  rewrite Z2Nat.id in E by lia. rewrite E. exists d'. split; [|done]. do 3 f_equal. rewrite Z.add_0_r. fold (cluster_data d c).
  destruct (cluster_data_len d c Hg Hd Hc) as [Hl _]. unfold write_at, lenZ in *. simpl. rewrite drop_ge by lia.
  by rewrite app_nil_r.
Qed.

(** The cluster's sectors. *)
Definition in_cluster (c x : Z) : Prop := cluster_at c <= x < cluster_at c + spc.

Lemma in_cluster_inj c c' x : 1 <= spc -> in_cluster c x -> in_cluster c' x -> c = c'.
Proof. unfold in_cluster, cluster_at. nia. Qed.

Lemma write_cluster_spec d c data :
  geometry fs (bd_total d) -> bd_inv d -> valid_cluster c -> lenZ data = spc * 512 -> Forall byte data ->
  exists d', write_cluster fs c data d = Ret (Ok tt, d') /\ changed (in_cluster c) d d' /\ cluster_data d' c = data.
Proof.
  intros Hg Hd Hc Hl Hb. destruct (cluster_range d c Hg Hc) as (H1 & H2 & H3 & Hfs & H4). unfold write_cluster.
  rewrite Hfs. fold spc. unfold cluster_size. rewrite (g_bps _ _ Hg). fold spc. rewrite u32_small, Hl, Z.min_l by lia.
  destruct (write_cluster_loop_spec (Z.to_nat spc) 0 (cluster_at c) data d Hd) as (d' & E & Hch & Hin);
    [apply (g_total _ _ Hg)|lia|lia|lia|lia|done|].
  rewrite Z2Nat.id in * by lia. rewrite Hl in E. rewrite E. exists d'. split; [done|]. rewrite !Z.add_0_r in *.
  split; [done|]. unfold cluster_data. rewrite <- (chunks (Z.to_nat spc) data) by lia. rewrite Z2Nat.id by lia.
  f_equal. apply list_eq. intros i. rewrite !list_lookup_fmap. destruct (decide (i < Z.to_nat spc)%nat).
  - rewrite !lookup_seqZ_lt by lia. simpl. f_equal. rewrite Hin by lia. do 3 f_equal. lia.
  - by rewrite !lookup_seqZ_ge by lia.
Qed.

(** ** Files *)

(** The clusters from [c] to the end of its chain. *)
Inductive chain d : Z -> list Z -> Prop :=
  | chain_end c : valid_cluster c -> decode (fat_at d c) = Ok 0 -> chain d c [c]
  | chain_next c n l : valid_cluster c -> decode (fat_at d c) = Ok n -> n <> 0 -> chain d n l -> chain d c (c :: l).
Definition file_data d (l : list Z) : list Z := concat (cluster_data d <$> l).

Lemma chain_valid d c l : chain d c l -> Forall valid_cluster l.
Proof. induction 1; by constructor. Qed.
Lemma chain_ext d d' c l :
  (forall k, valid_cluster k -> fat_at d' k = fat_at d k) -> chain d c l -> chain d' c l.
Proof.
  intros Hf. induction 1 as [c Hc He|c n l Hc He Hn _ IH]; [apply chain_end|apply (chain_next _ _ n)]; try done; by rewrite Hf.
Qed.
Lemma fat_at_unchanged d d' k :
  geometry fs (bd_total d) -> unchanged d d' -> 0 <= k < total_clusters fs -> fat_at d' k = fat_at d k.
Proof.
  intros Hg (_ & _ & Hs) Hk. destruct (table_sector d k Hg Hk). pose proof (g_res _ _ Hg). unfold fat_at. rewrite Hs by lia. done.
Qed.
Lemma cluster_data_ext d d' c :
  geometry fs (bd_total d) -> valid_cluster c ->
  (forall x, 0 <= x < bd_total d -> in_cluster c x -> bd_sector d' x = bd_sector d x) -> cluster_data d' c = cluster_data d c.
Proof.
  intros Hg Hc Hs. destruct (cluster_range d c Hg Hc) as (? & ? & ? & _). unfold cluster_data. f_equal. apply list_fmap_ext.
  intros i x Hx. apply list_elem_of_lookup_2, elem_of_seqZ in Hx. apply Hs; [lia|]. unfold in_cluster. lia.
Qed.
Lemma file_data_ext d d' l :
  geometry fs (bd_total d) -> Forall valid_cluster l ->
  (forall c x, c ∈ l -> 0 <= x < bd_total d -> in_cluster c x -> bd_sector d' x = bd_sector d x) -> file_data d' l = file_data d l.
Proof.
  intros Hg Hl Hs. unfold file_data. f_equal. apply list_fmap_ext. intros i c Hc. rewrite Forall_forall in Hl.
  apply list_elem_of_lookup_2 in Hc. apply cluster_data_ext; [done|by apply Hl|]. intros x. by apply Hs.
Qed.
Lemma file_data_cons d c l : file_data d (c :: l) = cluster_data d c ++ file_data d l.
Proof. done. Qed.

(** One round of [read_file_data]. *)
Lemma read_round d c fuel offset size cbuf buf d0 :
  geometry fs (bd_total d) -> unchanged d d0 -> valid_cluster c -> lenZ cbuf = spc * 512 ->
  0 <= offset -> offset < size -> offset < lenZ buf ->
  let w := Z.min (Z.min size (lenZ buf) - offset) (spc * 512) in
  let buf' := write_at buf offset (take (Z.to_nat w) (cluster_data d c)) in
  exists d2, unchanged d d2 /\ read_file_loop (S fuel) fs c offset size cbuf buf d0 =
    match decode (fat_at d c) with
    | Err e => Ret (Err e, d2)
    | Ok n => if n =? 0 then Ret (Ok (offset + w, buf'), d2)
              else read_file_loop fuel fs n (offset + w) size (cluster_data d c) buf' d2
    end.
Proof.
  intros Hg Hun Hc Hcb Ho Hos Hob w buf'. pose proof Hun as (Hd0 & Ht & Hs).
  assert (Hg0 : geometry fs (bd_total d0)) by (by rewrite Ht).
  assert (Ecd : cluster_data d0 c = cluster_data d c) by (apply cluster_data_ext; [done|done|]; intros x Hx _; by apply Hs).
  destruct (cluster_data_len d0 c Hg0 Hd0 Hc) as [Hcl _]. rewrite Ecd in Hcl. pose proof (g_spc _ _ Hg) as Hspc. fold spc in Hspc.
  cbn [read_file_loop]. destruct (Z.ltb_spec offset (lenZ buf)); [|lia]. destruct (Z.ltb_spec offset size); [|lia]. cbn [andb].
  destruct (read_cluster_spec d0 c cbuf Hg0 Hd0 Hc Hcb) as (d1 & -> & Hun1). cbn [try_bind]. rewrite Ecd, Hcl.
  replace (Z.min (Z.min (size - offset) (spc * 512)) (lenZ buf - offset)) with w by (unfold w; lia).
  assert (Hw : 0 <= w <= spc * 512 /\ offset + w <= lenZ buf) by (unfold w; lia).
  rewrite slice_Ret, bind_Ret by lia. rewrite Z.sub_0_r. change (drop (Z.to_nat 0) (cluster_data d c)) with (cluster_data d c).
  assert (Htl : lenZ (take (Z.to_nat w) (cluster_data d c)) = w) by (unfold lenZ in *; rewrite length_take; lia).
  pose proof (copy_into_Ret buf offset (take (Z.to_nat w) (cluster_data d c))) as Hcp. rewrite Htl in Hcp.
  rewrite Hcp, bind_Ret by lia. fold buf'.
  pose proof (unchanged_trans _ _ _ Hun Hun1) as Hund1. pose proof Hund1 as (Hd1 & Ht1 & _).
  destruct (next_cluster_spec d1 c) as (d2 & -> & Hun2); [by rewrite Ht1|done|unfold valid_cluster in Hc; lia|].
  rewrite (fat_at_unchanged d d1) by (done || unfold valid_cluster in Hc; lia).
  exists d2. split; [by apply (unchanged_trans d d1)|]. by destruct (decode (fat_at d c)).
Qed.

Lemma read_file_loop_spec d c l fuel offset size cbuf buf d0 :
  geometry fs (bd_total d) -> bd_inv d -> unchanged d d0 -> chain d c l -> lenZ cbuf = spc * 512 ->
  0 <= offset -> offset <= size -> offset <= lenZ buf -> (Z.to_nat (lenZ buf - offset) <= fuel)%nat ->
  let k := Z.min (Z.min size (lenZ buf) - offset) (lenZ (file_data d l)) in
  exists d', read_file_loop fuel fs c offset size cbuf buf d0 =
      Ret (Ok (offset + k, write_at buf offset (take (Z.to_nat k) (file_data d l))), d') /\ unchanged d d'.
Proof.
  intros Hg Hd Hun Hch. revert fuel offset cbuf buf d0 Hun. pose proof (g_spc _ _ Hg) as Hspc. fold spc in Hspc.
  induction Hch as [c Hc He|c n l Hc He Hn Hch IH]; intros fuel offset cbuf buf d0 Hun Hcb Ho Hos Hob Hfu k;
    destruct (cluster_data_len d c Hg Hd Hc) as [Hcl _].
  all: destruct (decide (offset < size /\ offset < lenZ buf)) as [[H1 H2]|Hdone].
  2, 4: assert (k = 0) as -> by (unfold k; pose proof (lenZ_nonneg (file_data d [c])); try pose proof (lenZ_nonneg (file_data d (c :: l))); lia);
    exists d0; rewrite write_at_whole, Z.add_0_r by done; (split; [|done]);
    destruct fuel; cbn [read_file_loop]; (destruct (Z.ltb_spec offset (lenZ buf)), (Z.ltb_spec offset size); cbn [andb]; [lia|done..]).
  all: destruct fuel as [|fuel]; [lia|].
  all: destruct (read_round d c fuel offset size cbuf buf d0 Hg Hun Hc Hcb Ho H1 H2) as (d2 & Hun2 & ->); rewrite He.
  - change (0 =? 0) with true. cbv iota. exists d2. split; [|done].
    assert (E : file_data d [c] = cluster_data d c) by (unfold file_data; simpl; by rewrite app_nil_r).
    unfold k. rewrite E, Hcl. done.
  - destruct (Z.eqb_spec n 0); [done|]. set (w := Z.min (Z.min size (lenZ buf) - offset) (spc * 512)).
    set (buf' := write_at buf offset (take (Z.to_nat w) (cluster_data d c))).
    assert (Hw : 0 < w <= spc * 512 /\ offset + w <= lenZ buf /\ offset + w <= size) by (unfold w; lia).
    assert (Htl : lenZ (take (Z.to_nat w) (cluster_data d c)) = w) by (unfold lenZ in *; rewrite length_take; lia).
    assert (Hbl : lenZ buf' = lenZ buf) by (apply lenZ_write_at; lia).
    destruct (IH fuel (offset + w) (cluster_data d c) buf' d2 Hun2 Hcl) as (d' & -> & Hun'); [lia|lia|lia|lia|].
    exists d'. split; [|done]. unfold k in *. rewrite file_data_cons, lenZ_app, Hcl, Hbl in *. pose proof (lenZ_nonneg (file_data d l)).
    set (k2 := Z.min (Z.min size (lenZ buf) - (offset + w)) (lenZ (file_data d l))).
    replace (Z.min (Z.min size (lenZ buf) - offset) (spc * 512 + lenZ (file_data d l))) with (w + k2) by (unfold w, k2; lia).
    replace (offset + (w + k2)) with (offset + w + k2) by lia. do 4 f_equal. unfold buf'. rewrite <- Htl at 2. rewrite write_at_app; [|lia|].
    2: { unfold k2. rewrite Htl. unfold lenZ in *. rewrite length_take. lia. }
    f_equal. destruct (decide (w = spc * 512)).
    + rewrite take_app_ge by (unfold lenZ in *; lia). rewrite take_ge by (unfold lenZ in *; lia). f_equal. f_equal. unfold lenZ in *. lia.
    + replace k2 with 0 by (unfold k2, w in *; lia). rewrite Z.add_0_r. rewrite take_app_le by (unfold lenZ in *; lia). by rewrite app_nil_r.
Qed.

Lemma cluster_size_eq t : geometry fs t -> cluster_size fs = spc * 512.
Proof. intros []. unfold cluster_size. rewrite g_bps0. apply u32_small. subst spc. lia. Qed.

Lemma seek_loop_spec d c l fuel pos d0 :
  geometry fs (bd_total d) -> unchanged d d0 -> chain d c l -> 0 <= pos < lenZ l * (spc * 512) -> (Z.to_nat pos <= fuel)%nat ->
  exists l1 l2 c' d', seek_loop fuel fs c pos d0 = Ret (Ok (c', pos mod (spc * 512)), d') /\ unchanged d d' /\
    l = l1 ++ l2 /\ chain d c' l2 /\ pos = lenZ l1 * (spc * 512) + pos mod (spc * 512).
Proof.
  intros Hg Hun Hch. revert fuel pos d0 Hun. pose proof (g_spc _ _ Hg) as Hspc. fold spc in Hspc.
  assert (Hhere : forall c l fuel pos d0, chain d c l -> unchanged d d0 -> 0 <= pos < spc * 512 ->
    exists l1 l2 c' d', seek_loop fuel fs c pos d0 = Ret (Ok (c', pos mod (spc * 512)), d') /\ unchanged d d' /\
      l = l1 ++ l2 /\ chain d c' l2 /\ pos = lenZ l1 * (spc * 512) + pos mod (spc * 512)).
  { clear c l Hch. intros c l fuel pos d0 Hch Hun Hpos. rewrite Z.mod_small by done. exists [], l, c, d0.
    split; [|by split_and!]. destruct fuel; cbn [seek_loop]; rewrite (cluster_size_eq _ Hg);
      by destruct (Z.leb_spec (spc * 512) pos); [lia|]. }
  induction Hch as [c Hc He|c n l Hc He Hn Hch IH]; intros fuel pos d0 Hun Hpos Hfu.
  { apply Hhere; [by apply chain_end|done|]. change (lenZ [c]) with 1 in Hpos. lia. }
  destruct (decide (pos < spc * 512)); [apply Hhere; [by apply (chain_next _ _ n)|done|lia]|].
  destruct fuel as [|fuel]; [lia|]. cbn [seek_loop]. rewrite (cluster_size_eq _ Hg).
  destruct (Z.leb_spec (spc * 512) pos); [|lia]. pose proof Hun as (Hd0 & Ht & Hs).
  destruct (next_cluster_spec d0 c) as (d1 & -> & Hun1); [by rewrite Ht|done|unfold valid_cluster in Hc; lia|].
  rewrite (fat_at_unchanged d d0), He by (done || unfold valid_cluster in Hc; lia). cbn [try_bind].
  destruct (Z.eqb_spec n 0); [done|]. rewrite lenZ_cons in Hpos.
  destruct (IH fuel (pos - spc * 512) d1) as (l1 & l2 & c' & d' & -> & Hun' & -> & Hch' & Hp);
    [by apply (unchanged_trans d d0)|lia|lia|].
  assert (Hm : (pos - spc * 512) mod (spc * 512) = pos mod (spc * 512)).
  { replace (pos - spc * 512) with (pos + (-1) * (spc * 512)) by lia. apply Z_mod_plus. lia. }
  rewrite Hm in *. exists (c :: l1), l2, c', d'. split; [done|]. split; [done|]. split; [done|]. split; [done|].
  rewrite lenZ_cons. lia.
Qed.

(** Writes to clusters leave the table alone. *)
Lemma fat_at_changed d d' k :
  geometry fs (bd_total d) -> changed (fun x => data_start fs <= x) d d' -> 0 <= k < total_clusters fs -> fat_at d' k = fat_at d k.
Proof.
  intros Hg (_ & _ & Hs) Hk. destruct (table_sector d k Hg Hk). pose proof (g_res _ _ Hg). unfold fat_at. rewrite Hs by lia. done.
Qed.

Lemma file_data_len d l : geometry fs (bd_total d) -> bd_inv d -> Forall valid_cluster l -> lenZ (file_data d l) = lenZ l * (spc * 512).
Proof.
  intros Hg Hd Hl. induction Hl as [|c l Hc _ IH]; [done|]. rewrite file_data_cons, lenZ_app, lenZ_cons, IH.
  rewrite (proj1 (cluster_data_len d c Hg Hd Hc)). lia.
Qed.

(** One round of [write_file_data]. *)
Lemma write_round d c fuel pos written data :
  geometry fs (bd_total d) -> bd_inv d -> valid_cluster c -> 0 <= pos < spc * 512 ->
  0 <= written < lenZ data -> Forall byte data ->
  let n := Z.min (lenZ data - written) (spc * 512 - pos) in
  exists d1 d2, changed (in_cluster c) d d1 /\ unchanged d1 d2 /\
    cluster_data d1 c = write_at (cluster_data d c) pos (take (Z.to_nat n) (drop (Z.to_nat written) data)) /\
    write_file_loop (S fuel) fs c pos written data d =
      if written + n <? lenZ data then
        match decode (fat_at d c) with
        | Err e => Ret (Err e, d2)
        | Ok next =>
            if next =? 0 then
              let? (newCluster, d3) := extend_chain fs c d2 in
              write_file_loop fuel fs newCluster 0 (written + n) data d3
            else write_file_loop fuel fs next 0 (written + n) data d2
        end
      else Ret (Ok (written + n), d1).
Proof.
  intros Hg Hd Hc Hpos Hw Hb n. assert (Hn : 0 < n /\ written + n <= lenZ data /\ pos + n <= spc * 512) by (unfold n; lia).
  destruct (cluster_data_len d c Hg Hd Hc) as [Hcl Hcb]. cbn [write_file_loop].
  destruct (Z.ltb_spec written (lenZ data)); [|lia]. rewrite (cluster_size_eq _ Hg).
  destruct (read_cluster_spec d c (replicate (Z.to_nat (spc * 512)) 0) Hg Hd Hc) as (d0 & -> & Hun0); [apply lenZ_replicate; lia|].
  cbn [try_bind]. fold n. rewrite slice_Ret, bind_Ret by lia. replace (written + n - written) with n by lia.
  set (src := take (Z.to_nat n) (drop (Z.to_nat written) data)).
  assert (Hsl : lenZ src = n) by (unfold src, lenZ in *; rewrite length_take, length_drop; lia).
  pose proof (copy_into_Ret (cluster_data d c) pos src) as Hcp. rewrite Hsl in Hcp. rewrite Hcp, bind_Ret by lia.
  pose proof Hun0 as (Hd0 & Ht0 & Hs0).
  destruct (write_cluster_spec d0 c (write_at (cluster_data d c) pos src)) as (d1 & -> & Hch1 & Hcd1); [by rewrite Ht0|done|done| | |].
  { rewrite lenZ_write_at; lia. }
  { unfold write_at. apply Forall_app. split; [by apply Forall_take|]. apply Forall_app. split; [|by apply Forall_drop].
    unfold src. by apply Forall_take, Forall_drop. }
  cbn [try_bind]. pose proof (unchanged_changed (in_cluster c) _ _ Hun0) as Hch0.
  pose proof (changed_trans _ _ _ _ Hch0 Hch1) as Hch. pose proof Hch as (Hd1 & Ht1 & _).
  destruct (next_cluster_spec d1 c) as (d2 & Hnx & Hun2); [by rewrite Ht1|done|unfold valid_cluster in Hc; lia|].
  exists d1, d2. split; [done|]. split; [done|]. split; [done|]. destruct (Z.ltb_spec (written + n) (lenZ data)); [|done].
  rewrite Hnx. rewrite (fat_at_changed d d1 c Hg); [by destruct (decode (fat_at d c))| |unfold valid_cluster in Hc; lia].
  eapply changed_mono; [|exact Hch]. intros x Hx. unfold in_cluster in Hx. destruct (cluster_range d c Hg Hc) as (? & _). lia.
Qed.

Lemma write_file_loop_spec d c l fuel pos written data :
  geometry fs (bd_total d) -> bd_inv d -> chain d c l -> NoDup l -> 0 <= pos < spc * 512 -> 0 <= written <= lenZ data ->
  Forall byte data -> pos + (lenZ data - written) <= lenZ l * (spc * 512) -> (Z.to_nat (lenZ data - written) <= fuel)%nat ->
  exists d', write_file_loop fuel fs c pos written data d = Ret (Ok (lenZ data), d') /\
    changed (fun x => exists k, k ∈ l /\ in_cluster k x) d d' /\
    file_data d' l = write_at (file_data d l) pos (drop (Z.to_nat written) data).
Proof.
  revert d c fuel pos written. induction l as [|k l IH]; intros d c fuel pos written Hg Hd Hch Hnd Hpos Hw Hb Hfit Hfu;
    [inversion Hch|].
  assert (Hc : valid_cluster c /\ k = c) by (by inversion Hch). destruct Hc as [Hc ->].
  pose proof (g_spc _ _ Hg) as Hspc. fold spc in Hspc. destruct (cluster_data_len d c Hg Hd Hc) as [Hcl _].
  destruct (decide (written = lenZ data)) as [->|Hne].
  { exists d. split; [destruct fuel; cbn [write_file_loop]; by rewrite Z.ltb_irrefl|]. split; [by split|].
    rewrite write_at_whole; [done|]. unfold lenZ in *. rewrite length_drop. lia. }
  destruct fuel as [|fuel]; [lia|].
  destruct (write_round d c fuel pos written data Hg Hd Hc Hpos ltac:(lia) Hb) as (d1 & d2 & Hch1 & Hun2 & Hcd1 & ->).
  set (n := Z.min (lenZ data - written) (spc * 512 - pos)) in *.
  assert (Hn : 0 < n /\ written + n <= lenZ data /\ pos + n <= spc * 512) by (unfold n; lia).
  set (src := take (Z.to_nat n) (drop (Z.to_nat written) data)) in *.
  assert (Hsl : lenZ src = n) by (unfold src, lenZ in *; rewrite length_take, length_drop; lia).
  apply NoDup_cons in Hnd as [Hcl' Hnd]. pose proof (Forall_inv_tail (chain_valid _ _ _ Hch)) as Hval.
  assert (Hrest : file_data d1 l = file_data d l).
  { apply file_data_ext; [done|done|]. intros k x Hk Hx Hin. apply Hch1; [done|]. intros Hin'.
    apply Hcl'. by rewrite (in_cluster_inj c k x) by (lia || done). }
  destruct (Z.ltb_spec (written + n) (lenZ data)) as [Hmore|Hlast].
  - assert (En : n = spc * 512 - pos) by (unfold n in *; lia).
    inversion Hch as [? ? He|? nx ? ? He Hnx Hchl]; subst.
    { change (lenZ [c]) with 1 in Hfit. lia. }
    rewrite He. destruct (Z.eqb_spec nx 0); [done|].
    pose proof (changed_trans _ _ _ _ Hch1 (unchanged_changed (in_cluster c) _ _ Hun2)) as Hch2.
    assert (Hsub : forall x, in_cluster c x -> data_start fs <= x).
    { intros x Hx. unfold in_cluster in Hx. destruct (cluster_range d c Hg Hc) as (? & _). lia. }
    pose proof Hch2 as (Hd2 & Ht2 & _). rewrite lenZ_cons in Hfit.
    destruct (IH d2 nx fuel 0 (written + n)) as (d' & -> & Hch' & Hfd'); [by rewrite Ht2|done| |done|lia|lia|done|lia|lia|].
    { apply (chain_ext d); [|done]. intros j Hj. apply fat_at_changed; [done| |unfold valid_cluster in Hj; lia].
      by eapply changed_mono. }
    exists d'. split; [done|]. split.
    + eapply changed_trans; [eapply changed_mono; [|exact Hch2]|eapply changed_mono; [|exact Hch']].
      * intros x Hx. exists c. split; [by left|done].
      * intros x (j & Hj & Hx). exists j. split; [by right|done].
    + assert (Hcd' : cluster_data d' c = cluster_data d1 c).
      { assert (Hg1 : geometry fs (bd_total d1)) by (destruct Hch1 as (_ & -> & _); done). destruct Hun2 as (_ & Ht12 & Hs12).
        apply cluster_data_ext; [done|done|]. intros x Hx Hin. destruct Hch' as (_ & _ & Hs').
        rewrite Hs'; [by apply Hs12|lia|]. intros (j & Hj & Hin'). apply Hcl'. by rewrite (in_cluster_inj c j x) by (lia || done). }
      assert (Hfd2 : file_data d2 l = file_data d1 l).
      { apply file_data_ext; [by destruct Hch1 as (_ & -> & _)|done|]. intros j x _ Hx _. by apply Hun2. }
      rewrite !file_data_cons, Hcd', Hcd1, Hfd', Hfd2, Hrest.
      assert (Hsplit : drop (Z.to_nat written) data = src ++ drop (Z.to_nat (written + n)) data).
      { unfold src. rewrite <- (take_drop (Z.to_nat n) (drop (Z.to_nat written) data)) at 1. f_equal. rewrite drop_drop. f_equal. lia. }
      rewrite Hsplit. symmetry. apply write_at_split; [lia|lia|].
      rewrite (file_data_len d l Hg Hd Hval). unfold lenZ in *. rewrite length_drop. lia.
  - assert (En : written + n = lenZ data) by lia. rewrite En. exists d1. split; [done|]. split.
    + eapply changed_mono; [|exact Hch1]. intros x Hx. exists c. split; [by left|done].
    + rewrite !file_data_cons, Hcd1, Hrest.
      assert (Hsrc : drop (Z.to_nat written) data = src).
      { unfold src. rewrite take_ge; [done|]. rewrite length_drop. unfold lenZ in *. lia. }
      rewrite Hsrc. symmetry. apply write_at_app_l; lia.
Qed.

(** ** Allocation *)

Definition is_free d (k : Z) : Prop := fat_at d k mod 2 ^ 28 = 0.
#[local] Instance is_free_dec d k : Decision (is_free d k).
Proof. unfold is_free. apply _. Defined.

(** The answer of a search that visits the entries from [a] up to [b]. *)
Definition first_free d (a b : Z) (r : option Z) : Prop :=
  match r with
  | Some c => a <= c < b /\ valid_cluster c /\ is_free d c /\ forall k, a <= k < c -> valid_cluster k -> ~ is_free d k
  | None => forall k, a <= k < b -> valid_cluster k -> ~ is_free d k
  end.

Lemma first_free_skip d a b r :
  first_free d (a + 1) b r -> a < b -> ~ (valid_cluster a /\ is_free d a) -> first_free d a b r.
Proof.
  destruct r as [c|]; simpl.
  - intros (H1 & H2 & H3 & H4) Hab Hn. split; [lia|]. split; [done|]. split; [done|]. intros k Hk Hv Hf.
    destruct (decide (k = a)) as [->|]; [by apply Hn|]. apply (H4 k); [lia|done|done].
  - intros H1 Hab Hn k Hk Hv Hf. destruct (decide (k = a)) as [->|]; [by apply Hn|]. apply (H1 k); [lia|done|done].
Qed.

Lemma scan_entries_spec d sec n i :
  geometry fs (bd_total d) -> bd_inv d -> 0 <= sec < fat_size fs -> 0 <= i -> i + Z.of_nat n = 128 ->
  exists r, scan_entries (seqZ i (Z.of_nat n)) fs sec (bd_sector d (reserved_sectors fs + sec)) 128 = Ret r /\
    first_free d (sec * 128 + i) (sec * 128 + 128) r.
Proof.
  intros Hg Hd Hsec. revert i. induction n as [|n IH]; intros i Hi Hn; [exists None; split; [done|]; simpl; intros k Hk; lia|].
  pose proof Hg as []. assert (num_fats fs * fat_size fs >= fat_size fs) by nia. assert (0 <= total_clusters fs * sectors_per_cluster fs) by nia.
  rewrite (seqZ_cons i) by lia. cbn [scan_entries]. replace (Z.pred (Z.of_nat (S n))) with (Z.of_nat n) by lia.
  destruct (bd_sector_ok d (reserved_sectors fs + sec) Hd ltac:(lia)) as [Hl _]. unfold SECTOR_SIZE in Hl.
  rewrite entry_at_field, bind_Ret by (rewrite ?Hl; lia). rewrite (u32_small (sec * 128)), u32_small, mask28 by lia.
  assert (Hfa : fat_at d (sec * 128 + i) = field (bd_sector d (reserved_sectors fs + sec)) (i * 4) 4).
  { unfold fat_at. replace ((sec * 128 + i) / 128) with sec by dlia. f_equal. dlia. }
  rewrite <- Hfa. destruct (IH (Z.succ i) ltac:(lia) ltac:(lia)) as (r & Hr & Hff).
  replace (sec * 128 + Z.succ i) with (sec * 128 + i + 1) in Hff by lia.
  destruct ((fat_at d (sec * 128 + i) mod 2 ^ 28 =? 0) && (2 <=? sec * 128 + i) && (sec * 128 + i <? total_clusters fs)) eqn:E.
  - exists (Some (sec * 128 + i)). split; [done|]. simpl. unfold valid_cluster, is_free. split; [lia|]. split; [lia|]. split; [lia|]. lia.
  - rewrite Hr. exists r. split; [done|]. apply first_free_skip; [done|lia|]. unfold valid_cluster, is_free. lia.
Qed.

Lemma alloc_loop_spec d d0 n sec :
  geometry fs (bd_total d) -> unchanged d d0 -> 0 <= sec -> sec + Z.of_nat n = fat_size fs -> bd_inv d ->
  exists r d', alloc_loop (seqZ sec (Z.of_nat n)) fs d0 =
      Ret (match r with Some c => Ok c | None => Err "no free clusters"%string end, d') /\ unchanged d d' /\
    first_free d (sec * 128) (fat_size fs * 128) r.
Proof.
  intros Hg Hun Hsec Hn Hd. revert sec d0 Hun Hsec Hn. induction n as [|n IH]; intros sec d0 Hun Hsec Hn.
  { exists None, d0. split; [done|]. split; [done|]. simpl. intros k Hk. lia. }
  pose proof Hg as []. assert (num_fats fs * fat_size fs >= fat_size fs) by nia. assert (0 <= total_clusters fs * sectors_per_cluster fs) by nia.
  rewrite (seqZ_cons sec) by lia. cbn [alloc_loop]. replace (Z.pred (Z.of_nat (S n))) with (Z.of_nat n) by lia.
  pose proof Hun as (Hd0 & Ht0 & Hs0). rewrite u32_small by lia.
  destruct (bd_read_ok d0 (reserved_sectors fs + sec) Hd0 ltac:(lia)) as (d1 & -> & Hun1). cbn [try_bind].
  rewrite Hs0, g_bps0 by lia. change (512 / 4) with 128.
  destruct (scan_entries_spec d sec 128 0 Hg Hd ltac:(lia) ltac:(lia) ltac:(lia)) as (r & E & Hff).
  change (Z.of_nat 128) with 128 in E. rewrite E, bind_Ret. rewrite Z.add_0_r in Hff.
  assert (Hun' : unchanged d d1) by (by apply (unchanged_trans d d0)). destruct r as [c|].
  - exists (Some c), d1. split; [done|]. split; [done|]. simpl in *. destruct Hff as (Ha & Hb & Hc & Hf).
    split; [lia|]. split; [done|]. split; [done|]. done.
  - destruct (IH (Z.succ sec) d1 Hun' ltac:(lia) ltac:(lia)) as (r & d' & -> & Hun2 & Hff2).
    exists r, d'. split; [done|]. split; [done|]. destruct r as [c|]; simpl in *.
    + destruct Hff2 as (Ha & Hb & Hc & Hf). split; [lia|]. split; [done|]. split; [done|]. intros k Hk Hv.
      destruct (decide (k < sec * 128 + 128)); [apply Hff; [lia|done]|apply Hf; [lia|done]].
    + intros k Hk Hv. destruct (decide (k < sec * 128 + 128)); [apply Hff; [lia|done]|apply Hff2; [lia|done]].
Qed.

Lemma alloc_cluster_spec d :
  geometry fs (bd_total d) -> bd_inv d ->
  exists r d', alloc_cluster fs d = Ret (match r with Some c => Ok c | None => Err "no free clusters"%string end, d') /\
    unchanged d d' /\ first_free d 0 (fat_size fs * 128) r.
Proof.
  intros Hg Hd. unfold alloc_cluster. pose proof (g_fsz _ _ Hg).
  destruct (alloc_loop_spec d d (Z.to_nat (fat_size fs)) 0 Hg) as (r & d' & E & Hun & Hff); [by apply unchanged_refl|lia|lia|done|].
  rewrite Z2Nat.id in E by lia. exists r, d'. done.
Qed.

End fixed.
(** ** Properties *)

Lemma write_at_app_r {B} (h t bs : list B) a : 0 <= a -> write_at (h ++ t) (lenZ h + a) bs = h ++ write_at t a bs.
Proof.
  intros Ha. unfold write_at, lenZ. rewrite take_app_ge, drop_app_ge by lia. rewrite <- app_assoc. do 3 f_equal; [f_equal; lia|].
  f_equal. f_equal. lia.
Qed.
Lemma file_data_app fs d l1 l2 : file_data fs d (l1 ++ l2) = file_data fs d l1 ++ file_data fs d l2.
Proof. unfold file_data. by rewrite fmap_app, concat_app. Qed.

Lemma write_file_data_spec fs d start l offset data :
  geometry fs (bd_total d) -> bd_inv d -> chain fs d start l -> NoDup l -> Forall byte data -> 0 <= offset ->
  offset < lenZ l * (sectors_per_cluster fs * 512) -> offset + lenZ data <= lenZ l * (sectors_per_cluster fs * 512) ->
  exists d', write_file_data fs start offset data d = Ret (Ok (lenZ data), d') /\
    changed (fun x => exists k, k ∈ l /\ in_cluster fs k x) d d' /\
    file_data fs d' l = write_at (file_data fs d l) offset data.
Proof.
  intros Hg Hd Hch Hnd Hb Ho Hlt Hfit. unfold write_file_data. pose proof (g_spc _ _ Hg) as Hspc.
  destruct (seek_loop_spec fs d start l (Z.to_nat offset) offset d Hg) as (l1 & l2 & c & d0 & -> & Hun & -> & Hch2 & Hp);
    [by apply unchanged_refl|done|lia|lia|].
  cbn [try_bind]. set (pos := offset mod _) in *. pose proof Hun as (Hd0 & Ht0 & Hs0).
  pose proof (Z.mod_pos_bound offset (sectors_per_cluster fs * 512) ltac:(lia)) as Hpos. fold pos in Hpos.
  apply NoDup_app in Hnd as (_ & Hdis & Hnd2). rewrite lenZ_app in Hfit.
  pose proof (chain_valid _ _ _ _ Hch) as Hval. apply Forall_app in Hval as [Hval1 Hval2].
  destruct (write_file_loop_spec fs d0 c l2 (length data) pos 0 data) as (d' & E & Hc' & Hfd);
    [by rewrite Ht0|done| |done|lia|pose proof (lenZ_nonneg data); lia|done|lia|unfold lenZ; lia|].
  { apply (chain_ext _ d); [|done]. intros k Hk. apply fat_at_unchanged; [done|done|unfold valid_cluster in Hk; lia]. }
  rewrite E. exists d'. split; [done|]. split.
  - eapply changed_trans; [by apply unchanged_changed|]. eapply changed_mono; [|exact Hc']. intros x (k & Hk & Hx).
    exists k. split; [apply elem_of_app; by right|done].
  - rewrite !file_data_app, Hfd. change (drop (Z.to_nat 0) data) with data.
    assert (E2 : file_data fs d0 l2 = file_data fs d l2).
    { apply file_data_ext; [done|done|]. intros k x _ Hx _. by apply Hs0. }
    assert (E1 : file_data fs d' l1 = file_data fs d l1).
    { apply file_data_ext; [done|done|]. intros k x Hk Hx Hin. destruct Hc' as (_ & _ & Hs'). rewrite Hs'; [by apply Hs0|lia|].
      intros (j & Hj & Hin'). apply (Hdis k Hk). by rewrite (in_cluster_inj fs k j x) by (lia || done). }
    rewrite E1, E2, Hp. rewrite <- (file_data_len fs d l1) by done. symmetry. apply write_at_app_r. lia.
Qed.

(** C23: Files survive a write.  On a well-formed volume [write_file_data] at
    an offset inside the file's clusters returns the number of bytes, keeps
    the chain, the table and every other cluster, and a following
    [read_file_data] returns the old contents with the new bytes in place, cut
    to the size and the buffer. *)
Theorem fat_write_read fs d start l offset data :
  geometry fs (bd_total d) -> bd_inv d -> chain fs d start l -> NoDup l -> Forall byte data -> 0 <= offset ->
  offset < lenZ l * (sectors_per_cluster fs * 512) -> offset + lenZ data <= lenZ l * (sectors_per_cluster fs * 512) ->
  exists d1, write_file_data fs start offset data d = Ret (Ok (lenZ data), d1) /\ chain fs d1 start l /\
    (forall k, 0 <= k < total_clusters fs -> fat_at fs d1 k = fat_at fs d k) /\
    (forall k, valid_cluster fs k -> k ∉ l -> cluster_data fs d1 k = cluster_data fs d k) /\
    forall size buf, 0 <= size ->
      let m := Z.min (Z.min size (lenZ buf)) (lenZ l * (sectors_per_cluster fs * 512)) in
      exists d2, read_file_data fs start size buf d1 =
        Ret (Ok (m, write_at buf 0 (take (Z.to_nat m) (write_at (file_data fs d l) offset data))), d2).
Proof.
  intros Hg Hd Hch Hnd Hb Ho Hlt Hfit. pose proof (g_spc _ _ Hg) as Hspc.
  destruct (write_file_data_spec fs d start l offset data) as (d1 & E & Hc1 & Hfd); try done.
  pose proof (chain_valid _ _ _ _ Hch) as Hval. exists d1. split; [done|].
  assert (Hfat : forall k, 0 <= k < total_clusters fs -> fat_at fs d1 k = fat_at fs d k).
  { intros k Hk. apply fat_at_changed; [done| |done]. eapply changed_mono; [|exact Hc1]. intros x (j & Hj & Hx).
    rewrite Forall_forall in Hval. destruct (cluster_range fs d j Hg (Hval j Hj)) as (? & _). unfold in_cluster in Hx. lia. }
  assert (Hch1 : chain fs d1 start l) by (apply (chain_ext _ d); [intros k Hk; apply Hfat; unfold valid_cluster in Hk; lia|done]).
  pose proof Hc1 as (Hd1 & Ht1 & Hs1). split; [done|]. split; [done|]. split.
  - intros k Hk Hkl. apply cluster_data_ext; [done|done|]. intros x Hx Hin. apply Hs1; [done|]. intros (j & Hj & Hin').
    apply Hkl. by rewrite (in_cluster_inj fs k j x) by (lia || done).
  - intros size buf Hsz m. unfold read_file_data, sectors_per_sector, SECTOR_SIZE. rewrite u32_small by lia.
    assert (Hg1 : geometry fs (bd_total d1)) by (by rewrite Ht1).
    destruct (read_file_loop_spec fs d1 start l (length buf) 0 size (replicate (Z.to_nat (sectors_per_cluster fs * 512)) 0) buf d1)
      as (d2 & E2 & _); [done|done|by apply unchanged_refl|done|apply lenZ_replicate; lia|lia|lia|apply lenZ_nonneg|unfold lenZ; lia|].
    rewrite E2. exists d2. rewrite Z.add_0_l, Hfd, Z.sub_0_r. rewrite lenZ_write_at by (rewrite ?file_data_len by done; lia).
    rewrite (file_data_len fs d l) by done. done.
Qed.

(** [set_fat_entry] changes one entry of the allocation table: it gets the
    low 28 bits of the value, every other entry and everything outside the
    table stays, and all copies of the table agree; [next_cluster] then reads
    that entry. *)
Theorem fat_entry_update fs d c v :
  geometry fs (bd_total d) -> bd_inv d -> 0 <= c < total_clusters fs ->
  exists d1 d2, set_fat_entry fs c v d = Ret (Ok tt, d1) /\
    (forall k, 0 <= k < total_clusters fs -> fat_at fs d1 k = if k =? c then v mod 2 ^ 28 else fat_at fs d k) /\
    (forall x, 0 <= x < bd_total d -> x < reserved_sectors fs \/ data_start fs <= x -> bd_sector d1 x = bd_sector d x) /\
    (forall k, 0 <= k < num_fats fs -> bd_sector d1 (reserved_sectors fs + c / 128 + k * fat_size fs) =
       bd_sector d1 (reserved_sectors fs + c / 128)) /\
    next_cluster fs c d1 = Ret (decode (v mod 2 ^ 28), d2).
Proof.
  intros Hg Hd Hc. destruct (set_fat_entry_spec fs d c v Hg Hd Hc) as (d1 & E & [Hd1 Ht1 Hf Hr Hcp]).
  destruct (next_cluster_spec fs d1 c) as (d2 & E2 & _); [by rewrite Ht1|done|done|].
  exists d1, d2. split; [done|]. split; [done|]. split; [done|]. split; [done|]. rewrite E2, Hf, Z.eqb_refl by done. done.
Qed.

(** [alloc_cluster] returns the lowest cluster from 2 on whose table entry
    is free and reports a full volume exactly when there is none; it changes
    nothing on the disk. *)
Theorem fat_alloc_lowest fs d :
  geometry fs (bd_total d) -> bd_inv d ->
  exists r d', alloc_cluster fs d = Ret (r, d') /\ unchanged d d' /\
    match r with
    | Ok c => valid_cluster fs c /\ is_free fs d c /\ forall k, valid_cluster fs k -> k < c -> ~ is_free fs d k
    | Err e => e = "no free clusters"%string /\ forall k, valid_cluster fs k -> ~ is_free fs d k
    end.
Proof.
  intros Hg Hd. destruct (alloc_cluster_spec fs d Hg Hd) as (r & d' & E & Hun & Hff). pose proof (g_table _ _ Hg).
  eexists _, d'. split; [exact E|]. split; [done|]. destruct r as [c|]; simpl in Hff.
  - destruct Hff as (Ha & Hv & Hf & Hlow). split; [done|]. split; [done|]. intros k Hk Hlt. apply Hlow; [|done].
    unfold valid_cluster in Hk. lia.
  - split; [done|]. intros k Hk. apply Hff; [|done]. unfold valid_cluster in Hk. lia.
Qed.

End volume.

(** ** Small volumes *)

(** A table sector with these first entries. *)
Definition table_sector_of (es : list Z) : list Z :=
  write_at zero_sector 0 (concat (to_le 4 <$> es)).
Definition EOC : Z := 0x0FFFFFF8.

(** Ten clusters of one sector, a file in the clusters 3 and 5. *)
Definition mini_fs : Fat32Fs := mk_fat 512 1 1 2 1 2 3 10.
Definition mini_table : list Z := table_sector_of [EOC; EOC; EOC; 5; 0; EOC].
Definition mini_disk : IdeDisk * drive :=
  (mk_ide PRIMARY_BASE false 16, mk_drive ([zero_sector; mini_table; mini_table] ++ replicate 13 zero_sector) 0 0 0 0 0 Idle).

Definition sector_okb (s : list Z) : bool := (lenZ s =? 512) && forallb byteb s.
Lemma sectors_okb l : forallb sector_okb l = true -> Forall sector_ok l.
Proof.
  intros Hl. apply Forall_forall. intros s Hs%list_elem_of_In. rewrite forallb_forall in Hl. apply Hl in Hs.
  unfold sector_okb in Hs. apply andb_true_iff in Hs as [H1%Z.eqb_eq H2]. split; [done|by apply forallb_byte].
Qed.

Lemma mini_disk_ok : bd_inv mini_disk.
Proof.
  split; [reflexivity|]. split; [reflexivity|]. split; [vm_compute; reflexivity|]. split; [vm_compute; discriminate|].
  apply sectors_okb. vm_compute. reflexivity.
Qed.
Lemma mini_geometry : geometry mini_fs (bd_total mini_disk).
Proof. by split. Qed.
Lemma mini_chain : chain mini_fs mini_disk 3 [3; 5].
Proof.
  apply (chain_next _ _ _ 5); [by split|vm_compute; reflexivity|discriminate|].
  apply chain_end; [by split|vm_compute; reflexivity].
Qed.

Lemma fat_write_read_witness :
  exists d1, write_file_data mini_fs 3 510 [1; 2; 3; 4] mini_disk = Ret (Ok 4, d1) /\ chain mini_fs d1 3 [3; 5].
Proof.
  destruct (fat_write_read mini_fs mini_disk 3 [3; 5] 510 [1; 2; 3; 4]) as (d1 & E & Hch & _).
  - exact mini_geometry.
  - exact mini_disk_ok.
  - exact mini_chain.
  - apply (bool_decide_unpack _). vm_compute. exact I.
  - apply forallb_byte. reflexivity.
  - discriminate.
  - reflexivity.
  - discriminate.
  - exists d1. split; [exact E|exact Hch].
Defined.

Lemma fat_entry_update_witness :
  exists d1 d2, set_fat_entry mini_fs 4 EOC mini_disk = Ret (Ok tt, d1) /\ next_cluster mini_fs 4 d1 = Ret (Ok 0, d2).
Proof.
  destruct (fat_entry_update mini_fs mini_disk 4 EOC mini_geometry mini_disk_ok) as (d1 & d2 & E & _ & _ & _ & E2).
  - split; [discriminate|reflexivity].
  - exists d1, d2. split; [exact E|exact E2].
Defined.

Lemma fat_alloc_lowest_witness :
  exists r d', alloc_cluster mini_fs mini_disk = Ret (r, d') /\ unchanged mini_disk d'.
Proof.
  destruct (fat_alloc_lowest mini_fs mini_disk mini_geometry mini_disk_ok) as (r & d' & E & Hun & _).
  exists r, d'. split; [exact E|exact Hun].
Defined.

(** A volume of 300 clusters whose root directory holds A.TXT at cluster
    0x123 and B.TXT at cluster 0x23. *)
Definition big_fs : Fat32Fs := mk_fat 512 1 1 1 3 2 4 300.
Definition big_table : list Z := insertZ 2 EOC (insertZ 0x23 EOC (insertZ 0x123 EOC (replicate 384 0))).
Definition file_a : list Z := [0x41; 0x2E; 0x54; 0x58; 0x54].
Definition file_b : list Z := [0x42; 0x2E; 0x54; 0x58; 0x54].
Definition big_root : list Z :=
  write_at zero_sector 0 (dirent_bytes (new_dirent (to_8_3 file_a) 0x123 false) ++ dirent_bytes (new_dirent (to_8_3 file_b) 0x23 false)).
Definition big_disk : IdeDisk * drive :=
  (mk_ide PRIMARY_BASE false 304,
   mk_drive (zero_sector :: (table_sector_of <$> [take 128 big_table; take 128 (drop 128 big_table); drop 256 big_table]) ++
             big_root :: replicate 299 zero_sector) 0 0 0 0 0 Idle).

(** [delete_file_entry] frees the wrong clusters: it takes one byte of
    each half of the start cluster of a directory entry.  Deleting A.TXT at
    cluster 0x123 succeeds, leaves that cluster allocated and frees cluster
    0x23, which belongs to B.TXT. *)
Theorem fat_delete_frees_other_file :
  exists d, delete_file_entry 2 big_fs 2 file_a big_disk = Ret (Ok tt, d) /\
    fat_at big_fs big_disk 0x23 = EOC /\ fat_at big_fs d 0x23 = 0 /\ fat_at big_fs d 0x123 = EOC.
Proof.
  assert (E : match delete_file_entry 2 big_fs 2 file_a big_disk with
              | Ret (Ok _, d) => (fat_at big_fs big_disk 0x23 =? EOC) && (fat_at big_fs d 0x23 =? 0) && (fat_at big_fs d 0x123 =? EOC)
              | _ => false
              end = true) by (vm_compute; reflexivity).
  destruct (delete_file_entry 2 big_fs 2 file_a big_disk) as [[[[]|e] d]| | | |]; try discriminate E.
  exists d. split; [reflexivity|]. apply andb_true_iff in E as [[H1%Z.eqb_eq H2%Z.eqb_eq]%andb_true_iff H3%Z.eqb_eq].
  split; [exact H1|]. split; [exact H2|exact H3].
Qed.
