(* ===== verification/Syscall.v ===== *)
(** * System calls (src/src/syscall.rs, the entry stub of src/src/arch/x86_64/mod.rs)

    The dispatch table and its handlers over the whole kernel state: the tasks
    and memory of [Task], the mounted FAT32 volume, the file system in memory
    with its descriptors, and the bytes sent to the serial line.  Lines that
    [println!] and the log macros print are not recorded.  A handler returns,
    waits with interrupts enabled until the scheduler lets it go on, or ends
    its task.

    [VERSION_PTR] is the address of the version string and [ELF_BASE] the
    address the heap gives for a file that [execve] reads.  A slice made from a
    raw pointer that is null or misaligned is undefined behaviour in Rust. *)

From S2P Require Import Prelude FdTable Vfs Mem Frame Paging AddressSpace Usercopy Bytes Elf Task Sched Process Ide Fat32.

Definition ENOSYS : Z := -38.
Definition EPERM : Z := -13.
Definition EINVAL : Z := -22.

Definition FLAG_ROOT_ONLY : Z := 0x0001.
Definition FLAG_BLOCKING : Z := 0x0002.
Definition FLAG_FASTPATH : Z := 0x0004.
Definition FLAG_MAY_SLEEP : Z := 0x0008.
Definition FLAG_CAN_PAGEFAULT : Z := 0x0010.

(** [inv_bind] without simplification, for large terms. *)
Ltac open_bind H :=
  let a := fresh "a" in let H1 := fresh H in apply bind_Ret_inv in H as (a & H1 & H); cbv beta in H.

(** How a handler ends: with a value; halted with interrupts enabled, to return
    the value when it runs again; or with its task gone. *)
Inductive sysret : Type := Returned (r : Z) | Waits (r : Z) | Gone.

(** The counters of [KernelStats] the system calls touch. *)
Record syscall_stats : Type := mk_syscall_stats {
  syscalls_total : Z; syscalls_by_num : list Z; tasks_exited : Z }.

(** [core::slice::from_raw_parts] and a reference from a raw pointer. *)
Definition raw_slice (addr align : Z) : outcome unit :=
  if (addr =? 0) || negb (addr mod align =? 0) then UB else Ret tt.

(** [eq_ignore_ascii_case]. *)
Definition eq_ignore_case (a b : list Z) : bool := bool_decide (upper <$> a = upper <$> b).

Fixpoint position_zero (bs : list Z) (i : Z) : option Z :=
  match bs with
  | [] => None
  | b :: bs' => if b =? 0 then Some i else position_zero bs' (i + 1)
  end.

Section syscall.
Context {D : Type} `{BlockDevice D}.
Variables TASKS_ADDR VERSION_PTR ELF_BASE : Z.

Record kstate : Type := mk_k {
  k_sys : sys (A:=frame_state);
  k_serial : list Z;
  k_stats : syscall_stats;
  FAT32_FS : option Fat32Fs;
  FAT32_DISK : D;
  k_vfs : option Vfs;
  k_fds : fd_table;
}.

Definition with_sys (x : sys) (s : kstate) : kstate :=
  mk_k x (k_serial s) (k_stats s) (FAT32_FS s) (FAT32_DISK s) (k_vfs s) (k_fds s).
Definition with_sysstats (x : syscall_stats) (s : kstate) : kstate :=
  mk_k (k_sys s) (k_serial s) x (FAT32_FS s) (FAT32_DISK s) (k_vfs s) (k_fds s).
Definition with_disk (d : D) (s : kstate) : kstate :=
  mk_k (k_sys s) (k_serial s) (k_stats s) (FAT32_FS s) d (k_vfs s) (k_fds s).
Definition with_pmem (m : memory) (s : kstate) : kstate :=
  with_sys (with_mach (with_mem m (mach (k_sys s))) (k_sys s)) s.
Definition kmem (s : kstate) : memory := pmem (mach (k_sys s)).

(** [arch::write_serial] for each byte. *)
Definition write_serial (bs : list Z) (s : kstate) : kstate :=
  mk_k (k_sys s) (k_serial s ++ bs) (k_stats s) (FAT32_FS s) (FAT32_DISK s) (k_vfs s) (k_fds s).

(** ** Counters and the mounted volume *)

Definition count_syscall (num : Z) (s : kstate) : outcome kstate :=
  let st := k_stats s in
  let total := u64 (syscalls_total st + 1) in
  if num <? 64 then
    c ← index (syscalls_by_num st) num;
    by_num ← assign (syscalls_by_num st) num (u64 (c + 1));
    Ret (with_sysstats (mk_syscall_stats total by_num (tasks_exited st)) s)
  else Ret (with_sysstats (mk_syscall_stats total (syscalls_by_num st) (tasks_exited st)) s).
Definition count_task_exit (s : kstate) : kstate :=
  let st := k_stats s in
  with_sysstats (mk_syscall_stats (syscalls_total st) (syscalls_by_num st) (u64 (tasks_exited st + 1))) s.

Definition is_mounted (s : kstate) : bool := match FAT32_FS s with Some _ => true | None => false end.
Definition set_mounted (fs : Fat32Fs) (d : D) (s : kstate) : kstate :=
  mk_k (k_sys s) (k_serial s) (k_stats s) (Some fs) d (k_vfs s) (k_fds s).

(** ** Handlers *)

Definition MAX_WRITE_LEN : Z := 256.

(** The part [syscall_write] and [syscall_debuglog] share: the bytes go to the
    serial line, directly for the kernel task, through [copy_from_user] for
    the others. *)
Definition serial_from (buf len : Z) (s : kstate) : outcome (sysret * kstate) :=
  if current_task (k_sys s) =? 0 then
    _ ← raw_slice buf 1;
    bs ← kread (Z.to_nat len) (kmem s) (CR3 (k_sys s)) buf;
    Ret (Returned len, write_serial bs s)
  else
    cr3 ← current_page_table_root (k_sys s);
    x ← copy_from_user (kmem s) cr3 buf len (replicate (Z.to_nat MAX_USER_COPY) 0);
    match x with
    | (Err e, _) => Ret (Returned e, s)
    | (Ok copied, kbuf) =>
        bs ← slice kbuf 0 copied;
        Ret (Returned copied, write_serial bs s)
    end.

Definition syscall_write (buf len _unused : Z) (s : kstate) : outcome (sysret * kstate) :=
  if MAX_WRITE_LEN <? len then Ret (Returned (-1), s) else serial_from buf len s.

Definition syscall_exit (_ _ _ : Z) (s : kstate) : outcome (sysret * kstate) :=
  let s := count_task_exit s in
  x ← exit_current_task (k_sys s);
  Ret (match x.1 with Some r => Returned r | None => Gone end, with_sys x.2 s).

Definition syscall_sleep (duration_ms _ _ : Z) (s : kstate) : outcome (sysret * kstate) :=
  y ← sleep_ms duration_ms (k_sys s); Ret (Waits 0, with_sys y s).

Definition syscall_read (_buf _len _ : Z) (s : kstate) : outcome (sysret * kstate) := Ret (Returned 0, s).

Definition syscall_getpid (_ _ _ : Z) (s : kstate) : outcome (sysret * kstate) :=
  Ret (Returned (i64 (current_task (k_sys s))), s).

Definition syscall_yield (_ _ _ : Z) (s : kstate) : outcome (sysret * kstate) :=
  y ← set_state Ready (k_sys s); Ret (Waits 0, with_sys y s).

Definition syscall_gettime (_ _ _ : Z) (s : kstate) : outcome (sysret * kstate) :=
  Ret (Returned (i64 (uptime_ms (k_sys s))), s).
Definition syscall_getuptime (_ _ _ : Z) (s : kstate) : outcome (sysret * kstate) :=
  Ret (Returned (i64 (TICKS (k_sys s))), s).
Definition syscall_version (_ _ _ : Z) (s : kstate) : outcome (sysret * kstate) := Ret (Returned (i64 VERSION_PTR), s).
Definition syscall_kernelinfo (_ _ _ : Z) (s : kstate) : outcome (sysret * kstate) :=
  Ret (Returned (i64 (Z.lor (Z.lor (Z.lor (Z.shiftl 0 48) (Z.shiftl 1 32)) (Z.shiftl 0 16)) 0x07)), s).

(** Three words through a pointer the kernel task passed. *)
Definition put_words (buf : Z) (ws : list Z) (s : kstate) : outcome kstate :=
  _ ← raw_slice buf 8;
  m ← kstore_bytes (concat (to_le 8 <$> ws)) (kmem s) (CR3 (k_sys s)) buf;
  Ret (with_pmem m s).

Definition syscall_memoryinfo (buf _ _ : Z) (s : kstate) : outcome (sysret * kstate) :=
  if current_task (k_sys s) =? 0 then
    let fa := frames (mach (k_sys s)) in
    let total := total_ram fa / FRAME_SIZE in
    free ← free_frame_count fa;
    s ← put_words buf [total; free; u64 (total - free)] s;
    Ret (Returned 0, s)
  else Ret (Returned EFAULT, s).

Definition state_val (st : TaskState) : Z :=
  match st with Unused => 0 | Ready => 1 | Running => 2 | Sleeping => 3 end.
Definition syscall_taskinfo (pid buf _ : Z) (s : kstate) : outcome (sysret * kstate) :=
  if MAX_TASKS <=? pid then Ret (Returned EINVAL, s)
  else if current_task (k_sys s) =? 0 then
    st ← get_task_state pid (k_sys s);
    uid ← get_task_uid pid (k_sys s);
    s ← put_words buf [pid; state_val st; uid] s;
    Ret (Returned 0, s)
  else Ret (Returned EFAULT, s).

Definition syscall_debuglog (buf len _ : Z) (s : kstate) : outcome (sysret * kstate) :=
  if 256 <? len then Ret (Returned EINVAL, s) else serial_from buf len s.

(** *** [execve] *)

Definition exec_path (path_ptr : Z) (s : kstate) : outcome (result Z (list Z)) :=
  if current_task (k_sys s) =? 0 then
    _ ← raw_slice path_ptr 1;
    sl ← kread 256 (kmem s) (CR3 (k_sys s)) path_ptr;
    let p := take (Z.to_nat (default 256 (position_zero sl 0))) sl in
    Ret (if utf8_valid p then Ok p else Err (-8))
  else
    cr3 ← current_page_table_root (k_sys s);
    copy_from_user_cstr (kmem s) cr3 path_ptr 256.

(** The file of that name in the root directory, its contents in a buffer of
    its size. *)
Definition exec_file (fs : Fat32Fs) (path : list Z) (d : D) : outcome (result Z (list Z) * D) :=
  x ← Fat32.readdir fs (root_cluster fs) d;
  match x with
  | (Err _, d) => Ret (Err (-2), d)
  | (Ok entries, d) =>
      match List.find (fun e => eq_ignore_case (e_name e) path) entries with
      | Some e =>
          if negb (e_is_dir e) && (2 <=? e_cluster e) then
            let file_size := e_size e in
            if (file_size =? 0) || (1024 * 1024 <? file_size) then Ret (Err (-8), d)
            else
              x ← read_file_data fs (e_cluster e) file_size (replicate (Z.to_nat file_size) 0) d;
              match x with
              | (Ok (n, elf_buf), d) => Ret (if n =? file_size then Ok elf_buf else Err (-8), d)
              | (Err _, d) => Ret (Err (-8), d)
              end
          else Ret (Err (-2), d)
      | None => Ret (Err (-2), d)
      end
  end.

Definition syscall_execve (path_ptr _argv _envp : Z) (s : kstate) : outcome (sysret * kstate) :=
  p ← exec_path path_ptr s;
  match p with
  | Err e => Ret (Returned e, s)
  | Ok path =>
      match FAT32_FS s with
      | None => Ret (Returned (-2), s)
      | Some fs =>
          x ← exec_file fs path (FAT32_DISK s);
          let '(r, d) := x in
          let s := with_disk d s in
          match r with
          | Err e => Ret (Returned e, s)
          | Ok elf_buf =>
              r ← parse_elf ELF_BASE elf_buf;
              match r with
              | Err _ => Ret (Returned (-8), s)
              | Ok image =>
                  x ← replace_address_space TASKS_ADDR (current_task (k_sys s)) image elf_buf (k_sys s);
                  Ret (Returned (match x.1 with Ok _ => 0 | Err _ => -12 end), with_sys x.2 s)
              end
          end
      end
  end.

(** ** The table and the dispatcher *)

Definition SyscallFn : Type := Z -> Z -> Z -> kstate -> outcome (sysret * kstate).
Record SyscallEntry : Type := mk_syscall {
  sc_name : string; handler : option SyscallFn; required_uid : option Z; arg_count : Z; sc_flags : Z }.

Definition SYSCALL_TABLE : list (option SyscallEntry) :=
  [ Some (mk_syscall "Write" (Some syscall_write) None 3 FLAG_CAN_PAGEFAULT);
    Some (mk_syscall "Exit" (Some syscall_exit) None 0 0);
    Some (mk_syscall "Sleep" (Some syscall_sleep) None 1 FLAG_MAY_SLEEP);
    Some (mk_syscall "Read" (Some syscall_read) None 3 FLAG_CAN_PAGEFAULT);
    Some (mk_syscall "GetPid" (Some syscall_getpid) None 0 FLAG_FASTPATH);
    Some (mk_syscall "Yield" (Some syscall_yield) None 0 0);
    Some (mk_syscall "GetTime" (Some syscall_gettime) None 0 FLAG_FASTPATH);
    Some (mk_syscall "GetUptime" (Some syscall_getuptime) None 0 FLAG_FASTPATH);
    Some (mk_syscall "Version" (Some syscall_version) None 0 FLAG_FASTPATH);
    Some (mk_syscall "KernelInfo" (Some syscall_kernelinfo) None 0 FLAG_FASTPATH);
    Some (mk_syscall "MemoryInfo" (Some syscall_memoryinfo) None 1 FLAG_CAN_PAGEFAULT);
    Some (mk_syscall "TaskInfo" (Some syscall_taskinfo) None 2 FLAG_CAN_PAGEFAULT);
    Some (mk_syscall "DebugLog" (Some syscall_debuglog) (Some 0) 2 FLAG_CAN_PAGEFAULT);
    Some (mk_syscall "Execve" (Some syscall_execve) None 3 FLAG_CAN_PAGEFAULT) ]
  ++ replicate 242 None.

Definition dispatch (num arg0 arg1 arg2 : Z) (s : kstate) : outcome (sysret * kstate) :=
  s ← count_syscall num s;
  if lenZ SYSCALL_TABLE <=? num then Ret (Returned ENOSYS, s)
  else
    e ← index SYSCALL_TABLE num;
    match e with
    | None => Ret (Returned ENOSYS, s)
    | Some entry =>
        allowed ← match required_uid entry with
                  | Some uid => caller_uid ← current_user_id (k_sys s); Ret (caller_uid =? uid)
                  | None => Ret true
                  end;
        if negb allowed then Ret (Returned EPERM, s)
        else match handler entry with
             | Some f => f arg0 arg1 arg2 s
             | None => Ret (Returned ENOSYS, s)
             end
    end.

(** ** The entry stub *)

(** The registers the stub touches and the words on the kernel stack, the
    topmost first. *)
Record cpu_regs : Type := mk_regs { rax : Z; rdi : Z; rsi : Z; rdx : Z; stack : list Z }.

(** How the stub ends: it returns to the caller with these registers, at once
    or after waiting, or never. *)
Inductive stub_end : Type := Back (r : cpu_regs) | Later (r : cpu_regs) | Never.

(** Five words are pushed, the last one for alignment; [dispatch] gets its
    arguments from the saved words, and its result replaces the saved [rax]
    that the stub pops. *)
Definition stub_pop (v : Z) (st : list Z) : outcome cpu_regs :=
  st ← assign st 4 (u64 v);
  match st with
  | _ :: d :: si :: di :: a :: st => Ret (mk_regs a di si d st)
  | _ => Panic
  end.
Definition syscall_entry (r : cpu_regs) (s : kstate) : outcome (stub_end * kstate) :=
  let st := [0; rdx r; rsi r; rdi r; rax r] ++ stack r in
  let num := rax r in
  a0 ← index st 3; a1 ← index st 2; a2 ← index st 1;
  x ← dispatch num a0 a1 a2 s;
  let '(ret, s) := x in
  match ret with
  | Returned v => r ← stub_pop v st; Ret (Back r, s)
  | Waits v => r ← stub_pop v st; Ret (Later r, s)
  | Gone => Ret (Never, s)
  end.
(** ** Well-formedness *)

Record k_wf (s : kstate) : Prop := {
  kw_tasks : lenZ (TASKS (k_sys s)) = MAX_TASKS;
  kw_current : 0 <= CURRENT_TASK (k_sys s) < MAX_TASKS;
  kw_counters : lenZ (syscalls_by_num (k_stats s)) = 64;
}.
Definition isize (r : Z) : Prop := - two63 <= r < two63.
Definition ret_ok (r : sysret) : Prop := match r with Returned v | Waits v => isize v | Gone => True end.

(** [y] has the task table's length and the current task of [x]. *)
Definition same_table (x y : sys (A:=frame_state)) : Prop :=
  lenZ (TASKS y) = lenZ (TASKS x) /\ CURRENT_TASK y = CURRENT_TASK x.

Lemma with_sys_wf x s : k_wf s -> same_table (k_sys s) x -> k_wf (with_sys x s).
Proof. intros [H1 H2 H3] [E1 E2]. split; cbn; [by rewrite E1|by rewrite E2|done]. Qed.

Lemma upd_task_same i f (x y : sys (A:=frame_state)) : upd_task i f x = Ret y -> same_table x y.
Proof. intros (t & Ht & ->)%upd_task_inv. split; [cbn; apply lenZ_insertZ|done]. Qed.

Lemma exit_same (x : sys (A:=frame_state)) r : exit_current_task x = Ret r ->
  same_table x r.2 /\ match r.1 with Some v => v = -1 | None => True end.
Proof.
  unfold exit_current_task. destruct (CURRENT_TASK x =? 0); [by intros [= <-]|]. intros E.
  do 5 inv_bind E. apply Ret_inj in E as <-. apply upd_task_same in E4 as [H1 H2]. by split; [split|].
Qed.

Lemma sleep_same ms (x y : sys (A:=frame_state)) : sleep_ms ms x = Ret y -> same_table x y.
Proof.
  unfold sleep_ms, sleep_until, set_task_wake_tick, set_state. intros E. inv_bind E.
  apply upd_task_same in E0 as [H1 H2], E as [H3 H4]. split; congruence.
Qed.

Lemma replace_same i image elf (x : sys (A:=frame_state)) r :
  replace_address_space TASKS_ADDR i image elf x = Ret r -> same_table x r.2.
Proof.
  unfold replace_address_space. destruct (_ || _); [by intros [= <-]|]. intros E.
  do 3 open_bind E. destruct a1 as [t m]. open_bind E. open_bind E. destruct a2 as [[cr3 fr] m']. open_bind E.
  destruct a2 as [[rest t'] mem]. open_bind E. destruct a2 as [[[sp t''] m'']|e].
  - open_bind E. destruct a2 as [? m3]. open_bind E. destruct a2 as [pt m4].
    apply Ret_inj in E as <-. split; [cbn; apply lenZ_insertZ|done].
  - apply Ret_inj in E as <-. split; [cbn; apply lenZ_insertZ|done].
Qed.

Lemma copy_from_loop_err fuel m cr3 p e a buf er buf' :
  copy_from_loop fuel m cr3 p e a buf = Ret (Err er, buf') -> er = EFAULT.
Proof.
  revert a buf. induction fuel as [|fuel IH]; intros a buf E; cbn in E; [done|].
  destruct (a <? e); [|done]. destruct (negb _); [by injection E|]. do 2 inv_bind E. by eapply IH.
Qed.
Lemma copy_from_result m cr3 p len buf r :
  copy_from_user m cr3 p len buf = Ret r -> match r.1 with Ok n => n = len | Err e => e = EFAULT end.
Proof.
  unfold copy_from_user. destruct (_ <? _); [by intros [= <-]|]. destruct (Z.eqb_spec len 0) as [-> |]; [by intros [= <-]|].
  destruct (_ <=? _); [by intros [= <-]|]. intros E. inv_bind E. destruct a as [[[]|e] b]; apply Ret_inj in E as <-; [done|].
  by eapply copy_from_loop_err.
Qed.

Lemma cstr_result m cr3 p n e : copy_from_user_cstr m cr3 p n = Ret (Err e) -> e = EFAULT.
Proof.
  unfold copy_from_user_cstr. intros E. inv_bind E. destruct a as [[i b]|e']; [by inv_bind E|]. injection E as ->.
  revert E0. generalize (replicate 256 0) as b. generalize 0 as i. induction (Z.to_nat _) as [|k IH]; intros i b E; [done|].
  cbn [cstr_loop] in E. destruct (negb _); [by injection E|]. inv_bind E. destruct (a =? 0); [done|]. inv_bind E. exact (IH _ _ E).
Qed.
(** Handlers keep the kernel state well formed and return values of an
    [isize]. *)
Definition keeps (f : SyscallFn) : Prop := forall a b c s r,
  0 <= a < two64 -> 0 <= b < two64 -> k_wf s -> f a b c s = Ret r -> k_wf r.2 /\ ret_ok r.1.

Lemma with_pmem_wf m s : k_wf s -> k_wf (with_pmem m s).
Proof. intros Hw. by apply with_sys_wf. Qed.
Lemma write_serial_wf bs s : k_wf s -> k_wf (write_serial bs s).
Proof. intros [H1 H2 H3]. by split. Qed.
Lemma i64_isize z : isize (i64 z).
Proof. unfold isize, i64. dlia. Qed.
Lemma put_words_wf buf ws s s' : k_wf s -> put_words buf ws s = Ret s' -> k_wf s'.
Proof. unfold put_words. intros Hw E. do 2 open_bind E. apply Ret_inj in E as <-. by apply with_pmem_wf. Qed.

Lemma serial_from_keeps buf len s r :
  0 <= len <= 256 -> k_wf s -> serial_from buf len s = Ret r -> k_wf r.2 /\ ret_ok r.1.
Proof.
  unfold serial_from. intros Hl Hw E. destruct (_ =? 0).
  - do 2 open_bind E. apply Ret_inj in E as <-. split; [by apply write_serial_wf|]. cbn. unfold isize. lia.
  - do 2 open_bind E. apply copy_from_result in E1. destruct a0 as [[n|e] kbuf]; cbn [fst] in E1; subst.
    + open_bind E. apply Ret_inj in E as <-. split; [by apply write_serial_wf|]. cbn. unfold isize. lia.
    + apply Ret_inj in E as <-. by split.
Qed.

Lemma write_keeps : keeps syscall_write.
Proof.
  intros a b c s r Ha Hb Hw E. unfold syscall_write, MAX_WRITE_LEN in E.
  destruct (Z.ltb_spec 256 b); [by apply Ret_inj in E as <-|]. eapply serial_from_keeps; [|done|exact E]. lia.
Qed.
Lemma debuglog_keeps : keeps syscall_debuglog.
Proof.
  intros a b c s r Ha Hb Hw E. unfold syscall_debuglog in E.
  destruct (Z.ltb_spec 256 b); [by apply Ret_inj in E as <-|]. eapply serial_from_keeps; [|done|exact E]. lia.
Qed.
Lemma exit_keeps : keeps syscall_exit.
Proof.
  intros a b c s r Ha Hb Hw E. unfold syscall_exit in E. open_bind E. apply Ret_inj in E as <-.
  apply exit_same in E0 as [Hs Hr]. split.
  - destruct Hw as [H1 H2 H3]. apply with_sys_wf; [by split|done].
  - cbn. destruct a0.1 as [v|]; [subst; done|done].
Qed.
Lemma sleep_keeps : keeps syscall_sleep.
Proof.
  intros a b c s r Ha Hb Hw E. unfold syscall_sleep in E. open_bind E. apply Ret_inj in E as <-.
  apply sleep_same in E0. split; [by apply with_sys_wf|done].
Qed.
Lemma yield_keeps : keeps syscall_yield.
Proof.
  intros a b c s r Ha Hb Hw E. unfold syscall_yield, set_state in E. open_bind E. apply Ret_inj in E as <-.
  apply upd_task_same in E0. split; [by apply with_sys_wf|done].
Qed.
Lemma pure_keeps (f : kstate -> Z) : keeps (fun _ _ _ s => Ret (Returned (i64 (f s)), s)).
Proof. intros a b c s r Ha Hb Hw E. apply Ret_inj in E as <-. split; [done|apply i64_isize]. Qed.
Lemma memoryinfo_keeps : keeps syscall_memoryinfo.
Proof.
  intros a b c s r Ha Hb Hw E. unfold syscall_memoryinfo in E. destruct (_ =? 0); [|by apply Ret_inj in E as <-].
  do 2 open_bind E. apply Ret_inj in E as <-. split; [by eapply put_words_wf|done].
Qed.
Lemma taskinfo_keeps : keeps syscall_taskinfo.
Proof.
  intros a b c s r Ha Hb Hw E. unfold syscall_taskinfo in E. destruct (_ <=? _); [by apply Ret_inj in E as <-|].
  destruct (_ =? 0); [|by apply Ret_inj in E as <-].
  do 3 open_bind E. apply Ret_inj in E as <-. split; [by eapply put_words_wf|done].
Qed.

Lemma exec_path_err p s e : exec_path p s = Ret (Err e) -> isize e.
Proof.
  unfold exec_path. intros E. destruct (_ =? 0).
  - do 2 open_bind E. apply Ret_inj in E. destruct (utf8_valid _); [done|]. by injection E as <-.
  - open_bind E. by apply cstr_result in E as ->.
Qed.
Lemma exec_file_err fs p d e d' : exec_file fs p d = Ret (Err e, d') -> isize e.
Proof.
  unfold exec_file. intros E. open_bind E. destruct a as [[es|?] d1]; [|by simplify_eq].
  destruct (List.find _ _) as [en|]; [|by simplify_eq]. destruct (_ && _); [|by simplify_eq].
  destruct (_ || _); [by simplify_eq|]. open_bind E. destruct a as [[[n buf]|?] d2]; [|by simplify_eq].
  destruct (n =? _); by simplify_eq.
Qed.
Lemma execve_keeps : keeps syscall_execve.
Proof.
  intros a b c s r Ha Hb Hw E. unfold syscall_execve in E. open_bind E. destruct a0 as [path|e].
  2:{ apply Ret_inj in E as <-. split; [done|]. by eapply exec_path_err. }
  destruct (FAT32_FS s) as [fs|]; [|by apply Ret_inj in E as <-]. open_bind E. destruct a0 as [[elf|e] d].
  2:{ apply Ret_inj in E as <-. destruct Hw. split; [by split|]. by eapply exec_file_err. }
  assert (Hd : k_wf (with_disk d s)) by (destruct Hw; by split). open_bind E. destruct a0 as [image|e].
  2:{ by apply Ret_inj in E as <-. }
  open_bind E. apply Ret_inj in E as <-. apply replace_same in E3. split; [by apply with_sys_wf|].
  cbn. by destruct a0.1.
Qed.
Lemma table_keeps num e f :
  lookupZ SYSCALL_TABLE num = Some (Some e) -> handler e = Some f -> keeps f.
Proof.
  intros Hl Hf. pose proof (lookupZ_Some_lt _ _ _ Hl) as Hr. unfold lookupZ in Hl.
  destruct (num <? 0); [done|]. unfold SYSCALL_TABLE in Hl.
  destruct (decide (Z.to_nat num < 14)%nat) as [Hn|Hn].
  - rewrite lookup_app_l in Hl by (cbn; lia). remember (Z.to_nat num) as k.
    do 14 (destruct k as [|k]; [cbn in Hl; injection Hl as <-; cbn in Hf; injection Hf as <-;
      first [apply write_keeps|apply exit_keeps|apply sleep_keeps|apply yield_keeps|apply memoryinfo_keeps
            |apply taskinfo_keeps|apply debuglog_keeps|apply execve_keeps
            |apply (pure_keeps (fun _ => 0))|apply (pure_keeps (fun s => current_task (k_sys s)))
            |apply (pure_keeps (fun s => uptime_ms (k_sys s)))|apply (pure_keeps (fun s => TICKS (k_sys s)))
            |apply (pure_keeps (fun _ => VERSION_PTR))|apply (pure_keeps (fun _ => 0x100000007))]|]). lia.
  - rewrite lookup_app_r in Hl by (cbn; lia). by apply lookup_replicate in Hl as [? _].
Qed.

(** The state after [count_syscall]. *)
Definition counted (num : Z) (s : kstate) : kstate :=
  let st := k_stats s in
  with_sysstats (mk_syscall_stats (u64 (syscalls_total st + 1))
    (if num <? 64 then insertZ num (u64 (default 0 (lookupZ (syscalls_by_num st) num) + 1)) (syscalls_by_num st)
     else syscalls_by_num st) (tasks_exited st)) s.

Lemma count_syscall_spec num s : k_wf s -> 0 <= num -> count_syscall num s = Ret (counted num s).
Proof.
  intros [_ _ Hc] Hn. unfold count_syscall, counted. destruct (Z.ltb_spec num 64); [|done].
  destruct (lookupZ_lt (syscalls_by_num (k_stats s)) num) as [c Hl]; [lia|].
  unfold index. rewrite Hl, bind_Ret. by rewrite assign_lt by lia.
Qed.
Lemma counted_wf num s : k_wf s -> k_wf (counted num s).
Proof. intros [H1 H2 H3]. split; try done. cbn. destruct (_ <? _); [by rewrite lenZ_insertZ|done]. Qed.

(** A call whose entry carries no user id runs its handler. *)
Lemma dispatch_run num e f a b c s :
  k_wf s -> 0 <= num < 256 -> lookupZ SYSCALL_TABLE num = Some (Some e) -> required_uid e = None -> handler e = Some f ->
  dispatch num a b c s = f a b c (counted num s).
Proof.
  intros Hw Hn Hl Hu Hf. unfold dispatch. rewrite count_syscall_spec, bind_Ret by (done || lia).
  change (lenZ SYSCALL_TABLE) with 256. destruct (Z.leb_spec 256 num); [lia|]. unfold index. rewrite Hl, bind_Ret.
  rewrite Hu, Hf. done.
Qed.
(** A user task runs: its page tables [t] map its pages as [um] says. *)
Record user_runs (s : kstate) (t : tables) (um : user_map) : Prop := {
  ur_wf : k_wf s;
  ur_user : CURRENT_TASK (k_sys s) <> 0;
  ur_view : view (kmem s) t um;
  ur_root : exists u, t KPml4 = Some u /\ current_page_table_root (k_sys s) = Ret (pg u);
}.

(** What it gets when it passes a buffer. *)
Lemma user_copy_in s t um buf len :
  user_runs s t um -> 0 <= buf < two64 -> 0 <= len <= MAX_USER_COPY ->
  exists cr3, current_page_table_root (k_sys s) = Ret cr3 /\
  match (if buf + len <? two64 then user_bytes (Z.to_nat len) (kmem s) um buf else None) with
  | Some l => exists kbuf, copy_from_user (kmem s) cr3 buf len (replicate (Z.to_nat MAX_USER_COPY) 0) = Ret (Ok len, kbuf) /\
      slice kbuf 0 len = Ret l
  | None => if (buf + len <? two64) && user_alias um buf
      then copy_from_user (kmem s) cr3 buf len (replicate (Z.to_nat MAX_USER_COPY) 0) = Halt
      else exists kbuf, copy_from_user (kmem s) cr3 buf len (replicate (Z.to_nat MAX_USER_COPY) 0) = Ret (Err EFAULT, kbuf)
  end.
Proof.
  intros [Hw Hc Hv (u & Hu & Hr)] Hb Hl. exists (pg u). split; [done|].
  pose proof (copy_from_user_spec (kmem s) t um u buf len (replicate (Z.to_nat MAX_USER_COPY) 0) Hv Hu Hb ltac:(lia) eq_refl) as Hcp.
  rewrite (proj2 (Z.leb_le len MAX_USER_COPY)) in Hcp by lia. cbn [andb] in Hcp. cbv zeta in Hcp.
  destruct (if buf + len <? two64 then user_bytes (Z.to_nat len) (kmem s) um buf else None) as [l|] eqn:El.
  2: { destruct ((buf + len <? two64) && user_alias um buf); [done|]. destruct Hcp as (b & Hb' & _). by exists b. }
  eexists. split; [exact Hcp|]. destruct (buf + len <? two64); [|done].
  pose proof (user_bytes_length _ _ _ _ _ El) as Hlen. unfold MAX_USER_COPY in *.
  rewrite slice_Ret; [|lia|rewrite lenZ_write_at; unfold lenZ; rewrite ?length_replicate, ?Hlen; lia].
  rewrite Z.sub_0_r. change (drop (Z.to_nat 0) ?k) with k. unfold write_at. change (Z.to_nat 0) with 0%nat.
  cbn [take]. rewrite app_nil_l. by rewrite take_app_length' by lia.
Qed.

(** A buffer below the addresses that a walk cannot tell apart. *)
Lemma low_not_alias um buf : buf < 2 ^ 48 -> user_alias um buf = false.
Proof. intros Hb. unfold user_alias. by destruct (Z.leb_spec (2 ^ 48) buf); [lia|]. Qed.

(** The handler of Write for a user task. *)
Lemma dispatch_write_any s t um buf len x :
  user_runs s t um -> 0 <= buf < two64 -> 0 <= len ->
  let fits := (len <=? 256) && (buf + len <? two64) in
  dispatch 0 buf len x s =
  match (if fits then user_bytes (Z.to_nat len) (kmem s) um buf else None) with
  | Some l => Ret (Returned len, write_serial l (counted 0 s))
  | None => if fits && user_alias um buf then Halt
            else Ret (Returned (if len <=? 256 then EFAULT else -1), counted 0 s)
  end.
Proof.
  intros Hur Hb Hl fits. pose proof (ur_wf _ _ _ Hur) as Hw. unfold fits.
  rewrite (dispatch_run 0 (mk_syscall "Write" (Some syscall_write) None 3 FLAG_CAN_PAGEFAULT) syscall_write) by done.
  unfold syscall_write, MAX_WRITE_LEN. destruct (Z.ltb_spec 256 len), (Z.leb_spec len 256); try lia; [done|]. cbn [andb].
  unfold serial_from, current_task. change (k_sys (counted 0 s)) with (k_sys s). change (kmem (counted 0 s)) with (kmem s).
  destruct (Z.eqb_spec (CURRENT_TASK (k_sys s)) 0); [by destruct (ur_user _ _ _ Hur)|].
  destruct (user_copy_in s t um buf len Hur Hb) as (cr3 & -> & Hcp); [unfold MAX_USER_COPY; lia|]. rewrite bind_Ret.
  destruct (if buf + len <? two64 then user_bytes (Z.to_nat len) (kmem s) um buf else None) as [l|].
  - destruct Hcp as (kbuf & -> & Hsl). by rewrite bind_Ret, Hsl, !bind_Ret.
  - destruct ((buf + len <? two64) && user_alias um buf); [by rewrite Hcp|]. destruct Hcp as (buf' & ->). by rewrite bind_Ret.
Qed.
Lemma dispatch_write s t um buf len x :
  user_runs s t um -> 0 <= buf -> 0 <= len -> buf + len <= 2 ^ 47 ->
  let bs := if len <=? 256 then user_bytes (Z.to_nat len) (kmem s) um buf else None in
  dispatch 0 buf len x s =
  Ret (Returned (match bs with Some _ => len | None => if len <=? 256 then EFAULT else -1 end),
       match bs with Some l => write_serial l (counted 0 s) | None => counted 0 s end).
Proof.
  intros Hur Hb Hl He bs. rewrite (dispatch_write_any s t um) by (done || lia). rewrite low_not_alias, andb_false_r by lia.
  destruct (Z.ltb_spec (buf + len) two64); [|lia]. rewrite andb_true_r. fold bs. by destruct bs.
Qed.

(** A call that needs a user id the current task does not have. *)
Lemma dispatch_forbidden a b c s uid :
  k_wf s -> current_user_id (k_sys s) = Ret uid -> uid <> 0 -> dispatch 12 a b c s = Ret (Returned EPERM, counted 12 s).
Proof.
  intros Hw Hu Hne. unfold dispatch. rewrite count_syscall_spec, bind_Ret by done.
  change (lenZ SYSCALL_TABLE) with 256. destruct (Z.leb_spec 256 12); [lia|]. unfold index.
  change (lookupZ SYSCALL_TABLE 12) with (Some (Some (mk_syscall "DebugLog" (Some syscall_debuglog) (Some 0) 2 FLAG_CAN_PAGEFAULT))).
  cbv iota. rewrite bind_Ret. cbn [required_uid]. change (k_sys (counted 12 s)) with (k_sys s). rewrite Hu, !bind_Ret.
  destruct (Z.eqb_spec uid 0); done.
Qed.

(** ** Properties *)


(** A call number without an entry gets ENOSYS, and a call that needs a
    user id the current task does not have gets EPERM; nothing changes but the
    counters. *)
Theorem dispatch_refuses num a b c s uid :
  k_wf s -> 0 <= num -> current_user_id (k_sys s) = Ret uid ->
  (14 <= num -> dispatch num a b c s = Ret (Returned ENOSYS, counted num s)) /\
  (num = 12 -> uid <> 0 -> dispatch num a b c s = Ret (Returned EPERM, counted num s)).
Proof.
  intros Hw Hn Hu. split.
  - intros H14. unfold dispatch. rewrite count_syscall_spec, bind_Ret by done.
    change (lenZ SYSCALL_TABLE) with 256. destruct (Z.leb_spec 256 num); [done|].
    assert (lookupZ SYSCALL_TABLE num = Some None) as Hl.
    { unfold lookupZ. destruct (Z.ltb_spec num 0); [lia|]. unfold SYSCALL_TABLE.
      rewrite lookup_app_r by (cbn; lia). apply lookup_replicate. split; [done|]. cbn [length]. lia. }
    unfold index. by rewrite Hl, bind_Ret.
  - intros -> Hne. by apply (dispatch_forbidden a b c s uid).
Qed.

Lemma entry_unfold r s :
  syscall_entry r s =
  (x ← dispatch (rax r) (rdi r) (rsi r) (rdx r) s;
   Ret (match x.1 with
        | Returned v => Back (mk_regs (u64 v) (rdi r) (rsi r) (rdx r) (stack r))
        | Waits v => Later (mk_regs (u64 v) (rdi r) (rsi r) (rdx r) (stack r))
        | Gone => Never
        end, x.2)).
Proof.
  destruct r as [a di si d st]. unfold syscall_entry. cbn [rax rdi rsi rdx stack app].
  change (index _ 3) with (Ret di). change (index _ 2) with (Ret si). change (index _ 1) with (Ret d). rewrite !bind_Ret.
  destruct (dispatch _ _ _ _ s) as [[[v|v|] s']| | | |]; reflexivity.
Qed.

(** The assembly stub of the system call interrupt passes the four
    registers of the calling convention to [dispatch] in the right order, puts
    the result into [rax], and gives back [rdi], [rsi], [rdx] and the stack as
    they were. *)
Theorem syscall_entry_abi r s :
  syscall_entry r s =
  (x ← dispatch (rax r) (rdi r) (rsi r) (rdx r) s;
   Ret (match x.1 with
        | Returned v => Back (mk_regs (u64 v) (rdi r) (rsi r) (rdx r) (stack r))
        | Waits v => Later (mk_regs (u64 v) (rdi r) (rsi r) (rdx r) (stack r))
        | Gone => Never
        end, x.2)).
Proof. apply entry_unfold. Qed.


End syscall.

(** ** Witnesses *)

Definition sample_disk : IdeDisk * drive := (mk_ide PRIMARY_BASE false 16, blank_drive).
(** Task 1 runs with memory [m] and page tables at [root]. *)
Definition sample_k (m : memory) (root : Z) : kstate :=
  mk_k (mk_sys (mk_machine m machine_100 0x1000)
          (insertZ 1 (mk_task 0 Running root (replicate 32 0) 0 0 1000) boot_tasks) 1 0 (mk_stats 0 0 0) root 0)
       [] (mk_syscall_stats 0 (replicate 64 0) 0) None sample_disk (Some vfs_new)
       FD_TABLE.

Lemma sample_k_wf m root : k_wf (sample_k m root).
Proof. split; [reflexivity| |reflexivity]. unfold MAX_TASKS. cbn. lia. Qed.

Lemma sample_getpid :
  dispatch 0 0 0 4 0 0 0 (sample_k ∅ 0x1000) = Ret (Returned 1, counted 4 (sample_k ∅ 0x1000)).
Proof.
  rewrite (dispatch_run 0 0 0 4 (mk_syscall "GetPid" (Some syscall_getpid) None 0 FLAG_FASTPATH) syscall_getpid)
    by (apply sample_k_wf || reflexivity || lia). reflexivity.
Qed.

Lemma dispatch_refuses_witness :
  dispatch 0 0 0 12 0 0 0 (sample_k ∅ 0x1000) = Ret (Returned EPERM, counted 12 (sample_k ∅ 0x1000)) /\
  dispatch 0 0 0 200 0 0 0 (sample_k ∅ 0x1000) = Ret (Returned ENOSYS, counted 200 (sample_k ∅ 0x1000)).
Proof.
  split.
  - apply (dispatch_refuses 0 0 0 12 0 0 0 (sample_k ∅ 0x1000) 1000 (sample_k_wf _ _)); [lia|reflexivity|lia|lia].
  - apply (dispatch_refuses 0 0 0 200 0 0 0 (sample_k ∅ 0x1000) 1000 (sample_k_wf _ _)); [lia|reflexivity|lia].
Defined.

Lemma sample_user m t um u : view m t um -> t KPml4 = Some u -> user_runs (sample_k m (pg u)) t um.
Proof. intros Hv Hu. split; [apply sample_k_wf|discriminate|exact Hv|]. exists u. split; [exact Hu|reflexivity]. Qed.

