(* ===== verification/LinuxCompat.v ===== *)
(** * The Linux system call layer (src/src/linux_compat.rs)

    The handlers that give files and descriptors to user programs: they join
    the descriptor table, the file system in memory and the copies to and from
    user memory.  Nothing in the kernel calls this [dispatch]; the interrupt
    stub of [Syscall] reaches the kernel's own table only.

    [KBUF] is the address of the 512 byte buffer that [sys_read] keeps on the
    kernel stack.  [clock_gettime], [getcwd], [capget] and the sleeping calls
    use the pointers of their caller directly, through the loaded tables. *)

From S2P Require Import Prelude FdTable Vfs Mem Frame Paging AddressSpace Usercopy Bytes Elf Task Sched Process Ide Fat32 Syscall.

Definition ENOENT : Z := -2.
Definition EBADF : Z := -9.
Definition ENOMEM : Z := -12.
Definition EIO : Z := -5.

Section linux.
Context {D : Type} `{BlockDevice D}.
Variables TASKS_ADDR ELF_BASE KBUF : Z.
Implicit Types s : kstate (D:=D).

Definition with_fds (t : fd_table) s : kstate :=
  mk_k (k_sys s) (k_serial s) (k_stats s) (FAT32_FS s) (FAT32_DISK s) (k_vfs s) t.
Definition with_files (v : option Vfs) s : kstate :=
  mk_k (k_sys s) (k_serial s) (k_stats s) (FAT32_FS s) (FAT32_DISK s) v (k_fds s).

(** Writes through a pointer of the caller, in the loaded address space. *)
Definition put_bytes (bs : list Z) (p : Z) s : outcome kstate :=
  m ← kstore_bytes bs (kmem s) (CR3 (k_sys s)) p; Ret (with_pmem m s).

(** ** Files *)

(** The copy of [sys_read] to the caller; its result is ignored. *)
Definition deliver (buf : Z) (d : list Z) s : outcome kstate :=
  cr3 ← current_page_table_root (k_sys s);
  if current_task (k_sys s) =? 0 then
    _ ← raw_slice buf 1;
    put_bytes d buf s
  else
    s ← put_bytes (write_at (replicate 512 0) 0 d) KBUF s;
    x ← copy_to_user (kmem s) cr3 buf KBUF (lenZ d);
    Ret (with_pmem x.2 s).

Definition sys_read (fd buf len : Z) s : outcome (sysret * kstate) :=
  let task_id := current_task (k_sys s) in
  if (fd =? 1) || (fd =? 2) then syscall_write fd buf len s
  else
    r ← node task_id fd (k_fds s);
    match r with
    | Err _ => Ret (Returned EBADF, s)
    | Ok node_idx =>
        off ← fd_offset task_id fd (k_fds s);
        let to_read := Z.min len 512 in
        r ← read_file_by_node node_idx off to_read (k_vfs s);
        match r with
        | Err _ => Ret (Returned EIO, s)
        | Ok d =>
            let n := lenZ d in
            if n =? 0 then Ret (Returned 0, s)
            else
              s ← deliver buf d s;
              t ← set_offset task_id fd (u64 (off + n)) (k_fds s);
              Ret (Returned n, with_fds t s)
        end
    end.

(** The buffer [sys_write] fills from the caller. *)
Definition collect (buf to_write : Z) s : outcome (result Z (list Z)) :=
  cr3 ← current_page_table_root (k_sys s);
  if current_task (k_sys s) =? 0 then
    _ ← raw_slice buf 1;
    src ← kread (Z.to_nat to_write) (kmem s) (CR3 (k_sys s)) buf;
    Ret (Ok (write_at (replicate 512 0) 0 src))
  else
    x ← copy_from_user (kmem s) cr3 buf to_write (replicate 512 0);
    Ret (match x.1 with Ok _ => Ok x.2 | Err e => Err e end).

Definition sys_write (fd buf len : Z) s : outcome (sysret * kstate) :=
  let task_id := current_task (k_sys s) in
  if (fd =? 1) || (fd =? 2) then syscall_write fd buf len s
  else
    r ← node task_id fd (k_fds s);
    match r with
    | Err _ => Ret (Returned EBADF, s)
    | Ok node_idx =>
        off ← fd_offset task_id fd (k_fds s);
        let to_write := Z.min len 512 in
        r ← collect buf to_write s;
        match r with
        | Err e => Ret (Returned e, s)
        | Ok kbuf =>
            d ← slice kbuf 0 to_write;
            x ← write_file_by_node node_idx off d (k_vfs s);
            let s := with_files x.2 s in
            match x.1 with
            | Err _ => Ret (Returned EIO, s)
            | Ok n =>
                t ← set_offset task_id fd (u64 (off + n)) (k_fds s);
                Ret (Returned n, with_fds t s)
            end
        end
    end.

Definition sys_close (fd : Z) s : outcome (sysret * kstate) :=
  x ← close (current_task (k_sys s)) fd (k_fds s);
  Ret (Returned (match x.1 with Ok _ => 0 | Err _ => EBADF end), with_fds x.2 s).

Definition sys_openat (_dirfd path _flags : Z) s : outcome (sysret * kstate) :=
  cr3 ← current_page_table_root (k_sys s);
  p ← copy_from_user_cstr (kmem s) cr3 path 256;
  match p with
  | Err e => Ret (Returned e, s)
  | Ok path_str =>
      r ← resolve_path_idx path_str (k_vfs s);
      match r with
      | None => Ret (Returned ENOENT, s)
      | Some node_idx =>
          x ← open (current_task (k_sys s)) node_idx (k_fds s);
          Ret (Returned (match x.1 with Ok fd => fd | Err _ => ENOMEM end), with_fds x.2 s)
      end
  end.

Definition sys_mkdir (path : Z) s : outcome (sysret * kstate) :=
  cr3 ← current_page_table_root (k_sys s);
  p ← copy_from_user_cstr (kmem s) cr3 path 256;
  match p with
  | Err e => Ret (Returned e, s)
  | Ok path_str =>
      x ← create_dir path_str (k_vfs s);
      Ret (Returned (match x.1 with Ok _ => 0 | Err _ => -1 end), with_files x.2 s)
  end.

Definition sys_lseek (fd off whence : Z) s : outcome (sysret * kstate) :=
  x ← lseek (current_task (k_sys s)) fd (i64 off) whence (k_vfs s) (k_fds s);
  Ret (Returned x.1, with_fds x.2 s).
Definition sys_dup (old_fd : Z) s : outcome (sysret * kstate) :=
  x ← dup (current_task (k_sys s)) old_fd (k_fds s);
  Ret (Returned (match x.1 with Ok fd => fd | Err _ => -1 end), with_fds x.2 s).
Definition sys_dup2 (old_fd new_fd : Z) s : outcome (sysret * kstate) :=
  x ← dup2 (current_task (k_sys s)) old_fd new_fd (k_fds s);
  Ret (Returned (match x.1 with Ok fd => fd | Err _ => -1 end), with_fds x.2 s).

(** ** The other calls *)

Definition sys_fstat (_fd _stat_buf : Z) s : outcome (sysret * kstate) := Ret (Returned ENOENT, s).
Definition sys_mmap s : outcome (sysret * kstate) := Ret (Returned ENOMEM, s).
Definition sys_brk (_addr : Z) s : outcome (sysret * kstate) := Ret (Returned 0x10000000, s).
Definition sys_getpid s : outcome (sysret * kstate) := Ret (Returned (i64 (current_task (k_sys s))), s).

(** The value is returned only when the exit came back, for the kernel task. *)
Definition sys_exit (code : Z) s : outcome (sysret * kstate) :=
  let s := count_task_exit s in
  x ← exit_current_task (k_sys s);
  Ret (match x.1 with Some _ => Returned code | None => Gone end, with_sys x.2 s).

Definition sys_getcwd (buf size : Z) s : outcome (sysret * kstate) :=
  s ← (if negb (buf =? 0) && (2 <=? size)
       then s ← put_bytes (replicate (Z.to_nat size) 0) buf s; put_bytes [47] buf s
       else Ret s);
  Ret (Returned 1, s).

Definition sys_clock_gettime (_clockid tp : Z) s : outcome (sysret * kstate) :=
  if tp =? 0 then Ret (Returned EINVAL, s)
  else
    let ms := uptime_ms (k_sys s) in
    _ ← raw_slice tp 8;
    s ← put_bytes (to_le 8 (ms / 1000) ++ to_le 8 (u64 (ms mod 1000 * 1000000))) tp s;
    Ret (Returned 0, s).

(** [sys_nanosleep] and [sys_clock_nanosleep] have the same body. *)
Definition sys_nanosleep (req _rem : Z) s : outcome (sysret * kstate) :=
  if req =? 0 then Ret (Returned 0, s)
  else
    _ ← raw_slice req 8;
    bs ← kread 16 (kmem s) (CR3 (k_sys s)) req;
    let ms := u64 (from_le (take 8 bs) * 1000 + from_le (drop 8 bs) / 1000000) in
    y ← sleep_ms ms (k_sys s);
    Ret (Waits 0, with_sys y s).
Definition sys_clock_nanosleep (_clockid _flags req : Z) s : outcome (sysret * kstate) := sys_nanosleep req 0 s.

Definition sys_getuid s : outcome (sysret * kstate) :=
  uid ← current_user_id (k_sys s); Ret (Returned uid, s).

Definition sys_capget (hdrp datap : Z) s : outcome (sysret * kstate) :=
  s ← (if negb (hdrp =? 0) then
         _ ← raw_slice hdrp 4;
         s ← put_bytes (to_le 4 0x20080522) hdrp s;
         s ← put_bytes (to_le 4 0) (u64 (hdrp + 4)) s;
         if negb (datap =? 0) then
           _ ← raw_slice datap 8;
           s ← put_bytes (to_le 8 0) datap s;
           put_bytes (to_le 8 0) (u64 (datap + 8)) s
         else Ret s
       else Ret s);
  Ret (Returned 0, s).

Definition sys_execve (path_ptr argv_ptr envp_ptr : Z) s : outcome (sysret * kstate) :=
  syscall_execve TASKS_ADDR ELF_BASE path_ptr argv_ptr envp_ptr s.

(** ** The dispatcher *)

(** The numbers listed with ENOSYS have the result of the default arm. *)
Definition linux_dispatch (num arg0 arg1 arg2 arg3 arg4 _arg5 : Z) s : outcome (sysret * kstate) :=
  if num =? 0 then sys_read arg0 arg1 arg2 s
  else if num =? 1 then sys_write arg0 arg1 arg2 s
  else if num =? 3 then sys_close arg0 s
  else if num =? 5 then sys_fstat arg0 arg1 s
  else if num =? 9 then sys_mmap s
  else if num =? 12 then sys_brk arg0 s
  else if num =? 39 then sys_getpid s
  else if num =? 59 then sys_execve arg0 arg1 arg2 s
  else if num =? 60 then sys_exit (i32 arg0) s
  else if num =? 79 then sys_getcwd arg0 arg1 s
  else if num =? 83 then sys_mkdir arg0 s
  else if bool_decide (num ∈ [102; 104; 107; 108; 318; 319]) then sys_getuid s
  else if bool_decide (num ∈ [125; 323]) then sys_capget arg0 arg1 s
  else if num =? 228 then sys_clock_gettime arg0 arg1 s
  else if num =? 230 then sys_clock_nanosleep arg0 arg1 arg2 s
  else if num =? 231 then sys_nanosleep arg0 arg1 s
  else if num =? 257 then sys_openat arg0 arg1 arg2 s
  else if num =? 262 then Ret (Returned ENOENT, s)
  else if num =? 8 then sys_lseek arg0 arg1 arg2 s
  else if num =? 32 then sys_dup arg0 s
  else if num =? 33 then sys_dup2 arg0 arg1 s
  else Ret (Returned ENOSYS, s).

Lemma collect_user buf len s t um :
  user_runs s t um -> 0 <= buf -> 0 <= len <= MAX_USER_COPY -> buf + len <= 2 ^ 47 ->
  match user_bytes (Z.to_nat len) (kmem s) um buf with
  | Some l => exists kbuf, collect buf len s = Ret (Ok kbuf) /\ slice kbuf 0 len = Ret l
  | None => collect buf len s = Ret (Err EFAULT)
  end.
Proof.
  intros Hur Hb Hl He. unfold collect, current_task.
  destruct (user_copy_in s t um buf len Hur ltac:(unfold MAX_USER_COPY in *; lia) Hl) as (cr3 & -> & Hcp). rewrite bind_Ret.
  rewrite low_not_alias, andb_false_r in Hcp by lia. rewrite (proj2 (Z.ltb_lt (buf + len) two64)) in Hcp by lia.
  destruct (Z.eqb_spec (CURRENT_TASK (k_sys s)) 0); [by destruct (ur_user _ _ _ Hur)|].
  change (replicate (Z.to_nat MAX_USER_COPY) 0) with (replicate 512 0) in Hcp.
  destruct (user_bytes (Z.to_nat len) (kmem s) um buf) as [l|]; destruct Hcp as (kbuf & Hcp); [destruct Hcp as [Hcp Hs]|];
    rewrite Hcp, bind_Ret; [by exists kbuf|done].
Qed.

(** ** Properties *)

(** Write(2) of a user task on an open file descriptor: at most 512 bytes
    are taken, they are stored at the descriptor's offset where a read finds
    them again, the descriptor moves behind them and the call returns their
    number; no other file and no other descriptor changes.  A buffer with an
    unmapped byte gives EFAULT and changes nothing. *)
Theorem linux_write_stores s t um fd buf len idx off v n :
  user_runs s t um -> 0 <= buf -> 0 <= len -> buf + len <= 2 ^ 47 ->
  fd_wf (k_fds s) -> valid_fd fd -> fd <> 1 -> fd <> 2 ->
  FdTable.entry (k_fds s) (CURRENT_TASK (k_sys s)) fd = mk_fd idx off -> 0 <= idx < 2 ^ 31 ->
  0 <= off -> off + 512 < two64 ->
  k_vfs s = Some v -> get_node idx v = Some n -> node_type n = File ->
  let k := Z.min len 512 in
  match user_bytes (Z.to_nat k) (kmem s) um buf with
  | None => linux_dispatch 1 fd buf len 0 0 0 s = Ret (Returned EFAULT, s)
  | Some bs => exists v',
      linux_dispatch 1 fd buf len 0 0 0 s =
        Ret (Returned k, with_fds (FdTable.set_entry (k_fds s) (CURRENT_TASK (k_sys s)) fd (mk_fd idx (off + k)))
                           (with_files (Some v') s)) /\
      read_file_by_node idx off k (Some v') = Ret (Ok bs) /\
      (forall j, j <> idx -> get_node j v' = get_node j v)
  end.
Proof.
  intros Hur Hb Hl He Hfw Hfd H1 H2 Hen Hidx Ho1 Ho2 Hvfs Hn Hft k.
  assert (Hvt : valid_task (CURRENT_TASK (k_sys s))) by apply (kw_current _ (ur_wf _ _ _ Hur)).
  unfold linux_dispatch. change (1 =? 0) with false. change (1 =? 1) with true. cbv iota.
  unfold sys_write, current_task. destruct (Z.eqb_spec fd 1), (Z.eqb_spec fd 2); try done. cbn [orb].
  unfold node, fd_offset. destruct (Z.leb_spec MAX_FDS fd); [destruct Hfd; lia|].
  rewrite !index_entry, Hen, !bind_Ret by done. cbn [node_idx offset].
  destruct (Z.eqb_spec idx (-1)); [lia|]. rewrite !bind_Ret. rewrite u64_small by lia.
  fold k. pose proof (collect_user buf k s t um Hur Hb) as Hcol.
  specialize (Hcol ltac:(unfold k, MAX_USER_COPY; lia) ltac:(unfold k; lia)).
  destruct (user_bytes (Z.to_nat k) (kmem s) um buf) as [bs|] eqn:Ebs; [|by rewrite Hcol].
  destruct Hcol as (kbuf & -> & Hsl). rewrite bind_Ret, Hsl, bind_Ret, Hvfs.
  assert (Hlen : lenZ bs = k) by (unfold lenZ; rewrite (user_bytes_length _ _ _ _ _ Ebs); unfold k; lia).
  destruct (write_file_spec v idx n off bs Hn Hft Ho1) as (v' & m & -> & Hrd & _ & _ & _ & Hoth); [unfold k in *; lia|].
  rewrite bind_Ret. cbn [fst snd]. unfold set_offset. destruct (Z.ltb_spec fd MAX_FDS); [|lia].
  cbn [k_fds with_files]. rewrite index_entry, Hen, bind_Ret by done. cbn [node_idx].
  rewrite assign_entry, bind_Ret by done. rewrite Hlen in *. exists v'. split; [|done].
  rewrite u64_small by (unfold k; lia). done.
Qed.

(** Writing to standard output or standard error passes the descriptor, the
    pointer and the length one place too far: the pointer is taken for the
    length, so a buffer at any address over 256 gives -1 and nothing is
    printed. *)
Theorem linux_stdout_writes_nothing s fd buf len :
  fd = 1 \/ fd = 2 -> 256 < buf -> linux_dispatch 1 fd buf len 0 0 0 s = Ret (Returned (-1), s).
Proof.
  intros Hfd Hb. unfold linux_dispatch, sys_write, syscall_write, MAX_WRITE_LEN.
  change (1 =? 0) with false. change (1 =? 1) with true. cbv iota.
  destruct (Z.ltb_spec 256 buf); [|lia]. by destruct Hfd as [-> | ->].
Qed.
End linux.

(** ** Witnesses *)

(** The running task of [sample_k] has descriptor 3 open on a file. *)
Definition sample_open (m : memory) (root : Z) : kstate :=
  with_fds (FdTable.set_entry FD_TABLE 1 3 (mk_fd 1 0)) (with_files (Some vfs_with_motd) (sample_k m root)).

Lemma linux_write_stores_witness :
  exists m u bs s' v', length bs = 3%nat /\
    linux_dispatch 0 0 0 1 3 0x400000 3 0 0 0 (sample_open m (pg u)) = Ret (Returned 3, s') /\
    k_vfs s' = Some v' /\ read_file_by_node 1 0 3 (Some v') = Ret (Ok bs).
Proof.
  destruct sample_task as (m & t & um & u & Hv & Hu & Hdom & _).
  assert (Hmap : is_Some (phys um 0x400000)).
  { unfold phys. change (0x400000 / 4096) with 1024.
    destruct (proj2 (Hdom 1024) ltac:(set_solver)) as [[[f w] x] ->]. done. }
  destruct (user_bytes_page 3 m um 0x400000 Hmap) as [bs Hbs]; [done|].
  assert (Hur : user_runs (sample_open m (pg u)) t um).
  { destruct (sample_user m t um u Hv Hu) as [Hw H1 H2 H3]. destruct Hw as [W1 W2 W3].
    split; [split; [exact W1|exact W2|exact W3]|exact H1|exact H2|exact H3]. }
  pose proof (linux_write_stores 0 0 0 (sample_open m (pg u)) t um 3 0x400000 3 1 0 vfs_with_motd
    (new_file (bytes_of "motd") 0) Hur ltac:(lia) ltac:(lia) ltac:(lia)
    (FdTable.set_entry_wf _ _ _ _ FD_TABLE_wf) ltac:(unfold valid_fd, MAX_FDS; lia) ltac:(lia) ltac:(lia)
    ltac:(apply (FdTable.entry_set_entry FD_TABLE 1 3 (mk_fd 1 0) 1 3 FD_TABLE_wf); unfold valid_task, valid_fd, MAX_TASKS, MAX_FDS; lia)
    ltac:(lia) ltac:(lia) ltac:(lia) eq_refl eq_refl eq_refl) as Hw.
  cbv zeta in Hw. change (Z.min 3 512) with 3 in Hw. change (Z.to_nat 3) with 3%nat in Hw.
  change (kmem (sample_open m (pg u))) with m in Hw. rewrite Hbs in Hw. destruct Hw as (v' & Hw & Hr & _).
  exists m, u, bs. eexists. exists v'. split; [exact (user_bytes_length _ _ _ _ _ Hbs)|].
  split; [exact Hw|]. split; [reflexivity|exact Hr].
Defined.

Lemma linux_stdout_writes_nothing_witness :
  linux_dispatch 0 0 0 1 1 0x400000 13 0 0 0 (sample_k ∅ 0x1000) = Ret (Returned (-1), sample_k ∅ 0x1000).
Proof. apply (linux_stdout_writes_nothing 0 0 0 (sample_k ∅ 0x1000) 1 0x400000 13); [left; reflexivity|lia]. Defined.
