(* ===== verification/Zohfs.v ===== *)
(** * The disk file system ZohFS (src/src/fs/zohfs.rs)

    One directory of at most 64 entries, 32 inodes with ten direct blocks each,
    and a bitmap of blocks; all of it is kept in memory and written back whole
    by [flush_root_dir].  The functions run over the buffer cache; [mkfs]
    clears the directory sector behind the cache's back.

    The kernel is built for one processor type, so a structure's bytes are its
    fields in little-endian order; the two bytes of padding behind an inode's
    mode are taken to be zero, nothing reads them.  [mkfs] copies 128 bytes
    from a superblock of 52: the 76 bytes that follow it on the stack are the
    argument [tail].  Reading a directory entry past the sector buffer is
    undefined behaviour. *)

From S2P Require Import Prelude Bytes Ide Bcache Fat32.

Definition ZOHFS_MAGIC : Z := 0x5A4F4853.
Definition ZOHFS_VERSION : Z := 1.
Definition BLOCK_SIZE : Z := 4096.
Definition SECTORS_PER_BLOCK : Z := BLOCK_SIZE / SECTOR_SIZE.
Definition MAX_INODES : Z := 32.
Definition DIRECT_BLOCKS : Z := 10.
Definition ROOT_INODE : Z := 1.
Definition BITMAP_WORDS : Z := 64.
Definition MAX_ENTRIES : Z := 64.

(** ** On-disk structures *)

Record Superblock : Type := mk_sb {
  magic : Z; version : Z; sb_block_size : Z; total_blocks : Z; inode_count : Z; free_blocks : Z; root_inode : Z;
  bitmap_start_sector : Z; inode_start_sector : Z; data_start_sector : Z; sb_reserved : list Z }.
Record Inode : Type := mk_inode {
  mode : Z; size : Z; block_count : Z; direct_blocks : list Z; indirect_block : Z; i_reserved : list Z }.
Record DirEntry : Type := mk_dir { inode : Z; name : list Z; entry_type : Z; d_reserved : Z }.

Definition zeros (n : Z) : list Z := replicate (Z.to_nat n) 0.
(** [k] words of four bytes from [a]. *)
Definition words_at (buf : list Z) (a k : Z) : list Z := (fun i => field buf (a + 4 * i) 4) <$> seqZ 0 k.

Definition sb_bytes (s : Superblock) : list Z :=
  concat (to_le 4 <$> [magic s; version s; sb_block_size s; total_blocks s; inode_count s; free_blocks s; root_inode s;
    bitmap_start_sector s; inode_start_sector s; data_start_sector s] ++ sb_reserved s).
Definition read_sb (buf : list Z) : Superblock :=
  mk_sb (field buf 0 4) (field buf 4 4) (field buf 8 4) (field buf 12 4) (field buf 16 4) (field buf 20 4) (field buf 24 4)
    (field buf 28 4) (field buf 32 4) (field buf 36 4) (words_at buf 40 3).

Definition inode_bytes (n : Inode) : list Z :=
  to_le 2 (mode n) ++ [0; 0] ++ concat (to_le 4 <$> [size n; block_count n] ++ direct_blocks n ++ [indirect_block n] ++ i_reserved n).
Definition read_inode (buf : list Z) (a : Z) : Inode :=
  mk_inode (field buf a 2) (field buf (a + 4) 4) (field buf (a + 8) 4) (words_at buf (a + 12) DIRECT_BLOCKS)
    (field buf (a + 52) 4) (words_at buf (a + 56) 2).

Definition dir_bytes (e : DirEntry) : list Z :=
  to_le 4 (inode e) ++ name e ++ to_le 2 (entry_type e) ++ to_le 2 (d_reserved e).
Definition read_dir (buf : list Z) (a : Z) : DirEntry :=
  mk_dir (field buf a 4) (bytes_at buf (a + 4) 56) (field buf (a + 60) 2) (field buf (a + 62) 2).

Definition empty_inode : Inode := mk_inode 0 0 0 (zeros DIRECT_BLOCKS) 0 (zeros 2).
Definition no_entry : DirEntry := mk_dir 0 (zeros 56) 0 0.

Definition is_dir (n : Inode) : bool := negb (Z.land (mode n) 0x4000 =? 0).
Definition is_file (n : Inode) : bool := negb (Z.land (mode n) 0x8000 =? 0).
Definition with_mode (m : Z) (n : Inode) : Inode :=
  mk_inode m (size n) (block_count n) (direct_blocks n) (indirect_block n) (i_reserved n).
Definition with_size (s : Z) (n : Inode) : Inode :=
  mk_inode (mode n) s (block_count n) (direct_blocks n) (indirect_block n) (i_reserved n).
Definition with_blocks (bs : list Z) (c : Z) (n : Inode) : Inode :=
  mk_inode (mode n) (size n) c bs (indirect_block n) (i_reserved n).
Definition set_dir : Inode -> Inode := with_mode 0x41ED.
Definition set_file : Inode -> Inode := with_mode 0x81A4.

(** ** Global state *)

Record zfs : Type := mk_zfs {
  FS_SUPER : Superblock;
  FS_MOUNTED : bool;
  BITMAP : list Z;
  INODES : list Inode;
  ROOT_DIR : list DirEntry;
  ROOT_DIR_COUNT : Z;
}.
Definition zfs_new : zfs :=
  mk_zfs (mk_sb 0 0 0 0 0 0 0 0 0 0 (zeros 3)) false (zeros BITMAP_WORDS) (replicate (Z.to_nat MAX_INODES) empty_inode)
    (replicate (Z.to_nat MAX_ENTRIES) no_entry) 0.

Definition with_super (s : Superblock) (z : zfs) : zfs :=
  mk_zfs s (FS_MOUNTED z) (BITMAP z) (INODES z) (ROOT_DIR z) (ROOT_DIR_COUNT z).
Definition with_bitmap (b : list Z) (z : zfs) : zfs :=
  mk_zfs (FS_SUPER z) (FS_MOUNTED z) b (INODES z) (ROOT_DIR z) (ROOT_DIR_COUNT z).
Definition with_inodes (ns : list Inode) (z : zfs) : zfs :=
  mk_zfs (FS_SUPER z) (FS_MOUNTED z) (BITMAP z) ns (ROOT_DIR z) (ROOT_DIR_COUNT z).
Definition with_dir (es : list DirEntry) (n : Z) (z : zfs) : zfs :=
  mk_zfs (FS_SUPER z) (FS_MOUNTED z) (BITMAP z) (INODES z) es n.
Definition with_free (f : Z) (z : zfs) : zfs :=
  let s := FS_SUPER z in
  with_super (mk_sb (magic s) (version s) (sb_block_size s) (total_blocks s) (inode_count s) f (root_inode s)
    (bitmap_start_sector s) (inode_start_sector s) (data_start_sector s) (sb_reserved s)) z.

(** [*INODES[i] = f(INODES[i])]. *)
Definition upd_inode (i : Z) (f : Inode -> Inode) (z : zfs) : outcome zfs :=
  n ← index (INODES z) i;
  ns ← assign (INODES z) i (f n);
  Ret (with_inodes ns z).

(** ** The directory *)

Fixpoint name_end (nb : list Z) : list Z :=
  match nb with
  | [] => []
  | b :: nb' => if b =? 0 then [] else b :: name_end nb'
  end.
Fixpoint find_from (idxs : list Z) (nm : list Z) (z : zfs) : outcome (option Z) :=
  match idxs with
  | [] => Ret None
  | i :: idxs' =>
      e ← index (ROOT_DIR z) i;
      if negb (inode e =? 0) && bool_decide (utf8_or (name_end (name e)) [] = nm) then Ret (Some i)
      else find_from idxs' nm z
  end.
Definition find_in_root (nm : list Z) (z : zfs) : outcome (option Z) := find_from (seqZ 0 (ROOT_DIR_COUNT z)) nm z.
Definition find_file (nm : list Z) (z : zfs) : outcome (option Z) :=
  r ← find_in_root nm z;
  match r with
  | Some idx => e ← index (ROOT_DIR z) idx; Ret (Some (inode e))
  | None => Ret None
  end.
Definition is_mounted (z : zfs) : bool := FS_MOUNTED z.

Fixpoint list_from (idxs : list Z) (z : zfs) : outcome (list (list Z * Z * bool)) :=
  match idxs with
  | [] => Ret []
  | i :: idxs' =>
      e ← index (ROOT_DIR z) i;
      rest ← list_from idxs' z;
      Ret (if negb (inode e =? 0) then (utf8_or (name_end (name e)) [63], inode e, entry_type e =? 1) :: rest else rest)
  end.
Definition readdir_root (z : zfs) : outcome (list (list Z * Z * bool)) := list_from (seqZ 0 (ROOT_DIR_COUNT z)) z.

(** ** Inodes and blocks *)

Fixpoint free_inode_from (idxs : list Z) (z : zfs) : outcome (result string Z) :=
  match idxs with
  | [] => Ret (Err "no free inodes"%string)
  | i :: idxs' => n ← index (INODES z) i; if mode n =? 0 then Ret (Ok i) else free_inode_from idxs' z
  end.
Definition alloc_inode (z : zfs) : outcome (result string Z) := free_inode_from (seqZ 1 (MAX_INODES - 1)) z.
Definition free_inode (i : Z) (z : zfs) : outcome (result string unit * zfs) :=
  if (i =? 0) || (MAX_INODES <=? i) then Ret (Err "invalid inode"%string, z)
  else z ← upd_inode i (fun _ => empty_inode) z; Ret (Ok tt, z).

Definition block_bit (i : Z) : Z := Z.shiftl 1 (i mod 64).
Fixpoint take_block (idxs : list Z) (z : zfs) : outcome (result string Z * zfs) :=
  match idxs with
  | [] => Ret (Err "no free blocks"%string, z)
  | i :: idxs' =>
      w ← index (BITMAP z) (i / 64);
      if Z.land w (block_bit i) =? 0 then
        bm ← assign (BITMAP z) (i / 64) (Z.lor w (block_bit i));
        Ret (Ok i, with_free (saturating_sub (free_blocks (FS_SUPER z)) 1) (with_bitmap bm z))
      else take_block idxs' z
  end.
Definition alloc_block (z : zfs) : outcome (result string Z * zfs) := take_block (seqZ 0 (total_blocks (FS_SUPER z))) z.

Fixpoint drop_blocks (blocks : list Z) (z : zfs) : outcome zfs :=
  match blocks with
  | [] => Ret z
  | block :: rest =>
      z ← (if 0 <? block then
             w ← index (BITMAP z) (block / 64);
             bm ← assign (BITMAP z) (block / 64) (Z.land w (not64 (block_bit block)));
             Ret (with_free (u32 (free_blocks (FS_SUPER z) + 1)) (with_bitmap bm z))
           else Ret z);
      drop_blocks rest z
  end.
Definition free_inode_blocks (i : Z) (z : zfs) : outcome (result string unit * zfs) :=
  if (i =? 0) || (MAX_INODES <=? i) then Ret (Err "invalid inode"%string, z)
  else
    n ← index (INODES z) i;
    blocks ← slice (direct_blocks n) 0 (Z.min (block_count n) DIRECT_BLOCKS);
    z ← drop_blocks blocks z;
    Ret (Ok tt, z).

Definition block_sector (z : zfs) (block : Z) : Z :=
  u32 (data_start_sector (FS_SUPER z) + u32 (u32 (block - 1) * SECTORS_PER_BLOCK)).

(** ** Operations on the disk *)

Section zohfs.
Context {X : Type} `{BlockDevice X}.

(** A disk operation next to the state in memory, and the reverse. *)
Definition on_disk {B} (z : zfs) (m : outcome (result string B * X)) : outcome (result string B * (zfs * X)) :=
  r ← m; Ret (r.1, (z, r.2)).
Definition in_memory {B} (x : X) (m : outcome (result string B * zfs)) : outcome (result string B * (zfs * X)) :=
  r ← m; Ret (r.1, (r.2, x)).

(** The buffers that are written out. *)
Fixpoint put_parts (parts : list (list Z)) (stride a : Z) (buf : list Z) : list Z :=
  match parts with
  | [] => buf
  | p :: parts' => put_parts parts' stride (a + stride) (write_at buf a p)
  end.
Definition bitmap_buf (z : zfs) : list Z := put_parts (to_le 8 <$> BITMAP z) 8 0 (zeros 3584).
Definition inode_buf (z : zfs) : list Z := put_parts (inode_bytes <$> INODES z) 1024 0 (zeros 32768).
Definition dir_buf (z : zfs) : list Z :=
  put_parts (dir_bytes <$> take (Z.to_nat (Z.min (ROOT_DIR_COUNT z) 8)) (ROOT_DIR z)) 64 0 (zeros 512).

(** The bitmap and the inode table. *)
Definition write_tables (z : zfs) (x : X) : outcome (result string unit * X) :=
  let? (_, x) := cached_write_sectors (seqZ 0 7) 1 (bitmap_buf z) x in
  cached_write_sectors (seqZ 0 64) 8 (inode_buf z) x.

Definition flush_root_dir (z : zfs) (x : X) : outcome (result string unit * X) :=
  root ← index (INODES z) ROOT_INODE;
  block ← index (direct_blocks root) 0;
  if block =? 0 then Ret (Ok tt, x)
  else
    let? (_, x) := bd_write (block_sector z block) (dir_buf z) x in
    let? (_, x) := bd_write 0 (write_at (zeros 512) 0 (sb_bytes (FS_SUPER z))) x in
    write_tables z x.

(** The entry whose name is copied over the old bytes of its slot. *)
Definition new_entry (old : DirEntry) (nm : list Z) (i : Z) (dir : bool) : outcome DirEntry :=
  let len := Z.min (lenZ nm) 55 in
  src ← slice nm 0 len;
  n ← copy_into (name old) 0 len src;
  n ← assign n len 0;
  Ret (mk_dir i n (if dir then 1 else 0) 0).
Definition add_to_root (nm : list Z) (i : Z) (dir : bool) (z : zfs) (x : X) : outcome (result string Z * (zfs * X)) :=
  if MAX_ENTRIES <=? ROOT_DIR_COUNT z then Ret (Err "root directory full"%string, (z, x))
  else
    old ← index (ROOT_DIR z) (ROOT_DIR_COUNT z);
    e ← new_entry old nm i dir;
    es ← assign (ROOT_DIR z) (ROOT_DIR_COUNT z) e;
    let z := with_dir es (ROOT_DIR_COUNT z + 1) z in
    z ← upd_inode ROOT_INODE (with_size (u32 (ROOT_DIR_COUNT z * 64))) z;
    let? (_, st) := on_disk z (flush_root_dir z x) in
    Ret (Ok i, st).

(** [create_file] and [create_dir] differ in the mode and the message. *)
Definition create (dir : bool) (exists_ : string) (nm : list Z) (z : zfs) (x : X) : outcome (result string Z * (zfs * X)) :=
  if negb (FS_MOUNTED z) then Ret (Err "filesystem not mounted"%string, (z, x))
  else
    r ← find_in_root nm z;
    match r with
    | Some _ => Ret (Err exists_, (z, x))
    | None =>
        r ← alloc_inode z;
        match r with
        | Err e => Ret (Err e, (z, x))
        | Ok i =>
            z ← upd_inode i (fun n => with_size 0 (if dir then set_dir n else set_file n)) z;
            add_to_root nm i dir z x
        end
    end.
Definition create_file := create false "file exists"%string.
Definition create_dir := create true "directory exists"%string.

Definition delete_file (nm : list Z) (z : zfs) (x : X) : outcome (result string unit * (zfs * X)) :=
  if negb (FS_MOUNTED z) then Ret (Err "filesystem not mounted"%string, (z, x))
  else
    r ← find_in_root nm z;
    match r with
    | None => Ret (Err "file not found"%string, (z, x))
    | Some entry_idx =>
        e ← index (ROOT_DIR z) entry_idx;
        es ← assign (ROOT_DIR z) entry_idx no_entry;
        let z := with_dir es (ROOT_DIR_COUNT z - 1) z in
        z ← upd_inode ROOT_INODE (with_size (u32 (ROOT_DIR_COUNT z * 64))) z;
        let? (_, st) := in_memory x (free_inode_blocks (inode e) z) in
        let? (_, st) := in_memory st.2 (free_inode (inode e) st.1) in
        on_disk st.1 (flush_root_dir st.1 st.2)
    end.

(** *** File data *)

(** The eight sectors of a block. *)
Definition read_block (z : zfs) (block : Z) (x : X) : outcome (result string (list Z) * X) :=
  read_cluster_loop (seqZ 0 SECTORS_PER_BLOCK) (block_sector z block) (zeros BLOCK_SIZE) x.
Definition write_block (z : zfs) (block : Z) (buf : list Z) (x : X) : outcome (result string unit * X) :=
  write_cluster_loop (seqZ 0 SECTORS_PER_BLOCK) (block_sector z block) BLOCK_SIZE buf x.

(** Each round but the last ends at a block boundary and all move on, so the
    number of bytes bounds the rounds. *)
Fixpoint read_loop (fuel : nat) (z : zfs) (n : Inode) (to_read bytes_read pos : Z) (buf : list Z) (x : X)
  : outcome (result string (Z * list Z) * X) :=
  if bytes_read <? to_read then
    match fuel with
    | O => Hang
    | S fuel' =>
        let block_idx := pos / BLOCK_SIZE in
        if DIRECT_BLOCKS <=? block_idx then Ret (Ok (bytes_read, buf), x)
        else
          block_num ← index (direct_blocks n) block_idx;
          if block_num =? 0 then Ret (Ok (bytes_read, buf), x)
          else
            let block_offset := pos mod BLOCK_SIZE in
            let? (block_buf, x) := read_block z block_num x in
            let k := Z.min (to_read - bytes_read) (BLOCK_SIZE - block_offset) in
            src ← slice block_buf block_offset (block_offset + k);
            buf ← copy_into buf bytes_read (bytes_read + k) src;
            read_loop fuel' z n to_read (bytes_read + k) (pos + k) buf x
    end
  else Ret (Ok (bytes_read, buf), x).
Definition read_file_data (i offset : Z) (buf : list Z) (z : zfs) (x : X) : outcome (result string (Z * list Z) * X) :=
  if negb (FS_MOUNTED z) then Ret (Err "filesystem not mounted"%string, x)
  else if (i =? 0) || (MAX_INODES <=? i) then Ret (Err "invalid inode"%string, x)
  else
    n ← index (INODES z) i;
    if negb (is_file n) then Ret (Err "not a file"%string, x)
    else if size n <=? offset then Ret (Ok (0, buf), x)
    else
      let to_read := Z.min (lenZ buf) (size n - offset) in
      read_loop (Z.to_nat to_read) z n to_read 0 offset buf x.

(** The block of index [block_idx], allocated when the file has none there. *)
Definition ensure_block (block_idx : Z) (n : Inode) (z : zfs) : outcome (result string Inode * zfs) :=
  b ← index (direct_blocks n) block_idx;
  if b =? 0 then
    let? (block_num, z) := alloc_block z in
    bs ← assign (direct_blocks n) block_idx block_num;
    Ret (Ok (with_blocks bs (block_idx + 1) n), z)
  else Ret (Ok n, z).
Fixpoint write_loop (fuel : nat) (n : Inode) (written pos : Z) (data : list Z) (z : zfs) (x : X)
  : outcome (result string (Inode * Z) * (zfs * X)) :=
  if written <? lenZ data then
    match fuel with
    | O => Hang
    | S fuel' =>
        let block_idx := pos / BLOCK_SIZE in
        if DIRECT_BLOCKS <=? block_idx then Ret (Ok (n, written), (z, x))
        else
          let? (n, st) := in_memory x (ensure_block block_idx n z) in
          let '(z, x) := st in
          block_num ← index (direct_blocks n) block_idx;
          let block_offset := pos mod BLOCK_SIZE in
          let? (block_buf, st) := on_disk z (read_block z block_num x) in
          let k := Z.min (lenZ data - written) (BLOCK_SIZE - block_offset) in
          src ← slice data written (written + k);
          block_buf ← copy_into block_buf block_offset (block_offset + k) src;
          let? (_, st) := on_disk z (write_block z block_num block_buf st.2) in
          write_loop fuel' n (written + k) (pos + k) data z st.2
    end
  else Ret (Ok (n, written), (z, x)).
Definition write_file_data (i offset : Z) (data : list Z) (z : zfs) (x : X) : outcome (result string Z * (zfs * X)) :=
  if negb (FS_MOUNTED z) then Ret (Err "filesystem not mounted"%string, (z, x))
  else if (i =? 0) || (MAX_INODES <=? i) then Ret (Err "invalid inode"%string, (z, x))
  else
    n ← index (INODES z) i;
    if negb (is_file n) then Ret (Err "not a file"%string, (z, x))
    else
      let? (r, st) := write_loop (length data) n 0 offset data z x in
      let '(n, written) := r in
      let new_size := offset + written in
      let n := if size n <? new_size then with_size (u32 new_size) n else n in
      z ← upd_inode i (fun _ => n) st.1;
      Ret (Ok written, (z, st.2)).

(** *** Mounting *)

Fixpoint load_entries (idxs : list Z) (buf : list Z) (es : list DirEntry) : outcome (list DirEntry) :=
  match idxs with
  | [] => Ret es
  | i :: idxs' =>
      if lenZ buf <? i * 64 + 64 then UB
      else es ← assign es i (read_dir buf (i * 64)); load_entries idxs' buf es
  end.

Definition read_root_dir (z : zfs) (x : X) : outcome (result string unit * (zfs * X)) :=
  root ← index (INODES z) ROOT_INODE;
  block ← index (direct_blocks root) 0;
  if (0 <? block_count root) && (0 <? block) then
    let? (db, st) := on_disk z (bd_read (block_sector z block) x) in
    let count := Z.min (size root / 64) MAX_ENTRIES in
    es ← load_entries (seqZ 0 count) db (ROOT_DIR z);
    Ret (Ok tt, (with_dir es count z, st.2))
  else Ret (Ok tt, (z, x)).

(** [total_sectors] is the field of the disk handle. *)
Definition init (total_sectors : Z) (z : zfs) (x : X) : outcome (result string unit * (zfs * X)) :=
  if total_sectors =? 0 then Ret (Ok tt, (z, x))
  else
    let? (buf, st) := on_disk z (bd_read 0 x) in
    let sb := read_sb buf in
    if negb (magic sb =? ZOHFS_MAGIC) then Ret (Ok tt, st)
    else
      let z := mk_zfs sb true (BITMAP z) (INODES z) (ROOT_DIR z) (ROOT_DIR_COUNT z) in
      let? (bb, st) := on_disk z (cached_read_sectors (seqZ 0 7) 1 (zeros 3584) st.2) in
      let z := with_bitmap ((fun i => field bb (i * 8) 8) <$> seqZ 0 BITMAP_WORDS) z in
      let? (ib, st) := on_disk z (cached_read_sectors (seqZ 0 64) 8 (zeros 32768) st.2) in
      let z := with_inodes ((fun i => read_inode ib (i * 1024)) <$> seqZ 0 MAX_INODES) z in
      read_root_dir z st.2.
End zohfs.

(** *** Formatting *)

Fixpoint mark_blocks (idxs : list Z) (bm : list Z) : outcome (list Z) :=
  match idxs with
  | [] => Ret bm
  | i :: idxs' => w ← index bm (i / 64); bm ← assign bm (i / 64) (Z.lor w (block_bit i)); mark_blocks idxs' bm
  end.
Definition root_dir_inode : Inode := set_dir (mk_inode 0 0 1 (1 :: zeros 9) 0 (zeros 2)).

Definition DATA_START : Z := 72.
Definition mkfs_super (total_sectors : Z) : Superblock :=
  let total_blocks := saturating_sub total_sectors DATA_START / SECTORS_PER_BLOCK in
  mk_sb ZOHFS_MAGIC ZOHFS_VERSION BLOCK_SIZE total_blocks MAX_INODES
    (u32 (total_blocks - DATA_START / SECTORS_PER_BLOCK)) ROOT_INODE 1 8 DATA_START (zeros 3).
Definition mkfs {D : Type} `{BlockDevice D} (tail : list Z) (total_sectors : Z) (z : zfs) (x : bcache * D)
  : outcome (result string unit * (zfs * (bcache * D))) :=
  if total_sectors =? 0 then Ret (Err "no disk present"%string, (z, x))
  else
    bm ← mark_blocks (seqZ 0 10) (zeros BITMAP_WORDS);
    inodes ← assign (replicate (Z.to_nat MAX_INODES) empty_inode) ROOT_INODE root_dir_inode;
    bm ← mark_blocks [1] bm;
    let z := mk_zfs (FS_SUPER z) (FS_MOUNTED z) bm inodes (replicate (Z.to_nat MAX_ENTRIES) no_entry) 0 in
    let? (_, st) := on_disk z (bd_write 0 (write_at (zeros 512) 0 (sb_bytes (mkfs_super total_sectors) ++ tail)) x) in
    let? (_, st) := on_disk z (write_tables z st.2) in
    r ← bd_write DATA_START (zeros 512) st.2.2;
    Ret (r.1, (z, (st.2.1, r.2))).
