(* ===== verification/ZohVolume.v ===== *)
(** * ZohFS on a disk

    What [flush_root_dir] writes is what [init] reads, and file data written
    through the block map is read back. *)

From S2P Require Import Prelude Bytes Ide Bcache Fat32 Volume Zohfs.

(** ** Fields of structures *)

Lemma field_app_r h t a k : 0 <= a -> field (h ++ t) (lenZ h + a) k = field t a k.
Proof.
  intros Ha. unfold field. do 2 f_equal. unfold lenZ. rewrite Z2Nat.inj_add, Nat2Z.id by lia.
  by rewrite drop_app_add.
Qed.
Lemma field_to_le n v t : 0 <= v < 256 ^ Z.of_nat n -> field (to_le n v ++ t) 0 (Z.of_nat n) = v.
Proof.
  intros Hv. unfold field. rewrite Nat2Z.id. change (Z.to_nat 0) with 0%nat. rewrite drop_0.
  rewrite take_app_length' by (by rewrite length_to_le). by apply from_to_le_small.
Qed.

(** The words of a list of words. *)
Lemma field_words ws i w t :
  Forall (fun v => 0 <= v < two32) ws -> ws !! i = Some w ->
  field (concat (to_le 4 <$> ws) ++ t) (4 * Z.of_nat i) 4 = w.
Proof.
  intros Hw. revert i. induction Hw as [|v ws Hv Hw IH]; intros [|i] Hi; [done|done| |].
  - injection Hi as ->. cbn [fmap list_fmap concat]. rewrite <- app_assoc. by apply (field_to_le 4).
  - cbn [fmap list_fmap concat]. rewrite <- app_assoc.
    replace (4 * Z.of_nat (S i)) with (lenZ (to_le 4 v) + 4 * Z.of_nat i) by (rewrite lenZ_to_le; lia).
    rewrite field_app_r by lia. by apply IH.
Qed.

(** A part of a buffer. *)
Definition part (buf : list Z) (a n : Z) : list Z := take (Z.to_nat n) (drop (Z.to_nat a) buf).
Lemma field_part buf a n off k :
  0 <= a -> 0 <= off -> 0 <= k -> off + k <= n -> field buf (a + off) k = field (part buf a n) off k.
Proof.
  intros Ha Ho Hk Hn. unfold field, part. f_equal. rewrite skipn_firstn_comm, take_take, drop_drop.
  f_equal; [|f_equal]; lia.
Qed.

Definition word32 (v : Z) : Prop := 0 <= v < two32.
Record inode_ok (n : Inode) : Prop := {
  io_mode : 0 <= mode n < 65536;
  io_size : word32 (size n);
  io_count : word32 (block_count n);
  io_blocks : Forall word32 (direct_blocks n) /\ lenZ (direct_blocks n) = DIRECT_BLOCKS;
  io_indirect : word32 (indirect_block n);
  io_reserved : Forall word32 (i_reserved n) /\ lenZ (i_reserved n) = 2;
}.
Record entry_ok (e : DirEntry) : Prop := {
  eo_inode : word32 (inode e);
  eo_name : Forall byte (name e) /\ lenZ (name e) = 56;
  eo_type : 0 <= entry_type e < 65536;
  eo_reserved : 0 <= d_reserved e < 65536;
}.
Record super_ok (s : Superblock) : Prop := {
  so_words : Forall word32 [magic s; version s; sb_block_size s; total_blocks s; inode_count s; free_blocks s; root_inode s;
    bitmap_start_sector s; inode_start_sector s; data_start_sector s];
  so_reserved : Forall word32 (sb_reserved s) /\ lenZ (sb_reserved s) = 3;
}.

Lemma words_at_part (h ws t : list Z) a k :
  Forall word32 ws -> 0 <= a -> 0 <= k -> a + k <= lenZ ws ->
  words_at (h ++ concat (to_le 4 <$> ws) ++ t) (lenZ h + 4 * a) k = take (Z.to_nat k) (drop (Z.to_nat a) ws).
Proof.
  intros Hw Ha Hk Hl. unfold words_at. apply list_eq. intros i. rewrite list_lookup_fmap.
  destruct (decide (i < Z.to_nat k)%nat) as [Hi|Hi].
  - rewrite lookup_seqZ_lt, lookup_take_lt, lookup_drop by lia. cbn.
    destruct (lookup_lt_is_Some_2 ws (Z.to_nat a + i)) as [w E]; [unfold lenZ in Hl; lia|]. rewrite E. f_equal.
    replace (lenZ h + 4 * a + 4 * (0 + Z.of_nat i)) with (lenZ h + 4 * Z.of_nat (Z.to_nat a + i)) by lia.
    rewrite field_app_r by lia. by apply field_words.
  - by rewrite lookup_seqZ_ge, lookup_take_ge by lia.
Qed.
Lemma words_at_in buf a n off k :
  0 <= a -> 0 <= off -> 0 <= k -> off + 4 * k <= n -> words_at buf (a + off) k = words_at (part buf a n) off k.
Proof.
  intros Ha Ho Hk Hn. unfold words_at. apply list_fmap_ext. intros i x Hx.
  apply list_elem_of_lookup_2, elem_of_seqZ in Hx.
  replace (a + off + 4 * x) with (a + (off + 4 * x)) by lia. apply field_part; lia.
Qed.

(** The words of an inode behind its mode. *)
Definition inode_words (n : Inode) : list Z :=
  [size n; block_count n] ++ direct_blocks n ++ [indirect_block n] ++ i_reserved n.
Definition inode_head (n : Inode) : list Z := to_le 2 (mode n) ++ [0; 0].
Lemma inode_bytes_eq n : inode_bytes n = inode_head n ++ concat (to_le 4 <$> inode_words n) ++ [].
Proof. unfold inode_bytes, inode_head, inode_words. by rewrite app_nil_r, <- app_assoc. Qed.
Lemma inode_words_ok n : inode_ok n -> Forall word32 (inode_words n) /\ lenZ (inode_words n) = 15.
Proof.
  intros [H1 H2 H3 [H4 H4'] H5 [H6 H6']]. unfold inode_words. split.
  - repeat (apply Forall_cons; split; [done|]). apply Forall_app. split; [done|].
    apply Forall_app. split; [by apply Forall_singleton|done].
  - unfold DIRECT_BLOCKS in H4'. rewrite !lenZ_app, H4', H6'. reflexivity.
Qed.
Lemma inode_field n i w : inode_ok n -> inode_words n !! i = Some w -> field (inode_bytes n) (4 + 4 * Z.of_nat i) 4 = w.
Proof.
  intros Hn Hi. destruct (inode_words_ok n Hn) as [Hw _]. rewrite inode_bytes_eq.
  change 4 with (lenZ (inode_head n)) at 1. rewrite field_app_r by lia. by apply field_words.
Qed.
Lemma inode_words_at n a k : inode_ok n -> 0 <= a -> 0 <= k -> a + k <= 15 ->
  words_at (inode_bytes n) (4 + 4 * a) k = take (Z.to_nat k) (drop (Z.to_nat a) (inode_words n)).
Proof.
  intros Hn Ha Hk Hl. destruct (inode_words_ok n Hn) as [Hw Hlen]. rewrite inode_bytes_eq.
  change 4 with (lenZ (inode_head n)) at 1. apply words_at_part; [done..|]. by rewrite Hlen.
Qed.

Lemma read_inode_part buf a n : 0 <= a -> inode_ok n -> part buf a 64 = inode_bytes n -> read_inode buf a = n.
Proof.
  intros Ha Hn Hp. pose proof Hn as [H1 H2 H3 [H4 H4'] H5 [H6 H6']]. unfold read_inode.
  rewrite <- (Z.add_0_r a) at 1. rewrite !(field_part buf a 64), !(words_at_in buf a 64), Hp by (unfold DIRECT_BLOCKS; lia).
  unfold DIRECT_BLOCKS, lenZ in *.
  assert (F1 : field (inode_bytes n) 4 4 = size n) by exact (inode_field n 0 (size n) Hn eq_refl).
  assert (F2 : field (inode_bytes n) 8 4 = block_count n) by exact (inode_field n 1 (block_count n) Hn eq_refl).
  assert (F3 : field (inode_bytes n) 52 4 = indirect_block n).
  { apply (inode_field n 12 (indirect_block n) Hn). unfold inode_words.
    rewrite !lookup_app_r by (cbn [length]; lia). cbn [length]. by replace (12 - 2 - _)%nat with 0%nat by lia. }
  assert (F4 := inode_words_at n 2 10 Hn ltac:(lia) ltac:(lia) ltac:(lia)). assert (F5 := inode_words_at n 13 2 Hn ltac:(lia) ltac:(lia) ltac:(lia)).
  change (4 + 4 * 2) with 12 in F4. change (4 + 4 * 13) with 56 in F5. rewrite F1, F2, F3, F4, F5.
  assert (E1 : take (Z.to_nat 10) (drop (Z.to_nat 2) (inode_words n)) = direct_blocks n).
  { unfold inode_words. rewrite drop_app_length' by done. apply take_app_length'. lia. }
  assert (E2 : take (Z.to_nat 2) (drop (Z.to_nat 13) (inode_words n)) = i_reserved n).
  { unfold inode_words. change (Z.to_nat 13) with (length [size n; block_count n] + 11)%nat. rewrite drop_app_add.
    replace 11%nat with (length (direct_blocks n) + 1)%nat by lia. rewrite drop_app_add. rewrite drop_app_length' by done. apply take_ge. lia. }
  rewrite E1, E2. replace (field (inode_bytes n) 0 2) with (mode n); [by destruct n|].
  symmetry. unfold inode_bytes. by apply (field_to_le 2).
Qed.

Lemma read_sb_part buf s : super_ok s -> part buf 0 52 = sb_bytes s -> read_sb buf = s.
Proof.
  intros [Hw [Hr Hrl]] Hp. set (ws := [magic s; version s; sb_block_size s; total_blocks s; inode_count s; free_blocks s; root_inode s;
    bitmap_start_sector s; inode_start_sector s; data_start_sector s] ++ sb_reserved s).
  assert (Hws : Forall word32 ws) by (by apply Forall_app).
  assert (Hb : sb_bytes s = [] ++ concat (to_le 4 <$> ws) ++ []) by (by rewrite app_nil_r).
  assert (Hf : forall a i w, ws !! i = Some w -> (i < 13)%nat -> a = 4 * Z.of_nat i -> field buf a 4 = w).
  { intros a i w Hi Hlt ->. pose proof (field_part buf 0 52 (4 * Z.of_nat i) 4) as E. rewrite Z.add_0_l in E. rewrite E by lia.
    rewrite Hp, Hb. by apply field_words. }
  unfold read_sb. rewrite (Hf 0 0%nat (magic s)), (Hf 4 1%nat (version s)), (Hf 8 2%nat (sb_block_size s)), (Hf 12 3%nat (total_blocks s)),
    (Hf 16 4%nat (inode_count s)), (Hf 20 5%nat (free_blocks s)), (Hf 24 6%nat (root_inode s)), (Hf 28 7%nat (bitmap_start_sector s)),
    (Hf 32 8%nat (inode_start_sector s)), (Hf 36 9%nat (data_start_sector s)) by (done || lia).
  pose proof (words_at_in buf 0 52 40 3) as E. rewrite Z.add_0_l in E. rewrite E, Hp, Hb by lia.
  change 40 with (lenZ (@nil Z) + 4 * 10). rewrite words_at_part.
  - unfold ws. change (Z.to_nat 10) with (length [magic s; version s; sb_block_size s; total_blocks s; inode_count s; free_blocks s; root_inode s;
      bitmap_start_sector s; inode_start_sector s; data_start_sector s] + 0)%nat. rewrite drop_app_add, drop_0.
    unfold lenZ in Hrl. rewrite take_ge by lia. by destruct s.
  - done.
  - lia.
  - lia.
  - unfold ws. rewrite lenZ_app, Hrl. reflexivity.
Qed.

Lemma read_dir_part buf a e : 0 <= a -> entry_ok e -> part buf a 64 = dir_bytes e -> read_dir buf a = e.
Proof.
  intros Ha [H1 [H2 H2'] H3 H4] Hp. unfold read_dir. rewrite <- (Z.add_0_r a) at 1.
  rewrite !(field_part buf a 64), Hp by lia. unfold dir_bytes.
  assert (E : bytes_at buf (a + 4) 56 = name e).
  { unfold bytes_at. assert (E : drop 4 (part buf a 64) = name e ++ to_le 2 (entry_type e) ++ to_le 2 (d_reserved e)).
    { rewrite Hp. unfold dir_bytes. by rewrite drop_app_length' by (by rewrite length_to_le). }
    unfold part in E. rewrite skipn_firstn_comm, drop_drop in E.
    replace (Z.to_nat (a + 4)) with (Z.to_nat a + 4)%nat by lia. change (Z.to_nat 64 - 4)%nat with 60%nat in E.
    change (Z.to_nat 56) with 56%nat. replace 56%nat with (56 `min` 60)%nat at 1 by lia. rewrite <- take_take, E.
    unfold lenZ in H2'. by rewrite take_app_length' by lia. }
  rewrite E. set (nm := name e) in *. assert (Hnl : lenZ (to_le 4 (inode e) ++ nm) = 60) by (rewrite lenZ_app, H2', lenZ_to_le; lia).
  assert (F1 : field (to_le 4 (inode e) ++ nm ++ to_le 2 (entry_type e) ++ to_le 2 (d_reserved e)) 0 4 = inode e)
    by (by apply (field_to_le 4)).
  assert (F2 : field (to_le 4 (inode e) ++ nm ++ to_le 2 (entry_type e) ++ to_le 2 (d_reserved e)) 60 2 = entry_type e).
  { rewrite app_assoc. replace 60 with (lenZ (to_le 4 (inode e) ++ nm) + 0) by lia. rewrite field_app_r by lia. by apply (field_to_le 2). }
  assert (F3 : field (to_le 4 (inode e) ++ nm ++ to_le 2 (entry_type e) ++ to_le 2 (d_reserved e)) 62 2 = d_reserved e).
  { rewrite app_assoc. replace 62 with (lenZ (to_le 4 (inode e) ++ nm) + 2) by lia. rewrite field_app_r by lia.
    pose proof (field_app_r (to_le 2 (entry_type e)) (to_le 2 (d_reserved e)) 0 2) as E'. rewrite lenZ_to_le in E'.
    change (Z.of_nat 2 + 0) with 2 in E'. rewrite E' by lia.
    rewrite <- (app_nil_r (to_le 2 (d_reserved e))). by apply (field_to_le 2). }
  rewrite F1, F2, F3. by destruct e.
Qed.

(** ** Buffers of parts *)

Lemma part_write_same buf a p : 0 <= a -> a + lenZ p <= lenZ buf -> part (write_at buf a p) a (lenZ p) = p.
Proof.
  intros Ha Hl. pose proof (slice_write_at buf a p Ha Hl) as E. pose proof (lenZ_nonneg p).
  rewrite slice_Ret in E by (rewrite ?lenZ_write_at; lia). apply Ret_inj in E. unfold part.
  by replace (a + lenZ p - a) with (lenZ p) in E by lia.
Qed.
Lemma part_write_before buf a d b n :
  0 <= b -> 0 <= n -> b + n <= a -> a <= lenZ buf -> part (write_at buf a d) b n = part buf b n.
Proof.
  intros Hb Hn Hle Hl. unfold part, write_at, lenZ in *. rewrite drop_app_le by (rewrite length_take; lia).
  rewrite take_app_le by (rewrite length_drop, length_take; lia).
  rewrite skipn_firstn_comm, take_take. f_equal. lia.
Qed.

Lemma put_parts_len parts stride a buf :
  0 <= a -> 0 <= stride -> Forall (fun p => lenZ p <= stride) parts -> a + stride * lenZ parts <= lenZ buf ->
  lenZ (put_parts parts stride a buf) = lenZ buf.
Proof.
  intros Ha Hs Hp. revert a buf Ha. induction Hp as [|p parts Hp Hps IH]; intros a buf Ha Hl; [done|].
  cbn [put_parts]. rewrite lenZ_cons in Hl. pose proof (lenZ_nonneg parts).
  assert (0 <= stride * lenZ parts) by nia.
  rewrite IH; [|lia|rewrite lenZ_write_at; lia]. apply lenZ_write_at; lia.
Qed.
Lemma put_parts_before parts stride a buf b n :
  0 <= b -> 0 <= n -> b + n <= a -> 0 <= stride -> Forall (fun p => lenZ p <= stride) parts ->
  a + stride * lenZ parts <= lenZ buf -> part (put_parts parts stride a buf) b n = part buf b n.
Proof.
  intros Hb Hn Hle Hs Hp. revert a buf Hle. induction Hp as [|p parts Hp Hps IH]; intros a buf Hle Hl; [done|].
  cbn [put_parts]. rewrite lenZ_cons in Hl. pose proof (lenZ_nonneg parts). assert (0 <= stride * lenZ parts) by nia.
  rewrite IH; [|lia|rewrite lenZ_write_at; lia]. apply part_write_before; lia.
Qed.
Lemma put_parts_part parts stride a buf i p :
  0 <= a -> 0 <= stride -> Forall (fun p => lenZ p <= stride) parts -> a + stride * lenZ parts <= lenZ buf ->
  parts !! i = Some p -> part (put_parts parts stride a buf) (a + Z.of_nat i * stride) (lenZ p) = p.
Proof.
  intros Ha Hs Hp. revert a buf i Ha. induction Hp as [|q parts Hq Hps IH]; intros a buf i Ha Hl Hi; [done|].
  rewrite lenZ_cons in Hl. pose proof (lenZ_nonneg parts). assert (0 <= stride * lenZ parts) by nia.
  cbn [put_parts]. destruct i as [|i].
  - injection Hi as ->. rewrite Z.add_0_r. rewrite put_parts_before; [|lia|apply lenZ_nonneg|lia|done|done|rewrite lenZ_write_at; lia].
    apply part_write_same; lia.
  - replace (a + Z.of_nat (S i) * stride) with (a + stride + Z.of_nat i * stride) by lia.
    apply IH; [lia|rewrite lenZ_write_at; lia|done].
Qed.
Lemma put_parts_bytes parts stride a buf :
  Forall (Forall byte) parts -> Forall byte buf -> Forall byte (put_parts parts stride a buf).
Proof.
  intros Hp. revert a buf. induction Hp as [|p parts Hp Hps IH]; intros a buf Hb; [done|].
  cbn [put_parts]. apply IH. unfold write_at. apply Forall_app. split; [by apply Forall_take|].
  apply Forall_app. split; [done|by apply Forall_drop].
Qed.

(** ** Runs of sectors *)

Section runs.
Context {X : Type} `{BlockDevice X}.
Implicit Types x : X.

Lemma read_sectors_loop n s start buf x : 0 <= s -> (s + Z.of_nat n) * 512 <= lenZ buf ->
  cached_read_sectors (seqZ s (Z.of_nat n)) start buf x = read_cluster_loop (seqZ s (Z.of_nat n)) start buf x.
Proof.
  revert s buf x. induction n as [|n IH]; intros s buf x Hs Hl; [done|].
  rewrite (seqZ_cons s) by lia. cbn [cached_read_sectors read_cluster_loop]. unfold SECTOR_SIZE.
  destruct (Z.ltb_spec (lenZ buf) (s * 512 + 512)); [lia|].
  destruct (bd_read (u32 (start + s)) x) as [[[sec|e] x1]| | | |]; try done. cbn [try_bind].
  destruct (copy_into buf (s * 512) (s * 512 + 512) sec) as [b| | | |] eqn:E; try done. rewrite !bind_Ret.
  replace (Z.pred (Z.of_nat (S n))) with (Z.of_nat n) by lia. apply IH; [lia|].
  unfold copy_into in E. destruct (_ && _) eqn:Eb; [|done]. apply Ret_inj in E as <-.
  apply andb_true_iff in Eb as [Eb1 Eb2]. rewrite lenZ_write_at by lia. lia.
Qed.
Lemma write_sectors_loop n s start buf x : 0 <= s -> (s + Z.of_nat n) * 512 <= lenZ buf ->
  cached_write_sectors (seqZ s (Z.of_nat n)) start buf x = write_cluster_loop (seqZ s (Z.of_nat n)) start (lenZ buf) buf x.
Proof.
  revert s x. induction n as [|n IH]; intros s x Hs Hl; [done|].
  rewrite (seqZ_cons s) by lia. cbn [cached_write_sectors write_cluster_loop]. unfold SECTOR_SIZE.
  destruct (Z.ltb_spec (lenZ buf) (s * 512 + 512)); [lia|]. destruct (Z.ltb_spec (s * 512) (lenZ buf)); [|lia].
  rewrite Z.min_l, slice_Ret, !bind_Ret by lia.
  set (sec := take _ _). assert (Hsl : lenZ sec = 512) by (unfold sec, lenZ in *; rewrite length_take, length_drop; lia).
  assert (Hc : copy_into (replicate (Z.to_nat 512) 0) 0 (s * 512 + 512 - s * 512) sec = Ret sec).
  { replace (s * 512 + 512 - s * 512) with (0 + lenZ sec) by lia. rewrite copy_into_Ret by (rewrite ?lenZ_replicate; lia).
    f_equal. apply write_at_0. by rewrite lenZ_replicate, Hsl by lia. }
  rewrite Hc, bind_Ret. destruct (bd_write (u32 (start + s)) sec x) as [[[[]|e] x1]| | | |]; try done. cbn [try_bind].
  replace (Z.pred (Z.of_nat (S n))) with (Z.of_nat n) by lia. apply IH; lia.
Qed.

(** The bytes of [n] sectors. *)
Definition run x (a n : Z) : list Z := concat (bd_sector x <$> seqZ a n).

Lemma read_run n start x :
  bd_inv x -> bd_total x < two32 -> 0 <= n -> 0 <= start -> start + n <= bd_total x ->
  exists x', cached_read_sectors (seqZ 0 n) start (zeros (n * 512)) x = Ret (Ok (run x start n), x') /\ unchanged x x'.
Proof.
  intros Hx Ht Hn Hs Hr. rewrite <- (Z2Nat.id n) by done. set (k := Z.to_nat n).
  assert (Hz : lenZ (zeros (Z.of_nat k * 512)) = Z.of_nat k * 512) by (unfold zeros; apply lenZ_replicate; lia).
  rewrite read_sectors_loop by lia.
  destruct (read_cluster_loop_spec k 0 start (zeros (Z.of_nat k * 512)) x Hx Ht) as (x' & -> & Hun); [lia..|].
  exists x'. split; [|done]. rewrite Z.add_0_r. do 3 f_equal. change (0 * 512) with 0. apply write_at_0.
  rewrite Hz. unfold run. rewrite (proj1 (sectors_len x start (Z.of_nat k) Hx Hs ltac:(lia) ltac:(lia))). done.
Qed.
Lemma write_run n start buf x :
  bd_inv x -> bd_total x < two32 -> 0 <= n -> 0 <= start -> start + n <= bd_total x -> lenZ buf = n * 512 -> Forall byte buf ->
  exists x', cached_write_sectors (seqZ 0 n) start buf x = Ret (Ok tt, x') /\
    changed (fun y => start <= y < start + n) x x' /\ run x' start n = buf.
Proof.
  intros Hx Ht Hn Hs Hr Hl Hb. rewrite <- (Z2Nat.id n) in * by done. set (k := Z.to_nat n) in *.
  rewrite write_sectors_loop by lia.
  destruct (write_cluster_loop_spec k 0 start buf x Hx Ht) as (x' & -> & Hch & Hin); [lia..|done|].
  exists x'. split; [done|]. rewrite !Z.add_0_r in *. split; [done|].
  unfold run. rewrite <- (chunks k buf Hl) at 1. f_equal. apply list_eq. intros i. rewrite !list_lookup_fmap.
  destruct (decide (i < k)%nat).
  - rewrite !lookup_seqZ_lt by lia. cbn. f_equal. rewrite Hin by lia. do 3 f_equal. lia.
  - by rewrite !lookup_seqZ_ge by lia.
Qed.
End runs.

(** ** A mounted file system *)

Record zfs_ok (z : zfs) (total : Z) : Prop := {
  zo_mounted : FS_MOUNTED z = true;
  zo_super : super_ok (FS_SUPER z) /\ magic (FS_SUPER z) = ZOHFS_MAGIC;
  zo_bitmap : lenZ (BITMAP z) = BITMAP_WORDS /\ Forall (fun w => 0 <= w < two64) (BITMAP z);
  zo_inodes : lenZ (INODES z) = MAX_INODES /\ Forall inode_ok (INODES z);
  zo_dir : lenZ (ROOT_DIR z) = MAX_ENTRIES /\ Forall entry_ok (ROOT_DIR z);
  zo_count : 0 <= ROOT_DIR_COUNT z <= MAX_ENTRIES;
  zo_start : data_start_sector (FS_SUPER z) = DATA_START;
  zo_fit : 0 <= total_blocks (FS_SUPER z) /\ DATA_START + total_blocks (FS_SUPER z) * 8 <= total;
  zo_total : total < two32;
  zo_root : exists root b, lookupZ (INODES z) ROOT_INODE = Some root /\ lookupZ (direct_blocks root) 0 = Some b /\
    1 <= b < total_blocks (FS_SUPER z) /\ 0 < block_count root /\ size root = ROOT_DIR_COUNT z * 64 /\ mode root <> 0;
}.

Lemma block_sector_eq z total b : zfs_ok z total -> 1 <= b <= total_blocks (FS_SUPER z) ->
  block_sector z b = 72 + (b - 1) * 8 /\ 72 <= 72 + (b - 1) * 8 /\ 72 + (b - 1) * 8 + 8 <= total /\ total < two32.
Proof.
  intros Hz Hb. pose proof (zo_fit _ _ Hz) as Hf. pose proof (zo_total _ _ Hz). unfold block_sector. rewrite (zo_start _ _ Hz).
  change SECTORS_PER_BLOCK with 8. unfold DATA_START in *.
  rewrite (u32_small (b - 1)), (u32_small ((b - 1) * 8)), u32_small by lia. lia.
Qed.

(** The bytes that are written out. *)
Lemma words_len ws : lenZ (concat (to_le 4 <$> ws)) = 4 * lenZ ws.
Proof. induction ws as [|w ws IH]; [done|]. rewrite fmap_cons. cbn [concat]. rewrite lenZ_app, IH, lenZ_cons, lenZ_to_le. lia. Qed.
Lemma words_bytes n ws : Forall byte (concat (to_le n <$> ws)).
Proof. apply Forall_concat, Forall_fmap, Forall_forall. intros v _. apply to_le_bytes. Qed.
Lemma sb_bytes_len s : super_ok s -> lenZ (sb_bytes s) = 52 /\ Forall byte (sb_bytes s).
Proof. intros [_ [_ Hrl]]. unfold sb_bytes. split; [by rewrite words_len, lenZ_app, Hrl|apply words_bytes]. Qed.
Lemma inode_bytes_len n : inode_ok n -> lenZ (inode_bytes n) = 64 /\ Forall byte (inode_bytes n).
Proof.
  intros Hn. destruct (inode_words_ok n Hn) as [_ Hl]. rewrite inode_bytes_eq. split.
  - rewrite !lenZ_app, words_len, Hl. unfold inode_head. by rewrite lenZ_app, lenZ_to_le.
  - apply Forall_app. split; [|apply Forall_app; split; [apply words_bytes|done]].
    apply Forall_app. split; [apply to_le_bytes|by repeat constructor].
Qed.
Lemma dir_bytes_len e : entry_ok e -> lenZ (dir_bytes e) = 64 /\ Forall byte (dir_bytes e).
Proof.
  intros [H1 [H2 H2'] H3 H4]. unfold dir_bytes. split.
  - rewrite !lenZ_app, H2', !lenZ_to_le. lia.
  - repeat (apply Forall_app; split); done || apply to_le_bytes.
Qed.
Lemma zeros_len n : 0 <= n -> lenZ (zeros n) = n.
Proof. intros. by apply lenZ_replicate. Qed.
Lemma zeros_bytes n : Forall byte (zeros n).
Proof. by apply Forall_replicate. Qed.
Lemma lenZ_fmap {A B} (f : A -> B) l : lenZ (f <$> l) = lenZ l.
Proof. unfold lenZ. by rewrite length_fmap. Qed.

Lemma parts_of {A} (P : A -> Prop) (f : A -> list Z) n k l :
  (forall a, P a -> lenZ (f a) = n /\ Forall byte (f a)) -> n <= k -> Forall P l ->
  Forall (fun p => lenZ p <= k) (f <$> l) /\ Forall (Forall byte) (f <$> l).
Proof.
  intros Hf Hk Hl. split; apply Forall_fmap; (eapply Forall_impl; [exact Hl|]); intros a Ha; destruct (Hf a Ha) as [E Hb]; cbn; [lia|done].
Qed.

(** What each buffer holds. *)
Lemma bitmap_buf_spec z total : zfs_ok z total ->
  lenZ (bitmap_buf z) = 7 * 512 /\ Forall byte (bitmap_buf z) /\
  (fun i => field (bitmap_buf z) (i * 8) 8) <$> seqZ 0 BITMAP_WORDS = BITMAP z.
Proof.
  intros Hz. destruct (zo_bitmap _ _ Hz) as [Hl Hw]. unfold bitmap_buf.
  destruct (parts_of (fun w => 0 <= w < two64) (to_le 8) 8 8 (BITMAP z)) as [Hp Hb];
    [intros w _; split; [by rewrite lenZ_to_le|apply to_le_bytes]|lia|done|].
  assert (Hfit : 0 + 8 * lenZ (to_le 8 <$> BITMAP z) <= lenZ (zeros 3584))
    by (rewrite lenZ_fmap, Hl, zeros_len by lia; unfold BITMAP_WORDS; lia).
  split; [|split].
  - rewrite put_parts_len by (done || lia). by rewrite zeros_len.
  - by apply put_parts_bytes; [|apply zeros_bytes].
  - apply list_eq. intros i. rewrite list_lookup_fmap. unfold BITMAP_WORDS, lenZ in *. destruct (decide (i < 64)%nat) as [Hi|Hi].
    + rewrite lookup_seqZ_lt by lia. cbn [fmap option_fmap option_map].
      destruct (lookup_lt_is_Some_2 (BITMAP z) i) as [w E]; [lia|]. rewrite E. f_equal.
      pose proof (put_parts_part (to_le 8 <$> BITMAP z) 8 0 (zeros 3584) i (to_le 8 w) ltac:(lia) ltac:(lia) Hp Hfit) as P.
      rewrite list_lookup_fmap, E in P. specialize (P eq_refl). rewrite lenZ_to_le in P.
      replace ((0 + Z.of_nat i) * 8) with (0 + Z.of_nat i * 8) by lia.
      set (a := 0 + Z.of_nat i * 8) in *. rewrite <- (Z.add_0_r a), (field_part _ a 8) by lia. change (Z.of_nat 8) with 8 in P. rewrite P.
      rewrite <- (app_nil_r (to_le 8 w)). apply (field_to_le 8). rewrite Forall_lookup in Hw. apply (Hw i w E).
    + rewrite lookup_seqZ_ge by lia. cbn. symmetry. apply lookup_ge_None_2. lia.
Qed.

Lemma inode_buf_spec z total : zfs_ok z total ->
  lenZ (inode_buf z) = 64 * 512 /\ Forall byte (inode_buf z) /\
  (fun i => read_inode (inode_buf z) (i * 1024)) <$> seqZ 0 MAX_INODES = INODES z.
Proof.
  intros Hz. destruct (zo_inodes _ _ Hz) as [Hl Hw]. unfold inode_buf.
  destruct (parts_of inode_ok inode_bytes 64 1024 (INODES z) inode_bytes_len ltac:(lia) Hw) as [Hp Hb].
  assert (Hfit : 0 + 1024 * lenZ (inode_bytes <$> INODES z) <= lenZ (zeros 32768))
    by (rewrite lenZ_fmap, Hl, zeros_len by lia; unfold MAX_INODES; lia).
  split; [|split].
  - rewrite put_parts_len by (done || lia). by rewrite zeros_len.
  - by apply put_parts_bytes; [|apply zeros_bytes].
  - apply list_eq. intros i. rewrite list_lookup_fmap. unfold MAX_INODES, lenZ in *. destruct (decide (i < 32)%nat) as [Hi|Hi].
    + rewrite lookup_seqZ_lt by lia. cbn [fmap option_fmap option_map].
      destruct (lookup_lt_is_Some_2 (INODES z) i) as [n E]; [lia|]. rewrite E. f_equal.
      pose proof (put_parts_part (inode_bytes <$> INODES z) 1024 0 (zeros 32768) i (inode_bytes n) ltac:(lia) ltac:(lia) Hp Hfit) as P.
      rewrite list_lookup_fmap, E in P. specialize (P eq_refl). rewrite Forall_lookup in Hw. specialize (Hw i n E).
      rewrite (proj1 (inode_bytes_len n Hw)) in P. apply read_inode_part; [lia|done|].
      by replace ((0 + Z.of_nat i) * 1024) with (0 + Z.of_nat i * 1024) by lia.
    + rewrite lookup_seqZ_ge by lia. cbn. symmetry. apply lookup_ge_None_2. lia.
Qed.

Lemma dir_buf_spec z total i e : zfs_ok z total ->
  lenZ (dir_buf z) = 512 /\ Forall byte (dir_buf z) /\
  (ROOT_DIR z !! i = Some e -> Z.of_nat i < Z.min (ROOT_DIR_COUNT z) 8 -> read_dir (dir_buf z) (Z.of_nat i * 64) = e).
Proof.
  intros Hz. destruct (zo_dir _ _ Hz) as [Hl Hw]. pose proof (zo_count _ _ Hz). unfold dir_buf. set (c := Z.to_nat (Z.min (ROOT_DIR_COUNT z) 8)).
  assert (Hw' : Forall entry_ok (take c (ROOT_DIR z))) by (by apply Forall_take).
  destruct (parts_of entry_ok dir_bytes 64 64 (take c (ROOT_DIR z)) dir_bytes_len ltac:(lia) Hw') as [Hp Hb].
  assert (Hfit : 0 + 64 * lenZ (dir_bytes <$> take c (ROOT_DIR z)) <= lenZ (zeros 512)).
  { rewrite lenZ_fmap, zeros_len by lia. unfold lenZ. rewrite length_take. lia. }
  split; [|split].
  - rewrite put_parts_len by (done || lia). by rewrite zeros_len.
  - by apply put_parts_bytes; [|apply zeros_bytes].
  - intros E Hi. pose proof (put_parts_part (dir_bytes <$> take c (ROOT_DIR z)) 64 0 (zeros 512) i (dir_bytes e) ltac:(lia) ltac:(lia) Hp Hfit) as P.
    rewrite list_lookup_fmap, lookup_take_lt, E in P by lia. specialize (P eq_refl). rewrite Forall_lookup in Hw. specialize (Hw i e E).
    rewrite (proj1 (dir_bytes_len e Hw)) in P. apply read_dir_part; [lia|done|exact P].
Qed.

(** ** Writing the state out and reading it in *)

Section store.
Context {X : Type} `{BlockDevice X}.
Implicit Types x : X.

Record stored (z : zfs) (b : Z) x : Prop := {
  st_super : exists tail, bd_sector x 0 = write_at (zeros 512) 0 (sb_bytes (FS_SUPER z) ++ tail);
  st_bitmap : run x 1 7 = bitmap_buf z;
  st_inodes : run x 8 64 = inode_buf z;
  st_dir : bd_sector x (72 + (b - 1) * 8) = dir_buf z;
}.

(** The root directory's block. *)
Definition root_block (z : zfs) (b : Z) : Prop :=
  exists root, lookupZ (INODES z) ROOT_INODE = Some root /\ lookupZ (direct_blocks root) 0 = Some b.

Lemma run_ext x x' a n : (forall y, a <= y < a + n -> bd_sector x' y = bd_sector x y) -> run x' a n = run x a n.
Proof.
  intros Hs. unfold run. f_equal. apply list_fmap_ext. intros i y Hy. apply Hs.
  apply list_elem_of_lookup_2, elem_of_seqZ in Hy. lia.
Qed.

Lemma write_at_len_bytes n d : 0 <= n -> lenZ d <= n -> Forall byte d ->
  lenZ (write_at (zeros n) 0 d) = n /\ Forall byte (write_at (zeros n) 0 d).
Proof.
  intros Hn Hl Hb. split; [rewrite lenZ_write_at; rewrite ?zeros_len; lia|].
  unfold write_at. apply Forall_app. split; [apply Forall_take, zeros_bytes|]. apply Forall_app. split; [done|apply Forall_drop, zeros_bytes].
Qed.

Lemma flush_spec z x : zfs_ok z (bd_total x) -> bd_inv x ->
  exists b x', root_block z b /\ 1 <= b < total_blocks (FS_SUPER z) /\ flush_root_dir z x = Ret (Ok tt, x') /\
    changed (fun y => y < 72 \/ y = 72 + (b - 1) * 8) x x' /\ stored z b x'.
Proof.
  intros Hz Hx. destruct (zo_root _ _ Hz) as (root & b & Hr & Hb & Hbr & _). exists b.
  destruct (block_sector_eq z _ b Hz ltac:(lia)) as (Hbs & H1 & H2 & H3). unfold flush_root_dir, index.
  rewrite Hr, bind_Ret, Hb, bind_Ret. destruct (Z.eqb_spec b 0); [lia|]. rewrite Hbs.
  destruct (dir_buf_spec z _ 0%nat no_entry Hz) as (Hdl & Hdb & _).
  destruct (bd_write_ok x (72 + (b - 1) * 8) (dir_buf z) Hx ltac:(lia) Hdl Hdb) as (x1 & -> & Hx1 & Ht1 & Hs1). cbn [try_bind].
  destruct (sb_bytes_len (FS_SUPER z) (proj1 (zo_super _ _ Hz))) as [Hsl Hsb].
  destruct (write_at_len_bytes 512 (sb_bytes (FS_SUPER z)) ltac:(lia) ltac:(lia) Hsb) as [Hbl Hbb].
  destruct (bd_write_ok x1 0 _ Hx1 ltac:(lia) Hbl Hbb) as (x2 & -> & Hx2 & Ht2 & Hs2). cbn [try_bind].
  unfold write_tables. destruct (bitmap_buf_spec z _ Hz) as (Hml & Hmb & _).
  destruct (write_run 7 1 (bitmap_buf z) x2 Hx2) as (x3 & -> & (Hx3 & Ht3 & Hs3) & Hr3); [lia..|done|done|]. cbn [try_bind].
  destruct (inode_buf_spec z _ Hz) as (Hil & Hib & _).
  destruct (write_run 64 8 (inode_buf z) x3 Hx3) as (x4 & -> & (Hx4 & Ht4 & Hs4) & Hr4); [lia..|done|done|].
  exists x4. split; [by exists root|]. split; [done|]. split; [done|]. split.
  - split; [done|]. split; [lia|]. intros y Hy Hn. rewrite Hs4, Hs3, Hs2, Hs1 by lia.
    destruct (Z.eqb_spec y 0); [lia|]. by destruct (Z.eqb_spec y (72 + (b - 1) * 8)); [lia|].
  - split.
    + exists []. rewrite Hs4, Hs3, Hs2, app_nil_r by lia. done.
    + rewrite (run_ext x3) by (intros; apply Hs4; lia). done.
    + done.
    + rewrite Hs4, Hs3, Hs2, Hs1 by lia. destruct (Z.eqb_spec (72 + (b - 1) * 8) 0); [lia|]. by rewrite Z.eqb_refl.
Qed.

Lemma load_entries_spec n i buf es :
  0 <= i -> (i + Z.of_nat n) * 64 <= lenZ buf -> i + Z.of_nat n <= lenZ es ->
  exists es', load_entries (seqZ i (Z.of_nat n)) buf es = Ret es' /\ lenZ es' = lenZ es /\
    forall k, lookupZ es' k = if (i <=? k) && (k <? i + Z.of_nat n) then Some (read_dir buf (k * 64)) else lookupZ es k.
Proof.
  revert i es. induction n as [|n IH]; intros i es Hi Hl Hes.
  { exists es. split; [done|]. split; [done|]. intros k. zcases; lia || done. }
  rewrite seqZ_cons by lia. cbn [load_entries]. destruct (Z.ltb_spec (lenZ buf) (i * 64 + 64)); [lia|].
  rewrite assign_lt, bind_Ret by lia. replace (Z.pred (Z.of_nat (S n))) with (Z.of_nat n) by lia.
  destruct (IH (Z.succ i) (insertZ i (read_dir buf (i * 64)) es)) as (es' & -> & Hlen & Hk); [lia|lia|rewrite lenZ_insertZ; lia|].
  exists es'. split; [done|]. split; [by rewrite Hlen, lenZ_insertZ|]. intros k. rewrite Hk. rewrite lookupZ_insertZ by lia.
  zcases; subst; try lia; done.
Qed.

Lemma root_block_range z b total : zfs_ok z total -> root_block z b -> 1 <= b < total_blocks (FS_SUPER z).
Proof. intros Hz (root & Hr & Hb). destruct (zo_root _ _ Hz) as (root' & b' & Hr' & Hb' & Hbr & _). by simplify_eq. Qed.

(** The first [c] entries are those of [es]. *)
Definition loaded (c : Z) (es old new : list DirEntry) : Prop :=
  forall k, lookupZ new k = if (0 <=? k) && (k <? c) then lookupZ es k else lookupZ old k.
Lemma loaded_lt c es old new k : loaded c es old new -> 0 <= k < c -> lookupZ new k = lookupZ es k.
Proof. intros Hl Hk. rewrite Hl. destruct (Z.leb_spec 0 k), (Z.ltb_spec k c); try lia. done. Qed.
Lemma loaded_Forall (P : DirEntry -> Prop) c es old new :
  loaded c es old new -> Forall P es -> Forall P old -> Forall P new.
Proof.
  intros Hl He Ho. apply Forall_lookup. intros i e Hi. assert (Hz : lookupZ new (Z.of_nat i) = Some e)
    by (unfold lookupZ; destruct (Z.ltb_spec (Z.of_nat i) 0); [lia|by rewrite Nat2Z.id]).
  rewrite Hl in Hz. destruct ((0 <=? Z.of_nat i) && (Z.of_nat i <? c)); [exact (lookupZ_Forall P _ _ _ He Hz)|exact (lookupZ_Forall P _ _ _ Ho Hz)].
Qed.

Lemma read_root_dir_spec z z' b x :
  zfs_ok z (bd_total x) -> bd_inv x -> root_block z b -> bd_sector x (72 + (b - 1) * 8) = dir_buf z -> ROOT_DIR_COUNT z <= 8 ->
  FS_SUPER z' = FS_SUPER z -> INODES z' = INODES z -> lenZ (ROOT_DIR z') = MAX_ENTRIES ->
  exists es x', read_root_dir z' x = Ret (Ok tt, (with_dir es (ROOT_DIR_COUNT z) z', x')) /\
    unchanged x x' /\ lenZ es = MAX_ENTRIES /\ loaded (ROOT_DIR_COUNT z) (ROOT_DIR z) (ROOT_DIR z') es.
Proof.
  intros Hz Hx (root & Hr & Hb) Hs3 Hc Hsu Hin Hlen.
  destruct (zo_root _ _ Hz) as (root' & b' & Hr' & Hb' & Hbr & Hbc & Hsz & _). simplify_eq.
  destruct (block_sector_eq z _ b Hz ltac:(lia)) as (Hbs & H1 & H2 & H3). pose proof (zo_count _ _ Hz) as Hcr.
  unfold read_root_dir, index. rewrite Hin, Hr, bind_Ret, Hb, bind_Ret.
  destruct (Z.ltb_spec 0 (block_count root)), (Z.ltb_spec 0 b); try lia. cbn [andb].
  unfold block_sector in *. rewrite Hsu, Hbs.
  destruct (bd_read_ok x (72 + (b - 1) * 8) Hx ltac:(lia)) as (x4 & -> & Hun4). unfold on_disk. rewrite bind_Ret. cbn [try_bind fst snd].
  rewrite Hs3, Hsz. rewrite Z.div_mul, Z.min_l by lia.
  destruct (dir_buf_spec z _ 0%nat no_entry Hz) as (Hdl & _ & _).
  destruct (load_entries_spec (Z.to_nat (ROOT_DIR_COUNT z)) 0 (dir_buf z) (ROOT_DIR z')) as (es & E & Hel & Hek);
    [lia|rewrite Hdl; lia|unfold MAX_ENTRIES in *; lia|].
  rewrite Z2Nat.id in * by lia. rewrite E, bind_Ret. exists es, x4. split; [done|]. split; [done|]. split; [by rewrite Hel|].
  intros k. rewrite Hek, Z.add_0_l. destruct (Z.leb_spec 0 k), (Z.ltb_spec k (ROOT_DIR_COUNT z)); cbn [andb]; try done.
  destruct (zo_dir _ _ Hz) as [Hdirl _]. destruct (lookupZ_lt (ROOT_DIR z) k) as [e He]; [unfold MAX_ENTRIES in *; lia|].
  rewrite He. f_equal. destruct (dir_buf_spec z _ (Z.to_nat k) e Hz) as (_ & _ & Hrd).
  rewrite Z2Nat.id in Hrd by lia. apply Hrd; [|lia]. unfold lookupZ in He. destruct (Z.ltb_spec k 0); [lia|done].
Qed.

Lemma on_disk_ok {B C} z (v : B) x (f : B -> zfs * X -> outcome (result string C * (zfs * X))) :
  try_bind (on_disk z (Ret (Ok v, x))) f = f v (z, x).
Proof. done. Qed.

Lemma part_write_head buf h t : part (write_at buf 0 (h ++ t)) 0 (lenZ h) = h.
Proof. unfold part, write_at. cbn [Z.to_nat]. rewrite take_0, drop_0, app_nil_l, <- app_assoc. apply take_app_length'. unfold lenZ. lia. Qed.

Lemma no_entry_ok : entry_ok no_entry.
Proof. split; try done. split; [by apply Forall_replicate|done]. Qed.

(** What is mounted is a file system. *)
Lemma mounted_ok z total es :
  zfs_ok z total -> lenZ es = MAX_ENTRIES -> loaded (ROOT_DIR_COUNT z) (ROOT_DIR z) (ROOT_DIR zfs_new) es ->
  zfs_ok (mk_zfs (FS_SUPER z) true (BITMAP z) (INODES z) es (ROOT_DIR_COUNT z)) total.
Proof.
  intros [H1 H2 H3 H4 [H5 H5'] H6 H7 H8 H9 H10] Hl Hld. split; try done. split; [done|].
  eapply loaded_Forall; [exact Hld|exact H5'|]. apply Forall_replicate, no_entry_ok.
Qed.

Lemma zoh_init_spec z b x :
  zfs_ok z (bd_total x) -> bd_inv x -> root_block z b -> stored z b x -> ROOT_DIR_COUNT z <= 8 ->
  exists es x', init (bd_total x) zfs_new x =
      Ret (Ok tt, (mk_zfs (FS_SUPER z) true (BITMAP z) (INODES z) es (ROOT_DIR_COUNT z), x')) /\
    unchanged x x' /\ lenZ es = MAX_ENTRIES /\ loaded (ROOT_DIR_COUNT z) (ROOT_DIR z) (ROOT_DIR zfs_new) es.
Proof.
  intros Hz Hx Hb [[tail Hs0] Hs1 Hs2 Hs3] Hc. destruct (zo_super _ _ Hz) as [Hso Hmag].
  destruct (zo_fit _ _ Hz) as [Hf1 Hf2]. pose proof (zo_total _ _ Hz). unfold DATA_START in Hf2.
  unfold init. remember (zeros 3584) as z1 eqn:Hz1. remember (zeros 32768) as z2 eqn:Hz2.
  destruct (Z.eqb_spec (bd_total x) 0); [lia|].
  destruct (bd_read_ok x 0 Hx ltac:(lia)) as (x1 & -> & Hun1). rewrite on_disk_ok. cbv beta zeta. cbn [snd].
  destruct (sb_bytes_len _ Hso) as [Hsl Hsb].
  rewrite (read_sb_part _ (FS_SUPER z) Hso) by (rewrite Hs0, <- Hsl; apply part_write_head).
  rewrite Hmag, Z.eqb_refl. cbn [negb]. pose proof Hun1 as (Hx1 & Ht1 & He1).
  destruct (read_run 7 1 x1 Hx1) as (x2 & E2 & Hun2); [lia..|]. replace (7 * 512) with 3584 in E2 by lia. rewrite <- Hz1 in E2. rewrite E2.
  rewrite on_disk_ok. cbv beta zeta. cbn [snd]. rewrite (run_ext x) by (intros; apply He1; lia). rewrite Hs1.
  destruct (bitmap_buf_spec z _ Hz) as (_ & _ & ->).
  pose proof (unchanged_trans _ _ _ Hun1 Hun2) as Hu12. pose proof Hu12 as (Hx2 & Ht2 & He2).
  destruct (read_run 64 8 x2 Hx2) as (x3 & E3 & Hun3); [lia..|]. replace (64 * 512) with 32768 in E3 by lia. rewrite <- Hz2 in E3. rewrite E3.
  rewrite on_disk_ok. cbv beta zeta. cbn [snd]. rewrite (run_ext x) by (intros; apply He2; lia). rewrite Hs2.
  destruct (inode_buf_spec z _ Hz) as (_ & _ & ->).
  pose proof (unchanged_trans _ _ _ Hu12 Hun3) as Hu13. pose proof Hu13 as (Hx3 & Ht3 & He3).
  pose proof (root_block_range z b _ Hz Hb) as Hbr. destruct (block_sector_eq z _ b Hz ltac:(lia)) as (_ & H1 & H2 & _).
  set (z' := with_inodes _ _).
  assert (Hz3 : zfs_ok z (bd_total x3)) by (rewrite Ht3; exact Hz).
  assert (Hs3' : bd_sector x3 (72 + (b - 1) * 8) = dir_buf z) by (rewrite He3; [exact Hs3|lia]).
  destruct (read_root_dir_spec z z' b x3 Hz3 Hx3 Hb Hs3' Hc eq_refl eq_refl eq_refl) as (es & x4 & -> & Hun4 & Hel & Hek).
  exists es, x4. split; [reflexivity|]. split; [exact (unchanged_trans _ _ _ Hu13 Hun4)|]. split; [exact Hel|exact Hek].
Qed.
End store.

(** ** Names *)

Definition name_ok (nm : list Z) : Prop :=
  lenZ nm <= 55 /\ Forall byte nm /\ Forall (fun b => b <> 0) nm /\ utf8_valid nm = true.

Lemma name_end_app nm t : Forall (fun b => b <> 0) nm -> name_end (nm ++ 0 :: t) = nm.
Proof. induction 1 as [|b nm Hb _ IH]; [done|]. cbn. destruct (Z.eqb_spec b 0); [done|]. by rewrite IH. Qed.

Lemma new_entry_spec old nm i dir : entry_ok old -> name_ok nm -> word32 i ->
  exists e, new_entry old nm i dir = Ret e /\ entry_ok e /\ inode e = i /\ name_end (name e) = nm.
Proof.
  intros [_ [Hob Hol] _ _] (Hl & Hb & Hnz & _) Hi. unfold new_entry. pose proof (lenZ_nonneg nm). rewrite Z.min_l by lia.
  rewrite slice_Ret by lia. rewrite bind_Ret, Z.sub_0_r. change (drop (Z.to_nat 0) nm) with nm.
  rewrite take_ge by (unfold lenZ; lia). pose proof (copy_into_Ret (name old) 0 nm ltac:(lia) ltac:(lia)) as Hc.
  rewrite Z.add_0_l in Hc. rewrite Hc, bind_Ret. rewrite assign_lt by (rewrite lenZ_write_at; lia). rewrite bind_Ret.
  eexists. split; [done|]. cbn [inode name].
  assert (E : insertZ (lenZ nm) 0 (write_at (name old) 0 nm) = nm ++ 0 :: drop (length nm + 1) (name old)).
  { unfold write_at, insertZ, lenZ in *. destruct (Z.ltb_spec (Z.of_nat (length nm)) 0); [lia|]. rewrite Nat2Z.id.
    change (Z.to_nat 0) with 0%nat. rewrite take_0, app_nil_l, Nat.add_0_l. rewrite insert_app_r_alt by lia. rewrite Nat.sub_diag. f_equal.
    destruct (drop (length nm) (name old)) as [|c l] eqn:E.
    - apply (f_equal length) in E. rewrite length_drop in E. cbn in E. lia.
    - cbn. f_equal. rewrite <- drop_drop, E. done. }
  rewrite E. split; [|split; [done|by apply name_end_app]].
  split; cbn; [done| |by destruct dir|done]. split.
  - apply Forall_app. split; [done|]. apply Forall_cons. split; [done|by apply Forall_drop].
  - rewrite lenZ_app, lenZ_cons. unfold lenZ in *. rewrite length_drop. lia.
Qed.

Lemma find_from_agree idxs nm z1 z2 :
  (forall i, i ∈ idxs -> lookupZ (ROOT_DIR z1) i = lookupZ (ROOT_DIR z2) i) -> find_from idxs nm z1 = find_from idxs nm z2.
Proof.
  intros Ha. induction idxs as [|i idxs IH]; [done|]. cbn [find_from]. unfold index. rewrite Ha by set_solver.
  destruct (lookupZ (ROOT_DIR z2) i) as [e|]; [|done]. rewrite !bind_Ret. destruct (_ && _); [done|].
  apply IH. intros j Hj. apply Ha. set_solver.
Qed.
(** The entry is in use under the name. *)
Definition names (e : DirEntry) (nm : list Z) : bool :=
  negb (inode e =? 0) && bool_decide (utf8_or (name_end (name e)) [] = nm).
Lemma find_from_snoc idxs i e nm z :
  lookupZ (ROOT_DIR z) i = Some e -> Forall (fun j => is_Some (lookupZ (ROOT_DIR z) j)) idxs ->
  find_from (idxs ++ [i]) nm z =
    (r ← find_from idxs nm z; match r with Some j => Ret (Some j) | None => if names e nm then Ret (Some i) else Ret None end).
Proof.
  intros He Hd. induction Hd as [|j idxs [d Hj] Hd IH]; cbn [app find_from].
  - unfold index. rewrite He, !bind_Ret. unfold names. by destruct (_ && _).
  - unfold index. rewrite Hj, !bind_Ret. destruct (_ && _); [done|]. apply IH.
Qed.
Lemma find_from_total idxs nm z : Forall (fun j => is_Some (lookupZ (ROOT_DIR z) j)) idxs -> exists r, find_from idxs nm z = Ret r.
Proof.
  induction 1 as [|j idxs [d Hj] Hd IH]; cbn [find_from]; [by eexists|]. unfold index. rewrite Hj, bind_Ret.
  destruct (_ && _); [by eexists|done].
Qed.
Lemma find_from_mem idxs nm z j : find_from idxs nm z = Ret (Some j) -> j ∈ idxs.
Proof.
  induction idxs as [|i idxs IH]; cbn [find_from]; [done|]. intros E. inv_bind E.
  destruct (_ && _); [injection E as ->; set_solver|]. apply IH in E. set_solver.
Qed.
Lemma dir_slots z total n : zfs_ok z total -> 0 <= n <= MAX_ENTRIES -> Forall (fun j => is_Some (lookupZ (ROOT_DIR z) j)) (seqZ 0 n).
Proof.
  intros Hz Hn. apply Forall_forall. intros j Hj%elem_of_seqZ. apply lookupZ_lt. rewrite (proj1 (zo_dir _ _ Hz)). lia.
Qed.

(** ** Creating a file *)

(** Changes of an inode that keep its blocks. *)
Definition keeps_blocks (f : Inode -> Inode) : Prop := forall n, inode_ok n ->
  inode_ok (f n) /\ direct_blocks (f n) = direct_blocks n /\ block_count (f n) = block_count n.
Lemma with_size_keeps s : word32 s -> keeps_blocks (with_size s).
Proof. intros Hs n []. by split; [split|]. Qed.
Lemma new_file_keeps : keeps_blocks (fun n => with_size 0 (set_file n)).
Proof. intros n []. by split; [split|]. Qed.

Lemma upd_inode_spec i f z total :
  zfs_ok z total -> 0 <= i < MAX_INODES -> keeps_blocks f ->
  exists n, lookupZ (INODES z) i = Some n /\ upd_inode i f z = Ret (with_inodes (insertZ i (f n) (INODES z)) z) /\
    inode_ok (f n) /\ direct_blocks (f n) = direct_blocks n /\ block_count (f n) = block_count n.
Proof.
  intros Hz Hi Hf. destruct (zo_inodes _ _ Hz) as [Hl Ho]. destruct (lookupZ_lt (INODES z) i) as [n Hn]; [lia|].
  exists n. split; [done|]. split.
  - unfold upd_inode, index. rewrite Hn, bind_Ret. by rewrite assign_lt, bind_Ret by lia.
  - apply Hf. by eapply lookupZ_Forall.
Qed.

Lemma zfs_ok_inode z total i n n' :
  zfs_ok z total -> lookupZ (INODES z) i = Some n -> inode_ok n' -> i <> ROOT_INODE ->
  zfs_ok (with_inodes (insertZ i n' (INODES z)) z) total.
Proof.
  intros Hz Hn Hn' Hne. pose proof (lookupZ_Some_lt _ _ _ Hn) as Hi. pose proof Hz as [H1 H2 H3 [H4 H4'] H5 H6 H7 H8 H9 (root & b & Hr & Hrb & Hrr)].
  split; try done; cbn [INODES with_inodes].
  - split; [by rewrite lenZ_insertZ|]. by apply insertZ_Forall.
  - exists root, b. by rewrite lookupZ_insertZ_ne by done.
Qed.

Lemma zfs_ok_dir z total es c root :
  zfs_ok z total -> lenZ es = MAX_ENTRIES -> Forall entry_ok es -> 0 <= c <= MAX_ENTRIES -> lookupZ (INODES z) ROOT_INODE = Some root ->
  zfs_ok (with_inodes (insertZ ROOT_INODE (with_size (c * 64) root) (INODES z)) (with_dir es c z)) total.
Proof.
  intros [H1 H2 H3 [H4 H4'] [H5 H5'] H6 H7 H8 H9 (root' & b & Hr & Hrb & Hrr & Hbc & _ & Hm)] Hes He Hc Hroot.
  assert (root' = root) as -> by congruence. pose proof (lookupZ_Some_lt _ _ _ Hr) as Hi. unfold MAX_ENTRIES in *.
  split; try done; cbn [INODES ROOT_DIR ROOT_DIR_COUNT FS_SUPER with_inodes with_dir].
  - split; [by rewrite lenZ_insertZ|]. apply insertZ_Forall; [done|].
    destruct (with_size_keeps (c * 64) ltac:(unfold word32; lia) root) as [? _]; [by eapply lookupZ_Forall|done].
  - eexists _, b. rewrite lookupZ_insertZ_eq by done. split; [done|]. cbn. done.
Qed.
Lemma zfs_ok_entry z total e root s :
  zfs_ok z total -> ROOT_DIR_COUNT z < MAX_ENTRIES -> entry_ok e -> lookupZ (INODES z) ROOT_INODE = Some root ->
  s = (ROOT_DIR_COUNT z + 1) * 64 ->
  zfs_ok (with_inodes (insertZ ROOT_INODE (with_size s root) (INODES z))
           (with_dir (insertZ (ROOT_DIR_COUNT z) e (ROOT_DIR z)) (ROOT_DIR_COUNT z + 1) z)) total.
Proof.
  intros Hz Hc He Hroot ->. pose proof (zo_count _ _ Hz). destruct (zo_dir _ _ Hz) as [Hl Hf].
  apply zfs_ok_dir; [done|by rewrite lenZ_insertZ|by apply insertZ_Forall|lia|done].
Qed.

Lemma alloc_inode_range z i : alloc_inode z = Ret (Ok i) ->
  1 <= i < MAX_INODES /\ exists n, lookupZ (INODES z) i = Some n /\ mode n = 0.
Proof.
  unfold alloc_inode. assert (E : forall idxs, free_inode_from idxs z = Ret (Ok i) ->
    i ∈ idxs /\ exists n, lookupZ (INODES z) i = Some n /\ mode n = 0).
  { induction idxs as [|j idxs IH]; cbn [free_inode_from]; [done|]. intros E. inv_bind E. apply index_Ret in E0.
    destruct (Z.eqb_spec (mode a) 0).
    - injection E as ->. split; [set_solver|]. by exists a.
    - apply IH in E as [? ?]. split; [set_solver|done]. }
  intros [Hi%elem_of_seqZ Hn]%E. unfold MAX_INODES in *. split; [lia|done].
Qed.

(** The state after an entry for inode [i] was added. *)
Definition added (e : DirEntry) (n root : Inode) (i : Z) (z : zfs) : zfs :=
  let z1 := with_inodes (insertZ i (with_size 0 (set_file n)) (INODES z)) z in
  with_inodes (insertZ ROOT_INODE (with_size ((ROOT_DIR_COUNT z + 1) * 64) root) (INODES z1))
    (with_dir (insertZ (ROOT_DIR_COUNT z) e (ROOT_DIR z)) (ROOT_DIR_COUNT z + 1) z1).

Lemma find_added e n root i z total nm :
  zfs_ok z total -> ROOT_DIR_COUNT z < MAX_ENTRIES -> 1 <= i < MAX_INODES ->
  find_in_root nm (added e n root i z) =
    (r ← find_in_root nm z; match r with Some j => Ret (Some j)
                            | None => if names e nm then Ret (Some (ROOT_DIR_COUNT z)) else Ret None end).
Proof.
  intros Hz Hc Hi. pose proof (zo_count _ _ Hz) as Hcr. pose proof (proj1 (zo_dir _ _ Hz)) as Hl.
  unfold find_in_root. change (ROOT_DIR_COUNT (added e n root i z)) with (ROOT_DIR_COUNT z + 1).
  rewrite (seqZ_app 0 (ROOT_DIR_COUNT z) 1) by lia. change (seqZ (0 + ROOT_DIR_COUNT z) 1) with [0 + ROOT_DIR_COUNT z].
  rewrite Z.add_0_l. assert (Ha : forall j, j ∈ seqZ 0 (ROOT_DIR_COUNT z) ->
    lookupZ (ROOT_DIR (added e n root i z)) j = lookupZ (ROOT_DIR z) j).
  { intros j Hj%elem_of_seqZ. cbn [ROOT_DIR added with_inodes with_dir]. apply lookupZ_insertZ_ne. lia. }
  rewrite (find_from_snoc _ _ e).
  - by rewrite (find_from_agree _ nm _ z Ha).
  - cbn [ROOT_DIR added with_inodes with_dir]. apply lookupZ_insertZ_eq. lia.
  - apply Forall_forall. intros j Hj. rewrite Ha by done. pose proof (dir_slots z total (ROOT_DIR_COUNT z) Hz ltac:(lia)) as Hs.
    rewrite Forall_forall in Hs. by apply Hs.
Qed.

Section creating.
Context {X : Type} `{BlockDevice X}.
Implicit Types x : X.

Lemma create_file_spec z x nm i :
  zfs_ok z (bd_total x) -> bd_inv x -> name_ok nm -> ROOT_DIR_COUNT z < MAX_ENTRIES ->
  find_in_root nm z = Ret None -> alloc_inode z = Ret (Ok i) ->
  exists e n root b x', let z' := added e n root i z in
    create_file nm z x = Ret (Ok i, (z', x')) /\ zfs_ok z' (bd_total x) /\ root_block z' b /\
    changed (fun y => y < 72 \/ y = 72 + (b - 1) * 8) x x' /\ stored z' b x' /\
    inode e = i /\ forall nm', names e nm' = bool_decide (nm' = nm).
Proof.
  intros Hz Hx Hnm Hc Hf Ha. destruct (alloc_inode_range z i Ha) as [Hi (n0 & Hn0 & Hm0)]. pose proof (zo_count _ _ Hz) as Hcr.
  destruct (upd_inode_spec i _ z _ Hz ltac:(lia) new_file_keeps) as (n & Hn & Hu & Hok & Hd & Hb).
  assert (n0 = n) as -> by congruence. destruct (zo_root _ _ Hz) as (root & b0 & Hroot & _ & _ & _ & _ & Hm).
  assert (Hi1 : i <> ROOT_INODE) by (intros ->; congruence).
  pose proof (zfs_ok_inode z _ i n _ Hz Hn Hok Hi1) as Hz1. set (z1 := with_inodes _ z) in *.
  assert (Hroot1 : lookupZ (INODES z1) ROOT_INODE = Some root) by (by rewrite <- Hroot; apply lookupZ_insertZ_ne).
  destruct (lookupZ_lt (ROOT_DIR z) (ROOT_DIR_COUNT z)) as [old Hold]; [rewrite (proj1 (zo_dir _ _ Hz)); lia|].
  destruct (new_entry_spec old nm i false) as (e & Hne & Heo & Hei & Hen);
    [eapply lookupZ_Forall; [apply (zo_dir _ _ Hz)|exact Hold]|done|unfold word32, MAX_INODES in *; lia|].
  pose proof (zfs_ok_entry z1 _ e root _ Hz1 Hc Heo Hroot1 eq_refl) as Hz'.
  destruct (flush_spec (added e n root i z) x Hz' Hx) as (b & x' & Hrb & _ & Hfl & Hch & Hst).
  exists e, n, root, b, x'. cbv zeta. split.
  - unfold create_file, create. rewrite (zo_mounted _ _ Hz). cbn [negb]. rewrite Hf, bind_Ret, Ha, bind_Ret, Hu, bind_Ret.
    unfold add_to_root. change (ROOT_DIR_COUNT z1) with (ROOT_DIR_COUNT z). change (ROOT_DIR z1) with (ROOT_DIR z).
    destruct (Z.leb_spec MAX_ENTRIES (ROOT_DIR_COUNT z)); [lia|]. unfold index at 1. rewrite Hold, bind_Ret, Hne, bind_Ret.
    rewrite assign_lt, bind_Ret by (rewrite (proj1 (zo_dir _ _ Hz)); lia). unfold upd_inode, index.
    cbn [INODES with_dir ROOT_DIR_COUNT]. rewrite Hroot1, bind_Ret.
    rewrite assign_lt, bind_Ret by (by eapply lookupZ_Some_lt). unfold MAX_ENTRIES in *. rewrite u32_small by lia.
    rewrite bind_Ret.
    match goal with |- context [flush_root_dir ?y x] => change y with (added e n root i z) end.
    rewrite Hfl. unfold on_disk. rewrite bind_Ret. done.
  - split; [exact Hz'|]. split; [done|]. split; [done|]. split; [done|]. split; [done|]. intros nm'. unfold names.
    rewrite Hei, Hen. destruct (Z.eqb_spec i 0); [lia|]. cbn [negb andb]. destruct Hnm as (_ & _ & _ & Hutf).
    unfold utf8_or. rewrite Hutf. apply bool_decide_ext. naive_solver.
Qed.

End creating.

(** ** A fresh file system *)

(** The state after formatting and mounting a disk. *)
Definition formatted (total : Z) : zfs :=
  mk_zfs (mkfs_super total) true (insertZ 0 1023 (zeros BITMAP_WORDS))
    (insertZ ROOT_INODE root_dir_inode (replicate (Z.to_nat MAX_INODES) empty_inode))
    (replicate (Z.to_nat MAX_ENTRIES) no_entry) 0.

Lemma formatted_blocks total : 88 <= total < two32 ->
  2 <= total_blocks (FS_SUPER (formatted total)) /\ DATA_START + total_blocks (FS_SUPER (formatted total)) * 8 <= total.
Proof.
  intros Ht. cbn [FS_SUPER formatted mkfs_super total_blocks]. unfold saturating_sub, DATA_START. change SECTORS_PER_BLOCK with 8. dlia.
Qed.

Lemma formatted_ok total : 88 <= total < two32 -> zfs_ok (formatted total) total.
Proof.
  intros Ht. destruct (formatted_blocks total Ht) as [Hb1 Hb2]. unfold DATA_START in Hb2.
  assert (Hw : word32 (total_blocks (FS_SUPER (formatted total)))) by (split; lia).
  assert (Hr : inode_ok root_dir_inode) by (split; try done; (split; [by repeat constructor|done])).
  assert (He : inode_ok empty_inode) by (split; try done; (split; [by apply Forall_replicate|done])).
  split; try done.
  - split; [|done]. split; [|split; [by repeat constructor|done]]. repeat (apply Forall_cons; split; [try done|]); try done.
    apply Z.mod_pos_bound. done.
  - split; [done|]. apply insertZ_Forall; [by apply Forall_replicate|done].
  - split; [done|]. apply insertZ_Forall; [by apply Forall_replicate|done].
  - split; [done|]. apply Forall_replicate, no_entry_ok.
  - unfold DATA_START. lia.
  - lia.
  - exists root_dir_inode, 1. split; [done|]. split; [done|]. split; [lia|]. done.
Qed.

(** A disk of 176 sectors. *)
Definition zoh_disk : IdeDisk * drive := (mk_ide PRIMARY_BASE false 176, mk_drive (replicate 176 zero_sector) 0 0 0 0 0 Idle).
Lemma zoh_disk_ok : bd_inv zoh_disk.
Proof.
  split; [reflexivity|]. split; [reflexivity|]. split; [reflexivity|]. split; [discriminate|].
  apply Forall_replicate, zero_sector_ok.
Qed.
Definition hello : list Z := [0x68; 0x65; 0x6C; 0x6C; 0x6F].

