(* ===== verification/ZohFiles.v ===== *)
(** * ZohFS files

    The block map: which blocks a file has, that no block belongs to two
    files, and that data written to a file is read back. *)

From S2P Require Import Prelude Bytes Ide Bcache Fat32 Volume Zohfs ZohVolume.

(** ** The bitmap *)

Definition taken (bm : list Z) (k : Z) : bool := Z.testbit (default 0 (lookupZ bm (k / 64))) (k mod 64).

Lemma block_bit_free w k : 0 <= k -> (Z.land w (block_bit k) =? 0) = negb (Z.testbit w (k mod 64)).
Proof.
  intros Hk. pose proof (Z.mod_pos_bound k 64 ltac:(lia)) as Hm. change (block_bit k) with (bit (k mod 64)).
  destruct (Z.testbit w (k mod 64)) eqn:E; cbn.
  - apply Z.eqb_neq. intros H0. apply (f_equal (fun v => Z.testbit v (k mod 64))) in H0.
    rewrite Z.land_spec, E, bit_spec, Z.eqb_refl, Z.bits_0 in H0 by lia. done.
  - apply Z.eqb_eq. apply Z.bits_inj'. intros j Hj. rewrite Z.land_spec, bit_spec, Z.bits_0 by lia.
    destruct (Z.eqb_spec (k mod 64) j) as [<-|]; [by rewrite E|apply andb_false_r].
Qed.
Lemma taken_set bm k w j : 0 <= k -> 0 <= j -> lookupZ bm (k / 64) = Some w ->
  taken (insertZ (k / 64) (Z.lor w (block_bit k)) bm) j = (k =? j) || taken bm j.
Proof.
  intros Hk Hj Hw. unfold taken. pose proof (lookupZ_Some_lt _ _ _ Hw). rewrite lookupZ_insertZ by done.
  change (block_bit k) with (bit (k mod 64)). destruct (Z.eqb_spec (k / 64) (j / 64)) as [E|E].
  - cbn [from_option id]. rewrite Z.lor_spec, bit_spec by dlia. rewrite <- E, Hw. cbn [from_option id]. rewrite orb_comm. f_equal.
    destruct (Z.eqb_spec (k mod 64) (j mod 64)), (Z.eqb_spec k j); try done; dlia.
  - destruct (Z.eqb_spec k j); [by subst|done].
Qed.

Definition bitmap_ok (bm : list Z) : Prop := lenZ bm = BITMAP_WORDS /\ Forall (fun w => 0 <= w < two64) bm.
Lemma bitmap_set_ok bm k w : 0 <= k -> bitmap_ok bm -> lookupZ bm (k / 64) = Some w ->
  bitmap_ok (insertZ (k / 64) (Z.lor w (block_bit k)) bm).
Proof.
  intros Hk [Hl Hw] Hk'. split; [by rewrite lenZ_insertZ|]. apply insertZ_Forall; [done|].
  apply lor_range64; [exact (lookupZ_Forall _ _ _ _ Hw Hk')|]. change (block_bit k) with (bit (k mod 64)).
  apply bit_range. dlia.
Qed.

(** [take_block] takes the first free block. *)
Lemma take_block_spec n i z :
  bitmap_ok (BITMAP z) -> 0 <= i -> i + Z.of_nat n <= 4096 ->
  (exists k z', take_block (seqZ i (Z.of_nat n)) z = Ret (Ok k, z') /\ i <= k < i + Z.of_nat n /\ taken (BITMAP z) k = false /\
     bitmap_ok (BITMAP z') /\ (forall j, 0 <= j -> taken (BITMAP z') j = (k =? j) || taken (BITMAP z) j) /\
     exists bm, z' = with_free (saturating_sub (free_blocks (FS_SUPER z)) 1) (with_bitmap bm z)) \/
  (take_block (seqZ i (Z.of_nat n)) z = Ret (Err "no free blocks"%string, z) /\
   forall k, i <= k < i + Z.of_nat n -> taken (BITMAP z) k = true).
Proof.
  intros Hb. pose proof Hb as [Hl _]. unfold BITMAP_WORDS in Hl. revert i. induction n as [|n IH]; intros i Hi Hn.
  { right. split; [done|lia]. }
  rewrite seqZ_cons by lia. cbn [take_block]. replace (Z.pred (Z.of_nat (S n))) with (Z.of_nat n) by lia.
  destruct (lookupZ_lt (BITMAP z) (i / 64)) as [w Hw]; [dlia|]. assert (Hstep : forall k : Z -> outcome (result string Z * zfs), index (BITMAP z) (i / 64) ≫= k = k w) by (intros; unfold index; by rewrite Hw).
  rewrite !Hstep.
  assert (Ht : taken (BITMAP z) i = Z.testbit w (i mod 64)) by (unfold taken; by rewrite Hw).
  rewrite !block_bit_free by done. destruct (Z.testbit w (i mod 64)) eqn:E; cbn [negb]; cbv iota.
  - destruct (IH (Z.succ i)) as [(k & z' & Hk & Hkr & Hrest)|[Hk Hall]]; [lia|lia|left|right].
    + exists k, z'. split; [done|]. split; [lia|done].
    + split; [exact Hk|]. intros k Hkr. destruct (decide (k = i)) as [->|]; [done|]. apply Hall. lia.
  - left. rewrite assign_lt, bind_Ret by dlia. eexists i, _. split; [done|]. split; [lia|]. split; [done|].
    cbn [BITMAP with_free with_super with_bitmap]. split; [by apply bitmap_set_ok|]. split; [intros; by apply taken_set|].
    by eexists _.
Qed.

(** ** The block map *)

(** Block 0 is never given out; the blocks of all files lie in the data area,
    are marked in the bitmap, and no block is used twice. *)
Record blocks_ok (ns : list Inode) (bm : list Z) (tb : Z) : Prop := {
  bk_zero : taken bm 0 = true;
  bk_taken : forall i n j b, lookupZ ns i = Some n -> lookupZ (direct_blocks n) j = Some b -> b <> 0 ->
    1 <= b < tb /\ taken bm b = true;
  bk_own : forall i n j i' n' j' b, lookupZ ns i = Some n -> lookupZ (direct_blocks n) j = Some b ->
    lookupZ ns i' = Some n' -> lookupZ (direct_blocks n') j' = Some b -> b <> 0 -> i = i' /\ j = j';
}.

Lemma with_free_ok z total f bm : zfs_ok z total -> word32 f -> bitmap_ok bm -> zfs_ok (with_free f (with_bitmap bm z)) total.
Proof.
  intros [H1 [[H2 H2a] H2'] H3 H4 H5 H6 H7 H8 H9 H10] Hf Hbm. split; try done. split; [|done]. split; [|done].
  cbn [FS_SUPER with_free with_super with_bitmap magic version sb_block_size total_blocks inode_count free_blocks root_inode
    bitmap_start_sector inode_start_sector data_start_sector].
  rewrite !Forall_cons in H2 |- *. naive_solver.
Qed.

Lemma with_blocks_ok n idx b : inode_ok n -> 0 <= idx < DIRECT_BLOCKS -> word32 b ->
  inode_ok (with_blocks (insertZ idx b (direct_blocks n)) (idx + 1) n).
Proof.
  intros [H1 H2 H3 [H4 H4'] H5 H6] Hi Hb. unfold DIRECT_BLOCKS in *. split; try done; cbn.
  - unfold word32. lia.
  - split; [by apply insertZ_Forall|]. unfold DIRECT_BLOCKS. by rewrite lenZ_insertZ.
Qed.

(** Giving inode [i], whose copy in use is [n], a fresh block. *)
Lemma blocks_ok_add ns bm bm' tb i n idx b c :
  blocks_ok (insertZ i n ns) bm tb -> 0 <= i < lenZ ns -> 0 <= idx < lenZ (direct_blocks n) -> 1 <= b < tb -> taken bm b = false ->
  (forall k, 0 <= k -> taken bm' k = (b =? k) || taken bm k) ->
  blocks_ok (insertZ i (with_blocks (insertZ idx b (direct_blocks n)) c n) ns) bm' tb.
Proof.
  intros [Hz Ht Ho] Hi Hidx Hb Hfree Hbm. set (n' := with_blocks _ _ _).
  assert (Hnew : forall i' m j d, lookupZ (insertZ i n' ns) i' = Some m -> lookupZ (direct_blocks m) j = Some d ->
    (i' = i /\ j = idx /\ d = b) \/
    ((i' <> i \/ j <> idx) /\ exists m0, lookupZ (insertZ i n ns) i' = Some m0 /\ lookupZ (direct_blocks m0) j = Some d)).
  { intros i' m j d Hm Hd. destruct (decide (i' = i)) as [->|Hne].
    - rewrite lookupZ_insertZ_eq in Hm by done. injection Hm as <-. cbn [n' direct_blocks with_blocks] in Hd.
      destruct (decide (j = idx)) as [->|Hj].
      + rewrite lookupZ_insertZ_eq in Hd by done. injection Hd as <-. by left.
      + rewrite lookupZ_insertZ_ne in Hd by done. right. split; [by right|]. exists n. by rewrite lookupZ_insertZ_eq.
    - rewrite lookupZ_insertZ_ne in Hm by done. right. split; [by left|]. exists m. by rewrite lookupZ_insertZ_ne. }
  split.
  - rewrite Hbm by lia. by rewrite Hz, orb_true_r.
  - intros i' m j d Hm Hd Hd0. destruct (Hnew i' m j d Hm Hd) as [(-> & -> & ->)|(_ & m0 & Hm0 & Hd')].
    + split; [done|]. rewrite Hbm by lia. by rewrite Z.eqb_refl.
    + destruct (Ht i' m0 j d Hm0 Hd' Hd0) as [? Htk]. split; [done|]. rewrite Hbm by lia. by rewrite Htk, orb_true_r.
  - intros i1 m1 j1 i2 m2 j2 d Hm1 Hd1 Hm2 Hd2 Hd0.
    destruct (Hnew i1 m1 j1 d Hm1 Hd1) as [(-> & -> & ->)|(_ & m01 & Hm01 & Hd1')],
      (Hnew i2 m2 j2 _ Hm2 Hd2) as [(-> & -> & ?)|(_ & m02 & Hm02 & Hd2')].
    + done.
    + destruct (Ht _ _ _ _ Hm02 Hd2' Hd0) as [_ Htk]. congruence.
    + subst. destruct (Ht _ _ _ _ Hm01 Hd1' Hd0) as [_ Htk]. congruence.
    + by apply (Ho i1 m01 j1 i2 m02 j2 d).
Qed.

(** What [ensure_block] does to the inode in use and the state. *)
Record ensured (i idx : Z) (n : Inode) (z : zfs) (total b : Z) (n' : Inode) (z' : zfs) : Prop := {
  en_zfs : zfs_ok z' total;
  en_inode : inode_ok n';
  en_blocks : blocks_ok (insertZ i n' (INODES z')) (BITMAP z') (total_blocks (FS_SUPER z));
  en_inodes : INODES z' = INODES z;
  en_tb : total_blocks (FS_SUPER z') = total_blocks (FS_SUPER z);
  en_block : lookupZ (direct_blocks n') idx = Some b;
  en_range : 1 <= b < total_blocks (FS_SUPER z);
  en_old : lookupZ (direct_blocks n) idx = Some b \/ lookupZ (direct_blocks n) idx = Some 0 /\ taken (BITMAP z) b = false;
  en_other : forall j, j <> idx -> lookupZ (direct_blocks n') j = lookupZ (direct_blocks n) j;
  en_mode : mode n' = mode n /\ size n' = size n;
  en_taken : forall k, 0 <= k -> taken (BITMAP z) k = true -> taken (BITMAP z') k = true;
}.

Lemma ensure_block_spec i idx n z total :
  zfs_ok z total -> total_blocks (FS_SUPER z) <= 4096 -> inode_ok n -> 0 <= idx < DIRECT_BLOCKS -> 0 <= i < MAX_INODES ->
  blocks_ok (insertZ i n (INODES z)) (BITMAP z) (total_blocks (FS_SUPER z)) ->
  (exists b n' z', ensure_block idx n z = Ret (Ok n', z') /\ ensured i idx n z total b n' z') \/
  (ensure_block idx n z = Ret (Err "no free blocks"%string, z) /\
   forall k, 0 <= k < total_blocks (FS_SUPER z) -> taken (BITMAP z) k = true).
Proof.
  intros Hz Htb Hn Hidx Hi Hb. pose proof (io_blocks _ Hn) as [Hnb Hnl]. pose proof (zo_inodes _ _ Hz) as [Hil _].
  pose proof (zo_fit _ _ Hz) as [Htb0 _]. destruct (lookupZ_lt (direct_blocks n) idx) as [b Hl]; [lia|].
  unfold ensure_block, index. rewrite Hl, bind_Ret. destruct (Z.eqb_spec b 0) as [->|Hb0].
  2:{ left. exists b, n, z. split; [done|].
      destruct (bk_taken _ _ _ Hb i n idx b) as [Hbr _]; [by apply lookupZ_insertZ_eq; lia|done|done|]. split; try done. by left. }
  unfold alloc_block. rewrite <- (Z2Nat.id (total_blocks (FS_SUPER z))) by done.
  destruct (take_block_spec (Z.to_nat (total_blocks (FS_SUPER z))) 0 z (zo_bitmap _ _ Hz)) as
    [(k & z' & -> & Hk & Hfree & Hbok & Hbits & bm & ->)|[-> Hall]]; [lia|lia| |right; by split].
  rewrite Z2Nat.id in * by done. cbn [try_bind].
  assert (Hk0 : k <> 0) by (intros ->; rewrite (bk_zero _ _ _ Hb) in Hfree; done).
  rewrite assign_lt, bind_Ret by lia. left. eexists k, _, _. split; [done|]. split; try done.
  - apply with_free_ok; [done| |done]. pose proof (so_words _ (proj1 (zo_super _ _ Hz))) as Hw.
    rewrite !Forall_cons in Hw. destruct Hw as (_ & _ & _ & _ & _ & Hfb & _). unfold word32, saturating_sub in *. lia.
  - apply with_blocks_ok; [done|done|]. unfold word32. lia.
  - apply (blocks_ok_add (INODES z) (BITMAP z)); [done|rewrite Hil; lia|rewrite Hnl; lia|lia|done|done].
  - apply lookupZ_insertZ_eq. lia.
  - lia.
  - by right.
  - intros j Hj. by apply lookupZ_insertZ_ne.
  - intros j Hj Ht. rewrite Hbits by done. by rewrite Ht, orb_true_r.
Qed.

Section files.
Context {X : Type} `{BlockDevice X}.
Implicit Types x : X.

Definition block_at (b : Z) : Z := 72 + (b - 1) * 8.
Definition block_data x (b : Z) : list Z := run x (block_at b) 8.

Lemma block_data_len z x b : zfs_ok z (bd_total x) -> bd_inv x -> 1 <= b < total_blocks (FS_SUPER z) ->
  lenZ (block_data x b) = 4096 /\ Forall byte (block_data x b).
Proof.
  intros Hz Hx Hb. destruct (block_sector_eq z _ b Hz ltac:(lia)) as (_ & H1 & H2 & H3). unfold block_data, run, block_at.
  apply sectors_len; (done || lia).
Qed.

Lemma block_data_ext x x' b : (forall y, block_at b <= y < block_at b + 8 -> bd_sector x' y = bd_sector x y) ->
  block_data x' b = block_data x b.
Proof. apply run_ext. Qed.

Lemma read_block_spec z x b : zfs_ok z (bd_total x) -> bd_inv x -> 1 <= b < total_blocks (FS_SUPER z) ->
  exists x', read_block z b x = Ret (Ok (block_data x b), x') /\ unchanged x x'.
Proof.
  intros Hz Hx Hb. destruct (block_sector_eq z _ b Hz ltac:(lia)) as (Hs & H1 & H2 & H3). unfold read_block. rewrite Hs.
  change SECTORS_PER_BLOCK with (Z.of_nat 8).
  destruct (read_cluster_loop_spec 8 0 (72 + (b - 1) * 8) (zeros BLOCK_SIZE) x Hx) as (x' & -> & Hun);
    [lia..|rewrite zeros_len; unfold BLOCK_SIZE; lia|].
  exists x'. split; [|done]. do 3 f_equal. rewrite Z.add_0_r. apply write_at_0.
  change (lenZ (block_data x b) = lenZ (zeros BLOCK_SIZE)). rewrite (proj1 (block_data_len z x b Hz Hx Hb)). by rewrite zeros_len.
Qed.

Lemma write_block_spec z x b buf :
  zfs_ok z (bd_total x) -> bd_inv x -> 1 <= b < total_blocks (FS_SUPER z) -> lenZ buf = 4096 -> Forall byte buf ->
  exists x', write_block z b buf x = Ret (Ok tt, x') /\ changed (fun y => block_at b <= y < block_at b + 8) x x' /\
    block_data x' b = buf /\ forall b', 1 <= b' < total_blocks (FS_SUPER z) -> b' <> b -> block_data x' b' = block_data x b'.
Proof.
  intros Hz Hx Hb Hl Hbuf. destruct (block_sector_eq z _ b Hz ltac:(lia)) as (Hs & H1 & H2 & H3). unfold write_block. rewrite Hs.
  replace BLOCK_SIZE with (lenZ buf) by done. change SECTORS_PER_BLOCK with (Z.of_nat 8).
  destruct (write_cluster_loop_spec 8 0 (72 + (b - 1) * 8) buf x Hx) as (x' & -> & Hch & Hin); [lia..|done|].
  exists x'. split; [done|]. rewrite !Z.add_0_r in *. split; [exact Hch|]. split.
  - unfold block_data, run, block_at. rewrite <- (chunks 8 buf Hl) at 1. f_equal. apply list_eq. intros i. rewrite !list_lookup_fmap.
    destruct (decide (i < 8)%nat).
    + rewrite !lookup_seqZ_lt by lia. cbn [fmap option_fmap option_map]. f_equal. rewrite Hin by lia. do 3 f_equal. lia.
    + by rewrite !lookup_seqZ_ge by lia.
  - intros b' Hb' Hne. apply block_data_ext. intros y Hy. destruct Hch as (_ & _ & Hout).
    destruct (block_sector_eq z _ b' Hz ltac:(lia)) as (_ & H4 & H5 & _). unfold block_at in *. apply Hout; lia.
Qed.

(** ** File contents *)

Definition fbyte x (n : Inode) (p : Z) : option Z :=
  match lookupZ (direct_blocks n) (p / 4096) with
  | Some b => if b =? 0 then None else lookupZ (block_data x b) (p mod 4096)
  | None => None
  end.

(** Bytes [lo .. hi) of the file of inode [i] were replaced by those of
    [data], which starts at offset [off] of the file. *)
Record wrote (i off : Z) (data : list Z) (lo hi : Z) (n : Inode) (z : zfs) x (n' : Inode) (z' : zfs) (x' : X) : Prop := {
  wr_zfs : zfs_ok z' (bd_total x');
  wr_dev : bd_inv x' /\ bd_total x' = bd_total x;
  wr_inode : inode_ok n';
  wr_blocks : blocks_ok (insertZ i n' (INODES z')) (BITMAP z') (total_blocks (FS_SUPER z));
  wr_same : INODES z' = INODES z /\ total_blocks (FS_SUPER z') = total_blocks (FS_SUPER z) /\ mode n' = mode n /\ size n' = size n;
  wr_in : forall p, lo <= p < hi -> fbyte x' n' p = lookupZ data (p - off);
  wr_out : forall p, 0 <= p -> p < lo \/ hi <= p -> fbyte x n p <> None -> fbyte x' n' p = fbyte x n p;
  wr_others : forall b, 1 <= b < total_blocks (FS_SUPER z) -> taken (BITMAP z) b = true -> b ∉ direct_blocks n ->
    (b ∉ direct_blocks n') /\ block_data x' b = block_data x b;
  wr_taken : forall k, 0 <= k -> taken (BITMAP z) k = true -> taken (BITMAP z') k = true;
}.

Lemma wrote_nil i off data lo n z x :
  zfs_ok z (bd_total x) -> bd_inv x -> inode_ok n -> blocks_ok (insertZ i n (INODES z)) (BITMAP z) (total_blocks (FS_SUPER z)) ->
  wrote i off data lo lo n z x n z x.
Proof. intros. split; try done. lia. Qed.

Lemma wrote_trans i off data lo mid hi n z x n1 z1 x1 n2 z2 x2 :
  lo <= mid <= hi -> 0 <= lo -> off <= lo -> hi - off <= lenZ data ->
  wrote i off data lo mid n z x n1 z1 x1 -> wrote i off data mid hi n1 z1 x1 n2 z2 x2 ->
  wrote i off data lo hi n z x n2 z2 x2.
Proof.
  intros Hr Hlo Hoff Hlen [a1 a2 a3 a4 (a5 & a5b & a5c & a5d) a6 a7 a8 a9] [b1 b2 b3 b4 (b5 & b5b & b5c & b5d) b6 b7 b8 b9].
  rewrite a5b in *. split; try done; try (split_and!; congruence).
  - split; [apply b2|]. destruct a2, b2. congruence.
  - intros p Hp. destruct (decide (p < mid)); [|apply b6; lia].
    destruct (lookupZ_lt data (p - off)) as [v Hv]; [lia|]. rewrite b7, a6; [done|lia|lia|lia|].
    rewrite a6 by lia. by rewrite Hv.
  - intros p Hp Hout Hv. rewrite b7, a7; [done|done|lia|done|done|lia|]. rewrite a7 by (done || lia). done.
  - intros b Hb Ht Hn. destruct (a8 b Hb Ht Hn) as [Hn1 E1]. destruct (b8 b Hb (a9 b ltac:(lia) Ht) Hn1) as [Hn2 E2].
    split; [done|]. congruence.
  - intros k Hk Ht. apply b9; [done|]. by apply a9.
Qed.

Lemma lookupZ_part {B} (l : list B) a k j : 0 <= a -> 0 <= j < k ->
  lookupZ (take (Z.to_nat k) (drop (Z.to_nat a) l)) j = lookupZ l (a + j).
Proof.
  intros Ha Hj. unfold lookupZ. destruct (Z.ltb_spec j 0), (Z.ltb_spec (a + j) 0); try lia.
  rewrite lookup_take_lt, lookup_drop by lia. f_equal. lia.
Qed.

Lemma fbyte_block x n p b : lookupZ (direct_blocks n) (p / 4096) = Some b -> b <> 0 -> fbyte x n p = lookupZ (block_data x b) (p mod 4096).
Proof. intros Hb H0. unfold fbyte. rewrite Hb. by destruct (Z.eqb_spec b 0). Qed.

Lemma wrote_block i idx data written pos k n z x b n1 z1 x2 :
  let src := take (Z.to_nat k) (drop (Z.to_nat written) data) in
  zfs_ok z (bd_total x) -> bd_inv x -> 0 <= i < MAX_INODES -> ensured i idx n z (bd_total x) b n1 z1 ->
  idx = pos / 4096 -> 0 <= pos -> 0 <= written -> 0 < k -> k <= lenZ data - written -> pos mod 4096 + k <= 4096 ->
  changed (fun y => block_at b <= y < block_at b + 8) x x2 ->
  block_data x2 b = write_at (block_data x b) (pos mod 4096) src ->
  (forall b', 1 <= b' < total_blocks (FS_SUPER z) -> b' <> b -> block_data x2 b' = block_data x b') ->
  wrote i (pos - written) data pos (pos + k) n z x n1 z1 x2.
Proof.
  intros src Hz Hx Hi [e1 e2 e3 e4 e5 e6 e7 e8 e9 e10 e11] -> Hpos Hw Hk Hkl Hkb (Hx2 & Ht2 & _) Hblk Hoth.
  pose proof (zo_inodes _ _ Hz) as [Hil _].
  assert (Hsl : lenZ src = k) by (unfold src, lenZ in *; rewrite length_take, length_drop; lia).
  destruct (block_data_len z x b Hz Hx e7) as [Hbl _]. assert (Hown : forall j c, lookupZ (direct_blocks n1) j = Some c -> c <> 0 ->
    1 <= c < total_blocks (FS_SUPER z) /\ (c = b -> j = pos / 4096)).
  { intros j c Hj Hc. assert (Hlk : lookupZ (insertZ i n1 (INODES z1)) i = Some n1) by (apply lookupZ_insertZ_eq; rewrite e4; lia).
    destruct (bk_taken _ _ _ e3 i n1 j c Hlk Hj Hc) as [Hcr _]. split; [done|]. intros ->.
    by destruct (bk_own _ _ _ e3 i n1 j i n1 (pos / 4096) b Hlk Hj Hlk e6 Hc). }
  split; try done.
  - by rewrite Ht2.
  - intros p Hp. assert (p / 4096 = pos / 4096) as Hpd by dlia. rewrite (fbyte_block x2 n1 p b) by (rewrite ?Hpd; done || lia).
    rewrite Hblk, lookupZ_write_at_in by (rewrite ?Hsl, ?Hbl; dlia). unfold src. rewrite lookupZ_part by dlia. f_equal. dlia.
  - intros p Hp Hout Hv. unfold fbyte in Hv. destruct (lookupZ (direct_blocks n) (p / 4096)) as [c|] eqn:Ec; [|done].
    destruct (Z.eqb_spec c 0) as [|Hc0]; [done|]. rewrite (fbyte_block x n p c) by done.
    destruct (decide (p / 4096 = pos / 4096)) as [Epp|Hne].
    + assert (c = b) as -> by (rewrite Epp in Ec; destruct e8 as [?|[? _]]; congruence).
      rewrite (fbyte_block x2 n1 p b) by (rewrite ?Epp; done). rewrite Hblk. apply lookupZ_write_at_out; rewrite ?Hsl, ?Hbl; dlia.
    + rewrite <- (e9 _ Hne) in Ec. destruct (Hown _ _ Ec Hc0) as [Hcr Hcb]. rewrite (fbyte_block x2 n1 p c) by done.
      rewrite Hoth; [done|done|]. intros ->. by apply Hne, Hcb.
  - intros c Hc Ht Hn. assert (Hcb : c <> b).
    { intros ->. destruct e8 as [He|[_ He]]; [|congruence]. apply Hn. apply list_elem_of_lookup. unfold lookupZ in He.
      destruct (_ <? 0); [done|]. by eexists. }
    split; [|by apply Hoth]. intros (j & Hj)%list_elem_of_lookup. apply Hn, list_elem_of_lookup. exists j.
    assert (Hjz : lookupZ (direct_blocks n1) (Z.of_nat j) = Some c) by (unfold lookupZ; destruct (Z.ltb_spec (Z.of_nat j) 0); [lia|by rewrite Nat2Z.id]).
    destruct (decide (Z.of_nat j = pos / 4096)) as [E|E]; [congruence|]. rewrite e9 in Hjz by done. unfold lookupZ in Hjz.
    destruct (Z.ltb_spec (Z.of_nat j) 0); [lia|by rewrite Nat2Z.id in Hjz].
Qed.

Definition full (z : zfs) : Prop := forall k, 0 <= k < total_blocks (FS_SUPER z) -> taken (BITMAP z) k = true.

Lemma unchanged_block z x x' b : zfs_ok z (bd_total x) -> unchanged x x' -> 1 <= b < total_blocks (FS_SUPER z) ->
  block_data x' b = block_data x b.
Proof.
  intros Hz (_ & _ & Hs) Hb. apply block_data_ext. intros y Hy. destruct (block_sector_eq z _ b Hz ltac:(lia)) as (_ & H1 & H2 & _).
  unfold block_at in *. apply Hs. lia.
Qed.

Lemma zoh_write_round i fuel n written pos data z x :
  zfs_ok z (bd_total x) -> bd_inv x -> total_blocks (FS_SUPER z) <= 4096 -> inode_ok n -> 0 <= i < MAX_INODES ->
  blocks_ok (insertZ i n (INODES z)) (BITMAP z) (total_blocks (FS_SUPER z)) -> Forall byte data ->
  0 <= written < lenZ data -> 0 <= pos < 40960 ->
  let k := Z.min (lenZ data - written) (4096 - pos mod 4096) in
  (exists n1 z1 x1, write_loop (S fuel) n written pos data z x = write_loop fuel n1 (written + k) (pos + k) data z1 x1 /\
     wrote i (pos - written) data pos (pos + k) n z x n1 z1 x1) \/
  (write_loop (S fuel) n written pos data z x = Ret (Err "no free blocks"%string, (z, x)) /\ full z).
Proof.
  intros Hz Hx Htb Hn Hi Hb Hby Hw Hpos k. cbn [write_loop]. destruct (Z.ltb_spec written (lenZ data)); [|lia].
  unfold BLOCK_SIZE. destruct (Z.leb_spec DIRECT_BLOCKS (pos / 4096)); [unfold DIRECT_BLOCKS in *; dlia|].
  destruct (ensure_block_spec i (pos / 4096) n z _ Hz Htb Hn ltac:(dlia) Hi Hb) as [(b & n1 & z1 & -> & Hen)|[-> Hfull]].
  2:{ right. split; [reflexivity|exact Hfull]. }
  left. unfold in_memory. rewrite bind_Ret. cbn [try_bind fst snd]. pose proof Hen as [e1 e2 e3 e4 e5 e6 e7 e8 e9 e10 e11].
  unfold index. rewrite e6, bind_Ret. rewrite <- e5 in e7.
  destruct (read_block_spec z1 x b e1 Hx e7) as (x1 & -> & Hun). rewrite on_disk_ok. cbv beta zeta. cbn [snd]. fold k.
  rewrite slice_Ret by (unfold k; dlia). rewrite bind_Ret. replace (written + k - written) with k by lia.
  set (src := take (Z.to_nat k) (drop (Z.to_nat written) data)).
  assert (Hsl : lenZ src = k) by (unfold src, k, lenZ in *; rewrite length_take, length_drop; dlia).
  destruct (block_data_len z1 x b e1 Hx e7) as [Hbl Hbb]. pose proof (Z.mod_pos_bound pos 4096 ltac:(lia)).
  pose proof (copy_into_Ret (block_data x b) (pos mod 4096) src ltac:(lia)) as Hci. rewrite Hsl in Hci.
  rewrite Hci, bind_Ret by (rewrite ?Hbl; unfold k; lia).
  destruct Hun as (Hx1 & Ht1 & Hs1). assert (Hun : unchanged x x1) by done.
  assert (Hz1 : zfs_ok z1 (bd_total x1)) by (by rewrite Ht1).
  destruct (write_block_spec z1 x1 b (write_at (block_data x b) (pos mod 4096) src) Hz1 Hx1 e7) as (x2 & -> & (Hx2 & Ht2 & Hs2) & Hbd & Hoth).
  { rewrite lenZ_write_at; rewrite ?Hsl, ?Hbl; unfold k; lia. }
  { unfold write_at. repeat (apply Forall_app; split); [by apply Forall_take| |by apply Forall_drop]. by apply Forall_take, Forall_drop. }
  rewrite on_disk_ok. cbn [snd]. exists n1, z1, x2. split; [done|]. rewrite e5 in e7.
  apply (wrote_block i (pos / 4096) data written pos k n z x b n1 z1 x2); try done; try (unfold k; lia).
  - split; [done|]. split; [congruence|]. intros y Hy Hny. rewrite Hs2 by (rewrite ?Ht1; done). by apply Hs1.
  - intros b' Hb' Hne. rewrite Hoth by (rewrite ?e5; done). by apply (unchanged_block z).
Qed.

Lemma write_loop_spec i fuel n written pos data z x :
  zfs_ok z (bd_total x) -> bd_inv x -> total_blocks (FS_SUPER z) <= 4096 -> inode_ok n -> 0 <= i < MAX_INODES ->
  blocks_ok (insertZ i n (INODES z)) (BITMAP z) (total_blocks (FS_SUPER z)) -> Forall byte data ->
  0 <= written <= lenZ data -> 0 <= pos -> pos + (lenZ data - written) <= 40960 -> lenZ data - written <= Z.of_nat fuel ->
  exists n' z' x' m, wrote i (pos - written) data pos m n z x n' z' x' /\ pos <= m <= pos + (lenZ data - written) /\
    ((write_loop fuel n written pos data z x = Ret (Ok (n', lenZ data), (z', x')) /\ m = pos + (lenZ data - written)) \/
     (write_loop fuel n written pos data z x = Ret (Err "no free blocks"%string, (z', x')) /\ full z')).
Proof.
  intros Hz Hx Htb Hn Hi Hb Hby. revert n written pos z x Hz Hx Htb Hn Hb.
  induction fuel as [|fuel IH]; intros n written pos z x Hz Hx Htb Hn Hb Hw Hp Hfit Hf.
  { assert (written = lenZ data) as -> by lia. exists n, z, x, pos. split; [by apply wrote_nil|]. split; [lia|]. left. cbn [write_loop].
    destruct (Z.ltb_spec (lenZ data) (lenZ data)); [lia|]. split; [done|lia]. }
  destruct (decide (written = lenZ data)) as [->|Hlt].
  { exists n, z, x, pos. split; [by apply wrote_nil|]. split; [lia|]. left. cbn [write_loop].
    destruct (Z.ltb_spec (lenZ data) (lenZ data)); [lia|]. split; [done|lia]. }
  pose proof (Z.mod_pos_bound pos 4096 ltac:(lia)) as Hmod.
  destruct (zoh_write_round i fuel n written pos data z x Hz Hx Htb Hn Hi Hb Hby ltac:(lia) ltac:(lia)) as [(n1 & z1 & x1 & -> & Hwr)|[-> Hfull]].
  2:{ exists n, z, x, pos. split; [by apply wrote_nil|]. split; [lia|]. by right. }
  set (k := Z.min (lenZ data - written) (4096 - pos mod 4096)) in *. pose proof Hwr as [w1 [w2 w2'] w3 w4 (w5 & w5' & _) _ _ _ _].
  destruct (IH n1 (written + k) (pos + k) z1 x1 w1 w2) as (n' & z' & x' & m & Hwr' & Hm & Hres); try lia; try done.
  { by rewrite w5'. }
  replace (pos + k - (written + k)) with (pos - written) in Hwr' by lia.
  replace (pos + k + (lenZ data - (written + k))) with (pos + (lenZ data - written)) in * by lia.
  exists n', z', x', m. split; [|split; [lia|exact Hres]].
  apply (wrote_trans i (pos - written) data pos (pos + k) m n z x n1 z1 x1); try lia; done.
Qed.

Lemma lenZ_zero {B} (l : list B) : lenZ l = 0 -> l = [].
Proof. unfold lenZ. destruct l; [done|cbn; lia]. Qed.
Lemma list_lookupZ_eq {B} (l1 l2 : list B) : (forall j, 0 <= j -> lookupZ l1 j = lookupZ l2 j) -> l1 = l2.
Proof.
  intros Hl. apply list_eq. intros i. specialize (Hl (Z.of_nat i) ltac:(lia)). unfold lookupZ in Hl.
  destruct (Z.ltb_spec (Z.of_nat i) 0); [lia|]. by rewrite Nat2Z.id in Hl.
Qed.

Lemma read_loop_spec i z x n fuel bytes_read pos d buf x0 :
  zfs_ok z (bd_total x) -> bd_inv x -> 0 <= i < lenZ (INODES z) -> blocks_ok (INODES z) (BITMAP z) (total_blocks (FS_SUPER z)) ->
  lookupZ (INODES z) i = Some n -> unchanged x x0 -> 0 <= bytes_read -> 0 <= pos -> pos + lenZ d <= 40960 ->
  lenZ d <= Z.of_nat fuel -> bytes_read + lenZ d <= lenZ buf ->
  (forall j, 0 <= j < lenZ d -> fbyte x n (pos + j) = lookupZ d j) ->
  exists x', read_loop fuel z n (bytes_read + lenZ d) bytes_read pos buf x0 =
    Ret (Ok (bytes_read + lenZ d, write_at buf bytes_read d), x') /\ unchanged x x'.
Proof.
  intros Hz Hx Hi Hbk Hin. revert bytes_read pos d buf x0.
  induction fuel as [|fuel IH]; intros br pos d buf x0 Hun Hbr Hpos Hfit Hf Hbuf Hd; pose proof (lenZ_nonneg d).
  { assert (d = []) as -> by (apply lenZ_zero; lia). exists x0. cbn [read_loop]. destruct (Z.ltb_spec br (br + lenZ (@nil Z))) as [Hc|_].
    - unfold lenZ in Hc. cbn in Hc. lia.
    - split; [|done]. by rewrite write_at_nil, lenZ_nil, Z.add_0_r. }
  cbn [read_loop]. destruct (Z.ltb_spec br (br + lenZ d)) as [Hlt|Hge].
  2:{ assert (d = []) as -> by (apply lenZ_zero; lia). exists x0. split; [|done]. by rewrite write_at_nil, lenZ_nil, Z.add_0_r. }
  unfold BLOCK_SIZE. destruct (Z.leb_spec DIRECT_BLOCKS (pos / 4096)); [unfold DIRECT_BLOCKS in *; dlia|].
  pose proof (Hd 0 ltac:(lia)) as Hd0. rewrite Z.add_0_r in Hd0. destruct (lookupZ_lt d 0) as [v0 Hv0]; [lia|]. rewrite Hv0 in Hd0.
  unfold fbyte in Hd0. destruct (lookupZ (direct_blocks n) (pos / 4096)) as [b|] eqn:Hb; [|done].
  destruct (Z.eqb_spec b 0) as [|Hb0]; [done|]. unfold index. rewrite Hb, bind_Ret. destruct (Z.eqb_spec b 0) as [|_]; [done|].
  destruct (bk_taken _ _ _ Hbk i n _ b Hin Hb Hb0) as [Hbr' _].
  assert (Hz0 : zfs_ok z (bd_total x0)) by (destruct Hun as (_ & -> & _); done).
  destruct (read_block_spec z x0 b Hz0 ltac:(apply Hun) Hbr') as (x1 & -> & Hun1). cbn [try_bind].
  rewrite (unchanged_block z x x0 b Hz Hun Hbr'). destruct (block_data_len z x b Hz Hx Hbr') as [Hbl _].
  replace (br + lenZ d - br) with (lenZ d) by lia. pose proof (Z.mod_pos_bound pos 4096 ltac:(lia)) as Hmod.
  set (k := Z.min (lenZ d) (4096 - pos mod 4096)). rewrite slice_Ret, bind_Ret by (unfold k; lia).
  replace (pos mod 4096 + k - pos mod 4096) with k by lia.
  assert (Hsrc : take (Z.to_nat k) (drop (Z.to_nat (pos mod 4096)) (block_data x b)) = take (Z.to_nat k) d).
  { apply list_lookupZ_eq. intros j Hj. destruct (decide (j < k)).
    - rewrite lookupZ_part by lia. pose proof (lookupZ_part d 0 k j) as Hlp. rewrite Z.add_0_l in Hlp.
      change (drop (Z.to_nat 0) d) with d in Hlp. rewrite Hlp by lia.
      rewrite <- Hd by (unfold k in *; lia). rewrite (fbyte_block x n (pos + j) b);
        [f_equal; unfold k in *; dlia|replace ((pos + j) / 4096) with (pos / 4096) by (unfold k in *; dlia); done|done].
    - unfold lookupZ. destruct (Z.ltb_spec j 0); [lia|]. by rewrite !lookup_take_ge by lia. }
  assert (Hk : 0 < k <= lenZ d) by (unfold k; lia).
  rewrite Hsrc. assert (Hkl : lenZ (take (Z.to_nat k) d) = k) by (clearbody k; unfold lenZ in *; rewrite length_take; lia).
  pose proof (copy_into_Ret buf br (take (Z.to_nat k) d) Hbr) as Hci. rewrite Hkl in Hci. rewrite Hci, bind_Ret by (unfold k; lia).
  assert (Hdl : lenZ (drop (Z.to_nat k) d) = lenZ d - k) by (clearbody k; unfold lenZ in *; rewrite length_drop; lia).
  destruct (IH (br + k) (pos + k) (drop (Z.to_nat k) d) (write_at buf br (take (Z.to_nat k) d)) x1) as (x' & E & Hun').
  { by eapply unchanged_trans. } { unfold k; lia. } { unfold k; lia. } { rewrite Hdl. lia. } { rewrite Hdl. unfold k; lia. }
  { rewrite Hdl, lenZ_write_at; rewrite ?Hkl; unfold k; lia. }
  { intros j Hj. rewrite Hdl in Hj. replace (pos + k + j) with (pos + (k + j)) by lia. rewrite Hd by (unfold k in *; lia).
    unfold lookupZ. destruct (Z.ltb_spec (k + j) 0), (Z.ltb_spec j 0); try (unfold k in *; lia). rewrite lookup_drop. f_equal. unfold k in *; lia. }
  rewrite Hdl in E. replace (br + k + (lenZ d - k)) with (br + lenZ d) in E by lia. exists x'. split; [|done]. rewrite E. do 3 f_equal.
  rewrite <- Hkl at 2. rewrite write_at_app; [by rewrite take_drop|done|]. rewrite Hkl, Hdl. lia.
Qed.

Lemma blocks_ok_ext ns ns' bm tb :
  (forall i, direct_blocks <$> lookupZ ns' i = direct_blocks <$> lookupZ ns i) -> blocks_ok ns bm tb -> blocks_ok ns' bm tb.
Proof.
  intros He [H1 H2 H3]. assert (Hl : forall i n, lookupZ ns' i = Some n -> exists m, lookupZ ns i = Some m /\ direct_blocks m = direct_blocks n).
  { intros i n Hn. specialize (He i). rewrite Hn in He. destruct (lookupZ ns i) as [m|]; [|done]. exists m. split; [done|]. by injection He. }
  split; [done| |].
  - intros i n j b Hn Hj. destruct (Hl i n Hn) as (m & Hm & E). rewrite <- E in Hj. eauto.
  - intros i n j i' n' j' b Hn Hj Hn' Hj'. destruct (Hl i n Hn) as (m & Hm & E), (Hl i' n' Hn') as (m' & Hm' & E').
    rewrite <- E in Hj. rewrite <- E' in Hj'. eauto.
Qed.

Lemma fbyte_ext x n n' p : direct_blocks n' = direct_blocks n -> fbyte x n' p = fbyte x n p.
Proof. unfold fbyte. by intros ->. Qed.

(** The inode that [write_file_data] stores. *)
Definition grown (new_size : Z) (n : Inode) : Inode := if size n <? new_size then with_size (u32 new_size) n else n.
Lemma grown_ok s n : 0 <= s < two32 -> inode_ok n ->
  inode_ok (grown s n) /\ direct_blocks (grown s n) = direct_blocks n /\ mode (grown s n) = mode n /\ size (grown s n) = Z.max (size n) s.
Proof.
  intros Hs Hn. unfold grown. destruct (Z.ltb_spec (size n) s).
  - rewrite u32_small by done. destruct (with_size_keeps s Hs n Hn) as (? & ? & _). split; [done|]. split; [done|]. split; [done|]. cbn. lia.
  - split; [done|]. split; [done|]. split; [done|lia].
Qed.

End files.

(** ** A fresh file system *)

(** The root directory has the only block. *)
Lemma formatted_used total i n j b :
  lookupZ (INODES (formatted total)) i = Some n -> lookupZ (direct_blocks n) j = Some b -> b <> 0 -> i = 1 /\ j = 0 /\ b = 1.
Proof.
  cbn [INODES formatted]. destruct (decide (i = ROOT_INODE)) as [->|Hne].
  - rewrite lookupZ_insertZ_eq by done. intros [= <-] Hj Hb. split; [done|]. cbn [direct_blocks root_dir_inode set_dir] in Hj.
    unfold lookupZ in Hj. destruct (Z.ltb_spec j 0); [done|]. destruct (Z.to_nat j) as [|k] eqn:E.
    { injection Hj as <-. split; [lia|done]. }
    apply (lookup_replicate_1 9 0) in Hj as [-> _]. done.
  - rewrite lookupZ_insertZ_ne by done. unfold lookupZ. destruct (Z.ltb_spec i 0); [done|].
    intros [-> _]%lookup_replicate_1. destruct (Z.ltb_spec j 0); [done|]. intros [-> _]%(lookup_replicate_1 10 0). done.
Qed.

Lemma formatted_blocks_ok total : 88 <= total < two32 ->
  blocks_ok (INODES (formatted total)) (BITMAP (formatted total)) (total_blocks (FS_SUPER (formatted total))).
Proof.
  intros Ht. destruct (formatted_blocks total Ht) as [Hb _]. split; [done| |].
  - intros i n j b Hn Hj Hb0. destruct (formatted_used _ _ _ _ _ Hn Hj Hb0) as (_ & _ & ->). split; [lia|done].
  - intros i n j i' n' j' b Hn Hj Hn' Hj' Hb0. destruct (formatted_used _ _ _ _ _ Hn Hj Hb0) as (-> & -> & _).
    by destruct (formatted_used _ _ _ _ _ Hn' Hj' Hb0) as (-> & -> & _).
Qed.

(** One with an empty file, in inode 2. *)
Definition with_file (total : Z) : zfs :=
  with_inodes (insertZ 2 (set_file empty_inode) (INODES (formatted total))) (formatted total).

