(* ===== verification/ZohFormat.v ===== *)
(** * Formatting and deleting on ZohFS

    [mkfs] followed by [init] gives the empty file system, also through a
    cache that [mkfs] bypasses for its last write; and what [delete_file]
    does to the other entries of the directory. *)

From S2P Require Import Prelude Bytes Ide Bcache Fat32 Volume Zohfs ZohVolume ZohFiles.

(** ** Writing behind the cache *)

Section behind.
Context {D : Type} `{BlockDevice D}.

(** No slot holds the sector. *)
Definition not_cached (s : Z) (x : bcache * D) : Prop :=
  forall e, lookupZ (CACHE_ENTRIES x.1) (cache_slot s) = Some e -> sector e <> s.

Lemma cached_write_entry s buf x x' : cached_write s buf x = Ret (Ok tt, x') ->
  CACHE_ENTRIES x'.1 = insertZ (cache_slot s) (mk_entry s true false) (CACHE_ENTRIES x.1).
Proof.
  destruct x as [c d]. unfold cached_write. intros E. inv_bind E. destruct a as [[u|er] d1]; [|done]. inv_bind E. injection E as <-.
  unfold cache_store in *. match goal with Hc : _ = Ret a |- _ => repeat (inv_bind Hc); injection Hc as <- end.
  cbn [fst CACHE_ENTRIES]. match goal with Ha : assign (CACHE_ENTRIES _) _ _ = Ret _ |- _ => unfold assign in Ha; case_match; by inversion Ha end.
Qed.

Lemma not_cached_write s t buf x x' :
  cached_write t buf x = Ret (Ok tt, x') -> t <> s -> not_cached s x \/ cache_slot t = cache_slot s -> not_cached s x'.
Proof.
  intros E Hne Hor e. rewrite (cached_write_entry _ _ _ _ E). destruct (decide (cache_slot t = cache_slot s)) as [Hs|Hs].
  - rewrite Hs. intros Hl. pose proof (lookupZ_Some_lt _ _ _ Hl) as Hr. rewrite lenZ_insertZ in Hr. rewrite lookupZ_insertZ_eq in Hl by lia.
    by injection Hl as <-.
  - destruct Hor as [Hn|]; [|done]. rewrite lookupZ_insertZ_ne by done. apply Hn.
Qed.

Lemma not_cached_run s idxs start buf x x' :
  cached_write_sectors idxs start buf x = Ret (Ok tt, x') -> Forall (fun i => u32 (start + i) <> s) idxs ->
  not_cached s x -> not_cached s x'.
Proof.
  intros E Hi. revert x E. induction Hi as [|i idxs Hi _ IH]; intros x E Hn; [by injection E as <-|].
  cbn [cached_write_sectors] in E. destruct (lenZ buf <? _); [done|]. inv_bind E.
  destruct (cached_write (u32 (start + i)) a x) as [[[[]|er] x1]| | | |] eqn:E1; try done.
  apply (IH x1 E). eapply not_cached_write; [eassumption|done|by left].
Qed.

(** A write that bypasses the cache is safe then. *)
Lemma write_behind s buf x :
  coherent x -> not_cached s x -> 0 <= s < bd_total x.2 -> lenZ buf = SECTOR_SIZE -> Forall byte buf ->
  exists d', bd_write s buf x.2 = Ret (Ok tt, d') /\ coherent (x.1, d') /\ bd_total d' = bd_total x.2 /\
    forall y, 0 <= y < bd_total x.2 -> bd_sector d' y = if y =? s then buf else bd_sector x.2 y.
Proof.
  intros [Hd He Hda Hs Hc] Hn Hr Hb Hby. destruct (bd_write_ok x.2 s buf Hd Hr Hb Hby) as (d' & E & Hd' & Ht & Hsec).
  exists d'. split; [done|]. split; [|done]. split; cbn [fst snd]; try done. intros i e Hi Hv.
  destruct (Hc i e Hi Hv) as (H1 & H2 & H3 & H4). rewrite Ht. split; [done|]. split; [done|]. split; [done|].
  rewrite H4, Hsec by done. destruct (Z.eqb_spec (sector e) s) as [Es|]; [|done]. exfalso. apply (Hn e); [|done]. by rewrite <- Es, H3.
Qed.
End behind.

(** ** Formatting *)

Section format.
Context {D : Type} `{BlockDevice D}.
Implicit Types x : bcache * D.

(** The inode table takes all 64 slots, among them that of sector 72. *)
Lemma inode_table_evicts buf x x' :
  cached_write_sectors (seqZ 0 64) 8 buf x = Ret (Ok tt, x') -> not_cached DATA_START x'.
Proof.
  rewrite (seqZ_cons 0) by lia. remember (seqZ (Z.succ 0) (Z.pred 64)) as r eqn:Hr. cbn [cached_write_sectors]. intros E.
  destruct (lenZ buf <? _); [done|]. inv_bind E.
  destruct (cached_write (u32 (8 + 0)) a x) as [[[[]|er] x1]| | | |] eqn:E1; try done.
  eapply not_cached_run; [exact E| |].
  - subst r. apply Forall_forall. intros i Hi%elem_of_seqZ. unfold DATA_START. rewrite u32_small by lia. lia.
  - eapply not_cached_write; [exact E1|done|by right].
Qed.

Lemma system_blocks : mark_blocks (seqZ 0 10) (zeros BITMAP_WORDS) = Ret (insertZ 0 1023 (zeros BITMAP_WORDS)) /\
  mark_blocks [1] (insertZ 0 1023 (zeros BITMAP_WORDS)) = Ret (insertZ 0 1023 (zeros BITMAP_WORDS)).
Proof. split; reflexivity. Qed.

Lemma formatted_dir total : dir_buf (formatted total) = zeros 512.
Proof. reflexivity. Qed.

Lemma bitmap_buf_ext z z' : BITMAP z = BITMAP z' -> bitmap_buf z = bitmap_buf z'.
Proof. unfold bitmap_buf. by intros ->. Qed.
Lemma inode_buf_ext z z' : INODES z = INODES z' -> inode_buf z = inode_buf z'.
Proof. unfold inode_buf. by intros ->. Qed.

(** Formatting gives the empty file system.  On a disk of at least 88
    sectors behind a coherent cache, [mkfs] succeeds, and [init] from the
    initial statics then mounts an empty directory with the ten system blocks
    taken; the invariants of the other operations hold.  The last write of
    [mkfs] goes to the disk and not through the cache, which stays coherent
    because the inode table has just evicted that sector. *)
Theorem zohfs_mkfs_mounts tail z x :
  bd_inv x -> 88 <= bd_total x -> lenZ tail = 76 -> Forall byte tail ->
  exists z' x' x2, mkfs tail (bd_total x) z x = Ret (Ok tt, (z', x')) /\
    init (bd_total x) zfs_new x' = Ret (Ok tt, (formatted (bd_total x), x2)) /\
    readdir_root (formatted (bd_total x)) = Ret [] /\
    bd_inv x2 /\ zfs_ok (formatted (bd_total x)) (bd_total x2) /\
    blocks_ok (INODES (formatted (bd_total x))) (BITMAP (formatted (bd_total x))) (total_blocks (FS_SUPER (formatted (bd_total x)))).
Proof.
  intros Hx Ht Htl Htb. pose proof (bd_total_range x Hx) as Hr. assert (Hr' : 88 <= bd_total x < two32) by lia.
  pose proof (formatted_ok _ Hr') as Hz. set (f := formatted (bd_total x)) in *.
  destruct (sb_bytes_len (FS_SUPER f) (proj1 (zo_super _ _ Hz))) as [Hsl Hsb].
  destruct (write_at_len_bytes 512 (sb_bytes (FS_SUPER f) ++ tail) ltac:(lia)) as [Hbl Hbb]; [rewrite lenZ_app; lia|by apply Forall_app|].
  unfold mkfs. destruct (Z.eqb_spec (bd_total x) 0); [lia|]. destruct system_blocks as [-> E2]. rewrite bind_Ret.
  rewrite assign_lt by done. rewrite bind_Ret, E2, bind_Ret.
  change (mkfs_super (bd_total x)) with (FS_SUPER f). set (z1 := mk_zfs _ _ _ _ _ _).
  destruct (bd_write_ok x 0 _ Hx ltac:(lia) Hbl Hbb) as (x1 & E0 & Hx1 & Ht1 & Hs1). rewrite E0, on_disk_ok. cbn [snd].
  unfold write_tables. rewrite (bitmap_buf_ext z1 f eq_refl), (inode_buf_ext z1 f eq_refl).
  destruct (bitmap_buf_spec f _ Hz) as (Hml & Hmb & _). destruct (inode_buf_spec f _ Hz) as (Hil & Hib & _).
  destruct (write_run 7 1 (bitmap_buf f) x1 Hx1) as (x2 & E1 & (Hx2 & Ht2 & Hs2) & Hr2); [lia..|done|done|]. rewrite E1. cbn [try_bind].
  destruct (write_run 64 8 (inode_buf f) x2 Hx2) as (x3 & E3 & (Hx3 & Ht3 & Hs3) & Hr3); [lia..|done|done|]. rewrite E3, on_disk_ok. cbn [snd].
  pose proof (inode_table_evicts _ _ _ E3) as Hn.
  destruct (write_behind DATA_START (zeros 512) x3 Hx3 Hn) as (d4 & E4 & Hx4 & Ht4 & Hs4);
    [cbn in *; unfold DATA_START; lia|done|apply zeros_bytes|].
  rewrite E4, bind_Ret. cbn [fst snd]. set (x4 := (x3.1, d4)).
  assert (Ht5 : bd_total x4 = bd_total x) by (cbn in *; lia).
  assert (Hs5 : forall y, 0 <= y < bd_total x -> bd_sector x4 y = if y =? DATA_START then zeros 512 else bd_sector x3 y).
  { intros y Hy. apply Hs4. cbn in *. lia. }
  destruct (zoh_init_spec f 1 x4) as (es & x5 & Ei & (Hx5 & Ht6 & _) & Hel & Hld).
  { rewrite Ht5. exact Hz. } { exact Hx4. } { exists root_dir_inode. split; reflexivity. } { split.
    - exists tail. rewrite Hs5, Hs3, Hs2, Hs1 by lia. reflexivity.
    - rewrite (run_ext x2); [exact Hr2|]. intros y Hy. rewrite Hs5, Hs3 by lia. unfold DATA_START. destruct (Z.eqb_spec y 72); [lia|reflexivity].
    - rewrite (run_ext x3); [exact Hr3|]. intros y Hy. rewrite Hs5 by lia. unfold DATA_START. destruct (Z.eqb_spec y 72); [lia|reflexivity].
    - rewrite Hs5 by lia. unfold f. rewrite formatted_dir. reflexivity. }
  { discriminate. }
  exists z1, x4, x5. split; [reflexivity|]. rewrite Ht5 in Ei. split.
  - rewrite Ei. unfold f, formatted. do 4 f_equal. apply list_lookupZ_eq. intros j _. rewrite Hld.
    change (ROOT_DIR_COUNT f) with 0. destruct (Z.leb_spec 0 j), (Z.ltb_spec j 0); lia || reflexivity.
  - split; [reflexivity|]. split; [exact Hx5|]. split; [rewrite Ht6, Ht5; exact Hz|]. exact (formatted_blocks_ok _ Hr').
Qed.
End format.

Lemma zohfs_mkfs_mounts_witness :
  exists z' x' x2, mkfs (zeros 76) 176 zfs_new (bcache_new, zoh_disk) = Ret (Ok tt, (z', x')) /\
    init 176 zfs_new x' = Ret (Ok tt, (formatted 176, x2)).
Proof.
  destruct (zohfs_mkfs_mounts (zeros 76) zfs_new (bcache_new, zoh_disk)) as (z' & x' & x2 & E1 & E2 & _).
  - apply coherent_new, zoh_disk_ok.
  - discriminate.
  - reflexivity.
  - apply zeros_bytes.
  - exists z', x', x2. split; [exact E1|exact E2].
Defined.

(** ** Deleting *)

Lemma bitmap_clear_ok bm k w : 0 <= k -> bitmap_ok bm -> lookupZ bm (k / 64) = Some w ->
  bitmap_ok (insertZ (k / 64) (Z.land w (not64 (block_bit k))) bm).
Proof.
  intros Hk [Hl Hf] Hw. split; [by rewrite lenZ_insertZ|]. apply insertZ_Forall; [done|].
  pose proof (lookupZ_Forall _ _ _ _ Hf Hw) as Hr. by apply land_range64.
Qed.

(** Freeing blocks of the disk leaves directory and inodes as they are. *)
Lemma drop_blocks_spec bs z total :
  zfs_ok z total -> Forall (fun b => 0 <= b < 4096) bs ->
  exists z', drop_blocks bs z = Ret z' /\ zfs_ok z' total /\
    ROOT_DIR z' = ROOT_DIR z /\ ROOT_DIR_COUNT z' = ROOT_DIR_COUNT z /\ INODES z' = INODES z.
Proof.
  intros Hz Hb. revert z Hz. induction Hb as [|b bs Hb _ IH]; intros z Hz; [by exists z|]. cbn [drop_blocks].
  destruct (Z.ltb_spec 0 b); [|rewrite bind_Ret; by apply IH].
  pose proof (zo_bitmap _ _ Hz) as Hbm. assert (Hi : 0 <= b / 64 < lenZ (BITMAP z)) by (rewrite (proj1 Hbm); unfold BITMAP_WORDS; dlia).
  destruct (lookupZ_lt (BITMAP z) (b / 64) Hi) as [w Hw]. unfold index. rewrite Hw, bind_Ret, assign_lt, !bind_Ret by done.
  destruct (IH (with_free (u32 (free_blocks (FS_SUPER z) + 1)) (with_bitmap (insertZ (b / 64) (Z.land w (not64 (block_bit b))) (BITMAP z)) z)))
    as (z' & E & Hz' & H1 & H2 & H3).
  { apply with_free_ok; [done|by apply Z.mod_pos_bound|]. apply bitmap_clear_ok; [lia|done|done]. }
  by exists z'.
Qed.

Lemma find_from_cleared idxs nm k z z' :
  ROOT_DIR z' = insertZ k no_entry (ROOT_DIR z) -> find_from idxs nm z = Ret None -> find_from idxs nm z' = Ret None.
Proof.
  intros Hd. induction idxs as [|i idxs IH]; cbn [find_from]; [done|]. unfold index. intros E.
  destruct (lookupZ (ROOT_DIR z) i) as [e|] eqn:He; [|done]. rewrite bind_Ret in E. pose proof (lookupZ_Some_lt _ _ _ He) as Hi. rewrite Hd.
  destruct (decide (i = k)) as [->|].
  - rewrite lookupZ_insertZ_eq, bind_Ret by lia. cbn. apply IH. by destruct (_ && _).
  - rewrite lookupZ_insertZ_ne, He, bind_Ret by done. destruct (_ && _); [done|]. by apply IH.
Qed.

(** A name found in the last entry is in no earlier one. *)
Lemma found_last nm z total :
  zfs_ok z total -> find_in_root nm z = Ret (Some (ROOT_DIR_COUNT z - 1)) -> find_from (seqZ 0 (ROOT_DIR_COUNT z - 1)) nm z = Ret None.
Proof.
  intros Hz Hf. pose proof (zo_count _ _ Hz) as Hc. pose proof (find_from_mem _ _ _ _ Hf) as Hm%elem_of_seqZ. unfold find_in_root in Hf.
  replace (ROOT_DIR_COUNT z) with ((ROOT_DIR_COUNT z - 1) + 1) in Hf at 1 by lia. set (c := ROOT_DIR_COUNT z - 1) in *.
  rewrite (seqZ_app 0 c 1) in Hf by lia. change (seqZ (0 + c) 1) with [c] in Hf.
  destruct (lookupZ_lt (ROOT_DIR z) c) as [e He]; [rewrite (proj1 (zo_dir _ _ Hz)); lia|].
  pose proof (dir_slots z total c Hz ltac:(lia)) as Hs. rewrite (find_from_snoc _ _ e) in Hf by done.
  destruct (find_from_total _ nm _ Hs) as [[j|] Hr]; [|done]. rewrite Hr, bind_Ret in Hf. injection Hf as ->.
  apply find_from_mem, elem_of_seqZ in Hr. lia.
Qed.

Section deleting.
Context {X : Type} `{BlockDevice X}.
Implicit Types x : X.

Lemma in_memory_ok {B C} x (v : B) z (f : B -> zfs * X -> outcome (result string C * (zfs * X))) :
  try_bind (in_memory x (Ret (Ok v, z))) f = f v (z, x).
Proof. done. Qed.

Lemma freed_blocks_small z total i n :
  zfs_ok z total -> total_blocks (FS_SUPER z) <= 4096 -> blocks_ok (INODES z) (BITMAP z) (total_blocks (FS_SUPER z)) ->
  lookupZ (INODES z) i = Some n -> Forall (fun b => 0 <= b < 4096) (direct_blocks n).
Proof.
  intros Hz Htb Hbk Hn. apply Forall_lookup. intros j b Hj. destruct (decide (b = 0)) as [->|Hb]; [lia|].
  assert (Hj' : lookupZ (direct_blocks n) (Z.of_nat j) = Some b)
    by (unfold lookupZ; destruct (Z.ltb_spec (Z.of_nat j) 0); [lia|by rewrite Nat2Z.id]).
  destruct (bk_taken _ _ _ Hbk i n _ b Hn Hj' Hb). lia.
Qed.

(** Deleting a file that is not the last entry loses the last one:
    [delete_file] succeeds and shortens the directory by one but leaves a hole
    at the file's place, so the name in the last entry is not found any more,
    although its inode is still in use. *)
Theorem zohfs_delete_loses_last z x nm nm' k e l :
  zfs_ok z (bd_total x) -> bd_inv x -> total_blocks (FS_SUPER z) <= 4096 ->
  blocks_ok (INODES z) (BITMAP z) (total_blocks (FS_SUPER z)) ->
  find_in_root nm z = Ret (Some k) -> find_in_root nm' z = Ret (Some (ROOT_DIR_COUNT z - 1)) -> k <> ROOT_DIR_COUNT z - 1 ->
  lookupZ (ROOT_DIR z) k = Some e -> 2 <= inode e < MAX_INODES ->
  lookupZ (ROOT_DIR z) (ROOT_DIR_COUNT z - 1) = Some l -> inode l <> inode e -> inode l <> ROOT_INODE ->
  exists z' x', delete_file nm z x = Ret (Ok tt, (z', x')) /\ find_file nm' z' = Ret None /\
    lookupZ (INODES z') (inode l) = lookupZ (INODES z) (inode l).
Proof.
  intros Hz Hx Htb Hbk Hf Hf' Hk He Hie Hl Hne Hnr. pose proof (found_last _ _ _ Hz Hf') as Hfl.
  pose proof (zo_count _ _ Hz) as Hc. pose proof (find_from_mem _ _ _ _ Hf) as Hm%elem_of_seqZ. destruct (zo_dir _ _ Hz) as [Hdl Hde].
  destruct (zo_inodes _ _ Hz) as [Hil Hio]. destruct (zo_root _ _ Hz) as (root & b & Hr & _).
  unfold delete_file. rewrite (zo_mounted _ _ Hz). cbn [negb]. rewrite Hf, bind_Ret. unfold index. rewrite He, bind_Ret.
  rewrite assign_lt, bind_Ret by lia. set (c := ROOT_DIR_COUNT z - 1) in *. set (es := insertZ k no_entry (ROOT_DIR z)).
  unfold upd_inode, index. cbn [INODES ROOT_DIR_COUNT with_dir]. rewrite Hr, bind_Ret, assign_lt, bind_Ret, bind_Ret by (rewrite Hil; done).
  unfold MAX_ENTRIES in *. rewrite (u32_small (c * 64)) by lia.
  pose proof (zfs_ok_dir z _ es c root Hz ltac:(by unfold es; rewrite lenZ_insertZ) ltac:(by apply insertZ_Forall; [|apply no_entry_ok])
    ltac:(unfold MAX_ENTRIES; lia) Hr) as Hz1. set (z1 := with_inodes _ _) in *.
  destruct (lookupZ_lt (INODES z) (inode e)) as [n Hn]; [lia|].
  assert (Hn1 : lookupZ (INODES z1) (inode e) = Some n) by (unfold z1; cbn [INODES with_inodes]; rewrite lookupZ_insertZ_ne; [done|unfold ROOT_INODE; lia]).
  assert (Hno : inode_ok n) by (by eapply (lookupZ_Forall inode_ok)).
  unfold free_inode_blocks. destruct (Z.eqb_spec (inode e) 0), (Z.leb_spec MAX_INODES (inode e)); try lia. cbn [orb].
  unfold index. rewrite Hn1, bind_Ret. destruct (io_blocks _ Hno) as [_ Hbl]. pose proof (io_count _ Hno) as [Hbc _].
  rewrite slice_Ret, bind_Ret by (unfold DIRECT_BLOCKS in *; lia).
  destruct (drop_blocks_spec (take (Z.to_nat (Z.min (block_count n) DIRECT_BLOCKS - 0)) (drop (Z.to_nat 0) (direct_blocks n))) z1 _ Hz1)
    as (z2 & -> & Hz2 & Hd2 & Hc2 & Hi2).
  { apply Forall_take, Forall_drop. exact (freed_blocks_small z _ (inode e) n Hz Htb Hbk Hn). }
  rewrite bind_Ret, in_memory_ok. cbn [fst snd].
  unfold free_inode. destruct (Z.eqb_spec (inode e) 0), (Z.leb_spec MAX_INODES (inode e)); try lia. cbn [orb].
  unfold upd_inode, index. rewrite Hi2, Hn1, bind_Ret, assign_lt, bind_Ret, bind_Ret by (unfold z1; cbn [INODES with_inodes]; rewrite lenZ_insertZ; lia).
  rewrite in_memory_ok. cbn [fst snd].
  assert (Hz3 : zfs_ok (with_inodes (insertZ (inode e) empty_inode (INODES z1)) z2) (bd_total x)).
  { rewrite <- Hi2. apply (zfs_ok_inode _ _ _ n); [done|by rewrite Hi2| |unfold ROOT_INODE; lia].
    split; try done; (split; [by apply Forall_replicate|done]). }
  destruct (flush_spec _ x Hz3 Hx) as (b' & x' & _ & _ & Efl & _). rewrite Efl. unfold on_disk. rewrite bind_Ret. eexists _, x'. split; [reflexivity|].
  split.
  - unfold find_file, find_in_root. cbn [ROOT_DIR_COUNT with_inodes]. rewrite Hc2. cbn [ROOT_DIR_COUNT z1 with_inodes with_dir].
    rewrite (find_from_cleared _ nm' k z); [done| |done]. cbn [ROOT_DIR with_inodes]. by rewrite Hd2.
  - cbn [INODES with_inodes]. rewrite lookupZ_insertZ_ne by done. unfold z1. cbn [INODES with_inodes]. by rewrite lookupZ_insertZ_ne.
Qed.
End deleting.

(** Two empty files, in inodes 2 and 3. *)
Definition entry_of (nm : list Z) (i : Z) : DirEntry := mk_dir i (nm ++ zeros (56 - lenZ nm)) 0 0.
Definition two_entries : list DirEntry :=
  insertZ 1 (entry_of [0x62] 3) (insertZ 0 (entry_of [0x61] 2) (replicate (Z.to_nat MAX_ENTRIES) no_entry)).
Definition with_two (total : Z) : zfs :=
  let z := with_inodes (insertZ 3 (set_file empty_inode) (INODES (with_file total))) (with_file total) in
  with_inodes (insertZ ROOT_INODE (with_size (2 * 64) root_dir_inode) (INODES z)) (with_dir two_entries 2 z).

Lemma new_file_ok : inode_ok (set_file empty_inode).
Proof. split; try done; (split; [by apply Forall_replicate|done]). Qed.
Lemma with_two_ok total : 88 <= total < two32 -> zfs_ok (with_two total) total.
Proof.
  intros Ht. apply zfs_ok_dir; [|done| |done|done].
  - apply (zfs_ok_inode _ _ 3 empty_inode); [|done|apply new_file_ok|done].
    apply (zfs_ok_inode _ _ 2 empty_inode); [by apply formatted_ok|done|apply new_file_ok|done].
  - assert (He : forall b i, byte b -> word32 i -> entry_ok (entry_of [b] i)).
    { intros b i Hb Hi. split; try done. split; [|done]. constructor; [done|]. apply Forall_replicate. done. }
    apply insertZ_Forall; [apply insertZ_Forall; [apply Forall_replicate, no_entry_ok|]|]; by apply He.
Qed.
Lemma with_two_blocks total : 88 <= total < two32 ->
  blocks_ok (INODES (with_two total)) (BITMAP (with_two total)) (total_blocks (FS_SUPER (with_two total))).
Proof.
  intros Ht. eapply blocks_ok_ext; [|exact (formatted_blocks_ok total Ht)]. intros i. cbn [INODES with_two with_file with_inodes with_dir].
  destruct (decide (i = ROOT_INODE)) as [->|]; [reflexivity|]. rewrite lookupZ_insertZ_ne by done.
  destruct (decide (i = 3)) as [->|]; [reflexivity|]. rewrite lookupZ_insertZ_ne by done.
  destruct (decide (i = 2)) as [->|]; [reflexivity|]. by rewrite lookupZ_insertZ_ne.
Qed.

Lemma zohfs_delete_loses_last_witness :
  exists z' x', delete_file [0x61] (with_two 176) zoh_disk = Ret (Ok tt, (z', x')) /\
    find_file [0x62] (with_two 176) = Ret (Some 3) /\ find_file [0x62] z' = Ret None.
Proof.
  assert (Hr : 88 <= 176 < two32) by (split; [discriminate|reflexivity]).
  destruct (zohfs_delete_loses_last (with_two 176) zoh_disk [0x61] [0x62] 0 (entry_of [0x61] 2) (entry_of [0x62] 3)) as (z' & x' & E1 & E2 & _).
  - exact (with_two_ok 176 Hr).
  - exact zoh_disk_ok.
  - discriminate.
  - exact (with_two_blocks 176 Hr).
  - reflexivity.
  - reflexivity.
  - discriminate.
  - reflexivity.
  - split; [discriminate|reflexivity].
  - reflexivity.
  - discriminate.
  - discriminate.
  - exists z', x'. split; [exact E1|]. split; [reflexivity|exact E2].
Defined.
