(* ===== verification/Gpt.v ===== *)
(** * GUID partition tables (src/src/fs/gpt.rs)

    The header in the second sector of a disk and the table of partitions,
    read over the disk interface. *)

From S2P Require Import Prelude Bytes Ide Fat32 Volume.

Definition GPT_SIGNATURE : list Z := [0x45; 0x46; 0x49; 0x20; 0x50; 0x41; 0x52; 0x54].

Record GptHeader : Type := mk_gpt {
  gpt_signature : list Z; gpt_revision : Z; header_size : Z; header_crc32 : Z; my_lba : Z; alternate_lba : Z;
  first_usable_lba : Z; last_usable_lba : Z; disk_guid : list Z; partition_entry_lba : Z;
  num_partition_entries : Z; partition_entry_size : Z; partition_entry_crc32 : Z;
}.
(** [ptr::read] of the packed header; the sector is larger. *)
Definition read_header (buf : list Z) : GptHeader :=
  mk_gpt (bytes_at buf 0 8) (field buf 8 4) (field buf 12 4) (field buf 16 4) (field buf 24 8) (field buf 32 8)
    (field buf 40 8) (field buf 48 8) (bytes_at buf 56 16) (field buf 72 8) (field buf 80 4) (field buf 84 4) (field buf 88 4).

Record GptPartitionEntry : Type := mk_gpt_entry {
  type_guid : list Z; unique_guid : list Z; first_lba : Z; last_lba : Z; gpt_attributes : Z; gpt_name : list Z;
}.
Definition GPT_ENTRY_SIZE : Z := 128.
Definition entry_of (buf : list Z) (off : Z) : GptPartitionEntry :=
  mk_gpt_entry (bytes_at buf off 16) (bytes_at buf (off + 16) 16) (field buf (off + 32) 8) (field buf (off + 40) 8)
    (field buf (off + 48) 8) (bytes_at buf (off + 56) 72).
(** [ptr::read] of an entry, which may begin too near the end of the sector. *)
Definition read_entry (buf : list Z) (off : Z) : outcome GptPartitionEntry :=
  if off + GPT_ENTRY_SIZE <=? lenZ buf then Ret (entry_of buf off) else UB.

Record Partition : Type := mk_partition {
  p_index : Z; p_first_lba : Z; p_last_lba : Z; size_sectors : Z; first_byte : Z; size_bytes : Z;
}.
Definition partition_of (i : Z) (e : GptPartitionEntry) : Partition :=
  let size := u64 (last_lba e - first_lba e + 1) in
  mk_partition i (first_lba e) (last_lba e) size (u64 (first_lba e * 512)) (u64 (size * 512)).

Section gpt.
Context {D : Type} `{BlockDevice D}.

Definition read_gpt_header (d : D) : outcome (result string GptHeader * D) :=
  let? (buf, d) := bd_read 1 d in
  let header := read_header buf in
  if negb (bool_decide (gpt_signature header = GPT_SIGNATURE)) then Ret (Err "no GPT partition table found"%string, d)
  else if header_size header <? 92 then Ret (Err "invalid GPT header size"%string, d)
  else Ret (Ok header, d).

(** Entry [i] of the table. *)
Definition load_entry (header : GptHeader) (entries_per_sector i : Z) (d : D) : outcome (result string GptPartitionEntry * D) :=
  sector_offset ← div_u i entries_per_sector;
  entry_offset ← mod_u i entries_per_sector;
  let? (buf, d) := bd_read (u32 (u32 (partition_entry_lba header) + u32 sector_offset)) d in
  e ← read_entry buf (entry_offset * partition_entry_size header);
  Ret (Ok e, d).

Fixpoint list_loop (header : GptHeader) (entries_per_sector : Z) (idxs : list Z) (partitions : list Partition) (d : D)
  : outcome (result string (list Partition) * D) :=
  match idxs with
  | [] => Ret (Ok partitions, d)
  | i :: idxs' =>
      let? (e, d) := load_entry header entries_per_sector i d in
      let partitions := if negb (first_lba e =? 0) && (first_lba e <=? last_lba e) then partitions ++ [partition_of i e] else partitions in
      list_loop header entries_per_sector idxs' partitions d
  end.
Definition list_partitions (d : D) : outcome (result string (list Partition) * D) :=
  let? (header, d) := read_gpt_header d in
  entries_per_sector ← div_u SECTOR_SIZE (partition_entry_size header);
  list_loop header entries_per_sector (seqZ 0 (num_partition_entries header)) [] d.

Definition get_partition (i : Z) (d : D) : outcome (result string Partition * D) :=
  let? (header, d) := read_gpt_header d in
  entries_per_sector ← div_u SECTOR_SIZE (partition_entry_size header);
  let? (e, d) := load_entry header entries_per_sector i d in
  Ret (if (first_lba e =? 0) || (last_lba e <? first_lba e) then Err "partition not found"%string else Ok (partition_of i e), d).

(** ** What a table says *)

(** A disk with a table whose entries fit into sectors of the disk. *)
Record table_ok (d : D) (h : GptHeader) : Prop := {
  to_inv : bd_inv d;
  to_header : 1 < bd_total d /\ read_header (bd_sector d 1) = h;
  to_signature : gpt_signature h = GPT_SIGNATURE /\ 92 <= header_size h;
  to_size : GPT_ENTRY_SIZE <= partition_entry_size h <= SECTOR_SIZE;
  to_range : 0 <= partition_entry_lba h /\ 0 <= num_partition_entries h /\
    forall i, 0 <= i < num_partition_entries h -> partition_entry_lba h + i / (SECTOR_SIZE / partition_entry_size h) < bd_total d;
}.
(** The partition that an entry describes by its first and last sector, when
    there is one. *)
Definition partition_at (d : D) (h : GptHeader) (i : Z) : option Partition :=
  let n := SECTOR_SIZE / partition_entry_size h in
  let sector := bd_sector d (partition_entry_lba h + i / n) in
  let first := field sector (i mod n * partition_entry_size h + 32) 8 in
  let last := field sector (i mod n * partition_entry_size h + 40) 8 in
  let size := last - first + 1 in
  if decide (first <> 0 /\ first <= last) then Some (mk_partition i first last size (first * 512 mod two64) (size * 512 mod two64)) else None.

Lemma read_gpt_header_ok d h : table_ok d h -> exists d', read_gpt_header d = Ret (Ok h, d') /\ unchanged d d'.
Proof.
  intros [Hi [H1 Hh] [Hs Hz] _ _]. destruct (bd_read_ok d 1 Hi ltac:(lia)) as (d' & E & U). unfold read_gpt_header. rewrite E.
  cbn [try_bind]. rewrite Hh. rewrite bool_decide_eq_true_2 by done. cbn [negb]. destruct (Z.ltb_spec (header_size h) 92); [lia|]. by exists d'.
Qed.
Lemma load_entry_ok d d1 h i : table_ok d h -> unchanged d d1 -> 0 <= i < num_partition_entries h ->
  exists d2, load_entry h (SECTOR_SIZE / partition_entry_size h) i d1 =
      Ret (Ok (entry_of (bd_sector d (partition_entry_lba h + i / (SECTOR_SIZE / partition_entry_size h)))
                 (i mod (SECTOR_SIZE / partition_entry_size h) * partition_entry_size h)), d2) /\ unchanged d d2.
Proof.
  intros [Hi _ _ Hz [Hl [_ Hr]]] (Hi1 & Ht1 & Hs1) Hin. specialize (Hr i Hin). unfold GPT_ENTRY_SIZE, SECTOR_SIZE in *.
  set (n := 512 / partition_entry_size h) in *. assert (Hn : 1 <= n /\ n * partition_entry_size h <= 512).
  { unfold n. split; [apply Z.div_le_lower_bound; lia|]. rewrite Z.mul_comm. apply Z.mul_div_le. lia. }
  pose proof (bd_total_range d Hi). assert (Hq : 0 <= i / n /\ 0 <= i mod n < n) by (split; [apply Z.div_pos; lia|apply Z.mod_pos_bound; lia]).
  unfold load_entry, div_u, mod_u. destruct (Z.eqb_spec n 0); [lia|]. rewrite !bind_Ret. rewrite !u32_small by (rewrite ?u32_small; lia).
  destruct (bd_read_ok d1 (partition_entry_lba h + i / n) Hi1 ltac:(lia)) as (d2 & -> & U2). cbn [try_bind].
  rewrite Hs1 by lia. destruct (bd_sector_ok d (partition_entry_lba h + i / n) Hi ltac:(lia)) as [Hlen _]. unfold read_entry, GPT_ENTRY_SIZE.
  unfold SECTOR_SIZE in Hlen. rewrite Hlen. destruct (Z.leb_spec (i mod n * partition_entry_size h + 128) 512); [|nia]. rewrite bind_Ret.
  exists d2. split; [done|]. apply (unchanged_trans d d1); [by split|exact U2].
Qed.
Lemma listed_partition d h i e : table_ok d h -> 0 <= i < num_partition_entries h ->
  e = entry_of (bd_sector d (partition_entry_lba h + i / (SECTOR_SIZE / partition_entry_size h)))
    (i mod (SECTOR_SIZE / partition_entry_size h) * partition_entry_size h) ->
  partition_at d h i = if negb (first_lba e =? 0) && (first_lba e <=? last_lba e) then Some (partition_of i e) else None.
Proof.
  intros [Hi _ _ Hz [Hl [_ Hr]]] Hin ->. specialize (Hr i Hin). unfold partition_at, partition_of, entry_of. cbv zeta. cbn [first_lba last_lba].
  set (n := SECTOR_SIZE / partition_entry_size h) in *. set (lba := partition_entry_lba h + i / n) in *.
  assert (0 <= i / n) by (apply Z.div_pos; [lia|]; unfold n, GPT_ENTRY_SIZE, SECTOR_SIZE in *; apply Z.div_str_pos; lia).
  destruct (bd_sector_ok d lba Hi ltac:(lia)) as [_ Hb]. set (off := i mod n * partition_entry_size h).
  pose proof (field_range (bd_sector d lba) (off + 32) 8 Hb ltac:(lia)) as H1. pose proof (field_range (bd_sector d lba) (off + 40) 8 Hb ltac:(lia)) as H2.
  change (256 ^ 8) with two64 in *. set (f := field (bd_sector d lba) (off + 32) 8) in *. set (l := field (bd_sector d lba) (off + 40) 8) in *.
  destruct (decide _) as [[Hf Hle]|Hn], (Z.eqb_spec f 0), (Z.leb_spec f l); cbn [negb andb]; try done; try tauto; try lia.
  by rewrite (u64_small (l - f + 1)) by lia.
Qed.
Lemma list_loop_ok d h idxs ps d1 : table_ok d h -> unchanged d d1 -> Forall (fun i => 0 <= i < num_partition_entries h) idxs ->
  exists d2, list_loop h (SECTOR_SIZE / partition_entry_size h) idxs ps d1 = Ret (Ok (ps ++ omap (partition_at d h) idxs), d2) /\ unchanged d d2.
Proof.
  intros Ht. revert ps d1. induction idxs as [|i idxs IH]; intros ps d1 U Hall; cbn [list_loop].
  { exists d1. cbn. by rewrite app_nil_r. }
  apply Forall_cons in Hall as [Hin Hall]. destruct (load_entry_ok d d1 h i Ht U Hin) as (d2 & -> & U2). cbn [try_bind].
  set (e := entry_of _ _). destruct (IH (if negb (first_lba e =? 0) && (first_lba e <=? last_lba e) then ps ++ [partition_of i e] else ps) d2 U2 Hall)
    as (d3 & -> & U3). exists d3. split; [|done]. cbn [omap list_omap]. rewrite (listed_partition d h i e Ht Hin eq_refl).
  destruct (_ && _); [|done]. by rewrite <- app_assoc.
Qed.

(** On a disk with a valid partition table, [list_partitions] returns
    exactly the partitions of the table in order, and [get_partition] of an
    entry returns the partition that is listed for it, or the error when the
    entry is empty; neither changes the disk. *)
Theorem gpt_partitions_exact d h :
  table_ok d h ->
  (exists d', list_partitions d = Ret (Ok (omap (partition_at d h) (seqZ 0 (num_partition_entries h))), d') /\ unchanged d d') /\
  forall i, 0 <= i < num_partition_entries h ->
    exists d', get_partition i d = Ret (match partition_at d h i with Some p => Ok p | None => Err "partition not found"%string end, d') /\
      unchanged d d'.
Proof.
  intros Ht. destruct (read_gpt_header_ok d h Ht) as (d1 & E & U).
  assert (Hz : partition_entry_size h <> 0) by (destruct Ht as [_ _ _ Hz _]; unfold GPT_ENTRY_SIZE in Hz; lia).
  unfold list_partitions, get_partition. rewrite E. cbn [try_bind]. unfold div_u at 1. destruct (Z.eqb_spec (partition_entry_size h) 0); [done|].
  rewrite bind_Ret. split.
  - apply (list_loop_ok d h _ [] d1 Ht U). apply Forall_forall. intros i Hi%elem_of_seqZ. lia.
  - intros i Hi. unfold div_u. destruct (Z.eqb_spec (partition_entry_size h) 0); [done|]. rewrite bind_Ret.
    destruct (load_entry_ok d d1 h i Ht U Hi) as (d2 & -> & U2). cbn [try_bind]. exists d2. split; [|done].
    set (e := entry_of _ _). rewrite (listed_partition d h i e Ht Hi eq_refl).
    destruct (Z.eqb_spec (first_lba e) 0), (Z.leb_spec (first_lba e) (last_lba e)), (Z.ltb_spec (last_lba e) (first_lba e)); cbn [negb andb orb]; done || lia.
Qed.
End gpt.

(** A disk of 8 sectors with a table of four entries, the third one in use. *)
Definition sample_entry : list Z := replicate 32 1 ++ to_le 8 4 ++ to_le 8 6 ++ replicate 80 0.
Definition sample_header : list Z :=
  GPT_SIGNATURE ++ to_le 4 0x10000 ++ to_le 4 92 ++ replicate 56 0 ++ to_le 8 2 ++ to_le 4 4 ++ to_le 4 128 ++ to_le 4 0 ++ replicate 420 0.
Definition sample_gpt_disk : IdeDisk * drive :=
  (mk_ide PRIMARY_BASE false 8,
   mk_drive ([zero_sector; sample_header; replicate 256 0 ++ sample_entry ++ replicate 128 0] ++ replicate 5 zero_sector) 0 0 0 0 0 Idle).

Lemma gpt_partitions_exact_witness :
  exists d1 d2, list_partitions sample_gpt_disk = Ret (Ok [mk_partition 2 4 6 3 2048 1536], d1) /\
    get_partition 1 sample_gpt_disk = Ret (Err "partition not found"%string, d2).
Proof.
  destruct (gpt_partitions_exact sample_gpt_disk (read_header sample_header)) as [(d1 & E1 & _) Hget].
  - split.
    + split; [reflexivity|]. split; [reflexivity|]. split; [vm_compute; reflexivity|]. split; [vm_compute; discriminate|].
      apply sectors_okb. vm_compute. reflexivity.
    + split; reflexivity.
    + split; [reflexivity|discriminate].
    + split; discriminate.
    + split; [discriminate|]. split; [discriminate|]. intros i Hi. change (num_partition_entries (read_header sample_header)) with 4 in Hi.
      change (2 + i / 4 < 8). dlia.
  - destruct (Hget 1 ltac:(split; [discriminate|reflexivity])) as (d2 & E2 & _). exists d1, d2. split; [exact E1|exact E2].
Defined.
