(* ===== verification/Ext2.v ===== *)
(** * The ext2 reader (src/src/fs/ext2.rs)

    The superblock, the group descriptors, inodes, files through the direct and
    the first indirect blocks, and directories, over the disk interface.
    Sector and block numbers are 32 bits wide and wrap. *)

From S2P Require Import Prelude Bytes Ide Fat32 Volume.

(** The fields of the structures that the driver uses. *)
Record Ext2Superblock : Type := mk_ext2_sb {
  blocks_count : Z; log_block_size : Z; sb_blocks_per_group : Z; sb_inodes_per_group : Z; sb_magic : Z; rev_level : Z; sb_inode_size : Z;
}.
Definition read_superblock (buf : list Z) : Ext2Superblock :=
  mk_ext2_sb (field buf 4 4) (field buf 24 4) (field buf 32 4) (field buf 40 4) (field buf 56 2) (field buf 76 4) (field buf 88 2).
Record Ext2GroupDesc : Type := mk_group { block_bitmap : Z; inode_bitmap : Z; inode_table : Z }.
Definition read_group (buf : list Z) (off : Z) : Ext2GroupDesc :=
  mk_group (field buf off 4) (field buf (off + 4) 4) (field buf (off + 8) 4).
Record Ext2Inode : Type := mk_ext2_inode { i_mode : Z; i_size : Z; i_block : list Z }.
Definition EXT2_INODE_SIZE : Z := 128.
(** [ptr::read] of an inode, which may begin too near the end of the sector. *)
Definition inode_of (buf : list Z) (off : Z) : Ext2Inode :=
  mk_ext2_inode (field buf off 2) (field buf (off + 4) 4) ((fun i => field buf (off + 40 + i * 4) 4) <$> seqZ 0 15).
Definition load_inode (buf : list Z) (off : Z) : outcome Ext2Inode :=
  if off + EXT2_INODE_SIZE <=? lenZ buf then Ret (inode_of buf off) else UB.

Record Ext2DirEntry : Type := mk_ext2_entry { de_inode : Z; de_name : list Z; de_type : Z }.
Record Ext2Fs : Type := mk_ext2 {
  block_size : Z; inodes_per_group : Z; blocks_per_group : Z; num_block_groups : Z; inode_size : Z;
  group_desc_table : list Ext2GroupDesc; partition_offset : Z;
}.

Section ext2.
Context {D : Type} `{BlockDevice D}.

(** Sectors [start + i] into a buffer, those that fit. *)
Fixpoint read_into (idxs : list Z) (start : Z) (buf : list Z) (d : D) : outcome (result string (list Z) * D) :=
  match idxs with
  | [] => Ret (Ok buf, d)
  | s :: idxs' =>
      let? (sector, d) := bd_read (u32 (start + s)) d in
      let offset := s * SECTOR_SIZE in
      buf ← (if offset + SECTOR_SIZE <=? lenZ buf then copy_into buf offset (offset + SECTOR_SIZE) sector else Ret buf);
      read_into idxs' start buf d
  end.

(** The descriptors that lie in the buffer. *)
Definition parse_groups (n : Z) (buf : list Z) : list Ext2GroupDesc :=
  omap (fun i => if i * 32 + 32 <=? lenZ buf then Some (read_group buf (i * 32)) else None) (seqZ 0 n).

(** The shift of a [u32] takes its distance modulo 32. *)
Definition ext2_init (partition_offset : Z) (d : D) : outcome (result string Ext2Fs * D) :=
  let? (buf, d) := bd_read (u32 (partition_offset + 2)) d in
  let sb := read_superblock buf in
  if negb (sb_magic sb =? 0xEF53) then Ret (Err "not ext2 (bad magic)"%string, d)
  else
    let block_size := u32 (Z.shiftl 1024 (Z.land (log_block_size sb) 31)) in
    let inode_size := if 1 <=? rev_level sb then sb_inode_size sb else 128 in
    num_block_groups ← div_u (u32 (blocks_count sb + sb_blocks_per_group sb - 1)) (sb_blocks_per_group sb);
    let bgdt_start_sector := if block_size =? 1024 then u32 (partition_offset + 4) else u32 (partition_offset + block_size / SECTOR_SIZE) in
    let bgdt_sectors := (num_block_groups * 32 + SECTOR_SIZE - 1) / SECTOR_SIZE in
    let? (bgdt_buf, d) := read_into (seqZ 0 bgdt_sectors) bgdt_start_sector (replicate (Z.to_nat (bgdt_sectors * SECTOR_SIZE)) 0) d in
    Ret (Ok (mk_ext2 block_size (sb_inodes_per_group sb) (sb_blocks_per_group sb) num_block_groups inode_size
               (parse_groups num_block_groups bgdt_buf) partition_offset), d).

Definition sectors_per_block (fs : Ext2Fs) : Z := block_size fs / SECTOR_SIZE.
Definition read_block (fs : Ext2Fs) (block : Z) (buf : list Z) (d : D) : outcome (result string (list Z) * D) :=
  let start_sector := u32 (partition_offset fs + u32 (block * sectors_per_block fs)) in
  read_into (seqZ 0 (sectors_per_block fs)) start_sector buf d.

Definition read_inode (fs : Ext2Fs) (inode_num : Z) (d : D) : outcome (result string Ext2Inode * D) :=
  if inode_num =? 0 then Ret (Err "invalid inode 0"%string, d)
  else
    let inode_index := inode_num - 1 in
    group ← div_u inode_index (inodes_per_group fs);
    index_in_group ← mod_u inode_index (inodes_per_group fs);
    if lenZ (group_desc_table fs) <=? group then Ret (Err "inode group out of range"%string, d)
    else
      desc ← index (group_desc_table fs) group;
      let inode_table_sector := u32 (partition_offset fs + u32 (inode_table desc * sectors_per_block fs)) in
      let byte_offset := u32 (index_in_group * inode_size fs) in
      let? (buf, d) := bd_read (u32 (inode_table_sector + byte_offset / SECTOR_SIZE)) d in
      inode ← load_inode buf (byte_offset mod SECTOR_SIZE);
      Ret (Ok inode, d).
Definition root_inode (fs : Ext2Fs) (d : D) : outcome (result string Ext2Inode * D) := read_inode fs 2 d.

(** The loops over block pointers: the offset reached, the block buffer and the
    result so far. *)
Fixpoint copy_loop (fs : Ext2Fs) (pointer : Z -> outcome Z) (idxs : list Z) (size : Z) (x : Z * list Z * list Z) (d : D)
  : outcome (result string (Z * list Z * list Z) * D) :=
  match idxs with
  | [] => Ret (Ok x, d)
  | i :: idxs' =>
      let '(offset, block_buf, buf) := x in
      if (lenZ buf <=? offset) || (size <=? offset) then Ret (Ok x, d)
      else
        block ← pointer i;
        if block =? 0 then copy_loop fs pointer idxs' size x d
        else
          let? (block_buf, d) := read_block fs block block_buf d in
          let to_copy := Z.min (lenZ buf - offset) (Z.min (size - offset) (block_size fs)) in
          src ← slice block_buf 0 to_copy;
          buf ← copy_into buf offset (offset + to_copy) src;
          copy_loop fs pointer idxs' size (offset + to_copy, block_buf, buf) d
  end.

Definition read_file_data (fs : Ext2Fs) (inode : Ext2Inode) (size : Z) (buf : list Z) (d : D) : outcome (result string (Z * list Z) * D) :=
  let block_buf := replicate (Z.to_nat (block_size fs)) 0 in
  let? (x, d) := copy_loop fs (index (i_block inode)) (seqZ 0 12) size (0, block_buf, buf) d in
  let '(offset, block_buf, buf) := x in
  indirect ← index (i_block inode) 12;
  if (offset <? lenZ buf) && (offset <? size) && negb (indirect =? 0) then
    let? (indirect_buf, d) := read_block fs indirect (replicate (Z.to_nat (block_size fs)) 0) d in
    let? (x, d) := copy_loop fs (fun i => entry_at indirect_buf (i * 4)) (seqZ 0 (block_size fs / 4)) size (offset, block_buf, buf) d in
    let '(offset, _, buf) := x in
    Ret (Ok (offset, buf), d)
  else Ret (Ok (offset, buf), d).

(** Every round goes on by at least one byte, so the length of the buffer is
    enough fuel. *)
Fixpoint parse_dir (fuel : nat) (dir_size : Z) (dir_buf : list Z) (pos : Z) (entries : list Ext2DirEntry) : outcome (list Ext2DirEntry) :=
  if dir_size <=? pos then Ret entries
  else if lenZ dir_buf <? pos + 8 then Ret entries
  else
    match fuel with
    | O => Hang
    | S fuel' =>
        entry_inode ← entry_at dir_buf pos;
        l0 ← index dir_buf (pos + 4);
        l1 ← index dir_buf (pos + 5);
        let entry_len := from_le [l0; l1] in
        name_len ← index dir_buf (pos + 6);
        file_type ← index dir_buf (pos + 7);
        if (entry_inode =? 0) || (entry_len =? 0) then Ret entries
        else
          entries ← (if (0 <? name_len) && (name_len <=? 255) then
                       name_bytes ← slice dir_buf (pos + 8) (pos + 8 + name_len);
                       Ret (entries ++ [mk_ext2_entry entry_inode (utf8_or name_bytes [0x3F]) file_type])
                     else Ret entries);
          parse_dir fuel' dir_size dir_buf (pos + entry_len) entries
    end.
Definition readdir (fs : Ext2Fs) (inode : Ext2Inode) (d : D) : outcome (result string (list Ext2DirEntry) * D) :=
  let dir_size := i_size inode in
  let? (x, d) := read_file_data fs inode dir_size (replicate (Z.to_nat dir_size) 0) d in
  entries ← parse_dir (Z.to_nat dir_size) dir_size x.2 0 [];
  Ret (Ok entries, d).
End ext2.

(** ** Files *)

Lemma lenZ_copy_into {A} (l : list A) a b data l' : copy_into l a b data = Ret l' -> lenZ l' = lenZ l.
Proof. unfold copy_into. zcases; try done. intros [= <-]. by apply lenZ_write_at; lia. Qed.
Lemma lenZ_take {A} (l : list A) n : 0 <= n -> lenZ (take (Z.to_nat n) l) = Z.min n (lenZ l).
Proof. intros. unfold lenZ. rewrite length_take. lia. Qed.

Section files.
Context {D : Type} `{BlockDevice D}.
Implicit Types d : D.

Lemma read_into_fits idxs start buf d : Forall (fun i => 0 <= i /\ i * 512 + 512 <= lenZ buf) idxs -> read_into idxs start buf d = read_cluster_loop idxs start buf d.
Proof.
  revert buf d. induction idxs as [|i idxs IH]; intros buf d Hall; [done|]. apply Forall_cons in Hall as [[Hi Hf] Hall].
  cbn [read_into read_cluster_loop]. destruct (bd_read (u32 (start + i)) d) as [[[sec|e] d1]| | | |]; [|done..]. cbn [try_bind]. unfold SECTOR_SIZE.
  destruct (Z.leb_spec (i * 512 + 512) (lenZ buf)); [|lia]. destruct (copy_into buf (i * 512) (i * 512 + 512) sec) as [buf'| | | |] eqn:E; [|done..].
  rewrite !bind_Ret. apply IH. apply lenZ_copy_into in E. by rewrite E.
Qed.

Variable fs : Ext2Fs.
(** Blocks of whole sectors, on a disk that begins with the partition. *)
Record ext2_ok (d : D) : Prop := {
  xo_inv : bd_inv d;
  xo_part : 0 <= partition_offset fs;
  xo_size : block_size fs = sectors_per_block fs * 512 /\ 0 < sectors_per_block fs;
}.
Definition block_start (b : Z) : Z := partition_offset fs + b * sectors_per_block fs.
Definition block_ok d (b : Z) : Prop := 0 < b /\ block_start b + sectors_per_block fs <= bd_total d.
Definition block_data d (b : Z) : list Z := concat (bd_sector d <$> seqZ (block_start b) (sectors_per_block fs)).

Lemma ext2_block_len d b : ext2_ok d -> block_ok d b -> lenZ (block_data d b) = block_size fs.
Proof. intros [Hi Hp [-> Hs]] [Hb Hr]. unfold block_start in *. apply sectors_len; [done|unfold block_start; nia|lia|done]. Qed.
Lemma ext2_read_block_spec d d1 b buf : ext2_ok d -> unchanged d d1 -> block_ok d b -> lenZ buf = block_size fs ->
  exists d2, read_block fs b buf d1 = Ret (Ok (block_data d b), d2) /\ unchanged d d2.
Proof.
  intros Hok U Hb Hl. pose proof Hok as [Hi Hp [Hz Hs]]. destruct U as (Hi1 & Ht1 & Hs1). pose proof (bd_total_range d Hi).
  pose proof Hb as [Hb0 Hr]. unfold read_block. unfold block_start in Hr.
  rewrite (u32_small (b * sectors_per_block fs)), u32_small by nia.
  rewrite read_into_fits by (apply Forall_forall; intros i Hin%elem_of_seqZ; nia).
  destruct (read_cluster_loop_spec (Z.to_nat (sectors_per_block fs)) 0 (block_start b) buf d1) as (d2 & E & U2);
    [done|lia|lia|unfold block_start; nia|unfold block_start; lia|lia|].
  rewrite Z2Nat.id, Z.add_0_r in E by lia. exists d2. fold (block_start b). rewrite E. split; [|by apply (unchanged_trans d d1)].
  rewrite (unchanged_sectors d d1) by (done || unfold block_start; nia). rewrite write_at_0; [done|]. fold (block_data d b).
  by rewrite ext2_block_len.
Qed.

Lemma copy_loop_spec d pointer size idxs bl offset bb buf d1 :
  ext2_ok d -> unchanged d d1 -> lenZ bb = block_size fs -> 0 <= offset <= size -> size <= lenZ buf ->
  Forall2 (fun i b => pointer i = Ret b) idxs bl ->
  (forall k b, bl !! k = Some b -> offset + Z.of_nat k * block_size fs < size -> block_ok d b) ->
  exists bb' d2, let m := Z.min size (offset + lenZ bl * block_size fs) in
    copy_loop fs pointer idxs size (offset, bb, buf) d1 =
      Ret (Ok (m, bb', write_at buf offset (take (Z.to_nat (m - offset)) (concat (block_data d <$> bl)))), d2) /\
    unchanged d d2 /\ lenZ bb' = block_size fs.
Proof.
  intros Hok U Hbb Ho Hsz Hp. revert offset bb buf d1 U Hbb Ho Hsz. pose proof Hok as [_ _ [Hz Hs]].
  induction Hp as [|i b idxs bl Hi _ IH]; intros offset bb buf d1 U Hbb Ho Hsz Hall; cbv zeta.
  { exists bb, d1. change (lenZ []) with 0. rewrite Z.mul_0_l, Z.add_0_r, Z.min_r, Z.sub_diag by lia. change (Z.to_nat 0) with 0%nat. rewrite firstn_O, write_at_nil. done. }
  cbn [copy_loop fmap list_fmap concat]. rewrite lenZ_cons. pose proof (lenZ_nonneg bl).
  destruct (Z.leb_spec (lenZ buf) offset), (Z.leb_spec size offset); cbn [orb]; try lia.
  - exists bb, d1. rewrite Z.min_l by nia. replace (size - offset) with 0 by lia. change (Z.to_nat 0) with 0%nat. rewrite firstn_O, write_at_nil. replace size with offset by lia. done.
  - exists bb, d1. rewrite Z.min_l by nia. replace (size - offset) with 0 by lia. change (Z.to_nat 0) with 0%nat. rewrite firstn_O, write_at_nil. replace size with offset by lia. done.
  - rewrite Hi, bind_Ret. assert (Hb : block_ok d b) by (apply (Hall 0%nat b); [done|cbn; lia]).
    destruct (Z.eqb_spec b 0); [destruct Hb; lia|]. destruct (ext2_read_block_spec d d1 b bb Hok U Hb Hbb) as (d2 & -> & U2). cbn [try_bind].
    pose proof (ext2_block_len d b Hok Hb) as Hbl. set (to_copy := Z.min (lenZ buf - offset) (Z.min (size - offset) (block_size fs))).
    assert (Htc : to_copy = Z.min (size - offset) (block_size fs)) by lia. clearbody to_copy.
    rewrite slice_Ret, bind_Ret by lia. rewrite Z.sub_0_r. change (drop (Z.to_nat 0) (block_data d b)) with (block_data d b).
    set (src := take (Z.to_nat to_copy) (block_data d b)). assert (Hsrc : lenZ src = to_copy) by (unfold src; rewrite lenZ_take; lia).
    replace (offset + to_copy) with (offset + lenZ src) by lia. rewrite copy_into_Ret, bind_Ret by lia.
    destruct (IH (offset + lenZ src) (block_data d b) (write_at buf offset src) d2 U2 Hbl) as (bb' & d3 & E & U3 & Hbb'); [lia|rewrite lenZ_write_at; lia| |].
    { intros k b' Hk Hlt. apply (Hall (S k) b'); [done|lia]. }
    cbv zeta in E. rewrite E. exists bb', d3. split; [|done].
    replace (Z.min size (offset + lenZ src + lenZ bl * block_size fs)) with (Z.min size (offset + (lenZ bl + 1) * block_size fs)) by nia.
    set (m := Z.min size (offset + (lenZ bl + 1) * block_size fs)). do 4 f_equal.
    unfold fmap. fold (@fmap list _ _ _ (block_data d) bl). set (rest := concat (block_data d <$> bl)).
    assert (Hm : offset + to_copy <= m <= size) by (unfold m; nia).
    rewrite write_at_app; [|lia|rewrite Hsrc, lenZ_take by lia; lia]. f_equal.
    rewrite take_app. unfold src. f_equal.
    + destruct (decide (block_size fs <= size - offset)).
      * rewrite !take_ge; [done|unfold lenZ in Hbl; lia|unfold lenZ in Hbl; lia].
      * f_equal. lia.
    + fold src. rewrite Hsrc. f_equal. unfold lenZ in Hbl. destruct (decide (block_size fs <= size - offset)); lia.
Qed.

(** The numbers of the blocks of a file: twelve in the inode, the others in the
    block that its thirteenth entry names. *)
Definition indirect d (inode : Ext2Inode) : list Z :=
  match lookupZ (i_block inode) 12 with
  | Some b => if b =? 0 then [] else (fun i => field (block_data d b) (i * 4) 4) <$> seqZ 0 (block_size fs / 4)
  | None => []
  end.
Definition pointers d (inode : Ext2Inode) : list Z := take 12 (i_block inode) ++ indirect d inode.
Definition file_data d (inode : Ext2Inode) (size : Z) : list Z := take (Z.to_nat size) (concat (block_data d <$> pointers d inode)).
(** A file without holes that the indirect block is enough for. *)
Record file_ok d (inode : Ext2Inode) (size : Z) : Prop := {
  fo_pointers : lenZ (i_block inode) = 15;
  fo_size : 0 <= size <= lenZ (pointers d inode) * block_size fs;
  fo_blocks : forall k b, pointers d inode !! k = Some b -> Z.of_nat k * block_size fs < size -> block_ok d b;
  fo_indirect : 12 * block_size fs < size -> forall b, lookupZ (i_block inode) 12 = Some b -> block_ok d b;
}.

Lemma direct_pointers inode : lenZ (i_block inode) = 15 -> Forall2 (fun i b => index (i_block inode) i = Ret b) (seqZ 0 12) (take 12 (i_block inode)).
Proof.
  intros Hl. apply Forall2_same_length_lookup_2.
  { rewrite length_seqZ, length_take. unfold lenZ in Hl. lia. }
  intros k i b Hi Hb. apply lookup_seqZ in Hi as [-> Hk]. rewrite lookup_take_lt in Hb by lia. unfold index, lookupZ.
  destruct (Z.ltb_spec (0 + Z.of_nat k) 0); [lia|]. replace (Z.to_nat (0 + Z.of_nat k)) with k by lia. by rewrite Hb.
Qed.
Lemma indirect_pointers d b : ext2_ok d -> block_ok d b ->
  Forall2 (fun i p => entry_at (block_data d b) (i * 4) = Ret p) (seqZ 0 (block_size fs / 4)) ((fun i => field (block_data d b) (i * 4) 4) <$> seqZ 0 (block_size fs / 4)).
Proof.
  intros Hok Hb. pose proof (ext2_block_len d b Hok Hb) as Hl. apply Forall2_fmap_r. apply Forall_Forall2_diag, Forall_forall.
  intros i Hi%elem_of_seqZ. apply entry_at_field; [lia|]. rewrite Hl. dlia.
Qed.

Lemma write_at_pieces (buf A B : list Z) : lenZ A + lenZ B <= lenZ buf -> write_at (write_at buf 0 A) (lenZ A) B = write_at buf 0 (A ++ B).
Proof. intros Hl. rewrite <- (Z.add_0_l (lenZ A)) at 1. apply write_at_app; lia. Qed.
Lemma blocks_len d bl : ext2_ok d -> Forall (block_ok d) bl -> lenZ (concat (block_data d <$> bl)) = lenZ bl * block_size fs.
Proof.
  intros Hok. induction 1 as [|b bl Hb _ IH]; [done|]. rewrite fmap_cons. cbn [concat]. rewrite lenZ_app, IH, lenZ_cons, ext2_block_len by done. lia.
Qed.
Lemma blocks_cover d bl size : ext2_ok d -> (forall k b, bl !! k = Some b -> Z.of_nat k * block_size fs < size -> block_ok d b) ->
  size <= lenZ bl * block_size fs -> size <= lenZ (concat (block_data d <$> bl)).
Proof.
  intros Hok. revert size. induction bl as [|b bl IH]; intros size Hall Hsz; [done|]. rewrite fmap_cons. cbn [concat]. rewrite lenZ_app. rewrite lenZ_cons in Hsz.
  pose proof (lenZ_nonneg (concat (block_data d <$> bl))). pose proof (lenZ_nonneg (block_data d b)). destruct (decide (0 < size)); [|lia].
  rewrite (ext2_block_len d b Hok) by (apply (Hall 0%nat b); [done|cbn; lia]).
  specialize (IH (size - block_size fs)). lapply IH; [|intros k b' Hk Hlt; apply (Hall (S k) b'); [done|lia]]. lia.
Qed.

Lemma read_file_spec d inode size buf : ext2_ok d -> file_ok d inode size -> size <= lenZ buf ->
  exists d', read_file_data fs inode size buf d = Ret (Ok (size, write_at buf 0 (file_data d inode size)), d') /\ unchanged d d'.
Proof.
  intros Hok [Hl Hsz Hbl Hin] Hbuf. pose proof Hok as [Hi _ [Hz Hs]]. assert (Hbs : 0 < block_size fs) by lia.
  assert (H12 : lenZ (take 12 (i_block inode)) = 12) by (unfold lenZ in *; rewrite length_take; lia).
  unfold read_file_data. destruct (copy_loop_spec d (index (i_block inode)) size (seqZ 0 12) (take 12 (i_block inode)) 0
      (replicate (Z.to_nat (block_size fs)) 0) buf d Hok) as (bb & d1 & E & U1 & Hbb);
    [by apply unchanged_refl|rewrite lenZ_replicate; lia|lia|done|by apply direct_pointers| |].
  { intros k b Hk Hlt. apply (Hbl k b); [|lia]. unfold pointers. by apply lookup_app_l_Some. }
  cbv zeta in E. rewrite H12, Z.add_0_l, Z.sub_0_r in E. rewrite E. clear E. cbn [try_bind].
  set (A := take _ (concat _)). assert (HA0 : lenZ A <= size) by (unfold A; rewrite lenZ_take by lia; lia).
  rewrite lenZ_write_at by lia. destruct (lookupZ_lt (i_block inode) 12 ltac:(lia)) as [ib Hib]. unfold index at 1. rewrite Hib, bind_Ret.
  destruct (Z.ltb_spec (Z.min size (12 * block_size fs)) size).
  - rewrite Z.min_r in * by lia. specialize (Hin ltac:(lia) ib Hib). assert ((ib =? 0) = false) as Hib0 by (destruct Hin; zcases; lia || done).
    destruct (Z.ltb_spec (12 * block_size fs) (lenZ buf)); [|lia]. rewrite Hib0. cbn [andb negb].
    destruct (ext2_read_block_spec d d1 ib (replicate (Z.to_nat (block_size fs)) 0) Hok U1 Hin) as (d2 & -> & U2); [rewrite lenZ_replicate; lia|]. cbn [try_bind].
    assert (Hp : pointers d inode = take 12 (i_block inode) ++ ((fun i => field (block_data d ib) (i * 4) 4) <$> seqZ 0 (block_size fs / 4))).
    { unfold pointers, indirect. by rewrite Hib, Hib0. }
    assert (HX : lenZ (concat (block_data d <$> take 12 (i_block inode))) = 12 * block_size fs).
    { assert (Hall : Forall (block_ok d) (take 12 (i_block inode))).
      { apply Forall_lookup. intros k b Hk. apply (Hbl k b); [rewrite Hp; by apply lookup_app_l_Some|].
        apply lookup_lt_Some in Hk. unfold lenZ in H12. nia. }
      by rewrite blocks_len, H12. }
    assert (HA : A = concat (block_data d <$> take 12 (i_block inode))) by (unfold A; apply take_ge; unfold lenZ in HX; lia).
    clearbody A. subst A. set (A := concat (block_data d <$> take 12 (i_block inode))) in *.
    unfold file_data. rewrite Hp in *. set (bl2 := _ <$> seqZ 0 (block_size fs / 4)) in *. rewrite lenZ_app, H12 in Hsz.
    destruct (copy_loop_spec d (fun i => entry_at (block_data d ib) (i * 4)) size (seqZ 0 (block_size fs / 4)) bl2 (12 * block_size fs) bb (write_at buf 0 A) d2 Hok U2 Hbb)
      as (bb' & d3 & E & U3 & _); [lia|rewrite lenZ_write_at; lia|by apply indirect_pointers| |].
    { intros k b Hk Hlt. apply (Hbl (12 + k)%nat b); [|lia]. rewrite lookup_app_r by (unfold lenZ in H12; lia). rewrite <- Hk. f_equal. unfold lenZ in H12. lia. }
    cbv zeta in E. rewrite E. cbn [try_bind]. rewrite Z.min_l by lia. exists d3. split; [|done]. do 4 f_equal. set (B := take _ (concat (block_data d <$> bl2))).
    assert (HB : lenZ B <= size - 12 * block_size fs) by (unfold B; rewrite lenZ_take by lia; lia).
    rewrite <- HX, write_at_pieces by lia. f_equal. rewrite fmap_app, concat_app. fold A. rewrite take_app_ge by (unfold lenZ in HX; lia).
    f_equal. unfold B. f_equal. unfold lenZ in HX. lia.
  - rewrite andb_false_r. exists d1. split; [|done]. assert (Hle : size <= 12 * block_size fs) by lia. unfold A, file_data, pointers.
    rewrite !(Z.min_l _ _ Hle), fmap_app, concat_app. rewrite take_app_le; [done|].
    pose proof (blocks_cover d (take 12 (i_block inode)) size Hok) as Hc. rewrite H12 in Hc. unfold lenZ in Hc. lapply Hc; [lia|].
    intros k b Hk. apply Hbl. by apply lookup_app_l_Some.
Qed.

Lemma ext2_file_len d inode size : ext2_ok d -> file_ok d inode size -> lenZ (file_data d inode size) = size.
Proof.
  intros Hok [Hl Hsz Hbl _]. pose proof (blocks_cover d (pointers d inode) size Hok Hbl ltac:(lia)). unfold file_data. rewrite lenZ_take; lia.
Qed.

(** ** Directories *)

(** An entry as the bytes of the directory, without the padding behind it. *)
Definition entry_bytes (e : Ext2DirEntry) (rec_len : Z) : list Z :=
  to_le 4 (de_inode e) ++ to_le 2 rec_len ++ [lenZ (de_name e); de_type e] ++ de_name e.
Record entry_ok (e : Ext2DirEntry) (rec_len : Z) : Prop := {
  eo_inode : 0 < de_inode e < two32;
  eo_len : 8 + lenZ (de_name e) <= rec_len < 65536;
  eo_name : 1 <= lenZ (de_name e) <= 255 /\ utf8_valid (de_name e) = true;
}.
(** The directory holds these entries from [pos] to its end. *)
Fixpoint dir_at (buf : list Z) (pos : Z) (es : list Ext2DirEntry) : Prop :=
  match es with
  | [] => pos = lenZ buf
  | e :: es' => exists rec_len, entry_ok e rec_len /\ pos + rec_len <= lenZ buf /\
      bytes_at buf pos (8 + lenZ (de_name e)) = entry_bytes e rec_len /\ dir_at buf (pos + rec_len) es'
  end.

Lemma index_bytes_at buf pos n l k x : bytes_at buf pos n = l -> 0 <= pos -> 0 <= k < n -> l !! Z.to_nat k = Some x -> index buf (pos + k) = Ret x.
Proof.
  intros <- Hp Hk Hx. unfold bytes_at in Hx. rewrite lookup_take_lt, lookup_drop in Hx by lia. unfold index, lookupZ.
  destruct (Z.ltb_spec (pos + k) 0); [lia|]. replace (Z.to_nat (pos + k)) with (Z.to_nat pos + Z.to_nat k)%nat by lia. by rewrite Hx.
Qed.
Lemma slice_bytes_at (buf : list Z) pos n : 0 <= pos -> 0 <= n -> pos + n <= lenZ buf -> slice buf pos (pos + n) = Ret (bytes_at buf pos n).
Proof. intros. rewrite slice_Ret by lia. unfold bytes_at. by replace (pos + n - pos) with n by lia. Qed.
Lemma bytes_at_drop (buf : list Z) pos k n : 0 <= pos -> 0 <= k -> 0 <= n -> bytes_at buf (pos + k) n = drop (Z.to_nat k) (bytes_at buf pos (k + n)).
Proof.
  intros. unfold bytes_at. replace (Z.to_nat (k + n)) with (Z.to_nat k + Z.to_nat n)%nat by lia. rewrite <- take_drop_commute, drop_drop.
  do 2 f_equal. lia.
Qed.

Lemma parse_dir_spec buf fuel pos es acc : 0 <= pos -> lenZ buf - pos <= Z.of_nat fuel -> dir_at buf pos es ->
  parse_dir fuel (lenZ buf) buf pos acc = Ret (acc ++ es).
Proof.
  revert fuel pos acc. induction es as [|e es IH]; intros fuel pos acc Hp Hf Hd.
  { cbn in Hd. subst pos. destruct fuel; cbn [parse_dir]; rewrite Z.leb_refl; by rewrite app_nil_r. }
  destruct Hd as (rl & [Hi Hl [Hn Hu]] & Hr & Hb & Hd). destruct fuel as [|fuel]; [lia|]. cbn [parse_dir].
  destruct (Z.leb_spec (lenZ buf) pos); [lia|]. destruct (Z.ltb_spec (lenZ buf) (pos + 8)); [lia|].
  assert (Hx : forall k x, 0 <= k < 8 -> entry_bytes e rl !! Z.to_nat k = Some x -> index buf (pos + k) = Ret x).
  { intros k x Hk. apply (index_bytes_at buf pos _ _ k x Hb Hp). lia. }
  unfold entry_at. rewrite <- (Z.add_0_r pos) at 1. rewrite (Hx 0 _ ltac:(lia) eq_refl), bind_Ret.
  rewrite (Hx 1 _ ltac:(lia) eq_refl), bind_Ret, (Hx 2 _ ltac:(lia) eq_refl), bind_Ret, (Hx 3 _ ltac:(lia) eq_refl), !bind_Ret.
  rewrite (Hx 4 _ ltac:(lia) eq_refl), bind_Ret, (Hx 5 _ ltac:(lia) eq_refl), bind_Ret, (Hx 6 _ ltac:(lia) eq_refl), bind_Ret, (Hx 7 _ ltac:(lia) eq_refl), bind_Ret.
  change (from_le [_; _; _; _]) with (from_le (to_le 4 (de_inode e))). change (from_le [_; _]) with (from_le (to_le 2 rl)).
  rewrite !from_to_le, !Z.mod_small by (cbn; lia). destruct (Z.eqb_spec (de_inode e) 0); [lia|]. destruct (Z.eqb_spec rl 0); [lia|]. cbn [orb].
  destruct (Z.ltb_spec 0 (lenZ (de_name e))); [|lia]. destruct (Z.leb_spec (lenZ (de_name e)) 255); [|lia]. cbn [andb].
  rewrite slice_bytes_at, bind_Ret, bytes_at_drop, Hb by lia. change (drop (Z.to_nat 8) (entry_bytes e rl)) with (de_name e).
  rewrite bind_Ret. unfold utf8_or. rewrite Hu. rewrite (IH fuel (pos + rl)) by (done || lia). rewrite <- app_assoc. by destruct e.
Qed.

(** A file without holes of up to the twelve direct blocks and those of
    the indirect block is read whole, byte for byte; a directory is listed
    with exactly its entries in order; nothing is written to the disk. *)
Theorem ext2_reads_files d inode es buf :
  ext2_ok d -> file_ok d inode (i_size inode) -> i_size inode <= lenZ buf ->
  (exists d', read_file_data fs inode (i_size inode) buf d =
      Ret (Ok (i_size inode, file_data d inode (i_size inode) ++ drop (Z.to_nat (i_size inode)) buf), d') /\ unchanged d d') /\
  (dir_at (file_data d inode (i_size inode)) 0 es -> exists d', readdir fs inode d = Ret (Ok es, d') /\ unchanged d d').
Proof.
  intros Hok Hf Hb. pose proof (ext2_file_len d inode _ Hok Hf) as Hlen. pose proof (fo_size _ _ _ Hf) as [H0 _]. split.
  - destruct (read_file_spec d inode (i_size inode) buf Hok Hf Hb) as (d' & E & U). exists d'. split; [|done]. rewrite E. do 4 f_equal.
    unfold write_at.
    change (Z.to_nat 0) with 0%nat. rewrite firstn_O. cbn [app]. do 2 f_equal. unfold lenZ in Hlen. lia.
  - intros Hd. destruct (read_file_spec d inode (i_size inode) (replicate (Z.to_nat (i_size inode)) 0) Hok Hf) as (d' & E & U); [rewrite lenZ_replicate; lia|].
    unfold readdir. rewrite E. cbn [try_bind snd]. rewrite write_at_0 by (rewrite lenZ_replicate; lia).
    pose proof (parse_dir_spec (file_data d inode (i_size inode)) (Z.to_nat (i_size inode)) 0 es []) as P. rewrite Hlen in P.
    rewrite P by (done || lia). rewrite bind_Ret. by exists d'.
Qed.
End files.

(** Blocks of two sectors, and a directory with the entries [.] and [..] in
    block 3. *)
Definition sample_ext2 : Ext2Fs := mk_ext2 1024 8 8192 1 128 [] 0.
Definition dot : Ext2DirEntry := mk_ext2_entry 2 [0x2E] 2.
Definition dotdot : Ext2DirEntry := mk_ext2_entry 2 [0x2E; 0x2E] 2.
Definition sample_dir : list Z := entry_bytes dot 12 ++ replicate 3 0 ++ entry_bytes dotdot 1012 ++ replicate 490 0.
Definition sample_ext2_disk : IdeDisk * drive :=
  (mk_ide PRIMARY_BASE false 10, mk_drive (replicate 6 zero_sector ++ [sample_dir] ++ replicate 3 zero_sector) 0 0 0 0 0 Idle).
Definition dir_inode : Ext2Inode := mk_ext2_inode 0x41ED 1024 (3 :: replicate 14 0).

Lemma ext2_reads_files_witness :
  exists d1 d2, Ext2.readdir sample_ext2 dir_inode sample_ext2_disk = Ret (Ok [dot; dotdot], d1) /\
    Ext2.read_file_data sample_ext2 dir_inode 1024 (replicate 1024 0) sample_ext2_disk = Ret (Ok (1024, sample_dir ++ zero_sector), d2).
Proof.
  destruct (ext2_reads_files sample_ext2 sample_ext2_disk dir_inode [dot; dotdot] (replicate 1024 0)) as [(d2 & E2 & _) Hd].
  - split.
    + split; [reflexivity|]. split; [reflexivity|]. split; [vm_compute; reflexivity|]. split; [vm_compute; discriminate|].
      apply sectors_okb. vm_compute. reflexivity.
    + discriminate.
    + split; reflexivity.
  - split.
    + reflexivity.
    + vm_compute. split; discriminate.
    + intros k b Hk Hlt. change (block_size sample_ext2) with 1024 in Hlt. change (i_size dir_inode) with 1024 in Hlt. assert (k = 0%nat) as -> by lia.
      injection Hk as <-. split; [reflexivity|]. vm_compute. discriminate.
    + discriminate.
  - vm_compute. discriminate.
  - destruct Hd as (d1 & E1 & _).
    + exists 12. split; [split; [split; reflexivity|split; [discriminate|reflexivity]|split; [split; discriminate|reflexivity]]|]. split; [vm_compute; discriminate|]. split; [vm_compute; reflexivity|].
      exists 1012. split; [split; [split; reflexivity|split; [discriminate|reflexivity]|split; [split; discriminate|reflexivity]]|]. split; [vm_compute; discriminate|]. split; vm_compute; reflexivity.
    + assert (Hfd : file_data sample_ext2 sample_ext2_disk dir_inode (i_size dir_inode) ++ drop (Z.to_nat (i_size dir_inode)) (replicate 1024 0) =
        sample_dir ++ zero_sector) by (vm_compute; reflexivity).
      rewrite Hfd in E2. exists d1, d2. split; [exact E1|exact E2].
Defined.

(** A file whose first block is a hole: the second block is delivered as the
    first one, and the file ends a block early. *)
Definition holed_inode : Ext2Inode := mk_ext2_inode 0x81A4 2048 (0 :: 3 :: replicate 13 0).
Theorem ext2_hole_shifts_data :
  exists d, Ext2.read_file_data sample_ext2 holed_inode 2048 (replicate 2048 0) sample_ext2_disk =
    Ret (Ok (1024, sample_dir ++ zero_sector ++ replicate 1024 0), d).
Proof. vm_compute. eexists. reflexivity. Qed.
