(* ===== verification/E820.v ===== *)
(** * Tables the firmware leaves in memory (src/src/arch/x86_64/e820.rs)

    The boot loader passes a list of memory regions.  The kernel reads it, and
    the ACPI tables, through raw pointers with its own page tables loaded, so
    every load goes through the processor's walk; loads need not be aligned,
    as on the processor. *)

From S2P Require Import Prelude Bytes Mem Frame Paging AddressSpace Usercopy.

(** ** Loads of the kernel *)

(** [*(va as *const T)] for an unsigned [T] of [n] bytes. *)
Definition kle (n : nat) (m : memory) (cr3 va : Z) : outcome Z := bs ← kread n m cr3 va; Ret (from_le bs).

(** The bytes from [a] on are mapped at their own addresses. *)
Definition identity (m : memory) (cr3 a n : Z) : Prop :=
  0 <= a /\ a + n <= two63 /\ forall x, a <= x < a + n -> kload m cr3 x = Ret (load8 m x).

Lemma identity_sub m cr3 a n b k : identity m cr3 a n -> a <= b -> b + k <= a + n -> identity m cr3 b k.
Proof. intros (H1 & H2 & H3) Hb Hk. split; [lia|]. split; [lia|]. intros x Hx. apply H3. lia. Qed.

Lemma kread_identity n m cr3 a : identity m cr3 a (Z.of_nat n) -> kread n m cr3 a = Ret (load_bytes m a (Z.of_nat n)).
Proof.
  revert a. induction n as [|n IH]; intros a Hid; [done|]. pose proof Hid as (H1 & H2 & H3). cbn [kread].
  rewrite H3, bind_Ret by lia. unfold u64. rewrite Z.mod_small by lia.
  rewrite IH by (eapply identity_sub; [exact Hid|lia|lia]). rewrite bind_Ret. unfold load_bytes. rewrite (seqZ_cons a (Z.of_nat (S n))) by lia.
  by replace (Z.pred (Z.of_nat (S n))) with (Z.of_nat n) by lia.
Qed.

Lemma kle_identity n m cr3 a : identity m cr3 a (Z.of_nat n) -> kle n m cr3 a = Ret (load_le n m a).
Proof. intros Hid. unfold kle. by rewrite kread_identity, bind_Ret, from_le_load. Qed.

(** The kernel's tables map the first two gigabytes so. *)
Lemma kernel_identity {A} `{FrameAllocator A} K (s : machine (A:=A)) a n :
  kernel_ready K s -> 0 <= a -> a + n <= 0x80000000 -> identity (pmem s) (KERNEL_PML4_PA s) a n.
Proof.
  intros (_ & Hv & -> & _) Ha Hn. split; [lia|]. split; [lia|]. intros x Hx. unfold kload, virt_to_phys, canonical.
  destruct (Z.ltb_spec x (2 ^ 47)); [|lia]. cbn [orb]. rewrite (kernel_walk _ K) by (done || lia).
  destruct (Z.ltb_spec x 0x80000000); [|lia]. by rewrite !bind_Ret.
Qed.

(** All of 100 managed frames in use, and some words of the bitmap behind them clear. *)
Definition taken_100 : frame_state := with_bitmap (insertZ 1 (two64 - 1) (insertZ 0 (two64 - 1) (BITMAP machine_100))) machine_100.
Lemma taken_100_wf : frame_wf taken_100.
Proof.
  destruct machine_100_wf as [H1 H2 H3 H4 H5 H6].
  split; [| |exact H3|exact H4|exact H5|exact H6]; cbn [BITMAP taken_100 with_bitmap].
  - rewrite !lenZ_insertZ. exact H1.
  - apply insertZ_Forall; [apply insertZ_Forall; [exact H2|]|]; lia.
Qed.
Lemma taken_100_used g : used taken_100 g = if (0 <=? g) && (g <? 128) then true else used machine_100 g.
Proof.
  unfold used. cbn [BITMAP taken_100 with_bitmap]. assert (Hl : lenZ (BITMAP machine_100) = MAX_WORDS) by apply machine_100_wf.
  unfold MAX_WORDS in Hl. destruct (decide (g / 64 = 1)) as [E|E].
  - rewrite E, lookupZ_insertZ_eq by (rewrite lenZ_insertZ; lia). change (two64 - 1) with (Z.ones 64). rewrite Z.ones_spec_low by dlia.
    destruct (Z.leb_spec 0 g), (Z.ltb_spec g 128); dlia || done.
  - rewrite lookupZ_insertZ_ne by done. destruct (decide (g / 64 = 0)) as [E0|E0].
    + rewrite E0, lookupZ_insertZ_eq by lia. change (two64 - 1) with (Z.ones 64). rewrite Z.ones_spec_low by dlia.
      destruct (Z.leb_spec 0 g), (Z.ltb_spec g 128); dlia || done.
    + rewrite lookupZ_insertZ_ne by done. destruct (Z.leb_spec 0 g), (Z.ltb_spec g 128); dlia || done.
Qed.

(** A machine whose kernel is up, with given bytes in a page. *)
Lemma ready_with bs : Forall byte bs -> lenZ bs <= 4096 ->
  exists K m f p, kernel_ready K (mk_machine (store_bytes m (pg f) bs) taken_100 p) /\ 0 <= f < 100.
Proof.
  intros Hb Hl. destruct ready_machine as (K & s & (H1 & H2 & H3 & H4) & _ & _ & Hsz & HL).
  destruct (set_choose_or_empty (fa_free (frames s))) as [[f Hf]|He].
  2:{ apply size_empty_iff in He. lia. }
  exists K, (pmem s), f, (KERNEL_PML4_PA s). pose proof (fa_free_range f _ H1 Hf) as Hr. rewrite HL in Hr. split; [|done].
  split; [exact taken_100_wf|]. split.
  - apply (kernel_view_only_page (pmem s) _ K f); [exact H2| |].
    + intros x Hx. cbn [pmem]. rewrite load8_store_bytes. unfold pg in *.
      destruct (Z.leb_spec (f * 4096) x), (Z.ltb_spec x (f * 4096 + lenZ bs)); cbn [andb]; lia || done.
    + intros Hin. by destruct (H4 f Hin).
  - split; [done|]. intros g HgK. split; [|destruct (H4 g HgK) as [_ Hlim]; by rewrite HL in Hlim]. intros [Hg Hu]%elem_of_free_frames. cbn [frames] in Hg, Hu. rewrite taken_100_used in Hu.
    assert (Hc : ACTUAL_FRAME_COUNT taken_100 = 100) by reflexivity. rewrite Hc in Hg.
    destruct (Z.leb_spec 0 g), (Z.ltb_spec g 128); [discriminate|lia..].
Qed.

(** 600 frames, those of the first megabyte in use. *)
Lemma low_taken : exists fa, frame_wf fa /\ fa_limit fa = 600 /\ forall f, f ∈ free_frames fa <-> 256 <= f < 600.
Proof.
  set (s := set_total_ram (600 * 4096) boot_frame_state).
  destruct (mark_used_spec 0 0x100000 s) as (fa & _ & Hwf & (_ & Hc & _) & _ & Hu);
    [apply set_total_ram_wf; [apply boot_frame_state_wf|lia]|lia|lia|].
  change (ACTUAL_FRAME_COUNT s) with 600 in *. change (TOTAL_RAM s) with 2457600 in *.
  assert (Hs : forall g, 0 <= g < 600 -> used s g = false).
  { intros g Hg. unfold used. change (BITMAP s) with (replicate (Z.to_nat MAX_WORDS) 0).
    rewrite lookupZ_replicate; [apply Z.bits_0|unfold MAX_WORDS; dlia]. }
  exists fa. split; [done|]. split; [done|]. intros f. rewrite elem_of_free_frames. unfold is_free. rewrite Hc, <- not_true_iff_false. split.
  - intros [Hf Hn]. rewrite Hu, Hs in Hn by lia. split; [|lia]. destruct (decide (256 <= f)); [done|]. exfalso. apply Hn. right. lia.
  - intros Hf. split; [lia|]. rewrite Hu, Hs by lia. intros [?|?]; [done|lia].
Qed.

(** The kernel is up with its tables above the first megabyte, which holds the
    bytes at 0xE0000 and zeros. *)
Lemma booted_with bs : lenZ bs <= 4096 ->
  exists K (s : machine (A:=frame_state)), kernel_ready K s /\ (forall f, f ∈ k_frames K -> 256 <= f) /\
    forall x, 0 <= x < 0x100000 -> load8 (pmem s) x = load8 (store_bytes ∅ 0xE0000 bs) x.
Proof.
  intros Hl. destruct low_taken as (fa & Hwf & Hlim & Hfree).
  destruct (paging_init_ready ∅ fa 0 0) as (K & s & Hs & (P1 & Hk & Hr & P2) & _ & _ & _ & HKF & _ & _); [exact Hwf|lia| |].
  { assert (Hsub : {[256; 257; 258; 259]} ⊆ fa_free fa) by (intros f Hf; apply (proj2 (Hfree f)); set_unfold; lia).
    apply subseteq_size in Hsub. change (size ({[256; 257; 258; 259]} : gset Z)) with 4%nat in Hsub. lia. }
  set (m := store_bytes (fill (pmem s) 0 0 0x100000) 0xE0000 bs).
  assert (Hlow : forall f, f ∈ k_frames K -> 256 <= f) by (intros f Hf; exact (proj1 (proj1 (Hfree f) (HKF f Hf)))).
  exists K, (with_mem m s). split; [|split; [exact Hlow|]].
  - split; [exact P1|]. split; [|split; [exact Hr|]].
    + apply (kernel_view_ext (pmem s)); [exact Hk|]. intros f x Hf Hx. cbn [pmem with_mem]. unfold m.
      specialize (Hlow f Hf). unfold pg in Hx. rewrite load8_store_bytes, load8_fill by lia.
      destruct (Z.leb_spec 0xE0000 x), (Z.ltb_spec x (0xE0000 + lenZ bs)), (Z.leb_spec 0 x), (Z.ltb_spec x (0 + 0x100000)); cbn [andb]; lia || done.
    + exact P2.
  - intros x Hx. cbn [pmem with_mem]. unfold m. rewrite !load8_store_bytes, load8_fill by lia.
    destruct ((0xE0000 <=? x) && _); [done|]. destruct (Z.leb_spec 0 x), (Z.ltb_spec x (0 + 0x100000)); try lia. done.
Qed.

(** ** [detect_memory] *)

Definition MULTIBOOT_MAGIC : Z := 0x2BADB002.
Definition DEFAULT_RAM : Z := Z.shiftl 1 30.

Abbreviation bitmap_machine := (machine (A:=frame_state)).
Definition with_frames (fa : frame_state) (s : bitmap_machine) : bitmap_machine := mk_machine (pmem s) fa (KERNEL_PML4_PA s).

(** One entry: the new total and the regions marked. *)
Definition account (typ base len total_usable : Z) (s : bitmap_machine) : outcome (Z * bitmap_machine) :=
  let end_ := Z.min (base + len) (two64 - 1) in
  if typ =? 1 then Ret (if total_usable <? end_ then end_ else total_usable, s)
  else if (typ =? 2) || (typ =? 3) || (typ =? 4) then
    if (0 <? len) && (base <? total_usable) then
      fa ← mark_used base end_ (frames s);
      Ret (total_usable, with_frames fa s)
    else Ret (total_usable, s)
  else Ret (total_usable, s).

(** The entries; an entry advances by five bytes at least, so the length of
    the map bounds the rounds. *)
Fixpoint parse_map (fuel : nat) (mmap_addr mmap_len offset total_usable : Z) (s : bitmap_machine) : outcome (Z * bitmap_machine) :=
  if offset + 24 <=? mmap_len then
    match fuel with
    | O => Hang
    | S fuel' =>
        let rd n a := kle n (pmem s) (KERNEL_PML4_PA s) a in
        let entry := mmap_addr + offset in
        entry_size ← rd 4%nat entry;
        base ← rd 8%nat (entry + 4);
        len ← rd 8%nat (entry + 12);
        typ ← rd 4%nat (entry + 20);
        x ← account typ base len total_usable s;
        let '(total_usable, s) := x in
        parse_map fuel' mmap_addr mmap_len (offset + (if 0 <? entry_size then entry_size + 4 else 24)) total_usable s
    end
  else Ret (total_usable, s).

Fixpoint map_pages {A} `{FrameAllocator A} (addrs : list Z) (s : machine (A:=A)) : outcome (machine (A:=A)) :=
  match addrs with
  | [] => Ret s
  | a :: addrs' => s ← map_page a s; map_pages addrs' s
  end.

(** [mb_magic] and [mb_info] are what the boot code saved. *)
Definition detect_memory (mb_magic mb_info : Z) (s : bitmap_machine) : outcome (Z * bitmap_machine) :=
  if negb (mb_magic =? MULTIBOOT_MAGIC) then Ret (DEFAULT_RAM, s)
  else if mb_info =? 0 then Ret (DEFAULT_RAM, s)
  else
    let rd n a := kle n (pmem s) (KERNEL_PML4_PA s) a in
    flags ← rd 4%nat (u64 (mb_info + 0));
    if Z.land flags (Z.shiftl 1 6) =? 0 then Ret (DEFAULT_RAM, s)
    else
      mmap_addr ← rd 4%nat (u64 (mb_info + 48));
      mmap_len ← rd 4%nat (u64 (mb_info + 44));
      if (mmap_addr =? 0) || (mmap_len =? 0) then Ret (DEFAULT_RAM, s)
      else
        let page_base := Z.land mmap_addr (not64 0xFFF) in
        let page_count := (mmap_len + 0xFFF) / 0x1000 in
        s ← map_pages ((fun i => page_base + i * 0x1000) <$> seqZ 0 page_count) s;
        x ← parse_map (Z.to_nat mmap_len) mmap_addr mmap_len 0 0 s;
        let '(total_usable, s) := x in
        if total_usable =? 0 then Ret (DEFAULT_RAM, s) else Ret (total_usable, s).

(** The part of [main] that uses it. *)
Definition detect_and_reinit (mb_magic mb_info : Z) (s : bitmap_machine) : outcome bitmap_machine :=
  x ← detect_memory mb_magic mb_info s;
  let '(real_ram, s) := x in
  Ret (if Z.shiftl 1 30 <? real_ram then with_frames (reinit real_ram (frames s)) s else s).

(** ** What the map says *)

Record mmap_entry : Type := mk_mmap { me_size : Z; me_base : Z; me_len : Z; me_typ : Z }.
Definition me_end (e : mmap_entry) : Z := Z.min (me_base e + me_len e) (two64 - 1).
Definition me_next (e : mmap_entry) : Z := if 0 <? me_size e then me_size e + 4 else 24.

(** The entries are in memory from [a] on; the last one leaves less than 24
    bytes before [stop]. *)
Fixpoint map_at (m : memory) (a stop : Z) (es : list mmap_entry) : Prop :=
  match es with
  | [] => stop < a + 24
  | e :: es' => a + 24 <= stop /\ load_le 4 m a = me_size e /\ load_le 8 m (a + 4) = me_base e /\
      load_le 8 m (a + 12) = me_len e /\ load_le 4 m (a + 20) = me_typ e /\ map_at m (a + me_next e) stop es'
  end.

(** The end of the highest usable region. *)
Definition usable (total : Z) (es : list mmap_entry) : Z :=
  foldl (fun t e => if me_typ e =? 1 then Z.max t (me_end e) else t) total es.
(** The regions of types 2 to 4 that start below the usable regions seen
    before them. *)
Definition kept_back (e : mmap_entry) (total : Z) : bool :=
  ((me_typ e =? 2) || (me_typ e =? 3) || (me_typ e =? 4)) && ((0 <? me_len e) && (me_base e <? total)).
Fixpoint reserved (total : Z) (es : list mmap_entry) : list (Z * Z) :=
  match es with
  | [] => []
  | e :: es' =>
      let rest := reserved (if me_typ e =? 1 then Z.max total (me_end e) else total) es' in
      if kept_back e total then (me_base e, me_end e) :: rest else rest
  end.
(** The frame has a byte of the region, which starts below [ram]. *)
Definition overlaps (ram f : Z) (r : Z * Z) : Prop :=
  r.1 < ram /\ f * FRAME_SIZE < r.2 /\ r.1 < (f + 1) * FRAME_SIZE /\ r.1 < r.2.

(** The extent of the memory is the same, and what is known of frames outside. *)
Definition kept (fa' fa : frame_state) : Prop :=
  TOTAL_RAM fa' = TOTAL_RAM fa /\ ACTUAL_FRAME_COUNT fa' = ACTUAL_FRAME_COUNT fa /\
  forall f, 0 <= f -> ACTUAL_FRAME_COUNT fa <= f -> used fa' f = used fa f.
Lemma kept_trans fa1 fa2 fa3 : kept fa2 fa1 -> kept fa3 fa2 -> kept fa3 fa1.
Proof. intros (H1 & H2 & H3) (H4 & H5 & H6). split; [congruence|]. split; [congruence|]. intros f Hf Hl. rewrite H6, H3; lia || done. Qed.

Lemma account_spec e total (s : bitmap_machine) :
  frame_wf (frames s) -> 0 <= me_base e -> 0 <= me_len e ->
  exists fa, account (me_typ e) (me_base e) (me_len e) total s =
      Ret (if me_typ e =? 1 then Z.max total (me_end e) else total, with_frames fa s) /\
    frame_wf fa /\ kept fa (frames s) /\
    free_frames fa = filter (fun f => Forall (fun r => ~ overlaps (TOTAL_RAM (frames s)) f r)
      (if kept_back e total then [(me_base e, me_end e)] else [])) (free_frames s.(frames)).
Proof.
  intros Hwf Hb Hl.
  assert (Hsame : forall t : Z, exists fa, Ret (t, s) = Ret (t, with_frames fa s) /\ frame_wf fa /\ kept fa (frames s) /\
    free_frames fa = filter (fun f => Forall (fun r => ~ overlaps (TOTAL_RAM (frames s)) f r) []) (free_frames s.(frames))).
  { intros t. exists (frames s). split; [by destruct s|]. split; [done|]. split; [by split|]. apply set_eq. intros f. rewrite elem_of_filter.
    split; [|tauto]. intros Hf. by split. }
  unfold account, kept_back. fold (me_end e). destruct (Z.eqb_spec (me_typ e) 1) as [E1|].
  - rewrite E1. cbn [Z.eqb Pos.eqb orb andb].
    destruct (Hsame (Z.max total (me_end e))) as (fa & E & R). exists fa. split; [|exact R]. rewrite <- E. do 2 f_equal. zcase; lia.
  - destruct ((me_typ e =? 2) || (me_typ e =? 3) || (me_typ e =? 4)); cbn [andb]; [|apply Hsame].
    destruct ((0 <? me_len e) && (me_base e <? total)); [|apply Hsame].
    destruct (mark_used_spec (me_base e) (me_end e) (frames s) Hwf Hb) as (fa & E & Hwf' & Hext & _ & Hused); [unfold me_end; lia|].
    destruct (mark_used_exact (me_base e) (me_end e) (frames s) Hwf Hb) as (fa' & E' & _ & Hf'); [unfold me_end; lia|].
    rewrite E in E'. injection E' as <-. rewrite E, bind_Ret. exists fa. split; [done|]. split; [done|]. split.
    { split; [apply Hext|]. split; [apply Hext|]. intros f Hf0 Hf. apply eq_true_iff_eq. rewrite Hused by done. split; [intros [?|?]; [done|lia]|by left]. }
    rewrite Hf'. apply set_eq. intros f. rewrite !elem_of_filter, Forall_singleton. unfold overlaps. cbn [fst snd]. tauto.
Qed.

Lemma me_next_pos m a stop e es : map_at m a stop (e :: es) -> 5 <= me_next e.
Proof.
  intros (_ & Hs & _). pose proof (load_le_range 4 m a). unfold me_next. zcase; lia.
Qed.

Lemma parse_map_spec es : forall fuel mmap_addr mmap_len offset total (s : bitmap_machine),
  0 <= mmap_addr -> 0 <= offset -> identity (pmem s) (KERNEL_PML4_PA s) mmap_addr mmap_len ->
  map_at (pmem s) (mmap_addr + offset) (mmap_addr + mmap_len) es -> frame_wf (frames s) -> mmap_len - offset <= Z.of_nat fuel ->
  exists fa, parse_map fuel mmap_addr mmap_len offset total s = Ret (usable total es, with_frames fa s) /\
    frame_wf fa /\ kept fa (frames s) /\
    free_frames fa = filter (fun f => Forall (fun r => ~ overlaps (TOTAL_RAM (frames s)) f r) (reserved total es)) (free_frames (frames s)).
Proof.
  induction es as [|e es IH]; intros fuel addr len off total s Ha Ho Hid Hm Hwf Hfuel.
  { cbn [map_at] in Hm. exists (frames s). assert (E : (off + 24 <=? len) = false) by lia. split; [|split; [done|split; [by split|]]].
    - destruct fuel; cbn [parse_map]; rewrite E; by destruct s.
    - apply set_eq. intros f. rewrite elem_of_filter. split; [|tauto]. by split. }
  pose proof (me_next_pos _ _ _ _ _ Hm) as Hnp. destruct Hm as (Hfit & H1 & H2 & H3 & H4 & Hrest).
  destruct fuel as [|fuel]; [lia|]. cbn [parse_map]. destruct (Z.leb_spec (off + 24) len); [|lia]. cbv zeta beta.
  rewrite !kle_identity, !bind_Ret, H1, H2, H3, H4 by (eapply identity_sub; [exact Hid|lia|lia]).
  pose proof (load_le_range 8 (pmem s) (addr + off + 4)). pose proof (load_le_range 8 (pmem s) (addr + off + 12)).
  destruct (account_spec e total s Hwf) as (fa & -> & Hwf1 & Ht1 & Hf1); [lia|lia|]. rewrite bind_Ret. fold (me_next e).
  destruct (IH fuel addr len (off + me_next e) (if me_typ e =? 1 then Z.max total (me_end e) else total) (with_frames fa s))
    as (fa' & -> & Hwf2 & Ht2 & Hf2); [done|lia|done|by rewrite Z.add_assoc|done|lia|].
  exists fa'. split; [done|]. split; [done|]. cbn [frames with_frames] in *. split; [by eapply kept_trans|].
  rewrite Hf2, Hf1, (proj1 Ht1). apply set_eq. intros f. rewrite !elem_of_filter. cbn [reserved]. destruct (kept_back e total).
  - rewrite Forall_singleton, Forall_cons. tauto.
  - split; [tauto|]. intros [? ?]. by split.
Qed.

(** The memory map is read exactly.  With the map in the memory the
    kernel's tables map at its own addresses, the loop ends after the entries
    of the list, returns the end of the highest usable region, and marks of
    the managed frames exactly those that hold a byte of a reserved or ACPI
    region starting below the usable regions listed before it. *)
Theorem parse_map_exact K es mmap_addr mmap_len (s : bitmap_machine) :
  kernel_ready K s -> 0 <= mmap_addr -> mmap_addr + mmap_len <= 0x80000000 -> 0 <= mmap_len ->
  map_at (pmem s) mmap_addr (mmap_addr + mmap_len) es ->
  exists fa, parse_map (Z.to_nat mmap_len) mmap_addr mmap_len 0 0 s = Ret (usable 0 es, with_frames fa s) /\
    fa_inv fa /\ free_frames fa = filter (fun f => Forall (fun r => ~ overlaps (TOTAL_RAM (frames s)) f r) (reserved 0 es)) (free_frames (frames s)).
Proof.
  intros Hk Ha Hr Hl Hm. destruct (parse_map_spec es (Z.to_nat mmap_len) mmap_addr mmap_len 0 0 s) as (fa & E & Hwf & _ & Hf);
    [done|done|by eapply kernel_identity|by rewrite Z.add_0_r|apply Hk|lia|].
  by exists fa.
Qed.

(** Memory the firmware reserves can be handed out.  A frame above the
    memory managed when the map is read (1 GiB at boot) is never marked,
    whatever the map says of it, and [reinit] with the detected size then
    takes it under management as a free frame. *)
Theorem reserved_above_managed_is_free K es mmap_addr mmap_len f (s : bitmap_machine) :
  kernel_ready K s -> 0 <= mmap_addr -> mmap_addr + mmap_len <= 0x80000000 -> 0 <= mmap_len ->
  map_at (pmem s) mmap_addr (mmap_addr + mmap_len) es ->
  0 <= f -> ACTUAL_FRAME_COUNT (frames s) <= f -> used (frames s) f = false -> (f + 1) * FRAME_SIZE <= usable 0 es ->
  usable 0 es <= MAX_FRAME_COUNT * FRAME_SIZE ->
  exists fa, parse_map (Z.to_nat mmap_len) mmap_addr mmap_len 0 0 s = Ret (usable 0 es, with_frames fa s) /\
    f ∈ free_frames (reinit (usable 0 es) fa).
Proof.
  intros Hk Ha Hr Hl Hm Hf0 Hf Hu Hus Hmax. destruct (parse_map_spec es (Z.to_nat mmap_len) mmap_addr mmap_len 0 0 s)
    as (fa & E & Hwf & (_ & _ & Hkept) & _); [done|done|by eapply kernel_identity|by rewrite Z.add_0_r|apply Hk|lia|].
  exists fa. split; [done|]. rewrite elem_of_free_frames. split.
  - split; [done|]. unfold reinit. simpl. rewrite Z.min_l by lia. unfold MAX_FRAME_COUNT, MAX_WORDS, FRAME_SIZE in *. zcase; simpl; dlia.
  - rewrite <- Hu, <- Hkept by done. unfold reinit. by zcase.
Qed.

(** A usable and a reserved region. *)
Definition two_regions : list mmap_entry := [mk_mmap 20 0 0x40000 1; mk_mmap 20 0x9000 0x1800 2].
Definition region_bytes (e : mmap_entry) : list Z := to_le 4 (me_size e) ++ to_le 8 (me_base e) ++ to_le 8 (me_len e) ++ to_le 4 (me_typ e).

(** Two entries written one after the other. *)
Lemma map_at_stored m a e1 e2 :
  me_size e1 = 20 -> me_size e2 = 20 -> forallb byteb (concat (region_bytes <$> [e1; e2])) = true ->
  forallb (fun e => (0 <=? me_base e) && (me_base e <? two64) && (0 <=? me_len e) && (me_len e <? two64) && (0 <=? me_typ e) && (me_typ e <? two32)) [e1; e2] = true ->
  map_at (store_bytes m a (concat (region_bytes <$> [e1; e2]))) a (a + 48) [e1; e2].
Proof.
  intros S1 S2 Hb%forallb_byte Hr. destruct e1 as [s1 b1 l1 t1], e2 as [s2 b2 l2 t2]. cbn [me_size] in S1, S2. subst.
  cbn [forallb me_base me_len me_typ] in Hr. rewrite !andb_true_iff, !Z.leb_le, !Z.ltb_lt in Hr.
  set (bs := concat _) in *. assert (H0 := fun n off => load_le_stored n m a bs off Hb).
  assert (E0 : load_le 4 (store_bytes m a bs) a = field bs 0 4) by (rewrite <- (Z.add_0_r a) at 2; apply H0; done).
  cbn [map_at me_next me_size me_base me_len me_typ Z.ltb Z.compare Z.add Pos.add Pos.succ]. rewrite <- !Z.add_assoc, E0, !H0 by done.
  change (field bs 4 (Z.of_nat 8)) with (from_le (to_le 8 b1)). change (field bs 12 (Z.of_nat 8)) with (from_le (to_le 8 l1)).
  change (field bs 20 (Z.of_nat 4)) with (from_le (to_le 4 t1)). change (field bs (20 + (4 + 4)) (Z.of_nat 8)) with (from_le (to_le 8 b2)).
  change (field bs (20 + (4 + 12)) (Z.of_nat 8)) with (from_le (to_le 8 l2)). change (field bs (20 + (4 + 20)) (Z.of_nat 4)) with (from_le (to_le 4 t2)).
  rewrite !from_to_le_small by lia. split; [lia|]. do 4 (split; [reflexivity|]). split; [lia|]. do 4 (split; [reflexivity|]). lia.
Qed.

Lemma parse_map_exact_witness :
  exists (s : bitmap_machine) a fa, parse_map (Z.to_nat 48) a 48 0 0 s = Ret (0x40000, with_frames fa s) /\
    reserved 0 two_regions = [(0x9000, 0xA800)].
Proof.
  destruct (ready_with (concat (region_bytes <$> two_regions))) as (K & m & f & p & Hk & Hf).
  - apply forallb_byte. reflexivity.
  - discriminate.
  - destruct (parse_map_exact K two_regions (pg f) 48 _ Hk) as (fa & E & _).
    + unfold pg. lia.
    + unfold pg. lia.
    + discriminate.
    + by apply map_at_stored.
    + eexists _, (pg f), fa. split; [exact E|reflexivity].
Defined.

(** The frame at 0x90000 of a machine that manages 400 KiB at first. *)
Definition high_regions : list mmap_entry := [mk_mmap 20 0 0x200000 1; mk_mmap 20 0x90000 0x10000 2].
Lemma reserved_above_managed_is_free_witness :
  exists (s : bitmap_machine) a fa, parse_map (Z.to_nat 48) a 48 0 0 s = Ret (0x200000, with_frames fa s) /\
    reserved 0 high_regions = [(0x90000, 0xA0000)] /\ 0x90 ∈ free_frames (reinit 0x200000 fa).
Proof.
  destruct (ready_with (concat (region_bytes <$> high_regions))) as (K & m & f & p & Hk & Hf).
  - apply forallb_byte. reflexivity.
  - discriminate.
  - destruct (reserved_above_managed_is_free K high_regions (pg f) 48 0x90 _ Hk) as (fa & E & Hin).
    + unfold pg. lia.
    + unfold pg. lia.
    + discriminate.
    + by apply map_at_stored.
    + discriminate.
    + discriminate.
    + cbn [frames]. rewrite taken_100_used. reflexivity.
    + discriminate.
    + discriminate.
    + eexists _, (pg f), fa. split; [exact E|]. split; [reflexivity|exact Hin].
Defined.
