(* ===== verification/Gdt.v ===== *)
(** * Segments and the task state segment (boot.S, arch/x86_64/mod.rs)

    The descriptor table of the boot code, the task state segment that
    [init_gdt_tss] enters into it, and what the processor makes of both: which
    selectors the kernel's constants name, and which ports a user program may
    use. *)

From S2P Require Import Prelude Bytes Mem.

(** ** The table *)

(** The words of [gdt64_full]. *)
Definition gdt64_words : list Z :=
  let set := foldr (fun k v => Z.lor (Z.shiftl 1 k) v) 0 in
  [0; set [43; 44; 47; 53]; set [41; 44; 47]; set [41; 43; 44; 45; 46; 47; 53]; set [41; 44; 45; 46; 47]; 0; 0].

(** The low word of the descriptor of the segment at [tb]. *)
Definition tss_descriptor (tb : Z) : Z :=
  Z.lor (Z.lor (Z.lor (Z.lor 103 (Z.shiftl (Z.land tb 0xFFFF) 16)) (Z.shiftl (Z.land (Z.shiftr tb 16) 0xFF) 32))
    (Z.shiftl 0x89 40)) (Z.shiftl (Z.land (Z.shiftr tb 24) 0xFF) 56).

(** [tss64] is declared as a byte: [&tss64] is its address, and [tss64 as
    *const u8] the byte's value taken as an address. *)
Definition init_gdt_tss (tss64 gdt64_full kernel_stack_top : Z) (m : memory) : memory :=
  let tss_base := tss64 in
  let m := fill m (load8 m tss64) 0 104 in
  let m := write_u64 m (load8 m tss64 + 0x04) kernel_stack_top in
  let m := store_le 2 m (load8 m tss64 + 0x66) 104 in
  let m := write_u64 m (gdt64_full + 0x28) (tss_descriptor tss_base) in
  write_u64 m (gdt64_full + 0x30) 0.

(** ** What the processor reads *)

(** A descriptor: the base, the limit, the type with the system bit, the
    privilege level, whether it is present and whether it is 64-bit code. *)
Record descriptor : Type := mk_descriptor {
  d_base : Z; d_limit : Z; d_type : Z; d_dpl : Z; d_present : bool; d_long : bool;
}.
Definition decode_descriptor (v : Z) : descriptor :=
  let bits lo n := Z.land (Z.shiftr v lo) (Z.ones n) in
  mk_descriptor (bits 16 24 + Z.shiftl (bits 56 8) 24) (bits 0 16 + Z.shiftl (bits 48 4) 16)
    (bits 40 5) (bits 45 2) (Z.testbit v 47) (Z.testbit v 53).
Definition segment (m : memory) (gdt selector : Z) : descriptor :=
  decode_descriptor (read_u64 m (gdt + Z.shiftl (Z.shiftr selector 3) 3)).

(** Access to the byte port [p] from user mode without I/O privilege: the bit
    of the port in the map at offset 0x66 of the task state segment must be
    inside the limit and clear. *)
Definition io_permitted (m : memory) (tss limit p : Z) : bool :=
  let base := load_le 2 m (tss + 0x66) in
  (base + p / 8 + 1 <=? limit) && negb (Z.testbit (load_le 2 m (tss + base + p / 8)) (p mod 8)).

Lemma tss_descriptor_sum tb : 0 <= tb < two32 ->
  tss_descriptor tb = 103 + tb mod 2 ^ 16 * 2 ^ 16 + (tb / 2 ^ 16) mod 2 ^ 8 * 2 ^ 32 + 0x89 * 2 ^ 40 + tb / 2 ^ 24 * 2 ^ 56.
Proof.
  intros Htb. unfold tss_descriptor. change 0xFFFF with (Z.ones 16). change 0xFF with (Z.ones 8).
  rewrite !Z.land_ones, !Z.shiftr_div_pow2, !Z.shiftl_mul_pow2 by lia.
  rewrite (Z.mod_small (tb / 2 ^ 24)) by dlia.
  assert (0 <= tb mod 2 ^ 16 < 65536) by dlia. assert (0 <= (tb / 2 ^ 16) mod 2 ^ 8 < 256) by dlia. assert (0 <= tb / 2 ^ 24 < 256) by dlia.
  generalize dependent (tb mod 2 ^ 16). intros a Ha. generalize dependent ((tb / 2 ^ 16) mod 2 ^ 8). intros b Hb.
  generalize dependent (tb / 2 ^ 24). intros c Hc.
  rewrite (lor_add 103 a 16), (lor_add _ b 32), (lor_add _ 137 40), (lor_add _ c 56) by lia. lia.
Qed.

Lemma tss_descriptor_decodes tb : 0 <= tb < two32 -> decode_descriptor (tss_descriptor tb) = mk_descriptor tb 103 9 0 true false.
Proof.
  intros Htb. rewrite tss_descriptor_sum by done. assert (Hsum : tb = tb mod 2 ^ 16 + (tb / 2 ^ 16) mod 2 ^ 8 * 2 ^ 16 + tb / 2 ^ 24 * 2 ^ 24) by dlia.
  assert (0 <= tb mod 2 ^ 16 < 65536) by dlia. assert (0 <= (tb / 2 ^ 16) mod 2 ^ 8 < 256) by dlia. assert (0 <= tb / 2 ^ 24 < 256) by dlia.
  rewrite Hsum at 4.
  generalize dependent (tb mod 2 ^ 16). intros a _ Ha. generalize dependent ((tb / 2 ^ 16) mod 2 ^ 8). intros b Hb.
  generalize dependent (tb / 2 ^ 24). intros c Hc. clear Htb.
  unfold decode_descriptor. rewrite !Z.land_ones, !Z.shiftr_div_pow2, !Z.shiftl_mul_pow2 by lia.
  f_equal; [dlia..| |].
  - apply Z.testbit_true; [lia|]. dlia.
  - apply Z.testbit_false; [lia|]. dlia.
Qed.

(** The table and the segment are apart from each other and from the first
    kilobyte; the table holds its words and the segment is cleared. *)
Record gdt_loaded (tss gdt : Z) (m : memory) : Prop := {
  g_tss : 0x400 <= tss /\ tss + 104 <= two32;
  g_gdt : 0x400 <= gdt /\ gdt + 56 <= two32;
  g_apart : tss + 104 <= gdt \/ gdt + 56 <= tss;
  g_words : forall i w, gdt64_words !! i = Some w -> read_u64 m (gdt + 8 * Z.of_nat i) = w;
  g_zero : forall x, tss <= x < tss + 104 -> load8 m x = 0;
}.

(** What [init_gdt_tss] changes: two entries of the table, and the first
    bytes of memory, not the task state segment. *)
Lemma init_gdt_tss_spec tss gdt top m :
  gdt_loaded tss gdt m ->
  read_u64 (init_gdt_tss tss gdt top m) (gdt + 0x28) = tss_descriptor tss /\
  (forall x, 0x400 <= x -> ~ (gdt + 0x28 <= x < gdt + 0x38) -> load8 (init_gdt_tss tss gdt top m) x = load8 m x).
Proof.
  intros [Ht Hg Ha Hw Hz]. unfold init_gdt_tss.
  assert (E0 : load8 m tss = 0) by (apply Hz; lia). rewrite E0.
  assert (E1 : load8 (fill m 0 0 104) tss = 0) by (rewrite load8_fill by lia; zcases; lia || done). rewrite E1.
  assert (E2 : load8 (write_u64 (fill m 0 0 104) (0 + 4) top) tss = 0) by (by rewrite load8_write_u64_out by lia). rewrite E2.
  split.
  - rewrite read_write_u64_ne by lia. apply read_write_u64_eq. rewrite tss_descriptor_sum by lia. dlia.
  - intros x Hx Hn. rewrite !load8_write_u64_out, load8_store_le_out, load8_write_u64_out, load8_fill by lia. zcases; lia || done.
Qed.

(** The selectors of the kernel name what the code takes them for: 0x08 is
    64-bit code and 0x10 data of the kernel, 0x1B is 64-bit code and 0x23 data
    of privilege level 3, and 0x28 the task state segment at its place with
    its 104 bytes. *)
Theorem gdt_segments tss gdt top m :
  gdt_loaded tss gdt m ->
  let m' := init_gdt_tss tss gdt top m in
  segment m' gdt 0x08 = mk_descriptor 0 0 0x18 0 true true /\ segment m' gdt 0x10 = mk_descriptor 0 0 0x12 0 true false /\
  segment m' gdt 0x1B = mk_descriptor 0 0 0x1A 3 true true /\ segment m' gdt 0x23 = mk_descriptor 0 0 0x12 3 true false /\
  segment m' gdt 0x28 = mk_descriptor tss 103 9 0 true false.
Proof.
  intros Hl m'. pose proof Hl as [Ht Hg Ha Hw Hz]. destruct (init_gdt_tss_spec tss gdt top m Hl) as [Hd Hx]. fold m' in Hd, Hx.
  assert (Hi : forall i w, (i < 5)%nat -> gdt64_words !! i = Some w -> read_u64 m' (gdt + 8 * Z.of_nat i) = w).
  { intros i w Hi Hl'. rewrite <- (Hw i w Hl'). apply read_u64_ext. intros x Hxx. apply Hx; lia. }
  unfold segment. split_and!.
  - change (gdt + _) with (gdt + 8 * Z.of_nat 1). rewrite (Hi 1%nat _ ltac:(lia) eq_refl). reflexivity.
  - change (gdt + _) with (gdt + 8 * Z.of_nat 2). rewrite (Hi 2%nat _ ltac:(lia) eq_refl). reflexivity.
  - change (gdt + _) with (gdt + 8 * Z.of_nat 3). rewrite (Hi 3%nat _ ltac:(lia) eq_refl). reflexivity.
  - change (gdt + _) with (gdt + 8 * Z.of_nat 4). rewrite (Hi 4%nat _ ltac:(lia) eq_refl). reflexivity.
  - change (gdt + _) with (gdt + 0x28). rewrite Hd. apply tss_descriptor_decodes. lia.
Qed.

(** User programs may drive devices.  The offset of the port map stays 0,
    so that the processor takes the task state segment itself for the map;
    whatever the kernel stack pointer in it, the ports from 0x60 to 0x327 are
    open to user mode, those of the keyboard and of the disk among them. *)
Theorem user_ports_open tss gdt top m m2 p :
  gdt_loaded tss gdt m ->
  (forall x, tss <= x < tss + 104 -> ~ (tss + 4 <= x < tss + 12) -> load8 m2 x = load8 (init_gdt_tss tss gdt top m) x) ->
  0x60 <= p < 0x328 -> io_permitted m2 tss 103 p = true.
Proof.
  intros Hl Hm2 Hp. pose proof Hl as [Ht Hg Ha Hw Hz]. destruct (init_gdt_tss_spec tss gdt top m Hl) as [_ Hx].
  assert (H0 : forall n a, tss + 12 <= a -> a + Z.of_nat n <= tss + 104 -> load_le n m2 a = 0).
  { intros n a Hn Han. apply load_le_zero. intros x Hxx. by rewrite Hm2, Hx, Hz by lia. }
  unfold io_permitted. rewrite H0 by lia. rewrite Z.add_0_r, H0 by dlia. rewrite Z.bits_0.
  destruct (Z.leb_spec (0 + p / 8 + 1) 103); [done|]. exfalso. dlia.
Qed.

(** A table at 0x10000 and a segment at 0x20000. *)
Definition sample_gdt : memory := store_bytes ∅ 0x10000 (mjoin (to_le 8 <$> gdt64_words)).
Lemma sample_gdt_loaded : gdt_loaded 0x20000 0x10000 sample_gdt.
Proof.
  split; [lia|lia|lia| |].
  - intros i w Hi. do 7 (destruct i as [|i]; [injection Hi as <-; vm_compute; reflexivity|]). discriminate.
  - intros x Hx. unfold sample_gdt. rewrite load8_store_bytes.
    change (lenZ _) with 56. zcases; lia || reflexivity.
Qed.

Lemma gdt_segments_witness : segment (init_gdt_tss 0x20000 0x10000 0x9000 sample_gdt) 0x10000 0x28 = mk_descriptor 0x20000 103 9 0 true false.
Proof. exact (proj2 (proj2 (proj2 (proj2 (gdt_segments 0x20000 0x10000 0x9000 sample_gdt sample_gdt_loaded))))). Defined.

Lemma user_ports_open_witness : io_permitted (init_gdt_tss 0x20000 0x10000 0x9000 sample_gdt) 0x20000 103 0x1F0 = true.
Proof.
  exact (user_ports_open 0x20000 0x10000 0x9000 sample_gdt _ 0x1F0 sample_gdt_loaded (fun x _ _ => eq_refl) ltac:(lia)).
Defined.
