(* ===== verification/Boot.v ===== *)
(** * From the boot loader to [kernel_main] (arch/x86_64/boot.S)

    The boot code instruction by instruction: the 32-bit part, which saves what
    the loader passes and builds the first page tables, and the 64-bit part up
    to the call of [kernel_main].  The addresses of the labels are those of the
    linker ([image]); a memory access of the 64-bit part goes through the
    tables.  The last part follows the saved values into [detect_memory]. *)

From S2P Require Import Prelude Bytes Mem Frame Paging AddressSpace Usercopy E820.

(** ** The machine *)

Record image : Type := mk_image {
  mb_magic : Z;
  mb_info : Z;
  p4_table : Z;
  p3_table : Z;
  p2_table : Z;
  boot_stack_top : Z;
  gdt64_full : Z;
}.

(** Writes to ports of one and of two bytes. *)
Inductive port_write : Type := Out8 (port v : Z) | Out16 (port v : Z).

Record boot : Type := mk_boot {
  rax : Z; rbx : Z; rcx : Z; rdx : Z; rdi : Z; rsp : Z; r12 : Z;
  df : bool;
  cr0 : Z; cr3 : Z; cr4 : Z; efer : Z;
  gdtr : Z * Z;
  bmem : memory;
  outs : list port_write;
}.

Definition set_rax v s := mk_boot v (rbx s) (rcx s) (rdx s) (rdi s) (rsp s) (r12 s) (df s) (cr0 s) (cr3 s) (cr4 s) (efer s) (gdtr s) (bmem s) (outs s).
Definition set_rbx v s := mk_boot (rax s) v (rcx s) (rdx s) (rdi s) (rsp s) (r12 s) (df s) (cr0 s) (cr3 s) (cr4 s) (efer s) (gdtr s) (bmem s) (outs s).
Definition set_rcx v s := mk_boot (rax s) (rbx s) v (rdx s) (rdi s) (rsp s) (r12 s) (df s) (cr0 s) (cr3 s) (cr4 s) (efer s) (gdtr s) (bmem s) (outs s).
Definition set_rdx v s := mk_boot (rax s) (rbx s) (rcx s) v (rdi s) (rsp s) (r12 s) (df s) (cr0 s) (cr3 s) (cr4 s) (efer s) (gdtr s) (bmem s) (outs s).
Definition set_rdi v s := mk_boot (rax s) (rbx s) (rcx s) (rdx s) v (rsp s) (r12 s) (df s) (cr0 s) (cr3 s) (cr4 s) (efer s) (gdtr s) (bmem s) (outs s).
Definition set_rsp v s := mk_boot (rax s) (rbx s) (rcx s) (rdx s) (rdi s) v (r12 s) (df s) (cr0 s) (cr3 s) (cr4 s) (efer s) (gdtr s) (bmem s) (outs s).
Definition set_r12 v s := mk_boot (rax s) (rbx s) (rcx s) (rdx s) (rdi s) (rsp s) v (df s) (cr0 s) (cr3 s) (cr4 s) (efer s) (gdtr s) (bmem s) (outs s).
Definition set_df v s := mk_boot (rax s) (rbx s) (rcx s) (rdx s) (rdi s) (rsp s) (r12 s) v (cr0 s) (cr3 s) (cr4 s) (efer s) (gdtr s) (bmem s) (outs s).
Definition set_cr0 v s := mk_boot (rax s) (rbx s) (rcx s) (rdx s) (rdi s) (rsp s) (r12 s) (df s) v (cr3 s) (cr4 s) (efer s) (gdtr s) (bmem s) (outs s).
Definition set_cr3 v s := mk_boot (rax s) (rbx s) (rcx s) (rdx s) (rdi s) (rsp s) (r12 s) (df s) (cr0 s) v (cr4 s) (efer s) (gdtr s) (bmem s) (outs s).
Definition set_cr4 v s := mk_boot (rax s) (rbx s) (rcx s) (rdx s) (rdi s) (rsp s) (r12 s) (df s) (cr0 s) (cr3 s) v (efer s) (gdtr s) (bmem s) (outs s).
Definition set_efer v s := mk_boot (rax s) (rbx s) (rcx s) (rdx s) (rdi s) (rsp s) (r12 s) (df s) (cr0 s) (cr3 s) (cr4 s) v (gdtr s) (bmem s) (outs s).
Definition set_gdtr v s := mk_boot (rax s) (rbx s) (rcx s) (rdx s) (rdi s) (rsp s) (r12 s) (df s) (cr0 s) (cr3 s) (cr4 s) (efer s) v (bmem s) (outs s).
Definition set_bmem v s := mk_boot (rax s) (rbx s) (rcx s) (rdx s) (rdi s) (rsp s) (r12 s) (df s) (cr0 s) (cr3 s) (cr4 s) (efer s) (gdtr s) v (outs s).
Definition set_outs v s := mk_boot (rax s) (rbx s) (rcx s) (rdx s) (rdi s) (rsp s) (r12 s) (df s) (cr0 s) (cr3 s) (cr4 s) (efer s) (gdtr s) (bmem s) v.

(** ** Instructions *)

(** A write to a part of a register keeps the rest of it. *)
Definition low8 (r v : Z) : Z := r / 256 * 256 + v.
Definition low16 (r v : Z) : Z := r / 65536 * 65536 + v.

Definition mov_al v s := set_rax (low8 (rax s) v) s.
Definition mov_ax v s := set_rax (low16 (rax s) v) s.
Definition mov_dx v s := set_rdx (low16 (rdx s) v) s.
Definition mov_eax v s := set_rax (u32 v) s.
Definition mov_ecx v s := set_rcx (u32 v) s.
Definition mov_edi v s := set_rdi (u32 v) s.
Definition mov_esp v s := set_rsp (u32 v) s.
Definition or_eax v s := set_rax (u32 (Z.lor (rax s) v)) s.
Definition out_dx_al s := set_outs (outs s ++ [Out8 (u16 (rdx s)) (u8 (rax s))]) s.
Definition out_dx_ax s := set_outs (outs s ++ [Out16 (u16 (rdx s)) (u16 (rax s))]) s.
Definition and_al v s := set_rax (low8 (rax s) (Z.land (u8 (rax s)) v)) s.
Definition cld s := set_df false s.
(** [mov word ptr [a], v] and [mov [a], r32]. *)
Definition mov_word a v s := set_bmem (store_le 2 (bmem s) a v) s.
Definition mov_mem_eax a s := set_bmem (store_le 4 (bmem s) a (u32 (rax s))) s.
Definition mov_mem_ebx a s := set_bmem (store_le 4 (bmem s) a (u32 (rbx s))) s.

Fixpoint stosw (n : nat) (s : boot) : boot :=
  match n with
  | O => s
  | S n' =>
      let s := set_bmem (store_le 2 (bmem s) (rdi s) (u16 (rax s))) s in
      let s := set_rdi (u32 (if df s then rdi s - 2 else rdi s + 2)) s in
      stosw n' (set_rcx (u32 (rcx s - 1)) s)
  end.
Definition rep_stosw s := stosw (Z.to_nat (rcx s)) s.

(** [EFER] is the only model specific register in use here. *)
Definition IA32_EFER : Z := 0xC0000080.
Definition rdmsr s := if rcx s =? IA32_EFER then set_rdx (u32 (Z.shiftr (efer s) 32)) (set_rax (u32 (efer s)) s) else s.
Definition wrmsr s := if rcx s =? IA32_EFER then set_efer (Z.lor (Z.shiftl (u32 (rdx s)) 32) (u32 (rax s))) s else s.

Definition run (prog : list (boot -> boot)) (s : boot) : boot := foldl (fun s i => i s) s prog.

(** ** The 32-bit part *)

Section start.
(** What the ports read. *)
Variable inb : Z -> Z.
Variable img : image.

Definition in_al_dx s := set_rax (low8 (rax s) (u8 (inb (u16 (rdx s))))) s.

(** Screen and serial line. *)
Definition screen_mode : list (boot -> boot) :=
  [mov_dx 0x3C2; mov_al 0x03; out_dx_al;
   mov_dx 0x3C4; mov_ax 0x0300; out_dx_ax;
   mov_dx 0x3C4; mov_al 0x01; out_dx_al;
   mov_dx 0x3C5; in_al_dx; and_al 0xDF; out_dx_al;
   cld; mov_edi 0xB8000; mov_ecx 2000; mov_ax 0x0F20].
Definition serial_mode : list (boot -> boot) :=
  [mov_word 0xB8000 0x0F41;
   mov_dx 0x3F9; mov_al 0x00; out_dx_al;
   mov_dx 0x3FB; mov_al 0x80; out_dx_al;
   mov_dx 0x3F8; mov_al 0x03; out_dx_al;
   mov_dx 0x3F9; mov_al 0x00; out_dx_al;
   mov_dx 0x3FB; mov_al 0x03; out_dx_al;
   mov_dx 0x3FA; mov_al 0xC7; out_dx_al;
   mov_dx 0x3FC; mov_al 0x0B; out_dx_al;
   mov_dx 0x3F8; mov_al 0x41; out_dx_al].
Definition stage_a : list (boot -> boot) := screen_mode ++ [rep_stosw] ++ serial_mode.

(** A letter on the screen and the serial line. *)
Definition mark (c : Z) : list (boot -> boot) :=
  [mov_word 0xB8000 (0x0F00 + c); mov_dx 0x3F8; mov_al c; out_dx_al].

(** What the loader passed, and the stack. *)
Definition stage_b : list (boot -> boot) := [mov_mem_eax (mb_magic img); mov_mem_ebx (mb_info img)] ++ mark 0x42.
Definition stage_c : list (boot -> boot) := [mov_esp (boot_stack_top img)] ++ mark 0x43.

(** The loop over [p2_table]: a round for each value of [ecx] below 512. *)
Definition mul_ecx s :=
  let p := u32 (rax s) * u32 (rcx s) in set_rdx (u32 (Z.shiftr p 32)) (set_rax (u32 p) s).
Definition map_p2_round (s : boot) : boot :=
  let s := or_eax 0x83 (mul_ecx (mov_eax 0x200000 s)) in
  let s := mov_mem_eax (p2_table img + rcx s * 8) s in
  set_rcx (u32 (rcx s + 1)) s.
Fixpoint map_p2_table (fuel : nat) (s : boot) : boot :=
  match fuel with
  | O => s
  | S fuel' => let s := map_p2_round s in if rcx s =? 512 then s else map_p2_table fuel' s
  end.

Definition stage_d : list (boot -> boot) :=
  [mov_eax (p3_table img); or_eax 3; mov_mem_eax (p4_table img);
   mov_eax (p2_table img); or_eax 3; mov_mem_eax (p3_table img);
   mov_ecx 0] ++ [map_p2_table (Z.to_nat 512)] ++ mark 0x44.

(** Physical address extension, long mode, paging. *)
Definition stage_e : list (boot -> boot) :=
  [mov_eax (p4_table img); (fun s => set_cr3 (rax s) s);
   (fun s => set_rax (u32 (cr4 s)) s); or_eax (Z.shiftl 1 5); (fun s => set_cr4 (rax s) s);
   mov_ecx IA32_EFER; rdmsr; or_eax (Z.shiftl 1 8); wrmsr] ++ mark 0x45.
Definition stage_f : list (boot -> boot) :=
  [(fun s => set_rax (u32 (cr0 s)) s); or_eax (Z.lor (Z.shiftl 1 31) (Z.shiftl 1 0)); (fun s => set_cr0 (rax s) s);
   mov_dx 0x3F8; mov_al 0x46; out_dx_al;
   (fun s => set_gdtr (55, gdt64_full img) s)].

Definition start32 (s : boot) : boot := run (stage_a ++ stage_b ++ stage_c ++ stage_d ++ stage_e ++ stage_f) s.

(** ** The 64-bit part *)

(** A load and a store of [n] bytes through the tables. *)
Definition load (n : nat) (va : Z) (s : boot) : outcome Z := kle n (bmem s) (cr3 s) va.
Fixpoint store (n : nat) (va v : Z) (s : boot) : outcome boot :=
  match n with
  | O => Ret s
  | S n' => m ← kstore (bmem s) (cr3 s) va (v mod 256); store n' (va + 1) (v / 256) (set_bmem m s)
  end.

Definition start64_marks (s : boot) : outcome boot :=
  s ← store 2 0xB8000 0x4747 s;
  let s := run [mov_dx 0x3F8; mov_al 0x47; out_dx_al; mov_ax 0] s in
  s ← store 2 0xB8020 0x4848 s;
  Ret (run [mov_dx 0x3F8; mov_al 0x48; out_dx_al] s).

(** The window for a memory map above 1 GiB; the result is the state at the
    call of [kernel_main]. *)
Definition start64 (s : boot) : outcome boot :=
  s ← start64_marks s;
  info ← load 8 (mb_info img) s;
  let s := set_rax info s in
  if rax s =? 0 then Ret s else
  addr ← load 4 (rax s + 48) s;
  let s := set_rbx addr s in
  if rbx s =? 0 then Ret s else
  if rbx s <? 0x40000000 then Ret s else
  len ← load 4 (rax s + 44) s;
  let s := set_rcx len s in
  if rcx s =? 0 then Ret s else
  let s := set_r12 (p2_table img) s in
  let s := set_rax (Z.lor (Z.land (rbx s) (not64 0x1FFFFF)) 0x83) s in
  s ← store 8 (r12 s + 508 * 8) (rax s) s;
  Ret (set_rax (cr3 s) s).

Definition start (s : boot) : outcome boot := start64 (start32 s).
End start.

(** ** Where things are *)

(** The linker puts the image above the first megabyte and well below 1 GiB;
    the tables are consecutive pages behind the saved words. *)
Record image_ok (img : image) : Prop := {
  i_magic : 0x100000 <= mb_magic img;
  i_info : mb_magic img + 4 <= mb_info img;
  i_p4 : mb_info img + 8 <= p4_table img;
  i_page : exists q, p4_table img = pg q;
  i_p3 : p3_table img = p4_table img + 4096;
  i_p2 : p2_table img = p3_table img + 4096;
  i_stack : boot_stack_top img = p2_table img + 4096 + 32768;
  i_end : boot_stack_top img <= 0x3F800000;
}.

(** The loader clears the uninitialised data. *)
Definition bss_zero (img : image) (m : memory) : Prop :=
  forall x, mb_magic img <= x < boot_stack_top img -> load8 m x = 0.

(** ** Registers in parts *)

Lemma low8_low8 r v w : 0 <= v < 256 -> low8 (low8 r v) w = low8 r w.
Proof. unfold low8. dlia. Qed.
Lemma low16_low8 r v w : 0 <= v < 256 -> low16 (low8 r v) w = low16 r w.
Proof. unfold low8, low16. dlia. Qed.
Lemma low16_low16 r v w : 0 <= v < 65536 -> low16 (low16 r v) w = low16 r w.
Proof. unfold low16. dlia. Qed.
Lemma low8_low16 r v w : 0 <= v < 65536 -> low8 (low16 r v) w = low16 r (low8 v w).
Proof. unfold low8, low16. dlia. Qed.
Lemma u32_low16 r v : 0 <= v < 65536 -> u32 (low16 r v) = low16 (u32 r) v.
Proof. unfold u32, low16. dlia. Qed.

Lemma land_u8_range x v : 0 <= Z.land (u8 x) v < 256.
Proof.
  pose proof (u8_range x). split; [apply Z.land_nonneg; lia|]. change 256 with (2 ^ 8).
  apply lt_pow2_log2; [apply Z.land_nonneg; lia|lia|]. intros j Hj.
  by rewrite Z.land_spec, (below_bits (u8 x) 8) by lia.
Qed.

(** ** The loops *)

Lemma stosw_spec n s :
  df s = false -> 0 <= rdi s -> rdi s + 2 * Z.of_nat n <= 0x100000 ->
  exists c d m, stosw n s = set_rcx c (set_rdi d (set_bmem m s)) /\
    forall x, 0x100000 <= x -> load8 m x = load8 (bmem s) x.
Proof.
  revert s. induction n as [|n IH]; intros s Hd H0 Hn.
  { exists (rcx s), (rdi s), (bmem s). split; [by destruct s|done]. }
  cbn [stosw]. set (s1 := set_rcx _ _).
  assert (Hr : rdi s1 = rdi s + 2).
  { subst s1. cbn [rdi df set_rcx set_rdi set_bmem]. rewrite Hd. apply u32_small. lia. }
  destruct (IH s1) as (c & d & m & -> & Hm); [exact Hd|lia|lia|].
  exists c, d, m. split; [reflexivity|]. intros x Hx. rewrite (Hm x Hx). apply load8_store_le_out. lia.
Qed.

Definition p2_entry (i : Z) : Z := page_2mb (i * 0x200000).
Lemma p2_entry_range i : 0 <= i < 512 -> 0 <= p2_entry i < two32.
Proof.
  intros Hi. unfold p2_entry. rewrite page_2mb_eq, Z.lor_comm. change 0x200000 with (2 ^ 21).
  rewrite lor_add by lia. lia.
Qed.

Lemma map_p2_spec img n s :
  image_ok img -> 0 <= rcx s -> rcx s + Z.of_nat n = 512 -> (0 < n)%nat ->
  exists a d m, map_p2_table img n s = set_rax a (set_rdx d (set_rcx 512 (set_bmem m s))) /\
    (forall i, rcx s <= i < 512 -> load_le 4 m (p2_table img + i * 8) = p2_entry i) /\
    (forall x, (forall i, rcx s <= i < 512 -> ~ (p2_table img + i * 8 <= x < p2_table img + i * 8 + 4)) -> load8 m x = load8 (bmem s) x).
Proof.
  intros Hok. revert s. induction n as [|n IH]; intros s H0 Hn Hpos; [lia|]. cbn [map_p2_table].
  assert (exists a d, map_p2_round img s = set_rax a (set_rdx d (set_rcx (rcx s + 1)
    (set_bmem (store_le 4 (bmem s) (p2_table img + rcx s * 8) (p2_entry (rcx s))) s)))) as (a & d & ->).
  { eexists _, _. unfold map_p2_round, mov_mem_eax, or_eax, mul_ecx, mov_eax.
    cbn [rax rcx bmem set_rax set_rdx set_rcx set_bmem].
    rewrite !(u32_small 0x200000), !(u32_small (rcx s)), !(u32_small (0x200000 * rcx s)), (Z.mul_comm 0x200000) by lia.
    rewrite <- page_2mb_eq. fold (p2_entry (rcx s)). pose proof (p2_entry_range (rcx s)).
    rewrite !(u32_small (p2_entry (rcx s))), (u32_small (rcx s + 1)) by lia. reflexivity. }
  cbn [rcx set_rax set_rdx set_rcx]. destruct (Z.eqb_spec (rcx s + 1) 512) as [E|E].
  - exists a, d. eexists. split; [by rewrite E|]. split.
    + intros i Hi. replace i with (rcx s) by lia. apply load_store_le_eq. pose proof (p2_entry_range (rcx s)). lia.
    + intros x Hx. apply load8_store_le_out. specialize (Hx (rcx s)). lia.
  - edestruct (IH (set_rax a (set_rdx d (set_rcx (rcx s + 1) (set_bmem (store_le 4 (bmem s) (p2_table img + rcx s * 8) (p2_entry (rcx s))) s)))))
      as (a' & d' & m & -> & He & Hx); cbn [rcx set_rax set_rdx set_rcx]; [lia|lia|lia|].
    exists a', d', m. split; [reflexivity|]. cbn [rcx bmem set_rax set_rdx set_rcx set_bmem] in *. split.
    + intros i Hi. destruct (decide (i = rcx s)) as [->|]; [|apply He; lia].
      rewrite <- (load_store_le_eq 4 (bmem s) (p2_table img + rcx s * 8) (p2_entry (rcx s))) by (pose proof (p2_entry_range (rcx s)); lia).
      apply load_le_ext. intros x Hxr. apply Hx. intros j Hj. lia.
    + intros x Hxx. rewrite Hx by (intros i Hi; apply Hxx; lia). apply load8_store_le_out. specialize (Hxx (rcx s)). lia.
Qed.

(** ** The 32-bit part, summed up *)

Lemma run_app p q s : run (p ++ q) s = run q (run p s).
Proof. apply foldl_app. Qed.
Lemma run_cons i p s : run (i :: p) s = run p (i s).
Proof. done. Qed.

(** Runs a straight piece of the code, an instruction at a time, from a state
    whose fields are given. *)
Ltac run_step :=
  match goal with |- context [run (?i :: ?p) (mk_boot ?a ?b ?c ?d ?e ?f ?g ?h ?k ?l ?m ?n ?q ?r ?t)] =>
    let s := constr:(mk_boot a b c d e f g h k l m n q r t) in
    let s' := eval cbv beta iota delta [mov_dx mov_al mov_ax mov_eax mov_ecx mov_edi mov_esp or_eax out_dx_al out_dx_ax and_al in_al_dx
      cld mov_word mov_mem_eax mov_mem_ebx set_rax set_rbx set_rcx set_rdx set_rdi set_rsp set_r12 set_df set_cr0 set_cr3 set_cr4 set_efer
      set_gdtr set_bmem set_outs rax rbx rcx rdx rdi rsp r12 df cr0 cr3 cr4 efer gdtr bmem outs] in (i s) in
    rewrite (run_cons i p s : run (i :: p) s = run p s')
  end.
Ltac run_steps := repeat run_step; match goal with |- context [run [] (mk_boot ?a ?b ?c ?d ?e ?f ?g ?h ?k ?l ?m ?n ?q ?r ?t)] =>
    let s := constr:(mk_boot a b c d e f g h k l m n q r t) in change (run [] s) with s end.

Lemma screen_mode_spec inb s : exists d o, run (screen_mode inb) s =
  mk_boot (low16 (rax s) 0x0F20) (rbx s) 2000 d 0xB8000 (rsp s) (r12 s) false (cr0 s) (cr3 s) (cr4 s) (efer s) (gdtr s) (bmem s) o.
Proof.
  destruct s. eexists _, _. unfold screen_mode. run_steps.
  cbn [rax rbx rcx rdx rdi rsp r12 df cr0 cr3 cr4 efer gdtr bmem outs].
  rewrite low16_low8.
  2: apply land_u8_range.
  do 2 rewrite low16_low8 by (lia || apply u8_range). rewrite (low16_low16 _ 0x300), (low16_low8 _ 3) by lia. reflexivity.
Qed.

Lemma serial_mode_spec s : exists d o, run serial_mode s =
  mk_boot (low8 (rax s) 0x41) (rbx s) (rcx s) d (rdi s) (rsp s) (r12 s) (df s) (cr0 s) (cr3 s) (cr4 s) (efer s) (gdtr s)
    (store_le 2 (bmem s) 0xB8000 0x0F41) o.
Proof. destruct s. eexists _, _. unfold serial_mode. run_steps. rewrite !low8_low8 by lia. reflexivity. Qed.

(** The screen and the serial line leave the rest of the machine alone, but
    the low half of [eax] is theirs. *)
Lemma stage_a_spec inb s :
  exists c d e m o, run (stage_a inb) s =
    mk_boot (low16 (rax s) 0x0F41) (rbx s) c d e (rsp s) (r12 s) false (cr0 s) (cr3 s) (cr4 s) (efer s) (gdtr s) m o /\
    forall x, 0x100000 <= x -> load8 m x = load8 (bmem s) x.
Proof.
  destruct (screen_mode_spec inb s) as (d & o & E1).
  edestruct (stosw_spec (Z.to_nat 2000) (run (screen_mode inb) s)) as (c & e & m & E2 & Hm);
    [by rewrite E1|rewrite E1; cbn [rdi]; lia|rewrite E1; cbn [rdi]; lia|].
  destruct (serial_mode_spec (stosw (Z.to_nat 2000) (run (screen_mode inb) s))) as (d' & o' & E3).
  exists c, d', e, (store_le 2 m 0xB8000 0x0F41), o'. split.
  - unfold stage_a. rewrite run_app. change ([rep_stosw] ++ serial_mode) with (rep_stosw :: serial_mode). rewrite run_cons.
    unfold rep_stosw. rewrite E1 at 1. cbn [rcx]. rewrite E3, E2, E1.
    cbn [rax rbx rcx rdx rdi rsp r12 df cr0 cr3 cr4 efer gdtr bmem outs set_rcx set_rdi set_bmem].
    by rewrite low8_low16 by lia.
  - intros x Hx. rewrite load8_store_le_out, Hm by lia. by rewrite E1.
Qed.

(** The machine after the 32-bit part. *)
Record started (img : image) (s s' : boot) : Prop := {
  st_cr3 : cr3 s' = p4_table img;
  st_rbx : rbx s' = rbx s;
  st_efer : forall j, 0 <= j < 32 -> Z.testbit (efer s') j = Z.testbit (efer s) j || (j =? 8);
  st_cr0 : Z.testbit (cr0 s') 0 = true /\ Z.testbit (cr0 s') 31 = true;
  st_cr4 : Z.testbit (cr4 s') 5 = true;
  st_gdtr : gdtr s' = (55, gdt64_full img);
  st_rsp : rsp s' = boot_stack_top img;
  st_magic : load_le 4 (bmem s') (mb_magic img) = low16 (u32 (rax s)) 0x0F41;
  st_info : load_le 8 (bmem s') (mb_info img) = u32 (rbx s);
  st_p4 : forall i, 0 <= i < 512 -> entry (bmem s') (p4_table img) i = if i =? 0 then table_entry (p3_table img) else 0;
  st_p3 : forall i, 0 <= i < 512 -> entry (bmem s') (p3_table img) i = if i =? 0 then table_entry (p2_table img) else 0;
  st_p2 : forall i, 0 <= i < 512 -> entry (bmem s') (p2_table img) i = p2_entry i;
}.

Lemma load_le_8 m a : load_le 8 m a = load_le 4 m a + two32 * load_le 4 m (a + 4).
Proof. apply (load_le_add 4 4). Qed.

Lemma load8_store_le_cong n m m' a v x : load8 m x = load8 m' x -> load8 (store_le n m a v) x = load8 (store_le n m' a v) x.
Proof.
  revert m m' a v. induction n as [|n IH]; intros m m' a v E; [done|]. cbn [store_le]. apply IH. by rewrite !load8_store8, E.
Qed.

(** A cleared table in which the first entry is stored. *)
Lemma entry_first m t v i :
  (forall x, t <= x < t + 4096 -> load8 m x = 0) -> 0 <= v < two32 -> 0 <= i < 512 ->
  load_le 8 (store_le 4 m t v) (t + 8 * i) = if i =? 0 then v else 0.
Proof.
  intros Hz Hv Hi. rewrite load_le_8. destruct (Z.eqb_spec i 0) as [->|].
  - rewrite Z.mul_0_r, Z.add_0_r, load_store_le_eq, load_store_le_ne, load_le_zero by ((intros; apply Hz; lia) || lia). lia.
  - rewrite !load_store_le_ne, !load_le_zero by ((intros; apply Hz; lia) || lia). lia.
Qed.

(** The stores of the 32-bit part above the first megabyte. *)
Definition saved (img : image) (ax bx : Z) (m : memory) : memory :=
  store_le 4 (store_le 4 (store_le 4 (store_le 4 m (mb_magic img) ax) (mb_info img) bx)
    (p4_table img) (table_entry (p3_table img))) (p3_table img) (table_entry (p2_table img)).

Lemma stage_bc_spec img s : exists a d o,
  run (stage_c img) (run (stage_b img) s) =
    mk_boot a (rbx s) (rcx s) d (rdi s) (u32 (boot_stack_top img)) (r12 s) (df s) (cr0 s) (cr3 s) (cr4 s) (efer s) (gdtr s)
      (store_le 2 (store_le 2 (store_le 4 (store_le 4 (bmem s) (mb_magic img) (u32 (rax s))) (mb_info img) (u32 (rbx s)))
        0xB8000 (0x0F00 + 0x42)) 0xB8000 (0x0F00 + 0x43)) o.
Proof.
  rewrite <- run_app. destruct s. eexists _, _, _. unfold stage_b, stage_c, mark. cbn [app]. run_steps. reflexivity.
Qed.

Lemma table_entry_u32 p : 0 <= p < 0x40000000 -> (exists q, p = pg q) -> u32 (Z.lor (u32 p) 3) = table_entry p /\ 0 <= table_entry p < two32.
Proof.
  intros Hp [q ->]. rewrite table_entry_eq, (u32_small (pg q)) by lia.
  assert (Z.lor (pg q) 3 = 3 + pg q) as ->; [|rewrite u32_small; lia].
  unfold pg. rewrite Z.lor_comm. change 4096 with (2 ^ 12). by rewrite lor_add by lia.
Qed.

Lemma stage_d_spec img s :
  image_ok img ->
  exists a c d o m1, run (stage_d img) s =
    mk_boot a (rbx s) c d (rdi s) (rsp s) (r12 s) (df s) (cr0 s) (cr3 s) (cr4 s) (efer s) (gdtr s)
      (store_le 2 m1 0xB8000 (0x0F00 + 0x44)) o /\
    (forall i, 0 <= i < 512 -> load_le 4 m1 (p2_table img + i * 8) = p2_entry i) /\
    (forall x, (forall i, 0 <= i < 512 -> ~ (p2_table img + i * 8 <= x < p2_table img + i * 8 + 4)) ->
       load8 m1 x = load8 (store_le 4 (store_le 4 (bmem s) (p4_table img) (table_entry (p3_table img)))
                             (p3_table img) (table_entry (p2_table img))) x).
Proof.
  intros Hok. pose proof Hok as [H1 H2 H3 [q Hq] H4 H5 H6 H7]. unfold stage_d. rewrite !run_app.
  assert (exists a, run [mov_eax (p3_table img); or_eax 3; mov_mem_eax (p4_table img); mov_eax (p2_table img); or_eax 3;
      mov_mem_eax (p3_table img); mov_ecx 0] s = mk_boot a (rbx s) 0 (rdx s) (rdi s) (rsp s) (r12 s) (df s) (cr0 s) (cr3 s) (cr4 s) (efer s) (gdtr s)
      (store_le 4 (store_le 4 (bmem s) (p4_table img) (table_entry (p3_table img))) (p3_table img) (table_entry (p2_table img))) (outs s)) as (a & ->).
  { destruct s. eexists. run_steps. cbn [rbx rcx rdx rdi rsp r12 df cr0 cr3 cr4 efer gdtr bmem outs].
    destruct (table_entry_u32 (p3_table img)) as [-> ?]; [lia|exists (q + 1); unfold pg in *; lia|].
    destruct (table_entry_u32 (p2_table img)) as [-> ?]; [lia|exists (q + 2); unfold pg in *; lia|].
    rewrite !(u32_small (table_entry _)) by lia. reflexivity. }
  rewrite run_cons.
  edestruct (map_p2_spec img (Z.to_nat 512) (mk_boot a (rbx s) 0 (rdx s) (rdi s) (rsp s) (r12 s) (df s) (cr0 s) (cr3 s) (cr4 s) (efer s) (gdtr s)
      (store_le 4 (store_le 4 (bmem s) (p4_table img) (table_entry (p3_table img))) (p3_table img) (table_entry (p2_table img))) (outs s)) Hok)
    as (a2 & d2 & m1 & -> & He & Hx); [cbn [rcx]; lia|cbn [rcx]; lia|lia|].
  change (run [] ?x) with x. cbn [rcx bmem] in He, Hx.
  eexists _, _, _, _, m1. split; [|split; [exact He|exact Hx]].
  unfold mark, set_rax, set_rdx, set_rcx, set_bmem. cbn [rax rbx rcx rdx rdi rsp r12 df cr0 cr3 cr4 efer gdtr bmem outs].
  run_steps. reflexivity.
Qed.

Lemma stage_ef_spec img s :
  0 <= p4_table img < two32 ->
  exists a c d o, run (stage_f img) (run (stage_e img) s) =
    mk_boot a (rbx s) c d (rdi s) (rsp s) (r12 s) (df s)
      (u32 (Z.lor (u32 (cr0 s)) (Z.lor (Z.shiftl 1 31) (Z.shiftl 1 0)))) (p4_table img) (u32 (Z.lor (u32 (cr4 s)) (Z.shiftl 1 5)))
      (Z.lor (Z.shiftl (u32 (u32 (Z.shiftr (efer s) 32))) 32) (u32 (u32 (Z.lor (u32 (efer s)) (Z.shiftl 1 8)))))
      (55, gdt64_full img) (store_le 2 (bmem s) 0xB8000 (0x0F00 + 0x45)) o.
Proof.
  intros Hp. rewrite <- run_app. destruct s. eexists _, _, _, _. unfold stage_e, stage_f, mark. cbn [app].
  do 6 run_step. change (u32 IA32_EFER) with IA32_EFER.
  rewrite run_cons. unfold rdmsr at 1. cbn [rcx]. rewrite Z.eqb_refl. unfold set_rdx, set_rax at 1. cbn [rax rbx rcx rdx rdi rsp r12 df cr0 cr3 cr4 efer gdtr bmem outs set_rax].
  run_step. rewrite run_cons. unfold wrmsr at 1. cbn [rcx]. rewrite Z.eqb_refl. unfold set_efer at 1. cbn [rax rbx rcx rdx rdi rsp r12 df cr0 cr3 cr4 efer gdtr bmem outs].
  run_steps. rewrite (u32_small (p4_table img)) by lia. reflexivity.
Qed.

Lemma start32_eq inb img s :
  image_ok img ->
  exists a c d e o m0 m1,
    start32 inb img s = mk_boot a (rbx s) c d e (boot_stack_top img) (r12 s) false
      (u32 (Z.lor (u32 (cr0 s)) (Z.lor (Z.shiftl 1 31) (Z.shiftl 1 0)))) (p4_table img) (u32 (Z.lor (u32 (cr4 s)) (Z.shiftl 1 5)))
      (Z.lor (Z.shiftl (u32 (u32 (Z.shiftr (efer s) 32))) 32) (u32 (u32 (Z.lor (u32 (efer s)) (Z.shiftl 1 8)))))
      (55, gdt64_full img) (store_le 2 (store_le 2 m1 0xB8000 (0x0F00 + 0x44)) 0xB8000 (0x0F00 + 0x45)) o /\
    (forall x, 0x100000 <= x -> load8 m0 x = load8 (bmem s) x) /\
    (forall i, 0 <= i < 512 -> load_le 4 m1 (p2_table img + i * 8) = p2_entry i) /\
    (forall x, 0x100000 <= x -> (forall i, 0 <= i < 512 -> ~ (p2_table img + i * 8 <= x < p2_table img + i * 8 + 4)) ->
       load8 m1 x = load8 (saved img (low16 (u32 (rax s)) 0x0F41) (u32 (rbx s)) m0) x).
Proof.
  intros Hok. pose proof Hok as [H1 H2 H3 _ H4 H5 H6 H7].
  destruct (stage_a_spec inb s) as (c & d & e & m0 & o & Ea & Hm0).
  edestruct (stage_bc_spec img (run (stage_a inb) s)) as (a1 & d1 & o1 & Eb).
  edestruct (stage_d_spec img (run (stage_c img) (run (stage_b img) (run (stage_a inb) s))) Hok) as (a2 & c2 & d2 & o2 & m1 & Ed & He & Hx).
  edestruct (stage_ef_spec img (run (stage_d img) (run (stage_c img) (run (stage_b img) (run (stage_a inb) s))))) as (a3 & c3 & d3 & o3 & Ef); [lia|].
  unfold start32. rewrite !run_app. rewrite Ed, Eb, Ea in Ef. rewrite Eb, Ea in Hx.
  cbn [rax rbx rcx rdx rdi rsp r12 df cr0 cr3 cr4 efer gdtr bmem outs] in Ef, Hx.
  rewrite (u32_small (boot_stack_top img)) in Ef by lia. rewrite Ed, Eb, Ea. cbn [rax rbx rcx rdx rdi rsp r12 df cr0 cr3 cr4 efer gdtr bmem outs].
  rewrite (u32_small (boot_stack_top img)) by lia. rewrite Ef.
  eexists _, _, _, _, _, m0, m1. split; [reflexivity|]. split; [exact Hm0|]. split; [exact He|].
  intros x Hxx Hi. rewrite (Hx x Hi). unfold saved. rewrite u32_low16 by lia.
  do 2 apply load8_store_le_cong. by rewrite !load8_store_le_out by lia.
Qed.

Lemma lor_bit_spec x k j : 0 <= k -> 0 <= j -> Z.testbit (Z.lor x (Z.shiftl 1 k)) j = Z.testbit x j || (k =? j).
Proof. intros. change (Z.shiftl 1 k) with (bit k). by rewrite Z.lor_spec, bit_spec. Qed.
Lemma u32_bit x j : 0 <= j < 32 -> Z.testbit (u32 x) j = Z.testbit x j.
Proof. intros. unfold u32. change two32 with (2 ^ 32). apply Z.mod_pow2_bits_low; lia. Qed.

Lemma start32_started inb img s : image_ok img -> bss_zero img (bmem s) -> started img s (start32 inb img s).
Proof.
  intros Hok Hz. pose proof Hok as [H1 H2 H3 [q Hq] H4 H5 H6 H7].
  destruct (start32_eq inb img s Hok) as (a & c & d & e & o & m0 & m1 & -> & Hm0 & He & Hx).
  assert (forall p, p = p3_table img \/ p = p2_table img -> 0 <= table_entry p < two32) as Ht.
  { intros p Hp. apply table_entry_u32; [lia|]. destruct Hp as [->| ->]; [exists (q + 1)|exists (q + 2)]; unfold pg in *; lia. }
  pose proof (Ht _ (or_introl eq_refl)) as Ht3. pose proof (Ht _ (or_intror eq_refl)) as Ht2. clear Ht.
  set (M := store_le 2 _ _ _).
  assert (HM : forall n x, 0x100000 <= x -> load_le n M x = load_le n m1 x).
  { intros n x Hn. apply load_le_ext. intros y Hy. unfold M. by rewrite !load8_store_le_out by lia. }
  set (S := saved img (low16 (u32 (rax s)) 0x0F41) (u32 (rbx s)) m0) in *.
  assert (HS : forall n x, 0x100000 <= x -> x + Z.of_nat n <= p2_table img -> load_le n M x = load_le n S x).
  { intros n x Hn Hp. rewrite HM by done. apply load_le_ext. intros y Hy. apply Hx; [lia|]. intros i Hi. lia. }
  assert (H0 : forall n x, mb_magic img <= x -> x + Z.of_nat n <= boot_stack_top img -> load_le n m0 x = 0).
  { intros n x Hn Hp. apply load_le_zero. intros y Hy. rewrite Hm0 by lia. apply Hz. lia. }
  pose proof (u32_range (rax s)). pose proof (u32_range (rbx s)).
  split; cbn [cr3 rbx efer cr0 cr4 gdtr rsp bmem]; try reflexivity.
  - intros j Hj. rewrite Z.lor_spec, Z.shiftl_spec_low, !u32_bit by lia. cbn [orb].
    rewrite lor_bit_spec, u32_bit by lia. by rewrite (Z.eqb_sym j).
  - rewrite !u32_bit, !Z.lor_spec by lia. by rewrite !orb_true_r.
  - rewrite u32_bit, Z.lor_spec by lia. by rewrite orb_true_r.
  - rewrite HS by lia. unfold S, saved. rewrite 3 load_store_le_ne by lia. apply load_store_le_eq. unfold low16. dlia.
  - rewrite HS by lia. unfold S, saved. rewrite load_le_8, 2 load_store_le_ne by lia. rewrite load_store_le_eq by lia.
    rewrite 4 load_store_le_ne, H0 by lia. lia.
  - intros i Hi. unfold entry, read_u64. rewrite HS by lia. unfold S, saved. rewrite (load_store_le_ne 4 8 _ (p3_table img)) by lia.
    apply entry_first; [|done|done]. intros x Hxx. rewrite !load8_store_le_out, Hm0 by lia. apply Hz. lia.
  - intros i Hi. unfold entry, read_u64. rewrite HS by lia. unfold S, saved.
    apply entry_first; [|done|done]. intros x Hxx. rewrite !load8_store_le_out, Hm0 by lia. apply Hz. lia.
  - intros i Hi. unfold entry, read_u64. rewrite HM, load_le_8, (Z.mul_comm 8 i), He by lia.
    rewrite load_le_zero; [lia|]. intros x Hxx. rewrite Hx by lia. unfold S, saved.
    rewrite !load8_store_le_out, Hm0 by lia. apply Hz. lia.
Qed.

(** ** The first page tables *)

(** All but the entry that the 64-bit part may change. *)
Record boot_tables (img : image) (m : memory) : Prop := {
  bt_p4 : forall i, 0 <= i < 512 -> entry m (p4_table img) i = if i =? 0 then table_entry (p3_table img) else 0;
  bt_p3 : forall i, 0 <= i < 512 -> entry m (p3_table img) i = if i =? 0 then table_entry (p2_table img) else 0;
  bt_p2 : forall i, 0 <= i < 512 -> i <> 508 -> entry m (p2_table img) i = p2_entry i;
}.

Lemma boot_table_flags img p : image_ok img -> p = p3_table img \/ p = p2_table img ->
  has P_PRESENT (table_entry p) = true /\ has P_SIZE (table_entry p) = false /\ has P_USER (table_entry p) = false /\
  has P_WRITE (table_entry p) = true /\ has P_NX (table_entry p) = false /\ Z.land (table_entry p) ADDR_MASK = p.
Proof.
  intros [H1 H2 H3 [q Hq] H4 H5 H6 H7] Hp. assert (exists r, p = r * 4096 /\ 0 <= r < 2 ^ 40) as (r & -> & Hr).
  { destruct Hp as [->| ->]; [exists (q + 1)|exists (q + 2)]; unfold pg in *; lia. }
  rewrite table_entry_eq, !has_entry, has_nx_entry, land_entry_addr by (done || lia || (by apply flag_bits_small)). done.
Qed.

Lemma page_2mb_flags r : 0 <= r < 2 ^ 31 ->
  has P_PRESENT (page_2mb (r * 0x200000)) = true /\ has P_SIZE (page_2mb (r * 0x200000)) = true /\
  has P_USER (page_2mb (r * 0x200000)) = false /\ has P_WRITE (page_2mb (r * 0x200000)) = true /\
  has P_NX (page_2mb (r * 0x200000)) = false.
Proof.
  intros Hr. rewrite page_2mb_eq. replace (r * 0x200000) with (r * 512 * 4096) by lia.
  by rewrite !has_entry, has_nx_entry by (done || lia).
Qed.

Lemma boot_walk img m va r :
  image_ok img -> boot_tables img m -> 0 <= va < 2 ^ 30 -> 0 <= r < 2 ^ 31 ->
  entry m (p2_table img) (va / 0x200000) = page_2mb (r * 0x200000) ->
  mmu_walk m (p4_table img) va = Some (mk_translation (r * 0x200000 + va mod 0x200000) false true true).
Proof.
  intros Hok [T4 T3 T2] Hva Hr He. unfold mmu_walk. rewrite !table_index_eq by lia.
  replace ((va / 2 ^ 39) mod 512) with 0 by dlia. rewrite T4 by lia. cbn [Z.eqb].
  destruct (boot_table_flags img (p3_table img) Hok) as (A1 & A2 & A3 & A4 & A5 & A6); [by left|].
  destruct (boot_table_flags img (p2_table img) Hok) as (B1 & B2 & B3 & B4 & B5 & B6); [by right|].
  destruct (page_2mb_flags r Hr) as (C1 & C2 & C3 & C4 & C5).
  rewrite A6. replace ((va / 2 ^ 30) mod 512) with 0 by dlia. rewrite T3 by lia. cbn [Z.eqb]. rewrite B6.
  replace ((va / 2 ^ 21) mod 512) with (va / 0x200000) by dlia. rewrite He.
  cbn [forallb]. rewrite A1, B1, B2, C1, C2, A3, A4, A5, B4, B5, C4, C5, land_entry_2m by done. reflexivity.
Qed.

Lemma boot_walk_none img m va :
  image_ok img -> boot_tables img m -> 2 ^ 30 <= va < 2 ^ 48 -> mmu_walk m (p4_table img) va = None.
Proof.
  intros Hok [T4 T3 T2] Hva. unfold mmu_walk. rewrite !table_index_eq by lia.
  destruct (boot_table_flags img (p3_table img) Hok) as (A1 & A2 & A3 & A4 & A5 & A6); [by left|].
  rewrite (T4 ((va / 2 ^ 39) mod 512)) by dlia.
  destruct (Z.eqb_spec ((va / 2 ^ 39) mod 512) 0) as [E|]; [|done]. rewrite A1, A6. cbn [negb].
  rewrite T3 by dlia. destruct (Z.eqb_spec ((va / 2 ^ 30) mod 512) 0) as [E'|]; [|done]. exfalso. dlia.
Qed.

(** The bytes whose change leaves the tables intact, but for entry 508. *)
Definition beside_tables (img : image) (x : Z) : Prop :=
  x < p4_table img \/ p2_table img + 4096 <= x \/ p2_table img + 508 * 8 <= x < p2_table img + 508 * 8 + 8.

Lemma boot_tables_ext img m m' : image_ok img ->
  (forall x, ~ beside_tables img x -> load8 m' x = load8 m x) -> boot_tables img m -> boot_tables img m'.
Proof.
  intros [H1 H2 H3 _ H4 H5 H6 H7] Hx [T4 T3 T2]. split; intros i Hi; [rewrite <- T4 by done|rewrite <- T3 by done|intros Hn; rewrite <- T2 by done];
    apply read_u64_ext; intros x Hxx; apply Hx; unfold beside_tables; lia.
Qed.

Lemma boot_identity_at img m va : image_ok img -> boot_tables img m -> 0 <= va < 0x40000000 -> ~ (0x3F800000 <= va < 0x3FA00000) ->
  mmu_walk m (p4_table img) va = Some (mk_translation va false true true).
Proof.
  intros Hok Ht Hva Hn. rewrite (boot_walk img m va (va / 0x200000)) by (done || dlia || (apply Ht; dlia)).
  do 2 f_equal. dlia.
Qed.

Lemma store_spec img n va v s :
  image_ok img -> cr3 s = p4_table img -> boot_tables img (bmem s) -> 0 <= va -> va + Z.of_nat n <= 0x3F800000 ->
  (forall x, va <= x < va + Z.of_nat n -> beside_tables img x) ->
  store n va v s = Ret (set_bmem (store_le n (bmem s) va v) s) /\ boot_tables img (store_le n (bmem s) va v).
Proof.
  intros Hok. revert va v s. induction n as [|n IH]; intros va v s Hc Ht H0 Hn Hb; [by destruct s|].
  cbn [store store_le]. assert (boot_tables img (store8 (bmem s) va v)) as Ht'.
  { eapply boot_tables_ext; [exact Hok| |exact Ht]. intros x Hx. rewrite load8_store8. destruct (Z.eqb_spec va x) as [->|]; [|done].
    exfalso. apply Hx, Hb. lia. }
  unfold kstore, virt_to_phys, canonical. rewrite Hc. destruct (Z.ltb_spec va (2 ^ 47)); [|lia]. cbn [orb].
  rewrite (boot_identity_at img) by (done || lia). rewrite !bind_Ret. cbn [t_pa].
  assert (store8 (bmem s) va (v mod 256) = store8 (bmem s) va v) as -> by (unfold store8; change (v mod 256) with (u8 v); by rewrite u8_idem).
  destruct (IH (va + 1) (v / 256) (set_bmem (store8 (bmem s) va v) s)) as [-> Ht2]; [done|done|lia|lia|intros; apply Hb; lia|].
  split; [reflexivity|exact Ht2].
Qed.

Lemma boot_load_spec img n va s :
  image_ok img -> cr3 s = p4_table img -> boot_tables img (bmem s) -> 0 <= va -> va + Z.of_nat n <= 0x3F800000 ->
  load n va s = Ret (load_le n (bmem s) va).
Proof.
  intros Hok Hc Ht H0 Hn. unfold load. apply kle_identity. split; [lia|]. split; [lia|]. intros x Hx.
  unfold kload, virt_to_phys, canonical. rewrite Hc. destruct (Z.ltb_spec x (2 ^ 47)); [|lia]. cbn [orb].
  rewrite (boot_identity_at img) by (done || lia). by rewrite !bind_Ret.
Qed.

(** The state between two machines that only differ in registers, the screen
    and entry 508. *)
Record handed (img : image) (s s' : boot) : Prop := {
  h_cr3 : cr3 s' = cr3 s;
  h_efer : efer s' = efer s;
  h_mem : forall x, 0x100000 <= x -> ~ (p2_table img + 508 * 8 <= x < p2_table img + 508 * 8 + 8) -> load8 (bmem s') x = load8 (bmem s) x;
  h_tables : boot_tables img (bmem s');
}.

Lemma start64_marks_spec img s :
  image_ok img -> cr3 s = p4_table img -> boot_tables img (bmem s) ->
  exists s', start64_marks s = Ret s' /\ handed img s s' /\ entry (bmem s') (p2_table img) 508 = entry (bmem s) (p2_table img) 508.
Proof.
  intros Hok Hc Ht. pose proof Hok as [H1 H2 H3 _ H4 H5 H6 H7]. unfold start64_marks.
  destruct (store_spec img 2 0xB8000 0x4747 s Hok Hc Ht) as [-> Ht1]; [lia|lia|intros; unfold beside_tables; lia|]. rewrite bind_Ret.
  destruct s. unfold set_bmem. cbn [rax rbx rcx rdx rdi rsp r12 df cr0 cr3 cr4 efer gdtr bmem outs] in *. run_steps.
  match goal with |- context [store 2 0xB8020 _ ?x] => destruct (store_spec img 2 0xB8020 0x4848 x Hok Hc Ht1) as [-> Ht2] end;
    [lia|lia|intros; unfold beside_tables; lia|]. rewrite bind_Ret.
  unfold set_bmem. cbn [rax rbx rcx rdx rdi rsp r12 df cr0 cr3 cr4 efer gdtr bmem outs] in *. run_steps.
  eexists. split; [reflexivity|]. split; [split; cbn [cr3 efer bmem]; [done|done| |exact Ht2]|].
  - intros x Hx _. by rewrite !load8_store_le_out by lia.
  - cbn [bmem]. apply read_u64_ext. intros x Hx. by rewrite !load8_store_le_out by lia.
Qed.

Lemma handed_trans img s1 s2 s3 : handed img s1 s2 -> handed img s2 s3 -> handed img s1 s3.
Proof. intros [A1 A2 A3 A4] [B1 B2 B3 B4]. split; [congruence|congruence| |done]. intros x Hx Hn. by rewrite B3, A3. Qed.

(** What the window shows: its own 2 MiB, or 2 MiB above the first gigabyte. *)
Definition window (m : memory) (img : image) : Prop :=
  exists r, entry m (p2_table img) 508 = page_2mb (r * 0x200000) /\ (r = 508 \/ 512 <= r < 2048).

Lemma window_entry addr : 2 ^ 30 <= addr < two32 ->
  Z.lor (Z.land addr (not64 0x1FFFFF)) 0x83 = page_2mb (addr / 0x200000 * 0x200000).
Proof.
  intros Ha. rewrite page_2mb_eq. change 0x1FFFFF with (2 ^ 21 - 1). rewrite land_not64_ones by lia. done.
Qed.

Lemma start64_spec img s :
  image_ok img -> cr3 s = p4_table img -> boot_tables img (bmem s) -> entry (bmem s) (p2_table img) 508 = p2_entry 508 ->
  load_le 8 (bmem s) (mb_info img) + 52 <= 0x3F800000 ->
  exists s', start64 img s = Ret s' /\ handed img s s' /\ window (bmem s') img.
Proof.
  intros Hok Hc Ht He Hi. pose proof Hok as [H1 H2 H3 _ H4 H5 H6 H7]. unfold start64.
  destruct (start64_marks_spec img s Hok Hc Ht) as (s1 & -> & Hh & He1). rewrite bind_Ret.
  pose proof Hh as [Hc1 _ Hm1 Ht1]. rewrite Hc in Hc1. rewrite He in He1.
  assert (Hw1 : window (bmem s1) img) by (exists 508; split; [done|lia]).
  rewrite (boot_load_spec img 8) by (done || lia). rewrite bind_Ret.
  assert (load_le 8 (bmem s1) (mb_info img) = load_le 8 (bmem s) (mb_info img)) as ->.
  { apply load_le_ext. intros x Hx. apply Hm1; lia. }
  set (info := load_le 8 (bmem s) (mb_info img)) in *. assert (0 <= info) by apply (load_le_range 8).
  assert (Hr : forall f, handed img s (mk_boot (rax (f s1)) (rbx (f s1)) (rcx (f s1)) (rdx s1) (rdi s1) (rsp s1) (r12 s1) (df s1) (cr0 s1) (cr3 s1) (cr4 s1)
      (efer s1) (gdtr s1) (bmem s1) (outs s1))) by (intros f; apply (handed_trans img s s1); [done|by split]).
  cbn [rax set_rax]. destruct (Z.eqb_spec info 0); [eexists; split; [reflexivity|]; split; [exact (Hr (set_rax info))|done]|].
  rewrite (boot_load_spec img 4) by (done || lia). rewrite bind_Ret. cbn [bmem set_rax].
  set (addr := load_le 4 (bmem s1) (info + 48)). pose proof (load_le_range 4 (bmem s1) (info + 48)) as Ha. fold addr in Ha.
  cbn [rbx set_rbx]. destruct (Z.eqb_spec addr 0); [eexists; split; [reflexivity|]; split; [exact (Hr (fun s => set_rbx addr (set_rax info s)))|done]|].
  destruct (Z.ltb_spec addr 0x40000000); [eexists; split; [reflexivity|]; split; [exact (Hr (fun s => set_rbx addr (set_rax info s)))|done]|].
  cbn [rax set_rbx set_rax]. rewrite (boot_load_spec img 4) by (done || lia). rewrite bind_Ret.
  set (len := load_le 4 _ (info + 44)). cbn [rcx set_rcx].
  destruct (Z.eqb_spec len 0); [eexists; split; [reflexivity|]; split; [exact (Hr (fun s => set_rcx len (set_rbx addr (set_rax info s))))|done]|].
  cbn [rbx rax r12 set_rcx set_rbx set_rax set_r12]. rewrite window_entry by lia.
  match goal with |- context [store 8 ?a ?v ?x] => destruct (store_spec img 8 a v x Hok Hc1 Ht1) as [-> Ht2] end;
    [lia|lia|intros; unfold beside_tables; lia|]. rewrite bind_Ret. cbn [bmem set_rax set_r12 set_rcx set_rbx] in Ht2.
  eexists. split; [reflexivity|]. split.
  - apply (handed_trans img s s1); [done|]. split; [done|done| |exact Ht2].
    intros x Hx Hn. apply load8_store_le_out. lia.
  - exists (addr / 0x200000). split; [|right; dlia]. cbn [bmem set_bmem set_rax].
    apply (load_store_le_eq 8). rewrite page_2mb_eq. apply lor_range64; dlia.
Qed.

Lemma start_spec inb img s :
  image_ok img -> bss_zero img (bmem s) -> u32 (rbx s) + 52 <= 0x3F800000 ->
  exists s', start inb img s = Ret s' /\ handed img (start32 inb img s) s' /\ window (bmem s') img /\ started img s (start32 inb img s).
Proof.
  intros Hok Hz Hi. pose proof (start32_started inb img s Hok Hz) as Hs. pose proof Hs as [S1 _ _ _ _ _ _ _ S9 S10 S11 S12].
  destruct (start64_spec img (start32 inb img s) Hok S1) as (s' & E & Hh & Hw).
  - split; [done|done|]. intros i Hr _. by apply S12.
  - apply S12. lia.
  - by rewrite S9.
  - exists s'. by split_and!.
Qed.

(** The boot code reaches [kernel_main] from every loader that clears the
    uninitialised data and passes an information block below the image's
    gigabyte.  It then runs on its own tables: every address below 1 GiB
    outside one 2 MiB window is mapped to itself for the supervisor, writable
    and executable, and nothing above is mapped, so that a memory map above
    1 GiB is not readable at its address, with or without the window. *)
Theorem boot_identity inb img s :
  image_ok img -> bss_zero img (bmem s) -> u32 (rbx s) + 52 <= 0x3F800000 ->
  exists s', start inb img s = Ret s' /\ load_le 8 (bmem s') (mb_info img) = u32 (rbx s) /\
    (forall va, 0 <= va < 2 ^ 48 -> ~ (0x3F800000 <= va < 0x3FA00000) ->
       mmu_walk (bmem s') (cr3 s') va = if va <? 0x40000000 then Some (mk_translation va false true true) else None) /\
    exists r, (r = 508 \/ 512 <= r < 2048) /\ forall va, 0x3F800000 <= va < 0x3FA00000 ->
       mmu_walk (bmem s') (cr3 s') va = Some (mk_translation (r * 0x200000 + va mod 0x200000) false true true).
Proof.
  intros Hok Hz Hi. destruct (start_spec inb img s Hok Hz Hi) as (s' & E & [C _ Hm Ht] & (r & Hr & Hrr) & Hs).
  pose proof Hok as [H1 H2 H3 _ H4 H5 H6 H7]. exists s'. split; [done|]. rewrite C, (st_cr3 _ _ _ Hs). split; [|split].
  - rewrite <- (st_info _ _ _ Hs). apply load_le_ext. intros x Hx. apply Hm; lia.
  - intros va Hva Hn. destruct (Z.ltb_spec va 0x40000000); [|by apply boot_walk_none; [..|lia]].
    by apply boot_identity_at; [..|lia|].
  - exists r. split; [done|]. intros va Hva. apply boot_walk; [done|done|lia|lia|].
    replace (va / 0x200000) with 508; [done|]. clear -Hva. dlia.
Qed.

(** C39: The memory map of the loader is never read.  Whatever the loader passes
    in [eax], the word the boot code saves as the magic number ends in 0x0F41,
    because setting up the screen and the serial line has overwritten the low
    half of the register; it is not the magic number, and [detect_memory]
    falls back to 1 GiB and leaves the allocator as it is. *)
Theorem boot_loses_memory_map inb img s (k : bitmap_machine) :
  image_ok img -> bss_zero img (bmem s) -> u32 (rbx s) + 52 <= 0x3F800000 ->
  exists s', start inb img s = Ret s' /\ u16 (load_le 4 (bmem s') (mb_magic img)) = 0x0F41 /\
    detect_memory (load_le 4 (bmem s') (mb_magic img)) (load_le 8 (bmem s') (mb_info img)) k = Ret (DEFAULT_RAM, k) /\
    detect_and_reinit (load_le 4 (bmem s') (mb_magic img)) (load_le 8 (bmem s') (mb_info img)) k = Ret k.
Proof.
  intros Hok Hz Hi. destruct (start_spec inb img s Hok Hz Hi) as (s' & E & [C _ Hm Ht] & _ & Hs).
  pose proof Hok as [H1 H2 H3 _ H4 H5 H6 H7]. exists s'. split; [done|].
  assert (load_le 4 (bmem s') (mb_magic img) = low16 (u32 (rax s)) 0x0F41) as Em.
  { rewrite <- (st_magic _ _ _ Hs). apply load_le_ext. intros x Hx. apply Hm; lia. }
  assert (forall i, detect_memory (low16 (u32 (rax s)) 0x0F41) i k = Ret (DEFAULT_RAM, k)) as Hd.
  { intros i. unfold detect_memory. destruct (Z.eqb_spec (low16 (u32 (rax s)) 0x0F41) MULTIBOOT_MAGIC) as [Ex|]; [|done].
    exfalso. revert Ex. unfold low16, MULTIBOOT_MAGIC. dlia. }
  rewrite Em. split; [unfold u16, low16; dlia|]. split; [apply Hd|]. unfold detect_and_reinit. by rewrite Hd, bind_Ret.
Qed.

(** ** The no-execute bit *)

(** The walk with the no-execute bit enabled or not: without [EFER.NXE] a set
    bit 63 in an entry is reserved and the access faults. *)
Definition walk_efer (ef : Z) (m : memory) (root va : Z) : option translation :=
  match mmu_walk m root va with
  | Some tr => if negb (Z.testbit ef 11) && negb (t_exec tr) then None else Some tr
  | None => None
  end.

(** C40: User stacks fault.  The boot code sets the long mode bit of [EFER] and
    leaves the no-execute bit as it found it; where it was clear, as after
    reset, every page of a user address space that is not executable, the
    stack page among them, faults on every access. *)
Theorem boot_user_stack_faults {A} `{FrameAllocator A} inb img s K segs (k : machine (A:=A)) :
  image_ok img -> bss_zero img (bmem s) -> u32 (rbx s) + 52 <= 0x3F800000 -> Z.testbit (efer s) 11 = false ->
  kernel_ready K k -> Forall segment_ok segs -> space_cost K + 2 * layout_size segs <= Z.of_nat (size (fa_free (frames k))) ->
  exists s' root l k', start inb img s = Ret s' /\ create_user_page_tables segs k = Ret (root, phys_frame <$> l, k') /\
    (forall va f w, 0 <= va < 0x80000000 -> install l ∅ !! (va / 4096) = Some (f, w, false) -> walk_efer (efer s') (pmem k') root va = None) /\
    exists f, install l ∅ !! 0x500 = Some (f, true, false).
Proof.
  intros Hok Hz Hi Hef Hk Hsegs Hsz. destruct (start_spec inb img s Hok Hz Hi) as (s' & E & [_ Ef _ _] & _ & Hs).
  destruct (create_ready K segs k Hk Hsegs Hsz) as (u & l & k' & t & Hc & Hl & Hu & _ & Hb).
  exists s', (pg u), l, k'. split; [done|]. split; [done|]. split.
  - intros va f w Hva Hum. unfold walk_efer. rewrite (view_walk _ t _ _ (b_view _ _ _ _ _ _ _ _ _ _ Hb) Hu) by lia.
    unfold promised. rewrite Hum. cbn [t_exec].
    by rewrite Ef, (st_efer _ _ _ Hs), Hef by lia.
  - unfold layout in Hl. apply fmap_app_inv in Hl as (l1 & l2 & _ & Hq & ->).
    destruct l2 as [|q [|q' l2]]; [done| |done]. injection Hq as Hv Hw Hx.
    exists (up_frame q). rewrite install_app. cbn [install]. rewrite <- Hv, <- Hw, <- Hx. apply lookup_insert_eq.
Qed.

(** ** A machine to start *)

Definition sample_image : image := mk_image 0x200000 0x200008 0x201000 0x202000 0x203000 0x20C000 0x20D000.
Lemma sample_image_ok : image_ok sample_image.
Proof. split; try (vm_compute; intuition discriminate). by exists 0x201. Qed.

(** A loader that passes the magic number and an information block at 0x9500. *)
Definition loaded : boot := mk_boot MULTIBOOT_MAGIC 0x9500 0 0 0 0 0 false 0 0 0 0 (0, 0) ∅ [].

Lemma boot_identity_witness :
  exists s', start (fun _ => 0) sample_image loaded = Ret s' /\ load_le 8 (bmem s') (mb_info sample_image) = 0x9500 /\
    mmu_walk (bmem s') (cr3 s') 0x200123 = Some (mk_translation 0x200123 false true true) /\
    mmu_walk (bmem s') (cr3 s') 0x40000000 = None.
Proof.
  destruct (boot_identity (fun _ => 0) sample_image loaded sample_image_ok ltac:(intros x Hx; reflexivity) ltac:(vm_compute; discriminate))
    as (s' & E & Hi & Hw & _).
  exists s'. split; [exact E|]. split; [exact Hi|]. split; rewrite Hw by lia; reflexivity.
Defined.

Lemma boot_loses_memory_map_witness :
  exists s', start (fun _ => 0) sample_image loaded = Ret s' /\
    detect_memory (load_le 4 (bmem s') (mb_magic sample_image)) (load_le 8 (bmem s') (mb_info sample_image)) (mk_machine ∅ machine_100 0)
      = Ret (DEFAULT_RAM, mk_machine ∅ machine_100 0).
Proof.
  destruct (boot_loses_memory_map (fun _ => 0) sample_image loaded (mk_machine ∅ machine_100 0) sample_image_ok
    ltac:(intros x Hx; reflexivity) ltac:(vm_compute; discriminate)) as (s' & E & _ & Hd & _).
  exists s'. split; [exact E|exact Hd].
Defined.

Lemma boot_user_stack_faults_witness :
  exists s' root (k k' : machine (A:=frame_state)) l, start (fun _ => 0) sample_image loaded = Ret s' /\
    create_user_page_tables two_segments k = Ret (root, l, k') /\ walk_efer (efer s') (pmem k') root 0x500010 = None.
Proof.
  destruct ready_machine as (K & k & Hk & Hcost & _ & Hsz & _).
  destruct (boot_user_stack_faults (fun _ => 0) sample_image loaded K two_segments k sample_image_ok
    ltac:(intros x Hx; reflexivity) ltac:(vm_compute; discriminate) eq_refl Hk two_segments_ok) as (s' & root & l & k' & E & Hc & Hw & f & Hf).
  - rewrite Hcost. assert (layout_size two_segments = 3) as -> by reflexivity. lia.
  - exists s', root, k, k', (phys_frame <$> l). split; [exact E|]. split; [exact Hc|]. apply (Hw 0x500010 f true); [lia|exact Hf].
Defined.
