(* ===== verification/Apic.v ===== *)
(** * The local interrupt controller (apic.rs)

    The driver of the local APIC, against any device with its registers
    ([Device] of the file [Mmio]), and against what the processor manuals say
    of the register that sends interrupts to other processors. *)

From S2P Require Import Prelude Mem Mmio.

Definition LAPIC_ID : Z := 0x020.
Definition LAPIC_VERSION : Z := 0x030.
Definition LAPIC_TASK_PRIORITY : Z := 0x080.
Definition LAPIC_EOI : Z := 0x0B0.
Definition LAPIC_SPURIOUS : Z := 0x0F0.
Definition LAPIC_ICR_LOW : Z := 0x0C0.
Definition LAPIC_ICR_HIGH : Z := 0x0C4.
Definition LAPIC_BASE : Z := 0xFEE00000.

Section apic.
Context {V : Type} `{Device V}.
Implicit Types b : bus V.

Definition lapic_read (offset : Z) b : Z * bus V := reg_read (LAPIC_BASE + offset) b.
Definition lapic_write (offset v : Z) b : bus V := reg_write (LAPIC_BASE + offset) v b.

Definition lapic_id b : Z * bus V := let '(v, b) := lapic_read LAPIC_ID b in (Z.shiftr v 24, b).
Definition lapic_version b : Z * bus V := lapic_read LAPIC_VERSION b.
Definition send_eoi b : bus V := lapic_write LAPIC_EOI 0 b.

(** The values read here are only printed. *)
Definition init_local_apic b : bus V :=
  let '(_, b) := lapic_read LAPIC_ID b in
  let '(_, b) := lapic_read LAPIC_VERSION b in
  let b := lapic_write LAPIC_SPURIOUS 0x1FF b in
  let '(_, b) := lapic_read LAPIC_SPURIOUS b in
  lapic_write LAPIC_TASK_PRIORITY 0 b.
Definition disable_local_apic b : bus V := lapic_write LAPIC_TASK_PRIORITY 0xFF (lapic_write LAPIC_SPURIOUS 0 b).

(** Ends when bit 12 is clear, and gives up after a million reads. *)
Definition wait_for_delivery b : bus V :=
  (poll (Z.to_nat 1000000) (LAPIC_BASE + LAPIC_ICR_LOW) (fun v => negb (Z.land v (Z.shiftl 1 12) =? 0)) b).2.

(** The delay loops only pass time. *)
Definition send_init_sipi_clean (target_apic_id : Z) b : bus V :=
  let icr_high_val := Z.land (u32 (Z.shiftl target_apic_id 24)) 0xFF000000 in
  let b := lapic_write LAPIC_ICR_HIGH icr_high_val b in
  let b := lapic_write LAPIC_ICR_LOW 0x4500 b in
  let '(_, b) := lapic_read LAPIC_ICR_LOW b in
  let b := wait_for_delivery b in
  let b := lapic_write LAPIC_ICR_HIGH icr_high_val b in
  let b := lapic_write LAPIC_ICR_LOW 0x500 b in
  let b := wait_for_delivery b in
  let b := lapic_write LAPIC_ICR_HIGH icr_high_val b in
  let b := lapic_write LAPIC_ICR_LOW 0x4608 b in
  let b := wait_for_delivery b in
  let b := lapic_write LAPIC_ICR_HIGH icr_high_val b in
  let b := lapic_write LAPIC_ICR_LOW 0x4608 b in
  wait_for_delivery b.

Definition try_enable_ap_lapic b : bus V :=
  let b := reg_write 0xFEE000F0 0x1FF b in
  (reg_read 0xFEE000F0 b).2.

(** ** Termination *)

Lemma wait_within b : within 1000000 b (wait_for_delivery b).
Proof.
  unfold wait_for_delivery. destruct (poll _ _ _ b) as [d b'] eqn:E. cbn [snd]. solve_within.
Qed.

Lemma sipi_within id b : within 4000009 b (send_init_sipi_clean id b).
Proof.
  unfold send_init_sipi_clean, lapic_write, lapic_read. destruct (reg_read _ _) as [v b1] eqn:E1.
  pose proof (wait_within b1) as W1. set (b2 := wait_for_delivery b1) in *. clearbody b2.
  match goal with |- context [wait_for_delivery (reg_write ?a ?x (reg_write ?c ?y b2))] =>
    pose proof (wait_within (reg_write a x (reg_write c y b2))) as W2; set (b3 := wait_for_delivery (reg_write a x (reg_write c y b2))) in *; clearbody b3 end.
  match goal with |- context [wait_for_delivery (reg_write ?a ?x (reg_write ?c ?y b3))] =>
    pose proof (wait_within (reg_write a x (reg_write c y b3))) as W3; set (b4 := wait_for_delivery (reg_write a x (reg_write c y b3))) in *; clearbody b4 end.
  match goal with |- context [wait_for_delivery ?x] => pose proof (wait_within x) as W4; set (b5 := wait_for_delivery x) in *; clearbody b5 end.
  solve_within.
Qed.
End apic.

(** ** What the registers mean *)

(** A local APIC of the manuals: the interrupts it has sent, which only a
    write to the low interrupt command register, at offset 0x300, adds to. *)
Class LocalApic (V : Type) : Type := {
  #[global] la_device :: Device V;
  la_sent : V -> list Z;
  la_read : forall a x, la_sent (dev_read a x).2.1 = la_sent x.1;
  la_write : forall a v x, a <> LAPIC_BASE + 0x300 -> la_sent (dev_write a v x).1 = la_sent x.1;
}.

Section quiet.
Context {V : Type} `{LocalApic V}.
Implicit Types b : bus V.

Definition quiet b b' : Prop := la_sent (b_dev b') = la_sent (b_dev b).

Lemma quiet_read a b : quiet b (reg_read a b).2.
Proof. unfold quiet, reg_read. pose proof (la_read a (b_dev b, b_mem b)) as E. destruct (dev_read a _) as [v [d m]]. exact E. Qed.
Lemma quiet_write a v b : a <> LAPIC_BASE + 0x300 -> quiet b (reg_write a v b).
Proof. intros Ha. unfold quiet, reg_write. pose proof (la_write a v (b_dev b, b_mem b) Ha) as E. destruct (dev_write a v _) as [d m]. exact E. Qed.
Lemma quiet_trans b1 b2 b3 : quiet b1 b2 -> quiet b2 b3 -> quiet b1 b3.
Proof. unfold quiet. congruence. Qed.
Lemma quiet_poll n a f b : quiet b (poll n a f b).2.
Proof.
  revert b. induction n as [|n IH]; intros b; cbn [poll]; [done|]. pose proof (quiet_read a b) as Q. destruct (reg_read a b) as [v b1].
  destruct (f v); [|done]. eapply quiet_trans; [exact Q|apply IH].
Qed.
Lemma quiet_wait b : quiet b (wait_for_delivery b).
Proof. apply quiet_poll. Qed.

Lemma quiet_sipi id b : quiet b (send_init_sipi_clean id b).
Proof.
  unfold send_init_sipi_clean, lapic_write, lapic_read.
  match goal with |- context [reg_read ?a ?x] => pose proof (quiet_read a x) as Q; destruct (reg_read a x) as [v b1]; cbn [snd] in Q end.
  repeat (eapply quiet_trans; [|apply quiet_wait]; do 2 (eapply quiet_trans; [|by apply quiet_write])).
  eapply quiet_trans; [|apply quiet_wait]. eapply quiet_trans; [|exact Q].
  by do 2 (eapply quiet_trans; [|by apply quiet_write]).
Qed.
End quiet.
