(* ===== verification/Acpi.v ===== *)
(** * Discovery of the processors (src/src/acpi.rs)

    The root pointer is searched in low memory, the table of tables gives the
    MADT, and its records fill the table of processors.  Loads are those of
    E820.v. *)

From S2P Require Import Prelude Bytes Mem Frame Paging AddressSpace Usercopy E820.

Definition MAX_CORES : Z := 64.
Record CpuInfo : Type := mk_cpu { apic_id : Z; core_id : Z; is_bsp : bool }.

(** The statics of acpi.rs and the table of smp.rs. *)
Record cpu_table : Type := mk_cpus {
  CPU_COUNT : Z;
  CPUS : list (option CpuInfo);
  MADT_LOCAL_APIC_ADDR : Z;
  MADT_IO_APIC_ADDR : Z;
  MADT_IO_APIC_GSI_BASE : Z;
}.
Definition cpu_table_new : cpu_table := mk_cpus 0 (replicate (Z.to_nat MAX_CORES) None) 0xFEE00000 0 0.
Definition with_lapic (a : Z) (t : cpu_table) : cpu_table :=
  mk_cpus (CPU_COUNT t) (CPUS t) a (MADT_IO_APIC_ADDR t) (MADT_IO_APIC_GSI_BASE t).
Definition with_io_apic (a gsi : Z) (t : cpu_table) : cpu_table :=
  mk_cpus (CPU_COUNT t) (CPUS t) (MADT_LOCAL_APIC_ADDR t) a gsi.

(** The sizes of the packed structures. *)
Definition RSDP_SIZE : Z := 36.
Definition HEADER_SIZE : Z := 36.
Definition RSD_PTR : list Z := [0x52; 0x53; 0x44; 0x20; 0x50; 0x54; 0x52; 0x20].
Definition APIC_SIG : list Z := [0x41; 0x50; 0x49; 0x43].

(** ** Tables in memory *)

Section tables.
Variable m : memory.
Variable cr3 : Z.

Fixpoint sum_loop (n : nat) (ptr sum : Z) : outcome Z :=
  match n with
  | O => Ret sum
  | S n' => b ← kload m cr3 ptr; sum_loop n' (u64 (ptr + 1)) (u8 (sum + b))
  end.
Definition verify_checksum (ptr len : Z) : outcome bool := sum ← sum_loop (Z.to_nat len) ptr 0; Ret (sum =? 0).

(** Each round moves on by 16 bytes. *)
Fixpoint scan_loop (fuel : nat) (addr end_ : Z) : outcome (option Z) :=
  if u64 (addr + RSDP_SIZE) <=? end_ then
    match fuel with
    | O => Hang
    | S fuel' =>
        sig ← kread 8 m cr3 addr;
        if bool_decide (sig = RSD_PTR) then
          ok ← verify_checksum addr 20;
          if (ok : bool) then Ret (Some addr) else scan_loop fuel' (u64 (addr + 16)) end_
        else scan_loop fuel' (u64 (addr + 16)) end_
    end
  else Ret None.
Definition scan_for_rsdp (start len : Z) : outcome (option Z) :=
  scan_loop (Z.to_nat (len / 16 + 2)) (Z.land start (not64 0xF)) (u64 (start + len)).

(** The entries of width [w]. *)
Fixpoint find_in_entries (w : nat) (target : list Z) (idxs : list Z) (entries_start : Z) : outcome (option Z) :=
  match idxs with
  | [] => Ret None
  | i :: idxs' =>
      table_addr ← kle w m cr3 (u64 (entries_start + i * Z.of_nat w));
      if table_addr =? 0 then find_in_entries w target idxs' entries_start
      else
        sig ← kread 4 m cr3 table_addr;
        if bool_decide (sig = target) then Ret (Some table_addr)
        else find_in_entries w target idxs' entries_start
  end.
Definition find_table (w : nat) (addr : Z) (target : list Z) : outcome (option Z) :=
  length_ ← kle 4 m cr3 (u64 (addr + 4));
  let table_count := u64 (length_ - HEADER_SIZE) / Z.of_nat w in
  find_in_entries w target (seqZ 0 table_count) (u64 (addr + HEADER_SIZE)).
Definition find_table_in_xsdt : Z -> list Z -> outcome (option Z) := find_table 8.
Definition find_table_in_rsdt : Z -> list Z -> outcome (option Z) := find_table 4.

(** ** The MADT *)

(** An enabled local APIC. *)
Definition add_cpu (id : Z) (t : cpu_table) : outcome cpu_table :=
  if CPU_COUNT t <? MAX_CORES then
    cpus ← assign (CPUS t) (CPU_COUNT t) (Some (mk_cpu id (CPU_COUNT t) (CPU_COUNT t =? 0)));
    Ret (mk_cpus (CPU_COUNT t + 1) cpus (MADT_LOCAL_APIC_ADDR t) (MADT_IO_APIC_ADDR t) (MADT_IO_APIC_GSI_BASE t))
  else Ret t.
Definition madt_record (rec_type offset : Z) (t : cpu_table) : outcome cpu_table :=
  if rec_type =? 0 then
    id ← kload m cr3 (u64 (offset + 3));
    _ ← kload m cr3 (u64 (offset + 2));
    flags ← kle 2 m cr3 (u64 (offset + 4));
    if negb (Z.land flags 1 =? 0) then add_cpu id t else Ret t
  else if rec_type =? 1 then
    _ ← kload m cr3 (u64 (offset + 2));
    io_apic_addr ← kle 4 m cr3 (u64 (offset + 4));
    gsi_base ← kle 4 m cr3 (u64 (offset + 8));
    Ret (with_io_apic io_apic_addr gsi_base t)
  else if rec_type =? 5 then
    override_addr ← kle 8 m cr3 (u64 (offset + 4));
    Ret (if negb (override_addr =? 0) then with_lapic (u32 override_addr) t else t)
  else Ret t.

(** A record has two bytes at least, so the length of the table bounds the
    rounds. *)
Fixpoint madt_loop (fuel : nat) (offset stop : Z) (t : cpu_table) : outcome cpu_table :=
  if u64 (offset + 2) <=? stop then
    match fuel with
    | O => Hang
    | S fuel' =>
        rec_type ← kload m cr3 offset;
        rec_len ← kload m cr3 (u64 (offset + 1));
        if rec_len <? 2 then Ret t
        else
          t ← madt_record rec_type offset t;
          madt_loop fuel' (u64 (offset + rec_len)) stop t
    end
  else Ret t.
Definition parse_madt (madt_addr : Z) (t : cpu_table) : outcome cpu_table :=
  madt_len ← kle 4 m cr3 (u64 (madt_addr + 4));
  local_apic_addr ← kle 4 m cr3 (u64 (madt_addr + 36));
  let t := with_lapic local_apic_addr t in
  _ ← kle 4 m cr3 (u64 (madt_addr + 40));
  madt_loop (Z.to_nat madt_len) (u64 (madt_addr + 44)) (u64 (madt_addr + madt_len)) t.
End tables.

(** ** The search *)

Section search.
Context {A : Type} `{FrameAllocator A}.
Implicit Types s : machine (A:=A).

(** The regions of the memory map; an entry advances by five bytes at least. *)
Fixpoint scan_map (fuel : nat) (mmap_addr mmap_len offset : Z) s : outcome (option Z * machine (A:=A)) :=
  if offset + 24 <=? mmap_len then
    match fuel with
    | O => Hang
    | S fuel' =>
        let rd n a := kle n (pmem s) (KERNEL_PML4_PA s) a in
        let entry := mmap_addr + offset in
        entry_size ← rd 4%nat entry;
        base ← rd 8%nat (entry + 4);
        len ← rd 8%nat (entry + 12);
        typ ← rd 4%nat (entry + 20);
        let next := offset + (if 0 <? entry_size then entry_size + 4 else 24) in
        if ((typ =? 1) || (typ =? 3)) && (0x10000 <? len) && (0x100000 <? base) then
          let page_base := Z.land base (not64 0x1FFFFF) in
          let page_count := u64 (len + 0x1FFFFF) / 0x200000 in
          s ← map_pages ((fun i => u64 (page_base + i * 0x200000)) <$> seqZ 0 page_count) s;
          let scan_end := Z.min (u64 (base + len)) 0xFFFFFFFF in
          r ← scan_for_rsdp (pmem s) (KERNEL_PML4_PA s) base (u64 (scan_end - base));
          match r with
          | Some p => Ret (Some p, s)
          | None => scan_map fuel' mmap_addr mmap_len next s
          end
        else scan_map fuel' mmap_addr mmap_len next s
    end
  else Ret (None, s).

Definition scan_memory_map (mb_info : Z) s : outcome (option Z * machine (A:=A)) :=
  let rd n a := kle n (pmem s) (KERNEL_PML4_PA s) a in
  if mb_info =? 0 then Ret (None, s)
  else
    flags ← rd 4%nat (u64 (mb_info + 0));
    if Z.land flags (Z.shiftl 1 6) =? 0 then Ret (None, s)
    else
      mmap_addr ← rd 4%nat (u64 (mb_info + 48));
      mmap_len ← rd 4%nat (u64 (mb_info + 44));
      if (0 <? mmap_addr) && (0 <? mmap_len) && (mmap_addr <? 0x40000000) then scan_map (Z.to_nat mmap_len) mmap_addr mmap_len 0 s
      else Ret (None, s).

Definition find_rsdp (mb_info : Z) s : outcome (option Z * machine (A:=A)) :=
  let scan := scan_for_rsdp (pmem s) (KERNEL_PML4_PA s) in
  ebda_seg ← kle 2 (pmem s) (KERNEL_PML4_PA s) 0x40E;
  let ebda_addr := Z.shiftl ebda_seg 4 in
  r ← (if 0 <? ebda_addr then scan ebda_addr 0x400 else Ret None);
  match r with
  | Some p => Ret (Some p, s)
  | None =>
      r ← scan 0xE0000 0x20000;
      match r with
      | Some p => Ret (Some p, s)
      | None =>
          r ← scan 0x80000 0x60000;
          match r with
          | Some p => Ret (Some p, s)
          | None => scan_memory_map mb_info s
          end
      end
  end.

(** The fallback to one processor. *)
Definition single_core (t : cpu_table) : outcome cpu_table :=
  cpus ← assign (CPUS t) 0 (Some (mk_cpu 0 0 true));
  Ret (mk_cpus 1 cpus (MADT_LOCAL_APIC_ADDR t) (MADT_IO_APIC_ADDR t) (MADT_IO_APIC_GSI_BASE t)).

(** From the root pointer on. *)
Definition init_from (rsdp_addr : Z) s (t : cpu_table) : outcome cpu_table :=
  let m := pmem s in
  let cr3 := KERNEL_PML4_PA s in
  revision ← kload m cr3 (rsdp_addr + 15);
  xsdt_addr ← (if 2 <=? revision then kle 8 m cr3 (rsdp_addr + 24) else kle 4 m cr3 (rsdp_addr + 16));
  if xsdt_addr =? 0 then single_core t
  else
    len ← kle 4 m cr3 (u64 (xsdt_addr + 4));
    ok ← verify_checksum m cr3 xsdt_addr len;
    if negb ok then single_core t
    else
      r ← (if 2 <=? revision then find_table_in_xsdt m cr3 xsdt_addr APIC_SIG else find_table_in_rsdt m cr3 xsdt_addr APIC_SIG);
      match r with
      | Some madt_addr => parse_madt m cr3 madt_addr t
      | None => single_core t
      end.

(** [mb_info] is what the boot code saved. *)
Definition acpi_init (mb_info : Z) s (t : cpu_table) : outcome (machine (A:=A) * cpu_table) :=
  x ← find_rsdp mb_info s;
  let '(r, s) := x in
  match r with
  | None => t ← single_core t; Ret (s, t)
  | Some rsdp_addr => t ← init_from rsdp_addr s t; Ret (s, t)
  end.
End search.

Definition smp_cpu_count (t : cpu_table) : Z := CPU_COUNT t.
Definition smp_cpu (idx : Z) (t : cpu_table) : outcome (option CpuInfo) := index (CPUS t) idx.

(** ** The checksum and the scan *)

Definition checksum (bs : list Z) : Z := foldl Z.add 0 bs mod 256.

Section low.
Variable m : memory.
Variable cr3 : Z.

Lemma sum_loop_spec n ptr sum :
  identity m cr3 ptr (Z.of_nat n) -> 0 <= sum ->
  sum_loop m cr3 n ptr (sum mod 256) = Ret (foldl Z.add sum (load_bytes m ptr (Z.of_nat n)) mod 256).
Proof.
  revert ptr sum. induction n as [|n IH]; intros ptr sum Hid Hs; [done|]. pose proof Hid as (H1 & H2 & H3). cbn [sum_loop].
  rewrite H3, bind_Ret by lia. rewrite u64_small by lia. unfold load_bytes. rewrite (seqZ_cons ptr (Z.of_nat (S n))) by lia.
  replace (Z.pred (Z.of_nat (S n))) with (Z.of_nat n) by lia. cbn [fmap list_fmap foldl].
  unfold u8. rewrite Zplus_mod_idemp_l. pose proof (load8_range m ptr). apply IH; [|lia]. eapply identity_sub; [exact Hid|lia|lia].
Qed.
Lemma verify_checksum_spec ptr len :
  0 <= len -> identity m cr3 ptr len -> verify_checksum m cr3 ptr len = Ret (checksum (load_bytes m ptr len) =? 0).
Proof.
  intros Hl Hid. unfold verify_checksum. rewrite <- (Z2Nat.id len) in Hid by done.
  pose proof (sum_loop_spec (Z.to_nat len) ptr 0 Hid ltac:(lia)) as E. rewrite Z.mod_0_l in E by lia. rewrite E, bind_Ret, Z2Nat.id by done. done.
Qed.

(** A root pointer structure. *)
Definition rsdp_at (a : Z) : bool := bool_decide (load_bytes m a 8 = RSD_PTR) && (checksum (load_bytes m a 20) =? 0).
Fixpoint first_from (n : nat) (a end_ : Z) : option Z :=
  match n with
  | O => None
  | S n' => if a + RSDP_SIZE <=? end_ then if rsdp_at a then Some a else first_from n' (a + 16) end_ else None
  end.

Lemma scan_loop_spec fuel a end_ :
  0 <= a <= two63 -> identity m cr3 a (end_ - a) -> end_ - a < 16 * Z.of_nat fuel -> scan_loop m cr3 fuel a end_ = Ret (first_from fuel a end_).
Proof.
  revert a. induction fuel as [|fuel IH]; intros a Ha Hid Hf.
  { cbn [scan_loop]. rewrite u64_small by (unfold RSDP_SIZE; lia). unfold RSDP_SIZE. by destruct (Z.leb_spec (a + 36) end_); [lia|]. }
  pose proof Hid as (_ & Hb & _). cbn [scan_loop first_from]. rewrite u64_small by (unfold RSDP_SIZE; lia).
  unfold RSDP_SIZE in *. destruct (Z.leb_spec (a + 36) end_); [|done].
  rewrite (kread_identity 8), bind_Ret by (eapply identity_sub; [exact Hid|lia|lia]). change (Z.of_nat 8) with 8. unfold rsdp_at.
  assert (IH' : scan_loop m cr3 fuel (u64 (a + 16)) end_ = Ret (first_from fuel (a + 16) end_)).
  { rewrite u64_small by lia. apply IH; [lia|eapply identity_sub; [exact Hid|lia|lia]|lia]. }
  destruct (bool_decide _); cbn [andb]; [|done].
  rewrite verify_checksum_spec, bind_Ret by (lia || (eapply identity_sub; [exact Hid|lia|lia])). by destruct (_ =? 0).
Qed.

(** The lowest candidate. *)
Lemma first_from_spec n a end_ : end_ - a < 16 * Z.of_nat n ->
  match first_from n a end_ with
  | Some p => exists k, 0 <= k /\ p = a + 16 * k /\ p + RSDP_SIZE <= end_ /\ rsdp_at p = true /\ forall j, 0 <= j < k -> rsdp_at (a + 16 * j) = false
  | None => forall k, 0 <= k -> a + 16 * k + RSDP_SIZE <= end_ -> rsdp_at (a + 16 * k) = false
  end.
Proof.
  unfold RSDP_SIZE. revert a. induction n as [|n IH]; intros a Hn; cbn [first_from]; [intros; lia|]. unfold RSDP_SIZE.
  destruct (Z.leb_spec (a + 36) end_); [|intros; lia]. destruct (rsdp_at a) eqn:E.
  { exists 0. split; [lia|]. split; [lia|]. split; [lia|]. split; [done|]. intros; lia. }
  specialize (IH (a + 16) ltac:(lia)).
  assert (Hsh : forall k, a + 16 * k = a + 16 + 16 * (k - 1)) by lia.
  destruct (first_from n (a + 16) end_) as [p|].
  - destruct IH as (k & Hk & -> & Hp & Hr & Hb). exists (k + 1). split; [lia|]. split; [lia|]. split; [lia|]. split; [done|].
    intros j Hj. destruct (decide (j = 0)) as [->|]; [by rewrite Z.mul_0_r, Z.add_0_r|]. rewrite Hsh. apply Hb. lia.
  - intros k Hk Hf. destruct (decide (k = 0)) as [->|]; [by rewrite Z.mul_0_r, Z.add_0_r|]. rewrite Hsh. apply IH; lia.
Qed.
End low.

Lemma align16 start : 0 <= start < two64 -> Z.land start (not64 0xF) = start - start mod 16.
Proof. intros Hs. change 0xF with (2 ^ 4 - 1). rewrite land_not64_ones by lia. change (2 ^ 4) with 16. dlia. Qed.

Lemma rsdp_scan_spec {A} `{FrameAllocator A} K (s : machine (A:=A)) start len :
  kernel_ready K s -> 0 <= start -> 0 <= len -> start + len <= 0x80000000 ->
  exists r, scan_for_rsdp (pmem s) (KERNEL_PML4_PA s) start len = Ret r /\
    match r with
    | Some p => p mod 16 = 0 /\ start - 15 <= p /\ p + RSDP_SIZE <= start + len /\ rsdp_at (pmem s) p = true /\
        forall q, q mod 16 = 0 -> start - 15 <= q < p -> rsdp_at (pmem s) q = false
    | None => forall q, q mod 16 = 0 -> start - 15 <= q -> q + RSDP_SIZE <= start + len -> rsdp_at (pmem s) q = false
    end.
Proof.
  intros Hk Hs Hl Hr. unfold scan_for_rsdp. rewrite align16, u64_small by lia. set (a := start - start mod 16).
  assert (Ha : 0 <= a /\ a <= start < a + 16 /\ a mod 16 = 0) by (unfold a; dlia). clearbody a. destruct Ha as (Ha & Has & Ham).
  assert (Hf : start + len - a < 16 * Z.of_nat (Z.to_nat (len / 16 + 2))) by dlia.
  rewrite scan_loop_spec; [|lia|eapply kernel_identity; [exact Hk|lia|lia]|exact Hf].
  eexists. split; [reflexivity|]. pose proof (first_from_spec (pmem s) _ a (start + len) Hf) as Hff.
  assert (Hgrid : forall q, q mod 16 = 0 -> start - 15 <= q -> exists k, 0 <= k /\ q = a + 16 * k).
  { intros q Hq Hge. exists ((q - a) / 16). dlia. }
  destruct (first_from _ _ _) as [p|].
  - destruct Hff as (k & Hk0 & -> & Hp & Hat & Hb). split; [dlia|]. split; [lia|]. split; [done|]. split; [done|].
    intros q Hq Hge. destruct (Hgrid q Hq ltac:(lia)) as (j & Hj & ->). apply Hb. lia.
  - intros q Hq Hge Hfit. destruct (Hgrid q Hq Hge) as (j & Hj & ->). by apply Hff.
Qed.

(** ** The records *)

Inductive madt_rec : Type :=
| RLocal (id flags : Z)
| RIoApic (addr gsi : Z)
| ROverride (addr : Z)
| ROther (typ : Z).

Definition rec_at (m : memory) (a : Z) (r : madt_rec) : Prop :=
  match r with
  | RLocal id flags => load8 m a = 0 /\ load8 m (a + 3) = id /\ load_le 2 m (a + 4) = flags
  | RIoApic addr gsi => load8 m a = 1 /\ load_le 4 m (a + 4) = addr /\ load_le 4 m (a + 8) = gsi
  | ROverride addr => load8 m a = 5 /\ load_le 8 m (a + 4) = addr
  | ROther typ => load8 m a = typ /\ typ <> 0 /\ typ <> 1 /\ typ <> 5
  end.
(** The records from [a] on: they end at a record too short to be one or at
    the end of the table. *)
Fixpoint recs_at (m : memory) (a stop : Z) (rs : list madt_rec) : Prop :=
  match rs with
  | [] => stop < a + 2 \/ load8 m (a + 1) < 2
  | r :: rs' => a + 2 <= stop /\ 2 <= load8 m (a + 1) /\ rec_at m a r /\ recs_at m (a + load8 m (a + 1)) stop rs'
  end.

(** Whatever the table holds, it is a list of records. *)
Lemma recs_exist m stop : forall (n : nat) a, stop - a < Z.of_nat n -> exists rs, recs_at m a stop rs.
Proof.
  induction n as [|n IH]; intros a Hn; [exists []; left; lia|].
  destruct (decide (stop < a + 2)); [by exists []; left|]. destruct (decide (load8 m (a + 1) < 2)); [by exists []; right|].
  destruct (IH (a + load8 m (a + 1))) as [rs Hrs]; [lia|].
  assert (Hr : exists r, rec_at m a r).
  { destruct (decide (load8 m a = 0)); [by eexists (RLocal _ _)|]. destruct (decide (load8 m a = 1)); [by eexists (RIoApic _ _)|].
    destruct (decide (load8 m a = 5)); [by eexists (ROverride _)|]. by exists (ROther (load8 m a)). }
  destruct Hr as [r Hr]. exists (r :: rs). split; [lia|]. split; [lia|]. done.
Qed.

(** What the records say. *)
Definition enabled (rs : list madt_rec) : list Z :=
  omap (fun r => match r with RLocal id flags => if Z.odd flags then Some id else None | _ => None end) rs.
Definition lapic_of (a : Z) (rs : list madt_rec) : Z :=
  foldl (fun a r => match r with ROverride x => if x =? 0 then a else u32 x | _ => a end) a rs.
Definition io_apic_of (io : Z * Z) (rs : list madt_rec) : Z * Z :=
  foldl (fun io r => match r with RIoApic a g => (a, g) | _ => io end) io rs.

(** The table with further processors. *)
Record filled (ids : list Z) (t t' : cpu_table) : Prop := {
  fi_count : CPU_COUNT t' = Z.min MAX_CORES (CPU_COUNT t + lenZ ids);
  fi_len : lenZ (CPUS t') = MAX_CORES;
  fi_new : forall k, CPU_COUNT t <= k < CPU_COUNT t' ->
    exists id, lookupZ ids (k - CPU_COUNT t) = Some id /\ lookupZ (CPUS t') k = Some (Some (mk_cpu id k (k =? 0)));
  fi_old : forall k, k < CPU_COUNT t \/ CPU_COUNT t' <= k -> lookupZ (CPUS t') k = lookupZ (CPUS t) k;
}.

Lemma filled_nil t t' : CPU_COUNT t' = CPU_COUNT t -> CPUS t' = CPUS t -> 0 <= CPU_COUNT t <= MAX_CORES -> lenZ (CPUS t) = MAX_CORES -> filled [] t t'.
Proof. intros E1 E2 Hc Hl. split; rewrite ?E1, ?E2; [rewrite lenZ_nil; lia|done|intros; lia|done]. Qed.

Lemma add_cpu_spec id t : 0 <= CPU_COUNT t <= MAX_CORES -> lenZ (CPUS t) = MAX_CORES ->
  exists t', add_cpu id t = Ret t' /\ filled [id] t t' /\ MADT_LOCAL_APIC_ADDR t' = MADT_LOCAL_APIC_ADDR t /\
    MADT_IO_APIC_ADDR t' = MADT_IO_APIC_ADDR t /\ MADT_IO_APIC_GSI_BASE t' = MADT_IO_APIC_GSI_BASE t.
Proof.
  intros Hc Hl. unfold add_cpu. destruct (Z.ltb_spec (CPU_COUNT t) MAX_CORES).
  - rewrite assign_lt, bind_Ret by lia. eexists. split; [done|]. split; [|done]. split; cbn [CPU_COUNT CPUS].
    + change (lenZ [id]) with 1. lia.
    + by rewrite lenZ_insertZ.
    + intros k Hk. assert (k = CPU_COUNT t) as -> by lia. exists id. rewrite Z.sub_diag. split; [done|]. apply lookupZ_insertZ_eq. lia.
    + intros k Hk. apply lookupZ_insertZ_ne. lia.
  - exists t. split; [done|]. split; [|done]. split; [change (lenZ [id]) with 1; lia|done|intros; lia|done].
Qed.

Lemma filled_trans i1 i2 t t1 t2 : 0 <= CPU_COUNT t <= MAX_CORES -> filled i1 t t1 -> filled i2 t1 t2 -> filled (i1 ++ i2) t t2.
Proof.
  intros Hc [A1 A2 A3 A4] [B1 B2 B3 B4]. pose proof (lenZ_nonneg i1). pose proof (lenZ_nonneg i2). split.
  - rewrite B1, A1, lenZ_app. lia.
  - done.
  - intros k Hk. destruct (decide (k < CPU_COUNT t1)).
    + destruct (A3 k ltac:(lia)) as (id & Hid & Hk'). exists id. split; [|rewrite B4 by lia; done].
      pose proof (lookupZ_Some_lt _ _ _ Hid). by rewrite lookupZ_app_l by lia.
    + destruct (B3 k ltac:(lia)) as (id & Hid & Hk'). exists id. split; [|done].
      assert (CPU_COUNT t1 = CPU_COUNT t + lenZ i1) by lia.
      rewrite lookupZ_app_r by lia. rewrite <- Hid. f_equal. lia.
  - intros k Hk. rewrite B4 by lia. apply A4. lia.
Qed.

Section madt.
Variable m : memory.
Variable cr3 : Z.

(** One record. *)
Lemma madt_record_spec r a t :
  identity m cr3 a 16 -> rec_at m a r -> 0 <= CPU_COUNT t <= MAX_CORES -> lenZ (CPUS t) = MAX_CORES ->
  exists t', madt_record m cr3 (load8 m a) a t = Ret t' /\ filled (enabled [r]) t t' /\
    MADT_LOCAL_APIC_ADDR t' = lapic_of (MADT_LOCAL_APIC_ADDR t) [r] /\
    (MADT_IO_APIC_ADDR t', MADT_IO_APIC_GSI_BASE t') = io_apic_of (MADT_IO_APIC_ADDR t, MADT_IO_APIC_GSI_BASE t) [r].
Proof.
  intros Hid Hr Hc Hl. pose proof Hid as (Ha & Hb & Hld). unfold madt_record.
  destruct r as [id flags|addr gsi|addr|typ]; cbn [rec_at] in Hr.
  - destruct Hr as (-> & H3 & H4). cbn [Z.eqb]. rewrite !u64_small, !Hld, !bind_Ret by lia.
    rewrite (kle_identity 2), bind_Ret by (eapply identity_sub; [exact Hid|lia|lia]). rewrite H3, H4. cbn [enabled omap list_omap].
    rewrite <- Z.bit0_odd. assert (E : negb (Z.land flags 1 =? 0) = Z.testbit flags 0).
    { change 1 with (Z.ones 1). rewrite Z.land_ones, Z.bit0_eqb by lia. change (2 ^ 1) with 2. pose proof (Z.mod_pos_bound flags 2). zcases; lia || done. }
    rewrite E. destruct (Z.testbit flags 0).
    + destruct (add_cpu_spec id t Hc Hl) as (t' & Et & Hf & H5 & H6 & H7). exists t'. rewrite H5, H6, H7. done.
    + exists t. split; [done|]. split; [by apply filled_nil|done].
  - destruct Hr as (-> & H3 & H4). cbn [Z.eqb Pos.eqb]. rewrite !u64_small, Hld, bind_Ret by lia.
    rewrite !(kle_identity 4), !bind_Ret by (eapply identity_sub; [exact Hid|lia|lia]). rewrite H3, H4.
    eexists. split; [done|]. split; [by apply filled_nil|done].
  - destruct Hr as (-> & H3). cbn [Z.eqb Pos.eqb]. rewrite !u64_small by lia.
    rewrite !(kle_identity 8), !bind_Ret by (eapply identity_sub; [exact Hid|lia|lia]). rewrite H3. cbn [lapic_of foldl].
    destruct (addr =? 0); cbn [negb]; eexists; (split; [done|]); (split; [by apply filled_nil|done]).
  - destruct Hr as (-> & H0 & H1 & H5). destruct (Z.eqb_spec typ 0), (Z.eqb_spec typ 1), (Z.eqb_spec typ 5); try lia.
    exists t. split; [done|]. split; [by apply filled_nil|done].
Qed.

Lemma madt_loop_spec rs : forall fuel a stop t,
  0 <= a -> stop - a <= Z.of_nat fuel -> identity m cr3 a (stop + 16 - a) -> stop <= 2 ^ 62 -> a <= 2 ^ 62 + 256 -> recs_at m a stop rs ->
  0 <= CPU_COUNT t <= MAX_CORES -> lenZ (CPUS t) = MAX_CORES ->
  exists t', madt_loop m cr3 fuel a stop t = Ret t' /\ filled (enabled rs) t t' /\
    MADT_LOCAL_APIC_ADDR t' = lapic_of (MADT_LOCAL_APIC_ADDR t) rs /\
    (MADT_IO_APIC_ADDR t', MADT_IO_APIC_GSI_BASE t') = io_apic_of (MADT_IO_APIC_ADDR t, MADT_IO_APIC_GSI_BASE t) rs.
Proof.
  induction rs as [|r rs IH]; intros fuel a stop t Ha Hfuel Hid Hst Ha2 Hrs Hc Hl.
  - exists t. split; [|split; [by apply filled_nil|done]]. destruct fuel as [|fuel]; cbn [madt_loop]; rewrite u64_small by lia.
    + destruct (Z.leb_spec (a + 2) stop); [|done]. lia.
    + destruct (Z.leb_spec (a + 2) stop); [|done]. destruct Hid as (_ & _ & Hld). cbn [recs_at] in Hrs.
      rewrite u64_small, !Hld, !bind_Ret by lia. destruct (Z.ltb_spec (load8 m (a + 1)) 2); [done|lia].
  - destruct Hrs as (Hfit & Hlen & Hr & Hrs). destruct fuel as [|fuel]; [lia|]. cbn [madt_loop]. rewrite u64_small by lia.
    destruct (Z.leb_spec (a + 2) stop); [|lia]. pose proof Hid as (_ & _ & Hld).
    rewrite u64_small, !Hld, !bind_Ret by lia. destruct (Z.ltb_spec (load8 m (a + 1)) 2); [lia|].
    destruct (madt_record_spec r a t) as (t1 & -> & Hf1 & HL1 & HI1); [eapply identity_sub; [exact Hid|lia|lia]|done..|]. rewrite bind_Ret.
    pose proof (load8_range m (a + 1)). rewrite u64_small by lia. pose proof (lenZ_nonneg (enabled [r])).
    destruct (IH fuel (a + load8 m (a + 1)) stop t1) as (t' & -> & Hf2 & HL2 & HI2); try done; try lia.
    { eapply identity_sub; [exact Hid|lia|lia]. } { rewrite (fi_count _ _ _ Hf1). unfold MAX_CORES in *. lia. } { apply Hf1. }
    exists t'. split; [done|]. split; [|split].
    + change (enabled (r :: rs)) with (enabled ([r] ++ rs)). unfold enabled. rewrite omap_app. by eapply filled_trans.
    + by rewrite HL2, HL1.
    + by rewrite HI2, HI1.
Qed.
End madt.

(** ** The whole search *)

Section discovery.
Context {A : Type} `{FrameAllocator A}.
Implicit Types s : machine (A:=A).

(** The tables an XSDT of [n] entries lists. *)
Definition listed (m : memory) (xsdt n : Z) : list Z := (fun i => load_le 8 m (xsdt + HEADER_SIZE + i * 8)) <$> seqZ 0 n.
Definition has_sig (m : memory) (sig : list Z) (a : Z) : Prop := a <> 0 /\ load_bytes m a 4 = sig.
#[local] Instance has_sig_dec m sig a : Decision (has_sig m sig a).
Proof. unfold has_sig. solve_decision. Defined.

Lemma find_in_entries_spec K s sig start : forall idxs,
  kernel_ready K s -> 0 <= start -> Forall (fun i => 0 <= i /\ start + i * 8 + 8 <= 0x80000000) idxs ->
  Forall (fun i => load_le 8 (pmem s) (start + i * 8) <= 0x80000000 - 4) idxs ->
  find_in_entries (pmem s) (KERNEL_PML4_PA s) 8 sig idxs start =
    Ret (head (filter (has_sig (pmem s) sig) ((fun i => load_le 8 (pmem s) (start + i * 8)) <$> idxs))).
Proof.
  induction idxs as [|i idxs IH]; intros Hk Hs Hi Ht; [done|]. apply Forall_cons in Hi as [Hi Hi'], Ht as [Ht Ht'].
  cbn [find_in_entries]. change (Z.of_nat 8) with 8. rewrite u64_small by lia.
  rewrite (kle_identity 8), bind_Ret by (eapply kernel_identity; [exact Hk|lia|lia]). rewrite fmap_cons, filter_cons.
  pose proof (load_le_range 8 (pmem s) (start + i * 8)). set (a := load_le 8 _ _) in *. destruct (Z.eqb_spec a 0) as [E|E].
  - rewrite IH by done. destruct (decide (has_sig (pmem s) sig a)) as [[? _]|]; done.
  - rewrite (kread_identity 4), bind_Ret by (eapply kernel_identity; [exact Hk|lia|lia]). change (Z.of_nat 4) with 4.
    destruct (decide (has_sig (pmem s) sig a)) as [[_ Hsig]|Hno].
    + by rewrite bool_decide_true.
    + rewrite bool_decide_false; [by apply IH|]. intros E'. by apply Hno.
Qed.

(** The processors, local and I/O APIC that the MADT at [a] lists. *)
Definition lists_processors (m : memory) (a : Z) (t : cpu_table) : Prop :=
  exists rs, recs_at m (a + 44) (a + load_le 4 m (a + 4)) rs /\
    CPU_COUNT t = Z.min MAX_CORES (lenZ (enabled rs)) /\
    (forall k, 0 <= k < CPU_COUNT t -> exists id, lookupZ (enabled rs) k = Some id /\ smp_cpu k t = Ret (Some (mk_cpu id k (k =? 0)))) /\
    MADT_LOCAL_APIC_ADDR t = lapic_of (load_le 4 m (a + 36)) rs /\
    (MADT_IO_APIC_ADDR t, MADT_IO_APIC_GSI_BASE t) = io_apic_of (0, 0) rs.
Definition madt_mapped (m : memory) (a : Z) : Prop := 0 <= a /\ a + Z.max 44 (load_le 4 m (a + 4)) + 16 <= 0x80000000.

Lemma parse_madt_spec K s a : kernel_ready K s -> madt_mapped (pmem s) a ->
  exists t, parse_madt (pmem s) (KERNEL_PML4_PA s) a cpu_table_new = Ret t /\ lists_processors (pmem s) a t.
Proof.
  intros Hk [Ha Hm]. set (m := pmem s) in *. assert (Hid := fun b n => kernel_identity K s b n Hk). fold m in Hid. unfold parse_madt.
  rewrite !u64_small by lia. rewrite !(kle_identity 4), !bind_Ret by (apply Hid; lia). pose proof (load_le_range 4 m (a + 4)).
  rewrite u64_small by lia. set (stop := a + load_le 4 m (a + 4)) in *.
  destruct (recs_exist m stop (Z.to_nat (stop + 1)) (a + 44)) as [rs Hrs]; [lia|].
  destruct (madt_loop_spec m (KERNEL_PML4_PA s) rs (Z.to_nat (load_le 4 m (a + 4))) (a + 44) stop (with_lapic (load_le 4 m (a + 36)) cpu_table_new))
    as (t & E & Hf & HL & HI); try done; try lia.
  { apply Hid; lia. }
  exists t. split; [exact E|]. exists rs. split; [done|]. destruct Hf as [F1 F2 F3 F4]. cbn [CPU_COUNT with_lapic cpu_table_new] in *.
  split; [by rewrite F1|]. split; [|done]. intros k Hk'. destruct (F3 k Hk') as (id & Hid' & Hl). exists id. rewrite Z.sub_0_r in Hid'.
  split; [done|]. unfold smp_cpu, index. by rewrite Hl.
Qed.

End discovery.

(** ** A machine with tables *)

(** A root pointer at 0xE0000, an XSDT at 0xE0030 and a MADT at 0xE0060 with
    two enabled processors, a disabled one and an I/O APIC. *)
Definition sample_tables : list Z :=
  [82; 83; 68; 32; 80; 84; 82; 32; 223; 0; 0; 0; 0; 0; 0; 2; 0; 0; 0; 0; 36; 0; 0; 0; 48; 0; 14; 0; 0; 0; 0; 0; 0; 0; 0; 0; 0; 0;
   0; 0; 0; 0; 0; 0; 0; 0; 0; 0; 88; 83; 68; 84; 44; 0; 0; 0; 1; 34; 0; 0; 0; 0; 0; 0; 0; 0; 0; 0; 0; 0; 0; 0; 0; 0; 0; 0; 0; 0;
   0; 0; 0; 0; 0; 0; 96; 0; 14; 0; 0; 0; 0; 0; 0; 0; 0; 0; 65; 80; 73; 67; 80; 0; 0; 0; 1; 0; 0; 0; 0; 0; 0; 0; 0; 0; 0; 0; 0; 0;
   0; 0; 0; 0; 0; 0; 0; 0; 0; 0; 0; 0; 0; 0; 0; 0; 224; 254; 1; 0; 0; 0; 0; 8; 0; 0; 1; 0; 0; 0; 0; 8; 1; 2; 1; 0; 0; 0; 0; 8; 2;
   3; 0; 0; 0; 0; 1; 12; 0; 0; 0; 0; 192; 254; 0; 0; 0; 0].

