(* ===== verification/Smp.v ===== *)
(** * Starting the other processors (smp.rs)

    The data of each core, the base register it is found through, the code for
    the other processors in low memory, and [wake_aps], which prepares and
    starts each processor of the table that ACPI discovery filled.  Low memory
    is mapped at its own addresses where this runs. *)

From S2P Require Import Prelude Bytes Mem Frame AddressSpace Mmio Acpi Apic.

Record PerCpuData : Type := mk_percpu {
  pc_core_id : Z;
  pc_apic_id : Z;
  pc_current_task : Z;
  pc_kernel_stack_top : Z;
}.
Definition PerCpuData_new : PerCpuData := mk_percpu 0 0 0 0.
Definition PER_CPU_DATA_new : list PerCpuData := replicate (Z.to_nat MAX_CORES) PerCpuData_new.
(** The size of the structure. *)
Definition PER_CPU_SIZE : Z := 32.

(** ** The base register *)

Definition IA32_GS_BASE : Z := 0xC0000101.

Section gs.
(** Where the linker put [PER_CPU_DATA]. *)
Variable PER_CPU_ADDR : Z.

Definition per_cpu_addr (i : Z) : Z := PER_CPU_ADDR + i * PER_CPU_SIZE.

(** The model specific registers that are written, by number. *)
Definition wrmsr (ecx v : Z) (msrs : gmap Z Z) : gmap Z Z := <[ecx := v]> msrs.
Definition set_gs_base_for_core (core_idx : Z) (data : list PerCpuData) (msrs : gmap Z Z) : outcome (gmap Z Z) :=
  _ ← index data core_idx;
  let gs_base := per_cpu_addr core_idx in
  Ret (wrmsr 0xC0000082 gs_base (wrmsr 0xC0000101 gs_base msrs)).

(** The entry that [gs] points to, for the three accessors. *)
Definition gs_index (msrs : gmap Z Z) : Z := (default 0 (msrs !! IA32_GS_BASE) - PER_CPU_ADDR) / PER_CPU_SIZE.
Definition core_id (data : list PerCpuData) (msrs : gmap Z Z) : outcome Z :=
  d ← ptr_read data (gs_index msrs); Ret (pc_core_id d).
Definition current_task_per_core (data : list PerCpuData) (msrs : gmap Z Z) : outcome Z :=
  d ← ptr_read data (gs_index msrs); Ret (pc_current_task d).
Definition set_current_task_per_core (task : Z) (data : list PerCpuData) (msrs : gmap Z Z) : outcome (list PerCpuData) :=
  d ← ptr_read data (gs_index msrs);
  Ret (insertZ (gs_index msrs) (mk_percpu (pc_core_id d) (pc_apic_id d) task (pc_kernel_stack_top d)) data).
End gs.

(** ** The trampoline *)

Definition AP_TRAMPOLINE_PA : Z := 0x8000.
(** Stores 0xAA at 0x9000 and halts. *)
Definition AP_TRAMPOLINE : list Z := [0xC6; 0x06; 0x00; 0x90; 0xAA; 0xFA; 0xF4; 0xEB; 0xFE].

Section smp.
Context {V : Type} `{Device V} {A : Type} `{FrameAllocator A}.
Variable PER_CPU_ADDR : Z.
(** The values of the linker and of the processor. *)
Variables cr3 ap_entry gdt64_full : Z.

Definition setup_trampoline (cr3 stack_top entry gdt : Z) (b : bus V) : bus V :=
  let base := AP_TRAMPOLINE_PA in
  let b := mem_write base AP_TRAMPOLINE b in
  let b := mem_write (base + 0x80) (to_le 8 cr3) b in
  let b := mem_write (base + 0x88) (to_le 8 stack_top) b in
  let b := mem_write (base + 0x90) (to_le 8 entry) b in
  let b := mem_write (base + 0x9A) (to_le 4 (u32 gdt)) b in
  let b := mem_write (base + 0xA0) (replicate 8 0) b in
  let b := mem_write (base + 0xA8) (to_le 8 0x00CF9A000000FFFF) b in
  let b := mem_write (base + 0xB0) (to_le 8 0x00CF92000000FFFF) b in
  let b := mem_write (base + 0xB8) (to_le 2 23) b in
  mem_write (base + 0xBA) (to_le 4 0x80A0) b.

Record smp : Type := mk_smp {
  sm_data : list PerCpuData;
  sm_bus : bus V;
  sm_frames : A;
  sm_msrs : gmap Z Z;
}.

(** [current] and [stack_top] are the current task and the top of its stack. *)
Definition init_bsp (current stack_top : Z) (s : smp) : outcome smp :=
  let '(apic_id, b) := lapic_id (sm_bus s) in
  data ← assign (sm_data s) 0 (mk_percpu 0 apic_id current stack_top);
  msrs ← set_gs_base_for_core PER_CPU_ADDR 0 data (sm_msrs s);
  Ret (mk_smp data b (sm_frames s) msrs).

(** One round of [wake_aps]; a processor without an entry or without a frame
    for its stack is passed over. *)
Definition wake_ap (t : cpu_table) (i : Z) (s : smp) : outcome smp :=
  c ← smp_cpu i t;
  match c with
  | None => Ret s
  | Some cpu =>
      r ← fa_alloc (sm_frames s);
      match r with
      | (None, fa) => Ret (mk_smp (sm_data s) (sm_bus s) fa (sm_msrs s))
      | (Some f, fa) =>
          let stack_top := start_address f + 4096 in
          data ← assign (sm_data s) i (mk_percpu i (apic_id cpu) 0 stack_top);
          let b := setup_trampoline cr3 stack_top ap_entry gdt64_full (sm_bus s) in
          let b := mem_write 0x9000 [0] b in
          let b := try_enable_ap_lapic b in
          let b := send_init_sipi_clean (apic_id cpu) b in
          Ret (mk_smp data b fa (sm_msrs s))
      end
  end.
Fixpoint wake_loop (t : cpu_table) (idxs : list Z) (s : smp) : outcome smp :=
  match idxs with
  | [] => Ret s
  | i :: idxs' => s ← wake_ap t i s; wake_loop t idxs' s
  end.
Definition wake_aps (t : cpu_table) (s : smp) : outcome smp :=
  let cpu_count := smp_cpu_count t in
  if cpu_count <=? 1 then Ret s else wake_loop t (seqZ 1 (cpu_count - 1)) s.

(** The index [ap_entry] looks up for its own interrupt controller. *)
Fixpoint find_core (t : cpu_table) (id : Z) (idxs : list Z) : outcome Z :=
  match idxs with
  | [] => Ret 0
  | i :: idxs' =>
      c ← smp_cpu i t;
      match c with
      | Some cpu => if apic_id cpu =? id then Ret i else find_core t id idxs'
      | None => find_core t id idxs'
      end
  end.
End smp.
Arguments smp V A : clear implicits.

(** ** Each core finds its own data *)

(** [gs] leads to the data of the core.  After [set_gs_base_for_core] with
    the index of a core whose entry is filled, the accessors read and write the
    fields of that entry and of no other. *)
Theorem gs_finds_core PER_CPU_ADDR i task d data msrs :
  lookupZ data i = Some d ->
  exists msrs', set_gs_base_for_core PER_CPU_ADDR i data msrs = Ret msrs' /\
    core_id PER_CPU_ADDR data msrs' = Ret (pc_core_id d) /\ current_task_per_core PER_CPU_ADDR data msrs' = Ret (pc_current_task d) /\
    exists data', set_current_task_per_core PER_CPU_ADDR task data msrs' = Ret data' /\
      current_task_per_core PER_CPU_ADDR data' msrs' = Ret task /\ core_id PER_CPU_ADDR data' msrs' = Ret (pc_core_id d) /\
      forall j, j <> i -> lookupZ data' j = lookupZ data j.
Proof.
  intros Hd. unfold set_gs_base_for_core, index. rewrite Hd, bind_Ret. eexists. split; [reflexivity|].
  set (msrs' := wrmsr _ _ _). assert (gs_index PER_CPU_ADDR msrs' = i) as Hi.
  { unfold gs_index, msrs', wrmsr, IA32_GS_BASE. rewrite lookup_insert_ne, lookup_insert_eq by done. cbn [default from_option id].
    unfold per_cpu_addr, PER_CPU_SIZE. dlia. }
  pose proof (lookupZ_Some_lt _ _ _ Hd).
  unfold core_id, current_task_per_core, set_current_task_per_core, ptr_read. rewrite Hi, Hd, !bind_Ret.
  split; [done|]. split; [done|]. eexists. split; [reflexivity|]. rewrite lookupZ_insertZ_eq by lia. rewrite !bind_Ret.
  split; [done|]. split; [done|]. intros j Hj. by apply lookupZ_insertZ_ne.
Qed.

Lemma gs_finds_core_witness :
  exists msrs', set_gs_base_for_core 0x300000 3 (insertZ 3 (mk_percpu 3 7 0 0) PER_CPU_DATA_new) ∅ = Ret msrs' /\
    core_id 0x300000 (insertZ 3 (mk_percpu 3 7 0 0) PER_CPU_DATA_new) msrs' = Ret 3.
Proof.
  destruct (gs_finds_core 0x300000 3 5 (mk_percpu 3 7 0 0) (insertZ 3 (mk_percpu 3 7 0 0) PER_CPU_DATA_new) ∅) as (msrs' & E & Hc & _);
    [reflexivity|].
  exists msrs'. split; [exact E|exact Hc].
Defined.

(** ** Preparing the processors *)

Section wake.
Context {V : Type} `{Device V} {A : Type} `{FrameAllocator A}.
Variables cr3 ap_entry gdt64_full : Z.
Implicit Types (s : smp V A) (t : cpu_table).

Lemma trampoline_within cr3' top entry gdt (b : bus V) : within 10 b (setup_trampoline cr3' top entry gdt b).
Proof. unfold setup_trampoline. solve_within. Qed.
Lemma enable_within (b : bus V) : within 2 b (try_enable_ap_lapic b).
Proof. unfold try_enable_ap_lapic. destruct (reg_read _ _) as [v b'] eqn:E. cbn [snd]. solve_within. Qed.

(** The accesses of one round. *)
Definition WAKE_ACCESSES : Z := 4000022.

Lemma wake_ap_spec t i cpu s :
  lookupZ (CPUS t) i = Some (Some cpu) -> 0 <= i < lenZ (sm_data s) -> fa_inv (sm_frames s) -> (0 < size (fa_free (sm_frames s)))%nat ->
  exists f s', wake_ap cr3 ap_entry gdt64_full t i s = Ret s' /\ f ∈ fa_free (sm_frames s) /\
    sm_data s' = insertZ i (mk_percpu i (apic_id cpu) 0 (start_address f + 4096)) (sm_data s) /\
    fa_inv (sm_frames s') /\ fa_free (sm_frames s') = fa_free (sm_frames s) ∖ {[f]} /\ sm_msrs s' = sm_msrs s /\
    within WAKE_ACCESSES (sm_bus s) (sm_bus s').
Proof.
  intros Hc Hi Hinv Hsz. unfold wake_ap, smp_cpu, index. rewrite Hc, bind_Ret.
  destruct (fa_alloc_ok (sm_frames s) Hinv) as ([f|] & fa & -> & Hinv' & _ & Hr); rewrite bind_Ret.
  2:{ destruct Hr as [Hr _]. rewrite Hr, size_empty in Hsz. lia. }
  rewrite assign_lt, bind_Ret by lia. destruct Hr as [Hf Hr]. eexists f, _. split; [reflexivity|]. cbn [sm_data sm_frames sm_msrs sm_bus].
  split_and!; try done.
  pose proof (trampoline_within cr3 (start_address f + 4096) ap_entry gdt64_full (sm_bus s)) as W1.
  set (b1 := setup_trampoline _ _ _ _ _) in *. pose proof (enable_within (mem_write 0x9000 [0] b1)) as W2.
  set (b2 := try_enable_ap_lapic _) in *. pose proof (sipi_within (apic_id cpu) b2) as W3. set (b3 := send_init_sipi_clean _ _) in *.
  clearbody b1 b2 b3. unfold WAKE_ACCESSES. solve_within.
Qed.

(** What [wake_aps] has done for the cores [idxs]: each has its entry, with a
    stack of its own. *)
Record prepared t (idxs : list Z) (stack : Z -> Z) s s' : Prop := {
  pr_len : lenZ (sm_data s') = lenZ (sm_data s);
  pr_core : forall i, i ∈ idxs -> exists cpu, lookupZ (CPUS t) i = Some (Some cpu) /\
    lookupZ (sm_data s') i = Some (mk_percpu i (apic_id cpu) 0 (start_address (stack i) + 4096));
  pr_other : forall j, j ∉ idxs -> lookupZ (sm_data s') j = lookupZ (sm_data s) j;
  pr_free : forall i, i ∈ idxs -> stack i ∈ fa_free (sm_frames s) /\ stack i ∉ fa_free (sm_frames s');
  pr_apart : forall i j, i ∈ idxs -> j ∈ idxs -> stack i = stack j -> i = j;
  pr_taken : size (fa_free (sm_frames s)) = (size (fa_free (sm_frames s')) + length idxs)%nat;
  pr_sub : fa_free (sm_frames s') ⊆ fa_free (sm_frames s);
  pr_inv : fa_inv (sm_frames s');
  pr_accesses : within (WAKE_ACCESSES * lenZ idxs) (sm_bus s) (sm_bus s');
}.

Lemma wake_aps_loop t idxs s :
  NoDup idxs -> Forall (fun i => 0 <= i < lenZ (sm_data s) /\ exists cpu, lookupZ (CPUS t) i = Some (Some cpu)) idxs ->
  fa_inv (sm_frames s) -> (length idxs <= size (fa_free (sm_frames s)))%nat ->
  exists stack s', wake_loop cr3 ap_entry gdt64_full t idxs s = Ret s' /\ prepared t idxs stack s s'.
Proof.
  revert s. induction idxs as [|i idxs IH]; intros s Hnd Hok Hinv Hsz; cbn [wake_loop].
  { exists (fun _ => 0), s. split; [done|]. split; try done; try set_solver. by apply within_refl. }
  apply NoDup_cons in Hnd as [Hni Hnd]. apply Forall_cons in Hok as [[Hi (cpu & Hc)] Hok]. cbn [length] in Hsz.
  destruct (wake_ap_spec t i cpu s Hc Hi Hinv) as (f & s1 & -> & Hf & Hd & Hinv1 & Hfr & _ & Hw); [lia|]. rewrite bind_Ret.
  assert (Hs1 : size (fa_free (sm_frames s)) = S (size (fa_free (sm_frames s1)))).
  { rewrite Hfr, size_difference by set_solver. rewrite size_singleton. lia. }
  destruct (IH s1 Hnd) as (stack & s2 & -> & [P1 P2 P3 P4 P5 P6 P7 P8 P9]).
  { rewrite Hd, lenZ_insertZ. exact Hok. } { exact Hinv1. } { lia. }
  exists (fun j => if decide (j = i) then f else stack j), s2. split; [done|]. split.
  - by rewrite P1, Hd, lenZ_insertZ.
  - intros j [->|Hj]%elem_of_cons.
    + exists cpu. rewrite decide_True by done. split; [done|]. rewrite P3, Hd by done. apply lookupZ_insertZ_eq. lia.
    + destruct (P2 j Hj) as (cj & E1 & E2). exists cj. rewrite decide_False by (intros ->; done). done.
  - intros j [Hji Hj]%not_elem_of_cons. rewrite P3, Hd by done. by apply lookupZ_insertZ_ne.
  - intros j [->|Hj]%elem_of_cons; [rewrite decide_True by done; set_solver|].
    rewrite decide_False by (intros ->; done). destruct (P4 j Hj). set_solver.
  - intros j k Hj Hk. destruct (decide (j = i)) as [->|Hji], (decide (k = i)) as [->|Hki]; [done| | |].
    + intros ->. assert (k ∈ idxs) by set_solver. destruct (P4 k); set_solver.
    + intros <-. assert (j ∈ idxs) by set_solver. destruct (P4 j); set_solver.
    + apply P5; set_solver.
  - cbn [length]. lia.
  - set_solver.
  - done.
  - rewrite lenZ_cons. eapply within_mono; [eapply within_trans; [exact Hw|exact P9]|]. lia.
Qed.
End wake.

(** The table as ACPI discovery leaves it. *)
Definition table_ok (t : cpu_table) : Prop :=
  0 <= CPU_COUNT t <= MAX_CORES /\ forall i, 0 <= i < CPU_COUNT t -> exists cpu, lookupZ (CPUS t) i = Some (Some cpu).

Lemma wake_aps_cases {V} `{Device V} {A} `{FrameAllocator A} cr3 ap_entry gdt t (s : smp V A) :
  table_ok t -> lenZ (sm_data s) = MAX_CORES -> fa_inv (sm_frames s) -> CPU_COUNT t - 1 <= Z.of_nat (size (fa_free (sm_frames s))) ->
  exists stack s', wake_aps cr3 ap_entry gdt t s = Ret s' /\ prepared t (seqZ 1 (CPU_COUNT t - 1)) stack s s'.
Proof.
  intros [Hc Ht] Hl Hinv Hsz. unfold wake_aps, smp_cpu_count. destruct (Z.leb_spec (CPU_COUNT t) 1).
  - assert (seqZ 1 (CPU_COUNT t - 1) = []) as -> by (apply seqZ_nil; lia).
    destruct (wake_aps_loop cr3 ap_entry gdt t [] s) as (stack & s' & E & Hp); [constructor|constructor|done|cbn [length]; lia|].
    injection E as <-. by exists stack, s.
  - apply wake_aps_loop; [apply NoDup_seqZ| |done|rewrite length_seqZ; lia].
    apply Forall_forall. intros i Hi. apply elem_of_seqZ in Hi. split; [lia|]. apply Ht. lia.
Qed.

(** C37: [wake_aps] prepares every processor and ends.  With a frame for each,
    and whatever the interrupt controller answers, it returns after at most
    four million and twenty-two accesses for each processor; each has its
    number, its interrupt controller's number and a stack in a frame of its
    own, which was free and is no longer. *)
Theorem wake_aps_prepares {V} `{Device V} {A} `{FrameAllocator A} cr3 ap_entry gdt t (s : smp V A) :
  table_ok t -> lenZ (sm_data s) = MAX_CORES -> fa_inv (sm_frames s) -> CPU_COUNT t - 1 <= Z.of_nat (size (fa_free (sm_frames s))) ->
  exists stack s', wake_aps cr3 ap_entry gdt t s = Ret s' /\ within (WAKE_ACCESSES * Z.max 0 (CPU_COUNT t - 1)) (sm_bus s) (sm_bus s') /\
    (forall i, 1 <= i < CPU_COUNT t -> stack i ∈ fa_free (sm_frames s) /\ (stack i ∉ fa_free (sm_frames s')) /\
      (forall j, 1 <= j < CPU_COUNT t -> stack i = stack j -> i = j) /\
      exists cpu, lookupZ (CPUS t) i = Some (Some cpu) /\
        lookupZ (sm_data s') i = Some (mk_percpu i (apic_id cpu) 0 (start_address (stack i) + 4096))) /\
    (forall j, j < 1 \/ CPU_COUNT t <= j -> lookupZ (sm_data s') j = lookupZ (sm_data s) j) /\ fa_inv (sm_frames s').
Proof.
  intros Ht Hl Hinv Hsz. destruct (wake_aps_cases cr3 ap_entry gdt t s Ht Hl Hinv Hsz) as (stack & s' & E & [P1 P2 P3 P4 P5 P6 P7 P8 P9]).
  assert (Hin : forall i, (1 <= i < CPU_COUNT t) <-> i ∈ seqZ 1 (CPU_COUNT t - 1)) by (intros i; rewrite elem_of_seqZ; lia).
  exists stack, s'. split; [done|]. split; [eapply within_mono; [exact P9|]; unfold lenZ; rewrite length_seqZ; lia|]. split; [|split; [|done]].
  - intros i Hi%Hin. destruct (P4 i Hi). split; [done|]. split; [done|]. split; [|by apply P2]. intros j Hj%Hin. by apply P5.
  - intros j Hj. apply P3. rewrite <- Hin. lia.
Qed.

(** No processor is started.  With a local APIC as the manuals describe it,
    [wake_aps] sends no interrupt to any processor: the register it writes is
    not the interrupt command register. *)
Theorem wake_aps_sends_nothing {V} `{LocalApic V} {A} `{FrameAllocator A} cr3 ap_entry gdt t (s : smp V A) s' :
  wake_aps cr3 ap_entry gdt t s = Ret s' -> la_sent (b_dev (sm_bus s')) = la_sent (b_dev (sm_bus s)).
Proof.
  assert (Hloop : forall idxs (s : smp V A), wake_loop cr3 ap_entry gdt t idxs s = Ret s' -> quiet (sm_bus s) (sm_bus s')).
  { induction idxs as [|i idxs IH]; intros s0; cbn [wake_loop]; [by intros [= ->]|].
    intros (s1 & E1 & E2)%bind_Ret_inv. eapply quiet_trans; [|by apply IH]. clear IH E2 s. unfold wake_ap in E1.
    apply bind_Ret_inv in E1 as ([cpu|] & _ & E1); [|by injection E1 as <-].
    apply bind_Ret_inv in E1 as ([[f|] fa] & _ & E1); [|by injection E1 as <-].
    apply bind_Ret_inv in E1 as (data & _ & E1). injection E1 as <-. cbn [sm_bus].
    eapply quiet_trans; [|apply quiet_sipi]. unfold try_enable_ap_lapic.
    eapply quiet_trans; [|apply quiet_read]. by eapply quiet_trans; [|by apply quiet_write]. }
  unfold wake_aps. destruct (_ <=? 1); [by intros [= ->]|]. apply Hloop.
Qed.

(** A local APIC that is always ready. *)
#[local] Program Instance ready_apic : LocalApic (list Z) := {|
  la_device := {| dev_read a x := (0, x); dev_write a v x := if a =? LAPIC_BASE + 0x300 then (v :: x.1, x.2) else x |};
  la_sent l := l;
|}.
Next Obligation. intros a x. cbn [fst]. lia. Qed.
Next Obligation. done. Qed.
Next Obligation. intros a v x Ha. cbn. by destruct (Z.eqb_spec a (LAPIC_BASE + 0x300)). Qed.

Definition three_cpus : cpu_table :=
  mk_cpus 3 (Some (mk_cpu 0 0 true) :: Some (mk_cpu 4 1 false) :: Some (mk_cpu 6 2 false) :: replicate 61 None) 0xFEE00000 0 0.
Definition before_wake : smp (list Z) frame_state := mk_smp PER_CPU_DATA_new (mk_bus [] ∅ []) machine_100 ∅.
Lemma three_cpus_ok : table_ok three_cpus.
Proof.
  split; [vm_compute; split; discriminate|]. intros i Hi. change (CPU_COUNT three_cpus) with 3 in Hi.
  assert (i = 0 \/ i = 1 \/ i = 2) as [->|[->| ->]] by lia; eexists; reflexivity.
Qed.

Lemma wake_aps_prepares_witness :
  exists stack s', wake_aps 0x1000 0x201000 0x20D000 three_cpus before_wake = Ret s' /\ stack 1 <> stack 2 /\
    lookupZ (sm_data s') 2 = Some (mk_percpu 2 6 0 (start_address (stack 2) + 4096)).
Proof.
  destruct (wake_aps_prepares 0x1000 0x201000 0x20D000 three_cpus before_wake three_cpus_ok eq_refl) as (stack & s' & E & _ & Hi & _).
  - exact machine_100_wf.
  - change (sm_frames before_wake) with machine_100. rewrite machine_100_size. discriminate.
  - exists stack, s'. split; [exact E|]. change (CPU_COUNT three_cpus) with 3 in Hi. destruct (Hi 1 ltac:(lia)) as (_ & _ & Hd & _).
    destruct (Hi 2 ltac:(lia)) as (_ & _ & _ & cpu & Hc & Hl). split; [intros E12; specialize (Hd 2 ltac:(lia) E12); discriminate|].
    injection Hc as <-. exact Hl.
Defined.

Lemma wake_aps_sends_nothing_witness :
  exists s', wake_aps 0x1000 0x201000 0x20D000 three_cpus before_wake = Ret s' /\ la_sent (b_dev (sm_bus s')) = [].
Proof.
  destruct (wake_aps_cases 0x1000 0x201000 0x20D000 three_cpus before_wake three_cpus_ok eq_refl) as (_ & s' & E & _).
  - exact machine_100_wf.
  - change (sm_frames before_wake) with machine_100. rewrite machine_100_size. discriminate.
  - exists s'. split; [exact E|]. exact (wake_aps_sends_nothing 0x1000 0x201000 0x20D000 three_cpus before_wake s' E).
Defined.
