(* ===== verification/Framebuffer.v ===== *)
(** * The frame buffer console (src/src/arch/x86_64/framebuffer.rs)

    Characters are drawn as bitmaps of 8 by 16 pixels into the linear frame
    buffer, which the kernel reaches through its page tables. *)

From S2P Require Import Prelude Bytes Mem Frame Paging AddressSpace Usercopy E820.

(** The sixteen rows of a glyph, written as one number, the top row first. *)
Fixpoint rows_of_number (n : nat) (v : Z) (rows : list Z) : list Z :=
  match n with O => rows | S n' => rows_of_number n' (v / 256) (v mod 256 :: rows) end.
(** The glyphs of the characters 32 to 126, a byte per row of pixels. *)
Definition FONT : list (list Z) :=
  (fun v => rows_of_number 16 v []) <$>
    [0x00000000000000000000000000000000; 0x0000183C3C3C18181800181800000000; 0x00666666240000000000000000000000;
     0x0000006C6CFE6C6CFE6C6C0000000000; 0x18187CC6C2C07C060686C67C18180000; 0x00000000C2C60C183060C68600000000;
     0x0000386C6C3876DCCCCCCC7600000000; 0x00303030600000000000000000000000; 0x00000C18303030303030180C00000000;
     0x000030180C0C0C0C0C0C183000000000; 0x0000000000663CFF3C66000000000000; 0x000000000018187E1818000000000000;
     0x00000000000000000018181830000000; 0x00000000000000FE0000000000000000; 0x00000000000000000000181800000000;
     0x0000000002060C183060C08000000000; 0x00007CC6C6CEDEF6E6C6C67C00000000; 0x00001838781818181818187E00000000;
     0x00007CC6060C183060C0C6FE00000000; 0x00007CC606063C060606C67C00000000; 0x00000C1C3C6CCCFE0C0C0C1E00000000;
     0x0000FEC0C0C0FC060606C67C00000000; 0x00003860C0C0FCC6C6C6C67C00000000; 0x0000FEC606060C183030303000000000;
     0x00007CC6C6C67CC6C6C6C67C00000000; 0x00007CC6C6C67E0606060C7800000000; 0x00000000181800000018180000000000;
     0x00000000181800000018183000000000; 0x0000000C183060C06030180C00000000; 0x00000000007E00007E00000000000000;
     0x0000006030180C060C18306000000000; 0x00007CC6C60C18181800181800000000; 0x00007CC6C6C6DEDEDEDCC07C00000000;
     0x000010386CC6C6FEC6C6C6C600000000; 0x0000FC6666667C66666666FC00000000; 0x00003C66C2C0C0C0C0C2663C00000000;
     0x0000F86C6666666666666CF800000000; 0x0000FE6662687868606266FE00000000; 0x0000FE6662687868606060F000000000;
     0x00003C66C2C0C0C0CEC6663A00000000; 0x0000C6C6C6C6FEC6C6C6C6C600000000; 0x00003C18181818181818183C00000000;
     0x00001E0C0C0C0C0CCCCCCC7800000000; 0x0000E6666C6C78786C6666E600000000; 0x0000F06060606060606266FE00000000;
     0x0000C6EEFEFED6C6C6C6C6C600000000; 0x0000C6E6F6FEDECEC6C6C6C600000000; 0x00007CC6C6C6C6C6C6C6C67C00000000;
     0x0000FC6666667C60606060F000000000; 0x00007CC6C6C6C6C6C6D6DE7C0C0E0000; 0x0000FC6666667C6C666666E600000000;
     0x00007CC6C660380C06C6C67C00000000; 0x0000FFDB991818181818183C00000000; 0x0000C6C6C6C6C6C6C6C6C67C00000000;
     0x0000C6C6C6C6C6C6C66C381000000000; 0x0000C6C6C6C6D6D6D6FEEE6C00000000; 0x0000C6C66C7C38387C6CC6C600000000;
     0x0000C6C6C66C38181818183C00000000; 0x0000FEC6860C183060C2C6FE00000000; 0x00003C30303030303030303C00000000;
     0x00000080C0E070381C0E060200000000; 0x00003C0C0C0C0C0C0C0C0C3C00000000; 0x10386CC6000000000000000000000000;
     0x00000000000000000000000000FF0000; 0x30301800000000000000000000000000; 0x0000000000780C7CCCCCCC7600000000;
     0x0000E06060786C666666667C00000000; 0x00000000007CC6C0C0C0C67C00000000; 0x00001C0C0C3C6CCCCCCCCC7600000000;
     0x00000000007CC6FEC0C0C67C00000000; 0x00001C36323078303030307800000000; 0x000000000076CCCCCCCCCC7C0CCC7800;
     0x0000E060606C7666666666E600000000; 0x00001818003818181818183C00000000; 0x00000606000E06060606060666663C00;
     0x0000E06060666C78786C66E600000000; 0x00003818181818181818183C00000000; 0x0000000000ECFED6D6D6D6C600000000;
     0x0000000000DC66666666666600000000; 0x00000000007CC6C6C6C6C67C00000000; 0x0000000000DC66666666667C6060F000;
     0x000000000076CCCCCCCCCC7C0C0C1E00; 0x0000000000DC7666606060F000000000; 0x00000000007CC660380CC67C00000000;
     0x0000103030FC30303030361C00000000; 0x0000000000CCCCCCCCCCCC7600000000; 0x0000000000C6C6C6C6C66C3800000000;
     0x0000000000C6C6D6D6D6FE6C00000000; 0x0000000000C66C3838386CC600000000; 0x0000000000C6C6C6C6C6C67E060CF800;
     0x0000000000FECC183060C6FE00000000; 0x00000E18181870181818180E00000000; 0x00001818181800181818181800000000;
     0x0000701818180E181818187000000000; 0x000076DC000000000000000000000000].

Record fb_state : Type := mk_fb {
  FB_ADDR : Z;
  FB_PITCH : Z;
  FB_WIDTH : Z;
  FB_HEIGHT : Z;
  FB_BPP : Z;
  FB_ROW : Z;
  FB_COL : Z;
  FB_INITIALIZED : bool;
}.
Definition fb_new : fb_state := mk_fb 0 0 0 0 0 0 0 false.
Definition at_cursor (row col : Z) (s : fb_state) : fb_state :=
  mk_fb (FB_ADDR s) (FB_PITCH s) (FB_WIDTH s) (FB_HEIGHT s) (FB_BPP s) row col (FB_INITIALIZED s).
Definition CHAR_W : Z := 8.
Definition CHAR_H : Z := 16.
Definition FG_COLOR : Z := 0x00FF00.
Definition BG_COLOR : Z := 0x000000.

Section console.
(** The page tables in use. *)
Variable cr3 : Z.

(** [write_volatile(fb.add(offset), v)]. *)
Definition fb_write (s : fb_state) (offset v : Z) (m : memory) : outcome memory :=
  kstore m cr3 (u64 (FB_ADDR s + offset)) (u8 v).

Definition pixel_bytes (s : fb_state) : Z := FB_BPP s / 8.
(** The bytes of one pixel. *)
Definition write_pixel (s : fb_state) (offset color : Z) (m : memory) : outcome memory :=
  m ← fb_write s offset (Z.land color 0xFF) m;
  m ← fb_write s (offset + 1) (Z.land (Z.shiftr color 8) 0xFF) m;
  m ← fb_write s (offset + 2) (Z.land (Z.shiftr color 16) 0xFF) m;
  if pixel_bytes s =? 4 then fb_write s (offset + 3) 0xFF m else Ret m.

(** A loop over the pixels of a row, and over rows. *)
Fixpoint each {B} (f : B -> memory -> outcome memory) (l : list B) (m : memory) : outcome memory :=
  match l with
  | [] => Ret m
  | b :: l' => m ← f b m; each f l' m
  end.

Definition framebuffer_clear (s : fb_state) (color : Z) (m : memory) : outcome memory :=
  if negb (FB_INITIALIZED s) && (FB_ADDR s =? 0) then Ret m
  else
    each (fun y => each (fun x => write_pixel s (y * FB_PITCH s + x * pixel_bytes s) color) (seqZ 0 (FB_WIDTH s)))
      (seqZ 0 (FB_HEIGHT s)) m.

Definition framebuffer_put_pixel (s : fb_state) (x y color : Z) (m : memory) : outcome memory :=
  if (FB_WIDTH s <=? x) || (FB_HEIGHT s <=? y) then Ret m
  else write_pixel s (y * FB_PITCH s + x * pixel_bytes s) color m.

(** The glyph of a printable character at the cursor. *)
Definition draw_glyph (s : fb_state) (ch : Z) (m : memory) : outcome memory :=
  glyph ← index FONT (ch - 32);
  let start_x := FB_COL s * CHAR_W in
  let start_y := FB_ROW s * CHAR_H in
  each (fun gy m =>
      row_bits ← index glyph gy;
      each (fun gx =>
          let color := if negb (Z.land row_bits (Z.shiftr 0x80 gx) =? 0) then FG_COLOR else BG_COLOR in
          framebuffer_put_pixel s (start_x + gx) (start_y + gy) color)
        (seqZ 0 CHAR_W) m)
    (seqZ 0 CHAR_H) m.

(** [core::ptr::copy] within the frame buffer. *)
Definition fb_move (s : fb_state) (src dst len : Z) (m : memory) : outcome memory :=
  bs ← kread (Z.to_nat len) m cr3 (u64 (FB_ADDR s + src));
  each (fun ib => fb_write s (dst + ib.1) ib.2) (zip (seqZ 0 len) bs) m.

(** The rows of text move up by one; the last one is cleared. *)
Definition scroll (s : fb_state) (m : memory) : outcome memory :=
  let rows := FB_HEIGHT s / CHAR_H in
  let scroll_bytes := u64 (u64 (rows - 1) * CHAR_H * FB_PITCH s) in
  m ← fb_move s (CHAR_H * FB_PITCH s) 0 scroll_bytes m;
  let last_row_start := u64 (u64 (rows - 1) * CHAR_H) in
  each (fun y => each (fun x m =>
      let offset := y * FB_PITCH s + x * 4 in
      m ← fb_write s offset 0 m;
      m ← fb_write s (offset + 1) 0 m;
      m ← fb_write s (offset + 2) 0 m;
      fb_write s (offset + 3) 0xFF m) (seqZ 0 (FB_WIDTH s)))
    (seqZ last_row_start (rows * CHAR_H - last_row_start)) m.

Definition framebuffer_put_char (ch : Z) (x : fb_state * memory) : outcome (fb_state * memory) :=
  let '(s, m) := x in
  if negb (FB_INITIALIZED s) then Ret (s, m)
  else
    x ← (if ch =? 0x0A then Ret (at_cursor (FB_ROW s + 1) 0 s, m)
         else if ch =? 0x0D then Ret (at_cursor (FB_ROW s) 0 s, m)
         else
           m ← (if (32 <=? ch) && (ch <=? 126) then draw_glyph s ch m else Ret m);
           Ret (at_cursor (FB_ROW s) (FB_COL s + 1) s, m));
    let '(s, m) := x in
    let cols := FB_WIDTH s / CHAR_W in
    let rows := FB_HEIGHT s / CHAR_H in
    let s := if cols <=? FB_COL s then at_cursor (FB_ROW s + 1) 0 s else s in
    if rows <=? FB_ROW s then
      m ← scroll s m;
      Ret (at_cursor (u64 (rows - 1)) (FB_COL s) s, m)
    else Ret (s, m).

(** [FramebufferWriter::write_str]. *)
Fixpoint fb_write_str (bs : list Z) (x : fb_state * memory) : outcome (fb_state * memory) :=
  match bs with
  | [] => Ret x
  | b :: bs' => x ← framebuffer_put_char b x; fb_write_str bs' x
  end.
End console.

Section init.
Context {A : Type} `{FrameAllocator A}.

(** [mb_info] is what the boot code saved. *)
Definition framebuffer_init (mb_info : Z) (s : fb_state) (k : machine (A:=A)) : outcome (fb_state * machine (A:=A)) :=
  if mb_info =? 0 then Ret (s, k)
  else
    let rd n off := kle n (pmem k) (KERNEL_PML4_PA k) (u64 (mb_info + off)) in
    flags ← rd 4%nat 0;
    if Z.land flags (Z.shiftl 1 12) =? 0 then Ret (s, k)
    else
      addr ← rd 8%nat 88;
      pitch ← rd 4%nat 96;
      width ← rd 4%nat 100;
      height ← rd 4%nat 104;
      bpp ← rd 1%nat 108;
      let s := mk_fb addr pitch width height bpp (FB_ROW s) (FB_COL s) (FB_INITIALIZED s) in
      if (addr =? 0) || (width =? 0) || (height =? 0) then Ret (s, k)
      else
        fb_type ← rd 1%nat 109;
        if negb (fb_type =? 1) then Ret (s, k)
        else
          let fb_size := pitch * height in
          let page_base := Z.land addr (not64 0xFFF) in
          let page_count := u64 (fb_size + 0xFFF) / 0x1000 in
          k ← map_pages ((fun i => u64 (page_base + i * 0x1000)) <$> seqZ 0 page_count) k;
          m ← framebuffer_clear (KERNEL_PML4_PA k) s 0x000000 (pmem k);
          Ret (mk_fb addr pitch width height bpp 0 0 true, with_mem m k).
End init.

(** ** Pixels *)

Definition same_outside (a n : Z) (m m' : memory) : Prop := forall x, ~ (a <= x < a + n) -> load8 m' x = load8 m x.
(** The range is mapped onto itself, whatever it holds. *)
Definition range_mapped (m : memory) (cr3 a n : Z) : Prop :=
  0 <= a /\ a + n <= two63 /\ forall m', same_outside a n m m' -> forall x, a <= x < a + n -> virt_to_phys m' cr3 x = Ret x.

Lemma same_outside_trans a n m1 m2 m3 : same_outside a n m1 m2 -> same_outside a n m2 m3 -> same_outside a n m1 m3.
Proof. intros H1 H2 x Hx. by rewrite H2, H1. Qed.
Lemma range_mapped_ext m m' cr3 a n : range_mapped m cr3 a n -> same_outside a n m m' -> range_mapped m' cr3 a n.
Proof. intros (H1 & H2 & H3) Hs. split; [done|]. split; [done|]. intros m2 H2'. apply H3. by eapply same_outside_trans. Qed.

(** A console with 32-bit pixels and room for a character. *)
Record fb_ok (s : fb_state) : Prop := {
  fo_init : FB_INITIALIZED s = true;
  fo_bpp : pixel_bytes s = 4;
  fo_width : CHAR_W <= FB_WIDTH s;
  fo_height : CHAR_H <= FB_HEIGHT s;
  fo_pitch : 4 * FB_WIDTH s <= FB_PITCH s;
  fo_size : FB_PITCH s * FB_HEIGHT s < two63;
}.
Definition fb_size (s : fb_state) : Z := FB_PITCH s * FB_HEIGHT s.
Definition pixel (s : fb_state) (m : memory) (x y : Z) : Z := load_le 4 m (FB_ADDR s + (y * FB_PITCH s + x * 4)).
Definition on_screen (s : fb_state) (x y : Z) : Prop := 0 <= x < FB_WIDTH s /\ 0 <= y < FB_HEIGHT s.
Definition opaque (color : Z) : Z := 0xFF000000 + color.

Lemma load_le_shift n m m' a d : (forall x, a <= x < a + Z.of_nat n -> load8 m' x = load8 m (x + d)) -> load_le n m' a = load_le n m (a + d).
Proof.
  revert a. induction n as [|n IH]; intros a Hx; [done|]. cbn [load_le]. rewrite Hx by lia. rewrite IH by (intros; apply Hx; lia).
  by replace (a + 1 + d) with (a + d + 1) by lia.
Qed.

Section pixels.
Variable cr3 : Z.
Variable s : fb_state.
Hypothesis Hok : fb_ok s.
Abbreviation mapped m := (range_mapped m cr3 (FB_ADDR s) (fb_size s)).
Abbreviation same := (same_outside (FB_ADDR s) (fb_size s)).

Lemma pixel_range x y : on_screen s x y -> 0 <= y * FB_PITCH s + x * 4 /\ y * FB_PITCH s + x * 4 + 4 <= fb_size s.
Proof. intros [Hx Hy]. pose proof (fo_pitch s Hok). unfold fb_size. nia. Qed.
Lemma pixels_apart x y x' y' : on_screen s x y -> on_screen s x' y' -> x <> x' \/ y <> y' ->
  y * FB_PITCH s + x * 4 + 4 <= y' * FB_PITCH s + x' * 4 \/ y' * FB_PITCH s + x' * 4 + 4 <= y * FB_PITCH s + x * 4.
Proof.
  intros [Hx Hy] [Hx' Hy'] Hne. pose proof (fo_pitch s Hok). destruct (Z.lt_trichotomy y y') as [Hlt|[->|Hgt]]; [left; nia| |right; nia]. lia.
Qed.

Lemma fb_write_spec m off v : mapped m -> 0 <= off < fb_size s -> 0 <= v < 256 ->
  fb_write cr3 s off v m = Ret (store8 m (FB_ADDR s + off) v) /\ same m (store8 m (FB_ADDR s + off) v).
Proof.
  intros (Ha & Hb & Hv) Ho Hvr. unfold fb_write, kstore. rewrite u64_small by lia. rewrite (Hv m) by (done || lia). rewrite bind_Ret. unfold u8 at 1.
  rewrite Z.mod_small by done. split; [done|]. intros x Hx. rewrite load8_store8. zcase; [lia|done].
Qed.

Lemma write_pixel_spec m off color : mapped m -> 0 <= off -> off + 4 <= fb_size s -> 0 <= color < 2 ^ 24 ->
  write_pixel cr3 s off color m = Ret (store_le 4 m (FB_ADDR s + off) (opaque color)) /\ same m (store_le 4 m (FB_ADDR s + off) (opaque color)).
Proof.
  intros Hm Ho Hf Hc. unfold write_pixel. rewrite (fo_bpp s Hok). cbn [Z.eqb Pos.eqb].
  change 0xFF with (Z.ones 8). rewrite !Z.land_ones, !Z.shiftr_div_pow2 by lia. change (2 ^ 8) with 256. change (2 ^ 16) with 65536. change (2 ^ 24) with 16777216 in Hc.
  destruct (fb_write_spec m off (color mod 256)) as [-> S1]; [done|lia|dlia|]. rewrite bind_Ret.
  destruct (fb_write_spec (store8 m (FB_ADDR s + off) (color mod 256)) (off + 1) ((color / 256) mod 256)) as [-> S2];
    [by eapply range_mapped_ext|lia|dlia|]. rewrite bind_Ret. pose proof (same_outside_trans _ _ _ _ _ S1 S2) as S12. set (m2 := store8 (store8 _ _ _) _ _) in *.
  destruct (fb_write_spec m2 (off + 2) ((color / 65536) mod 256)) as [-> S3]; [by eapply range_mapped_ext|lia|dlia|]. rewrite bind_Ret.
  pose proof (same_outside_trans _ _ _ _ _ S12 S3) as S13.
  destruct (fb_write_spec (store8 m2 (FB_ADDR s + (off + 2)) ((color / 65536) mod 256)) (off + 3) (Z.ones 8)) as [-> S4]; [by eapply range_mapped_ext|lia|done|].
  pose proof (same_outside_trans _ _ _ _ _ S13 S4) as S14.
  assert (E : store8 (store8 m2 (FB_ADDR s + (off + 2)) ((color / 65536) mod 256)) (FB_ADDR s + (off + 3)) (Z.ones 8) =
    store_le 4 m (FB_ADDR s + off) (opaque color)).
  { unfold m2. cbn [store_le]. unfold store8, u8, opaque. change (Z.ones 8) with 255. rewrite <- !Z.add_assoc. cbn [Z.add Pos.add Pos.succ].
    assert (V0 : (4278190080 + color) mod 256 = (color mod 256) mod 256) by dlia.
    assert (V1 : ((4278190080 + color) / 256) mod 256 = ((color / 256) mod 256) mod 256) by dlia.
    assert (V2 : ((4278190080 + color) / 256 / 256) mod 256 = ((color / 65536) mod 256) mod 256) by (rewrite Z.div_div by lia; dlia).
    assert (V3 : ((4278190080 + color) / 256 / 256 / 256) mod 256 = 255 mod 256) by (rewrite !Z.div_div by lia; dlia).
    by rewrite V0, V1, V2, V3. }
  rewrite <- E. done.
Qed.

(** The pixels of a region get their colours, the others stay. *)
Record painted (R : Z -> Z -> bool) (c : Z -> Z -> Z) (m m' : memory) : Prop := {
  pa_same : same m m';
  pa_in : forall x y, on_screen s x y -> R x y = true -> pixel s m' x y = c x y;
  pa_out : forall x y, on_screen s x y -> R x y = false -> pixel s m' x y = pixel s m x y;
}.

Lemma write_pixel_painted m x y color :
  mapped m -> on_screen s x y -> 0 <= color < 2 ^ 24 ->
  exists m', write_pixel cr3 s (y * FB_PITCH s + x * 4) color m = Ret m' /\
    painted (fun x' y' => (x' =? x) && (y' =? y)) (fun _ _ => opaque color) m m'.
Proof.
  intros Hm Hxy Hc. destruct (pixel_range x y Hxy). destruct (write_pixel_spec m (y * FB_PITCH s + x * 4) color Hm) as [E Hs]; [lia..|].
  eexists. split; [exact E|]. split; [exact Hs| |].
  - intros x' y' _ Hr. assert (x' = x /\ y' = y) as [-> ->] by (zcases; lia || done). unfold pixel. apply load_store_le_eq. unfold opaque. lia.
  - intros x' y' Hxy' Hr. unfold pixel. apply load_store_le_ne.
    destruct (pixels_apart x y x' y' Hxy Hxy'); [|lia|lia]. destruct (Z.eqb_spec x' x), (Z.eqb_spec y' y); done || lia.
Qed.

Lemma each_painted {B} (f : B -> memory -> outcome memory) (R : B -> Z -> Z -> bool) c (l : list B) m :
  mapped m -> (forall b m, b ∈ l -> mapped m -> exists m', f b m = Ret m' /\ painted (R b) c m m') ->
  exists m', each f l m = Ret m' /\ painted (fun x y => existsb (fun b => R b x y) l) c m m'.
Proof.
  intros Hm Hf. revert m Hm. induction l as [|b l IH]; intros m Hm; cbn [each existsb].
  { exists m. split; [done|]. by split. }
  destruct (Hf b m ltac:(set_solver) Hm) as (m1 & -> & [S1 I1 O1]). rewrite bind_Ret.
  destruct (IH ltac:(intros; apply Hf; [set_solver|done]) m1) as (m' & -> & [S2 I2 O2]); [by eapply range_mapped_ext|].
  exists m'. split; [done|]. split.
  - by eapply same_outside_trans.
  - intros x y Hxy Hr. destruct (existsb _ l) eqn:E; [by apply I2|]. rewrite O2 by done. apply I1; [done|]. by destruct (R b x y).
  - intros x y Hxy Hr. apply orb_false_iff in Hr as [Hr1 Hr2]. by rewrite O2, O1.
Qed.
Lemma painted_ext R R' c c' m m' :
  (forall x y, on_screen s x y -> R x y = R' x y) -> (forall x y, on_screen s x y -> R x y = true -> c x y = c' x y) ->
  painted R c m m' -> painted R' c' m m'.
Proof.
  intros HR Hc [S I O]. split; [done| |].
  - intros x y Hxy Hr. rewrite <- HR in Hr by done. rewrite <- Hc by done. by apply I.
  - intros x y Hxy Hr. rewrite <- HR in Hr by done. by apply O.
Qed.

Lemma existsb_ext {B} (f g : B -> bool) l : (forall b, f b = g b) -> existsb f l = existsb g l.
Proof. intros E. induction l as [|b l IH]; [done|]. cbn. by rewrite E, IH. Qed.
Lemma existsb_andb {B} (f : B -> bool) (d : bool) l : existsb (fun b => f b && d) l = existsb f l && d.
Proof. induction l as [|b l IH]; [done|]. cbn. rewrite IH. by destruct (f b), (existsb f l), d. Qed.
Lemma existsb_seqZ (f : Z -> bool) a n k : (forall i, f i = (k =? a + i)) -> existsb f (seqZ 0 n) = (a <=? k) && (k <? a + n).
Proof.
  intros Hf. apply eq_true_iff_eq. rewrite existsb_exists. split.
  - intros (i & Hi%list_elem_of_In%elem_of_seqZ & E). rewrite Hf in E. zcases; lia || done.
  - intros E. exists (k - a). rewrite Hf. split; [|zcases; lia]. apply list_elem_of_In, elem_of_seqZ. zcases; lia || done.
Qed.

(** *** A glyph *)

Definition cell (row col x y : Z) : bool := (col * 8 <=? x) && (x <? col * 8 + 8) && ((row * 16 <=? y) && (y <? row * 16 + 16)).
(** The colour of a pixel of a character. *)
Definition ink (ch gx gy : Z) : Z :=
  let row_bits := default 0 (lookupZ (default [] (lookupZ FONT (ch - 32))) gy) in
  opaque (if negb (Z.land row_bits (Z.shiftr 0x80 gx) =? 0) then FG_COLOR else BG_COLOR).

Lemma glyph_rows ch : 32 <= ch <= 126 -> exists glyph, lookupZ FONT (ch - 32) = Some glyph /\ lenZ glyph = 16.
Proof.
  intros Hch. destruct (lookupZ_lt FONT (ch - 32)) as [g Hg]; [change (lenZ FONT) with 95; lia|]. exists g. split; [done|].
  assert (Hall : Forall (fun g => lenZ g = 16) FONT) by (apply (bool_decide_unpack _); vm_compute; exact I).
  by apply (lookupZ_Forall _ _ _ _ Hall Hg).
Qed.

Lemma draw_glyph_spec m ch :
  mapped m -> 32 <= ch <= 126 -> 0 <= FB_ROW s < FB_HEIGHT s / 16 -> 0 <= FB_COL s < FB_WIDTH s / 8 ->
  exists m', draw_glyph cr3 s ch m = Ret m' /\
    painted (cell (FB_ROW s) (FB_COL s)) (fun x y => ink ch (x - FB_COL s * 8) (y - FB_ROW s * 16)) m m'.
Proof.
  intros Hm Hch Hr Hc. destruct (glyph_rows ch Hch) as (g & Hg & Hgl). unfold draw_glyph, index. rewrite Hg, bind_Ret.
  unfold CHAR_W, CHAR_H. set (c := fun x y => ink ch (x - FB_COL s * 8) (y - FB_ROW s * 16)).
  destruct (each_painted (fun gy m =>
      row_bits ← index g gy;
      each (fun gx => framebuffer_put_pixel cr3 s (FB_COL s * 8 + gx) (FB_ROW s * 16 + gy)
        (if negb (Z.land row_bits (Z.shiftr 0x80 gx) =? 0) then FG_COLOR else BG_COLOR)) (seqZ 0 8) m)
      (fun gy x y => (FB_COL s * 8 <=? x) && (x <? FB_COL s * 8 + 8) && (y =? FB_ROW s * 16 + gy)) c (seqZ 0 16) m Hm) as (m' & E & P).
  - intros gy m1 Hgy%elem_of_seqZ Hm1. destruct (lookupZ_lt g gy) as [rb Hrb]; [lia|]. unfold index. rewrite Hrb, bind_Ret.
    destruct (each_painted (fun gx => framebuffer_put_pixel cr3 s (FB_COL s * 8 + gx) (FB_ROW s * 16 + gy)
        (if negb (Z.land rb (Z.shiftr 0x80 gx) =? 0) then FG_COLOR else BG_COLOR))
      (fun gx x y => (x =? FB_COL s * 8 + gx) && (y =? FB_ROW s * 16 + gy)) c (seqZ 0 8) m1 Hm1) as (m2 & E2 & P2).
    + intros gx m2 Hgx%elem_of_seqZ Hm2. set (color := if negb _ then _ else _). unfold framebuffer_put_pixel.
      assert (Hxy : on_screen s (FB_COL s * 8 + gx) (FB_ROW s * 16 + gy)) by (split; dlia).
      destruct Hxy as [Hx Hy]. destruct (Z.leb_spec (FB_WIDTH s) (FB_COL s * 8 + gx)), (Z.leb_spec (FB_HEIGHT s) (FB_ROW s * 16 + gy)); try lia.
      cbn [orb]. rewrite (fo_bpp s Hok). destruct (write_pixel_painted m2 _ _ color Hm2 (conj Hx Hy)) as (m3 & -> & P3);
        [unfold color; by destruct (negb _)|]. exists m3. split; [done|]. eapply painted_ext; [reflexivity| |exact P3].
      intros x y _ [->%Z.eqb_eq ->%Z.eqb_eq]%andb_true_iff.
      unfold c, ink. rewrite Hg. cbn [from_option id]. do 2 rewrite Z.add_simpl_l. rewrite Hrb. done.
    + exists m2. split; [exact E2|]. eapply painted_ext; [|reflexivity|exact P2]. intros x y _.
      rewrite <- (existsb_seqZ (fun gx => x =? FB_COL s * 8 + gx)) by done. apply existsb_andb.
  - exists m'. split; [exact E|]. eapply painted_ext; [|reflexivity|exact P]. intros x y _. unfold cell.
    rewrite <- (existsb_seqZ (fun gy => y =? FB_ROW s * 16 + gy) (FB_ROW s * 16) 16 y) by done.
    rewrite (andb_comm _ (existsb _ _)), <- existsb_andb. apply existsb_ext. intros gy. apply andb_comm.
Qed.

(** *** Scrolling *)

Lemma each_bytes bs m k dst :
  mapped m -> 0 <= dst + k -> dst + k + lenZ bs <= fb_size s -> Forall byte bs ->
  each (fun ib => fb_write cr3 s (dst + ib.1) ib.2) (zip (seqZ k (lenZ bs)) bs) m = Ret (store_bytes m (FB_ADDR s + (dst + k)) bs) /\
  same m (store_bytes m (FB_ADDR s + (dst + k)) bs).
Proof.
  revert m k. induction bs as [|b bs IH]; intros m k Hm Hk Hf Hb; [by rewrite zip_with_nil_r|]. apply Forall_cons in Hb as [Hb Hbs].
  rewrite lenZ_cons in *. pose proof (lenZ_nonneg bs). rewrite seqZ_cons by lia. replace (Z.pred (lenZ bs + 1)) with (lenZ bs) by lia.
  cbn [zip_with each fst snd store_bytes]. destruct (fb_write_spec m (dst + k) b Hm) as [-> S1]; [lia|exact Hb|]. rewrite bind_Ret.
  destruct (IH (store8 m (FB_ADDR s + (dst + k)) b) (Z.succ k)) as [E S2]; [by eapply range_mapped_ext|lia|lia|done|].
  replace (FB_ADDR s + (dst + Z.succ k)) with (FB_ADDR s + (dst + k) + 1) in * by lia. split; [exact E|]. by eapply same_outside_trans.
Qed.

Lemma load_bytes_len m a n : 0 <= n -> lenZ (load_bytes m a n) = n.
Proof. intros Hn. unfold load_bytes, lenZ. rewrite length_fmap, length_seqZ. lia. Qed.
Lemma load_bytes_bytes m a n : Forall byte (load_bytes m a n).
Proof. apply Forall_fmap, Forall_forall. intros x _. apply load8_range. Qed.

Lemma fb_move_spec m src dst len :
  mapped m -> 0 <= len -> 0 <= src -> src + len <= fb_size s -> 0 <= dst -> dst + len <= fb_size s ->
  exists m', fb_move cr3 s src dst len m = Ret m' /\ same m m' /\
    forall i, load8 m' (FB_ADDR s + i) = if (dst <=? i) && (i <? dst + len) then load8 m (FB_ADDR s + (src + (i - dst))) else load8 m (FB_ADDR s + i).
Proof.
  intros Hm Hl Hs Hsf Hd Hdf. pose proof Hm as (Ha & Hb & Hv). unfold fb_move. rewrite u64_small by lia.
  rewrite (kread_identity (Z.to_nat len)), bind_Ret.
  2:{ rewrite Z2Nat.id by done. split; [lia|]. split; [lia|]. intros x Hx. unfold kload. rewrite (Hv m) by (done || lia). by rewrite bind_Ret. }
  rewrite Z2Nat.id by done. set (bs := load_bytes m (FB_ADDR s + src) len). assert (Hbl : lenZ bs = len) by (by apply load_bytes_len).
  destruct (each_bytes bs m 0 dst Hm) as [E S]; [lia|lia|apply load_bytes_bytes|]. rewrite Hbl in E.
  eexists. split; [exact E|]. split; [exact S|]. intros i. rewrite load8_store_bytes, Hbl, Z.add_0_r.
  destruct (Z.leb_spec dst i), (Z.leb_spec (FB_ADDR s + dst) (FB_ADDR s + i)); cbn [andb]; try (lia || done).
  destruct (Z.ltb_spec i (dst + len)), (Z.ltb_spec (FB_ADDR s + i) (FB_ADDR s + dst + len)); try (lia || done).
  replace (FB_ADDR s + i - (FB_ADDR s + dst)) with (i - dst) by lia. unfold bs, load_bytes, lookupZ. destruct (Z.ltb_spec (i - dst) 0); [lia|].
  rewrite list_lookup_fmap, lookup_seqZ_lt by lia. cbn [fmap option_fmap option_map from_option id]. rewrite Z2Nat.id by lia.
  unfold u8. rewrite Z.mod_small by apply load8_range. f_equal. lia.
Qed.

Lemma clear_row_pixel m x y : mapped m -> on_screen s x y ->
  exists m', (m ← fb_write cr3 s (y * FB_PITCH s + x * 4) 0 m;
              m ← fb_write cr3 s (y * FB_PITCH s + x * 4 + 1) 0 m;
              m ← fb_write cr3 s (y * FB_PITCH s + x * 4 + 2) 0 m;
              fb_write cr3 s (y * FB_PITCH s + x * 4 + 3) 0xFF m) = Ret m' /\
    painted (fun x' y' => (x' =? x) && (y' =? y)) (fun _ _ => opaque 0) m m'.
Proof.
  intros Hm Hxy. destruct (write_pixel_painted m x y 0 Hm Hxy) as (m' & E & P); [done|]. exists m'. split; [|exact P].
  unfold write_pixel in E. rewrite (fo_bpp s Hok) in E. exact E.
Qed.

(** Where the pixels of the screen come from. *)
Definition scrolled (rows x y : Z) (m m' : memory) : Prop :=
  pixel s m' x y = if y <? (rows - 1) * 16 then pixel s m x (y + 16) else if y <? rows * 16 then opaque 0 else pixel s m x y.

Lemma scroll_spec m : mapped m ->
  exists m', scroll cr3 s m = Ret m' /\ same m m' /\ forall x y, on_screen s x y -> scrolled (FB_HEIGHT s / 16) x y m m'.
Proof.
  intros Hm. unfold scroll. destruct Hok as [_ Hbpp Hw Hh Hp Hsz]. unfold CHAR_W, CHAR_H in *. set (rows := FB_HEIGHT s / 16).
  assert (Hrows : 1 <= rows /\ rows * 16 <= FB_HEIGHT s) by (unfold rows; dlia). rewrite (u64_small (rows - 1)) by nia.
  assert (Hfit : (rows - 1) * 16 * FB_PITCH s + 16 * FB_PITCH s <= fb_size s) by (unfold fb_size; nia).
  rewrite (u64_small ((rows - 1) * 16 * FB_PITCH s)), (u64_small ((rows - 1) * 16)) by (unfold fb_size in *; nia).
  destruct (fb_move_spec m (16 * FB_PITCH s) 0 ((rows - 1) * 16 * FB_PITCH s) Hm) as (m1 & -> & S1 & L1); [nia..|]. rewrite bind_Ret.
  destruct (each_painted (fun y => each (fun x m =>
      m ← fb_write cr3 s (y * FB_PITCH s + x * 4) 0 m;
      m ← fb_write cr3 s (y * FB_PITCH s + x * 4 + 1) 0 m;
      m ← fb_write cr3 s (y * FB_PITCH s + x * 4 + 2) 0 m;
      fb_write cr3 s (y * FB_PITCH s + x * 4 + 3) 0xFF m) (seqZ 0 (FB_WIDTH s)))
    (fun y' x y => (0 <=? x) && (x <? FB_WIDTH s) && (y =? y')) (fun _ _ => opaque 0) (seqZ ((rows - 1) * 16) (rows * 16 - (rows - 1) * 16)) m1) as (m' & E & P).
  { by eapply range_mapped_ext. }
  { intros y m2 Hy%elem_of_seqZ Hm2.
    destruct (each_painted (fun x m =>
      m ← fb_write cr3 s (y * FB_PITCH s + x * 4) 0 m;
      m ← fb_write cr3 s (y * FB_PITCH s + x * 4 + 1) 0 m;
      m ← fb_write cr3 s (y * FB_PITCH s + x * 4 + 2) 0 m;
      fb_write cr3 s (y * FB_PITCH s + x * 4 + 3) 0xFF m) (fun x' x y' => (x =? 0 + x') && (y' =? y)) (fun _ _ => opaque 0) (seqZ 0 (FB_WIDTH s)) m2 Hm2) as (m3 & E3 & P3).
    - intros x m3 Hx%elem_of_seqZ Hm3. destruct (clear_row_pixel m3 x y Hm3) as (m4 & E4 & P4); [split; lia|]. exists m4. split; [exact E4|].
      eapply painted_ext; [|reflexivity|exact P4]. intros; by rewrite Z.add_0_l.
    - exists m3. split; [exact E3|]. eapply painted_ext; [|reflexivity|exact P3]. intros x y' _.
      etransitivity; [apply existsb_andb|]. by rewrite (existsb_seqZ (fun x' => x =? 0 + x') 0 (FB_WIDTH s) x) by done. }
  exists m'. split; [exact E|]. split; [eapply same_outside_trans; [exact S1|apply P]|]. intros x y Hxy. unfold scrolled.
  assert (HR : existsb (fun y' => (0 <=? x) && (x <? FB_WIDTH s) && (y =? y')) (seqZ ((rows - 1) * 16) (rows * 16 - (rows - 1) * 16)) =
    ((rows - 1) * 16 <=? y) && (y <? rows * 16)).
  { destruct Hxy as [Hx Hy]. destruct (Z.leb_spec 0 x), (Z.ltb_spec x (FB_WIDTH s)); try lia. cbn [andb]. apply eq_true_iff_eq. rewrite existsb_exists. split.
    - intros (i & Hi%list_elem_of_In%elem_of_seqZ & ->%Z.eqb_eq). zcases; lia || done.
    - intros E'. exists y. rewrite Z.eqb_refl. split; [|done]. apply list_elem_of_In, elem_of_seqZ. zcases; lia || done. }
  destruct (pixel_range x y Hxy) as [Hr1 Hr2]. destruct Hxy as [Hx Hy].
  destruct ((rows - 1) * 16 <=? y) eqn:Ey; [apply Z.leb_le in Ey|apply Z.leb_gt in Ey].
  - destruct (Z.ltb_spec y ((rows - 1) * 16)); [lia|]. destruct (Z.ltb_spec y (rows * 16)).
    + apply (pa_in _ _ _ _ P); [done|by rewrite HR].
    + rewrite (pa_out _ _ _ _ P) by (done || by rewrite HR). unfold pixel. apply load_le_ext. intros a Ha. replace a with (FB_ADDR s + (a - FB_ADDR s)) by lia.
      rewrite L1. destruct (Z.ltb_spec (a - FB_ADDR s) (0 + (rows - 1) * 16 * FB_PITCH s)); [nia|]. by rewrite andb_false_r.
  - destruct (Z.ltb_spec y ((rows - 1) * 16)); [|lia]. rewrite (pa_out _ _ _ _ P) by (done || by rewrite HR). unfold pixel.
    replace (FB_ADDR s + ((y + 16) * FB_PITCH s + x * 4)) with (FB_ADDR s + (y * FB_PITCH s + x * 4) + 16 * FB_PITCH s) by lia.
    apply (load_le_shift 4). intros a Ha. replace a with (FB_ADDR s + (a - FB_ADDR s)) at 1 by lia. rewrite L1.
    destruct (Z.leb_spec 0 (a - FB_ADDR s)), (Z.ltb_spec (a - FB_ADDR s) (0 + (rows - 1) * 16 * FB_PITCH s)); [|nia..]. cbn [andb]. f_equal. lia.
Qed.
(** *** Clearing *)

Lemma clear_spec m : mapped m -> exists m', framebuffer_clear cr3 s 0 m = Ret m' /\ painted (fun _ _ => true) (fun _ _ => opaque 0) m m'.
Proof.
  intros Hm. unfold framebuffer_clear. rewrite (fo_init s Hok), (fo_bpp s Hok). cbn [negb andb].
  destruct (each_painted (fun y => each (fun x => write_pixel cr3 s (y * FB_PITCH s + x * 4) 0) (seqZ 0 (FB_WIDTH s)))
      (fun b x y => (0 <=? x) && (x <? 0 + FB_WIDTH s) && (y =? 0 + b)) (fun _ _ => opaque 0) (seqZ 0 (FB_HEIGHT s)) m Hm) as (m' & E & P).
  - intros y m1 Hy%elem_of_seqZ Hm1.
    destruct (each_painted (fun x => write_pixel cr3 s (y * FB_PITCH s + x * 4) 0) (fun b x' y' => (x' =? 0 + b) && (y' =? y))
      (fun _ _ => opaque 0) (seqZ 0 (FB_WIDTH s)) m1 Hm1) as (m2 & E2 & P2).
    + intros x m2 Hx%elem_of_seqZ Hm2. apply (write_pixel_painted m2 x y 0 Hm2); [split; lia|done].
    + exists m2. split; [exact E2|]. eapply painted_ext; [|reflexivity|exact P2]. intros x y' _.
      rewrite <- (existsb_seqZ (fun b => x =? 0 + b)) by done. apply existsb_andb.
  - exists m'. split; [exact E|]. eapply painted_ext; [|reflexivity|exact P]. intros x y [Hx Hy]. cbv beta.
    rewrite (existsb_ext _ (fun b => (y =? 0 + b) && ((0 <=? x) && (x <? 0 + FB_WIDTH s)))) by (intros; apply andb_comm).
    rewrite existsb_andb, (existsb_seqZ _ 0 _ y) by done. zcases; lia || done.
Qed.
End pixels.

(** ** A text terminal *)

(** The characters in the cells, and the cursor. *)
Record term : Type := mk_term { t_cell : Z -> Z -> Z; t_row : Z; t_col : Z }.
Definition write_cell (row col ch : Z) (cells : Z -> Z -> Z) : Z -> Z -> Z :=
  fun r c => if (r =? row) && (c =? col) then ch else cells r c.
Definition scroll_cells (rows : Z) (cells : Z -> Z -> Z) : Z -> Z -> Z := fun r c => if r <? rows - 1 then cells (r + 1) c else 32.
Definition type_char (ch : Z) (t : term) : term :=
  if ch =? 0x0A then mk_term (t_cell t) (t_row t + 1) 0
  else if ch =? 0x0D then mk_term (t_cell t) (t_row t) 0
  else mk_term (if (32 <=? ch) && (ch <=? 126) then write_cell (t_row t) (t_col t) ch (t_cell t) else t_cell t) (t_row t) (t_col t + 1).
Definition wrap_line (cols : Z) (t : term) : term := if cols <=? t_col t then mk_term (t_cell t) (t_row t + 1) 0 else t.
Definition keep_row (rows : Z) (t : term) : term :=
  if rows <=? t_row t then mk_term (scroll_cells rows (t_cell t)) (rows - 1) (t_col t) else t.
Definition term_put (rows cols ch : Z) (t : term) : term := keep_row rows (wrap_line cols (type_char ch t)).

Definition rows_of (s : fb_state) : Z := FB_HEIGHT s / 16.
Definition cols_of (s : fb_state) : Z := FB_WIDTH s / 8.

(** Every cell shows the glyph of its character. *)
Definition shows (s : fb_state) (m : memory) (cells : Z -> Z -> Z) : Prop :=
  forall r c gx gy, 0 <= r < rows_of s -> 0 <= c < cols_of s -> 0 <= gx < 8 -> 0 <= gy < 16 ->
    pixel s m (c * 8 + gx) (r * 16 + gy) = ink (cells r c) gx gy.
Record displays (s : fb_state) (m : memory) (t : term) : Prop := {
  di_row : FB_ROW s = t_row t /\ 0 <= t_row t < rows_of s;
  di_col : FB_COL s = t_col t /\ 0 <= t_col t < cols_of s;
  di_cells : shows s m (t_cell t);
}.
(** The same console but for the cursor. *)
Definition same_console (s s' : fb_state) : Prop := exists row col, s' = at_cursor row col s.

Lemma cell_on_screen s r c gx gy : 0 <= r < rows_of s -> 0 <= c < cols_of s -> 0 <= gx < 8 -> 0 <= gy < 16 -> on_screen s (c * 8 + gx) (r * 16 + gy).
Proof. unfold rows_of, cols_of. intros. split; dlia. Qed.
Lemma blank_ink gx gy : ink 32 gx gy = opaque 0.
Proof.
  unfold ink. change (default [] (lookupZ FONT (32 - 32))) with (replicate 16 0).
  assert (E : default 0 (lookupZ (replicate 16 0) gy) = 0).
  { unfold lookupZ. destruct (gy <? 0); [done|]. destruct (replicate 16 0 !! Z.to_nat gy) eqn:E; [|done]. by apply lookup_replicate_1 in E as [-> _]. }
  by rewrite E.
Qed.

Lemma shows_drawn s m m' ch cells : shows s m cells -> 0 <= FB_ROW s < rows_of s -> 0 <= FB_COL s < cols_of s ->
  painted s (cell (FB_ROW s) (FB_COL s)) (fun x y => ink ch (x - FB_COL s * 8) (y - FB_ROW s * 16)) m m' ->
  shows s m' (write_cell (FB_ROW s) (FB_COL s) ch cells).
Proof.
  intros Hs Hr Hc [_ I O] r c gx gy Hr' Hc' Hgx Hgy. pose proof (cell_on_screen s r c gx gy Hr' Hc' Hgx Hgy) as Hon. unfold write_cell.
  destruct (Z.eqb_spec r (FB_ROW s)) as [->|], (Z.eqb_spec c (FB_COL s)) as [->|]; cbn [andb].
  - rewrite I; [|done|unfold cell; zcases; lia || done]. do 2 rewrite Z.add_simpl_l. done.
  - rewrite O; [by apply Hs|done|]. unfold cell. zcases; lia || done.
  - rewrite O; [by apply Hs|done|]. unfold cell. zcases; lia || done.
  - rewrite O; [by apply Hs|done|]. unfold cell. zcases; lia || done.
Qed.
Lemma shows_scrolled s m m' cells : shows s m cells ->
  (forall x y, on_screen s x y -> scrolled s (rows_of s) x y m m') -> shows s m' (scroll_cells (rows_of s) cells).
Proof.
  intros Hs Hsc r c gx gy Hr Hc Hgx Hgy. rewrite (Hsc _ _ (cell_on_screen s r c gx gy Hr Hc Hgx Hgy)). unfold scroll_cells.
  destruct (Z.ltb_spec r (rows_of s - 1)).
  - destruct (Z.ltb_spec (r * 16 + gy) ((rows_of s - 1) * 16)); [|lia].
    replace (r * 16 + gy + 16) with ((r + 1) * 16 + gy) by lia. apply Hs; lia.
  - rewrite blank_ink. destruct (Z.ltb_spec (r * 16 + gy) ((rows_of s - 1) * 16)); [lia|].
    destruct (Z.ltb_spec (r * 16 + gy) (rows_of s * 16)); [done|lia].
Qed.

Lemma type_char_spec cr3 s m t ch :
  fb_ok s -> range_mapped m cr3 (FB_ADDR s) (fb_size s) -> displays s m t -> 
  exists m', (if ch =? 0x0A then Ret (at_cursor (FB_ROW s + 1) 0 s, m)
         else if ch =? 0x0D then Ret (at_cursor (FB_ROW s) 0 s, m)
         else
           m ← (if (32 <=? ch) && (ch <=? 126) then draw_glyph cr3 s ch m else Ret m);
           Ret (at_cursor (FB_ROW s) (FB_COL s + 1) s, m)) = Ret (at_cursor (t_row (type_char ch t)) (t_col (type_char ch t)) s, m') /\
    same_outside (FB_ADDR s) (fb_size s) m m' /\ shows s m' (t_cell (type_char ch t)).
Proof.
  intros Hok Hm [[Hr Hr'] [Hc Hc'] Hs]. unfold type_char. destruct (Z.eqb_spec ch 0x0A); [|destruct (Z.eqb_spec ch 0x0D)].
  - exists m. rewrite Hr. done.
  - exists m. rewrite Hr. done.
  - destruct ((32 <=? ch) && (ch <=? 126)) eqn:E.
    + destruct (draw_glyph_spec cr3 s Hok m ch Hm) as (m' & -> & P); [zcases; lia || done|by rewrite Hr|by rewrite Hc|]. rewrite bind_Ret.
      exists m'. rewrite <- Hr, <- Hc in *. split; [done|]. split; [apply P|]. by apply (shows_drawn s m).
    + rewrite bind_Ret. exists m. rewrite Hr, Hc. done.
Qed.

Lemma displays_at s m t : 0 <= t_row t < rows_of s -> 0 <= t_col t < cols_of s -> shows s m (t_cell t) ->
  displays (at_cursor (t_row t) (t_col t) s) m t.
Proof. intros. by split. Qed.
Lemma put_char_spec cr3 s m t ch :
  fb_ok s -> range_mapped m cr3 (FB_ADDR s) (fb_size s) -> displays s m t ->
  exists s' m', framebuffer_put_char cr3 ch (s, m) = Ret (s', m') /\ same_console s s' /\
    displays s' m' (term_put (rows_of s) (cols_of s) ch t) /\ same_outside (FB_ADDR s) (fb_size s) m m'.
Proof.
  intros Hok Hm Hd. destruct (type_char_spec cr3 s m t ch Hok Hm Hd) as (m1 & E & So & Sh).
  unfold framebuffer_put_char. rewrite (fo_init s Hok). cbn [negb]. rewrite E, bind_Ret. clear E.
  assert (Ht : 0 <= t_row (type_char ch t) <= rows_of s /\ 0 <= t_col (type_char ch t) <= cols_of s /\
               (t_row (type_char ch t) < rows_of s \/ t_col (type_char ch t) = 0)).
  { destruct Hd as [[_ Hr] [_ Hc] _]. unfold type_char. destruct (ch =? 10); [cbn; lia|]. destruct (ch =? 13); cbn; lia. }
  assert (Hrc : 1 <= rows_of s /\ 1 <= cols_of s /\ rows_of s < two63).
  { destruct Hok as [_ _ Hw Hh Hp Hz]. unfold CHAR_W, CHAR_H, rows_of, cols_of in *.
    assert (FB_HEIGHT s / 16 <= FB_HEIGHT s) by dlia. split; [dlia|]. split; [dlia|]. nia. }
  unfold term_put. set (t1 := type_char ch t) in *. clearbody t1. clear Hd t.
  cbn [FB_WIDTH FB_HEIGHT FB_COL FB_ROW at_cursor]. unfold CHAR_W, CHAR_H. fold (rows_of s) (cols_of s).
  unfold wrap_line. set (s2 := if cols_of s <=? t_col t1 then at_cursor _ _ _ else at_cursor _ _ s). set (t2 := if cols_of s <=? t_col t1 then _ else t1).
  assert (H2 : s2 = at_cursor (t_row t2) (t_col t2) s /\ t_cell t2 = t_cell t1 /\ 0 <= t_row t2 <= rows_of s /\ 0 <= t_col t2 < cols_of s).
  { unfold s2, t2. destruct (Z.leb_spec (cols_of s) (t_col t1)); cbn; (split; [done|]); (split; [done|]); lia. }
  clearbody s2 t2. destruct H2 as (-> & Hcell & Hr2 & Hc2). rewrite <- Hcell in Sh. clear Hcell. cbn [FB_ROW FB_COL at_cursor]. unfold keep_row.
  destruct (Z.leb_spec (rows_of s) (t_row t2)).
  - assert (Hok2 : fb_ok (at_cursor (t_row t2) (t_col t2) s)) by (destruct Hok; by split).
    destruct (scroll_spec cr3 _ Hok2 m1) as (m2 & -> & So2 & Hsc); [by apply (range_mapped_ext m)|]. rewrite bind_Ret.
    rewrite u64_small by lia. eexists _, m2. split; [reflexivity|]. split; [by eexists _, _|]. split; [|by apply (same_outside_trans _ _ _ m1)].
    split; cbn [t_row t_col t_cell FB_ROW FB_COL at_cursor]; [split; [done|]; change (0 <= rows_of s - 1 < rows_of s); lia|done|].
    by apply (shows_scrolled s m1).
  - eexists _, m1. split; [reflexivity|]. split; [by eexists _, _|]. split; [|done]. apply displays_at; [lia|lia|done].
Qed.

(** C32: The frame buffer is a text terminal.  When each cell of the screen
    shows its character, [write_str] of any bytes ends, and the screen shows
    the characters that a terminal with that many rows and columns would
    have: line feeds, returns, wrapping at the right margin and scrolling at
    the bottom included.  No byte outside the frame buffer changes. *)
Theorem framebuffer_is_terminal cr3 bs s m t :
  fb_ok s -> range_mapped m cr3 (FB_ADDR s) (fb_size s) -> displays s m t ->
  exists s' m', fb_write_str cr3 bs (s, m) = Ret (s', m') /\ same_console s s' /\
    displays s' m' (foldl (fun t ch => term_put (rows_of s) (cols_of s) ch t) t bs) /\
    same_outside (FB_ADDR s) (fb_size s) m m'.
Proof.
  revert s m t. induction bs as [|b bs IH]; intros s m t Hok Hm Hd; cbn [fb_write_str foldl].
  - exists s, m. split; [done|]. split; [by exists (FB_ROW s), (FB_COL s); destruct s|]. done.
  - destruct (put_char_spec cr3 s m t b Hok Hm Hd) as (s1 & m1 & -> & (r1 & c1 & ->) & Hd1 & So1). rewrite bind_Ret.
    destruct (IH (at_cursor r1 c1 s) m1 _ ltac:(destruct Hok; by split) (range_mapped_ext _ _ _ _ _ Hm So1) Hd1) as (s2 & m2 & E & (r2 & c2 & ->) & Hd2 & So2).
    exists (at_cursor r2 c2 s), m2. split; [exact E|]. split; [by exists r2, c2|]. split; [exact Hd2|]. by apply (same_outside_trans _ _ _ m1).
Qed.

(** A cleared screen is a blank terminal. *)
Definition blank : term := mk_term (fun _ _ => 32) 0 0.
Lemma clear_blank cr3 s m : fb_ok s -> range_mapped m cr3 (FB_ADDR s) (fb_size s) ->
  exists m', framebuffer_clear cr3 s 0 m = Ret m' /\ displays (at_cursor 0 0 s) m' blank /\ same_outside (FB_ADDR s) (fb_size s) m m'.
Proof.
  intros Hok Hm. destruct (clear_spec cr3 s Hok m Hm) as (m' & E & [S I _]). exists m'. split; [exact E|]. split; [|exact S].
  destruct Hok as [_ _ Hw Hh _ _]. unfold CHAR_W, CHAR_H in *.
  apply (displays_at s m' blank); cbn [blank t_row t_col t_cell]; unfold rows_of, cols_of; [dlia|dlia|].
  intros r c gx gy Hr Hc Hgx Hgy. rewrite blank_ink. apply I; [|done]. by apply cell_on_screen.
Qed.

(** The kernel's tables map a frame buffer that lies below them. *)
Lemma low_range_mapped {A} `{FrameAllocator A} K (s : machine (A:=A)) a n :
  kernel_ready K s -> (forall f, f ∈ k_frames K -> 256 <= f) -> 0 <= a -> a + n <= 0x100000 -> range_mapped (pmem s) (KERNEL_PML4_PA s) a n.
Proof.
  intros (H1 & H2 & H3 & H4) Hlow Ha Hn. split; [done|]. split; [lia|]. intros m' So x Hx.
  assert (Hk : kernel_ready K (with_mem m' s)).
  { split; [exact H1|]. split; [|split; [exact H3|exact H4]]. apply (kernel_view_ext (pmem s)); [exact H2|].
    intros f y Hf Hy. apply So. specialize (Hlow f Hf). unfold pg in Hy. lia. }
  destruct Hk as (_ & Hv & _ & _). rewrite H3. unfold virt_to_phys, canonical.
  destruct (Z.ltb_spec x (2 ^ 47)); [|lia]. cbn [orb]. rewrite (kernel_walk _ K) by (done || lia).
  destruct (Z.ltb_spec x 0x80000000); [|lia]. done.
Qed.

(** A screen of 4 by 2 characters at 0xA0000 gets two lines, and a third that
    scrolls the first away. *)
Lemma framebuffer_is_terminal_witness :
  exists cr3 m s' m', fb_write_str cr3 [79; 75; 10; 122; 111; 104; 97; 114; 97] (mk_fb 0xA0000 128 32 32 32 0 0 true, m) = Ret (s', m') /\
    exists t, displays s' m' t /\ t_cell t 0 0 = 122 /\ t_cell t 1 1 = 97 /\ t_row t = 1 /\ t_col t = 2.
Proof.
  destruct (booted_with []) as (K & k & Hk & Hlow & _); [discriminate|]. set (s := mk_fb 0xA0000 128 32 32 32 0 0 true).
  assert (Hok : fb_ok s) by (split; (reflexivity || discriminate)).
  assert (Hm : range_mapped (pmem k) (KERNEL_PML4_PA k) (FB_ADDR s) (fb_size s))
    by (apply (low_range_mapped K); [exact Hk|exact Hlow|discriminate|discriminate]).
  destruct (clear_blank _ s _ Hok Hm) as (m & _ & Hd & So).
  destruct (framebuffer_is_terminal (KERNEL_PML4_PA k) [79; 75; 10; 122; 111; 104; 97; 114; 97] s m blank Hok (range_mapped_ext _ _ _ _ _ Hm So) Hd)
    as (s' & m' & E & _ & Hd' & _).
  exists (KERNEL_PML4_PA k), m, s', m'. split; [exact E|]. eexists. split; [exact Hd'|]. vm_compute. repeat split.
Defined.
