(* ===== verification/Console.v ===== *)
(** * The text screen and [println] (arch/x86_64/mod.rs, main.rs)

    The text screen at 0xB8000, and the writer behind [print] and [println],
    which sends each byte to the serial line, the text screen and the frame
    buffer, after the kernel log has it.  The screen is accessed through the
    page tables in use, like the frame buffer. *)

From S2P Require Import Prelude Bytes SpinLock Rings Mem Frame Paging AddressSpace Usercopy E820 Framebuffer.

(** ** The text screen *)

Definition VGA_BUF : Z := 0xB8000.
Definition VGA_COLOR : Z := 0x0F.
Definition VGA_BYTES : Z := 4000.

Record vga : Type := mk_vga { VGA_ROW : Z; VGA_COL : Z }.

Section screen.
Variable cr3 : Z.

(** [write_volatile(VGA_BUF.add(i), v)] and [read_volatile(VGA_BUF.add(i))]. *)
Definition vga_store (i v : Z) (m : memory) : outcome memory :=
  let a := u64 (VGA_BUF + 2 * i) in
  m ← kstore m cr3 a (v mod 256);
  kstore m cr3 (a + 1) (v / 256).
Definition vga_load (i : Z) (m : memory) : outcome Z := kle 2 m cr3 (u64 (VGA_BUF + 2 * i)).

Definition vga_char (ch : Z) : Z := Z.lor (Z.shiftl VGA_COLOR 8) ch.

(** The register writes of [vga_init], and its loop over the screen. *)
Definition vga_init_ports : list (Z * Z) :=
  [(0x3C4, 0x01); (0x3C5, 0x01); (0x3C4, 0x00); (0x3C5, 0x03); (0x3C4, 0x02); (0x3C5, 0x0F); (0x3C4, 0x04); (0x3C5, 0x0E);
   (0x3D4, 0x03); (0x3D5, 0x00); (0x3D4, 0x09); (0x3D5, 0x0F); (0x3D4, 0x17); (0x3D5, 0xA3)].
Definition vga_init (m : memory) : outcome (list (Z * Z) * (vga * memory)) :=
  m ← each (fun i => vga_store i (vga_char 32)) (seqZ 0 (80 * 25)) m;
  Ret (vga_init_ports, (mk_vga 0 0, m)).

Definition vga_scroll (m : memory) : outcome memory :=
  m ← each (fun i m => v ← vga_load (i + 80) m; vga_store i v m) (seqZ 0 (80 * 24)) m;
  each (fun i => vga_store i (vga_char 32)) (seqZ (80 * 24) 80) m.

(** The byte itself, before the cursor is brought back on the screen. *)
Definition vga_byte (byte : Z) (x : vga * memory) : outcome (vga * memory) :=
  let '(s, m) := x in
  if byte =? 0x0A then Ret (mk_vga (VGA_ROW s + 1) 0, m)
  else
    let idx := u64 (VGA_ROW s * 80 + VGA_COL s) in
    m ← (if idx <? 80 * 25 then vga_store idx (vga_char byte) m else Ret m);
    Ret (mk_vga (VGA_ROW s) (VGA_COL s + 1), m).

Definition write_vga (byte : Z) (x : vga * memory) : outcome (vga * memory) :=
  x ← vga_byte byte x;
  let '(s, m) := x in
  let s := if 80 <=? VGA_COL s then mk_vga (VGA_ROW s + 1) 0 else s in
  if 25 <=? VGA_ROW s then
    m ← vga_scroll m;
    Ret (mk_vga 24 (VGA_COL s), m)
  else Ret (s, m).
End screen.

(** ** [print] *)

(** The outputs of the kernel; the serial line is kept with the log. *)
Record console : Type := mk_console {
  con_log : Dmesg.dmesg;
  con_vga : vga;
  con_fb : fb_state;
  con_mem : memory;
}.

Section print.
Variable cr3 : Z.

(** [KernelWriter::write_str]. *)
Fixpoint write_str (bs : list Z) (k : console) : outcome console :=
  match bs with
  | [] => Ret k
  | byte :: bs' =>
      let log := Dmesg.write_serial byte (con_log k) in
      x ← write_vga cr3 byte (con_vga k, con_mem k);
      let '(v, m) := x in
      x ← framebuffer_put_char cr3 byte (con_fb k, m);
      let '(fb, m) := x in
      write_str bs' (mk_console log v fb m)
  end.

(** [write_fmt] of a format of the given pieces. *)
Fixpoint write_fmt (pieces : list (list Z)) (k : console) : outcome console :=
  match pieces with
  | [] => Ret k
  | p :: ps => k ← write_str p k; write_fmt ps k
  end.
Fixpoint ring_write_fmt (pieces : list (list Z)) (d : Dmesg.dmesg) : outcome Dmesg.dmesg :=
  match pieces with
  | [] => Ret d
  | p :: ps => d ← Dmesg.push_bytes p d; ring_write_fmt ps d
  end.

Definition _print (pieces : list (list Z)) (k : console) : outcome console :=
  d ← ring_write_fmt pieces (con_log k);
  write_fmt pieces (mk_console d (con_vga k) (con_fb k) (con_mem k)).
End print.

(** ** Cells *)

Definition vga_cell (m : memory) (i : Z) : Z := load_le 2 m (VGA_BUF + 2 * i).
Abbreviation vga_same := (same_outside VGA_BUF VGA_BYTES).
Abbreviation vga_mapped m cr3 := (range_mapped m cr3 VGA_BUF VGA_BYTES).

Lemma vga_store_spec cr3 m i v :
  vga_mapped m cr3 -> 0 <= i < 2000 -> 0 <= v < 65536 ->
  exists m', vga_store cr3 i v m = Ret m' /\ vga_same m m' /\ forall j, vga_cell m' j = if j =? i then v else vga_cell m j.
Proof.
  intros (_ & _ & Hm) Hi Hv. unfold vga_store, kstore. unfold VGA_BYTES, VGA_BUF in *. rewrite u64_small by lia.
  rewrite (Hm m) by (done || lia). rewrite !bind_Ret.
  set (m1 := store8 m (753664 + 2 * i) (v mod 256)).
  assert (H1 : same_outside 753664 4000 m m1) by (intros x Hx; unfold m1; rewrite load8_store8; zcase; [lia|done]).
  rewrite (Hm m1) by (done || lia). rewrite bind_Ret. eexists. split; [reflexivity|]. split.
  - intros x Hx. rewrite load8_store8. zcase; [lia|by apply H1].
  - intros j. unfold vga_cell, VGA_BUF. cbn [load_le]. unfold m1. rewrite !load8_store8.
    destruct (Z.eqb_spec j i) as [->|Hne].
    + zcases; try lia. unfold u8. dlia.
    + zcases; try lia.
Qed.

Lemma vga_load_spec cr3 m i : vga_mapped m cr3 -> 0 <= i < 2000 -> vga_load cr3 i m = Ret (vga_cell m i).
Proof.
  intros (_ & _ & Hm) Hi. unfold vga_load, vga_cell. unfold VGA_BYTES, VGA_BUF in *. rewrite u64_small by lia.
  apply kle_identity. split; [lia|]. split; [lia|]. intros x Hx. unfold kload. rewrite (Hm m) by (done || lia). by rewrite bind_Ret.
Qed.
Lemma vga_cell_range m i : 0 <= vga_cell m i < 65536.
Proof. apply (load_le_range 2). Qed.
Lemma vga_char_eq ch : 0 <= ch < 256 -> vga_char ch = 0x0F00 + ch.
Proof. intros Hc. unfold vga_char. change (Z.shiftl VGA_COLOR 8) with (15 * 2 ^ 8). rewrite Z.lor_comm, lor_add by lia. lia. Qed.

Lemma vga_fill_spec cr3 v n a m :
  vga_mapped m cr3 -> 0 <= a -> a + Z.of_nat n <= 2000 -> 0 <= v < 65536 ->
  exists m', each (fun i => vga_store cr3 i v) (seqZ a (Z.of_nat n)) m = Ret m' /\ vga_same m m' /\
    forall j, vga_cell m' j = if (a <=? j) && (j <? a + Z.of_nat n) then v else vga_cell m j.
Proof.
  intros Hm Ha Hn Hv. revert a m Hm Ha Hn. induction n as [|n IH]; intros a m Hm Ha Hn.
  { exists m. split; [done|]. split; [done|]. intros j. zcases; lia || done. }
  rewrite seqZ_cons by lia. replace (Z.pred (Z.of_nat (S n))) with (Z.of_nat n) by lia. cbn [each].
  destruct (vga_store_spec cr3 m a v Hm) as (m1 & -> & S1 & C1); [lia|done|]. rewrite bind_Ret.
  destruct (IH (Z.succ a) m1) as (m2 & -> & S2 & C2); [by eapply range_mapped_ext|lia|lia|].
  exists m2. split; [done|]. split; [by eapply same_outside_trans|]. intros j. rewrite C2, C1. zcases; lia || done.
Qed.

Lemma vga_copy_spec cr3 n a m :
  vga_mapped m cr3 -> 0 <= a -> a + Z.of_nat n <= 1920 ->
  exists m', each (fun i m => v ← vga_load cr3 (i + 80) m; vga_store cr3 i v m) (seqZ a (Z.of_nat n)) m = Ret m' /\ vga_same m m' /\
    forall j, vga_cell m' j = if (a <=? j) && (j <? a + Z.of_nat n) then vga_cell m (j + 80) else vga_cell m j.
Proof.
  intros Hm Ha Hn. revert a m Hm Ha Hn. induction n as [|n IH]; intros a m Hm Ha Hn.
  { exists m. split; [done|]. split; [done|]. intros j. zcases; lia || done. }
  rewrite seqZ_cons by lia. replace (Z.pred (Z.of_nat (S n))) with (Z.of_nat n) by lia. cbn [each].
  rewrite (vga_load_spec cr3 m (a + 80) Hm) by lia. rewrite bind_Ret.
  destruct (vga_store_spec cr3 m a (vga_cell m (a + 80)) Hm) as (m1 & -> & S1 & C1); [lia|apply vga_cell_range|]. rewrite bind_Ret.
  destruct (IH (Z.succ a) m1) as (m2 & -> & S2 & C2); [by eapply range_mapped_ext|lia|lia|].
  exists m2. split; [done|]. split; [by eapply same_outside_trans|]. intros j. rewrite C2, !C1.
  destruct (Z.eqb_spec j a) as [->|]; zcases; lia || done.
Qed.

Lemma vga_scroll_spec cr3 m :
  vga_mapped m cr3 ->
  exists m', vga_scroll cr3 m = Ret m' /\ vga_same m m' /\
    forall j, 0 <= j < 2000 -> vga_cell m' j = if j <? 1920 then vga_cell m (j + 80) else 0x0F20.
Proof.
  intros Hm. unfold vga_scroll.
  destruct (vga_copy_spec cr3 1920 0 m Hm) as (m1 & E1 & S1 & C1); [lia|lia|].
  change (Z.of_nat 1920) with 1920 in *. change (80 * 24) with 1920. rewrite E1, bind_Ret.
  destruct (vga_fill_spec cr3 (vga_char 32) 80 1920 m1) as (m2 & E2 & S2 & C2); [by eapply range_mapped_ext|lia|lia|done|].
  change (Z.of_nat 80) with 80 in *. rewrite E2. exists m2. split; [done|]. split; [by eapply same_outside_trans|].
  intros j Hj. rewrite C2, C1. change (vga_char 32) with 0x0F20. zcases; lia || done.
Qed.

(** ** A terminal of 25 rows and 80 columns *)

(** Every byte but the line feed is shown. *)
Definition vga_type (ch : Z) (t : term) : term :=
  if ch =? 0x0A then mk_term (t_cell t) (t_row t + 1) 0
  else mk_term (write_cell (t_row t) (t_col t) ch (t_cell t)) (t_row t) (t_col t + 1).
Definition vga_put (ch : Z) (t : term) : term := keep_row 25 (wrap_line 80 (vga_type ch t)).

Definition vga_shows (m : memory) (cells : Z -> Z -> Z) : Prop :=
  forall r c, 0 <= r < 25 -> 0 <= c < 80 -> vga_cell m (r * 80 + c) = 0x0F00 + cells r c.
Record vga_displays (s : vga) (m : memory) (t : term) : Prop := {
  vd_row : VGA_ROW s = t_row t /\ 0 <= t_row t < 25;
  vd_col : VGA_COL s = t_col t /\ 0 <= t_col t < 80;
  vd_cells : vga_shows m (t_cell t);
}.

Lemma vga_shows_scrolled cr3 m m' cells :
  vga_shows m cells -> vga_mapped m cr3 ->
  (forall j, 0 <= j < 2000 -> vga_cell m' j = if j <? 1920 then vga_cell m (j + 80) else 0x0F20) ->
  vga_shows m' (scroll_cells 25 cells).
Proof.
  intros Hs _ Hc r c Hr Hcol. rewrite Hc by lia. unfold scroll_cells. destruct (Z.ltb_spec (r * 80 + c) 1920), (Z.ltb_spec r (25 - 1)); try lia.
  replace (r * 80 + c + 80) with ((r + 1) * 80 + c) by lia. apply Hs; lia.
Qed.

Lemma vga_type_spec cr3 ch s m t :
  byte ch -> vga_mapped m cr3 -> vga_displays s m t ->
  exists m', vga_byte cr3 ch (s, m) = Ret (mk_vga (t_row (vga_type ch t)) (t_col (vga_type ch t)), m') /\
    vga_same m m' /\ vga_shows m' (t_cell (vga_type ch t)).
Proof.
  intros Hb Hm [[Hr Hr'] [Hc Hc'] Hs]. unfold vga_byte, vga_type. rewrite Hr, Hc. destruct (Z.eqb_spec ch 0x0A); [by exists m|].
  cbv zeta. rewrite u64_small by lia. destruct (Z.ltb_spec (t_row t * 80 + t_col t) (80 * 25)); [|lia].
  unfold byte in Hb. rewrite vga_char_eq by lia.
  destruct (vga_store_spec cr3 m (t_row t * 80 + t_col t) (0x0F00 + ch) Hm) as (m1 & -> & S1 & C1); [lia|lia|]. rewrite bind_Ret.
  exists m1. split; [done|]. split; [done|]. intros r c Hrr Hcc. rewrite C1. cbn [t_cell]. unfold write_cell.
  destruct (Z.eqb_spec r (t_row t)) as [->|], (Z.eqb_spec c (t_col t)) as [->|]; cbn [andb]; zcase; try lia; by apply Hs.
Qed.

Lemma write_vga_spec cr3 ch s m t :
  byte ch -> vga_mapped m cr3 -> vga_displays s m t ->
  exists s' m', write_vga cr3 ch (s, m) = Ret (s', m') /\ vga_displays s' m' (vga_put ch t) /\ vga_same m m'.
Proof.
  intros Hb Hm Hd. destruct (vga_type_spec cr3 ch s m t Hb Hm Hd) as (m1 & E & S1 & Sh). unfold write_vga. rewrite E, bind_Ret. clear E.
  assert (Ht : 0 <= t_row (vga_type ch t) <= 25 /\ 0 <= t_col (vga_type ch t) <= 80 /\ (t_row (vga_type ch t) < 25 \/ t_col (vga_type ch t) = 0)).
  { destruct Hd as [[_ Hr] [_ Hc] _]. unfold vga_type. destruct (ch =? 10); cbn; lia. }
  unfold vga_put. set (t1 := vga_type ch t) in *. clearbody t1. cbn [VGA_COL VGA_ROW]. unfold wrap_line.
  set (s2 := if 80 <=? t_col t1 then mk_vga _ _ else mk_vga _ _). set (t2 := if 80 <=? t_col t1 then _ else t1).
  assert (H2 : s2 = mk_vga (t_row t2) (t_col t2) /\ t_cell t2 = t_cell t1 /\ 0 <= t_row t2 <= 25 /\ 0 <= t_col t2 < 80).
  { unfold s2, t2. destruct (Z.leb_spec 80 (t_col t1)); cbn; (split; [done|]); (split; [done|]); lia. }
  clearbody s2 t2. destruct H2 as (-> & Hcell & Hr2 & Hc2). rewrite <- Hcell in Sh. cbn [VGA_ROW VGA_COL]. unfold keep_row.
  destruct (Z.leb_spec 25 (t_row t2)).
  - assert (Hm1 : vga_mapped m1 cr3) by (by eapply range_mapped_ext).
    destruct (vga_scroll_spec cr3 m1 Hm1) as (m2 & -> & S2 & Hsc). rewrite bind_Ret.
    eexists _, m2. split; [reflexivity|]. split; [|by eapply same_outside_trans].
    split; cbn [VGA_ROW VGA_COL t_row t_col t_cell]; [done|done|]. by eapply vga_shows_scrolled.
  - eexists _, m1. split; [reflexivity|]. split; [|done]. split; cbn [VGA_ROW VGA_COL]; [lia|lia|done].
Qed.

(** ** All outputs together *)

(** The bytes on a screen, the frame buffer's once it is initialised. *)
Definition screen_byte (fb : fb_state) (x : Z) : Prop :=
  VGA_BUF <= x < VGA_BUF + VGA_BYTES \/ (FB_INITIALIZED fb = true /\ FB_ADDR fb <= x < FB_ADDR fb + fb_size fb).
Definition screens_same (fb : fb_state) (m m' : memory) : Prop := forall x, ~ screen_byte fb x -> load8 m' x = load8 m x.

(** The screens are mapped at their own addresses, by tables outside them, and
    do not overlap. *)
Record screens_mapped (cr3 : Z) (fb : fb_state) (m : memory) : Prop := {
  sm_walk : forall m', screens_same fb m m' -> forall x, screen_byte fb x -> virt_to_phys m' cr3 x = Ret x;
  sm_fb : FB_INITIALIZED fb = true -> fb_ok fb /\ 0 <= FB_ADDR fb /\ FB_ADDR fb + fb_size fb <= two63 /\
    (FB_ADDR fb + fb_size fb <= VGA_BUF \/ VGA_BUF + VGA_BYTES <= FB_ADDR fb);
}.

Lemma screens_same_trans fb m1 m2 m3 : screens_same fb m1 m2 -> screens_same fb m2 m3 -> screens_same fb m1 m3.
Proof. intros H1 H2 x Hx. by rewrite H2, H1. Qed.
Lemma screens_mapped_ext cr3 fb m m' : screens_mapped cr3 fb m -> screens_same fb m m' -> screens_mapped cr3 fb m'.
Proof. intros [H1 H2] Hs. split; [|done]. intros m2 Hs2. apply H1. by eapply screens_same_trans. Qed.
Lemma screens_mapped_vga cr3 fb m : screens_mapped cr3 fb m -> vga_mapped m cr3.
Proof.
  intros [H1 _]. split; [done|]. split; [done|]. intros m' Hs x Hx. apply H1; [|by left]. intros y Hy. apply Hs. intros Hin. apply Hy. by left.
Qed.
Lemma screens_mapped_fb cr3 fb m : screens_mapped cr3 fb m -> FB_INITIALIZED fb = true -> range_mapped m cr3 (FB_ADDR fb) (fb_size fb).
Proof.
  intros [H1 H2] Hi. destruct (H2 Hi) as (_ & Ha & Hb & _). split; [done|]. split; [done|]. intros m' Hs x Hx.
  apply H1; [|by right]. intros y Hy. apply Hs. intros Hin. apply Hy. by right.
Qed.

(** What is on the frame buffer, once there is one. *)
Definition fb_displays (fb : fb_state) (m : memory) (t : term) : Prop := FB_INITIALIZED fb = true -> displays fb m t.
Definition fb_put (fb : fb_state) (t : term) (ch : Z) : term := term_put (rows_of fb) (cols_of fb) ch t.

Record console_ok (cr3 : Z) (k : console) (hist : list Z) (tv tf : term) : Prop := {
  co_lock : Dmesg.unlocked (con_log k);
  co_log : Dmesg.logged (con_log k) hist;
  co_map : screens_mapped cr3 (con_fb k) (con_mem k);
  co_vga : vga_displays (con_vga k) (con_mem k) tv;
  co_fb : fb_displays (con_fb k) (con_mem k) tf;
}.

Lemma vga_displays_ext s m m' t :
  (forall x, VGA_BUF <= x < VGA_BUF + VGA_BYTES -> load8 m' x = load8 m x) -> vga_displays s m t -> vga_displays s m' t.
Proof.
  intros Hx [H1 H2 H3]. split; [done|done|]. intros r c Hr Hc. rewrite <- (H3 r c Hr Hc). apply load_le_ext. intros x Hxx.
  apply Hx. unfold VGA_BYTES. lia.
Qed.
Lemma displays_ext fb m m' t :
  fb_ok fb -> (forall x, FB_ADDR fb <= x < FB_ADDR fb + fb_size fb -> load8 m' x = load8 m x) -> displays fb m t -> displays fb m' t.
Proof.
  intros Hok Hx [H1 H2 H3]. split; [done|done|]. intros r c gx gy Hr Hc Hgx Hgy. rewrite <- (H3 r c gx gy Hr Hc Hgx Hgy).
  apply load_le_ext. intros x Hxx. apply Hx.
  destruct (pixel_range fb Hok (c * 8 + gx) (r * 16 + gy)); [by apply cell_on_screen|]. lia.
Qed.

(** One byte on both screens. *)
Lemma screens_put cr3 ch k hist tv tf :
  byte ch -> console_ok cr3 k hist tv tf ->
  exists v m1 fb m2, write_vga cr3 ch (con_vga k, con_mem k) = Ret (v, m1) /\ framebuffer_put_char cr3 ch (con_fb k, m1) = Ret (fb, m2) /\
    same_console (con_fb k) fb /\ screens_same (con_fb k) (con_mem k) m2 /\ vga_displays v m2 (vga_put ch tv) /\
    fb_displays fb m2 (fb_put (con_fb k) tf ch).
Proof.
  intros Hb [_ _ Hm Hv Hf].
  destruct (write_vga_spec cr3 ch (con_vga k) (con_mem k) tv Hb (screens_mapped_vga _ _ _ Hm) Hv) as (v & m1 & E1 & D1 & S1).
  assert (S1' : screens_same (con_fb k) (con_mem k) m1) by (intros x Hx; apply S1; intros Hin; apply Hx; by left).
  pose proof (screens_mapped_ext _ _ _ _ Hm S1') as Hm1. destruct (FB_INITIALIZED (con_fb k)) eqn:Hi.
  - destruct (sm_fb _ _ _ Hm Hi) as (Hok & Ha & Hb' & Hd).
    assert (Df : displays (con_fb k) m1 tf) by (apply (displays_ext _ (con_mem k)); [done| |by apply Hf]; intros x Hx; apply S1; lia).
    destruct (put_char_spec cr3 (con_fb k) m1 tf ch Hok (screens_mapped_fb _ _ _ Hm1 Hi) Df) as (fb & m2 & E2 & Hsame & D2 & S2).
    exists v, m1, fb, m2. split; [done|]. split; [done|]. split; [done|]. split; [|split; [|by intros _]].
    + apply (screens_same_trans _ _ m1); [done|]. intros x Hx. apply S2. intros Hin. apply Hx. by right.
    + apply (vga_displays_ext _ m1); [|done]. intros x Hx. apply S2. lia.
  - exists v, m1, (con_fb k), m1. split; [done|]. unfold framebuffer_put_char. rewrite Hi. split; [done|].
    split; [by exists (FB_ROW (con_fb k)), (FB_COL (con_fb k)); destruct (con_fb k)|]. split; [done|]. split; [done|].
    intros Hi'. congruence.
Qed.

Lemma write_str_spec cr3 bs k hist tv tf :
  Forall byte bs -> console_ok cr3 k hist tv tf ->
  exists k', write_str cr3 bs k = Ret k' /\ Dmesg.serial (con_log k') = Dmesg.serial (con_log k) ++ bs /\
    same_console (con_fb k) (con_fb k') /\ screens_same (con_fb k) (con_mem k) (con_mem k') /\
    console_ok cr3 k' hist (foldl (fun t ch => vga_put ch t) tv bs) (foldl (fb_put (con_fb k)) tf bs).
Proof.
  intros Hbs. revert k tv tf. induction Hbs as [|b bs Hb _ IH]; intros k tv tf Hk; cbn [write_str foldl].
  { exists k. rewrite app_nil_r. split; [done|]. split; [done|]. split; [by exists (FB_ROW (con_fb k)), (FB_COL (con_fb k)); destruct (con_fb k)|]. done. }
  destruct (screens_put cr3 b k hist tv tf Hb Hk) as (v & m1 & fb & m2 & -> & E2 & (r & c & ->) & Hs & Dv & Df).
  rewrite bind_Ret, E2, bind_Ret. destruct Hk as [K1 K2 K3 K4 K5].
  destruct (IH (mk_console (Dmesg.write_serial b (con_log k)) v (at_cursor r c (con_fb k)) m2) (vga_put b tv) (fb_put (con_fb k) tf b))
    as (k' & -> & Hser & (r' & c' & Hc) & Hs' & Hok).
  - split; cbn [con_log con_vga con_fb con_mem]; [exact K1|destruct K2 as [L1 L2 L3 L4]; by split| |exact Dv|exact Df].
    destruct (screens_mapped_ext _ _ _ _ K3 Hs) as [W1 W2]. split; [exact W1|]. intros Hi.
    destruct (W2 Hi) as (Hfo & W3). split; [destruct Hfo; by split|exact W3].
  - exists k'. split; [done|]. cbn [con_log con_fb con_mem] in *. split; [rewrite Hser; cbn [Dmesg.serial Dmesg.write_serial]; by rewrite <- app_assoc|].
    split; [exists r', c'; by rewrite Hc|]. split; [by apply (screens_same_trans _ _ m2)|]. exact Hok.
Qed.

Lemma ring_write_fmt_spec pieces d hist :
  Dmesg.unlocked d -> Dmesg.logged d hist ->
  exists d', ring_write_fmt pieces d = Ret d' /\ Dmesg.unlocked d' /\ Dmesg.logged d' (hist ++ concat pieces) /\ Dmesg.serial d' = Dmesg.serial d.
Proof.
  revert d hist. induction pieces as [|p ps IH]; intros d hist Hu Hl; cbn [ring_write_fmt concat].
  { exists d. by rewrite app_nil_r. }
  destruct (Dmesg.push_bytes_logged p d hist Hu Hl) as (d1 & -> & Hu1 & Hl1 & Hs1). rewrite bind_Ret.
  destruct (IH d1 _ Hu1 Hl1) as (d2 & -> & Hu2 & Hl2 & Hs2). exists d2. rewrite app_assoc. split; [done|]. split; [done|]. split; [done|congruence].
Qed.

Lemma write_fmt_eq cr3 pieces k : write_fmt cr3 pieces k = write_str cr3 (concat pieces) k.
Proof.
  assert (Happ : forall a b k, write_str cr3 (a ++ b) k = k ← write_str cr3 a k; write_str cr3 b k).
  { induction a as [|x a IH]; intros b k'; cbn [write_str app]; [by rewrite bind_Ret|].
    destruct (write_vga cr3 x _) as [[v m]| | | |]; [rewrite !bind_Ret|done..].
    destruct (framebuffer_put_char cr3 x _) as [[fb m']| | | |]; [rewrite !bind_Ret; apply IH|done..]. }
  revert k. induction pieces as [|p ps IH]; intros k; cbn [write_fmt concat]; [done|]. rewrite Happ.
  destruct (write_str cr3 p k); [rewrite !bind_Ret; apply IH|done..].
Qed.

Lemma print_spec cr3 pieces k hist tv tf :
  Forall byte (concat pieces) -> console_ok cr3 k hist tv tf ->
  exists k', _print cr3 pieces k = Ret k' /\ Dmesg.serial (con_log k') = Dmesg.serial (con_log k) ++ concat pieces /\
    screens_same (con_fb k) (con_mem k) (con_mem k') /\
    console_ok cr3 k' (hist ++ concat pieces) (foldl (fun t ch => vga_put ch t) tv (concat pieces)) (foldl (fb_put (con_fb k)) tf (concat pieces)).
Proof.
  intros Hb [K1 K2 K3 K4 K5]. unfold _print.
  destruct (ring_write_fmt_spec pieces (con_log k) hist K1 K2) as (d & -> & Hu & Hl & Hs). rewrite bind_Ret, write_fmt_eq.
  destruct (write_str_spec cr3 (concat pieces) (mk_console d (con_vga k) (con_fb k) (con_mem k)) (hist ++ concat pieces) tv tf Hb)
    as (k' & -> & Hser & _ & Hsame & Hok); [by split|].
  exists k'. split; [done|]. cbn [con_log con_fb con_mem] in *. rewrite Hser, Hs. done.
Qed.


(** The cleared screen which [vga_init] leaves. *)
Lemma vga_init_spec cr3 m : vga_mapped m cr3 ->
  exists v m', vga_init cr3 m = Ret (vga_init_ports, (v, m')) /\ vga_displays v m' blank /\ vga_same m m'.
Proof.
  intros Hm. unfold vga_init. destruct (vga_fill_spec cr3 (vga_char 32) 2000 0 m Hm) as (m' & E & S & C); [lia|lia|done|].
  change (Z.of_nat 2000) with 2000 in *. change (80 * 25) with 2000. rewrite E, bind_Ret. eexists _, m'. split; [reflexivity|]. split; [|done].
  split; [done|done|]. intros r c Hr Hc. rewrite C. change (vga_char 32) with 0x0F20. cbn [blank t_cell]. zcases; lia || done.
Qed.

(** C38: The text screen stays in its 4000 bytes.  From [vga_init] on, any bytes
    written to the screen are shown as a terminal of 25 rows and 80 columns
    shows them, the cursor stays on the screen, and nothing else in memory
    changes, however much is written. *)
Theorem vga_stays_on_screen cr3 bs m :
  vga_mapped m cr3 -> Forall byte bs ->
  exists v m1 v' m', vga_init cr3 m = Ret (vga_init_ports, (v, m1)) /\
    foldl (fun r b => x ← r; write_vga cr3 b x) (Ret (v, m1)) bs = Ret (v', m') /\
    vga_displays v' m' (foldl (fun t ch => vga_put ch t) blank bs) /\ vga_same m m'.
Proof.
  intros Hm Hbs. destruct (vga_init_spec cr3 m Hm) as (v & m1 & E & Hd & Hs). exists v, m1.
  assert (Hgo : forall t v m1, vga_displays v m1 t -> vga_same m m1 -> exists v' m',
    foldl (fun r b => x ← r; write_vga cr3 b x) (Ret (v, m1)) bs = Ret (v', m') /\ vga_displays v' m' (foldl (fun t ch => vga_put ch t) t bs) /\ vga_same m m').
  { clear E Hd Hs v m1. induction Hbs as [|b bs Hb _ IH]; intros t v m1 Hd Hs; cbn [foldl]; [by exists v, m1|].
    destruct (write_vga_spec cr3 b v m1 t Hb (range_mapped_ext _ _ _ _ _ Hm Hs) Hd) as (v2 & m2 & E & Hd2 & Hs2). rewrite bind_Ret, E.
    apply (IH _ v2 m2 Hd2). by eapply same_outside_trans. }
  destruct (Hgo blank v m1 Hd Hs) as (v' & m' & ? & ? & ?). by exists v', m'.
Qed.

(** A machine whose kernel is up, with a text screen and a frame buffer of 4
    by 2 characters. *)
Lemma sample_console :
  exists cr3 k, console_ok cr3 k [] blank blank /\ FB_INITIALIZED (con_fb k) = true /\ Dmesg.serial (con_log k) = [] /\
    vga_mapped (con_mem k) cr3.
Proof.
  destruct (booted_with []) as (K & km & Hk & Hlow & _); [discriminate|]. set (fb := mk_fb 0xA0000 128 32 32 32 0 0 true).
  assert (Hok : fb_ok fb) by (split; (reflexivity || discriminate)).
  assert (Hm : range_mapped (pmem km) (KERNEL_PML4_PA km) 0xA0000 0x60000) by (by apply (low_range_mapped K)).
  assert (Hsc : screens_mapped (KERNEL_PML4_PA km) fb (pmem km)).
  { assert (Hin : forall x, screen_byte fb x -> 0xA0000 <= x < 0xA0000 + 0x60000)
      by (intros x [Hx|[_ Hx]]; [unfold VGA_BUF, VGA_BYTES in Hx|change (fb_size fb) with 4096 in Hx; change (FB_ADDR fb) with 0xA0000 in Hx]; lia).
    split; [|intros _; split; [exact Hok|vm_compute; intuition discriminate]].
    intros m' Hs x Hx. destruct Hm as (_ & _ & Hm). apply Hm; [|by apply Hin]. intros y Hy. apply Hs. intros Hy'. by apply Hy, Hin. }
  destruct (clear_blank _ fb _ Hok (screens_mapped_fb _ _ _ Hsc eq_refl)) as (m1 & _ & Df & S1).
  assert (S1' : screens_same fb (pmem km) m1) by (intros x Hx; apply S1; intros Hin; apply Hx; by right).
  pose proof (screens_mapped_ext _ _ _ _ Hsc S1') as Hsc1.
  destruct (vga_init_spec _ m1 (screens_mapped_vga _ _ _ Hsc1)) as (v & m2 & _ & Dv & S2).
  assert (S2' : screens_same fb m1 m2) by (intros x Hx; apply S2; intros Hin; apply Hx; by left).
  pose proof (screens_mapped_ext _ _ _ _ Hsc1 S2') as Hsc2.
  exists (KERNEL_PML4_PA km), (mk_console Dmesg.boot_dmesg v fb m2). split; [|split; [done|split; [done|by eapply screens_mapped_vga]]].
  split; cbn [con_log con_vga con_fb con_mem]; [split; [done|cbn; lia]|apply Dmesg.boot_dmesg_logged|done|done|].
  intros _. apply (displays_ext fb m1); [done| |exact Df]. intros x Hx. apply S2. change (fb_size fb) with 4096 in Hx.
  change (FB_ADDR fb) with 0xA0000 in Hx. unfold VGA_BUF. lia.
Qed.


Lemma vga_stays_on_screen_witness :
  exists cr3 m v m1 v' m', vga_init cr3 m = Ret (vga_init_ports, (v, m1)) /\
    foldl (fun r b => x ← r; write_vga cr3 b x) (Ret (v, m1)) [72; 105; 10] = Ret (v', m') /\ VGA_ROW v' = 1.
Proof.
  destruct sample_console as (cr3 & k & _ & _ & _ & Hm).
  destruct (vga_stays_on_screen cr3 [72; 105; 10] (con_mem k) Hm) as (v & m1 & v' & m' & E1 & E2 & [[Hr _] _ _] & _);
    [apply forallb_byte; reflexivity|].
  exists cr3, (con_mem k), v, m1, v', m'. split; [exact E1|]. split; [exact E2|]. rewrite Hr. vm_compute. reflexivity.
Defined.
