(* ===== verification/Startup.v ===== *)
(** * The start of [kernel_main] (main.rs)

    From the boot loader to a kernel with its own page tables: the boot code,
    the text screen, the frame allocator with its first size, the page tables,
    and the memory map.  What the boot code saved is read where it was put,
    after the kernel has started to use memory. *)

From S2P Require Import Prelude Bytes Mem Frame Paging AddressSpace KernelMap Usercopy E820 Boot Framebuffer Console.

Definition init_sse (s : boot) : boot :=
  let cr0 := Z.lor (Z.land (cr0 s) (not64 4)) 2 in
  let s := set_cr0 cr0 s in
  set_cr4 (Z.lor (cr4 s) 512) s.

(** [kernel_end] is the end of the image.  The keyboard buffer, the interrupt
    table and the system call gate lie between the allocator and the page
    tables; they use no memory but their own. *)
Definition kernel_main_memory (inb : Z -> Z) (img : image) (kernel_end : Z) (s : boot) : outcome (boot * bitmap_machine) :=
  s ← start inb img s;
  x ← vga_init (cr3 s) (bmem s);
  let '(_, (_, m)) := x in
  let s := init_sse s in
  let fa := set_total_ram (Z.shiftl 1 30) boot_frame_state in
  fa ← init kernel_end fa;
  k ← paging_init (mk_machine m fa 0);
  magic ← kle 4 (pmem k) (KERNEL_PML4_PA k) (mb_magic img);
  info ← kle 8 (pmem k) (KERNEL_PML4_PA k) (mb_info img);
  k ← detect_and_reinit magic info k;
  Ret (s, k).

(** ** [paging::init] writes to frames it was given *)

#[local] Opaque zero_table put_entries put_entry seqZ.

Section outside.
Context {A : Type} `{FrameAllocator A}.
Implicit Types k : machine (A:=A).

Definition outside (F : gset Z) (x : Z) : Prop := forall f, f ∈ F -> ~ (pg f <= x < pg f + 4096).

Lemma alloc_table_inv k p k' :
  fa_inv (frames k) -> alloc_table_or_halt k = Ret (p, k') ->
  exists f, p = pg f /\ f ∈ fa_free (frames k) /\ pmem k' = pmem k /\ fa_inv (frames k') /\ fa_free (frames k') ⊆ fa_free (frames k).
Proof.
  intros Hinv. unfold alloc_table_or_halt. destruct (fa_alloc_ok (frames k) Hinv) as ([f|] & fa & -> & Hinv' & Hl & Hr); rewrite bind_Ret; [|done].
  intros [= <- <-]. destruct Hr as [Hf Hr]. exists f. pose proof (fa_free_range f _ Hinv Hf). pose proof (fa_limit_range _ Hinv).
  split; [apply start_address_pg; split; lia|]. cbn [pmem frames]. split; [done|]. split; [done|]. split; [done|]. rewrite Hr. set_solver.
Qed.

Lemma init_pds_outside F idxs p k k' :
  fa_inv (frames k) -> fa_free (frames k) ⊆ F -> p ∈ F -> Forall (fun j => 0 <= j < 2) idxs -> init_pds idxs (pg p) k = Ret k' ->
  forall x, outside F x -> load8 (pmem k') x = load8 (pmem k) x.
Proof.
  intros Hinv Hsub Hp Hi. revert k Hinv Hsub. induction Hi as [|j idxs Hj _ IH]; intros k Hinv Hsub; cbn [init_pds]; [by intros [= <-]|].
  intros ([pa k1] & E & Hk)%bind_Ret_inv x Hx. destruct (alloc_table_inv _ _ _ Hinv E) as (f & -> & Hf & Hm & Hinv1 & Hsub1).
  assert (Hsub' : fa_free (frames k1) ⊆ F) by set_solver. assert (HfF : f ∈ F) by set_solver.
  match type of Hk with init_pds _ _ ?s = _ => rewrite (IH s Hinv1 Hsub' Hk x Hx) end. cbn [pmem with_mem set_entry].
  edestruct (fill_entries_spec (fun i => page_2mb (j * 0x40000000 + i * 0x200000)) f) as [Ho _].
  { intros i Hi. replace (j * 0x40000000 + i * 0x200000) with ((j * 512 + i) * 0x200000) by lia. apply page_2mb_range. lia. }
  rewrite (Ho x) by (by apply Hx). rewrite (proj1 (zero_table_spec f _) x) by (by apply Hx).
  rewrite (put_entry_only p _ j) by (lia || by apply Hx). by rewrite Hm.
Qed.

Lemma paging_init_outside k k' :
  fa_inv (frames k) -> paging_init k = Ret k' -> forall x, outside (fa_free (frames k)) x -> load8 (pmem k') x = load8 (pmem k) x.
Proof.
  intros Hinv. unfold paging_init. intros ([a k1] & E1 & E)%bind_Ret_inv x Hx.
  destruct (alloc_table_inv _ _ _ Hinv E1) as (f & -> & Hf & Hm1 & Hinv1 & Hsub1).
  apply bind_Ret_inv in E as ([b k2] & E2 & E). destruct (alloc_table_inv _ _ _ Hinv1 E2) as (g & -> & Hg & Hm2 & Hinv2 & Hsub2).
  apply bind_Ret_inv in E as (k3 & E3 & E). injection E as <-. cbn [pmem].
  assert (Hsub' : fa_free (frames k2) ⊆ fa_free (frames k)) by set_solver. assert (HgF : g ∈ fa_free (frames k)) by set_solver.
  assert (Hidx : Forall (fun j => 0 <= j < 2) (seqZ 0 2)) by (apply Forall_forall; intros j Hj; apply elem_of_seqZ in Hj; lia).
  match type of E3 with init_pds _ _ ?s = _ => rewrite (init_pds_outside _ _ g s _ Hinv2 Hsub' HgF Hidx E3 x Hx) end.
  cbn [pmem with_mem set_entry]. rewrite (proj1 (zero_table_spec g _) x) by (by apply Hx).
  rewrite (put_entry_only f _ 0) by (lia || by apply Hx). rewrite (proj1 (zero_table_spec f _) x) by (by apply Hx). by rewrite Hm2, Hm1.
Qed.
End outside.

(** ** The whole way *)

Lemma init_sse_on s : Z.testbit (cr0 (init_sse s)) 2 = false /\ Z.testbit (cr0 (init_sse s)) 1 = true /\ Z.testbit (cr4 (init_sse s)) 9 = true.
Proof.
  unfold init_sse. cbn [cr0 cr4 set_cr0 set_cr4]. rewrite !Z.lor_spec, Z.land_spec, not64_spec by lia.
  change (Z.testbit 4 2) with true. change (Z.testbit 2 2) with false. change (Z.testbit 2 1) with true. change (Z.testbit 512 9) with true.
  cbn [negb]. by rewrite andb_false_r, !orb_true_r.
Qed.

Lemma boot_vga_mapped img m : image_ok img -> boot_tables img m -> range_mapped m (p4_table img) VGA_BUF VGA_BYTES.
Proof.
  intros Hok Ht. pose proof Hok as [H1 H2 H3 _ H4 H5 H6 H7]. split; [done|]. split; [done|]. unfold VGA_BUF, VGA_BYTES. intros m' Hs x Hx.
  unfold virt_to_phys, canonical. destruct (Z.ltb_spec x (2 ^ 47)); [|lia]. cbn [orb].
  rewrite (boot_identity_at img); [done|done| |lia|lia].
  apply (boot_tables_ext img m); [done| |done]. intros y Hy. apply Hs. intros Hin. apply Hy. unfold beside_tables. lia.
Qed.

Lemma many_frames (F : gset Z) a n : (forall f, a <= f < a + n -> f ∈ F) -> n <= Z.of_nat (size F).
Proof.
  intros HF. assert (Hs : list_to_set (seqZ a n) ⊆ F) by (intros f Hf; apply HF; apply elem_of_list_to_set, elem_of_seqZ in Hf; lia).
  apply subseteq_size in Hs. rewrite size_list_to_set, length_seqZ in Hs by apply NoDup_seqZ. lia.
Qed.

(** The allocator before the page tables are built. *)
Lemma first_frames kernel_end :
  0x100000 <= kernel_end <= 0x3F800000 ->
  exists fa, init kernel_end (set_total_ram (Z.shiftl 1 30) boot_frame_state) = Ret fa /\ frame_wf fa /\ TOTAL_RAM fa = 2 ^ 30 /\
    (forall f, f ∈ free_frames fa <-> f < 2 ^ 18 /\ kernel_end <= f * 4096) /\
    (2 ^ 30 - kernel_end) / 4096 <= Z.of_nat (size (free_frames fa)).
Proof.
  intros Hk. destruct (init_spec kernel_end (set_total_ram (Z.shiftl 1 30) boot_frame_state)) as (fa & E & Hwf & Hext & Hfree);
    [apply set_total_ram_wf; [apply boot_frame_state_wf|done]|lia|].
  change (if TOTAL_RAM (set_total_ram (Z.shiftl 1 30) boot_frame_state) =? 0 then _ else ?x) with x in Hfree, Hext.
  change (ACTUAL_FRAME_COUNT (set_total_ram (Z.shiftl 1 30) boot_frame_state)) with (2 ^ 18) in Hfree.
  assert (Hin : forall f, f ∈ free_frames fa <-> f < 2 ^ 18 /\ kernel_end <= f * 4096).
  { intros f. rewrite elem_of_free_frames, Hfree. lia. }
  exists fa. split; [done|]. split; [done|]. split; [by destruct Hext as (_ & _ & ->)|]. split; [done|].
  apply (many_frames _ (2 ^ 18 - (2 ^ 30 - kernel_end) / 4096)). intros f Hf. apply Hin. split; [lia|].
  pose proof (Z.mul_div_le (2 ^ 30 - kernel_end) 4096 ltac:(lia)). lia.
Qed.

Lemma paging_init_kept (m : memory) (fa : frame_state) :
  frame_wf fa -> 4 <= Z.of_nat (size (free_frames fa)) ->
  exists K k, paging_init (mk_machine m fa 0) = Ret k /\ kernel_ready K k /\ fa_free (frames k) = free_frames fa ∖ k_frames K /\
    size (k_frames K) = 4%nat /\
    (forall va, 0 <= va < 2 ^ 48 -> mmu_walk (pmem k) (KERNEL_PML4_PA k) va =
       if va <? 0x80000000 then Some (mk_translation va false true true) else None) /\
    forall x, (forall f, f ∈ free_frames fa -> ~ (pg f <= x < pg f + 4096)) -> load8 (pmem k) x = load8 m x.
Proof.
  intros Hinv Hsz. destruct (paging_init_identity m fa 0) as (K & k & Hs & Hk & Hf & Hn & Hw); [exact Hinv|exact Hsz|].
  exists K, k. do 5 (split; [done|]). intros x Hx. by apply (paging_init_outside (A:=frame_state) (mk_machine m fa 0) k).
Qed.


