(* ===== verification/Isolation.v ===== *)
(** * Many tasks at once (task.rs, paging.rs, main.rs)

    The kernel task spawns programs, they run, write to memory, sleep, yield and
    exit, and timer ticks come at any time.  [system_ok] says which frames every
    task owns.  It gives the isolation of the tasks from each other and the
    account of the frames that the start-up test of [kernel_main] checks.  The
    kernel's tables are those of [paging_init]: a page mapped into them later
    would be shared with the copies of the tasks and freed with the first one.
    The last part models the loops of the test that fill the task table. *)

From S2P Require Import Prelude FdTable Mem Frame Paging AddressSpace KernelMap Elf Task Sched Process Lifecycle Startup.

(** ** The loops of the start-up test (main.rs) *)

(** The comparison of the free frames before and after the test. *)
Inductive check_result : Type := CheckPass | CheckLeak (leaked : Z) | CheckReclaimed (extra : Z).
#[global] Instance check_result_eq_dec : EqDecision check_result.
Proof. solve_decision. Defined.
Definition frame_check (frames_before_tasks frames_after_tasks : Z) : check_result :=
  if frames_before_tasks =? frames_after_tasks then CheckPass
  else if frames_after_tasks <? frames_before_tasks then CheckLeak (frames_before_tasks - frames_after_tasks)
  else CheckReclaimed (frames_after_tasks - frames_before_tasks).

Section loops.
Context {A : Type} `{FrameAllocator A}.
Variable TASKS_ADDR : Z.
(** Where the builder puts the image of each spawn. *)
Variable base : Z.

(** [for i in 0..task_count]: the tasks spawned and the failures. *)
Fixpoint dynamic_spawn (n : nat) (code : list Z) (spawn_ok spawn_fail : Z) (s : sys (A:=A)) : outcome (Z * Z * sys) :=
  match n with
  | O => Ret (spawn_ok, spawn_fail, s)
  | S n' =>
      x ← spawn_userspace_task TASKS_ADDR base code s;
      match x with
      | (Ok _, s) => dynamic_spawn n' code (spawn_ok + 1) spawn_fail s
      | (Err _, s) => dynamic_spawn n' code spawn_ok (spawn_fail + 1) s
      end
  end.

(** The loop of the overflow test: the tasks spawned and the message that
    ended it.  It ends itself after 301 tasks, which bounds the fuel. *)
Fixpoint overflow_loop (fuel : nat) (code : list Z) (overflow_count : Z) (s : sys (A:=A)) : outcome (Z * option string * sys) :=
  match fuel with
  | O => Hang
  | S fuel' =>
      x ← spawn_userspace_task TASKS_ADDR base code s;
      match x with
      | (Ok _, s) =>
          let overflow_count := overflow_count + 1 in
          if 300 <? overflow_count then Ret (overflow_count, None, s) else overflow_loop fuel' code overflow_count s
      | (Err e, s) => Ret (overflow_count, Some e, s)
      end
  end.
Definition overflow_test (code : list Z) (s : sys (A:=A)) : outcome (Z * option string * sys) := overflow_loop 302 code 0 s.
End loops.

(** ** What a task owns *)

Record space : Type := mk_space {
  sp_pages : list user_page;
  sp_tables : tables;
  sp_root : Z;
  sp_frames : gset Z;
}.

(** The slot of the task records the first 32 pages. *)
Record task_on (sp : space) (t : Task) : Prop := {
  to_root : page_table_root t = pg (sp_root sp);
  to_count : user_data_frame_count t = lenZ (take 32 (up_frame <$> sp_pages sp));
  to_frames : forall j f, take 32 (up_frame <$> sp_pages sp) !! j = Some f -> lookupZ (user_data_frames t) (Z.of_nat j) = Some (pg f);
}.

(** A user page lies in a frame of the space. *)
Lemma install_frame l v f w x : install l ∅ !! v = Some (f, w, x) -> f ∈ up_frame <$> l.
Proof.
  assert (Hgen : forall um, install l um !! v = Some (f, w, x) -> f ∈ up_frame <$> l \/ um !! v = Some (f, w, x)).
  { induction l as [|q l IH]; intros um; cbn [install]; [by right|]. intros [Hf|Hf]%IH; [left; by right|].
    rewrite lookup_insert in Hf. case_decide; [|by right]. injection Hf as <- _ _. left. by left. }
  intros [|Hn]%Hgen; [done|]. by rewrite lookup_empty in Hn.
Qed.

(** ** The system *)

Section system.
Context {A : Type} `{FrameAllocator A}.
Variable TASKS_ADDR : Z.
Implicit Types s : sys (A:=A).

(** The kernel's tables, the longest program in pages, the frames for programs
    and the allocator's limit. *)
Variables (K : kernel_tables) (N : Z) (F0 : gset Z) (L : Z).

Definition space_ok (sp : space) (ms : machine (A:=A)) : Prop := placed K (sp_frames sp) (sp_pages sp) (sp_tables sp) (sp_root sp) ms.

(** [lost] are frames that no task holds and the allocator does not have: the
    pages past the 32nd of tasks that have exited. *)
Record system_ok (lost : gset Z) (sps : gmap Z space) s : Prop := {
  sy_inv : fa_inv (frames (mach s));
  sy_view : kernel_view (pmem (mach s)) K;
  sy_root : KERNEL_PML4_PA (mach s) = pg (k_pml4 K);
  sy_tables : forall f, f ∈ k_frames K -> (f ∉ fa_free (frames (mach s)) \/ f ∈ k_shared K) /\ 0 <= f < L;
  sy_shared : k_shared K ## fa_free (frames (mach s)) \/ k_shared K ⊆ fa_free (frames (mach s));
  sy_limit : fa_limit (frames (mach s)) = L;
  sy_sched : sched_inv s;
  sy_slots : forall j t, lookupZ (TASKS s) j = Some t -> lenZ (user_data_frames t) = MAX_USER_FRAMES;
  sy_kernel : root_of s 0 = Some (pg (k_pml4 K));
  sy_free : forall i, 1 <= i < MAX_TASKS -> sps !! i = None -> states s i = Some Unused;
  sy_task : forall i sp, sps !! i = Some sp -> 1 <= i < MAX_TASKS /\
    (exists t, lookupZ (TASKS s) i = Some t /\ state t <> Unused /\ task_on sp t) /\ space_ok sp (mach s);
  sy_pages : forall i sp, sps !! i = Some sp -> lenZ (sp_pages sp) <= N + 1;
  sy_disj : forall i j sp sp', sps !! i = Some sp -> sps !! j = Some sp' -> i <> j -> sp_frames sp ## sp_frames sp';
  sy_lost : lost ## fa_free (frames (mach s)) /\ lost ## k_frames K /\ (forall i sp, sps !! i = Some sp -> sp_frames sp ## lost) /\ (N <= 31 -> lost = ∅);
  sy_all : forall g, g ∉ k_shared K -> g ∈ F0 <-> g ∈ fa_free (frames (mach s)) \/ g ∈ lost \/ exists i sp, sps !! i = Some sp /\ g ∈ sp_frames sp;
}.

(** The frames for programs are apart from frame 0, the kernel's tables and
    the task table. *)
Record frames_apart : Prop := {
  fa_zero : 0 ∉ F0;
  fa_tables : forall f, f ∈ k_frames K -> f ∉ F0;
  fa_tasks_at : tasks_at TASKS_ADDR;
  fa_tasks : forall f x, f ∈ k_frames K \/ f ∈ F0 -> pg f <= x < pg f + 4096 -> ~ in_tasks TASKS_ADDR x;
}.

(** Bytes the current program, or a system call on its behalf, may write: the
    pages its tables open to user mode, and the kernel stacks. *)
Definition may_write s (x : Z) : Prop :=
  in_tasks TASKS_ADDR x \/
  exists va tr, 0 <= va < 2 ^ 48 /\ mmu_walk (pmem (mach s)) (CR3 s) va = Some tr /\ t_user tr = true /\ t_pa tr = x.
Definition alive s : Prop := current_is (fun st => st <> Unused) s.

(** Steps, with the task that makes them; a tick is nobody's.  A program is
    spawned with frames to spare, and while the allocator has none of the
    kernel's own tables: the first exit gives it the page table of the local
    APIC. *)
Inductive system_step : option Z -> sys (A:=A) -> sys (A:=A) -> Prop :=
  | sys_tick sp r s s' : timer_handler_rust TASKS_ADDR sp s = Ret (r, s') -> system_step None s s'
  | sys_spawn base code r s s' :
      CURRENT_TASK s = 0 -> alive s -> 0 <= base -> base + 120 + lenZ code < two63 -> 0x400000 + lenZ code <= STACK_VADDR -> code_pages code <= N ->
      space_cost K + 2 * code_pages code <= Z.of_nat (size (fa_free (frames (mach s)))) -> k_shared K ## fa_free (frames (mach s)) ->
      spawn_userspace_task TASKS_ADDR base code s = Ret (r, s') -> system_step (Some 0) s s'
  | sys_exit r s s' : alive s -> exit_current_task s = Ret (r, s') -> system_step (Some (CURRENT_TASK s)) s s'
  | sys_yield s s' : alive s -> set_state Ready s = Ret s' -> system_step (Some (CURRENT_TASK s)) s s'
  | sys_sleep wake s s' : alive s -> sleep_until wake s = Ret s' -> system_step (Some (CURRENT_TASK s)) s s'
  | sys_write m s :
      alive s -> (forall x, load8 m x <> load8 (pmem (mach s)) x -> may_write s x) ->
      system_step (Some (CURRENT_TASK s)) s (with_mach (with_mem m (mach s)) s).

Lemma space_user sp (ms : machine (A:=A)) va tr :
  space_ok sp ms -> 0 <= va < 2 ^ 48 -> mmu_walk (pmem ms) (pg (sp_root sp)) va = Some tr -> t_user tr = true ->
  exists f, f ∈ up_frame <$> sp_pages sp /\ pg f <= t_pa tr < pg f + 4096.
Proof.
  intros Hok Hva Hw Hu. destruct (decide (va < 0x80000000)) as [Hlo|Hhi].
  2: { rewrite (view_walk_high _ _ _ _ (pl_view _ _ _ _ _ _ Hok) (pl_root _ _ _ _ _ _ Hok) va tr) in Hu by (done || lia). done. }
  rewrite (view_walk _ _ _ _ (pl_view _ _ _ _ _ _ Hok) (pl_root _ _ _ _ _ _ Hok)) in Hw by lia.
  injection Hw as <-. unfold promised in *.
  destruct (install _ ∅ !! (va / 4096)) as [[[f w] x]|] eqn:E; [|done]. exists f. split; [by eapply install_frame|].
  cbn [t_pa]. dlia.
Qed.

(** A frame of a space lies among those for programs. *)
Lemma space_frames lost sps s i sp f :
  system_ok lost sps s -> sps !! i = Some sp -> f ∈ sp_frames sp -> (f ∈ F0) /\ f ∉ k_frames K.
Proof.
  intros Hok Hsp Hf. destruct (sy_task _ _ _ Hok i sp Hsp) as (_ & _ & Hpl). destruct (pl_held _ _ _ _ _ _ Hpl f Hf) as (_ & Hn & _).
  split; [|done]. apply (sy_all _ _ _ Hok f); [|right; right; eauto]. intros Hs. by apply Hn, k_shared_frames.
Qed.
Lemma free_frames_apart lost sps s f :
  frames_apart -> system_ok lost sps s -> f ∈ fa_free (frames (mach s)) -> f ∈ k_frames K \/ f ∈ F0.
Proof.
  intros Hap Hok Hf. destruct (decide (f ∈ k_shared K)) as [Hs|Hs]; [left; by apply k_shared_frames|right].
  apply (sy_all _ _ _ Hok f Hs). by left.
Qed.

(** *** Steps that keep memory *)

(** The slots keep their pages, and are in use as before. *)
Definition slot_kept (t t' : Task) : Prop :=
  page_table_root t' = page_table_root t /\ user_data_frames t' = user_data_frames t /\
  user_data_frame_count t' = user_data_frame_count t /\ (state t' = Unused <-> state t = Unused).
Definition slots_kept s s' : Prop :=
  (forall t, lookupZ (TASKS s) 0 = Some t -> exists t', lookupZ (TASKS s') 0 = Some t' /\ page_table_root t' = page_table_root t) /\
  (forall j t, 1 <= j -> lookupZ (TASKS s) j = Some t -> exists t', lookupZ (TASKS s') j = Some t' /\ slot_kept t t') /\
  (forall j t', lookupZ (TASKS s') j = Some t' -> exists t, lookupZ (TASKS s) j = Some t /\ lenZ (user_data_frames t') = lenZ (user_data_frames t)).

Lemma task_on_kept sp t t' : task_on sp t -> slot_kept t t' -> task_on sp t'.
Proof. intros [H1 H2 H3] (E1 & E2 & E3 & _). split; [by rewrite E1|by rewrite E3|by rewrite E2]. Qed.

Lemma ok_slots lost sps s s' : system_ok lost sps s -> mach s' = mach s -> sched_inv s' -> slots_kept s s' -> system_ok lost sps s'.
Proof.
  intros Hok Hm Hi (Hk0 & Hkj & Hkl). pose proof Hok as [? ? ? ? ? ? H3 H4 H5 H6 H7 ? ? ? ?]. split; rewrite ?Hm; try done.
  - intros j t' Ht'. destruct (Hkl j t' Ht') as (t & Ht & ->). by eapply H4.
  - unfold root_of in *. destruct (lookupZ (TASKS s) 0) as [t|] eqn:E; [|done]. destruct (Hk0 t eq_refl) as (t' & -> & Hr).
    cbn [fmap option_fmap option_map] in *. by rewrite Hr.
  - intros i Hr Hn. specialize (H6 i Hr Hn). unfold states in *. destruct (lookupZ (TASKS s) i) as [t|] eqn:E; [|done].
    destruct (Hkj i t ltac:(lia) E) as (t' & -> & (_ & _ & _ & Hu)). cbn [fmap option_fmap option_map] in *. f_equal. apply Hu. congruence.
  - intros i sp Hsp. destruct (H7 i sp Hsp) as (Hr & (t & Ht & Hst & Hon) & Hsok). split; [done|]. split; [|done].
    destruct (Hkj i t ltac:(lia) Ht) as (t' & Ht' & Hk). exists t'. split; [done|]. split; [|by eapply task_on_kept].
    intros Hu. by apply Hst, Hk.
Qed.

Lemma slot_kept_refl t : slot_kept t t.
Proof. by split_and!. Qed.

Lemma tick_kept sp r s s' :
  sched_inv s -> timer_handler_rust TASKS_ADDR sp s = Ret (r, s') -> mach s' = mach s /\ slots_kept s s'.
Proof.
  intros (Hwf & _ & _) E. destruct (timer_handler_spec TASKS_ADDR sp s Hwf) as (r' & s1 & E' & Hwf' & _ & Hm & Hpost).
  rewrite E in E'. injection E' as <- <-. split; [done|]. set (c := u64 (TICKS s + 1)) in *.
  assert (Hw : forall j t, lookupZ (TASKS s) j = Some t -> exists t', woken c s j = Some t' /\ slot_kept t t').
  { intros j t Ht. unfold woken. rewrite Ht. destruct (1 <=? j); [|exists t; split; [done|apply slot_kept_refl]].
    exists (wake_one c t). split; [done|]. unfold wake_one. destruct (is_state (state t) Sleeping) eqn:Es; [|apply slot_kept_refl].
    unfold is_state in Es. apply bool_decide_eq_true_1 in Es. cbn [andb]. destruct (_ <=? _); [|apply slot_kept_refl]. split_and!; try done.
    cbn [state with_state]. rewrite Es. done. }
  assert (Hd : forall j t, lookupZ (TASKS s) j = Some t -> exists t', demoted sp c s j = Some t' /\ slot_kept t t').
  { intros j t Ht. destruct (Hw j t Ht) as (t1 & E1 & Hk). unfold demoted. rewrite E1. destruct (j =? _); [|eauto].
    exists (demote sp t1). split; [done|]. destruct Hk as (K1 & K2 & K3 & K4). unfold demote. destruct (is_state (state t1) Running) eqn:Es; [|by split_and!].
    unfold is_state in Es. apply bool_decide_eq_true_1 in Es. split_and!; try done. rewrite <- K4, Es. done. }
  assert (Hslot : forall j t, lookupZ (TASKS s) j = Some t -> exists t', lookupZ (TASKS s') j = Some t' /\
            page_table_root t' = page_table_root t /\ lenZ (user_data_frames t') = lenZ (user_data_frames t) /\ (1 <= j -> slot_kept t t')).
  { intros j t Ht. destruct (switch_tick c).
    - destruct Hpost as (next & Hnext & _ & Hts & _). destruct (Hd j t Ht) as (t' & E' & Hk). rewrite Hts, E'.
      destruct Hk as (K1 & K2 & K3 & K4). destruct (Z.eqb_spec j next) as [->|]; [|exists t'; split; [done|]; rewrite K2; by split_and!].
      exists (with_state Running t'). split; [done|]. split; [done|]. split; [cbn; by rewrite K2|]. intros Hj. split_and!; try done.
      destruct Hnext as [(_ & Hr & _)|[-> _]]; [|lia]. rewrite E' in Hr. injection Hr as Hr. rewrite <- K4, Hr. done.
    - destruct Hpost as (_ & _ & _ & _ & Hts). destruct (Hw j t Ht) as (t' & E' & Hk). rewrite Hts, E'. exists t'.
      split; [done|]. pose proof Hk as (K1 & K2 & _). rewrite K2. by split_and!. }
  split; [|split].
  - intros t Ht. destruct (Hslot 0 t Ht) as (t' & ? & ? & _). eauto.
  - intros j t Hj Ht. destruct (Hslot j t Ht) as (t' & ? & _ & _ & Hk). eauto.
  - intros j t' Ht'. pose proof (lookupZ_Some_lt _ _ _ Ht') as Hl. destruct Hwf as [Hw1 _], Hwf' as [Hw2 _].
    destruct (lookupZ_lt (TASKS s) j) as [t Ht]; [lia|]. exists t. split; [done|].
    destruct (Hslot j t Ht) as (t2 & E2 & _ & E3 & _). congruence.
Qed.

(** A change of the current slot to another state in use. *)
Lemma slot_kept_slots i t t' s s' :
  slot_changed i t' s s' -> lookupZ (TASKS s) i = Some t -> slot_kept t t' -> slots_kept s s'.
Proof.
  intros Hch Ht (K1 & K2 & K3 & K4). pose proof (slot_changed_same _ _ _ _ _ Hch Ht) as Hi. split; [|split].
  - intros t0 H0. destruct (decide (0 = i)) as [<-|Hn]; [exists t'; split; [done|congruence]|].
    exists t0. by rewrite (slot_changed_other _ _ _ _ _ Hch) by done.
  - intros j tj Hj Htj. destruct (decide (j = i)) as [->|Hn]; [exists t'; split; [done|]; replace tj with t by congruence; by split_and!|].
    exists tj. rewrite (slot_changed_other _ _ _ _ _ Hch) by done. split; [done|apply slot_kept_refl].
  - intros j tj Htj. destruct (decide (j = i)) as [->|Hn]; [exists t; split; [done|]; replace tj with t' by congruence; by rewrite K2|].
    rewrite (slot_changed_other _ _ _ _ _ Hch) in Htj by done. eauto.
Qed.

Lemma alive_not_unused s t : alive s -> lookupZ (TASKS s) (CURRENT_TASK s) = Some t -> state t <> Unused.
Proof. intros (st & Hst & Hn) Ht. unfold states in Hst. rewrite Ht in Hst. injection Hst as <-. done. Qed.

Lemma yield_kept s s' : alive s -> set_state Ready s = Ret s' -> mach s' = mach s /\ slots_kept s s'.
Proof.
  intros Ha E. apply upd_task_inv in E as (t & Ht & ->). split; [done|]. pose proof (alive_not_unused s t Ha Ht).
  eapply slot_kept_slots; [by split|exact Ht|]. by split_and!.
Qed.
Lemma sleep_kept wake s s' : alive s -> sleep_until wake s = Ret s' -> mach s' = mach s /\ slots_kept s s'.
Proof.
  intros Ha E. destruct (sleep_shape _ _ _ E) as (t & Ht & Hch). pose proof (alive_not_unused s t Ha Ht). split.
  - unfold sleep_until, set_task_wake_tick, set_state in E. apply bind_Ret_inv in E as (s1 & E1 & E2).
    apply upd_task_inv in E1 as (t1 & _ & ->), E2 as (t2 & _ & ->). done.
  - eapply slot_kept_slots; [exact Hch|exact Ht|]. by split_and!.
Qed.

(** *** Writing *)

Definition page_same (f : Z) s s' : Prop := forall x, pg f <= x < pg f + 4096 -> load8 (pmem (mach s')) x = load8 (pmem (mach s)) x.

(** Memory changes outside all tables. *)
Lemma ok_mem lost sps s m :
  system_ok lost sps s ->
  (forall f, f ∈ k_frames K \/ (exists i sp k, sps !! i = Some sp /\ sp_tables sp k = Some f) ->
     page_same f s (with_mach (with_mem m (mach s)) s)) ->
  system_ok lost sps (with_mach (with_mem m (mach s)) s).
Proof.
  intros Hok Hm. pose proof Hok as [? H2 ? ? ? ? ? ? ? ? H7 ? ? ? ?]. split; try done.
  - eapply kernel_view_ext; [exact H2|]. intros f x Hf Hx. apply (Hm f); [by left|done].
  - intros i sp Hsp. destruct (H7 i sp Hsp) as (Hr & Ht & Hsok). split; [done|]. split; [done|].
    apply (placed_same _ _ _ _ _ _ _ Hsok); [done..|]. intros f x [Hf|[k Hf]] Hx; apply (Hm f); [by left|done|right; eauto|done].
Qed.

(** What the current program may write lies in its data frames. *)
Lemma may_write_own lost sps s x :
  system_ok lost sps s -> alive s -> may_write s x -> in_tasks TASKS_ADDR x \/
    exists sp f, sps !! (CURRENT_TASK s) = Some sp /\ f ∈ up_frame <$> sp_pages sp /\ pg f <= x < pg f + 4096.
Proof.
  intros Hok Ha [|(va & tr & Hva & Hw & Hu & <-)]; [by left|right]. destruct (sy_sched _ _ _ Hok) as (Hwf & _ & Hcr).
  destruct Ha as (st & Hst & Hne). destruct Hcr as [Hcr|[? _]]; [|congruence].
  destruct (Z.eq_dec (CURRENT_TASK s) 0) as [E|Hn0].
  { rewrite E, (sy_kernel _ _ _ Hok) in Hcr. injection Hcr as Hcr. rewrite <- Hcr in Hw.
    apply (kernel_walk_user _ K) in Hw; [congruence|apply Hok|lia]. }
  destruct (sps !! (CURRENT_TASK s)) as [sp|] eqn:E.
  - destruct (sy_task _ _ _ Hok _ _ E) as (_ & (t & Ht & _ & [Hr _ _]) & Hsok). unfold root_of in Hcr. rewrite Ht in Hcr.
    injection Hcr as Hcr. rewrite <- Hcr, Hr in Hw. destruct (space_user _ _ _ _ Hsok Hva Hw Hu) as (f & Hf & Hx). eauto.
  - rewrite (sy_free _ _ _ Hok (CURRENT_TASK s)) in Hst; [congruence| |done]. destruct Hwf as [_ Hr]. lia.
Qed.

Lemma write_ok lost sps s m :
  frames_apart -> system_ok lost sps s -> alive s -> (forall x, load8 m x <> load8 (pmem (mach s)) x -> may_write s x) ->
  let s' := with_mach (with_mem m (mach s)) s in
  system_ok lost sps s' /\ forall j sp f, sps !! j = Some sp -> j <> CURRENT_TASK s -> f ∈ sp_frames sp -> page_same f s s'.
Proof.
  intros [_ A2 _ A4] Hok Ha Hm s'.
  assert (Hpage : forall f, f ∈ k_frames K \/ f ∈ F0 ->
    (forall sp, sps !! (CURRENT_TASK s) = Some sp -> f ∉ up_frame <$> sp_pages sp) -> page_same f s s').
  { intros f Hf Hnot x Hx. destruct (Z.eq_dec (load8 m x) (load8 (pmem (mach s)) x)) as [|Hne]; [done|exfalso].
    destruct (may_write_own lost sps s x Hok Ha (Hm x Hne)) as [Hin|(sp & g & Hsp & Hg & Hgx)]; [by apply (A4 f x)|].
    rewrite <- (pages_disjoint _ _ _ Hx Hgx) in Hg. by apply (Hnot sp). }
  assert (Hdata : forall i sp f, sps !! i = Some sp -> f ∈ up_frame <$> sp_pages sp -> f ∈ sp_frames sp).
  { intros i sp f Hsp Hf. apply (sy_task _ _ _ Hok) in Hsp as (_ & _ & Ho). by eapply placed_data. }
  assert (Hkern : forall f, f ∈ k_frames K -> page_same f s s').
  { intros f Hf. apply Hpage; [by left|]. intros sp Hsp Hin. destruct (space_frames lost sps s _ sp f Hok Hsp) as [_ Hn]; [by eapply Hdata|done]. }
  split.
  - apply ok_mem; [done|]. intros f [Hf|(i & sp & k & Hsp & Hk)]; [by apply Hkern|].
    destruct (sy_task _ _ _ Hok i sp Hsp) as (_ & _ & Ho).
    destruct (placed_table_frame _ _ _ _ _ _ f Ho ltac:(eauto)) as [[HfX|HfK] Hnd]; [|by apply Hkern].
    apply Hpage; [right; by eapply space_frames|]. intros sp' Hsp' Hin. destruct (Z.eq_dec i (CURRENT_TASK s)) as [->|Hne].
    + by replace sp' with sp in Hin by congruence.
    + apply (sy_disj _ _ _ Hok i (CURRENT_TASK s) sp sp' Hsp Hsp' Hne f); [done|by eapply Hdata].
  - intros j sp f Hsp Hne Hf. apply Hpage; [right; by eapply space_frames|]. intros sp' Hsp' Hin.
    apply (sy_disj _ _ _ Hok j (CURRENT_TASK s) sp sp' Hsp Hsp' Hne f); [done|by eapply Hdata].
Qed.

(** *** Spawning *)

Lemma no_slot_spawn base code s :
  sched_wf s -> (forall i, 1 <= i < MAX_TASKS -> states s i <> Some Unused) ->
  spawn_userspace_task TASKS_ADDR base code s = Ret (Err "out of task slots"%string, s).
Proof.
  intros Hwf Hno. unfold spawn_userspace_task, has_free_slot.
  destruct (find_unused_spec slots s Hwf slots_range) as [(i & ti & _ & Hi & Hti & Hst)|[-> _]]; [|done].
  exfalso. apply (Hno i); [by apply elem_of_slots|]. unfold states. rewrite Hti. cbn. congruence.
Qed.

Lemma system_loader lost sps s code :
  frames_apart -> system_ok lost sps s -> 0x400000 + lenZ code <= STACK_VADDR -> (exists j, 1 <= j < MAX_TASKS /\ states s j = Some Unused) ->
  space_cost K + 2 * code_pages code <= Z.of_nat (size (fa_free (frames (mach s)))) -> k_shared K ## fa_free (frames (mach s)) ->
  loader_ready TASKS_ADDR K code s.
Proof.
  intros Hap Hok Hc Hj Hsz Hsh. pose proof Hap as [A1 A2 A3 A4]. split; try done.
  - split; [apply Hok|]. split; [apply Hok|]. split; [apply Hok|]. intros f Hf. rewrite (sy_limit _ _ _ Hok).
    destruct (sy_tables _ _ _ Hok f Hf) as [[?|Hs] ?]; split; try done. intros Hin. by apply (Hsh f).
  - by destruct (sy_sched _ _ _ Hok) as [? _].
  - apply Forall_forall. intros t Ht. apply list_elem_of_lookup in Ht as [i Hi]. apply (sy_slots _ _ _ Hok (Z.of_nat i)).
    unfold lookupZ. destruct (Z.ltb_spec (Z.of_nat i) 0); [lia|]. by rewrite Nat2Z.id.
  - intros f x Hf. apply A4. destruct Hf as [|Hf]; [by left|]. by eapply free_frames_apart.
Qed.

Lemma slot_free lost sps s i t : system_ok lost sps s -> 1 <= i < MAX_TASKS -> lookupZ (TASKS s) i = Some t -> state t = Unused -> sps !! i = None.
Proof.
  intros Hok Hi Ht Hu. destruct (sps !! i) as [sp|] eqn:E; [|done]. destruct (sy_task _ _ _ Hok i sp E) as (_ & (t' & Ht' & Hn & _) & _). congruence.
Qed.

(** The other spaces stay as they are when none of their frames is freed and
    their tables keep their contents. *)
Lemma space_kept lost sps s s' j sp :
  system_ok lost sps s -> sps !! j = Some sp -> fa_inv (frames (mach s')) -> fa_limit (frames (mach s')) = L ->
  KERNEL_PML4_PA (mach s') = pg (k_pml4 K) ->
  (forall f, f ∈ sp_frames sp \/ f ∈ k_main K -> f ∉ fa_free (frames (mach s'))) ->
  (forall f, f ∈ sp_frames sp \/ f ∈ k_frames K -> page_same f s s') -> space_ok sp (mach s').
Proof.
  intros Hok Hsp Hi Hl Hr Hf Hm. destruct (sy_task _ _ _ Hok j sp Hsp) as (_ & _ & Hpl).
  apply (placed_mem _ _ _ _ _ _ _ Hpl); [done|by rewrite Hl, (sy_limit _ _ _ Hok)|by rewrite Hr, (sy_root _ _ _ Hok)|done|].
  intros f x Hx Hin. destruct (placed_table_frame _ _ _ _ _ _ f Hpl Hx) as [? _]. by apply (Hm f).
Qed.

(** A table of the first 2 GiB is not one of those above. *)
Lemma main_not_shared lost sps s f : system_ok lost sps s -> f ∈ k_main K -> f ∉ k_shared K.
Proof.
  intros Hok Hf [r Hr]%elem_of_k_shared. unfold k_main in Hf. rewrite !elem_of_union, !elem_of_singleton, elem_of_map_img in Hf.
  assert (Hne : forall k, k <> KShared r -> k_table K k <> Some f).
  { intros k Hk E. apply Hk, (kv_inj _ _ (sy_view _ _ _ Hok) _ _ f); [done|exact Hr]. }
  destruct Hf as [[->| ->]|[j Hj]]; [by apply (Hne KPml4)|by apply (Hne KPdpt)|by apply (Hne (KPd j))].
Qed.
Lemma main_not_free lost sps s f : system_ok lost sps s -> f ∈ k_main K -> f ∉ fa_free (frames (mach s)).
Proof.
  intros Hok Hf. destruct (sy_tables _ _ _ Hok f (k_main_frames _ _ Hf)) as [[?|Hs] _]; [done|]. by destruct (main_not_shared _ _ _ f Hok Hf).
Qed.

(** A new space takes its frames from the free ones. *)
Lemma ok_new_space lost sps s s' i sp t t' :
  frames_apart -> system_ok lost sps s -> alive s -> 1 <= i < MAX_TASKS -> lookupZ (TASKS s) i = Some t -> state t = Unused ->
  slot_changed i t' s s' -> state t' = Ready -> lenZ (user_data_frames t') = MAX_USER_FRAMES -> task_on sp t' -> lenZ (sp_pages sp) <= N + 1 ->
  kernel_ready K (mach s') -> fa_limit (frames (mach s')) = L -> space_ok sp (mach s') -> sp_frames sp ⊆ fa_free (frames (mach s)) ->
  k_shared K ## fa_free (frames (mach s)) -> fa_free (frames (mach s')) = fa_free (frames (mach s)) ∖ sp_frames sp ->
  (forall j sp' f, sps !! j = Some sp' -> f ∈ sp_frames sp' \/ f ∈ k_frames K -> page_same f s s') -> system_ok lost (<[i := sp]> sps) s'.
Proof.
  intros Hap Hok Ha Hi Ht Hu Hch Hr Hlen Hon Hpg Hk HL Hso Hsub Hsh Hfree Hsame. pose proof (slot_free _ _ _ _ _ Hok Hi Ht Hu) as Hn.
  pose proof (slot_changed_same _ _ _ _ _ Hch Ht) as Ht'. destruct Hk as (R1 & R2 & R3 & R4).
  assert (Hused : forall j spj, sps !! j = Some spj -> sp_frames spj ## fa_free (frames (mach s))).
  { intros j spj Hj f Hf. destruct (sy_task _ _ _ Hok j spj Hj) as (_ & _ & Hp). by destruct (pl_held _ _ _ _ _ _ Hp f Hf). }
  split; try done.
  - intros f Hf. rewrite <- HL. destruct (R4 f Hf). auto.
  - left. rewrite Hfree. set_solver.
  - eapply inv_new_slot; try done. apply Hok.
  - intros j tj Hj. destruct (decide (j = i)) as [->|Hne]; [congruence|]. rewrite (slot_changed_other _ _ _ _ _ Hch) in Hj by done. by eapply (sy_slots _ _ _ Hok).
  - unfold root_of. rewrite (slot_changed_other _ _ _ _ _ Hch) by lia. apply Hok.
  - intros j Hj [? ?]%lookup_insert_None. unfold states. rewrite (slot_changed_other _ _ _ _ _ Hch) by congruence. by apply (sy_free _ _ _ Hok).
  - intros j spj [[-> <-]|[Hne Hj]]%lookup_insert_Some; [split; [done|]; split; [|done]; exists t'; split; [done|]; split; [congruence|done]|].
    destruct (sy_task _ _ _ Hok j spj Hj) as (Hr' & (tj & Htj & Hsj & Honj) & Hoj). split; [done|]. split.
    + exists tj. by rewrite (slot_changed_other _ _ _ _ _ Hch) by congruence.
    + apply (space_kept lost sps s s' j spj Hok Hj); [done|done|done| |intros f; by apply (Hsame j spj f Hj)].
      intros f Hf. rewrite Hfree. intros [Hin _]%elem_of_difference. destruct Hf as [Hf|Hf]; [by apply (Hused j spj Hj f)|by apply (main_not_free lost sps s f)].
  - intros j spj [[-> <-]|[Hne Hj]]%lookup_insert_Some; [done|by eapply (sy_pages _ _ _ Hok)].
  - intros a b spa spb [[-> <-]|[Hna Ea]]%lookup_insert_Some [[-> <-]|[Hnb Eb]]%lookup_insert_Some Hab; [done| | |by eapply (sy_disj _ _ _ Hok)].
    + intros f Hf Hf'. apply (Hused b spb Eb f Hf'), Hsub, Hf.
    + intros f Hf Hf'. apply (Hused a spa Ea f Hf), Hsub, Hf'.
  - destruct (sy_lost _ _ _ Hok) as (L1 & L2 & L3 & L4). rewrite Hfree. split; [set_solver|]. split; [done|]. split; [|done].
    intros j spj [[-> <-]|[Hne Hj]]%lookup_insert_Some; [set_solver|by eapply L3].
  - intros g Hg. rewrite (sy_all _ _ _ Hok g Hg), Hfree, elem_of_difference. split.
    + intros [Hin|[Hin|(j & spj & Hj & Hin)]]; [|by auto|].
      * destruct (decide (g ∈ sp_frames sp)); [right; right; exists i, sp; by rewrite lookup_insert_eq|by left].
      * right. right. exists j, spj. rewrite lookup_insert_ne by congruence. done.
    + intros [[Hin _]|[Hin|(j & spj & [[-> <-]|[Hne Hj]]%lookup_insert_Some & Hin)]]; [by left|by auto|left; by apply Hsub|right; right; eauto].
Qed.

Lemma spawn_ok lost sps s base code :
  frames_apart -> system_ok lost sps s -> alive s -> 0 <= base -> base + 120 + lenZ code < two63 ->
  0x400000 + lenZ code <= STACK_VADDR -> code_pages code <= N ->
  space_cost K + 2 * code_pages code <= Z.of_nat (size (fa_free (frames (mach s)))) -> k_shared K ## fa_free (frames (mach s)) ->
  (spawn_userspace_task TASKS_ADDR base code s = Ret (Err "out of task slots"%string, s) /\ forall i, 1 <= i < MAX_TASKS -> is_Some (sps !! i)) \/
  exists i sp s', spawn_userspace_task TASKS_ADDR base code s = Ret (Ok i, s') /\ sps !! i = None /\ system_ok lost (<[i := sp]> sps) s' /\
    CURRENT_TASK s' = CURRENT_TASK s /\ alive s' /\ (forall j sp' f, sps !! j = Some sp' -> f ∈ sp_frames sp' \/ f ∈ k_frames K -> page_same f s s') /\
    k_shared K ## fa_free (frames (mach s')) /\
    Z.of_nat (size (fa_free (frames (mach s)))) - (space_cost K + 2 * code_pages code) <= Z.of_nat (size (fa_free (frames (mach s')))).
Proof.
  intros Hap Hok Ha Hb Hbl Hst0 Hc Hsz Hsh. destruct (sy_sched _ _ _ Hok) as [Hwf _].
  destruct (find_unused_spec slots s Hwf slots_range) as [(j & tj & _ & Hj & Htj & Hstj)|[_ Hno]].
  2: { left. assert (Hno' : forall i, 1 <= i < MAX_TASKS -> states s i <> Some Unused) by (intros i Hi; by apply Hno, elem_of_slots).
       split; [by apply no_slot_spawn|]. intros i Hi. destruct (sps !! i) eqn:E; [eauto|]. by destruct (Hno' i Hi (sy_free _ _ _ Hok i Hi E)). }
  right. apply elem_of_slots in Hj.
  assert (Hlr : loader_ready TASKS_ADDR K code s).
  { eapply system_loader; try done. exists j. split; [done|]. unfold states. rewrite Htj. cbn. congruence. }
  destruct (spawn_task_spec TASKS_ADDR K base code s Hlr Hb Hbl)
    as (i & ti & u & l & t & X & s' & Hs' & Hi & Hti & Hst & Hch & _ & Hpl & Hkr & HXF & Hfree & Hv & _ & _ & Hels & Hcnt & Hlim).
  set (sp := mk_space l t u X).
  assert (Hl : lenZ l <= N + 1).
  { assert (E : length (up_vpn <$> l) = length (seqZ 1024 (code_pages code) ++ [1280])) by (by rewrite Hv).
    rewrite length_fmap, length_app, length_seqZ in E. cbn in E. unfold lenZ. pose proof (lenZ_nonneg code). unfold code_pages in *. dlia. }
  assert (Hsame : forall k sp' f, sps !! k = Some sp' -> f ∈ sp_frames sp' \/ f ∈ k_frames K -> page_same f s s').
  { intros k sp' f Hk Hf x Hx. destruct (sy_task _ _ _ Hok k sp' Hk) as (_ & _ & Hpk). apply Hels.
    - destruct Hap as [_ _ _ A4]. apply (A4 f); [|done]. destruct Hf as [Hf|Hf]; [right; by eapply space_frames|by left].
    - intros g Hg Hgx. rewrite (pages_disjoint _ _ _ Hx Hgx) in Hf. destruct Hf as [Hf|Hf]; [by destruct (pl_held _ _ _ _ _ _ Hpk g Hf)|].
      destruct (sy_tables _ _ _ Hok g Hf) as [[?|Hgs] _]; [done|by apply (Hsh g)]. }
  assert (Hlen : lenZ (user_data_frames ti) = MAX_USER_FRAMES) by (by eapply (sy_slots _ _ _ Hok)).
  destruct (spawned_records TASKS_ADDR i (pg u) l ti Hlen) as [Hcount Hrec].
  exists i, sp, s'. split; [done|]. split; [by eapply slot_free|]. split.
  - eapply (ok_new_space lost sps s s' i sp ti); try done.
    + cbn [spawned user_data_frames with_frames with_state with_sp with_root]. rewrite lenZ_write_at; [done|lia|].
      pose proof (lenZ_nonneg l). unfold lenZ, MAX_USER_FRAMES in *. rewrite length_take, !length_fmap. lia.
    + by rewrite Hlim, (sy_limit _ _ _ Hok).
  - pose proof Hch as (_ & Hcur & _). split; [done|]. split; [|split; [done|split; [rewrite Hfree; set_solver|done]]].
    destruct Ha as (st & Hst' & Hne). exists st. split; [|done].
    rewrite Hcur. unfold states in *. rewrite (slot_changed_other _ _ _ _ _ Hch); [done|]. intros E. rewrite E, Hti in Hst'. cbn in Hst'. congruence.
Qed.

(** *** Exiting *)

(** The pages of a task that its exit does not free. *)
Definition leaked (sp : space) : gset Z := list_to_set (drop 32 (up_frame <$> sp_pages sp)).
Lemma leaked_frames sp ms : space_ok sp ms -> leaked sp ⊆ sp_frames sp.
Proof.
  intros Hok f Hf%elem_of_list_to_set. apply (placed_data _ _ _ _ _ _ _ Hok). rewrite <- (take_drop 32 (up_frame <$> sp_pages sp)). apply elem_of_app. by right.
Qed.
Lemma leaked_none sp : N <= 31 -> lenZ (sp_pages sp) <= N + 1 -> leaked sp = ∅.
Proof. intros HN Hl. unfold leaked. by rewrite drop_ge by (rewrite length_fmap; unfold lenZ in Hl; lia). Qed.

(** The system after the current task has given back its space. *)
Lemma ok_exit lost sps s s' i sp t :
  frames_apart -> system_ok lost sps s -> sps !! i = Some sp -> lookupZ (TASKS s) i = Some t -> i <> 0 ->
  TASKS s' = insertZ i (with_state Unused t) (TASKS s) -> KERNEL_PML4_PA (mach s') = pg (k_pml4 K) -> fa_inv (frames (mach s')) ->
  pmem (mach s') = pmem (mach s) -> fa_limit (frames (mach s')) = fa_limit (frames (mach s)) -> sched_inv s' ->
  fa_free (frames (mach s')) = fa_free (frames (mach s)) ∪ sp_frames sp ∖ leaked sp ∪ k_shared K ->
  system_ok (lost ∪ leaked sp) (delete i sps) s'.
Proof.
  intros Hap Hok Hsp Ht Hn0 Hts Hr1 Hi1 Hm1 Hl1 Hsi Hfree.
  destruct (sy_task _ _ _ Hok i sp Hsp) as (Hi & _ & Hso). destruct (sy_lost _ _ _ Hok) as (L1 & L2 & L3 & L4).
  pose proof (lookupZ_Some_lt _ _ _ Ht) as Hlt. pose proof (leaked_frames sp _ Hso) as Hlk.
  assert (HspK : sp_frames sp ## k_frames K) by (intros f Hf; by destruct (pl_held _ _ _ _ _ _ Hso f Hf) as (_ & ? & _)).
  assert (HspF : sp_frames sp ## fa_free (frames (mach s))) by (intros f Hf; by destruct (pl_held _ _ _ _ _ _ Hso f Hf)).
  assert (Hsub : k_shared K ⊆ k_frames K) by apply k_shared_frames.
  assert (Hoth : forall j, j <> i -> lookupZ (TASKS s') j = lookupZ (TASKS s) j) by (intros j Hj; rewrite Hts; by rewrite lookupZ_insertZ_ne by congruence).
  assert (Hself : lookupZ (TASKS s') i = Some (with_state Unused t)) by (rewrite Hts; by apply lookupZ_insertZ_eq).
  assert (Hold : forall j spj, delete i sps !! j = Some spj -> sps !! j = Some spj /\ j <> i) by (intros j spj [? ?]%lookup_delete_Some; by split).
  assert (HL : fa_limit (frames (mach s')) = L) by (rewrite Hl1; apply Hok).
  split; rewrite ?Hm1; try done; try apply Hok.
  - intros f Hf. destruct (sy_tables _ _ _ Hok f Hf) as [Hc Hrg]. split; [|done]. destruct Hc as [Hc|]; [|by right].
    destruct (decide (f ∈ k_shared K)); [by right|left]. rewrite Hfree. set_solver.
  - right. rewrite Hfree. set_solver.
  - intros j tj Hj. destruct (decide (j = i)) as [->|Hne]; [rewrite Hself in Hj; injection Hj as <-; exact (sy_slots _ _ _ Hok i t Ht)|].
    rewrite Hoth in Hj by done. by eapply (sy_slots _ _ _ Hok).
  - unfold root_of. rewrite Hoth by lia. apply Hok.
  - intros j Hj Hd. unfold states. destruct (decide (j = i)) as [->|Hne]; [by rewrite Hself|]. rewrite Hoth by done. apply (sy_free _ _ _ Hok); [done|].
    rewrite lookup_delete_ne in Hd by congruence. done.
  - intros j spj Hj. destruct (Hold j spj Hj) as [Hj' Hne]. rewrite Hoth by done. destruct (sy_task _ _ _ Hok j spj Hj') as (H1 & H2 & H3).
    split; [done|]. split; [done|]. apply (space_kept lost sps s s' j spj Hok Hj'); [done|done|done| |intros f _ x _; by rewrite Hm1].
    intros f Hf. rewrite Hfree, !elem_of_union, elem_of_difference. intros [[Hin|[Hin _]]|Hin].
    + destruct Hf as [Hf|Hf]; [by destruct (pl_held _ _ _ _ _ _ H3 f Hf)|by apply (main_not_free lost sps s f)].
    + destruct Hf as [Hf|Hf]; [by apply (sy_disj _ _ _ Hok j i spj sp Hj' Hsp Hne f)|]. apply (HspK f Hin). by apply k_main_frames.
    + destruct Hf as [Hf|Hf]; [destruct (pl_held _ _ _ _ _ _ H3 f Hf) as (_ & Hn & _); by apply Hn, Hsub|by apply (main_not_shared lost sps s f)].
  - intros j spj Hj. destruct (Hold j spj Hj) as [Hj' _]. by eapply (sy_pages _ _ _ Hok).
  - intros a b spa spb [Hsa _]%Hold [Hsb _]%Hold. by apply (sy_disj _ _ _ Hok).
  - pose proof (L3 i sp Hsp). rewrite Hfree. split; [set_solver|]. split; [set_solver|]. split.
    + intros j spj [Hj Hne]%Hold. pose proof (L3 j spj Hj). pose proof (sy_disj _ _ _ Hok j i spj sp Hj Hsp Hne). set_solver.
    + intros HN. rewrite (L4 HN), (leaked_none sp HN (sy_pages _ _ _ Hok i sp Hsp)). set_solver.
  - intros g Hg. rewrite (sy_all _ _ _ Hok g Hg), Hfree, !elem_of_union, elem_of_difference. split.
    + intros [Hin|[Hin|(j & spj & Hj & Hin)]]; [by auto|by auto|]. destruct (decide (j = i)) as [->|Hne].
      * replace spj with sp in Hin by congruence. destruct (decide (g ∈ leaked sp)); auto.
      * right. right. exists j, spj. by rewrite lookup_delete_ne by congruence.
    + intros [[[Hin|[Hin _]]|Hin]|[[Hin|Hin]|(j & spj & [Hj _]%Hold & Hin)]]; [by auto|right; right; eauto|done|by auto|right; right; eauto|right; right; eauto].
Qed.

Lemma exit_ok lost sps s r s' :
  frames_apart -> system_ok lost sps s -> alive s -> exit_current_task s = Ret (r, s') ->
  exists lost', system_ok lost' (delete (CURRENT_TASK s) sps) s' /\ pmem (mach s') = pmem (mach s).
Proof.
  intros Hap Hok Ha E. set (i := CURRENT_TASK s) in *. destruct (Z.eq_dec i 0) as [E0|Hn0].
  { unfold exit_current_task in E. fold i in E. rewrite E0 in E. injection E as <- <-. exists lost. rewrite delete_id; [done|].
    destruct (sps !! i) eqn:Ei; [|done]. apply (sy_task _ _ _ Hok) in Ei as [? _]. lia. }
  destruct (sy_sched _ _ _ Hok) as (Hwf & Hrun & Hcr). destruct (sps !! i) as [sp|] eqn:Hsp.
  2: { destruct Ha as (st & Hst & Hne). fold i in Hst. rewrite (sy_free _ _ _ Hok i) in Hst; [congruence| |done]. destruct Hwf as [_ Hr]. unfold i in *. lia. }
  destruct (sy_task _ _ _ Hok i sp Hsp) as (Hi & (t & Ht & Hst & [T1 T2 T3]) & Hso).
  pose proof (sy_kernel _ _ _ Hok) as H5. unfold root_of in H5. destruct (lookupZ (TASKS s) 0) as [t0|] eqn:Ht0; [|done]. injection H5 as Hr0.
  destruct (exit_spec K _ _ _ _ i t t0 s Hso) as (s1 & E1 & Hts & Hcr1 & Hk1 & Hi1 & Hm1 & Hl1 & Hc1 & Hfree); try done.
  { intros H0. destruct Hap as [A1 _ _ _]. apply A1. by eapply space_frames. }
  rewrite E in E1. injection E1 as -> <-. exists (lost ∪ leaked sp). split; [|done].
  eapply ok_exit; try done. eapply inv_exit; [|exact Ha|exact E]. by split_and!.
Qed.

(** *** Any step *)

Lemma step_ok a lost sps s s' :
  frames_apart -> system_ok lost sps s -> system_step a s s' -> exists lost' sps', system_ok lost' sps' s' /\
    forall j sp, sps !! j = Some sp -> a <> Some j -> sps' !! j = Some sp /\ forall f, f ∈ sp_frames sp -> page_same f s s'.
Proof.
  intros Hap Hok Hs. pose proof (sy_sched _ _ _ Hok) as Hsi.
  assert (Hkeep : forall s', system_ok lost sps s' -> mach s' = mach s -> forall j sp, sps !! j = Some sp ->
    sps !! j = Some sp /\ forall f, f ∈ sp_frames sp -> page_same f s s').
  { intros s1 _ Hm j sp Hj. split; [done|]. intros f _ x _. by rewrite Hm. }
  destruct Hs as [sp r s s' E|base code r s s' Hc Ha Hb Hbl Hst Hp Hsz Hsh E|r s s' Ha E|s s' Ha E|wake s s' Ha E|m s Ha Hw].
  - destruct (tick_kept sp r s s' Hsi E) as [Hm Hk]. exists lost, sps.
    assert (Hok' : system_ok lost sps s') by (eapply ok_slots; try done; by eapply inv_tick). split; [done|]. intros j spj Hj _. by apply Hkeep.
  - destruct (spawn_ok lost sps s base code Hap Hok Ha Hb Hbl Hst Hp Hsz Hsh) as [[E' _]|(i & sp & s1 & E' & Hn & Hok' & _ & _ & Hsame & _)];
      rewrite E in E'; injection E' as -> ->; [exists lost, sps; split; [done|]; intros j spj Hj _; by apply Hkeep|].
    exists lost, (<[i := sp]> sps). split; [done|]. intros j spj Hj _. rewrite lookup_insert_ne by congruence. split; [done|]. intros f Hf. apply (Hsame j spj); auto.
  - destruct (exit_ok lost sps s r s' Hap Hok Ha E) as (lost' & Hok' & Hm). exists lost', (delete (CURRENT_TASK s) sps). split; [done|].
    intros j spj Hj Hne. rewrite lookup_delete_ne by congruence. split; [done|]. intros f _ x _. by rewrite Hm.
  - destruct (yield_kept s s' Ha E) as [Hm Hk]. exists lost, sps.
    assert (Hok' : system_ok lost sps s').
    { eapply ok_slots; try done. apply (call_inv TASKS_ADDR s s' Hsi Ha). by constructor. }
    split; [done|]. intros j spj Hj _. by apply Hkeep.
  - destruct (sleep_kept wake s s' Ha E) as [Hm Hk]. exists lost, sps.
    assert (Hok' : system_ok lost sps s').
    { eapply ok_slots; try done. apply (call_inv TASKS_ADDR s s' Hsi Ha). by eapply call_sleep. }
    split; [done|]. intros j spj Hj _. by apply Hkeep.
  - destruct (write_ok lost sps s m Hap Hok Ha Hw) as [Hok' Hsame]. exists lost, sps. split; [done|]. intros j spj Hj Hne.
    split; [done|]. intros f Hf. apply (Hsame j spj f Hj); [congruence|done].
Qed.

(** Runs of steps whose actors satisfy [P]. *)
Definition steps (P : option Z -> Prop) : sys (A:=A) -> sys (A:=A) -> Prop := rtc (fun s s' => exists a, P a /\ system_step a s s').

Lemma steps_ok P lost sps s s' :
  frames_apart -> system_ok lost sps s -> steps P s s' -> exists lost' sps', system_ok lost' sps' s' /\
    forall j sp, sps !! j = Some sp -> (forall a, P a -> a <> Some j) -> sps' !! j = Some sp /\ forall f, f ∈ sp_frames sp -> page_same f s s'.
Proof.
  intros Hap Hok Hr. revert lost sps Hok. induction Hr as [s|s s1 s2 (a & Ha & Hs) _ IH]; intros lost sps Hok.
  { exists lost, sps. split; [done|]. intros j sp Hj _. by split. }
  destruct (step_ok a lost sps s s1 Hap Hok Hs) as (lost1 & sps1 & Hok1 & H1). destruct (IH lost1 sps1 Hok1) as (lost2 & sps2 & Hok2 & H2).
  exists lost2, sps2. split; [done|].
  intros j sp Hj HP. destruct (H1 j sp Hj) as [Hj1 Hf1]; [by apply HP|]. destruct (H2 j sp Hj1 HP) as [Hj2 Hf2]. split; [done|].
  intros f Hf x Hx. rewrite (Hf2 f Hf x Hx). exact (Hf1 f Hf x Hx).
Qed.
End system.

(** ** What the tasks see *)

(** A system before the first program is spawned. *)
Record system_start {A} `{FrameAllocator A} (TASKS_ADDR : Z) (K : kernel_tables) (s : sys (A:=A)) : Prop := {
  ss_ready : kernel_ready K (mach s);
  ss_sched : sched_inv s;
  ss_slots : forall j t, lookupZ (TASKS s) j = Some t -> lenZ (user_data_frames t) = MAX_USER_FRAMES;
  ss_kernel : root_of s 0 = Some (pg (k_pml4 K));
  ss_unused : forall i, 1 <= i < MAX_TASKS -> states s i = Some Unused;
  ss_apart : frames_apart TASKS_ADDR K (fa_free (frames (mach s)));
}.

Lemma start_ok {A} `{FrameAllocator A} TASKS_ADDR K N (s : sys (A:=A)) :
  system_start TASKS_ADDR K s -> system_ok K N (fa_free (frames (mach s))) (fa_limit (frames (mach s))) ∅ ∅ s.
Proof.
  intros [(R1 & R2 & R3 & R4) H2 H3 H4 H5 H6]. split; try done.
  - intros f Hf. destruct (R4 f Hf). auto.
  - left. intros f Hf. by destruct (R4 f (k_shared_frames _ _ Hf)).
  - intros i Hi _. by apply H5.
  - set_solver.
Qed.

(** The translation and the byte that user code of task [j] finds at [va]. *)
Definition user_sees {A} `{FrameAllocator A} (s : sys (A:=A)) (j va : Z) : option (translation * Z) :=
  match root_of s j with
  | Some root =>
      match mmu_walk (pmem (mach s)) root va with
      | Some tr => if t_user tr then Some (tr, load8 (pmem (mach s)) (t_pa tr)) else None
      | None => None
      end
  | None => None
  end.

Section sees.
Context {A : Type} `{FrameAllocator A}.
Variables (TASKS_ADDR : Z) (K : kernel_tables) (N : Z) (F0 : gset Z) (L : Z).
Implicit Types s : sys (A:=A).
Abbreviation system_ok := (system_ok K N F0 L).

(** What user code finds through the tables of a space. *)
Lemma space_sees sp (ms ms' : machine (A:=A)) va :
  space_ok K sp ms -> space_ok K sp ms' ->
  (forall f x, f ∈ sp_frames sp -> pg f <= x < pg f + 4096 -> load8 (pmem ms') x = load8 (pmem ms) x) -> 0 <= va < 2 ^ 48 ->
  match mmu_walk (pmem ms') (pg (sp_root sp)) va with
  | Some tr => if t_user tr then Some (tr, load8 (pmem ms') (t_pa tr)) else None
  | None => None
  end = match mmu_walk (pmem ms) (pg (sp_root sp)) va with
  | Some tr => if t_user tr then Some (tr, load8 (pmem ms) (t_pa tr)) else None
  | None => None
  end.
Proof.
  intros Ho Ho' Hsame Hva. pose proof (fun m (H : space_ok K sp m) => view_walk_high _ _ _ _ (pl_view _ _ _ _ _ _ H) (pl_root _ _ _ _ _ _ H) va) as Hhigh.
  destruct (decide (va < 0x80000000)) as [Hlo|Hhi].
  - assert (Hw : forall m, space_ok K sp m -> mmu_walk (pmem m) (pg (sp_root sp)) va = Some (promised (install (sp_pages sp) ∅) va)).
    { intros m Hm. apply (view_walk _ _ _ _ (pl_view _ _ _ _ _ _ Hm) (pl_root _ _ _ _ _ _ Hm)). lia. }
    pose proof (space_user K sp ms va _ Ho Hva (Hw ms Ho)) as Hus. rewrite (Hw ms' Ho'), (Hw ms Ho).
    destruct (t_user _); [|done]. destruct (Hus eq_refl) as (f & Hf & Hx). do 2 f_equal. apply (Hsame f); [by eapply placed_data|done].
  - destruct (mmu_walk (pmem ms') (pg (sp_root sp)) va) as [tr'|] eqn:E'; [rewrite (Hhigh ms' Ho' tr') by (done || lia)|];
      destruct (mmu_walk (pmem ms) (pg (sp_root sp)) va) as [tr|] eqn:E; try done; rewrite (Hhigh ms Ho tr) by (done || lia); done.
Qed.

Lemma user_sees_eq lost lost' sps sps' s s' j sp va :
  system_ok lost sps s -> system_ok lost' sps' s' -> sps !! j = Some sp -> sps' !! j = Some sp ->
  (forall f, f ∈ sp_frames sp -> page_same f s s') -> 0 <= va < 2 ^ 48 -> user_sees s' j va = user_sees s j va.
Proof.
  intros Hok Hok' Hj Hj' Hsame Hva. unfold user_sees, root_of.
  destruct (sy_task _ _ _ _ _ _ _ Hok j sp Hj) as (_ & (t & -> & _ & [Et _ _]) & Ho).
  destruct (sy_task _ _ _ _ _ _ _ Hok' j sp Hj') as (_ & (t' & -> & _ & [Et' _ _]) & Ho'). cbn [fmap option_fmap option_map]. rewrite Et, Et'.
  apply space_sees; try done. intros f x Hf. by apply Hsame.
Qed.

Lemma live_space lost sps s j :
  system_ok lost sps s -> 1 <= j < MAX_TASKS -> (is_Some (sps !! j) <-> states s j <> Some Unused).
Proof.
  intros Hok Hj. split.
  - intros [sp Hsp]. destruct (sy_task _ _ _ _ _ _ _ Hok j sp Hsp) as (_ & (t & Ht & Hst & _) & _). unfold states. rewrite Ht. cbn. congruence.
  - intros Hst. destruct (sps !! j) eqn:E; [eauto|]. by destruct (Hst (sy_free _ _ _ _ _ _ _ Hok j Hj E)).
Qed.

Lemma size_union_singleton (i : Z) (X : gset Z) : i ∉ X -> size ({[i]} ∪ X) = S (size X).
Proof. intros Hi. rewrite size_union, size_singleton by set_solver. done. Qed.

(** The count of active tasks is that of the spaces. *)
Lemma count_active_spec lost sps s idxs c :
  system_ok lost sps s -> NoDup idxs -> Forall (fun i => 1 <= i < MAX_TASKS) idxs ->
  count_active idxs c s = Ret (c + Z.of_nat (size (dom sps ∩ list_to_set idxs))).
Proof.
  intros Hok Hnd Hr. revert c. induction Hnd as [|i idxs Hi Hnd IH]; intros c; cbn [count_active].
  { rewrite list_to_set_nil, intersection_empty_r_L, size_empty. f_equal. lia. }
  apply Forall_cons in Hr as [Hir Hr]. destruct (sy_sched _ _ _ _ _ _ _ Hok) as [Hwf _].
  destruct (get_task_Ret i s Hwf) as (t & -> & Ht); [unfold MAX_TASKS in *; lia|]. rewrite bind_Ret, IH by done.
  pose proof (live_space lost sps s i Hok Hir) as Hl. unfold states in Hl. rewrite Ht in Hl. cbn in Hl. rewrite list_to_set_cons. unfold is_state. f_equal.
  case_bool_decide as Hu.
  - assert (Hd : i ∉ dom sps) by (intros Hd%elem_of_dom%Hl; congruence). do 3 f_equal. set_solver.
  - assert (Hd : i ∈ dom sps) by (apply elem_of_dom, Hl; congruence).
    assert (E : dom sps ∩ ({[i]} ∪ list_to_set idxs) = {[i]} ∪ (dom sps ∩ list_to_set idxs)) by set_solver.
    assert (Hn : i ∉ dom sps ∩ list_to_set idxs) by (intros [_ Hin%elem_of_list_to_set]%elem_of_intersection; done).
    rewrite E, size_union_singleton by done. lia.
Qed.

Lemma active_task_count_spec lost sps s : system_ok lost sps s -> active_task_count s = Ret (Z.of_nat (size sps)).
Proof.
  intros Hok. unfold active_task_count. rewrite (count_active_spec lost sps s slots 0 Hok).
  - f_equal. rewrite Z.add_0_l, <- (size_dom (D:=gset Z)). do 2 f_equal. apply subseteq_intersection_1_L.
    intros i [sp Hsp]%elem_of_dom. apply elem_of_list_to_set, elem_of_slots. by apply (sy_task _ _ _ _ _ _ _ Hok) in Hsp as [? _].
  - apply NoDup_seqZ.
  - apply Forall_forall. intros i Hi. by apply elem_of_slots.
Qed.

(** With no task left and nothing lost, the free frames are those of the
    start, and the kernel's tables above 2 GiB when an exit has freed them. *)
Lemma idle_free lost sps s :
  system_ok lost sps s -> F0 ## k_frames K -> N <= 31 -> sps = ∅ ->
  fa_free (frames (mach s)) = F0 ∪ k_shared K ∩ fa_free (frames (mach s)).
Proof.
  intros Hok HF HN ->. destruct (sy_lost _ _ _ _ _ _ _ Hok) as (_ & _ & _ & Hl). specialize (Hl HN). subst lost. apply leibniz_equiv. intros g.
  pose proof (k_shared_frames K g) as Hkf. specialize (HF g). rewrite elem_of_union, elem_of_intersection.
  destruct (decide (g ∈ k_shared K)) as [Hg|Hg]; [tauto|]. rewrite (sy_all _ _ _ _ _ _ _ Hok g Hg). split; [tauto|].
  intros [[?|[?|(i & sp & Hi & _)]]|?]; [done|set_solver|by rewrite lookup_empty in Hi|tauto].
Qed.
End sees.



(** ** Filling the task table *)

Section filling.
Context {A : Type} `{FrameAllocator A}.
Variables (TASKS_ADDR : Z) (K : kernel_tables) (N : Z) (F0 : gset Z) (L : Z) (base : Z) (code : list Z).
Hypotheses (Hap : frames_apart TASKS_ADDR K F0) (Hb : 0 <= base) (Hbl : base + 120 + lenZ code < two63) (Hst0 : 0x400000 + lenZ code <= STACK_VADDR)
  (Hp : code_pages code <= N).
Implicit Types s : sys (A:=A).

Definition cost : Z := space_cost K + 2 * code_pages code.
Definition free_slots (sps : gmap Z space) : Z := 255 - Z.of_nat (size sps).

Lemma cost_pos : 4 <= cost.
Proof. unfold cost, space_cost, code_pages. pose proof (lenZ_nonneg code). dlia. Qed.

Lemma size_slots : size (list_to_set slots : gset Z) = 255%nat.
Proof. rewrite size_list_to_set by apply NoDup_seqZ. unfold slots. by rewrite length_seqZ. Qed.

Lemma free_slots_nonneg lost sps s : system_ok K N F0 L lost sps s -> 0 <= free_slots sps.
Proof.
  intros Hok. assert (Hsub : dom sps ⊆ (list_to_set slots : gset Z)).
  { intros i [sp Hsp]%elem_of_dom. apply elem_of_list_to_set, elem_of_slots. by apply (sy_task _ _ _ _ _ _ _ Hok) in Hsp as [? _]. }
  apply subseteq_size in Hsub. rewrite size_slots, (size_dom (D:=gset Z)) in Hsub. unfold free_slots. lia.
Qed.
Lemma full_slots lost sps s : system_ok K N F0 L lost sps s -> (forall i, 1 <= i < MAX_TASKS -> is_Some (sps !! i)) -> free_slots sps = 0.
Proof.
  intros Hok Hall. pose proof (free_slots_nonneg lost sps s Hok). assert (Hsub : (list_to_set slots : gset Z) ⊆ dom sps).
  { intros i Hi%elem_of_list_to_set%elem_of_slots. by apply elem_of_dom, Hall. }
  apply subseteq_size in Hsub. rewrite size_slots, (size_dom (D:=gset Z)) in Hsub. unfold free_slots in *. lia.
Qed.

(** A spawn takes a slot, or there is none. *)
Lemma spawn_slot lost sps s :
  system_ok K N F0 L lost sps s -> CURRENT_TASK s = 0 -> alive s -> cost <= Z.of_nat (size (fa_free (frames (mach s)))) ->
  k_shared K ## fa_free (frames (mach s)) ->
  (spawn_userspace_task TASKS_ADDR base code s = Ret (Err "out of task slots"%string, s) /\ free_slots sps = 0) \/
  exists i sps' s', spawn_userspace_task TASKS_ADDR base code s = Ret (Ok i, s') /\ system_ok K N F0 L lost sps' s' /\ CURRENT_TASK s' = 0 /\ alive s' /\
    free_slots sps' = free_slots sps - 1 /\ system_step TASKS_ADDR K N (Some 0) s s' /\ k_shared K ## fa_free (frames (mach s')) /\
    Z.of_nat (size (fa_free (frames (mach s)))) - cost <= Z.of_nat (size (fa_free (frames (mach s')))).
Proof.
  intros Hok Hc Ha Hsz Hsh. destruct (spawn_ok _ _ _ _ _ lost sps s base code Hap Hok Ha Hb Hbl Hst0 Hp Hsz Hsh)
    as [[E Hall]|(i & sp & s' & E & Hn & Hok' & Hc' & Ha' & _ & Hsh' & Hcnt)]; [left; split; [done|by eapply full_slots]|right].
  exists i, (<[i := sp]> sps), s'. split; [done|]. split; [done|]. split; [congruence|]. split; [done|].
  split; [unfold free_slots; rewrite map_size_insert_None by done; lia|]. split; [by eapply sys_spawn|done].
Qed.

Definition all_steps : sys (A:=A) -> sys (A:=A) -> Prop := steps TASKS_ADDR K N (fun _ => True).
Lemma all_steps_cons a s s1 s2 : system_step TASKS_ADDR K N a s s1 -> all_steps s1 s2 -> all_steps s s2.
Proof. intros H1 H2. eapply rtc_l; [|exact H2]. by exists a. Qed.

Lemma dynamic_spawn_spec n : forall lost sps s ok fail,
  system_ok K N F0 L lost sps s -> CURRENT_TASK s = 0 -> alive s -> k_shared K ## fa_free (frames (mach s)) ->
  cost * (Z.of_nat n + 1) <= Z.of_nat (size (fa_free (frames (mach s)))) ->
  exists s', let k := Z.min (Z.of_nat n) (free_slots sps) in
    dynamic_spawn TASKS_ADDR base n code ok fail s = Ret (ok + k, fail + (Z.of_nat n - k), s') /\ all_steps s s' /\
    exists lost' sps', system_ok K N F0 L lost' sps' s' /\ free_slots sps' = free_slots sps - k.
Proof.
  pose proof cost_pos as Hcp. induction n as [|n IH]; intros lost sps s ok fail Hok Hc Ha Hsh Hsz; pose proof (free_slots_nonneg lost sps s Hok) as Hf0; cbn [dynamic_spawn].
  { exists s. rewrite Z.min_l by lia. split; [do 3 f_equal; lia|]. split; [constructor|]. exists lost, sps. split; [done|lia]. }
  destruct (spawn_slot lost sps s Hok Hc Ha) as [[-> Hfull]|(i & sps1 & s1 & -> & Hok1 & Hc1 & Ha1 & Hf1 & Hst & Hsh1 & Hcnt)]; [nia|done|..]; rewrite bind_Ret; cbv iota beta.
  - destruct (IH lost sps s ok (fail + 1) Hok Hc Ha Hsh) as (s' & -> & Hr & lost' & sps' & Hok' & Hf'); [nia|]. exists s'.
    rewrite Hfull in *. rewrite !Z.min_r in * by lia. split; [do 3 f_equal; lia|]. split; [done|]. exists lost', sps'. split; [done|lia].
  - destruct (IH lost sps1 s1 (ok + 1) fail Hok1 Hc1 Ha1 Hsh1) as (s' & -> & Hr & lost' & sps' & Hok' & Hf'); [nia|]. exists s'. rewrite Hf1 in *.
    pose proof (free_slots_nonneg lost sps1 s1 Hok1). replace (Z.min (Z.of_nat n) (free_slots sps - 1)) with (Z.min (Z.of_nat (S n)) (free_slots sps) - 1) in * by lia.
    split; [do 3 f_equal; lia|]. split; [by eapply all_steps_cons|]. exists lost', sps'. split; [done|lia].
Qed.

Lemma overflow_loop_spec fuel : forall lost sps s c,
  system_ok K N F0 L lost sps s -> CURRENT_TASK s = 0 -> alive s -> k_shared K ## fa_free (frames (mach s)) ->
  cost * (free_slots sps + 1) <= Z.of_nat (size (fa_free (frames (mach s)))) ->
  free_slots sps < Z.of_nat fuel -> c + free_slots sps <= 300 ->
  exists s', overflow_loop TASKS_ADDR base fuel code c s = Ret (c + free_slots sps, Some "out of task slots"%string, s') /\ all_steps s s' /\
    exists lost' sps', system_ok K N F0 L lost' sps' s' /\ free_slots sps' = 0.
Proof.
  pose proof cost_pos as Hcp. induction fuel as [|fuel IH]; intros lost sps s c Hok Hc Ha Hsh Hsz Hfu Hcn; pose proof (free_slots_nonneg lost sps s Hok) as Hf0; [lia|].
  cbn [overflow_loop].
  destruct (spawn_slot lost sps s Hok Hc Ha) as [[-> Hfull]|(i & sps1 & s1 & -> & Hok1 & Hc1 & Ha1 & Hf1 & Hst & Hsh1 & Hcnt)]; [nia|done|..]; rewrite bind_Ret; cbv iota beta.
  - exists s. split; [do 3 f_equal; lia|]. split; [constructor|]. by exists lost, sps.
  - pose proof (free_slots_nonneg lost sps1 s1 Hok1). destruct (Z.ltb_spec 300 (c + 1)); [lia|].
    destruct (IH lost sps1 s1 (c + 1) Hok1 Hc1 Ha1 Hsh1) as (s' & -> & Hr & Hex); [nia|lia|lia|].
    exists s'. split; [do 3 f_equal; lia|]. split; [by eapply all_steps_cons|done].
Qed.
End filling.

(** The loops of the start-up test count exactly.  With frames for all of
    them, and none of the kernel's tables in the pool, spawning [n] programs
    succeeds as often as there are free slots, and the overflow test fills the
    free slots, one program each, and ends with the message of a full table;
    nothing but spawns happens to the system. *)
Theorem spawn_loops_fill {A} `{FrameAllocator A} TASKS_ADDR K N base code n (s0 s : sys (A:=A)) :
  system_start TASKS_ADDR K s0 -> steps TASKS_ADDR K N (fun _ => True) s0 s -> CURRENT_TASK s = 0 -> alive s ->
  k_shared K ## fa_free (frames (mach s)) -> 0 <= base -> base + 120 + lenZ code < two63 -> 0x400000 + lenZ code <= STACK_VADDR -> code_pages code <= N ->
  (space_cost K + 2 * code_pages code) * (Z.of_nat n + 256) <= Z.of_nat (size (fa_free (frames (mach s)))) ->
  exists active, active_task_count s = Ret active /\ 0 <= active <= 255 /\
    (exists s1, let k := Z.min (Z.of_nat n) (255 - active) in
       dynamic_spawn TASKS_ADDR base n code 0 0 s = Ret (k, Z.of_nat n - k, s1) /\
       active_task_count s1 = Ret (active + k) /\ steps TASKS_ADDR K N (fun _ => True) s s1) /\
    exists s2, overflow_test TASKS_ADDR base code s = Ret (255 - active, Some "out of task slots"%string, s2) /\
      active_task_count s2 = Ret 255 /\ steps TASKS_ADDR K N (fun _ => True) s s2.
Proof.
  intros Hs Hr Hc Ha Hsh Hb Hbl Hst0 Hp Hsz. pose proof (ss_apart _ _ _ Hs) as Hap.
  destruct (steps_ok _ _ _ _ _ _ _ _ _ _ Hap (start_ok _ _ _ _ Hs) Hr) as (lost & sps & Hok & _).
  pose proof (free_slots_nonneg _ _ _ _ lost sps s Hok) as Hf. pose proof (cost_pos K code) as Hcp. fold (cost K code) in Hsz. unfold free_slots in Hf.
  exists (Z.of_nat (size sps)). split; [by eapply active_task_count_spec|]. split; [lia|]. split.
  - destruct (dynamic_spawn_spec TASKS_ADDR K N _ _ base code Hap Hb Hbl Hst0 Hp n lost sps s 0 0 Hok Hc Ha Hsh) as (s1 & E & Hr1 & lost1 & sps1 & Hok1 & Hf1); [nia|].
    exists s1. split; [exact E|]. split; [|exact Hr1]. rewrite (active_task_count_spec _ _ _ _ _ _ _ Hok1). f_equal. unfold free_slots in *. lia.
  - destruct (overflow_loop_spec TASKS_ADDR K N _ _ base code Hap Hb Hbl Hst0 Hp 302 lost sps s 0 Hok Hc Ha Hsh) as (s2 & E & Hr2 & lost2 & sps2 & Hok2 & Hf2);
      [unfold free_slots; nia|unfold free_slots; lia|unfold free_slots; lia|].
    exists s2. split; [exact E|]. split; [|exact Hr2]. rewrite (active_task_count_spec _ _ _ _ _ _ _ Hok2). f_equal. unfold free_slots in *. lia.
Qed.

(** ** A system to start with *)

Lemma size_list_to_set_le (l : list Z) : (size (list_to_set l : gset Z) <= length l)%nat.
Proof.
  induction l as [|x l IH]; [done|]. rewrite list_to_set_cons, size_union_alt, size_singleton.
  assert (Hs : list_to_set l ∖ {[x]} ⊆ (list_to_set l : gset Z)) by set_solver. apply subseteq_size in Hs. cbn [length]. lia.
Qed.

Lemma sample_system :
  exists K (s : sys (A:=frame_state)), system_start TASKS_AT K s /\ CURRENT_TASK s = 0 /\ alive s /\ k_shared K <> ∅ /\ space_cost K <= 7 /\
    3000 <= Z.of_nat (size (fa_free (frames (mach s)))).
Proof.
  destruct (first_frames 0x1000000) as (fa & _ & Hwf & _ & Hfree & Hsz); [lia|].
  destruct (paging_init_ready ∅ fa 0 3002) as (K0 & k0 & _ & Hk0 & (u & p & d0 & d1 & EK) & _ & Hfr0 & HK0 & _ & Hsz0); [exact Hwf|lia|change (fa_free fa) with (free_frames fa); dlia|].
  destruct (map_page_uc_spec K0 0xFEE00 k0 Hk0) as (K & X & k & _ & (Hk & Hfr & HX & _) & HX2 & HK & Hc & _ & [q Hq] & _); [lia|lia|].
  assert (Hall : forall f, f ∈ k_frames K \/ f ∈ fa_free (frames k) -> f ∈ free_frames fa).
  { assert (HXf : forall f, f ∈ fa_free (frames k0) -> f ∈ fa_free fa) by (intros f; rewrite Hfr0; by intros [? _]%elem_of_difference).
    intros f [Hf|Hf]; [|rewrite Hfr in Hf; apply elem_of_difference in Hf as [Hf _]; exact (HXf f Hf)].
    apply HK, elem_of_union in Hf as [Hf|Hf]; [exact (HK0 f Hf)|exact (HXf f (HX f Hf))]. }
  set (l := replicate 255 UNUSED_TASK). set (t0 := mk_task 0 Running (KERNEL_PML4_PA k) (replicate 32 0) 0 0 0).
  exists K, (mk_sys k (t0 :: l) 0 0 (mk_stats 0 0 0) (KERNEL_PML4_PA k) 0).
  assert (Hslot : forall j t, lookupZ (t0 :: l) j = Some t -> t = t0 \/ t = UNUSED_TASK).
  { intros j t Ht. unfold lookupZ in Ht. destruct (j <? 0); [done|]. apply list_elem_of_lookup_2, elem_of_cons in Ht as [->|Ht]; [by left|right].
    by apply elem_of_replicate in Ht as [-> _]. }
  split; [|split; [done|split; [|split; [|split]]]].
  - split; cbn [mach TASKS].
    + done.
    + by eapply (kernel_task_inv t0 l).
    + intros j t [->| ->]%Hslot; done.
    + destruct Hk as (_ & _ & E & _). change (Some (KERNEL_PML4_PA k) = Some (pg (k_pml4 K))). by rewrite E.
    + intros i Hi. unfold states, lookupZ, MAX_TASKS in *. cbn [TASKS]. destruct (Z.ltb_spec i 0); [lia|].
      rewrite lookup_cons_ne_0 by lia. unfold l. by rewrite lookup_replicate_2 by lia.
    + split.
      * intros Hin. specialize (Hall 0 (or_intror Hin)). apply Hfree in Hall. lia.
      * intros f Hf. by apply Hk.
      * by split.
      * intros f x Hf Hx [_ Hx2]. apply Hall, Hfree in Hf. unfold pg, TASKS_AT, MAX_TASKS, TASK_SIZE in *. lia.
  - exists Running. split; [done|discriminate].
  - intros E0. assert (Hqs : q ∈ k_shared K) by (apply elem_of_k_shared; eauto). rewrite E0 in Hqs. by apply not_elem_of_empty in Hqs.
  - assert (space_cost K0 = 6) by (by rewrite EK). lia.
  - cbn [mach]. rewrite Hfr, size_difference by done. lia.
Qed.

(** A program is spawned, and a tick comes. *)
Lemma sample_run :
  exists K (s0 s1 s2 : sys (A:=frame_state)) j, system_start TASKS_AT K s0 /\ k_shared K <> ∅ /\
    system_step TASKS_AT K 256 (Some 0) s0 s1 /\ system_step TASKS_AT K 256 None s1 s2 /\
    1 <= j < MAX_TASKS /\ states s1 j <> Some Unused.
Proof.
  destruct sample_system as (K & s0 & Hs & Hc & Ha & Hne & Hcost & Hsz). pose proof (ss_apart _ _ _ Hs) as Hap. pose proof (start_ok _ _ 256 _ Hs) as Hok.
  assert (Hcp : code_pages [0xEB; 0xFE] = 1) by reflexivity.
  assert (Hsh : k_shared K ## fa_free (frames (mach s0))).
  { destruct (ss_ready _ _ _ Hs) as (_ & _ & _ & HK). intros f Hf. by destruct (HK f (k_shared_frames _ _ Hf)). }
  destruct (spawn_ok TASKS_AT K 256 _ _ ∅ ∅ s0 0x200000 [0xEB; 0xFE] Hap Hok Ha) as [[_ Hall]|(j & sp & s1 & E & _ & Hok1 & _)];
    [discriminate|reflexivity|vm_compute; discriminate|vm_compute; discriminate|lia|exact Hsh|..].
  { destruct (Hall 1) as [? Hx]; [by split|]. by rewrite lookup_empty in Hx. }
  destruct (sy_sched _ _ _ _ _ _ _ Hok1) as [Hwf _]. destruct (timer_handler_spec TASKS_AT 0x1000 s1 Hwf) as (r & s2 & E2 & _).
  assert (Hin : <[j := sp]> (∅ : gmap Z space) !! j = Some sp) by apply lookup_insert_eq.
  destruct (sy_task _ _ _ _ _ _ _ Hok1 j sp Hin) as (Hj & _). exists K, s0, s1, s2, j. split; [done|]. split; [done|]. split.
  { apply (sys_spawn _ _ _ 0x200000 [0xEB; 0xFE] (Ok j)); [exact Hc|exact Ha|discriminate|reflexivity|vm_compute; discriminate|vm_compute; discriminate|lia|exact Hsh|exact E]. }
  split; [by eapply sys_tick|]. split; [done|]. apply (live_space _ _ _ _ _ _ _ _ Hok1 Hj). by exists sp.
Qed.

Lemma one_step (P : option Z -> Prop) TASKS_ADDR K N a (s s' : sys (A:=frame_state)) : P a -> system_step TASKS_ADDR K N a s s' -> steps TASKS_ADDR K N P s s'.
Proof. intros HP Hs. apply rtc_once. by exists a. Qed.



Lemma spawn_loops_fill_witness :
  exists s s2 : sys (A:=frame_state), overflow_test TASKS_AT 0x200000 [0xEB; 0xFE] s = Ret (255, Some "out of task slots"%string, s2) /\
    active_task_count s2 = Ret 255.
Proof.
  destruct sample_system as (K & s & Hs & Hc & Ha & _ & Hcost & Hsz). assert (Hcp : code_pages [0xEB; 0xFE] = 1) by reflexivity.
  destruct (spawn_loops_fill TASKS_AT K 256 0x200000 [0xEB; 0xFE] 0 s s Hs (rtc_refl _ s) Hc Ha) as (active & E & _ & _ & (s2 & E2 & Hact & _)).
  - destruct (ss_ready _ _ _ Hs) as (_ & _ & _ & HK). intros f Hf. by destruct (HK f (k_shared_frames _ _ Hf)).
  - discriminate.
  - reflexivity.
  - vm_compute. discriminate.
  - vm_compute. discriminate.
  - rewrite Hcp. nia.
  - rewrite (active_task_count_spec _ 256 _ _ _ _ _ (start_ok _ _ _ _ Hs)) in E. injection E as <-. exists s, s2. split; [exact E2|exact Hact].
Defined.
