(* ===== verification/Keyboard.v ===== *)
(** * The keyboard buffer (src/src/keyboard.rs)

    The bytes of the serial line are queued by the interrupt handler; the shell
    takes them out as characters, an escape sequence as one character of the
    private range.  Characters are their code points. *)

From S2P Require Import Prelude.

(** [KEY_BUFFER]: none before [init_buffer]. *)
Definition key_buffer : Type := option (list Z).
Definition init_buffer (_ : key_buffer) : key_buffer := Some [].
Definition push_key (data : Z) (buf : key_buffer) : key_buffer :=
  match buf with Some b => Some (b ++ [data]) | None => None end.

Definition KEY_TAB : Z := 0x09.
Definition KEY_CTRL_A : Z := 0x01.
Definition KEY_CTRL_B : Z := 0x02.
Definition KEY_CTRL_C : Z := 0x03.
Definition KEY_CTRL_D : Z := 0x04.
Definition KEY_CTRL_E : Z := 0x05.
Definition KEY_CTRL_F : Z := 0x06.
Definition KEY_CTRL_K : Z := 0x0B.
Definition KEY_CTRL_L : Z := 0x0C.
Definition KEY_CTRL_N : Z := 0x0E.
Definition KEY_CTRL_P : Z := 0x10.
Definition KEY_CTRL_U : Z := 0x15.
Definition KEY_CTRL_W : Z := 0x17.
Definition KEY_HOME : Z := 0x1004.
Definition KEY_END : Z := 0x1005.
Definition KEY_DELETE : Z := 0x1006.
Definition KEY_PAGE_UP : Z := 0x1007.
Definition KEY_PAGE_DOWN : Z := 0x1008.

(** The end of [ESC \[ n ~]: a byte is taken when there is one, whatever it is. *)
Definition tilde (key : Z) (b : list Z) : option Z * list Z :=
  match b with
  | c :: b => (if c =? 0x7E then Some key else None, b)
  | [] => (None, [])
  end.

Definition csi_key (c2 : Z) (b : list Z) : option Z * list Z :=
  if c2 =? 0x41 then (Some 0x1000, b)
  else if c2 =? 0x42 then (Some 0x1001, b)
  else if c2 =? 0x43 then (Some 0x1002, b)
  else if c2 =? 0x44 then (Some 0x1003, b)
  else if c2 =? 0x48 then (Some KEY_HOME, b)
  else if c2 =? 0x46 then (Some KEY_END, b)
  else if c2 =? 0x33 then tilde KEY_DELETE b
  else if c2 =? 0x35 then tilde KEY_PAGE_UP b
  else if c2 =? 0x36 then tilde KEY_PAGE_DOWN b
  else (None, b).
Definition ss3_key (c2 : Z) : option Z :=
  if c2 =? 0x50 then Some 0x1010
  else if c2 =? 0x51 then Some 0x1011
  else if c2 =? 0x52 then Some 0x1012
  else if c2 =? 0x53 then Some 0x1013
  else None.
(** The control characters with a key of their own. *)
Definition ctrl_key (data : Z) : option Z :=
  if existsb (Z.eqb data) [KEY_CTRL_A; KEY_CTRL_B; KEY_CTRL_C; KEY_CTRL_D; KEY_CTRL_E; KEY_CTRL_F; KEY_CTRL_K; KEY_CTRL_L;
                           KEY_CTRL_N; KEY_CTRL_P; KEY_CTRL_U; KEY_CTRL_W]
  then Some data else None.
Definition byte_key (data : Z) : option Z :=
  match ctrl_key data with
  | Some k => Some k
  | None =>
      if data =? 0x09 then Some KEY_TAB
      else if (data =? 0x0D) || (data =? 0x0A) then Some 0x0A
      else if (data =? 0x08) || (data =? 0x7F) then Some 0x08
      else if (0x20 <=? data) && (data <=? 0x7E) then Some data
      else None
  end.

Definition try_get_key (buf : key_buffer) : option Z * key_buffer :=
  match buf with
  | Some (data :: b) =>
      if data =? 0x1B then
        match b with
        | c1 :: c2 :: b =>
            if c1 =? 0x5B then let '(k, b) := csi_key c2 b in (k, Some b)
            else if c1 =? 0x4F then (ss3_key c2, Some b)
            else (None, Some b)
        | _ => (None, Some (data :: b))
        end
      else (byte_key data, Some b)
  | _ => (None, buf)
  end.

(** ** What was typed *)

(** A key as a terminal sends it: one byte, or a sequence of three. *)
Inductive key : Type := Plain (b : Z) | Csi (b : Z) | Ss3 (b : Z).
Definition key_bytes (k : key) : list Z :=
  match k with Plain b => [b] | Csi b => [0x1B; 0x5B; b] | Ss3 b => [0x1B; 0x4F; b] end.
Definition typed (ks : list key) : list Z := concat (key_bytes <$> ks).
(** What the key means to the shell; nothing for an unknown one. *)
Definition key_code (k : key) : option Z :=
  match k with Plain b => byte_key b | Csi b => (csi_key b []).1 | Ss3 b => ss3_key b end.
(** Not the escape byte itself, and not the beginning of a longer sequence. *)
Definition whole (k : key) : Prop :=
  match k with Plain b => b <> 0x1B | Csi b => b <> 0x33 /\ b <> 0x35 /\ b <> 0x36 | Ss3 _ => True end.

(** Bytes arrive while the shell polls. *)
Inductive event : Type := Arrives (b : Z) | Poll.
Fixpoint run_keys (evs : list event) (buf : key_buffer) : list Z * key_buffer :=
  match evs with
  | [] => ([], buf)
  | Arrives b :: evs' => run_keys evs' (push_key b buf)
  | Poll :: evs' =>
      let '(k, buf) := try_get_key buf in
      let '(ks, buf) := run_keys evs' buf in
      (option_list k ++ ks, buf)
  end.
Definition arrivals (evs : list event) : list Z := omap (fun ev => match ev with Arrives b => Some b | Poll => None end) evs.

Lemma csi_key_whole b rest : whole (Csi b) -> csi_key b rest = ((csi_key b []).1, rest).
Proof. intros (H1 & H2 & H3). unfold csi_key. repeat (case_match; [done||lia|]); done. Qed.

(** A call takes the first key when all of it is there, and waits otherwise. *)
Lemma poll_spec ks b rest : Forall whole ks -> typed ks = b ++ rest ->
  (exists k ks' b', ks = k :: ks' /\ typed ks' = b' ++ rest /\ try_get_key (Some b) = (key_code k, Some b')) \/
  (try_get_key (Some b) = (None, Some b) /\ (rest = [] -> ks = [])).
Proof.
  intros Hw Ht. destruct ks as [|k ks].
  { assert (b = [] /\ rest = []) as [-> ->] by (by symmetry in Ht; apply app_nil in Ht). by right. }
  apply Forall_cons in Hw as [Hk _]. unfold typed in Ht. rewrite fmap_cons in Ht. cbn [concat] in Ht. fold (typed ks) in Ht.
  destruct k as [c|c|c]; cbn [key_bytes app] in Ht.
  - destruct b as [|x b]; [right; split; [done|]; intros ->; done|]. injection Ht as <- Ht. left. exists (Plain c), ks, b. split; [done|]. split; [done|].
    cbn [try_get_key]. cbn in Hk. destruct (Z.eqb_spec c 0x1B); [done|]. done.
  - destruct b as [|x1 [|x2 [|x3 b]]]; [right; split; [by simplify_eq/=|]; intros ->; by simplify_eq/=..|]. injection Ht as <- <- <- Ht.
    left. exists (Csi c), ks, b. split; [done|]. split; [done|]. cbn [try_get_key]. cbn [Z.eqb Pos.eqb].
    by rewrite csi_key_whole.
  - destruct b as [|x1 [|x2 [|x3 b]]]; [right; split; [by simplify_eq/=|]; intros ->; by simplify_eq/=..|]. injection Ht as <- <- <- Ht.
    left. exists (Ss3 c), ks, b. done.
Qed.

Lemma typed_nil ks : typed ks = [] -> ks = [].
Proof. destruct ks as [|[]]; done. Qed.

Lemma run_keys_polls n ks : Forall whole ks -> (length ks <= n)%nat -> run_keys (replicate n Poll) (Some (typed ks)) = (omap key_code ks, Some []).
Proof.
  revert ks. induction n as [|n IH]; intros ks Hw Hn; [by destruct ks; [|cbn in Hn; lia]|].
  cbn [replicate run_keys]. destruct (poll_spec ks (typed ks) [] Hw) as [(k & ks' & b' & -> & Ht & E)|[E Hks]]; [by rewrite app_nil_r|..].
  - rewrite E. rewrite app_nil_r in Ht. rewrite <- Ht. apply Forall_cons in Hw as [_ Hw]. rewrite IH by (done || cbn in Hn; lia).
    cbn. by destruct (key_code k).
  - rewrite E. rewrite Hks by done. rewrite (IH []); [done|done|cbn; lia].
Qed.

Lemma run_keys_spec n evs ks b : Forall whole ks -> (length ks <= n)%nat -> typed ks = b ++ arrivals evs ->
  run_keys (evs ++ replicate n Poll) (Some b) = (omap key_code ks, Some []).
Proof.
  intros Hw Hn. revert ks b Hw Hn. induction evs as [|[x|] evs IH]; intros ks b Hw Hn Ht; cbn [app run_keys].
  - cbn in Ht. rewrite app_nil_r in Ht. subst b. by apply run_keys_polls.
  - cbn [push_key]. apply IH; [done|done|]. rewrite Ht. cbn. by rewrite <- app_assoc.
  - change (arrivals (Poll :: evs)) with (arrivals evs) in Ht.
    destruct (poll_spec ks b _ Hw Ht) as [(k & ks' & b' & -> & Ht' & ->)|[-> _]].
    + apply Forall_cons in Hw as [_ Hw]. rewrite (IH ks' b') by (done || cbn in Hn; lia). cbn. by destruct (key_code k).
    + by rewrite (IH ks b).
Qed.

(** Whatever the moments at which the bytes of the typed keys arrive and
    the shell polls, the shell gets each key that it knows once and in order,
    and no byte is left in the buffer.  Sequences of four bytes are excluded:
    they may be torn apart. *)
Theorem keyboard_decodes evs ks n :
  Forall whole ks -> arrivals evs = typed ks -> (length ks <= n)%nat ->
  run_keys (evs ++ replicate n Poll) (init_buffer None) = (omap key_code ks, Some []).
Proof. intros Hw Ha Hn. apply run_keys_spec; [done|done|]. by rewrite Ha. Qed.

(** The letter a, the up arrow in three pieces, and return. *)
Lemma keyboard_decodes_witness :
  run_keys [Arrives 0x61; Arrives 0x1B; Poll; Poll; Arrives 0x5B; Poll; Arrives 0x41; Arrives 0x0D; Poll; Poll; Poll; Poll] (init_buffer None) =
  ([0x61; 0x1000; 0x0A], Some []).
Proof.
  apply (keyboard_decodes [Arrives 0x61; Arrives 0x1B; Poll; Poll; Arrives 0x5B; Poll; Arrives 0x41; Arrives 0x0D; Poll]
    [Plain 0x61; Csi 0x41; Plain 0x0D] 3); [|reflexivity|cbn; lia].
  apply Forall_cons; split; [discriminate|]. apply Forall_cons; split; [cbn; lia|]. apply Forall_cons; split; [discriminate|]. apply Forall_nil_2.
Defined.

(** The delete key in two pieces is lost, and a tilde is typed instead. *)
Example delete_torn_apart :
  run_keys [Arrives 0x1B; Arrives 0x5B; Arrives 0x33; Poll; Arrives 0x7E; Poll] (init_buffer None) = ([0x7E], Some []) /\
  run_keys [Arrives 0x1B; Arrives 0x5B; Arrives 0x33; Arrives 0x7E; Poll] (init_buffer None) = ([KEY_DELETE], Some []).
Proof. done. Qed.
