(* ===== verification/Shell.v ===== *)
(** * The interactive shell (src/src/shell.rs)

    [start] polls the keyboard, edits the command line and runs it when return
    is pressed.  The line editor is a function from the keys to what it prints
    and the commands it runs, in order; [process_command] runs one command on
    the kernel state of [Syscall].  Characters are code points, and strings
    that hold only ASCII characters are the lists of them.  The reports of
    other modules ([stats::dump] and the like) appear in the output by name. *)

From S2P Require Import Prelude Mem Usercopy Task Process Ide Fat32 Volume Syscall Keyboard.

(** ** Strings *)

(** [String::remove], [insert_str] and [&s\[i..\]] panic outside the string. *)
Definition string_remove (i : Z) (s : list Z) : outcome (list Z) :=
  if i <? lenZ s then Ret (take (Z.to_nat i) s ++ drop (S (Z.to_nat i)) s) else Panic.
Definition insert_str (i : Z) (cs s : list Z) : outcome (list Z) :=
  if i <=? lenZ s then Ret (take (Z.to_nat i) s ++ cs ++ drop (Z.to_nat i) s) else Panic.
Definition slice_from (i : Z) (s : list Z) : outcome (list Z) :=
  if i <=? lenZ s then Ret (drop (Z.to_nat i) s) else Panic.
Definition truncate (i : Z) (s : list Z) : list Z := take (Z.to_nat i) s.

Definition is_space (c : Z) : bool := (c =? 0x20) || ((0x09 <=? c) && (c <=? 0x0D)).
(** [split_whitespace]: [word] is the word being read. *)
Fixpoint split_words (s word : list Z) : list (list Z) :=
  let emit := match word with [] => [] | _ => [word] end in
  match s with
  | [] => emit
  | c :: s' => if is_space c then emit ++ split_words s' [] else split_words s' (word ++ [c])
  end.
Definition split_whitespace (s : list Z) : list (list Z) := split_words s [].
(** [args.join(" ")]. *)
Fixpoint join (args : list (list Z)) : list Z :=
  match args with
  | [] => []
  | [a] => a
  | a :: args' => a ++ 0x20 :: join args'
  end.

(** ** The line editor *)

Record editor : Type := mk_editor { input : list Z; cursor : Z; history : list (list Z); history_index : Z }.
Definition editor_new : editor := mk_editor [] 0 [] 0.
(** What the editor does: print, and run a command. *)
Inductive action : Type := Printed (cs : list Z) | Command (args : list (list Z)).

Definition BS : Z := 0x08.
Definition times (n c : Z) : list Z := replicate (Z.to_nat n) c.
Definition clear_input (input : list Z) (cursor_pos : Z) : list Z :=
  let remaining := u64 (lenZ input - cursor_pos) in
  let len := lenZ input in
  times remaining 0x1002 ++ if 0 <? len then times len 0x20 ++ times len BS else [].
(** The tail behind the cursor is printed again. *)
Definition redraw (tail : list Z) : list Z :=
  match tail with [] => [] | _ => tail ++ times (lenZ tail) BS end.
Definition PROMPT : list Z := bytes_of "> ".

Definition with_line (s : list Z) (pos : Z) (e : editor) : editor := mk_editor s pos (history e) (history_index e).

Definition insert_chars (cs : list Z) (e : editor) : outcome (editor * list action) :=
  s ← insert_str (cursor e) cs (input e);
  let pos := cursor e + lenZ cs in
  tail ← slice_from pos s;
  Ret (with_line s pos e, [Printed (cs ++ redraw tail)]).

Definition recall (idx : Z) (e : editor) : outcome (editor * list action) :=
  s ← index (history e) idx;
  Ret (mk_editor s (lenZ s) (history e) idx, [Printed (clear_input (input e) (cursor e) ++ s)]).

Definition newline (e : editor) : editor * list action :=
  let '(hist, idx) := match input e with
                      | [] => (history e, history_index e)
                      | _ => (history e ++ [input e], lenZ (history e) + 1)
                      end in
  let args := split_whitespace (input e) in
  (mk_editor [] 0 hist idx,
   [Printed [0x0A]] ++ match args with [] => [] | _ => [Command args] end ++ [Printed PROMPT]).

(** The [match] of [start] on one key. *)
Definition handle_key (c : Z) (e : editor) : outcome (editor * list action) :=
  if c =? BS then
    if 0 <? cursor e then
      let pos := cursor e - 1 in
      s ← string_remove pos (input e);
      tail ← slice_from pos s;
      Ret (with_line s pos e, [Printed ([BS; 0x20; BS] ++ redraw tail)])
    else Ret (e, [])
  else if c =? KEY_DELETE then
    if cursor e <? lenZ (input e) then
      s ← string_remove (cursor e) (input e);
      tail ← slice_from (cursor e) s;
      Ret (with_line s (cursor e) e, [Printed (match tail with [] => [] | _ => tail ++ [0x20] ++ times (lenZ tail + 1) BS end)])
    else Ret (e, [])
  else if c =? 0x1000 then
    if negb (lenZ (history e) =? 0) && (0 <? history_index e) then recall (history_index e - 1) e else Ret (e, [])
  else if c =? 0x1001 then
    if negb (lenZ (history e) =? 0) && (history_index e <? lenZ (history e) - 1) then recall (history_index e + 1) e
    else if history_index e =? Z.max 0 (lenZ (history e) - 1) then
      Ret (with_line [] 0 e, [Printed (clear_input (input e) (cursor e))])
    else Ret (e, [])
  else if c =? 0x1002 then
    if cursor e <? lenZ (input e) then Ret (with_line (input e) (cursor e + 1) e, [Printed [0x1002]]) else Ret (e, [])
  else if c =? 0x1003 then
    if 0 <? cursor e then Ret (with_line (input e) (cursor e - 1) e, [Printed [0x1003]]) else Ret (e, [])
  else if (c =? KEY_HOME) || (c =? KEY_CTRL_A) then Ret (with_line (input e) 0 e, [Printed (times (cursor e) 0x1003)])
  else if (c =? KEY_END) || (c =? KEY_CTRL_E) then
    Ret (with_line (input e) (Z.max (cursor e) (lenZ (input e))) e, [Printed (times (lenZ (input e) - cursor e) 0x1002)])
  else if c =? KEY_CTRL_U then Ret (with_line [] 0 e, [Printed (clear_input (input e) (cursor e))])
  else if c =? KEY_CTRL_K then
    let tail_len := u64 (lenZ (input e) - cursor e) in
    Ret (with_line (truncate (cursor e) (input e)) (cursor e) e, [Printed (if 0 <? tail_len then times tail_len 0x20 ++ times tail_len BS else [])])
  else if c =? KEY_CTRL_C then Ret (with_line [] 0 e, [Printed (bytes_of "^C" ++ [0x0A] ++ PROMPT)])
  else if c =? KEY_CTRL_L then
    Ret (e, [Printed (times 50 0x0A ++ PROMPT ++ input e ++ times (u64 (lenZ (input e) - cursor e)) BS)])
  else if c =? KEY_TAB then insert_chars (bytes_of "    ") e
  else if c =? 0x0A then Ret (newline e)
  else if (0x20 <=? c) && (c <=? 0x7E) then insert_chars [c] e
  else Ret (e, []).

Fixpoint handle_keys (cs : list Z) (e : editor) : outcome (editor * list action) :=
  match cs with
  | [] => Ret (e, [])
  | c :: cs' =>
      x ← handle_key c e;
      let '(e, acts) := x in
      y ← handle_keys cs' e;
      let '(e, acts') := y in
      Ret (e, acts ++ acts')
  end.

(** ** Commands *)

(** Text on the console, and the report of another module. *)
Inductive piece : Type := Text (cs : list Z) | Report (module : string).
Definition line (cs : list Z) : list piece := [Text (cs ++ [0x0A])].
Definition say (s : string) : list piece := line (bytes_of s).

(** Numbers in decimal and in upper-case hexadecimal. *)
Definition digit (d : Z) : Z := if d <? 10 then 0x30 + d else 0x37 + d.
Fixpoint digits (fuel : nat) (base n : Z) : list Z :=
  match fuel with
  | O => []
  | S fuel' => if n <? base then [digit n] else digits fuel' base (n / base) ++ [digit (n mod base)]
  end.
Definition dec (n : Z) : list Z := if n <? 0 then 0x2D :: digits 20 10 (- n) else digits 20 10 n.
Definition hex (n : Z) : list Z := digits 16 16 n.
Definition hex2 (n : Z) : list Z := [digit (n / 16); digit (n mod 16)].

(** [from_str_radix(s, 16)] for an unsigned type: an optional sign, at least one
    digit, and no overflow. *)
Definition hex_digit (c : Z) : option Z :=
  if (0x30 <=? c) && (c <=? 0x39) then Some (c - 0x30)
  else if (0x41 <=? c) && (c <=? 0x46) then Some (c - 0x37)
  else if (0x61 <=? c) && (c <=? 0x66) then Some (c - 0x57)
  else None.
Fixpoint hex_value (limit : Z) (s : list Z) (n : Z) : option Z :=
  match s with
  | [] => Some n
  | c :: s' => d ← hex_digit c; if limit <=? n * 16 + d then None else hex_value limit s' (n * 16 + d)
  end.
Definition from_str_radix16 (limit : Z) (s : list Z) : option Z :=
  match s with
  | [] => None
  | [0x2B] => None
  | 0x2B :: s' => hex_value limit s' 0
  | _ => hex_value limit s 0
  end.
(** [trim_start_matches("0x")]. *)
Fixpoint trim_0x (s : list Z) : list Z := match s with 0x30 :: 0x78 :: s' => trim_0x s' | _ => s end.

Section commands.
Context {D : Type} `{BlockDevice D}.
Variables TASKS_ADDR VERSION_PTR ELF_BASE : Z.
(** The address of [path_buf] on the kernel stack, and the fuel of the two
    directory loops that go round on a circular chain. *)
Variable PATH_BUF : Z.
Variable fuel : nat.

Definition entry_line (e : DirEntry32) : list piece :=
  line (bytes_of "  " ++ e_name e ++ if e_is_dir e then bytes_of "/" else bytes_of " (" ++ dec (e_size e) ++ bytes_of " bytes)").
Definition list_root (error : string) (fs : Fat32Fs) (s : kstate (D:=D)) : outcome (list piece * kstate (D:=D)) :=
  x ← Fat32.readdir fs (root_cluster fs) (FAT32_DISK s);
  let '(r, d) := x in
  Ret (match r with
       | Ok entries => concat (entry_line <$> entries)
       | Err e => line (bytes_of error ++ bytes_of e)
       end, with_disk d s).
Definition find_name (name : list Z) (entries : list DirEntry32) : option DirEntry32 :=
  List.find (fun e => eq_ignore_case (e_name e) name) entries.

Definition create_command (ok err : string) (is_dir : bool) (name : list Z) (fs : Fat32Fs) (s : kstate (D:=D)) : outcome (list piece * kstate (D:=D)) :=
  x ← create_file_entry fuel fs (root_cluster fs) name is_dir (FAT32_DISK s);
  let '(r, d) := x in
  Ret (match r with Ok _ => line (bytes_of ok ++ name) | Err e => line (bytes_of err ++ bytes_of e) end, with_disk d s).

Definition cat_command (name : list Z) (fs : Fat32Fs) (s : kstate (D:=D)) : outcome (list piece * kstate (D:=D)) :=
  x ← Fat32.readdir fs (root_cluster fs) (FAT32_DISK s);
  let '(r, d) := x in
  match r with
  | Err e => Ret (line (bytes_of "cat error: " ++ bytes_of e), with_disk d s)
  | Ok entries =>
      match find_name name entries with
      | None => Ret (line (bytes_of "cat: " ++ name ++ bytes_of ": No such file"), with_disk d s)
      | Some entry =>
          if negb (e_is_dir entry) && (2 <=? e_cluster entry) then
            x ← Fat32.read_file_data fs (e_cluster entry) (e_size entry) (replicate (Z.to_nat 8192) 0) d;
            let '(r, d) := x in
            match r with
            | Err e => Ret (line (bytes_of "cat failed: " ++ bytes_of e), with_disk d s)
            | Ok (n, buf) =>
                bytes ← slice buf 0 n;
                last ← (if 0 <? n then b ← index buf (n - 1); Ret (negb (b =? 0x0A)) else Ret false);
                Ret (Text (utf8_or bytes (bytes_of "<binary>")) :: (if last : bool then line [] else []), with_disk d s)
            end
          else Ret (line (name ++ bytes_of ": is a directory"), with_disk d s)
      end
  end.

Definition rm_command (name : list Z) (fs : Fat32Fs) (s : kstate (D:=D)) : outcome (list piece * kstate (D:=D)) :=
  x ← delete_file_entry fuel fs (root_cluster fs) name (FAT32_DISK s);
  let '(r, d) := x in
  Ret (match r with Ok _ => line (bytes_of "Removed: " ++ name) | Err e => line (bytes_of "rm failed: " ++ bytes_of e) end, with_disk d s).

Definition write_data (done_ : string) (cluster : Z) (name text : list Z) (fs : Fat32Fs) (d : D) (s : kstate (D:=D)) : outcome (list piece * kstate (D:=D)) :=
  x ← Fat32.write_file_data fs cluster 0 text d;
  let '(r, d) := x in
  Ret (match r with
       | Ok n => line (bytes_of done_ ++ dec n ++ bytes_of " bytes to " ++ name)
       | Err e => line (bytes_of "write failed: " ++ bytes_of e)
       end, with_disk d s).
Definition write_command (name text : list Z) (fs : Fat32Fs) (s : kstate (D:=D)) : outcome (list piece * kstate (D:=D)) :=
  x ← Fat32.readdir fs (root_cluster fs) (FAT32_DISK s);
  let '(r, d) := x in
  match (match r with Ok entries => find_name name entries | Err _ => None end) with
  | Some entry => write_data "Wrote " (e_cluster entry) name text fs d s
  | None =>
      x ← create_file_entry fuel fs (root_cluster fs) name false d;
      let '(r, d) := x in
      match r with
      | Ok cluster => write_data "Created and wrote " cluster name text fs d s
      | Err e => Ret (line (bytes_of "write failed: " ++ bytes_of e), with_disk d s)
      end
  end.

(** [arch::syscall::raw_syscall]: the result in [rax], unless the call does not
    come back at once. *)
Definition raw_syscall (num arg0 arg1 arg2 : Z) (s : kstate (D:=D)) : outcome (option Z * kstate (D:=D)) :=
  x ← syscall_entry TASKS_ADDR VERSION_PTR ELF_BASE (mk_regs num arg0 arg1 arg2 []) s;
  let '(r, s) := x in
  Ret (match r with Back r => Some (i64 (rax r)) | _ => None end, s).
Definition run_command (path : list Z) (s : kstate (D:=D)) : outcome (list piece * kstate (D:=D)) :=
  let cl := Z.min (lenZ path) 255 in
  let path_buf := write_at (replicate (Z.to_nat 256) 0) 0 (take (Z.to_nat cl) path) in
  m ← kstore_bytes path_buf (kmem s) (CR3 (k_sys s)) PATH_BUF;
  x ← raw_syscall 13 PATH_BUF 0 0 (with_pmem m s);
  let '(ret, s) := x in
  Ret (match ret with
       | Some ret => if negb (ret =? 0) then line (bytes_of "execve failed: " ++ dec ret) else []
       | None => []
       end, s).

Definition peek_command (addr : list Z) (s : kstate (D:=D)) : outcome (list piece * kstate (D:=D)) :=
  match from_str_radix16 two64 (trim_0x addr) with
  | Some a =>
      val ← kload (kmem s) (CR3 (k_sys s)) a;
      Ret (line (bytes_of "[0x" ++ hex a ++ bytes_of "] = 0x" ++ hex2 val), s)
  | None => Ret (say "Invalid address.", s)
  end.
Definition poke_command (addr val : list Z) (s : kstate (D:=D)) : outcome (list piece * kstate (D:=D)) :=
  match from_str_radix16 two64 (trim_0x addr), from_str_radix16 256 (trim_0x val) with
  | Some a, Some v =>
      m ← kstore (kmem s) (CR3 (k_sys s)) a v;
      Ret (line (bytes_of "Wrote 0x" ++ hex2 v ++ bytes_of " to [0x" ++ hex a ++ bytes_of "]"), with_pmem m s)
  | _, _ => Ret (say "Invalid args.", s)
  end.

(** [args] is not empty.  The report of the message log never ends: it prints
    while it holds the lock that printing takes. *)
Definition process_command (args : list (list Z)) (s : kstate (D:=D)) : outcome (list piece * kstate (D:=D)) :=
  cmd ← index args 0;
  let named (name : string) := bool_decide (cmd = bytes_of name) in
  let report (name : string) : outcome (list piece * kstate (D:=D)) := Ret ([Report name], s) in
  let mounted (none : string) (k : Fat32Fs -> kstate (D:=D) -> outcome (list piece * kstate (D:=D))) :=
    match FAT32_FS s with Some fs => k fs s | None => Ret (say none, s) end in
  if named "help" then
    Ret (say "Available commands:" ++ say "  --- System ---" ++
         say "  help, clear, about, status, uptime, peek, poke, exit, crash" ++ say "  --- Debug ---" ++
         say "  echo, dmesg, stats, meminfo, devices, ps, linux" ++ say "  --- Filesystem ---" ++
         say "  ls, mkdir, touch, cat, rm, write, fat32, run <file.elf>", s)
  else if named "clear" then Ret (concat (replicate 50 (line [])), s)
  else if named "about" then Ret (say "Zohara OS - Built with Rust. Dual-Architecture Kernel.", s)
  else if named "echo" then Ret (line (if 1 <? lenZ args then join (drop 1 args) else []), s)
  else if named "dmesg" then Hang
  else if named "stats" then report "stats"
  else if named "meminfo" then report "memdebug"
  else if named "devices" then report "device"
  else if named "ps" then report "process"
  else if named "linux" then report "linux_compat"
  else if named "uptime" then
    let ms := uptime_ms (k_sys s) in
    Ret (line (bytes_of "Uptime: " ++ dec (ms / 1000) ++ bytes_of "s (" ++ dec ms ++ bytes_of " ms)"), s)
  else if named "status" then Ret (say "OS: Zohara v0.5" ++ say "Arch: x86_64", s)
  else if named "fat32" then
    mounted "FAT32 not mounted" (fun fs s =>
      x ← list_root "readdir error: " fs s;
      Ret (line (bytes_of "FAT32: " ++ dec (total_clusters fs) ++ bytes_of " clusters, root_cl=" ++ dec (root_cluster fs)) ++ x.1, x.2))
  else if named "ls" then mounted "(no filesystem mounted)" (list_root "ls error: ")
  else if named "mkdir" then
    if lenZ args <? 2 then Ret (say "Usage: mkdir <name>", s)
    else mounted "no filesystem mounted" (fun fs s =>
      name ← index args 1; create_command "Created directory: " "mkdir failed: " true name fs s)
  else if named "touch" then
    if lenZ args <? 2 then Ret (say "Usage: touch <name>", s)
    else mounted "no filesystem mounted" (fun fs s =>
      name ← index args 1; create_command "Created file: " "touch failed: " false name fs s)
  else if named "cat" then
    if lenZ args <? 2 then Ret (say "Usage: cat <file>", s)
    else mounted "no filesystem mounted" (fun fs s => name ← index args 1; cat_command name fs s)
  else if named "rm" then
    if lenZ args <? 2 then Ret (say "Usage: rm <file>", s)
    else mounted "no filesystem mounted" (fun fs s => name ← index args 1; rm_command name fs s)
  else if named "write" then
    if lenZ args <? 3 then Ret (say "Usage: write <file> <text>", s)
    else mounted "no filesystem mounted" (fun fs s => name ← index args 1; write_command name (join (drop 2 args)) fs s)
  else if named "run" then
    if lenZ args <? 2 then Ret (say "Usage: run <file.elf>", s) else path ← index args 1; run_command path s
  else if named "peek" then
    if lenZ args =? 2 then addr ← index args 1; peek_command addr s else Ret (say "Usage: peek <hex_address>", s)
  else if named "poke" then
    if lenZ args =? 3 then addr ← index args 1; val ← index args 2; poke_command addr val s
    else Ret (say "Usage: poke <addr> <val>", s)
  else if named "exit" then Halt
  else Ret (line (bytes_of "Unknown command: " ++ cmd), s).

(** ** The loop *)

Record shell : Type := mk_shell { sh_keys : key_buffer; sh_editor : editor; sh_out : list piece; sh_kernel : kstate (D:=D) }.

Fixpoint perform (acts : list action) (out : list piece) (s : kstate (D:=D)) : outcome (list piece * kstate (D:=D)) :=
  match acts with
  | [] => Ret (out, s)
  | Printed cs :: acts' => perform acts' (out ++ [Text cs]) s
  | Command args :: acts' =>
      x ← process_command args s;
      perform acts' (out ++ x.1) x.2
  end.
(** One round; the processor then halts until the next interrupt. *)
Definition shell_iter (x : shell) : outcome shell :=
  match try_get_key (sh_keys x) with
  | (None, keys) => Ret (mk_shell keys (sh_editor x) (sh_out x) (sh_kernel x))
  | (Some c, keys) =>
      y ← handle_key c (sh_editor x);
      let '(e, acts) := y in
      z ← perform acts (sh_out x) (sh_kernel x);
      Ret (mk_shell keys e z.1 z.2)
  end.
(** The greeting of [start]. *)
Definition shell_start (keys : key_buffer) (s : kstate (D:=D)) : shell :=
  mk_shell keys editor_new
    (say "=== Zohara Shell v0.5 ===" ++ say "Type 'help' and press Enter. Use Up/Down arrows for history." ++ [Text PROMPT]) s.
End commands.

(** ** What the shell promises *)

(** The line before and behind the cursor, the lines entered and the one
    recalled last. *)
Record desk : Type := mk_desk { d_left : list Z; d_right : list Z; d_lines : list (list Z); d_at : Z }.
Definition desk_new : desk := mk_desk [] [] [] 0.
Definition set_line (l r : list Z) (d : desk) : desk := mk_desk l r (d_lines d) (d_at d).
Definition fetch (n : Z) (d : desk) : desk := mk_desk (default [] (lookupZ (d_lines d) n)) [] (d_lines d) n.
Definition but_last (l : list Z) : list Z := take (length l - 1) l.

Definition enter (d : desk) : desk * list (list (list Z)) :=
  let text := d_left d ++ d_right d in
  let lines := match text with [] => d_lines d | _ => d_lines d ++ [text] end in
  (mk_desk [] [] lines (match text with [] => d_at d | _ => lenZ lines end),
   match split_whitespace text with [] => [] | args => [args] end).

(** The desk after a key, and the commands to run. *)
Definition press (c : Z) (d : desk) : desk * list (list (list Z)) :=
  let l := d_left d in
  let r := d_right d in
  let n := lenZ (d_lines d) in
  if c =? 0x0A then enter d
  else (
    if c =? BS then set_line (but_last l) r d
    else if c =? KEY_DELETE then set_line l (drop 1 r) d
    else if c =? 0x1000 then if 0 <? d_at d then fetch (d_at d - 1) d else d
    else if c =? 0x1001 then
      if d_at d + 1 <? n then fetch (d_at d + 1) d else if (d_at d + 1 =? n) || (n =? 0) then set_line [] [] d else d
    else if c =? 0x1002 then set_line (l ++ take 1 r) (drop 1 r) d
    else if c =? 0x1003 then set_line (but_last l) (drop (length l - 1) l ++ r) d
    else if (c =? KEY_HOME) || (c =? KEY_CTRL_A) then set_line [] (l ++ r) d
    else if (c =? KEY_END) || (c =? KEY_CTRL_E) then set_line (l ++ r) [] d
    else if (c =? KEY_CTRL_U) || (c =? KEY_CTRL_C) then set_line [] [] d
    else if c =? KEY_CTRL_K then set_line l [] d
    else if c =? KEY_TAB then set_line (l ++ bytes_of "    ") r d
    else if (0x20 <=? c) && (c <=? 0x7E) then set_line (l ++ [c]) r d
    else d, []).
Fixpoint press_all (cs : list Z) (d : desk) : desk * list (list (list Z)) :=
  match cs with
  | [] => (d, [])
  | c :: cs' => let '(d, cmds) := press c d in let '(d, cmds') := press_all cs' d in (d, cmds ++ cmds')
  end.

Record edits (e : editor) (d : desk) : Prop := {
  es_input : input e = d_left d ++ d_right d;
  es_cursor : cursor e = lenZ (d_left d);
  es_history : history e = d_lines d;
  es_index : history_index e = d_at d /\ 0 <= d_at d <= lenZ (d_lines d);
}.
Definition commands (acts : list action) : list (list (list Z)) :=
  omap (fun a => match a with Command args => Some args | Printed _ => None end) acts.

Lemma insert_chars_edits cs e d : edits e d ->
  exists e' acts, insert_chars cs e = Ret (e', acts) /\ edits e' (set_line (d_left d ++ cs) (d_right d) d) /\ commands acts = [].
Proof.
  intros [Hi Hc Hh Hx]. unfold insert_chars, insert_str. rewrite Hi, Hc, lenZ_app. pose proof (lenZ_nonneg (d_right d)). pose proof (lenZ_nonneg cs).
  destruct (Z.leb_spec (lenZ (d_left d)) (lenZ (d_left d) + lenZ (d_right d))); [|lia]. rewrite bind_Ret.
  replace (Z.to_nat (lenZ (d_left d))) with (length (d_left d)) by (unfold lenZ; lia). rewrite take_app_length, drop_app_length.
  unfold slice_from. rewrite !lenZ_app. destruct (Z.leb_spec (lenZ (d_left d) + lenZ cs) (lenZ (d_left d) + (lenZ cs + lenZ (d_right d)))); [|lia].
  rewrite bind_Ret. eexists _, _. split; [reflexivity|]. split; [|done].
  split; cbn; [by rewrite <- app_assoc|by rewrite lenZ_app|done|done].
Qed.
Lemma string_remove_mid l x r : string_remove (lenZ l) (l ++ x :: r) = Ret (l ++ r).
Proof.
  unfold string_remove. rewrite lenZ_app, lenZ_cons. pose proof (lenZ_nonneg r).
  destruct (Z.ltb_spec (lenZ l) (lenZ l + (lenZ r + 1))); [|lia]. replace (Z.to_nat (lenZ l)) with (length l) by (unfold lenZ; lia).
  rewrite take_app_length. f_equal. f_equal. rewrite drop_app_ge by lia. by replace (S (length l) - length l)%nat with 1%nat by lia.
Qed.
Lemma slice_from_mid l r : slice_from (lenZ l) (l ++ r) = Ret r.
Proof.
  unfold slice_from. rewrite lenZ_app. pose proof (lenZ_nonneg r). destruct (Z.leb_spec (lenZ l) (lenZ l + lenZ r)); [|lia].
  replace (Z.to_nat (lenZ l)) with (length l) by (unfold lenZ; lia). by rewrite drop_app_length.
Qed.
Lemma snoc_cases (l : list Z) : l = [] \/ exists l' x, l = l' ++ [x] /\ but_last l = l' /\ drop (length l - 1) l = [x] /\ lenZ l = lenZ l' + 1.
Proof.
  destruct l as [|x l' _] using rev_ind; [by left|]. right. exists l', x. split; [done|]. unfold but_last. rewrite length_app. cbn [length].
  replace (length l' + 1 - 1)%nat with (length l') by lia. rewrite take_app_length, drop_app_length, lenZ_app. done.
Qed.
Lemma recall_edits n e d : edits e d -> 0 <= n < lenZ (d_lines d) ->
  exists e' acts, recall n e = Ret (e', acts) /\ edits e' (fetch n d) /\ commands acts = [].
Proof.
  intros [Hi Hc Hh Hx] Hn. destruct (lookupZ_lt (d_lines d) n Hn) as [s Hs]. unfold recall, index. rewrite Hh, Hs, bind_Ret.
  eexists _, _. split; [reflexivity|]. split; [|done]. unfold fetch. rewrite Hs. split; cbn; [by rewrite app_nil_r|done|done|lia].
Qed.

Lemma newline_edits e d : edits e d -> edits (newline e).1 (enter d).1 /\ commands (newline e).2 = (enter d).2.
Proof.
  intros [Hi Hc Hh [Hx Hr]]. unfold newline, enter. rewrite Hi, Hh, Hx. destruct (d_left d ++ d_right d) as [|a t] eqn:E.
  - split; [|done]. split; done.
  - split; [split; cbn [fst input cursor history history_index d_left d_right d_lines d_at]; [done|done|done|]|].
    + rewrite lenZ_app. change (lenZ [a :: t]) with 1. pose proof (lenZ_nonneg (d_lines d)). lia.
    + cbn [snd commands]. by destruct (split_whitespace (a :: t)).
Qed.

(** A key that only moves or shortens the line. *)
Lemma set_line_edits l r e d : edits e d -> edits (with_line (l ++ r) (lenZ l) e) (set_line l r d).
Proof. intros [Hi Hc Hh Hx]. by split. Qed.
Lemma same_line_edits e d : edits e d -> edits e (set_line (d_left d) (d_right d) d).
Proof. by destruct d. Qed.

(** The keys before the text keys, one by one. *)
Lemma backspace_edits e d : edits e d ->
  exists e' acts, handle_key BS e = Ret (e', acts) /\ edits e' (set_line (but_last (d_left d)) (d_right d) d) /\ commands acts = [].
Proof.
  intros He. pose proof He as [Hi Hc Hh Hx]. unfold handle_key. cbn [Z.eqb BS Pos.eqb]. rewrite Hi, Hc.
  destruct (snoc_cases (d_left d)) as [E|(l & x & E & -> & _ & Hl)].
  - rewrite E. cbn. eexists e, _. split; [reflexivity|]. split; [|done]. unfold but_last. cbn. rewrite <- E. by apply same_line_edits.
  - pose proof (lenZ_nonneg l). rewrite Hl. destruct (Z.ltb_spec 0 (lenZ l + 1)); [|lia]. rewrite Z.add_simpl_r, E, <- app_assoc. cbn [app].
    rewrite string_remove_mid, bind_Ret, slice_from_mid, bind_Ret. eexists _, _. split; [reflexivity|]. split; [|done]. by apply set_line_edits.
Qed.
Lemma delete_edits e d : edits e d ->
  exists e' acts, handle_key KEY_DELETE e = Ret (e', acts) /\ edits e' (set_line (d_left d) (drop 1 (d_right d)) d) /\ commands acts = [].
Proof.
  intros He. pose proof He as [Hi Hc Hh Hx]. unfold handle_key. cbn [Z.eqb BS KEY_DELETE Pos.eqb]. rewrite Hi, Hc, lenZ_app.
  destruct (d_right d) as [|x r] eqn:E.
  - change (lenZ []) with 0. rewrite Z.add_0_r, Z.ltb_irrefl. eexists e, _. split; [reflexivity|]. split; [|done]. cbn. rewrite <- E. by apply same_line_edits.
  - rewrite lenZ_cons. pose proof (lenZ_nonneg r). destruct (Z.ltb_spec (lenZ (d_left d)) (lenZ (d_left d) + (lenZ r + 1))); [|lia].
    rewrite string_remove_mid, bind_Ret, slice_from_mid, bind_Ret. eexists _, _. split; [reflexivity|]. split; [|done]. by apply set_line_edits.
Qed.
Lemma right_edits e d : edits e d ->
  exists e' acts, handle_key 0x1002 e = Ret (e', acts) /\ edits e' (set_line (d_left d ++ take 1 (d_right d)) (drop 1 (d_right d)) d) /\ commands acts = [].
Proof.
  intros He. pose proof He as [Hi Hc Hh Hx]. unfold handle_key. cbn [Z.eqb BS KEY_DELETE Pos.eqb]. rewrite Hi, Hc, lenZ_app.
  destruct (d_right d) as [|x r] eqn:E.
  - change (lenZ []) with 0. rewrite Z.add_0_r, Z.ltb_irrefl. eexists e, _. split; [reflexivity|]. split; [|done]. cbn [take drop]. rewrite app_nil_r.
    rewrite <- E. by apply same_line_edits.
  - rewrite lenZ_cons. pose proof (lenZ_nonneg r). destruct (Z.ltb_spec (lenZ (d_left d)) (lenZ (d_left d) + (lenZ r + 1))); [|lia].
    eexists _, _. split; [reflexivity|]. split; [|done]. cbn [take drop]. rewrite (cons_middle x (d_left d) r), app_assoc.
    change (lenZ (d_left d) + 1) with (lenZ (d_left d) + lenZ [x]). rewrite <- lenZ_app. by apply set_line_edits.
Qed.
Lemma left_edits e d : edits e d ->
  exists e' acts, handle_key 0x1003 e = Ret (e', acts) /\
    edits e' (set_line (but_last (d_left d)) (drop (length (d_left d) - 1) (d_left d) ++ d_right d) d) /\ commands acts = [].
Proof.
  intros He. pose proof He as [Hi Hc Hh Hx]. unfold handle_key. cbn [Z.eqb BS KEY_DELETE Pos.eqb]. rewrite Hi, Hc.
  destruct (snoc_cases (d_left d)) as [E|(l & x & E & -> & -> & Hl)].
  - rewrite E. cbn. eexists e, _. split; [reflexivity|]. split; [|done]. unfold but_last. cbn. rewrite <- E at 1. by apply same_line_edits.
  - pose proof (lenZ_nonneg l). rewrite Hl. destruct (Z.ltb_spec 0 (lenZ l + 1)); [|lia]. rewrite Z.add_simpl_r, E, <- app_assoc.
    eexists _, _. split; [reflexivity|]. split; [|done]. by apply set_line_edits.
Qed.

Lemma up_edits e d : edits e d ->
  exists e' acts, handle_key 0x1000 e = Ret (e', acts) /\ edits e' (if 0 <? d_at d then fetch (d_at d - 1) d else d) /\ commands acts = [].
Proof.
  intros He. pose proof He as [Hi Hc Hh [Hx Hr]]. unfold handle_key. cbn [Z.eqb BS KEY_DELETE Pos.eqb]. rewrite Hh, Hx.
  destruct (Z.ltb_spec 0 (d_at d)); [|rewrite andb_false_r; by exists e, []].
  destruct (Z.eqb_spec (lenZ (d_lines d)) 0); [lia|]. cbn [negb andb]. apply recall_edits; [done|lia].
Qed.
Lemma down_edits e d : edits e d ->
  exists e' acts, handle_key 0x1001 e = Ret (e', acts) /\ commands acts = [] /\
    edits e' (if d_at d + 1 <? lenZ (d_lines d) then fetch (d_at d + 1) d
              else if (d_at d + 1 =? lenZ (d_lines d)) || (lenZ (d_lines d) =? 0) then set_line [] [] d else d).
Proof.
  intros He. pose proof He as [Hi Hc Hh [Hx Hr]]. unfold handle_key. cbn [Z.eqb BS KEY_DELETE Pos.eqb]. rewrite Hh, Hx.
  pose proof (lenZ_nonneg (d_lines d)).
  destruct (Z.ltb_spec (d_at d + 1) (lenZ (d_lines d))).
  - destruct (Z.ltb_spec (d_at d) (lenZ (d_lines d) - 1)); [|lia]. destruct (Z.eqb_spec (lenZ (d_lines d)) 0); [lia|]. cbn [negb andb].
    destruct (recall_edits (d_at d + 1) e d He ltac:(lia)) as (e' & acts & E & HA & HB). by exists e', acts.
  - destruct (Z.ltb_spec (d_at d) (lenZ (d_lines d) - 1)); [lia|]. rewrite andb_false_r.
    replace (d_at d =? Z.max 0 (lenZ (d_lines d) - 1)) with ((d_at d + 1 =? lenZ (d_lines d)) || (lenZ (d_lines d) =? 0)).
    2:{ zcases; lia || done. }
    destruct (_ || _); [|by exists e, []]. eexists _, _. split; [reflexivity|]. split; [done|]. by apply (set_line_edits [] []).
Qed.

(** No key panics, and each does to the line what it should. *)
Lemma handle_key_edits c e d : edits e d ->
  exists e' acts, handle_key c e = Ret (e', acts) /\ edits e' (press c d).1 /\ commands acts = (press c d).2.
Proof.
  intros He. unfold press. destruct (Z.eqb_spec c 0x0A) as [->|H10].
  { destruct (newline_edits e d He) as [H1 H2]. exists (newline e).1, (newline e).2. split; [|done]. change (handle_key 0x0A e) with (Ret (newline e)). by destruct (newline e). }
  destruct (Z.eqb_spec c BS) as [->|]; [exact (backspace_edits e d He)|]. destruct (Z.eqb_spec c KEY_DELETE) as [->|]; [exact (delete_edits e d He)|].
  destruct (Z.eqb_spec c 0x1000) as [->|]; [exact (up_edits e d He)|].
  destruct (Z.eqb_spec c 0x1001) as [->|]; [destruct (down_edits e d He) as (e' & acts & E & H1 & H2); by exists e', acts|].
  destruct (Z.eqb_spec c 0x1002) as [->|]; [exact (right_edits e d He)|]. destruct (Z.eqb_spec c 0x1003) as [->|]; [exact (left_edits e d He)|].
  unfold handle_key. rewrite (proj2 (Z.eqb_neq c 0x0A) H10). repeat (rewrite (proj2 (Z.eqb_neq c _)) by done). pose proof He as [Hi Hc Hh Hx]. rewrite Hi, Hc.
  pose proof (lenZ_nonneg (d_right d)).
  destruct ((c =? KEY_HOME) || (c =? KEY_CTRL_A)); [eexists _, _; split; [reflexivity|]; split; [|done]; by apply (set_line_edits [])|].
  destruct ((c =? KEY_END) || (c =? KEY_CTRL_E)).
  { eexists _, _. split; [reflexivity|]. split; [|done]. rewrite <- (app_nil_r (_ ++ _)) at 1. rewrite Z.max_r by (rewrite lenZ_app; lia).
    by apply set_line_edits. }
  destruct (Z.eqb_spec c KEY_CTRL_U) as [->|]; [eexists _, _; split; [reflexivity|]; split; [|done]; by apply (set_line_edits [] [])|].
  destruct (Z.eqb_spec c KEY_CTRL_C) as [->|]; [eexists _, _; split; [reflexivity|]; split; [|done]; by apply (set_line_edits [] [])|].
  cbn [orb]. destruct (Z.eqb_spec c KEY_CTRL_K) as [->|].
  { eexists _, _. split; [reflexivity|]. split; [|done]. unfold truncate. replace (Z.to_nat (lenZ (d_left d))) with (length (d_left d)) by (unfold lenZ; lia).
    rewrite take_app_length, <- (app_nil_r (d_left d)) at 1. by apply set_line_edits. }
  destruct (Z.eqb_spec c KEY_CTRL_L) as [->|]; [eexists e, _; split; [reflexivity|]; by split|].
  destruct (Z.eqb_spec c KEY_TAB) as [->|]; [exact (insert_chars_edits _ e d He)|].
  destruct ((0x20 <=? c) && (c <=? 0x7E)); [exact (insert_chars_edits _ e d He)|]. by exists e, [].
Qed.
Lemma commands_app a b : commands (a ++ b) = commands a ++ commands b.
Proof. apply omap_app. Qed.
Lemma handle_keys_edits cs e d : edits e d ->
  exists e' acts, handle_keys cs e = Ret (e', acts) /\ edits e' (press_all cs d).1 /\ commands acts = (press_all cs d).2.
Proof.
  revert e d. induction cs as [|c cs IH]; intros e d He; [by exists e, []|]. cbn [handle_keys press_all].
  destruct (handle_key_edits c e d He) as (e1 & a1 & -> & H1 & C1). rewrite bind_Ret. destruct (press c d) as [d1 cmds1]. cbn [fst snd] in *.
  destruct (IH e1 d1 H1) as (e2 & a2 & -> & H2 & C2). rewrite bind_Ret. destruct (press_all cs d1) as [d2 cmds2]. cbn [fst snd] in *.
  exists e2, (a1 ++ a2). split; [done|]. split; [done|]. by rewrite commands_app, C1, C2.
Qed.

(** ** From keys to commands *)

Section typing.
Context {D : Type} `{BlockDevice D}.
Variables TASKS_ADDR VERSION_PTR ELF_BASE PATH_BUF : Z.
Variable fuel : nat.
Local Abbreviation process := (process_command (D:=D) TASKS_ADDR VERSION_PTR ELF_BASE PATH_BUF fuel).
Local Abbreviation perform_acts := (perform (D:=D) TASKS_ADDR VERSION_PTR ELF_BASE PATH_BUF fuel).

(** The bytes that arrive and the rounds of the loop, in any order. *)
Fixpoint run_shell (evs : list event) (x : shell (D:=D)) : outcome shell :=
  match evs with
  | [] => Ret x
  | Arrives b :: evs' => run_shell evs' (mk_shell (push_key b (sh_keys x)) (sh_editor x) (sh_out x) (sh_kernel x))
  | Poll :: evs' => x ← shell_iter TASKS_ADDR VERSION_PTR ELF_BASE PATH_BUF fuel x; run_shell evs' x
  end.
(** The commands one after the other. *)
Fixpoint run_commands (cmds : list (list (list Z))) (s : kstate (D:=D)) : outcome kstate :=
  match cmds with
  | [] => Ret s
  | args :: cmds' => x ← process args s; run_commands cmds' x.2
  end.

Lemma perform_app a b out s : perform_acts (a ++ b) out s = (x ← perform_acts a out s; perform_acts b x.1 x.2).
Proof.
  revert out s. induction a as [|[cs|args] a IH]; intros out s; cbn [app perform]; [done|apply IH|].
  destruct (process args s) as [x| | | |]; [|done..]. rewrite !bind_Ret. apply IH.
Qed.
Lemma perform_commands acts out s s' : run_commands (commands acts) s = Ret s' -> exists out', perform_acts acts out s = Ret (out', s').
Proof.
  revert out s. induction acts as [|[cs|args] acts IH]; intros out s E; cbn [perform].
  - apply Ret_inj in E as <-. by exists out.
  - by apply IH.
  - change (commands (Command args :: acts)) with (args :: commands acts) in E. cbn [run_commands] in E.
    apply bind_Ret_inv in E as (x & Ex & E). rewrite Ex, bind_Ret. by apply IH.
Qed.

(** The loop hands the keys of the buffer to the editor and performs what it
    says. *)
Lemma run_shell_keys evs x e acts out s keys :
  handle_keys (run_keys evs (sh_keys x)).1 (sh_editor x) = Ret (e, acts) ->
  perform_acts acts (sh_out x) (sh_kernel x) = Ret (out, s) -> keys = (run_keys evs (sh_keys x)).2 ->
  run_shell evs x = Ret (mk_shell keys e out s).
Proof.
  revert x acts. induction evs as [|[b|] evs IH]; intros x acts E1 E2 ->.
  - cbn in E1. apply Ret_inj in E1 as [= <- <-]. apply Ret_inj in E2 as [= <- <-]. by destruct x.
  - cbn [run_shell]. by apply (IH (mk_shell _ _ _ _) acts).
  - cbn [run_shell run_keys] in *. unfold shell_iter. destruct (try_get_key (sh_keys x)) as [k keys].
    destruct (run_keys evs keys) as [ks buf] eqn:Er. cbn [fst snd] in *. destruct k as [c|].
    + cbn [option_list app handle_keys] in E1. apply bind_Ret_inv in E1 as ([e1 a1] & Eh & E1). apply bind_Ret_inv in E1 as ([e2 a2] & Ehs & E1).
      apply Ret_inj in E1 as [= -> <-]. rewrite perform_app in E2. apply bind_Ret_inv in E2 as ([o1 s1] & Ep & E2).
      rewrite Eh, bind_Ret. cbn iota beta. rewrite Ep, !bind_Ret. apply (IH (mk_shell keys e1 o1 s1) a2); cbn [sh_keys sh_editor sh_out sh_kernel]; by rewrite ?Er.
    + rewrite bind_Ret. apply (IH (mk_shell keys _ _ _) acts); cbn [sh_keys sh_editor sh_out sh_kernel]; by rewrite ?Er.
Qed.

End typing.

(** Sent as [eho], an arrow to the left, [c], an arrow to the right, the rest
    and return. *)
Definition echo_keys : list key := [Plain 0x65; Plain 0x68; Plain 0x6F; Csi 0x44; Csi 0x44; Plain 0x63; Csi 0x46; Plain 0x20; Plain 0x68; Plain 0x69; Plain 0x0D].

Lemma process_write f name text fs (s : kstate) : FAT32_FS s = Some fs ->
  process_command 0 0 0 0 f [bytes_of "write"; name; text] s = write_command f name text fs s.
Proof. intros E. unfold process_command. change (index _ 0) with (Ret (bytes_of "write")). rewrite bind_Ret, E. reflexivity. Qed.
Lemma process_cat f name fs (s : kstate) : FAT32_FS s = Some fs -> process_command 0 0 0 0 f [bytes_of "cat"; name] s = cat_command name fs s.
Proof. intros E. unfold process_command. change (index _ 0) with (Ret (bytes_of "cat")). rewrite bind_Ret, E. reflexivity. Qed.

(** [write] of a new file stores the text in its cluster but leaves the size in
    the directory at zero, so [cat] of the file prints nothing. *)
Theorem shell_write_cat_prints_nothing (s : kstate) :
  FAT32_FS s = Some mini_fs -> FAT32_DISK s = mini_disk ->
  exists s1 s2, process_command 0 0 0 0 4 [bytes_of "write"; bytes_of "N"; bytes_of "hi"] s = Ret (say "Created and wrote 2 bytes to N", s1) /\
    process_command 0 0 0 0 4 [bytes_of "cat"; bytes_of "N"] s1 = Ret ([Text []], s2).
Proof.
  intros Hfs Hd.
  assert (E : match write_command 4 (bytes_of "N") (bytes_of "hi") mini_fs s with
              | Ret (o, s1) => o = say "Created and wrote 2 bytes to N" /\ FAT32_FS s1 = FAT32_FS s /\
                  match cat_command (bytes_of "N") mini_fs s1 with Ret (o2, _) => o2 = [Text []] | _ => False end
              | _ => False end).
  { destruct s as [sys serial stats fs d vfs fds]. cbn [FAT32_FS FAT32_DISK] in *. subst fs d. vm_compute. repeat split. }
  rewrite (process_write 4 _ _ mini_fs s Hfs).
  destruct (write_command 4 (bytes_of "N") (bytes_of "hi") mini_fs s) as [[o s1]| | | |]; [|destruct E..].
  destruct E as (-> & Hfs1 & E). destruct (cat_command (bytes_of "N") mini_fs s1) as [[o2 s2]| | | |] eqn:E2; [|destruct E..].
  exists s1, s2. split; [reflexivity|]. rewrite (process_cat 4 _ mini_fs s1) by (rewrite Hfs1; exact Hfs). rewrite E2, E. reflexivity.
Qed.
