(* ===== verification/Diagnostics.v ===== *)
(** * Logging and diagnostics (logging.rs, panic.rs, memdebug.rs)

    The leveled log on top of the print path, the back trace of the panic
    screen through the kernel's page tables, and the frame counts of the memory
    report. *)

From S2P Require Import Prelude Bytes Mem Frame Paging AddressSpace Usercopy E820 Rings Framebuffer Console Shell.

(** ** Log levels (logging.rs) *)

Inductive Level : Type := Trace | Debug | Info | Warn | Error | Fatal.
Definition level_num (l : Level) : Z :=
  match l with Trace => 0 | Debug => 1 | Info => 2 | Warn => 3 | Error => 4 | Fatal => 5 end.
Definition as_str (l : Level) : list Z :=
  bytes_of match l with
    Trace => "TRACE" | Debug => "DEBUG" | Info => "INFO " | Warn => "WARN " | Error => "ERROR" | Fatal => "FATAL" end.
(** That of the release build. *)
Definition MAX_LEVEL : Level := Warn.

(** The formats [{:>8}] and [{:>2}] of a number. *)
Definition pad_left (width : nat) (s : list Z) : list Z := replicate (width - length s) 0x20 ++ s.
(** The pieces of the prefix of a line. *)
Definition log_prefix (tick pid : Z) (level : Level) (subsystem : list Z) : list (list Z) :=
  [bytes_of "["; pad_left 8 (Shell.dec tick); bytes_of "][T"; pad_left 2 (Shell.dec pid); bytes_of "]["; as_str level;
   bytes_of "]["; subsystem; bytes_of "] "].

(** [args] are the pieces of the message. *)
Definition log (cr3 tick pid : Z) (level : Level) (subsystem : list Z) (args : list (list Z)) (k : console) : outcome console :=
  if level_num level <? level_num MAX_LEVEL then Ret k
  else
    k ← _print cr3 (log_prefix tick pid level subsystem) k;
    k ← _print cr3 args k;
    _print cr3 [[10]] k.

(** ** The back trace (panic.rs) *)

(** The return addresses printed, from the frame at [rbp]; [max_frames] bounds
    the loop. *)
Fixpoint dump_stack_trace (max_frames : nat) (count : Z) (m : memory) (cr3 rbp : Z) : outcome (list Z) :=
  match max_frames with
  | O => Ret []
  | S max_frames' =>
      if rbp =? 0 then Ret [] else
      ret ← kle 8 m cr3 (rbp + 8);
      if ret =? 0 then Ret [] else
      next ← kle 8 m cr3 rbp;
      let rbp := next in
      let count := count + 1 in
      if (next <=? rbp) && (1 <? count) then Ret [ret]
      else
        rest ← dump_stack_trace max_frames' count m cr3 rbp;
        Ret (ret :: rest)
  end.

(** ** The memory report (memdebug.rs) *)

Record MemStats : Type := mk_mem_stats { total_frames : Z; ms_free_frames : Z; used_frames : Z; alloc_count : Z; free_count : Z }.
(** The fields that are constants in the source are left out. *)
Definition MemStats_new (allocs frees : Z) (fa : frame_state) : outcome MemStats :=
  let total := total_ram fa / FRAME_SIZE in
  free ← free_frame_count fa;
  Ret (mk_mem_stats total free (u64 (total - free)) allocs frees).

(** ** Properties *)

Lemma digit_byte d : 0 <= d < 16 -> byte (digit d).
Proof. intros Hd. unfold digit, byte. destruct (Z.ltb_spec d 10); lia. Qed.
Lemma digits_bytes fuel n : 0 <= n -> Forall byte (digits fuel 10 n).
Proof.
  revert n. induction fuel as [|fuel IH]; intros n Hn; [constructor|]. cbn [digits]. destruct (Z.ltb_spec n 10).
  - constructor; [apply digit_byte; lia|constructor].
  - apply Forall_app. split; [apply IH; dlia|constructor; [apply digit_byte; dlia|constructor]].
Qed.
Lemma pad_left_bytes w n : 0 <= n -> Forall byte (pad_left w (Shell.dec n)).
Proof.
  intros Hn. apply Forall_app. split; [apply Forall_replicate; unfold byte; lia|]. unfold Shell.dec.
  destruct (Z.ltb_spec n 0); [lia|]. by apply digits_bytes.
Qed.
Lemma log_prefix_bytes tick pid level subsystem :
  0 <= tick -> 0 <= pid -> Forall byte subsystem -> Forall byte (concat (log_prefix tick pid level subsystem)).
Proof.
  intros Ht Hp Hs. apply Forall_concat. repeat (apply Forall_cons; split); [..|apply Forall_nil; done];
    try (by apply pad_left_bytes); try done; try (apply forallb_byte; reflexivity).
  apply forallb_byte. by destruct level.
Qed.

(** A message of the log is printed as one line exactly from level [Warn] on:
    below it nothing happens, and from it on the log and the serial line get
    the prefix, the message and a line end, in this order. *)
Theorem log_lines cr3 tick pid level subsystem args k hist tv tf :
  0 <= tick -> 0 <= pid -> Forall byte subsystem -> Forall byte (concat args) -> console_ok cr3 k hist tv tf ->
  exists k' tv' tf', log cr3 tick pid level subsystem args k = Ret k' /\
    let line := if level_num level <? 3 then [] else concat (log_prefix tick pid level subsystem) ++ concat args ++ [10] in
    Dmesg.serial (con_log k') = Dmesg.serial (con_log k) ++ line /\ console_ok cr3 k' (hist ++ line) tv' tf'.
Proof.
  intros Ht Hp Hs Ha Hk. unfold log. change (level_num MAX_LEVEL) with 3. destruct (level_num level <? 3).
  { exists k, tv, tf. cbn zeta. rewrite !app_nil_r. done. }
  destruct (print_spec cr3 _ k hist tv tf (log_prefix_bytes tick pid level subsystem Ht Hp Hs) Hk) as (k1 & -> & S1 & _ & K1). rewrite bind_Ret.
  destruct (print_spec cr3 args k1 _ _ _ Ha K1) as (k2 & -> & S2 & _ & K2). rewrite bind_Ret.
  destruct (print_spec cr3 [[10]] k2 _ _ _ ltac:(apply forallb_byte; reflexivity) K2) as (k3 & -> & S3 & _ & K3).
  eexists k3, _, _. split; [reflexivity|]. cbn zeta. change (concat [[10]]) with [10] in *. rewrite !app_assoc. split; [by rewrite S3, S2, S1|exact K3].
Qed.

Lemma log_lines_witness :
  exists cr3 k k1 k2, log cr3 120 1 Info (bytes_of "vfs") [bytes_of "up"] k = Ret k1 /\ Dmesg.serial (con_log k1) = [] /\
    log cr3 120 1 Error (bytes_of "vfs") [bytes_of "up"] k = Ret k2 /\
    Dmesg.serial (con_log k2) = bytes_of "[     120][T 1][ERROR][vfs] up" ++ [10].
Proof.
  destruct sample_console as (cr3 & k & Hk & _ & Hs & _).
  assert (Hp : Forall byte (bytes_of "vfs")) by (apply forallb_byte; reflexivity).
  assert (Ha : Forall byte (concat [bytes_of "up"])) by (apply forallb_byte; reflexivity).
  destruct (log_lines cr3 120 1 Info _ _ k _ _ _ ltac:(lia) ltac:(lia) Hp Ha Hk) as (k1 & tv1 & tf1 & E1 & S1 & _).
  destruct (log_lines cr3 120 1 Error _ _ k _ _ _ ltac:(lia) ltac:(lia) Hp Ha Hk) as (k2 & tv2 & tf2 & E2 & S2 & _).
  exists cr3, k, k1, k2. split; [exact E1|]. split; [rewrite S1, Hs; reflexivity|]. split; [exact E2|]. rewrite S2, Hs. reflexivity.
Defined.

(** Of every chain of two frames or more the back trace shows exactly the
    first two.  The comparison that should notice a frame pointer that does not
    advance compares the new pointer with itself, so that the loop is left
    after the second frame. *)
Theorem stack_trace_stops max_frames m cr3 rbp n1 n2 r1 r2 :
  (2 <= max_frames)%nat -> rbp <> 0 -> n1 <> 0 -> r1 <> 0 -> r2 <> 0 ->
  kle 8 m cr3 rbp = Ret n1 -> kle 8 m cr3 (rbp + 8) = Ret r1 -> kle 8 m cr3 n1 = Ret n2 -> kle 8 m cr3 (n1 + 8) = Ret r2 ->
  dump_stack_trace max_frames 0 m cr3 rbp = Ret [r1; r2].
Proof.
  intros Hm Hr Hn Hr1 Hr2 E1 E2 E3 E4. destruct max_frames as [|[|mf]]; [lia|lia|]. cbn [dump_stack_trace].
  rewrite (proj2 (Z.eqb_neq rbp 0) Hr), E2, bind_Ret, (proj2 (Z.eqb_neq r1 0) Hr1), E1, bind_Ret, andb_false_r.
  rewrite (proj2 (Z.eqb_neq n1 0) Hn), E4, bind_Ret, (proj2 (Z.eqb_neq r2 0) Hr2), E3, bind_Ret, Z.leb_refl.
  reflexivity.
Qed.

(** A chain of three frames at 0xE0000. *)
Definition frame_chain : list Z := concat (to_le 8 <$> [0xE0010; 1; 0xE0020; 2; 0; 3]).
Lemma stack_trace_stops_witness : exists m cr3, dump_stack_trace 16 0 m cr3 0xE0000 = Ret [1; 2].
Proof.
  destruct (booted_with frame_chain) as (K & s & Hk & _ & Hlow); [vm_compute; discriminate|].
  assert (Hr : forall a, 0 <= a < 0xFFFF0 -> kle 8 (pmem s) (KERNEL_PML4_PA s) a = Ret (load_le 8 (store_bytes ∅ 0xE0000 frame_chain) a)).
  { intros a Ha. rewrite kle_identity by (apply (kernel_identity K); [exact Hk|lia|lia]). f_equal. apply load_le_ext.
    intros x Hx. apply Hlow. lia. }
  exists (pmem s), (KERNEL_PML4_PA s).
  apply (stack_trace_stops 16 (pmem s) (KERNEL_PML4_PA s) 0xE0000 0xE0010 0xE0020 1 2); [lia|lia|lia|lia|lia|..];
    rewrite Hr by lia; vm_compute; reflexivity.
Defined.

(** The report of the memory adds up: as long as the allocator manages no
    more frames than the memory has, used and free frames are the frames of
    the memory, without wrap-around. *)
Theorem mem_stats_add_up allocs frees fa :
  frame_wf fa -> ACTUAL_FRAME_COUNT fa <= TOTAL_RAM fa / FRAME_SIZE -> TOTAL_RAM fa < two64 ->
  exists st, MemStats_new allocs frees fa = Ret st /\ ms_free_frames st = Z.of_nat (size (free_frames fa)) /\
    0 <= used_frames st /\ used_frames st + ms_free_frames st = TOTAL_RAM fa / FRAME_SIZE.
Proof.
  intros Hwf Hc Hr. unfold MemStats_new. rewrite (free_frame_count_spec fa Hwf), bind_Ret. eexists. split; [reflexivity|]. cbn [ms_free_frames used_frames].
  split; [done|]. unfold total_ram.
  assert (Hle : Z.of_nat (size (free_frames fa)) <= ACTUAL_FRAME_COUNT fa).
  { assert (Hsub : free_frames fa ⊆ list_to_set (seqZ 0 (ACTUAL_FRAME_COUNT fa))).
    { intros f Hf. apply elem_of_list_to_set, elem_of_seqZ. pose proof (fa_free_range (A:=frame_state) f fa Hwf Hf) as Hb. change (fa_limit fa) with (ACTUAL_FRAME_COUNT fa) in Hb. lia. }
    apply subseteq_size in Hsub. rewrite size_list_to_set, length_seqZ in Hsub by apply NoDup_seqZ. pose proof (wf_count fa Hwf). lia. }
  assert (Hd : TOTAL_RAM fa / FRAME_SIZE <= TOTAL_RAM fa) by (pose proof (wf_ram fa Hwf); apply Z.div_le_upper_bound; unfold FRAME_SIZE; lia).
  rewrite u64_small by lia. lia.
Qed.

Lemma mem_stats_add_up_witness :
  exists st, MemStats_new 7 3 machine_100 = Ret st /\ used_frames st + ms_free_frames st = 100.
Proof.
  destruct (mem_stats_add_up 7 3 machine_100 machine_100_wf) as (st & E & _ & _ & Hs); [vm_compute; discriminate|vm_compute; reflexivity|].
  exists st. split; [exact E|]. rewrite Hs. vm_compute. reflexivity.
Defined.
