(* ===== verification/Traps.v ===== *)
(** * Interrupts and faults (src/src/interrupts.rs, src/src/arch/x86_64/page_fault.rs)

    The interrupt descriptor table that [kernel_main] sets up, what the
    processor does with it when an exception or an interrupt occurs, and the
    handlers: the serial line, page faults and protection faults.  The
    addresses of the handlers are given by the linker.  Messages are left out;
    the memory that the diagnostics read is read. *)

From S2P Require Import Prelude Bytes Mem Frame Paging AddressSpace Usercopy Task E820 Keyboard.

(** ** The descriptor table *)

Record IdtEntry : Type := mk_gate {
  offset_low : Z; selector : Z; ist : Z; attributes : Z; offset_mid : Z; offset_high : Z; gate_zero : Z;
}.
Definition blank_entry : IdtEntry := mk_gate 0 0 0 0 0 0 0.
Definition IDT_new : list IdtEntry := replicate 256 blank_entry.
(** The entry for a handler. *)
Definition gate_for (addr attr : Z) : IdtEntry :=
  mk_gate (Z.land addr 0xFFFF) 0x08 0 attr (Z.land (Z.shiftr addr 16) 0xFFFF) (Z.land (Z.shiftr addr 32) 0xFFFFFFFF) 0.

Definition set_handler (idx handler : Z) (IDT : list IdtEntry) : outcome (list IdtEntry) := assign IDT idx (gate_for handler 0x8E).
Definition set_handler_with_error_code (idx handler : Z) (IDT : list IdtEntry) : outcome (list IdtEntry) := assign IDT idx (gate_for handler 0x8E).
Definition set_syscall_handler (stub_addr : Z) (IDT : list IdtEntry) : outcome (list IdtEntry) := assign IDT 0x80 (gate_for stub_addr 0xEE).

(** Bytes written to I/O ports, in order. *)
Definition ports : Type := list (Z * Z).
Definition remap_pic : ports :=
  [(0x20, 0x11); (0xA0, 0x11); (0x21, 0x20); (0xA1, 0x28); (0x21, 0x04); (0xA1, 0x02); (0x21, 0x01); (0xA1, 0x01); (0x21, 0xEC); (0xA1, 0xFF)].
Definition init_timer : ports := let divisor := 11932 in [(0x43, 0x36); (0x40, Z.land divisor 0xFF); (0x40, Z.shiftr divisor 8)].

Section boot.
Variables timer_irq_handler serial_handler_addr page_fault_addr gp_addr syscall_stub : Z.

(** [init_idt]: the table it loads, its limit, and the port writes. *)
Definition init_idt (IDT : list IdtEntry) : outcome (list IdtEntry * Z * ports) :=
  IDT ← assign IDT 32 (gate_for timer_irq_handler 0x8E);
  IDT ← set_handler 36 serial_handler_addr IDT;
  Ret (IDT, 256 * 16 - 1, remap_pic ++ [(0x3F9, 0x01)] ++ init_timer).
Definition page_fault_init (IDT : list IdtEntry) : outcome (list IdtEntry) :=
  IDT ← set_handler_with_error_code 14 page_fault_addr IDT;
  set_handler_with_error_code 13 gp_addr IDT.
(** The three calls of [kernel_main]. *)
Definition boot_idt : outcome (list IdtEntry * Z * ports) :=
  x ← init_idt IDT_new;
  let '(IDT, limit, out) := x in
  IDT ← page_fault_init IDT;
  IDT ← set_syscall_handler syscall_stub IDT;
  Ret (IDT, limit, out).

(** ** What the processor does *)

(** The present bit, the privilege a software interrupt needs, and the
    address. *)
Definition present (g : IdtEntry) : bool := Z.testbit (attributes g) 7.
Definition dpl (g : IdtEntry) : Z := Z.land (Z.shiftr (attributes g) 5) 3.
Definition target (g : IdtEntry) : Z := offset_low g + offset_mid g * 2 ^ 16 + offset_high g * 2 ^ 32.
Definition gate (IDT : list IdtEntry) (v : Z) : option IdtEntry :=
  match lookupZ IDT v with Some g => if present g then Some g else None | None => None end.

Inductive delivery : Type := Runs (addr : Z) | Resets.
(** An exception.  A missing entry raises the exception 11; a second fault
    while an exception that counts as contributory is delivered raises the
    double fault 8; a fault then resets the processor. *)
Definition contributory (v : Z) : bool := existsb (Z.eqb v) [0; 10; 11; 12; 13; 14].
Definition double_fault (IDT : list IdtEntry) : delivery := match gate IDT 8 with Some g => Runs (target g) | None => Resets end.
Definition deliver (IDT : list IdtEntry) (v : Z) : delivery :=
  match gate IDT v with
  | Some g => Runs (target g)
  | None =>
      if contributory v || (v =? 8) then double_fault IDT
      else match gate IDT 11 with Some g => Runs (target g) | None => double_fault IDT end
  end.
(** [int v] in a user program: a protection fault without the privilege. *)
Definition software_int (IDT : list IdtEntry) (v : Z) : delivery :=
  match gate IDT v with
  | Some g => if dpl g =? 3 then Runs (target g) else deliver IDT 13
  | None => deliver IDT 13
  end.

Lemma gate_for_target addr attr : 0 <= addr < two64 -> target (gate_for addr attr) = addr.
Proof.
  intros Ha. unfold target, gate_for. cbn [offset_low offset_mid offset_high].
  change 0xFFFF with (Z.ones 16). change 0xFFFFFFFF with (Z.ones 32). rewrite !Z.land_ones, !Z.shiftr_div_pow2 by lia.
  change (2 ^ 16) with 65536. change (2 ^ 32) with 4294967296. dlia.
Qed.

(** The vectors that have a handler, and the privilege of their gates. *)
Definition handled (v : Z) : option (Z * Z) :=
  if v =? 13 then Some (gp_addr, 0) else if v =? 14 then Some (page_fault_addr, 0)
  else if v =? 32 then Some (timer_irq_handler, 0) else if v =? 36 then Some (serial_handler_addr, 0)
  else if v =? 0x80 then Some (syscall_stub, 3) else None.

Lemma boot_idt_gates : exists IDT limit out, boot_idt = Ret (IDT, limit, out) /\ lenZ IDT = 256 /\ limit = lenZ IDT * 16 - 1 /\
  forall v, gate IDT v = (h ← handled v; Some (gate_for h.1 (if h.2 =? 3 then 0xEE else 0x8E))).
Proof.
  unfold boot_idt, init_idt, page_fault_init, set_handler, set_handler_with_error_code, set_syscall_handler.
  assert (H0 : lenZ IDT_new = 256) by reflexivity.
  assert (Hs : forall (l : list IdtEntry) i g, lenZ l = 256 -> 0 <= i < 256 -> assign l i g = Ret (insertZ i g l) /\ lenZ (insertZ i g l) = 256).
  { intros l i g Hl Hi. split; [|by rewrite lenZ_insertZ]. unfold assign. by destruct (lookupZ_lt l i ltac:(lia)) as [y ->]. }
  set (l1 := insertZ 32 (gate_for timer_irq_handler 0x8E) IDT_new). set (l2 := insertZ 36 (gate_for serial_handler_addr 0x8E) l1).
  set (l3 := insertZ 14 (gate_for page_fault_addr 0x8E) l2). set (l4 := insertZ 13 (gate_for gp_addr 0x8E) l3).
  set (l5 := insertZ 0x80 (gate_for syscall_stub 0xEE) l4).
  destruct (Hs IDT_new 32 (gate_for timer_irq_handler 0x8E) H0 ltac:(lia)) as [-> H1]. rewrite bind_Ret. fold l1 in H1 |- *.
  destruct (Hs l1 36 (gate_for serial_handler_addr 0x8E) H1 ltac:(lia)) as [-> H2]. rewrite !bind_Ret. cbn iota beta. fold l2 in H2 |- *.
  destruct (Hs l2 14 (gate_for page_fault_addr 0x8E) H2 ltac:(lia)) as [-> H3]. rewrite bind_Ret. fold l3 in H3 |- *.
  destruct (Hs l3 13 (gate_for gp_addr 0x8E) H3 ltac:(lia)) as [-> H4]. rewrite bind_Ret. fold l4 in H4 |- *.
  destruct (Hs l4 0x80 (gate_for syscall_stub 0xEE) H4 ltac:(lia)) as [-> H5]. rewrite bind_Ret. fold l5 in H5 |- *.
  exists l5, (256 * 16 - 1), (remap_pic ++ [(0x3F9, 0x01)] ++ init_timer). split; [reflexivity|]. split; [exact H5|]. split; [lia|].
  intros v. unfold gate, handled. destruct (Z.eqb_spec v 13) as [->|]; [|destruct (Z.eqb_spec v 14) as [->|]; [|destruct (Z.eqb_spec v 32) as [->|];
    [|destruct (Z.eqb_spec v 36) as [->|]; [|destruct (Z.eqb_spec v 0x80) as [->|]]]]].
  all: unfold l5, l4, l3, l2, l1; rewrite ?lookupZ_insertZ_ne by lia.
  1-5: rewrite lookupZ_insertZ_eq by (unfold l4, l3, l2, l1 in *; lia); reflexivity.
  destruct (lookupZ IDT_new v) as [g|] eqn:E; [|done]. unfold IDT_new, lookupZ in E. destruct (v <? 0); [done|]. by apply lookup_replicate_1 in E as [-> _].
Qed.

End boot.


(** ** The handlers *)

(** The byte is queued for the shell, and the interrupt acknowledged. *)
Definition serial_handler (data : Z) (keys : key_buffer) : key_buffer * ports := (push_key data keys, [(0x20, 0x20)]).

Section faults.
Context {A : Type} `{FrameAllocator A}.
Implicit Types s : sys (A:=A).

Record fault_counts : Type := mk_faults { page_faults_user : Z; page_faults_kernel : Z }.

(** The entries that the report of a kernel fault reads, through the tables in
    use. *)
Definition dump_walk (cr3 va : Z) s : outcome unit :=
  let rd a := kle 8 (pmem (mach s)) (CR3 s) (u64 a) in
  let entry pa k := rd (pa + Z.land (Z.shiftr va k) 0x1FF * 8) in
  let next e := Z.land e 0x000FFFFFFFFFF000 in
  pml4_entry ← entry cr3 39;
  if Z.land pml4_entry 1 =? 0 then Ret tt
  else
    pdpt_entry ← entry (next pml4_entry) 30;
    if (Z.land pdpt_entry 1 =? 0) || negb (Z.land pdpt_entry (Z.shiftl 1 7) =? 0) then Ret tt
    else
      pd_entry ← entry (next pdpt_entry) 21;
      if (Z.land pd_entry 1 =? 0) || negb (Z.land pd_entry (Z.shiftl 1 7) =? 0) then Ret tt
      else pt_entry ← entry (next pd_entry) 12; Ret tt.

(** What [exit_current_task] reports, for a fault in user mode; otherwise the
    processor is halted. *)
Definition page_fault_handler (cr2 error_code : Z) (x : fault_counts * sys (A:=A)) : outcome (fault_counts * (option Z * sys (A:=A))) :=
  let '(c, s) := x in
  if negb (Z.land error_code (Z.shiftl 1 2) =? 0) then
    r ← exit_current_task s;
    Ret (mk_faults (u64 (page_faults_user c + 1)) (page_faults_kernel c), r)
  else
    _ ← dump_walk (CR3 s) cr2 s;
    Halt.

Fixpoint dump_stack (idxs : list Z) (rbp : Z) s : outcome unit :=
  match idxs with
  | [] => Ret tt
  | i :: idxs' => val ← kle 8 (pmem (mach s)) (CR3 s) (u64 (rbp + i * 8)); dump_stack idxs' rbp s
  end.
Definition gp_handler (rbp : Z) s : outcome (option Z * sys (A:=A)) :=
  if negb (current_task s =? 0) then exit_current_task s
  else _ ← dump_stack (seqZ 0 16) rbp s; Halt.

(** A fault of a user program ends its task; one of the kernel never comes
    back. *)
Theorem faults_handled cr2 code rbp c s :
  (Z.testbit code 2 = true -> page_fault_handler cr2 code (c, s) =
     (r ← exit_current_task s; Ret (mk_faults (u64 (page_faults_user c + 1)) (page_faults_kernel c), r))) /\
  (Z.testbit code 2 = false -> forall r, page_fault_handler cr2 code (c, s) <> Ret r) /\
  (CURRENT_TASK s <> 0 -> gp_handler rbp s = exit_current_task s) /\
  (CURRENT_TASK s = 0 -> forall r, gp_handler rbp s <> Ret r).
Proof.
  unfold page_fault_handler, gp_handler, current_task. rewrite land_bit by lia. split; [by intros ->|]. split.
  - intros -> r E. by apply bind_Ret_inv in E as ([] & _ & E).
  - destruct (Z.eqb_spec (CURRENT_TASK s) 0); cbn [negb]; (split; [done|]); [|done]. intros _ r E. by apply bind_Ret_inv in E as ([] & _ & E).
Qed.
End faults.
