(* ===== verification/Cpu.v ===== *)
(** * User mode: the instructions of the embedded programs

    The part of the x86-64 instruction set that the programs of
    src/src/test_programs.rs and the emitters of src/src/runtime.rs use, run
    against the kernel of the file [Syscall].  An instruction is fetched and
    its operands are accessed through the processor's walk of the loaded page
    tables, with the rights of user mode; [int 0x80] enters the kernel through
    its stub, and a fault through its handler.  Bytes that decode to nothing
    here are outside the model, not invalid.

    The registers are those the programs use and the system call stub gives
    back; of the flags only ZF is read. *)

From S2P Require Import Prelude FdTable Vfs Bytes Mem Frame Paging AddressSpace Usercopy Task Ide Fat32 Syscall Traps.

Record cpu : Type := mk_cpu {
  c_rip : Z; c_rax : Z; c_rdx : Z; c_rsp : Z; c_rsi : Z; c_rdi : Z; c_zf : bool }.

Inductive reg : Type := RAX | RDX | RSI | RDI.
Definition get_reg (r : reg) (c : cpu) : Z :=
  match r with RAX => c_rax c | RDX => c_rdx c | RSI => c_rsi c | RDI => c_rdi c end.
Definition set_reg (r : reg) (v : Z) (c : cpu) : cpu :=
  let '(mk_cpu ip a d sp si di z) := c in
  match r with
  | RAX => mk_cpu ip v d sp si di z
  | RDX => mk_cpu ip a v sp si di z
  | RSI => mk_cpu ip a d sp v di z
  | RDI => mk_cpu ip a d sp si v z
  end.
Definition set_rip (ip : Z) (c : cpu) : cpu :=
  mk_cpu ip (c_rax c) (c_rdx c) (c_rsp c) (c_rsi c) (c_rdi c) (c_zf c).
Definition set_rsp (sp : Z) (c : cpu) : cpu :=
  mk_cpu (c_rip c) (c_rax c) (c_rdx c) sp (c_rsi c) (c_rdi c) (c_zf c).
Definition set_zf (z : bool) (c : cpu) : cpu :=
  mk_cpu (c_rip c) (c_rax c) (c_rdx c) (c_rsp c) (c_rsi c) (c_rdi c) z.
(** The low byte of [rax]. *)
Definition set_al (v : Z) (c : cpu) : cpu := set_reg RAX (c_rax c - u8 (c_rax c) + u8 v) c.

(** ** Decoding *)

Inductive instr : Type :=
| MovImm (r : reg) (imm : Z)      (* mov r, imm32 *)
| Lea (r : reg) (disp : Z)        (* lea r, [rip+disp32] *)
| AddImm (r : reg) (imm : Z)      (* add r, imm8 *)
| Xor (r : reg)                   (* xor r, r *)
| Test (r : reg)                  (* test r, r *)
| Inc (r : reg)
| Inc32 (r : reg)                 (* on the 32-bit half *)
| Dec (r : reg)
| StoreAl (base : reg)            (* mov [base], al *)
| LoadAl (base : reg)             (* mov al, [base] *)
| CmpByte (base ix : reg) (imm : Z)  (* cmp byte [base+ix], imm8 *)
| Jump (rel : Z)
| JumpIf (z : bool) (rel : Z)     (* je, jne *)
| Int (n : Z)
| Return
| Nop
| Privileged.                     (* hlt, cli *)

Definition reg_of (n : Z) : option reg :=
  if n =? 0 then Some RAX else if n =? 2 then Some RDX else if n =? 6 then Some RSI else if n =? 7 then Some RDI else None.
Definition sx8 (b : Z) : Z := if b <? 0x80 then b else b - 0x100.
Definition sx32 (v : Z) : Z := if v <? 0x80000000 then v else v - 0x100000000.

(** A ModRM byte whose upper five bits are [hi], with the register in the
    lower three. *)
Definition modrm (hi m : Z) : option reg := if m / 8 =? hi then reg_of (m mod 8) else None.

(** After the prefix 0x48 of 64-bit operands. *)
Definition decode64 (bs : list Z) : option (Z * instr) :=
  match bs with
  | op :: m :: rest =>
      if op =? 0xC7 then
        match modrm 24 m, rest with
        | Some r, b0 :: b1 :: b2 :: b3 :: _ => Some (7, MovImm r (sx32 (from_le [b0; b1; b2; b3])))
        | _, _ => None
        end
      else if op =? 0x8D then
        match (if m mod 8 =? 5 then reg_of (m / 8) else None), rest with
        | Some r, b0 :: b1 :: b2 :: b3 :: _ => Some (7, Lea r (sx32 (from_le [b0; b1; b2; b3])))
        | _, _ => None
        end
      else if op =? 0x83 then
        match modrm 24 m, rest with
        | Some r, b :: _ => Some (4, AddImm r (sx8 b))
        | _, _ => None
        end
      else if op =? 0xFF then
        match modrm 24 m, modrm 25 m with
        | Some r, _ => Some (3, Inc r)
        | _, Some r => Some (3, Dec r)
        | _, _ => None
        end
      else if (op =? 0x31) && (m =? 0xC0) then Some (3, Xor RAX)
      else if (op =? 0x85) && (m =? 0xD2) then Some (3, Test RDX)
      else None
  | _ => None
  end.

(** The length of the first instruction and what it is. *)
Definition decode (bs : list Z) : option (Z * instr) :=
  match bs with
  | [] => None
  | op :: rest =>
      if op =? 0x48 then decode64 rest
      else if op =? 0x90 then Some (1, Nop)
      else if op =? 0xC3 then Some (1, Return)
      else if (op =? 0xF4) || (op =? 0xFA) then Some (1, Privileged)
      else
        match rest with
        | [] => None
        | b :: rest =>
            if op =? 0xCD then Some (2, Int b)
            else if op =? 0xEB then Some (2, Jump (sx8 b))
            else if op =? 0x74 then Some (2, JumpIf true (sx8 b))
            else if op =? 0x75 then Some (2, JumpIf false (sx8 b))
            else if op =? 0x88 then match modrm 0 b with Some r => Some (2, StoreAl r) | None => None end
            else if op =? 0x8A then match modrm 0 b with Some r => Some (2, LoadAl r) | None => None end
            else if op =? 0xFF then match modrm 24 b with Some r => Some (2, Inc32 r) | None => None end
            else if (op =? 0x80) && (b =? 0x3C) then
              match rest with
              | sib :: imm :: _ => if sib =? 0x07 then Some (4, CmpByte RDI RAX imm) else None
              | _ => None
              end
            else None
        end
  end.

(** ** Execution *)

Inductive access : Type := Reads | Writes | Executes.

(** The physical address of a user access, or the vector of the fault. *)
Definition user_access (a : access) (m : memory) (cr3 va : Z) : Z + Z :=
  if negb (canonical va) then inr 13
  else
    match mmu_walk m cr3 va with
    | Some tr =>
        if t_user tr && match a with Reads => true | Writes => t_write tr | Executes => t_exec tr end
        then inl (t_pa tr) else inr 14
    | None => inr 14
    end.

(** Up to [n] instruction bytes, as far as they may be executed. *)
Fixpoint fetch (n : nat) (m : memory) (cr3 va : Z) : list Z :=
  match n with
  | O => []
  | S n' =>
      match user_access Executes m cr3 va with
      | inl pa => load8 m pa :: fetch n' m cr3 (u64 (va + 1))
      | inr _ => []
      end
  end.

(** What one instruction leads to; [Traps] is a software interrupt, with the
    registers the kernel saves. *)
Inductive effect : Type := Steps (c : cpu) (m : memory) | Traps (n : Z) (c : cpu) | Faults (v : Z) | Unmodelled.

Definition with_access (x : Z + Z) (k : Z -> effect) : effect :=
  match x with inl pa => k pa | inr v => Faults v end.

(** A result in a register, with the zero flag. *)
Definition result_in (r : reg) (v : Z) (c : cpu) : cpu := set_zf (v =? 0) (set_reg r v c).

(** [c] already points behind the instruction. *)
Definition execute (i : instr) (m : memory) (cr3 : Z) (c : cpu) : effect :=
  match i with
  | MovImm r imm => Steps (set_reg r (u64 imm) c) m
  | Lea r d => Steps (set_reg r (u64 (c_rip c + d)) c) m
  | AddImm r imm => Steps (result_in r (u64 (get_reg r c + imm)) c) m
  | Xor r => Steps (result_in r 0 c) m
  | Test r => Steps (set_zf (get_reg r c =? 0) c) m
  | Inc r => Steps (result_in r (u64 (get_reg r c + 1)) c) m
  | Inc32 r => Steps (result_in r (u32 (get_reg r c + 1)) c) m
  | Dec r => Steps (result_in r (u64 (get_reg r c - 1)) c) m
  | StoreAl b => with_access (user_access Writes m cr3 (get_reg b c)) (fun pa => Steps c (store8 m pa (c_rax c)))
  | LoadAl b => with_access (user_access Reads m cr3 (get_reg b c)) (fun pa => Steps (set_al (load8 m pa) c) m)
  | CmpByte b ix imm =>
      with_access (user_access Reads m cr3 (u64 (get_reg b c + get_reg ix c)))
        (fun pa => Steps (set_zf (load8 m pa =? imm) c) m)
  | Jump d => Steps (set_rip (u64 (c_rip c + d)) c) m
  | JumpIf z d => Steps (if Bool.eqb (c_zf c) z then set_rip (u64 (c_rip c + d)) c else c) m
  | Int n => Traps n c
  | Return =>
      (fix pop n va k := match n with
        | O => k 0
        | S n' => with_access (user_access Reads m cr3 va)
                    (fun pa => pop n' (u64 (va + 1)) (fun v => k (load8 m pa + 256 * v)))
        end) 8%nat (c_rsp c) (fun ip => Steps (set_rip ip (set_rsp (u64 (c_rsp c + 8)) c)) m)
  | Nop => Steps c m
  | Privileged => Faults 13
  end.

Definition user_step (m : memory) (cr3 : Z) (c : cpu) : effect :=
  match user_access Executes m cr3 (c_rip c) with
  | inr v => Faults v
  | inl _ =>
      match decode (fetch 7 m cr3 (c_rip c)) with
      | Some (n, i) => execute i m cr3 (set_rip (u64 (c_rip c + n)) c)
      | None => Unmodelled
      end
  end.

(** ** A task on the processor *)

(** What is seen of the task from outside: its system calls, each with its
    number, its result, and the bytes that went to the serial line, and the
    fault that ended it. *)
Inductive event : Type := Call (num : Z) (res : option Z) (sent : list Z) | Killed (vector : Z).

(** Where a run is after a number of steps. *)
Inductive ending : Type := Over | Still (c : cpu) | Outside (c : cpu).

(** The frame of an interrupt from user mode, and the return from it. *)
Definition user_frame (c : cpu) : list Z :=
  [c_rip c; 0x1B; if c_zf c then 0x242 else 0x202; c_rsp c; 0x23].
Definition iret (r : cpu_regs) : option cpu :=
  match stack r with
  | [ip; _; flags; sp; _] => Some (mk_cpu ip (rax r) (rdx r) sp (rsi r) (rdi r) (Z.testbit flags 6))
  | _ => None
  end.

Section run.
Context {D : Type} `{BlockDevice D}.
Variables TASKS_ADDR VERSION_PTR ELF_BASE : Z.
Abbreviation kstate := (kstate (D:=D)).

(** The handler of a fault; the counters of page faults are left out. *)
Definition fault (v : Z) (s : kstate) : outcome kstate :=
  if v =? 14 then
    x ← page_fault_handler 0 4 (mk_faults 0 0, k_sys s); Ret (with_sys x.2.2 s)
  else x ← gp_handler 0 (k_sys s); Ret (with_sys x.2 s).

(** [fuel] steps of the task.  Before each of them the rest of the system may
    act: [env] stands for the interrupts and for the other tasks, and for the
    time a call that waits takes. *)
Fixpoint run (fuel : nat) (env : nat -> kstate -> kstate) (c : cpu) (s : kstate) (tr : list event)
  : outcome (ending * kstate * list event) :=
  match fuel with
  | O => Ret (Still c, s, tr)
  | S fuel' =>
      let s := env fuel' s in
      let goes := run fuel' env in
      match user_step (kmem s) (CR3 (k_sys s)) c with
      | Steps c m => goes c (with_pmem m s) tr
      | Traps n c =>
          if n =? 0x80 then
            x ← syscall_entry TASKS_ADDR VERSION_PTR ELF_BASE
                  (mk_regs (c_rax c) (c_rdi c) (c_rsi c) (c_rdx c) (user_frame c)) s;
            let sent := drop (length (k_serial s)) (k_serial x.2) in
            match x.1 with
            | Back r | Later r =>
                match iret r with
                | Some c' => goes c' x.2 (tr ++ [Call (c_rax c) (Some (rax r)) sent])
                | None => UB
                end
            | Never => Ret (Over, x.2, tr ++ [Call (c_rax c) None sent])
            end
          else s ← fault 13 s; Ret (Over, s, tr ++ [Killed 13])
      | Faults v => s ← fault v s; Ret (Over, s, tr ++ [Killed v])
      | Unmodelled => Ret (Outside c, s, tr)
      end
  end.
End run.
