(* ===== verification/Programs.v ===== *)
(** * User programs (src/src/test_programs.rs, src/src/runtime.rs)

    The machine code the kernel carries: the test programs it spawns at
    start-up and the code emitters of the runtime.  A program runs on the
    processor of the file [Cpu], as a task that [spawn_userspace_task] made,
    until its last system call or its fault; the theorems say which system
    calls it makes and what they send to the serial line, whatever the rest of
    the system does in between.  Code bytes are written in hexadecimal, an
    instruction as the source has it per group. *)

From S2P Require Import Prelude FdTable Vfs Bytes Mem Frame Paging AddressSpace Usercopy Elf Task Sched Process Lifecycle Ide Fat32 Syscall Traps Cpu.

Definition hex_digit (c : Ascii.ascii) : option Z :=
  let n := Z.of_N (Ascii.N_of_ascii c) in
  if (48 <=? n) && (n <=? 57) then Some (n - 48) else if (65 <=? n) && (n <=? 70) then Some (n - 55) else None.
(** Two digits per byte; other characters separate. *)
Fixpoint hex_bytes (ds : list Z) : list Z :=
  match ds with
  | h :: l :: ds' => 16 * h + l :: hex_bytes ds'
  | _ => []
  end.
Definition hex (s : string) : list Z := hex_bytes (omap hex_digit (String.list_ascii_of_string s)).

(** ** The runtime (runtime.rs) *)

Definition SYS_WRITE : Z := 0.
Definition SYS_EXIT : Z := 1.
Definition SYS_SLEEP : Z := 2.
Definition SYS_GETPID : Z := 4.
Definition SYS_YIELD : Z := 5.
Definition SYS_GETTIME : Z := 6.

Definition imm32 (val : Z) : list Z :=
  [u8 val; u8 (Z.shiftr val 8); u8 (Z.shiftr val 16); u8 (Z.shiftr val 24)].
Definition mov_rax_imm (val : Z) : list Z := [0x48; 0xC7; 0xC0] ++ imm32 val.
Definition mov_rdi_imm (val : Z) : list Z := [0x48; 0xC7; 0xC7] ++ imm32 val.
Definition mov_rsi_imm (val : Z) : list Z := [0x48; 0xC7; 0xC6] ++ imm32 val.
Definition syscall : list Z := [0xCD; 0x80].
Definition ret : list Z := [0xC3].
Definition nop : list Z := [0x90].
Definition jmp_self : list Z := [0xEB; 0xFE].

Definition emit_write_syscall (buf_addr buf_len : Z) : list Z :=
  mov_rax_imm SYS_WRITE ++ mov_rdi_imm buf_addr ++ mov_rsi_imm buf_len ++ syscall.
Definition emit_exit_syscall (exit_code : Z) : list Z := mov_rax_imm SYS_EXIT ++ mov_rdi_imm exit_code ++ syscall.
Definition emit_sleep_syscall (ms : Z) : list Z := mov_rax_imm SYS_SLEEP ++ mov_rdi_imm ms ++ syscall.
Definition emit_getpid_syscall : list Z := mov_rax_imm SYS_GETPID ++ syscall.
Definition emit_yield_syscall : list Z := mov_rax_imm SYS_YIELD ++ syscall.
Definition emit_gettime_syscall : list Z := mov_rax_imm SYS_GETTIME ++ syscall.

(** [strlen] of the string at [rdi] into [rax]; [memcpy] of [rdx] bytes from
    [rsi] to [rdi]; [memset] of [rdx] bytes at [rdi] to [al]. *)
Definition emit_strlen : list Z := hex "4831C0 803C0700 7403 48FFC0 EBF9" ++ ret.
Definition emit_memcpy : list Z := hex "4885D2 7406 8A06 8807 48FFC6 48FFC7 48FFCA 75F8" ++ ret.
Definition emit_memset : list Z := hex "4885D2 7405 8807 48FFC7 48FFCA 75F9" ++ ret.

(** ** The test programs (test_programs.rs) *)

Definition TASK_A : list Z :=
  hex "48C7C000000000 488D3D12000000 48C7C613000000 CD80" ++
  hex "48C7C001000000 CD80" ++
  bytes_of "Hello from Task A!" ++ [0x0A].
Definition TASK_B : list Z :=
  hex "48C7C000000000 488D3D12000000 48C7C613000000 CD80" ++
  hex "48C7C001000000 CD80" ++
  bytes_of "Hello from Task B!" ++ [0x0A].
Definition PRIV_TEST : list Z := hex "F4 EBFC".
Definition PRIV_TEST_2 : list Z := hex "FA EBFC".
Definition PTR_TEST_BAD : list Z :=
  hex "48C7C000000000 48C7C700001000 48C7C605000000 CD80" ++
  hex "48C7C000000000 488D3D0D000000 48C7C615000000 CD80" ++
  hex "48C7C001000000 CD80" ++
  bytes_of "ptr_bad: EFAULT ok" ++ [0x0A].
Definition SLEEP_TEST : list Z :=
  hex "48C7C002000000 48C7C7F4010000 CD80" ++
  hex "48C7C000000000 488D3D12000000 48C7C609000000 CD80" ++
  hex "48C7C001000000 CD80" ++
  bytes_of "SLEEP OK" ++ [0x0A].
Definition SYSCALL_TEST : list Z :=
  hex "48C7C004000000 CD80" ++
  hex "4883C030" ++
  hex "488D3D2F000000 8807" ++
  hex "48C7C000000000 488D3D1B000000 48C7C605000000 CD80" ++
  hex "48C7C005000000 CD80" ++
  hex "48C7C001000000 CD80" ++
  bytes_of "PID=" ++ [0x00].
Definition YIELD_TEST_Y : list Z :=
  hex "48C7C000000000 488D3D32000000 48C7C601000000 CD80" ++
  hex "48C7C005000000 CD80" ++
  hex "48C7C000000000 488D3D13000000 48C7C602000000 CD80" ++
  hex "48C7C001000000 CD80" ++
  bytes_of "Y" ++ bytes_of "Y2".
Definition YIELD_TEST_Z : list Z :=
  hex "48C7C000000000 488D3D32000000 48C7C601000000 CD80" ++
  hex "48C7C005000000 CD80" ++
  hex "48C7C000000000 488D3D13000000 48C7C602000000 CD80" ++
  hex "48C7C001000000 CD80" ++
  bytes_of "Z" ++ bytes_of "Z2".
Definition PERM_TEST : list Z :=
  hex "48C7C00C000000 CD80" ++
  hex "48C7C000000000 488D3D12000000 48C7C60E000000 CD80" ++
  hex "48C7C001000000 CD80" ++
  bytes_of "PERM DENIED OK" ++ [0x0A].
Definition RUNTIME_TEST : list Z :=
  hex "48C7C004000000 CD80" ++
  hex "48C7C000000000 488D3D18000000 48C7C606000000 CD80" ++
  hex "48C7C001000000 48C7C700000000 CD80" ++
  bytes_of "RT OK" ++ [0x0A].

(** A program put together from emitted calls, with its data at the end. *)
Inductive emitted : Type := EWrite (buf_addr buf_len : Z) | ESleep (ms : Z) | EGetPid | EYield.
Definition emit (e : emitted) : list Z :=
  match e with
  | EWrite a n => emit_write_syscall a n
  | ESleep ms => emit_sleep_syscall ms
  | EGetPid => emit_getpid_syscall
  | EYield => emit_yield_syscall
  end.
Definition emitted_program (es : list emitted) (data : list Z) : list Z :=
  concat (emit <$> es) ++ emit_exit_syscall 0 ++ data.

(** Buffers lie in the program's page, and times are those of a positive
    32-bit number. *)
Definition emitted_ok (e : emitted) : Prop :=
  match e with
  | EWrite a n => 0x400000 <= a /\ 0 <= n <= 256 /\ a + n <= 0x401000
  | ESleep ms => 0 <= ms < 0x80000000
  | _ => True
  end.

(** The registers a task starts with: those the timer interrupt pops from the
    kernel stack at [sp]. *)
Definition resume (m : memory) (sp : Z) : cpu :=
  let w j := read_u64 m (sp + 256 + 8 * j) in
  mk_cpu (w 15) (w 14) (w 12) (w 18) (w 11) (w 10) (Z.testbit (w 17) 6).
Definition start : cpu := mk_cpu 0x400000 0 0 0x501000 0 0 false.

(** What the programs are seen to do, by the number of the task that runs
    them. *)
Definition sends (bs : list Z) : event := Call 0 (Some (lenZ bs)) bs.
Definition exits : event := Call 1 None [].
Definition line_of (s : string) : list Z := bytes_of s ++ [0x0A].
Definition test_programs : list (list Z * (Z -> list event)) :=
  [ (TASK_A, fun _ => [sends (line_of "Hello from Task A!"); exits]);
    (TASK_B, fun _ => [sends (line_of "Hello from Task B!"); exits]);
    (PRIV_TEST, fun _ => [Killed 13]);
    (PRIV_TEST_2, fun _ => [Killed 13]);
    (SLEEP_TEST, fun _ => [Call 2 (Some 0) []; sends (line_of "SLEEP OK"); exits]);
    (SYSCALL_TEST, fun i => [Call 4 (Some i) []; sends (bytes_of "PID=" ++ [u8 (i + 48)]); Call 5 (Some 0) []; exits]);
    (YIELD_TEST_Y, fun _ => [sends (bytes_of "Y"); Call 5 (Some 0) []; sends (bytes_of "Y2"); exits]);
    (YIELD_TEST_Z, fun _ => [sends (bytes_of "Z"); Call 5 (Some 0) []; sends (bytes_of "Z2"); exits]);
    (PERM_TEST, fun _ => [Call 12 (Some (u64 EPERM)) []; sends (bytes_of "PERM DENIED OK"); exits]) ].

(** The two programs whose message is not where they look for it. *)
Definition displaced_programs : list (list Z * (Z -> list event)) :=
  [ (PTR_TEST_BAD, fun _ =>
      [Call 0 (Some (u64 EFAULT)) []; sends ([0; 0; 0; 0xCD; 0x80] ++ bytes_of "ptr_bad: EFAULT "); exits]);
    (RUNTIME_TEST, fun i => [Call 4 (Some i) []; sends ([0x80] ++ bytes_of "RT OK"); exits]) ].

(** ** A task whose program is on one page *)

(** The bytes the task runs, up to seven of them from offset [o] of its page. *)
Definition code_byte (code : list Z) (j : Z) : Z := default 0 (lookupZ code j).
Definition window (code : list Z) (o : Z) : list Z := code_byte code <$> seqZ o 7.

(** What an emitted call is seen to do in task [i]. *)
Definition emitted_event (code : list Z) (i : Z) (e : emitted) : event :=
  match e with
  | EWrite a n => sends (code_byte code <$> seqZ (a - 0x400000) n)
  | ESleep _ => Call 2 (Some 0) []
  | EGetPid => Call 4 (Some i) []
  | EYield => Call 5 (Some 0) []
  end.

(** Instructions that leave memory alone; they are executed without one. *)
Definition silent (i : instr) : bool :=
  match i with
  | StoreAl _ | LoadAl _ | CmpByte _ _ _ | Return => false
  | _ => true
  end.
(** The instruction at [c] and the registers behind it, for a program on one
    page. *)
Definition code_at (code : list Z) (c : cpu) : option (instr * cpu) :=
  let o := c_rip c - 0x400000 in
  if (0 <=? o) && (o <=? 4089) then
    match decode (window code o) with
    | Some (n, i) => Some (i, set_rip (u64 (c_rip c + n)) c)
    | None => None
    end
  else None.
Definition pure_step (code : list Z) (c : cpu) : option cpu :=
  match code_at code c with
  | Some (i, c) => if silent i then match execute i ∅ 0 c with Steps c _ => Some c | _ => None end else None
  | None => None
  end.
Fixpoint pure_steps (n : nat) (code : list Z) (c : cpu) : option cpu :=
  match n with
  | O => Some c
  | S n' => match pure_step code c with Some c => pure_steps n' code c | None => None end
  end.

Lemma silent_execute i m cr3 c :
  silent i = true -> execute i m cr3 c = match execute i ∅ 0 c with Steps c' _ => Steps c' m | e => e end.
Proof. by destruct i. Qed.

(** [ins] is at offset [o] of [code]. *)
Definition here (code : list Z) (o : Z) (ins : list Z) : Prop := exists pre post, code = pre ++ ins ++ post /\ lenZ pre = o.

Lemma window_here code o ins : here code o ins -> (length ins <= 7)%nat -> exists rest, window code o = ins ++ rest.
Proof.
  intros (pre & post & -> & Ho) Hl. exists (code_byte (pre ++ ins ++ post) <$> seqZ (o + lenZ ins) (7 - lenZ ins)).
  unfold window. replace 7 with (lenZ ins + (7 - lenZ ins)) at 1 by lia. unfold lenZ in *.
  rewrite seqZ_app, fmap_app by lia. f_equal. apply list_eq. intros j. rewrite list_lookup_fmap.
  destruct (ins !! j) as [b|] eqn:Ej.
  - pose proof (lookup_lt_Some _ _ _ Ej). rewrite lookup_seqZ_lt by lia. cbn. f_equal. unfold code_byte, lookupZ.
    destruct (Z.ltb_spec (o + Z.of_nat j) 0); [lia|]. rewrite lookup_app_r by lia.
    replace (Z.to_nat (o + Z.of_nat j) - length pre)%nat with j by lia. rewrite lookup_app_l by done. by rewrite Ej.
  - apply lookup_ge_None in Ej. by rewrite lookup_seqZ_ge by lia.
Qed.

(** Decoding reads no further than it needs. *)
Lemma decode64_app bs rest x : decode64 bs = Some x -> decode64 (bs ++ rest) = Some x.
Proof. destruct bs as [|op [|m [|b0 [|b1 [|b2 [|b3 bs]]]]]]; cbn; intros E; repeat case_match; congruence. Qed.
Lemma decode_app bs rest x : decode bs = Some x -> decode (bs ++ rest) = Some x.
Proof.
  destruct bs as [|op bs]; [done|]. cbn [decode app]. destruct (op =? 0x48); [apply decode64_app|].
  destruct bs as [|b [|b1 [|b2 bs]]]; cbn; intros E; repeat case_match; congruence.
Qed.

Lemma code_at_here code o ins n i c :
  here code o ins -> (length ins <= 7)%nat -> decode ins = Some (n, i) -> c_rip c = 0x400000 + o -> 0 <= o <= 4089 -> 0 <= n <= 7 ->
  code_at code c = Some (i, set_rip (0x400000 + (o + n)) c).
Proof.
  intros Hh Hl Hd Hc Ho Hn. unfold code_at. rewrite Hc. replace (0x400000 + o - 0x400000) with o by lia.
  destruct (Z.leb_spec 0 o), (Z.leb_spec o 4089); try lia. cbn [andb].
  destruct (window_here code o ins Hh Hl) as [rest ->]. rewrite (decode_app _ _ _ Hd), u64_small by lia. do 3 f_equal. lia.
Qed.

(** The fields of a task the scheduler leaves alone. *)
Definition same_task (a b : Task) : Prop :=
  page_table_root b = page_table_root a /\ user_data_frames b = user_data_frames a /\
  user_data_frame_count b = user_data_frame_count a /\ user_id b = user_id a.

Section task.
Context {D : Type} `{BlockDevice D}.
Variables TASKS_ADDR VERSION_PTR ELF_BASE : Z.
Abbreviation kstate := (kstate (D:=D)).

(** The kernel's tables, the frames the task took, its pages and tables, its
    slot, and its code page. *)
Variables (K : kernel_tables) (X : gset Z) (l : list user_page) (t : tables) (u i : Z) (q : user_page).

Record task_pages : Prop := {
  tp_slot : 1 <= i < MAX_TASKS;
  tp_zero : 0 ∉ X;
  tp_nodup : NoDup (up_vpn <$> l);
  tp_few : (length l <= 32)%nat;
  tp_code : q ∈ l;
  tp_at : up_vpn q = 1024;
  tp_rights : up_w q = true /\ up_x q = true;
  tp_low : up_vpn <$> l = seqZ 1024 (lenZ l - 1) ++ [1280];
}.

(** The task is on the processor, with its code as [code]. *)
Record on_cpu (code : list Z) (s : kstate) : Prop := {
  oc_wf : k_wf s;
  oc_current : CURRENT_TASK (k_sys s) = i;
  oc_task : exists ti, lookupZ (TASKS (k_sys s)) i = Some ti /\ page_table_root ti = pg u /\ user_id ti <> 0 /\
    user_data_frame_count ti = lenZ (up_frame <$> l) /\
    forall j f, (up_frame <$> l) !! j = Some f -> lookupZ (user_data_frames ti) (Z.of_nat j) = Some (pg f);
  oc_idle : exists t0, lookupZ (TASKS (k_sys s)) 0 = Some t0 /\ page_table_root t0 = pg (k_pml4 K);
  oc_cr3 : CR3 (k_sys s) = pg u;
  oc_placed : placed K X l t u (mach (k_sys s));
  oc_code : forall j, 0 <= j < 4096 -> load8 (kmem s) (pg (up_frame q) + j) = code_byte code j;
}.

(** What the rest of the system may do while the task is off the processor:
    when it is back, its registers, its memory and the kernel's tables are as
    they were, and no frame of these has been freed.  Other frames may be
    taken and given back, and other tasks come and go. *)
Record resumed (s s2 : kstate) : Prop := {
  rs_wf : k_wf s -> k_wf s2;
  rs_current : CURRENT_TASK (k_sys s2) = CURRENT_TASK (k_sys s);
  rs_tasks : forall j ti, j = 0 \/ j = i -> lookupZ (TASKS (k_sys s)) j = Some ti ->
    exists ti2, lookupZ (TASKS (k_sys s2)) j = Some ti2 /\ same_task ti ti2;
  rs_cr3 : CR3 (k_sys s2) = CR3 (k_sys s);
  rs_inv : fa_inv (frames (mach (k_sys s))) -> fa_inv (frames (mach (k_sys s2)));
  rs_limit : fa_limit (frames (mach (k_sys s2))) = fa_limit (frames (mach (k_sys s)));
  rs_taken : forall f, f ∈ X \/ f ∈ k_main K -> f ∉ fa_free (frames (mach (k_sys s))) -> f ∉ fa_free (frames (mach (k_sys s2)));
  rs_root : KERNEL_PML4_PA (mach (k_sys s2)) = KERNEL_PML4_PA (mach (k_sys s));
  rs_mem : forall f x, f ∈ k_frames K \/ f ∈ X -> pg f <= x < pg f + 4096 -> load8 (kmem s2) x = load8 (kmem s) x;
}.
Definition polite (env : nat -> kstate -> kstate) : Prop := forall n s, resumed s (env n s).

(** The task is gone and its frames are back, and with them the kernel's page
    tables above 2 GiB. *)
Definition gone (s : kstate) : Prop :=
  states (k_sys s) i = Some Unused /\ X ∪ k_shared K ⊆ fa_free (frames (mach (k_sys s))) /\ CR3 (k_sys s) = pg (k_pml4 K).

(** From registers [c] the program makes exactly the calls [out], and ends. *)
Definition ends (code : list Z) (c : cpu) (out : list event) : Prop :=
  exists n, forall env s tr, polite env -> on_cpu code s ->
    exists s', run TASKS_ADDR VERSION_PTR ELF_BASE n env c s tr = Ret (Over, s', tr ++ out) /\ gone s'.

Hypothesis Hpages : task_pages.

Lemma placed_taken (ms : machine (A:=frame_state)) f : placed K X l t u ms -> f ∈ X \/ f ∈ k_main K -> f ∉ fa_free (frames ms).
Proof.
  intros Hp [Hf|Hf]; [by destruct (pl_held _ _ _ _ _ _ Hp f Hf)|]. pose proof (k_main_frames _ _ Hf) as HK.
  destruct (pl_kernel _ _ _ _ _ _ Hp f HK) as [[Hn|[r Hr]%elem_of_k_shared] _]; [done|]. exfalso.
  unfold k_main in Hf. rewrite !elem_of_union, !elem_of_singleton, elem_of_map_img in Hf.
  assert (Hne : forall k, k <> KShared r -> k_table K k <> Some f).
  { intros k Hk E. apply Hk, (kv_inj _ _ (pl_kview _ _ _ _ _ _ Hp) _ _ f); [done|exact Hr]. }
  destruct Hf as [[->| ->]|[j Hj]]; [by apply (Hne KPml4)|by apply (Hne KPdpt)|by apply (Hne (KPd j))].
Qed.

(** The pages of the task and the tables around it in another state of the
    machine. *)
Lemma placed_resumed (ms ms2 : machine (A:=frame_state)) :
  placed K X l t u ms -> (fa_inv (frames ms) -> fa_inv (frames ms2)) -> fa_limit (frames ms2) = fa_limit (frames ms) ->
  (forall f, f ∈ X \/ f ∈ k_main K -> f ∉ fa_free (frames ms) -> f ∉ fa_free (frames ms2)) ->
  KERNEL_PML4_PA ms2 = KERNEL_PML4_PA ms ->
  (forall f x, f ∈ k_frames K \/ f ∈ X -> pg f <= x < pg f + 4096 -> load8 (pmem ms2) x = load8 (pmem ms) x) ->
  placed K X l t u ms2.
Proof.
  intros Hp Hi Hl Ht Hr Hm. apply (placed_mem _ _ _ _ _ _ _ Hp); [apply Hi, Hp|done|done| |].
  - intros f Hf. apply Ht; [done|]. by apply placed_taken.
  - intros f x Hf Hx. apply (Hm f); [|done]. destruct (placed_table_frame _ _ _ _ _ _ f Hp Hf) as [[?|?] _]; auto.
Qed.

Lemma on_cpu_resumed code s s2 : on_cpu code s -> resumed s s2 -> on_cpu code s2.
Proof.
  intros [H1 H2 (ti & H3 & H4 & H5 & H6 & H7) (t0 & H8 & H9) H10 H11 H12] [R1 R2 R3 R4 R5 R6 R7 R8 R9].
  assert (HqX : up_frame q ∈ X) by (apply (placed_data _ _ _ _ _ _ _ H11), list_elem_of_fmap; exists q; split; [done|apply Hpages]).
  destruct (R3 i ti ltac:(by right) H3) as (ti2 & Hti2 & E1 & E2 & E3 & E4).
  destruct (R3 0 t0 ltac:(by left) H8) as (t2 & Ht2 & E5 & _).
  split; [auto|congruence| | |congruence| |].
  - exists ti2. rewrite E1, E2, E3, E4. done.
  - exists t2. split; [done|congruence].
  - by apply (placed_resumed (mach (k_sys s))).
  - intros j Hj. rewrite (R9 (up_frame q)) by (lia || by right). by apply H12.
Qed.

Lemma with_pmem_same (s : kstate) : with_pmem (kmem s) s = s.
Proof. by destruct s as [[[] ? ? ? ? ? ?] ? ? ? ? ? ?]. Qed.
Lemma resumed_refl (s : kstate) : resumed s s.
Proof. split; try done. intros j ti _ Hj. by exists ti. Qed.
Lemma on_cpu_same code (s s' : kstate) : on_cpu code s -> k_sys s' = k_sys s -> k_wf s' -> on_cpu code s'.
Proof. intros [? ? ? ? ? ? ?] E Hw. unfold kmem in *. split; unfold kmem; rewrite ?E; done. Qed.

Lemma code_access code s a o :
  on_cpu code s -> 0 <= o < 4096 -> user_access a (kmem s) (CR3 (k_sys s)) (0x400000 + o) = inl (pg (up_frame q) + o).
Proof.
  intros Hs Ho. unfold user_access, canonical. destruct (Z.ltb_spec (0x400000 + o) (2 ^ 47)); [|lia]. cbn [orb negb].
  rewrite (oc_cr3 _ _ Hs). unfold kmem.
  rewrite (view_walk _ t (install l ∅) u (pl_view _ _ _ _ _ _ (oc_placed _ _ Hs)) (pl_root _ _ _ _ _ _ (oc_placed _ _ Hs))) by lia.
  unfold promised.
  replace ((0x400000 + o) / 4096) with (up_vpn q) by (rewrite (tp_at Hpages); dlia).
  rewrite install_lookup by apply Hpages. destruct (tp_rights Hpages) as [-> ->]. cbn [t_user t_write t_exec t_pa andb].
  replace ((0x400000 + o) mod 4096) with o by dlia. by destruct a.
Qed.

Lemma fetch_code code s n o :
  on_cpu code s -> 0 <= o -> o + Z.of_nat n <= 4096 ->
  fetch n (kmem s) (CR3 (k_sys s)) (0x400000 + o) = code_byte code <$> seqZ o (Z.of_nat n).
Proof.
  intros Hs. revert o. induction n as [|n IH]; intros o Ho Hn; [done|]. cbn [fetch].
  rewrite (code_access code s _ o Hs) by lia. rewrite (oc_code _ _ Hs) by lia.
  rewrite seqZ_cons by lia. cbn [fmap list_fmap]. f_equal. rewrite u64_small by lia.
  replace (0x400000 + o + 1) with (0x400000 + Z.succ o) by lia. rewrite IH by lia. do 2 f_equal. lia.
Qed.

Lemma step_code code s c j c1 :
  on_cpu code s -> code_at code c = Some (j, c1) ->
  user_step (kmem s) (CR3 (k_sys s)) c = execute j (kmem s) (CR3 (k_sys s)) c1.
Proof.
  intros Hs Hc. unfold code_at in Hc. destruct (_ && _) eqn:Ho; [|done]. apply andb_prop in Ho as [H1%Z.leb_le H2%Z.leb_le].
  destruct c as [ip a d sp si di z]. cbn [c_rip] in *. unfold user_step. cbn [c_rip].
  assert (exists o, ip = 0x400000 + o) as [o ->] by (exists (ip - 0x400000); lia).
  rewrite (code_access code) by (done || lia). rewrite (fetch_code code) by (done || lia).
  replace (0x400000 + o - 0x400000) with o in Hc by lia. change (code_byte code <$> seqZ o (Z.of_nat 7)) with (window code o).
  destruct (decode (window code o)) as [[n k]|]; [|done]. by injection Hc as <- <-.
Qed.

(** *** Rules for the behaviour of programs *)

(** The program goes from registers [c] to [c'], and its page from [code] to
    [code'], without a system call. *)
Definition goes (code : list Z) (c : cpu) (code' : list Z) (c' : cpu) : Prop :=
  exists n, forall m env s tr, polite env -> on_cpu code s ->
    exists s', run TASKS_ADDR VERSION_PTR ELF_BASE (n + m) env c s tr = run TASKS_ADDR VERSION_PTR ELF_BASE m env c' s' tr /\
      on_cpu code' s'.

Lemma goes_refl code c : goes code c code c.
Proof. exists 0%nat. intros m env s tr _ Hs. by exists s. Qed.
Lemma goes_trans code1 c1 code2 c2 code3 c3 : goes code1 c1 code2 c2 -> goes code2 c2 code3 c3 -> goes code1 c1 code3 c3.
Proof.
  intros [n Hn] [k Hk]. exists (n + k)%nat. intros m env s tr Henv Hs. rewrite <- Nat.add_assoc.
  destruct (Hn (k + m)%nat env s tr Henv Hs) as (s1 & -> & Hs1). by apply Hk.
Qed.

(** One step, by what the instruction does. *)
Lemma run_step code c j c1 code' c' :
  code_at code c = Some (j, c1) ->
  (forall s, on_cpu code s -> exists m', execute j (kmem s) (CR3 (k_sys s)) c1 = Steps c' m' /\ on_cpu code' (with_pmem m' s)) ->
  forall m env s tr, polite env -> on_cpu code s ->
    exists s', run TASKS_ADDR VERSION_PTR ELF_BASE (S m) env c s tr = run TASKS_ADDR VERSION_PTR ELF_BASE m env c' s' tr /\ on_cpu code' s'.
Proof.
  intros Hc Hj m env s tr Henv Hs. cbn [run].
  apply (on_cpu_resumed code s (env m s)) in Hs; [|apply Henv]. rewrite (step_code code _ c j c1 Hs Hc).
  destruct (Hj _ Hs) as (m' & -> & Hs'). by exists (with_pmem m' (env m s)).
Qed.
Lemma goes_step code c j c1 code' c' :
  code_at code c = Some (j, c1) ->
  (forall s, on_cpu code s -> exists m', execute j (kmem s) (CR3 (k_sys s)) c1 = Steps c' m' /\ on_cpu code' (with_pmem m' s)) ->
  goes code c code' c'.
Proof. intros Hc Hj. exists 1%nat. by apply (run_step code c j c1). Qed.
Lemma pure_executes code c c' :
  pure_step code c = Some c' -> exists j c1, code_at code c = Some (j, c1) /\
    forall s, on_cpu code s -> exists m', execute j (kmem s) (CR3 (k_sys s)) c1 = Steps c' m' /\ on_cpu code (with_pmem m' s).
Proof.
  unfold pure_step. destruct (code_at code c) as [[j c1]|]; [|done]. destruct (silent j) eqn:Hj; [|done]. intros E.
  exists j, c1. split; [done|]. intros s Hs. rewrite silent_execute by done. destruct (execute j ∅ 0 c1); try done.
  injection E as ->. eexists. split; [done|]. by rewrite with_pmem_same.
Qed.
Lemma goes_pure code c c' : pure_step code c = Some c' -> goes code c code c'.
Proof. intros (j & c1 & Hc & Hj)%pure_executes. by apply (goes_step code c j c1). Qed.
Lemma goes_pures n code c c' : pure_steps n code c = Some c' -> goes code c code c'.
Proof.
  revert c. induction n as [|n IH]; intros c Hp; [injection Hp as ->; apply goes_refl|]. cbn [pure_steps] in Hp.
  destruct (pure_step code c) as [c1|] eqn:H1; [|done]. eapply goes_trans; [by apply goes_pure|by apply IH].
Qed.

(** A store into the program's own page. *)
Lemma goes_store code c c1 b o :
  code_at code c = Some (StoreAl b, c1) -> get_reg b c1 = 0x400000 + o -> 0 <= o < 4096 -> o < lenZ code ->
  goes code c (insertZ o (u8 (c_rax c1)) code) c1.
Proof.
  intros Hc Hb Ho Hl. eapply goes_step; [exact Hc|]. intros s Hs. cbn [execute].
  rewrite Hb, (code_access code) by done. cbn [with_access]. eexists. split; [done|].
  destruct Hs as [H1 H2 H3 H4 H5 H6 H7].
  assert (HqF : up_frame q ∈ up_frame <$> l) by (apply list_elem_of_fmap; exists q; split; [done|apply Hpages]).
  split; [by apply with_pmem_wf|done..| |].
  - cbn. apply (placed_same _ _ _ _ _ _ _ H6); [done..|]. intros f x Hf Hx. cbn. rewrite load8_store8. zcase; [|done]. subst x.
    assert (f = up_frame q) as -> by (apply (pages_disjoint _ _ _ Hx); lia).
    by destruct (placed_table_frame _ _ _ _ _ _ _ H6 Hf).
  - intros j Hj. cbn. rewrite load8_store8. unfold code_byte. zcase.
    + assert (j = o) as -> by lia. rewrite lookupZ_insertZ_eq by lia. done.
    + rewrite lookupZ_insertZ_ne by lia. by apply H7.
Qed.
(** A load from it. *)
Lemma goes_load code c c1 b o :
  code_at code c = Some (LoadAl b, c1) -> get_reg b c1 = 0x400000 + o -> 0 <= o < 4096 ->
  goes code c code (set_al (code_byte code o) c1).
Proof.
  intros Hc Hb Ho. eapply goes_step; [exact Hc|]. intros s Hs. cbn [execute].
  rewrite Hb, (code_access code) by done. cbn [with_access]. rewrite (oc_code _ _ Hs) by done.
  eexists. split; [done|]. by rewrite with_pmem_same.
Qed.

Lemma ends_goes code c code' c' out : goes code c code' c' -> ends code' c' out -> ends code c out.
Proof.
  intros [n Hn] [k Hk]. exists (n + k)%nat. intros env s tr Henv Hs.
  destruct (Hn k env s tr Henv Hs) as (s1 & -> & Hs1). by apply Hk.
Qed.
Lemma ends_pure n code c c' out : pure_steps n code c = Some c' -> ends code c' out -> ends code c out.
Proof. intros Hp. apply ends_goes, (goes_pures n), Hp. Qed.

(** A call that [dispatch] serves, with result [res] and output [sent]. *)
Definition served (num a0 a1 a2 : Z) (code : list Z) (res : Z) (sent : list Z) : Prop :=
  forall s, on_cpu code s -> exists r s', dispatch TASKS_ADDR VERSION_PTR ELF_BASE num a0 a1 a2 s = Ret (r, s') /\
    (r = Returned res \/ r = Waits res) /\ k_serial s' = k_serial s ++ sent /\ on_cpu code s'.

Lemma ends_call code c c1 num res sent out :
  code_at code c = Some (Int 0x80, c1) -> served (c_rax c1) (c_rdi c1) (c_rsi c1) (c_rdx c1) code res sent ->
  c_rax c1 = num -> ends code (set_reg RAX (u64 res) c1) out -> ends code c (Call num (Some (u64 res)) sent :: out).
Proof.
  intros Hc Hsv <- [k Hk]. exists (S k). intros env s tr Henv Hs. cbn [run].
  apply (on_cpu_resumed code s (env k s)) in Hs; [|apply Henv]. rewrite (step_code code _ c _ c1 Hs Hc). cbn [execute Z.eqb Pos.eqb].
  rewrite entry_unfold. cbn [rax rdi rsi rdx stack]. destruct (Hsv _ Hs) as (r & s' & -> & Hr & Hser & Hs'). rewrite !bind_Ret. cbn [fst snd].
  rewrite Hser, drop_app_length. specialize (Hk env s' (tr ++ [Call (c_rax c1) (Some (u64 res)) sent]) Henv Hs').
  rewrite <- app_assoc in Hk. cbn [app] in Hk.
  assert (E : iret (mk_regs (u64 res) (c_rdi c1) (c_rsi c1) (c_rdx c1) (user_frame c1)) = Some (set_reg RAX (u64 res) c1)).
  { destruct c1 as [ip a d sp si di []]; done. }
  destruct Hr as [-> | ->]; cbn [fst snd]; rewrite E; exact Hk.
Qed.

(** The end of the task, by itself or by a fault. *)
Lemma exit_gone code (s : kstate) :
  on_cpu code s -> exists x, exit_current_task (k_sys s) = Ret (None, x) /\ forall s', k_sys s' = x -> gone s'.
Proof.
  intros [H1 H2 (ti & H3 & H4 & H5 & H6 & H7) (t0 & H8 & H9) H10 H11 H12]. pose proof Hpages as [Hi HX0 _ Hfew _ _ _ _].
  assert (Ht : take 32 (up_frame <$> l) = up_frame <$> l) by (apply take_ge; by rewrite length_fmap).
  destruct (exit_spec K X l t u i ti t0 (k_sys s) H11 HX0 H2 ltac:(lia) H3 H8 H9 H4) as (x & Hx & Hts & Hcr & _ & _ & _ & _ & _ & Hfree).
  { by rewrite Ht. } { by rewrite Ht. }
  exists x. split; [done|]. intros s' E. unfold gone. rewrite E. split.
  { unfold states. rewrite Hts, lookupZ_insertZ_eq; [done|]. by apply lookupZ_Some_lt in H3. }
  split; [|done]. rewrite Hfree, drop_ge by (by rewrite length_fmap). rewrite list_to_set_nil. set_solver.
Qed.

Lemma ends_exit code c c1 :
  code_at code c = Some (Int 0x80, c1) -> c_rax c1 = 1 -> ends code c [Call 1 None []].
Proof.
  intros Hc Ha. exists 1%nat. intros env s tr Henv Hs. cbn [run].
  apply (on_cpu_resumed code s (env 0%nat s)) in Hs; [|apply Henv]. rewrite (step_code code _ c _ c1 Hs Hc). cbn [execute Z.eqb Pos.eqb].
  rewrite entry_unfold. cbn [rax rdi rsi rdx stack]. rewrite Ha. set (s1 := env 0%nat s) in *.
  rewrite (dispatch_run _ _ _ 1 (mk_syscall "Exit" (Some (syscall_exit)) None 0 0) (syscall_exit)) by (exact (oc_wf _ _ Hs) || reflexivity || lia).
  unfold syscall_exit. change (k_sys (count_task_exit (counted 1 s1))) with (k_sys s1).
  destruct (exit_gone code s1 Hs) as (x & -> & Hx). rewrite !bind_Ret. cbn [fst snd].
  exists (with_sys x (count_task_exit (counted 1 s1))). split; [|by apply Hx]. do 5 f_equal. apply drop_all.
Qed.

Lemma ends_privileged code c c1 : code_at code c = Some (Privileged, c1) -> ends code c [Killed 13].
Proof.
  intros Hc. exists 1%nat. intros env s tr Henv Hs. cbn [run].
  apply (on_cpu_resumed code s (env 0%nat s)) in Hs; [|apply Henv]. rewrite (step_code code _ c _ c1 Hs Hc). cbn [execute].
  unfold fault, gp_handler, current_task. cbn [Z.eqb Pos.eqb]. rewrite (oc_current _ _ Hs).
  destruct (Z.eqb_spec i 0); [destruct (tp_slot Hpages); lia|]. cbn [negb].
  destruct (exit_gone code _ Hs) as (x & -> & Hx). rewrite !bind_Ret. cbn [snd]. eexists. split; [done|]. by apply Hx.
Qed.

(** *** The calls the programs make *)

Lemma on_cpu_runs code s : on_cpu code s -> user_runs s t (install l ∅).
Proof.
  intros [H1 H2 (ti & H3 & H4 & _) _ _ H5 _]. split; [done| |apply (pl_view _ _ _ _ _ _ H5)|].
  - destruct (tp_slot Hpages). lia.
  - exists u. split; [apply (pl_root _ _ _ _ _ _ H5)|]. unfold current_page_table_root, task_page_table_root.
    rewrite H2, (get_task_Some _ _ _ H3), bind_Ret. by rewrite H4.
Qed.
Lemma on_cpu_counted code s num : on_cpu code s -> on_cpu code (counted num s).
Proof. intros Hs. apply (on_cpu_same code s); [done..|]. apply counted_wf, Hs. Qed.

Lemma code_bytes code s n o :
  on_cpu code s -> 0 <= o -> o + Z.of_nat n <= 4096 ->
  user_bytes n (kmem s) (install l ∅) (0x400000 + o) = Some (code_byte code <$> seqZ o (Z.of_nat n)).
Proof.
  intros Hs. revert o. induction n as [|n IH]; intros o Ho Hn; [done|]. cbn [user_bytes].
  replace (0x400000 + o + 1) with (0x400000 + Z.succ o) by lia. rewrite IH by lia. unfold user_byte, phys.
  replace ((0x400000 + o) / 4096) with (up_vpn q) by (rewrite (tp_at Hpages); dlia).
  rewrite install_lookup by apply Hpages. cbn [fmap option_fmap option_map]. replace ((0x400000 + o) mod 4096) with o by dlia.
  rewrite (oc_code _ _ Hs), (seqZ_cons o) by lia. cbn [fmap list_fmap]. do 3 f_equal. f_equal. lia.
Qed.

Lemma write_served code o n x :
  0 <= o -> 0 <= n <= 256 -> o + n <= 4096 -> served 0 (0x400000 + o) n x code n (code_byte code <$> seqZ o n).
Proof.
  intros Ho Hn Hon s Hs. rewrite (dispatch_write _ _ _ s t (install l ∅)) by (by apply (on_cpu_runs code) || lia).
  destruct (Z.leb_spec n 256); [|lia]. rewrite (code_bytes code) by (done || lia). rewrite Z2Nat.id by lia.
  do 2 eexists. split; [done|]. split; [by left|]. split; [done|].
  apply (on_cpu_same code s); [done..|]. apply write_serial_wf, counted_wf, Hs.
Qed.
Lemma write_refused code buf n x :
  0 <= buf < 0x400000 -> 1 <= n <= 256 -> served 0 buf n x code EFAULT [].
Proof.
  intros Hb Hn s Hs. rewrite (dispatch_write _ _ _ s t (install l ∅)) by (by apply (on_cpu_runs code) || lia).
  destruct (Z.leb_spec n 256); [|lia]. rewrite user_bytes_unmapped; [|unfold phys|lia].
  - do 2 eexists. split; [done|]. split; [by left|]. split; [by rewrite app_nil_r|by apply on_cpu_counted].
  - rewrite install_other; [done|]. rewrite (tp_low Hpages), elem_of_app, elem_of_seqZ, list_elem_of_singleton. dlia.
Qed.

Lemma getpid_served code a b x : served 4 a b x code (i64 i) [].
Proof.
  intros s Hs. rewrite (dispatch_run _ _ _ 4 (mk_syscall "GetPid" (Some syscall_getpid) None 0 FLAG_FASTPATH) syscall_getpid)
    by (exact (oc_wf _ _ Hs) || reflexivity || lia). unfold syscall_getpid, current_task.
  do 2 eexists. split; [done|]. change (k_sys (counted 4 s)) with (k_sys s). rewrite (oc_current _ _ Hs).
  split; [by left|]. split; [by rewrite app_nil_r|by apply on_cpu_counted].
Qed.
Lemma debuglog_denied code a b x : served 12 a b x code EPERM [].
Proof.
  intros s Hs. destruct (oc_task _ _ Hs) as (ti & Hti & _ & Hne & _).
  rewrite (dispatch_forbidden _ _ _ a b x s (user_id ti)); [|apply Hs| |done].
  - do 2 eexists. split; [done|]. split; [by left|]. split; [by rewrite app_nil_r|by apply on_cpu_counted].
  - unfold current_user_id, get_task_uid. rewrite (oc_current _ _ Hs), (get_task_Some _ _ _ Hti). by rewrite bind_Ret.
Qed.

(** An update of the task's own slot that the scheduler may undo. *)
Lemma update_served code (s : kstate) g :
  on_cpu code s -> (forall ti, same_task ti (g ti)) ->
  exists y, upd_task i g (k_sys s) = Ret y /\ on_cpu code (with_sys y s).
Proof.
  intros Hs Hg. destruct (oc_task _ _ Hs) as (ti & Hti & _). rewrite (upd_task_Ret _ _ _ ti Hti). eexists. split; [done|].
  pose proof (lookupZ_Some_lt _ _ _ Hti) as Hlt. apply (on_cpu_resumed code s); [done|]. split; try done.
  - intros Hw. apply with_sys_wf; [done|]. split; [apply lenZ_insertZ|done].
  - intros j tj _ Hj. cbn. destruct (decide (j = i)) as [-> |].
    + exists (g ti). rewrite lookupZ_insertZ_eq by done. split; [done|]. rewrite Hti in Hj. injection Hj as <-. apply Hg.
    + exists tj. by rewrite lookupZ_insertZ_ne.
Qed.
Lemma yield_served code a b x : served 5 a b x code 0 [].
Proof.
  intros s Hs. rewrite (dispatch_run _ _ _ 5 (mk_syscall "Yield" (Some syscall_yield) None 0 0) syscall_yield)
    by (exact (oc_wf _ _ Hs) || reflexivity || lia). unfold syscall_yield, set_state. apply (on_cpu_counted code s 5) in Hs as Hc.
  rewrite (oc_current _ _ Hc). destruct (update_served code _ (with_state Ready) Hc) as (y & -> & Hy); [done|].
  rewrite bind_Ret. do 2 eexists. split; [done|]. split; [by right|]. split; [by rewrite app_nil_r|done].
Qed.
Lemma sleep_served code ms b x : served 2 ms b x code 0 [].
Proof.
  intros s Hs. rewrite (dispatch_run _ _ _ 2 (mk_syscall "Sleep" (Some syscall_sleep) None 1 FLAG_MAY_SLEEP) syscall_sleep)
    by (exact (oc_wf _ _ Hs) || reflexivity || lia). unfold syscall_sleep, sleep_ms, sleep_until, set_task_wake_tick, set_state, current_task.
  apply (on_cpu_counted code s 2) in Hs as Hc. set (s1 := counted 2 s) in *. rewrite (oc_current _ _ Hc).
  set (w := u64 _). destruct (update_served code _ (with_wake w) Hc) as (y & -> & Hy); [done|]. rewrite bind_Ret.
  change y with (k_sys (with_sys y s1)). rewrite (oc_current _ _ Hy).
  destruct (update_served code _ (with_state Sleeping) Hy) as (z & -> & Hz); [done|]. rewrite bind_Ret.
  do 2 eexists. split; [done|]. split; [by right|]. split; [by rewrite app_nil_r|exact Hz].
Qed.

Lemma ends_write code c c1 o n bs out :
  code_at code c = Some (Int 0x80, c1) -> c_rax c1 = 0 -> c_rdi c1 = 0x400000 + o -> c_rsi c1 = n ->
  0 <= o -> 0 <= n <= 256 -> o + n <= 4096 -> bs = code_byte code <$> seqZ o n ->
  ends code (set_reg RAX n c1) out -> ends code c (sends bs :: out).
Proof.
  intros Hc Ha Hd Hsi Ho Hn Hon -> He. unfold sends.
  replace (lenZ (code_byte code <$> seqZ o n)) with (u64 n) by (unfold lenZ; rewrite length_fmap, length_seqZ, u64_small; lia).
  apply (ends_call code c c1); [done| |done|by rewrite u64_small by lia]. rewrite Ha, Hd, Hsi. by apply write_served.
Qed.
Lemma ends_simple code c c1 num res r out :
  code_at code c = Some (Int 0x80, c1) -> c_rax c1 = num -> (forall a b x, served num a b x code res []) -> u64 res = r ->
  ends code (set_reg RAX r c1) out -> ends code c (Call num (Some r) [] :: out).
Proof. intros Hc Ha Hsv <- He. apply (ends_call code c c1); [done| |done|done]. rewrite Ha. apply Hsv. Qed.

Ltac ready := first [vm_compute; reflexivity | vm_compute; intuition discriminate].
Ltac runs n := eapply (ends_pure n); [vm_compute; reflexivity|].
Ltac writes o n := eapply (ends_write _ _ _ o n); [ready..|]; cbn [set_reg].
Ltac calls lem := eapply ends_simple; [vm_compute; reflexivity|reflexivity|intros; apply lem|vm_compute; reflexivity|]; cbn [set_reg].
Ltac leaves := eapply ends_exit; vm_compute; reflexivity.

Lemma slot_u64 : u64 (i64 i) = i.
Proof. destruct (tp_slot Hpages). unfold MAX_TASKS in *. unfold i64, u64. dlia. Qed.
Ltac asks := eapply ends_simple; [vm_compute; reflexivity|reflexivity|intros; apply getpid_served|apply slot_u64|]; cbn [set_reg].

Lemma pid_digit_ends x z d :
  d = u8 x -> ends SYSCALL_TEST (mk_cpu 0x40000D x 0 0x501000 0 0 z) [sends (bytes_of "PID=" ++ [d]); Call 5 (Some 0) []; exits].
Proof.
  intros ->. runs 1%nat. eapply ends_goes; [apply (goes_store _ _ _ RDI 67); [vm_compute; reflexivity|reflexivity|lia|reflexivity]|]. cbn [c_rax].
  generalize (u8 x) as d. intros d. set (code := insertZ 67 d SYSCALL_TEST). vm_compute in code.
  runs 3%nat. writes 63 5. runs 1%nat. calls yield_served. runs 1%nat. leaves.
Qed.
Lemma pid_ends :
  ends SYSCALL_TEST start [Call 4 (Some i) []; sends (bytes_of "PID=" ++ [u8 (i + 48)]); Call 5 (Some 0) []; exits].
Proof.
  runs 1%nat. asks. eapply (ends_pure 1); [|apply pid_digit_ends with (z := u64 (i + 48) =? 0) (x := u64 (i + 48))].
  - cbn [pure_steps]. unfold pure_step. destruct (code_at SYSCALL_TEST _) as [p|] eqn:E; vm_compute in E; [|done].
    injection E as <-. reflexivity.
  - destruct (tp_slot Hpages). unfold MAX_TASKS in *. by rewrite u64_small by lia.
Qed.

(** *** Emitted code *)

(** The next instruction is [ins], which leaves memory alone. *)
Lemma ends_here code o ins n j c c' out :
  here code o ins -> (length ins <= 7)%nat -> decode ins = Some (n, j) -> 0 <= o <= 4089 -> 0 <= n <= 7 -> c_rip c = 0x400000 + o ->
  silent j = true -> execute j ∅ 0 (set_rip (0x400000 + (o + n)) c) = Steps c' ∅ -> ends code c' out -> ends code c out.
Proof.
  intros Hh Hl Hd Ho Hn Hc Hj He Hout. apply (ends_pure 1 code c c'); [|done]. cbn [pure_steps]. unfold pure_step.
  by rewrite (code_at_here code o ins n j c), Hj, He.
Qed.

Lemma imm32_value v : 0 <= v < 0x80000000 -> sx32 (from_le (imm32 v)) = v.
Proof.
  intros Hv. assert (E : from_le (imm32 v) = v).
  { unfold imm32, u8. cbn [from_le]. rewrite !Z.shiftr_div_pow2 by lia. dlia. }
  rewrite E. unfold sx32. zcase; lia.
Qed.
Lemma here_app code pre ins ins' post : code = pre ++ (ins ++ ins') ++ post ->
  here code (lenZ pre) ins /\ code = (pre ++ ins) ++ ins' ++ post.
Proof. intros ->. rewrite <- !app_assoc. split; [|done]. by exists pre, (ins' ++ post). Qed.

Definition mov_instr (r : reg) (v : Z) : list Z :=
  match r with RAX => mov_rax_imm v | RDI => mov_rdi_imm v | RSI => mov_rsi_imm v | RDX => [] end.
Lemma ends_mov code pre r v ins' post c out :
  r <> RDX -> code = pre ++ (mov_instr r v ++ ins') ++ post -> 0 <= v < 0x80000000 -> lenZ pre <= 4089 ->
  c_rip c = 0x400000 + lenZ pre ->
  (code = (pre ++ mov_instr r v) ++ ins' ++ post ->
   ends code (set_reg r v (set_rip (0x400000 + lenZ (pre ++ mov_instr r v)) c)) out) -> ends code c out.
Proof.
  intros Hr Hc Hv Hpre Hip He. apply here_app in Hc as [Hh Hc]. specialize (He Hc). pose proof (lenZ_nonneg pre).
  assert (E7 : lenZ (mov_instr r v) = 7) by (by destruct r).
  apply (ends_here code (lenZ pre) (mov_instr r v) 7 (MovImm r v) c (set_reg r v (set_rip (0x400000 + (lenZ pre + 7)) c)));
    try done; try lia.
  - unfold lenZ in E7. lia.
  - rewrite <- (imm32_value v) at 2 by done. by destruct r.
  - cbn [execute]. rewrite u64_small by lia. by destruct c, r.
  - by rewrite lenZ_app, E7 in He.
Qed.
Lemma mov_instr_len r v : r <> RDX -> lenZ (mov_instr r v) = 7.
Proof. by destruct r. Qed.

(** A number of moves and the interrupt. *)
Definition moves (ms : list (reg * Z)) : list Z := concat ((fun x => mov_instr x.1 x.2) <$> ms).
Definition set_regs (ms : list (reg * Z)) (c : cpu) : cpu := foldl (fun c x => set_reg x.1 x.2 c) c ms.
Definition move_ok (x : reg * Z) : Prop := x.1 <> RDX /\ 0 <= x.2 < 0x80000000.

Lemma moves_len ms : Forall move_ok ms -> lenZ (moves ms) = 7 * lenZ ms.
Proof.
  unfold moves. induction 1 as [|[r v] ms [Hr _] _ IH]; [done|]. cbn [fmap list_fmap concat]. rewrite lenZ_app, lenZ_cons, IH, mov_instr_len by done. lia.
Qed.
Lemma set_regs_cons r v ms c : set_regs ((r, v) :: ms) c = set_regs ms (set_reg r v c).
Proof. done. Qed.
Lemma set_rip_reg r v ip c : set_rip ip (set_reg r v c) = set_reg r v (set_rip ip c).
Proof. by destruct r, c. Qed.
Lemma set_rip_regs ms ip c : set_rip ip (set_regs ms c) = set_regs ms (set_rip ip c).
Proof. revert c. induction ms as [|[r v] ms IH]; intros c; [done|]. rewrite !set_regs_cons. by rewrite IH, set_rip_reg. Qed.
Lemma rip_set_regs ms c : c_rip (set_regs ms c) = c_rip c.
Proof. revert c. induction ms as [|[r v] ms IH]; intros c; [done|]. rewrite set_regs_cons, IH. by destruct r, c. Qed.

Lemma ends_moves ms code pre post c out :
  code = pre ++ moves ms ++ post -> Forall move_ok ms -> lenZ pre + lenZ (moves ms) <= 4096 -> c_rip c = 0x400000 + lenZ pre ->
  ends code (set_regs ms (set_rip (0x400000 + lenZ (pre ++ moves ms)) c)) out -> ends code c out.
Proof.
  intros Hc Hms. revert pre c Hc. induction Hms as [|[r v] ms [Hr Hv] Hms IH]; intros pre c Hc Hl Hip He.
  { cbn in He. rewrite app_nil_r, <- Hip in He. by destruct c. }
  cbn [fst snd] in *. assert (Em : moves ((r, v) :: ms) = mov_instr r v ++ moves ms) by done.
  rewrite Em in Hc, Hl, He. rewrite lenZ_app, mov_instr_len in Hl by done. pose proof (lenZ_nonneg (moves ms)).
  apply (ends_mov code pre r v (moves ms) post c); [done..|lia|done|]. intros Hc'.
  apply (IH _ _ Hc'); [rewrite lenZ_app, mov_instr_len by done; lia|by destruct r|].
  rewrite set_rip_reg, <- app_assoc. by destruct c.
Qed.

Lemma syscall_at code pre post c :
  code = pre ++ syscall ++ post -> lenZ pre <= 4089 -> c_rip c = 0x400000 + lenZ pre ->
  code_at code c = Some (Int 0x80, set_rip (0x400000 + lenZ (pre ++ syscall)) c).
Proof.
  intros Hc Hl Hip. pose proof (lenZ_nonneg pre).
  rewrite (code_at_here code (lenZ pre) syscall 2 (Int 0x80)); [by rewrite lenZ_app|by exists pre, post|simpl; lia|done..|lia|lia].
Qed.

(** The moves that prepare a call. *)
Definition emit_moves (e : emitted) : list (reg * Z) :=
  match e with
  | EWrite a n => [(RAX, 0); (RDI, a); (RSI, n)]
  | ESleep ms => [(RAX, 2); (RDI, ms)]
  | EGetPid => [(RAX, 4)]
  | EYield => [(RAX, 5)]
  end.
Lemma emit_eq e : emit e = moves (emit_moves e) ++ syscall.
Proof. by destruct e. Qed.
Lemma emit_moves_ok e : emitted_ok e -> Forall move_ok (emit_moves e).
Proof. destruct e; cbn; intros Hok; repeat (constructor; [split; [done|cbn; lia]|]); constructor. Qed.

Lemma emit_ends code pre e post c out :
  code = pre ++ emit e ++ post -> emitted_ok e -> lenZ pre + lenZ (emit e) <= 4089 -> c_rip c = 0x400000 + lenZ pre ->
  (forall c', c_rip c' = 0x400000 + lenZ (pre ++ emit e) -> ends code c' out) ->
  ends code c (emitted_event code i e :: out).
Proof.
  intros Hc Hok Hlen Hip He. rewrite emit_eq in Hc, Hlen, He. rewrite lenZ_app in Hlen. rewrite <- !app_assoc in Hc.
  pose proof (lenZ_nonneg syscall). apply (ends_moves (emit_moves e) code pre (syscall ++ post) c); [done|by apply emit_moves_ok|lia|done|].
  rewrite (app_assoc pre) in Hc. set (c1 := set_regs _ _).
  assert (Hat := syscall_at code _ _ c1 Hc ltac:(rewrite lenZ_app; lia) ltac:(unfold c1; by rewrite rip_set_regs)).
  rewrite app_assoc in He. unfold c1 in Hat. rewrite set_rip_regs in Hat.
  destruct e as [a n|ms| |]; cbn [emitted_ok emitted_event] in *.
  - apply (ends_write code _ _ (a - 0x400000) n _ _ Hat); try done; try (cbn; lia). by apply He.
  - apply (ends_simple code _ _ 2 0 0 _ Hat); [done|intros; apply sleep_served|done|by apply He].
  - apply (ends_simple code _ _ 4 (i64 i) i _ Hat); [done|intros; apply getpid_served|apply slot_u64|by apply He].
  - apply (ends_simple code _ _ 5 0 0 _ Hat); [done|intros; apply yield_served|done|by apply He].
Qed.

Lemma emitted_ends es code pre data c :
  code = pre ++ emitted_program es data -> Forall emitted_ok es -> lenZ pre + lenZ (emitted_program es []) <= 4089 ->
  c_rip c = 0x400000 + lenZ pre -> ends code c ((emitted_event code i <$> es) ++ [exits]).
Proof.
  unfold emitted_program. intros Hc Hok. revert pre c Hc. induction Hok as [|e es He _ IH]; intros pre c Hc Hl Hip; cbn [fmap list_fmap concat app] in *.
  - rewrite app_nil_r in Hl. change (emit_exit_syscall 0) with (moves [(RAX, 1); (RDI, 0)] ++ syscall) in *.
    rewrite <- !app_assoc in Hc. rewrite lenZ_app in Hl. pose proof (lenZ_nonneg syscall).
    apply (ends_moves [(RAX, 1); (RDI, 0)] code pre (syscall ++ data) c); [done| |lia|done|].
    { repeat (constructor; [split; [done|cbn; lia]|]). constructor. }
    rewrite (app_assoc pre) in Hc. set (c1 := set_regs _ _).
    eapply ends_exit; [apply (syscall_at code _ _ c1 Hc); [rewrite lenZ_app; lia|unfold c1; by rewrite rip_set_regs]|done].
  - rewrite <- !app_assoc in Hc, Hl. rewrite lenZ_app in Hl. pose proof (lenZ_nonneg (concat (emit <$> es) ++ emit_exit_syscall 0 ++ [])).
    apply (emit_ends code pre e (concat (emit <$> es) ++ emit_exit_syscall 0 ++ data)); [done|done|lia|done|].
    intros c' Hc'. apply (IH (pre ++ emit e)); [by rewrite <- app_assoc|rewrite lenZ_app; lia|done].
Qed.
(** *** The memory routines *)

Lemma goes_here code o ins n j c c' :
  here code o ins -> (length ins <= 7)%nat -> decode ins = Some (n, j) -> 0 <= o <= 4089 -> 0 <= n <= 7 -> c_rip c = 0x400000 + o ->
  silent j = true -> execute j ∅ 0 (set_rip (0x400000 + (o + n)) c) = Steps c' ∅ -> goes code c code c'.
Proof.
  intros Hh Hl Hd Ho Hn Hc Hj He. apply goes_pure. unfold pure_step. by rewrite (code_at_here code o ins n j c), Hj, He.
Qed.

(** A routine [r] at the start of the page has an instruction of [k] bytes at
    [o]. *)
Lemma routine_here r data o k : (o + k <= length r)%nat -> here (r ++ data) (Z.of_nat o) (take k (drop o r)).
Proof.
  intros Ho. exists (take o r), (drop (o + k) r ++ data). unfold lenZ. rewrite length_take. split; [|lia].
  rewrite !app_assoc. f_equal. rewrite <- drop_drop, <- app_assoc, take_drop, take_drop. done.
Qed.
Ltac passes r o k := eapply (goes_trans _ _ (r ++ _));
  [eapply (goes_here _ _ _ _ _ _ _ (routine_here r _ o k ltac:(vm_compute; lia))); [vm_compute; lia|vm_compute; reflexivity|lia|lia|reflexivity|reflexivity|reflexivity]
  |cbn [set_rip set_zf set_reg result_in get_reg c_rip c_rax c_rdx c_rsp c_rsi c_rdi c_zf Bool.eqb]].

(** The tail of [memset]: it counts [rdx] down without a store. *)
Lemma memset_tail data (n : nat) a sp si di z :
  Z.of_nat (S n) < two64 -> exists di',
  goes (emit_memset ++ data) (mk_cpu 0x40000A a (Z.of_nat (S n)) sp si di z) (emit_memset ++ data) (mk_cpu 0x40000F a 0 sp si di' true).
Proof.
  revert di z. induction n as [|n IH]; intros di z Hn.
  - exists di. passes emit_memset 10%nat 3%nat. passes emit_memset 13%nat 2%nat. apply goes_refl.
  - edestruct (IH (u32 (di + 1)) (u32 (di + 1) =? 0)) as [di' Hdi]; [lia|]. exists di'.
    passes emit_memset 10%nat 3%nat. replace (u64 (Z.of_nat (S (S n)) - 1)) with (Z.of_nat (S n)) by (rewrite u64_small; lia).
    destruct (Z.eqb_spec (Z.of_nat (S n)) 0); [lia|]. passes emit_memset 13%nat 2%nat. passes emit_memset 8%nat 2%nat. exact Hdi.
Qed.

Lemma insertZ_app_r (h d : list Z) k x : 0 <= k -> insertZ (lenZ h + k) x (h ++ d) = h ++ insertZ k x d.
Proof.
  intros Hk. unfold insertZ, lenZ. destruct (Z.ltb_spec (Z.of_nat (length h) + k) 0), (Z.ltb_spec k 0); try lia.
  rewrite insert_app_r_alt by lia. do 2 f_equal. lia.
Qed.
(** A store of a routine into the data behind it. *)
Lemma routine_store r data o k c c' x :
  (o + 2 <= length r)%nat -> take 2 (drop o r) = [0x88; 0x07] -> Z.of_nat o <= 4089 -> lenZ r + lenZ data <= 4096 -> 0 <= k < lenZ data ->
  c_rip c = 0x400000 + Z.of_nat o -> c_rdi c = 0x400000 + lenZ r + k -> c' = set_rip (0x400000 + (Z.of_nat o + 2)) c -> x = u8 (c_rax c) ->
  goes (r ++ data) c (r ++ insertZ k x data) c'.
Proof.
  intros Ho Hins Ho' Hl Hk Hip Hdi -> ->. rewrite <- insertZ_app_r by lia. pose proof (lenZ_nonneg r).
  pose proof (routine_here r data o 2 Ho) as Hh. rewrite Hins in Hh.
  apply (goes_store _ c (set_rip (0x400000 + (Z.of_nat o + 2)) c) RDI (lenZ r + k)); [|cbn; lia|lia|rewrite lenZ_app; lia].
  by apply (code_at_here _ _ _ 2 (StoreAl RDI) c Hh); [simpl; lia|..|lia|lia].
Qed.

Lemma memset_goes data k (n : nat) a sp si z :
  16 + lenZ data <= 4096 -> 0 <= k < lenZ data -> Z.of_nat (S n) < two64 -> exists di',
  goes (emit_memset ++ data) (mk_cpu 0x400000 a (Z.of_nat (S n)) sp si (0x400010 + k) z)
    (emit_memset ++ insertZ k (u8 a) data) (mk_cpu 0x40000F a 0 sp si di' true).
Proof.
  intros Hl Hk Hn. assert (L : lenZ emit_memset = 16) by reflexivity.
  edestruct (memset_tail (insertZ k (u8 a) data) n a sp si) as [di' Hdi]; [done|]. exists di'.
  passes emit_memset 0%nat 3%nat. destruct (Z.eqb_spec (Z.of_nat (S n)) 0); [lia|]. passes emit_memset 3%nat 2%nat.
  eapply goes_trans; [apply (routine_store emit_memset data 5%nat k); [vm_compute; lia|reflexivity|lia|rewrite L; lia|exact Hk|reflexivity|rewrite L; cbn [c_rdi set_rip set_zf]; lia|reflexivity|reflexivity]|].
  passes emit_memset 7%nat 3%nat. exact Hdi.
Qed.

Lemma memcpy_tail data (n : nat) a sp si di z :
  Z.of_nat (S n) < two64 -> exists di',
  goes (emit_memcpy ++ data) (mk_cpu 0x40000F a (Z.of_nat (S n)) sp si di z) (emit_memcpy ++ data) (mk_cpu 0x400014 a 0 sp si di' true).
Proof.
  revert di z. induction n as [|n IH]; intros di z Hn.
  - exists di. passes emit_memcpy 15%nat 3%nat. passes emit_memcpy 18%nat 2%nat. apply goes_refl.
  - edestruct (IH (u64 (di + 1)) (u64 (di + 1) =? 0)) as [di' Hdi]; [lia|]. exists di'.
    passes emit_memcpy 15%nat 3%nat. replace (u64 (Z.of_nat (S (S n)) - 1)) with (Z.of_nat (S n)) by (rewrite u64_small; lia).
    destruct (Z.eqb_spec (Z.of_nat (S n)) 0); [lia|]. passes emit_memcpy 18%nat 2%nat. passes emit_memcpy 12%nat 3%nat. exact Hdi.
Qed.
Lemma memcpy_goes data k j (n : nat) a sp z :
  21 + lenZ data <= 4096 -> Forall byte data -> 0 <= k < lenZ data -> 0 <= j < lenZ data -> Z.of_nat (S n) < two64 -> exists a' si' di',
  goes (emit_memcpy ++ data) (mk_cpu 0x400000 a (Z.of_nat (S n)) sp (0x400015 + j) (0x400015 + k) z)
    (emit_memcpy ++ insertZ k (code_byte data j) data) (mk_cpu 0x400014 a' 0 sp si' di' true).
Proof.
  intros Hl Hby Hk Hj Hn. assert (L : lenZ emit_memcpy = 21) by reflexivity.
  assert (exists b, b = code_byte data j /\ byte b) as (b & Eb & Hb).
  { eexists. split; [done|]. unfold code_byte. destruct (lookupZ data j) as [x|] eqn:E; [|done]. by apply (lookupZ_Forall _ _ _ _ Hby E). }
  rewrite <- Eb. destruct (memcpy_tail (insertZ k b data) n (a - u8 a + u8 b) sp (u64 (0x400015 + j + 1)) (u64 (0x400015 + k + 1))
    (u64 (0x400015 + k + 1) =? 0) Hn) as [di' Hdi].
  exists (a - u8 a + u8 b), (u64 (0x400015 + j + 1)), di'.
  passes emit_memcpy 0%nat 3%nat. destruct (Z.eqb_spec (Z.of_nat (S n)) 0); [lia|]. passes emit_memcpy 3%nat 2%nat.
  eapply goes_trans; [eapply (goes_load _ _ _ RSI (21 + j));
    [apply (code_at_here _ _ _ 2 (LoadAl RSI) _ (routine_here emit_memcpy data 5%nat 2%nat ltac:(vm_compute; lia)));
       [vm_compute; lia|reflexivity|reflexivity|lia|lia]
    |cbn [set_rip set_zf c_rsi get_reg]; lia|lia]|].
  replace (code_byte (emit_memcpy ++ data) (21 + j)) with b.
  2: { rewrite Eb. unfold code_byte. rewrite lookupZ_app_r by lia. do 2 f_equal. lia. }
  eapply goes_trans; [apply (routine_store emit_memcpy data 7%nat k _ _ b); [vm_compute; lia|reflexivity|lia|rewrite L; lia|exact Hk|reflexivity|rewrite L; cbn; lia|reflexivity|]|].
  { unfold byte in *. cbn. unfold u8. dlia. }
  passes emit_memcpy 9%nat 3%nat. passes emit_memcpy 12%nat 3%nat. exact Hdi.
Qed.

(** [strlen] compares once and then only counts: after any number of steps
    below 2^64 it is still counting. *)
Definition counting (a : Z) (d sp si di : Z) (c : cpu) : Prop :=
  c = mk_cpu 0x400007 a d sp si di false \/ c = mk_cpu 0x400009 a d sp si di false \/ c = mk_cpu 0x40000C a d sp si di false.

Lemma strlen_counts data a d sp si di c :
  counting a d sp si di c -> 0 <= a < two64 - 1 -> exists a' c', pure_step (emit_strlen ++ data) c = Some c' /\
    counting a' d sp si di c' /\ a <= a' <= a + 1.
Proof.
  intros Hc Ha. unfold pure_step. destruct Hc as [->|[->| ->]].
  - exists a. eexists. rewrite (code_at_here _ _ _ _ _ _ (routine_here emit_strlen data 7%nat 2%nat ltac:(vm_compute; lia))
      ltac:(vm_compute; lia) ltac:(vm_compute; reflexivity)) by (reflexivity || lia).
    split; [reflexivity|]. split; [right; by left|lia].
  - exists (a + 1). eexists. rewrite (code_at_here _ _ _ _ _ _ (routine_here emit_strlen data 9%nat 3%nat ltac:(vm_compute; lia))
      ltac:(vm_compute; lia) ltac:(vm_compute; reflexivity)) by (reflexivity || lia).
    split; [reflexivity|]. unfold result_in. cbn [get_reg set_rip c_rax set_reg set_zf]. rewrite u64_small by lia.
    split; [|lia]. destruct (Z.eqb_spec (a + 1) 0); [lia|]. right. right. reflexivity.
  - exists a. eexists. rewrite (code_at_here _ _ _ _ _ _ (routine_here emit_strlen data 12%nat 2%nat ltac:(vm_compute; lia))
      ltac:(vm_compute; lia) ltac:(vm_compute; reflexivity)) by (reflexivity || lia).
    split; [reflexivity|]. split; [by left|lia].
Qed.
Lemma strlen_still data n a d sp si di c env s tr :
  counting a d sp si di c -> 0 <= a -> a + Z.of_nat n < two64 - 1 -> polite env -> on_cpu (emit_strlen ++ data) s ->
  exists c' s', run TASKS_ADDR VERSION_PTR ELF_BASE n env c s tr = Ret (Still c', s', tr).
Proof.
  revert a c s. induction n as [|n IH]; intros a c s Hc Ha Hn Henv Hs; [by exists c, s|].
  destruct (strlen_counts data a d sp si di c Hc ltac:(lia)) as (a' & c' & Hp & Hc' & Ha').
  apply pure_executes in Hp as (j & c1 & Hat & Hj). destruct (run_step _ _ _ _ _ _ Hat Hj n env s tr Henv Hs) as (s' & -> & Hs').
  apply (IH a'); [done|lia|lia|done|done].
Qed.
Lemma strlen_goes data k a d sp si z :
  15 + lenZ data <= 4096 -> 0 <= k < lenZ data -> code_byte data k <> 0 ->
  forall n env s tr, Z.of_nat n < two64 -> polite env -> on_cpu (emit_strlen ++ data) s ->
  exists c' s', run TASKS_ADDR VERSION_PTR ELF_BASE n env (mk_cpu 0x400000 a d sp si (0x40000F + k) z) s tr = Ret (Still c', s', tr).
Proof.
  intros Hl Hk Hb n env s tr Hn Henv Hs. destruct n as [|n]; [by eexists _, _|].
  assert (H1 : pure_step (emit_strlen ++ data) (mk_cpu 0x400000 a d sp si (0x40000F + k) z) =
    Some (mk_cpu 0x400003 0 d sp si (0x40000F + k) true)).
  { unfold pure_step. by rewrite (code_at_here _ _ _ _ _ _ (routine_here emit_strlen data 0%nat 3%nat ltac:(vm_compute; lia))
      ltac:(vm_compute; lia) ltac:(vm_compute; reflexivity)) by (reflexivity || lia). }
  apply pure_executes in H1 as (j & c1 & Hat & Hj). destruct (run_step _ _ _ _ _ _ Hat Hj n env s tr Henv Hs) as (s1 & -> & Hs1). clear Hat Hj Hs.
  destruct n as [|n]; [by eexists _, _|].
  assert (Hat : code_at (emit_strlen ++ data) (mk_cpu 0x400003 0 d sp si (0x40000F + k) true) =
    Some (CmpByte RDI RAX 0, mk_cpu 0x400007 0 d sp si (0x40000F + k) true)).
  { by rewrite (code_at_here _ _ _ _ _ _ (routine_here emit_strlen data 3%nat 4%nat ltac:(vm_compute; lia))
      ltac:(vm_compute; lia) ltac:(vm_compute; reflexivity)) by (reflexivity || lia). }
  destruct (run_step (emit_strlen ++ data) _ _ _ (emit_strlen ++ data) (mk_cpu 0x400007 0 d sp si (0x40000F + k) false) Hat) with (m := n) (env := env) (s := s1) (tr := tr)
    as (s2 & -> & Hs2); [|done|done|].
  - intros x Hx. cbn [execute get_reg c_rdi c_rax]. rewrite u64_small by lia. replace (0x40000F + k + 0) with (0x400000 + (15 + k)) by lia.
    rewrite (code_access (emit_strlen ++ data)) by (done || lia). cbn [with_access]. rewrite (oc_code _ _ Hx) by lia.
    eexists. split; [|by rewrite with_pmem_same]. unfold code_byte in *. rewrite lookupZ_app_r by (change (lenZ emit_strlen) with 15; lia).
    change (lenZ emit_strlen) with 15. replace (15 + k - 15) with k by lia. by destruct (Z.eqb_spec (default 0 (lookupZ data k)) 0).
  - apply (strlen_still data n 0 d sp si (0x40000F + k)); [by left|lia|lia|done|done].
Qed.
Lemma test_programs_end code out : (code, out) ∈ test_programs -> ends code start (out i).
Proof.
  unfold test_programs. rewrite !elem_of_cons, elem_of_nil.
  intros [[= -> ->]|[[= -> ->]|[[= -> ->]|[[= -> ->]|[[= -> ->]|[[= -> ->]|[[= -> ->]|[[= -> ->]|[[= -> ->]|[]]]]]]]]]].
  - runs 3%nat. writes 32 19. runs 1%nat. leaves.
  - runs 3%nat. writes 32 19. runs 1%nat. leaves.
  - eapply ends_privileged. vm_compute. reflexivity.
  - eapply ends_privileged. vm_compute. reflexivity.
  - runs 2%nat. calls sleep_served. runs 3%nat. writes 48 9. runs 1%nat. leaves.
  - apply pid_ends.
  - runs 3%nat. writes 64 1. runs 1%nat. calls yield_served. runs 3%nat. writes 65 2. runs 1%nat. leaves.
  - runs 3%nat. writes 64 1. runs 1%nat. calls yield_served. runs 3%nat. writes 65 2. runs 1%nat. leaves.
  - runs 1%nat. calls debuglog_denied. runs 3%nat. writes 41 14. runs 1%nat. leaves.
Qed.
Lemma displaced_programs_end code out : (code, out) ∈ displaced_programs -> ends code start (out i).
Proof.
  unfold displaced_programs. rewrite !elem_of_cons, elem_of_nil. intros [[= -> ->]|[[= -> ->]|[]]].
  - runs 3%nat. eapply (ends_call _ _ _ 0 EFAULT); [vm_compute; reflexivity| |reflexivity|].
    { apply write_refused; vm_compute; intuition discriminate. }
    cbn [set_reg]. runs 3%nat. writes 50 21. runs 1%nat. leaves.
  - runs 1%nat. asks. runs 3%nat. writes 47 6. runs 2%nat. leaves.
Qed.

(** The routines of the runtime, called on data behind them in the page.  The
    jump of [strlen] misses the comparison: on a string that is not empty it
    has not returned after any number of steps below 2^64.  Those of [memcpy]
    and [memset] miss the store: for every count they copy or set the first
    byte only, and return. *)
Theorem runtime_routines_fail data k :
  21 + lenZ data <= 4096 -> Forall byte data -> 0 <= k < lenZ data ->
  (code_byte data k <> 0 -> forall a d sp si z n env s tr, Z.of_nat n < two64 -> polite env -> on_cpu (emit_strlen ++ data) s ->
    exists c' s', run TASKS_ADDR VERSION_PTR ELF_BASE n env (mk_cpu 0x400000 a d sp si (0x40000F + k) z) s tr = Ret (Still c', s', tr)) /\
  (forall j n a sp z, 0 <= j < lenZ data -> 1 <= n < two64 -> exists a' si' di',
    goes (emit_memcpy ++ data) (mk_cpu 0x400000 a n sp (0x400015 + j) (0x400015 + k) z)
      (emit_memcpy ++ insertZ k (code_byte data j) data) (mk_cpu 0x400014 a' 0 sp si' di' true)) /\
  (forall n a sp si z, 1 <= n < two64 -> exists di',
    goes (emit_memset ++ data) (mk_cpu 0x400000 a n sp si (0x400010 + k) z)
      (emit_memset ++ insertZ k (u8 a) data) (mk_cpu 0x40000F a 0 sp si di' true)).
Proof.
  intros Hl Hby Hk. split; [|split].
  - intros Hb a d sp si z. apply strlen_goes; [lia|done|done].
  - intros j n a sp z Hj Hn. replace n with (Z.of_nat (S (Z.to_nat (n - 1)))) by lia. apply memcpy_goes; [lia|done..|lia].
  - intros n a sp si z Hn. replace n with (Z.of_nat (S (Z.to_nat (n - 1)))) by lia. apply memset_goes; [lia|done|lia].
Qed.
End task.

(** ** From the kernel to the program *)

Section spawned.
Context {D : Type} `{BlockDevice D}.
Variables TASKS_ADDR VERSION_PTR ELF_BASE : Z.
Abbreviation kstate := (kstate (D:=D)).
Variable K : kernel_tables.

(** The kernel can take on the program [code], of at most a page, as a user
    without privileges. *)
Record can_spawn (code : list Z) (s : sys (A:=frame_state)) : Prop := {
  cs_ready : loader_ready TASKS_ADDR K code s;
  cs_bytes : Forall byte code;
  cs_len : 1 <= lenZ code <= 4096;
  cs_zero : 0 ∉ fa_free (frames (mach s));
  cs_idle : exists t0, lookupZ (TASKS s) 0 = Some t0 /\ page_table_root t0 = KERNEL_PML4_PA (mach s);
  cs_user : forall j tj, 1 <= j -> lookupZ (TASKS s) j = Some tj -> user_id tj <> 0;
}.

(** The scheduler has given the processor to task [i], which was created in
    [s1] with the frames [X]; its frame on the kernel stack and its memory are
    untouched.  Others may have taken frames since, and given them back. *)
Record dispatched (X : gset Z) (i : Z) (s1 : sys (A:=frame_state)) (k : kstate) : Prop := {
  dp_wf : k_wf k;
  dp_current : CURRENT_TASK (k_sys k) = i;
  dp_tasks : forall j tj, j = 0 \/ j = i -> lookupZ (TASKS s1) j = Some tj ->
    exists tj2, lookupZ (TASKS (k_sys k)) j = Some tj2 /\ same_task tj tj2;
  dp_cr3 : forall ti, lookupZ (TASKS s1) i = Some ti -> CR3 (k_sys k) = page_table_root ti;
  dp_inv : fa_inv (frames (mach s1)) -> fa_inv (frames (mach (k_sys k)));
  dp_limit : fa_limit (frames (mach (k_sys k))) = fa_limit (frames (mach s1));
  dp_taken : forall f, f ∈ X \/ f ∈ k_main K -> f ∉ fa_free (frames (mach s1)) -> f ∉ fa_free (frames (mach (k_sys k)));
  dp_root : KERNEL_PML4_PA (mach (k_sys k)) = KERNEL_PML4_PA (mach s1);
  dp_mem : forall f x, f ∈ k_frames K \/ f ∈ X -> pg f <= x < pg f + 4096 -> load8 (kmem k) x = load8 (pmem (mach s1)) x;
  dp_stack : forall x, stack_top TASKS_ADDR i - 416 <= x < stack_top TASKS_ADDR i ->
    load8 (kmem k) x = load8 (pmem (mach s1)) x;
}.

(** [spawn_userspace_task] makes a task of [code], with frames [X] that were
    free; once it is given the processor it makes exactly the calls [out], with
    whatever happens between its steps that leaves its frames alone, and when
    it is gone these frames are free again. *)
Definition plays (base : Z) (code : list Z) (out : Z -> list event) (s : sys (A:=frame_state)) : Prop :=
  exists i ti X s1, spawn_userspace_task TASKS_ADDR base code s = Ret (Ok i, s1) /\ 1 <= i < MAX_TASKS /\
    lookupZ (TASKS s1) i = Some ti /\
    X ⊆ fa_free (frames (mach s)) /\ fa_free (frames (mach s1)) = fa_free (frames (mach s)) ∖ X /\
    forall (k : kstate) env, dispatched X i s1 k -> polite K X i env ->
      exists n s', run TASKS_ADDR VERSION_PTR ELF_BASE n env (resume (kmem k) (saved_sp ti)) k [] = Ret (Over, s', out i) /\
        gone K X i s'.

Lemma resume_start m m' sp :
  iret_frame m sp 0x400000 0x1B 0x501000 0x23 -> (forall x, sp <= x < sp + 416 -> load8 m' x = load8 m x) -> resume m' sp = start.
Proof.
  intros (H0 & H1 & _ & H2 & H3 & _) Hm. unfold resume, start.
  assert (Hw : forall j, 0 <= j < 20 -> read_u64 m' (sp + 256 + 8 * j) = read_u64 m (sp + 256 + 8 * j)).
  { intros j Hj. apply read_u64_ext. intros x Hx. apply Hm. lia. }
  assert (Hz : forall j, 0 <= j < 15 -> read_u64 m (sp + 256 + 8 * j) = 0).
  { intros j Hj. replace (sp + 256 + 8 * j) with (sp + 8 * (32 + j)) by lia. apply H0. lia. }
  rewrite !Hw, (Hz 10), (Hz 11), (Hz 12), (Hz 14) by lia. replace (sp + 256 + 8 * 15) with (sp + 376) by lia.
  replace (sp + 256 + 8 * 17) with (sp + 392) by lia. replace (sp + 256 + 8 * 18) with (sp + 400) by lia.
  rewrite H1, H2, H3. reflexivity.
Qed.

(** The rights of the pages of a flat program. *)
Lemma flat_code_page code (l : list user_page) :
  1 <= lenZ code <= 4096 -> rights <$> l = layout (flat_segments code) ->
  exists q f, l = [q; f] /\ up_vpn q = 1024 /\ up_w q = true /\ up_x q = true /\ up_vpn f = 1280.
Proof.
  intros Hc Hl. unfold layout, flat_segments in Hl. cbn [fmap list_fmap concat segment_layout] in Hl.
  destruct (Z.eqb_spec (lenZ code) 0); [lia|]. rewrite app_nil_r in Hl. unfold segment_pages in Hl.
  replace ((0x400000 + lenZ code + 4095) / 4096 - 0x400000 / 4096) with 1 in Hl by dlia.
  change (seqZ (0x400000 / 4096) 1) with [1024] in Hl. destruct l as [|q [|f [|]]]; try discriminate Hl.
  exists q, f. unfold rights in Hl. cbn in Hl. injection Hl as E1 E2 E3 E4 E5 E6. done.
Qed.

Lemma spawned_plays base code out s :
  can_spawn code s -> 0 <= base -> base + 120 + lenZ code < two63 ->
  (forall X l t u i q, task_pages X l i q ->
     ends TASKS_ADDR VERSION_PTR ELF_BASE K X l t u i q code start (out i)) ->
  plays base code out s.
Proof.
  intros [Hlr Hby Hlen H0 (t0 & Ht0 & Hr0) Hus] Hb Hbl Hout.
  destruct (spawn_task_spec TASKS_ADDR K base code s Hlr Hb Hbl)
    as (i & ti & u & l & t & X & s1 & Hs1 & Hi & Hti & Hst & Hch & Hir & Hpl & Hkr & HXF & Hfree & Hv & Hri & (d & Hd) & _).
  pose proof (lookupZ_Some_lt _ _ _ Hti) as Hlt.
  set (t1 := spawned TASKS_ADDR i (pg u) ((fun q => pg (up_frame q)) <$> l) ti) in *.
  assert (Ht1 : lookupZ (TASKS s1) i = Some t1) by (destruct Hch as (-> & _); by apply lookupZ_insertZ_eq).
  assert (Hlen1 : lenZ (user_data_frames ti) = MAX_USER_FRAMES).
  { pose proof (lr_slots _ _ _ _ Hlr) as Hsl. rewrite Forall_forall in Hsl. apply Hsl, list_elem_of_lookup.
    unfold lookupZ in Hti. destruct (i <? 0); [done|eauto]. }
  destruct (spawned_records TASKS_ADDR i (pg u) l ti Hlen1) as [Hcnt Harr]. fold t1 in Hcnt, Harr.
  destruct (flat_code_page code l Hlen Hri) as (q & f & El & Eq & Ew & Ex & Ef).
  rewrite take_ge in Hcnt, Harr by (rewrite length_fmap, El; simpl; lia).
  assert (Hp : task_pages X l i q).
  { rewrite El. split; [done|set_solver| |simpl; lia|apply elem_of_cons; by left|done|done|].
    - cbn [fmap list_fmap]. rewrite Eq, Ef. apply NoDup_cons. split; [by intros [=]%list_elem_of_singleton|apply NoDup_singleton].
    - cbn [fmap list_fmap]. by rewrite Eq, Ef. }
  exists i, t1, X, s1. do 5 (split; [done|]). intros k env [P1 P2 P3 P4 P5 P5' P5'' P6 P7 P8] Henv.
  destruct (Hout X l t u i q Hp) as [n Hn]. exists n. rewrite (resume_start (pmem (mach s1)) (kmem k)); [|done|].
  2: { intros x Hx. apply P8. cbn [saved_sp t1 spawned with_frames with_state with_sp] in Hx. unfold t1 in Hx. cbn in Hx. lia. }
  destruct (Hn env k [] Henv) as (s' & Hs' & Hg); [|by exists s'].
  destruct (P3 i t1 ltac:(by right) Ht1) as (ti2 & Hti2 & E1 & E2 & E3 & E4).
  assert (Ht01 : lookupZ (TASKS s1) 0 = Some t0) by (rewrite (slot_changed_other _ _ _ _ _ Hch) by lia; done).
  destruct (P3 0 t0 ltac:(by left) Ht01) as (t2 & Ht2 & E5 & _).
  split; [done|done| | |by rewrite (P4 t1)| |].
  - exists ti2. rewrite E1, E2, E3, E4. split; [done|]. split; [done|]. split; [by apply (Hus i ti); [lia|]|done].
  - exists t2. split; [done|]. rewrite E5, Hr0. pose proof (lr_tables _ _ _ _ Hlr) as (_ & _ & -> & _). done.
  - by apply (placed_resumed K X l t u (mach s1)).
  - intros j Hj. assert (HqF : up_frame q ∈ X).
    { apply (placed_data _ _ _ _ _ _ _ Hpl), list_elem_of_fmap. exists q. split; [done|apply Hp]. }
    rewrite (P7 (up_frame q)) by (lia || by right). destruct (Hd q j (tp_code _ _ _ _ Hp) Hj) as [Hsl ->].
    rewrite (flat_page_data code d (up_vpn q) j Hsl Hby), Eq. cbn [Z.eqb Pos.eqb andb]. unfold code_byte.
    destruct (Z.ltb_spec j (Z.min 4096 (lenZ code))); [done|]. by rewrite (proj2 (lookupZ_None code j)) by lia.
Qed.

(** C14: the test programs do what they are there for: spawned from their
    bytes and given the processor, each makes exactly the system calls of its
    list with these results, sends exactly these bytes, and ends; the two that
    use privileged instructions are killed at once.  Between the instructions
    other tasks may run, be created and end, as long as the task's slot, its
    frames and the kernel's tables are kept; afterwards the frames the task
    took are free again, together with the kernel's page tables above 2 GiB. *)
Theorem test_programs_play base code out s :
  (code, out) ∈ test_programs -> can_spawn code s -> 0 <= base < two32 -> plays base code out s.
Proof.
  intros Hc Hs Hb. pose proof (cs_len _ _ Hs). apply spawned_plays; [done|lia|lia|].
  intros X l t u i q Hp. by apply test_programs_end.
Qed.

(** The test of a bad pointer and the test of the runtime address their
    message five bytes and one byte too low, and send the end of their code
    and a part of the message. *)
Theorem displaced_programs_play base code out s :
  (code, out) ∈ displaced_programs -> can_spawn code s -> 0 <= base < two32 -> plays base code out s.
Proof.
  intros Hc Hs Hb. pose proof (cs_len _ _ Hs). apply spawned_plays; [done|lia|lia|].
  intros X l t u i q Hp. by apply displaced_programs_end.
Qed.

(** A program put together with the emitters of the runtime makes the
    calls it was built from, in order: its writes send the bytes of its page
    they name, its sleeps, yields and requests for its number return, and then
    it exits and its frames are free again. *)
Theorem emitted_programs_play base es data s :
  let code := emitted_program es data in
  Forall emitted_ok es -> lenZ (emitted_program es []) <= 4089 -> can_spawn code s -> 0 <= base < two32 ->
  plays base code (fun i => (emitted_event code i <$> es) ++ [exits]) s.
Proof.
  intros code Hok Hl Hs Hb. pose proof (cs_len _ _ Hs). apply spawned_plays; [done|lia|lia|].
  intros X l t u i q Hp. by apply (emitted_ends _ _ _ K X l t u i q Hp es code [] data).
Qed.
End spawned.

(** ** Witnesses *)

(** Task [i] of [s1] on the processor, with the rest of the kernel at rest. *)
Definition sample_dispatch (i : Z) (ti : Task) (s1 : sys (A:=frame_state)) : kstate :=
  mk_k (mk_sys (mach s1) (insertZ i ti (insertZ 0 (default UNUSED_TASK (lookupZ (TASKS s1) 0)) (replicate 256 UNUSED_TASK)))
          i 0 (mk_stats 0 0 0) (page_table_root ti) 0)
       [] (mk_syscall_stats 0 (replicate 64 0) 0) None sample_disk (Some vfs_new) FD_TABLE.
Lemma sample_dispatched K X i ti s1 :
  1 <= i < MAX_TASKS -> lookupZ (TASKS s1) i = Some ti -> dispatched TASKS_AT K X i s1 (sample_dispatch i ti s1).
Proof.
  intros Hi Hti. unfold MAX_TASKS in *.
  assert (L : lenZ (insertZ 0 (default UNUSED_TASK (lookupZ (TASKS s1) 0)) (replicate 256 UNUSED_TASK)) = 256) by (by rewrite lenZ_insertZ).
  split; try done.
  - split; cbn [sample_dispatch k_sys TASKS CURRENT_TASK]; [by rewrite lenZ_insertZ, L|unfold MAX_TASKS; lia|reflexivity].
  - intros j tj Hj Ht. exists tj. cbn [sample_dispatch k_sys TASKS]. split; [|done]. destruct Hj as [-> | ->].
    + rewrite lookupZ_insertZ_ne by lia. rewrite Ht. by rewrite lookupZ_insertZ_eq.
    + rewrite lookupZ_insertZ_eq by (rewrite L; lia). congruence.
  - intros tj Hj. cbn. congruence.
Qed.

Lemma sample_spawn code : Forall byte code -> 1 <= lenZ code <= 4096 -> exists K (s : sys (A:=frame_state)), can_spawn TASKS_AT K code s.
Proof.
  intros Hb Hl. destruct (ready_sys code) as (K & s & Hlr & H0 & Ht0 & Hu & _); [lia|]. exists K, s. split; try done.
  intros j tj Hj Ht. rewrite (Hu j tj Hj Ht). done.
Qed.
Definition at_rest : nat -> kstate (D:=IdeDisk * drive) -> kstate (D:=IdeDisk * drive) := fun _ s => s.
Lemma at_rest_polite K X i : polite K X i at_rest.
Proof. intros n s. apply resumed_refl. Qed.

Lemma test_programs_play_witness :
  exists K s i ti s1 n s', spawn_userspace_task TASKS_AT 0x200000 TASK_A s = Ret (Ok i, s1) /\ can_spawn TASKS_AT K TASK_A s /\
    run TASKS_AT 0 0 n at_rest (resume (pmem (mach s1)) (saved_sp ti)) (sample_dispatch i ti s1) [] =
      Ret (Over, s', [sends (line_of "Hello from Task A!"); exits]).
Proof.
  destruct (sample_spawn TASK_A) as (K & s & Hs); [apply forallb_byte; reflexivity|split; [discriminate|reflexivity || discriminate]|].
  destruct (test_programs_play TASKS_AT 0 0 K 0x200000 TASK_A (fun _ => [sends (line_of "Hello from Task A!"); exits]) s)
    as (i & ti & X & s1 & Hsp & Hi & Hti & _ & _ & Hrun); [apply elem_of_cons; by left|exact Hs|split; [discriminate|reflexivity]|].
  destruct (Hrun (sample_dispatch i ti s1) at_rest) as (n & s' & Hr & _); [by apply sample_dispatched|apply at_rest_polite|].
  exists K, s, i, ti, s1, n, s'. split; [exact Hsp|]. split; [exact Hs|exact Hr].
Defined.

Definition sample_ops : list emitted := [EGetPid; EWrite 0x400039 3; EYield].
Lemma emitted_programs_play_witness :
  let code := emitted_program sample_ops (bytes_of "ok" ++ [0x0A]) in
  exists K s i ti s1 n s', spawn_userspace_task TASKS_AT 0x200000 code s = Ret (Ok i, s1) /\ can_spawn TASKS_AT K code s /\
    run TASKS_AT 0 0 n at_rest (resume (pmem (mach s1)) (saved_sp ti)) (sample_dispatch i ti s1) [] =
      Ret (Over, s', (emitted_event code i <$> sample_ops) ++ [exits]).
Proof.
  intros code. destruct (sample_spawn code) as (K & s & Hs); [apply forallb_byte; reflexivity|split; discriminate|].
  destruct (emitted_programs_play TASKS_AT 0 0 K 0x200000 sample_ops (bytes_of "ok" ++ [0x0A]) s)
    as (i & ti & X & s1 & Hsp & Hi & Hti & _ & _ & Hrun); [|discriminate|exact Hs|split; [discriminate|reflexivity]|].
  { repeat constructor; cbn; discriminate. }
  destruct (Hrun (sample_dispatch i ti s1) at_rest) as (n & s' & Hr & _); [by apply sample_dispatched|apply at_rest_polite|].
  exists K, s, i, ti, s1, n, s'. split; [exact Hsp|]. split; [exact Hs|exact Hr].
Defined.
