(* ===== verification/SelfTest.v ===== *)
(** * The start-up test of [kernel_main] (main.rs)

    The test spawns eight programs, walks through the file system operations,
    and stores a program in a file to load it from there.  Each part returns
    what the test prints.  That no frame is lost at its end, and the loops that
    fill the task table, are in the file Isolation. *)

From S2P Require Import Vfs Prelude FdTable Mem Frame Paging AddressSpace Elf Task Sched Process Lifecycle Isolation Programs.

(** ** The file system demonstration *)

Record vfs_log : Type := mk_vfs_log {
  mkdir_line : result string Z;
  touch_line : result string Z;
  write_line : result string Z;
  cat_line : result string (list Z);
  ls_lines : list (byte_string * Z * VfsNodeType);
  rm_line : result string ();
  ls_after : list (byte_string * Z * VfsNodeType);
}.

Definition vfs_demonstration (g : option Vfs) : outcome (vfs_log * option Vfs) :=
  x ← create_dir (bytes_of "/test") g; let '(mkdir, g) := x in
  x ← create_file (bytes_of "/test/file.txt") g; let '(touch, g) := x in
  x ← write_file (bytes_of "/test/file.txt") 0 (bytes_of "hello world") g; let '(write, g) := x in
  cat ← read_file (bytes_of "/test/file.txt") 0 256 g;
  entries ← readdir (bytes_of "/test") g;
  x ← Vfs.delete (bytes_of "/test/file.txt") g; let '(rm, g) := x in
  entries2 ← readdir (bytes_of "/test") g;
  Ret (mk_vfs_log mkdir touch write cat entries rm entries2, g).

(** ** A program in a file *)

(** [bytes_read] is 0 when the read fails. *)
Definition elf_from_vfs (path : byte_string) (elf_bytes : list Z) (g : option Vfs) : outcome (bool * list Z * option Vfs) :=
  x ← create_dir (bytes_of "/bin") g; let '(_, g) := x in
  x ← create_file path g; let '(_, g) := x in
  x ← write_file path 0 elf_bytes g; let '(_, g) := x in
  r ← read_file path 0 8192 g;
  let read_buf := match r with Ok d => d | Err _ => [] end in
  Ret ((lenZ read_buf =? lenZ elf_bytes) && bool_decide (read_buf = elf_bytes), read_buf, g).

(** ** The programs *)

Definition test_list : list (list Z) :=
  [PRIV_TEST; PRIV_TEST_2; PTR_TEST_BAD; SLEEP_TEST; SYSCALL_TEST; YIELD_TEST_Y; YIELD_TEST_Z; PERM_TEST].

Section tests.
Context {A : Type} `{FrameAllocator A}.
Variable TASKS_ADDR : Z.
Variable base : Z.

Fixpoint spawn_tests (codes : list (list Z)) (s : sys (A:=A)) : outcome (list (result string Z) * sys) :=
  match codes with
  | [] => Ret ([], s)
  | code :: codes' =>
      x ← spawn_userspace_task TASKS_ADDR base code s; let '(r, s) := x in
      x ← spawn_tests codes' s; let '(rs, s) := x in
      Ret (r :: rs, s)
  end.
End tests.

(** ** What the file system shows *)

Definition demo_vfs : option Vfs := Eval vm_compute in match vfs_demonstration vfs_init with Ret (_, g) => g | _ => None end.

Lemma vfs_demonstration_eq :
  vfs_demonstration vfs_init =
    Ret (mk_vfs_log (Ok 1) (Ok 2) (Ok 11) (Ok (bytes_of "hello world")) [(bytes_of "file.txt", 0, File)] (Ok ()) [], demo_vfs).
Proof. vm_compute. reflexivity. Qed.

(** The file system with bytes in the new file. *)
Definition stored (v : Vfs) (elf : list Z) : Vfs :=
  mk_vfs (insertZ 4 (with_data elf (lenZ elf) (new_file (bytes_of "task_a") 3)) (nodes v)) (next_inode v).

Lemma write_node_empty nm par d : lenZ d < two64 -> write_node (new_file nm par) 0 d = Ret (Ok (lenZ d), with_data d (lenZ d) (new_file nm par)).
Proof.
  intros Hd. destruct (write_node_spec (new_file nm par) 0 d eq_refl ltac:(lia) ltac:(lia)) as (buf & -> & Hl & Hs & _).
  assert (E : buf = d); [|by rewrite E]. change (lenZ (data (new_file nm par))) with 0 in Hl. pose proof (lenZ_nonneg d).
  unfold slice in Hs. destruct (_ && _); [|done]. apply Ret_inj in Hs. change (drop (Z.to_nat 0) buf) with buf in Hs.
  rewrite take_ge in Hs by (unfold lenZ in *; lia). done.
Qed.

Lemma elf_from_vfs_eq elf :
  lenZ elf <= 8192 ->
  exists g, elf_from_vfs (bytes_of "/bin/task_a") elf demo_vfs = Ret (true, elf, g).
Proof.
  intros Hl. unfold elf_from_vfs.
  assert (E1 : exists r g, create_dir (bytes_of "/bin") demo_vfs = Ret (r, g) /\ exists r' v, create_file (bytes_of "/bin/task_a") g = Ret (r', Some v) /\
    resolve_path (bytes_of "/bin/task_a") v = Ret (Some 4) /\ get_node 4 v = Some (new_file (bytes_of "task_a") 3) /\
    resolve_path (bytes_of "/bin/task_a") (stored v elf) = Ret (Some 4) /\ lenZ (nodes v) = 5).
  { eexists _, _. split; [vm_compute; reflexivity|]. eexists _, _. split; [vm_compute; reflexivity|]. do 2 (split; [vm_compute; reflexivity|]). split; vm_compute; reflexivity. }
  destruct E1 as (r & g & -> & r' & v & E2 & E3 & E4 & E5 & E6). rewrite bind_Ret. cbv beta iota. rewrite E2, bind_Ret. cbv beta iota.
  unfold write_file. rewrite E3, bind_Ret. unfold write_file_by_node. cbn [with_vfs_mut]. rewrite E4, write_node_empty, !bind_Ret by lia.
  cbn [fst snd]. change (mk_vfs _ (next_inode v)) with (stored v elf). unfold read_file. cbn [with_vfs]. rewrite E5, bind_Ret.
  assert (E7 : get_node 4 (stored v elf) = Some (with_data elf (lenZ elf) (new_file (bytes_of "task_a") 3))) by (apply lookupZ_insertZ_eq; lia).
  unfold read_file_by_node. cbn [with_vfs]. rewrite E7.
  unfold read_node. cbn [node_type with_data new_file data]. change (bool_decide (File <> File)) with false. cbv iota.
  pose proof (lenZ_nonneg elf). destruct (Z.leb_spec (lenZ elf) 0).
  - assert (Hnil : elf = []) by (destruct elf; [done|rewrite lenZ_cons in *; pose proof (lenZ_nonneg elf); lia]). rewrite Hnil, bind_Ret. eexists. reflexivity.
  - rewrite Z.sub_0_r, Z.add_0_l, Z.min_r, slice_Ret, !bind_Ret by lia. change (drop (Z.to_nat 0) elf) with elf. rewrite take_ge by (unfold lenZ; lia).
    rewrite Z.eqb_refl, bool_decide_true by done. eexists. reflexivity.
Qed.

(** The file part of the start-up test succeeds.  On the file system of a
    fresh kernel the demonstration makes the directory and the file, reads
    back the text, lists the file, deletes it and finds the directory empty;
    and then any program of up to 8192 bytes is read back from a file exactly
    as it was stored. *)
Theorem vfs_self_test_passes elf :
  lenZ elf <= 8192 ->
  exists g g', vfs_demonstration vfs_init =
      Ret (mk_vfs_log (Ok 1) (Ok 2) (Ok 11) (Ok (bytes_of "hello world")) [(bytes_of "file.txt", 0, File)] (Ok ()) [], g) /\
    elf_from_vfs (bytes_of "/bin/task_a") elf g = Ret (true, elf, g').
Proof.
  intros Hl. destruct (elf_from_vfs_eq elf Hl) as (g' & E). exists demo_vfs, g'. split; [apply vfs_demonstration_eq|exact E].
Qed.

Lemma vfs_self_test_passes_witness :
  exists elf g g', build_flat_elf TASK_A 0x400000 = Ret elf /\ elf_from_vfs (bytes_of "/bin/task_a") elf g = Ret (true, elf, g').
Proof.
  assert (E : exists elf, build_flat_elf TASK_A 0x400000 = Ret elf /\ (lenZ elf <=? 8192) = true) by (eexists; split; vm_compute; reflexivity).
  destruct E as (elf & E & Hl). destruct (vfs_self_test_passes elf (proj1 (Z.leb_le _ _) Hl)) as (g & g' & _ & E2).
  exists elf, g, g'. split; [exact E|exact E2].
Defined.

(** ** Which slots the programs get *)

Section slots.
Context {A : Type} `{FrameAllocator A}.
Implicit Types s : sys (A:=A).

(** The first slot that is not in use. *)
Lemma find_unused_least s a n j :
  sched_wf s -> 0 <= a -> a + n <= MAX_TASKS -> a <= j < a + n -> states s j = Some Unused -> (forall i, a <= i < j -> states s i <> Some Unused) ->
  find_unused (seqZ a n) s = Ret (Some j).
Proof.
  intros Hwf Ha Hn Hj Hu Hb. remember (Z.to_nat (j - a)) as k eqn:Hk. revert a n Ha Hn Hj Hb Hk.
  induction k as [|k IH]; intros a n Ha Hn Hj Hb Hk; rewrite seqZ_cons by lia; cbn [find_unused];
    destruct (get_task_Ret a s Hwf ltac:(lia)) as (t & -> & Ht); rewrite bind_Ret; unfold is_state.
  - replace a with j in * by lia. unfold states in Hu. rewrite Ht in Hu. injection Hu as Hu. by rewrite bool_decide_true.
  - rewrite bool_decide_false.
    + apply IH; [lia|lia|lia| |lia]. intros i Hi. apply Hb. lia.
    + intros E. apply (Hb a); [lia|]. unfold states. rewrite Ht. cbn. congruence.
Qed.

Lemma find_unused_tasks idxs s s' : TASKS s' = TASKS s -> find_unused idxs s' = find_unused idxs s.
Proof. intros E. induction idxs as [|i idxs IH]; [done|]. cbn [find_unused]. unfold get_task. by rewrite E, IH. Qed.

Lemma spawn_slot_least TASKS_ADDR base code s i s' :
  spawn_userspace_task TASKS_ADDR base code s = Ret (Ok i, s') -> find_unused slots s = Ret (Some i).
Proof.
  unfold spawn_userspace_task. intros E. apply bind_Ret_inv in E as (fr & _ & E). destruct (negb fr); [done|].
  apply bind_Ret_inv in E as (elf & _ & E). apply bind_Ret_inv in E as ([image|e] & _ & E); [|done]. destruct (segment_count image =? 0); [done|].
  apply bind_Ret_inv in E as (segs & _ & E). apply bind_Ret_inv in E as ([[root fs] m] & _ & E). apply bind_Ret_inv in E as (mem & _ & E).
  unfold spawn_userspace in E. apply bind_Ret_inv in E as ([j|] & E1 & E); [|done]. rewrite <- (find_unused_tasks slots s _ (eq_refl : TASKS (with_mach (with_mem mem m) s) = TASKS s)), E1.
  do 2 f_equal. apply bind_Ret_inv in E as (s1 & _ & E). destruct (build_userspace_frame _ _ _ _ _) as [sp s2].
  apply bind_Ret_inv in E as (s3 & _ & E). apply bind_Ret_inv in E as (s4 & _ & E). apply bind_Ret_inv in E as (t & _ & E).
  apply bind_Ret_inv in E as (d & _ & E). apply bind_Ret_inv in E as (s5 & _ & E). by injection E as -> _.
Qed.
End slots.

Section spawning.
Context {A : Type} `{FrameAllocator A}.
Variables (TASKS_ADDR : Z) (K : kernel_tables) (N : Z) (F0 : gset Z) (L : Z) (base : Z).
Hypotheses (Hap : frames_apart TASKS_ADDR K F0) (Hb : 0 <= base < two32) (HN : 1 <= N).
(** What a program of a page takes at most. *)
Abbreviation cost := (space_cost K + 2).
Implicit Types s : sys (A:=A).

(** The first [k] slots are in use. *)
Definition first_used (k : Z) (sps : gmap Z space) : Prop := forall i, 1 <= i < MAX_TASKS -> is_Some (sps !! i) <-> i <= k.

Lemma spawn_next k lost sps s code :
  system_ok K N F0 L lost sps s -> CURRENT_TASK s = 0 -> alive s -> first_used k sps -> 0 <= k < 255 ->
  lenZ code <= 4096 -> cost <= Z.of_nat (size (fa_free (frames (mach s)))) -> k_shared K ## fa_free (frames (mach s)) ->
  exists sps' s', spawn_userspace_task TASKS_ADDR base code s = Ret (Ok (k + 1), s') /\ system_ok K N F0 L lost sps' s' /\ CURRENT_TASK s' = 0 /\ alive s' /\
    first_used (k + 1) sps' /\ system_step TASKS_ADDR K N (Some 0) s s' /\ k_shared K ## fa_free (frames (mach s')) /\
    Z.of_nat (size (fa_free (frames (mach s)))) - cost <= Z.of_nat (size (fa_free (frames (mach s')))).
Proof.
  intros Hok Hc Ha Hfu Hk Hl Hsz Hsh. pose proof (lenZ_nonneg code) as Hn. assert (Hp : code_pages code <= 1) by (unfold code_pages; dlia).
  assert (Hst : 0x400000 + lenZ code <= STACK_VADDR) by (unfold STACK_VADDR, USER_BASE_VA; lia).
  destruct (spawn_ok TASKS_ADDR K N F0 L lost sps s base code Hap Hok Ha) as [[_ Hall]|(i & sp & s' & E & Hi & Hok' & Hc' & Ha' & _ & Hsh' & Hcnt)];
    [lia|lia|done|lia|lia|done| |].
  { assert (Hle : k + 1 <= k); [|lia]. apply Hfu; [|apply Hall]; unfold MAX_TASKS; lia. }
  assert (Ei : i = k + 1).
  { pose proof (spawn_slot_least _ _ _ _ _ _ E) as El. destruct (sy_sched _ _ _ _ _ _ _ Hok) as [Hwf _].
    unfold slots in El. rewrite (find_unused_least s 1 (MAX_TASKS - 1) (k + 1) Hwf) in El; [by injection El|lia|lia|unfold MAX_TASKS; lia| |].
    - apply (sy_free _ _ _ _ _ _ _ Hok); [unfold MAX_TASKS; lia|]. destruct (sps !! (k + 1)) eqn:Ek; [|done].
      assert (Hle : k + 1 <= k); [|lia]. apply Hfu; [unfold MAX_TASKS; lia|]. by rewrite Ek.
    - intros j Hj. apply (live_space _ _ _ _ _ _ _ _ Hok); [unfold MAX_TASKS; lia|]. apply Hfu; [unfold MAX_TASKS; lia|lia]. }
  subst i. exists (<[k + 1 := sp]> sps), s'. split; [done|]. split; [done|]. split; [congruence|]. split; [done|]. split; [|split; [|split; [done|lia]]].
  - intros i Hr. rewrite lookup_insert. case_decide; [split; [lia|eauto]|]. rewrite (Hfu i Hr). lia.
  - eapply (sys_spawn _ _ _ base code); try done; lia.
Qed.

Lemma spawn_tests_spec codes : forall k lost sps s,
  system_ok K N F0 L lost sps s -> CURRENT_TASK s = 0 -> alive s -> first_used k sps -> 0 <= k -> k + lenZ codes <= 255 ->
  Forall (fun code => lenZ code <= 4096) codes -> cost * lenZ codes <= Z.of_nat (size (fa_free (frames (mach s)))) -> k_shared K ## fa_free (frames (mach s)) ->
  exists sps' s', spawn_tests TASKS_ADDR base codes s = Ret (Ok <$> seqZ (k + 1) (lenZ codes), s') /\ system_ok K N F0 L lost sps' s' /\
    first_used (k + lenZ codes) sps' /\ steps TASKS_ADDR K N (fun _ => True) s s'.
Proof.
  induction codes as [|code codes IH]; intros k lost sps s Hok Hc Ha Hfu Hk Hn Hl Hsz Hsh; cbn [spawn_tests].
  { exists sps, s. rewrite lenZ_nil, Z.add_0_r. split; [done|]. split; [done|]. split; [done|constructor]. }
  rewrite lenZ_cons in *. pose proof (lenZ_nonneg codes). apply Forall_cons in Hl as [Hl1 Hl]. assert (0 <= cost) by (unfold space_cost; lia).
  destruct (spawn_next k lost sps s code Hok Hc Ha Hfu) as (sps1 & s1 & -> & Hok1 & Hc1 & Ha1 & Hfu1 & Hst & Hsh1 & Hcnt); [lia|done|nia|done|]. rewrite bind_Ret.
  destruct (IH (k + 1) lost sps1 s1 Hok1 Hc1 Ha1 Hfu1) as (sps' & s' & -> & Hok' & Hfu' & Hr); [lia|lia|done|nia|done|]. rewrite bind_Ret.
  exists sps', s'. rewrite (seqZ_cons (k + 1)) by lia. split.
  { cbn [fmap list_fmap]. do 4 f_equal. f_equal; lia. }
  split; [done|]. split; [intros i Hi; rewrite (Hfu' i Hi); lia|]. by eapply all_steps_cons.
Qed.
End spawning.

(** The programs of the start-up test get the slots it waits for.  On a fresh
    system the eight spawns succeed and take the slots 1 to 8 in order, so
    that the two tasks the test polls afterwards, 6 and 7, are those that
    yield to each other; no other task is in use. *)
Theorem self_test_slots {A} `{FrameAllocator A} TASKS_ADDR K base (s : sys (A:=A)) :
  system_start TASKS_ADDR K s -> CURRENT_TASK s = 0 -> alive s -> 0 <= base < two32 ->
  8 * (space_cost K + 2) <= Z.of_nat (size (fa_free (frames (mach s)))) ->
  exists s', spawn_tests TASKS_ADDR base test_list s = Ret (Ok <$> [1; 2; 3; 4; 5; 6; 7; 8], s') /\
    test_list !! 5%nat = Some YIELD_TEST_Y /\ test_list !! 6%nat = Some YIELD_TEST_Z /\
    (forall i, 1 <= i < MAX_TASKS -> states s' i <> Some Unused <-> i <= 8) /\ steps TASKS_ADDR K 31 (fun _ => True) s s'.
Proof.
  intros Hs Hc Ha Hb Hsz. change (Ok <$> [1; 2; 3; 4; 5; 6; 7; 8]) with ((Ok : Z -> result string Z) <$> seqZ (0 + 1) (lenZ test_list)).
  destruct (spawn_tests_spec TASKS_ADDR K 31 _ _ base (ss_apart _ _ _ Hs) Hb ltac:(lia) test_list 0 ∅ ∅ s (start_ok _ _ _ _ Hs) Hc Ha)
    as (sps' & s' & E & Hok' & Hfu & Hr); [|lia|by vm_compute| |change (lenZ test_list) with 8; lia| |].
  - intros i Hi. rewrite lookup_empty. split; [by intros [? ?]|lia].
  - repeat (apply Forall_cons; split; [by vm_compute|]). by apply Forall_nil.
  - destruct (ss_ready _ _ _ Hs) as (_ & _ & _ & HK). intros f Hf. by destruct (HK f (k_shared_frames _ _ Hf)).
  - exists s'. split; [exact E|]. split; [done|]. split; [done|]. split; [|exact Hr]. intros i Hi.
    rewrite <- (live_space _ _ _ _ _ _ _ _ Hok' Hi). by apply Hfu.
Qed.

Lemma self_test_slots_witness :
  exists s s' : sys (A:=frame_state), spawn_tests TASKS_AT 0x200000 test_list s = Ret (Ok <$> [1; 2; 3; 4; 5; 6; 7; 8], s') /\ states s' 7 <> Some Unused.
Proof.
  destruct sample_system as (K & s & Hs & Hc & Ha & _ & Hcost & Hsz).
  destruct (self_test_slots TASKS_AT K 0x200000 s Hs Hc Ha) as (s' & E & _ & _ & Hst & _).
  - split; [discriminate|reflexivity].
  - lia.
  - exists s, s'. split; [exact E|]. apply Hst; [split; [discriminate|reflexivity]|discriminate].
Defined.
