(* ===== verification/Devices.v ===== *)
(** * Small registries (src/src/device.rs, src/src/config.rs, src/src/capabilities.rs)

    The device table, the configuration that the loader leaves at a fixed
    address, and the capability bits. *)

From S2P Require Import Prelude Bytes Mem Paging Usercopy E820.

(** ** Devices *)

Inductive DeviceType : Type := Serial | Timer | Keyboard | Storage | Network | Gpu | Unknown.
#[global] Instance DeviceType_eq_dec : EqDecision DeviceType.
Proof. solve_decision. Defined.
Record Device : Type := mk_device { dev_name : list Z; dev_type : DeviceType; dev_id : Z }.
Definition MAX_DEVICES : Z := 32.
Record device_table : Type := mk_devices { DEVICES : list (option Device); DEVICE_COUNT : Z }.
Definition device_table_new : device_table := mk_devices (replicate (Z.to_nat MAX_DEVICES) None) 0.

Definition register_device (name : list Z) (ty : DeviceType) (t : device_table) : outcome (Z * device_table) :=
  let id := DEVICE_COUNT t in
  if MAX_DEVICES <=? id then Ret (two64 - 1, t)
  else
    ds ← assign (DEVICES t) id (Some (mk_device name ty id));
    Ret (id, mk_devices ds (id + 1)).
Fixpoint find_from (idxs : list Z) (name : list Z) (t : device_table) : outcome (option Z) :=
  match idxs with
  | [] => Ret None
  | i :: idxs' =>
      d ← index (DEVICES t) i;
      match d with
      | Some dev => if bool_decide (dev_name dev = name) then Ret (Some (dev_id dev)) else find_from idxs' name t
      | None => find_from idxs' name t
      end
  end.
Definition find_device (name : list Z) (t : device_table) : outcome (option Z) := find_from (seqZ 0 (DEVICE_COUNT t)) name t.

(** The table holds these devices in order of registration. *)
Record holds (t : device_table) (ds : list (list Z * DeviceType)) : Prop := {
  ho_size : lenZ (DEVICES t) = MAX_DEVICES /\ DEVICE_COUNT t = lenZ ds /\ lenZ ds <= MAX_DEVICES;
  ho_entry : forall i nt, lookupZ ds i = Some nt -> lookupZ (DEVICES t) i = Some (Some (mk_device nt.1 nt.2 i));
}.
(** The position of the first device with the name. *)
Fixpoint first_named (name : list Z) (ds : list (list Z * DeviceType)) (i : Z) : option Z :=
  match ds with
  | [] => None
  | (n, _) :: ds' => if bool_decide (n = name) then Some i else first_named name ds' (i + 1)
  end.

Lemma find_from_spec t ds name k n : holds t ds -> 0 <= k -> Z.of_nat n = lenZ ds - k ->
  find_from (seqZ k (Z.of_nat n)) name t = Ret (first_named name (drop (Z.to_nat k) ds) k).
Proof.
  intros [_ He]. revert k. induction n as [|n IH]; intros k Hk Hn.
  { rewrite drop_ge by (unfold lenZ in Hn; lia). done. }
  rewrite (seqZ_cons k) by lia. cbn [find_from]. destruct (lookupZ_lt ds k ltac:(lia)) as [[nm ty] Hl]. unfold index. rewrite (He _ _ Hl), bind_Ret.
  assert (Hd : ds !! Z.to_nat k = Some (nm, ty)) by (unfold lookupZ in Hl; destruct (Z.ltb_spec k 0); [lia|done]).
  rewrite (drop_S _ _ _ Hd). cbn [first_named dev_name dev_id fst snd]. case_bool_decide; [done|].
  replace (Z.pred (Z.of_nat (S n))) with (Z.of_nat n) by lia. rewrite IH by lia. replace (Z.succ k) with (k + 1) by lia. by replace (Z.to_nat (k + 1)) with (S (Z.to_nat k)) by lia.
Qed.

(** A registered device gets the next number and is found by its name, unless
    an earlier one has it; a full table refuses and stays as it is. *)
Theorem devices_registered t ds name ty : holds t ds ->
  find_device name t = Ret (first_named name ds 0) /\
  exists id t', register_device name ty t = Ret (id, t') /\
    if lenZ ds <? MAX_DEVICES then id = lenZ ds /\ holds t' (ds ++ [(name, ty)]) else id = two64 - 1 /\ t' = t.
Proof.
  intros Hh. pose proof Hh as [[Hl [Hc Hm]] He]. pose proof (lenZ_nonneg ds). split.
  - unfold find_device. rewrite Hc, <- (Z2Nat.id (lenZ ds)) by lia. apply (find_from_spec t ds); [done|lia|lia].
  - unfold register_device. rewrite Hc. destruct (Z.leb_spec MAX_DEVICES (lenZ ds)), (Z.ltb_spec (lenZ ds) MAX_DEVICES); try lia; [by eexists _, _|].
    unfold assign. destruct (lookupZ_lt (DEVICES t) (lenZ ds) ltac:(lia)) as [y ->]. rewrite bind_Ret. eexists _, _. split; [done|]. split; [done|]. split.
    + cbn [DEVICES DEVICE_COUNT]. rewrite lenZ_insertZ, lenZ_snoc. lia.
    + cbn [DEVICES]. intros i nt Hi. destruct (decide (i = lenZ ds)) as [->|Hn].
      * rewrite lookupZ_insertZ_eq by lia. unfold lookupZ in Hi. destruct (Z.ltb_spec (lenZ ds) 0); [lia|].
        replace (Z.to_nat (lenZ ds)) with (length ds) in Hi by (unfold lenZ; lia). rewrite lookup_app_r, Nat.sub_diag in Hi by lia. by injection Hi as <-.
      * rewrite lookupZ_insertZ_ne by done. apply He. pose proof (lookupZ_Some_lt _ _ _ Hi) as Hr. rewrite lenZ_snoc in Hr.
        unfold lookupZ in *. destruct (Z.ltb_spec i 0); [done|]. by rewrite lookup_app_l in Hi by (unfold lenZ in *; lia).
Qed.

(** ** The configuration *)

Definition CONFIG_MAGIC : Z := 0x5A4F4841.
Definition CONFIG_ADDR : Z := 0x90000.
Record config : Type := mk_config { DEBUG_ENABLED : bool; RUN_VERIFICATION : bool; CONFIG_LOADED : bool }.
Record KernelConfig : Type := mk_kconfig { cfg_magic : Z; cfg_debug : Z; cfg_task_count : Z; cfg_verify : Z }.
Definition read_config (m : memory) (cr3 : Z) : outcome KernelConfig :=
  a ← kle 4 m cr3 CONFIG_ADDR; b ← kle 4 m cr3 (CONFIG_ADDR + 4); c ← kle 4 m cr3 (CONFIG_ADDR + 8); d ← kle 4 m cr3 (CONFIG_ADDR + 12);
  Ret (mk_kconfig a b c d).
Definition config_init (m : memory) (cr3 : Z) (c : config) : outcome config :=
  raw ← read_config m cr3;
  let all_zero := (cfg_magic raw =? 0) && (cfg_debug raw =? 0) && (cfg_task_count raw =? 0) && (cfg_verify raw =? 0) in
  Ret (if negb all_zero && (cfg_magic raw =? CONFIG_MAGIC)
       then mk_config (negb (cfg_debug raw =? 0)) (negb (cfg_verify raw =? 0)) true
       else mk_config false false false).
Definition task_count (m : memory) (cr3 default : Z) (c : config) : outcome Z :=
  if CONFIG_LOADED c then raw ← read_config m cr3; Ret (cfg_task_count raw) else Ret default.

(** ** Capabilities *)

Definition ALL_CAPS : Z := 0x7F.
Definition has_cap (caps cap : Z) : bool := negb (Z.land caps cap =? 0).
Definition caps_to_str (caps : Z) : string := if caps =? ALL_CAPS then "ALL" else if caps =? 0 then "none" else "partial".
